(* ===== verification/_CoqProject ===== *)
-Q . S2P
Prelude.v
ByteOrder.v
Crc32.v
DesData.v
Des.v
Regexp.v
RegexpSpec.v
RegexpMatch.v
RegexpCompile.v
RegexpPattern.v
DList.v
Flock.v
In6.v
SysMacros.v
Bitmap.v
BitSets.v
Ctype.v
IpClassifier.v
ConnRef.v
Ufs.v
PcFs.v
Hsfs.v
Time.v
CTypes.v
BitFields.v
Segments.v
AbiTypes.v
Abi32Crypto.v
Abi32Fs.v
Abi32Dev.v
Abi32Proc.v
AbiNet.v
AbiStream.v
AbiDisk.v
AbiDevice.v
AbiObject.v
Abi.v
DataModel.v
Convert.v
CacheFs.v
I2oData.v
I2o.v
DTrace.v
NcaLock.v
Kcf.v
AtomicRef.v
Avl.v
Ioctl.v
IfQueue.v
Monitor.v
PtLock.v
CfgLock.v
SctpRun.v
LockedRef.v
BufCache.v
CallTable.v
Kmem.v
HashChain.v
NfsIndex.v
SerialRing.v
Mdi.v
NcaNode.v
Xdr.v
