(* ===== verification/Prelude.v ===== *)
(** * A verification of the code in the System V / OpenSolaris headers

    The repository is a set of C headers for a System V/386 cross compiler
    ([src/include]).  It has no C files: the program is what the headers
    themselves execute, function bodies in a few of them and function-like
    macros, with the structures and tables these work on.  This library models
    the headers that carry logic of their own and proves what makes them
    correct.  Each file translates one header, or a part of one, definition by
    definition under the C names; its theorems follow.

    ** The parts

    - [Prelude] (this file): integers of a given width, C operators, octets,
      arrays with [None] for an access outside, the hint database [zbits] and
      the tactics.  [endian] and [data_model] stand for the conditional
      compilation on [_BIG_ENDIAN] and [_LP64].
    - [ByteOrder]: [sys/byteorder.h] and the loads and stores of the Kerberos
      [k5-platform.h].
    - [Crc32]: [sys/crc32.h].
    - [DesData], [Des]: the tables of [des/desdata.h] row by row, the union of
      [des/softdes.h], and both against the standard (module [Des.Fips]).
    - [Regexp]: the functions of [regexp.h], [compile], [step], [advance] and
      [getrnge].  [RegexpSpec] is the specification: items, their encoding and
      what they match.  [RegexpMatch] shows that [advance] and [step] implement
      it, [RegexpCompile] that [compile] terminates and stays in its memory,
      [RegexpPattern] that it translates the text of a pattern into the
      encoding of its items, and so what the two together do.  The character
      source the including program supplies is the class [CharSource], what it
      promises is [SourceLaws], and [cursor] is an instance.
    - [DList]: circular lists in a heap (class [DList], laws [DListLaws] and
      [DListCells]), single rings and tables of disjoint rings.
    - [Flock]: the record lock data of [sys/flock_impl.h] in a heap of
      addresses, with its lists as instances of [DList], the conflict tests, the
      states of a request and the wakeups.
    - [In6]: the addresses of [netinet/in.h].
    - [IpClassifier]: connections and matching of [inet/ipclassifier.h], on the
      addresses of [In6]; [ConnRef]: its reference count, run by threads.
    - [SysMacros]: [sys/sysmacros.h]; [Bitmap]: [sys/bitmap.h]; [Ctype]:
      [sys/ctype.h]; [Time]: [sys/time.h].
    - [BitSets]: the families of macros that keep a set in the bits of words,
      over [Bitmap]: processors ([sys/cpuvar.h]), privileges
      ([sys/priv_impl.h]), signals ([sys/signal.h]), flags of /proc
      ([sys/procfs.h]) and descriptors ([sys/select.h]).  A family is an instance
      of [SetMacros], its contract is [SetLaws]; the functions of one word that
      the kernel supplies are [WordOps], with [WordOpsLaws].
    - [Ufs]: the layout of a UFS file system, [sys/fs/ufs_fs.h]; [PcFs]: clusters
      and blocks of a FAT file system, [sys/fs/pc_fs.h].
    - [Hsfs]: CD-ROM volumes, [sys/fs/hsfs_spec.h] and [hsfs_isospec.h].
    - [CTypes]: C types and their layout, a model of the language and not of a
      header: [sizeof], the places of scalars, loads and stores, with a record
      [machine] for the data model and the alignment of 64-bit numbers, which
      [sys/isa_defs.h] defines and the tree does not have.  [BitFields]: how
      compilers of either byte order allocate bit-fields.
    - [Segments]: descriptors and selectors of x86, [sys/segments.h].
    - [AbiTypes], [Abi32Crypto], [Abi32Fs], [Abi32Dev], [Abi32Proc]: the structures
      that programs pass to the kernel, with the declarations the 64-bit kernel
      has for 32-bit programs ([_SYSCALL32]), from the headers of the
      cryptographic framework, file systems and networking, devices, and
      processes.  [AbiNet], [AbiStream], [AbiDisk], [AbiDevice], [AbiObject]:
      message, packet, disk and object formats.  [Abi] has the theorems on all of
      them.  Members that depend on the architecture are those of x86.
    - [DataModel]: the handles of [sys/model.h], through which the kernel works
      on the structure of a program of either data model; [Convert]: the macros of
      [sys/vtoc.h], [sys/cdio.h] and [sys/time_impl.h] that convert one form of a
      structure into the other, as programs of assignments on the octets of both;
      [CacheFs]: those of [sys/fs/cachefs_fs.h], which report errors.  All three
      are on the declarations above.
    - [Kmem]: sizes, addresses and control structures of the kernel memory
      allocator, [sys/kmem_impl.h] and [sys/vmem_impl.h].
    - [Kcf]: the operation vectors of cryptographic providers, [sys/crypto/spi.h],
      and the macros of [sys/crypto/impl.h] that call them; the state of the kernel
      and the pointers are the class [CryptoTypes].
    - [I2oData], [I2o]: the I2O messages of [sys/i2o], which have a declaration
      and accessor macros for each byte order.
    - [DTrace]: instructions, actions and shared structures of [sys/dtrace.h].
    - [NcaLock]: the reader-writer lock of [nca/nca.h], run by threads.
    - [AtomicRef]: fourteen pairs of reference-count macros of kernel headers
      (class [RefMacros], laws [RefLaws]), run by threads.
    - [Avl]: the tree nodes of [sys/avl_impl.h] (class [AvlNode], laws [AvlLaws],
      an instance for each data model).
    - [Ioctl]: the codes of [sys/ioccom.h] and [sys/sockio.h].
    - [IfQueue]: the interface queues of [net/if.h].
    - [Monitor]: macros that run under a mutex with a condition variable, as
      statements of a small language, and their execution by threads statement by
      statement.  A set of macros states its invariant on whole sections
      ([MonitorLaws]); safety, progress and a bound on the steps follow.
      Instances: [PtLock], the pseudo terminal lock of [sys/ptms.h]; [CfgLock], the
      configuration lock of [ipp/ipp_impl.h]; [SctpRun], the running flag of
      [inet/sctp/sctp_impl.h]; [LockedRef], counts of references under a lock in
      [inet/ip_ndp.h], [inet/ip.h], [sys/session.h] and
      [sys/rsm/rsmka_path_int.h] (class [CountedLaws]); callers of the macros that
      only assert a mutex hold it.
    - [BufCache]: the hash and free lists of the buffer cache, [sys/buf.h];
      [CallTable]: the table of outstanding calls of [rpc/clnt.h], and that the
      structures of both can be used as each other; both on tables of rings.
    - [HashChain]: the hash chains of [inet/ipsec_impl.h], whose back pointers are
      addresses of pointers; [NfsIndex]: the indices of [nfs/nfs4_db_impl.h], seen
      through them.
    - [SerialRing]: the receive ring of [sys/asy.h] and the silo of
      [sys/pcmcia/pcser_var.h].
    - [Mdi]: path states and flag words of multipathing, [sys/mdi_impldefs.h] and
      [sys/sunmdi.h] (class [Flags]).
    - [NcaNode]: the references of nodes and connections of [nca/nca.h].
    - [Xdr]: the inline macros of [rpc/xdr.h], [arpa/nameser.h] and
      [gssapiP_generic.h] as streams of items (laws [StreamLaws]).  Those of XDR are
      for the little-endian machines of the tree, with [htonl] and [ntohl] as
      [ia32/ml/i86_subr.s] has them.

    ** What the theorems show

    - Refinement and meaning: compiling and stepping a regular expression finds
      the leftmost match of the declarative relation [RegexpSpec.Matches], and
      fails only if there is none.  Interface queues, the buffer cache, the call
      table, IPsec hash chains, NFS indices and the rings of the serial drivers
      refine lists, for every sequence of their macros; the two layouts of a tree
      node refine one record; the words of multipathing refine states and sets of
      flags; processor, privilege, signal, flag and descriptor sets refine finite
      sets.  A call of a cryptographic provider uses the one entry point it is
      named after.
    - Layout: the 32-bit views of the kernel have the size, names, places, widths
      and signs of the structures of 32-bit programs, but for the seventeen that
      [modelled32] lists with what is left for them; the formats of [formats] have
      one layout on every machine, with the members in use clear of each other;
      through a handle the members of a program's structure are read, converted to
      the common type of their declarations, and set as the program sees them, and
      structures converted for the kernel come back unchanged; ioctl codes are the
      same in both data models and distinct; the two byte orders of the I2O
      messages agree, and their accessors do what they are for but the eight of
      [defective]; DTrace pointers cross with their padding.
    - Equivalence with a reference: the DES tables compute the cipher function
      of the standard, the table-driven CRC is the bit-serial one, the shifts
      and masks of UFS and of the power-of-two macros are the divisions their
      comments give, both byte-order variants of the address macros are one
      test on octets.
    - Invariants: rings of edges and queues stay rings when an element is taken
      out, inodes have places of their own inside their cylinder group and FAT
      clusters sectors of their own, bitmaps are sets, the statistics of a provider
      count its calls.
    - Errors and safety: a program can never mask SIGKILL or SIGSTOP; the
      conversion of a cached file's attributes reports exactly the values without a
      32-bit form, whatever the kernel's conversion of devices does.
    - State machines and concurrency: every lock request dies within five
      transitions; however threads interleave, a connection is destroyed once,
      by the last reference, and not used afterwards, and every run ends; so for
      the objects counted by atomic operations or under a lock; a writer of the
      NCA lock and of the pseudo terminal lock is alone inside, one thread at a
      time has the configuration lock or runs an SCTP association, and none of
      these locks deadlocks or loses a wakeup.  The calls on an NCA node that
      panic are determined exactly.
    - Termination and memory: [compile] and [advance] return within the fuel
      below and never leave an array, but for the octet at [endbuf].
    - Round trips and bounds: XDR, name service and token streams, DTrace
      instructions, segment bases and limits, selectors, encoded sizes, mechanism
      numbers, octet strings, device numbers, IPv4 in IPv6, ticks and time values, dates and numbers of a volume; hash values are indices;
      the 32-bit time guards are exact.
    - Some theorems state defects of the headers: [compile_overruns_by_one],
      [back_star_empty_diverges], [group_interval_ignored],
      [iso_dates_misplaced], [bitx_inclusive], [dev_compress], [views_broken],
      [i2o_defects], [sockio_truncated], [twrite_int16_loses],
      [swap_wrong_on_big], [ntohl_text_reads_four], [compile_signed_range],
      [validcl_misses_last], [itimerspec_overflow_misses]; [struct_handles] names
      the structures for which a handle's buffer is too small; [cfg_upgrade_deadlocks] and [ring_overruns] show what
      happens to callers that break the rules.

    ** Integers, memory, fuel

    A C integer is a [Z]; casts and unsigned arithmetic wrap explicitly
    ([wrapu], [wraps]).  Signed overflow is undefined in C: signed arithmetic is
    exact, and theorems bound the operands where it matters, or wraps at the width
    of its type, as the compilers of these machines do (FAT blocks, segments,
    Kerberos tokens).  [char] is signed.
    A pointer is an index of an array or an address of a heap.

    Fuel: [advance] takes one unit per item of the expression and [step] the
    same; [compile] takes the length of the text, the room in the buffer and
    three; both amounts are proved sufficient.  The loop over the sleeping queue takes one unit per
    element, [call_table_find] and [HASH_ITERATE] one more than the longest chain.
    [ConnRef.work], [AtomicRef.work] and [Monitor.work] bound the steps of all
    threads; readers and writers of the NCA lock may wait for each other again and again,
    and the theorem there is that one of them can always go on.  Threads
    interleave at atomic operations in one order of memory; [membar_exit] is a
    step without effect.  All other recursion is structural.

    ** What is not modelled, and why

    Functions the headers only declare (the lock manager, the IP module, the
    kernel's atomic operations, the tree algorithms) have no code in the tree;
    where a macro calls one it is a parameter or a step of its own, with what is
    documented of it.  Headers of constants and prototypes have nothing to prove,
    and structures internal to a kernel module, which no other program sees, have
    no contract to check.  The tracing macros of the TNF
    headers declare data for an assembler; the dispatch macros of RPC and of
    vnodes, the parameter blocks of cryptographic requests
    ([sys/crypto/ops_impl.h]) and the system use fields of CD-ROM directories
    ([sys/fs/hsfs_susp.h]) have code of their own and are what could be added
    next. *)
From Stdlib Require Export ZArith Lia Bool Btauto.
From stdpp Require Export base list numbers option.

#[global] Open Scope Z_scope.

(** ** C operators on integers, in a scope of their own *)
Declare Scope c_scope.
Delimit Scope c_scope with C.
Notation "a .& b" := (Z.land a b) (at level 36, left associativity) : c_scope.
Notation "a .^ b" := (Z.lxor a b) (at level 37, left associativity) : c_scope.
Notation "a .| b" := (Z.lor a b) (at level 38, left associativity) : c_scope.
Notation "a <<< n" := (Z.shiftl a n) (at level 33, left associativity) : c_scope.
Notation "a >>> n" := (Z.shiftr a n) (at level 33, left associativity) : c_scope.
Notation ".~ a" := (Z.lnot a) (at level 30, right associativity) : c_scope.
#[global] Open Scope c_scope.

(** Conversion to an unsigned type of [w] bits. *)
Definition wrapu (w x : Z) : Z := x mod 2 ^ w.
(** Conversion to a signed (two's complement) type of [w] bits. *)
Definition wraps (w x : Z) : Z := (x + 2 ^ (w - 1)) mod 2 ^ w - 2 ^ (w - 1).

Abbreviation u8 := (wrapu 8).
Abbreviation u16 := (wrapu 16).
Abbreviation u32 := (wrapu 32).
Abbreviation u64 := (wrapu 64).
Abbreviation s8 := (wraps 8).
Abbreviation s16 := (wraps 16).
Abbreviation s32 := (wraps 32).
Abbreviation s64 := (wraps 64).

(** The values of an unsigned type of [w] bits. *)
Definition in_u (w x : Z) : Prop := 0 <= x < 2 ^ w.

(** The byte order of the machine the headers are compiled for
    ([_BIG_ENDIAN] / [_LITTLE_ENDIAN]). *)
Inductive endian := BigEndian | LittleEndian.

(** The C data model ([_LP64] defined or not). *)
Inductive data_model := ILP32 | LP64.

#[export] Instance endian_eq_dec : EqDecision endian.
Proof. solve_decision. Defined.
#[export] Instance data_model_eq_dec : EqDecision data_model.
Proof. solve_decision. Defined.

(** ** Truth values of C *)
Definition b2z (b : bool) : Z := if b then 1 else 0.
Definition truth (x : Z) : bool := negb (x =? 0).

(** ** Bits of integers *)
Lemma testbit_neg a i : i < 0 -> Z.testbit a i = false.
Proof. destruct i; try lia. by destruct a. Qed.

Lemma shiftl_testbit a n i :
  Z.testbit (a <<< n) i = (0 <=? i) && Z.testbit a (i - n).
Proof.
  destruct (Z.leb_spec 0 i); simpl.
  - by apply Z.shiftl_spec.
  - by apply testbit_neg.
Qed.

Lemma shiftr_testbit a n i :
  Z.testbit (a >>> n) i = (0 <=? i) && Z.testbit a (i + n).
Proof.
  destruct (Z.leb_spec 0 i); simpl.
  - by apply Z.shiftr_spec.
  - by apply testbit_neg.
Qed.

Lemma lnot_testbit a i :
  Z.testbit (.~ a) i = (0 <=? i) && negb (Z.testbit a i).
Proof.
  destruct (Z.leb_spec 0 i); simpl.
  - by apply Z.lnot_spec.
  - by apply testbit_neg.
Qed.

Lemma ones_testbit n i :
  0 <= n -> Z.testbit (Z.ones n) i = (0 <=? i) && (i <? n).
Proof. intros. by rewrite Z.testbit_ones. Qed.

Lemma wrapu_testbit w x i :
  0 <= w -> Z.testbit (wrapu w x) i = (i <? w) && Z.testbit x i.
Proof.
  intros Hw. unfold wrapu. destruct (Z.ltb_spec i w); simpl.
  - by rewrite Z.mod_pow2_bits_low.
  - by rewrite Z.mod_pow2_bits_high by lia.
Qed.

Lemma pow2_testbit n i : 0 <= n -> Z.testbit (2 ^ n) i = (i =? n).
Proof.
  intros. destruct (Z.eqb_spec i n) as [->|].
  - by apply Z.pow2_bits_true.
  - by apply Z.pow2_bits_false.
Qed.

Lemma in_u_testbit w x i : in_u w x -> w <= i -> Z.testbit x i = false.
Proof.
  unfold in_u. intros Hx Hi.
  destruct (Z.ltb_spec w 0); [rewrite Z.pow_neg_r in Hx by lia; lia|].
  rewrite <- (Z.mod_small x (2 ^ w)) by lia.
  apply Z.mod_pow2_bits_high. lia.
Qed.

Lemma in_u_iff_bits w x :
  0 <= w -> 0 <= x -> in_u w x <-> (forall i, w <= i -> Z.testbit x i = false).
Proof.
  intros Hw Hx. split; [intros; by eapply in_u_testbit|].
  intros Hb. unfold in_u. split; [done|]. apply Z.nle_gt. intros Hle.
  assert (0 < x) by (pose proof (Z.pow_pos_nonneg 2 w); lia).
  assert (w <= Z.log2 x) by (by apply Z.log2_le_pow2).
  pose proof (Z.bit_log2 x) as Hl. rewrite Hb in Hl; [|done]. by specialize (Hl ltac:(lia)).
Qed.

Create Rewrite HintDb zbits.
#[export] Hint Rewrite Z.land_spec Z.lor_spec Z.lxor_spec lnot_testbit
  shiftl_testbit shiftr_testbit Z.testbit_0_l : zbits.
#[export] Hint Rewrite ones_testbit wrapu_testbit pow2_testbit using lia : zbits.

(** [zcases] splits on the comparisons of the goal, [zbits] proves an
    equation between integers bit by bit. *)
Ltac zcases :=
  repeat (first
    [ match goal with |- context [?a <=? ?b] => destruct (Z.leb_spec a b) end
    | match goal with |- context [?a <? ?b] => destruct (Z.ltb_spec a b) end
    | match goal with |- context [?a =? ?b] => destruct (Z.eqb_spec a b) end ];
    try (exfalso; lia); cbn [andb orb negb xorb];
    repeat rewrite testbit_neg by lia).

Ltac znorm_index :=
  repeat match goal with
    | |- context [Z.testbit ?x ?e] =>
        match e with
        | ?a + ?b => progress ring_simplify e
        | ?a - ?b => progress ring_simplify e
        end
    end.

Ltac zmasks :=
  change 0xffffffffffffffff with (Z.ones 64);
  change 0xffffffff with (Z.ones 32);
  change 0x3ffff with (Z.ones 18);
  change 0xffff with (Z.ones 16);
  change 0x3fff with (Z.ones 14);
  change 0xff with (Z.ones 8);
  change 0x7f with (Z.ones 7).

Ltac zbits_core :=
  zmasks; autorewrite with zbits; zcases; znorm_index;
  autorewrite with zbits; zcases;
  rewrite ?andb_false_r, ?andb_true_r, ?orb_false_r, ?orb_false_l, ?xorb_false_r;
  try first [ reflexivity | btauto ].

Ltac zbits :=
  apply Z.bits_inj'; let i := fresh "i" in let Hi := fresh "Hi" in
  intros i Hi; zbits_core.

(** ** Arithmetic of machine integers *)
Lemma pow2_pos n : 0 <= n -> 0 < 2 ^ n.
Proof. intros. apply Z.pow_pos_nonneg; lia. Qed.

Lemma wrapu_range w x : 0 <= w -> in_u w (wrapu w x).
Proof. intros. apply Z.mod_pos_bound, pow2_pos. done. Qed.

Lemma wrapu_id w x : in_u w x -> wrapu w x = x.
Proof. intros. by apply Z.mod_small. Qed.

Lemma wrapu_mod w x y :
  0 <= w -> x mod 2 ^ w = y mod 2 ^ w -> wrapu w x = wrapu w y.
Proof. done. Qed.

Lemma wrapu_add_mul w x k : 0 <= w -> wrapu w (x + k * 2 ^ w) = wrapu w x.
Proof. intros. apply Z_mod_plus_full. Qed.

Lemma wraps_range w x : 0 < w -> - 2 ^ (w - 1) <= wraps w x < 2 ^ (w - 1).
Proof.
  intros. unfold wraps.
  pose proof (Z.mod_pos_bound (x + 2 ^ (w - 1)) (2 ^ w) (pow2_pos w ltac:(lia))).
  assert (2 ^ w = 2 * 2 ^ (w - 1)) by (rewrite <- Z.pow_succ_r by lia; f_equal; lia).
  lia.
Qed.

Lemma wraps_id w x : 0 < w -> - 2 ^ (w - 1) <= x < 2 ^ (w - 1) -> wraps w x = x.
Proof.
  intros Hw Hx. unfold wraps.
  assert (2 ^ w = 2 * 2 ^ (w - 1)) by (rewrite <- Z.pow_succ_r by lia; f_equal; lia).
  rewrite Z.mod_small by lia. lia.
Qed.

Lemma wrapu_wraps w x : 0 < w -> wrapu w (wraps w x) = wrapu w x.
Proof.
  intros. unfold wrapu, wraps. rewrite Zminus_mod_idemp_l. f_equal. lia.
Qed.

Lemma wraps_wrapu w x : 0 < w -> wraps w (wrapu w x) = wraps w x.
Proof. intros. unfold wraps, wrapu. by rewrite Zplus_mod_idemp_l. Qed.

Lemma lor_disjoint_add a b : a .& b = 0 -> a .| b = a + b.
Proof.
  intros H. rewrite <- Z.lxor_lor by done. symmetry. by apply Z.add_nocarry_lxor.
Qed.

Lemma lor_shift_add n a b :
  0 <= n -> in_u n a -> a .| (b <<< n) = a + b * 2 ^ n.
Proof.
  intros Hn Ha. rewrite lor_disjoint_add; [by rewrite Z.shiftl_mul_pow2|].
  apply Z.bits_inj'. intros i Hi. autorewrite with zbits. zcases.
  destruct (Z.ltb_spec i n).
  - rewrite (testbit_neg b) by lia. apply andb_false_r.
  - by rewrite (in_u_testbit n) by done.
Qed.

Lemma land_ones_mod x n : 0 <= n -> x .& Z.ones n = x mod 2 ^ n.
Proof. apply Z.land_ones. Qed.

Lemma in_u_lor w a b : 0 <= w -> in_u w a -> in_u w b -> in_u w (a .| b).
Proof.
  intros Hw Ha Hb. unfold in_u in *.
  apply in_u_iff_bits; [done|by apply Z.lor_nonneg; lia|].
  intros i Hi. rewrite Z.lor_spec, !(in_u_testbit w) by done. done.
Qed.

Lemma in_u_lxor w a b : 0 <= w -> in_u w a -> in_u w b -> in_u w (a .^ b).
Proof.
  intros Hw Ha Hb. unfold in_u in *.
  apply in_u_iff_bits; [done|by apply Z.lxor_nonneg; lia|].
  intros i Hi. rewrite Z.lxor_spec, !(in_u_testbit w) by done. done.
Qed.

Lemma in_u_land_l w a b : 0 <= w -> in_u w a -> in_u w (a .& b).
Proof.
  intros Hw Ha. apply in_u_iff_bits; [done|apply Z.land_nonneg; unfold in_u in *; lia|].
  intros i Hi. rewrite Z.land_spec, (in_u_testbit w) by done. done.
Qed.

Lemma in_u_mono w w' a : 0 <= w <= w' -> in_u w a -> in_u w' a.
Proof.
  intros ? [? ?]. split; [done|].
  pose proof (Z.pow_le_mono_r 2 w w' ltac:(lia) ltac:(lia)). lia.
Qed.

Lemma in_u_shiftr w n a : 0 <= n <= w -> in_u w a -> in_u (w - n) (a >>> n).
Proof.
  intros Hn [Ha Hb]. rewrite Z.shiftr_div_pow2 by lia. unfold in_u.
  pose proof (pow2_pos n ltac:(lia)).
  split; [apply Z.div_pos; lia|].
  apply Z.div_lt_upper_bound; [lia|]. rewrite <- Z.pow_add_r by lia.
  by replace (n + (w - n)) with w by lia.
Qed.

(** Testing one bit of a word. *)
Lemma truth_land_pow2 x k : 0 <= k -> truth (x .& 2 ^ k) = Z.testbit x k.
Proof.
  intros Hk. unfold truth. destruct (Z.testbit x k) eqn:E.
  - apply negb_true_iff, Z.eqb_neq. intros H.
    apply (f_equal (fun z => Z.testbit z k)) in H.
    by rewrite Z.land_spec, E, Z.pow2_bits_true, Z.testbit_0_l in H by done.
  - apply negb_false_iff, Z.eqb_eq, Z.bits_inj'. intros i Hi.
    rewrite Z.land_spec, pow2_testbit, Z.testbit_0_l by done.
    destruct (Z.eqb_spec i k) as [->|]; [by rewrite E|apply andb_false_r].
Qed.

(** ** Integers as lists of bytes, least significant first *)
Definition is_byte (b : Z) : Prop := 0 <= b < 256.

Fixpoint le_bytes (n : nat) (x : Z) : list Z :=
  match n with
  | O => []
  | S n => x mod 256 :: le_bytes n (x / 256)
  end.

Fixpoint of_le (l : list Z) : Z :=
  match l with
  | [] => 0
  | b :: l => b + 256 * of_le l
  end.

Lemma le_bytes_length n x : length (le_bytes n x) = n.
Proof. revert x. induction n; intros; simpl; [done|]. by rewrite IHn. Qed.

Lemma le_bytes_bytes n x : Forall is_byte (le_bytes n x).
Proof.
  revert x. induction n; intros; simpl; constructor; [|done].
  apply Z.mod_pos_bound. lia.
Qed.

Lemma of_le_le_bytes n x : of_le (le_bytes n x) = x mod 2 ^ (8 * Z.of_nat n).
Proof.
  revert x. induction n; intros x; simpl of_le; [by rewrite Z.mod_1_r|].
  rewrite IHn. replace (8 * Z.of_nat (S n)) with (8 + 8 * Z.of_nat n) by lia.
  rewrite Z.pow_add_r, Z.rem_mul_r by (try apply pow2_pos; lia). done.
Qed.

Lemma of_le_bound l : Forall is_byte l -> 0 <= of_le l < 2 ^ (8 * Z.of_nat (length l)).
Proof.
  induction 1 as [|b l Hb _ IH]; simpl length; [simpl; lia|].
  replace (8 * Z.of_nat (S (length l))) with (8 + 8 * Z.of_nat (length l)) by lia.
  rewrite Z.pow_add_r by lia. unfold is_byte in Hb. simpl of_le. lia.
Qed.

Lemma le_bytes_of_le l : Forall is_byte l -> le_bytes (length l) (of_le l) = l.
Proof.
  induction 1 as [|b l Hb _ IH]; simpl; [done|]. unfold is_byte in Hb.
  rewrite (Z.mul_comm 256), Z_mod_plus_full, Z.mod_small by lia.
  rewrite Z_div_plus_full, Z.div_small, Z.add_0_l by lia. by rewrite IH.
Qed.

Lemma of_le_app l k : of_le (l ++ k) = of_le l + 2 ^ (8 * Z.of_nat (length l)) * of_le k.
Proof.
  induction l as [|b l IH]; simpl length; [simpl; lia|].
  replace (8 * Z.of_nat (S (length l))) with (8 + 8 * Z.of_nat (length l)) by lia.
  rewrite Z.pow_add_r by lia. simpl. rewrite IH. lia.
Qed.

Lemma le_bytes_app n m x :
  le_bytes (n + m) x = le_bytes n x ++ le_bytes m (x / 2 ^ (8 * Z.of_nat n)).
Proof.
  revert x. induction n as [|n IH]; intros x; [simpl; by rewrite Z.div_1_r|].
  replace (8 * Z.of_nat (S n)) with (8 + 8 * Z.of_nat n) by lia.
  rewrite Z.pow_add_r, <- Z.div_div by (try apply pow2_pos; lia).
  simpl. by rewrite IH.
Qed.

Lemma le_bytes_inj n x y :
  le_bytes n x = le_bytes n y -> x mod 2 ^ (8 * Z.of_nat n) = y mod 2 ^ (8 * Z.of_nat n).
Proof. intros H. by rewrite <- !of_le_le_bytes, H. Qed.

Lemma le_bytes_mod n x : le_bytes n (x mod 2 ^ (8 * Z.of_nat n)) = le_bytes n x.
Proof.
  rewrite <- of_le_le_bytes. rewrite <- (le_bytes_length n x) at 1.
  apply le_bytes_of_le, le_bytes_bytes.
Qed.

(** The octets of the lists in the context, and of a list of known octets. *)
Ltac octets :=
  repeat match goal with H : Forall is_byte (_ :: _) |- _ => apply Forall_cons_1 in H; destruct H as [? H] end.
Ltac all_bytes :=
  repeat (apply Forall_cons_2 || apply Forall_nil_2); first [assumption | unfold is_byte; lia].

(** ** Byte arrays
    An array is a list of bytes; reading or writing outside of it is
    undefined in C and is [None] here. *)
Definition rd (mem : list Z) (p : nat) : option Z := mem !! p.

Definition wr (mem : list Z) (p : nat) (v : Z) : option (list Z) :=
  if (p <? length mem)%nat then Some (<[p := v]> mem) else None.

(** Consecutive writes [p[0] = b0, p[1] = b1, ...] *)
Fixpoint wrs (mem : list Z) (p : nat) (bs : list Z) : option (list Z) :=
  match bs with
  | [] => Some mem
  | b :: bs => m ← wr mem p b; wrs m (S p) bs
  end.

Fixpoint rds (mem : list Z) (p n : nat) : option (list Z) :=
  match n with
  | O => Some []
  | S n => b ← rd mem p; bs ← rds mem (S p) n; Some (b :: bs)
  end.

Lemma wr_Some mem p v m :
  wr mem p v = Some m <-> (p < length mem)%nat /\ m = <[p := v]> mem.
Proof.
  unfold wr. destruct (Nat.ltb_spec p (length mem)).
  - split; [intros [= <-]; done|intros [_ ->]; done].
  - split; [done|]. intros [? _]. lia.
Qed.

Lemma wr_in mem p v : (p < length mem)%nat -> wr mem p v = Some (<[p := v]> mem).
Proof. intros. by apply wr_Some. Qed.

Lemma wrs_in mem p bs :
  (p + length bs <= length mem)%nat ->
  wrs mem p bs = Some (take p mem ++ bs ++ drop (p + length bs) mem).
Proof.
  revert mem p. induction bs as [|b bs IH]; intros mem p Hp; simpl in *.
  - by rewrite Nat.add_0_r, take_drop.
  - rewrite wr_in by lia. simpl. rewrite IH by (rewrite length_insert; lia). f_equal.
    rewrite (take_S_r _ _ b) by (apply list_lookup_insert_eq; lia).
    rewrite take_insert_ge, drop_insert_lt by lia.
    replace (S p + length bs)%nat with (p + S (length bs))%nat by lia.
    by rewrite <- app_assoc.
Qed.

(** The same bytes written from the last one down. *)
Fixpoint wrs_down (mem : list Z) (p : nat) (bs : list Z) : option (list Z) :=
  match bs with
  | [] => Some mem
  | b :: bs => m ← wrs_down mem (S p) bs; wr m p b
  end.

Lemma wrs_down_in mem p bs :
  (p + length bs <= length mem)%nat ->
  wrs_down mem p bs = Some (take p mem ++ bs ++ drop (p + length bs) mem).
Proof.
  revert mem p. induction bs as [|b bs IH]; intros mem p Hp; simpl in *.
  - by rewrite Nat.add_0_r, take_drop.
  - rewrite IH by lia. simpl.
    assert (is_Some (mem !! p)) as [x Hx] by (apply lookup_lt_is_Some; lia).
    rewrite (take_S_r _ _ x Hx), <- !app_assoc.
    rewrite wr_in by (rewrite !length_app, length_take; simpl; lia).
    rewrite insert_app_r_alt by (rewrite length_take; lia).
    rewrite length_take, Nat.min_l, Nat.sub_diag by lia. simpl.
    by rewrite Nat.add_succ_r.
Qed.

Lemma rds_app mem pre bs post :
  mem = pre ++ bs ++ post -> rds mem (length pre) (length bs) = Some bs.
Proof.
  revert pre mem. induction bs as [|b bs IH]; intros pre mem ->; [done|]. simpl.
  unfold rd. rewrite lookup_app_r, Nat.sub_diag by lia. simpl.
  replace (S (length pre)) with (length (pre ++ [b])) by (rewrite length_app; simpl; lia).
  rewrite (IH (pre ++ [b])); [done|]. by rewrite <- app_assoc.
Qed.

Lemma rds_wrs mem p bs m :
  wrs mem p bs = Some m -> (p + length bs <= length mem)%nat -> rds m p (length bs) = Some bs.
Proof.
  intros H Hl. rewrite wrs_in in H by done. simplify_eq.
  pose proof (rds_app (take p mem ++ bs ++ drop (p + length bs) mem)
    (take p mem) bs _ eq_refl) as Hr.
  by rewrite length_take, Nat.min_l in Hr by lia.
Qed.

Lemma rds_length mem p n bs : rds mem p n = Some bs -> length bs = n.
Proof.
  revert p bs. induction n as [|n IH]; intros p bs; simpl; [by intros [= <-]|].
  destruct (rd mem p); [|done]. simpl.
  destruct (rds mem (S p) n) eqn:E; [|done]. intros [= <-]. simpl. f_equal. by eapply IH.
Qed.

Lemma wrs_length mem p bs m : wrs mem p bs = Some m -> length m = length mem.
Proof.
  revert mem p. induction bs as [|b bs IH]; intros mem p; simpl; [by intros [= ->]|].
  destruct (wr mem p b) as [m1|] eqn:E; [|done]. simpl. intros ->%IH.
  apply wr_Some in E as [_ ->]. apply length_insert.
Qed.

(** A write changes nothing outside of its octets. *)
Lemma wrs_lookup_ne mem p bs m i :
  wrs mem p bs = Some m -> (i < p \/ p + length bs <= i)%nat -> m !! i = mem !! i.
Proof.
  revert mem p. induction bs as [|b bs IH]; intros mem p; simpl; [by intros [= ->]|].
  destruct (wr mem p b) as [m1|] eqn:E; [|done]. simpl. intros H Hi.
  rewrite (IH _ _ H) by lia. apply wr_Some in E as [_ ->].
  apply list_lookup_insert_ne. lia.
Qed.

(** A read depends on the octets it covers. *)
Lemma rds_ext m1 m2 p n :
  (forall i, (p <= i < p + n)%nat -> m1 !! i = m2 !! i) -> rds m1 p n = rds m2 p n.
Proof.
  revert p. induction n as [|n IH]; intros p Hi; [done|]. simpl.
  unfold rd. rewrite (Hi p), (IH (S p)); [done| |lia]. intros. apply Hi. lia.
Qed.

(** ** Words made of parts *)
Lemma lor_high n op l : 0 <= n -> in_u n l -> (op <<< n) .| l = op * 2 ^ n + l.
Proof. intros. rewrite Z.lor_comm, lor_shift_add by done. lia. Qed.

Lemma in_u_pair n k op l : 0 <= n -> 0 <= k -> in_u k op -> in_u n l -> in_u (n + k) (op * 2 ^ n + l).
Proof. unfold in_u. intros. rewrite Z.pow_add_r by lia. nia. Qed.

Lemma byte_of n x : 0 <= n -> (x >>> n) .& 0xff = x / 2 ^ n mod 2 ^ 8.
Proof. intros. change 0xff with (Z.ones 8). by rewrite land_ones_mod, Z.shiftr_div_pow2. Qed.

Lemma low_byte x : x .& 0xff = x mod 2 ^ 8.
Proof. change 0xff with (Z.ones 8). by apply land_ones_mod. Qed.

Lemma half_of n x : 0 <= n -> (x >>> n) .& 0xffff = x / 2 ^ n mod 2 ^ 16.
Proof. intros. change 0xffff with (Z.ones 16). by rewrite land_ones_mod, Z.shiftr_div_pow2. Qed.

(** ** Sums over lists *)
Lemma sum_insert {A} (f : A -> nat) (l : list A) i x y :
  l !! i = Some x -> (sum_list (f <$> <[i := y]> l) + f x = sum_list (f <$> l) + f y)%nat.
Proof.
  revert i. induction l as [|a l IH]; intros [|i] E; simplify_eq/=; [lia|]. specialize (IH _ E). lia.
Qed.

Lemma sum_le {A} (f : A -> nat) (l : list A) i x : l !! i = Some x -> (f x <= sum_list (f <$> l))%nat.
Proof. revert i. induction l as [|a l IH]; intros [|i] E; simplify_eq/=; [lia|]. specialize (IH _ E). lia. Qed.

Lemma sum_two {A} (f : A -> nat) (l : list A) i j x y :
  i <> j -> l !! i = Some x -> l !! j = Some y -> (f x + f y <= sum_list (f <$> l))%nat.
Proof.
  revert i j. induction l as [|a l IH]; intros [|i] [|j] Hij Ex Ey; simplify_eq/=.
  - pose proof (sum_le f _ _ _ Ey). lia.
  - pose proof (sum_le f _ _ _ Ex). lia.
  - specialize (IH i j ltac:(congruence) Ex Ey). lia.
Qed.

Lemma sum_zero {A} (f : A -> nat) (l : list A) : sum_list (f <$> l) = 0%nat -> Forall (fun x => f x = 0%nat) l.
Proof. induction l as [|a l IH]; simpl; intros H; [constructor|]. apply Nat.eq_add_0 in H as [H1 H2]. constructor; [done|by apply IH]. Qed.
