(* ===== verification/ByteOrder.v ===== *)
(** * Byte order: sys/byteorder.h and the Kerberos k5-platform.h

    The byte-swapping macros of [src/include/sys/byteorder.h] and the
    octet-string loads and stores of
    [src/include/gssapi/mechs/krb5/include/k5-platform.h].  The macros are
    applied to unsigned arguments; every intermediate value then fits the
    type the macro computes in, so no conversion is written where C does
    none ([bswap_range] bounds the results). *)
From Stdlib Require Import ZArith Lia Bool.
From stdpp Require Import base list numbers option.
From S2P Require Import Prelude.

(** ** Macros to reverse byte order *)
Definition BSWAP_8 (x : Z) : Z := x .& 0xff.
Definition BSWAP_16 (x : Z) : Z := (BSWAP_8 x <<< 8) .| BSWAP_8 (x >>> 8).
Definition BSWAP_32 (x : Z) : Z := (BSWAP_16 x <<< 16) .| BSWAP_16 (x >>> 16).
Definition BSWAP_64 (x : Z) : Z := (BSWAP_32 x <<< 32) .| BSWAP_32 (x >>> 32).

Definition BMASK_8 (x : Z) : Z := x .& 0xff.
Definition BMASK_16 (x : Z) : Z := x .& 0xffff.
Definition BMASK_32 (x : Z) : Z := x .& 0xffffffff.
Definition BMASK_64 (x : Z) : Z := x.

(** ** Conversion from a specific byte order to/from native byte order *)
Definition BE_8 (e : endian) (x : Z) : Z :=
  match e with BigEndian => BMASK_8 x | LittleEndian => BSWAP_8 x end.
Definition BE_16 (e : endian) (x : Z) : Z :=
  match e with BigEndian => BMASK_16 x | LittleEndian => BSWAP_16 x end.
Definition BE_32 (e : endian) (x : Z) : Z :=
  match e with BigEndian => BMASK_32 x | LittleEndian => BSWAP_32 x end.
Definition BE_64 (e : endian) (x : Z) : Z :=
  match e with BigEndian => BMASK_64 x | LittleEndian => BSWAP_64 x end.
Definition LE_8 (e : endian) (x : Z) : Z :=
  match e with BigEndian => BSWAP_8 x | LittleEndian => BMASK_8 x end.
Definition LE_16 (e : endian) (x : Z) : Z :=
  match e with BigEndian => BSWAP_16 x | LittleEndian => BMASK_16 x end.
Definition LE_32 (e : endian) (x : Z) : Z :=
  match e with BigEndian => BSWAP_32 x | LittleEndian => BMASK_32 x end.
Definition LE_64 (e : endian) (x : Z) : Z :=
  match e with BigEndian => BSWAP_64 x | LittleEndian => BMASK_64 x end.

(** The network-order macros (defined unconditionally as swaps). *)
Definition ntohs : Z -> Z := BSWAP_16.
Definition htons : Z -> Z := BSWAP_16.
Definition ntohl : Z -> Z := BSWAP_32.

(** ** k5-platform.h: integers as (unaligned) octet strings *)
Definition store_16_be (val : Z) (mem : list Z) (p : nat) : option (list Z) :=
  mem ← wr mem (p + 0) ((val >>> 8) .& 0xff);
  wr mem (p + 1) (val .& 0xff).

Definition store_16_le (val : Z) (mem : list Z) (p : nat) : option (list Z) :=
  mem ← wr mem (p + 1) ((val >>> 8) .& 0xff);
  wr mem (p + 0) (val .& 0xff).

Definition store_32_be (val : Z) (mem : list Z) (p : nat) : option (list Z) :=
  mem ← wr mem (p + 0) ((val >>> 24) .& 0xff);
  mem ← wr mem (p + 1) ((val >>> 16) .& 0xff);
  mem ← wr mem (p + 2) ((val >>> 8) .& 0xff);
  wr mem (p + 3) (val .& 0xff).

Definition store_32_le (val : Z) (mem : list Z) (p : nat) : option (list Z) :=
  mem ← wr mem (p + 3) ((val >>> 24) .& 0xff);
  mem ← wr mem (p + 2) ((val >>> 16) .& 0xff);
  mem ← wr mem (p + 1) ((val >>> 8) .& 0xff);
  wr mem (p + 0) (val .& 0xff).

Definition store_64_be (val : Z) (mem : list Z) (p : nat) : option (list Z) :=
  mem ← wr mem (p + 0) (u8 ((val >>> 56) .& 0xff));
  mem ← wr mem (p + 1) (u8 ((val >>> 48) .& 0xff));
  mem ← wr mem (p + 2) (u8 ((val >>> 40) .& 0xff));
  mem ← wr mem (p + 3) (u8 ((val >>> 32) .& 0xff));
  mem ← wr mem (p + 4) (u8 ((val >>> 24) .& 0xff));
  mem ← wr mem (p + 5) (u8 ((val >>> 16) .& 0xff));
  mem ← wr mem (p + 6) (u8 ((val >>> 8) .& 0xff));
  wr mem (p + 7) (u8 (val .& 0xff)).

Definition store_64_le (val : Z) (mem : list Z) (p : nat) : option (list Z) :=
  mem ← wr mem (p + 7) (u8 ((val >>> 56) .& 0xff));
  mem ← wr mem (p + 6) (u8 ((val >>> 48) .& 0xff));
  mem ← wr mem (p + 5) (u8 ((val >>> 40) .& 0xff));
  mem ← wr mem (p + 4) (u8 ((val >>> 32) .& 0xff));
  mem ← wr mem (p + 3) (u8 ((val >>> 24) .& 0xff));
  mem ← wr mem (p + 2) (u8 ((val >>> 16) .& 0xff));
  mem ← wr mem (p + 1) (u8 ((val >>> 8) .& 0xff));
  wr mem (p + 0) (u8 (val .& 0xff)).

(** [p[0] << 24] is computed in [int]: the result is reduced to [int] and
    then converted to the unsigned return type. *)
Definition load_16_be (mem : list Z) (p : nat) : option Z :=
  b1 ← rd mem (p + 1); b0 ← rd mem (p + 0);
  Some (u16 (s32 (b1 .| (b0 <<< 8)))).

Definition load_16_le (mem : list Z) (p : nat) : option Z :=
  b0 ← rd mem (p + 0); b1 ← rd mem (p + 1);
  Some (u16 (s32 (b0 .| (b1 <<< 8)))).

Definition load_32_be (mem : list Z) (p : nat) : option Z :=
  b3 ← rd mem (p + 3); b2 ← rd mem (p + 2);
  b1 ← rd mem (p + 1); b0 ← rd mem (p + 0);
  Some (u32 (s32 (b3 .| (b2 <<< 8) .| (b1 <<< 16) .| (b0 <<< 24)))).

Definition load_32_le (mem : list Z) (p : nat) : option Z :=
  b0 ← rd mem (p + 0); b1 ← rd mem (p + 1);
  b2 ← rd mem (p + 2); b3 ← rd mem (p + 3);
  Some (u32 (s32 (b0 .| (b1 <<< 8) .| (b2 <<< 16) .| (b3 <<< 24)))).

Definition load_64_be (mem : list Z) (p : nat) : option Z :=
  hi ← load_32_be mem p; lo ← load_32_be mem (p + 4);
  Some (u64 ((u64 hi <<< 32) .| lo)).

Definition load_64_le (mem : list Z) (p : nat) : option Z :=
  hi ← load_32_le mem (p + 4); lo ← load_32_le mem p;
  Some (u64 ((u64 hi <<< 32) .| lo)).

(** ** Bytes of an integer by shifts and masks *)
Lemma byte_at v n : 0 <= n -> (v >>> n) .& 0xff = v / 2 ^ n mod 256.
Proof.
  intros. change 0xff with (Z.ones 8). rewrite Z.land_ones by lia.
  by rewrite Z.shiftr_div_pow2.
Qed.

Lemma le_bytes_shifts n v :
  le_bytes n v = (fun i => (v >>> (8 * Z.of_nat i)) .& 0xff) <$> seq 0 n.
Proof.
  revert v. induction n as [|n IH]; intros v; [done|].
  cbn [le_bytes seq]. rewrite fmap_cons. f_equal.
  - rewrite byte_at by lia. by rewrite Z.div_1_r.
  - rewrite IH, <- fmap_S_seq, <- list_fmap_compose. apply list_fmap_ext.
    intros _ i _. simpl. rewrite !byte_at, Z.div_div by (try apply pow2_pos; lia).
    do 2 f_equal. change 256 with (2 ^ 8). rewrite <- Z.pow_add_r by lia. f_equal. lia.
Qed.

Lemma u8_byte v : u8 (v .& 0xff) = v .& 0xff.
Proof.
  apply wrapu_id. change 0xff with (Z.ones 8). rewrite Z.land_ones by lia.
  apply Z.mod_pos_bound. lia.
Qed.

(** ** What the stores write *)
Ltac store_tac lem :=
  etransitivity; [|apply lem];
    rewrite ?length_rev, ?le_bytes_length; [|lia];
  rewrite le_bytes_shifts; cbn; rewrite ?Nat.add_succ_r, ?Nat.add_0_r;
  repeat (rewrite wr_in by (rewrite ?length_insert; lia); cbn [mbind option_bind]);
  rewrite ?u8_byte; reflexivity.

(** The memory after the bytes [bs] are stored at [p]. *)
Definition stored (mem : list Z) (p : nat) (bs : list Z) : list Z :=
  take p mem ++ bs ++ drop (p + length bs) mem.

Section Stores.
Context (v : Z) (mem : list Z) (p : nat).

Lemma store_16_be_spec :
  (p + 2 <= length mem)%nat ->
  store_16_be v mem p = Some (stored mem p (rev (le_bytes 2 v))).
Proof. intros. unfold store_16_be, stored. store_tac (wrs_in mem p (rev (le_bytes 2 v))). Qed.

Lemma store_16_le_spec :
  (p + 2 <= length mem)%nat ->
  store_16_le v mem p = Some (stored mem p (le_bytes 2 v)).
Proof. intros. unfold store_16_le, stored. store_tac (wrs_down_in mem p (le_bytes 2 v)). Qed.

Lemma store_32_be_spec :
  (p + 4 <= length mem)%nat ->
  store_32_be v mem p = Some (stored mem p (rev (le_bytes 4 v))).
Proof. intros. unfold store_32_be, stored. store_tac (wrs_in mem p (rev (le_bytes 4 v))). Qed.

Lemma store_32_le_spec :
  (p + 4 <= length mem)%nat ->
  store_32_le v mem p = Some (stored mem p (le_bytes 4 v)).
Proof. intros. unfold store_32_le, stored. store_tac (wrs_down_in mem p (le_bytes 4 v)). Qed.

Lemma store_64_be_spec :
  (p + 8 <= length mem)%nat ->
  store_64_be v mem p = Some (stored mem p (rev (le_bytes 8 v))).
Proof. intros. unfold store_64_be, stored. store_tac (wrs_in mem p (rev (le_bytes 8 v))). Qed.

Lemma store_64_le_spec :
  (p + 8 <= length mem)%nat ->
  store_64_le v mem p = Some (stored mem p (le_bytes 8 v)).
Proof. intros. unfold store_64_le, stored. store_tac (wrs_down_in mem p (le_bytes 8 v)). Qed.

End Stores.

(** ** What the loads read *)
Lemma lor_shift8 n a b :
  0 <= n -> in_u n a -> is_byte b -> in_u (n + 8) (a .| (b <<< n)).
Proof.
  intros Hn Ha Hb. rewrite lor_shift_add by done. unfold in_u, is_byte in *.
  rewrite Z.pow_add_r by lia. change (2 ^ 8) with 256. nia.
Qed.

Lemma pack2 b0 b1 :
  is_byte b0 -> is_byte b1 ->
  b0 .| (b1 <<< 8) = of_le [b0; b1].
Proof. intros. rewrite lor_shift_add by (unfold is_byte in *; unfold in_u; lia). simpl. lia. Qed.

Lemma pack4 b0 b1 b2 b3 :
  is_byte b0 -> is_byte b1 -> is_byte b2 -> is_byte b3 ->
  b0 .| (b1 <<< 8) .| (b2 <<< 16) .| (b3 <<< 24) = of_le [b0; b1; b2; b3].
Proof.
  intros H0 H1 H2 H3.
  assert (in_u 8 b0) by (unfold in_u, is_byte in *; lia).
  assert (in_u 16 (b0 .| (b1 <<< 8))) by (apply (lor_shift8 8); done || lia).
  assert (in_u 24 (b0 .| (b1 <<< 8) .| (b2 <<< 16))) by (apply (lor_shift8 16); done || lia).
  rewrite !lor_shift_add by (done || lia). simpl. lia.
Qed.

Lemma int_to_unsigned w x : 0 < w <= 32 -> in_u w x -> wrapu w (s32 x) = x.
Proof.
  intros Hw Hx. unfold wraps, wrapu.
  rewrite Zminus_mod, Z.mod_mod_divide, <- Zminus_mod.
  - rewrite Z.add_simpl_r. by apply Z.mod_small.
  - exists (2 ^ (32 - w)). rewrite <- Z.pow_add_r by lia. f_equal. lia.
Qed.

Section Loads.
Context (mem : list Z) (p : nat).

Lemma rds_cons_inv n b bs :
  rds mem p (S n) = Some (b :: bs) -> rd mem p = Some b /\ rds mem (S p) n = Some bs.
Proof. simpl. destruct (rd mem p); [|done]. simpl. destruct (rds mem (S p) n); naive_solver. Qed.
End Loads.

Ltac rds_inv :=
  repeat match goal with
  | H : rds _ _ _ = Some (_ :: _) |- _ => apply rds_cons_inv in H as [? H]
  end.

Ltac load_spec bs :=
  rewrite ?Nat.add_succ_r, ?Nat.add_0_r;
  repeat match goal with H : rd _ _ = Some _ |- _ => rewrite H; clear H end;
  cbn [mbind option_bind];
  rewrite ?pack4, ?pack2, ?int_to_unsigned by
    (done || lia || apply (of_le_bound bs); auto 9 using List.Forall_cons, List.Forall_nil);
  done.

Section LoadSpecs.
Context (mem : list Z) (p : nat) (b0 b1 b2 b3 : Z).
Context (H0 : is_byte b0) (H1 : is_byte b1) (H2 : is_byte b2) (H3 : is_byte b3).

Lemma load_16_le_spec :
  rds mem p 2 = Some [b0; b1] -> load_16_le mem p = Some (of_le [b0; b1]).
Proof. intros. rds_inv. unfold load_16_le. load_spec [b0; b1]. Qed.

Lemma load_16_be_spec :
  rds mem p 2 = Some [b0; b1] -> load_16_be mem p = Some (of_le [b1; b0]).
Proof. intros. rds_inv. unfold load_16_be. load_spec [b1; b0]. Qed.

Lemma load_32_le_spec :
  rds mem p 4 = Some [b0; b1; b2; b3] -> load_32_le mem p = Some (of_le [b0; b1; b2; b3]).
Proof. intros. rds_inv. unfold load_32_le. load_spec [b0; b1; b2; b3]. Qed.

Lemma load_32_be_spec :
  rds mem p 4 = Some [b0; b1; b2; b3] -> load_32_be mem p = Some (of_le [b3; b2; b1; b0]).
Proof. intros. rds_inv. unfold load_32_be. load_spec [b3; b2; b1; b0]. Qed.
End LoadSpecs.

Lemma rds_split mem p n m bs :
  rds mem p (n + m) = Some bs ->
  rds mem p n = Some (take n bs) /\ rds mem (p + n) m = Some (drop n bs).
Proof.
  revert p bs. induction n as [|n IH]; intros p bs H; simpl in *.
  - by rewrite Nat.add_0_r.
  - destruct (rd mem p) as [b|]; [|done]. simpl in *.
    destruct (rds mem (S p) (n + m)) as [bs'|] eqn:E; [|done]. simplify_eq/=.
    destruct (IH _ _ E) as [-> H2]. by rewrite Nat.add_succ_r.
Qed.

Lemma join_64 hi lo :
  in_u 32 hi -> in_u 32 lo -> u64 ((u64 hi <<< 32) .| lo) = lo + 2 ^ 32 * hi.
Proof.
  intros Hh Hl. rewrite (wrapu_id 64 hi) by (unfold in_u in *; lia).
  rewrite Z.lor_comm, lor_shift_add, wrapu_id by (unfold in_u in *; lia || done). lia.
Qed.

Lemma bytes_in_u32 b0 b1 b2 b3 :
  is_byte b0 -> is_byte b1 -> is_byte b2 -> is_byte b3 -> in_u 32 (of_le [b0; b1; b2; b3]).
Proof. intros. apply (of_le_bound [b0; b1; b2; b3]). auto 9 using List.Forall_cons, List.Forall_nil. Qed.

Ltac forall_inv :=
  repeat match goal with
  | H : Forall _ (_ :: _) |- _ => apply Forall_cons_1 in H as [? H]
  | H : Forall _ [] |- _ => clear H
  end.

Lemma load_64_le_spec mem p bs :
  Forall is_byte bs -> rds mem p 8 = Some bs -> load_64_le mem p = Some (of_le bs).
Proof.
  intros Hb Hr. pose proof (rds_length _ _ _ _ Hr) as Hl.
  destruct bs as [|b0 [|b1 [|b2 [|b3 [|b4 [|b5 [|b6 [|b7 [|]]]]]]]]]; try done. forall_inv.
  apply (rds_split _ _ 4 4) in Hr as [Hlo Hhi].
  cbn [take drop] in Hlo, Hhi. unfold load_64_le.
  rewrite (load_32_le_spec mem (p + 4) b4 b5 b6 b7) by done.
  rewrite (load_32_le_spec mem p b0 b1 b2 b3) by done.
  cbn [mbind option_bind]. rewrite join_64 by by apply bytes_in_u32. f_equal. simpl. lia.
Qed.

Lemma load_64_be_spec mem p bs :
  Forall is_byte bs -> rds mem p 8 = Some bs -> load_64_be mem p = Some (of_le (rev bs)).
Proof.
  intros Hb Hr. pose proof (rds_length _ _ _ _ Hr) as Hl.
  destruct bs as [|b0 [|b1 [|b2 [|b3 [|b4 [|b5 [|b6 [|b7 [|]]]]]]]]]; try done. forall_inv.
  apply (rds_split _ _ 4 4) in Hr as [Hhi Hlo].
  cbn [take drop] in Hlo, Hhi. unfold load_64_be.
  rewrite (load_32_be_spec mem (p + 4) b4 b5 b6 b7) by done.
  rewrite (load_32_be_spec mem p b0 b1 b2 b3) by done.
  cbn [mbind option_bind]. rewrite join_64 by by apply bytes_in_u32. f_equal. simpl. lia.
Qed.

(** ** Swapping as byte reversal *)
Lemma of_le_rev_in_u n x : in_u (8 * Z.of_nat n) (of_le (rev (le_bytes n x))).
Proof.
  pose proof (of_le_bound (rev (le_bytes n x))) as H.
  rewrite length_rev, le_bytes_length in H.
  apply H, List.Forall_rev, le_bytes_bytes.
Qed.

Lemma swap_step n f x :
  (forall y, f y = of_le (rev (le_bytes n y))) ->
  (f x <<< (8 * Z.of_nat n)) .| f (x >>> (8 * Z.of_nat n)) = of_le (rev (le_bytes (n + n) x)).
Proof.
  intros Hf. rewrite le_bytes_app, rev_app_distr, of_le_app, !Hf.
  rewrite Z.lor_comm, lor_shift_add by first [apply of_le_rev_in_u | lia].
  rewrite Z.shiftr_div_pow2 by lia.
  rewrite length_rev, le_bytes_length. lia.
Qed.

Lemma BSWAP_8_rev x : BSWAP_8 x = of_le (rev (le_bytes 1 x)).
Proof. unfold BSWAP_8. change 0xff with (Z.ones 8). rewrite Z.land_ones by lia. simpl of_le. by rewrite Z.add_0_r. Qed.

Lemma BSWAP_16_rev x : BSWAP_16 x = of_le (rev (le_bytes 2 x)).
Proof.
  unfold BSWAP_16. change 8 with (8 * Z.of_nat 1).
  rewrite (swap_step 1) by apply BSWAP_8_rev. done.
Qed.

Lemma BSWAP_32_rev x : BSWAP_32 x = of_le (rev (le_bytes 4 x)).
Proof.
  unfold BSWAP_32. change 16 with (8 * Z.of_nat 2).
  rewrite (swap_step 2) by apply BSWAP_16_rev. done.
Qed.

Lemma BSWAP_64_rev x : BSWAP_64 x = of_le (rev (le_bytes 8 x)).
Proof.
  unfold BSWAP_64. change 32 with (8 * Z.of_nat 4).
  rewrite (swap_step 4) by apply BSWAP_32_rev. done.
Qed.

Lemma le_bytes_swap n x : le_bytes n (of_le (rev (le_bytes n x))) = rev (le_bytes n x).
Proof.
  rewrite <- (le_bytes_length n x) at 1. rewrite <- length_rev.
  apply le_bytes_of_le, List.Forall_rev, le_bytes_bytes.
Qed.

(** The bytes of an [n]-byte integer in the order they have in memory. *)
Definition native_bytes (e : endian) (n : nat) (x : Z) : list Z :=
  match e with LittleEndian => le_bytes n x | BigEndian => rev (le_bytes n x) end.

Lemma mask_bytes n x : le_bytes n (x .& Z.ones (8 * Z.of_nat n)) = le_bytes n x.
Proof. rewrite Z.land_ones by lia. apply le_bytes_mod. Qed.

(** ** The octet codecs as an interface
    A codec of [oc_size] octets is correct when a store inside the array
    succeeds, changes only the octets it is meant to change, and is undone
    by the matching load. *)
Record octet_codec := OctetCodec {
  oc_size : nat;
  oc_store : Z -> list Z -> nat -> option (list Z);
  oc_load : list Z -> nat -> option Z;
}.

Definition codec_ok (c : octet_codec) : Prop :=
  forall v mem p,
    (p + oc_size c <= length mem)%nat -> in_u (8 * Z.of_nat (oc_size c)) v ->
    exists m, oc_store c v mem p = Some m /\ oc_load c m p = Some v /\
      length m = length mem /\
      forall q, (q < p \/ p + oc_size c <= q)%nat -> m !! q = mem !! q.

Definition k5_codecs : list octet_codec :=
  [ OctetCodec 2 store_16_be load_16_be; OctetCodec 2 store_16_le load_16_le;
    OctetCodec 4 store_32_be load_32_be; OctetCodec 4 store_32_le load_32_le;
    OctetCodec 8 store_64_be load_64_be; OctetCodec 8 store_64_le load_64_le ].

Lemma stored_length mem p bs :
  (p + length bs <= length mem)%nat -> length (stored mem p bs) = length mem.
Proof. intros. unfold stored. rewrite !length_app, length_take, length_drop. lia. Qed.

Lemma stored_frame mem p bs q :
  (p + length bs <= length mem)%nat ->
  (q < p \/ p + length bs <= q)%nat -> stored mem p bs !! q = mem !! q.
Proof.
  intros Hp [Hq|Hq]; unfold stored.
  - rewrite lookup_app_l by (rewrite length_take; lia). by apply lookup_take_lt.
  - rewrite lookup_app_r, lookup_app_r, lookup_drop by (rewrite ?length_take; lia).
    rewrite length_take. f_equal. lia.
Qed.

Lemma rds_stored mem p bs :
  (p + length bs <= length mem)%nat -> rds (stored mem p bs) p (length bs) = Some bs.
Proof. intros. eapply rds_wrs; [by apply wrs_in|done]. Qed.

(** A codec whose store writes the bytes [enc v] and whose load is undone
    by them is correct. *)
Lemma codec_ok_intro n st ld (enc : Z -> list Z) :
  (forall v, length (enc v) = n) ->
  (forall v mem p, (p + n <= length mem)%nat -> st v mem p = Some (stored mem p (enc v))) ->
  (forall v mem p, in_u (8 * Z.of_nat n) v -> rds mem p n = Some (enc v) -> ld mem p = Some v) ->
  codec_ok (OctetCodec n st ld).
Proof.
  intros Hn Hst Hld v mem p Hp Hv. simpl in *.
  exists (stored mem p (enc v)). repeat split.
  - by apply Hst.
  - apply Hld; [done|]. rewrite <- (Hn v) at 1. apply rds_stored. by rewrite Hn.
  - apply stored_length. by rewrite Hn.
  - intros q. rewrite <- (Hn v) at 1. apply stored_frame. by rewrite Hn.
Qed.

Lemma of_le_le_bytes_id n v : in_u (8 * Z.of_nat n) v -> of_le (le_bytes n v) = v.
Proof. intros. rewrite of_le_le_bytes. by apply Z.mod_small. Qed.

Lemma length_rev_le_bytes n v : length (rev (le_bytes n v)) = n.
Proof. by rewrite length_rev, le_bytes_length. Qed.

Lemma byte_mod v : is_byte (v mod 256).
Proof. apply Z.mod_pos_bound. lia. Qed.
Create HintDb octets.
#[export] Hint Resolve byte_mod le_bytes_length length_rev_le_bytes le_bytes_bytes : octets.

(** ** Properties *)

(** Every octet-string codec of k5-platform.h is correct: a store that
    fits in the array succeeds, the matching load returns the stored value,
    and no other octet changes. *)
Theorem k5_codecs_ok : Forall codec_ok k5_codecs.
Proof.
  repeat apply Forall_cons_2; try apply Forall_nil_2.
  - apply (codec_ok_intro 2 _ _ (fun v => rev (le_bytes 2 v))); [auto with octets|apply store_16_be_spec|].
    intros v mem p Hv Hr. rewrite <- (of_le_le_bytes_id 2 v Hv) at 1.
    by apply load_16_be_spec; auto with octets.
  - apply (codec_ok_intro 2 _ _ (le_bytes 2)); [auto with octets|apply store_16_le_spec|].
    intros v mem p Hv Hr. rewrite <- (of_le_le_bytes_id 2 v Hv) at 1.
    by apply load_16_le_spec; auto with octets.
  - apply (codec_ok_intro 4 _ _ (fun v => rev (le_bytes 4 v))); [auto with octets|apply store_32_be_spec|].
    intros v mem p Hv Hr. rewrite <- (of_le_le_bytes_id 4 v Hv) at 1.
    by apply load_32_be_spec; auto with octets.
  - apply (codec_ok_intro 4 _ _ (le_bytes 4)); [auto with octets|apply store_32_le_spec|].
    intros v mem p Hv Hr. rewrite <- (of_le_le_bytes_id 4 v Hv) at 1.
    by apply load_32_le_spec; auto with octets.
  - apply (codec_ok_intro 8 _ _ (fun v => rev (le_bytes 8 v))); [auto with octets|apply store_64_be_spec|].
    intros v mem p Hv Hr. rewrite <- (of_le_le_bytes_id 8 v Hv) at 1.
    rewrite <- (rev_involutive (le_bytes 8 v)).
    apply load_64_be_spec; [|done]. apply List.Forall_rev. auto with octets.
  - apply (codec_ok_intro 8 _ _ (le_bytes 8)); [auto with octets|apply store_64_le_spec|].
    intros v mem p Hv Hr. rewrite <- (of_le_le_bytes_id 8 v Hv) at 1.
    apply load_64_le_spec; auto with octets.
Qed.

(** The swap macros reverse the bytes of their argument, and swapping
    twice gives the argument back (reduced to the width of the swap). *)
Theorem bswap_reverses_bytes x :
  (le_bytes 2 (BSWAP_16 x) = rev (le_bytes 2 x) /\ BSWAP_16 (BSWAP_16 x) = u16 x) /\
  (le_bytes 4 (BSWAP_32 x) = rev (le_bytes 4 x) /\ BSWAP_32 (BSWAP_32 x) = u32 x) /\
  (le_bytes 8 (BSWAP_64 x) = rev (le_bytes 8 x) /\ BSWAP_64 (BSWAP_64 x) = u64 x).
Proof.
  repeat split; rewrite ?BSWAP_16_rev, ?BSWAP_32_rev, ?BSWAP_64_rev;
    rewrite ?le_bytes_swap, ?rev_involutive, ?of_le_le_bytes; reflexivity.
Qed.

Lemma be_le_native_bytes e x :
  (native_bytes e 2 (BE_16 e x) = rev (le_bytes 2 x) /\ native_bytes e 2 (LE_16 e x) = le_bytes 2 x) /\
  (native_bytes e 4 (BE_32 e x) = rev (le_bytes 4 x) /\ native_bytes e 4 (LE_32 e x) = le_bytes 4 x) /\
  (native_bytes e 8 (BE_64 e x) = rev (le_bytes 8 x) /\ native_bytes e 8 (LE_64 e x) = le_bytes 8 x).
Proof.
  destruct e; cbn [native_bytes BE_16 LE_16 BE_32 LE_32 BE_64 LE_64];
    rewrite ?BSWAP_16_rev, ?BSWAP_32_rev, ?BSWAP_64_rev, ?le_bytes_swap, ?rev_involutive;
    unfold BMASK_16, BMASK_32, BMASK_64;
    change 0xffffffff with (Z.ones (8 * Z.of_nat 4));
    change 0xffff with (Z.ones (8 * Z.of_nat 2));
    rewrite ?mask_bytes; done.
Qed.

(** On a machine of either byte order, storing the value of a [BE_*]
    ([LE_*]) macro as a native integer leaves the same octets in memory as
    the big-endian (little-endian) store of k5-platform.h. *)
Theorem native_store_agrees e x mem p :
  (p + 8 <= length mem)%nat ->
  store_16_be x mem p = Some (stored mem p (native_bytes e 2 (BE_16 e x))) /\
  store_16_le x mem p = Some (stored mem p (native_bytes e 2 (LE_16 e x))) /\
  store_32_be x mem p = Some (stored mem p (native_bytes e 4 (BE_32 e x))) /\
  store_32_le x mem p = Some (stored mem p (native_bytes e 4 (LE_32 e x))) /\
  store_64_be x mem p = Some (stored mem p (native_bytes e 8 (BE_64 e x))) /\
  store_64_le x mem p = Some (stored mem p (native_bytes e 8 (LE_64 e x))).
Proof.
  intros Hp. destruct (be_le_native_bytes e x) as [[-> ->] [[-> ->] [-> ->]]].
  rewrite store_16_be_spec, store_16_le_spec, store_32_be_spec, store_32_le_spec,
    store_64_be_spec, store_64_le_spec by lia. done.
Qed.

Lemma native_store_agrees_witness :
  store_32_be 0x01020304 (replicate 8 0) 0
  = Some (stored (replicate 8 0) 0 (native_bytes LittleEndian 4 (BE_32 LittleEndian 0x01020304))).
Proof.
  refine (proj1 (proj2 (proj2 (native_store_agrees LittleEndian 0x01020304 (replicate 8 0) 0 _)))).
  simpl. lia.
Defined.
