(* ===== verification/Crc32.v ===== *)
(** * CRC32: sys/crc32.h

    The table initialiser [CRC32_INIT], the table-driven [CRC32] and
    [CRC32_STRING] macros and the pre-computed [CRC32_TABLE].  The reference
    is the bit-serial algorithm of the header's comment. *)
From Stdlib Require Import ZArith Lia Bool.
From stdpp Require Import base list numbers option.
From S2P Require Import Prelude.

(** ** CRC32_INIT *)

(** The inner loop, [Xj] counting down:
    the entry [x] becomes [(x >> 1) ^ (-(x & 1) & poly)] in [uint32_t]. *)
Definition crc32_shift (poly Xt : Z) : Z :=
  (Xt >>> 1) .^ (u32 (- (Xt .& 1)) .& poly).

Fixpoint CRC32_INIT_inner (Xj : nat) (poly Xt : Z) : Z :=
  match Xj with
  | O => Xt
  | S Xj => CRC32_INIT_inner Xj poly (crc32_shift poly Xt)
  end.

(** The outer loop with [n] entries left to fill, starting at [Xi]. *)
Fixpoint CRC32_INIT_outer (n : nat) (Xi : nat) (table : list Z) (poly : Z) : option (list Z) :=
  match n with
  | O => Some table
  | S n =>
      table ← wr table Xi (CRC32_INIT_inner 8 poly (Z.of_nat Xi));
      CRC32_INIT_outer n (S Xi) table poly
  end.

Definition CRC32_INIT (table : list Z) (poly : Z) : option (list Z) :=
  CRC32_INIT_outer 256 0 table poly.

(** ** CRC32 *)
Definition crc32_update (table : list Z) (Xcrc Xc : Z) : option Z :=
  t ← table !! Z.to_nat ((Xcrc .^ Xc) .& 0xFF);
  Some ((Xcrc >>> 8) .^ t).

(** [while (Xcp < Xcpend)] with [n] bytes left. *)
Fixpoint CRC32_loop (n : nat) (buf : list Z) (Xcp : nat) (Xcrc : Z) (table : list Z) : option Z :=
  match n with
  | O => Some Xcrc
  | S n =>
      c ← rd buf Xcp;
      Xcrc ← crc32_update table Xcrc c;
      CRC32_loop n buf (S Xcp) Xcrc table
  end.

Definition CRC32 (buf : list Z) (size : nat) (start : Z) (table : list Z) : option Z :=
  CRC32_loop size buf 0 (u32 start) table.

(** ** CRC32_STRING: the loop runs over the string, whose bytes are [str];
    reading past the end of the array is [None].  Result: crc and length. *)
Fixpoint CRC32_STRING_loop (str : list Z) (Xcp : nat) (Xcrc : Z) (table : list Z)
    : option (Z * nat) :=
  match str with
  | [] => None
  | Xc :: str =>
      if Xc =? 0 then Some (Xcrc, Xcp)
      else
        Xcrc ← crc32_update table Xcrc Xc;
        CRC32_STRING_loop str (S Xcp) Xcrc table
  end.

Definition CRC32_STRING (str : list Z) (start : Z) (table : list Z) : option (Z * nat) :=
  CRC32_STRING_loop str 0 (u32 start) table.

(** ** The polynomial and the pre-computed table *)
Definition CRC32_POLY : Z := 0xEDB88320.

Definition CRC32_TABLE : list Z :=
  [ 0x00000000; 0x77073096; 0xEE0E612C; 0x990951BA;
    0x076DC419; 0x706AF48F; 0xE963A535; 0x9E6495A3;
    0x0EDB8832; 0x79DCB8A4; 0xE0D5E91E; 0x97D2D988;
    0x09B64C2B; 0x7EB17CBD; 0xE7B82D07; 0x90BF1D91;
    0x1DB71064; 0x6AB020F2; 0xF3B97148; 0x84BE41DE;
    0x1ADAD47D; 0x6DDDE4EB; 0xF4D4B551; 0x83D385C7;
    0x136C9856; 0x646BA8C0; 0xFD62F97A; 0x8A65C9EC;
    0x14015C4F; 0x63066CD9; 0xFA0F3D63; 0x8D080DF5;
    0x3B6E20C8; 0x4C69105E; 0xD56041E4; 0xA2677172;
    0x3C03E4D1; 0x4B04D447; 0xD20D85FD; 0xA50AB56B;
    0x35B5A8FA; 0x42B2986C; 0xDBBBC9D6; 0xACBCF940;
    0x32D86CE3; 0x45DF5C75; 0xDCD60DCF; 0xABD13D59;
    0x26D930AC; 0x51DE003A; 0xC8D75180; 0xBFD06116;
    0x21B4F4B5; 0x56B3C423; 0xCFBA9599; 0xB8BDA50F;
    0x2802B89E; 0x5F058808; 0xC60CD9B2; 0xB10BE924;
    0x2F6F7C87; 0x58684C11; 0xC1611DAB; 0xB6662D3D;
    0x76DC4190; 0x01DB7106; 0x98D220BC; 0xEFD5102A;
    0x71B18589; 0x06B6B51F; 0x9FBFE4A5; 0xE8B8D433;
    0x7807C9A2; 0x0F00F934; 0x9609A88E; 0xE10E9818;
    0x7F6A0DBB; 0x086D3D2D; 0x91646C97; 0xE6635C01;
    0x6B6B51F4; 0x1C6C6162; 0x856530D8; 0xF262004E;
    0x6C0695ED; 0x1B01A57B; 0x8208F4C1; 0xF50FC457;
    0x65B0D9C6; 0x12B7E950; 0x8BBEB8EA; 0xFCB9887C;
    0x62DD1DDF; 0x15DA2D49; 0x8CD37CF3; 0xFBD44C65;
    0x4DB26158; 0x3AB551CE; 0xA3BC0074; 0xD4BB30E2;
    0x4ADFA541; 0x3DD895D7; 0xA4D1C46D; 0xD3D6F4FB;
    0x4369E96A; 0x346ED9FC; 0xAD678846; 0xDA60B8D0;
    0x44042D73; 0x33031DE5; 0xAA0A4C5F; 0xDD0D7CC9;
    0x5005713C; 0x270241AA; 0xBE0B1010; 0xC90C2086;
    0x5768B525; 0x206F85B3; 0xB966D409; 0xCE61E49F;
    0x5EDEF90E; 0x29D9C998; 0xB0D09822; 0xC7D7A8B4;
    0x59B33D17; 0x2EB40D81; 0xB7BD5C3B; 0xC0BA6CAD;
    0xEDB88320; 0x9ABFB3B6; 0x03B6E20C; 0x74B1D29A;
    0xEAD54739; 0x9DD277AF; 0x04DB2615; 0x73DC1683;
    0xE3630B12; 0x94643B84; 0x0D6D6A3E; 0x7A6A5AA8;
    0xE40ECF0B; 0x9309FF9D; 0x0A00AE27; 0x7D079EB1;
    0xF00F9344; 0x8708A3D2; 0x1E01F268; 0x6906C2FE;
    0xF762575D; 0x806567CB; 0x196C3671; 0x6E6B06E7;
    0xFED41B76; 0x89D32BE0; 0x10DA7A5A; 0x67DD4ACC;
    0xF9B9DF6F; 0x8EBEEFF9; 0x17B7BE43; 0x60B08ED5;
    0xD6D6A3E8; 0xA1D1937E; 0x38D8C2C4; 0x4FDFF252;
    0xD1BB67F1; 0xA6BC5767; 0x3FB506DD; 0x48B2364B;
    0xD80D2BDA; 0xAF0A1B4C; 0x36034AF6; 0x41047A60;
    0xDF60EFC3; 0xA867DF55; 0x316E8EEF; 0x4669BE79;
    0xCB61B38C; 0xBC66831A; 0x256FD2A0; 0x5268E236;
    0xCC0C7795; 0xBB0B4703; 0x220216B9; 0x5505262F;
    0xC5BA3BBE; 0xB2BD0B28; 0x2BB45A92; 0x5CB36A04;
    0xC2D7FFA7; 0xB5D0CF31; 0x2CD99E8B; 0x5BDEAE1D;
    0x9B64C2B0; 0xEC63F226; 0x756AA39C; 0x026D930A;
    0x9C0906A9; 0xEB0E363F; 0x72076785; 0x05005713;
    0x95BF4A82; 0xE2B87A14; 0x7BB12BAE; 0x0CB61B38;
    0x92D28E9B; 0xE5D5BE0D; 0x7CDCEFB7; 0x0BDBDF21;
    0x86D3D2D4; 0xF1D4E242; 0x68DDB3F8; 0x1FDA836E;
    0x81BE16CD; 0xF6B9265B; 0x6FB077E1; 0x18B74777;
    0x88085AE6; 0xFF0F6A70; 0x66063BCA; 0x11010B5C;
    0x8F659EFF; 0xF862AE69; 0x616BFFD3; 0x166CCF45;
    0xA00AE278; 0xD70DD2EE; 0x4E048354; 0x3903B3C2;
    0xA7672661; 0xD06016F7; 0x4969474D; 0x3E6E77DB;
    0xAED16A4A; 0xD9D65ADC; 0x40DF0B66; 0x37D83BF0;
    0xA9BCAE53; 0xDEBB9EC5; 0x47B2CF7F; 0x30B5FFE9;
    0xBDBDF21C; 0xCABAC28A; 0x53B39330; 0x24B4A3A6;
    0xBAD03605; 0xCDD70693; 0x54DE5729; 0x23D967BF;
    0xB3667A2E; 0xC4614AB8; 0x5D681B02; 0x2A6F2B94;
    0xB40BBE37; 0xC30C8EA1; 0x5A05DF1B; 0x2D02EF8D ].

(** ** The bit-serial reference of the header comment
    [foreach (bit of data) if (bit == (crc & 1)) crc = crc >> 1;
    else crc = (crc >> 1) ^ CRC32_POLY], low bit of each byte first. *)
Definition crc_bit (poly crc : Z) (bit : bool) : Z :=
  if Bool.eqb bit (Z.odd crc) then crc >>> 1 else (crc >>> 1) .^ poly.

Definition crc_bits (poly crc : Z) (bits : list bool) : Z := foldl (crc_bit poly) crc bits.

Fixpoint word_bits (k : nat) (b : Z) : list bool :=
  match k with
  | O => []
  | S k => Z.odd b :: word_bits k (Z.div2 b)
  end.

Definition bytes_bits (bs : list Z) : list bool := bs ≫= word_bits 8.

(** ** The shift step *)
Lemma u32_neg_low x : u32 (- (x .& 1)) = if Z.odd x then Z.ones 32 else 0.
Proof.
  change (x .& 1) with (x .& Z.ones 1). rewrite Z.land_ones by lia.
  change (2 ^ 1) with 2. rewrite Zmod_odd. by destruct (Z.odd x).
Qed.

Lemma crc32_shift_alt poly x :
  in_u 32 poly ->
  crc32_shift poly x = (x >>> 1) .^ (if Z.odd x then poly else 0).
Proof.
  intros Hp. unfold crc32_shift. rewrite u32_neg_low. destruct (Z.odd x).
  - f_equal. rewrite Z.land_comm, Z.land_ones by lia. by apply Z.mod_small.
  - by rewrite Z.land_0_l.
Qed.

Lemma crc_bit_shift poly crc b :
  in_u 32 poly ->
  crc32_shift poly (crc .^ b) = crc_bit poly crc (Z.odd b) .^ (b >>> 1).
Proof.
  intros Hp. rewrite crc32_shift_alt by done. unfold crc_bit.
  rewrite Z.shiftr_lxor, <- !Z.bit0_odd, Z.lxor_spec, !Z.bit0_odd.
  destruct (Z.odd crc), (Z.odd b); simpl; rewrite ?Z.lxor_0_r, ?Z.lxor_assoc;
    f_equal; apply Z.lxor_comm.
Qed.

Lemma CRC32_INIT_inner_bits k poly crc b :
  in_u 32 poly -> in_u (Z.of_nat k) b ->
  CRC32_INIT_inner k poly (crc .^ b) = crc_bits poly crc (word_bits k b).
Proof.
  intros Hp. revert crc b. induction k as [|k IH]; intros crc b Hb.
  - unfold in_u in Hb. replace b with 0 by (simpl in Hb; lia). by rewrite Z.lxor_0_r.
  - cbn [CRC32_INIT_inner word_bits]. rewrite crc_bit_shift by done.
    rewrite IH; [by rewrite Z.div2_spec|].
    unfold in_u in *. rewrite Z.shiftr_div_pow2 by lia. change (2 ^ 1) with 2.
    rewrite Nat2Z.inj_succ, Z.pow_succ_r in Hb by lia.
    split; [apply Z.div_pos; lia|]. apply Z.div_lt_upper_bound; lia.
Qed.

(** The 8-step loop is linear, and only shifts a multiple of 256. *)
Lemma crc32_shift_lxor poly x y :
  in_u 32 poly -> crc32_shift poly (x .^ y) = crc32_shift poly x .^ crc32_shift poly y.
Proof.
  intros. rewrite !crc32_shift_alt by done. rewrite Z.shiftr_lxor.
  rewrite <- !Z.bit0_odd, Z.lxor_spec, !Z.bit0_odd.
  destruct (Z.odd x), (Z.odd y); simpl; zbits.
Qed.

Lemma CRC32_INIT_inner_lxor k poly x y :
  in_u 32 poly ->
  CRC32_INIT_inner k poly (x .^ y) = CRC32_INIT_inner k poly x .^ CRC32_INIT_inner k poly y.
Proof.
  intros Hp. revert x y. induction k as [|k IH]; intros x y; [done|].
  cbn [CRC32_INIT_inner]. by rewrite crc32_shift_lxor, IH.
Qed.

Lemma CRC32_INIT_inner_high k poly x :
  in_u 32 poly ->
  CRC32_INIT_inner k poly (x <<< Z.of_nat k) = x.
Proof.
  intros Hp. induction k as [|k IH]; [apply Z.shiftl_0_r|].
  cbn [CRC32_INIT_inner]. rewrite crc32_shift_alt by done.
  rewrite <- Z.bit0_odd, Z.shiftl_spec, testbit_neg by lia.
  rewrite Z.lxor_0_r, Z.shiftr_shiftl_l by lia.
  replace (Z.of_nat (S k) - 1) with (Z.of_nat k) by lia. done.
Qed.

Lemma split_low x k : 0 <= k -> x = (x .& Z.ones k) .^ ((x >>> k) <<< k).
Proof. intros. zbits. Qed.

Lemma CRC32_INIT_inner_split poly x :
  in_u 32 poly ->
  CRC32_INIT_inner 8 poly x = CRC32_INIT_inner 8 poly (x .& 0xFF) .^ (x >>> 8).
Proof.
  intros Hp. rewrite (split_low x 8) at 1 by lia. rewrite CRC32_INIT_inner_lxor by done.
  by rewrite (CRC32_INIT_inner_high 8).
Qed.

(** ** The table CRC32_INIT fills *)
Definition crc_table (poly : Z) : list Z :=
  (fun i => CRC32_INIT_inner 8 poly (Z.of_nat i)) <$> seq 0 256.

Lemma crc_table_length poly : length (crc_table poly) = 256%nat.
Proof. by unfold crc_table; rewrite length_fmap, length_seq. Qed.

Lemma CRC32_INIT_outer_wrs n Xi table poly :
  CRC32_INIT_outer n Xi table poly =
  wrs table Xi ((fun i => CRC32_INIT_inner 8 poly (Z.of_nat i)) <$> seq Xi n).
Proof.
  revert Xi table. induction n as [|n IH]; intros Xi table; [done|].
  cbn [CRC32_INIT_outer seq]. rewrite fmap_cons. cbn [wrs].
  destruct (wr table Xi _); [|done]. apply IH.
Qed.

Lemma CRC32_INIT_spec table poly :
  length table = 256%nat -> CRC32_INIT table poly = Some (crc_table poly).
Proof.
  intros Hl. unfold CRC32_INIT. rewrite CRC32_INIT_outer_wrs, wrs_in
    by (rewrite length_fmap, length_seq; lia).
  fold (crc_table poly). rewrite crc_table_length.
  rewrite (drop_ge table) by lia. rewrite app_nil_r. done.
Qed.

Lemma byte_lookup poly crc c :
  crc_table poly !! Z.to_nat ((crc .^ c) .& 0xFF)
  = Some (CRC32_INIT_inner 8 poly ((crc .^ c) .& 0xFF)).
Proof.
  assert (0 <= (crc .^ c) .& 0xFF < 256) as Hr.
  { change 0xFF with (Z.ones 8). rewrite Z.land_ones by lia. apply Z.mod_pos_bound. lia. }
  unfold crc_table. rewrite list_lookup_fmap, lookup_seq_lt by lia. simpl.
  by rewrite Z2Nat.id by lia.
Qed.

Lemma crc32_update_bits poly crc c :
  in_u 32 poly -> is_byte c ->
  crc32_update (crc_table poly) crc c = Some (crc_bits poly crc (word_bits 8 c)).
Proof.
  intros Hp Hc. unfold crc32_update. rewrite byte_lookup. cbn [mbind option_bind]. f_equal.
  rewrite <- CRC32_INIT_inner_bits, (CRC32_INIT_inner_split _ (crc .^ c)) by done.
  rewrite Z.lxor_comm, Z.shiftr_lxor, (Z.shiftr_div_pow2 c) by lia.
  by rewrite (Z.div_small c), Z.lxor_0_r by (unfold is_byte in Hc; lia).
Qed.

Lemma bytes_bits_cons b bs : bytes_bits (b :: bs) = word_bits 8 b ++ bytes_bits bs.
Proof. done. Qed.

Lemma crc_bits_app poly crc l k : crc_bits poly crc (l ++ k) = crc_bits poly (crc_bits poly crc l) k.
Proof. apply foldl_app. Qed.

Lemma CRC32_loop_bits poly buf n Xcp crc :
  in_u 32 poly -> Forall is_byte (take n (drop Xcp buf)) -> (Xcp + n <= length buf)%nat ->
  CRC32_loop n buf Xcp crc (crc_table poly)
  = Some (crc_bits poly crc (bytes_bits (take n (drop Xcp buf)))).
Proof.
  intros Hp. revert Xcp crc. induction n as [|n IH]; intros Xcp crc Hb Hl; [done|].
  cbn [CRC32_loop]. unfold rd.
  destruct (lookup_lt_is_Some_2 buf Xcp ltac:(lia)) as [c Hc]. rewrite Hc. cbn [mbind option_bind].
  rewrite (drop_S _ _ _ Hc), firstn_cons in Hb |- *. apply Forall_cons_1 in Hb as [Hbc Hb].
  rewrite crc32_update_bits by done. cbn [mbind option_bind].
  rewrite IH by (done || lia). by rewrite bytes_bits_cons, crc_bits_app.
Qed.

Lemma CRC32_bits poly buf size start :
  in_u 32 poly -> Forall is_byte (take size buf) -> (size <= length buf)%nat ->
  CRC32 buf size start (crc_table poly)
  = Some (crc_bits poly (u32 start) (bytes_bits (take size buf))).
Proof. intros. unfold CRC32. by rewrite CRC32_loop_bits. Qed.

Lemma CRC32_TABLE_eq : CRC32_TABLE = crc_table 0xEDB88320.
Proof. vm_compute. reflexivity. Qed.

Lemma CRC32_POLY_u32 : in_u 32 CRC32_POLY.
Proof. unfold in_u, CRC32_POLY. lia. Qed.

(** ** Injectivity: the step can be undone *)
Lemma crc_bit_range poly crc b : in_u 32 poly -> in_u 32 crc -> in_u 32 (crc_bit poly crc b).
Proof.
  intros Hp Hc. unfold crc_bit.
  assert (in_u 32 (crc >>> 1)) by (apply (in_u_mono 31); [lia|]; apply (in_u_shiftr 32); [lia|done]).
  destruct (Bool.eqb b (Z.odd crc)); [done|]. by apply in_u_lxor.
Qed.

Lemma crc32_shift_range poly x : in_u 32 poly -> in_u 32 x -> in_u 32 (crc32_shift poly x).
Proof.
  intros. rewrite <- (Z.lxor_0_r x). rewrite crc_bit_shift by done.
  rewrite Z.shiftr_0_l, Z.lxor_0_r. by apply crc_bit_range.
Qed.

Lemma shiftr1_odd_eq x y : x >>> 1 = y >>> 1 -> Z.odd x = Z.odd y -> x = y.
Proof.
  rewrite <- !Z.div2_spec. intros H1 H2.
  rewrite (Z.div2_odd x), (Z.div2_odd y), H1, H2. done.
Qed.

Lemma crc32_shift_inj poly x y :
  in_u 32 poly -> Z.testbit poly 31 = true -> in_u 32 x -> in_u 32 y ->
  crc32_shift poly x = crc32_shift poly y -> x = y.
Proof.
  intros Hp Ht Hx Hy E. rewrite !crc32_shift_alt in E by done.
  assert (Z.odd x = Z.odd y) as Ho.
  { apply (f_equal (fun z => Z.testbit z 31)) in E.
    rewrite !Z.lxor_spec, !Z.shiftr_spec in E by lia. change (31 + 1) with 32 in E.
    rewrite !(in_u_testbit 32 _ 32), !xorb_false_l in E by (done || lia).
    destruct (Z.odd x), (Z.odd y); rewrite ?Ht, ?Z.testbit_0_l in E; done. }
  apply shiftr1_odd_eq; [|done]. rewrite Ho in E.
  apply (f_equal (fun z => z .^ (if Z.odd y then poly else 0))) in E.
  by rewrite !Z.lxor_assoc, Z.lxor_nilpotent, !Z.lxor_0_r in E.
Qed.

Lemma CRC32_INIT_inner_inj k poly x y :
  in_u 32 poly -> Z.testbit poly 31 = true -> in_u 32 x -> in_u 32 y ->
  CRC32_INIT_inner k poly x = CRC32_INIT_inner k poly y -> x = y.
Proof.
  intros Hp Ht. revert x y. induction k as [|k IH]; intros x y Hx Hy E; [done|].
  cbn [CRC32_INIT_inner] in E.
  apply IH in E; [|by apply crc32_shift_range..].
  by apply (crc32_shift_inj poly).
Qed.

Lemma crc_bits_word poly crc k b :
  in_u 32 poly -> in_u (Z.of_nat k) b ->
  crc_bits poly crc (word_bits k b) = CRC32_INIT_inner k poly (crc .^ b).
Proof. intros. by rewrite CRC32_INIT_inner_bits. Qed.

Lemma crc_bits_state_inj poly x y l :
  in_u 32 poly -> Z.testbit poly 31 = true -> in_u 32 x -> in_u 32 y ->
  crc_bits poly x l = crc_bits poly y l -> x = y.
Proof.
  intros Hp Ht. revert x y. induction l as [|b l IH]; intros x y Hx Hy E; [done|].
  apply IH in E; [|by apply crc_bit_range..].
  assert (forall z, crc_bit poly z b = crc32_shift poly (z .^ (if b then 1 else 0))) as Hs.
  { intros z. rewrite crc_bit_shift by done. destruct b; simpl; by rewrite Z.lxor_0_r. }
  rewrite !Hs in E. apply crc32_shift_inj in E; try done;
    [|apply in_u_lxor; try done; destruct b; unfold in_u; lia..].
  apply (f_equal (fun z => z .^ (if b then 1 else 0))) in E.
  by rewrite !Z.lxor_assoc, Z.lxor_nilpotent, !Z.lxor_0_r in E.
Qed.

(** The integer of a list of bits, low bit first. *)
Fixpoint bits_word (l : list bool) : Z :=
  match l with
  | [] => 0
  | b :: l => (if b then 1 else 0) + 2 * bits_word l
  end.

Lemma bits_word_range l : in_u (Z.of_nat (length l)) (bits_word l).
Proof.
  induction l as [|b l IH]; [unfold in_u; simpl; lia|]. unfold in_u in *.
  cbn [length bits_word]. rewrite Nat2Z.inj_succ, Z.pow_succ_r by lia. destruct b; lia.
Qed.

Lemma word_bits_bits_word l : word_bits (length l) (bits_word l) = l.
Proof.
  induction l as [|b l IH]; [done|]. cbn [length bits_word word_bits].
  rewrite Z.odd_add_mul_2, Z.div2_div, Z.mul_comm, Z_div_plus_full by lia.
  destruct b; [change (1 / 2) with 0|change (0 / 2) with 0]; by rewrite Z.add_0_l, IH.
Qed.

Lemma crc_bits_burst poly crc w1 w2 :
  in_u 32 poly -> Z.testbit poly 31 = true -> in_u 32 crc ->
  length w1 = length w2 -> (length w1 <= 32)%nat ->
  crc_bits poly crc w1 = crc_bits poly crc w2 -> w1 = w2.
Proof.
  intros Hp Ht Hc Hl H32 E.
  rewrite <- (word_bits_bits_word w1), <- (word_bits_bits_word w2) in E.
  rewrite !crc_bits_word, Hl in E by (done || apply bits_word_range).
  assert (forall w, (length w <= 32)%nat -> in_u 32 (bits_word w)) as Hw.
  { intros w ?. eapply in_u_mono; [|apply bits_word_range]. lia. }
  apply CRC32_INIT_inner_inj in E; try done; [|apply in_u_lxor; (done || apply Hw; lia)..].
  apply (f_equal (Z.lxor crc)) in E.
  rewrite <- !Z.lxor_assoc, Z.lxor_nilpotent, !Z.lxor_0_l in E.
  by rewrite <- (word_bits_bits_word w1), <- (word_bits_bits_word w2), E, Hl.
Qed.

Lemma crc_bits_range poly crc l : in_u 32 poly -> in_u 32 crc -> in_u 32 (crc_bits poly crc l).
Proof.
  intros Hp. revert crc. induction l as [|b l IH]; intros crc Hc; [done|].
  simpl. by apply IH, crc_bit_range.
Qed.

(** ** Properties *)

(** [CRC32_INIT] fills any 256-entry table completely, and run with
    [CRC32_POLY] it computes exactly the pre-computed [CRC32_TABLE]. *)
Theorem crc32_table_computed table :
  length table = 256%nat -> CRC32_INIT table CRC32_POLY = Some CRC32_TABLE.
Proof. intros Hl. by rewrite CRC32_INIT_spec, CRC32_TABLE_eq. Qed.

Lemma crc32_table_computed_witness :
  CRC32_INIT (replicate 256 0) CRC32_POLY = Some CRC32_TABLE.
Proof. apply crc32_table_computed. vm_compute. reflexivity. Defined.

(** C20: on a table that [CRC32_INIT] has filled for any 32-bit polynomial,
    the table-driven [CRC32] of [size] bytes is the bit-serial CRC of those
    bytes, started from [start]. *)
Theorem crc32_is_bit_serial table poly tab buf size start :
  in_u 32 poly -> length table = 256%nat -> CRC32_INIT table poly = Some tab ->
  Forall is_byte (take size buf) -> (size <= length buf)%nat ->
  CRC32 buf size start tab = Some (crc_bits poly (u32 start) (bytes_bits (take size buf))).
Proof.
  intros Hp Hl Ht Hb Hs. rewrite CRC32_INIT_spec in Ht by done. injection Ht as <-.
  by apply CRC32_bits.
Qed.

Lemma crc32_is_bit_serial_witness :
  CRC32 [49; 50; 51] 3 (-1) CRC32_TABLE
  = Some (crc_bits CRC32_POLY (u32 (-1)) (bytes_bits (take 3 [49; 50; 51]))).
Proof.
  apply (crc32_is_bit_serial (replicate 256 0)).
  - unfold in_u, CRC32_POLY. lia.
  - reflexivity.
  - vm_compute. reflexivity.
  - repeat constructor; unfold is_byte; lia.
  - simpl. lia.
Defined.

Lemma crc_bits_window poly crc pre w1 w2 post :
  in_u 32 poly -> Z.testbit poly 31 = true -> in_u 32 crc ->
  length w1 = length w2 -> (length w1 <= 32)%nat ->
  crc_bits poly crc (pre ++ w1 ++ post) = crc_bits poly crc (pre ++ w2 ++ post) -> w1 = w2.
Proof.
  intros Hp Ht Hc Hl H32 E. rewrite !crc_bits_app in E.
  pose proof (crc_bits_range poly crc pre Hp Hc) as Hpre.
  apply crc_bits_state_inj in E; [|done|done|by apply crc_bits_range..].
  by apply (crc_bits_burst poly (crc_bits poly crc pre)).
Qed.

(** C21: burst detection.  Two messages of the same length whose bits differ
    only inside a window of at most 32 bits have different CRCs, whatever
    the starting value: the detection the header claims for [CRC32_POLY]. *)
Theorem crc32_detects_bursts m1 m2 start pre w1 w2 post :
  Forall is_byte m1 -> Forall is_byte m2 ->
  bytes_bits m1 = pre ++ w1 ++ post -> bytes_bits m2 = pre ++ w2 ++ post ->
  length w1 = length w2 -> (length w1 <= 32)%nat -> w1 <> w2 ->
  CRC32 m1 (length m1) start CRC32_TABLE <> CRC32 m2 (length m2) start CRC32_TABLE.
Proof.
  intros Hb1 Hb2 E1 E2 Hl H32 Hne E. rewrite CRC32_TABLE_eq in E.
  rewrite !CRC32_bits, !firstn_all in E
    by (rewrite ?firstn_all; first [apply CRC32_POLY_u32 | done | lia]).
  injection E as E. rewrite E1, E2 in E. apply Hne.
  apply (crc_bits_window 0xEDB88320 (u32 start) pre w1 w2 post); try done.
  by apply wrapu_range.
Qed.

Lemma crc32_detects_bursts_witness :
  CRC32 [97; 98] 2 0 CRC32_TABLE <> CRC32 [97; 99] 2 0 CRC32_TABLE.
Proof.
  apply (crc32_detects_bursts [97; 98] [97; 99] 0 (word_bits 8 97) (word_bits 8 98) (word_bits 8 99) []).
  - repeat constructor; unfold is_byte; lia.
  - repeat constructor; unfold is_byte; lia.
  - reflexivity.
  - reflexivity.
  - reflexivity.
  - simpl. lia.
  - vm_compute. discriminate.
Defined.

Lemma CRC32_STRING_loop_spec poly s post Xcp crc :
  in_u 32 poly -> Forall is_byte s -> Forall (fun c => c <> 0) s ->
  CRC32_STRING_loop (s ++ 0 :: post) Xcp crc (crc_table poly)
  = Some (crc_bits poly crc (bytes_bits s), (Xcp + length s)%nat).
Proof.
  intros Hp. revert Xcp crc. induction s as [|c s IH]; intros Xcp crc Hb Hn; simpl app.
  - cbn [CRC32_STRING_loop]. by rewrite Nat.add_0_r.
  - apply Forall_cons_1 in Hb as [Hc Hb]. apply Forall_cons_1 in Hn as [Hc0 Hn].
    cbn [CRC32_STRING_loop]. destruct (Z.eqb_spec c 0); [done|].
    rewrite crc32_update_bits by done. cbn [mbind option_bind]. rewrite IH by done.
    rewrite bytes_bits_cons, crc_bits_app. simpl length. by rewrite Nat.add_succ_comm.
Qed.

(** On a NUL-terminated string [CRC32_STRING] returns the string's
    length and the same CRC as [CRC32] on the bytes before the NUL. *)
Theorem crc32_string_is_crc32 s post start :
  Forall is_byte s -> Forall (fun c => c <> 0) s ->
  exists crc, CRC32_STRING (s ++ 0 :: post) start CRC32_TABLE = Some (crc, length s) /\
    CRC32 (s ++ 0 :: post) (length s) start CRC32_TABLE = Some crc.
Proof.
  intros Hb Hn. exists (crc_bits 0xEDB88320 (u32 start) (bytes_bits s)).
  rewrite CRC32_TABLE_eq. pose proof CRC32_POLY_u32 as Hp. split.
  - unfold CRC32_STRING. by rewrite CRC32_STRING_loop_spec.
  - rewrite CRC32_bits; rewrite ?take_app_length; [done|done|done|rewrite length_app; lia].
Qed.

Lemma crc32_string_is_crc32_witness :
  exists crc, CRC32_STRING [104; 105; 0] 0 CRC32_TABLE = Some (crc, 2%nat) /\
    CRC32 [104; 105; 0] 2 0 CRC32_TABLE = Some crc.
Proof.
  apply (crc32_string_is_crc32 [104; 105] [] 0).
  - repeat constructor; unfold is_byte; lia.
  - repeat constructor; lia.
Defined.
