(* ===== verification/Des.v ===== *)
(** * The DES tables against the standard

    The reference of this file is the Data Encryption Standard as FIPS 46-3
    writes it: permutations as lists of 1-origin bit numbers counted from the
    most significant bit, S-boxes as four rows of sixteen.  The theorems show
    that the byte-sliced tables of [des/desdata.h] compute these functions,
    and that the [chunk_t] union of [des/softdes.h] numbers its bytes from
    the most significant one on machines of either byte order. *)
From Stdlib Require Import ZArith Lia Bool.
From stdpp Require Import base list numbers option.
From S2P Require Import Prelude ByteOrder DesData.

(** ** softdes.h: chunk_t
    A chunk is its eight bytes of memory; a field is an offset in them. *)
Definition chunk_t := list Z.

Definition _long0_off (e : endian) : nat := match e with LittleEndian => 4 | BigEndian => 0 end.
Definition _long1_off (e : endian) : nat := match e with LittleEndian => 0 | BigEndian => 4 end.
Definition _byte_off (e : endian) (i : nat) : nat :=
  match e with LittleEndian => 7 - i | BigEndian => i end.

(** Reading a [uint32_t] from memory. *)
Definition read_u32 (e : endian) (mem : list Z) (p : nat) : option Z :=
  bs ← rds mem p 4;
  Some (of_le (match e with LittleEndian => bs | BigEndian => rev bs end)).

Definition long0 (e : endian) (c : chunk_t) : option Z := read_u32 e c (_long0_off e).
Definition long1 (e : endian) (c : chunk_t) : option Z := read_u32 e c (_long1_off e).
Definition byte (e : endian) (i : nat) (c : chunk_t) : option Z := rd c (_byte_off e i).

(** ** The standard *)
Module Fips.

(** Output bit [i] is input bit [nth i l] of a word of [w] bits. *)
Fixpoint perm (w : Z) (l : list Z) (x : Z) : Z :=
  match l with
  | [] => 0
  | s :: l => (b2z (Z.testbit x (w - s)) <<< Z.of_nat (length l)) .| perm w l x
  end.

Definition IP : list Z :=
    [ 58; 50; 42; 34; 26; 18; 10; 2;
      60; 52; 44; 36; 28; 20; 12; 4;
      62; 54; 46; 38; 30; 22; 14; 6;
      64; 56; 48; 40; 32; 24; 16; 8;
      57; 49; 41; 33; 25; 17; 9; 1;
      59; 51; 43; 35; 27; 19; 11; 3;
      61; 53; 45; 37; 29; 21; 13; 5;
      63; 55; 47; 39; 31; 23; 15; 7 ].

Definition FP : list Z :=
    [ 40; 8; 48; 16; 56; 24; 64; 32;
      39; 7; 47; 15; 55; 23; 63; 31;
      38; 6; 46; 14; 54; 22; 62; 30;
      37; 5; 45; 13; 53; 21; 61; 29;
      36; 4; 44; 12; 52; 20; 60; 28;
      35; 3; 43; 11; 51; 19; 59; 27;
      34; 2; 42; 10; 50; 18; 58; 26;
      33; 1; 41; 9; 49; 17; 57; 25 ].

Definition E : list Z :=
    [ 32; 1; 2; 3; 4; 5;
      4; 5; 6; 7; 8; 9;
      8; 9; 10; 11; 12; 13;
      12; 13; 14; 15; 16; 17;
      16; 17; 18; 19; 20; 21;
      20; 21; 22; 23; 24; 25;
      24; 25; 26; 27; 28; 29;
      28; 29; 30; 31; 32; 1 ].

Definition P : list Z :=
    [ 16; 7; 20; 21; 29; 12; 28; 17;
      1; 15; 23; 26; 5; 18; 31; 10;
      2; 8; 24; 14; 32; 27; 3; 9;
      19; 13; 30; 6; 22; 11; 4; 25 ].

Definition PC1 : list Z :=
    [ 57; 49; 41; 33; 25; 17; 9;
      1; 58; 50; 42; 34; 26; 18;
      10; 2; 59; 51; 43; 35; 27;
      19; 11; 3; 60; 52; 44; 36;
      63; 55; 47; 39; 31; 23; 15;
      7; 62; 54; 46; 38; 30; 22;
      14; 6; 61; 53; 45; 37; 29;
      21; 13; 5; 28; 20; 12; 4 ].

Definition PC2 : list Z :=
    [ 14; 17; 11; 24; 1; 5;
      3; 28; 15; 6; 21; 10;
      23; 19; 12; 4; 26; 8;
      16; 7; 27; 20; 13; 2;
      41; 52; 31; 37; 47; 55;
      30; 40; 51; 45; 33; 48;
      44; 49; 39; 56; 34; 53;
      46; 42; 50; 36; 29; 32 ].

Definition rotations : list Z := [1; 1; 2; 2; 2; 2; 2; 2; 1; 2; 2; 2; 2; 2; 2; 1].

Definition S : list (list (list Z)) :=
  [ [ [14; 4; 13; 1; 2; 15; 11; 8; 3; 10; 6; 12; 5; 9; 0; 7];
      [0; 15; 7; 4; 14; 2; 13; 1; 10; 6; 12; 11; 9; 5; 3; 8];
      [4; 1; 14; 8; 13; 6; 2; 11; 15; 12; 9; 7; 3; 10; 5; 0];
      [15; 12; 8; 2; 4; 9; 1; 7; 5; 11; 3; 14; 10; 0; 6; 13] ];
    [ [15; 1; 8; 14; 6; 11; 3; 4; 9; 7; 2; 13; 12; 0; 5; 10];
      [3; 13; 4; 7; 15; 2; 8; 14; 12; 0; 1; 10; 6; 9; 11; 5];
      [0; 14; 7; 11; 10; 4; 13; 1; 5; 8; 12; 6; 9; 3; 2; 15];
      [13; 8; 10; 1; 3; 15; 4; 2; 11; 6; 7; 12; 0; 5; 14; 9] ];
    [ [10; 0; 9; 14; 6; 3; 15; 5; 1; 13; 12; 7; 11; 4; 2; 8];
      [13; 7; 0; 9; 3; 4; 6; 10; 2; 8; 5; 14; 12; 11; 15; 1];
      [13; 6; 4; 9; 8; 15; 3; 0; 11; 1; 2; 12; 5; 10; 14; 7];
      [1; 10; 13; 0; 6; 9; 8; 7; 4; 15; 14; 3; 11; 5; 2; 12] ];
    [ [7; 13; 14; 3; 0; 6; 9; 10; 1; 2; 8; 5; 11; 12; 4; 15];
      [13; 8; 11; 5; 6; 15; 0; 3; 4; 7; 2; 12; 1; 10; 14; 9];
      [10; 6; 9; 0; 12; 11; 7; 13; 15; 1; 3; 14; 5; 2; 8; 4];
      [3; 15; 0; 6; 10; 1; 13; 8; 9; 4; 5; 11; 12; 7; 2; 14] ];
    [ [2; 12; 4; 1; 7; 10; 11; 6; 8; 5; 3; 15; 13; 0; 14; 9];
      [14; 11; 2; 12; 4; 7; 13; 1; 5; 0; 15; 10; 3; 9; 8; 6];
      [4; 2; 1; 11; 10; 13; 7; 8; 15; 9; 12; 5; 6; 3; 0; 14];
      [11; 8; 12; 7; 1; 14; 2; 13; 6; 15; 0; 9; 10; 4; 5; 3] ];
    [ [12; 1; 10; 15; 9; 2; 6; 8; 0; 13; 3; 4; 14; 7; 5; 11];
      [10; 15; 4; 2; 7; 12; 9; 5; 6; 1; 13; 14; 0; 11; 3; 8];
      [9; 14; 15; 5; 2; 8; 12; 3; 7; 0; 4; 10; 1; 13; 11; 6];
      [4; 3; 2; 12; 9; 5; 15; 10; 11; 14; 1; 7; 6; 0; 8; 13] ];
    [ [4; 11; 2; 14; 15; 0; 8; 13; 3; 12; 9; 7; 5; 10; 6; 1];
      [13; 0; 11; 7; 4; 9; 1; 10; 14; 3; 5; 12; 2; 15; 8; 6];
      [1; 4; 11; 13; 12; 3; 7; 14; 10; 15; 6; 8; 0; 5; 9; 2];
      [6; 11; 13; 8; 1; 4; 10; 7; 9; 5; 0; 15; 14; 2; 3; 12] ];
    [ [13; 2; 8; 4; 6; 15; 11; 1; 10; 9; 3; 14; 5; 0; 12; 7];
      [1; 15; 13; 8; 10; 3; 7; 4; 12; 5; 6; 11; 0; 14; 9; 2];
      [7; 11; 4; 1; 9; 12; 14; 2; 0; 6; 10; 13; 15; 3; 5; 8];
      [2; 1; 14; 7; 4; 10; 8; 13; 15; 12; 9; 0; 3; 5; 6; 11] ] ].

(** The S-box [j] on the six bits of [x]: the outer bits select the row,
    the inner four the column. *)
Definition sbox (j : nat) (x : Z) : option Z :=
  box ← S !! j;
  row ← box !! Z.to_nat (2 * (x >>> 5) + (x .& 1));
  row !! Z.to_nat ((x >>> 1) .& 15).

(** The six bits of the expansion that enter S-box [j]. *)
Definition expand (j : nat) (R : Z) : Z := perm 32 (take 6 (drop (6 * j) E)) R.

(** The cipher function f on the 32-bit R and the eight 6-bit parts of the
    round key. *)
Definition f (R : Z) (K : list Z) : option Z :=
  outs ← mapM (fun '(j, k) => s ← sbox j (expand j R .^ k); Some (s <<< (28 - 4 * Z.of_nat j)))
    (zip (seq 0 8) K);
  Some (perm 32 P (foldr Z.lor 0 outs)).

End Fips.

(** ** Functions computed byte by byte *)
Definition byte_of (k : nat) (x : Z) : Z := (x >>> (24 - 8 * Z.of_nat k)) .& 0xff.

Lemma byte_of_range k x : 0 <= byte_of k x < 256.
Proof. unfold byte_of. change 0xff with (Z.ones 8). rewrite Z.land_ones by lia. apply Z.mod_pos_bound. lia. Qed.

Lemma word_of_bytes x :
  in_u 32 x ->
  x = (byte_of 0 x <<< 24) .| (byte_of 1 x <<< 16) .| (byte_of 2 x <<< 8) .| (byte_of 3 x <<< 0).
Proof.
  intros Hx. rewrite <- (wrapu_id 32 x Hx) at 1. clear Hx. unfold byte_of. simpl Z.sub. zbits.
Qed.

Lemma perm_lor w l x y : Fips.perm w l (x .| y) = Fips.perm w l x .| Fips.perm w l y.
Proof.
  induction l as [|s l IH]; [done|]. cbn [Fips.perm]. rewrite IH, Z.lor_spec.
  destruct (Z.testbit x (w - s)), (Z.testbit y (w - s)); simpl b2z; zbits.
Qed.

(** A function that distributes over [lor] is the [lor] of its values on the
    four bytes. *)
Lemma lor_bytes (F : Z -> Z) x :
  (forall a b, F (a .| b) = F a .| F b) -> in_u 32 x ->
  F x = F (byte_of 0 x <<< 24) .| F (byte_of 1 x <<< 16) .| F (byte_of 2 x <<< 8) .| F (byte_of 3 x <<< 0).
Proof. intros HF Hx. rewrite (word_of_bytes x Hx) at 1. by rewrite !HF. Qed.

(** ** Lookups, indexed as the C arrays are *)
Definition er_lookup (k : nat) (R : Z) : option R_to_ER :=
  row ← R_to_ER_tab !! k; row !! Z.to_nat (byte_of k R).
Definition p_lookup (k : nat) (x : Z) : option Z :=
  row ← P_tab !! k; row !! Z.to_nat (byte_of k x).
Definition s_lookup (j : nat) (x : Z) : option Z :=
  row ← S_tab !! j; row !! Z.to_nat x.

(** Four 6-bit groups in the four bytes of a word. *)
Definition groups (j : nat) (R : Z) : Z :=
  (Fips.expand j R <<< 24) .| (Fips.expand (j + 1) R <<< 16) .|
  (Fips.expand (j + 2) R <<< 8) .| Fips.expand (j + 3) R.

Lemma groups_lor j x y : groups j (x .| y) = groups j x .| groups j y.
Proof.
  unfold groups, Fips.expand. rewrite !perm_lor, !Z.shiftl_lor.
  apply Z.bits_inj'. intros i _. rewrite !Z.lor_spec. btauto.
Qed.

Lemma R_to_ER_tab_eq :
  R_to_ER_tab = (fun k => (fun b => let x := Z.of_nat b <<< (24 - 8 * Z.of_nat k) in
                            mk_ER (groups 0 x) (groups 4 x)) <$> seq 0 256) <$> seq 0 4.
Proof. vm_compute. reflexivity. Qed.

Lemma P_tab_eq :
  P_tab = (fun k => (fun b => Fips.perm 32 Fips.P (Z.of_nat b <<< (24 - 8 * Z.of_nat k)))
                      <$> seq 0 256) <$> seq 0 4.
Proof. vm_compute. reflexivity. Qed.

Lemma byte_table_lookup {A} (F : nat -> Z -> A) (tab : list (list A)) k x :
  tab = (fun k => (fun b => F k (Z.of_nat b)) <$> seq 0 256) <$> seq 0 4 ->
  (k < 4)%nat ->
  (row ← tab !! k; row !! Z.to_nat (byte_of k x)) = Some (F k (byte_of k x)).
Proof.
  intros -> Hk. rewrite list_lookup_fmap, lookup_seq_lt by done.
  cbn [fmap option_fmap option_map mbind option_bind].
  pose proof (byte_of_range k x). rewrite list_lookup_fmap, lookup_seq_lt by lia.
  cbn [fmap option_fmap option_map]. rewrite !Nat.add_0_l. by rewrite Z2Nat.id by lia.
Qed.

Lemma er_lookup_spec k R :
  (k < 4)%nat ->
  er_lookup k R = Some (let x := byte_of k R <<< (24 - 8 * Z.of_nat k) in
                        mk_ER (groups 0 x) (groups 4 x)).
Proof.
  apply (byte_table_lookup (fun k b => let x := b <<< (24 - 8 * Z.of_nat k) in
    mk_ER (groups 0 x) (groups 4 x))), R_to_ER_tab_eq.
Qed.

Lemma p_lookup_spec k x :
  (k < 4)%nat ->
  p_lookup k x = Some (Fips.perm 32 Fips.P (byte_of k x <<< (24 - 8 * Z.of_nat k))).
Proof. apply (byte_table_lookup (fun k b => Fips.perm 32 Fips.P (b <<< (24 - 8 * Z.of_nat k)))), P_tab_eq. Qed.

(** The S-box tables, checked on their 8 * 64 entries. *)
Lemma s_lookup_spec j x :
  (j < 8)%nat -> 0 <= x < 64 ->
  exists s, Fips.sbox j x = Some s /\ 0 <= s < 16 /\ s_lookup j x = Some (s <<< (28 - 4 * Z.of_nat j)).
Proof.
  intros Hj Hx.
  assert (forallb (fun j => forallb (fun x =>
    match Fips.sbox j (Z.of_nat x), s_lookup j (Z.of_nat x) with
    | Some s, Some t => (0 <=? s) && (s <? 16) && (t =? (s <<< (28 - 4 * Z.of_nat j)))
    | _, _ => false
    end) (seq 0 64)) (seq 0 8) = true) as Hall by (vm_compute; reflexivity).
  rewrite forallb_forall in Hall. specialize (Hall j ltac:(apply in_seq; lia)).
  rewrite forallb_forall in Hall. specialize (Hall (Z.to_nat x) ltac:(apply in_seq; lia)).
  rewrite Z2Nat.id in Hall by lia.
  destruct (Fips.sbox j x) as [s|]; [|done]. destruct (s_lookup j x) as [t|]; [|done].
  exists s. repeat split; try lia. f_equal. lia.
Qed.

(** ** The round function by table lookups *)
Lemma perm_range w l x : in_u (Z.of_nat (length l)) (Fips.perm w l x).
Proof.
  induction l as [|s l IH]; [unfold in_u; simpl; lia|]. cbn [Fips.perm length].
  rewrite Z.lor_comm, lor_shift_add by (done || lia). unfold in_u in *.
  rewrite Nat2Z.inj_succ, Z.pow_succ_r by lia.
  destruct (Z.testbit x (w - s)); simpl b2z; lia.
Qed.

Lemma expand_range j R : (j < 8)%nat -> in_u 6 (Fips.expand j R).
Proof.
  intros Hj. unfold Fips.expand.
  pose proof (perm_range 32 (take 6 (drop (6 * j) Fips.E)) R) as H.
  rewrite length_take, length_drop in H. change (length Fips.E) with 48%nat in H.
  by replace (6 `min` (48 - 6 * j))%nat with 6%nat in H by lia.
Qed.

Lemma groups_byte j t R :
  (j <= 4)%nat -> (t < 4)%nat -> byte_of t (groups j R) = Fips.expand (j + t) R.
Proof.
  intros Hj Ht. unfold groups.
  pose proof (expand_range j R ltac:(lia)) as H0.
  pose proof (expand_range (j + 1) R ltac:(lia)) as H1.
  pose proof (expand_range (j + 2) R ltac:(lia)) as H2.
  pose proof (expand_range (j + 3) R ltac:(lia)) as H3.
  unfold byte_of. rewrite byte_at by lia.
  set (e0 := Fips.expand j R) in *. set (e1 := Fips.expand (j + 1) R) in *.
  set (e2 := Fips.expand (j + 2) R) in *. set (e3 := Fips.expand (j + 3) R) in *.
  unfold in_u in *.
  replace ((e0 <<< 24) .| (e1 <<< 16) .| (e2 <<< 8) .| e3)
    with (e3 .| (e2 <<< 8) .| (e1 <<< 16) .| (e0 <<< 24)).
  2: { apply Z.bits_inj'. intros i _. rewrite !Z.lor_spec. btauto. }
  rewrite pack4 by (unfold is_byte; lia). cbn [of_le].
  destruct t as [|[|[|[|]]]]; [..|lia]; rewrite ?Nat.add_0_r;
    [fold e0|fold e1|fold e2|fold e3]; simpl Z.sub; simpl Z.pow;
    Z.to_euclidean_division_equations; lia.
Qed.

(** Byte [j] of the expanded 48-bit chunk whose words are [e0] and [e1]. *)
Definition er_byte (e0 e1 : Z) (j : nat) : Z :=
  if (j <? 4)%nat then byte_of j e0 else byte_of (j - 4) e1.

(** The composition the tables are laid out for: expand, add the key, select,
    permute. *)
Definition table_f (R : Z) (K : list Z) : option Z :=
  r0 ← er_lookup 0 R; r1 ← er_lookup 1 R; r2 ← er_lookup 2 R; r3 ← er_lookup 3 R;
  let e0 := l0 r0 .| l0 r1 .| l0 r2 .| l0 r3 in
  let e1 := l1 r0 .| l1 r1 .| l1 r2 .| l1 r3 in
  outs ← mapM (fun '(j, k) => s_lookup j (er_byte e0 e1 j .^ k)) (zip (seq 0 8) K);
  let x := foldr Z.lor 0 outs in
  p0 ← p_lookup 0 x; p1 ← p_lookup 1 x; p2 ← p_lookup 2 x; p3 ← p_lookup 3 x;
  Some (p0 .| p1 .| p2 .| p3).

Lemma er_lookups R :
  in_u 32 R ->
  exists r0 r1 r2 r3,
    er_lookup 0 R = Some r0 /\ er_lookup 1 R = Some r1 /\
    er_lookup 2 R = Some r2 /\ er_lookup 3 R = Some r3 /\
    l0 r0 .| l0 r1 .| l0 r2 .| l0 r3 = groups 0 R /\
    l1 r0 .| l1 r1 .| l1 r2 .| l1 r3 = groups 4 R.
Proof.
  intros HR. rewrite !er_lookup_spec by lia. do 4 eexists. repeat split.
  - rewrite (lor_bytes (groups 0) R (groups_lor 0) HR). done.
  - rewrite (lor_bytes (groups 4) R (groups_lor 4) HR). done.
Qed.

Lemma p_lookups x :
  in_u 32 x ->
  (p0 ← p_lookup 0 x; p1 ← p_lookup 1 x; p2 ← p_lookup 2 x; p3 ← p_lookup 3 x;
   Some (p0 .| p1 .| p2 .| p3)) = Some (Fips.perm 32 Fips.P x).
Proof.
  intros Hx. rewrite !p_lookup_spec by lia. cbn [mbind option_bind].
  by rewrite (lor_bytes (Fips.perm 32 Fips.P) x (perm_lor 32 Fips.P) Hx).
Qed.

Lemma er_byte_groups R j : (j < 8)%nat -> er_byte (groups 0 R) (groups 4 R) j = Fips.expand j R.
Proof.
  intros Hj. unfold er_byte. destruct (Nat.ltb_spec j 4).
  - by rewrite groups_byte by lia.
  - rewrite groups_byte by lia. f_equal. lia.
Qed.

Lemma foldr_lor_range w l : 0 <= w -> Forall (in_u w) l -> in_u w (foldr Z.lor 0 l).
Proof.
  intros Hw. induction 1; simpl; [pose proof (pow2_pos w Hw); unfold in_u; lia|].
  by apply in_u_lor.
Qed.

Lemma xor6_range e k : in_u 6 e -> in_u 6 k -> 0 <= e .^ k < 64.
Proof. intros. by apply (in_u_lxor 6). Qed.

Lemma zip_seq_lookup (K : list Z) j k :
  (j, k) ∈ zip (seq 0 8) K -> (j < 8)%nat /\ k ∈ K.
Proof.
  intros H. split.
  - apply elem_of_zip_l in H. apply elem_of_seq in H. lia.
  - by apply elem_of_zip_r in H.
Qed.

(** The selection step of the tables is the selection step of the standard,
    and its outputs fit 32 bits. *)
Lemma select_eq R K :
  Forall (in_u 6) K ->
  exists outs,
    mapM (fun '(j, k) => s_lookup j (er_byte (groups 0 R) (groups 4 R) j .^ k)) (zip (seq 0 8) K)
    = Some outs /\
    mapM (fun '(j, k) => s ← Fips.sbox j (Fips.expand j R .^ k); Some (s <<< (28 - 4 * Z.of_nat j)))
      (zip (seq 0 8) K) = Some outs /\
    Forall (in_u 32) outs.
Proof.
  intros HK.
  assert (forall jk, jk ∈ zip (seq 0 8) K ->
    exists o, in_u 32 o /\
      (let '(j, k) := jk in s_lookup j (er_byte (groups 0 R) (groups 4 R) j .^ k)) = Some o /\
      (let '(j, k) := jk in s ← Fips.sbox j (Fips.expand j R .^ k); Some (s <<< (28 - 4 * Z.of_nat j)))
      = Some o) as H.
  { intros [j k] [Hj Hk]%zip_seq_lookup. rewrite er_byte_groups by done.
    assert (in_u 6 k) by (rewrite Forall_forall in HK; by apply HK, list_elem_of_In).
    destruct (s_lookup_spec j (Fips.expand j R .^ k)) as (s & -> & Hs & ->);
      [done|by apply xor6_range; [apply expand_range|]|].
    eexists. split; [|done]. rewrite Z.shiftl_mul_pow2 by lia.
    assert (2 ^ (28 - 4 * Z.of_nat j) <= 2 ^ 28) by (apply Z.pow_le_mono_r; lia).
    pose proof (pow2_pos (28 - 4 * Z.of_nat j) ltac:(lia)). unfold in_u. nia. }
  induction (zip (seq 0 8) K) as [|jk l IH]; [by exists []|].
  destruct (H jk ltac:(left)) as (o & Ho & E1 & E2).
  destruct IH as (outs & F1 & F2 & F3); [intros; apply H; by right|].
  exists (o :: outs). cbn [mapM]. rewrite E1, E2. cbn [mbind option_bind].
  rewrite F1, F2. repeat split. by constructor.
Qed.

(** ** Properties *)

(** For every 32-bit R, the four lookups of [R_to_ER_tab] indexed by the
    bytes of R, combined with [|], give the E expansion of the standard, its
    eight 6-bit groups in the eight bytes of the chunk. *)
Theorem R_to_ER_tab_expands R :
  in_u 32 R ->
  exists r0 r1 r2 r3,
    er_lookup 0 R = Some r0 /\ er_lookup 1 R = Some r1 /\
    er_lookup 2 R = Some r2 /\ er_lookup 3 R = Some r3 /\
    forall j, (j < 8)%nat ->
      er_byte (l0 r0 .| l0 r1 .| l0 r2 .| l0 r3) (l1 r0 .| l1 r1 .| l1 r2 .| l1 r3) j
      = Fips.expand j R.
Proof.
  intros HR. destruct (er_lookups R HR) as (r0 & r1 & r2 & r3 & H0 & H1 & H2 & H3 & E0 & E1).
  exists r0, r1, r2, r3. repeat split; try done.
  intros j Hj. rewrite E0, E1. by apply er_byte_groups.
Qed.

Lemma R_to_ER_tab_expands_witness :
  exists r0 r1 r2 r3,
    er_lookup 0 0x12345678 = Some r0 /\ er_lookup 1 0x12345678 = Some r1 /\
    er_lookup 2 0x12345678 = Some r2 /\ er_lookup 3 0x12345678 = Some r3 /\
    forall j, (j < 8)%nat ->
      er_byte (l0 r0 .| l0 r1 .| l0 r2 .| l0 r3) (l1 r0 .| l1 r1 .| l1 r2 .| l1 r3) j
      = Fips.expand j 0x12345678.
Proof. apply R_to_ER_tab_expands. unfold in_u. lia. Defined.

(** C19: the tables compute the DES cipher function: expanding R by
    [R_to_ER_tab], adding the round key, selecting by [S_tab] and permuting
    by [P_tab] never leaves a table and equals the standard's f(R, K), for
    every R and every round key of eight 6-bit parts. *)
Theorem table_f_is_des_f R K :
  in_u 32 R -> length K = 8%nat -> Forall (in_u 6) K ->
  exists v, table_f R K = Some v /\ Fips.f R K = Some v /\ in_u 32 v.
Proof.
  intros HR HK HK6. destruct (er_lookups R HR) as (r0 & r1 & r2 & r3 & H0 & H1 & H2 & H3 & E0 & E1).
  destruct (select_eq R K HK6) as (outs & F1 & F2 & F3).
  exists (Fips.perm 32 Fips.P (foldr Z.lor 0 outs)). split; [|split].
  - unfold table_f. rewrite H0, H1, H2, H3. cbn [mbind option_bind]. rewrite E0, E1, F1.
    cbn [mbind option_bind]. apply p_lookups. by apply foldr_lor_range.
  - unfold Fips.f. by rewrite F2.
  - apply (perm_range 32 Fips.P).
Qed.

Lemma table_f_is_des_f_witness :
  exists v, table_f 0xF0AAF0AA [6; 48; 11; 47; 63; 7; 1; 50] = Some v /\
    Fips.f 0xF0AAF0AA [6; 48; 11; 47; 63; 7; 1; 50] = Some v /\ in_u 32 v.
Proof.
  apply table_f_is_des_f; [unfold in_u; lia|reflexivity|].
  repeat constructor; unfold in_u; lia.
Defined.

(** A published round of the standard's worked example. *)
Example table_f_example : table_f 0xF0AAF0AA [6; 48; 11; 47; 63; 7; 1; 50] = Some 0x234AA9BB.
Proof. vm_compute. reflexivity. Qed.

(** [IPtab] and [FPtab], read as the destination of each bit, are the
    initial and final permutations of the standard, and each is the inverse
    of the other. *)
Theorem ip_fp_tables i :
  (i < 64)%nat ->
  exists d f, IPtab !! i = Some d /\ FPtab !! i = Some f /\
    Fips.IP !! Z.to_nat d = Some (Z.of_nat i + 1) /\
    Fips.FP !! Z.to_nat f = Some (Z.of_nat i + 1) /\
    FPtab !! Z.to_nat d = Some (Z.of_nat i) /\ IPtab !! Z.to_nat f = Some (Z.of_nat i).
Proof.
  intros Hi. do 64 (destruct i as [|i]; [do 2 eexists; repeat split; reflexivity|]). lia.
Qed.

Lemma ip_fp_tables_witness :
  exists d f, IPtab !! 5%nat = Some d /\ FPtab !! 5%nat = Some f /\
    Fips.IP !! Z.to_nat d = Some (Z.of_nat 5 + 1) /\
    Fips.FP !! Z.to_nat f = Some (Z.of_nat 5 + 1) /\
    FPtab !! Z.to_nat d = Some (Z.of_nat 5) /\ IPtab !! Z.to_nat f = Some (Z.of_nat 5).
Proof. apply ip_fp_tables. lia. Defined.

(** The key schedule tables are those of the standard.  Permuted-choice
    1 takes each of the 56 key bits that are not parity bits exactly once,
    permuted-choice 2 is the standard's on C and D, and the sixteen shifts
    (stored less one) add up to 28, so that C and D are back in place after
    the last round. *)
Theorem key_schedule_tables :
  (fun b => b + 1) <$> (PC1_C ++ PC1_D) = Fips.PC1 /\
  Permutation (PC1_C ++ PC1_D)
    (filter (fun b => (b + 1) mod 8 <> 0) (Z.of_nat <$> seq 0 64)) /\
  PC2_C ++ ((fun b => b + 28) <$> PC2_D) = Fips.PC2 /\
  (fun s => s + 1) <$> shifts = Fips.rotations /\
  foldr Z.add 0 ((fun s => s + 1) <$> shifts) = 28.
Proof.
  split; [reflexivity|]. split; [|split; [reflexivity|split; reflexivity]].
  apply NoDup_Permutation.
  - refine (bool_decide_eq_true_1 _ _). vm_compute. reflexivity.
  - refine (bool_decide_eq_true_1 _ _). vm_compute. reflexivity.
  - intros x. split.
    + assert (Forall (fun x => x ∈ filter (fun b => (b + 1) mod 8 <> 0) (Z.of_nat <$> seq 0 64))
        (PC1_C ++ PC1_D)) as H by (refine (bool_decide_eq_true_1 _ _); vm_compute; reflexivity).
      rewrite Forall_forall in H. intros Hx. by apply H, list_elem_of_In.
    + assert (Forall (fun x => x ∈ PC1_C ++ PC1_D)
        (filter (fun b => (b + 1) mod 8 <> 0) (Z.of_nat <$> seq 0 64))) as H
        by (refine (bool_decide_eq_true_1 _ _); vm_compute; reflexivity).
      rewrite Forall_forall in H. intros Hx. by apply H, list_elem_of_In.
Qed.

(** On a machine of either byte order, [byte0] .. [byte3] of a chunk are
    the bytes of [long0] and [byte4] .. [byte7] those of [long1], most
    significant first. *)
Theorem chunk_bytes_are_high_endian e c :
  length c = 8%nat -> Forall is_byte c ->
  exists w0 w1, long0 e c = Some w0 /\ long1 e c = Some w1 /\ in_u 32 w0 /\ in_u 32 w1 /\
    forall i, (i < 8)%nat -> byte e i c = Some (er_byte w0 w1 i).
Proof.
  intros Hl Hb. destruct c as [|b0 [|b1 [|b2 [|b3 [|b4 [|b5 [|b6 [|b7 [|]]]]]]]]]; try done.
  forall_inv.
  destruct e; (do 2 eexists; split; [reflexivity|split; [reflexivity|]]; cbn [rev app];
    split; [by apply bytes_in_u32|split; [by apply bytes_in_u32|]]);
    intros i Hi; do 8 (destruct i as [|i]; [
      unfold byte, rd; cbn; f_equal; unfold byte_of; rewrite byte_at by lia;
      unfold is_byte in *; simpl Z.sub; simpl Z.pow; cbn [of_le];
      Z.to_euclidean_division_equations; lia |]); lia.
Qed.

Lemma chunk_bytes_are_high_endian_witness :
  exists w0 w1, long0 LittleEndian [8; 7; 6; 5; 4; 3; 2; 1] = Some w0 /\
    long1 LittleEndian [8; 7; 6; 5; 4; 3; 2; 1] = Some w1 /\ in_u 32 w0 /\ in_u 32 w1 /\
    forall i, (i < 8)%nat -> byte LittleEndian i [8; 7; 6; 5; 4; 3; 2; 1] = Some (er_byte w0 w1 i).
Proof.
  apply chunk_bytes_are_high_endian; [reflexivity|].
  repeat constructor; unfold is_byte; lia.
Defined.
