(* ===== verification/Regexp.v ===== *)
(** * Simple regular expressions: regexp.h

    The functions [compile], [step], [advance] and [getrnge] of
    [src/include/regexp.h], statement by statement.

    - [GETC], [PEEKC] and [UNGETC] are macros the including program defines;
      they are the operations of the class [CharSource].
    - The compiled expression and the subject are arrays of bytes; a pointer
      is an index.  An access outside an array is [Ub].
    - [ERROR(n)] leaves the function and is [Err n]; [RETURN] is [Val].
    - [while (1)] and the other loops that are not bounded by the data run on
      fuel; [NoFuel] is not a result of the program.
    - [char] is signed (the System V/386 ABI): a byte read through [char *]
      into an [int] is sign-extended, which [s8] writes out where it matters. *)
From S2P Require Import Prelude.

(** ** Results *)
Inductive res (A : Type) :=
  | Val (a : A)
  | Err (n : Z)
  | Ub
  | NoFuel.
Arguments Val {A} _.
Arguments Err {A} _.
Arguments Ub {A}.
Arguments NoFuel {A}.

#[export] Instance res_ret : MRet res := @Val.
#[export] Instance res_bind : MBind res := fun A B f x =>
  match x with
  | Val a => f a
  | Err n => Err n
  | Ub => Ub
  | NoFuel => NoFuel
  end.

(** A memory access: outside the array the behaviour is undefined. *)
Definition acc {A} (o : option A) : res A :=
  match o with Some a => Val a | None => Ub end.

(** ** Opcodes of the compiled expression *)
Definition CBRA := 2.
Definition CCHR := 4.
Definition CDOT := 8.
Definition CCL := 12.
Definition CXCL := 16.
Definition CDOL := 20.
Definition CCEOF := 22.
Definition CKET := 24.
Definition CBACK := 36.
Definition NCCL := 40.

Definition STAR := 1.
Definition RNGE := 3.

Definition NBRA := 9.

Definition bittab : list Z := [1; 2; 4; 8; 16; 32; 64; 128].

(** ** The character source of [compile] *)
Class CharSource (S : Type) := {
  GETC : S -> Z * S;
  PEEKC : S -> Z;
  UNGETC : Z -> S -> S;
}.

(** ** The variables of [compile]: the source, the buffer and [ep], the
    file-scope [circf], [nbra], [nodelim], and the locals [lastep], the
    [bracket] stack (top first) and [closed]. *)
Record cstate (S : Type) := CState {
  src : S;
  buf : list Z;
  ep : nat;
  circf : Z;
  nbra : Z;
  nodelim : Z;
  lastep : option nat;
  bracket : list Z;
  closed : Z;
}.
Arguments CState {S}.
Arguments src {S}. Arguments buf {S}. Arguments ep {S}. Arguments circf {S}.
Arguments nbra {S}. Arguments nodelim {S}. Arguments lastep {S}.
Arguments bracket {S}. Arguments closed {S}.

Section Setters.
Context {S : Type}.
Definition set_src (x : S) (c : cstate S) : cstate S :=
  CState x (buf c) (ep c) (circf c) (nbra c) (nodelim c) (lastep c) (bracket c) (closed c).
Definition set_buf (x : list Z) (c : cstate S) : cstate S :=
  CState (src c) x (ep c) (circf c) (nbra c) (nodelim c) (lastep c) (bracket c) (closed c).
Definition set_ep (x : nat) (c : cstate S) : cstate S :=
  CState (src c) (buf c) x (circf c) (nbra c) (nodelim c) (lastep c) (bracket c) (closed c).
Definition set_nbra (x : Z) (c : cstate S) : cstate S :=
  CState (src c) (buf c) (ep c) (circf c) x (nodelim c) (lastep c) (bracket c) (closed c).
Definition set_nodelim (x : Z) (c : cstate S) : cstate S :=
  CState (src c) (buf c) (ep c) (circf c) (nbra c) x (lastep c) (bracket c) (closed c).
Definition set_lastep (x : option nat) (c : cstate S) : cstate S :=
  CState (src c) (buf c) (ep c) (circf c) (nbra c) (nodelim c) x (bracket c) (closed c).
Definition set_bracket (x : list Z) (c : cstate S) : cstate S :=
  CState (src c) (buf c) (ep c) (circf c) (nbra c) (nodelim c) (lastep c) x (closed c).
Definition set_closed (x : Z) (c : cstate S) : cstate S :=
  CState (src c) (buf c) (ep c) (circf c) (nbra c) (nodelim c) (lastep c) (bracket c) x.
End Setters.

(** One turn of [while (1)]: [continue] or [RETURN(ep)]. *)
Inductive turn (S : Type) := Continue (c : cstate S) | Return (c : cstate S).
Arguments Continue {S}. Arguments Return {S}.

(** The characters of the pattern syntax. *)
Definition NL := 10.       (* \n *)
Definition ch_star := 42.  (* '*' *)
Definition ch_bs := 92.    (* backslash *)
Definition ch_lbrace := 123.
Definition ch_rbrace := 125.
Definition ch_dot := 46.
Definition ch_dollar := 36.
Definition ch_lbrack := 91.
Definition ch_rbrack := 93.
Definition ch_caret := 94.
Definition ch_dash := 45.
Definition ch_lparen := 40.
Definition ch_rparen := 41.
Definition ch_comma := 44.
Definition ch_0 := 48.
Definition ch_1 := 49.
Definition ch_9 := 57.
Definition ch_n := 110.

Section Compile.
Context {S : Type} `{CharSource S}.
Implicit Types (c : Z) (st : cstate S).

(** [c = GETC()], [PEEKC()], [UNGETC(c)] on the state. *)
Definition getc st : Z * cstate S := let '(c, s) := GETC (src st) in (c, set_src s st).
Definition peekc st : Z := PEEKC (src st).
Definition ungetc c st : cstate S := set_src (UNGETC c (src st)) st.

(** [*ep++ = b] *)
Definition emit (b : Z) st : res (cstate S) :=
  m ← acc (wr (buf st) (ep st) b);
  Val (set_ep (ep st + 1) (set_buf m st)).

(** [ep[i]] and [ep[i] = b] for an index of either sign. *)
Definition get_at (i : Z) st : res Z :=
  let a := Z.of_nat (ep st) + i in
  if a <? 0 then Ub else acc (rd (buf st) (Z.to_nat a)).
Definition set_at (i : Z) (b : Z) st : res (cstate S) :=
  let a := Z.of_nat (ep st) + i in
  if a <? 0 then Ub else m ← acc (wr (buf st) (Z.to_nat a) b); Val (set_buf m st).

(** [#define PLACE(c) ep[c >> 3] |= bittab[c & 07]] *)
Definition PLACE c st : res (cstate S) :=
  b ← get_at (c >>> 3) st;
  t ← acc (bittab !! Z.to_nat (c .& 7));
  set_at (c >>> 3) (b .| t) st.

(** [for (i = from; i < from + n; i++) ep[i] = f(ep[i])] *)
Fixpoint fill (n : nat) (from : Z) (f : Z -> Z) st : res (cstate S) :=
  match n with
  | O => Val st
  | Datatypes.S n =>
      b ← get_at from st;
      st ← set_at from (f b) st;
      fill n (from + 1) f st
  end.

(** [defchar:] the character [c] stands for itself. *)
Definition defchar c st : res (turn S) :=
  let st := set_lastep (Some (ep st)) st in
  st ← emit CCHR st;
  st ← emit (u8 c) st;
  Val (Continue st).

(** ** Bracket expressions *)

(** The block that turns a 16-byte class into a 32-byte one, when the first
    character over 0177 is seen. *)
Definition widen (endbuf : nat) c (iflag : Z) st : res (Z * cstate S) :=
  if truth (c .& 128) && truth iflag then
    if (endbuf <=? ep st + 32)%nat then Err 50
    else
      st ← set_at (-1) CXCL st;
      st ← fill 16 16 (fun _ => 0) st;
      Val (0, st)
  else Val (iflag, st).

(** [while (lc < c) { PLACE(lc); lc++; }], [n] characters left. *)
Fixpoint place_range (n : nat) (lc : Z) st : res (cstate S) :=
  match n with
  | O => Val st
  | Datatypes.S n => st ← PLACE lc st; place_range n (lc + 1) st
  end.

(** The body of [do ... while ((c = GETC()) != ']')].  The result says
    whether the body ended in [break], with the new [lc] and [iflag]. *)
Definition class_body (endbuf : nat) c (lc iflag : Z) st : res (bool * Z * Z * cstate S) :=
  let c := c .& 255 in
  if (c =? 0) || (c =? NL) then Err 49
  else
    '(iflag, st) ← widen endbuf c iflag st;
    if (c =? ch_dash) && truth lc then
      let '(c, st) := getc st in
      if c =? ch_rbrack then
        st ← PLACE ch_dash st;
        Val (true, lc, iflag, st)
      else
        '(iflag, st) ← widen endbuf c iflag st;
        st ← place_range (Z.to_nat (c - lc)) lc st;
        st ← PLACE c st;
        Val (false, c, iflag, st)
    else
      st ← PLACE c st;
      Val (false, c, iflag, st).

Fixpoint class_loop (fuel : nat) (endbuf : nat) c (lc iflag : Z) st : res (Z * cstate S) :=
  match fuel with
  | O => NoFuel
  | Datatypes.S fuel =>
      '(brk, lc, iflag, st) ← class_body endbuf c lc iflag st;
      if (brk : bool) then Val (iflag, st)
      else
        let '(c, st) := getc st in
        if c =? ch_rbrack then Val (iflag, st)
        else class_loop fuel endbuf c lc iflag st
  end.

(** What follows the loop: complementing the class and moving [ep]. *)
Definition class_finish (neg : bool) (iflag : Z) st : res (turn S) :=
  let iflag := if truth iflag then 16 else 32 in
  st ← (if neg then
          if iflag =? 32 then
            st ← fill 32 0 (fun b => b .^ 255) st;
            b ← get_at 0 st; set_at 0 (b .& 254) st
          else
            st ← set_at (-1) NCCL st;
            b ← get_at 0 st; set_at 0 (b .| 1) st
        else Val st);
  Val (Continue (set_ep (ep st + Z.to_nat iflag) st)).

(** [case '[':] *)
Definition compile_class (fuel : nat) (endbuf : nat) st : res (turn S) :=
  if (endbuf <=? ep st + 17)%nat then Err 50
  else
    st ← emit CCL st;
    st ← fill 16 0 (fun _ => 0) st;
    let '(c, st) := getc st in
    let '(neg, (c, st)) := if c =? ch_caret then (true, getc st) else (false, (c, st)) in
    '(iflag, st) ← class_loop fuel endbuf c 0 1 st;
    class_finish neg iflag st.

(** ** Interval expressions *)

(** [do { ... } while (((c = GETC()) != '\\') && (c != ','))], on [int]. *)
Fixpoint range_digits (fuel : nat) c (i : Z) st : res (Z * Z * cstate S) :=
  match fuel with
  | O => NoFuel
  | Datatypes.S fuel =>
      if (ch_0 <=? c) && (c <=? ch_9) then
        let i := s32 (10 * i + c - ch_0) in
        let '(c, st) := getc st in
        if (c =? ch_bs) || (c =? ch_comma) then Val (c, i, st)
        else range_digits fuel c i st
      else Err 16
  end.

(** From [if (GETC() != '}')] to [continue]. *)
Definition range_end (i cflg : Z) st : res (turn S) :=
  let '(c, st) := getc st in
  if negb (c =? ch_rbrace) then Err 45
  else if cflg =? 0 then st ← emit (u8 i) st; Val (Continue st)
  else
    b1 ← get_at (-1) st; b2 ← get_at (-2) st;
    if (b1 .& 255) <? (b2 .& 255) then Err 46 else Val (Continue st).

(** [nlim:] *)
Fixpoint range_nlim (fuel : nat) (cflg : Z) st : res (turn S) :=
  match fuel with
  | O => NoFuel
  | Datatypes.S fuel =>
      let '(c, st) := getc st in
      '(c, i, st) ← range_digits fuel c 0 st;
      if 255 <=? i then Err 11
      else
        st ← emit (u8 i) st;
        if c =? ch_comma then
          if truth cflg then Err 44
          else
            let cflg := cflg + 1 in
            let '(c, st) := getc st in
            if c =? ch_bs then st ← emit 255 st; range_end i cflg st
            else range_nlim fuel cflg (ungetc c st)
        else range_end i cflg st
  end.

(** [*lastep |= flag] *)
Definition or_lastep (l : nat) (flag : Z) st : res (cstate S) :=
  b ← acc (rd (buf st) l);
  m ← acc (wr (buf st) l (b .| flag));
  Val (set_buf m st).

(** ** [case '\\':] *)
Definition compile_backslash (fuel : nat) st : res (turn S) :=
  let '(c, st) := getc st in
  if c =? ch_lparen then
    if NBRA <=? nbra st then Err 43
    else
      let st := set_bracket (nbra st :: bracket st) st in
      st ← emit CBRA st;
      st ← emit (u8 (nbra st)) st;
      Val (Continue (set_nbra (nbra st + 1) st))
  else if c =? ch_rparen then
    match bracket st with
    | [] => Err 42
    | b :: rest =>
        st ← emit CKET st;
        st ← emit b (set_bracket rest st);
        Val (Continue (set_closed (closed st + 1) st))
    end
  else if c =? ch_lbrace then
    match lastep st with
    | None => defchar c st
    | Some l => st ← or_lastep l RNGE st; range_nlim fuel 0 st
    end
  else if c =? NL then Err 36
  else if c =? ch_n then defchar NL st
  else if (ch_1 <=? c) && (c <=? ch_9) then
    let c := c - ch_1 in
    if closed st <=? c then Err 25
    else
      st ← emit CBACK st;
      st ← emit (u8 c) st;
      Val (Continue st)
  else defchar c st.

(** ** One turn of the main loop *)
Definition compile_eof st : res (turn S) :=
  st ← emit CCEOF st;
  match bracket st with
  | [] => Val (Return st)
  | _ => Err 42
  end.

Definition compile_turn (fuel : nat) (sed : bool) (endbuf : nat) (eof : Z) st : res (turn S) :=
  if (endbuf <=? ep st)%nat then Err 50
  else
    let '(c, st) := getc st in
    let st := if negb (c =? ch_star) && (negb (c =? ch_bs) || negb (peekc st =? ch_lbrace))
              then set_lastep (Some (ep st)) st else st in
    if c =? eof then compile_eof st
    else if c =? ch_dot then st ← emit CDOT st; Val (Continue st)
    else if c =? NL then
      if negb sed then
        let st := ungetc c st in
        st ← emit CCEOF st;
        let st := set_nodelim 1 st in
        match bracket st with
        | [] => Val (Return st)
        | _ => Err 42
        end
      else Err 36
    else if c =? ch_star then
      match lastep st with
      | None => defchar c st
      | Some l =>
          b ← acc (rd (buf st) l);
          if (b =? CBRA) || (b =? CKET) then defchar c st
          else st ← or_lastep l STAR st; Val (Continue st)
      end
    else if c =? ch_dollar then
      if negb (peekc st =? eof) && negb (peekc st =? NL) then defchar c st
      else st ← emit CDOL st; Val (Continue st)
    else if c =? ch_lbrack then compile_class fuel endbuf st
    else if c =? ch_bs then compile_backslash fuel st
    else defchar c st.

Fixpoint compile_loop (fuel : nat) (sed : bool) (endbuf : nat) (eof : Z) st : res (cstate S) :=
  match fuel with
  | O => NoFuel
  | Datatypes.S fuel =>
      t ← compile_turn fuel sed endbuf eof st;
      match t with
      | Continue st => compile_loop fuel sed endbuf eof st
      | Return st => Val st
      end
  end.

(** ** [char *compile(char *instring, char *ep, const char *endbuf, int seof)]
    The result holds the returned pointer in [ep]. *)
Definition compile (fuel : nat) (sed : bool) (endbuf : nat) (eof : Z) st : res (cstate S) :=
  let st := set_lastep None st in
  let '(c, st) := getc st in
  if (c =? eof) || (c =? NL) then
    let st := if c =? NL then set_nodelim 1 (ungetc c st) else st in
    b ← get_at 0 st;
    if (b =? 0) && negb sed then Err 41 else Val st
  else
    let circ := if c =? ch_caret then 1 else 0 in
    let st := if c =? ch_caret then st else ungetc c st in
    compile_loop fuel sed endbuf eof
      (CState (src st) (buf st) (ep st) circ 0 (nodelim st) (lastep st) [] 0).

End Compile.

(** ** Matching: the file-scope variables [advance] and [step] write *)
Record regs := Regs {
  braslist : list (option nat);
  braelist : list (option nat);
  loc1 : option nat;
  loc2 : option nat;
}.

Definition set_bras (x : list (option nat)) (r : regs) := Regs x (braelist r) (loc1 r) (loc2 r).
Definition set_brae (x : list (option nat)) (r : regs) := Regs (braslist r) x (loc1 r) (loc2 r).
Definition set_loc1 (x : option nat) (r : regs) := Regs (braslist r) (braelist r) x (loc2 r).
Definition set_loc2 (x : option nat) (r : regs) := Regs (braslist r) (braelist r) (loc1 r) x.

Section Match.
(** The compiled expression, the subject, and [locs]. *)
Context (code str : list Z) (locs : option nat).
Implicit Types (r : regs) (lp ep : nat).

(** [#define ISTHERE(c) (ep[c >> 3] & bittab[c & 07])] *)
Definition ISTHERE ep (c : Z) : res bool :=
  b ← acc (rd code (ep + Z.to_nat (c >>> 3)));
  t ← acc (bittab !! Z.to_nat (c .& 7));
  Val (truth (b .& t)).

(** [getrnge]: the pair ([low], [size]). *)
Definition getrnge (s : nat) : res (Z * Z) :=
  lo ← acc (rd code s);
  hi ← acc (rd code (s + 1));
  let low := lo .& 255 in
  Val (low, if (hi .& 255) =? 255 then 20000 else (hi .& 255) - low).

(** [strncmp(s1, s2, n) == 0] on the suffixes of the subject. *)
Fixpoint strncmp_eq (s1 s2 : list Z) (n : Z) : res bool :=
  if n =? 0 then Val true
  else
    match s1, s2 with
    | a :: s1, b :: s2 =>
        if a =? b then if a =? 0 then Val true else strncmp_eq s1 s2 (n - 1)
        else Val false
    | _, _ => Ub
    end.

Definition ecmp (p1 p2 : nat) (n : Z) : res bool := strncmp_eq (drop p1 str) (drop p2 str) n.

(** ** The character tests of the repeated cases
    Each is the condition under which the loop goes on, on the byte [b] read
    by [*lp++]; [ep] points at the operand. *)
Definition test_chr (a b : Z) : res bool := Val (b =? a).
Definition test_dot (b : Z) : res bool := Val (negb (b =? 0)).
Definition test_xcl ep (b : Z) : res bool := ISTHERE ep b.
(** [((c & 0200) == 0 && ISTHERE(c)) ^ neg] with [c] a sign-extended char. *)
Definition test_ccl ep (neg : bool) (b : Z) : res bool :=
  let c := s8 b in
  t ← (if truth (c .& 128) then Val false else ISTHERE ep c);
  Val (xorb t neg).

(** [while (low--) if (!test( *lp++)) return (0);]
    the suffix [s] starts at [lp]; [None] is the [return]. *)
Fixpoint scan_low (n : nat) (test : Z -> res bool) (s : list Z) lp : res (option nat) :=
  match n with
  | O => Val (Some lp)
  | S n =>
      match s with
      | [] => Ub
      | b :: s => t ← test b; if (t : bool) then scan_low n test s (S lp) else Val None
      end
  end.

(** [while (size--) if (!test( *lp++)) break; if (size < 0) lp++;] *)
Fixpoint scan_size (size : Z) (test : Z -> res bool) (s : list Z) lp : res nat :=
  if size =? 0 then Val (S lp)
  else
    match s with
    | [] => Ub
    | b :: s =>
        t ← test b;
        if (t : bool) then scan_size (size - 1) test s (S lp)
        else Val (if size - 1 <? 0 then S (S lp) else S lp)
    end.

(** [while (test( *lp++));] *)
Fixpoint scan_star (test : Z -> res bool) (s : list Z) lp : res nat :=
  match s with
  | [] => Ub
  | b :: s => t ← test b; if (t : bool) then scan_star test s (S lp) else Val (S lp)
  end.

(** A [RNGE] case up to [goto star]: the interval bytes are at [rp], and the
    expression goes on at [ep']; the result is ([lp], [curlp], [ep]). *)
Definition rnge_case (test : Z -> res bool) (rp ep' : nat) lp : res (option (nat * nat * nat)) :=
  '(low, size) ← getrnge rp;
  o ← scan_low (Z.to_nat low) test (drop lp str) lp;
  match o with
  | None => Val None
  | Some curlp =>
      lp ← scan_size size test (drop curlp str) curlp;
      Val (Some (lp, curlp, ep'))
  end.

(** A [STAR] case up to [goto star]. *)
Definition star_case (test : Z -> res bool) (ep' : nat) lp : res (option (nat * nat * nat)) :=
  lp' ← scan_star test (drop lp str) lp;
  Val (Some (lp', lp, ep')).

(** The cases that end in [goto star]; [None] when [op] is another opcode.
    [ep] has been moved past the opcode. *)
Definition repeat_case (op : Z) lp ep : option (res (option (nat * nat * nat))) :=
  if op =? (CCHR .| RNGE) then
    Some (a ← acc (rd code ep); rnge_case (test_chr a) (ep + 1) (ep + 3) lp)
  else if op =? (CDOT .| RNGE) then Some (rnge_case test_dot ep (ep + 2) lp)
  else if op =? (CXCL .| RNGE) then Some (rnge_case (test_xcl ep) (ep + 32) (ep + 34) lp)
  else if op =? (NCCL .| RNGE) then Some (rnge_case (test_ccl ep true) (ep + 16) (ep + 18) lp)
  else if op =? (CCL .| RNGE) then Some (rnge_case (test_ccl ep false) (ep + 16) (ep + 18) lp)
  else if op =? (CDOT .| STAR) then Some (star_case test_dot ep lp)
  else if op =? (CCHR .| STAR) then
    Some (a ← acc (rd code ep); star_case (test_chr a) (ep + 1) lp)
  else if op =? (CXCL .| STAR) then Some (star_case (test_xcl ep) (ep + 32) lp)
  else if op =? (NCCL .| STAR) then Some (star_case (test_ccl ep true) (ep + 16) lp)
  else if op =? (CCL .| STAR) then Some (star_case (test_ccl ep false) (ep + 16) lp)
  else None.

(** [star:] [do { if (--lp == locs) break; if (advance(lp, ep)) return (1);
    } while (lp > curlp); return (0);] *)
Fixpoint star_loop (adv : regs -> nat -> nat -> res (bool * regs)) r lp (curlp : nat) ep
    : res (bool * regs) :=
  match lp with
  | O => Ub
  | S lp =>
      if bool_decide (Some lp = locs) then Val (false, r)
      else
        '(m, r) ← adv r lp ep;
        if (m : bool) then Val (true, r)
        else if (curlp <? lp)%nat then star_loop adv r lp curlp ep
        else Val (false, r)
  end.

(** [bbeg = braslist[*ep]; ct = braelist[*ep] - bbeg] as a [size_t]. *)
Definition back_ref r ep : res (nat * Z) :=
  n ← acc (rd code ep);
  b ← acc (braslist r !! Z.to_nat n);
  e ← acc (braelist r !! Z.to_nat n);
  b ← acc b; e ← acc e;
  Val (b, u32 (Z.of_nat e - Z.of_nat b)).

(** [while (ecmp(bbeg, lp, ct)) lp += ct;] *)
Fixpoint back_scan (fuel : nat) (bbeg : nat) lp (ct : Z) : res nat :=
  match fuel with
  | O => NoFuel
  | S fuel =>
      t ← ecmp bbeg lp ct;
      if (t : bool) then back_scan fuel bbeg (lp + Z.to_nat ct) ct else Val lp
  end.

(** [while (lp >= curlp) { if (advance(lp, ep)) return (1); lp -= ct; } return (0);] *)
Fixpoint back_retry (fuel : nat) (adv : regs -> nat -> nat -> res (bool * regs)) r (lp curlp : Z)
    (ct : Z) ep : res (bool * regs) :=
  match fuel with
  | O => NoFuel
  | S fuel =>
      if curlp <=? lp then
        '(m, r) ← adv r (Z.to_nat lp) ep;
        if (m : bool) then Val (true, r) else back_retry fuel adv r (lp - ct) curlp ct ep
      else Val (false, r)
  end.

(** ** [int advance(const char *lp, const char *ep)]
    One unit of fuel per turn of [while (1)]; an opcode without a [case]
    falls out of the switch and the loop goes on with the next byte. *)
Fixpoint advance (fuel : nat) r lp ep : res (bool * regs) :=
  match fuel with
  | O => NoFuel
  | S fuel =>
      op ← acc (rd code ep);
      let ep := (ep + 1)%nat in
      if op =? CCHR then
        a ← acc (rd code ep); b ← acc (rd str lp);
        if a =? b then advance fuel r (lp + 1) (ep + 1) else Val (false, r)
      else if op =? CDOT then
        b ← acc (rd str lp);
        if truth b then advance fuel r (lp + 1) ep else Val (false, r)
      else if op =? CDOL then
        b ← acc (rd str lp);
        if b =? 0 then advance fuel r lp ep else Val (false, r)
      else if op =? CCEOF then Val (true, set_loc2 (Some lp) r)
      else if op =? CXCL then
        b ← acc (rd str lp); t ← test_xcl ep b;
        if (t : bool) then advance fuel r (lp + 1) (ep + 32) else Val (false, r)
      else if op =? NCCL then
        b ← acc (rd str lp); t ← test_ccl ep true b;
        if (t : bool) then advance fuel r (lp + 1) (ep + 16) else Val (false, r)
      else if op =? CCL then
        b ← acc (rd str lp); t ← test_ccl ep false b;
        if (t : bool) then advance fuel r (lp + 1) (ep + 16) else Val (false, r)
      else if op =? CBRA then
        n ← acc (rd code ep);
        _ ← acc (braslist r !! Z.to_nat n);
        advance fuel (set_bras (<[Z.to_nat n := Some lp]> (braslist r)) r) lp (ep + 1)
      else if op =? CKET then
        n ← acc (rd code ep);
        _ ← acc (braelist r !! Z.to_nat n);
        advance fuel (set_brae (<[Z.to_nat n := Some lp]> (braelist r)) r) lp (ep + 1)
      else if op =? CBACK then
        '(bbeg, ct) ← back_ref r ep;
        t ← ecmp bbeg lp ct;
        if (t : bool) then advance fuel r (lp + Z.to_nat ct) (ep + 1) else Val (false, r)
      else if op =? (CBACK .| STAR) then
        '(bbeg, ct) ← back_ref r ep;
        lp' ← back_scan fuel bbeg lp ct;
        back_retry fuel (advance fuel) r (Z.of_nat lp') (Z.of_nat lp) ct (ep + 1)
      else
        match repeat_case op lp ep with
        | Some c =>
            o ← c;
            match o with
            | None => Val (false, r)
            | Some (lp, curlp, ep) => star_loop (advance fuel) r lp curlp ep
            end
        | None => advance fuel r lp ep
        end
  end.

(** ** [int step(const char *p1, const char *p2)]
    [do { ... } while ( *p1++)] over the suffix [s] of the subject at [p1];
    [fast] is the first-character check of the [CCHR] loop. *)
Fixpoint step_loop (fuel : nat) (fast : option Z) (s : list Z) r (p1 p2 : nat) : res (bool * regs) :=
  match s with
  | [] => Ub
  | b :: s =>
      let next r := if truth b then step_loop fuel fast s r (S p1) p2 else Val (false, r) in
      if match fast with Some c => negb (b =? c) | None => false end then next r
      else
        '(m, r) ← advance fuel r p1 p2;
        if (m : bool) then Val (true, set_loc1 (Some p1) r) else next r
  end.

Definition step (fuel : nat) (circf : Z) r (p1 p2 : nat) : res (bool * regs) :=
  if truth circf then advance fuel (set_loc1 (Some p1) r) p1 p2
  else
    op ← acc (rd code p2);
    if op =? CCHR then
      c ← acc (rd code (p2 + 1));
      step_loop fuel (Some c) (drop p1 str) r p1 p2
    else step_loop fuel None (drop p1 str) r p1 p2.

End Match.
