(* ===== verification/RegexpSpec.v ===== *)
(** * What a compiled expression means

    The expressions [compile] produces, as a syntax of items ([atom],
    [item]), their byte encoding, and two semantics on a subject: the
    declarative relation [Matches] and the backtracking function [rmatch],
    which gives the match the greedy order prefers.  [rmatch_sound] and
    [rmatch_complete] relate the two. *)
From S2P Require Import Prelude Regexp.

(** ** Syntax *)
Inductive atom :=
  | AChr (c : Z)
  | AAny
  | ACcl (neg : bool) (bm : list Z)
  | AXcl (bm : list Z).

Inductive item :=
  | IAtom (a : atom)
  | IStar (a : atom)
  | IRange (a : atom) (lo hi : Z)
  | IEol
  | IBra (n : nat)
  | IKet (n : nat)
  | IBack (n : nat).

(** ** Encoding *)
Definition atom_op (a : atom) : Z :=
  match a with
  | AChr _ => CCHR
  | AAny => CDOT
  | ACcl neg _ => if neg then NCCL else CCL
  | AXcl _ => CXCL
  end.

Definition atom_args (a : atom) : list Z :=
  match a with
  | AChr c => [c]
  | AAny => []
  | ACcl _ bm => bm
  | AXcl bm => bm
  end.

Definition encode_item (i : item) : list Z :=
  match i with
  | IAtom a => atom_op a :: atom_args a
  | IStar a => (atom_op a .| STAR) :: atom_args a
  | IRange a lo hi => (atom_op a .| RNGE) :: atom_args a ++ [lo; hi]
  | IEol => [CDOL]
  | IBra n => [CBRA; Z.of_nat n]
  | IKet n => [CKET; Z.of_nat n]
  | IBack n => [CBACK; Z.of_nat n]
  end.

Definition encode (l : list item) : list Z := (l ≫= encode_item) ++ [CCEOF].

(** ** Atoms on a byte of the subject *)
Definition bm_bit (bm : list Z) (b : Z) : bool :=
  match bm !! Z.to_nat (b >>> 3) with
  | Some x => Z.testbit x (b .& 7)
  | None => false
  end.

Definition atom_ok (a : atom) (b : Z) : bool :=
  match a with
  | AChr c => b =? c
  | AAny => negb (b =? 0)
  | ACcl neg bm => xorb ((b <? 128) && bm_bit bm b) neg
  | AXcl bm => bm_bit bm b
  end.

(** An atom is well formed when its operand has the size of its opcode and
    it does not match the terminating NUL. *)
Definition wf_atom (a : atom) : Prop :=
  match a with
  | AChr c => 0 < c < 256
  | AAny => True
  | ACcl _ bm => length bm = 16%nat /\ Forall is_byte bm /\ atom_ok a 0 = false
  | AXcl bm => length bm = 32%nat /\ Forall is_byte bm /\ atom_ok a 0 = false
  end.

(** [hi] 255 means no upper bound; the code then takes up to 20000 more. *)
Definition extra (lo hi : Z) : Z := if hi =? 255 then 20000 else Z.max 0 (hi - lo).

(** Groups opened and closed so far: each group is opened once and closed
    once, and referred to only when closed. *)
Fixpoint wf_items (opened clsd : list nat) (l : list item) : Prop :=
  match l with
  | [] => True
  | IAtom a :: l | IStar a :: l => wf_atom a /\ wf_items opened clsd l
  | IRange a lo hi :: l => wf_atom a /\ (0 <= lo < 255) /\ (lo <= hi <= 255) /\ wf_items opened clsd l
  | IEol :: l => wf_items opened clsd l
  | IBra n :: l => (n < 9)%nat /\ (n ∉ opened) /\ wf_items (n :: opened) clsd l
  | IKet n :: l => (n < 9)%nat /\ (n ∈ opened) /\ (n ∉ clsd) /\ wf_items opened (n :: clsd) l
  | IBack n :: l => (n ∈ opened) /\ (n ∈ clsd) /\ wf_items opened clsd l
  end.

(** ** Semantics *)
Record env := Env { bras : nat -> nat; braes : nat -> nat }.
Definition upd (f : nat -> nat) (n x : nat) : nat -> nat := fun m => if (m =? n)%nat then x else f m.
Definition set_b (e : env) (n x : nat) : env := Env (upd (bras e) n x) (braes e).
Definition set_e (e : env) (n x : nat) : env := Env (bras e) (upd (braes e) n x).

Lemma extra_nonneg lo hi : 0 <= extra lo hi.
Proof. unfold extra. destruct (hi =? 255); lia. Qed.

Section Semantics.
(** The subject, without its terminating NUL. *)
Context (s : list Z).

Definition atom_at (a : atom) (i : nat) : bool :=
  match s !! i with Some b => atom_ok a b | None => false end.

(** The text of group [n] occurs at [i]. *)
Definition group_at (e : env) (n i : nat) : bool :=
  let len := (braes e n - bras e n)%nat in
  bool_decide (take len (drop i s) = take len (drop (bras e n) s)).

(** [a] matches the [k] bytes from [i]. *)
Definition run (a : atom) (i k : nat) : Prop := forall j, (j < k)%nat -> atom_at a (i + j) = true.

Inductive Matches : list item -> env -> nat -> env -> nat -> Prop :=
  | M_nil e i : Matches [] e i e i
  | M_atom a l e i e' j :
      atom_at a i = true -> Matches l e (S i) e' j -> Matches (IAtom a :: l) e i e' j
  | M_star a l e i k e' j :
      run a i k -> Matches l e (i + k) e' j -> Matches (IStar a :: l) e i e' j
  | M_range a lo hi l e i k e' j :
      run a i (Z.to_nat lo + k) -> Z.of_nat k <= extra lo hi ->
      Matches l e (i + (Z.to_nat lo + k)) e' j -> Matches (IRange a lo hi :: l) e i e' j
  | M_eol l e i e' j :
      i = length s -> Matches l e i e' j -> Matches (IEol :: l) e i e' j
  | M_bra n l e i e' j :
      Matches l (set_b e n i) i e' j -> Matches (IBra n :: l) e i e' j
  | M_ket n l e i e' j :
      Matches l (set_e e n i) i e' j -> Matches (IKet n :: l) e i e' j
  | M_back n l e i e' j :
      group_at e n i = true -> Matches l e (i + (braes e n - bras e n)) e' j ->
      Matches (IBack n :: l) e i e' j.

(** The longest run of [a] from [i]: it ends in the subject. *)
Fixpoint run_len_aux (fuel : nat) (a : atom) (i : nat) : nat :=
  match fuel with
  | O => O
  | S fuel => if atom_at a i then S (run_len_aux fuel a (S i)) else O
  end.
Definition run_len (a : atom) (i : nat) : nat := run_len_aux (length s - i) a i.

(** [f] at [i + k], [i + k - 1], ..., [i]: the first success. *)
Fixpoint first_down {A} (f : nat -> option A) (i k : nat) : option A :=
  match f (i + k)%nat with
  | Some x => Some x
  | None => match k with O => None | S k => first_down f i k end
  end.

Fixpoint rmatch (l : list item) (e : env) (i : nat) : option (env * nat) :=
  match l with
  | [] => Some (e, i)
  | IAtom a :: l => if atom_at a i then rmatch l e (S i) else None
  | IStar a :: l => first_down (rmatch l e) i (run_len a i)
  | IRange a lo hi :: l =>
      if (Z.to_nat lo <=? run_len a i)%nat
      then first_down (rmatch l e) (i + Z.to_nat lo)
             (Z.to_nat (Z.of_nat (run_len a i - Z.to_nat lo) `min` extra lo hi))
      else None
  | IEol :: l => if (i =? length s)%nat then rmatch l e i else None
  | IBra n :: l => rmatch l (set_b e n i) i
  | IKet n :: l => rmatch l (set_e e n i) i
  | IBack n :: l =>
      if group_at e n i then rmatch l e (i + (braes e n - bras e n)) else None
  end.

(** ** The two semantics agree *)
Lemma atom_at_lt a i : atom_at a i = true -> (i < length s)%nat.
Proof. unfold atom_at. destruct (s !! i) eqn:E; [|done]. intros _. by eapply lookup_lt_Some. Qed.

Lemma run_len_aux_run fuel a i j :
  (j < run_len_aux fuel a i)%nat -> atom_at a (i + j) = true.
Proof.
  revert i j. induction fuel as [|fuel IH]; intros i j; simpl; [lia|].
  destruct (atom_at a i) eqn:E; [|lia]. intros Hj. destruct j as [|j]; [by rewrite Nat.add_0_r|].
  rewrite Nat.add_succ_r, <- Nat.add_succ_l. apply IH. lia.
Qed.

Lemma run_len_run a i k : (k <= run_len a i)%nat -> run a i k.
Proof. intros Hk j Hj. apply (run_len_aux_run (length s - i)). unfold run_len in Hk. lia. Qed.

Lemma run_len_max a i k : run a i k -> (k <= run_len a i)%nat.
Proof.
  unfold run_len. remember (length s - i)%nat as fuel eqn:Ef. revert i k Ef.
  induction fuel as [|fuel IH]; intros i k Ef Hr.
  - destruct k as [|k]; [lia|]. specialize (Hr 0%nat ltac:(lia)).
    apply atom_at_lt in Hr. lia.
  - destruct k as [|k]; [lia|]. simpl. pose proof (Hr 0%nat ltac:(lia)) as H0.
    rewrite Nat.add_0_r in H0. rewrite H0. apply le_n_S, IH; [lia|].
    intros j Hj. rewrite Nat.add_succ_l, <- Nat.add_succ_r. apply Hr. lia.
Qed.

Lemma run_len_iff a i k : run a i k <-> (k <= run_len a i)%nat.
Proof. split; [apply run_len_max|apply run_len_run]. Qed.

Lemma first_down_Some {A} (f : nat -> option A) i k x :
  first_down f i k = Some x -> exists m, (m <= k)%nat /\ f (i + m)%nat = Some x.
Proof.
  induction k as [|k IH]; simpl.
  - destruct (f (i + 0)%nat) eqn:E; [|done]. intros [= ->]. by exists 0%nat.
  - destruct (f (i + S k)%nat) eqn:E.
    + intros [= ->]. by exists (S k).
    + intros (m & ? & ?)%IH. exists m. split; [lia|done].
Qed.

Lemma first_down_None {A} (f : nat -> option A) i k m :
  first_down f i k = None -> (m <= k)%nat -> f (i + m)%nat = None.
Proof.
  induction k as [|k IH]; simpl.
  - destruct (f (i + 0)%nat) eqn:E; [done|]. intros _ ?. by replace m with 0%nat by lia.
  - destruct (f (i + S k)%nat) eqn:E; [done|]. intros H Hm.
    destruct (decide (m = S k)) as [->|]; [done|]. apply IH; [done|lia].
Qed.

Lemma rmatch_sound l e i e' j : rmatch l e i = Some (e', j) -> Matches l e i e' j.
Proof.
  revert e i. induction l as [|it l IH]; intros e i; simpl; [intros [= -> ->]; constructor|].
  destruct it as [a|a|a lo hi| |n|n|n].
  - destruct (atom_at a i) eqn:E; [|done]. intros ?. by constructor; [|apply IH].
  - intros (k & Hk & Hr)%first_down_Some. econstructor; [by apply run_len_iff|by apply IH].
  - destruct (Nat.leb_spec (Z.to_nat lo) (run_len a i)); [|done].
    pose proof (extra_nonneg lo hi). intros (k & Hk & Hr)%first_down_Some.
    apply (M_range a lo hi l e i k); [apply run_len_iff; lia|lia|].
    rewrite Nat.add_assoc. by apply IH.
  - destruct (Nat.eqb_spec i (length s)); [|done]. intros ?. by constructor; [|apply IH].
  - intros ?. constructor. by apply IH.
  - intros ?. constructor. by apply IH.
  - destruct (group_at e n i) eqn:E; [|done]. intros ?. by constructor; [|apply IH].
Qed.

Lemma rmatch_complete l e i e' j : Matches l e i e' j -> is_Some (rmatch l e i).
Proof.
  induction 1 as [|a l e i e' j Ha _ IH|a l e i k e' j Hr _ IH|a lo hi l e i k e' j Hr Hk _ IH
    |l e i e' j Hi _ IH|n l e i e' j _ IH|n l e i e' j _ IH|n l e i e' j Hg _ IH]; simpl.
  - by eexists.
  - by rewrite Ha.
  - destruct (first_down _ _ _) eqn:E; [by eexists|].
    apply (first_down_None _ _ _ k) in E; [|by apply run_len_iff].
    rewrite E in IH. by destruct IH.
  - apply run_len_iff in Hr. destruct (Nat.leb_spec (Z.to_nat lo) (run_len a i)); [|lia].
    destruct (first_down _ _ _) eqn:E; [by eexists|].
    apply (first_down_None _ _ _ k) in E; [|lia].
    rewrite Nat.add_assoc, E in IH. by destruct IH.
  - by rewrite (proj2 (Nat.eqb_eq _ _) Hi).
  - done.
  - done.
  - by rewrite Hg.
Qed.

Lemma rmatch_bound l e i e' j :
  (i <= length s)%nat -> rmatch l e i = Some (e', j) -> (i <= j)%nat.
Proof.
  intros _ H%rmatch_sound. induction H; lia.
Qed.

End Semantics.
