(* ===== verification/RegexpMatch.v ===== *)
(** * advance implements the semantics of compiled expressions

    For a compiled expression that encodes well-formed items, [advance]
    terminates within one unit of fuel per item, never leaves an array, and
    its result is the reference matcher's ([RegexpSpec.rmatch]). *)
From S2P Require Import Prelude Regexp RegexpSpec.

(** ** Reading the compiled expression and the subject *)
Lemma drop_cons_rd (code : list Z) ep x l :
  drop ep code = x :: l -> rd code ep = Some x /\ drop (ep + 1) code = l.
Proof.
  intros H. assert (rd code ep = Some x) as Hx.
  { unfold rd. pose proof (lookup_drop code ep 0) as Hl. rewrite H, Nat.add_0_r in Hl. done. }
  split; [done|]. rewrite (drop_S code x ep Hx) in H. injection H as H.
  by rewrite Nat.add_1_r.
Qed.

Lemma drop_app_rd (code : list Z) ep l tl k x :
  drop ep code = l ++ tl -> l !! k = Some x -> rd code (ep + k) = Some x.
Proof.
  intros H Hk. unfold rd. rewrite <- lookup_drop, H. by apply lookup_app_l_Some.
Qed.

Lemma drop_app_skip (code : list Z) ep l tl :
  drop ep code = l ++ tl -> drop (ep + length l) code = tl.
Proof. intros H. by rewrite <- drop_drop, H, drop_app_length. Qed.

(** ** Bits of a character class *)
Lemma low3_range c : 0 <= c .& 7 < 8.
Proof. change 7 with (Z.ones 3). rewrite Z.land_ones by lia. apply Z.mod_pos_bound. lia. Qed.

Lemma bittab_lookup c : bittab !! Z.to_nat (c .& 7) = Some (2 ^ (c .& 7)).
Proof.
  pose proof (low3_range c) as H. generalize dependent (c .& 7). intros k Hk.
  assert (k = 0 \/ k = 1 \/ k = 2 \/ k = 3 \/ k = 4 \/ k = 5 \/ k = 6 \/ k = 7) as Hc by lia.
  by repeat destruct Hc as [->|Hc]; [..|subst k].
Qed.

Lemma ISTHERE_spec code ep bm tl c :
  drop ep code = bm ++ tl -> 0 <= c < 8 * Z.of_nat (length bm) ->
  ISTHERE code ep c = Val (bm_bit bm c).
Proof.
  intros Hd Hc. unfold ISTHERE, bm_bit.
  assert (0 <= c >>> 3 < Z.of_nat (length bm)) as Hr.
  { rewrite Z.shiftr_div_pow2 by lia. split; [apply Z.div_pos; lia|].
    apply Z.div_lt_upper_bound; lia. }
  destruct (lookup_lt_is_Some_2 bm (Z.to_nat (c >>> 3)) ltac:(lia)) as [x Hx].
  rewrite (drop_app_rd _ _ _ _ _ _ Hd Hx), Hx, bittab_lookup. cbn.
  by rewrite truth_land_pow2 by (pose proof (low3_range c); lia).
Qed.

Lemma s8_small b : 0 <= b < 128 -> s8 b = b.
Proof. intros. apply wraps_id; lia. Qed.

Lemma s8_high b : 128 <= b < 256 -> truth (s8 b .& 128) = true.
Proof.
  intros Hb. change 128 with (2 ^ 7). rewrite truth_land_pow2 by lia.
  assert (s8 b = b - 256) as ->.
  { unfold wraps. change (2 ^ (8 - 1)) with 128. change (2 ^ 8) with 256.
    rewrite <- (Z_mod_plus_full (b + 128) (-1)), Z.mod_small by lia. lia. }
  assert (b - 256 = - (256 - b)) as -> by lia.
  apply Z.testbit_true; [lia|]. change (2 ^ 7) with 128.
  assert (- (256 - b) / 128 = -1) as -> by (Z.to_euclidean_division_equations; lia). done.
Qed.

Lemma land128_low b : 0 <= b < 128 -> truth (b .& 128) = false.
Proof.
  intros Hb. change 128 with (2 ^ 7). rewrite truth_land_pow2 by lia.
  by apply (in_u_testbit 7).
Qed.

(** ** Tests are atoms *)
Definition test_of (code : list Z) (a : atom) (ep : nat) : Z -> res bool :=
  match a with
  | AChr c => test_chr c
  | AAny => test_dot
  | ACcl neg _ => test_ccl code ep neg
  | AXcl _ => test_xcl code ep
  end.

Lemma test_of_spec code a ep tl b :
  wf_atom a -> drop ep code = atom_args a ++ tl -> is_byte b ->
  test_of code a ep b = Val (atom_ok a b).
Proof.
  intros Ha Hd Hb. unfold is_byte in Hb. destruct a as [c| |neg bm|bm]; simpl in *; try done.
  - destruct Ha as (Hl & _ & _). unfold test_ccl. destruct (Z.ltb_spec b 128); simpl.
    + rewrite s8_small, land128_low by lia. by rewrite (ISTHERE_spec _ _ bm tl) by (done || rewrite Hl; lia).
    + by rewrite s8_high by lia.
  - destruct Ha as (Hl & _ & _). unfold test_xcl. apply (ISTHERE_spec _ _ bm tl); [done|rewrite Hl; lia].
Qed.

Lemma atom_ok_nul a : wf_atom a -> atom_ok a 0 = false.
Proof. destruct a; simpl; [destruct c; lia || done|done|tauto|tauto]. Qed.


(** ** Scans of the subject *)
Section Subject.
(** The subject [s] is followed by its NUL and whatever is after it. *)
Context (code s junk : list Z).
Context (Hs : Forall (fun b => 0 < b < 256) s).
Abbreviation str := (s ++ 0 :: junk).

Lemma subject_byte i :
  (i <= length s)%nat ->
  exists b, rd str i = Some b /\ drop i str = b :: drop (S i) str /\ is_byte b
    /\ truth b = (i <? length s)%nat
    /\ (forall a, wf_atom a -> atom_ok a b = atom_at s a i).
Proof.
  intros Hi. unfold rd, atom_at. destruct (s !! i) as [b|] eqn:E.
  - pose proof (lookup_lt_Some _ _ _ E) as Hlt.
    pose proof (Forall_lookup_1 _ _ _ _ Hs E) as Hb. simpl in Hb.
    assert (str !! i = Some b) as Hl by (by apply lookup_app_l_Some).
    exists b. split_and!; [done|by apply drop_S|unfold is_byte; lia| |done].
    unfold truth. destruct (Z.eqb_spec b 0), (Nat.ltb_spec i (length s)); simpl; lia || done.
  - apply lookup_ge_None_1 in E. assert (i = length s) as -> by lia.
    assert (str !! length s = Some 0) as Hl by (by rewrite lookup_app_r, Nat.sub_diag by lia).
    exists 0. split_and!; [done|by apply drop_S|unfold is_byte; lia| |].
    + unfold truth. by rewrite Nat.ltb_irrefl.
    + intros a Ha. by apply atom_ok_nul.
Qed.

Lemma run_len_unfold a i :
  run_len s a i = if atom_at s a i then S (run_len s a (S i)) else 0%nat.
Proof.
  unfold run_len. destruct (atom_at s a i) eqn:E.
  - apply atom_at_lt in E as Hi. replace (length s - i)%nat with (S (length s - S i)) by lia.
    simpl. by rewrite E.
  - destruct (length s - i)%nat; [done|]. simpl. by rewrite E.
Qed.

Lemma run_len_bound a i : (i <= length s)%nat -> (i + run_len s a i <= length s)%nat.
Proof.
  intros Hi. destruct (run_len s a i) as [|k] eqn:E; [lia|].
  assert (run s a i (S k)) as Hr by (apply run_len_iff; lia).
  specialize (Hr k ltac:(lia)). apply atom_at_lt in Hr. lia.
Qed.

Lemma run_len_add a i k :
  (k <= run_len s a i)%nat -> run_len s a (i + k) = (run_len s a i - k)%nat.
Proof.
  revert i. induction k as [|k IH]; intros i Hk; [by rewrite Nat.add_0_r, Nat.sub_0_r|].
  rewrite run_len_unfold in Hk |- *. rewrite Nat.add_succ_r, <- Nat.add_succ_l.
  rewrite <- run_len_unfold. destruct (atom_at s a i) eqn:E; [|lia].
  rewrite IH by lia. rewrite (run_len_unfold a i), E. lia.
Qed.

(** A test that decides an atom on every byte. *)
Section Scans.
Context (a : atom) (test : Z -> res bool).
Context (Ha : wf_atom a) (Ht : forall b, is_byte b -> test b = Val (atom_ok a b)).

Lemma test_at i :
  (i <= length s)%nat ->
  exists b, drop i str = b :: drop (S i) str /\ test b = Val (atom_at s a i).
Proof.
  intros Hi. destruct (subject_byte i Hi) as (b & _ & Hd & Hb & _ & Hok).
  exists b. split; [done|]. by rewrite Ht, Hok.
Qed.

Lemma scan_star_spec i :
  (i <= length s)%nat -> scan_star test (drop i str) i = Val (S (i + run_len s a i)).
Proof.
  intros Hi. remember (length s - i)%nat as n eqn:En. revert i Hi En.
  induction n as [|n IH]; intros i Hi En; destruct (test_at i Hi) as (b & Hd & Hb);
    rewrite Hd; simpl scan_star; rewrite Hb, run_len_unfold; simpl;
    destruct (atom_at s a i) eqn:E; try (by rewrite Nat.add_0_r);
    apply atom_at_lt in E; [lia|].
  rewrite IH by lia. f_equal. lia.
Qed.

Lemma scan_low_spec n i :
  (i <= length s)%nat ->
  scan_low n test (drop i str) i
  = Val (if (n <=? run_len s a i)%nat then Some (i + n)%nat else None).
Proof.
  revert i. induction n as [|n IH]; intros i Hi; [simpl; by rewrite Nat.add_0_r|].
  destruct (test_at i Hi) as (b & Hd & Hb).
  rewrite Hd. simpl scan_low. rewrite Hb, run_len_unfold. simpl.
  destruct (atom_at s a i) eqn:E; [|done]. apply atom_at_lt in E.
  rewrite IH by lia. simpl. by rewrite <- Nat.add_succ_comm.
Qed.

Lemma scan_size_spec k i :
  (i <= length s)%nat ->
  scan_size (Z.of_nat k) test (drop i str) i = Val (S (i + k `min` run_len s a i)).
Proof.
  revert i. induction k as [|k IH]; intros i Hi.
  - destruct (drop i str); simpl; by rewrite Nat.add_0_r.
  - destruct (test_at i Hi) as (b & Hd & Hb). rewrite Hd. cbn [scan_size].
    rewrite (proj2 (Z.eqb_neq _ _)) by lia. rewrite Hb, run_len_unfold. simpl.
    replace (Z.of_nat (S k) - 1) with (Z.of_nat k) by lia.
    destruct (atom_at s a i) eqn:E.
    + apply atom_at_lt in E. rewrite IH by lia. f_equal. lia.
    + rewrite (proj2 (Z.ltb_ge _ _)) by lia. f_equal. lia.
Qed.

Lemma rnge_case_spec lo hi rp ep' i :
  (i <= length s)%nat -> rd code rp = Some lo -> rd code (rp + 1) = Some hi ->
  0 <= lo < 255 -> lo <= hi <= 255 ->
  rnge_case code str test rp ep' i
  = Val (if (Z.to_nat lo <=? run_len s a i)%nat
         then Some (S (i + Z.to_nat lo
                       + Z.to_nat (Z.of_nat (run_len s a i - Z.to_nat lo) `min` extra lo hi)),
                    (i + Z.to_nat lo)%nat, ep')
         else None).
Proof.
  intros Hi Hlo Hhi Rlo Rhi. unfold rnge_case, getrnge. rewrite Hlo, Hhi. cbn [acc mbind res_bind].
  change 255 with (Z.ones 8). rewrite !Z.land_ones, !Z.mod_small by lia. change (Z.ones 8) with 255.
  rewrite scan_low_spec by done. simpl.
  destruct (Nat.leb_spec (Z.to_nat lo) (run_len s a i)); [|done].
  pose proof (run_len_bound a i Hi). pose proof (extra_nonneg lo hi).
  assert ((if hi =? 255 then 20000 else hi - lo) = Z.of_nat (Z.to_nat (extra lo hi))) as ->.
  { unfold extra in *. destruct (hi =? 255); lia. }
  rewrite scan_size_spec, run_len_add by lia. simpl. repeat f_equal. lia.
Qed.
End Scans.

(** ** Back-references *)
Lemma ecmp_spec b i len :
  (b + len <= length s)%nat -> (i <= length s)%nat ->
  ecmp str b i (Z.of_nat len) = Val (bool_decide (take len (drop i s) = take len (drop b s))).
Proof.
  unfold ecmp. revert b i. induction len as [|len IH]; intros b i Hb Hi; [by destruct (drop b str)|].
  destruct (lookup_lt_is_Some_2 s b ltac:(lia)) as [x Hx].
  pose proof (Forall_lookup_1 _ _ _ _ Hs Hx) as Rx. simpl in Rx.
  assert (drop b str = x :: drop (S b) str) as -> by (by apply drop_S, lookup_app_l_Some).
  rewrite (drop_S s x b Hx).
  destruct (subject_byte i Hi) as (y & Hy & Hd & _ & Ht & _). rewrite Hd. cbn [strncmp_eq].
  rewrite (proj2 (Z.eqb_neq (Z.of_nat (S len)) 0)) by lia.
  destruct (Nat.ltb_spec i (length s)) as [Hlt|Hge].
  - destruct (lookup_lt_is_Some_2 s i Hlt) as [y' Hy'].
    unfold rd in Hy. rewrite (lookup_app_l_Some _ _ _ _ Hy') in Hy. injection Hy as <-.
    rewrite (drop_S s y' i Hy'). simpl take. destruct (Z.eqb_spec x y') as [->|Hne].
    + rewrite (proj2 (Z.eqb_neq y' 0)) by lia.
      replace (Z.of_nat (S len) - 1) with (Z.of_nat len) by lia. rewrite IH by lia.
      f_equal. apply bool_decide_ext. split; [by intros ->|by intros [=]].
    + f_equal. symmetry. apply bool_decide_eq_false. by intros [=].
  - rewrite (drop_ge s i) by done. simpl take.
    unfold truth in Ht. apply negb_false_iff, Z.eqb_eq in Ht as ->.
    rewrite (proj2 (Z.eqb_neq x 0)) by lia. by rewrite bool_decide_eq_false_2.
Qed.

(** ** One turn of [advance], by the item at [ep] *)
Ltac dispatch :=
  cbn [advance]; repeat match goal with H : rd code _ = Some _ |- _ => rewrite H end;
  cbn [acc mbind res_bind];
  repeat match goal with
    | |- context [?x =? ?y] => let v := eval vm_compute in (x =? y) in
        match v with true => change (x =? y) with true | false => change (x =? y) with false end
    end; cbn [acc mbind res_bind].

Context (locs : option nat).
Abbreviation adv := (advance code str locs).
Implicit Types (r : regs) (i ep f : nat).

Lemma advance_atom f r i ep a tl :
  wf_atom a -> (i <= length s)%nat -> drop ep code = encode_item (IAtom a) ++ tl ->
  adv (S f) r i ep
  = if atom_at s a i then adv f r (S i) (ep + length (encode_item (IAtom a))) else Val (false, r).
Proof.
  intros Ha Hi [Hop Hd]%drop_cons_rd.
  destruct (subject_byte i Hi) as (b & Hb & _ & Rb & Ht & Hok).
  pose proof (test_of_spec code a (ep + 1) tl b Ha Hd Rb) as Hspec. rewrite Hok in Hspec by done.
  specialize (Hok a Ha). rewrite <- (Nat.add_1_r i).
  destruct a as [c| |neg bm|bm]; simpl in Hd, Hspec; simpl atom_op in Hop.
  - apply drop_cons_rd in Hd as [Hc _]. dispatch. rewrite Hb. simpl in Hok |- *.
    rewrite <- Hok, (Z.eqb_sym c b), <- Nat.add_assoc. done.
  - dispatch. rewrite Hb. simpl in Hok |- *. by rewrite <- Hok.
  - destruct Ha as (Hl & _ & _). simpl length. rewrite Hl.
    replace (ep + 17)%nat with (ep + 1 + 16)%nat by lia.
    destruct neg; dispatch; rewrite Hb; cbn [acc mbind res_bind]; by rewrite Hspec.
  - destruct Ha as (Hl & _ & _). simpl length. rewrite Hl.
    replace (ep + 33)%nat with (ep + 1 + 32)%nat by lia.
    dispatch; rewrite Hb; cbn [acc mbind res_bind]; by rewrite Hspec.
Qed.

Lemma advance_star f r i ep a tl :
  wf_atom a -> (i <= length s)%nat -> drop ep code = encode_item (IStar a) ++ tl ->
  adv (S f) r i ep
  = star_loop locs (adv f) r (S (i + run_len s a i)) i (ep + length (encode_item (IStar a))).
Proof.
  intros Ha Hi [Hop Hd]%drop_cons_rd.
  assert (forall b, is_byte b -> test_of code a (ep + 1) b = Val (atom_ok a b)) as Ht
    by (intros; by apply test_of_spec with tl).
  pose proof (scan_star_spec a _ Ha Ht i Hi) as Hscan.
  destruct a as [c| |neg bm|bm]; simpl in Hd, Hscan; simpl atom_op in Hop; simpl length.
  - apply drop_cons_rd in Hd as [Hc _]. unfold repeat_case, star_case. dispatch.
    unfold repeat_case, star_case. dispatch. rewrite Hscan. simpl. by rewrite <- Nat.add_assoc.
  - dispatch. unfold repeat_case, star_case. dispatch. by rewrite Hscan.
  - destruct Ha as (Hl & _ & _). rewrite Hl. replace (ep + 17)%nat with (ep + 1 + 16)%nat by lia.
    destruct neg; dispatch; unfold repeat_case, star_case; dispatch; by rewrite Hscan.
  - destruct Ha as (Hl & _ & _). rewrite Hl. replace (ep + 33)%nat with (ep + 1 + 32)%nat by lia.
    dispatch; unfold repeat_case, star_case; dispatch; by rewrite Hscan.
Qed.

Lemma advance_range f r i ep a lo hi tl :
  wf_atom a -> 0 <= lo < 255 -> lo <= hi <= 255 -> (i <= length s)%nat ->
  drop ep code = encode_item (IRange a lo hi) ++ tl ->
  adv (S f) r i ep
  = if (Z.to_nat lo <=? run_len s a i)%nat
    then star_loop locs (adv f) r
      (S (i + Z.to_nat lo + Z.to_nat (Z.of_nat (run_len s a i - Z.to_nat lo) `min` extra lo hi)))
      (i + Z.to_nat lo) (ep + length (encode_item (IRange a lo hi)))
    else Val (false, r).
Proof.
  intros Ha Rlo Rhi Hi Hdrop.
  assert (drop ep code = (atom_op a .| RNGE) :: atom_args a ++ lo :: hi :: tl) as [Hop Hd]%drop_cons_rd
    by (rewrite Hdrop; simpl; by rewrite <- app_assoc). clear Hdrop.
  assert (forall b, is_byte b -> test_of code a (ep + 1) b = Val (atom_ok a b)) as Ht
    by (intros; by eapply test_of_spec).
  pose proof (drop_app_skip _ _ _ _ Hd) as Hd2.
  apply drop_cons_rd in Hd2 as [Hlo [Hhi _]%drop_cons_rd].
  pose proof (fun ep' => rnge_case_spec a _ Ha Ht lo hi _ ep' i Hi Hlo Hhi Rlo Rhi) as Hcase.
  simpl length. rewrite length_app. simpl length.
  destruct a as [c| |neg bm|bm]; simpl in Hd, Hcase; simpl atom_op in Hop; simpl length.
  - apply drop_cons_rd in Hd as [Hc _]. dispatch. unfold repeat_case. dispatch. rewrite Hcase.
    cbn [mbind res_bind]. replace (ep + 1 + 3)%nat with (ep + 4)%nat by lia. by case_match.
  - dispatch. unfold repeat_case. dispatch. rewrite Nat.add_0_r in Hcase. rewrite Hcase.
    cbn [mbind res_bind]. replace (ep + 1 + 2)%nat with (ep + 3)%nat by lia. by case_match.
  - destruct Ha as (Hl & _ & _). rewrite Hl in Hcase |- *. simpl.
    replace (ep + 19)%nat with (ep + 1 + 18)%nat by lia.
    destruct neg; dispatch; unfold repeat_case; dispatch; rewrite Hcase; cbn [mbind res_bind];
      by case_match.
  - destruct Ha as (Hl & _ & _). rewrite Hl in Hcase |- *. simpl.
    replace (ep + 35)%nat with (ep + 1 + 34)%nat by lia.
    dispatch; unfold repeat_case; dispatch; rewrite Hcase; cbn [mbind res_bind]; by case_match.
Qed.

Lemma advance_ket_bra f r i ep n tl :
  (n < 9)%nat -> length (braslist r) = 9%nat -> length (braelist r) = 9%nat ->
  (drop ep code = encode_item (IBra n) ++ tl ->
   adv (S f) r i ep = adv f (set_bras (<[n := Some i]> (braslist r)) r) i (ep + 2)) /\
  (drop ep code = encode_item (IKet n) ++ tl ->
   adv (S f) r i ep = adv f (set_brae (<[n := Some i]> (braelist r)) r) i (ep + 2)).
Proof.
  intros Hn Hb He.
  destruct (lookup_lt_is_Some_2 (braslist r) n ltac:(lia)) as [x Hx].
  destruct (lookup_lt_is_Some_2 (braelist r) n ltac:(lia)) as [y Hy].
  split; intros [Hop [Harg _]%drop_cons_rd]%drop_cons_rd; dispatch;
    rewrite Nat2Z.id, ?Hx, ?Hy; simpl; by rewrite <- Nat.add_assoc.
Qed.

Lemma advance_back f r i ep n b e tl :
  (i <= length s)%nat -> (b <= e <= length s)%nat -> Z.of_nat (length s) < 2 ^ 32 ->
  braslist r !! n = Some (Some b) -> braelist r !! n = Some (Some e) ->
  drop ep code = encode_item (IBack n) ++ tl ->
  adv (S f) r i ep
  = if bool_decide (take (e - b) (drop i s) = take (e - b) (drop b s))
    then adv f r (i + (e - b)) (ep + 2) else Val (false, r).
Proof.
  intros Hi Hbe Hlen Hb He [Hop [Harg _]%drop_cons_rd]%drop_cons_rd.
  dispatch. unfold back_ref. dispatch. rewrite Nat2Z.id, Hb, He. cbn [acc mbind res_bind].
  rewrite wrapu_id by (unfold in_u; lia).
  replace (Z.of_nat e - Z.of_nat b) with (Z.of_nat (e - b)) by lia.
  rewrite ecmp_spec by lia. cbn [mbind res_bind]. by rewrite Nat2Z.id, <- Nat.add_assoc.
Qed.

Lemma advance_eol f r i ep tl :
  (i <= length s)%nat -> drop ep code = encode_item IEol ++ tl ->
  adv (S f) r i ep = if (i =? length s)%nat then adv f r i (ep + 1) else Val (false, r).
Proof.
  intros Hi [Hop _]%drop_cons_rd. dispatch.
  destruct (subject_byte i Hi) as (b & -> & _ & _ & Ht & _). cbn [acc mbind res_bind].
  unfold truth in Ht.
  destruct (Z.eqb_spec b 0), (Nat.ltb_spec i (length s)), (Nat.eqb_spec i (length s));
    done || lia.
Qed.

Lemma advance_end f r i ep tl :
  drop ep code = CCEOF :: tl -> adv (S f) r i ep = Val (true, set_loc2 (Some i) r).
Proof. intros [Hop _]%drop_cons_rd. by dispatch. Qed.
End Subject.

(** ** The group registers *)
Record agree (O D : list nat) (e : env) (r : regs) : Prop := Agree {
  agree_bl : length (braslist r) = 9%nat;
  agree_el : length (braelist r) = 9%nat;
  agree_b n : n ∈ O -> braslist r !! n = Some (Some (bras e n));
  agree_e n : n ∈ D -> braelist r !! n = Some (Some (braes e n));
}.

Definition env_ok (O D : list nat) (e : env) (i : nat) : Prop :=
  (forall n, n ∈ O -> (bras e n <= i)%nat) /\
  (forall n, n ∈ D -> n ∈ O /\ (bras e n <= braes e n <= i)%nat).

(** The groups opened and closed once the items have been passed. *)
Fixpoint opens (O : list nat) (l : list item) : list nat :=
  match l with
  | [] => O
  | IBra n :: l => opens (n :: O) l
  | _ :: l => opens O l
  end.
Fixpoint closes (D : list nat) (l : list item) : list nat :=
  match l with
  | [] => D
  | IKet n :: l => closes (n :: D) l
  | _ :: l => closes D l
  end.

Lemma env_ok_mono O D e i j : (i <= j)%nat -> env_ok O D e i -> env_ok O D e j.
Proof.
  intros Hij [Hb He]. split; [intros n Hn; specialize (Hb n Hn); lia|].
  intros n Hn. destruct (He n Hn). split; [done|lia].
Qed.

Lemma upd_eq f n x : upd f n x n = x.
Proof. unfold upd. by rewrite Nat.eqb_refl. Qed.
Lemma upd_ne f n x m : m <> n -> upd f n x m = f m.
Proof. intros. unfold upd. by destruct (Nat.eqb_spec m n). Qed.

Lemma env_ok_bra O D e i n : n ∉ O -> env_ok O D e i -> env_ok (n :: O) D (set_b e n i) i.
Proof.
  intros Hn [Hb He]. split.
  - intros m [->|Hm]%elem_of_cons; simpl; [by rewrite upd_eq|].
    rewrite upd_ne by congruence. by apply Hb.
  - intros m Hm. destruct (He m Hm) as [HO ?]. simpl. rewrite upd_ne by congruence.
    split; [by right|done].
Qed.

Lemma env_ok_ket O D e i n : n ∈ O -> n ∉ D -> env_ok O D e i -> env_ok O (n :: D) (set_e e n i) i.
Proof.
  intros HO Hn [Hb He]. split; [done|].
  intros m [->|Hm]%elem_of_cons; simpl.
  - rewrite upd_eq. specialize (Hb n HO). split; [done|lia].
  - rewrite upd_ne by congruence. by apply He.
Qed.

Lemma agree_bra O D e r n i :
  (n < 9)%nat -> agree O D e r ->
  agree (n :: O) D (set_b e n i) (set_bras (<[n := Some i]> (braslist r)) r).
Proof.
  intros Hn [Hbl Hel Hb He]. split; simpl; [by rewrite length_insert|done| |done].
  intros m Hm. destruct (decide (m = n)) as [->|Hne].
  - rewrite upd_eq. apply list_lookup_insert_eq. lia.
  - rewrite upd_ne, list_lookup_insert_ne by done. apply Hb.
    by apply elem_of_cons in Hm as [->|?].
Qed.

Lemma agree_ket O D e r n i :
  (n < 9)%nat -> agree O D e r ->
  agree O (n :: D) (set_e e n i) (set_brae (<[n := Some i]> (braelist r)) r).
Proof.
  intros Hn [Hbl Hel Hb He]. split; simpl; [done|by rewrite length_insert|done|].
  intros m Hm. destruct (decide (m = n)) as [->|Hne].
  - rewrite upd_eq. apply list_lookup_insert_eq. lia.
  - rewrite upd_ne, list_lookup_insert_ne by done. apply He.
    by apply elem_of_cons in Hm as [->|?].
Qed.

(** What a failed attempt in the suffix leaves of the outer groups. *)
Lemma agree_unbra O D e r n i : n ∉ O -> agree (n :: O) D (set_b e n i) r -> agree O D e r.
Proof.
  intros Hn [Hbl Hel Hb He]. split; [done..| |done].
  intros m Hm. rewrite (Hb m) by (by right). simpl. by rewrite upd_ne by congruence.
Qed.
Lemma agree_unket O D e r n i : n ∉ D -> agree O (n :: D) (set_e e n i) r -> agree O D e r.
Proof.
  intros Hn [Hbl Hel Hb He]. split; [done..|].
  intros m Hm. rewrite (He m) by (by right). simpl. by rewrite upd_ne by congruence.
Qed.

(** ** The loop at [star:] tries the positions from the longest run down *)
Lemma star_loop_spec {A} (g : regs -> nat -> nat -> res (bool * regs)) (f : nat -> option A)
    (P : regs -> Prop) (Q : A -> regs -> Prop) i k ep :
  (forall r j, P r -> (i <= j <= i + k)%nat ->
    exists r', g r j ep = Val (bool_decide (is_Some (f j)), r') /\ P r'
      /\ (forall x, f j = Some x -> Q x r')) ->
  forall r, P r ->
    exists r', star_loop None g r (S (i + k)) i ep
               = Val (bool_decide (is_Some (first_down f i k)), r')
      /\ P r' /\ (forall x, first_down f i k = Some x -> Q x r').
Proof.
  induction k as [|k IH]; intros Hg r Hr; cbn [star_loop first_down];
    rewrite bool_decide_eq_false_2 by done;
    destruct (Hg r _ Hr (conj (Nat.le_add_r _ _) (Nat.le_refl _))) as (r' & -> & HP & HQ);
    cbn [mbind res_bind]; destruct (f _) as [x|] eqn:E.
  - rewrite bool_decide_eq_true_2 by done. by exists r'.
  - rewrite bool_decide_eq_false_2 by (by intros []). rewrite (proj2 (Nat.ltb_ge _ _)) by lia.
    by exists r'.
  - rewrite bool_decide_eq_true_2 by done. by exists r'.
  - rewrite bool_decide_eq_false_2 by (by intros []). rewrite (proj2 (Nat.ltb_lt _ _)) by lia.
    rewrite Nat.add_succ_r. apply IH; [|done]. intros r0 j H0 Hj. apply Hg; [done|lia].
Qed.

(** ** [advance] computes [rmatch] *)
Section Advance.
Context (code s junk : list Z).
Context (Hs : Forall (fun b => 0 < b < 256) s) (Hlen : Z.of_nat (length s) < 2 ^ 32).
Abbreviation adv := (advance code (s ++ 0 :: junk) None).

(** The result of the function on [l], and what it leaves in the registers:
    the outer groups are intact whatever happens, and after a match [loc2]
    and every group of [l] are those of the match. *)
Definition outcome (O D : list nat) (l : list item) (e : env) (r : regs)
    (o : option (env * nat)) (out : res (bool * regs)) : Prop :=
  exists r', out = Val (bool_decide (is_Some o), r')
    /\ (agree O D e r' /\ loc1 r' = loc1 r)
    /\ (forall x, o = Some x -> loc2 r' = Some x.2 /\ agree (opens O l) (closes D l) x.1 r').

Lemma outcome_fail O D l e r : agree O D e r -> outcome O D l e r None (Val (false, r)).
Proof. intros. by exists r. Qed.

Lemma encode_cons it l : encode (it :: l) = encode_item it ++ encode l.
Proof. unfold encode. cbn [mbind list_bind]. by rewrite <- app_assoc. Qed.

Lemma outcome_star O D l e r i k ep g :
  (forall r j, agree O D e r -> (i <= j <= i + k)%nat -> outcome O D l e r (rmatch s l e j) (g r j ep)) ->
  agree O D e r ->
  outcome O D l e r (first_down (rmatch s l e) i k) (star_loop None g r (S (i + k)) i ep).
Proof.
  intros Hg Hr. apply (star_loop_spec g (rmatch s l e)
    (fun r' => agree O D e r' /\ loc1 r' = loc1 r)
    (fun x r' => loc2 r' = Some x.2 /\ agree (opens O l) (closes D l) x.1 r')); [|done].
  intros r0 j [H0 Hloc] Hj. destruct (Hg r0 j H0 Hj) as (r' & ? & [? Hl] & ?).
  exists r'. split_and!; [done|done|by rewrite Hl|done].
Qed.

Lemma advance_rmatch tl l O D e r i ep fuel :
  wf_items O D l -> env_ok O D e i -> agree O D e r -> (i <= length s)%nat ->
  drop ep code = encode l ++ tl -> (length l < fuel)%nat ->
  outcome O D l e r (rmatch s l e i) (adv fuel r i ep).
Proof.
  revert O D e r i ep fuel. induction l as [|it l IH]; intros O D e r i ep fuel Hwf He Hr Hi Hd Hf;
    (destruct fuel as [|f]; [simpl in Hf; lia|]).
  { rewrite (advance_end _ s junk None f r i ep tl) by done. exists (set_loc2 (Some i) r). split_and!; [done|by destruct Hr|done|].
    intros ? [= <-]. by destruct Hr. }
  rewrite encode_cons, <- app_assoc in Hd. pose proof (drop_app_skip _ _ _ _ Hd) as Hd'. simpl in Hf.
  destruct it as [a|a|a lo hi| |n|n|n]; simpl in Hwf; cbn [rmatch].
  - destruct Hwf as [Ha Hwf]. rewrite (advance_atom _ s junk Hs _ _ _ _ _ a (encode l ++ tl)) by done.
    destruct (atom_at s a i) eqn:E; [|by apply outcome_fail].
    apply atom_at_lt in E. apply IH; try done; [by apply (env_ok_mono _ _ _ i); [lia|]|lia].
  - destruct Hwf as [Ha Hwf]. rewrite (advance_star _ s junk Hs _ _ _ _ _ a (encode l ++ tl)) by done.
    pose proof (run_len_bound s a i Hi). apply (outcome_star O D l); [|done].
    intros r' j Hr' Hj. apply IH; try done; [by apply (env_ok_mono _ _ _ i); [lia|]|lia|lia].
  - destruct Hwf as (Ha & Rlo & Rhi & Hwf).
    rewrite (advance_range _ s junk Hs _ _ _ _ _ a lo hi (encode l ++ tl)) by done.
    destruct (Nat.leb_spec (Z.to_nat lo) (run_len s a i)); [|by apply outcome_fail].
    pose proof (run_len_bound s a i Hi). pose proof (extra_nonneg lo hi).
    apply (outcome_star O D l); [|done].
    intros r' j Hr' Hj. apply IH; try done; [by apply (env_ok_mono _ _ _ i); [lia|]|lia|lia].
  - rewrite (advance_eol _ s junk Hs _ _ _ _ _ (encode l ++ tl)) by done.
    destruct (Nat.eqb_spec i (length s)); [|by apply outcome_fail]. apply IH; done || lia.
  - destruct Hwf as (Hn & HO & Hwf).
    rewrite (proj1 (advance_ket_bra _ _ _ _ f r i ep n _ Hn (agree_bl _ _ _ _ Hr) (agree_el _ _ _ _ Hr)) Hd).
    destruct (IH (n :: O) D (set_b e n i) (set_bras (<[n:=Some i]> (braslist r)) r) i (ep + 2)%nat f)
      as (r' & ? & [Hag ?] & ?); try done; [by apply env_ok_bra|by apply agree_bra|lia|].
    exists r'. split_and!; [done|by eapply agree_unbra|done|done].
  - destruct Hwf as (Hn & HO & HD & Hwf).
    rewrite (proj2 (advance_ket_bra _ _ _ _ f r i ep n _ Hn (agree_bl _ _ _ _ Hr) (agree_el _ _ _ _ Hr)) Hd).
    destruct (IH O (n :: D) (set_e e n i) (set_brae (<[n:=Some i]> (braelist r)) r) i (ep + 2)%nat f)
      as (r' & ? & [Hag ?] & ?); try done; [by apply env_ok_ket|by apply agree_ket|lia|].
    exists r'. split_and!; [done|by eapply agree_unket|done|done].
  - destruct Hwf as (HO & HD & Hwf). destruct (proj2 He n HD) as [_ Hn].
    rewrite (advance_back _ s junk Hs _ f r i ep n (bras e n) (braes e n) (encode l ++ tl)); try done;
      [|lia|by apply (agree_b _ _ _ _ Hr)|by apply (agree_e _ _ _ _ Hr)].
    unfold group_at. case_bool_decide as Hg; [|by apply outcome_fail].
    apply (f_equal length) in Hg. rewrite !length_take, !length_drop in Hg.
    apply IH; try done; [by apply (env_ok_mono _ _ _ i); [lia|]|lia|lia].
Qed.
End Advance.

(** ** [step] *)
Definition fresh_regs (r : regs) : Prop := length (braslist r) = 9%nat /\ length (braelist r) = 9%nat.
Definition env0 : env := Env (fun _ => 0%nat) (fun _ => 0%nat).

Lemma fresh_agree r : fresh_regs r <-> agree [] [] env0 r.
Proof. split; [intros [? ?]; split; [done..| |]; by intros ? ?%elem_of_nil|by intros []]. Qed.

Lemma env0_ok i : env_ok [] [] env0 i.
Proof. split; by intros ? ?%elem_of_nil. Qed.

(** The registers show the match [e], [j]. *)
Definition shows (l : list item) (e : env) (j : nat) (r : regs) : Prop :=
  loc2 r = Some j
  /\ (forall n, n ∈ opens [] l -> braslist r !! n = Some (Some (bras e n)))
  /\ (forall n, n ∈ closes [] l -> braelist r !! n = Some (Some (braes e n))).

Section Search.
Context (s : list Z) (l : list item).

(** The reference search: the first of the positions [p], ..., [p + n]. *)
Fixpoint first_up (n p : nat) : option (nat * (env * nat)) :=
  match rmatch s l env0 p with
  | Some x => Some (p, x)
  | None => match n with O => None | S n => first_up n (S p) end
  end.

Lemma first_up_Some n p i x :
  first_up n p = Some (i, x) ->
  (p <= i <= p + n)%nat /\ rmatch s l env0 i = Some x
  /\ forall k, (p <= k < i)%nat -> rmatch s l env0 k = None.
Proof.
  revert p. induction n as [|n IH]; intros p; simpl; destruct (rmatch s l env0 p) eqn:E; try done.
  1,2: intros [= <- <-]; split_and!; lia || done.
  intros (? & ? & Hk)%IH. split_and!; [lia..|done|]. intros k ?.
  destruct (decide (k = p)) as [->|]; [done|apply Hk; lia].
Qed.

Lemma first_up_None n p k :
  first_up n p = None -> (p <= k <= p + n)%nat -> rmatch s l env0 k = None.
Proof.
  revert p. induction n as [|n IH]; intros p; simpl; destruct (rmatch s l env0 p) eqn:E; try done.
  - intros _ ?. by replace k with p by lia.
  - intros Hn ?. destruct (decide (k = p)) as [->|]; [done|apply (IH (S p)); [done|lia]].
Qed.

End Search.

Section Step.
Context (code s junk tl : list Z) (l : list item) (p2 fuel : nat).
Context (Hs : Forall (fun b => 0 < b < 256) s) (Hlen : Z.of_nat (length s) < 2 ^ 32).
Context (Hwf : wf_items [] [] l) (Hcode : drop p2 code = encode l ++ tl) (Hfuel : (length l < fuel)%nat).
Abbreviation str := (s ++ 0 :: junk).

Lemma advance_at r i :
  fresh_regs r -> (i <= length s)%nat ->
  exists r', advance code str None fuel r i p2
             = Val (bool_decide (is_Some (rmatch s l env0 i)), r')
    /\ fresh_regs r' /\ loc1 r' = loc1 r
    /\ (forall e j, rmatch s l env0 i = Some (e, j) -> shows l e j r').
Proof.
  intros Hr%fresh_agree Hi.
  destruct (advance_rmatch code s junk Hs Hlen tl l [] [] env0 r i p2 fuel)
    as (r' & ? & [? ?] & Hx); try done; [by apply env0_ok|].
  exists r'. split_and!; [done|by apply fresh_agree|done|].
  intros e j Hj. destruct (Hx _ Hj) as [? []]. by split_and!.
Qed.

(** The first-character check only skips positions that cannot match. *)
Definition fast_ok (fast : option Z) : Prop :=
  forall c i, fast = Some c -> s !! i <> Some c -> rmatch s l env0 i = None.

Definition found (o : option (nat * (env * nat))) (out : res (bool * regs)) : Prop :=
  exists r', out = Val (bool_decide (is_Some o), r')
    /\ (forall i e j, o = Some (i, (e, j)) -> loc1 r' = Some i /\ shows l e j r').

Lemma step_loop_spec fast n p1 r :
  (p1 + n = length s)%nat -> fast_ok fast -> fresh_regs r ->
  found (first_up s l n p1) (step_loop code str None fuel fast (drop p1 str) r p1 p2).
Proof.
  revert p1 r. induction n as [|n IH]; intros p1 r Hn Hfast Hr;
    destruct (subject_byte s junk Hs p1 ltac:(lia)) as (b & Hb & Hd & _ & Ht & _);
    rewrite Hd; cbn [step_loop first_up]; rewrite Ht;
    destruct (advance_at r p1 Hr ltac:(lia)) as (r1 & -> & Hr1 & _ & Hsh);
    cbn [mbind res_bind].
  all: destruct (match fast with Some c => negb (b =? c) | None => _ end) eqn:Ef.
  1,3: assert (rmatch s l env0 p1 = None) as ->
    by (destruct fast as [c|]; [|done]; apply (Hfast c p1 eq_refl);
        intros Hp; unfold rd in Hb; rewrite (lookup_app_l_Some _ _ _ _ Hp) in Hb;
        apply negb_true_iff, Z.eqb_neq in Ef; congruence).
  - rewrite (proj2 (Nat.ltb_ge _ _)) by lia. by exists r.
  - rewrite (proj2 (Nat.ltb_lt _ _)) by lia. apply IH; done || lia.
  - destruct (rmatch s l env0 p1) as [[e j]|] eqn:E.
    + exists (set_loc1 (Some p1) r1). split; [done|]. intros ? ? ? [= <- <- <-]. split; [done|by apply Hsh].
    + rewrite bool_decide_eq_false_2 by (by intros []). rewrite (proj2 (Nat.ltb_ge _ _)) by lia.
      by exists r1.
  - destruct (rmatch s l env0 p1) as [[e j]|] eqn:E.
    + exists (set_loc1 (Some p1) r1). split; [done|]. intros ? ? ? [= <- <- <-]. split; [done|by apply Hsh].
    + rewrite bool_decide_eq_false_2 by (by intros []). rewrite (proj2 (Nat.ltb_lt _ _)) by lia.
      apply IH; done || lia.
Qed.

(** The opcode [CCHR] at the head is an item that matches one character. *)
Lemma encode_head k :
  exists op rest, encode k = op :: rest
    /\ (op = CCHR -> exists c k', k = IAtom (AChr c) :: k' /\ rest = c :: encode k').
Proof.
  destruct k as [|it k]; [by exists CCEOF, []|].
  rewrite encode_cons. destruct it as [a|a|a lo hi| |n|n|n]; simpl; do 2 eexists; split; try done;
    destruct a as [d| |[] bm|bm]; try done. intros _. by exists d, k.
Qed.

Lemma fast_ok_head c l' : l = IAtom (AChr c) :: l' -> fast_ok (Some c).
Proof.
  intros El c' i [= <-] Hi. rewrite El. simpl. unfold atom_at.
  destruct (s !! i) as [b|]; [|done]. simpl. by destruct (Z.eqb_spec b c) as [->|].
Qed.

Lemma step_spec r p1 :
  (p1 <= length s)%nat -> fresh_regs r ->
  found (first_up s l (length s - p1) p1) (step code str None fuel 0 r p1 p2).
Proof.
  intros Hp Hr. unfold step. simpl truth.
  destruct (encode_head l) as (op & rest & El & Hchr). pose proof Hcode as Hd.
  rewrite El in Hd. apply drop_cons_rd in Hd as [Hop Hd].
  rewrite Hop. cbn [acc mbind res_bind truth].
  destruct (Z.eqb_spec op CCHR) as [Hc|]; [|by apply step_loop_spec; [lia|intros ? ? [=]|]].
  destruct (Hchr Hc) as (c & l' & Hl & ->). apply drop_cons_rd in Hd as [-> _].
  cbn [acc mbind res_bind]. apply step_loop_spec; [lia|by eapply fast_ok_head|done].
Qed.
End Step.

(** ** The theorems *)

(** C4: on a compiled expression that encodes well-formed items, at any
    position of the subject, [advance] returns after at most one unit of fuel
    per item without leaving an array.  It succeeds exactly when the items
    match there, and then [loc2], [braslist] and [braelist] describe a match. *)
Theorem advance_correct code s junk tl l fuel r i ep :
  Forall (fun b => 0 < b < 256) s -> Z.of_nat (length s) < 2 ^ 32 ->
  wf_items [] [] l -> drop ep code = encode l ++ tl -> (length l < fuel)%nat ->
  fresh_regs r -> (i <= length s)%nat ->
  exists m r', advance code (s ++ 0 :: junk) None fuel r i ep = Val (m, r')
    /\ (m = true <-> exists e j, Matches s l env0 i e j)
    /\ (m = true -> exists e j, Matches s l env0 i e j /\ shows l e j r').
Proof.
  intros Hs Hlen Hwf Hcode Hfuel Hr Hi.
  destruct (advance_at code s junk tl l ep fuel Hs Hlen Hwf Hcode Hfuel r i Hr Hi)
    as (r' & -> & _ & _ & Hsh).
  eexists _, r'. split; [done|]. rewrite bool_decide_eq_true. split; [split|].
  - intros [[e j] He]. exists e, j. by apply rmatch_sound.
  - intros (e & j & He). by eapply rmatch_complete.
  - intros [[e j] He]. exists e, j. split; [by apply rmatch_sound|by apply Hsh].
Qed.

(** [\(a*\)b\1] on "aabaa" at 0. *)
Definition sample_items : list item :=
  [IBra 0; IStar (AChr 97); IKet 0; IAtom (AChr 98); IBack 0].
Definition sample_regs : regs := Regs (replicate 9 None) (replicate 9 None) None None.

Lemma advance_correct_witness :
  exists m r', advance (encode sample_items) ([97; 97; 98; 97; 97] ++ [0]) None 6 sample_regs 0 0
               = Val (m, r')
    /\ (m = true <-> exists e j, Matches [97; 97; 98; 97; 97] sample_items env0 0 e j)
    /\ (m = true -> exists e j,
          Matches [97; 97; 98; 97; 97] sample_items env0 0 e j /\ shows sample_items e j r').
Proof.
  apply (advance_correct (encode sample_items) [97; 97; 98; 97; 97] [] [] sample_items 6 sample_regs 0 0).
  - repeat constructor; lia.
  - vm_compute. reflexivity.
  - simpl. split_and!; first [lia | exact I | apply (bool_decide_unpack _); vm_compute; exact I].
  - reflexivity.
  - simpl. lia.
  - split; reflexivity.
  - simpl. lia.
Defined.

Example advance_sample :
  advance (encode sample_items) [97; 97; 98; 97; 97; 0] None 6 sample_regs 0 0
  = Val (true, Regs (Some 0%nat :: replicate 8 None) (Some 2%nat :: replicate 8 None) None (Some 5%nat)).
Proof. vm_compute. reflexivity. Qed.

(** [step] without [^] finds the leftmost match: when it succeeds, [loc1]
    is the first position where the expression matches and [loc2] and the
    group registers describe a match there; when it fails, the expression
    matches nowhere.  The shortcut for a leading character is included. *)
Theorem step_leftmost code s junk tl l fuel r p1 p2 :
  Forall (fun b => 0 < b < 256) s -> Z.of_nat (length s) < 2 ^ 32 ->
  wf_items [] [] l -> drop p2 code = encode l ++ tl -> (length l < fuel)%nat ->
  fresh_regs r -> (p1 <= length s)%nat ->
  exists m r', step code (s ++ 0 :: junk) None fuel 0 r p1 p2 = Val (m, r')
    /\ if (m : bool)
       then exists i e j, (p1 <= i)%nat /\ loc1 r' = Some i /\ shows l e j r'
              /\ Matches s l env0 i e j
              /\ (forall k e' j', (p1 <= k < i)%nat -> ~ Matches s l env0 k e' j')
       else forall k e' j', (p1 <= k <= length s)%nat -> ~ Matches s l env0 k e' j'.
Proof.
  intros Hs Hlen Hwf Hcode Hfuel Hr Hp.
  destruct (step_spec code s junk tl l p2 fuel Hs Hlen Hwf Hcode Hfuel r p1 Hp Hr) as (r' & -> & Hf).
  assert (forall k, rmatch s l env0 k = None -> forall e' j', ~ Matches s l env0 k e' j') as Hno.
  { intros k Hk e' j' [x Hx]%rmatch_complete. congruence. }
  eexists _, r'. split; [done|]. destruct (first_up s l _ p1) as [[i [e j]]|] eqn:E.
  - destruct (Hf i e j eq_refl) as [? ?]. apply first_up_Some in E as (? & Hm & Hk).
    exists i, e, j. split_and!; try done; [lia|by apply rmatch_sound|].
    intros k e' j' ?. apply Hno, Hk. lia.
  - rewrite bool_decide_eq_false_2 by (by intros []). intros k e' j' ?.
    apply Hno. eapply first_up_None; [done|lia].
Qed.

Lemma step_leftmost_witness :
  exists m r', step (encode sample_items) ([120; 97; 98; 97; 98] ++ [0]) None 6 0 sample_regs 0 0
               = Val (m, r')
    /\ if (m : bool)
       then exists i e j, (0 <= i)%nat /\ loc1 r' = Some i /\ shows sample_items e j r'
              /\ Matches [120; 97; 98; 97; 98] sample_items env0 i e j
              /\ (forall k e' j', (0 <= k < i)%nat -> ~ Matches [120; 97; 98; 97; 98] sample_items env0 k e' j')
       else forall k e' j', (0 <= k <= 5)%nat -> ~ Matches [120; 97; 98; 97; 98] sample_items env0 k e' j'.
Proof.
  apply (step_leftmost (encode sample_items) [120; 97; 98; 97; 98] [] [] sample_items 6 sample_regs 0 0).
  - repeat constructor; lia.
  - vm_compute. reflexivity.
  - simpl. split_and!; first [lia | exact I | apply (bool_decide_unpack _); vm_compute; exact I].
  - reflexivity.
  - simpl. lia.
  - split; reflexivity.
  - simpl. lia.
Defined.

(** [step] with [circf] set (an expression that began with [^]) matches at
    the given position or not at all, and sets [loc1] to it. *)
Theorem step_anchored code s junk tl l fuel circf r p1 p2 :
  Forall (fun b => 0 < b < 256) s -> Z.of_nat (length s) < 2 ^ 32 ->
  wf_items [] [] l -> drop p2 code = encode l ++ tl -> (length l < fuel)%nat ->
  fresh_regs r -> (p1 <= length s)%nat -> circf <> 0 ->
  exists m r', step code (s ++ 0 :: junk) None fuel circf r p1 p2 = Val (m, r')
    /\ loc1 r' = Some p1
    /\ (m = true <-> exists e j, Matches s l env0 p1 e j)
    /\ (m = true -> exists e j, Matches s l env0 p1 e j /\ shows l e j r').
Proof.
  intros Hs Hlen Hwf Hcode Hfuel Hr Hp Hc. unfold step, truth.
  rewrite (proj2 (Z.eqb_neq _ _) Hc). simpl.
  destruct (advance_at code s junk tl l p2 fuel Hs Hlen Hwf Hcode Hfuel (set_loc1 (Some p1) r) p1 Hr Hp)
    as (r' & -> & _ & Hloc & Hsh).
  eexists _, r'. split; [done|]. split; [done|]. rewrite bool_decide_eq_true. split; [split|].
  - intros [[e j] He]. exists e, j. by apply rmatch_sound.
  - intros (e & j & He). by eapply rmatch_complete.
  - intros [[e j] He]. exists e, j. split; [by apply rmatch_sound|by apply Hsh].
Qed.

Lemma step_anchored_witness :
  exists m r', step (encode [IStar AAny; IEol]) ([120; 97] ++ [0]) None 3 1 sample_regs 1 0
               = Val (m, r')
    /\ loc1 r' = Some 1%nat
    /\ (m = true <-> exists e j, Matches [120; 97] [IStar AAny; IEol] env0 1 e j)
    /\ (m = true -> exists e j,
          Matches [120; 97] [IStar AAny; IEol] env0 1 e j /\ shows [IStar AAny; IEol] e j r').
Proof.
  apply (step_anchored (encode [IStar AAny; IEol]) [120; 97] [] [] [IStar AAny; IEol] 3 1 sample_regs 1 0).
  - repeat constructor; lia.
  - vm_compute. reflexivity.
  - simpl. repeat split.
  - reflexivity.
  - simpl. lia.
  - split; reflexivity.
  - simpl. lia.
  - lia.
Defined.

(** C40: a starred back-reference ([\1*]) to a group that matched the empty
    string never returns: the loop that skips the copies of the group advances
    by zero bytes, so no amount of fuel is enough. *)
Theorem back_star_empty_diverges code str locs r n b lp ep fuel :
  rd code ep = Some (CBACK .| STAR) -> rd code (ep + 1) = Some (Z.of_nat n) ->
  braslist r !! n = Some (Some b) -> braelist r !! n = Some (Some b) ->
  advance code str locs fuel r lp ep = NoFuel.
Proof.
  intros Hop Harg Hb He. destruct fuel as [|fuel]; [done|]. cbn [advance].
  rewrite Hop. cbn [acc mbind res_bind].
  change (CBACK .| STAR) with 37. cbn -[back_scan back_retry back_ref advance]. unfold back_ref.
  rewrite Harg. cbn [acc mbind res_bind]. rewrite Nat2Z.id, Hb, He. cbn [acc mbind res_bind].
  rewrite Z.sub_diag. change (u32 0) with 0.
  assert (forall f p, back_scan str f b p 0 = NoFuel) as ->; [|done].
  intros f. induction f as [|f IH]; intros p; [done|]. cbn [back_scan]. unfold ecmp.
  assert (forall x y, strncmp_eq x y 0 = Val true) as -> by (by intros []). cbn [mbind res_bind].
  apply IH.
Qed.

Lemma back_star_empty_diverges_witness :
  let r := Regs (Some 0%nat :: replicate 8 None) (Some 0%nat :: replicate 8 None) None None in
  advance [CBACK .| STAR; 0; CCEOF] [97; 0] None 100 r 0 0 = NoFuel.
Proof.
  apply (back_star_empty_diverges [CBACK .| STAR; 0; CCEOF] [97; 0] None _ 0 0 0 0 100); reflexivity.
Defined.
