(* ===== verification/RegexpCompile.v ===== *)
(** * compile: memory, groups and termination

    [compile] is verified against an interface for the character source the
    including program supplies ([SourceLaws]): it terminates, writes only
    between the start of the buffer and [endbuf] (that byte included), and
    keeps its group bookkeeping consistent.  [cursor] is the source most
    programs define, a pointer into a NUL-terminated string. *)
From S2P Require Import Prelude Regexp RegexpSpec RegexpMatch.

(** ** What [compile] relies on: characters are bytes, the text is finite and
    followed by NUL, [PEEKC] shows the next character and [UNGETC] gives the
    last one back. *)
Class SourceLaws (S : Type) `{CharSource S} := {
  remaining : S -> nat;
  getc_byte s : is_byte (GETC s).1;
  getc_end s : remaining s = 0%nat -> (GETC s).1 = 0;
  getc_next s : remaining (GETC s).2 = Nat.pred (remaining s);
  peekc_getc s : PEEKC s = (GETC s).1;
  ungetc_getc s : UNGETC (GETC s).1 (GETC s).2 = s;
}.

(** [#define GETC() ( *sp++)], [PEEKC() ( *sp)], [UNGETC(c) (--sp)] on a text of
    bytes; what follows the text reads as NUL. *)
Record cursor := Cursor { text : list Z; text_ok : forallb (fun b => (0 <=? b) && (b <? 256)) text = true;
                          pos : nat }.

#[export] Instance cursor_source : CharSource cursor := {
  GETC s := (nth (pos s) (text s) 0, Cursor (text s) (text_ok s) (S (pos s)));
  PEEKC s := nth (pos s) (text s) 0;
  UNGETC _ s := Cursor (text s) (text_ok s) (Nat.pred (pos s));
}.

#[export] Program Instance cursor_laws : SourceLaws cursor := {
  remaining s := (length (text s) - pos s)%nat;
}.
Next Obligation.
  intros [t Ht p]. simpl. destruct (nth_in_or_default p t 0) as [Hin| ->]; [|unfold is_byte; lia].
  rewrite forallb_forall in Ht. specialize (Ht _ Hin).
  apply andb_true_iff in Ht as [?%Z.leb_le ?%Z.ltb_lt]. done.
Qed.
Next Obligation. intros [t Ht p] Hr. simpl in *. apply nth_overflow. lia. Qed.
Next Obligation. intros [t Ht p]. simpl. lia. Qed.
Next Obligation. done. Qed.
Next Obligation. by intros [t Ht p]. Qed.

(** ** Results with a postcondition *)

(** The values [ERROR] can be given. *)
Definition regerrs : list Z := [11; 16; 25; 36; 41; 42; 43; 44; 45; 46; 49; 50].

Definition ok {A} (P : A -> Prop) (x : res A) : Prop :=
  match x with
  | Val a => P a
  | Err n => n ∈ regerrs
  | Ub | NoFuel => False
  end.

Lemma ok_bind {A B} (Q : A -> Prop) (P : B -> Prop) (x : res A) (f : A -> res B) :
  ok Q x -> (forall a, Q a -> ok P (f a)) -> ok P (x ≫= f).
Proof. destruct x; simpl; eauto. Qed.

Lemma ok_mono {A} (P Q : A -> Prop) (x : res A) : ok P x -> (forall a, P a -> Q a) -> ok Q x.
Proof. destruct x; simpl; eauto. Qed.

Lemma ok_err {A} (P : A -> Prop) n : bool_decide (n ∈ regerrs) = true -> ok P (Err n).
Proof. apply bool_decide_eq_true. Qed.

Create HintDb okdb.
#[export] Hint Extern 1 (ok _ (Err _)) => (apply ok_err; reflexivity) : okdb.

(** ** What may change in the buffer *)
Definition touched (lo hi : nat) (m m' : list Z) : Prop :=
  length m' = length m
  /\ (forall k, (k < lo \/ hi <= k)%nat -> m' !! k = m !! k)
  /\ (Forall is_byte m -> Forall is_byte m').

Lemma touched_refl lo hi m : touched lo hi m m.
Proof. done. Qed.

Lemma touched_trans lo hi m1 m2 m3 : touched lo hi m1 m2 -> touched lo hi m2 m3 -> touched lo hi m1 m3.
Proof.
  intros (L1 & F1 & B1) (L2 & F2 & B2). split_and!; [congruence| |auto].
  intros k Hk. by rewrite F2, F1.
Qed.

Lemma touched_insert lo hi m p b : (lo <= p < hi)%nat -> is_byte b -> touched lo hi m (<[p := b]> m).
Proof.
  intros Hp Hb. split_and!; [by rewrite length_insert| |].
  - intros k Hk. apply list_lookup_insert_ne. lia.
  - intros Hm. by apply Forall_insert.
Qed.

#[export] Hint Resolve touched_refl : okdb.

Lemma is_byte_u8 x : is_byte (u8 x).
Proof. apply (wrapu_range 8). lia. Qed.

Lemma is_byte_in_u b : is_byte b <-> in_u 8 b.
Proof. done. Qed.

Lemma is_byte_lor a b : is_byte a -> is_byte b -> is_byte (a .| b).
Proof. rewrite !is_byte_in_u. by apply in_u_lor. Qed.

Lemma is_byte_lxor a b : is_byte a -> is_byte b -> is_byte (a .^ b).
Proof. rewrite !is_byte_in_u. by apply in_u_lxor. Qed.

Lemma is_byte_land a b : is_byte a -> is_byte (a .& b).
Proof. rewrite !is_byte_in_u. by apply in_u_land_l. Qed.

#[export] Hint Resolve is_byte_u8 is_byte_lor is_byte_lxor is_byte_land : okdb.
#[export] Hint Extern 1 (is_byte _) => (unfold is_byte, CCHR, CDOT, CCL, CXCL, CDOL, CCEOF, CBRA, CKET,
  CBACK, NCCL, STAR, RNGE; lia) : okdb.

(** ** Memory safety of the parts *)
Section Safety.
Context {S : Type} `{SourceLaws S}.
(** The buffer at entry, where [compile] starts in it, and [endbuf]: the byte
    at [endbuf] exists. *)
Context (b0 : list Z) (ep0 endbuf : nat).
Context (Hb0 : Forall is_byte b0) (Hend : (endbuf < length b0)%nat).
Implicit Types (st : cstate S) (c : Z).

Definition mem (m : list Z) : Prop := touched ep0 (Datatypes.S endbuf) b0 m /\ Forall is_byte m.

Lemma mem_insert m p b : mem m -> (ep0 <= p <= endbuf)%nat -> is_byte b -> mem (<[p := b]> m).
Proof.
  intros [Ht Hm] Hp Hb. split; [|by apply Forall_insert].
  eapply touched_trans; [done|]. apply touched_insert; [lia|done].
Qed.

Lemma mem_length m : mem m -> length m = length b0.
Proof. by intros [(? & _) _]. Qed.

Lemma mem_get m p : mem m -> (p <= endbuf)%nat -> exists b, rd m p = Some b /\ is_byte b.
Proof.
  intros Hm Hp. destruct (lookup_lt_is_Some_2 m p) as [b Hb]; [rewrite (mem_length m Hm); lia|].
  exists b. split; [done|]. destruct Hm as [_ Hm]. by eapply Forall_lookup_1 in Hm.
Qed.

Lemma emit_ok b st :
  mem (buf st) -> (ep0 <= ep st <= endbuf)%nat -> is_byte b ->
  emit b st = Val (set_ep (ep st + 1) (set_buf (<[ep st := b]> (buf st)) st)).
Proof. intros Hm Hp _. unfold emit. rewrite wr_in by (rewrite (mem_length _ Hm); lia). done. Qed.

Lemma get_at_ok i st :
  mem (buf st) -> 0 <= Z.of_nat (ep st) + i <= Z.of_nat endbuf ->
  exists b, get_at i st = Val b /\ is_byte b.
Proof.
  intros Hm Hi. unfold get_at. rewrite (proj2 (Z.ltb_ge _ _)) by lia.
  destruct (mem_get (buf st) (Z.to_nat (Z.of_nat (ep st) + i)) Hm) as (b & -> & Hb); [lia|].
  by exists b.
Qed.

Lemma set_at_ok i b st :
  mem (buf st) -> Z.of_nat ep0 <= Z.of_nat (ep st) + i <= Z.of_nat endbuf -> is_byte b ->
  exists m, set_at i b st = Val (set_buf m st) /\ mem m.
Proof.
  intros Hm Hi Hb. unfold set_at. rewrite (proj2 (Z.ltb_ge _ _)) by lia.
  rewrite wr_in by (rewrite (mem_length _ Hm); lia).
  eexists. split; [done|]. apply mem_insert; [done|lia|done].
Qed.

Lemma set_buf_buf m m' st : set_buf m (set_buf m' st) = set_buf m st.
Proof. done. Qed.

Lemma fill_ok n from f st :
  mem (buf st) -> (forall b, is_byte b -> is_byte (f b)) ->
  Z.of_nat ep0 <= Z.of_nat (ep st) + from -> Z.of_nat (ep st) + from + Z.of_nat n <= Z.of_nat endbuf + 1 ->
  exists m, fill n from f st = Val (set_buf m st) /\ mem m.
Proof.
  revert from st. induction n as [|n IH]; intros from st Hm Hf Hlo Hhi; cbn [fill].
  { exists (buf st). by destruct st. }
  destruct (get_at_ok from st Hm ltac:(lia)) as (b & -> & Hb). cbn [mbind res_bind].
  destruct (set_at_ok from (f b) st Hm ltac:(lia) (Hf b Hb)) as (m & -> & Hm').
  cbn [mbind res_bind].
  destruct (IH (from + 1) (set_buf m st) Hm' Hf) as (m2 & -> & Hm2); [simpl; lia..|].
  by exists m2.
Qed.

(** A class is 16 bytes long while [iflag] is set, then 32. *)
Definition class_size (iflag : Z) : Z := if truth iflag then 16 else 32.
Definition class_mem (iflag : Z) st : Prop :=
  mem (buf st) /\ (iflag = 0 \/ iflag = 1) /\ (ep0 < ep st)%nat
  /\ Z.of_nat (ep st) + class_size iflag <= Z.of_nat endbuf + 1.

Lemma PLACE_ok c iflag st :
  class_mem iflag st -> 0 <= c < 8 * class_size iflag ->
  exists m, PLACE c st = Val (set_buf m st) /\ mem m.
Proof.
  intros (Hm & _ & Hep & Hsz) Hc. unfold PLACE.
  assert (0 <= c >>> 3 < class_size iflag) as Hr.
  { rewrite Z.shiftr_div_pow2 by lia. split; [apply Z.div_pos; lia|].
    apply Z.div_lt_upper_bound; lia. }
  destruct (get_at_ok (c >>> 3) st Hm ltac:(lia)) as (b & -> & Hb). cbn [mbind res_bind].
  rewrite bittab_lookup. cbn [acc mbind res_bind].
  apply set_at_ok; [done|lia|]. apply is_byte_lor; [done|]. pose proof (low3_range c).
  assert (2 ^ (c .& 7) <= 2 ^ 7) by (apply Z.pow_le_mono_r; lia).
  pose proof (pow2_pos (c .& 7)). unfold is_byte. lia.
Qed.

Lemma place_range_ok n lc iflag st :
  class_mem iflag st -> 0 <= lc -> lc + Z.of_nat n <= 8 * class_size iflag ->
  exists m, place_range n lc st = Val (set_buf m st) /\ mem m.
Proof.
  revert lc st. induction n as [|n IH]; intros lc st Hm Hlo Hhi; cbn [place_range].
  { exists (buf st). destruct Hm. by destruct st. }
  destruct (PLACE_ok lc iflag st Hm ltac:(lia)) as (m & -> & Hm'). cbn [mbind res_bind].
  destruct (IH (lc + 1) (set_buf m st)) as (m2 & -> & Hm2); [|lia..|by exists m2].
  destruct Hm as (_ & ?). done.
Qed.

Lemma land128_iff c : is_byte c -> truth (c .& 128) = (128 <=? c).
Proof.
  intros Hc. unfold is_byte in Hc. destruct (Z.leb_spec 128 c).
  - change 128 with (2 ^ 7). rewrite truth_land_pow2 by lia. apply Z.testbit_true; [lia|].
    change (2 ^ 7) with 128. by assert (c / 128 = 1) as -> by (Z.to_euclidean_division_equations; lia).
  - apply land128_low. lia.
Qed.

Lemma widen_ok c iflag st :
  class_mem iflag st -> is_byte c ->
  ok (fun '(iflag', st') => exists m, st' = set_buf m st /\ class_mem iflag' st'
        /\ c < 8 * class_size iflag' /\ class_size iflag <= class_size iflag') (widen endbuf c iflag st).
Proof.
  intros Hm Hc. unfold widen. rewrite land128_iff by done.
  destruct (Z.leb_spec 128 c) as [Hhi|Hlo]; cbn [andb]; [destruct (truth iflag) eqn:Ei; cbn [andb]|].
  - destruct (Nat.leb_spec endbuf (ep st + 32)); [auto with okdb|].
    destruct Hm as (Hm & Hi & Hep & Hsz).
    destruct (set_at_ok (-1) CXCL st Hm ltac:(lia) ltac:(auto with okdb)) as (m1 & -> & Hm1).
    cbn [mbind res_bind].
    destruct (fill_ok 16 16 (fun _ => 0) (set_buf m1 st) Hm1) as (m2 & -> & Hm2);
      [auto with okdb|simpl; lia..|].
    cbn [mbind res_bind ok]. exists m2. unfold class_mem, class_size. rewrite Ei. simpl.
    unfold is_byte in Hc. split_and!; try done; try lia; by left.
  - exists (buf st). split; [by destruct st|]. unfold class_size in *. rewrite Ei.
    unfold is_byte in Hc. split_and!; try done; lia.
  - exists (buf st). split; [by destruct st|]. split; [done|].
    unfold class_size. split; [destruct (truth iflag); lia|lia].
Qed.

(** ** Reading the source *)
Abbreviation rem st := (remaining (src st)).

Lemma getc_ok st :
  exists c s, getc st = (c, set_src s st) /\ is_byte c /\ remaining s = Nat.pred (rem st)
    /\ (rem st = 0%nat -> c = 0).
Proof.
  unfold getc. destruct (GETC (src st)) as [c s] eqn:E. exists c, s.
  pose proof (getc_byte (src st)). pose proof (getc_next (src st)). pose proof (getc_end (src st)).
  by rewrite E in *.
Qed.

Lemma getc_ungetc st c s : getc st = (c, set_src s st) -> ungetc c (set_src s st) = st.
Proof.
  unfold getc, ungetc. destruct (GETC (src st)) as [c' s'] eqn:E. intros [= -> Hs].
  pose proof (ungetc_getc (src st)) as Hu. rewrite E in Hu. simpl in Hu |- *. subst s'.
  rewrite Hu. by destruct st.
Qed.

(** ** Bracket expressions *)
Lemma class_body_ok c lc iflag st :
  class_mem iflag st -> is_byte c -> 0 <= lc < 8 * class_size iflag ->
  ok (fun '(brk, lc', iflag', st') => c <> 0 /\ exists m s, st' = set_src s (set_buf m st)
        /\ class_mem iflag' st' /\ 0 <= lc' < 8 * class_size iflag' /\ (remaining s <= rem st)%nat)
     (class_body endbuf c lc iflag st).
Proof.
  intros Hm Hc Hlc. unfold class_body.
  assert (c .& 255 = c) as -> by (change 255 with (Z.ones 8); rewrite Z.land_ones by lia; by apply Z.mod_small).
  destruct (Z.eqb_spec c 0); [cbn [orb]; auto with okdb|]. destruct (c =? NL); [cbn [orb]; auto with okdb|].
  cbn [orb]. eapply ok_bind; [by apply widen_ok|]. intros [i1 st1] (m1 & -> & Hm1 & Hc1 & Hsz).
  unfold is_byte in Hc. destruct ((c =? ch_dash) && truth lc).
  - destruct (getc_ok (set_buf m1 st)) as (c2 & s2 & -> & Hc2 & Hr2 & _). simpl in Hr2.
    destruct (Z.eqb_spec c2 ch_rbrack).
    + destruct (PLACE_ok ch_dash i1 (set_src s2 (set_buf m1 st))) as (m2 & -> & Hm2);
        [done|unfold ch_dash, class_size; destruct (truth i1); lia|].
      cbn [mbind res_bind ok]. split; [done|]. exists m2, s2. split; [done|].
      destruct Hm1 as [_ Hm1]. split; [done|]. lia.
    + eapply (ok_bind _ _ (widen endbuf c2 i1 (set_src s2 (set_buf m1 st)))); [by apply widen_ok|].
      intros [i2 st2] (m2 & -> & Hm2 & Hc2' & Hsz2). unfold is_byte in Hc2.
      destruct (place_range_ok (Z.to_nat (c2 - lc)) lc i2 (set_buf m2 (set_src s2 (set_buf m1 st))))
        as (m3 & -> & Hm3); [done|lia|lia|].
      cbn [mbind res_bind].
      assert (class_mem i2 (set_buf m3 (set_buf m2 (set_src s2 (set_buf m1 st))))) as Hm3'
        by (destruct Hm2 as [_ ?]; done).
      destruct (PLACE_ok c2 i2 _ Hm3' ltac:(lia)) as (m4 & -> & Hm4).
      cbn [mbind res_bind ok]. split; [done|]. exists m4, s2. split; [done|].
      destruct Hm3' as [_ ?]. split; [done|]. lia.
  - destruct (PLACE_ok c i1 (set_buf m1 st) Hm1 ltac:(lia)) as (m2 & -> & Hm2).
    cbn [mbind res_bind ok]. split; [done|]. exists m2, (src st). split; [by destruct st|].
    destruct Hm1 as [_ ?]. split; [done|]. lia.
Qed.

Lemma class_loop_ok fuel c lc iflag st :
  class_mem iflag st -> is_byte c -> 0 <= lc < 8 * class_size iflag ->
  (1 <= fuel)%nat -> c = 0 \/ (rem st + 2 <= fuel)%nat ->
  ok (fun '(iflag', st') => exists m s, st' = set_src s (set_buf m st)
        /\ class_mem iflag' st' /\ (remaining s <= rem st)%nat)
     (class_loop fuel endbuf c lc iflag st).
Proof.
  revert c lc iflag st. induction fuel as [|fuel IH]; intros c lc iflag st Hm Hc Hlc Hf Hc0; [lia|].
  cbn [class_loop]. eapply ok_bind; [by apply class_body_ok|].
  intros [[[brk lc1] i1] st1] (Hnz & m1 & s1 & -> & Hm1 & Hlc1 & Hr1).
  destruct brk; [by exists m1, s1|].
  destruct (getc_ok (set_src s1 (set_buf m1 st))) as (c2 & s2 & -> & Hc2 & Hr2 & Hz). simpl in Hr2, Hz.
  destruct (c2 =? ch_rbrack); [exists m1, s2; split_and!; [done..|lia]|].
  eapply ok_mono; [apply IH; simpl; try done; [lia|]|].
  - destruct (decide (remaining s1 = 0%nat)); [left; auto|right; lia].
  - intros [i3 st3] (m3 & s3 & -> & Hm3 & Hr3). simpl in Hr3. exists m3, s3. split_and!; [done..|lia].
Qed.

Lemma class_finish_ok neg iflag st :
  class_mem iflag st ->
  ok (fun t => exists m, t = Continue (set_ep (ep st + Z.to_nat (class_size iflag)) (set_buf m st)) /\ mem m)
     (class_finish neg iflag st).
Proof.
  intros (Hm & Hi & Hep & Hsz). unfold class_finish.
  fold (class_size iflag). destruct neg; [|by exists (buf st); destruct st].
  assert (class_size iflag = 16 \/ class_size iflag = 32) as [Ec|Ec]
    by (unfold class_size; destruct (truth iflag); lia); rewrite Ec in *; cbn [Z.eqb Pos.eqb].
  - destruct (set_at_ok (-1) NCCL st Hm ltac:(lia) ltac:(auto with okdb)) as (m1 & -> & Hm1).
    cbn [mbind res_bind].
    destruct (get_at_ok 0 (set_buf m1 st) Hm1) as (b & -> & Hb); [simpl; lia|]. cbn [mbind res_bind].
    destruct (set_at_ok 0 (b .| 1) (set_buf m1 st) Hm1) as (m2 & -> & Hm2);
      [simpl; lia|auto with okdb|]. by exists m2.
  - destruct (fill_ok 32 0 (fun b => b .^ 255) st Hm) as (m1 & -> & Hm1); [auto with okdb|lia..|].
    cbn [mbind res_bind].
    destruct (get_at_ok 0 (set_buf m1 st) Hm1) as (b & -> & Hb); [simpl; lia|]. cbn [mbind res_bind].
    destruct (set_at_ok 0 (b .& 254) (set_buf m1 st) Hm1) as (m2 & -> & Hm2);
      [simpl; lia|auto with okdb|]. by exists m2.
Qed.

(** Where a turn leaves the state when it does not touch the groups. *)
Definition turn_ok st (t : turn S) : Prop :=
  exists m s e, t = Continue (set_ep e (set_src s (set_buf m st)))
    /\ mem m /\ (ep st <= e <= endbuf + 1)%nat /\ (remaining s <= rem st)%nat.

Lemma compile_class_ok fuel st :
  mem (buf st) -> (ep0 <= ep st)%nat -> (2 <= fuel)%nat -> (rem st + 1 <= fuel)%nat ->
  ok (turn_ok st) (compile_class fuel endbuf st).
Proof.
  intros Hm Hep Hf Hr. unfold compile_class.
  destruct (Nat.leb_spec endbuf (ep st + 17)); [auto with okdb|].
  rewrite emit_ok by (try done; try lia; auto with okdb). cbn [mbind res_bind].
  pose proof (mem_insert (buf st) (ep st) CCL Hm ltac:(lia) ltac:(auto with okdb)) as Hm1.
  set (st1 := set_ep (ep st + 1) (set_buf (<[ep st := CCL]> (buf st)) st)) in *.
  destruct (fill_ok 16 0 (fun _ => 0) st1 Hm1) as (m2 & -> & Hm2); [auto with okdb|simpl; lia..|].
  cbn [mbind res_bind].
  destruct (getc_ok (set_buf m2 st1)) as (c & s & -> & Hc & Hrem & Hz). simpl in Hrem, Hz.
  assert (exists c' s' neg, (if c =? ch_caret then (true, getc (set_src s (set_buf m2 st1)))
      else (false, (c, set_src s (set_buf m2 st1)))) = (neg, (c', set_src s' (set_buf m2 st1)))
    /\ is_byte c' /\ (remaining s' <= remaining s)%nat /\ (rem st = 0%nat -> c' = 0))
    as (c' & s' & neg & -> & Hc' & Hrem' & Hz').
  { destruct (c =? ch_caret); [|by exists c, s, false].
    destruct (getc_ok (set_src s (set_buf m2 st1))) as (c' & s' & -> & ? & Hr' & Hz'). simpl in Hr', Hz'.
    exists c', s', true. split_and!; try done; [lia|]. intros. apply Hz'. lia. }
  eapply ok_bind.
  { apply (class_loop_ok fuel c' 0 1).
    - unfold class_mem. simpl. split_and!; [done|by right|lia|unfold class_size; simpl; lia].
    - done.
    - unfold class_size. simpl. lia.
    - lia.
    - simpl. destruct (decide (rem st = 0%nat)); [left; auto|right; lia]. }
  intros [i3 st3] (m3 & s3 & -> & Hm3 & Hr3).
  eapply ok_mono; [by apply class_finish_ok|]. intros t (m4 & -> & Hm4).
  exists m4, s3, (ep st1 + Z.to_nat (class_size i3))%nat.
  destruct Hm3 as (_ & _ & _ & Hsz). simpl in Hsz, Hr3 |- *. split_and!; [done|done|lia|lia|lia].
Qed.

(** ** Interval expressions *)
Lemma range_digits_ok fuel c i st :
  is_byte c -> (1 <= fuel)%nat -> c = 0 \/ (rem st + 2 <= fuel)%nat ->
  ok (fun '(c', i', st') => c <> 0 /\ exists s, st' = set_src s st /\ (remaining s <= rem st)%nat)
     (range_digits fuel c i st).
Proof.
  revert c i st. induction fuel as [|fuel IH]; intros c i st Hc Hf Hz; [lia|].
  cbn [range_digits]. destruct (Z.leb_spec ch_0 c); [|cbn [andb]; auto with okdb].
  destruct (c <=? ch_9); cbn [andb]; [|auto with okdb].
  assert (c <> 0) by (unfold ch_0 in *; lia).
  destruct (getc_ok st) as (c2 & s2 & -> & Hc2 & Hr2 & Hz2).
  destruct ((c2 =? ch_bs) || (c2 =? ch_comma)); [split; [done|]; exists s2; split; [done|lia]|].
  eapply ok_mono; [apply IH; simpl; try done; [lia|]|].
  - destruct (decide (rem st = 0%nat)); [left; auto|right; lia].
  - intros [[c3 i3] st3] (_ & s3 & -> & Hr3). simpl in Hr3. split; [done|]. exists s3. split; [done|lia].
Qed.

Lemma range_end_ok i cflg st :
  mem (buf st) -> (ep0 <= ep st)%nat ->
  (cflg = 0 /\ (ep st <= endbuf)%nat) \/ (cflg <> 0 /\ (2 <= ep st <= endbuf + 1)%nat) ->
  ok (turn_ok st) (range_end i cflg st).
Proof.
  intros Hm Hep Hcf. unfold range_end. destruct (getc_ok st) as (c & s & -> & _ & Hr & _).
  destruct (negb (c =? ch_rbrace)); [auto with okdb|]. destruct (Z.eqb_spec cflg 0) as [E|E].
  - rewrite emit_ok by (simpl; auto with okdb; lia). cbn [mbind res_bind ok].
    exists (<[ep st := u8 i]> (buf st)), s, (ep st + 1)%nat. split_and!; [done| |lia..].
    apply mem_insert; [done|lia|auto with okdb].
  - destruct (get_at_ok (-1) (set_src s st) Hm) as (x & -> & _); [simpl; lia|].
    destruct (get_at_ok (-2) (set_src s st) Hm) as (y & -> & _); [simpl; lia|].
    cbn [mbind res_bind]. destruct (_ <? _); [auto with okdb|].
    exists (buf st), s, (ep st). split_and!; [by destruct st|done|lia..].
Qed.

Lemma turn_ok_trans st st' s m e :
  st' = set_ep e (set_src s (set_buf m st)) -> (ep st <= e)%nat -> (remaining s <= rem st)%nat ->
  forall t, turn_ok st' t -> turn_ok st t.
Proof.
  intros -> He Hs t (m2 & s2 & e2 & -> & Hm2 & He2 & Hs2). simpl in *.
  exists m2, s2, e2. split_and!; [done|done|lia..].
Qed.

Lemma range_nlim_ok fuel cflg st :
  mem (buf st) -> (ep0 <= ep st)%nat ->
  (cflg = 0 /\ (ep st < endbuf)%nat) \/ (cflg = 1 /\ (1 <= ep st <= endbuf)%nat) ->
  (rem st + 3 <= fuel)%nat -> ok (turn_ok st) (range_nlim fuel cflg st).
Proof.
  revert cflg st. induction fuel as [|fuel IH]; intros cflg st Hm Hep Hcf Hf; [lia|].
  cbn [range_nlim]. destruct (getc_ok st) as (c & s & -> & Hc & Hr & Hz).
  eapply ok_bind; [apply range_digits_ok; [done|lia|simpl; lia]|].
  intros [[c2 i2] st2] (Hnz & s2 & -> & Hr2). simpl in Hr2.
  assert (rem st <> 0%nat) by auto.
  destruct (255 <=? i2); [auto with okdb|]. rewrite emit_ok by (simpl; auto with okdb; lia).
  cbn [mbind res_bind].
  pose proof (mem_insert (buf st) (ep st) (u8 i2) Hm ltac:(lia) ltac:(auto with okdb)) as Hm2.
  set (st3 := set_ep _ _). simpl in st3.
  assert (forall t, turn_ok st3 t -> turn_ok st t) as Htr.
  { apply (turn_ok_trans st st3 s2 (<[ep st := u8 i2]> (buf st)) (ep st + 1)); [done|lia|lia]. }
  destruct (c2 =? ch_comma).
  2: { eapply ok_mono; [apply range_end_ok; simpl; [done|lia|lia]|done]. }
  unfold truth. destruct Hcf as [[-> He]|[-> He]]; [|cbn [negb Z.eqb]; auto with okdb].
  cbn [negb Z.eqb]. destruct (getc_ok st3) as (c4 & s4 & Hg & Hc4 & Hr4 & _). rewrite Hg.
  destruct (c4 =? ch_bs).
  - rewrite emit_ok by (simpl; auto with okdb; lia). cbn [mbind res_bind].
    eapply ok_mono.
    + apply range_end_ok; simpl.
      * apply mem_insert; [done|lia|auto with okdb].
      * lia.
      * right. lia.
    + intros t Ht. apply Htr. eapply (turn_ok_trans st3 _ s4); [| | |exact Ht]; [done|simpl; lia|lia].
  - rewrite (getc_ungetc _ _ _ Hg). eapply ok_mono; [apply IH; simpl|done]; [done|lia|lia|lia].
Qed.

(** ** The invariant of the main loop
    Besides the memory: [lastep] points into the buffer, the [bracket] array
    is never over-full, its entries are group numbers, and every group opened
    is either closed or on the stack. *)
Definition groups_ok st : Prop :=
  nbra st = Z.of_nat (length (bracket st)) + closed st /\ 0 <= closed st /\ nbra st <= NBRA
  /\ Forall (fun b => 0 <= b < nbra st) (bracket st).

Definition inv st : Prop :=
  mem (buf st) /\ (ep0 <= ep st <= endbuf + 1)%nat
  /\ (forall l, lastep st = Some l -> (ep0 <= l <= endbuf)%nat) /\ groups_ok st.

Definition continues st (t : turn S) : Prop :=
  exists st', t = Continue st' /\ inv st' /\ (rem st' <= rem st)%nat.

Lemma turn_ok_continues st t : inv st -> turn_ok st t -> continues st t.
Proof.
  intros (_ & Hep & Hl & Hg) (m & s & e & -> & Hm & He & Hs).
  eexists. split; [done|]. split; [|done]. split; [done|]. split; [simpl; lia|]. by split.
Qed.

Lemma emit2_ok a b st :
  mem (buf st) -> (ep0 <= ep st < endbuf)%nat -> is_byte a -> is_byte b ->
  exists m, emit a st = Val (set_ep (ep st + 1) (set_buf (<[ep st := a]> (buf st)) st))
    /\ emit b (set_ep (ep st + 1) (set_buf (<[ep st := a]> (buf st)) st))
       = Val (set_ep (ep st + 2) (set_buf m st)) /\ mem m.
Proof.
  intros Hm Hlt Ha Hb. eexists.
  pose proof (mem_insert (buf st) (ep st) a Hm ltac:(lia) Ha) as Hm1.
  rewrite emit_ok by (done || lia). split; [done|].
  rewrite emit_ok by (simpl; done || lia). simpl.
  rewrite <- Nat.add_assoc. split; [done|]. apply mem_insert; [done|lia|done].
Qed.

Lemma defchar_ok c st : inv st -> (ep st < endbuf)%nat -> ok (continues st) (defchar c st).
Proof.
  intros Hi Hlt. unfold defchar.
  assert (inv (set_lastep (Some (ep st)) st)) as Hi'.
  { destruct Hi as (? & ? & _ & ?). split; [done|]. split; [done|]. split; [|done].
    intros l [= <-]. simpl in *. lia. }
  destruct Hi' as (Hm0 & He & Hl & Hg). simpl in He.
  destruct (emit2_ok CCHR (u8 c) _ Hm0 ltac:(simpl; lia) ltac:(auto with okdb) ltac:(auto with okdb))
    as (m & -> & E2 & Hm). cbn [mbind res_bind]. rewrite E2. cbn [mbind res_bind ok].
  eexists. split; [done|]. split; [|done]. split; [done|]. split; [simpl; lia|]. by split.
Qed.

Lemma or_lastep_ok l flag st :
  mem (buf st) -> (ep0 <= l <= endbuf)%nat -> is_byte flag ->
  exists m, or_lastep l flag st = Val (set_buf m st) /\ mem m.
Proof.
  intros Hm Hl Hf. unfold or_lastep. destruct (mem_get (buf st) l Hm ltac:(lia)) as (b & -> & Hb).
  cbn [acc mbind res_bind]. rewrite wr_in by (rewrite (mem_length _ Hm); lia).
  eexists. split; [done|]. apply mem_insert; [done|lia|by apply is_byte_lor].
Qed.

Lemma inv_set_src s st : inv st -> inv (set_src s st).
Proof. done. Qed.

Lemma continues_src s st t :
  (remaining s <= rem st)%nat -> continues (set_src s st) t -> continues st t.
Proof. intros Hs (st' & -> & Hi & Hr). simpl in Hr. exists st'. split_and!; [done..|]. lia. Qed.

Lemma compile_backslash_ok fuel st :
  inv st -> (ep st < endbuf)%nat -> (rem st + 2 <= fuel)%nat ->
  ok (continues st) (compile_backslash fuel st).
Proof.
  intros Hi Hlt Hf. unfold compile_backslash.
  destruct (getc_ok st) as (c & s & -> & Hc & Hr & Hz).
  assert (forall x, ok (continues (set_src s st)) x -> ok (continues st) x) as Hsrc.
  { intros x Hx. eapply ok_mono; [done|]. intros t. apply continues_src. lia. }
  apply Hsrc. clear Hsrc. pose proof (inv_set_src s st Hi) as Hi'.
  set (st1 := set_src s st) in *. assert (ep st1 < endbuf)%nat as Hlt1 by done.
  assert (rem st1 = Nat.pred (rem st)) as Hr1 by done. clearbody st1. clear Hr s Hi Hlt.
  pose proof Hi' as (Hm & He & Hl & Hn & Hc0 & H9 & Hb).
  destruct (c =? ch_lparen).
  { destruct (Z.leb_spec NBRA (nbra st1)); [auto with okdb|].
    destruct (emit2_ok CBRA (u8 (nbra st1)) (set_bracket (nbra st1 :: bracket st1) st1))
      as (m & -> & E2 & Hm2); [done|simpl; lia|auto with okdb..|].
    cbn [mbind res_bind]. simpl in E2 |- *. rewrite E2. cbn [mbind res_bind ok].
    eexists. split; [done|]. split; [|done]. split; [done|]. split; [simpl; lia|]. split; [done|].
    unfold groups_ok. simpl. split_and!; [lia|done|lia|]. constructor; [lia|].
    eapply Forall_impl; [|exact Hb]. simpl. lia. }
  destruct (c =? ch_rparen).
  { destruct (bracket st1) as [|b rest] eqn:Eb; [auto with okdb|].
    apply Forall_cons_1 in Hb as [Hb1 Hb]. unfold NBRA in *.
    destruct (emit2_ok CKET b st1) as (m & -> & E2 & Hm2);
      [done|lia|auto with okdb|unfold is_byte; lia|].
    cbn [mbind res_bind]. unfold emit in E2 |- *. simpl in E2 |- *.
    destruct (wr _ _ b) as [m'|]; [|done]. simpl in E2 |- *. injection E2 as <-.
    eexists. split; [done|]. split; [|done]. split; [done|]. split; [simpl; lia|]. split; [done|].
    unfold groups_ok, NBRA. simpl in *. split_and!; [lia|lia|done|done]. }
  destruct (c =? ch_lbrace) eqn:Ec.
  { destruct (lastep st1) as [l|] eqn:El; [|by apply defchar_ok].
    destruct (or_lastep_ok l RNGE st1 Hm (Hl l eq_refl) ltac:(auto with okdb)) as (m & -> & Hm1).
    cbn [mbind res_bind]. eapply ok_mono.
    - apply range_nlim_ok; simpl; [done|lia|left; by split|].
      apply Z.eqb_eq in Ec. assert (rem st <> 0%nat) by (intros ->%Hz; done). lia.
    - intros t Ht. apply turn_ok_continues; [done|].
      eapply (turn_ok_trans st1 _ (src st1) m (ep st1)); [| | |exact Ht]; [by destruct st1|lia|done]. }
  destruct (c =? NL); [auto with okdb|]. destruct (c =? ch_n); [by apply defchar_ok|].
  destruct (_ && _); [|by apply defchar_ok]. destruct (_ <=? _); [auto with okdb|].
  destruct (emit2_ok CBACK (u8 (c - ch_1)) st1) as (m & -> & E2 & Hm2); [done|lia|auto with okdb..|].
  cbn [mbind res_bind]. rewrite E2. cbn [mbind res_bind ok].
  eexists. split; [done|]. split; [|done]. split; [done|]. split; [simpl; lia|]. by split.
Qed.

(** ** The main loop *)
Definition finished st : Prop :=
  mem (buf st) /\ (ep0 < ep st <= endbuf)%nat /\ buf st !! (ep st - 1)%nat = Some CCEOF
  /\ bracket st = [] /\ closed st = nbra st /\ 0 <= nbra st <= NBRA.

Lemma finish_ok st (f : cstate S -> cstate S) :
  inv st -> (ep st < endbuf)%nat ->
  (forall st, (buf (f st), ep (f st), bracket (f st), closed (f st), nbra (f st))
              = (buf st, ep st, bracket st, closed st, nbra st)) ->
  ok (fun t => exists st', t = Return st' /\ finished st')
     (st ← emit CCEOF st; match bracket (f st) with [] => Val (Return (f st)) | _ => Err 42 end).
Proof.
  intros (Hm & He & _ & Hn & Hc0 & H9 & _) Hlt Hf.
  rewrite emit_ok by (done || lia || auto with okdb). cbn [mbind res_bind].
  set (st1 := set_ep _ _). specialize (Hf st1). injection Hf as Fb Fe Fbr Fc Fn.
  destruct (bracket (f st1)) eqn:Eb; [|auto with okdb].
  eexists. split; [done|]. unfold finished. rewrite Fb, Fe, Eb, Fc, Fn.
  change (bracket st1) with (bracket st) in Fbr. rewrite <- Fbr in Hn. simpl in Hn |- *.
  split_and!; [|lia|lia| |done|lia|lia|done].
  - apply mem_insert; [done|lia|auto with okdb].
  - rewrite Nat.add_sub. apply list_lookup_insert_eq. rewrite (mem_length _ Hm). lia.
Qed.

(** A turn that does not return reads some of the text or, at its end, where
    the source gives NUL and [seof] may be another character, stores the NUL as
    an ordinary character and so moves [ep]. *)
Definition turn_post st (t : turn S) : Prop :=
  (exists st', t = Return st' /\ finished st') \/
  (exists st', t = Continue st' /\ inv st'
    /\ ((rem st' < rem st)%nat \/ (rem st' = 0 /\ rem st = 0 /\ ep st < ep st' /\ ep st < endbuf)%nat)).

Lemma defchar_moves c st :
  inv st -> (ep st < endbuf)%nat ->
  ok (fun t => exists st', t = Continue st' /\ inv st' /\ src st' = src st /\ (ep st < ep st')%nat)
     (defchar c st).
Proof.
  intros Hi Hlt. pose proof (defchar_ok c st Hi Hlt) as Hok. unfold defchar, emit in *.
  destruct (acc _) as [m| | |]; [|done..]. cbn [mbind res_bind] in *.
  destruct (acc _) as [m'| | |]; [|done..]. cbn [mbind res_bind ok] in *.
  destruct Hok as (st' & [= <-] & Hi' & _). eexists. split; [done|]. split; [done|]. simpl. split; [done|lia].
Qed.

(** The [switch] on a character other than the delimiter; [st] is the state
    after the character was read and [lastep] set. *)
Lemma emit1_continues b st :
  inv st -> (ep st < endbuf)%nat -> is_byte b ->
  ok (continues st) (st ← emit b st; Val (Continue st)).
Proof.
  intros (Hm & He & Hl & Hg) Hlt Hb. rewrite emit_ok by (done || lia). cbn [mbind res_bind ok].
  eexists. split; [done|]. split; [|done]. split; [apply mem_insert; done || lia|].
  split; [simpl; lia|]. by split.
Qed.

Lemma compile_star_ok c st :
  inv st -> (ep st < endbuf)%nat ->
  ok (continues st)
     (match lastep st with
      | None => defchar c st
      | Some l =>
          b ← acc (rd (buf st) l);
          if (b =? CBRA) || (b =? CKET) then defchar c st
          else st ← or_lastep l STAR st; Val (Continue st)
      end).
Proof.
  intros Hi Hlt. pose proof Hi as (Hm & He & Hl & Hg).
  destruct (lastep st) as [l|] eqn:El; [|by apply defchar_ok].
  destruct (mem_get (buf st) l Hm) as (b & -> & Hb); [apply Hl; done|].
  cbn [acc mbind res_bind]. destruct (_ || _); [by apply defchar_ok|].
  destruct (or_lastep_ok l STAR st Hm (Hl l eq_refl) ltac:(auto with okdb)) as (m & -> & Hm1).
  cbn [mbind res_bind ok]. eexists. split; [done|]. split; [|done]. split; [done|]. split; [done|].
  split; [|done]. simpl. by rewrite El.
Qed.

Lemma compile_turn_ok fuel sed eof st :
  inv st -> (rem st + 1 <= fuel)%nat -> ok (turn_post st) (compile_turn fuel sed endbuf eof st).
Proof.
  intros Hi Hf. unfold compile_turn. destruct (Nat.leb_spec endbuf (ep st)); [auto with okdb|].
  destruct (getc_ok st) as (c & s & -> & Hc & Hr & Hz).
  set (st1 := if negb (c =? ch_star) && _ then _ else _).
  assert (inv st1 /\ ep st1 = ep st /\ src st1 = s) as (Hi1 & He1 & Hs1).
  { unfold st1. destruct (_ && _); [|done]. split; [|done]. destruct Hi as (? & ? & ? & ?).
    split; [done|]. split; [done|]. split; [|done]. intros l [= <-]. simpl in *. lia. }
  clearbody st1. rewrite <- He1 in *. rewrite <- Hs1 in *. clear s Hs1 Hi.
  destruct (c =? eof).
  { unfold compile_eof. eapply ok_mono; [by apply (finish_ok st1 id)|]. intros t Ht. by left. }
  destruct (Nat.eq_dec (rem st) 0%nat) as [Hr0|Hr0].
  { rewrite (Hz Hr0). simpl. eapply ok_mono; [by apply defchar_moves|].
    intros t (st' & -> & Hi' & Hs' & Hlt'). right. exists st'. rewrite Hs'. split_and!; [done..|right; lia]. }
  assert (forall x, ok (continues st1) x -> ok (turn_post st) x) as Hcont.
  { intros x Hx. eapply ok_mono; [done|]. intros t (st' & -> & ? & ?). right.
    exists st'. split_and!; [done..|left; lia]. }
  destruct (c =? ch_dot); [apply Hcont, emit1_continues; auto with okdb|].
  destruct (c =? NL).
  { destruct (negb sed); [|auto with okdb].
    eapply ok_mono; [by apply (finish_ok (ungetc c st1) (set_nodelim 1))|]. intros t Ht. by left. }
  destruct (c =? ch_star); [by apply Hcont, compile_star_ok|].
  destruct (c =? ch_dollar).
  { apply Hcont. destruct (_ && _); [by apply defchar_ok|apply emit1_continues; auto with okdb]. }
  destruct (c =? ch_lbrack).
  { apply Hcont. pose proof Hi1 as (? & ? & _). eapply ok_mono; [|intros t; by apply turn_ok_continues].
    apply compile_class_ok; [done|lia..]. }
  destruct (c =? ch_bs); [apply Hcont, compile_backslash_ok; [done|done|lia]|].
  by apply Hcont, defchar_ok.
Qed.

(** Turns the loop may still take: one per character of the text, and at its
    end one per byte of the buffer that is left. *)
Lemma compile_loop_ok fuel sed eof st :
  inv st -> (rem st + endbuf + 2 <= fuel \/ (rem st = 0 /\ endbuf - ep st + 2 <= fuel))%nat ->
  ok finished (compile_loop fuel sed endbuf eof st).
Proof.
  revert st. induction fuel as [|fuel IH]; intros st Hi Hf; [lia|]. cbn [compile_loop].
  eapply ok_bind; [apply compile_turn_ok; [done|lia]|].
  intros t [(st' & -> & Ht)|(st' & -> & Ht & Hr)]; [done|]. apply IH; [done|lia].
Qed.

Lemma compile_ok fuel sed eof st :
  buf st = b0 -> ep st = ep0 -> (ep0 <= endbuf)%nat -> (rem st + endbuf + 3 <= fuel)%nat ->
  ok (fun st' => ((GETC (src st)).1 ∈ [eof; NL] /\ buf st' = b0 /\ ep st' = ep0)
             \/ ((GETC (src st)).1 ∉ [eof; NL] /\ finished st')) (compile fuel sed endbuf eof st).
Proof.
  intros Hbuf Hep Hle Hf. unfold compile.
  assert (mem (buf st)) as Hm by (rewrite Hbuf; by split).
  destruct (getc_ok (set_lastep None st)) as (c & s & Hg & Hc & Hr & Hz). rewrite Hg. simpl in Hr.
  assert ((GETC (src st)).1 = c) as Egc.
  { unfold getc in Hg. simpl in Hg. destruct (GETC (src st)). by injection Hg. }
  assert (c ∈ [eof; NL] <-> (c =? eof) || (c =? NL) = true) as Hin.
  { rewrite elem_of_cons, list_elem_of_singleton, orb_true_iff. lia. }
  destruct ((c =? eof) || _) eqn:Ed.
  - set (st1 := if c =? NL then _ else _).
    assert (buf st1 = b0 /\ ep st1 = ep0) as [E1 E2] by (unfold st1; by destruct (c =? NL)).
    destruct (get_at_ok 0 st1) as (b & -> & _); [by rewrite E1, <- Hbuf|lia|].
    cbn [mbind res_bind]. destruct (_ && _); [auto with okdb|]. left. by rewrite Egc, Hin.
  - set (st1 := if c =? ch_caret then _ else _).
    assert (buf st1 = b0 /\ ep st1 = ep0 /\ lastep st1 = None /\ (rem st1 <= rem st)%nat)
      as (E1 & E2 & E3 & E4).
    { unfold st1. destruct (c =? ch_caret); [simpl; split_and!; done || lia|].
      by rewrite (getc_ungetc _ _ _ Hg). }
    eapply ok_mono; [apply compile_loop_ok|intros st' Hst; right; by rewrite Egc, Hin]; [|simpl; left; lia].
    split; [by rewrite <- E1 in Hbuf; simpl; rewrite <- Hbuf|]. split; [simpl; lia|].
    split; [simpl; by rewrite E3|]. unfold groups_ok, NBRA. simpl. split_and!; lia || done.
Qed.
End Safety.

(** ** The theorems *)

(** C5: whatever the delimiter [seof], for a character source of octets that
    reads as NUL after its text, and a buffer that has the octet at [endbuf],
    [compile] terminates and stays in its memory.  It reports one of its error
    numbers; or the pattern is empty, when the buffer and the pointer are as
    they were; or it returns a pointer of at most [endbuf] with only the octets
    from the start to [endbuf] changed, [CCEOF] just before the pointer, all
    groups closed and at most nine of them. *)
Theorem compile_total {S} `{SourceLaws S} (st : cstate S) sed endbuf eof fuel :
  Forall is_byte (buf st) -> (ep st <= endbuf < length (buf st))%nat ->
  (remaining (src st) + endbuf + 3 <= fuel)%nat ->
  (exists n, compile fuel sed endbuf eof st = Err n /\ n ∈ regerrs) \/
  (exists st', compile fuel sed endbuf eof st = Val st'
    /\ touched (ep st) (endbuf + 1) (buf st) (buf st') /\ Forall is_byte (buf st')
    /\ (((GETC (src st)).1 ∈ [eof; NL] /\ buf st' = buf st /\ ep st' = ep st) \/
        ((GETC (src st)).1 ∉ [eof; NL]
         /\ (ep st < ep st' <= endbuf)%nat /\ buf st' !! (ep st' - 1)%nat = Some CCEOF
         /\ bracket st' = [] /\ closed st' = nbra st' /\ 0 <= nbra st' <= NBRA))).
Proof.
  intros Hb He Hf.
  pose proof (compile_ok (buf st) (ep st) endbuf Hb ltac:(lia) fuel sed eof st eq_refl eq_refl
    ltac:(lia) Hf) as Hok.
  destruct (compile fuel sed endbuf eof st) as [st'|n| |]; [right|left; by exists n|done|done].
  exists st'. rewrite Nat.add_1_r. split; [done|]. destruct Hok as [(Hd & E1 & E2)|(Hd & [Ht Hm] & Hfin)].
  - rewrite E1, E2. split; [done|]. split; [done|]. by left.
  - split; [done|]. split; [done|]. by right.
Qed.

(** The pattern [[a-c]*\(x\)\1] delimited by slashes, into a buffer of 40
    bytes. *)
Definition sample_pattern : cursor :=
  Cursor [91; 97; 45; 99; 93; 42; 92; 40; 120; 92; 41; 92; 49; 47] eq_refl 0.
Definition sample_cstate : cstate cursor := CState sample_pattern (replicate 40 0) 0 0 0 0 None [] 0.

Lemma compile_total_witness :
  (exists n, compile 60 false 39 47 sample_cstate = Err n /\ n ∈ regerrs) \/
  (exists st', compile 60 false 39 47 sample_cstate = Val st'
    /\ touched 0 40 (replicate 40 0) (buf st') /\ Forall is_byte (buf st')
    /\ (((GETC sample_pattern).1 ∈ [47; NL] /\ buf st' = replicate 40 0 /\ ep st' = 0%nat) \/
        ((GETC sample_pattern).1 ∉ [47; NL]
         /\ (0 < ep st' <= 39)%nat /\ buf st' !! (ep st' - 1)%nat = Some CCEOF
         /\ bracket st' = [] /\ closed st' = nbra st' /\ 0 <= nbra st' <= NBRA))).
Proof.
  apply (compile_total sample_cstate false 39 47 60).
  - apply Forall_replicate. unfold is_byte. lia.
  - simpl. lia.
  - simpl. lia.
Defined.

(** The sample does compile, and a text without the delimiter is stored, with
    its NULs, until the buffer is full. *)
Example compile_sample_value :
  ep <$> match compile 60 false 39 47 sample_cstate with Val st => Some st | _ => None end = Some 26%nat.
Proof. vm_compute. reflexivity. Qed.

Example compile_undelimited :
  compile 60 false 39 47 (CState (Cursor [97] eq_refl 0) (replicate 40 0) 0 0 0 0 None [] 0) = Err 50.
Proof. vm_compute. reflexivity. Qed.

(** ** Why characters have to be octets

    [GETC() ( *sp++)] on a signed [char] gives negative values above 0177.
    Every use of a character copes ([c &= 0377], [(char)c]) but one: the end
    of a range in a class is not masked, and [PLACE] of it writes before the
    class. *)
Record schar_cursor := SCursor { stext : list Z; spos : nat }.

#[export] Instance schar_source : CharSource schar_cursor := {
  GETC s := (wraps 8 (nth (spos s) (stext s) 0), SCursor (stext s) (S (spos s)));
  PEEKC s := wraps 8 (nth (spos s) (stext s) 0);
  UNGETC _ s := SCursor (stext s) (Nat.pred (spos s));
}.

(** [[a-\200]]: the octet fifteen before the buffer.  With 47 octets before it,
    one of those is overwritten. *)
Theorem compile_signed_range :
  compile 60 false 39 0 (CState (SCursor [91; 97; 45; 128; 93; 0] 0) (replicate 40 0) 0 0 0 0 None [] 0) = Ub
  /\ exists st', compile 140 false 87 0
                   (CState (SCursor [91; 97; 45; 128; 93; 0] 0) (replicate 88 0) 47 0 0 0 None [] 0) = Val st'
     /\ buf st' !! 32%nat = Some 1.
Proof. split; [vm_compute; reflexivity|]. eexists. split; vm_compute; reflexivity. Qed.

(** The byte at [endbuf] is needed.  The check before each character is
    [ep >= endbuf], but an ordinary character takes two bytes: when exactly
    one byte is left before the end of the buffer, the second one is written
    outside of it, before [ERROR(50)] can be reached. *)
Theorem compile_overruns_by_one {S} `{SourceLaws S} (st : cstate S) sed endbuf fuel c :
  (GETC (src st)).1 = c -> c ∉ [0; NL; ch_dot; ch_star; ch_dollar; ch_lbrack; ch_bs; ch_caret] ->
  (ep st + 1 = endbuf)%nat -> length (buf st) = endbuf ->
  compile (1 + fuel) sed endbuf 0 st = Ub.
Proof.
  intros Hc Hord Hep Hlen. rewrite !not_elem_of_cons in Hord.
  destruct Hord as (? & ? & ? & ? & ? & ? & ? & ? & _). unfold compile.
  assert (forall st0, src st0 = src st -> getc st0 = (c, set_src (GETC (src st)).2 st0)) as Hget.
  { intros st0 E. unfold getc. rewrite E. destruct (GETC (src st)). simpl in *. by subst. }
  rewrite Hget by done. rewrite !(proj2 (Z.eqb_neq c _)) by done. cbn [orb].
  rewrite (getc_ungetc (set_lastep None st)) by (by apply Hget).
  cbn [Nat.add compile_loop]. unfold compile_turn. simpl ep.
  rewrite (proj2 (Nat.leb_gt _ _)) by lia. rewrite Hget by done.
  rewrite !(proj2 (Z.eqb_neq c _)) by done. cbn [negb andb orb].
  unfold defchar, emit. simpl. rewrite wr_in by lia. simpl.
  assert (wr (<[ep st := CCHR]> (buf st)) (ep st + 1) (u8 c) = None) as ->; [|done].
  unfold wr. by rewrite length_insert, (proj2 (Nat.ltb_ge _ _)) by lia.
Qed.

Lemma compile_overruns_by_one_witness :
  compile (1 + 9) false 1 0 (CState (Cursor [97; 0] eq_refl 0) [0] 0 0 0 0 None [] 0) = Ub.
Proof.
  apply (compile_overruns_by_one (CState (Cursor [97; 0] eq_refl 0) [0] 0 0 0 0 None [] 0) false 1 9 97).
  - reflexivity.
  - apply (bool_decide_unpack _). vm_compute. exact I.
  - reflexivity.
  - reflexivity.
Defined.
