(* ===== verification/RegexpPattern.v ===== *)
(** * compile translates patterns

    A syntax of patterns with their concrete text ([render]) and the items
    they stand for ([elab]): [compile] of the text of a pattern produces the
    encoding of its items, for every lawful character source.  With
    [RegexpMatch] this gives the meaning of [compile] followed by [step]. *)
From S2P Require Import Prelude Regexp RegexpSpec RegexpMatch RegexpCompile.

(** ** Patterns *)

(** A member of a bracket expression: a character or a range. *)
Inductive celem := COne (c : Z) | CRange (a b : Z).

Inductive patom :=
  | PChr (c : Z)
  | PAny
  | PClass (neg : bool) (els : list celem).

(** The bounds of an interval as written, a list of decimal digits each. *)
Inductive postfix :=
  | Once
  | Starred
  | Exactly (ds : list Z)
  | AtLeast (ds : list Z)
  | Between (ds es : list Z).

Inductive pitem :=
  | PAtom (a : patom) (p : postfix)
  | PBra
  | PKet
  | PBack (n : nat).

(** [anchored]: begins with [^]; [eol]: ends with [$]. *)
Record pattern := Pattern { anchored : bool; pitems : list pitem; eol : bool }.

(** ** Text *)
Definition specials : list Z := [ch_dot; ch_star; ch_dollar; ch_lbrack; ch_bs; ch_caret].

Definition render_celem (e : celem) : list Z :=
  match e with COne c => [c] | CRange a b => [a; ch_dash; b] end.

Definition render_atom (a : patom) : list Z :=
  match a with
  | PChr c => if bool_decide (c ∈ specials) then [ch_bs; c]
              else if c =? NL then [ch_bs; ch_n] else [c]
  | PAny => [ch_dot]
  | PClass neg els =>
      ch_lbrack :: (if neg then [ch_caret] else []) ++ (els ≫= render_celem) ++ [ch_rbrack]
  end.

Definition digits (ds : list Z) : list Z := (fun d => d + ch_0) <$> ds.

Definition render_postfix (p : postfix) : list Z :=
  match p with
  | Once => []
  | Starred => [ch_star]
  | Exactly ds => [ch_bs; ch_lbrace] ++ digits ds ++ [ch_bs; ch_rbrace]
  | AtLeast ds => [ch_bs; ch_lbrace] ++ digits ds ++ [ch_comma; ch_bs; ch_rbrace]
  | Between ds es => [ch_bs; ch_lbrace] ++ digits ds ++ ch_comma :: digits es ++ [ch_bs; ch_rbrace]
  end.

Definition render_item (i : pitem) : list Z :=
  match i with
  | PAtom a p => render_atom a ++ render_postfix p
  | PBra => [ch_bs; ch_lparen]
  | PKet => [ch_bs; ch_rparen]
  | PBack n => [ch_bs; ch_1 + Z.of_nat n]
  end.

Definition render (p : pattern) : list Z :=
  (if anchored p then [ch_caret] else []) ++ (pitems p ≫= render_item)
  ++ (if eol p then [ch_dollar] else []).

(** ** Items *)
Definition place_bit (bm : list Z) (c : Z) : list Z :=
  alter (fun b => b .| 2 ^ (c .& 7)) (Z.to_nat (c >>> 3)) bm.

(** The characters from [lc] on, [n] of them. *)
Fixpoint place_bits (n : nat) (lc : Z) (bm : list Z) : list Z :=
  match n with O => bm | S n => place_bits n (lc + 1) (place_bit bm lc) end.

Definition place_celem (bm : list Z) (e : celem) : list Z :=
  match e with
  | COne c => place_bit bm c
  | CRange a b => place_bit (place_bits (Z.to_nat (b - a)) a (place_bit bm a)) b
  end.

Definition class_bits (els : list celem) : list Z := foldl place_celem (replicate 16 0) els.

Definition elab_atom (a : patom) : atom :=
  match a with
  | PChr c => AChr c
  | PAny => AAny
  | PClass neg els =>
      let bm := class_bits els in
      ACcl neg (if neg then alter (fun b => b .| 1) 0%nat bm else bm)
  end.

Definition value (ds : list Z) : Z := foldl (fun i d => 10 * i + d) 0 ds.

Definition elab_postfix (a : atom) (p : postfix) : item :=
  match p with
  | Once => IAtom a
  | Starred => IStar a
  | Exactly ds => IRange a (value ds) (value ds)
  | AtLeast ds => IRange a (value ds) 255
  | Between ds es => IRange a (value ds) (value es)
  end.

(** Groups are numbered in the order they are opened; [nb] groups are opened,
    [br] are open (innermost first) and [cl] have been closed. *)
Fixpoint elab_items (nb : nat) (br : list nat) (cl : nat) (l : list pitem) : option (list item) :=
  match l with
  | [] => match br with [] => Some [] | _ => None end
  | PAtom a p :: l => cons (elab_postfix (elab_atom a) p) <$> elab_items nb br cl l
  | PBra :: l => if (nb <? 9)%nat then cons (IBra nb) <$> elab_items (S nb) (nb :: br) cl l else None
  | PKet :: l => match br with
                 | [] => None
                 | b :: br => cons (IKet b) <$> elab_items nb br (S cl) l
                 end
  | PBack n :: l => if (n <? cl)%nat then cons (IBack n) <$> elab_items nb br cl l else None
  end.

Definition elab (p : pattern) : option (list item) :=
  l ← elab_items 0 [] 0 (pitems p); Some (l ++ if eol p then [IEol] else []).

(** ** Well-formed patterns *)
Definition member_ok (c : Z) : Prop := 0 < c < 128 /\ c <> NL /\ c <> ch_rbrack /\ c <> ch_dash.
Definition celem_ok (e : celem) : Prop :=
  match e with COne c => member_ok c | CRange a b => member_ok a /\ member_ok b /\ a <= b end.
Definition patom_ok (a : patom) : Prop :=
  match a with
  | PChr c => 0 < c < 256
  | PAny => True
  | PClass neg els => Forall celem_ok els /\
      match els with [] => False | e :: _ => head (render_celem e) <> Some ch_caret end
  end.
Definition digits_ok (ds : list Z) : Prop := ds <> [] /\ Forall (fun d => 0 <= d <= 9) ds /\ value ds < 255.
Definition postfix_ok (p : postfix) : Prop :=
  match p with
  | Once | Starred => True
  | Exactly ds | AtLeast ds => digits_ok ds
  | Between ds es => digits_ok ds /\ digits_ok es /\ value ds <= value es
  end.
Definition pitem_ok (i : pitem) : Prop :=
  match i with PAtom a p => patom_ok a /\ postfix_ok p | _ => True end.
Definition pattern_ok (p : pattern) : Prop :=
  Forall pitem_ok (pitems p) /\ (anchored p = true \/ pitems p <> [] \/ eol p = true).

(** ** Reading a known text *)
Section Round.
Context {S : Type} `{SourceLaws S}.
Implicit Types (s : S) (code post rest : list Z).

Fixpoint reads s (l : list Z) : Prop :=
  match l with [] => True | c :: l => (GETC s).1 = c /\ reads (GETC s).2 l end.
Fixpoint after s (l : list Z) : S :=
  match l with [] => s | _ :: l => after (GETC s).2 l end.

Lemma reads_app s l k : reads s (l ++ k) <-> reads s l /\ reads (after s l) k.
Proof. revert s. induction l as [|c l IH]; intros s; simpl; [tauto|]. rewrite IH. tauto. Qed.

Lemma after_app s l k : after s (l ++ k) = after (after s l) k.
Proof. revert s. induction l as [|c l IH]; intros s; simpl; [done|]. apply IH. Qed.

Lemma getc_reads s b e ci nb nd la br cl c :
  (GETC s).1 = c ->
  getc (CState s b e ci nb nd la br cl) = (c, CState (after s [c]) b e ci nb nd la br cl).
Proof. intros Hc. unfold getc. simpl. destruct (GETC s). simpl in *. by subst. Qed.

Lemma peekc_reads s b e ci nb nd la br cl c :
  (GETC s).1 = c -> peekc (CState s b e ci nb nd la br cl) = c.
Proof. intros Hc. unfold peekc. simpl. by rewrite peekc_getc. Qed.

Lemma ungetc_reads s b e ci nb nd la br cl c :
  (GETC s).1 = c ->
  ungetc c (CState (after s [c]) b e ci nb nd la br cl) = CState s b e ci nb nd la br cl.
Proof.
  intros Hc. unfold ungetc, set_src. simpl. subst c. by rewrite ungetc_getc.
Qed.

(** ** Writing at the end of the code *)
Lemma wr_mid (l r : list Z) x b : wr (l ++ x :: r) (length l) b = Some (l ++ b :: r).
Proof.
  rewrite wr_in by (rewrite length_app; simpl; lia). f_equal.
  by rewrite insert_app_r_alt, Nat.sub_diag by lia.
Qed.

Lemma rd_mid (l r : list Z) x : rd (l ++ x :: r) (length l) = Some x.
Proof. unfold rd. by rewrite lookup_app_r, Nat.sub_diag by lia. Qed.

Lemma emit_mid s code x post ci nb nd la br cl b :
  emit b (CState s (code ++ x :: post) (length code) ci nb nd la br cl)
  = Val (CState s ((code ++ [b]) ++ post) (length (code ++ [b])) ci nb nd la br cl).
Proof.
  unfold emit. simpl. rewrite wr_mid. simpl. unfold set_ep, set_buf. simpl.
  by rewrite <- app_assoc, length_app.
Qed.

Lemma emit2_mid s code x y post ci nb nd la br cl a b (k : cstate S -> res (turn S)) :
  (st ← emit a (CState s (code ++ x :: y :: post) (length code) ci nb nd la br cl);
   st ← emit b st; k st)
  = k (CState s (code ++ [a; b] ++ post) (length code + 2) ci nb nd la br cl).
Proof.
  rewrite emit_mid. cbn [mbind res_bind]. rewrite emit_mid. cbn [mbind res_bind].
  rewrite !length_app, <- !app_assoc. simpl. by rewrite <- Nat.add_assoc.
Qed.

(** ** Bits of a class under construction *)
Lemma PLACE_mid s code bm post ci nb nd la br cl c :
  (Z.to_nat (c >>> 3) < length bm)%nat -> 0 <= c ->
  PLACE c (CState s (code ++ bm ++ post) (length code) ci nb nd la br cl)
  = Val (CState s (code ++ place_bit bm c ++ post) (length code) ci nb nd la br cl).
Proof.
  intros Hc Hpos. assert (0 <= c >>> 3) by (by apply Z.shiftr_nonneg).
  unfold PLACE, get_at, set_at. simpl.
  rewrite (proj2 (Z.ltb_ge _ _)) by lia. rewrite bittab_lookup.
  replace (Z.to_nat (Z.of_nat (length code) + (c >>> 3)))
    with (length code + Z.to_nat (c >>> 3))%nat by lia.
  destruct (lookup_lt_is_Some_2 bm _ Hc) as [x Hx]. unfold rd.
  rewrite (lookup_app_r code), Nat.add_sub_swap, Nat.sub_diag by lia. simpl.
  rewrite (lookup_app_l_Some _ _ _ _ Hx). simpl.
  rewrite wr_in by (rewrite !length_app; lia). simpl. unfold set_buf. simpl. do 2 f_equal.
  rewrite insert_app_r, insert_app_l by lia. f_equal. f_equal. unfold place_bit.
  rewrite list_insert_alter. apply list_alter_ext; [|done]. intros y Hy. congruence.
Qed.

Lemma shiftr3_lt c n : 0 <= c < 8 * Z.of_nat n -> (Z.to_nat (c >>> 3) < n)%nat.
Proof.
  intros Hc. rewrite Z.shiftr_div_pow2 by lia. change (2 ^ 3) with 8.
  pose proof (Z.div_lt_upper_bound c 8 (Z.of_nat n) ltac:(lia) ltac:(lia)).
  pose proof (Z.div_pos c 8 ltac:(lia) ltac:(lia)). lia.
Qed.

Lemma place_bit_length bm c : length (place_bit bm c) = length bm.
Proof. apply length_alter. Qed.
Lemma place_bits_length n lc bm : length (place_bits n lc bm) = length bm.
Proof.
  revert lc bm. induction n as [|n IH]; intros lc bm; simpl; [done|]. by rewrite IH, place_bit_length.
Qed.
Lemma place_celem_length bm e : length (place_celem bm e) = length bm.
Proof. destruct e; simpl; by rewrite ?place_bit_length, ?place_bits_length, ?place_bit_length. Qed.

Lemma place_range_mid n s code bm post ci nb nd la br cl lc :
  0 <= lc -> lc + Z.of_nat n <= 8 * Z.of_nat (length bm) ->
  place_range n lc (CState s (code ++ bm ++ post) (length code) ci nb nd la br cl)
  = Val (CState s (code ++ place_bits n lc bm ++ post) (length code) ci nb nd la br cl).
Proof.
  revert lc bm. induction n as [|n IH]; intros lc bm Hlo Hhi; [done|]. cbn [place_range].
  rewrite PLACE_mid by (try apply shiftr3_lt; lia). cbn [mbind res_bind].
  apply IH; [lia|]. rewrite place_bit_length. lia.
Qed.

Lemma widen_ascii endbuf c iflag (st : cstate S) : 0 <= c < 128 -> widen endbuf c iflag st = Val (iflag, st).
Proof. intros Hc. unfold widen. by rewrite land128_low. Qed.

Lemma mask255 c : 0 <= c < 256 -> c .& 255 = c.
Proof. intros Hc. change 255 with (Z.ones 8). rewrite Z.land_ones by lia. by apply Z.mod_small. Qed.

(** The body of the class loop on a character, and on [-] after [a]. *)
Lemma class_body_one endbuf c lc s code bm post ci nb nd la br cl :
  member_ok c -> length bm = 16%nat ->
  class_body endbuf c lc 1 (CState s (code ++ bm ++ post) (length code) ci nb nd la br cl)
  = Val (false, c, 1, CState s (code ++ place_bit bm c ++ post) (length code) ci nb nd la br cl).
Proof.
  intros (Hc & Hnl & Hrb & Hd) Hl. unfold class_body. rewrite mask255 by lia.
  rewrite (proj2 (Z.eqb_neq c 0)), (proj2 (Z.eqb_neq c NL)), widen_ascii by (done || lia).
  cbn [orb mbind res_bind]. rewrite (proj2 (Z.eqb_neq c ch_dash)) by done. cbn [andb].
  by rewrite PLACE_mid by (try apply shiftr3_lt; lia).
Qed.

Lemma class_body_dash endbuf a b s code bm post ci nb nd la br cl :
  member_ok a -> member_ok b -> a <= b -> length bm = 16%nat -> (GETC s).1 = b ->
  class_body endbuf ch_dash a 1 (CState s (code ++ bm ++ post) (length code) ci nb nd la br cl)
  = Val (false, b, 1, CState (after s [b])
      (code ++ place_bit (place_bits (Z.to_nat (b - a)) a bm) b ++ post) (length code) ci nb nd la br cl).
Proof.
  intros (Ha & _) (Hb & _ & Hrb & _) Hab Hl Hr. unfold class_body.
  change (ch_dash .& 255) with ch_dash. rewrite (widen_ascii endbuf ch_dash) by (unfold ch_dash; lia).
  cbn -[getc widen place_range PLACE]. unfold truth.
  rewrite (proj2 (Z.eqb_neq a 0)) by lia. cbn [negb].
  rewrite (getc_reads _ _ _ _ _ _ _ _ _ _ Hr). rewrite (proj2 (Z.eqb_neq b ch_rbrack)) by done.
  rewrite widen_ascii by lia. cbn [mbind res_bind].
  rewrite place_range_mid by lia. cbn [mbind res_bind].
  rewrite PLACE_mid; [done| |lia]. apply shiftr3_lt. rewrite place_bits_length. lia.
Qed.

(** The loop from the point where the next character is read. *)
Definition class_rest (fuel endbuf : nat) (lc : Z) (st : cstate S) : res (Z * cstate S) :=
  let '(c, st) := getc st in
  if c =? ch_rbrack then Val (1, st) else class_loop fuel endbuf c lc 1 st.

Lemma class_loop_step fuel endbuf c lc st c' st' :
  class_body endbuf c lc 1 st = Val (false, c', 1, st') ->
  class_loop (Datatypes.S fuel) endbuf c lc 1 st = class_rest fuel endbuf c' st'.
Proof. intros Hb. cbn [class_loop]. rewrite Hb. done. Qed.

Lemma class_rest_els els rest fuel endbuf lc s code bm post ci nb nd la br cl :
  Forall celem_ok els -> length bm = 16%nat -> (length (els ≫= render_celem) <= fuel)%nat ->
  reads s ((els ≫= render_celem) ++ ch_rbrack :: rest) ->
  class_rest fuel endbuf lc (CState s (code ++ bm ++ post) (length code) ci nb nd la br cl)
  = Val (1, CState (after s ((els ≫= render_celem) ++ [ch_rbrack]))
      (code ++ foldl place_celem bm els ++ post) (length code) ci nb nd la br cl).
Proof.
  revert fuel lc s bm. induction els as [|e els IH]; intros fuel lc s bm He Hl Hf Hr; unfold class_rest.
  { cbn [mbind list_bind app] in Hr. by rewrite (getc_reads _ _ _ _ _ _ _ _ _ _ (proj1 Hr)). }
  apply Forall_cons_1 in He as [He Hes]. cbn [mbind list_bind] in Hf, Hr |- *. rewrite length_app in Hf.
  rewrite <- app_assoc in Hr |- *.
  destruct e as [c|a b]; simpl in He, Hr, Hf; cbn [render_celem app] in *.
  - rewrite (getc_reads _ _ _ _ _ _ _ _ _ _ (proj1 Hr)). rewrite (proj2 (Z.eqb_neq c ch_rbrack)) by apply He.
    destruct fuel as [|fuel]; [lia|].
    erewrite class_loop_step by (by apply class_body_one).
    apply IH; [done|by rewrite place_bit_length|lia|apply Hr].
  - destruct He as (Ha & Hb & Hab), Hr as (R1 & R2 & R3 & R4).
    erewrite getc_reads by done. rewrite (proj2 (Z.eqb_neq a ch_rbrack)) by apply Ha.
    destruct fuel as [|[|fuel]]; [lia..|].
    erewrite class_loop_step by (by apply class_body_one). unfold class_rest at 1.
    erewrite getc_reads by done. change (ch_dash =? ch_rbrack) with false. cbn [after].
    erewrite class_loop_step by (apply class_body_dash; rewrite ?place_bit_length; done).
    apply IH; [done|by rewrite place_bit_length, place_bits_length, place_bit_length|lia|done].
Qed.

Lemma get_at_mid s code x post ep0 i ci nb nd la br cl :
  Z.of_nat ep0 + i = Z.of_nat (length code) ->
  get_at i (CState s (code ++ x :: post) ep0 ci nb nd la br cl) = Val x.
Proof.
  intros Hi. unfold get_at. simpl. rewrite Hi, (proj2 (Z.ltb_ge _ _)), Nat2Z.id by lia.
  by rewrite rd_mid.
Qed.

Lemma set_at_mid s code x post ep0 i b ci nb nd la br cl :
  Z.of_nat ep0 + i = Z.of_nat (length code) ->
  set_at i b (CState s (code ++ x :: post) ep0 ci nb nd la br cl)
  = Val (CState s (code ++ b :: post) ep0 ci nb nd la br cl).
Proof.
  intros Hi. unfold set_at. simpl. rewrite Hi, (proj2 (Z.ltb_ge _ _)), Nat2Z.id by lia.
  by rewrite wr_mid.
Qed.

Lemma fill_mid (f : Z -> Z) pre todo s code post ci nb nd la br cl :
  fill (length todo) (Z.of_nat (length pre)) f
    (CState s (code ++ pre ++ todo ++ post) (length code) ci nb nd la br cl)
  = Val (CState s (code ++ pre ++ (f <$> todo) ++ post) (length code) ci nb nd la br cl).
Proof.
  revert pre. induction todo as [|x todo IH]; intros pre; [done|]. cbn [length fill app].
  rewrite (app_assoc code pre).
  rewrite get_at_mid by (rewrite length_app; lia). cbn [mbind res_bind].
  rewrite set_at_mid by (rewrite length_app; lia). cbn [mbind res_bind].
  specialize (IH (pre ++ [f x])). rewrite length_app in IH. simpl in IH.
  replace (Z.of_nat (length pre) + 1) with (Z.of_nat (length pre + 1)) by lia.
  rewrite <- (app_assoc code pre), <- !(app_assoc pre) in *. exact IH.
Qed.

(** The loop of a class entered with its first character. *)
Lemma class_first neg els rest fuel endbuf s code post ci nb nd la br cl :
  patom_ok (PClass neg els) -> (length (els ≫= render_celem) <= fuel)%nat ->
  reads s ((els ≫= render_celem) ++ ch_rbrack :: rest) ->
  exists c st,
    getc (CState s (code ++ replicate 16 0 ++ post) (length code) ci nb nd la br cl) = (c, st)
    /\ c <> ch_caret
    /\ class_loop fuel endbuf c 0 1 st
       = Val (1, CState (after s ((els ≫= render_celem) ++ [ch_rbrack]))
              (code ++ class_bits els ++ post) (length code) ci nb nd la br cl).
Proof.
  intros [Hels Hhead] Hf Hr.
  pose proof (class_rest_els els rest fuel endbuf 0 s code (replicate 16 0) post ci nb nd la br cl
    Hels eq_refl Hf Hr) as Hrest. unfold class_rest in Hrest.
  destruct els as [|e els]; [done|]. apply Forall_cons_1 in Hels as [He _].
  assert (exists c l, render_celem e = c :: l /\ c <> ch_rbrack /\ c <> ch_caret) as (c & l & El & Hc & Hc').
  { destruct e as [c|a b]; simpl in He, Hhead; do 2 eexists; split; try done;
      (split; [apply He|congruence]). }
  assert ((GETC s).1 = c) as Hg by (cbn [mbind list_bind] in Hr; rewrite El in Hr; apply Hr).
  rewrite (getc_reads _ _ _ _ _ _ _ _ _ _ Hg) in Hrest |- *.
  rewrite (proj2 (Z.eqb_neq c ch_rbrack)) in Hrest by done. eauto.
Qed.

Lemma class_finish_mid neg s code bm post ci nb nd la br cl :
  length bm = 16%nat ->
  class_finish neg 1 (CState s ((code ++ [CCL]) ++ bm ++ post) (length (code ++ [CCL])) ci nb nd la br cl)
  = Val (Continue (CState s
      (code ++ ((if neg then NCCL else CCL) :: (if neg then alter (fun b => b .| 1) 0%nat bm else bm)) ++ post)
      (length code + 17) ci nb nd la br cl)).
Proof.
  intros Hl. unfold class_finish. rewrite length_app. simpl length.
  destruct neg; cbn -[get_at set_at Z.to_nat].
  - rewrite <- app_assoc. cbn [app]. rewrite set_at_mid by lia. cbn [mbind res_bind].
    destruct bm as [|x bm]; [done|]. cbn [app].
    replace (code ++ NCCL :: x :: bm ++ post) with ((code ++ [NCCL]) ++ x :: bm ++ post)
      by (by rewrite <- app_assoc).
    rewrite get_at_mid by (rewrite length_app; simpl; lia). cbn [mbind res_bind].
    rewrite set_at_mid by (rewrite length_app; simpl; lia). cbn [mbind res_bind].
    unfold set_ep. simpl. by rewrite <- !app_assoc, <- Nat.add_assoc.
  - unfold set_ep. simpl. by rewrite <- !app_assoc, <- Nat.add_assoc.
Qed.

Lemma class_bits_length els : length (class_bits els) = 16%nat.
Proof.
  unfold class_bits. assert (length (replicate 16 0) = 16%nat) as Hl by done. revert Hl.
  generalize (replicate 16 0). induction els as [|e els IH]; intros bm Hl; simpl; [done|].
  apply IH. by rewrite place_celem_length.
Qed.

Lemma compile_class_mid neg els rest fuel endbuf s code old post ci nb nd la br cl :
  patom_ok (PClass neg els) -> length old = 17%nat -> (length code + 17 < endbuf)%nat ->
  (length (els ≫= render_celem) <= fuel)%nat ->
  reads s ((if neg then [ch_caret] else []) ++ (els ≫= render_celem) ++ ch_rbrack :: rest) ->
  compile_class fuel endbuf (CState s (code ++ old ++ post) (length code) ci nb nd la br cl)
  = Val (Continue (CState
      (after s ((if neg then [ch_caret] else []) ++ (els ≫= render_celem) ++ [ch_rbrack]))
      (code ++ encode_item (IAtom (elab_atom (PClass neg els))) ++ post)
      (length code + 17) ci nb nd la br cl)).
Proof.
  intros Hok Hold Hend Hf Hr. unfold compile_class. simpl ep.
  rewrite (proj2 (Nat.leb_gt _ _)) by lia.
  destruct old as [|x old]; [done|]. injection Hold as Hold. cbn [app].
  rewrite emit_mid. cbn [mbind res_bind].
  pose proof (fill_mid (fun _ => 0) [] old s (code ++ [CCL]) post ci nb nd la br cl) as Hfill.
  rewrite Hold in Hfill. change (Z.of_nat (length [])) with 0 in Hfill. cbn [app] in Hfill. rewrite Hfill. cbn [mbind res_bind]. clear Hfill.
  assert ((fun _ : Z => 0) <$> old = replicate 16 0) as ->.
  { rewrite <- Hold. clear. induction old; simpl; [done|]. by f_equal. }
  assert (exists s', (if neg then (GETC s).1 = ch_caret /\ s' = (GETC s).2 else s' = s)
    /\ reads s' ((els ≫= render_celem) ++ ch_rbrack :: rest)
    /\ after s ((if neg then [ch_caret] else []) ++ (els ≫= render_celem) ++ [ch_rbrack])
       = after s' ((els ≫= render_celem) ++ [ch_rbrack])) as (s' & Hs' & Hr' & ->).
  { destruct neg; simpl in Hr |- *; [exists (GETC s).2; tauto|by exists s]. }
  destruct (class_first neg els rest fuel endbuf s' (code ++ [CCL]) post ci nb nd la br cl)
    as (c & st & Hg & Hc & Hloop); [done..|].
  destruct neg.
  - destruct Hs' as [Hcaret ->]. rewrite (getc_reads _ _ _ _ _ _ _ _ _ _ Hcaret), Z.eqb_refl.
    cbn [after]. rewrite Hg, Hloop. cbn [mbind res_bind].
    by rewrite class_finish_mid by apply class_bits_length.
  - subst s'. rewrite Hg, (proj2 (Z.eqb_neq c ch_caret)), Hloop by done. cbn [mbind res_bind].
    by rewrite class_finish_mid by apply class_bits_length.
Qed.

(** ** One turn of [compile] per token *)

(** Decides the comparisons of constants in the goal. *)
Ltac consts :=
  repeat match goal with
    | |- context [?x =? ?y] => let v := eval vm_compute in (x =? y) in
        match v with true => change (x =? y) with true | false => change (x =? y) with false end
    | |- context [?x <=? ?y] => let v := eval vm_compute in (x <=? y) in
        match v with true => change (x <=? y) with true | false => change (x <=? y) with false end
    end; cbn [negb andb orb].

Lemma defchar_mid s code x y post ci nb nd la br cl c :
  0 <= c < 256 ->
  defchar c (CState s (code ++ x :: y :: post) (length code) ci nb nd la br cl)
  = Val (Continue (CState s (code ++ [CCHR; c] ++ post) (length code + 2) ci nb nd
      (Some (length code)) br cl)).
Proof.
  intros Hc. unfold defchar, set_lastep. cbn [src buf ep circf nbra nodelim lastep bracket closed].
  rewrite emit2_mid. by rewrite wrapu_id.
Qed.

Context (fuel endbuf : nat) (sed : bool).

Lemma turn_enter s code post ci nb nd la br cl c :
  (length code < endbuf)%nat -> (GETC s).1 = c -> c <> 0 -> c <> ch_star ->
  (c = ch_bs -> (GETC (after s [c])).1 <> ch_lbrace) ->
  compile_turn fuel sed endbuf 0 (CState s (code ++ post) (length code) ci nb nd la br cl)
  = (let st := CState (after s [c]) (code ++ post) (length code) ci nb nd (Some (length code)) br cl in
     if c =? ch_dot then st ← emit CDOT st; Val (Continue st)
     else if c =? NL then
       if negb sed then
         let st := ungetc c st in
         st ← emit CCEOF st;
         let st := set_nodelim 1 st in
         match bracket st with [] => Val (Return st) | _ => Err 42 end
       else Err 36
     else if c =? ch_dollar then
       if negb (peekc st =? 0) && negb (peekc st =? NL) then defchar c st
       else st ← emit CDOL st; Val (Continue st)
     else if c =? ch_lbrack then compile_class fuel endbuf st
     else if c =? ch_bs then compile_backslash fuel st
     else defchar c st).
Proof.
  intros He Hc H0' Hstar Hbs. unfold compile_turn. simpl ep. rewrite (proj2 (Nat.leb_gt _ _)) by lia.
  rewrite (getc_reads _ _ _ _ _ _ _ _ _ _ Hc), (peekc_reads _ _ _ _ _ _ _ _ _ _ eq_refl).
  rewrite (proj2 (Z.eqb_neq c ch_star)), (proj2 (Z.eqb_neq c 0)) by done.
  assert (negb (c =? ch_bs) || negb ((GETC (after s [c])).1 =? ch_lbrace) = true) as ->; [|done].
  destruct (Z.eqb_spec c ch_bs) as [E|]; [|done].
  by rewrite (proj2 (Z.eqb_neq _ _) (Hbs E)).
Qed.

Lemma turn_atom a rest s code old post ci nb nd la br cl :
  patom_ok a -> length old = length (encode_item (IAtom (elab_atom a))) ->
  (length code + length old < endbuf)%nat -> (length (render_atom a) <= fuel)%nat ->
  reads s (render_atom a ++ rest) ->
  compile_turn fuel sed endbuf 0 (CState s (code ++ old ++ post) (length code) ci nb nd la br cl)
  = Val (Continue (CState (after s (render_atom a))
      (code ++ encode_item (IAtom (elab_atom a)) ++ post)
      (length code + length old) ci nb nd (Some (length code)) br cl)).
Proof.
  intros Ha Hold Hend Hf Hr. destruct a as [c| |neg els]; simpl in Ha, Hold, Hr.
  - destruct old as [|x [|y [|]]]; try done. simpl render_atom. simpl in Hend. cbn [app].
    destruct (bool_decide (c ∈ specials)) eqn:Es; [|destruct (Z.eqb_spec c NL) as [->|Hnl]].
    + destruct Hr as (R1 & R2 & _). apply bool_decide_eq_true in Es.
      rewrite (turn_enter _ _ _ _ _ _ _ _ _ ch_bs); [|lia|done..|].
      2: { intros _. simpl. rewrite R2. intros ->. revert Es. apply (bool_decide_unpack (ch_lbrace ∉ specials)).
           vm_compute. exact I. }
      consts. cbn zeta. unfold compile_backslash. erewrite getc_reads by exact R2.
      unfold specials in Es. rewrite !elem_of_cons, elem_of_nil in Es.
      repeat destruct Es as [->|Es]; try done; consts; by rewrite defchar_mid.
    + destruct Hr as (R1 & R2 & _).
      rewrite (turn_enter _ _ _ _ _ _ _ _ _ ch_bs); [|lia|done..|intros _; simpl; by rewrite R2].
      consts. cbn zeta. unfold compile_backslash. erewrite getc_reads by exact R2. consts.
      by rewrite defchar_mid.
    + destruct Hr as (R1 & _). apply bool_decide_eq_false in Es. unfold specials in Es.
      rewrite !not_elem_of_cons in Es. destruct Es as (? & ? & ? & ? & ? & ? & _).
      rewrite (turn_enter _ _ _ _ _ _ _ _ _ c); [|lia|done|lia|done|done].
      rewrite !(proj2 (Z.eqb_neq c _)) by done. cbn zeta. by rewrite defchar_mid by lia.
  - destruct old as [|x [|]]; try done. simpl in Hend. destruct Hr as [R1 _].
    rewrite (turn_enter _ _ _ _ _ _ _ _ _ ch_dot); [|lia|done..].
    consts. cbn zeta. cbn [app]. rewrite emit_mid. cbn [mbind res_bind].
    rewrite length_app, <- app_assoc. done.
  - assert (length old = 17%nat) as Hold'.
    { rewrite Hold. destruct neg; by rewrite ?length_alter, class_bits_length. }
    destruct Hr as [R1 Hr]. rewrite <- !app_assoc in Hr.
    rewrite (turn_enter _ _ _ _ _ _ _ _ _ ch_lbrack); [|lia|done..]. consts. cbn zeta.
    simpl in Hf. rewrite !length_app in Hf.
    rewrite (compile_class_mid neg els rest); [by rewrite Hold'|done|done|lia|lia|done].
Qed.

Lemma or_lastep_mid s code op post ep0 ci nb nd la br cl flag :
  or_lastep (length code) flag (CState s (code ++ op :: post) ep0 ci nb nd la br cl)
  = Val (CState s (code ++ (op .| flag) :: post) ep0 ci nb nd la br cl).
Proof. unfold or_lastep. simpl. rewrite rd_mid. simpl. by rewrite wr_mid. Qed.

Lemma turn_star s code op post ep0 ci nb nd br cl :
  op <> CBRA -> op <> CKET -> (ep0 < endbuf)%nat -> (GETC s).1 = ch_star ->
  compile_turn fuel sed endbuf 0 (CState s (code ++ op :: post) ep0 ci nb nd (Some (length code)) br cl)
  = Val (Continue (CState (after s [ch_star]) (code ++ (op .| STAR) :: post) ep0 ci nb nd
      (Some (length code)) br cl)).
Proof.
  intros Hb Hk He Hc. unfold compile_turn. simpl ep. rewrite (proj2 (Nat.leb_gt _ _)) by lia.
  rewrite (getc_reads _ _ _ _ _ _ _ _ _ _ Hc). consts. simpl lastep. simpl buf. cbn iota.
  rewrite rd_mid. cbn [acc mbind res_bind].
  rewrite (proj2 (Z.eqb_neq op CBRA)), (proj2 (Z.eqb_neq op CKET)) by done. cbn [orb].
  by rewrite or_lastep_mid.
Qed.

(** ** Intervals *)
Definition horner (i : Z) (ds : list Z) : Z := foldl (fun i d => 10 * i + d) i ds.

Lemma horner_le i ds : 0 <= i -> Forall (fun d => 0 <= d <= 9) ds -> i <= horner i ds.
Proof.
  revert i. induction ds as [|d ds IH]; intros i Hi Hds; simpl; [lia|].
  apply Forall_cons_1 in Hds as [Hd Hds]. specialize (IH (10 * i + d) ltac:(lia) Hds).
  change (i <= horner (10 * i + d) ds). lia.
Qed.

Lemma range_digits_mid f d ds t rest i s b e ci nb nd la br cl :
  (length ds < f)%nat -> Forall (fun d => 0 <= d <= 9) (d :: ds) -> 0 <= i ->
  horner i (d :: ds) < 255 -> t = ch_bs \/ t = ch_comma -> reads s (digits ds ++ t :: rest) ->
  range_digits f (d + ch_0) i (CState s b e ci nb nd la br cl)
  = Val (t, horner i (d :: ds), CState (after s (digits ds ++ [t])) b e ci nb nd la br cl).
Proof.
  revert d ds i s. induction f as [|f IH]; intros d ds i s Hf Hds Hi Hv Ht Hr; [lia|].
  apply Forall_cons_1 in Hds as [Hd Hds]. cbn [range_digits]. unfold ch_0, ch_9 in *.
  rewrite (proj2 (Z.leb_le 48 (d + 48))), (proj2 (Z.leb_le (d + 48) 57)) by lia. cbn [andb].
  pose proof (horner_le (10 * i + d) ds ltac:(lia) Hds) as Hle.
  change (horner i (d :: ds)) with (horner (10 * i + d) ds) in *.
  rewrite wraps_id by (try change (2 ^ (32 - 1)) with 2147483648; lia). replace (10 * i + (d + 48) - 48) with (10 * i + d) by lia.
  destruct ds as [|d' ds]; cbn [digits fmap list_fmap app] in Hr |- *.
  - rewrite (getc_reads _ _ _ _ _ _ _ _ _ _ (proj1 Hr)). destruct Ht as [->| ->]; by consts.
  - destruct Hr as [R1 R2]. rewrite (getc_reads _ _ _ _ _ _ _ _ _ _ R1).
    apply Forall_cons_1 in Hds as [Hd' Hds']. unfold ch_bs, ch_comma, ch_0 in *.
    rewrite (proj2 (Z.eqb_neq (d' + 48) 92)), (proj2 (Z.eqb_neq (d' + 48) 44)) by lia. cbn [orb].
    apply IH; try done; [simpl in Hf; lia|by constructor|lia].
Qed.

(** The number read at [nlim:], and the byte it stores. *)
Lemma range_nlim_mid f ds t rest cflg s code x post ci nb nd la br cl :
  (length ds <= f)%nat -> digits_ok ds -> t = ch_bs \/ t = ch_comma -> reads s (digits ds ++ t :: rest) ->
  range_nlim (Datatypes.S f) cflg (CState s (code ++ x :: post) (length code) ci nb nd la br cl)
  = (let st := CState (after s (digits ds ++ [t])) ((code ++ [value ds]) ++ post)
                 (length (code ++ [value ds])) ci nb nd la br cl in
     if t =? ch_comma then
       if truth cflg then Err 44
       else
         let cflg := cflg + 1 in
         let '(c, st) := getc st in
         if c =? ch_bs then st ← emit 255 st; range_end (value ds) cflg st
         else range_nlim f cflg (ungetc c st)
     else range_end (value ds) cflg st).
Proof.
  intros Hf (Hne & Hds & Hv) Ht Hr. cbn [range_nlim]. destruct ds as [|d ds]; [done|].
  cbn [digits fmap list_fmap app] in Hr. destruct Hr as [R1 R2].
  rewrite (getc_reads _ _ _ _ _ _ _ _ _ _ R1).
  rewrite (range_digits_mid f d ds t rest) by (try done; simpl in Hf; lia). cbn [mbind res_bind].
  change (horner 0 (d :: ds)) with (value (d :: ds)). set (v := value (d :: ds)) in *.
  assert (0 <= v) by (apply (horner_le 0); [lia|done]).
  rewrite (proj2 (Z.leb_gt _ _)) by lia. rewrite emit_mid. cbn [mbind res_bind].
  by rewrite wrapu_id by (unfold in_u; lia).
Qed.

(** [range_end] when the upper bound has been stored. *)
Lemma range_end_pair i s code lo hi post ci nb nd la br cl :
  0 <= lo < 256 -> 0 <= hi < 256 -> lo <= hi -> (GETC s).1 = ch_rbrace ->
  range_end i 1 (CState s ((code ++ [lo; hi]) ++ post) (length code + 2) ci nb nd la br cl)
  = Val (Continue (CState (after s [ch_rbrace]) ((code ++ [lo; hi]) ++ post) (length code + 2)
      ci nb nd la br cl)).
Proof.
  intros Hlo Hhi Hle Hc. unfold range_end. rewrite (getc_reads _ _ _ _ _ _ _ _ _ _ Hc). consts.
  replace ((code ++ [lo; hi]) ++ post) with ((code ++ [lo]) ++ hi :: post)
    by (by rewrite <- !app_assoc).
  rewrite (get_at_mid _ _ _ _ _ (-1)) by (rewrite length_app; cbn [length]; lia). cbn [mbind res_bind].
  rewrite <- app_assoc. cbn [app]. rewrite get_at_mid by lia. cbn [mbind res_bind].
  rewrite !mask255 by lia. by rewrite (proj2 (Z.ltb_ge _ _)) by lia.
Qed.

Lemma digits_bound ds : digits_ok ds -> 0 <= value ds < 255.
Proof. intros (_ & Hds & Hv). split; [|done]. by apply (horner_le 0). Qed.

Lemma digits_head d ds : digits_ok (d :: ds) -> d + ch_0 <> ch_bs.
Proof. intros (_ & Hds & _). apply Forall_cons_1 in Hds as [Hd _]. unfold ch_0, ch_bs. lia. Qed.

(** The bounds of an interval, as [getrnge] will read them. *)
Definition bounds (p : postfix) : option (Z * Z) :=
  match p with
  | Once | Starred => None
  | Exactly ds => Some (value ds, value ds)
  | AtLeast ds => Some (value ds, 255)
  | Between ds es => Some (value ds, value es)
  end.

Section Interval.
Context (rest : list Z) (s : S) (code : list Z) (x y : Z) (post : list Z).
Context (ci nb nd : Z) (la : option nat) (br : list Z) (cl : Z).
Abbreviation before f := (range_nlim f 0 (CState s (code ++ x :: y :: post) (length code) ci nb nd la br cl)).
Abbreviation stored txt lo hi := (Val (Continue (CState (after s txt) ((code ++ [lo; hi]) ++ post)
  (length code + 2) ci nb nd la br cl))).

Lemma app_two (l r : list Z) u v : (l ++ [u]) ++ v :: r = (l ++ [u; v]) ++ r.
Proof. by rewrite <- !app_assoc. Qed.

Lemma interval_exactly f ds :
  digits_ok ds -> (length ds < f)%nat -> reads s (digits ds ++ ch_bs :: ch_rbrace :: rest) ->
  before f = stored (digits ds ++ [ch_bs; ch_rbrace]) (value ds) (value ds).
Proof.
  intros Hds Hf Hr. destruct f as [|f]; [lia|].
  rewrite (range_nlim_mid f ds ch_bs (ch_rbrace :: rest)); [|lia|done|by left|done].
  consts. cbn zeta. apply reads_app in Hr as [_ (R1 & R2 & _)].
  assert ((GETC (after s (digits ds ++ [ch_bs]))).1 = ch_rbrace) as R by (by rewrite after_app).
  unfold range_end. rewrite (getc_reads _ _ _ _ _ _ _ _ _ _ R). consts. rewrite emit_mid.
  cbn [mbind res_bind]. pose proof (digits_bound ds Hds). rewrite wrapu_id by (unfold in_u; lia).
  rewrite <- after_app, <- !app_assoc, !length_app. done.
Qed.

Lemma interval_at_least f ds :
  digits_ok ds -> (length ds < f)%nat -> reads s (digits ds ++ ch_comma :: ch_bs :: ch_rbrace :: rest) ->
  before f = stored (digits ds ++ [ch_comma; ch_bs; ch_rbrace]) (value ds) 255.
Proof.
  intros Hds Hf Hr. destruct f as [|f]; [lia|].
  rewrite (range_nlim_mid f ds ch_comma (ch_bs :: ch_rbrace :: rest)); [|lia|done|by right|done].
  consts. cbn zeta. apply reads_app in Hr as [_ (R1 & R2 & R3 & _)].
  assert ((GETC (after s (digits ds ++ [ch_comma]))).1 = ch_bs) as R by (by rewrite after_app).
  change (truth 0) with false. cbn iota. rewrite (getc_reads _ _ _ _ _ _ _ _ _ _ R). consts.
  rewrite emit_mid, <- (app_assoc code). cbn [mbind res_bind app].
  pose proof (digits_bound ds Hds). rewrite length_app. cbn [length]. change (0 + 1) with 1.
  rewrite range_end_pair; [|lia..|].
  - rewrite <- !after_app. by rewrite <- !app_assoc.
  - rewrite <- after_app, <- app_assoc. cbn [app]. by rewrite after_app.
Qed.

Lemma interval_between f ds es :
  digits_ok ds -> digits_ok es -> value ds <= value es -> (length ds + length es < f)%nat ->
  reads s (digits ds ++ ch_comma :: digits es ++ ch_bs :: ch_rbrace :: rest) ->
  before f = stored (digits ds ++ ch_comma :: digits es ++ [ch_bs; ch_rbrace]) (value ds) (value es).
Proof.
  intros Hds Hes Hle Hf Hr. destruct f as [|f]; [lia|].
  rewrite (range_nlim_mid f ds ch_comma (digits es ++ ch_bs :: ch_rbrace :: rest));
    [|lia|done|by right|done].
  consts. cbn zeta. apply reads_app in Hr as [_ [R1 R2]].
  assert (reads (after s (digits ds ++ [ch_comma])) (digits es ++ ch_bs :: ch_rbrace :: rest)) as R
    by (by rewrite after_app).
  replace (digits ds ++ ch_comma :: digits es ++ [ch_bs; ch_rbrace])
    with ((digits ds ++ [ch_comma]) ++ (digits es ++ [ch_bs]) ++ [ch_rbrace]) by (by rewrite <- !app_assoc).
  rewrite (after_app s (digits ds ++ [ch_comma])). set (s1 := after s (digits ds ++ [ch_comma])) in *. clearbody s1. clear R1 R2.
  change (truth 0) with false. cbn iota. destruct es as [|e es]; [by destruct Hes|].
  pose proof (proj1 R) as Rg. rewrite (getc_reads _ _ _ _ _ _ _ _ _ _ Rg).
  rewrite (proj2 (Z.eqb_neq _ ch_bs)) by (by eapply digits_head).
  rewrite (ungetc_reads _ _ _ _ _ _ _ _ _ _ Rg).
  assert (0 < length ds)%nat by (destruct Hds; destruct ds; simpl; done || lia).
  destruct f as [|f]; [simpl in Hf; lia|].
  rewrite (range_nlim_mid f (e :: es) ch_bs (ch_rbrace :: rest)); [|simpl in *; lia|done|by left|done].
  consts. cbn zeta. rewrite <- (app_assoc code). cbn [app].
  pose proof (digits_bound ds Hds). pose proof (digits_bound _ Hes).
  rewrite length_app. cbn [length]. change (0 + 1) with 1. rewrite (after_app s1 _ [ch_rbrace]).
  rewrite range_end_pair; [done|lia..|]. rewrite after_app. by apply reads_app in R as [_ (_ & ? & _)].
Qed.
End Interval.

Lemma interval_mid p lo hi rest f s code x y post ci nb nd la br cl :
  postfix_ok p -> bounds p = Some (lo, hi) -> (length (render_postfix p) <= f)%nat ->
  reads s (drop 2 (render_postfix p) ++ rest) ->
  range_nlim f 0 (CState s (code ++ x :: y :: post) (length code) ci nb nd la br cl)
  = Val (Continue (CState (after s (drop 2 (render_postfix p))) ((code ++ [lo; hi]) ++ post)
      (length code + 2) ci nb nd la br cl)).
Proof.
  intros Hp Hb Hf Hr.
  destruct p as [| |ds|ds|ds es]; try done; injection Hb as <- <-; simpl in Hf, Hp, Hr |- *;
    rewrite drop_0, <- !app_assoc in Hr; rewrite drop_0; rewrite length_app in Hf; simpl in Hf, Hr;
    unfold digits in Hf; rewrite ?length_app, !length_fmap in Hf.
  - apply interval_exactly with rest; [done|lia|done].
  - apply interval_at_least with rest; [done|lia|done].
  - destruct Hp as (? & ? & ?). rewrite <- app_assoc in Hr. simpl in Hr.
    apply interval_between with rest; try done. lia.
Qed.

Lemma turn_interval p lo hi rest s code op args x y post ci nb nd br cl :
  postfix_ok p -> bounds p = Some (lo, hi) -> (length (render_postfix p) <= fuel)%nat ->
  (length code + Datatypes.S (length args) < endbuf)%nat -> reads s (render_postfix p ++ rest) ->
  compile_turn fuel sed endbuf 0 (CState s (code ++ (op :: args) ++ x :: y :: post)
    (length code + Datatypes.S (length args)) ci nb nd (Some (length code)) br cl)
  = Val (Continue (CState (after s (render_postfix p)) (code ++ ((op .| RNGE) :: args ++ [lo; hi]) ++ post)
      (length code + Datatypes.S (length args) + 2) ci nb nd (Some (length code)) br cl)).
Proof.
  intros Hp Hb Hf He Hr.
  assert (exists tl, render_postfix p = ch_bs :: ch_lbrace :: tl) as [tl Etl]
    by (destruct p; simpl; eauto; done).
  pose proof (interval_mid p lo hi rest fuel (after s [ch_bs; ch_lbrace]) (code ++ (op .| RNGE) :: args) x y
    post ci nb nd (Some (length code)) br cl Hp Hb Hf) as Hmid.
  rewrite Etl in Hr, Hmid |- *. cbn [drop app] in Hmid, Hr. destruct Hr as (R1 & R2 & R3).
  specialize (Hmid R3). unfold compile_turn. simpl ep. rewrite (proj2 (Nat.leb_gt _ _)) by lia.
  rewrite (getc_reads _ _ _ _ _ _ _ _ _ _ R1), (peekc_reads _ _ _ _ _ _ _ _ _ _ R2). consts.
  unfold compile_backslash. rewrite (getc_reads _ _ _ _ _ _ _ _ _ _ R2). consts. simpl lastep. cbn iota.
  cbn [app]. rewrite or_lastep_mid. cbn [mbind res_bind].
  rewrite length_app in Hmid. cbn [length] in Hmid. rewrite <- !(app_assoc code) in Hmid. cbn [app] in Hmid.
  rewrite <- app_assoc in Hmid |- *. exact Hmid.
Qed.

(** ** Groups, the end of line and the end of the pattern *)
Section Groups.
Context (s : S) (code : list Z) (x y : Z) (post : list Z) (ci nd : Z) (la : option nat).
Context (nb : nat) (br : list nat) (cl : nat).
Context (Hend : (length code < endbuf)%nat).
Abbreviation at_group :=
  (CState s (code ++ x :: y :: post) (length code) ci (Z.of_nat nb) nd la (Z.of_nat <$> br) (Z.of_nat cl)).
Abbreviation past txt enc nb' br' cl' :=
  (Val (Continue (CState (after s txt) (code ++ enc ++ post) (length code + 2) ci (Z.of_nat nb') nd
    (Some (length code)) (Z.of_nat <$> br') (Z.of_nat cl')))).

Ltac backslash R1 R2 :=
  rewrite (turn_enter _ _ _ _ _ _ _ _ _ ch_bs); [|done|exact R1|done|done|]; consts; cbn zeta;
  [unfold compile_backslash; erewrite getc_reads by exact R2|].

Ltac two_bytes :=
  rewrite emit_mid; cbn [mbind res_bind nbra]; rewrite ?emit_mid; cbn [mbind res_bind];
  unfold set_nbra, set_closed; simpl; rewrite ?wrapu_id by (unfold in_u; lia);
  rewrite !length_app, <- !app_assoc; cbn [length app]; rewrite <- ?Nat.add_assoc, ?Nat2Z.inj_succ;
  reflexivity.

Lemma turn_bra :
  (nb < 9)%nat -> reads s [ch_bs; ch_lparen] ->
  compile_turn fuel sed endbuf 0 at_group
  = past [ch_bs; ch_lparen] (encode_item (IBra nb)) (Datatypes.S nb) (nb :: br) cl.
Proof.
  intros Hnb (R1 & R2 & _). backslash R1 R2; [|intros _; simpl; by rewrite R2]. consts.
  unfold NBRA. cbn [nbra]. rewrite (proj2 (Z.leb_gt _ _)) by lia. unfold set_bracket. simpl.
  two_bytes.
Qed.

Lemma turn_ket b br' :
  br = b :: br' -> reads s [ch_bs; ch_rparen] ->
  compile_turn fuel sed endbuf 0 at_group
  = past [ch_bs; ch_rparen] (encode_item (IKet b)) nb br' (Datatypes.S cl).
Proof.
  intros Hbr (R1 & R2 & _). backslash R1 R2; [|intros _; simpl; by rewrite R2]. consts.
  rewrite Hbr. simpl. rewrite emit_mid. unfold set_bracket. simpl. two_bytes.
Qed.

Lemma turn_back n :
  (n < cl <= 9)%nat -> reads s [ch_bs; ch_1 + Z.of_nat n] ->
  compile_turn fuel sed endbuf 0 at_group
  = past [ch_bs; ch_1 + Z.of_nat n] (encode_item (IBack n)) nb br cl.
Proof.
  intros Hn (R1 & R2 & _).
  backslash R1 R2; [|intros _; simpl; rewrite R2; unfold ch_1, ch_lbrace; lia].
  unfold ch_1, ch_9, ch_lparen, ch_rparen, ch_lbrace, NL, ch_n in *. cbn zeta.
  rewrite !(proj2 (Z.eqb_neq (49 + Z.of_nat n) _)) by lia.
  rewrite (proj2 (Z.leb_le 49 _)), (proj2 (Z.leb_le _ 57)) by lia. cbn [andb].
  replace (49 + Z.of_nat n - 49) with (Z.of_nat n) by lia. cbn [closed].
  rewrite (proj2 (Z.leb_gt (Z.of_nat cl) _)) by lia. two_bytes.
Qed.
End Groups.

Lemma turn_eol s code x post ci nb nd la br cl :
  (length code < endbuf)%nat -> reads s [ch_dollar; 0] ->
  compile_turn fuel sed endbuf 0 (CState s (code ++ x :: post) (length code) ci nb nd la br cl)
  = Val (Continue (CState (after s [ch_dollar]) (code ++ [CDOL] ++ post) (length code + 1) ci nb nd
      (Some (length code)) br cl)).
Proof.
  intros He (R1 & R2 & _). rewrite (turn_enter _ _ _ _ _ _ _ _ _ ch_dollar); [|done|exact R1|done..].
  consts. cbn zeta. rewrite (peekc_reads _ _ _ _ _ _ _ _ _ _ R2). consts.
  rewrite emit_mid. cbn [mbind res_bind]. by rewrite <- app_assoc, length_app.
Qed.

Lemma turn_eof s code x post ci nb nd la cl :
  (length code < endbuf)%nat -> (GETC s).1 = 0 ->
  exists la', compile_turn fuel sed endbuf 0 (CState s (code ++ x :: post) (length code) ci nb nd la [] cl)
  = Val (Return (CState (after s [0]) (code ++ [CCEOF] ++ post) (length code + 1) ci nb nd la' [] cl)).
Proof.
  intros He R. unfold compile_turn. simpl ep. rewrite (proj2 (Nat.leb_gt _ _)) by lia.
  rewrite (getc_reads _ _ _ _ _ _ _ _ _ _ R). consts. eexists.
  unfold compile_eof, set_lastep. simpl. rewrite emit_mid. simpl.
  by rewrite <- app_assoc, length_app.
Qed.
End Round.

(** ** The whole pattern *)
Section Translate.
Context {S : Type} `{SourceLaws S} (endbuf : nat) (sed : bool).

Lemma loop_continue f (st st' : cstate S) :
  compile_turn f sed endbuf 0 st = Val (Continue st') ->
  compile_loop (Datatypes.S f) sed endbuf 0 st = compile_loop f sed endbuf 0 st'.
Proof. intros Ht. cbn [compile_loop]. by rewrite Ht. Qed.

Lemma split_post (post : list Z) n :
  (n <= length post)%nat -> exists old post', post = old ++ post' /\ length old = n.
Proof.
  intros Hn. exists (take n post), (drop n post). rewrite take_drop, length_take. split; [done|lia].
Qed.

Lemma atom_op_not_group a : atom_op a <> CBRA /\ atom_op a <> CKET.
Proof. destruct a as [| |[] |]; done. Qed.

Lemma encode_atom_cons a : encode_item (IAtom a) = atom_op a :: atom_args a.
Proof. done. Qed.



Lemma render_atom_pos a : (0 < length (render_atom a))%nat.
Proof. destruct a; simpl; repeat case_match; simpl; lia. Qed.

(** An atom with what follows it: one or two turns. *)
Lemma loop_atom a p k rest f (s : S) code old post ci nb nd la br cl :
  (1 <= k)%nat -> patom_ok a -> postfix_ok p ->
  length old = length (encode_item (elab_postfix (elab_atom a) p)) ->
  (length code + length old < endbuf)%nat -> (length (render_item (PAtom a p)) + k <= f)%nat ->
  reads s (render_item (PAtom a p) ++ rest) ->
  exists f', (k <= f')%nat /\
  compile_loop f sed endbuf 0 (CState s (code ++ old ++ post) (length code) ci nb nd la br cl)
  = compile_loop f' sed endbuf 0 (CState (after s (render_item (PAtom a p)))
      (code ++ encode_item (elab_postfix (elab_atom a) p) ++ post) (length code + length old)
      ci nb nd (Some (length code)) br cl).
Proof.
  intros Hk Ha Hp Hold Hend Hf Hr. simpl render_item in *. rewrite length_app in Hf.
  rewrite <- app_assoc in Hr. pose proof (render_atom_pos a) as Hpos.
  set (enc := encode_item (IAtom (elab_atom a))).
  assert (length enc <= length old)%nat as Hle.
  { rewrite Hold. destruct p; simpl; rewrite ?length_app; simpl; lia. }
  destruct (split_post old (length enc) Hle) as (o1 & o2 & -> & Ho1).
  rewrite length_app in *. destruct f as [|f]; [lia|].
  assert (compile_loop (Datatypes.S f) sed endbuf 0
    (CState s (code ++ (o1 ++ o2) ++ post) (length code) ci nb nd la br cl)
    = compile_loop f sed endbuf 0 (CState (after s (render_atom a)) (code ++ enc ++ (o2 ++ post))
        (length code + length o1) ci nb nd (Some (length code)) br cl)) as ->.
  { apply loop_continue. rewrite <- app_assoc. eapply turn_atom; try done; lia. }
  apply reads_app in Hr as [_ Hr]. rewrite after_app. destruct (atom_op_not_group (elab_atom a)) as [Hbra Hket].
  assert (length o2 = 0 \/ length o2 = 2)%nat as Ho2 by
    (unfold enc in *; destruct p; cbn [elab_postfix encode_item length] in *; rewrite ?length_app in Hold; cbn [length] in Hold; lia).
  rewrite Ho1. unfold enc in *. rewrite encode_atom_cons in *. cbn [length] in *.
  destruct (bounds p) as [[lo hi]|] eqn:Eb.
  - assert (elab_postfix (elab_atom a) p = IRange (elab_atom a) lo hi) as ->
      by (destruct p; try done; simpl in *; congruence).
    assert (length o2 = 2)%nat as Ho2'.
    { destruct p; try done; cbn [elab_postfix encode_item length] in Hold; rewrite ?length_app in Hold; cbn [length] in Hold; lia. }
    assert (0 < length (render_postfix p))%nat by (destruct p; simpl; done || lia).
    destruct o2 as [|x [|y [|]]]; try done. destruct f as [|f]; [lia|]. exists f. split; [lia|].
    apply loop_continue.
    refine (eq_trans (turn_interval f endbuf sed p lo hi rest _ code _ _ x y _ _ _ _ _ _ Hp Eb _ _ Hr) _);
      [lia|lia|by rewrite <- Nat.add_assoc].
  - destruct p; try done; cbn [elab_postfix encode_item length] in Hold; (assert (length o2 = 0)%nat as Ho2' by lia);
      destruct o2; try done; rewrite Nat.add_0_r.
    + exists f. split; [simpl in Hf; lia|done].
    + simpl in Hf. destruct f as [|f]; [lia|]. exists f. split; [lia|]. apply loop_continue.
      cbn [app]. erewrite turn_star; try done; [lia|apply Hr].
Qed.

(** What one item of a pattern stands for, and its effect on the groups. *)
Definition item_step (i : pitem) (nb : nat) (br : list nat) (cl : nat) (it : item)
    (nb' : nat) (br' : list nat) (cl' : nat) : Prop :=
  match i with
  | PAtom a p => it = elab_postfix (elab_atom a) p /\ nb' = nb /\ br' = br /\ cl' = cl
  | PBra => (nb < 9)%nat /\ it = IBra nb /\ nb' = Datatypes.S nb /\ br' = nb :: br /\ cl' = cl
  | PKet => exists b, br = b :: br' /\ it = IKet b /\ nb' = nb /\ cl' = Datatypes.S cl
  | PBack n => (n < cl)%nat /\ it = IBack n /\ nb' = nb /\ br' = br /\ cl' = cl
  end.

Definition balanced (nb : nat) (br : list nat) (cl : nat) : Prop := (cl + length br)%nat = nb /\ (nb <= 9)%nat.

Lemma elab_cons i l nb br cl items :
  elab_items nb br cl (i :: l) = Some items -> balanced nb br cl ->
  exists it items' nb' br' cl', items = it :: items' /\ item_step i nb br cl it nb' br' cl'
    /\ elab_items nb' br' cl' l = Some items' /\ balanced nb' br' cl'.
Proof.
  intros He [Hg H9]. destruct i as [a p| | |n]; simpl in He.
  - apply fmap_Some in He as (items' & ? & ->). by exists (elab_postfix (elab_atom a) p), items', nb, br, cl.
  - destruct (Nat.ltb_spec nb 9); [|done]. apply fmap_Some in He as (items' & ? & ->).
    exists (IBra nb), items', (Datatypes.S nb), (nb :: br), cl.
    split_and!; try done. split; simpl; lia.
  - destruct br as [|b br]; [done|]. apply fmap_Some in He as (items' & ? & ->).
    exists (IKet b), items', nb, br, (Datatypes.S cl). simpl in Hg.
    split_and!; try done; [by exists b|]. split; lia.
  - destruct (Nat.ltb_spec n cl); [|done]. apply fmap_Some in He as (items' & ? & ->).
    by exists (IBack n), items', nb, br, cl.
Qed.

Lemma loop_item i it nb br cl nb' br' cl' k rest f (s : S) code old post ci nd la :
  (1 <= k)%nat -> pitem_ok i -> balanced nb br cl -> item_step i nb br cl it nb' br' cl' ->
  length old = length (encode_item it) -> (length code + length old < endbuf)%nat ->
  (length (render_item i) + k <= f)%nat -> reads s (render_item i ++ rest) ->
  exists f', (k <= f')%nat /\
  compile_loop f sed endbuf 0 (CState s (code ++ old ++ post) (length code) ci (Z.of_nat nb) nd la
    (Z.of_nat <$> br) (Z.of_nat cl))
  = compile_loop f' sed endbuf 0 (CState (after s (render_item i)) (code ++ encode_item it ++ post)
      (length code + length old) ci (Z.of_nat nb') nd (Some (length code)) (Z.of_nat <$> br') (Z.of_nat cl')).
Proof.
  intros Hk Hok [Hg H9] Hi Hold Hend Hf Hr.
  destruct i as [a p| | |n]; [destruct Hi as (-> & -> & -> & ->); by apply (loop_atom _ _ _ rest); try apply Hok|..].
  all: apply reads_app in Hr as [Hr _]; destruct f as [|f]; [lia|]; exists f; simpl in Hf; (split; [lia|]);
    apply loop_continue.
  - destruct Hi as (? & -> & -> & -> & ->). destruct old as [|x [|y [|]]]; try done.
    apply turn_bra; done || lia.
  - destruct Hi as (b & -> & -> & -> & ->). destruct old as [|x [|y [|]]]; try done.
    apply (turn_ket f endbuf sed); try done. lia.
  - destruct Hi as (? & -> & -> & -> & ->). destruct old as [|x [|y [|]]]; try done.
    apply turn_back; done || lia.
Qed.

Lemma loop_items l k rest :
  (1 <= k)%nat -> Forall pitem_ok l ->
  forall nb br cl items f (s : S) code post ci nd la,
  elab_items nb br cl l = Some items -> balanced nb br cl ->
  (length code + length (items ≫= encode_item) < endbuf)%nat ->
  (length (items ≫= encode_item) <= length post)%nat ->
  (length (l ≫= render_item) + k <= f)%nat -> reads s ((l ≫= render_item) ++ rest) ->
  exists f' post' la' nb' cl', (k <= f')%nat /\
    length post = (length (items ≫= encode_item) + length post')%nat /\
    post' = drop (length (items ≫= encode_item)) post /\
    compile_loop f sed endbuf 0 (CState s (code ++ post) (length code) ci (Z.of_nat nb) nd la
      (Z.of_nat <$> br) (Z.of_nat cl))
    = compile_loop f' sed endbuf 0 (CState (after s (l ≫= render_item))
        ((code ++ (items ≫= encode_item)) ++ post') (length (code ++ (items ≫= encode_item)))
        ci nb' nd la' [] cl').
Proof.
  intros Hk Hl. induction Hl as [|i l Hi Hl IH]; intros nb br cl items f s code post ci nd la He Hg Hend Hpost Hf Hr.
  { simpl in He. destruct br; [|done]. injection He as <-. exists f, post, la, (Z.of_nat nb), (Z.of_nat cl).
    rewrite app_nil_r. done. }
  destruct (elab_cons _ _ _ _ _ _ He Hg) as (it & items' & nb' & br' & cl' & -> & Hit & He' & Hg').
  cbn [mbind list_bind] in Hend, Hpost, Hf, Hr |- *. rewrite length_app in Hend, Hpost, Hf |- *.
  rewrite <- app_assoc in Hr.
  destruct (split_post post (length (encode_item it))) as (old & post1 & -> & Hold); [lia|].
  rewrite length_app in Hpost |- *.
  destruct (loop_item i it nb br cl nb' br' cl' (length (l ≫= render_item) + k) ((l ≫= render_item) ++ rest)
    f s code old post1 ci nd la) as (f1 & Hf1 & ->); [done || lia..|].
  apply reads_app in Hr as [_ Hr]. rewrite after_app, (app_assoc code (encode_item it) post1), Hold.
  destruct (IH nb' br' cl' items' f1 (after s (render_item i)) (code ++ encode_item it) post1 ci nd
    (Some (length code))) as (f' & post' & la' & nb2 & cl2 & ? & ? & Hp & E); try done; [rewrite length_app; lia|lia|].
  rewrite length_app in E. exists f', post', la', nb2, cl2. split; [done|]. split; [lia|].
  split; [by rewrite <- drop_drop, <- Hold, drop_app_length|]. rewrite E.
  rewrite (app_assoc code (encode_item it)). by rewrite !length_app.
Qed.

(** The end of the pattern, with or without [$]. *)
Lemma loop_end (e : bool) f (s : S) code post ci nb nd la cl :
  let enc := (if e then [CDOL] else []) ++ [CCEOF] in
  (2 <= f)%nat -> (length code + length enc <= endbuf)%nat -> (length enc <= length post)%nat ->
  reads s ((if e then [ch_dollar] else []) ++ [0]) ->
  exists s' la', compile_loop f sed endbuf 0 (CState s (code ++ post) (length code) ci nb nd la [] cl)
    = Val (CState s' ((code ++ enc) ++ drop (length enc) post) (length (code ++ enc)) ci nb nd la' [] cl).
Proof.
  intros enc Hf Hend Hpost Hr. destruct f as [|[|f]]; [lia..|]. destruct e; simpl in enc, Hr; subst enc.
  - destruct post as [|x [|y post]]; simpl in Hpost, Hend; [lia..|].
    erewrite loop_continue by (apply turn_eol; [lia|done]).
    destruct Hr as (R1 & R2 & _). cbn [app].
    replace (length code + 1)%nat with (length (code ++ [CDOL])) by (by rewrite length_app).
    replace (code ++ CDOL :: y :: post) with ((code ++ [CDOL]) ++ y :: post) by (by rewrite <- app_assoc).
    destruct (turn_eof f endbuf sed (after s [ch_dollar]) (code ++ [CDOL]) y post ci nb nd
      (Some (length code)) cl) as [la' E]; [rewrite length_app; simpl; lia|done|].
    cbn [compile_loop]. rewrite E. cbn [mbind res_bind]. do 2 eexists. do 2 f_equal.
    + by rewrite <- !app_assoc.
    + by rewrite !length_app, <- Nat.add_assoc.
  - destruct post as [|x post]; simpl in Hpost, Hend; [lia..|].
    destruct (turn_eof (Datatypes.S f) endbuf sed s code x post ci nb nd la cl) as [la' E]; [lia|apply Hr|].
    cbn [compile_loop] in E |- *. rewrite E. cbn [mbind res_bind]. do 2 eexists. do 2 f_equal.
    + by rewrite <- app_assoc.
    + by rewrite length_app.
Qed.

(** A pattern that is not anchored does not begin like one. *)
Lemma render_head p :
  pattern_ok p -> anchored p = false ->
  exists c l, render p = c :: l /\ c <> 0 /\ c <> NL /\ c <> ch_caret.
Proof.
  intros [Hitems Hne] Ha. unfold render. rewrite Ha. cbn [app].
  destruct (pitems p) as [|i l]; [destruct Hne as [|[?|He]]; [congruence|done|]|].
  { rewrite He. by exists ch_dollar, []. }
  apply Forall_cons_1 in Hitems as [Hi _]. cbn [mbind list_bind]. rewrite <- app_assoc.
  destruct i as [a q| | |n]; cbn [render_item]; [|by do 2 eexists..].
  destruct Hi as [Hi _]. destruct a as [c| |neg els]; cbn [render_atom]; [|by do 2 eexists..].
  destruct (bool_decide (c ∈ specials)) eqn:Es; [by do 2 eexists|].
  destruct (Z.eqb_spec c NL); [by do 2 eexists|].
  apply bool_decide_eq_false in Es. unfold specials in Es. rewrite !not_elem_of_cons in Es.
  exists c. eexists. split; [done|]. simpl in Hi. split; [lia|]. tauto.
Qed.

Lemma compile_render fuel p items (st : cstate S) :
  pattern_ok p -> elab p = Some items -> reads (src st) (render p ++ [0]) ->
  (ep st + length (encode items) <= endbuf <= length (buf st))%nat -> (length (render p) + 3 <= fuel)%nat ->
  exists st', compile fuel sed endbuf 0 st = Val st' /\ circf st' = b2z (anchored p)
    /\ ep st' = (ep st + length (encode items))%nat
    /\ buf st' = take (ep st) (buf st) ++ encode items ++ drop (ep st + length (encode items)) (buf st).
Proof.
  intros Hp He Hr Hend Hf. pose proof Hp as [Hitems _]. unfold elab in He.
  destruct (elab_items 0 [] 0 (pitems p)) as [l|] eqn:El; [|done]. simpl in He. injection He as <-.
  set (tl := (if eol p then [CDOL] else []) ++ [CCEOF]).
  assert (encode (l ++ (if eol p then [IEol] else [])) = (l ≫= encode_item) ++ tl) as Henc.
  { unfold encode, tl. rewrite bind_app, <- app_assoc. by destruct (eol p). }
  rewrite Henc, length_app in *. destruct st as [s b e ci nb nd la br cl]. simpl in Hr, Hend |- *.
  (* the first character *)
  assert (exists s1, reads s1 ((pitems p ≫= render_item) ++ (if eol p then [ch_dollar] else []) ++ [0])
    /\ compile fuel sed endbuf 0 (CState s b e ci nb nd la br cl)
       = compile_loop fuel sed endbuf 0 (CState s1 b e (b2z (anchored p)) 0 nd None [] 0)) as (s1 & Hr1 & ->).
  { unfold compile, set_lastep. simpl src. destruct (anchored p) eqn:Ea.
    - unfold render in Hr. rewrite Ea, <- !app_assoc in Hr. destruct Hr as [R1 R2].
      exists (after s [ch_caret]). split; [exact R2|].
      cbn [buf ep circf nbra nodelim lastep bracket closed].
      rewrite (getc_reads _ _ _ _ _ _ _ _ _ _ R1). done.
    - destruct (render_head p Hp Ea) as (c & tx & Et & H0' & Hnl & Hc). exists s.
      split; [unfold render in Hr; by rewrite Ea, <- !app_assoc in Hr|].
      rewrite Et in Hr. destruct Hr as [R1 _].
      cbn [buf ep circf nbra nodelim lastep bracket closed].
      rewrite (getc_reads _ _ _ _ _ _ _ _ _ _ R1).
      rewrite !(proj2 (Z.eqb_neq c _)) by done. cbn [orb].
      by rewrite (ungetc_reads _ _ _ _ _ _ _ _ _ _ R1). }
  (* the items and the end *)
  assert (length (take e b) = e) as Hlen by (rewrite length_take; lia).
  destruct (loop_items (pitems p) 2 ((if eol p then [ch_dollar] else []) ++ [0]) ltac:(lia) Hitems
    0 [] 0 l fuel s1 (take e b) (drop e b) (b2z (anchored p)) nd None El)
    as (f' & post' & la' & nb' & cl' & Hf' & Hpost & Epost & E); try done.
  { by split; [|lia]. }
  { rewrite Hlen. assert (0 < length tl)%nat by (unfold tl; destruct (eol p); simpl; lia). lia. }
  { rewrite length_drop. lia. }
  { unfold render in Hf. rewrite !length_app in Hf. lia. }
  rewrite take_drop, Hlen in E. change (Z.of_nat 0) with 0 in E. change (Z.of_nat <$> []) with (@nil Z) in E.
  rewrite E. apply reads_app in Hr1 as [_ Hr1]. rewrite length_drop in Hpost.
  destruct (loop_end (eol p) f' (after s1 (pitems p ≫= render_item)) (take e b ++ (l ≫= encode_item)) post'
    (b2z (anchored p)) nb' nd la' cl') as (s' & la2 & E2); [done| | |done|].
  { fold tl. rewrite length_app, Hlen. lia. }
  { fold tl. lia. }
  fold tl in E2. rewrite E2. eexists. split; [done|]. simpl. split_and!.
  - done.
  - rewrite !length_app, Hlen. lia.
  - rewrite Epost, !drop_drop, <- !app_assoc. do 4 f_equal.
Qed.
End Translate.

(** ** What a bracket expression means *)
Definition celem_has (b : Z) (e : celem) : bool :=
  match e with COne c => b =? c | CRange lo hi => (lo <=? b) && (b <=? hi) end.

Lemma split8 b : b = 8 * (b >>> 3) + (b .& 7).
Proof.
  rewrite Z.shiftr_div_pow2 by lia. change 7 with (Z.ones 3). rewrite Z.land_ones by lia.
  change (2 ^ 3) with 8. apply Z.div_mod. lia.
Qed.

Lemma bm_bit_place bm c b :
  0 <= b -> 0 <= c < 8 * Z.of_nat (length bm) ->
  bm_bit (place_bit bm c) b = bm_bit bm b || (b =? c).
Proof.
  intros Hb Hc. unfold bm_bit, place_bit. rewrite list_lookup_alter.
  pose proof (low3_range b). pose proof (low3_range c). pose proof (split8 b). pose proof (split8 c).
  assert (0 <= b >>> 3) by (by apply Z.shiftr_nonneg). assert (0 <= c >>> 3) by (apply Z.shiftr_nonneg; lia).
  destruct (lookup_lt_is_Some_2 bm _ (shiftr3_lt c _ Hc)) as [x Hx].
  case_decide as E.
  - rewrite <- E, Hx. simpl. rewrite Z.lor_spec, pow2_testbit by lia. f_equal.
    destruct (Z.eqb_spec (b .& 7) (c .& 7)), (Z.eqb_spec b c); try done; [lia|congruence].
  - destruct (Z.eqb_spec b c) as [->|]; [done|]. by rewrite orb_false_r.
Qed.

Lemma bm_bit_places n lc bm b :
  0 <= b -> 0 <= lc -> lc + Z.of_nat n <= 8 * Z.of_nat (length bm) ->
  bm_bit (place_bits n lc bm) b = bm_bit bm b || ((lc <=? b) && (b <? lc + Z.of_nat n)).
Proof.
  revert lc bm. induction n as [|n IH]; intros lc bm Hb Hlo Hhi; cbn [place_bits].
  - destruct (Z.leb_spec lc b), (Z.ltb_spec b (lc + Z.of_nat 0)); simpl; rewrite ?orb_false_r; done || lia.
  - rewrite IH, bm_bit_place by (rewrite ?place_bit_length; lia). rewrite <- orb_assoc. f_equal.
    destruct (Z.eqb_spec b lc), (Z.leb_spec lc b), (Z.leb_spec (lc + 1) b),
      (Z.ltb_spec b (lc + Z.of_nat (S n))), (Z.ltb_spec b (lc + 1 + Z.of_nat n)); simpl; done || lia.
Qed.

Lemma bm_bit_celem bm e b :
  0 <= b -> length bm = 16%nat -> celem_ok e ->
  bm_bit (place_celem bm e) b = bm_bit bm b || celem_has b e.
Proof.
  intros Hb Hl He. destruct e as [c|lo hi]; simpl in He |- *.
  - destruct He as [? _]. by rewrite bm_bit_place by lia.
  - destruct He as ([? _] & [? _] & ?).
    rewrite bm_bit_place, bm_bit_places, bm_bit_place by (rewrite ?place_bits_length, ?place_bit_length; lia).
    rewrite <- !orb_assoc. f_equal.
    destruct (Z.eqb_spec b lo), (Z.eqb_spec b hi), (Z.leb_spec lo b), (Z.leb_spec b hi),
      (Z.ltb_spec b (lo + Z.of_nat (Z.to_nat (hi - lo)))); simpl; done || lia.
Qed.

Lemma class_bits_spec els b :
  0 <= b < 128 -> Forall celem_ok els -> bm_bit (class_bits els) b = existsb (celem_has b) els.
Proof.
  intros Hb Hels. unfold class_bits.
  assert (forall bm, length bm = 16%nat ->
    bm_bit (foldl place_celem bm els) b = bm_bit bm b || existsb (celem_has b) els) as Hgen.
  { induction Hels as [|e els He Hels IH]; intros bm Hl; simpl; [by rewrite orb_false_r|].
    rewrite IH, bm_bit_celem, orb_assoc by (rewrite ?place_celem_length; done || lia). done. }
  rewrite Hgen by done. unfold bm_bit. rewrite lookup_replicate_2; [by rewrite Z.testbit_0_l|].
  apply shiftr3_lt. lia.
Qed.

Lemma class_bits_bytes els : Forall is_byte (class_bits els).
Proof.
  unfold class_bits. assert (Forall is_byte (replicate 16 0)) as Hb
    by (apply Forall_replicate; unfold is_byte; lia).
  revert Hb. generalize (replicate 16 0). induction els as [|e els IH]; intros bm Hb; simpl; [done|].
  apply IH. assert (forall c bm, Forall is_byte bm -> Forall is_byte (place_bit bm c)) as Hp.
  { clear. intros c bm Hb. apply Forall_alter; [done|]. intros x _ Hx. apply is_byte_lor; [done|].
    pose proof (low3_range c). assert (2 ^ (c .& 7) <= 2 ^ 7) by (apply Z.pow_le_mono_r; lia).
    pose proof (pow2_pos (c .& 7)). unfold is_byte. lia. }
  assert (forall n c bm, Forall is_byte bm -> Forall is_byte (place_bits n c bm)) as Hps.
  { clear - Hp. intros n. induction n as [|n IH]; intros c bm Hb; simpl; [done|]. by apply IH, Hp. }
  destruct e; simpl; auto.
Qed.

(** A class holds the characters of its members (or, complemented, all the
    others but NUL). *)
Lemma class_meaning neg els b :
  patom_ok (PClass neg els) -> 0 <= b < 256 ->
  atom_ok (elab_atom (PClass neg els)) b
  = negb (b =? 0) && xorb (existsb (celem_has b) els) neg.
Proof.
  intros [Hels _] Hb. simpl.
  assert (128 <= b \/ b = 0 -> existsb (celem_has b) els = false) as Hout.
  { intros Hr. induction Hels as [|e els He _ IH]; simpl; [done|]. rewrite IH, orb_false_r.
    destruct e as [c|lo hi]; simpl in He |- *; unfold member_ok in He;
      repeat match goal with |- context [?x =? ?y] => destruct (Z.eqb_spec x y)
        | |- context [?x <=? ?y] => destruct (Z.leb_spec x y) end; simpl; done || lia. }
  destruct (Z.ltb_spec b 128) as [Hlt|Hge]; cbn [andb].
  2: { rewrite Hout by lia. by rewrite (proj2 (Z.eqb_neq b 0)) by lia. }
  destruct neg.
  - assert (alter (fun x => x .| 1) 0%nat (class_bits els) = place_bit (class_bits els) 0) as ->
      by (unfold place_bit; done).
    rewrite bm_bit_place by (rewrite ?class_bits_length; lia). rewrite class_bits_spec by (done || lia).
    destruct (Z.eqb_spec b 0) as [->|]; [by rewrite Hout by lia|]. by rewrite orb_false_r.
  - rewrite class_bits_spec by (done || lia). destruct (Z.eqb_spec b 0) as [->|]; [by rewrite Hout by lia|].
    by rewrite xorb_false_r.
Qed.

Lemma elab_atom_wf a : patom_ok a -> wf_atom (elab_atom a).
Proof.
  intros Ha. destruct a as [c| |neg els]; [done|done|].
  pose proof (class_meaning neg els 0 Ha ltac:(lia)) as H0. simpl. split_and!; [| |exact H0].
  - destruct neg; by rewrite ?length_alter, class_bits_length.
  - destruct neg; [|apply class_bits_bytes]. apply Forall_alter; [apply class_bits_bytes|].
    intros x _ Hx. apply is_byte_lor; [done|]. unfold is_byte. lia.
Qed.

(** ** Well-formed items *)

(** Every back-reference is to a group that is closed at that point. *)
Fixpoint refs_closed (nb : nat) (br : list nat) (l : list pitem) : Prop :=
  match l with
  | [] => True
  | PAtom _ _ :: l => refs_closed nb br l
  | PBra :: l => refs_closed (S nb) (nb :: br) l
  | PKet :: l => refs_closed nb (tail br) l
  | PBack n :: l => (n < nb)%nat /\ (n ∉ br) /\ refs_closed nb br l
  end.

Lemma postfix_wf a p O D l :
  wf_atom a -> postfix_ok p -> wf_items O D l -> wf_items O D (elab_postfix a p :: l).
Proof.
  intros Ha Hp Hl. destruct p as [| |ds|ds|ds es]; simpl in Hp |- *; try done;
    [pose proof (digits_bound ds Hp)|pose proof (digits_bound ds Hp)|];
    [split_and!; done || lia..|].
  destruct Hp as (Hds & Hes & ?). pose proof (digits_bound ds Hds). pose proof (digits_bound es Hes).
  split_and!; done || lia.
Qed.

Lemma elab_items_wf l : Forall pitem_ok l -> forall nb br cl items O D tl,
  elab_items nb br cl l = Some items -> refs_closed nb br l -> NoDup br ->
  (forall n, n ∈ br -> (n < nb)%nat) -> (forall n, n ∈ O <-> (n < nb)%nat) ->
  (forall n, n ∈ D <-> (n < nb)%nat /\ (n ∉ br)) -> (nb <= 9)%nat ->
  (forall O' D', wf_items O' D' tl) -> wf_items O D (items ++ tl).
Proof.
  intros Hl. induction Hl as [|i l Hi Hl IH]; intros nb br cl items O D tl He Hr Hnd Hbr HO HD H9 Htl.
  { simpl in He. destruct br; [|done]. injection He as <-. apply Htl. }
  destruct i as [a p| | |n]; simpl in He, Hr, Hi.
  - apply fmap_Some in He as (items' & He & ->). destruct Hi as [Ha Hp].
    cbn [app]. apply postfix_wf; [by apply elab_atom_wf|done|by eapply IH].
  - destruct (Nat.ltb_spec nb 9); [|done]. apply fmap_Some in He as (items' & He & ->). simpl.
    split_and!; [done|rewrite HO; lia|]. eapply IH; try done.
    + constructor; [|done]. intros Hin%Hbr. lia.
    + intros n [->|Hn%Hbr]%elem_of_cons; lia.
    + intros n. rewrite elem_of_cons, HO. lia.
    + intros n. rewrite HD, not_elem_of_cons. split; [intros [? ?]; split_and!; done || lia|].
      intros (? & ? & ?). split; [lia|done].
  - destruct br as [|b br]; [done|]. apply fmap_Some in He as (items' & He & ->).
    inversion_clear Hnd as [|? ? Hb Hnd']. assert (b < nb)%nat by (apply Hbr; by left). simpl.
    split_and!; [lia|by apply HO|rewrite HD, not_elem_of_cons; tauto|]. eapply IH; try done.
    + intros n Hn. apply Hbr. by right.
    + intros n. rewrite elem_of_cons, HD, not_elem_of_cons. split.
      * intros [->|(? & ? & ?)]; done.
      * intros [? ?]. destruct (decide (n = b)); [by left|by right].
  - destruct (Nat.ltb_spec n cl); [|done]. apply fmap_Some in He as (items' & He & ->).
    destruct Hr as (? & ? & Hr). simpl. split_and!; [by apply HO|by apply HD|by eapply IH].
Qed.

Lemma elab_wf p items :
  pattern_ok p -> elab p = Some items -> refs_closed 0 [] (pitems p) -> wf_items [] [] items.
Proof.
  intros [Hp _] He Hr. unfold elab in He.
  destruct (elab_items 0 [] 0 (pitems p)) as [l|] eqn:El; [|done]. simpl in He. injection He as <-.
  eapply (elab_items_wf (pitems p) Hp 0 [] 0); try done.
  - constructor.
  - by intros n ?%elem_of_nil.
  - intros n. split; [by intros ?%elem_of_nil|lia].
  - intros n. split; [by intros ?%elem_of_nil|]. intros [? _]. lia.
  - lia.
  - intros. by destruct (eol p).
Qed.

(** ** The theorems *)

(** C6: [compile] translates.  On the text of any well-formed pattern whose
    encoding fits before [endbuf], it returns, sets [circf] when the pattern
    begins with [^], and leaves at [ep] exactly the encoding of the pattern's
    items, the rest of the buffer untouched: characters, escapes, [.],
    bracket expressions with ranges and complement, [*], the three forms of
    interval, groups, back-references and [$]. *)
Theorem compile_translates {S} `{SourceLaws S} p items (st : cstate S) sed endbuf fuel :
  pattern_ok p -> elab p = Some items -> reads (src st) (render p ++ [0]) ->
  (ep st + length (encode items) <= endbuf <= length (buf st))%nat -> (length (render p) + 3 <= fuel)%nat ->
  exists st', compile fuel sed endbuf 0 st = Val st' /\ circf st' = b2z (anchored p)
    /\ ep st' = (ep st + length (encode items))%nat
    /\ buf st' = take (ep st) (buf st) ++ encode items ++ drop (ep st + length (encode items)) (buf st).
Proof. apply compile_render. Qed.

(** [^\([^a-cx]*\)\*\{2,10\}\1$] *)
Definition pattern1 : pattern :=
  Pattern true [PBra; PAtom (PClass true [CRange 97 99; COne 120]) Starred; PKet;
                PAtom (PChr ch_star) (Between [2] [1; 0]); PBack 0] true.
Definition items1 : list item :=
  [IBra 0; IStar (elab_atom (PClass true [CRange 97 99; COne 120])); IKet 0;
   IRange (AChr ch_star) 2 10; IBack 0; IEol].
Definition cstate1 : cstate cursor :=
  CState (Cursor (render pattern1 ++ [0]) ltac:(vm_compute; reflexivity) 0) (replicate 40 0) 0 0 0 0 None [] 0.

Lemma pattern1_ok : pattern_ok pattern1.
Proof.
  split; [|by left]. repeat constructor; simpl; unfold member_ok, ch_star, NL, ch_rbrack, ch_dash, value;
    simpl; try lia; done.
Qed.

Lemma compile_translates_witness :
  exists st', compile 40 false 40 0 cstate1 = Val st' /\ circf st' = 1
    /\ ep st' = length (encode items1) /\ buf st' = encode items1 ++ drop (length (encode items1)) (replicate 40 0).
Proof.
  apply (compile_translates pattern1 items1 cstate1 false 40 40).
  - exact pattern1_ok.
  - reflexivity.
  - vm_compute. repeat split; reflexivity.
  - vm_compute. lia.
  - vm_compute. lia.
Defined.

(** C1: [compile] followed by [step] searches for the pattern.  For a
    well-formed pattern whose back-references are to closed groups, compiled
    into a buffer it fits in, [step] on the result returns, for every subject:
    with [^] it succeeds exactly when the pattern matches at the start;
    without, [loc1] is the leftmost position where the pattern matches, and
    failure means it matches nowhere.  On success [loc2] and the group
    registers describe a match. *)
Theorem compile_step_searches {S} `{SourceLaws S} p items (st : cstate S) sed endbuf fuel s junk r fuel' :
  pattern_ok p -> elab p = Some items -> refs_closed 0 [] (pitems p) ->
  reads (src st) (render p ++ [0]) ->
  (ep st + length (encode items) <= endbuf <= length (buf st))%nat -> (length (render p) + 3 <= fuel)%nat ->
  Forall (fun b => 0 < b < 256) s -> Z.of_nat (length s) < 2 ^ 32 ->
  fresh_regs r -> (length items < fuel')%nat ->
  exists st' m r', compile fuel sed endbuf 0 st = Val st'
    /\ step (buf st') (s ++ 0 :: junk) None fuel' (circf st') r 0 (ep st) = Val (m, r')
    /\ if (m : bool)
       then exists i e j, loc1 r' = Some i /\ shows items e j r' /\ Matches s items env0 i e j
              /\ (if anchored p then i = 0%nat
                  else forall k e' j', (k < i)%nat -> ~ Matches s items env0 k e' j')
       else forall k e' j', (if anchored p then k = 0%nat else (k <= length s)%nat) ->
              ~ Matches s items env0 k e' j'.
Proof.
  intros Hp He Hrefs Hr Hend Hf Hs Hlen Hregs Hf'.
  destruct (compile_render endbuf sed fuel p items st Hp He Hr Hend Hf) as (st' & -> & Hc & Hep & Hbuf).
  pose proof (elab_wf p items Hp He Hrefs) as Hwf.
  assert (drop (ep st) (buf st') = encode items ++ drop (ep st + length (encode items)) (buf st)) as Hcode.
  { rewrite Hbuf, drop_app_ge by (rewrite length_take; lia). rewrite length_take, Nat.min_l, Nat.sub_diag by lia.
    done. }
  exists st'. rewrite Hc.
  assert (forall k, rmatch s items env0 k = None -> forall e' j', ~ Matches s items env0 k e' j') as Hno.
  { intros k Hk e' j' [x Hx]%rmatch_complete. congruence. }
  destruct (anchored p); simpl b2z.
  - unfold step. simpl.
    destruct (advance_at (buf st') s junk _ items (ep st) fuel' Hs Hlen Hwf Hcode Hf' (set_loc1 (Some 0%nat) r) 0
      Hregs ltac:(lia)) as (r' & -> & _ & Hloc & Hsh).
    eexists _, r'. split; [done|]. split; [done|].
    destruct (rmatch s items env0 0) as [[e j]|] eqn:E; [|by intros k e' j' ->; apply Hno].
    exists 0%nat, e, j. split_and!; [done|by apply Hsh..|by apply rmatch_sound|done].
  - destruct (step_spec (buf st') s junk _ items (ep st) fuel' Hs Hlen Hwf Hcode Hf' r 0 ltac:(lia) Hregs)
      as (r' & -> & Hfound).
    eexists _, r'. split; [done|]. split; [done|].
    destruct (first_up s items _ 0) as [[i [e j]]|] eqn:E.
    + destruct (Hfound i e j eq_refl) as [? ?]. apply first_up_Some in E as (? & Hm & Hk).
      exists i, e, j. split_and!; try done; [by apply rmatch_sound|]. intros k e' j' ?. apply Hno, Hk. lia.
    + intros k e' j' ?. apply Hno. eapply first_up_None; [done|lia].
Qed.

Lemma compile_step_searches_witness :
  exists st' m r', compile 40 false 40 0 cstate1 = Val st'
    /\ step (buf st') ([122; 42; 42; 122] ++ [0]) None 10 (circf st') sample_regs 0 0 = Val (m, r')
    /\ if (m : bool)
       then exists i e j, loc1 r' = Some i /\ shows items1 e j r' /\ Matches [122; 42; 42; 122] items1 env0 i e j
              /\ i = 0%nat
       else forall k e' j', k = 0%nat -> ~ Matches [122; 42; 42; 122] items1 env0 k e' j'.
Proof.
  apply (compile_step_searches pattern1 items1 cstate1 false 40 40 [122; 42; 42; 122] [] sample_regs 10).
  - exact pattern1_ok.
  - reflexivity.
  - simpl. split_and!; [lia| |exact I]. apply (bool_decide_unpack _). vm_compute. exact I.
  - vm_compute. repeat split; reflexivity.
  - vm_compute. lia.
  - vm_compute. lia.
  - repeat constructor; lia.
  - vm_compute. reflexivity.
  - split; reflexivity.
  - simpl. lia.
Defined.

(** [\(ab\)\{2\}] as a text. *)
Definition group_interval : cstate cursor :=
  CState (Cursor [92; 40; 97; 98; 92; 41; 92; 123; 50; 92; 125; 0] eq_refl 0) (replicate 40 0) 0 0 0 0 None [] 0.

(** An interval after a group is accepted and not honoured.  [compile]
    marks the [CKET] of [\(ab\)\{2\}] with [RNGE] without an error, [advance]
    has no case for [CKET|RNGE] and runs the operand bytes as opcodes: the
    expression matches a single "ab", does not record where the group ends,
    and overwrites the start of group 2, which the pattern does not have. *)
Theorem group_interval_ignored :
  match compile 20 false 40 0 group_interval with
  | Val st' =>
      take (ep st') (buf st') = [CBRA; 0; CCHR; 97; CCHR; 98; CKET .| RNGE; 0; 2; 2; CCEOF]
      /\ step (buf st') [97; 98; 99; 0] None 20 (circf st') sample_regs 0 0
         = Val (true, Regs [Some 0%nat; None; Some 2%nat; None; None; None; None; None; None]
                           (replicate 9 None) (Some 0%nat) (Some 2%nat))
  | _ => False
  end.
Proof. vm_compute. split; reflexivity. Qed.
