(* ===== verification/DList.v ===== *)
(** * Circular doubly linked lists

    Lists whose elements are linked by two fields of their own, with a head cell,
    are common to the record locks ([Flock]), the buffer cache ([BufCache]) and
    the table of calls ([CallTable]).  The class [DList] gives the links of a kind
    of cell in a heap, [DListLaws] and [DListCells] what storing a link does;
    [ring] says that a head and a list of cells are linked in a circle.  Taking a
    cell out, in either order of the two stores, and putting one in after the
    head keep rings rings. *)
From S2P Require Import Prelude.
From stdpp Require Import gmap.

(** ** Doubly linked lists
    Circular lists of cells [K] in a heap [H], each kind with its own pair of
    link fields; [None] for a NULL link or no cell. *)
Class DList (H K : Type) := {
  nextp : H -> K -> option K;
  prevp : H -> K -> option K;
  set_nextp : K -> option K -> H -> option H;
  set_prevp : K -> option K -> H -> option H;
}.

(** [(x)->next->prev = (x)->prev; (x)->prev->next = (x)->next;] *)
Definition unlink {H K} (D : DList H K) (x : K) (h : H) : option H :=
  n ← nextp h x; h ← set_prevp n (prevp h x) h;
  p ← prevp h x; set_nextp p (nextp h x) h.

(** ** Circular lists *)
Class DListLaws {H K} `{EqDecision K} (D : DList H K) := {
  set_next_spec h k x y : nextp h k = Some y ->
    exists h', set_nextp k x h = Some h'
      /\ (forall j, nextp h' j = if decide (j = k) then x else nextp h j)
      /\ (forall j, prevp h' j = prevp h j);
  set_prev_spec h k x y : prevp h k = Some y ->
    exists h', set_prevp k x h = Some h'
      /\ (forall j, prevp h' j = if decide (j = k) then x else prevp h j)
      /\ (forall j, nextp h' j = nextp h j);
}.

Section Rings.
Context {H K : Type} `{EqDecision K} (D : DList H K) `{!DListLaws D}.
Implicit Types (h : H) (a x z : K) (l : list K).

Definition linked h a b : Prop := nextp h a = Some b /\ prevp h b = Some a.

(** From [a] through [l] to [z]. *)
Fixpoint path h a l z : Prop :=
  match l with
  | [] => linked h a z
  | b :: l => linked h a b /\ path h b l z
  end.

(** The circular list of the elements [l], with the head cell [a]. *)
Definition ring h a l : Prop := path h a l a /\ NoDup (a :: l).

Lemma path_app h a l1 x l2 z : path h a (l1 ++ x :: l2) z <-> path h a l1 x /\ path h x l2 z.
Proof. revert a. induction l1 as [|b l1 IH]; intros a; simpl; [tauto|]. rewrite IH. tauto. Qed.

Lemma path_frame h h' a l z p n :
  (forall j, j <> p -> nextp h' j = nextp h j) -> (forall j, j <> n -> prevp h' j = prevp h j) ->
  (p ∉ a :: l) -> (n ∉ l ++ [z]) -> path h a l z -> path h' a l z.
Proof.
  intros Hn Hp. revert a. induction l as [|b l IH]; intros a Hpa Hnl; simpl.
  - intros [Ha Hz]. rewrite not_elem_of_cons in Hpa. simpl in Hnl. rewrite not_elem_of_cons in Hnl.
    split; [rewrite Hn by (intros ->; tauto)|rewrite Hp by (intros ->; tauto)]; done.
  - rewrite not_elem_of_cons in Hpa. simpl in Hnl. rewrite not_elem_of_cons in Hnl. intros [[Ha Hb] Hpath].
    split; [split; [rewrite Hn by (intros ->; tauto)|rewrite Hp by (intros ->; tauto)]; done|].
    by apply IH; [tauto..|].
Qed.

Lemma path_last h a l z : path h a l z -> exists p, prevp h z = Some p /\ nextp h p = Some z /\ p ∈ a :: l.
Proof.
  revert a. induction l as [|b l IH]; intros a; simpl.
  - intros [? ?]. exists a. split_and!; [done..|by left].
  - intros [_ (p & ? & ? & ?)%IH]. exists p. split_and!; [done..|by right].
Qed.

Lemma path_first h a l z : path h a l z -> exists n, nextp h a = Some n /\ prevp h n = Some a /\ n ∈ l ++ [z].
Proof.
  destruct l as [|b l]; simpl; [intros [? ?]|intros [[? ?] _]]; eexists; split_and!; try done; by left.
Qed.

(** Joining the neighbours of [x] leaves it out. *)
Lemma path_remove h h' a l1 x l2 z p n :
  prevp h x = Some p -> nextp h x = Some n ->
  nextp h' p = Some n -> prevp h' n = Some p ->
  (forall j, j <> p -> nextp h' j = nextp h j) -> (forall j, j <> n -> prevp h' j = prevp h j) ->
  NoDup (a :: l1 ++ x :: l2) -> (z ∉ l1 ++ x :: l2) ->
  path h a (l1 ++ x :: l2) z -> path h' a (l1 ++ l2) z.
Proof.
  intros Px Nx Hpn Hnp Hn Hp. revert a. induction l1 as [|c l1 IH]; intros a Hnd Hz; simpl in *.
  - intros [[Ha Hax] Hx]. assert (p = a) as -> by congruence.
    inversion_clear Hnd as [|? ? Ha' Hnd']. inversion_clear Hnd' as [|? ? Hx' Hnd''].
    destruct l2 as [|b l2]; simpl in *.
    + destruct Hx as [Hx _]. assert (n = z) as -> by congruence. done.
    + destruct Hx as [[Hxb Hbx] Hpath]. assert (n = b) as -> by congruence. split; [done|].
      inversion_clear Hnd'' as [|? ? Hb' _]. rewrite !not_elem_of_cons in Ha', Hz.
      eapply path_frame; try done; [rewrite not_elem_of_cons; tauto|].
      rewrite not_elem_of_app, list_elem_of_singleton. split; [tauto|]. intros ->. tauto.
  - intros [[Ha Hc] Hpath]. inversion_clear Hnd as [|? ? Ha' Hnd']. pose proof Hnd' as Hnd2.
    inversion_clear Hnd' as [|? ? Hc' _]. rewrite not_elem_of_cons in Hz.
    pose proof (proj1 (path_app _ _ _ _ _ _) Hpath) as [Hp1 Hp2].
    destruct (path_last _ _ _ _ Hp1) as (p' & Px' & _ & Hin).
    assert (p' = p) as -> by congruence.
    destruct (path_first _ _ _ _ Hp2) as (n' & Nx' & _ & Hin'). assert (n' = n) as -> by congruence.
    split; [|apply IH; [done|tauto|done]]. split.
    + rewrite Hn; [done|]. intros <-. apply Ha'. apply elem_of_cons in Hin as [->|Hin]; [by left|].
      right. apply elem_of_app. by left.
    + rewrite Hp; [done|]. intros <-. apply elem_of_app in Hin' as [Hin'|Hin'%list_elem_of_singleton].
      * apply Hc', elem_of_app. right. by right.
      * destruct Hz as [Hz _]. congruence.
Qed.

Lemma unlink_ring h a l1 x l2 :
  ring h a (l1 ++ x :: l2) ->
  exists h', unlink D x h = Some h' /\ ring h' a (l1 ++ l2)
    /\ nextp h' x = nextp h x /\ prevp h' x = prevp h x.
Proof.
  intros [Hpath Hnd]. pose proof (proj1 (path_app _ _ _ _ _ _) Hpath) as [Hp1 Hp2].
  destruct (path_last _ _ _ _ Hp1) as (p & Px & Npx & Hinp).
  destruct (path_first _ _ _ _ Hp2) as (n & Nx & Pnx & Hinn).
  assert (p <> x /\ n <> x) as [Hpx Hnx].
  { inversion_clear Hnd as [|? ? Ha Hnd']. apply list.NoDup_app in Hnd' as (_ & Hd & Hnd2).
    inversion_clear Hnd2 as [|? ? Hx _]. split; intros ->.
    - apply elem_of_cons in Hinp as [->|Hin]; [apply Ha, elem_of_app; right; by left|].
      apply (Hd x Hin). by left.
    - apply elem_of_app in Hinn as [|Hin%list_elem_of_singleton]; [done|].
      subst. apply Ha, elem_of_app. right. by left. }
  unfold unlink. rewrite Nx. cbn [mbind option_bind].
  destruct (set_prev_spec h n (prevp h x) x Pnx) as (h1 & -> & P1 & N1). cbn [mbind option_bind].
  rewrite P1, decide_False, Px by done. cbn [mbind option_bind].
  destruct (set_next_spec h1 p (nextp h1 x) x) as (h2 & -> & N2 & P2); [by rewrite N1|].
  exists h2. split; [done|]. split.
  - split.
    + eapply (path_remove h h2 a l1 x l2 a p n); try done.
      * by rewrite N2, decide_True, N1 by done.
      * by rewrite P2, P1, decide_True by done.
      * intros j Hj. by rewrite N2, decide_False, N1 by done.
      * intros j Hj. by rewrite P2, P1, decide_False by done.
      * by inversion Hnd.
    + inversion_clear Hnd as [|? ? Ha Hnd']. apply list.NoDup_app in Hnd' as (? & Hd & Hnd2).
      inversion_clear Hnd2 as [|? ? Hx ?]. constructor.
      * intros [?|?]%elem_of_app; apply Ha, elem_of_app; [by left|right; by right].
      * apply list.NoDup_app. split_and!; [done| |done]. intros j Hj Hj2. apply (Hd j Hj). by right.
  - by rewrite N2, P2, N1, P1, !decide_False by done.
Qed.
End Rings.

(** ** What one list operation leaves of the other lists *)
Section Frames.
Context {H K : Type} `{EqDecision K} (D : DList H K).

Lemma path_ext h h' (a : K) l z :
  (forall j, nextp h' j = nextp h j) -> (forall j, prevp h' j = prevp h j) ->
  path D h a l z -> path D h' a l z.
Proof.
  intros Hn Hp. revert a. induction l as [|b l IH]; intros a; simpl; unfold linked; rewrite Hn, Hp; [done|].
  intros [? ?]. split; [done|by apply IH].
Qed.

Lemma ring_ext h h' (a : K) l :
  (forall j, nextp h' j = nextp h j) -> (forall j, prevp h' j = prevp h j) ->
  ring D h a l -> ring D h' a l.
Proof. intros Hn Hp [? ?]. split; [by eapply path_ext|done]. Qed.
End Frames.


(** ** Cells whose links may be NULL *)
Class DListCells {H K} `{EqDecision K} (D : DList H K) := {
  cell : H -> K -> Prop;
  next_cell h k y : nextp h k = Some y -> cell h k;
  prev_cell h k y : prevp h k = Some y -> cell h k;
  cell_next h k x : cell h k ->
    exists h', set_nextp k x h = Some h'
      /\ (forall j, nextp h' j = if decide (j = k) then x else nextp h j)
      /\ (forall j, prevp h' j = prevp h j) /\ (forall j, cell h' j <-> cell h j);
  cell_prev h k x : cell h k ->
    exists h', set_prevp k x h = Some h'
      /\ (forall j, prevp h' j = if decide (j = k) then x else prevp h j)
      /\ (forall j, nextp h' j = nextp h j) /\ (forall j, cell h' j <-> cell h j);
}.

#[export] Instance cells_laws {H K} `{EqDecision K} (D : DList H K) `{!DListCells D} : DListLaws D.
Proof.
  split; intros h k x y E.
  - destruct (cell_next h k x (next_cell h k y E)) as (h' & ? & ? & ? & _). by exists h'.
  - destruct (cell_prev h k x (prev_cell h k y E)) as (h' & ? & ? & ? & _). by exists h'.
Qed.

(** [x->next = a->next; x->prev = a; a->next->prev = x; a->next = x;] *)
Definition link_after {H K} (D : DList H K) (a x : K) (h : H) : option H :=
  h ← set_nextp x (nextp h a) h; h ← set_prevp x (Some a) h;
  n ← nextp h a; h ← set_prevp n (Some x) h; set_nextp a (Some x) h.

(** [x->prev->next = x->next; x->next->prev = x->prev;] *)
Definition unlink_back {H K} (D : DList H K) (x : K) (h : H) : option H :=
  p ← prevp h x; h ← set_nextp p (nextp h x) h;
  n ← nextp h x; set_prevp n (prevp h x) h.

Section Insert.
Context {H K : Type} `{EqDecision K} (D : DList H K) `{!DListCells D}.
Implicit Types (h : H) (a x : K) (l : list K).

Lemma path_cell h a l z : path D h a l z -> Forall (cell h) (a :: l ++ [z]).
Proof.
  revert a. induction l as [|b l IH]; intros a; simpl.
  - intros [Ha Hz]. repeat constructor; [by eapply next_cell|by eapply prev_cell].
  - intros [[Ha _] Hp]. constructor; [by eapply next_cell|by apply IH].
Qed.

Lemma link_after_ring h a x l :
  ring D h a l -> cell h x -> x ∉ a :: l ->
  exists h', link_after D a x h = Some h' /\ ring D h' a (x :: l) /\ (forall j, cell h' j <-> cell h j)
    /\ (forall j, j <> x -> j ∉ a :: l -> nextp h' j = nextp h j /\ prevp h' j = prevp h j).
Proof.
  intros [Hp Hnd] Hx Hxl. pose proof (path_cell _ _ _ _ Hp) as Hc.
  rewrite not_elem_of_cons in Hxl. destruct Hxl as [Hxa Hxl].
  destruct (path_first D _ _ _ _ Hp) as (n & Na & Pn & Hin). unfold link_after. rewrite Na. cbn [mbind option_bind].
  assert (x <> n) as Hxn.
  { intros ->. apply elem_of_app in Hin as [?|?%list_elem_of_singleton]; done. }
  destruct (cell_next h x (Some n) Hx) as (h1 & -> & N1 & P1 & C1). cbn [mbind option_bind].
  destruct (cell_prev h1 x (Some a)) as (h2 & -> & P2 & N2 & C2); [by apply C1|]. cbn [mbind option_bind].
  rewrite N2, N1, decide_False, Na by done. cbn [mbind option_bind].
  destruct (cell_prev h2 n (Some x)) as (h3 & -> & P3 & N3 & C3).
  { apply C2, C1. by eapply prev_cell. }
  cbn [mbind option_bind]. destruct (cell_next h3 a (Some x)) as (h4 & E4 & N4 & P4 & C4).
  { apply C3, C2, C1. by eapply next_cell. }
  assert (forall j, nextp h4 j = if decide (j = a) then Some x else if decide (j = x) then Some n else nextp h j) as N.
  { intros j. by rewrite N4, N3, N2, N1. }
  assert (forall j, prevp h4 j = if decide (j = n) then Some x else if decide (j = x) then Some a else prevp h j) as P.
  { intros j. by rewrite P4, P3, P2, P1. }
  exists h4. split; [done|]. split; [|split].
  - split; [|by constructor; [rewrite not_elem_of_cons; split; [done|by inversion Hnd]|constructor; [done|by inversion Hnd]]].
    simpl. split; [split; [by rewrite N, decide_True|by rewrite P, decide_False, decide_True by done]|].
    destruct l as [|b l]; simpl in Hp |- *.
    + destruct Hp as [Ha Hb]. assert (n = a) as -> by congruence.
      split; [by rewrite N, decide_False, decide_True by congruence|by rewrite P, decide_True].
    + destruct Hp as [[Ha Hb] Hp]. assert (n = b) as -> by congruence.
      split; [split; [by rewrite N, decide_False, decide_True by congruence|by rewrite P, decide_True]|].
      inversion_clear Hnd as [|? ? Hal Hnd']. inversion_clear Hnd' as [|? ? Hbl _].
      assert (b ∉ l ++ [a]) as Hba.
      { rewrite not_elem_of_app, list_elem_of_singleton. split; [done|]. intros ->. apply Hal. by left. }
      assert (x ∉ b :: l) as Hxbl by done. assert (x ∉ l ++ [a]) as Hxla.
      { rewrite not_elem_of_app, list_elem_of_singleton. rewrite not_elem_of_cons in Hxbl. tauto. }
      apply (path_frame D h2 h4 b l a a b).
      * intros j Hj. by rewrite N, N2, N1, decide_False.
      * intros j Hj. by rewrite P, P2, P1, decide_False.
      * done.
      * done.
      * apply (path_frame D h h2 b l a x x); [..|done]; try done;
          intros j Hj; by rewrite ?N2, ?N1, ?P2, ?P1, ?decide_False.
  - intros j. by rewrite C4, C3, C2, C1.
  - intros j Hj Hjl. rewrite N, P. rewrite not_elem_of_cons in Hjl.
    assert (j <> n). { intros ->. apply elem_of_app in Hin as [?|?%list_elem_of_singleton]; tauto. }
    by rewrite !decide_False by tauto.
Qed.

(** The neighbours of an element of a ring. *)
Lemma ring_neighbours h a l1 x l2 :
  ring D h a (l1 ++ x :: l2) -> exists p n,
    prevp h x = Some p /\ nextp h p = Some x /\ nextp h x = Some n /\ prevp h n = Some x /\ p <> x /\ n <> x
    /\ p ∈ a :: l1 /\ n ∈ l2 ++ [a].
Proof.
  intros [Hpath Hnd]. pose proof (proj1 (path_app _ _ _ _ _ _ _) Hpath) as [Hp1 Hp2].
  destruct (path_last D _ _ _ _ Hp1) as (p & Px & Npx & Hinp).
  destruct (path_first D _ _ _ _ Hp2) as (n & Nx & Pnx & Hinn). exists p, n.
  inversion_clear Hnd as [|? ? Ha Hnd']. apply list.NoDup_app in Hnd' as (_ & Hd & Hnd2).
  inversion_clear Hnd2 as [|? ? Hx _]. split_and!; try done; intros ->.
  - apply elem_of_cons in Hinp as [->|Hin]; [apply Ha, elem_of_app; right; by left|]. apply (Hd x Hin). by left.
  - apply elem_of_app in Hinn as [|Hin%list_elem_of_singleton]; [done|]. subst. apply Ha, elem_of_app. right. by left.
Qed.

Lemma unlink_back_ring h a l1 x l2 :
  ring D h a (l1 ++ x :: l2) ->
  exists h', unlink_back D x h = Some h' /\ ring D h' a (l1 ++ l2) /\ (forall j, cell h' j <-> cell h j)
    /\ (forall j, j = x \/ j ∉ a :: l1 ++ l2 -> nextp h' j = nextp h j /\ prevp h' j = prevp h j).
Proof.
  intros Hr. destruct (ring_neighbours _ _ _ _ _ Hr) as (p & n & Px & Np & Nx & Pn & Hpx & Hnx & Hinp & Hinn).
  destruct Hr as [Hpath Hnd]. unfold unlink_back. rewrite Px. cbn [mbind option_bind].
  destruct (cell_next h p (nextp h x) (next_cell h p x Np)) as (h1 & -> & N1 & P1 & C1). cbn [mbind option_bind].
  rewrite N1, decide_False, Nx by done. cbn [mbind option_bind].
  destruct (cell_prev h1 n (prevp h1 x)) as (h2 & E2 & P2 & N2 & C2); [apply C1; by eapply prev_cell|].
  exists h2. split; [done|]. split; [|split].
  - split.
    + eapply (path_remove D h h2 a l1 x l2 a p n); try done.
      * by rewrite N2, N1, decide_True.
      * by rewrite P2, decide_True, P1.
      * intros j Hj. by rewrite N2, N1, decide_False.
      * intros j Hj. by rewrite P2, P1, decide_False.
      * by inversion Hnd.
    + inversion_clear Hnd as [|? ? Ha Hnd']. apply list.NoDup_app in Hnd' as (? & Hd & Hnd2).
      inversion_clear Hnd2 as [|? ? Hx ?]. constructor.
      * intros [?|?]%elem_of_app; apply Ha, elem_of_app; [by left|right; by right].
      * apply list.NoDup_app. split_and!; [done| |done]. intros j Hj Hj2. apply (Hd j Hj). by right.
  - intros j. by rewrite C2, C1.
  - intros j Hj. assert (j <> p /\ j <> n) as [? ?].
    { destruct Hj as [->|Hj]; [done|]. rewrite not_elem_of_cons, not_elem_of_app in Hj.
      split; intros ->; [rewrite elem_of_cons in Hinp|rewrite elem_of_app, list_elem_of_singleton in Hinn]; tauto. }
    by rewrite N2, N1, P2, P1, !decide_False.
Qed.
End Insert.

(** ** Tables of rings *)

(** [m] gives the elements after each head. *)
Section Tables.
Context {H K : Type} `{Countable K} (D : DList H K) `{!DListCells D}.
Implicit Types (h : H) (a x : K) (l : list K) (m : gmap K (list K)).

Definition on m x : Prop := exists a l, m !! a = Some l /\ x ∈ a :: l.
Definition apart m : Prop :=
  forall a l a' l' x, m !! a = Some l -> m !! a' = Some l' -> x ∈ a :: l -> x ∈ a' :: l' -> a = a'.
Record rings h m : Prop := {
  rings_ring a l : m !! a = Some l -> ring D h a l;
  rings_apart : apart m }.

(** The elements but [x]. *)
Definition without x l : list K := filter (fun y => y <> x) l.
Definition take_off x m : gmap K (list K) := without x <$> m.

Lemma without_none x l : x ∉ l -> without x l = l.
Proof.
  induction l as [|y l IH]; intros Hx; [done|]. rewrite not_elem_of_cons in Hx. unfold without in *.
  rewrite filter_cons_True by (intros ->; tauto). f_equal. apply IH. tauto.
Qed.
Lemma without_split x l1 l2 : NoDup (l1 ++ x :: l2) -> without x (l1 ++ x :: l2) = l1 ++ l2.
Proof.
  intros Hnd. apply list.NoDup_app in Hnd as (_ & Hd & Hnd). inversion_clear Hnd as [|? ? Hx _].
  unfold without. rewrite filter_app, filter_cons_False by tauto.
  f_equal; apply without_none; [|done]. intros Hin. apply (Hd x Hin). by left.
Qed.

Lemma path_agree h h' a l z :
  (forall j, j ∈ a :: l ++ [z] -> nextp h' j = nextp h j /\ prevp h' j = prevp h j) -> path D h a l z -> path D h' a l z.
Proof.
  revert a. induction l as [|b l IH]; intros a Hj; simpl.
  - intros [Ha Hz]. split; [rewrite (proj1 (Hj a ltac:(by left)))|rewrite (proj2 (Hj z ltac:(right; by left)))]; done.
  - intros [[Ha Hb] Hp]. split; [|by apply IH; [intros j Hin; apply Hj; by right|]].
    split; [rewrite (proj1 (Hj a ltac:(by left)))|rewrite (proj2 (Hj b ltac:(right; by left)))]; done.
Qed.
Lemma ring_agree h h' a l :
  (forall j, j ∈ a :: l -> nextp h' j = nextp h j /\ prevp h' j = prevp h j) -> ring D h a l -> ring D h' a l.
Proof.
  intros Hj [Hp Hnd]. split; [|done]. eapply path_agree; [|done]. intros j Hin. apply Hj.
  rewrite elem_of_cons, elem_of_app, list_elem_of_singleton in Hin. rewrite elem_of_cons. tauto.
Qed.

Lemma rings_agree h h' m :
  (forall j, on m j -> nextp h' j = nextp h j /\ prevp h' j = prevp h j) -> rings h m -> rings h' m.
Proof.
  intros Hj [Hr Ha]. split; [|done]. intros a l E. eapply ring_agree; [|by apply Hr]. intros j Hin. apply Hj. by exists a, l.
Qed.

Lemma rings_insert h m a l x :
  rings h m -> m !! a = Some l -> cell h x -> ~ on m x ->
  exists h', link_after D a x h = Some h' /\ rings h' (<[a := x :: l]> m) /\ (forall j, cell h' j <-> cell h j)
    /\ (forall j, j <> x -> ~ on m j -> nextp h' j = nextp h j /\ prevp h' j = prevp h j).
Proof.
  intros [Hr Hap] Em Hx Hon.
  assert (x ∉ a :: l) as Hxl by (intros Hin; apply Hon; by exists a, l).
  destruct (link_after_ring D h a x l (Hr _ _ Em) Hx Hxl) as (h' & E & Hring & Hc & Hframe).
  exists h'. split; [done|]. split; [split|split; [done|]].
  - intros b k Eb. apply lookup_insert_Some in Eb as [[<- <-]|[Hab Eb]]; [done|].
    eapply ring_agree; [|by apply Hr]. intros j Hj. apply Hframe.
    + intros ->. apply Hon. by exists b, k.
    + intros Hin. apply Hab. by eapply Hap.
  - intros b k b' k' y Eb Eb' Hy Hy'.
    assert (forall c lc, <[a := x :: l]> m !! c = Some lc -> y ∈ c :: lc -> y = x /\ c = a \/ exists lc', m !! c = Some lc' /\ y ∈ c :: lc') as Hcase.
    { intros c lc Ec Hin. apply lookup_insert_Some in Ec as [[<- <-]|[_ Ec]]; [|right; by exists lc].
      rewrite !elem_of_cons in Hin. destruct Hin as [->|[->|Hin]]; [right; exists l; split; [done|by left]|by left|].
      right. exists l. split; [done|by right]. }
    destruct (Hcase b k Eb Hy) as [[-> ->]|(lb & Hb & Hyb)], (Hcase b' k' Eb' Hy') as [[? ->]|(lb' & Hb' & Hyb')]; subst; try done.
    + destruct Hon. by exists b', lb'.
    + destruct Hon. by exists b, lb.
    + by eapply Hap.
  - intros j Hj Hjn. apply Hframe; [done|]. intros Hin. apply Hjn. by exists a, l.
Qed.

Lemma take_off_lookup m a l1 x l2 :
  apart m -> m !! a = Some (l1 ++ x :: l2) -> NoDup (a :: l1 ++ x :: l2) -> take_off x m = <[a := l1 ++ l2]> m.
Proof.
  intros Hap Em Hnd. apply map_eq. intros b. unfold take_off. rewrite lookup_fmap.
  destruct (decide (b = a)) as [->|Hb].
  - rewrite lookup_insert_eq, Em. simpl. rewrite without_split; [done|by inversion Hnd].
  - rewrite lookup_insert_ne by done. destruct (m !! b) as [k|] eqn:Eb; [|done]. simpl. f_equal. apply without_none.
    intros Hin. apply Hb. eapply (Hap b k a); [done..|by right|]. right. apply elem_of_app. right. by left.
Qed.

Lemma rings_remove h m a l x :
  rings h m -> m !! a = Some l -> x ∈ l ->
  exists h', unlink_back D x h = Some h' /\ rings h' (take_off x m) /\ (forall j, cell h' j <-> cell h j)
    /\ (forall j, j = x \/ ~ on m j -> nextp h' j = nextp h j /\ prevp h' j = prevp h j).
Proof.
  intros [Hr Hap] Em Hx. apply list_elem_of_split in Hx as (l1 & l2 & ->).
  destruct (unlink_back_ring D h a l1 x l2 (Hr _ _ Em)) as (h' & E & Hring & Hc & Hframe).
  exists h'. split; [done|]. rewrite (take_off_lookup m a l1 x l2 Hap Em) by apply (Hr _ _ Em).
  split; [split|split; [done|]].
  - intros b k Eb. apply lookup_insert_Some in Eb as [[<- <-]|[Hab Eb]]; [done|].
    eapply ring_agree; [|by apply Hr]. intros j Hj. apply Hframe. right. intros Hin. apply Hab. eapply Hap; [done..| |done].
    rewrite elem_of_cons, elem_of_app in Hin. rewrite elem_of_cons, elem_of_app, elem_of_cons. tauto.
  - intros b k b' k' y Eb Eb' Hy Hy'.
    assert (forall c lc, <[a := l1 ++ l2]> m !! c = Some lc -> y ∈ c :: lc -> exists lc', m !! c = Some lc' /\ y ∈ c :: lc') as Hcase.
    { intros c lc Ec Hin. apply lookup_insert_Some in Ec as [[<- <-]|[_ Ec]]; [|by exists lc]. exists (l1 ++ x :: l2).
      split; [done|]. rewrite elem_of_cons, elem_of_app in Hin. rewrite elem_of_cons, elem_of_app, elem_of_cons. tauto. }
    destruct (Hcase b k Eb Hy) as (lb & Hb & Hyb), (Hcase b' k' Eb' Hy') as (lb' & Hb' & Hyb'). by eapply Hap.
  - intros j Hj. apply Hframe. destruct Hj as [->|Hj]; [by left|right]. intros Hin. apply Hj. exists a, (l1 ++ x :: l2).
    split; [done|]. rewrite elem_of_cons, elem_of_app in Hin. rewrite elem_of_cons, elem_of_app, elem_of_cons. tauto.
Qed.
Lemma on_ext m m' x :
  (forall a l, m !! a = Some l -> x ∈ a :: l -> exists l', m' !! a = Some l' /\ x ∈ a :: l') -> on m x -> on m' x.
Proof. intros Hm (a & l & E & Hin). destruct (Hm a l E Hin) as (l' & ? & ?). by exists a, l'. Qed.

(** A cell that was taken off is on no list. *)
Lemma take_off_off m a l x : apart m -> m !! a = Some l -> x ∈ l -> NoDup (a :: l) -> ~ on (take_off x m) x.
Proof.
  intros Hap El Hx Hnd (b & k & Eb & Hin). unfold take_off in Eb. rewrite lookup_fmap in Eb.
  destruct (m !! b) as [k'|] eqn:Ek; [|done]. simplify_eq/=. unfold without in Hin. rewrite elem_of_cons, list_elem_of_filter in Hin.
  destruct Hin as [->|[? _]]; [|done]. assert (a = b) as -> by (eapply (Hap a l b); [done|done|by right|by left]).
  simplify_eq. by inversion Hnd.
Qed.

Lemma take_off_on m x y : on (take_off x m) y -> on m y.
Proof.
  intros (a & l & E & Hin). unfold take_off in E. rewrite lookup_fmap in E. destruct (m !! a) as [k|] eqn:Ek; [|done].
  simplify_eq/=. exists a, k. split; [done|]. unfold without in Hin. rewrite elem_of_cons, list_elem_of_filter in Hin.
  rewrite elem_of_cons. tauto.
Qed.
Lemma take_off_keep m x y : x <> y -> on m y -> on (take_off x m) y.
Proof.
  intros Hne (a & l & E & Hin). exists a, (without x l). unfold take_off. rewrite lookup_fmap, E. split; [done|].
  unfold without. rewrite elem_of_cons, list_elem_of_filter. rewrite elem_of_cons in Hin. naive_solver.
Qed.

End Tables.

(** What every store of a link keeps, linking and unlinking keep. *)
Section Keeps.
Context {H K : Type} (D : DList H K) (R : H -> H -> Prop) `{!PreOrder R}.
Context (Hnext : forall a x h h', set_nextp a x h = Some h' -> R h h').
Context (Hprev : forall a x h h', set_prevp a x h = Some h' -> R h h').

Lemma link_after_keeps a x h h' : link_after D a x h = Some h' -> R h h'.
Proof.
  unfold link_after. intros E. apply bind_Some in E as (h1 & E1 & E). apply bind_Some in E as (h2 & E2 & E).
  apply bind_Some in E as (n & _ & E). apply bind_Some in E as (h3 & E3 & E4).
  transitivity h1; [by eapply Hnext|]. transitivity h2; [by eapply Hprev|]. transitivity h3; [by eapply Hprev|by eapply Hnext].
Qed.
Lemma unlink_back_keeps x h h' : unlink_back D x h = Some h' -> R h h'.
Proof.
  unfold unlink_back. intros E. apply bind_Some in E as (p & _ & E). apply bind_Some in E as (h1 & E1 & E).
  apply bind_Some in E as (n & _ & E2). transitivity h1; [by eapply Hnext|by eapply Hprev].
Qed.
End Keeps.
