(* ===== verification/Flock.v ===== *)
(** * The record lock manager's data: sys/flock_impl.h

    The structures of [src/include/sys/flock_impl.h] and every macro that
    reads or changes them.  The heap is explicit: a pointer is an address, a
    structure embedded in another ([l_edge] in a lock descriptor, the two list
    heads in a graph) is a cell of its own whose address is computed from the
    address of the outer one, and following a NULL or dangling pointer is
    [None].

    [flk_set_state] is declared here and defined elsewhere (flock.c is not part
    of the headers): it is a parameter of the operations that call it.  A call
    of [cv_signal] is recorded in [signals]. *)
From S2P Require Import Prelude DList.
From stdpp Require Import gmap countable.

#[local] Open Scope Z_scope.
#[local] Open Scope c_scope.

(** ** Addresses *)
Inductive laddr := LAlloc (p : positive) | LActive (g : positive) | LSleeping (g : positive).
Inductive eaddr := EAlloc (p : positive) | EOf (l : laddr).

#[export] Instance laddr_eq_dec : EqDecision laddr.
Proof. solve_decision. Defined.
#[export] Instance laddr_countable : Countable laddr.
Proof.
  apply (inj_countable' (fun a => match a with LAlloc p => inl p | LActive g => inr (inl g)
                                  | LSleeping g => inr (inr g) end)
    (fun x => match x with inl p => LAlloc p | inr (inl g) => LActive g | inr (inr g) => LSleeping g end)).
  by intros [].
Defined.
#[export] Instance eaddr_eq_dec : EqDecision eaddr.
Proof. solve_decision. Defined.
#[export] Instance eaddr_countable : Countable eaddr.
Proof.
  apply (inj_countable' (fun a => match a with EAlloc p => inl p | EOf l => inr l end)
    (fun x => match x with inl p => EAlloc p | inr l => EOf l end)).
  by intros [].
Defined.

(** ** Structures *)
Record edge := Edge {
  edge_adj_next : option eaddr;
  edge_adj_prev : option eaddr;
  edge_in_next : option eaddr;
  edge_in_prev : option eaddr;
  from_vertex : option laddr;
  to_vertex : option laddr;
}.

Record flock64 := Flock64 {
  fl_type : Z; fl_whence : Z; fl_start : Z; fl_len : Z;
  l_sysid : Z; l_pid : Z; fl_pad : list Z;
}.

Inductive flk_nlm_status := FLK_NLM_UP | FLK_NLM_SHUTTING_DOWN | FLK_NLM_DOWN | FLK_NLM_UNKNOWN.
#[export] Instance flk_nlm_status_eq_dec : EqDecision flk_nlm_status.
Proof. solve_decision. Defined.

(** [l_edge] is the cell [EOf] of the lock's address; [l_cv] is seen only
    through [cv_signal]. *)
Record lock_descriptor := Lock {
  l_next : option laddr;
  l_prev : option laddr;
  l_stack : option laddr;
  l_stack1 : option laddr;
  l_dstack : option laddr;
  l_sedge : option eaddr;
  l_index : Z;
  l_graph : option positive;
  l_vnode : Z;
  l_type : Z;
  l_state : Z;
  l_start : Z;
  l_end : Z;
  l_flock : flock64;
  l_color : Z;
  pvertex : Z;
  l_status : Z;
  l_nlm_state : flk_nlm_status;
  l_callbacks : Z;
  l_zoneid : Z;
}.

(** [active_locks] and [sleeping_locks] are the cells [LActive], [LSleeping]. *)
Record graph := Graph { index : Z; mark : Z }.

Record heap := Heap {
  locks : gmap laddr lock_descriptor;
  edges : gmap eaddr edge;
  graphs : gmap positive graph;
  signals : list laddr;
}.

(** ** Lock states *)
Definition FLK_INITIAL_STATE := 1.
Definition FLK_START_STATE := 2.
Definition FLK_ACTIVE_STATE := 3.
Definition FLK_SLEEPING_STATE := 4.
Definition FLK_GRANTED_STATE := 5.
Definition FLK_INTERRUPTED_STATE := 6.
Definition FLK_CANCELLED_STATE := 7.
Definition FLK_DEAD_STATE := 8.

Definition ACTIVE_LOCK := 0x0001.
Definition SLEEPING_LOCK := 0x0002.
Definition IO_LOCK := 0x0004.
Definition REFERENCED_LOCK := 0x0008.
Definition QUERY_LOCK := 0x0010.
Definition WILLING_TO_SLEEP_LOCK := 0x0020.
Definition RECOMPUTE_LOCK := 0x0040.
Definition RECOMPUTE_DONE := 0x0080.
Definition BARRIER_LOCK := 0x0100.
Definition GRANTED_LOCK := 0x0200.
Definition CANCELLED_LOCK := 0x0400.
Definition DELETED_LOCK := 0x0800.
Definition INTERRUPTED_LOCK := 0x1000.
Definition LOCKMGR_LOCK := 0x2000.
Definition PXFS_LOCK := 0x4000.
Definition NBMAND_LOCK := 0x8000.

(** The transitions the comment above the states lists. *)
Inductive transition : Z -> Z -> Prop :=
  | T_initial_start : transition FLK_INITIAL_STATE FLK_START_STATE
  | T_initial_active : transition FLK_INITIAL_STATE FLK_ACTIVE_STATE
  | T_initial_sleeping : transition FLK_INITIAL_STATE FLK_SLEEPING_STATE
  | T_start_active : transition FLK_START_STATE FLK_ACTIVE_STATE
  | T_start_dead : transition FLK_START_STATE FLK_DEAD_STATE
  | T_active_dead : transition FLK_ACTIVE_STATE FLK_DEAD_STATE
  | T_sleeping_granted : transition FLK_SLEEPING_STATE FLK_GRANTED_STATE
  | T_sleeping_intr : transition FLK_SLEEPING_STATE FLK_INTERRUPTED_STATE
  | T_sleeping_cancelled : transition FLK_SLEEPING_STATE FLK_CANCELLED_STATE
  | T_granted_start : transition FLK_GRANTED_STATE FLK_START_STATE
  | T_granted_intr : transition FLK_GRANTED_STATE FLK_INTERRUPTED_STATE
  | T_granted_cancelled : transition FLK_GRANTED_STATE FLK_CANCELLED_STATE
  | T_cancelled_dead : transition FLK_CANCELLED_STATE FLK_DEAD_STATE
  | T_cancelled_intr : transition FLK_CANCELLED_STATE FLK_INTERRUPTED_STATE
  | T_intr_dead : transition FLK_INTERRUPTED_STATE FLK_DEAD_STATE.

(** ** Hashing of vnodes *)
Definition HASH_SIZE := 32.
Definition HASH_SHIFT := HASH_SIZE - 1.
Definition HASH_INDEX (vp : Z) : Z := (vp >>> 7) .& HASH_SHIFT.

(** ** Tests on locks *)
Definition SAME_OWNER (lock1 lock2 : lock_descriptor) : bool :=
  (l_pid (l_flock lock1) =? l_pid (l_flock lock2)) &&
  (l_sysid (l_flock lock1) =? l_sysid (l_flock lock2)).

Definition OVERLAP (lock1 lock2 : lock_descriptor) : bool :=
  ((l_start lock1 <=? l_start lock2) && (l_start lock2 <=? l_end lock1)) ||
  ((l_start lock2 <=? l_start lock1) && (l_start lock1 <=? l_end lock2)).

Definition IS_INITIAL (lock : lock_descriptor) : bool := l_status lock =? FLK_INITIAL_STATE.
Definition IS_ACTIVE (lock : lock_descriptor) : bool := l_status lock =? FLK_ACTIVE_STATE.
Definition IS_SLEEPING (lock : lock_descriptor) : bool := l_status lock =? FLK_SLEEPING_STATE.
Definition IS_GRANTED (lock : lock_descriptor) : bool := l_status lock =? FLK_GRANTED_STATE.
Definition IS_INTERRUPTED (lock : lock_descriptor) : bool := l_status lock =? FLK_INTERRUPTED_STATE.
Definition IS_CANCELLED (lock : lock_descriptor) : bool := l_status lock =? FLK_CANCELLED_STATE.
Definition IS_DEAD (lock : lock_descriptor) : bool := l_status lock =? FLK_DEAD_STATE.

Definition IS_QUERY_LOCK (lock : lock_descriptor) : bool := truth (l_state lock .& QUERY_LOCK).
Definition IS_RECOMPUTE (lock : lock_descriptor) : bool := truth (l_state lock .& RECOMPUTE_LOCK).
Definition IS_BARRIER (lock : lock_descriptor) : bool := truth (l_state lock .& BARRIER_LOCK).
Definition IS_DELETED (lock : lock_descriptor) : bool := truth (l_state lock .& DELETED_LOCK).
Definition IS_REFERENCED (lock : lock_descriptor) : bool := truth (l_state lock .& REFERENCED_LOCK).
Definition IS_IO_LOCK (lock : lock_descriptor) : bool := truth (l_state lock .& IO_LOCK).
Definition IS_WILLING_TO_SLEEP (lock : lock_descriptor) : bool := truth (l_state lock .& WILLING_TO_SLEEP_LOCK).
Definition IS_LOCKMGR (lock : lock_descriptor) : bool := truth (l_state lock .& LOCKMGR_LOCK).
Definition IS_NLM_UP (lock : lock_descriptor) : bool := bool_decide (l_nlm_state lock = FLK_NLM_UP).
Definition IS_PXFS (lock : lock_descriptor) : bool := truth (l_state lock .& PXFS_LOCK).

Definition SYSIDMASK := 0x0000ffff.
Definition GETSYSID (id : Z) : Z := id .& SYSIDMASK.
Definition IS_LOCAL (lock : lock_descriptor) : bool := GETSYSID (l_sysid (l_flock lock)) =? 0.
Definition IS_REMOTE (lock : lock_descriptor) : bool := negb (IS_LOCAL lock).

Definition F_RDLCK := 1.
Definition F_WRLCK := 2.

Definition BLOCKS (lock1 lock2 : lock_descriptor) : bool :=
  negb (SAME_OWNER lock1 lock2) &&
  ((l_type lock1 =? F_WRLCK) || (l_type lock2 =? F_WRLCK)) &&
  OVERLAP lock1 lock2.

Definition COVERS (lock1 lock2 : lock_descriptor) : bool :=
  (l_start lock1 <=? l_start lock2) && (l_end lock2 <=? l_end lock1).

(** ** Assignments to fields *)
Definition set_l_next (x : option laddr) (k : lock_descriptor) : lock_descriptor :=
    Lock x (l_prev k) (l_stack k) (l_stack1 k) (l_dstack k) (l_sedge k) (l_index k) (l_graph k) (l_vnode
    k) (l_type k) (l_state k) (l_start k) (l_end k) (l_flock k) (l_color k) (pvertex k) (l_status k)
    (l_nlm_state k) (l_callbacks k) (l_zoneid k).
Definition set_l_prev (x : option laddr) (k : lock_descriptor) : lock_descriptor :=
    Lock (l_next k) x (l_stack k) (l_stack1 k) (l_dstack k) (l_sedge k) (l_index k) (l_graph k) (l_vnode
    k) (l_type k) (l_state k) (l_start k) (l_end k) (l_flock k) (l_color k) (pvertex k) (l_status k)
    (l_nlm_state k) (l_callbacks k) (l_zoneid k).
Definition set_l_stack (x : option laddr) (k : lock_descriptor) : lock_descriptor :=
    Lock (l_next k) (l_prev k) x (l_stack1 k) (l_dstack k) (l_sedge k) (l_index k) (l_graph k) (l_vnode k)
    (l_type k) (l_state k) (l_start k) (l_end k) (l_flock k) (l_color k) (pvertex k) (l_status k)
    (l_nlm_state k) (l_callbacks k) (l_zoneid k).
Definition set_l_stack1 (x : option laddr) (k : lock_descriptor) : lock_descriptor :=
    Lock (l_next k) (l_prev k) (l_stack k) x (l_dstack k) (l_sedge k) (l_index k) (l_graph k) (l_vnode k)
    (l_type k) (l_state k) (l_start k) (l_end k) (l_flock k) (l_color k) (pvertex k) (l_status k)
    (l_nlm_state k) (l_callbacks k) (l_zoneid k).
Definition set_l_dstack (x : option laddr) (k : lock_descriptor) : lock_descriptor :=
    Lock (l_next k) (l_prev k) (l_stack k) (l_stack1 k) x (l_sedge k) (l_index k) (l_graph k) (l_vnode k)
    (l_type k) (l_state k) (l_start k) (l_end k) (l_flock k) (l_color k) (pvertex k) (l_status k)
    (l_nlm_state k) (l_callbacks k) (l_zoneid k).
Definition set_l_state (x : Z) (k : lock_descriptor) : lock_descriptor :=
    Lock (l_next k) (l_prev k) (l_stack k) (l_stack1 k) (l_dstack k) (l_sedge k) (l_index k) (l_graph k)
    (l_vnode k) (l_type k) x (l_start k) (l_end k) (l_flock k) (l_color k) (pvertex k) (l_status k)
    (l_nlm_state k) (l_callbacks k) (l_zoneid k).
Definition set_l_color (x : Z) (k : lock_descriptor) : lock_descriptor :=
    Lock (l_next k) (l_prev k) (l_stack k) (l_stack1 k) (l_dstack k) (l_sedge k) (l_index k) (l_graph k)
    (l_vnode k) (l_type k) (l_state k) (l_start k) (l_end k) (l_flock k) x (pvertex k) (l_status k)
    (l_nlm_state k) (l_callbacks k) (l_zoneid k).
Definition set_l_status (x : Z) (k : lock_descriptor) : lock_descriptor :=
    Lock (l_next k) (l_prev k) (l_stack k) (l_stack1 k) (l_dstack k) (l_sedge k) (l_index k) (l_graph k)
    (l_vnode k) (l_type k) (l_state k) (l_start k) (l_end k) (l_flock k) (l_color k) (pvertex k) x
    (l_nlm_state k) (l_callbacks k) (l_zoneid k).
Definition set_l_nlm_state (x : flk_nlm_status) (k : lock_descriptor) : lock_descriptor :=
    Lock (l_next k) (l_prev k) (l_stack k) (l_stack1 k) (l_dstack k) (l_sedge k) (l_index k) (l_graph k)
    (l_vnode k) (l_type k) (l_state k) (l_start k) (l_end k) (l_flock k) (l_color k) (pvertex k) (l_status
    k) x (l_callbacks k) (l_zoneid k).
Definition set_edge_adj_next (x : option eaddr) (k : edge) : edge :=
  Edge x (edge_adj_prev k) (edge_in_next k) (edge_in_prev k) (from_vertex k) (to_vertex k).
Definition set_edge_adj_prev (x : option eaddr) (k : edge) : edge :=
  Edge (edge_adj_next k) x (edge_in_next k) (edge_in_prev k) (from_vertex k) (to_vertex k).
Definition set_edge_in_next (x : option eaddr) (k : edge) : edge :=
  Edge (edge_adj_next k) (edge_adj_prev k) x (edge_in_prev k) (from_vertex k) (to_vertex k).
Definition set_edge_in_prev (x : option eaddr) (k : edge) : edge :=
  Edge (edge_adj_next k) (edge_adj_prev k) (edge_in_next k) x (from_vertex k) (to_vertex k).

(** [p->f = ...] on a lock and on an edge. *)
Definition upd_lock (a : laddr) (f : lock_descriptor -> lock_descriptor) (h : heap) : option heap :=
  k ← locks h !! a;
  Some (Heap (<[a := f k]> (locks h)) (edges h) (graphs h) (signals h)).
Definition upd_edge (a : eaddr) (f : edge -> edge) (h : heap) : option heap :=
  k ← edges h !! a;
  Some (Heap (locks h) (<[a := f k]> (edges h)) (graphs h) (signals h)).

(** [cv_signal(&(lock)->l_cv)] *)
Definition cv_signal (a : laddr) (h : heap) : heap := Heap (locks h) (edges h) (graphs h) (a :: signals h).

(** ** Graph coloring *)
Definition COLORED (vertex : laddr) (h : heap) : option bool :=
  k ← locks h !! vertex; g ← l_graph k; gr ← graphs h !! g; Some (l_color k =? mark gr).
Definition COLOR (vertex : laddr) (h : heap) : option heap :=
  k ← locks h !! vertex; g ← l_graph k; gr ← graphs h !! g; upd_lock vertex (set_l_color (mark gr)) h.

(** ** Stacks of locks, threaded through one of the link fields *)
Inductive stack_link := link_stack | link_stack1 | link_dstack.
Definition get_link (f : stack_link) (k : lock_descriptor) : option laddr :=
  match f with link_stack => l_stack k | link_stack1 => l_stack1 k | link_dstack => l_dstack k end.
Definition set_link (f : stack_link) (x : option laddr) (k : lock_descriptor) : lock_descriptor :=
  match f with
  | link_stack => set_l_stack x k
  | link_stack1 => set_l_stack1 x k
  | link_dstack => set_l_dstack x k
  end.

Definition STACK_INIT : option laddr := None.
Definition STACK_PUSH (stack : option laddr) (ptr : laddr) (f : stack_link) (h : heap)
    : option (option laddr * heap) :=
  h ← upd_lock ptr (set_link f stack) h; Some (Some ptr, h).
Definition STACK_POP (stack : option laddr) (f : stack_link) (h : heap) : option (option laddr) :=
  a ← stack; k ← locks h !! a; Some (get_link f k).
Definition STACK_TOP (stack : option laddr) : option laddr := stack.
Definition STACK_EMPTY (stack : option laddr) : bool := bool_decide (stack = None).

(** ** The active and sleeping queues of a graph *)
Definition ACTIVE_HEAD (gp : positive) : laddr := LActive gp.
Definition SLEEPING_HEAD (gp : positive) : laddr := LSleeping gp.

(** [v_filocks] of the vnode is given. *)
Definition SET_LOCK_TO_FIRST_ACTIVE_VP (v_filocks : Z -> option laddr) (vp : Z) : option laddr := v_filocks vp.

(** The [for] loop, from [lock]; one unit of fuel per turn. *)
Fixpoint first_sleep_loop (fuel : nat) (gp : positive) (lock : laddr) (vp : Z) (h : heap) : option laddr :=
  match fuel with
  | O => None
  | S fuel =>
      if bool_decide (lock = SLEEPING_HEAD gp) then Some lock
      else
        k ← locks h !! lock;
        if l_vnode k =? vp then Some lock
        else n ← l_next k; first_sleep_loop fuel gp n vp h
  end.

(** The new value of [lock], a pointer that may be NULL. *)
Definition SET_LOCK_TO_FIRST_SLEEP_VP (fuel : nat) (gp : positive) (vp : Z) (h : heap) : option (option laddr) :=
  k ← locks h !! SLEEPING_HEAD gp; n ← l_next k;
  lock ← first_sleep_loop fuel gp n vp h;
  Some (if bool_decide (lock = SLEEPING_HEAD gp) then None else Some lock).

(** ** The lists *)
Definition in_links : DList heap eaddr := {|
  nextp h a := edges h !! a ≫= edge_in_next;
  prevp h a := edges h !! a ≫= edge_in_prev;
  set_nextp a x := upd_edge a (set_edge_in_next x);
  set_prevp a x := upd_edge a (set_edge_in_prev x);
|}.
Definition adj_links : DList heap eaddr := {|
  nextp h a := edges h !! a ≫= edge_adj_next;
  prevp h a := edges h !! a ≫= edge_adj_prev;
  set_nextp a x := upd_edge a (set_edge_adj_next x);
  set_prevp a x := upd_edge a (set_edge_adj_prev x);
|}.
Definition queue_links : DList heap laddr := {|
  nextp h a := locks h !! a ≫= l_next;
  prevp h a := locks h !! a ≫= l_prev;
  set_nextp a x := upd_lock a (set_l_next x);
  set_prevp a x := upd_lock a (set_l_prev x);
|}.

Definition IN_LIST_REMOVE (ep : eaddr) (h : heap) : option heap := unlink in_links ep h.
Definition ADJ_LIST_REMOVE (ep : eaddr) (h : heap) : option heap := unlink adj_links ep h.

(** ** Edges of a lock *)
Definition HEAD (lock : laddr) : eaddr := EOf lock.
Definition FIRST_IN (lock : laddr) (h : heap) : option eaddr := e ← edges h !! HEAD lock; edge_in_next e.
Definition FIRST_ADJ (lock : laddr) (h : heap) : option eaddr := e ← edges h !! HEAD lock; edge_adj_next e.
Definition NEXT_ADJ (ep : eaddr) (h : heap) : option eaddr := e ← edges h !! ep; edge_adj_next e.
Definition NEXT_IN (ep : eaddr) (h : heap) : option eaddr := e ← edges h !! ep; edge_in_next e.

Definition NOT_BLOCKED (lock : laddr) (h : heap) : option bool :=
  e ← edges h !! HEAD lock; k ← locks h !! lock;
  Some (bool_decide (edge_adj_next e = Some (HEAD lock)) && negb (IS_GRANTED k)).
Definition NO_DEPENDENTS (lock : laddr) (h : heap) : option bool :=
  e ← edges h !! HEAD lock; Some (bool_decide (edge_in_next e = Some (HEAD lock))).

Definition IN_ADJ_INIT (lock : laddr) (h : heap) : option heap :=
  let e := Some (HEAD lock) in
  h ← upd_edge (HEAD lock) (set_edge_adj_prev e) h; h ← upd_edge (HEAD lock) (set_edge_adj_next e) h;
  h ← upd_edge (HEAD lock) (set_edge_in_prev e) h; upd_edge (HEAD lock) (set_edge_in_next e) h.

(** ** Waking a request up *)
Section Wakeup.
(** [void flk_set_state(lock_descriptor_t *, int)] *)
Context (flk_set_state : laddr -> Z -> heap -> option heap).

(** [l_state |= flag] *)
Definition or_state (flag : Z) (k : lock_descriptor) : lock_descriptor := set_l_state (l_state k .| flag) k.

Definition wakeup (state flag : Z) (lock : laddr) (h : heap) : option heap :=
  h ← flk_set_state lock state h; h ← upd_lock lock (or_state flag) h;
  k ← locks h !! lock;
  Some (if negb (IS_PXFS k) then cv_signal lock h else h).

Definition GRANT_WAKEUP : laddr -> heap -> option heap := wakeup FLK_GRANTED_STATE GRANTED_LOCK.
Definition CANCEL_WAKEUP : laddr -> heap -> option heap := wakeup FLK_CANCELLED_STATE CANCELLED_LOCK.
Definition INTERRUPT_WAKEUP : laddr -> heap -> option heap := wakeup FLK_INTERRUPTED_STATE INTERRUPTED_LOCK.

Definition GRANT (lock : laddr) (h : heap) : option heap :=
  h ← upd_lock lock (or_state GRANTED_LOCK) h; flk_set_state lock FLK_GRANTED_STATE h.
End Wakeup.

(** [ASSERT] stops the kernel when it fails. *)
Definition REMOVE_SLEEP_QUEUE (lock : laddr) (h : heap) : option heap :=
  k ← locks h !! lock;
  if IS_SLEEPING k || IS_GRANTED k || IS_INTERRUPTED k || IS_CANCELLED k then
    h ← upd_lock lock (fun k => set_l_state (l_state k .& .~ SLEEPING_LOCK) k) h;
    h ← unlink queue_links lock h;
    h ← upd_lock lock (set_l_prev None) h; upd_lock lock (set_l_next None) h
  else None.

(** ** Copying a lock *)
Definition COPY (lock1 lock2 : laddr) (h : heap) : option heap :=
  k2 ← locks h !! lock2;
  upd_lock lock1 (fun k1 =>
    Lock (l_next k1) (l_prev k1) (l_stack k1) (l_stack1 k1) (l_dstack k1) (l_sedge k1) (l_index k1)
      (l_graph k2) (l_vnode k2) (l_type k2) (l_state k2) (l_start k2) (l_end k2) (l_flock k2)
      (l_color k1) (pvertex k2) (l_status k1) (l_nlm_state k1) (l_callbacks k1) (l_zoneid k2)) h.

(** ** NLM state and registry *)
Definition SET_NLM_STATE (lock : laddr) (s : flk_nlm_status) (h : heap) : option heap :=
  upd_lock lock (set_l_nlm_state s) h.
Definition GET_NLM_STATE (lock : laddr) (h : heap) : option flk_nlm_status :=
  k ← locks h !! lock; Some (l_nlm_state k).

Definition FLK_REGISTRY_IS_NLM_UNKNOWN (nlmreg : list flk_nlm_status) (nlmid : nat) : option bool :=
  s ← nlmreg !! nlmid; Some (bool_decide (s = FLK_NLM_UNKNOWN)).
Definition FLK_REGISTRY_IS_NLM_UP (nlmreg : list flk_nlm_status) (nlmid : nat) : option bool :=
  s ← nlmreg !! nlmid; Some (bool_decide (s = FLK_NLM_UP)).
Definition FLK_REGISTRY_CHANGE_NLM_STATE (nlmreg : list flk_nlm_status) (nlmid : nat) (s : flk_nlm_status)
    : option (list flk_nlm_status) :=
  _ ← nlmreg !! nlmid; Some (<[nlmid := s]> nlmreg).
Definition FLK_REGISTRY_ADD_NLMID (nlmreg : list flk_nlm_status) (nlmid : nat) : option (list flk_nlm_status) :=
  FLK_REGISTRY_CHANGE_NLM_STATE nlmreg nlmid FLK_NLM_UP.

(** ** The process graph *)
Record proc_edge := ProcEdge { next : option positive; refcount : Z; to_proc : option positive }.
Record proc_vertex := ProcVertex {
  pid : Z; sysid : Z; pv_edge : option positive; incount : Z; p_sedge : option positive;
  p_stack : option positive; atime : Z; dtime : Z; pv_index : Z;
}.
Record proc_graph := ProcGraph { proc : list (option positive); gcount : Z; free : Z; pg_mark : Z }.

Definition PROC_SAME_OWNER (lock : lock_descriptor) (v : proc_vertex) : bool :=
  (l_pid (l_flock lock) =? pid v) && (l_sysid (l_flock lock) =? sysid v).
Definition PROC_ARRIVE (pgraph : proc_graph) (v : proc_vertex) : proc_vertex :=
  ProcVertex (pid v) (sysid v) (pv_edge v) (incount v) (p_sedge v) (p_stack v) (pg_mark pgraph) (dtime v) (pv_index v).
Definition PROC_DEPART (pgraph : proc_graph) (v : proc_vertex) : proc_vertex :=
  ProcVertex (pid v) (sysid v) (pv_edge v) (incount v) (p_sedge v) (p_stack v) (atime v) (pg_mark pgraph) (pv_index v).
Definition PROC_ARRIVED (pgraph : proc_graph) (v : proc_vertex) : bool := atime v =? pg_mark pgraph.
Definition PROC_DEPARTED (pgraph : proc_graph) (v : proc_vertex) : bool := dtime v =? pg_mark pgraph.

(** ** Conflicts between locks *)

(** The offsets a lock covers. *)
Definition covers_offset (k : lock_descriptor) (o : Z) : Prop := l_start k <= o <= l_end k.

Lemma OVERLAP_spec k1 k2 :
  l_start k1 <= l_end k1 -> l_start k2 <= l_end k2 ->
  OVERLAP k1 k2 = true <-> exists o, covers_offset k1 o /\ covers_offset k2 o.
Proof.
  intros H1 H2. unfold OVERLAP, covers_offset.
  rewrite orb_true_iff, !andb_true_iff, !Z.leb_le. split.
  - intros [?|?]; [exists (l_start k2)|exists (l_start k1)]; lia.
  - intros (o & ? & ?). lia.
Qed.

Lemma OVERLAP_sym k1 k2 : OVERLAP k1 k2 = OVERLAP k2 k1.
Proof. unfold OVERLAP. apply orb_comm. Qed.

Lemma SAME_OWNER_sym k1 k2 : SAME_OWNER k1 k2 = SAME_OWNER k2 k1.
Proof. unfold SAME_OWNER. by rewrite !(Z.eqb_sym (_ (l_flock k1))). Qed.

Lemma upd_edge_spec a f h e :
  edges h !! a = Some e ->
  upd_edge a f h = Some (Heap (locks h) (<[a := f e]> (edges h)) (graphs h) (signals h)).
Proof. intros E. unfold upd_edge. by rewrite E. Qed.

Lemma upd_lock_spec a f h k :
  locks h !! a = Some k ->
  upd_lock a f h = Some (Heap (<[a := f k]> (locks h)) (edges h) (graphs h) (signals h)).
Proof. intros E. unfold upd_lock. by rewrite E. Qed.

(** The laws of a list whose links are fields of the values of a map. *)
Ltac dlist_laws spec :=
  split; simpl; intros h k x y Hy; apply bind_Some in Hy as (e & He & Hy);
  (rewrite (spec _ _ _ _ He) || rewrite (spec _ _ _ _ He)); eexists; (split; [reflexivity|]);
  simpl; split; intros j; (destruct (decide (j = k)) as [->|Hne];
    [rewrite lookup_insert_eq, ?He|rewrite lookup_insert_ne by done]); done.

#[export] Instance in_links_laws : DListLaws in_links.
Proof. dlist_laws upd_edge_spec. Qed.
#[export] Instance adj_links_laws : DListLaws adj_links.
Proof. dlist_laws upd_edge_spec. Qed.
#[export] Instance queue_links_laws : DListLaws queue_links.
Proof. dlist_laws upd_lock_spec. Qed.

(** Two heaps with the same edges but for the links of [in_links]
    ([adj_links]), and the same locks. *)
Definition same_adj (h h' : heap) : Prop :=
  locks h' = locks h /\ graphs h' = graphs h /\ signals h' = signals h /\
  forall a, (fun e => (edge_adj_next e, edge_adj_prev e, from_vertex e, to_vertex e)) <$> edges h' !! a
            = (fun e => (edge_adj_next e, edge_adj_prev e, from_vertex e, to_vertex e)) <$> edges h !! a.
Definition same_in (h h' : heap) : Prop :=
  locks h' = locks h /\ graphs h' = graphs h /\ signals h' = signals h /\
  forall a, (fun e => (edge_in_next e, edge_in_prev e, from_vertex e, to_vertex e)) <$> edges h' !! a
            = (fun e => (edge_in_next e, edge_in_prev e, from_vertex e, to_vertex e)) <$> edges h !! a.

Lemma set_in_same_adj a x h h' :
  (set_nextp (DList := in_links) a x h = Some h' -> same_adj h h') /\
  (set_prevp (DList := in_links) a x h = Some h' -> same_adj h h').
Proof.
  split; intros Hu; apply bind_Some in Hu as (e & He & Hu); injection Hu as <-; split_and!; try done;
    intros j; simpl; (destruct (decide (j = a)) as [->|Hne];
    [rewrite lookup_insert_eq, He|rewrite lookup_insert_ne by done]); done.
Qed.

Lemma set_adj_same_in a x h h' :
  (set_nextp (DList := adj_links) a x h = Some h' -> same_in h h') /\
  (set_prevp (DList := adj_links) a x h = Some h' -> same_in h h').
Proof.
  split; intros Hu; apply bind_Some in Hu as (e & He & Hu); injection Hu as <-; split_and!; try done;
    intros j; simpl; (destruct (decide (j = a)) as [->|Hne];
    [rewrite lookup_insert_eq, He|rewrite lookup_insert_ne by done]); done.
Qed.

Lemma unlink_frame {K} (D : DList heap K) (R : heap -> heap -> Prop) x h h' :
  (forall h1 h2 h3, R h1 h2 -> R h2 h3 -> R h1 h3) ->
  (forall a v h1 h2, (set_nextp (DList := D) a v h1 = Some h2 -> R h1 h2)
                     /\ (set_prevp (DList := D) a v h1 = Some h2 -> R h1 h2)) ->
  unlink D x h = Some h' -> R h h'.
Proof.
  intros Ht Hs Hu. unfold unlink in Hu. apply bind_Some in Hu as (n & _ & Hu).
  apply bind_Some in Hu as (h1 & H1 & Hu). apply bind_Some in Hu as (p & _ & H2).
  eapply Ht; [exact (proj2 (Hs _ _ _ _) H1)|exact (proj1 (Hs _ _ _ _) H2)].
Qed.

Lemma same_adj_trans h1 h2 h3 : same_adj h1 h2 -> same_adj h2 h3 -> same_adj h1 h3.
Proof.
  intros (? & ? & ? & E1) (? & ? & ? & E2). split_and!; try congruence; intros a; by rewrite E2, E1.
Qed.
Lemma same_in_trans h1 h2 h3 : same_in h1 h2 -> same_in h2 h3 -> same_in h1 h3.
Proof.
  intros (? & ? & ? & E1) (? & ? & ? & E2). split_and!; try congruence; intros a; by rewrite E2, E1.
Qed.

Lemma ring_same_adj h h' a l : same_adj h h' -> ring adj_links h a l -> ring adj_links h' a l.
Proof.
  intros (_ & _ & _ & E). apply ring_ext; intros j; simpl; specialize (E j);
    destruct (edges h !! j), (edges h' !! j); simpl in *; congruence.
Qed.
Lemma ring_same_in h h' a l : same_in h h' -> ring in_links h a l -> ring in_links h' a l.
Proof.
  intros (_ & _ & _ & E). apply ring_ext; intros j; simpl; specialize (E j);
    destruct (edges h !! j), (edges h' !! j); simpl in *; congruence.
Qed.

(** Removing an edge from a circular list takes out that edge and nothing
    else.  [IN_LIST_REMOVE] and [ADJ_LIST_REMOVE] of an element of a ring
    succeed, leave the ring of the other elements in their order, and do not
    disturb any ring of the other kind, the locks, or the removed edge's own
    links. *)
Theorem edge_list_remove h head l1 ep l2 :
  (ring in_links h head (l1 ++ ep :: l2) ->
   exists h', IN_LIST_REMOVE ep h = Some h' /\ ring in_links h' head (l1 ++ l2) /\ same_adj h h'
     /\ NEXT_IN ep h' = NEXT_IN ep h
     /\ forall a l, ring adj_links h a l -> ring adj_links h' a l) /\
  (ring adj_links h head (l1 ++ ep :: l2) ->
   exists h', ADJ_LIST_REMOVE ep h = Some h' /\ ring adj_links h' head (l1 ++ l2) /\ same_in h h'
     /\ NEXT_ADJ ep h' = NEXT_ADJ ep h
     /\ forall a l, ring in_links h a l -> ring in_links h' a l).
Proof.
  split; intros Hr; destruct (unlink_ring _ _ _ _ _ _ Hr) as (h' & Hu & Hr' & Hn & _); exists h'.
  - assert (same_adj h h') as Hs
      by (eapply (unlink_frame in_links); [apply same_adj_trans|apply set_in_same_adj|exact Hu]).
    split; [done|]. split; [done|]. split; [done|]. split; [exact Hn|]. intros a l. by apply ring_same_adj.
  - assert (same_in h h') as Hs
      by (eapply (unlink_frame adj_links); [apply same_in_trans|apply set_adj_same_in|exact Hu]).
    split; [done|]. split; [done|]. split; [done|]. split; [exact Hn|]. intros a l. by apply ring_same_in.
Qed.

(** A lock with its two empty edge lists, after one edge was put on the
    incoming one. *)
Definition sample_edge (n p : eaddr) : edge := Edge (Some (EAlloc 1)) (Some (EAlloc 1)) (Some n) (Some p) None None.
Definition sample_heap : heap :=
  Heap ∅ (<[EOf (LAlloc 1) := sample_edge (EAlloc 1) (EAlloc 1)]>
         (<[EAlloc 1 := sample_edge (EOf (LAlloc 1)) (EOf (LAlloc 1))]> ∅)) ∅ [].

Lemma edge_list_remove_witness :
  exists h', IN_LIST_REMOVE (EAlloc 1) sample_heap = Some h' /\ ring in_links h' (EOf (LAlloc 1)) ([] ++ [])
    /\ same_adj sample_heap h' /\ NEXT_IN (EAlloc 1) h' = NEXT_IN (EAlloc 1) sample_heap
    /\ forall a l, ring adj_links sample_heap a l -> ring adj_links h' a l.
Proof.
  apply (edge_list_remove sample_heap (EOf (LAlloc 1)) [] (EAlloc 1) []).
  split; [simpl; repeat split|]. constructor; [|constructor; [|constructor]]; apply (bool_decide_unpack _);
    vm_compute; exact I.
Defined.

(** ** The sleeping queue *)

(** Assigning a field other than the links, or to a lock outside it, leaves a
    queue as it is. *)
Lemma ring_upd_other h h' a f k l :
  locks h !! a = Some k -> l_next (f k) = l_next k -> l_prev (f k) = l_prev k ->
  upd_lock a f h = Some h' -> forall q, ring queue_links h q l -> ring queue_links h' q l.
Proof.
  intros Hk Hn Hp Hu q. rewrite (upd_lock_spec _ _ _ _ Hk) in Hu. injection Hu as <-.
  apply ring_ext; intros j; simpl; (destruct (decide (j = a)) as [->|Hne];
    [by rewrite lookup_insert_eq, Hk|by rewrite lookup_insert_ne]).
Qed.

Lemma ring_upd_outside h h' a f q l :
  upd_lock a f h = Some h' -> (a ∉ q :: l) -> ring queue_links h q l -> ring queue_links h' q l.
Proof.
  intros Hu Ha [Hpath Hnd]. apply bind_Some in Hu as (k & Hk & Hu). injection Hu as <-.
  split; [|done]. eapply (path_frame _ h _ _ _ _ a a); try done.
  - intros j Hj. simpl. by rewrite lookup_insert_ne.
  - intros j Hj. simpl. by rewrite lookup_insert_ne.
  - rewrite not_elem_of_app, list_elem_of_singleton. rewrite not_elem_of_cons in Ha. tauto.
Qed.

(** The lock at [a] after one between [p] and [n] is taken out of the queue. *)
Definition relink (p n a : laddr) (k : lock_descriptor) : lock_descriptor :=
  let k := if bool_decide (a = n) then set_l_prev (Some p) k else k in
  if bool_decide (a = p) then set_l_next (Some n) k else k.

Lemma unlink_queue_exact x h h' k p n :
  unlink queue_links x h = Some h' -> locks h !! x = Some k -> l_prev k = Some p -> l_next k = Some n ->
  p <> x -> n <> x ->
  (forall a, locks h' !! a = relink p n a <$> locks h !! a)
  /\ edges h' = edges h /\ graphs h' = graphs h /\ signals h' = signals h.
Proof.
  intros Hu Hk Hp Hn Hpx Hnx. unfold unlink in Hu. cbn [queue_links nextp prevp set_nextp set_prevp] in Hu. rewrite Hk in Hu.
  cbn [mbind option_bind] in Hu. rewrite Hn, Hp in Hu. cbn [mbind option_bind] in Hu.
  apply bind_Some in Hu as (h1 & Hu1 & Hu). apply bind_Some in Hu1 as (kn & En & [= <-]). cbn [locks] in Hu.
  rewrite lookup_insert_ne, Hk in Hu by done. cbn [mbind option_bind] in Hu. rewrite Hp, Hn in Hu. cbn [mbind option_bind] in Hu.
  apply bind_Some in Hu as (kp & Ep & [= <-]). cbn [locks] in Ep.
  cbn [locks edges graphs signals]. split; [|done]. intros a. unfold relink. rewrite lookup_insert. case_decide as Ha.
  - subst a. rewrite (bool_decide_eq_true_2 (p = p)) by done. rewrite lookup_insert in Ep. case_decide as Hnp.
    + subst n. injection Ep as <-. rewrite (bool_decide_eq_true_2 (p = p)) by done. by rewrite En.
    + rewrite (bool_decide_eq_false_2 (p = n)) by congruence. by rewrite Ep.
  - rewrite (bool_decide_eq_false_2 (a = p)) by congruence. rewrite lookup_insert. case_decide as Hna.
    + subst n. rewrite (bool_decide_eq_true_2 (a = a)) by done. by rewrite En.
    + rewrite (bool_decide_eq_false_2 (a = n)) by congruence. by destruct (locks h !! a).
Qed.

(** C32: [REMOVE_SLEEP_QUEUE] of a lock on the sleeping queue of a graph passes
    its assertion exactly in the four states a sleeping request can be in.
    Then the queue holds the other locks in their order; of the lock itself the
    links are NULL, the [SLEEPING_LOCK] flag is off and every other field is what
    it was; of its two neighbours only the links to it have changed; and every
    other lock, the edges, the graphs and the signals are what they were. *)
Theorem remove_sleep_queue h gp l1 lock l2 k :
  ring queue_links h (SLEEPING_HEAD gp) (l1 ++ lock :: l2) -> locks h !! lock = Some k ->
  if bool_decide (l_status k ∈ [FLK_SLEEPING_STATE; FLK_GRANTED_STATE; FLK_INTERRUPTED_STATE; FLK_CANCELLED_STATE])
  then exists h' p n, REMOVE_SLEEP_QUEUE lock h = Some h' /\ l_prev k = Some p /\ l_next k = Some n
         /\ ring queue_links h' (SLEEPING_HEAD gp) (l1 ++ l2)
         /\ locks h' !! lock = Some (set_l_next None (set_l_prev None (set_l_state (l_state k .& .~ SLEEPING_LOCK) k)))
         /\ (forall a, a <> lock -> locks h' !! a = relink p n a <$> locks h !! a)
         /\ edges h' = edges h /\ graphs h' = graphs h /\ signals h' = signals h
  else REMOVE_SLEEP_QUEUE lock h = None.
Proof.
  intros Hr Hk. unfold REMOVE_SLEEP_QUEUE. rewrite Hk. cbn [mbind option_bind].
  assert (bool_decide (l_status k ∈ [FLK_SLEEPING_STATE; FLK_GRANTED_STATE; FLK_INTERRUPTED_STATE; FLK_CANCELLED_STATE])
    = IS_SLEEPING k || IS_GRANTED k || IS_INTERRUPTED k || IS_CANCELLED k) as ->.
  { apply eq_bool_prop_intro. rewrite bool_decide_spec, !orb_True, !Is_true_true.
    unfold IS_SLEEPING, IS_GRANTED, IS_INTERRUPTED, IS_CANCELLED. rewrite !Z.eqb_eq.
    rewrite !elem_of_cons, elem_of_nil. tauto. }
  destruct (_ || _); [|done].
  set (f := fun k => set_l_state (l_state k .& .~ SLEEPING_LOCK) k).
  rewrite (upd_lock_spec lock f _ _ Hk). cbn [mbind option_bind]. set (h1 := Heap _ _ _ _).
  assert (locks h1 !! lock = Some (f k)) as Hk1 by apply lookup_insert_eq.
  assert (ring queue_links h1 (SLEEPING_HEAD gp) (l1 ++ lock :: l2)) as Hr1
    by (eapply (ring_upd_other h h1 lock f); try done; apply upd_lock_spec; done).
  assert (lock ∉ SLEEPING_HEAD gp :: l1 ++ l2) as Hout.
  { destruct Hr as [_ Hnd]. inversion_clear Hnd as [|? ? Ha Hnd']. apply list.NoDup_app in Hnd' as (_ & Hd & Hnd2).
    inversion_clear Hnd2 as [|? ? Hx _]. intros [E|[Hin|?]%elem_of_app]%elem_of_cons; [|apply (Hd lock Hin); by left|done].
    apply Ha. rewrite <- E. apply elem_of_app. right. by left. }
  destruct (ring_neighbours queue_links _ _ _ _ _ Hr1) as (p & n & Pp & _ & Pn & _ & Hp & Hn & _). cbn [queue_links nextp prevp] in Pp, Pn. rewrite Hk1 in Pp, Pn. cbn [mbind option_bind] in Pp, Pn.
  destruct (unlink_ring _ _ _ _ _ _ Hr1) as (h2 & Hu & Hr2 & _). rewrite Hu. cbn [mbind option_bind].
  destruct (unlink_queue_exact lock h1 h2 (f k) p n Hu Hk1 Pp Pn Hp Hn) as (Hex & Ee & Eg & Es).
  assert (locks h2 !! lock = Some (f k)) as Hk2.
  { rewrite Hex, Hk1. unfold relink. simpl. by rewrite !bool_decide_eq_false_2 by done. }
  rewrite (upd_lock_spec lock _ _ _ Hk2). cbn [mbind option_bind]. set (h3 := Heap _ _ _ _).
  assert (locks h3 !! lock = Some (set_l_prev None (f k))) as Hk3 by apply lookup_insert_eq.
  rewrite (upd_lock_spec lock _ _ _ Hk3). set (h4 := Heap _ _ _ _).
  exists h4, p, n. split_and!; try done.
  - eapply (ring_upd_outside h3 h4 lock); [by apply upd_lock_spec|done|].
    eapply (ring_upd_outside h2 h3 lock); [by apply upd_lock_spec|done|done].
  - apply lookup_insert_eq.
  - intros a Ha. subst h4 h3. cbn [locks]. rewrite !lookup_insert_ne by done. rewrite Hex. subst h1. cbn [locks]. by rewrite lookup_insert_ne.
Qed.

(** A graph with one sleeping lock. *)
Definition sample_flock : flock64 := Flock64 F_WRLCK 0 0 10 0 7 [].
Definition sample_lock (n p : laddr) (status : Z) : lock_descriptor :=
  Lock (Some n) (Some p) None None None None 0 (Some 1%positive) 0x1000 F_WRLCK
    (SLEEPING_LOCK .| WILLING_TO_SLEEP_LOCK) 0 9 sample_flock 0 0 status FLK_NLM_UNKNOWN 0 0.
Definition sample_queue : heap :=
  Heap (<[LSleeping 1 := sample_lock (LAlloc 1) (LAlloc 1) FLK_INITIAL_STATE]>
       (<[LAlloc 1 := sample_lock (LSleeping 1) (LSleeping 1) FLK_SLEEPING_STATE]> ∅)) ∅ ∅ [].

Lemma remove_sleep_queue_witness :
  exists h' p n, REMOVE_SLEEP_QUEUE (LAlloc 1) sample_queue = Some h' /\ p = LSleeping 1 /\ n = LSleeping 1
    /\ ring queue_links h' (SLEEPING_HEAD 1) ([] ++ [])
    /\ (l_state <$> locks h' !! LAlloc 1) = Some WILLING_TO_SLEEP_LOCK
    /\ locks h' !! LSleeping 1 = relink p n (LSleeping 1) <$> locks sample_queue !! LSleeping 1.
Proof.
  destruct (remove_sleep_queue sample_queue 1 [] (LAlloc 1) []
    (sample_lock (LSleeping 1) (LSleeping 1) FLK_SLEEPING_STATE)) as (h' & p & n & H1 & H2 & H3 & H4 & H5 & H6 & _).
  - split; [simpl; repeat split|]. constructor; [|constructor; [|constructor]]; apply (bool_decide_unpack _);
      vm_compute; exact I.
  - reflexivity.
  - exists h', p, n. injection H2 as <-. injection H3 as <-. split; [exact H1|]. do 2 (split; [reflexivity|]). split; [exact H4|].
    split; [by rewrite H5|]. by apply H6.
Defined.

(** ** The life of a request *)

(** How many transitions can still follow. *)
Definition rank (s : Z) : nat :=
  if s =? FLK_INITIAL_STATE then 5
  else if s =? FLK_SLEEPING_STATE then 4
  else if s =? FLK_GRANTED_STATE then 3
  else if s =? FLK_START_STATE then 2
  else if s =? FLK_CANCELLED_STATE then 2
  else if s =? FLK_ACTIVE_STATE then 1
  else if s =? FLK_INTERRUPTED_STATE then 1
  else 0.

(** A history: consecutive states are transitions. *)
Fixpoint history (s : Z) (l : list Z) : Prop :=
  match l with [] => True | s' :: l => transition s s' /\ history s' l end.

(** The last state of a history. *)
Fixpoint final (s : Z) (l : list Z) : Z := match l with [] => s | s' :: l => final s' l end.

Lemma transition_rank s s' : transition s s' -> (rank s' < rank s)%nat.
Proof. intros [ ]; vm_compute; lia. Qed.

Lemma history_rank s l : history s l -> (length l + rank (final s l) <= rank s)%nat.
Proof.
  revert s. induction l as [|s' l IH]; intros s; [simpl; lia|]. intros [Ht Hl].
  apply transition_rank in Ht. specialize (IH s' Hl).
  simpl. lia.
Qed.

Definition lock_states : list Z :=
  [FLK_INITIAL_STATE; FLK_START_STATE; FLK_ACTIVE_STATE; FLK_SLEEPING_STATE; FLK_GRANTED_STATE;
   FLK_INTERRUPTED_STATE; FLK_CANCELLED_STATE; FLK_DEAD_STATE].

Lemma transition_states s s' : transition s s' -> s' ∈ lock_states.
Proof. intros [ ]; apply (bool_decide_unpack _); vm_compute; exact I. Qed.

Lemma history_states s l : s ∈ lock_states -> history s l -> final s l ∈ lock_states.
Proof.
  revert s. induction l as [|s' l IH]; intros s Hs; [done|]. intros [Ht Hl].
  apply transition_states in Ht. by apply IH.
Qed.

Lemma alive_moves s : s ∈ lock_states -> s = FLK_DEAD_STATE \/ exists s', transition s s'.
Proof.
  unfold lock_states. rewrite !elem_of_cons, elem_of_nil. intros Hs.
  repeat destruct Hs as [->|Hs]; try done; [right; eexists; constructor..|by left].
Qed.

(** By the documented transitions every request dies.  From the initial
    state there are at most five transitions, every history that has not
    reached the dead state can be continued, and the dead state has no
    transition: so each maximal history ends dead. *)
Theorem lock_life_ends l :
  history FLK_INITIAL_STATE l ->
  (length l <= 5)%nat
  /\ (final FLK_INITIAL_STATE l = FLK_DEAD_STATE \/
      exists s', transition (final FLK_INITIAL_STATE l) s' /\ history FLK_INITIAL_STATE (l ++ [s']))
  /\ (forall s', ~ transition FLK_DEAD_STATE s').
Proof.
  intros Hl. pose proof (history_rank _ _ Hl) as Hr. change (rank FLK_INITIAL_STATE) with 5%nat in Hr.
  split; [lia|]. split; [|intros s' Ht; apply transition_rank in Ht; vm_compute in Ht; lia].
  destruct (alive_moves (final FLK_INITIAL_STATE l)) as [?|(s' & Ht)]; [|by left|right; exists s'].
  - apply history_states; [|done]. apply (bool_decide_unpack _). vm_compute. exact I.
  - split; [done|]. revert Hl Ht. clear. generalize FLK_INITIAL_STATE as s.
    induction l as [|b l IH]; intros s; simpl; [by split|]. intros [Ht Hl] Hlast. split; [done|].
    by apply IH.
Qed.

Lemma lock_life_ends_witness :
  let l := [FLK_SLEEPING_STATE; FLK_GRANTED_STATE; FLK_CANCELLED_STATE; FLK_INTERRUPTED_STATE] in
  (length l <= 5)%nat
  /\ (final FLK_INITIAL_STATE l = FLK_DEAD_STATE \/
      exists s', transition (final FLK_INITIAL_STATE l) s' /\ history FLK_INITIAL_STATE (l ++ [s']))
  /\ (forall s', ~ transition FLK_DEAD_STATE s').
Proof.
  apply (lock_life_ends [FLK_SLEEPING_STATE; FLK_GRANTED_STATE; FLK_CANCELLED_STATE; FLK_INTERRUPTED_STATE]).
  repeat split; constructor.
Defined.

(** ** Waking up *)
Section WakeupSpec.
Context (flk_set_state : laddr -> Z -> heap -> option heap).
(** The state is stored in [l_status], as the comment on the states says. *)
Context (Hset : forall a s h, flk_set_state a s h = upd_lock a (set_l_status s) h).

Lemma wakeup_spec state flag lock h k :
  locks h !! lock = Some k ->
  wakeup flk_set_state state flag lock h
  = Some (Heap (<[lock := or_state flag (set_l_status state k)]> (locks h)) (edges h) (graphs h)
      (if IS_PXFS (or_state flag k) then signals h else lock :: signals h)).
Proof.
  intros Hk. unfold wakeup. rewrite Hset, (upd_lock_spec _ _ _ _ Hk). cbn [mbind option_bind].
  rewrite (upd_lock_spec _ _ _ (set_l_status state k)) by apply lookup_insert_eq. cbn [mbind option_bind locks].
  rewrite lookup_insert_eq. cbn [mbind option_bind]. unfold cv_signal. simpl. rewrite insert_insert_eq.
  change (IS_PXFS (or_state flag (set_l_status state k))) with (IS_PXFS (or_state flag k)).
  by destruct (IS_PXFS (or_state flag k)).
Qed.
End WakeupSpec.

Lemma pxfs_or flag k : flag .& PXFS_LOCK = 0 -> IS_PXFS (or_state flag k) = IS_PXFS k.
Proof.
  intros Hf. unfold IS_PXFS, or_state. simpl. by rewrite Z.land_lor_distr_l, Hf, Z.lor_0_r.
Qed.

(** When [flk_set_state] stores the state in [l_status], each wakeup macro
    moves a sleeping request (for cancelling also a granted one, for
    interrupting also a granted or cancelled one) along a documented
    transition, sets its own flag, keeps every other lock, and signals the
    condition variable of that request exactly when it is not a PXFS lock. *)
Theorem wakeups_follow_states flk_set_state lock h k :
  (forall a s h, flk_set_state a s h = upd_lock a (set_l_status s) h) ->
  locks h !! lock = Some k ->
  Forall (fun '(macro, state, flag, froms) =>
    l_status k ∈ froms ->
    exists h' k', macro lock h = Some h' /\ locks h' = <[lock := k']> (locks h)
      /\ transition (l_status k) (l_status k') /\ l_status k' = state
      /\ l_state k' = l_state k .| flag /\ edges h' = edges h
      /\ signals h' = (if IS_PXFS k then signals h else lock :: signals h))
    [(GRANT_WAKEUP flk_set_state, FLK_GRANTED_STATE, GRANTED_LOCK, [FLK_SLEEPING_STATE]);
     (CANCEL_WAKEUP flk_set_state, FLK_CANCELLED_STATE, CANCELLED_LOCK, [FLK_SLEEPING_STATE; FLK_GRANTED_STATE]);
     (INTERRUPT_WAKEUP flk_set_state, FLK_INTERRUPTED_STATE, INTERRUPTED_LOCK,
       [FLK_SLEEPING_STATE; FLK_GRANTED_STATE; FLK_CANCELLED_STATE])].
Proof.
  intros Hset Hk. repeat constructor; intros Hs; rewrite !elem_of_cons, elem_of_nil in Hs;
    unfold GRANT_WAKEUP, CANCEL_WAKEUP, INTERRUPT_WAKEUP; rewrite (wakeup_spec _ Hset _ _ _ _ _ Hk);
    rewrite pxfs_or by reflexivity; do 2 eexists; (split; [done|]); (split; [done|]); simpl;
    (split; [|done]); repeat destruct Hs as [Hs|Hs]; try done; rewrite Hs; constructor.
Qed.

Lemma wakeups_follow_states_witness :
  Forall (fun '(macro, state, flag, froms) =>
    l_status (sample_lock (LSleeping 1) (LSleeping 1) FLK_SLEEPING_STATE) ∈ froms ->
    exists h' k', macro (LAlloc 1) sample_queue = Some h' /\ locks h' = <[LAlloc 1 := k']> (locks sample_queue)
      /\ transition FLK_SLEEPING_STATE (l_status k') /\ l_status k' = state
      /\ l_state k' = (SLEEPING_LOCK .| WILLING_TO_SLEEP_LOCK) .| flag /\ edges h' = edges sample_queue
      /\ signals h' = [LAlloc 1])
    [(GRANT_WAKEUP (fun a s => upd_lock a (set_l_status s)), FLK_GRANTED_STATE, GRANTED_LOCK, [FLK_SLEEPING_STATE]);
     (CANCEL_WAKEUP (fun a s => upd_lock a (set_l_status s)), FLK_CANCELLED_STATE, CANCELLED_LOCK,
       [FLK_SLEEPING_STATE; FLK_GRANTED_STATE]);
     (INTERRUPT_WAKEUP (fun a s => upd_lock a (set_l_status s)), FLK_INTERRUPTED_STATE, INTERRUPTED_LOCK,
       [FLK_SLEEPING_STATE; FLK_GRANTED_STATE; FLK_CANCELLED_STATE])].
Proof.
  apply (wakeups_follow_states (fun a s => upd_lock a (set_l_status s)) (LAlloc 1) sample_queue
    (sample_lock (LSleeping 1) (LSleeping 1) FLK_SLEEPING_STATE)); reflexivity.
Defined.

(** [BLOCKS] is a conflict between requests: for locks that cover at least
    one offset it holds exactly when the owners differ, one of the two is a
    write lock and some offset is covered by both; it is symmetric; and
    [COVERS] holds exactly when every offset of the second lock is one of the
    first. *)
Theorem blocks_iff_conflict k1 k2 :
  l_start k1 <= l_end k1 -> l_start k2 <= l_end k2 ->
  (BLOCKS k1 k2 = true <->
     (l_pid (l_flock k1), l_sysid (l_flock k1)) <> (l_pid (l_flock k2), l_sysid (l_flock k2))
     /\ (l_type k1 = F_WRLCK \/ l_type k2 = F_WRLCK)
     /\ exists o, covers_offset k1 o /\ covers_offset k2 o)
  /\ BLOCKS k1 k2 = BLOCKS k2 k1
  /\ (COVERS k1 k2 = true <-> forall o, covers_offset k2 o -> covers_offset k1 o).
Proof.
  intros H1 H2. split_and!.
  - unfold BLOCKS. rewrite !andb_true_iff, OVERLAP_spec, orb_true_iff, !Z.eqb_eq, negb_true_iff by done.
    assert (SAME_OWNER k1 k2 = false <->
      (l_pid (l_flock k1), l_sysid (l_flock k1)) <> (l_pid (l_flock k2), l_sysid (l_flock k2))) as ->; [|tauto].
    unfold SAME_OWNER. rewrite andb_false_iff, !Z.eqb_neq. split.
    + intros [?|?] [=]; done.
    + intros Hne. destruct (decide (l_pid (l_flock k1) = l_pid (l_flock k2))); [right|by left]. congruence.
  - unfold BLOCKS. by rewrite OVERLAP_sym, SAME_OWNER_sym, (orb_comm (l_type k1 =? F_WRLCK)).
  - unfold COVERS, covers_offset. rewrite andb_true_iff, !Z.leb_le. split; [lia|]. intros Ho.
    pose proof (Ho (l_start k2) ltac:(lia)). pose proof (Ho (l_end k2) ltac:(lia)). lia.
Qed.

Lemma blocks_iff_conflict_witness :
  let k := sample_lock (LAlloc 1) (LAlloc 1) FLK_ACTIVE_STATE in
  (BLOCKS k k = true <->
     (l_pid (l_flock k), l_sysid (l_flock k)) <> (l_pid (l_flock k), l_sysid (l_flock k))
     /\ (l_type k = F_WRLCK \/ l_type k = F_WRLCK)
     /\ exists o, covers_offset k o /\ covers_offset k o)
  /\ BLOCKS k k = BLOCKS k k
  /\ (COVERS k k = true <-> forall o, covers_offset k o -> covers_offset k o).
Proof.
  apply (blocks_iff_conflict (sample_lock (LAlloc 1) (LAlloc 1) FLK_ACTIVE_STATE)
    (sample_lock (LAlloc 1) (LAlloc 1) FLK_ACTIVE_STATE)); simpl; lia.
Defined.

(** ** Searching the sleeping queue *)

(** The first of the locks [l] on the vnode [vp]. *)
Definition first_on (h : heap) (vp : Z) (l : list laddr) : option laddr :=
  List.find (fun a => match locks h !! a with Some k => l_vnode k =? vp | None => false end) l.

Lemma first_sleep_loop_spec h gp vp l a fuel :
  path queue_links h a l (SLEEPING_HEAD gp) -> (SLEEPING_HEAD gp ∉ l) -> (length l < fuel)%nat ->
  nextp (DList := queue_links) h a ≫= (fun n => first_sleep_loop fuel gp n vp h)
  = Some (default (SLEEPING_HEAD gp) (first_on h vp l)).
Proof.
  revert a fuel. induction l as [|b l IH]; intros a fuel Hp Hh Hf; (destruct fuel as [|fuel]; [simpl in Hf; lia|]).
  - destruct Hp as [-> _]. cbn [mbind option_bind first_sleep_loop]. by rewrite bool_decide_eq_true_2.
  - destruct Hp as [[-> _] Hp]. cbn [mbind option_bind first_sleep_loop].
    rewrite not_elem_of_cons in Hh. destruct Hh as [Hb Hl]. rewrite bool_decide_eq_false_2 by congruence.
    unfold first_on. cbn [List.find].
    assert (exists k, locks h !! b = Some k) as [k Hk].
    { destruct (path_first _ _ _ _ _ Hp) as (n & Hn & _). simpl in Hn.
      destruct (locks h !! b) as [k|]; [by exists k|done]. }
    rewrite Hk. cbn [mbind option_bind]. destruct (l_vnode k =? vp); [done|].
    specialize (IH b fuel Hp Hl ltac:(simpl in Hf; lia)). simpl in IH. rewrite Hk in IH. exact IH.
Qed.

(** [SET_LOCK_TO_FIRST_SLEEP_VP] terminates and finds: on a sleeping queue
    that holds the locks [l], with fuel for one more turn than [l] is long, it
    sets the pointer to the first lock of [l] on the vnode, or to NULL when
    there is none. *)
Theorem first_sleep_vp h gp vp l fuel :
  ring queue_links h (SLEEPING_HEAD gp) l -> (length l < fuel)%nat ->
  SET_LOCK_TO_FIRST_SLEEP_VP fuel gp vp h = Some (first_on h vp l).
Proof.
  intros [Hp Hnd] Hf. inversion_clear Hnd as [|? ? Hh _].
  pose proof (first_sleep_loop_spec h gp vp l _ fuel Hp Hh Hf) as Hl. simpl in Hl.
  unfold SET_LOCK_TO_FIRST_SLEEP_VP. destruct (locks h !! SLEEPING_HEAD gp) as [k|]; [|done].
  cbn [mbind option_bind] in Hl |- *. destruct (l_next k) as [n|]; [|done].
  cbn [mbind option_bind] in Hl |- *. rewrite Hl. cbn [mbind option_bind].
  destruct (first_on h vp l) as [a|] eqn:E; simpl; [|by rewrite bool_decide_eq_true_2].
  apply List.find_some in E as [Hin _]. rewrite bool_decide_eq_false_2; [done|]. intros ->.
  apply Hh. by apply list_elem_of_In.
Qed.

Lemma first_sleep_vp_witness :
  SET_LOCK_TO_FIRST_SLEEP_VP 2 1 0x1000 sample_queue = Some (first_on sample_queue 0x1000 [LAlloc 1]).
Proof.
  apply (first_sleep_vp sample_queue 1 0x1000 [LAlloc 1] 2).
  - split; [simpl; repeat split|]. constructor; [|constructor; [|constructor]]; apply (bool_decide_unpack _);
      vm_compute; exact I.
  - simpl. lia.
Defined.

(** ** The other operations *)

(** A lock copied by [COPY] conflicts with the same requests as its model. *)
Lemma COPY_conflicts h lock1 lock2 k1 k2 :
  locks h !! lock1 = Some k1 -> locks h !! lock2 = Some k2 ->
  exists h' k', COPY lock1 lock2 h = Some h' /\ locks h' = <[lock1 := k']> (locks h)
    /\ (forall k, BLOCKS k' k = BLOCKS k2 k /\ COVERS k' k = COVERS k2 k /\ SAME_OWNER k' k = SAME_OWNER k2 k)
    /\ l_status k' = l_status k1 /\ l_next k' = l_next k1 /\ l_prev k' = l_prev k1.
Proof.
  intros H1 H2. unfold COPY. rewrite H2. cbn [mbind option_bind].
  rewrite (upd_lock_spec _ _ _ _ H1). do 2 eexists. split; [done|]. split; [done|]. by split.
Qed.

(** What is pushed is on top, and popping it gives the stack back. *)
Lemma STACK_push_pop h stack ptr f k :
  locks h !! ptr = Some k ->
  exists h', STACK_PUSH stack ptr f h = Some (Some ptr, h')
    /\ STACK_TOP (Some ptr) = Some ptr /\ STACK_EMPTY (Some ptr) = false
    /\ STACK_POP (Some ptr) f h' = Some stack.
Proof.
  intros Hk. unfold STACK_PUSH. rewrite (upd_lock_spec _ _ _ _ Hk). cbn [mbind option_bind].
  eexists. split; [done|]. split; [done|]. split; [done|]. unfold STACK_POP. cbn [mbind option_bind locks].
  rewrite lookup_insert_eq. cbn [mbind option_bind]. by destruct f.
Qed.

(** A colored vertex is colored until the mark of its graph moves on. *)
Lemma COLOR_colored h vertex k g gr :
  locks h !! vertex = Some k -> l_graph k = Some g -> graphs h !! g = Some gr ->
  exists h', COLOR vertex h = Some h' /\ COLORED vertex h' = Some true.
Proof.
  intros Hk Hg Hgr. unfold COLOR. rewrite Hk. cbn [mbind option_bind]. rewrite Hg. cbn [mbind option_bind].
  rewrite Hgr. cbn [mbind option_bind]. rewrite (upd_lock_spec _ _ _ _ Hk). eexists. split; [done|].
  unfold COLORED. cbn [locks graphs]. rewrite lookup_insert_eq. cbn [mbind option_bind].
  change (l_graph (set_l_color (mark gr) k)) with (l_graph k). rewrite Hg. cbn [mbind option_bind].
  rewrite Hgr. cbn [mbind option_bind]. by rewrite Z.eqb_refl.
Qed.

(** A lock whose lists were initialised has no dependents and, unless it was
    granted, is not blocked. *)
Lemma IN_ADJ_INIT_free h lock e k :
  edges h !! HEAD lock = Some e -> locks h !! lock = Some k ->
  exists h', IN_ADJ_INIT lock h = Some h' /\ NO_DEPENDENTS lock h' = Some true
    /\ NOT_BLOCKED lock h' = Some (negb (IS_GRANTED k))
    /\ ring in_links h' (HEAD lock) [] /\ ring adj_links h' (HEAD lock) [].
Proof.
  intros He Hk. unfold IN_ADJ_INIT. rewrite (upd_edge_spec _ _ _ _ He). cbn [mbind option_bind].
  do 3 (erewrite upd_edge_spec by apply lookup_insert_eq; cbn [mbind option_bind]).
  eexists. split; [done|]. unfold NO_DEPENDENTS, NOT_BLOCKED, ring, path, linked. cbn [edges locks nextp prevp in_links adj_links].
  rewrite !lookup_insert_eq, Hk. cbn [mbind option_bind].
  split; [by rewrite bool_decide_eq_true_2|]. split; [by rewrite bool_decide_eq_true_2|].
  split; (split; [done|]); (constructor; [by intros ?%elem_of_nil|constructor]).
Qed.

Lemma HASH_INDEX_range vp : 0 <= HASH_INDEX vp < HASH_SIZE.
Proof.
  unfold HASH_INDEX, HASH_SHIFT, HASH_SIZE. change (32 - 1) with (Z.ones 5).
  rewrite Z.land_ones by lia. apply Z.mod_pos_bound. lia.
Qed.
