(* ===== verification/In6.v ===== *)
(** * Internet addresses: netinet/in.h

    The address structures of [src/include/netinet/in.h] and the macros that
    classify, compare and convert addresses.  An address is its octets in
    memory; [_S6_u32] and [s_addr] view them as integers of the machine, so
    the header has a variant of most macros per byte order.  The theorems say
    that both variants are the test on octets the RFCs define. *)
From S2P Require Import Prelude.

(** ** Words of an address *)

(** The 32-bit integer a machine of byte order [e] reads from four octets. *)
Definition word_of (e : endian) (b : list Z) : Z :=
  match e with LittleEndian => of_le b | BigEndian => of_le (rev b) end.
Definition bytes_of (e : endian) (x : Z) : list Z :=
  match e with LittleEndian => le_bytes 4 x | BigEndian => rev (le_bytes 4 x) end.

(** ** IPv4 addresses, in host byte order *)
Definition IN_CLASSA (i : Z) : bool := (i .& 0x80000000) =? 0.
Definition IN_CLASSB (i : Z) : bool := (i .& 0xc0000000) =? 0x80000000.
Definition IN_CLASSC (i : Z) : bool := (i .& 0xe0000000) =? 0xc0000000.
Definition IN_CLASSD (i : Z) : bool := (i .& 0xf0000000) =? 0xe0000000.
Definition IN_MULTICAST (i : Z) : bool := IN_CLASSD i.
Definition IN_EXPERIMENTAL (i : Z) : bool := (i .& 0xe0000000) =? 0xe0000000.
Definition IN_BADCLASS (i : Z) : bool := (i .& 0xf0000000) =? 0xf0000000.

Definition IN_CLASSA_NET := 0xff000000.
Definition IN_CLASSA_NSHIFT := 24.
Definition IN_CLASSA_HOST := 0x00ffffff.
Definition IN_CLASSA_MAX := 128.
Definition IN_CLASSB_NET := 0xffff0000.
Definition IN_CLASSB_NSHIFT := 16.
Definition IN_CLASSB_HOST := 0x0000ffff.
Definition IN_CLASSB_MAX := 65536.
Definition IN_CLASSC_NET := 0xffffff00.
Definition IN_CLASSC_NSHIFT := 8.
Definition IN_CLASSC_HOST := 0x000000ff.
Definition IN_CLASSD_NET := 0xf0000000.
Definition IN_CLASSD_NSHIFT := 28.
Definition IN_CLASSD_HOST := 0x0fffffff.

Definition INADDR_ANY := 0x00000000.
Definition INADDR_LOOPBACK := 0x7F000001.
Definition INADDR_BROADCAST := 0xffffffff.
Definition INADDR_NONE := 0xffffffff.
Definition INADDR_UNSPEC_GROUP := 0xe0000000.
Definition INADDR_ALLHOSTS_GROUP := 0xe0000001.
Definition INADDR_ALLRTRS_GROUP := 0xe0000002.
Definition INADDR_ALLRPTS_GROUP := 0xe0000016.
Definition INADDR_MAX_LOCAL_GROUP := 0xe00000ff.
Definition IN_AUTOCONF_NET := 0xa9fe0000.
Definition IN_AUTOCONF_MASK := 0xffff0000.
Definition IN_PRIVATE8_NET := 0x0a000000.
Definition IN_PRIVATE8_MASK := 0xff000000.
Definition IN_PRIVATE12_NET := 0xac100000.
Definition IN_PRIVATE12_MASK := 0xfff00000.
Definition IN_PRIVATE16_NET := 0xc0a80000.
Definition IN_PRIVATE16_MASK := 0xffff0000.
Definition INADDR_6TO4RRANYCAST := 0xc0586301.

(** [struct in_addr]: the octets [s_b1] .. [s_b4]; [s_addr] is the word. *)
Record in_addr := InAddr { s_b1 : Z; s_b2 : Z; s_b3 : Z; s_b4 : Z }.
Definition in_addr_bytes (a : in_addr) : list Z := [s_b1 a; s_b2 a; s_b3 a; s_b4 a].
Definition s_addr (e : endian) (a : in_addr) : Z := word_of e (in_addr_bytes a).
Definition set_s_addr (e : endian) (x : Z) : in_addr :=
  match bytes_of e x with [a; b; c; d] => InAddr a b c d | _ => InAddr 0 0 0 0 end.

(** ** IPv6 addresses *)

(** [struct in6_addr]: the sixteen octets of [_S6_u8]. *)
Definition in6_addr := list Z.
Definition _S6_u8 (a : in6_addr) (i : nat) : Z := nth i a 0.
Definition _S6_u32 (e : endian) (a : in6_addr) (i : nat) : Z := word_of e (take 4 (drop (4 * i) a)).
Definition set_S6_u8 (i : nat) (x : Z) (a : in6_addr) : in6_addr := <[i := x]> a.
Definition set_S6_u32 (e : endian) (i : nat) (x : Z) (a : in6_addr) : in6_addr :=
  take (4 * i) a ++ bytes_of e x ++ drop (4 * i + 4) a.

Definition in6_ok (a : in6_addr) : Prop := length a = 16%nat /\ Forall is_byte a.

(** ** Socket addresses *)
Record sockaddr_in := SockaddrIn {
  sin_family : Z; sin_port : Z; sin_addr : in_addr; sin_zero : list Z }.
Record sockaddr_in6 := SockaddrIn6 {
  sin6_family : Z; sin6_port : Z; sin6_flowinfo : Z; sin6_addr : in6_addr; sin6_scope_id : Z; sin6_src_id : Z }.

Definition IPV6_FLOWINFO_FLOWLABEL (e : endian) : Z :=
  match e with BigEndian => 0x000fffff | LittleEndian => 0xffff0f00 end.
Definition IPV6_FLOWINFO_TCLASS (e : endian) : Z :=
  match e with BigEndian => 0x0ff00000 | LittleEndian => 0x0000f00f end.

(** The kernel's static initialisers, four words, and the user's, sixteen
    octets. *)
Definition IN6ADDR_ANY_INIT_kernel : list Z := [0; 0; 0; 0].
Definition IN6ADDR_LOOPBACK_INIT_kernel (e : endian) : list Z :=
  match e with BigEndian => [0; 0; 0; 0x00000001] | LittleEndian => [0; 0; 0; 0x01000000] end.
Definition IN6ADDR_ANY_INIT : in6_addr := [0; 0; 0; 0; 0; 0; 0; 0; 0; 0; 0; 0; 0; 0; 0; 0].
Definition IN6ADDR_LOOPBACK_INIT : in6_addr := [0; 0; 0; 0; 0; 0; 0; 0; 0; 0; 0; 0; 0; 0; 0; 1].

(** ** Special addresses *)
Section Tests.
Context (e : endian) (addr : in6_addr).
Abbreviation u32at i := (_S6_u32 e addr i).

Definition IN6_IS_ADDR_UNSPECIFIED : bool :=
  (u32at 3 =? 0) && (u32at 2 =? 0) && (u32at 1 =? 0) && (u32at 0 =? 0).

Definition IN6_IS_ADDR_LOOPBACK : bool :=
  match e with
  | BigEndian => (u32at 3 =? 0x00000001) && (u32at 2 =? 0) && (u32at 1 =? 0) && (u32at 0 =? 0)
  | LittleEndian => (u32at 3 =? 0x01000000) && (u32at 2 =? 0) && (u32at 1 =? 0) && (u32at 0 =? 0)
  end.

Definition IN6_IS_ADDR_MULTICAST : bool :=
  match e with
  | BigEndian => (u32at 0 .& 0xff000000) =? 0xff000000
  | LittleEndian => (u32at 0 .& 0x000000ff) =? 0x000000ff
  end.

Definition IN6_IS_ADDR_LINKLOCAL : bool :=
  match e with
  | BigEndian => (u32at 0 .& 0xffc00000) =? 0xfe800000
  | LittleEndian => (u32at 0 .& 0x0000c0ff) =? 0x000080fe
  end.

Definition IN6_IS_ADDR_SITELOCAL : bool :=
  match e with
  | BigEndian => (u32at 0 .& 0xffc00000) =? 0xfec00000
  | LittleEndian => (u32at 0 .& 0x0000c0ff) =? 0x0000c0fe
  end.

Definition IN6_IS_ADDR_V4MAPPED : bool :=
  match e with
  | BigEndian => (u32at 2 =? 0x0000ffff) && (u32at 1 =? 0) && (u32at 0 =? 0)
  | LittleEndian => (u32at 2 =? 0xffff0000) && (u32at 1 =? 0) && (u32at 0 =? 0)
  end.

Definition IN6_IS_ADDR_V4MAPPED_ANY : bool :=
  match e with
  | BigEndian => (u32at 3 =? 0) && (u32at 2 =? 0x0000ffff) && (u32at 1 =? 0) && (u32at 0 =? 0)
  | LittleEndian => (u32at 3 =? 0) && (u32at 2 =? 0xffff0000) && (u32at 1 =? 0) && (u32at 0 =? 0)
  end.

Definition IN6_IS_ADDR_V4COMPAT : bool :=
  match e with
  | BigEndian => (u32at 2 =? 0) && (u32at 1 =? 0) && (u32at 0 =? 0)
                 && negb (u32at 3 =? 0) && negb (u32at 3 =? 0x00000001)
  | LittleEndian => (u32at 2 =? 0) && (u32at 1 =? 0) && (u32at 0 =? 0)
                    && negb (u32at 3 =? 0) && negb (u32at 3 =? 0x01000000)
  end.

Definition IN6_IS_ADDR_MC_RESERVED : bool :=
  match e with
  | BigEndian => (u32at 0 .& 0xff0f0000) =? 0xff000000
  | LittleEndian => (u32at 0 .& 0x00000fff) =? 0x000000ff
  end.

Definition IN6_IS_ADDR_MC_NODELOCAL : bool :=
  match e with
  | BigEndian => (u32at 0 .& 0xff0f0000) =? 0xff010000
  | LittleEndian => (u32at 0 .& 0x00000fff) =? 0x000001ff
  end.

Definition IN6_IS_ADDR_MC_LINKLOCAL : bool :=
  match e with
  | BigEndian => (u32at 0 .& 0xff0f0000) =? 0xff020000
  | LittleEndian => (u32at 0 .& 0x00000fff) =? 0x000002ff
  end.

Definition IN6_IS_ADDR_MC_SITELOCAL : bool :=
  match e with
  | BigEndian => (u32at 0 .& 0xff0f0000) =? 0xff050000
  | LittleEndian => (u32at 0 .& 0x00000fff) =? 0x000005ff
  end.

Definition IN6_IS_ADDR_MC_ORGLOCAL : bool :=
  match e with
  | BigEndian => (u32at 0 .& 0xff0f0000) =? 0xff080000
  | LittleEndian => (u32at 0 .& 0x00000fff) =? 0x000008ff
  end.

Definition IN6_IS_ADDR_MC_GLOBAL : bool :=
  match e with
  | BigEndian => (u32at 0 .& 0xff0f0000) =? 0xff0e0000
  | LittleEndian => (u32at 0 .& 0x00000fff) =? 0x00000eff
  end.

Definition IN6_IS_ADDR_6TO4 : bool :=
  match e with
  | BigEndian => (u32at 0 .& 0xffff0000) =? 0x20020000
  | LittleEndian => (u32at 0 .& 0x0000ffff) =? 0x00000220
  end.

Definition IN6_IS_ADDR_LINKSCOPE : bool :=
  IN6_IS_ADDR_LINKLOCAL || IN6_IS_ADDR_MC_LINKLOCAL || IN6_IS_ADDR_MC_NODELOCAL.
End Tests.

Definition IN6_ARE_6TO4_PREFIX_EQUAL (e : endian) (addr1 addr2 : in6_addr) : bool :=
  (_S6_u32 e addr1 0 =? _S6_u32 e addr2 0) && (_S6_u8 addr1 4 =? _S6_u8 addr2 4)
  && (_S6_u8 addr1 5 =? _S6_u8 addr2 5).

Definition IN6_ARE_ADDR_EQUAL (e : endian) (addr1 addr2 : in6_addr) : bool :=
  (_S6_u32 e addr1 3 =? _S6_u32 e addr2 3) && (_S6_u32 e addr1 2 =? _S6_u32 e addr2 2)
  && (_S6_u32 e addr1 1 =? _S6_u32 e addr2 1) && (_S6_u32 e addr1 0 =? _S6_u32 e addr2 0).

(** ** Conversions between IPv4 and IPv6 addresses *)
Definition IN6_V4MAPPED_TO_INADDR (e : endian) (v6 : in6_addr) : in_addr := set_s_addr e (_S6_u32 e v6 3).
Definition IN6_V4MAPPED_TO_IPADDR (e : endian) (v6 : in6_addr) : Z := _S6_u32 e v6 3.

Definition IN6_IPADDR_TO_V4MAPPED (e : endian) (v4 : Z) (v6 : in6_addr) : in6_addr :=
  set_S6_u32 e 0 0 (set_S6_u32 e 1 0
    (set_S6_u32 e 2 (match e with BigEndian => 0x0000ffff | LittleEndian => 0xffff0000 end)
      (set_S6_u32 e 3 v4 v6))).
Definition IN6_INADDR_TO_V4MAPPED (e : endian) (v4 : in_addr) (v6 : in6_addr) : in6_addr :=
  set_S6_u32 e 0 0 (set_S6_u32 e 1 0
    (set_S6_u32 e 2 (match e with BigEndian => 0x0000ffff | LittleEndian => 0xffff0000 end)
      (set_S6_u32 e 3 (s_addr e v4) v6))).

Definition IN6_6TO4_TO_V4ADDR (v6 : in6_addr) : in_addr :=
  InAddr (_S6_u8 v6 2) (_S6_u8 v6 3) (_S6_u8 v6 4) (_S6_u8 v6 5).

Definition IN6_V4ADDR_TO_6TO4 (e : endian) (v4 : in_addr) (v6 : in6_addr) : in6_addr :=
  set_S6_u32 e 3 (match e with BigEndian => 0x00000001 | LittleEndian => 0x01000000 end)
    (set_S6_u32 e 2 0
      (set_S6_u8 7 0 (set_S6_u8 6 0
        (set_S6_u8 5 (s_b4 v4) (set_S6_u8 4 (s_b3 v4) (set_S6_u8 3 (s_b2 v4) (set_S6_u8 2 (s_b1 v4)
          (set_S6_u8 1 0x02 (set_S6_u8 0 0x20 v6))))))))).

(** ** Words and octets *)
Lemma land_octet b c x y :
  is_byte b -> is_byte c -> (b + 256 * x) .& (c + 256 * y) = (b .& c) + 256 * (x .& y).
Proof.
  intros Hb Hc. change 256 with (2 ^ 8). rewrite !(Z.mul_comm (2 ^ 8)).
  rewrite <- !lor_shift_add by (lia || done || by apply in_u_land_l).
  apply Z.bits_inj'. intros i Hi. autorewrite with zbits. rewrite (proj2 (Z.leb_le 0 i)) by lia. cbn [andb].
  destruct (Z.ltb_spec i 8).
  - rewrite !(testbit_neg _ (i - 8)) by lia. by rewrite !orb_false_r.
  - by rewrite (in_u_testbit 8 b), (in_u_testbit 8 c) by done.
Qed.

Lemma of_le_land l m :
  Forall is_byte l -> Forall is_byte m -> length l = length m ->
  of_le l .& of_le m = of_le (zip_with Z.land l m).
Proof.
  intros Hl. revert m. induction Hl as [|b l Hb Hl IH]; intros [|c m] Hm Hlen; try done.
  apply Forall_cons_1 in Hm as [Hc Hm]. simpl. rewrite land_octet by done. rewrite IH; [done|done|].
  simpl in Hlen. lia.
Qed.

Lemma of_le_eqb l m :
  Forall is_byte l -> Forall is_byte m -> length l = length m ->
  (of_le l =? of_le m) = bool_decide (l = m).
Proof.
  intros Hl Hm Hlen. destruct (Z.eqb_spec (of_le l) (of_le m)) as [E|E]; symmetry.
  - apply bool_decide_eq_true. by rewrite <- (le_bytes_of_le l), <- (le_bytes_of_le m), E, Hlen.
  - apply bool_decide_eq_false. by intros ->.
Qed.

Lemma zip_land_bytes l m : Forall is_byte l -> Forall is_byte (zip_with Z.land l m).
Proof.
  intros Hl. revert m. induction Hl as [|b l Hb Hl IH]; intros [|c m]; simpl; constructor; [|done].
  apply (in_u_land_l 8); [lia|done].
Qed.

Lemma zip_with_rev {A B C} (f : A -> B -> C) l m :
  length l = length m -> zip_with f (rev l) (rev m) = rev (zip_with f l m).
Proof.
  revert m. induction l as [|a l IH]; intros [|b m] Hlen; try done. simpl in Hlen |- *.
  rewrite zip_with_app by (rewrite !length_rev; lia). rewrite IH by lia. done.
Qed.

(** Testing some bits of a word is testing them octet by octet. *)
Lemma word_mask e l m c :
  Forall is_byte l -> Forall is_byte m -> Forall is_byte c -> length l = length m -> length c = length m ->
  ((word_of e l .& word_of e m) =? word_of e c) = bool_decide (zip_with Z.land l m = c).
Proof.
  intros Hl Hm Hc Hlm Hcm.
  assert (length (zip_with Z.land l m) = length c) as Hz by (rewrite length_zip_with; lia).
  destruct e; simpl.
  - rewrite of_le_land by (try apply Forall_rev; rewrite ?length_rev; done).
    rewrite zip_with_rev by done.
    rewrite of_le_eqb by (try apply Forall_rev; rewrite ?length_rev; try apply zip_land_bytes; done).
    apply bool_decide_ext. split; [|by intros ->]. intros E. apply (f_equal (@rev Z)) in E.
    by rewrite !rev_involutive in E.
  - rewrite of_le_land, of_le_eqb by (try apply zip_land_bytes; done). done.
Qed.

Lemma word_eqb e l c :
  Forall is_byte l -> Forall is_byte c -> length l = length c ->
  (word_of e l =? word_of e c) = bool_decide (l = c).
Proof.
  intros Hl Hc Hlen. destruct e; simpl.
  - rewrite of_le_eqb by (try apply Forall_rev; rewrite ?length_rev; done).
    apply bool_decide_ext. split; [|by intros ->]. intros E. apply (f_equal (@rev Z)) in E.
    by rewrite !rev_involutive in E.
  - by apply of_le_eqb.
Qed.

Lemma word_bytes e x : 0 <= x < 2 ^ 32 -> word_of e (bytes_of e x) = x.
Proof.
  intros Hx. destruct e; unfold word_of, bytes_of; rewrite ?rev_involutive, of_le_le_bytes;
    by apply Z.mod_small.
Qed.

Lemma bytes_word e l : Forall is_byte l -> length l = 4%nat -> bytes_of e (word_of e l) = l.
Proof.
  intros Hl Hlen. destruct e; unfold bytes_of, word_of.
  - rewrite <- Hlen, <- length_rev, le_bytes_of_le by (by apply Forall_rev). apply rev_involutive.
  - rewrite <- Hlen. by apply le_bytes_of_le.
Qed.

(** ** The theorems *)

(** An address as sixteen octets. *)
Lemma in6_cases a : in6_ok a ->
  exists a0 a1 a2 a3 a4 a5 a6 a7 a8 a9 a10 a11 a12 a13 a14 a15,
    a = [a0; a1; a2; a3; a4; a5; a6; a7; a8; a9; a10; a11; a12; a13; a14; a15] /\ Forall is_byte a.
Proof.
  intros [Hl Hb]. do 16 (destruct a as [|? a]; [done|]). destruct a; [|done].
  repeat eexists. done.
Qed.

Lemma land_255 b : is_byte b -> b .& 255 = b.
Proof. intros Hb. change 255 with (Z.ones 8). rewrite Z.land_ones by lia. by apply Z.mod_small. Qed.

Lemma mask_test e a m0 m1 c0 c1 :
  in6_ok a -> Forall is_byte [m0; m1; c0; c1] ->
  ((_S6_u32 e a 0 .& word_of e [m0; m1; 0; 0]) =? word_of e [c0; c1; 0; 0])
  = ((_S6_u8 a 0 .& m0) =? c0) && ((_S6_u8 a 1 .& m1) =? c1).
Proof.
  intros Ha Hm. destruct (in6_cases a Ha) as (a0&a1&a2&a3&a4&a5&a6&a7&a8&a9&a10&a11&a12&a13&a14&a15&->&Hb).
  octets. unfold _S6_u32. cbn [take drop Nat.mul Nat.add].
  rewrite word_mask by (done || all_bytes). unfold _S6_u8. simpl. rewrite !Z.land_0_r.
  apply eq_bool_prop_intro. rewrite andb_True, bool_decide_spec, !Is_true_true, !Z.eqb_eq.
  split; [by intros [= ? ?]|intros [E1 E2]; by rewrite E1, E2].
Qed.

Lemma eq_test e a i c :
  in6_ok a -> (i < 4)%nat -> Forall is_byte c -> length c = 4%nat ->
  (_S6_u32 e a i =? word_of e c) = bool_decide (take 4 (drop (4 * i) a) = c).
Proof.
  intros [Hl Hb] Hi Hc Hlc. apply word_eqb; [by apply Forall_take, Forall_drop|done|].
  rewrite length_take, length_drop. lia.
Qed.

(** Conjunctions of equalities of octets. *)
Ltac octet_equations :=
  apply eq_bool_prop_intro;
  rewrite ?andb_True, ?negb_True, ?bool_decide_spec; simpl;
  split; [intros; destruct_and?; simplify_eq; split_and?; try congruence; try done
         |intros; destruct_and?; simplify_eq; split_and?; try congruence; try done].

(** The tests of whole words, with the address taken apart. *)
Ltac by_words E :=
  rewrite !eq_test by (lia || done || all_bytes); rewrite E; octet_equations.

Lemma unspecified_octets e a : in6_ok a ->
  IN6_IS_ADDR_UNSPECIFIED e a = bool_decide (a = replicate 16 0).
Proof.
  intros Ha. pose proof (in6_cases a Ha) as (a0&a1&a2&a3&a4&a5&a6&a7&a8&a9&a10&a11&a12&a13&a14&a15&E&Hb).
  assert (IN6_IS_ADDR_UNSPECIFIED e a = (_S6_u32 e a 3 =? word_of e [0; 0; 0; 0]) && (_S6_u32 e a 2 =? word_of e [0; 0; 0; 0])
    && (_S6_u32 e a 1 =? word_of e [0; 0; 0; 0]) && (_S6_u32 e a 0 =? word_of e [0; 0; 0; 0])) as -> by (by destruct e).
  by_words E.
Qed.

Lemma loopback_octets e a : in6_ok a ->
  IN6_IS_ADDR_LOOPBACK e a = bool_decide (a = replicate 15 0 ++ [1]).
Proof.
  intros Ha. pose proof (in6_cases a Ha) as (a0&a1&a2&a3&a4&a5&a6&a7&a8&a9&a10&a11&a12&a13&a14&a15&E&Hb).
  assert (IN6_IS_ADDR_LOOPBACK e a = (_S6_u32 e a 3 =? word_of e [0; 0; 0; 1]) && (_S6_u32 e a 2 =? word_of e [0; 0; 0; 0])
    && (_S6_u32 e a 1 =? word_of e [0; 0; 0; 0]) && (_S6_u32 e a 0 =? word_of e [0; 0; 0; 0])) as -> by (by destruct e).
  by_words E.
Qed.

Lemma v4mapped_octets e a : in6_ok a ->
  IN6_IS_ADDR_V4MAPPED e a = bool_decide (take 12 a = replicate 10 0 ++ [255; 255]).
Proof.
  intros Ha. pose proof (in6_cases a Ha) as (a0&a1&a2&a3&a4&a5&a6&a7&a8&a9&a10&a11&a12&a13&a14&a15&E&Hb).
  assert (IN6_IS_ADDR_V4MAPPED e a = (_S6_u32 e a 2 =? word_of e [0; 0; 255; 255])
    && (_S6_u32 e a 1 =? word_of e [0; 0; 0; 0]) && (_S6_u32 e a 0 =? word_of e [0; 0; 0; 0])) as -> by (by destruct e).
  by_words E.
Qed.

Lemma v4mapped_any_octets e a : in6_ok a ->
  IN6_IS_ADDR_V4MAPPED_ANY e a = bool_decide (a = replicate 10 0 ++ [255; 255; 0; 0; 0; 0]).
Proof.
  intros Ha. pose proof (in6_cases a Ha) as (a0&a1&a2&a3&a4&a5&a6&a7&a8&a9&a10&a11&a12&a13&a14&a15&E&Hb).
  assert (IN6_IS_ADDR_V4MAPPED_ANY e a = (_S6_u32 e a 3 =? word_of e [0; 0; 0; 0]) && (_S6_u32 e a 2 =? word_of e [0; 0; 255; 255])
    && (_S6_u32 e a 1 =? word_of e [0; 0; 0; 0]) && (_S6_u32 e a 0 =? word_of e [0; 0; 0; 0])) as -> by (by destruct e).
  by_words E.
Qed.

Lemma v4compat_octets e a : in6_ok a ->
  IN6_IS_ADDR_V4COMPAT e a
  = bool_decide (take 12 a = replicate 12 0 /\ drop 12 a <> [0; 0; 0; 0] /\ drop 12 a <> [0; 0; 0; 1]).
Proof.
  intros Ha. pose proof (in6_cases a Ha) as (a0&a1&a2&a3&a4&a5&a6&a7&a8&a9&a10&a11&a12&a13&a14&a15&E&Hb).
  assert (IN6_IS_ADDR_V4COMPAT e a = (_S6_u32 e a 2 =? word_of e [0; 0; 0; 0])
    && (_S6_u32 e a 1 =? word_of e [0; 0; 0; 0]) && (_S6_u32 e a 0 =? word_of e [0; 0; 0; 0])
    && negb (_S6_u32 e a 3 =? word_of e [0; 0; 0; 0]) && negb (_S6_u32 e a 3 =? word_of e [0; 0; 0; 1])) as -> by (by destruct e).
  by_words E.
Qed.

(** C38: on a machine of either byte order, each IPv6 classification macro is
    the test on the octets of the address that the address format defines:
    the unspecified, loopback, IPv4-mapped and IPv4-compatible addresses, the
    multicast, link-local, site-local and 6to4 prefixes, and the scopes of
    multicast addresses. *)
Theorem in6_tests_on_octets e a :
  in6_ok a ->
  let o := _S6_u8 a in
  IN6_IS_ADDR_UNSPECIFIED e a = bool_decide (a = replicate 16 0)
  /\ IN6_IS_ADDR_LOOPBACK e a = bool_decide (a = replicate 15 0 ++ [1])
  /\ IN6_IS_ADDR_V4MAPPED e a = bool_decide (take 12 a = replicate 10 0 ++ [255; 255])
  /\ IN6_IS_ADDR_V4MAPPED_ANY e a = bool_decide (a = replicate 10 0 ++ [255; 255; 0; 0; 0; 0])
  /\ IN6_IS_ADDR_V4COMPAT e a
     = bool_decide (take 12 a = replicate 12 0 /\ drop 12 a <> [0; 0; 0; 0] /\ drop 12 a <> [0; 0; 0; 1])
  /\ IN6_IS_ADDR_MULTICAST e a = (o 0%nat =? 0xff)
  /\ IN6_IS_ADDR_LINKLOCAL e a = (o 0%nat =? 0xfe) && ((o 1%nat .& 0xc0) =? 0x80)
  /\ IN6_IS_ADDR_SITELOCAL e a = (o 0%nat =? 0xfe) && ((o 1%nat .& 0xc0) =? 0xc0)
  /\ IN6_IS_ADDR_6TO4 e a = (o 0%nat =? 0x20) && (o 1%nat =? 0x02)
  /\ Forall (fun '(test, scope) => test e a = (o 0%nat =? 0xff) && ((o 1%nat .& 0x0f) =? scope))
       [(IN6_IS_ADDR_MC_RESERVED, 0); (IN6_IS_ADDR_MC_NODELOCAL, 1); (IN6_IS_ADDR_MC_LINKLOCAL, 2);
        (IN6_IS_ADDR_MC_SITELOCAL, 5); (IN6_IS_ADDR_MC_ORGLOCAL, 8); (IN6_IS_ADDR_MC_GLOBAL, 0xe)].
Proof.
  intros Ha o.
  assert (is_byte (o 0%nat) /\ is_byte (o 1%nat)) as [H0 H1].
  { destruct (in6_cases a Ha) as (a0&a1&a2&a3&a4&a5&a6&a7&a8&a9&a10&a11&a12&a13&a14&a15&E&Hb).
    unfold o. rewrite E in *. octets. done. }
  split; [by apply unspecified_octets|]. split; [by apply loopback_octets|].
  split; [by apply v4mapped_octets|]. split; [by apply v4mapped_any_octets|]. split; [by apply v4compat_octets|].
  assert (forall test m1 c0 c1, is_byte m1 -> is_byte c0 -> is_byte c1 ->
    test = ((_S6_u32 e a 0 .& word_of e [255; m1; 0; 0]) =? word_of e [c0; c1; 0; 0]) ->
    test = (o 0%nat =? c0) && ((o 1%nat .& m1) =? c1)) as Hmask.
  { intros test m1 c0 c1 ? ? ? ->. rewrite mask_test by (done || all_bytes). by rewrite land_255. }
  split; [rewrite (Hmask _ 0 0xff 0) by (all_bytes || by destruct e); by rewrite Z.land_0_r, andb_true_r|].
  split; [by apply Hmask; try all_bytes; destruct e|].
  split; [by apply Hmask; try all_bytes; destruct e|].
  split; [rewrite (Hmask _ 0xff 0x20 0x02) by (all_bytes || by destruct e); by rewrite land_255|].
  repeat constructor; apply Hmask; try all_bytes; by destruct e.
Qed.

Lemma in6_tests_on_octets_witness :
  let a := [0xfe; 0x80; 0; 0; 0; 0; 0; 0; 0; 0; 0; 0; 0; 0; 0; 1] in
  IN6_IS_ADDR_LINKLOCAL LittleEndian a = (_S6_u8 a 0%nat =? 0xfe) && ((_S6_u8 a 1%nat .& 0xc0) =? 0x80).
Proof.
  apply (in6_tests_on_octets LittleEndian [0xfe; 0x80; 0; 0; 0; 0; 0; 0; 0; 0; 0; 0; 0; 0; 0; 1]).
  split; [reflexivity|]. repeat (constructor; [unfold is_byte; lia|]). constructor.
Defined.

Lemma mapped_octets e v4 v6 :
  Forall is_byte (in_addr_bytes v4) -> length v6 = 16%nat ->
  IN6_INADDR_TO_V4MAPPED e v4 v6 = replicate 10 0 ++ [255; 255] ++ in_addr_bytes v4.
Proof.
  intros Hb Hl. do 16 (destruct v6 as [|? v6]; [done|]). destruct v6; [|done].
  unfold IN6_INADDR_TO_V4MAPPED, s_addr, set_S6_u32. rewrite bytes_word by done. by destruct e.
Qed.

Lemma mapped_ip_octets e v4 v6 :
  length v6 = 16%nat -> IN6_IPADDR_TO_V4MAPPED e v4 v6 = replicate 10 0 ++ [255; 255] ++ bytes_of e v4.
Proof.
  intros Hl. do 16 (destruct v6 as [|? v6]; [done|]). destruct v6; [|done].
  unfold IN6_IPADDR_TO_V4MAPPED, set_S6_u32. by destruct e.
Qed.

(** IPv4 addresses survive their IPv6 forms.  On a machine of either byte
    order, whatever was in the output, [IN6_INADDR_TO_V4MAPPED] leaves
    ::ffff:a.b.c.d and [IN6_V4ADDR_TO_6TO4] leaves 2002:ab:cd::1 in memory, and
    the macros of the other direction give the IPv4 address back. *)
Theorem in6_v4_roundtrip e v4 v6 :
  Forall is_byte (in_addr_bytes v4) -> length v6 = 16%nat ->
  let mapped := IN6_INADDR_TO_V4MAPPED e v4 v6 in
  let sixto4 := IN6_V4ADDR_TO_6TO4 e v4 v6 in
  mapped = replicate 10 0 ++ [255; 255] ++ in_addr_bytes v4
  /\ IN6_V4MAPPED_TO_INADDR e mapped = v4
  /\ IN6_IPADDR_TO_V4MAPPED e (IN6_V4MAPPED_TO_IPADDR e mapped) v6 = mapped
  /\ sixto4 = [0x20; 0x02] ++ in_addr_bytes v4 ++ replicate 9 0 ++ [1]
  /\ IN6_6TO4_TO_V4ADDR sixto4 = v4.
Proof.
  intros Hb Hl mapped sixto4. unfold mapped. rewrite mapped_octets by done.
  assert (forall e, bytes_of e (word_of e (in_addr_bytes v4)) = in_addr_bytes v4) as Hw
    by (intros; by apply bytes_word).
  do 16 (destruct v6 as [|? v6]; [done|]). destruct v6; [|done]. destruct v4 as [b1 b2 b3 b4].
  split; [done|]. split; [|split; [|split]].
  - unfold IN6_V4MAPPED_TO_INADDR, set_s_addr, _S6_u32. cbn [replicate app take drop Nat.mul Nat.add].
    rewrite Hw. done.
  - unfold IN6_IPADDR_TO_V4MAPPED, IN6_V4MAPPED_TO_IPADDR, _S6_u32, set_S6_u32.
    cbn [replicate app take drop Nat.mul Nat.add]. rewrite Hw. by destruct e.
  - unfold sixto4. by destruct e.
  - unfold sixto4. by destruct e.
Qed.

Lemma in6_v4_roundtrip_witness :
  let v4 := InAddr 192 0 2 1 in
  let mapped := IN6_INADDR_TO_V4MAPPED LittleEndian v4 IN6ADDR_ANY_INIT in
  let sixto4 := IN6_V4ADDR_TO_6TO4 LittleEndian v4 IN6ADDR_ANY_INIT in
  mapped = replicate 10 0 ++ [255; 255] ++ in_addr_bytes v4
  /\ IN6_V4MAPPED_TO_INADDR LittleEndian mapped = v4
  /\ IN6_IPADDR_TO_V4MAPPED LittleEndian (IN6_V4MAPPED_TO_IPADDR LittleEndian mapped) IN6ADDR_ANY_INIT = mapped
  /\ sixto4 = [0x20; 0x02] ++ in_addr_bytes v4 ++ replicate 9 0 ++ [1]
  /\ IN6_6TO4_TO_V4ADDR sixto4 = v4.
Proof.
  apply (in6_v4_roundtrip LittleEndian (InAddr 192 0 2 1) IN6ADDR_ANY_INIT).
  - repeat (constructor; [simpl; unfold is_byte; lia|]). constructor.
  - reflexivity.
Defined.

(** Comparing addresses compares their octets. *)
Lemma in6_equal e a b :
  in6_ok a -> in6_ok b ->
  IN6_ARE_ADDR_EQUAL e a b = bool_decide (a = b)
  /\ IN6_ARE_6TO4_PREFIX_EQUAL e a b = bool_decide (take 6 a = take 6 b).
Proof.
  intros Ha Hb.
  assert (forall i, (i < 4)%nat -> (_S6_u32 e a i =? _S6_u32 e b i)
    = bool_decide (take 4 (drop (4 * i) a) = take 4 (drop (4 * i) b))) as Hw.
  { intros i Hi. destruct Ha, Hb. apply word_eqb; [by apply Forall_take, Forall_drop..|].
    rewrite !length_take, !length_drop. lia. }
  unfold IN6_ARE_ADDR_EQUAL, IN6_ARE_6TO4_PREFIX_EQUAL. rewrite !Hw by lia.
  destruct (in6_cases a Ha) as (a0&a1&a2&a3&a4&a5&a6&a7&a8&a9&a10&a11&a12&a13&a14&a15&->&_).
  destruct (in6_cases b Hb) as (b0&b1&b2&b3&b4&b5&b6&b7&b8&b9&b10&b11&b12&b13&b14&b15&->&_).
  unfold _S6_u8. simpl. split; [octet_equations|].
  apply eq_bool_prop_intro. rewrite !andb_True, !bool_decide_spec, !Is_true_true, !Z.eqb_eq.
  split; [intros [[? ?] ?]; simplify_eq; congruence|intros [=]; subst; done].
Qed.

(** The masks of the flow information select the same bits on the wire. *)
Lemma flowinfo_masks e :
  bytes_of e (IPV6_FLOWINFO_FLOWLABEL e) = [0; 0x0f; 0xff; 0xff]
  /\ bytes_of e (IPV6_FLOWINFO_TCLASS e) = [0x0f; 0xf0; 0; 0]
  /\ IPV6_FLOWINFO_FLOWLABEL e .& IPV6_FLOWINFO_TCLASS e = 0.
Proof. by destruct e. Qed.

(** The kernel's initialisers are the user's. *)
Lemma in6addr_inits e :
  (IN6ADDR_LOOPBACK_INIT_kernel e ≫= bytes_of e) = IN6ADDR_LOOPBACK_INIT
  /\ (IN6ADDR_ANY_INIT_kernel ≫= bytes_of e) = IN6ADDR_ANY_INIT
  /\ IN6_IS_ADDR_LOOPBACK e IN6ADDR_LOOPBACK_INIT = true.
Proof. by destruct e. Qed.

(** ** Classes of IPv4 addresses *)
Lemma high_mask i k d :
  in_u 32 i -> 0 <= k <= 32 -> 0 <= d ->
  ((i .& (Z.ones (32 - k) <<< k)) =? (d <<< k)) = ((i >>> k) =? d).
Proof.
  intros Hi Hk Hd.
  assert (i .& (Z.ones (32 - k) <<< k) = (i >>> k) <<< k) as ->.
  { apply Z.bits_inj'. intros n Hn. autorewrite with zbits. rewrite (proj2 (Z.leb_le 0 n)) by lia. cbn [andb].
    destruct (Z.ltb_spec n k).
    - rewrite (proj2 (Z.leb_gt 0 (n - k))) by lia. cbn [andb]. apply andb_false_r.
    - rewrite (proj2 (Z.leb_le 0 (n - k))) by lia. cbn [andb]. replace (n - k + k) with n by lia.
      destruct (Z.ltb_spec (n - k) (32 - k)); [apply andb_true_r|].
      rewrite (in_u_testbit 32 i) by (done || lia). done. }
  destruct (Z.eqb_spec (i >>> k) d) as [->|Hne]; [apply Z.eqb_refl|].
  apply Z.eqb_neq. rewrite !Z.shiftl_mul_pow2 by lia. pose proof (pow2_pos k ltac:(lia)). nia.
Qed.

(** The IPv4 class tests are the ranges of first octets: every 32-bit
    address is in exactly one of the classes A, B, C, D and the bad class, and
    [IN_EXPERIMENTAL] is the union of the last two. *)
Theorem in_classes i :
  0 <= i < 2 ^ 32 ->
  let o := i / 2 ^ 24 in
  IN_CLASSA i = (o <? 128)
  /\ IN_CLASSB i = (128 <=? o) && (o <? 192)
  /\ IN_CLASSC i = (192 <=? o) && (o <? 224)
  /\ IN_CLASSD i = (224 <=? o) && (o <? 240)
  /\ IN_BADCLASS i = (240 <=? o)
  /\ IN_EXPERIMENTAL i = IN_MULTICAST i || IN_BADCLASS i.
Proof.
  intros Hi o. assert (in_u 32 i) as Hu by done.
  assert (0 <= o < 256) as Ho.
  { unfold o. split; [apply Z.div_pos; lia|]. apply Z.div_lt_upper_bound; lia. }
  assert (forall k d, 24 <= k <= 32 -> ((i >>> k) =? d) = (d * 2 ^ (k - 24) <=? o) && (o <? (d + 1) * 2 ^ (k - 24))) as Hr.
  { intros k d Hk. rewrite Z.shiftr_div_pow2 by lia. replace (2 ^ k) with (2 ^ 24 * 2 ^ (k - 24))
      by (rewrite <- Z.pow_add_r by lia; f_equal; lia).
    rewrite <- Z.div_div by (try apply Z.pow_nonzero; try apply pow2_pos; lia). fold o.
    pose proof (pow2_pos (k - 24) ltac:(lia)) as Hp. generalize dependent (2 ^ (k - 24)). intros q Hq.
    pose proof (Z.div_mod o q ltac:(lia)). pose proof (Z.mod_pos_bound o q Hq).
    destruct (Z.eqb_spec (o / q) d), (Z.leb_spec (d * q) o), (Z.ltb_spec o ((d + 1) * q)); simpl; try done; nia. }
  assert (IN_CLASSA i = ((i >>> 31) =? 0)) as -> by (apply (high_mask i 31 0); done || lia).
  assert (IN_CLASSB i = ((i >>> 30) =? 2)) as -> by (apply (high_mask i 30 2); done || lia).
  assert (IN_CLASSC i = ((i >>> 29) =? 6)) as -> by (apply (high_mask i 29 6); done || lia).
  unfold IN_MULTICAST.
  assert (IN_CLASSD i = ((i >>> 28) =? 14)) as -> by (apply (high_mask i 28 14); done || lia).
  assert (IN_BADCLASS i = ((i >>> 28) =? 15)) as -> by (apply (high_mask i 28 15); done || lia).
  assert (IN_EXPERIMENTAL i = ((i >>> 29) =? 7)) as -> by (apply (high_mask i 29 7); done || lia).
  rewrite !Hr by lia. simpl Z.sub. change (2 ^ 7) with 128. change (2 ^ 6) with 64. change (2 ^ 5) with 32.
  change (2 ^ 4) with 16. clear - Ho.
  repeat split; repeat match goal with |- context [?x <=? ?y] => destruct (Z.leb_spec x y)
    | |- context [?x <? ?y] => destruct (Z.ltb_spec x y) end; simpl; done || lia.
Qed.

Lemma in_classes_witness :
  IN_CLASSA 0x7f000001 = (0x7f000001 / 2 ^ 24 <? 128).
Proof. apply (in_classes 0x7f000001). lia. Defined.
