(* ===== verification/SysMacros.v ===== *)
(** * Units, device numbers and power-of-two arithmetic: sys/sysmacros.h

    The macros of [src/include/sys/sysmacros.h] with the constants they take
    from [src/include/sys/param.h].  The data model decides the width of
    [dev_t] (an [unsigned long]) and the layout of expanded device numbers; the
    [P2*] macros are the [_TYPED] ones, at the width of their type argument. *)
From S2P Require Import Prelude.

(** ** Disk blocks and bytes *)
Definition DEV_BSIZE := 512.
Definition DEV_BSHIFT := 9.

Definition dtob (DD : Z) : Z := DD <<< DEV_BSHIFT.
Definition btod (BB : Z) : Z := (BB + DEV_BSIZE - 1) >>> DEV_BSHIFT.
Definition btodt (BB : Z) : Z := BB >>> DEV_BSHIFT.
(** [offset_t] is 64 bits wide. *)
Definition lbtod (BB : Z) : Z := s64 (s64 BB + DEV_BSIZE - 1) >>> DEV_BSHIFT.

Definition MIN (a b : Z) : Z := if a <? b then a else b.
Definition MAX (a b : Z) : Z := if a <? b then b else a.
Definition ABS (a : Z) : Z := if a <? 0 then - a else a.

(** ** Device numbers *)
Definition O_BITSMAJOR := 7.
Definition O_BITSMINOR := 8.
Definition O_MAXMAJ := 0x7f.
Definition O_MAXMIN := 0xff.
Definition L_BITSMAJOR32 := 14.
Definition L_BITSMINOR32 := 18.
Definition L_MAXMAJ32 := 0x3fff.
Definition L_MAXMIN32 := 0x3ffff.

Definition L_BITSMAJOR (m : data_model) : Z := match m with LP64 => 32 | ILP32 => L_BITSMAJOR32 end.
Definition L_BITSMINOR (m : data_model) : Z := match m with LP64 => 32 | ILP32 => L_BITSMINOR32 end.
Definition L_MAXMAJ (m : data_model) : Z := match m with LP64 => 0xffffffff | ILP32 => L_MAXMAJ32 end.
Definition L_MAXMIN (m : data_model) : Z := match m with LP64 => 0xffffffff | ILP32 => L_MAXMIN32 end.

(** The width of [unsigned long], hence of [dev_t]. *)
Definition long_width (m : data_model) : Z := match m with LP64 => 64 | ILP32 => 32 end.
Definition dev (m : data_model) (x : Z) : Z := wrapu (long_width m) x.
Definition NODEV (m : data_model) : Z := dev m (-1).
Definition NODEV32 : Z := u32 (-1).

(** [major_t] and [minor_t] are [uint_t]. *)
Definition major (x : Z) : Z := u32 ((u32 x >>> O_BITSMINOR) .& O_MAXMAJ).
Definition bmajor (x : Z) : Z := u32 ((u32 x >>> O_BITSMINOR) .& O_MAXMAJ).
Definition getmajor (m : data_model) (x : Z) : Z := u32 ((dev m x >>> L_BITSMINOR m) .& L_MAXMAJ m).
Definition minor (x : Z) : Z := u32 (x .& O_MAXMIN).
Definition getminor (m : data_model) (x : Z) : Z := u32 (x .& L_MAXMIN m).

Definition makedev (x y : Z) : Z := u16 ((x <<< O_BITSMINOR) .| (y .& O_MAXMIN)).
Definition makedevice (m : data_model) (x y : Z) : Z :=
  dev m (dev m (dev m x <<< L_BITSMINOR m) .| (y .& L_MAXMIN m)).

(** The cast of [emajor] is on the condition: its value has type [dev_t]. *)
Definition emajor (m : data_model) (x : Z) : Z :=
  if (u32 x >>> O_BITSMINOR) >? O_MAXMAJ then NODEV m else (u32 x >>> O_BITSMINOR) .& O_MAXMAJ.
Definition eminor (x : Z) : Z := u32 (x .& O_MAXMIN).
Definition getemajor (m : data_model) (x : Z) : Z :=
  u32 (if (dev m x >>> L_BITSMINOR m) >? L_MAXMAJ m then NODEV m else (dev m x >>> L_BITSMINOR m) .& L_MAXMAJ m).
Definition geteminor (m : data_model) (x : Z) : Z := u32 (x .& L_MAXMIN m).

(** [x] is a [dev_t], resp. a [dev32_t]. *)
Definition DEVCMPL (m : data_model) (x : Z) : Z :=
  if (L_BITSMAJOR32 =? L_BITSMAJOR m) && (L_BITSMINOR32 =? L_BITSMINOR m) then x
  else u32 (if ((x >>> L_BITSMINOR m) >? L_MAXMAJ32) || ((x .& L_MAXMIN m) >? L_MAXMIN32) then NODEV32
            else ((x >>> L_BITSMINOR m) <<< L_BITSMINOR32) .| (x .& L_MAXMIN32)).
Definition DEVEXPL (m : data_model) (x : Z) : Z :=
  if (L_BITSMAJOR32 =? L_BITSMAJOR m) && (L_BITSMINOR32 =? L_BITSMINOR m) then x
  else if x =? NODEV32 then NODEV m
       else makedevice m ((x >>> L_BITSMINOR32) .& L_MAXMAJ32) (x .& L_MAXMIN32).

(** [o_dev_t] is a [short]. *)
Definition cmpdev (m : data_model) (x : Z) : Z :=
  s16 (if ((x >>> L_BITSMINOR m) >? O_MAXMAJ) || ((x .& L_MAXMIN m) >? O_MAXMIN) then NODEV m
       else ((x >>> L_BITSMINOR m) <<< O_BITSMINOR) .| (x .& O_MAXMIN)).
Definition expdev (m : data_model) (x : Z) : Z :=
  dev m (dev m (dev m ((x >>> O_BITSMINOR) .& O_MAXMAJ) <<< L_BITSMINOR m) .| (x .& O_MAXMIN)).

(** ** Counting, rounding and alignment *)

(** On unsigned operands. *)
Definition IS_P2ALIGNED (w v a : Z) : bool := (wrapu w v .& wrapu w (wrapu w a - 1)) =? 0.
Definition howmany (x y : Z) : Z := (x + (y - 1)) / y.
Definition roundup (x y : Z) : Z := ((x + (y - 1)) / y) * y.
Definition ISP2 (w x : Z) : bool := (x .& wrapu w (x - 1)) =? 0.

Section P2.
(** The width of [type], an unsigned type. *)
Context (w : Z).
Abbreviation ty := (wrapu w).
Definition P2ALIGN (x align : Z) : Z := ty x .& ty (- ty align).
Definition P2PHASE (x align : Z) : Z := ty x .& ty (ty align - 1).
Definition P2NPHASE (x align : Z) : Z := ty (- ty x) .& ty (ty align - 1).
Definition P2ROUNDUP (x align : Z) : Z := ty (- (ty (- ty x) .& ty (- ty align))).
Definition P2END (x align : Z) : Z := ty (- (ty (.~ ty x) .& ty (- ty align))).
Definition P2PHASEUP (x align phase : Z) : Z :=
  ty (ty phase - (ty (ty phase - ty x) .& ty (- ty align))).
Definition P2CROSS (x y align : Z) : bool := (ty x .^ ty y) >? ty (ty align - 1).
Definition P2SAMEHIGHBIT (x y : Z) : bool := (ty x .^ ty y) <? (ty x .& ty y).
End P2.

(** [mutex_enter(mutex), ( *(var))++, mutex_exit(mutex)]: the sequence of calls
    and the new value, at the width of the variable. *)
Inductive counter_call := mutex_enter (mutex : Z) | mutex_exit (mutex : Z).
Definition INCR_COUNT (w var mutex : Z) : Z * list counter_call :=
  (wrapu w (var + 1), [mutex_enter mutex; mutex_exit mutex]).
Definition DECR_COUNT (w var mutex : Z) : Z * list counter_call :=
  (wrapu w (var - 1), [mutex_enter mutex; mutex_exit mutex]).

(** ** Masks *)
Lemma wrapu_neg_pow2 w k : 0 <= k < w -> wrapu w (- 2 ^ k) = 2 ^ w - 2 ^ k.
Proof.
  intros Hk. pose proof (Z.pow_lt_mono_r 2 k w ltac:(lia) ltac:(lia) ltac:(lia)).
  pose proof (pow2_pos k ltac:(lia)).
  unfold wrapu. rewrite <- (Z_mod_plus_full _ 1), Z.mod_small by lia. lia.
Qed.

(** The bits from [k] up: rounding down to a multiple of [2 ^ k]. *)
Lemma land_high w k x : 0 <= k < w -> in_u w x -> x .& wrapu w (- 2 ^ k) = x - x mod 2 ^ k.
Proof.
  intros Hk Hx. rewrite wrapu_neg_pow2 by done.
  assert (2 ^ w - 2 ^ k = Z.ones (w - k) <<< k) as ->.
  { rewrite Z.shiftl_mul_pow2, Z.ones_equiv by lia. unfold Z.pred.
    rewrite Z.mul_add_distr_r, <- Z.pow_add_r by lia. replace (w - k + k) with w by lia. lia. }
  assert (x - x mod 2 ^ k = (x >>> k) <<< k) as ->.
  { rewrite Z.shiftl_mul_pow2, Z.shiftr_div_pow2 by lia. pose proof (pow2_pos k ltac:(lia)).
    pose proof (Z.div_mod x (2 ^ k) ltac:(lia)). lia. }
  apply Z.bits_inj'. intros n Hn. autorewrite with zbits. rewrite (proj2 (Z.leb_le 0 n)) by lia. cbn [andb].
  destruct (Z.ltb_spec n k).
  - rewrite (proj2 (Z.leb_gt 0 (n - k))) by lia. cbn [andb]. apply andb_false_r.
  - rewrite (proj2 (Z.leb_le 0 (n - k))) by lia. cbn [andb]. replace (n - k + k) with n by lia.
    destruct (Z.ltb_spec (n - k) (w - k)); [apply andb_true_r|].
    rewrite (in_u_testbit w x) by (done || lia). done.
Qed.

Lemma land_low w k x : 0 <= k < w -> x .& wrapu w (2 ^ k - 1) = x mod 2 ^ k.
Proof.
  intros Hk. pose proof (Z.pow_lt_mono_r 2 k w ltac:(lia) ltac:(lia) ltac:(lia)).
  pose proof (pow2_pos k ltac:(lia)). rewrite wrapu_id by (unfold in_u; lia).
  replace (2 ^ k - 1) with (Z.ones k) by (rewrite Z.ones_equiv; lia). apply Z.land_ones. lia.
Qed.

(** Reducing twice. *)
Lemma wrapu_shape w x : 0 <= w -> exists q, wrapu w x = x + q * 2 ^ w.
Proof.
  intros Hw. exists (- (x / 2 ^ w)). unfold wrapu. pose proof (pow2_pos w Hw).
  pose proof (Z.div_mod x (2 ^ w) ltac:(lia)). lia.
Qed.

Lemma wrapu_congr w x y q : 0 <= w -> x = y + q * 2 ^ w -> wrapu w x = wrapu w y.
Proof. intros Hw ->. by apply wrapu_add_mul. Qed.

Lemma wrapu_mod_pow2 w k x : 0 <= k <= w -> wrapu w x mod 2 ^ k = x mod 2 ^ k.
Proof.
  intros Hk. destruct (wrapu_shape w x ltac:(lia)) as [q ->].
  replace (2 ^ w) with (2 ^ (w - k) * 2 ^ k) by (rewrite <- Z.pow_add_r by lia; f_equal; lia).
  rewrite Z.mul_assoc. apply Z_mod_plus_full.
Qed.

(** ** The theorems on power-of-two arithmetic *)

(** For a power of two and an unsigned type of [w] bits, the [P2*] macros
    compute what their names say: rounding down, the phase and its
    complement, rounding up and the next boundary (modulo [2 ^ w], as the type
    wraps), the next value of a given phase, and whether two values lie in
    different blocks. *)
Theorem p2_macros w k x y phase :
  0 <= k < w -> in_u w x -> in_u w y -> in_u w phase ->
  let a := 2 ^ k in
  P2ALIGN w x a = x - x mod a
  /\ P2PHASE w x a = x mod a
  /\ P2NPHASE w x a = (- x) mod a
  /\ P2ROUNDUP w x a = wrapu w (x + (- x) mod a)
  /\ P2END w x a = wrapu w (x - x mod a + a)
  /\ P2PHASEUP w x a phase = wrapu w (x + (phase - x) mod a)
  /\ P2CROSS w x y a = negb (x / a =? y / a).
Proof.
  intros Hk Hx Hy Hph a. pose proof (pow2_pos k ltac:(lia)) as Ha.
  pose proof (Z.pow_lt_mono_r 2 k w ltac:(lia) ltac:(lia) ltac:(lia)) as Hlt.
  assert (wrapu w a = a) as Ea by (apply wrapu_id; unfold in_u, a; lia).
  unfold P2ALIGN, P2PHASE, P2NPHASE, P2ROUNDUP, P2END, P2PHASEUP, P2CROSS. rewrite Ea.
  rewrite (wrapu_id w x), (wrapu_id w y), (wrapu_id w phase) by done.
  assert (forall z, wrapu w (wrapu w z) = wrapu w z) as Hid by (intros; apply wrapu_id, wrapu_range; lia).
  assert (forall z, wrapu w z .& wrapu w (- a) = wrapu w z - z mod a) as Hhigh.
  { intros z. unfold a. rewrite land_high by (try apply wrapu_range; lia). by rewrite wrapu_mod_pow2 by lia. }
  split; [unfold a; by apply land_high|]. split; [unfold a; by apply land_low|].
  split; [unfold a; rewrite land_low by done; by apply wrapu_mod_pow2; lia|].
  split.
  { rewrite Hhigh. destruct (wrapu_shape w (- x) ltac:(lia)) as [q ->]. apply (wrapu_congr w _ _ (- q)); lia. }
  split.
  { rewrite Hhigh. unfold Z.lnot, Z.pred. destruct (wrapu_shape w (- x + -1) ltac:(lia)) as [q ->].
    apply (wrapu_congr w _ _ (- q)); [lia|].
    assert ((- x + -1) mod a = a - 1 - x mod a) as ->; [|lia].
    pose proof (Z.mod_pos_bound x a ltac:(lia)). symmetry. apply (Z.mod_unique _ _ (- (x / a) - 1)); [lia|].
    pose proof (Z.div_mod x a ltac:(lia)). lia. }
  split.
  { rewrite Hhigh. destruct (wrapu_shape w (phase - x) ltac:(lia)) as [q ->]. apply (wrapu_congr w _ _ (- q)); lia. }
  rewrite (wrapu_id w (a - 1)) by (unfold in_u, a; lia).
  assert (0 <= x .^ y) by (apply Z.lxor_nonneg; unfold in_u in *; lia).
  assert (((x .^ y) >? a - 1) = negb ((x .^ y) / a =? 0)) as ->.
  { rewrite Z.gtb_ltb. destruct (Z.ltb_spec (a - 1) (x .^ y)), (Z.eqb_spec ((x .^ y) / a) 0) as [E|E]; try done; exfalso.
    - apply Z.div_small_iff in E; lia.
    - apply E, Z.div_small. lia. }
  unfold a. rewrite <- !Z.shiftr_div_pow2, Z.shiftr_lxor by lia. f_equal.
  destruct (Z.eqb_spec (x >>> k) (y >>> k)) as [->|Hne]; [by rewrite Z.lxor_nilpotent|].
  apply Z.eqb_neq. intros E%Z.lxor_eq. done.
Qed.

Lemma p2_macros_witness : P2ROUNDUP 32 5000 (2 ^ 12) = wrapu 32 (5000 + (- 5000) mod 2 ^ 12).
Proof. apply (p2_macros 32 12 5000 0 0); unfold in_u; lia. Defined.

(** [ISP2] accepts zero and the powers of two, [P2SAMEHIGHBIT] compares the
    positions of the highest bits. *)
Lemma ISP2_spec w x : 0 < w -> in_u w x -> ISP2 w x = true <-> x = 0 \/ exists k, 0 <= k /\ x = 2 ^ k.
Proof.
  intros Hw Hx. unfold ISP2. rewrite Z.eqb_eq. unfold in_u in Hx. split.
  - intros H0. destruct (decide (x = 0)) as [->|Hne]; [by left|right]. exists (Z.log2 x).
    split; [apply Z.log2_nonneg|]. pose proof (Z.log2_spec x ltac:(lia)) as [Hlo Hhi].
    destruct (decide (x = 2 ^ Z.log2 x)) as [|Hne2]; [done|exfalso].
    rewrite wrapu_id in H0 by (unfold in_u; lia).
    apply (f_equal (fun z => Z.testbit z (Z.log2 x))) in H0.
    rewrite Z.land_spec, Z.testbit_0_l, Z.bit_log2 in H0 by lia.
    assert (Z.log2 (x - 1) = Z.log2 x) as El by (apply Z.log2_unique; [apply Z.log2_nonneg|lia]).
    rewrite <- El, Z.bit_log2 in H0; [done|]. pose proof (pow2_pos (Z.log2 x) ltac:(apply Z.log2_nonneg)). lia.
  - intros [->|(k & Hk & ->)]; [apply Z.land_0_l|].
    assert (k < w) as Hkw by (apply (Z.pow_lt_mono_r_iff 2); lia).
    rewrite (land_low w k) by lia. apply Z_mod_same_full.
Qed.

Lemma P2SAMEHIGHBIT_spec w x y :
  in_u w x -> in_u w y -> P2SAMEHIGHBIT w x y = true <-> 0 < x /\ 0 < y /\ Z.log2 x = Z.log2 y.
Proof.
  intros Hx Hy. unfold P2SAMEHIGHBIT. rewrite !wrapu_id, Z.ltb_lt by done. unfold in_u in *.
  assert (forall u v, 0 <= u -> 0 <= v -> u .& v <= v) as Hland.
  { intros u v Hu Hv. apply Z.ldiff_le; [lia|]. apply Z.bits_inj'. intros i Hi.
    rewrite Z.ldiff_spec, Z.land_spec, Z.testbit_0_l. by destruct (Z.testbit u i), (Z.testbit v i). }
  assert (forall u v, 0 <= v -> 0 < u -> Z.log2 v < Z.log2 u \/ v = 0 -> u .& v <= u .^ v) as Hdiff.
  { intros u v Hv Hu Hl. destruct Hl as [Hl| ->]; [|rewrite Z.land_0_r, Z.lxor_0_r; lia].
    assert (0 < v \/ v = 0) as [Hv'| ->] by lia; [|rewrite Z.land_0_r, Z.lxor_0_r; lia].
    pose proof (Hland u v ltac:(lia) Hv). pose proof (Z.log2_spec v Hv').
    assert (Z.testbit (u .^ v) (Z.log2 u) = true) as Hb
      by (rewrite Z.lxor_spec, Z.bit_log2, Z.bits_above_log2 by lia; done).
    assert (0 <= u .^ v) by (apply Z.lxor_nonneg; lia).
    assert (2 ^ Z.log2 u <= u .^ v).
    { apply Z.nlt_ge. intros Hlt. rewrite Z.bits_above_log2 in Hb; [done|lia|].
      destruct (decide (u .^ v = 0)) as [E|E]; [rewrite E in Hb; by rewrite Z.testbit_0_l in Hb|].
      apply Z.log2_lt_pow2; lia. }
    assert (2 ^ Z.succ (Z.log2 v) <= 2 ^ Z.log2 u) by (apply Z.pow_le_mono_r; lia). lia. }
  split.
  - intros Hlt. assert (0 < x /\ 0 < y) as [Hx0 Hy0].
    { assert (0 <= x .^ y) by (apply Z.lxor_nonneg; lia).
      split; apply Z.nle_gt; intros ?; [assert (x = 0) as -> by lia|assert (y = 0) as -> by lia];
        rewrite ?Z.land_0_l, ?Z.land_0_r in Hlt; lia. }
    split_and!; [done..|]. destruct (Z.lt_trichotomy (Z.log2 x) (Z.log2 y)) as [Hl|[|Hl]]; [|done|]; exfalso.
    + pose proof (Hdiff y x ltac:(lia) Hy0 (or_introl Hl)) as Hd. rewrite Z.land_comm, Z.lxor_comm in Hd. lia.
    + pose proof (Hdiff x y ltac:(lia) Hx0 (or_introl Hl)). lia.
  - intros (Hx0 & Hy0 & Hl). set (n := Z.log2 x). pose proof (Z.log2_nonneg x) as Hn. fold n in Hn.
    assert (Z.testbit (x .& y) n = true) as Hb
      by (unfold n; rewrite Z.land_spec, Z.bit_log2, Hl, Z.bit_log2 by lia; done).
    assert (0 <= x .& y) by (apply Z.land_nonneg; lia).
    assert (2 ^ n <= x .& y).
    { apply Z.nlt_ge. intros Hlt. rewrite Z.bits_above_log2 in Hb; [done|lia|].
      destruct (decide (x .& y = 0)) as [E|E]; [rewrite E in Hb; by rewrite Z.testbit_0_l in Hb|].
      apply Z.log2_lt_pow2; lia. }
    assert (in_u n (x .^ y)) as [_ ?]; [|lia].
    apply in_u_iff_bits; [lia|apply Z.lxor_nonneg; lia|]. intros i Hi. rewrite Z.lxor_spec.
    destruct (decide (i = n)) as [->|].
    + unfold n at 1. rewrite Z.bit_log2 by lia. unfold n. rewrite Hl, Z.bit_log2 by lia. done.
    + rewrite !Z.bits_above_log2 by (unfold n in *; lia). done.
Qed.

(** ** Device numbers *)
Lemma long_split m : long_width m = L_BITSMINOR m + L_BITSMAJOR m.
Proof. by destruct m. Qed.
Lemma maxmin_ones m : L_MAXMIN m = Z.ones (L_BITSMINOR m).
Proof. by destruct m. Qed.
Lemma maxmaj_ones m : L_MAXMAJ m = Z.ones (L_BITSMAJOR m).
Proof. by destruct m. Qed.
Lemma bits_range m : 0 < L_BITSMINOR m <= 32 /\ 0 < L_BITSMAJOR m <= 32.
Proof. destruct m; simpl; unfold L_BITSMINOR32, L_BITSMAJOR32; lia. Qed.

Lemma makedevice_val m maj min :
  in_u (L_BITSMAJOR m) maj -> in_u (L_BITSMINOR m) min ->
  makedevice m maj min = min + maj * 2 ^ L_BITSMINOR m
  /\ in_u (long_width m) (min + maj * 2 ^ L_BITSMINOR m).
Proof.
  intros Hmaj Hmin. pose proof (bits_range m). pose proof (long_split m) as Hw.
  assert (in_u (long_width m) (min + maj * 2 ^ L_BITSMINOR m)) as Hr.
  { unfold in_u in *. rewrite Hw, Z.pow_add_r by lia. pose proof (pow2_pos (L_BITSMINOR m) ltac:(lia)). nia. }
  split; [|done]. unfold makedevice, dev.
  rewrite (wrapu_id _ maj) by (apply (in_u_mono (L_BITSMAJOR m)); [lia|done]).
  assert (in_u (long_width m) (maj <<< L_BITSMINOR m)) as Hs.
  { rewrite Z.shiftl_mul_pow2 by lia. unfold in_u in *. pose proof (pow2_pos (L_BITSMINOR m) ltac:(lia)). nia. }
  rewrite (wrapu_id _ (maj <<< _)) by done.
  rewrite maxmin_ones, Z.land_ones, (Z.mod_small min) by (done || lia).
  rewrite Z.lor_comm, lor_shift_add by (done || lia). by apply wrapu_id.
Qed.

(** The two parts of a device number. *)
Lemma getmajor_val m d : in_u (long_width m) d -> getmajor m d = d / 2 ^ L_BITSMINOR m.
Proof.
  intros Hd. pose proof (bits_range m). unfold getmajor, dev. rewrite (wrapu_id _ d) by done.
  rewrite maxmaj_ones, Z.land_ones, Z.shiftr_div_pow2 by lia. unfold in_u in Hd.
  rewrite long_split, Z.pow_add_r in Hd by lia. pose proof (pow2_pos (L_BITSMINOR m) ltac:(lia)).
  assert (in_u (L_BITSMAJOR m) (d / 2 ^ L_BITSMINOR m)) as Hr.
  { split; [apply Z.div_pos; lia|]. apply Z.div_lt_upper_bound; lia. }
  rewrite Z.mod_small by done. apply wrapu_id. apply (in_u_mono (L_BITSMAJOR m)); [lia|done].
Qed.

Lemma getminor_val m d : getminor m d = d mod 2 ^ L_BITSMINOR m.
Proof.
  pose proof (bits_range m). unfold getminor. rewrite maxmin_ones, Z.land_ones by lia.
  apply wrapu_id. apply (in_u_mono (L_BITSMINOR m)); [lia|]. apply Z.mod_pos_bound, pow2_pos. lia.
Qed.

Lemma parts_of_device m maj min :
  in_u (L_BITSMAJOR m) maj -> in_u (L_BITSMINOR m) min ->
  let d := min + maj * 2 ^ L_BITSMINOR m in
  d / 2 ^ L_BITSMINOR m = maj /\ d mod 2 ^ L_BITSMINOR m = min.
Proof.
  intros Hmaj Hmin d. unfold in_u in *. pose proof (bits_range m).
  pose proof (pow2_pos (L_BITSMINOR m) ltac:(lia)). unfold d. split.
  - rewrite Z_div_plus_full, Z.div_small by lia. lia.
  - rewrite Z_mod_plus_full. apply Z.mod_small. lia.
Qed.

(** Expanded device numbers are pairs.  In both data models [getmajor],
    [getminor], [getemajor] and [geteminor] of [makedevice] give back any major
    and minor number of their widths, and [makedevice] of the parts of any
    device number is that number. *)
Theorem device_roundtrip m maj min d :
  0 <= maj <= L_MAXMAJ m -> 0 <= min <= L_MAXMIN m -> in_u (long_width m) d ->
  getmajor m (makedevice m maj min) = maj /\ getminor m (makedevice m maj min) = min
  /\ getemajor m (makedevice m maj min) = maj /\ geteminor m (makedevice m maj min) = min
  /\ makedevice m (getmajor m d) (getminor m d) = d.
Proof.
  intros Hmaj Hmin Hd. pose proof (bits_range m). rewrite maxmaj_ones, Z.ones_equiv in Hmaj.
  rewrite maxmin_ones, Z.ones_equiv in Hmin.
  assert (in_u (L_BITSMAJOR m) maj) as Ha by (unfold in_u; lia).
  assert (in_u (L_BITSMINOR m) min) as Hi by (unfold in_u; lia).
  destruct (makedevice_val m maj min Ha Hi) as [-> Hr].
  destruct (parts_of_device m maj min Ha Hi) as [Eq Em].
  assert (getmajor m (min + maj * 2 ^ L_BITSMINOR m) = maj) as Eg by (by rewrite getmajor_val).
  split; [done|]. split; [by rewrite getminor_val|]. split; [|split; [exact (eq_trans (getminor_val m _) Em)|]].
  - rewrite <- Eg at 2. unfold getemajor, getmajor. rewrite Z.gtb_ltb, (proj2 (Z.ltb_ge _ _)); [done|].
    unfold dev. rewrite wrapu_id, Z.shiftr_div_pow2, Eq by (done || lia). rewrite maxmaj_ones, Z.ones_equiv. lia.
  - rewrite getmajor_val, getminor_val by done. pose proof (pow2_pos (L_BITSMINOR m) ltac:(lia)).
    unfold in_u in Hd. rewrite long_split, Z.pow_add_r in Hd by lia.
    destruct (makedevice_val m (d / 2 ^ L_BITSMINOR m) (d mod 2 ^ L_BITSMINOR m)) as [-> _].
    + split; [apply Z.div_pos; lia|]. apply Z.div_lt_upper_bound; lia.
    + by apply Z.mod_pos_bound.
    + pose proof (Z.div_mod d (2 ^ L_BITSMINOR m) ltac:(lia)). lia.
Qed.

Lemma device_roundtrip_witness :
  getmajor ILP32 (makedevice ILP32 32 7) = 32 /\ getminor ILP32 (makedevice ILP32 32 7) = 7
  /\ getemajor ILP32 (makedevice ILP32 32 7) = 32 /\ geteminor ILP32 (makedevice ILP32 32 7) = 7
  /\ makedevice ILP32 (getmajor ILP32 0x12345678) (getminor ILP32 0x12345678) = 0x12345678.
Proof.
  apply (device_roundtrip ILP32 32 7 0x12345678); simpl; unfold L_MAXMAJ32, L_MAXMIN32, in_u; lia.
Defined.

(** Compressing a 64-bit device number to 32 bits and expanding it again
    gives the number back when its parts fit in 14 and 18 bits, with one
    exception: the largest such number compresses to the pattern of [NODEV32]
    and comes back as [NODEV].  Every other number becomes [NODEV].  On 32-bit
    systems both macros are the identity. *)
Theorem dev_compress d :
  in_u 64 d ->
  let maj := getmajor LP64 d in let min := getminor LP64 d in
  DEVEXPL LP64 (DEVCMPL LP64 d)
  = (if (maj <=? L_MAXMAJ32) && (min <=? L_MAXMIN32) && negb ((maj =? L_MAXMAJ32) && (min =? L_MAXMIN32))
     then d else NODEV LP64)
  /\ DEVEXPL ILP32 (DEVCMPL ILP32 d) = d.
Proof.
  intros Hd maj min. split; [|done].
  assert (maj = d / 2 ^ 32) as Emaj by (by apply getmajor_val).
  assert (min = d mod 2 ^ 32) as Emin by apply getminor_val.
  unfold in_u in Hd. change (2 ^ 64) with (2 ^ 32 * 2 ^ 32) in Hd.
  assert (0 <= maj < 2 ^ 32) as Rmaj.
  { rewrite Emaj. split; [apply Z.div_pos; lia|]. apply Z.div_lt_upper_bound; lia. }
  pose proof (Z.mod_pos_bound d (2 ^ 32) ltac:(lia)) as Rmin. rewrite <- Emin in Rmin.
  assert (d = min + maj * 2 ^ 32) as Ed by (pose proof (Z.div_mod d (2 ^ 32)); lia).
  unfold DEVCMPL. change ((L_BITSMAJOR32 =? _) && _) with false. cbn iota.
  change (L_BITSMINOR LP64) with 32. change (L_MAXMIN LP64) with (Z.ones 32).
  rewrite Z.shiftr_div_pow2, <- Emaj, Z.land_ones, <- Emin by lia.
  unfold L_MAXMAJ32, L_MAXMIN32 in *. rewrite !Z.gtb_ltb.
  destruct (Z.ltb_spec 0x3fff maj) as [H1|H1], (Z.leb_spec maj 0x3fff) as [H1'|H1']; try lia; cbn [orb andb]; [done|].
  destruct (Z.ltb_spec 0x3ffff min) as [H2|H2], (Z.leb_spec min 0x3ffff) as [H2'|H2']; try lia; cbn [orb andb]; [done|].
  change 0x3ffff with (Z.ones 18). rewrite Z.land_ones by lia.
  assert (d mod 2 ^ 18 = min) as ->.
  { rewrite Ed. change (2 ^ 32) with (2 ^ 14 * 2 ^ 18). rewrite Z.mul_assoc, Z_mod_plus_full.
    apply Z.mod_small. lia. }
  unfold L_BITSMINOR32. rewrite Z.lor_comm, lor_shift_add by (unfold in_u; lia).
  rewrite wrapu_id by (unfold in_u; lia).
  unfold DEVEXPL. change ((L_BITSMAJOR32 =? _) && _) with false. cbn iota.
  change NODEV32 with (0x3ffff + 0x3fff * 2 ^ 18). change (Z.ones 18) with 0x3ffff.
  assert ((min + maj * 2 ^ 18 =? 0x3ffff + 0x3fff * 2 ^ 18) = (maj =? 0x3fff) && (min =? 0x3ffff)) as ->.
  { destruct (Z.eqb_spec maj 0x3fff), (Z.eqb_spec min 0x3ffff); simpl; [apply Z.eqb_eq|apply Z.eqb_neq..]; lia. }
  destruct (_ && _); [done|]. cbn [negb].
  unfold L_BITSMINOR32, L_MAXMAJ32, L_MAXMIN32. change 0x3fff with (Z.ones 14). change 0x3ffff with (Z.ones 18).
  rewrite Z.shiftr_div_pow2, !Z.land_ones by lia.
  rewrite Z_div_plus_full, Z_mod_plus_full, (Z.div_small min), (Z.mod_small min) by lia.
  rewrite Z.add_0_l, Z.mod_small by lia.
  destruct (makedevice_val LP64 maj min) as [-> _]; [unfold in_u; simpl; lia..|]. done.
Qed.

Lemma dev_compress_witness :
  DEVEXPL LP64 (DEVCMPL LP64 (32 * 2 ^ 32 + 7)) = 32 * 2 ^ 32 + 7
  /\ DEVEXPL LP64 (DEVCMPL LP64 (0x3fff * 2 ^ 32 + 0x3ffff)) = NODEV LP64.
Proof.
  split.
  - apply (dev_compress (32 * 2 ^ 32 + 7)). unfold in_u. lia.
  - apply (dev_compress (0x3fff * 2 ^ 32 + 0x3ffff)). unfold in_u. lia.
Defined.

(** Old device numbers: SVR3 majors and minors survive [makedev], and the
    conversion of an expanded number to the old format and back. *)
Lemma old_parts maj min :
  0 <= maj <= O_MAXMAJ -> 0 <= min <= O_MAXMIN ->
  let x := min + maj * 2 ^ 8 in
  (maj <<< O_BITSMINOR) .| min = x /\ (x >>> O_BITSMINOR) .& O_MAXMAJ = maj /\ x .& O_MAXMIN = min
  /\ 0 <= x < 2 ^ 15.
Proof.
  intros Hmaj Hmin x. unfold O_MAXMAJ, O_MAXMIN, O_BITSMINOR in *. unfold x. split_and!; [| | |lia|lia].
  - rewrite Z.lor_comm. apply lor_shift_add; [lia|]. unfold in_u. lia.
  - change 0x7f with (Z.ones 7). rewrite Z.land_ones, Z.shiftr_div_pow2, Z_div_plus_full by lia.
    rewrite (Z.div_small min), Z.add_0_l by lia. apply Z.mod_small. lia.
  - change 0xff with (Z.ones 8). rewrite Z.land_ones, Z_mod_plus_full by lia. apply Z.mod_small. lia.
Qed.

Lemma old_device_roundtrip m maj min :
  0 <= maj <= O_MAXMAJ -> 0 <= min <= O_MAXMIN ->
  major (makedev maj min) = maj /\ minor (makedev maj min) = min
  /\ expdev m (cmpdev m (makedevice m maj min)) = makedevice m maj min.
Proof.
  intros Hmaj Hmin. destruct (old_parts maj min Hmaj Hmin) as (E1 & E2 & E3 & Hr).
  assert (min .& O_MAXMIN = min) as Em.
  { unfold O_MAXMIN in *. change 0xff with (Z.ones 8). rewrite Z.land_ones by lia. apply Z.mod_small. lia. }
  pose proof (bits_range m). unfold O_MAXMAJ, O_MAXMIN in Hmaj, Hmin.
  split_and!.
  - unfold major, makedev. rewrite Em, E1, (wrapu_id 16), (wrapu_id 32 (_ + _)), E2 by (unfold in_u; lia).
    apply wrapu_id. unfold in_u. lia.
  - unfold minor, makedev. rewrite Em, E1, (wrapu_id 16), E3 by (unfold in_u; lia).
    apply wrapu_id. unfold in_u. lia.
  - assert (18 <= L_BITSMINOR m /\ 14 <= L_BITSMAJOR m) as [Hb1 Hb2] by (destruct m; vm_compute; done).
    assert (in_u (L_BITSMAJOR m) maj) as Ha by (apply (in_u_mono 14); [lia|unfold in_u; lia]).
    assert (in_u (L_BITSMINOR m) min) as Hi by (apply (in_u_mono 18); [lia|unfold in_u; lia]).
    destruct (makedevice_val m maj min Ha Hi) as [Ed _]. destruct (parts_of_device m maj min Ha Hi) as [Eq Emod].
    unfold cmpdev. rewrite Ed, Z.shiftr_div_pow2, Eq, maxmin_ones, Z.land_ones, Emod by lia.
    unfold O_MAXMAJ, O_MAXMIN in *. rewrite !Z.gtb_ltb, (proj2 (Z.ltb_ge 0x7f maj)), (proj2 (Z.ltb_ge 0xff min)) by lia.
    cbn [orb].
    assert ((min + maj * 2 ^ L_BITSMINOR m) .& 0xff = min) as ->.
    { change 0xff with (Z.ones 8). rewrite Z.land_ones by lia.
      replace (2 ^ L_BITSMINOR m) with (2 ^ (L_BITSMINOR m - 8) * 2 ^ 8) by (rewrite <- Z.pow_add_r by lia; f_equal; lia).
      rewrite Z.mul_assoc, Z_mod_plus_full. apply Z.mod_small. lia. }
    rewrite E1, (wraps_id 16) by (simpl; lia).
    unfold expdev, O_MAXMAJ, O_MAXMIN. rewrite E2, E3, <- Ed.
    unfold makedevice. by rewrite maxmin_ones, Z.land_ones, (Z.mod_small min) by (done || lia).
Qed.

(** Blocks and bytes. *)
Lemma btod_dtob b : btod (dtob b) = b /\ btodt (dtob b) = b.
Proof.
  unfold btod, btodt, dtob, DEV_BSIZE, DEV_BSHIFT. rewrite Z.shiftl_mul_pow2, !Z.shiftr_div_pow2 by lia.
  change (2 ^ 9) with 512. split; Z.to_euclidean_division_equations; lia.
Qed.

Lemma roundup_spec x y : 0 < y -> howmany x y * y = roundup x y /\ x <= roundup x y < x + y.
Proof. intros Hy. unfold howmany, roundup. split; [done|]. Z.to_euclidean_division_equations; nia. Qed.
