(* ===== verification/Bitmap.v ===== *)
(** * Bitmaps: sys/bitmap.h

    The macros of [src/include/sys/bitmap.h] on a bitmap of [unsigned long]
    words, in both data models.  The user of the package does the range checks:
    an index outside the map is [None]. *)
From S2P Require Import Prelude.

Definition BT_ULSHIFT (m : data_model) : Z := match m with LP64 => 6 | ILP32 => 5 end.
Definition BT_NBIPUL (m : data_model) : Z := 1 <<< BT_ULSHIFT m.
Definition BT_ULMASK (m : data_model) : Z := BT_NBIPUL m - 1.
Definition BT_ULMAXMASK (m : data_model) : Z := match m with LP64 => 0xffffffffffffffff | ILP32 => 0xffffffff end.

Definition BT_ULSHIFT32 := 5.
Definition BT_NBIPUL32 := 1 <<< BT_ULSHIFT32.
Definition BT_ULMASK32 := BT_NBIPUL32 - 1.

(** The index of the word a bit is in, and the bit in the word. *)
Definition BT_WIM (m : data_model) (bitindex : Z) : nat := Z.to_nat (bitindex >>> BT_ULSHIFT m).
Definition BT_BIW (m : data_model) (bitindex : Z) : Z := 1 <<< (bitindex .& BT_ULMASK m).

Definition sizeof_ulong (m : data_model) : Z := match m with LP64 => 8 | ILP32 => 4 end.
Definition BT_BITOUL (m : data_model) (nbits : Z) : Z := (nbits + BT_NBIPUL m - 1) / BT_NBIPUL m.
Definition BT_SIZEOFMAP (m : data_model) (nbits : Z) : Z := BT_BITOUL m nbits * sizeof_ulong m.

Definition BT_TEST (m : data_model) (bitmap : list Z) (bitindex : Z) : option Z :=
  w ← bitmap !! BT_WIM m bitindex; Some (if truth (w .& BT_BIW m bitindex) then 1 else 0).
Definition BT_SET (m : data_model) (bitmap : list Z) (bitindex : Z) : option (list Z) :=
  w ← bitmap !! BT_WIM m bitindex; Some (<[BT_WIM m bitindex := w .| BT_BIW m bitindex]> bitmap).
(** [~BT_BIW] is an [unsigned long]. *)
Definition BT_CLEAR (m : data_model) (bitmap : list Z) (bitindex : Z) : option (list Z) :=
  w ← bitmap !! BT_WIM m bitindex;
  Some (<[BT_WIM m bitindex := w .& wrapu (BT_NBIPUL m) (.~ BT_BIW m bitindex)]> bitmap).

(** The variants on words of 32 bits. *)
Definition BT_WIM32 (bitindex : Z) : nat := Z.to_nat (bitindex >>> BT_ULSHIFT32).
Definition BT_BIW32 (bitindex : Z) : Z := 1 <<< (bitindex .& BT_ULMASK32).
Definition BT_BITOUL32 (nbits : Z) : Z := (nbits + BT_NBIPUL32 - 1) / BT_NBIPUL32.
Definition BT_SIZEOFMAP32 (nbits : Z) : Z := BT_BITOUL32 nbits * 4.
Definition BT_TEST32 (bitmap : list Z) (bitindex : Z) : option Z :=
  w ← bitmap !! BT_WIM32 bitindex; Some (if truth (w .& BT_BIW32 bitindex) then 1 else 0).
Definition BT_SET32 (bitmap : list Z) (bitindex : Z) : option (list Z) :=
  w ← bitmap !! BT_WIM32 bitindex; Some (<[BT_WIM32 bitindex := w .| BT_BIW32 bitindex]> bitmap).
(** [~BT_BIW32] is an [unsigned long] of 64 bits, then cut to the word. *)
Definition BT_CLEAR32 (bitmap : list Z) (bitindex : Z) : option (list Z) :=
  w ← bitmap !! BT_WIM32 bitindex;
  Some (<[BT_WIM32 bitindex := u32 (w .& wrapu 64 (.~ BT_BIW32 bitindex))]> bitmap).

(** [u] is unsigned; [1LU << n] is an [unsigned long]. *)
Definition BITX (m : data_model) (u h l : Z) : Z :=
  (u >>> l) .& wrapu (BT_NBIPUL m) (wrapu (BT_NBIPUL m) (1 <<< (h - l + 1)) - 1).

(** ** A bitmap as a set of indices *)
Definition bit_of (m : data_model) (bitmap : list Z) (i : Z) : bool :=
  match bitmap !! BT_WIM m i with Some w => Z.testbit w (i .& BT_ULMASK m) | None => false end.

(** A map of [nbits] bits has the words [BT_BITOUL] asks for. *)
Definition bitmap_ok (m : data_model) (bitmap : list Z) (nbits : Z) : Prop :=
  Forall (in_u (BT_NBIPUL m)) bitmap /\ Z.of_nat (length bitmap) = BT_BITOUL m nbits.

Lemma ulmask_ones m : BT_ULMASK m = Z.ones (BT_ULSHIFT m).
Proof. by destruct m. Qed.
Lemma nbipul_pow m : BT_NBIPUL m = 2 ^ BT_ULSHIFT m.
Proof. by destruct m. Qed.
Lemma ulshift_range m : 5 <= BT_ULSHIFT m <= 6.
Proof. destruct m; simpl; lia. Qed.

Lemma bit_index_range m i : 0 <= i .& BT_ULMASK m < BT_NBIPUL m.
Proof.
  pose proof (ulshift_range m). rewrite ulmask_ones, Z.land_ones, nbipul_pow by lia.
  apply Z.mod_pos_bound, pow2_pos. lia.
Qed.

Lemma BIW_testbit m i j : Z.testbit (BT_BIW m i) j = (j =? i .& BT_ULMASK m).
Proof.
  pose proof (bit_index_range m i). unfold BT_BIW.
  rewrite Z.shiftl_mul_pow2, Z.mul_1_l by lia. apply pow2_testbit. lia.
Qed.

Lemma index_split m i : i = (i >>> BT_ULSHIFT m) * BT_NBIPUL m + (i .& BT_ULMASK m).
Proof.
  pose proof (ulshift_range m). rewrite ulmask_ones, Z.land_ones, Z.shiftr_div_pow2, nbipul_pow by lia.
  pose proof (pow2_pos (BT_ULSHIFT m) ltac:(lia)). pose proof (Z.div_mod i (2 ^ BT_ULSHIFT m)). lia.
Qed.

Lemma WIM_in_map m bitmap nbits i :
  bitmap_ok m bitmap nbits -> 0 <= i < nbits -> (BT_WIM m i < length bitmap)%nat.
Proof.
  intros [_ Hl] Hi. pose proof (ulshift_range m). unfold BT_WIM. unfold BT_BITOUL in Hl.
  rewrite nbipul_pow in Hl. rewrite Z.shiftr_div_pow2 by lia.
  pose proof (pow2_pos (BT_ULSHIFT m) ltac:(lia)) as Hp. set (q := 2 ^ BT_ULSHIFT m) in *.
  assert (i / q < (nbits + q - 1) / q); [|pose proof (Z.div_pos i q ltac:(lia) Hp); lia].
  pose proof (Z.div_mod i q ltac:(lia)). pose proof (Z.mod_pos_bound i q Hp).
  pose proof (Z.div_mod (nbits + q - 1) q ltac:(lia)). pose proof (Z.mod_pos_bound (nbits + q - 1) q Hp). nia.
Qed.

Lemma same_word_other_bit m i j :
  0 <= i -> 0 <= j -> BT_WIM m i = BT_WIM m j -> i <> j -> i .& BT_ULMASK m <> j .& BT_ULMASK m.
Proof.
  intros Hi Hj Hw Hne E. apply Hne. pose proof (ulshift_range m). rewrite (index_split m i), (index_split m j), E.
  unfold BT_WIM in Hw. assert (0 <= i >>> BT_ULSHIFT m) by (by apply Z.shiftr_nonneg).
  assert (0 <= j >>> BT_ULSHIFT m) by (by apply Z.shiftr_nonneg).
  assert (i >>> BT_ULSHIFT m = j >>> BT_ULSHIFT m) as -> by lia. done.
Qed.

Lemma BIW_pow m i : BT_BIW m i = 2 ^ (i .& BT_ULMASK m).
Proof. pose proof (bit_index_range m i). unfold BT_BIW. by rewrite Z.shiftl_mul_pow2, Z.mul_1_l by lia. Qed.

Lemma nbipul_pos m : 0 < BT_NBIPUL m.
Proof. by destruct m. Qed.

Lemma BIW_range m i : in_u (BT_NBIPUL m) (BT_BIW m i).
Proof.
  pose proof (bit_index_range m i). rewrite BIW_pow.
  split; [apply Z.lt_le_incl, pow2_pos; lia|apply Z.pow_lt_mono_r; lia].
Qed.

(** Replacing the word of bit [i] by one that differs in that bit. *)
Lemma bitmap_update m bitmap nbits i w f b :
  bitmap_ok m bitmap nbits -> 0 <= i < nbits -> bitmap !! BT_WIM m i = Some w -> in_u (BT_NBIPUL m) f ->
  (forall k, 0 <= k < BT_NBIPUL m -> Z.testbit f k = if k =? i .& BT_ULMASK m then b else Z.testbit w k) ->
  bitmap_ok m (<[BT_WIM m i := f]> bitmap) nbits
  /\ forall j, 0 <= j -> bit_of m (<[BT_WIM m i := f]> bitmap) j = if i =? j then b else bit_of m bitmap j.
Proof.
  intros Hok Hi Ew Rf Hf. pose proof (WIM_in_map m bitmap nbits i Hok Hi) as Hin. destruct Hok as [Hw Hl].
  split; [split; [by apply Forall_insert|by rewrite length_insert]|]. intros j Hj. unfold bit_of.
  destruct (decide (BT_WIM m j = BT_WIM m i)) as [E|E].
  - rewrite E, list_lookup_insert_eq, Ew, Hf by (done || apply bit_index_range).
    destruct (Z.eqb_spec i j) as [->|Hne]; [by rewrite Z.eqb_refl|].
    rewrite (proj2 (Z.eqb_neq _ _)); [done|]. apply same_word_other_bit; done || lia.
  - rewrite list_lookup_insert_ne by done. destruct (Z.eqb_spec i j) as [->|]; done.
Qed.

(** A bitmap is a set.  In a map with the words [BT_SIZEOFMAP] provides for
    [nbits] bits, every operation on an index below [nbits] succeeds;
    [BT_TEST] reads the bit, [BT_SET] and [BT_CLEAR] change exactly that bit and
    keep the map well formed. *)
Theorem bitmap_set_clear m bitmap nbits i :
  bitmap_ok m bitmap nbits -> 0 <= i < nbits ->
  BT_TEST m bitmap i = Some (b2z (bit_of m bitmap i))
  /\ (exists s, BT_SET m bitmap i = Some s /\ bitmap_ok m s nbits
       /\ forall j, 0 <= j -> bit_of m s j = if i =? j then true else bit_of m bitmap j)
  /\ (exists s, BT_CLEAR m bitmap i = Some s /\ bitmap_ok m s nbits
       /\ forall j, 0 <= j -> bit_of m s j = if i =? j then false else bit_of m bitmap j).
Proof.
  intros Hok Hi. pose proof (WIM_in_map m bitmap nbits i Hok Hi) as Hin.
  destruct (lookup_lt_is_Some_2 bitmap _ Hin) as [w Ew].
  pose proof (Forall_lookup_1 _ _ _ _ (proj1 Hok) Ew) as Rw. simpl in Rw. pose proof (nbipul_pos m).
  unfold BT_TEST, BT_SET, BT_CLEAR. rewrite Ew. cbn [mbind option_bind]. split; [|split].
  - unfold bit_of. rewrite Ew, BIW_pow, truth_land_pow2 by apply bit_index_range. by destruct (Z.testbit w _).
  - eexists. split; [done|]. apply bitmap_update with w; try done; [apply in_u_lor; [lia|done|apply BIW_range]|].
    intros k Hk. rewrite Z.lor_spec, BIW_testbit. destruct (k =? _); [apply orb_true_r|apply orb_false_r].
  - eexists. split; [done|]. apply bitmap_update with w; try done; [apply in_u_land_l; done || lia|].
    intros k Hk. rewrite Z.land_spec, wrapu_testbit, lnot_testbit, BIW_testbit by lia.
    rewrite (proj2 (Z.ltb_lt k _)), (proj2 (Z.leb_le 0 k)) by lia. cbn [andb].
    destruct (k =? _); [apply andb_false_r|apply andb_true_r].
Qed.

Lemma bitmap_set_clear_witness :
  BT_TEST ILP32 [5; 0] 2 = Some (b2z (bit_of ILP32 [5; 0] 2)).
Proof.
  apply (bitmap_set_clear ILP32 [5; 0] 40 2); [|lia].
  split; [repeat constructor; vm_compute; done|reflexivity].
Defined.

(** [BITX] extracts the bits from [l] to [h], both included (the comment
    calls [l] exclusive), as long as they fit in the word. *)
Theorem bitx_inclusive m u h l i :
  0 <= l <= h -> h - l + 1 < BT_NBIPUL m -> 0 <= u -> 0 <= i ->
  Z.testbit (BITX m u h l) i = (i <=? h - l) && Z.testbit u (l + i).
Proof.
  intros Hl Hn Hu Hi. unfold BITX. rewrite Z.shiftl_mul_pow2, Z.mul_1_l by lia.
  assert (2 ^ (h - l + 1) < 2 ^ BT_NBIPUL m) by (apply Z.pow_lt_mono_r; lia).
  pose proof (pow2_pos (h - l + 1) ltac:(lia)).
  rewrite (wrapu_id _ (2 ^ (h - l + 1))) by (unfold in_u; lia).
  rewrite wrapu_id by (unfold in_u; lia).
  replace (2 ^ (h - l + 1) - 1) with (Z.ones (h - l + 1)) by (rewrite Z.ones_equiv; lia).
  rewrite Z.land_spec, shiftr_testbit, ones_testbit by lia.
  rewrite (proj2 (Z.leb_le 0 i)), andb_comm by lia. cbn [andb]. rewrite (Z.add_comm i l). f_equal.
  destruct (Z.ltb_spec i (h - l + 1)), (Z.leb_spec i (h - l)); done || lia.
Qed.

Lemma bitx_inclusive_witness :
  Z.testbit (BITX ILP32 0xf0 7 4) 0 = (0 <=? 7 - 4) && Z.testbit 0xf0 (4 + 0).
Proof. apply (bitx_inclusive ILP32 0xf0 7 4 0); vm_compute; try (split; done); done. Defined.
