(* ===== verification/BitSets.v ===== *)
(** * Sets of bits: sys/cpuvar.h, sys/priv_impl.h, sys/signal.h, sys/procfs.h, sys/select.h

    Five families of macros keep sets of small numbers in words: processors
    ([CPUSET_ADD] and its relatives, on an array of words and on one word),
    privileges, signals, the flag sets of [/proc] and the file descriptors of
    [select].  They number words and bits each in its own way.  [Places] states
    what a numbering must satisfy, [SetMacros] what a family of macros is and
    [SetLaws] that it implements finite sets; the theorem is that each of them
    does, for every sequence of its macros. *)
From stdpp Require Import gmap sets.
From S2P Require Import Prelude Bitmap.

(** ** Arrays of words *)
Definition at_word (i : nat) (f : Z -> Z) (l : list Z) : option (list Z) := x ← l !! i; Some (<[i := f x]> l).

(** [for (i = 0; i < n; i++)] and [while (i) ...[--i]] over the words. *)
Fixpoint for_up (k i : nat) (body : nat -> list Z -> option (list Z)) (l : list Z) : option (list Z) :=
  match k with O => Some l | S k => l' ← body i l; for_up k (S i) body l' end.
Fixpoint while_down (i : nat) (body : nat -> list Z -> option (list Z)) (l : list Z) : option (list Z) :=
  match i with O => Some l | S i => l' ← body i l; while_down i body l' end.

(** ** Processors: sys/cpuvar.h *)

(** What the kernel provides: [lowbit] of [sys/bitmap.h] and the exclusive
    operations of [sys/atomic.h] on one word. *)
Class WordOps := {
  lowbit : Z -> Z;
  atomic_set_long_excl : Z -> Z -> Z * Z;
  atomic_clear_long_excl : Z -> Z -> Z * Z }.
(** As the comments of [sys/bitmap.h] have them: the number plus one of the
    lowest bit set, or 0; -1 if the bit was already set or clear, or else 0. *)
Class WordOpsLaws {W : WordOps} := {
  lowbit_zero : lowbit 0 = 0;
  lowbit_some x : 0 < x ->
    0 < lowbit x /\ Z.testbit x (lowbit x - 1) = true /\ forall j, j < lowbit x - 1 -> Z.testbit x j = false;
  set_excl_ok x b : 0 <= b -> atomic_set_long_excl x b = (x .| 1 <<< b, if Z.testbit x b then -1 else 0);
  clear_excl_ok x b : 0 <= b -> atomic_clear_long_excl x b = (x .& .~ (1 <<< b), if Z.testbit x b then 0 else -1) }.

Definition CPUSET_NOTINSET : Z := u32 (-1).
Definition CPUSET_WORDS (m : data_model) (NCPU : Z) : nat := Z.to_nat (BT_BITOUL m NCPU).

(** The macros whose code is in the header when a set takes several words. *)
Inductive cpuset_macro :=
  | CPU_IN_SET (cpu : Z) | CPUSET_ADD (cpu : Z) | CPUSET_DEL (cpu : Z)
  | CPUSET_ATOMIC_ADD (cpu : Z) | CPUSET_ATOMIC_DEL (cpu : Z) | CPUSET_ATOMIC_XADD (cpu : Z) | CPUSET_ATOMIC_XDEL (cpu : Z)
  | CPUSET_OR (set2 : list Z) | CPUSET_AND (set2 : list Z) | CPUSET_ZERO.
(** The exclusive operation on the word of a bit, with its result. *)
Definition BT_ATOMIC_EXCL (m : data_model) (op : Z -> Z -> Z * Z) (bitmap : list Z) (bitindex : Z) : option (list Z * Z) :=
  x ← bitmap !! BT_WIM m bitindex;
  let '(y, result) := op x (bitindex mod BT_NBIPUL m) in Some (<[BT_WIM m bitindex := y]> bitmap, result).
Definition void (o : option (list Z)) : option (list Z * Z) := l ← o; Some (l, 0).
Definition cpuset_exec {W : WordOps} (m : data_model) (NCPU : Z) (c : cpuset_macro) (set : list Z) : option (list Z * Z) :=
  match c with
  | CPU_IN_SET cpu => v ← BT_TEST m set cpu; Some (set, v)
  | CPUSET_ADD cpu | CPUSET_ATOMIC_ADD cpu => void (BT_SET m set cpu)
  | CPUSET_DEL cpu | CPUSET_ATOMIC_DEL cpu => void (BT_CLEAR m set cpu)
  | CPUSET_ATOMIC_XADD cpu => BT_ATOMIC_EXCL m atomic_set_long_excl set cpu
  | CPUSET_ATOMIC_XDEL cpu => BT_ATOMIC_EXCL m atomic_clear_long_excl set cpu
  | CPUSET_OR set2 => void (for_up (CPUSET_WORDS m NCPU) 0 (fun i s => y ← set2 !! i; at_word i (fun x => x .| y) s) set)
  | CPUSET_AND set2 => void (for_up (CPUSET_WORDS m NCPU) 0 (fun i s => y ← set2 !! i; at_word i (fun x => x .& y) s) set)
  | CPUSET_ZERO => void (for_up (CPUSET_WORDS m NCPU) 0 (fun i s => at_word i (fun _ => 0) s) set)
  end.

(** A set in one word, an [unsigned long]. *)
Definition CPUSET (m : data_model) (cpu : Z) : Z := wrapu (BT_NBIPUL m) (1 <<< cpu).
Inductive cpuset1_macro :=
  | IN_SET1 (cpu : Z) | ADD1 (cpu : Z) | DEL1 (cpu : Z) | ATOMIC_ADD1 (cpu : Z) | ATOMIC_DEL1 (cpu : Z) | ATOMIC_XADD1 (cpu : Z) | ATOMIC_XDEL1 (cpu : Z)
  | OR1 (set2 : Z) | AND1 (set2 : Z) | ZERO1 | ALL1 | ALL_BUT1 (cpu : Z) | ONLY1 (cpu : Z) | ISNULL1 | ISEQUAL1 (set2 : Z) | FIND1.
Definition cpuset1_exec {W : WordOps} (m : data_model) (c : cpuset1_macro) (set : Z) : option (Z * Z) :=
  let not x := wrapu (BT_NBIPUL m) (.~ x) in
  Some match c with
       | IN_SET1 cpu => (set, set .& CPUSET m cpu)
       | ADD1 cpu | ATOMIC_ADD1 cpu => (set .| CPUSET m cpu, 0)
       | DEL1 cpu | ATOMIC_DEL1 cpu => (set .& not (CPUSET m cpu), 0)
       | ATOMIC_XADD1 cpu => atomic_set_long_excl set cpu
       | ATOMIC_XDEL1 cpu => atomic_clear_long_excl set cpu
       | OR1 set2 => (set .| set2, 0)
       | AND1 set2 => (set .& set2, 0)
       | ZERO1 => (0, 0)
       | ALL1 => (not 0, 0)
       | ALL_BUT1 cpu => (not (CPUSET m cpu), 0)
       | ONLY1 cpu => (CPUSET m cpu, 0)
       | ISNULL1 => (set, b2z (set =? 0))
       | ISEQUAL1 set2 => (set, b2z (set =? set2))
       | FIND1 => (set, u32 (lowbit set - 1))
       end.

(** ** Privileges: sys/priv_impl.h

    Chunks of 32 bits, numbered from the high end. *)
Definition __NBWRD : Z := 8 * 4.
Definition privmask (n : Z) : Z := u32 (1 <<< (__NBWRD - 1 - n mod __NBWRD)).
Definition privword (n : Z) : nat := Z.to_nat (n / __NBWRD).
Inductive priv_macro := __PRIV_ASSERT (b : Z) | __PRIV_CLEAR (b : Z) | __PRIV_ISASSERT (b : Z).
Definition priv_exec (c : priv_macro) (a : list Z) : option (list Z * Z) :=
  match c with
  | __PRIV_ASSERT b => void (at_word (privword b) (fun x => x .| privmask b) a)
  | __PRIV_CLEAR b => void (at_word (privword b) (fun x => x .& u32 (.~ privmask b)) a)
  | __PRIV_ISASSERT b => x ← a !! privword b; Some (a, x .& privmask b)
  end.

(** ** Signals: sys/signal.h

    [k_sigset_t] has two words of 32 bits, [sigset_t] four; signals are counted
    from 1. *)
Definition MAXSIG := 48.
Definition SIGKILL := 9.
Definition SIGSTOP := 23.
Definition sigmask (n : Z) : Z := u32 (1 <<< ((n - 1) .& (32 - 1))).
Definition sigword (n : Z) : nat := Z.to_nat (u32 (n - 1) >>> 5).
Definition FILLSET0 : Z := 0xffffffff.
Definition FILLSET1 : Z := u32 (u32 (1 <<< (MAXSIG - 32)) - 1).
Definition CANTMASK0 : Z := sigmask SIGKILL .| sigmask SIGSTOP.
Definition CANTMASK1 : Z := 0.
(** [nullsmask] and [fillset] are variables of the kernel. *)
Inductive sig_macro := sigemptyset | sigfillset | sigaddset (n : Z) | sigdelset (n : Z) | sigismember (n : Z) | sigisempty.
Definition sig_exec (nullsmask fillset : list Z) (c : sig_macro) (s : list Z) : option (list Z * Z) :=
  match c with
  | sigemptyset => Some (nullsmask, 0)
  | sigfillset => Some (fillset, 0)
  | sigaddset n => void (at_word (sigword n) (fun x => x .| sigmask n) s)
  | sigdelset n => void (at_word (sigword n) (fun x => x .& u32 (.~ sigmask n)) s)
  | sigismember n => x ← s !! sigword n; Some (s, sigmask n .& x)
  | sigisempty => x ← s !! 0%nat; y ← s !! 1%nat; Some (s, b2z (negb (truth (x .| y))))
  end.
(** From a user's set to the kernel's, and back. *)
Definition sigutok (us ks : list Z) : option (list Z) :=
  u0 ← us !! 0%nat; ks ← at_word 0 (fun _ => u0 .& (FILLSET0 .& u32 (.~ CANTMASK0))) ks;
  u1 ← us !! 1%nat; at_word 1 (fun _ => u1 .& (FILLSET1 .& u32 (.~ CANTMASK1))) ks.
Definition sigktou (ks us : list Z) : option (list Z) :=
  k0 ← ks !! 0%nat; us ← at_word 0 (fun _ => k0) us;
  k1 ← ks !! 1%nat; us ← at_word 1 (fun _ => k1) us;
  us ← at_word 2 (fun _ => 0) us; at_word 3 (fun _ => 0) us.

(** ** Flag sets of /proc: sys/procfs.h

    On a structure of [n] words of 32 bits; [w] is the width of the constant 1,
    32 bits here and those of a long in [sys/old_procfs.h]. *)
Inductive pr_macro := prfillset | premptyset | praddset (flag : Z) | prdelset (flag : Z) | prismember (flag : Z).
Definition pr_in_range (n : nat) (flag : Z) : bool := u32 (flag - 1) <? 32 * (4 * Z.of_nat n) / 4.
Definition pr_exec (n : nat) (w : Z) (c : pr_macro) (sp : list Z) : option (list Z * Z) :=
  match c with
  | prfillset => void (while_down n (fun i s => at_word i (fun _ => 0xffffffff) s) sp)
  | premptyset => void (while_down n (fun i s => at_word i (fun _ => 0) s) sp)
  | praddset flag =>
      if pr_in_range n flag
      then void (at_word (Z.to_nat (Z.quot (flag - 1) 32)) (fun x => u32 (x .| wrapu w (1 <<< Z.rem (flag - 1) 32))) sp)
      else Some (sp, 0)
  | prdelset flag =>
      if pr_in_range n flag
      then void (at_word (Z.to_nat (Z.quot (flag - 1) 32)) (fun x => u32 (x .& wrapu w (.~ wrapu w (1 <<< Z.rem (flag - 1) 32)))) sp)
      else Some (sp, 0)
  | prismember flag =>
      if pr_in_range n flag
      then x ← sp !! Z.to_nat (Z.quot (flag - 1) 32); Some (sp, b2z (truth (x .& wrapu w (1 <<< Z.rem (flag - 1) 32))))
      else Some (sp, 0)
  end.

(** ** Descriptors: sys/select.h

    The words are signed longs; the shifts and masks are unsigned, and so is the
    division, whose divisor is a [size_t]. *)
Definition FD_NFDBITS (m : data_model) : Z := sizeof_ulong m * 8.
Definition fd_setsize (m : data_model) : Z := match m with LP64 => 65536 | ILP32 => 1024 end.
Inductive fd_macro := FD_SET (n : Z) | FD_CLR (n : Z) | FD_ISSET (n : Z) | FD_ZERO.
Definition fd_exec (m : data_model) (c : fd_macro) (p : list Z) : option (list Z * Z) :=
  let ul := wrapu (FD_NFDBITS m) in
  let word n := Z.to_nat (ul n / FD_NFDBITS m) in
  let mask n := ul (1 <<< (ul n mod FD_NFDBITS m)) in
  match c with
  | FD_SET n => void (at_word (word n) (fun x => wraps (FD_NFDBITS m) (ul x .| mask n)) p)
  | FD_CLR n => void (at_word (word n) (fun x => wraps (FD_NFDBITS m) (ul x .& ul (.~ mask n))) p)
  | FD_ISSET n => x ← p !! word n; Some (p, b2z (negb (ul x .& mask n =? 0)))
  | FD_ZERO => Some (replicate (length p) 0, 0)
  end.

(** ** Numbered words as sets

    The elements [dom] of a set, the word and the bit of each; word [i] has
    [wbits i] bits, and every bit is that of an element. *)
Class Places (dom : gset Z) (word : Z -> nat) (bit : Z -> Z) (n : nat) (wbits : nat -> Z) := {
  place_width i : 0 <= wbits i;
  place_in e : e ∈ dom -> (word e < n)%nat /\ 0 <= bit e < wbits (word e);
  place_one e e' : e ∈ dom -> e' ∈ dom -> word e = word e' -> bit e = bit e' -> e = e';
  place_all i b : (i < n)%nat -> 0 <= b < wbits i -> exists e, e ∈ dom /\ word e = i /\ bit e = b }.

Section Words.
Context {dom : gset Z} {word : Z -> nat} {bit : Z -> Z} {n : nat} {wbits : nat -> Z} {HP : Places dom word bit n wbits}.

Definition has (l : list Z) (e : Z) : bool :=
  match l !! word e with Some x => Z.testbit x (bit e) | None => false end.
Definition elements_of (l : list Z) : gset Z := filter (fun e => has l e = true) dom.
Definition words_ok (l : list Z) : Prop := length l = n /\ forall i x, l !! i = Some x -> in_u (wbits i) x.

Lemma elem_of_words l e : e ∈ elements_of l <-> has l e = true /\ e ∈ dom.
Proof. unfold elements_of. by rewrite elem_of_filter. Qed.

(** Two arrays of words with the same bits denote the same set. *)
Lemma elements_ext l X : X ⊆ dom -> (forall e, e ∈ dom -> has l e = true <-> e ∈ X) -> elements_of l = X.
Proof. intros Hs H. apply set_eq. intros e. rewrite elem_of_words. set_solver. Qed.

Lemma word_at l e : words_ok l -> e ∈ dom -> exists x, l !! word e = Some x /\ in_u (wbits (word e)) x /\ has l e = Z.testbit x (bit e).
Proof.
  intros [Hl Hw] He. destruct (place_in e He) as [Hi _].
  destruct (lookup_lt_is_Some_2 l (word e) ltac:(lia)) as [x Hx]. exists x. split_and!; [done|by apply Hw|]. unfold has. by rewrite Hx.
Qed.

(** Assigning the bit of one element. *)
Lemma assign_bit l e (b : bool) f : words_ok l -> e ∈ dom ->
  (forall x, in_u (wbits (word e)) x -> in_u (wbits (word e)) (f x)
     /\ forall k, 0 <= k < wbits (word e) -> Z.testbit (f x) k = if k =? bit e then b else Z.testbit x k) ->
  exists l', at_word (word e) f l = Some l' /\ words_ok l'
    /\ elements_of l' = if b then {[e]} ∪ elements_of l else elements_of l ∖ {[e]}.
Proof.
  intros Hok He Hf. destruct (word_at l e Hok He) as (x & Hx & Hr & _). destruct (Hf x Hr) as [Hr' Hb].
  unfold at_word. rewrite Hx. simpl. eexists. split; [done|]. split.
  - split; [rewrite length_insert; apply Hok|]. intros i y [(<- & <- & _)|[_ Hy]]%list_lookup_insert_Some; [done|].
    by apply Hok.
  - apply elements_ext; [destruct b; intros y; rewrite ?elem_of_union, ?elem_of_difference, elem_of_words; set_solver|].
    intros y Hy. destruct (place_in y Hy) as [Hi Hyb].
    assert (has (<[word e := f x]> l) y = if decide (y = e) then b else has l y) as ->.
    { unfold has. destruct (decide (word y = word e)) as [E|E].
      - rewrite E, list_lookup_insert_eq by (apply lookup_lt_Some in Hx; done). rewrite Hx, Hb by (by rewrite <- E).
        destruct (Z.eqb_spec (bit y) (bit e)) as [Eb|Eb].
        + rewrite decide_True; [done|]. by apply place_one.
        + rewrite decide_False; [done|]. by intros ->.
      - rewrite list_lookup_insert_ne by done. rewrite decide_False; [done|]. by intros ->. }
    destruct b, (decide (y = e)) as [->|Hne]; rewrite ?elem_of_union, ?elem_of_difference, elem_of_words; set_solver.
Qed.

Lemma set_bit l e mask : words_ok l -> e ∈ dom -> mask = 2 ^ bit e ->
  exists l', at_word (word e) (fun x => x .| mask) l = Some l' /\ words_ok l' /\ elements_of l' = {[e]} ∪ elements_of l.
Proof.
  intros Hok He ->. destruct (place_in e He) as [_ Hb]. apply (assign_bit l e true); [done..|]. intros x Hx. split.
  - apply in_u_lor; [lia|done|]. split; [apply Z.lt_le_incl, pow2_pos; lia|apply Z.pow_lt_mono_r; lia].
  - intros k Hk. rewrite Z.lor_spec, pow2_testbit by lia. destruct (k =? bit e); [apply orb_true_r|apply orb_false_r].
Qed.

Lemma clear_bit l e f : words_ok l -> e ∈ dom ->
  (forall x, in_u (wbits (word e)) x -> f x = x .& .~ 2 ^ bit e) ->
  exists l', at_word (word e) f l = Some l' /\ words_ok l' /\ elements_of l' = elements_of l ∖ {[e]}.
Proof.
  intros Hok He Hf. destruct (place_in e He) as [_ Hb]. apply (assign_bit l e false); [done..|]. intros x Hx. rewrite Hf by done.
  split; [apply in_u_land_l; [lia|done]|].
  intros k Hk. rewrite Z.land_spec, Z.lnot_spec, pow2_testbit by lia. destruct (k =? bit e); [apply andb_false_r|apply andb_true_r].
Qed.

Lemma test_bit l e mask : words_ok l -> e ∈ dom -> mask = 2 ^ bit e ->
  exists x, l !! word e = Some x /\ in_u (wbits (word e)) x /\ truth (x .& mask) = bool_decide (e ∈ elements_of l).
Proof.
  intros Hok He ->. destruct (place_in e He) as [_ Hb]. destruct (word_at l e Hok He) as (x & Hx & Hr & Hh).
  exists x. split_and!; [done..|]. rewrite truth_land_pow2, <- Hh by lia. symmetry.
  destruct (has l e) eqn:E; [apply bool_decide_true|apply bool_decide_false]; rewrite elem_of_words, E; [done|by intros []].
Qed.

(** Words that are combined one by one. *)
Lemma combine_words l k l' op : words_ok l -> words_ok k -> length l' = n ->
  (forall i x y, l !! i = Some x -> k !! i = Some y -> exists z, l' !! i = Some z /\ in_u (wbits i) z
     /\ forall b, 0 <= b < wbits i -> Z.testbit z b = op (Z.testbit x b) (Z.testbit y b)) ->
  words_ok l' /\ forall e, e ∈ dom -> has l' e = op (has l e) (has k e).
Proof.
  intros Hl Hk Hn H. split.
  - split; [done|]. intros i z Hz. apply lookup_lt_Some in Hz as Hi.
    destruct (lookup_lt_is_Some_2 l i ltac:(destruct Hl; lia)) as [x Hx], (lookup_lt_is_Some_2 k i ltac:(destruct Hk; lia)) as [y Hy].
    destruct (H i x y Hx Hy) as (z' & Hz' & Hr & _). congruence.
  - intros e He. destruct (word_at l e Hl He) as (x & Hx & _ & ->), (word_at k e Hk He) as (y & Hy & _ & ->).
    destruct (H _ x y Hx Hy) as (z & Hz & _ & Hb). unfold has. rewrite Hz. by apply Hb, place_in.
Qed.

Lemma empty_words : words_ok (replicate n 0) /\ elements_of (replicate n 0) = ∅.
Proof.
  split.
  - split; [apply length_replicate|]. intros i x [-> _]%lookup_replicate. split; [lia|apply pow2_pos, place_width].
  - apply elements_ext; [set_solver|]. intros e He. unfold has. rewrite lookup_replicate_2 by (by apply place_in).
    rewrite Z.testbit_0_l. set_solver.
Qed.

Lemma full_words l : length l = n -> (forall i x, l !! i = Some x -> x = Z.ones (wbits i)) -> words_ok l /\ elements_of l = dom.
Proof.
  intros Hn Hx. assert (words_ok l) as Hok.
  { split; [done|]. intros i x ->%Hx. rewrite Z.ones_equiv. pose proof (pow2_pos _ (place_width i)). unfold in_u. lia. }
  split; [done|]. apply elements_ext; [done|]. intros e He. destruct (word_at l e Hok He) as (x & Hl & _ & ->).
  rewrite (Hx _ _ Hl), ones_testbit by apply place_width. destruct (place_in e He) as [_ ?]. zcases. done.
Qed.

(** A set is empty exactly when all its words are zero. *)
Lemma zero_words l : words_ok l -> (forall i x, l !! i = Some x -> x = 0) <-> elements_of l = ∅.
Proof.
  intros Hok. split.
  - intros Hz. apply elements_ext; [set_solver|]. intros e He. destruct (word_at l e Hok He) as (x & Hl & _ & ->).
    rewrite (Hz _ _ Hl), Z.testbit_0_l. set_solver.
  - intros He i x Hx. pose proof (proj2 Hok _ _ Hx) as Hr. apply Z.bits_inj'. intros b Hb. rewrite Z.testbit_0_l.
    destruct (Z.ltb_spec b (wbits i)); [|by apply (in_u_testbit (wbits i))]. destruct (Z.testbit x b) eqn:E; [|done].
    destruct (place_all i b) as (e & Hd & <- & <-); [destruct Hok as [<- _]; by eapply lookup_lt_Some|lia|].
    assert (e ∈ elements_of l) as Hin by (apply elem_of_words; unfold has; by rewrite Hx). rewrite He in Hin. set_solver.
Qed.
End Words.
#[global] Arguments words_ok : clear implicits.
#[global] Arguments elements_of : clear implicits.

(** Loops that visit each word once. *)
Lemma for_up_spec g body k i l :
  (forall j l, (i <= j < i + k)%nat -> (j < length l)%nat -> body j l = at_word j (g j) l) -> (i + k <= length l)%nat ->
  exists l', for_up k i body l = Some l' /\ length l' = length l
    /\ forall j x, l !! j = Some x -> l' !! j = Some (if bool_decide (i <= j < i + k)%nat then g j x else x).
Proof.
  revert i l. induction k as [|k IH]; intros i l Hb Hl; simpl.
  - exists l. split_and!; [done..|]. intros j x Hx. by rewrite bool_decide_false by lia.
  - rewrite Hb by lia. destruct (lookup_lt_is_Some_2 l i ltac:(lia)) as [y Hy]. unfold at_word. rewrite Hy. simpl.
    destruct (IH (S i) (<[i := g i y]> l)) as (l' & E & Hn & H); [intros; apply Hb; lia|rewrite length_insert; lia|].
    exists l'. split_and!; [done|by rewrite Hn, length_insert|]. intros j x Hx. destruct (decide (j = i)) as [->|Hne].
    + rewrite (H i (g i y)) by (apply list_lookup_insert_eq; lia). rewrite bool_decide_false, bool_decide_true by lia. congruence.
    + rewrite (H j x) by (by rewrite list_lookup_insert_ne). f_equal. by rewrite (bool_decide_ext _ (i <= j < i + S k)%nat) by lia.
Qed.

Lemma while_down_spec v n l :
  (n <= length l)%nat -> while_down n (fun i s => at_word i (fun _ => v) s) l = Some (replicate n v ++ drop n l).
Proof.
  revert l. induction n as [|n IH]; intros l Hl; [done|]. simpl while_down.
  destruct (lookup_lt_is_Some_2 l n ltac:(lia)) as [y Hy]. replace (at_word n (fun _ => v) l) with (Some (<[n := v]> l)) by (unfold at_word; by rewrite Hy). simpl.
  rewrite IH by (rewrite length_insert; lia). f_equal. rewrite drop_insert_ge, Nat.sub_diag by lia.
  rewrite (drop_S l y n Hy). simpl. by rewrite app_comm_cons, replicate_cons_app, <- app_assoc.
Qed.

(** ** Families of macros and the sets they implement

    A macro may change its set and has a value (0 for those without one); [mean]
    is its effect on the set of elements, [answers] what its value tells. *)
Class SetMacros (M S : Type) := {
  well : S -> Prop; denote : S -> gset Z; legal : M -> Prop;
  exec : M -> S -> option (S * Z); mean : M -> gset Z -> gset Z; answers : M -> gset Z -> Z -> Prop }.
Class SetLaws (M S : Type) {F : SetMacros M S} :=
  set_law c s : legal c -> well s ->
    exists s' v, exec c s = Some (s', v) /\ well s' /\ denote s' = mean c (denote s) /\ answers c (denote s) v.
#[global] Arguments SetLaws : clear implicits.

Section Run.
Context {M S : Type} {F : SetMacros M S}.
Fixpoint run (cs : list M) (s : S) : option (S * list Z) :=
  match cs with
  | [] => Some (s, [])
  | c :: cs => '(s, v) ← exec c s; '(s, vs) ← run cs s; Some (s, v :: vs)
  end.
(** The values of a sequence of macros on a finite set. *)
Fixpoint answered (cs : list M) (X : gset Z) (vs : list Z) : Prop :=
  match cs, vs with
  | [], [] => True
  | c :: cs, v :: vs => answers c X v /\ answered cs (mean c X) vs
  | _, _ => False
  end.
Definition implements_sets : Prop := forall cs s, Forall legal cs -> well s ->
  exists s' vs, run cs s = Some (s', vs) /\ well s'
    /\ denote s' = foldl (fun X c => mean c X) (denote s) cs /\ answered cs (denote s) vs.

Lemma run_implements : SetLaws M S F -> implements_sets.
Proof.
  intros HL cs s Hc. revert s. induction Hc as [|c cs Hc _ IH]; intros s Hs; simpl; [by exists s, []|].
  destruct (HL c s Hc Hs) as (s1 & v & -> & Hs1 & Hd & Ha). destruct (IH s1 Hs1) as (s' & vs & E & Hs' & Hd' & Ha'). simpl.
  rewrite E. exists s', (v :: vs). rewrite <- Hd. done.
Qed.
End Run.
#[global] Arguments implements_sets _ _ : clear implicits.

(** The numbers of a range. *)
Definition range (a n : Z) : gset Z := list_to_set (seqZ a n).
Lemma elem_of_range a n e : e ∈ range a n <-> a <= e < a + n.
Proof. unfold range. rewrite elem_of_list_to_set, elem_of_seqZ. done. Qed.

(** Words of [w] bits numbered from [a], from either end. *)
Lemma plain_places a w n word bit :
  0 < w -> (forall e, a <= e < a + w * Z.of_nat n -> word e = Z.to_nat ((e - a) / w) /\ bit e = (e - a) mod w) ->
  Places (range a (w * Z.of_nat n)) word bit n (fun _ => w).
Proof.
  intros Hw Hp. split.
  - intros _. lia.
  - intros e He%elem_of_range. destruct (Hp e He) as [-> ->]. pose proof (Z.mod_pos_bound (e - a) w Hw). split; [|done].
    pose proof (Z.div_pos (e - a) w ltac:(lia) Hw). assert ((e - a) / w < Z.of_nat n) by (apply Z.div_lt_upper_bound; lia). lia.
  - intros e e' He%elem_of_range He'%elem_of_range. destruct (Hp e He) as [-> ->], (Hp e' He') as [-> ->]. intros Hq Hr.
    pose proof (Z.div_pos (e - a) w ltac:(lia) Hw). pose proof (Z.div_pos (e' - a) w ltac:(lia) Hw).
    pose proof (Z.div_mod (e - a) w ltac:(lia)). pose proof (Z.div_mod (e' - a) w ltac:(lia)).
    assert ((e - a) / w = (e' - a) / w) as Hq' by lia. rewrite Hr, Hq' in *. lia.
  - intros i b Hi Hb. exists (a + w * Z.of_nat i + b). assert (a <= a + w * Z.of_nat i + b < a + w * Z.of_nat n) as Hr by nia.
    split; [by apply elem_of_range|]. destruct (Hp _ Hr) as [-> ->].
    replace (a + w * Z.of_nat i + b - a) with (b + Z.of_nat i * w) by lia.
    rewrite Z_div_plus_full, Z_mod_plus_full, Z.div_small, Z.mod_small by lia. split; lia.
Qed.
Lemma reversed_places dom word bit n w :
  Places dom word bit n (fun _ => w) -> Places dom word (fun e => w - 1 - bit e) n (fun _ => w).
Proof.
  intros [H1 H2 H3 H4]. split; [done|intros e He; destruct (H2 e He); split; [done|lia]|intros; apply H3; auto; lia|].
  intros i b Hi Hb. destruct (H4 i (w - 1 - b) Hi ltac:(lia)) as (e & ? & ? & ?). exists e. split_and!; [done..|lia].
Qed.

Lemma shift1 b : 0 <= b -> 1 <<< b = 2 ^ b.
Proof. intros. rewrite Z.shiftl_mul_pow2 by done. lia. Qed.
Lemma wrapu_shift1 w b : 0 <= b < w -> wrapu w (1 <<< b) = 2 ^ b.
Proof. intros. rewrite shift1 by lia. apply wrapu_id. split; [apply Z.lt_le_incl, pow2_pos; lia|apply Z.pow_lt_mono_r; lia]. Qed.
(** A mask cut to a width no smaller than that of the word. *)
Lemma land_wrapu w v x y : 0 <= v <= w -> in_u v x -> x .& wrapu w y = x .& y.
Proof.
  intros Hv Hx. apply Z.bits_inj'. intros i Hi. rewrite !Z.land_spec, wrapu_testbit by lia.
  destruct (Z.ltb_spec i w); [done|]. by rewrite (in_u_testbit v x i Hx) by lia.
Qed.

(** *** Processors *)
Definition member (e : Z) (X : gset Z) (v : Z) : Prop := truth v = bool_decide (e ∈ X).
Definition cpu_bit (m : data_model) (cpu : Z) : Z := cpu .& BT_ULMASK m.
Definition cpus (m : data_model) (NCPU : Z) : gset Z := range 0 (BT_NBIPUL m * Z.of_nat (CPUSET_WORDS m NCPU)).

Lemma cpu_bit_mod m cpu : cpu_bit m cpu = cpu mod BT_NBIPUL m.
Proof. unfold cpu_bit. pose proof (ulshift_range m). by rewrite ulmask_ones, Z.land_ones, nbipul_pow by lia. Qed.
#[export] Instance cpu_places m NCPU : Places (cpus m NCPU) (BT_WIM m) (cpu_bit m) (CPUSET_WORDS m NCPU) (fun _ => BT_NBIPUL m).
Proof.
  apply plain_places; [apply nbipul_pos|]. intros e _. pose proof (ulshift_range m).
  rewrite Z.sub_0_r, cpu_bit_mod. split; [|done]. unfold BT_WIM. by rewrite Z.shiftr_div_pow2, nbipul_pow by lia.
Qed.

Section Cpusets.
Context {W : WordOps} (m : data_model) (NCPU : Z).
Abbreviation dom := (cpus m NCPU).
Abbreviation ok := (words_ok (CPUSET_WORDS m NCPU) (fun _ => BT_NBIPUL m)).
Abbreviation elems := (elements_of dom (BT_WIM m) (cpu_bit m)).

#[export] Instance cpuset_family : SetMacros cpuset_macro (list Z) := {|
  well := ok; denote := elems; exec := cpuset_exec m NCPU;
  legal c := match c with
    | CPU_IN_SET e | CPUSET_ADD e | CPUSET_DEL e | CPUSET_ATOMIC_ADD e | CPUSET_ATOMIC_DEL e | CPUSET_ATOMIC_XADD e
    | CPUSET_ATOMIC_XDEL e => e ∈ dom
    | CPUSET_OR t | CPUSET_AND t => ok t
    | CPUSET_ZERO => True end;
  mean c X := match c with
    | CPU_IN_SET _ => X
    | CPUSET_ADD e | CPUSET_ATOMIC_ADD e | CPUSET_ATOMIC_XADD e => {[e]} ∪ X
    | CPUSET_DEL e | CPUSET_ATOMIC_DEL e | CPUSET_ATOMIC_XDEL e => X ∖ {[e]}
    | CPUSET_OR t => X ∪ elems t | CPUSET_AND t => X ∩ elems t | CPUSET_ZERO => ∅ end;
  answers c X v := match c with
    | CPU_IN_SET e => member e X v
    | CPUSET_ATOMIC_XADD e => v = if bool_decide (e ∈ X) then -1 else 0
    | CPUSET_ATOMIC_XDEL e => v = if bool_decide (e ∈ X) then 0 else -1
    | _ => v = 0 end |}.

Lemma void_law (o : option (list Z)) X (P : list Z -> Prop) (D : list Z -> gset Z) :
  (exists l', o = Some l' /\ P l' /\ D l' = X) -> exists l' v, void o = Some (l', v) /\ P l' /\ D l' = X /\ v = 0.
Proof. intros (l' & -> & ? & ?). by exists l', 0. Qed.

Lemma BIW_bit e : BT_BIW m e = 2 ^ cpu_bit m e.
Proof. apply BIW_pow. Qed.

(** The exclusive operations are the plain ones, and tell whether the bit was set. *)
Lemma excl_op op l e (b : bool) : ok l -> e ∈ dom ->
  (forall x, in_u (BT_NBIPUL m) x -> (op x (cpu_bit m e)).1 = (if b then x .| 2 ^ cpu_bit m e else x .& .~ 2 ^ cpu_bit m e)
             /\ (op x (cpu_bit m e)).2 = if Bool.eqb (Z.testbit x (cpu_bit m e)) b then -1 else 0) ->
  exists l' v, BT_ATOMIC_EXCL m op l e = Some (l', v) /\ ok l' /\ elems l' = (if b then {[e]} ∪ elems l else elems l ∖ {[e]})
    /\ v = if Bool.eqb (bool_decide (e ∈ elems l)) b then -1 else 0.
Proof.
  intros Hok He Hop. destruct (word_at l e Hok He) as (x & Hx & Hr & Hh). destruct (Hop x Hr) as [H1 H2].
  assert (bool_decide (e ∈ elems l) = Z.testbit x (cpu_bit m e)) as ->.
  { destruct (test_bit l e _ Hok He eq_refl) as (y & Hy & _ & <-). rewrite Hx in Hy. injection Hy as <-.
    apply truth_land_pow2. destruct (place_in e He); lia. }
  assert (exists l', at_word (BT_WIM m e) (fun x => (op x (cpu_bit m e)).1) l = Some l' /\ ok l'
            /\ elems l' = if b then {[e]} ∪ elems l else elems l ∖ {[e]}) as (l' & E & ? & ?).
  { apply (assign_bit l e b); [done..|]. intros y Hy. destruct (Hop y Hy) as [-> _]. destruct (place_in e He) as [_ Hb]. split.
    - destruct b; [apply in_u_lor; [pose proof (nbipul_pos m); lia|done|]|by apply in_u_land_l; [pose proof (nbipul_pos m); lia|]].
      split; [apply Z.lt_le_incl, pow2_pos; lia|apply Z.pow_lt_mono_r; lia].
    - intros k Hk. destruct b; [rewrite Z.lor_spec|rewrite Z.land_spec, Z.lnot_spec by lia]; rewrite pow2_testbit by lia;
        destruct (k =? _); simpl; rewrite ?orb_true_r, ?orb_false_r, ?andb_true_r, ?andb_false_r; done. }
  unfold BT_ATOMIC_EXCL. unfold at_word in E. rewrite Hx in *. cbn [mbind option_bind] in *. rewrite <- cpu_bit_mod.
  destruct (op x (cpu_bit m e)) as [y v]. simpl in *. injection E as <-. eauto 10.
Qed.

(** The loops over two sets. *)
Lemma merge_words op g l t : ok l -> ok t ->
  (forall x y, in_u (BT_NBIPUL m) x -> in_u (BT_NBIPUL m) y -> in_u (BT_NBIPUL m) (g x y)
     /\ forall b, Z.testbit (g x y) b = op (Z.testbit x b) (Z.testbit y b)) ->
  exists l', for_up (CPUSET_WORDS m NCPU) 0 (fun i s => y ← t !! i; at_word i (fun x => g x y) s) l = Some l' /\ ok l'
    /\ forall e, e ∈ dom -> has (word := BT_WIM m) (bit := cpu_bit m) l' e
         = op (has (word := BT_WIM m) (bit := cpu_bit m) l e) (has (word := BT_WIM m) (bit := cpu_bit m) t e).
Proof.
  intros Hl Ht Hg. destruct (for_up_spec (fun i x => g x (t !!! i)) (fun i s => y ← t !! i; at_word i (fun x => g x y) s)
    (CPUSET_WORDS m NCPU) 0 l) as (l' & E & Hn & H).
  - intros j s Hj _. destruct (lookup_lt_is_Some_2 t j ltac:(destruct Ht; lia)) as [y Hy].
    rewrite Hy. simpl. by rewrite (list_lookup_total_correct _ _ _ Hy).
  - destruct Hl. lia.
  - exists l'. split; [done|]. apply combine_words; [done..|destruct Hl; lia|]. intros i x y Hx Hy.
    rewrite (H i x Hx), bool_decide_true by (apply lookup_lt_Some in Hx; destruct Hl; lia).
    rewrite (list_lookup_total_correct _ _ _ Hy). destruct (Hg x y) as [Hr Hb]; [by eapply Hl|by eapply Ht|].
    eexists. split_and!; [done|done|]. intros b _. apply Hb.
Qed.

Lemma cpuset_laws {L : WordOpsLaws} : SetLaws cpuset_macro (list Z) cpuset_family.
Proof.
  intros c l Hc Hl. pose proof (nbipul_pos m). destruct c as [e|e|e|e|e|e|e|t|t|]; cbn -[elements_of words_ok cpus] in *.
  - unfold BT_TEST. destruct (test_bit l e (BT_BIW m e) Hl Hc (BIW_bit e)) as (x & -> & _ & Ht). simpl. eexists _, _.
    split_and!; [done..|]. unfold member. rewrite Ht. by destruct (bool_decide _).
  - apply void_law, set_bit, BIW_bit; done.
  - apply void_law, (clear_bit l e (fun w => w .& wrapu (BT_NBIPUL m) (.~ BT_BIW m e))); [done..|]. intros x Hx.
    rewrite (land_wrapu _ (BT_NBIPUL m)), BIW_bit by (done || lia). done.
  - apply void_law, set_bit, BIW_bit; done.
  - apply void_law, (clear_bit l e (fun w => w .& wrapu (BT_NBIPUL m) (.~ BT_BIW m e))); [done..|]. intros x Hx.
    rewrite (land_wrapu _ (BT_NBIPUL m)), BIW_bit by (done || lia). done.
  - destruct (place_in e Hc) as [_ ?]. destruct (excl_op atomic_set_long_excl l e true) as (l' & v & E & ? & ? & Hv); [done..| |].
    + intros x _. rewrite set_excl_ok, shift1 by lia. simpl. by destruct (Z.testbit _ _).
    + exists l', v. split_and!; [done..|]. rewrite Hv. by destruct (bool_decide _).
  - destruct (place_in e Hc) as [_ ?]. destruct (excl_op atomic_clear_long_excl l e false) as (l' & v & E & ? & ? & Hv); [done..| |].
    + intros x _. rewrite clear_excl_ok, shift1 by lia. simpl. by destruct (Z.testbit _ _).
    + exists l', v. split_and!; [done..|]. rewrite Hv. by destruct (bool_decide _).
  - apply void_law. destruct (merge_words orb Z.lor l t Hl Hc) as (l' & E & Hok & Hh).
    + intros x y Hx Hy. split; [apply in_u_lor; done || lia|intros; apply Z.lor_spec].
    + exists l'. split_and!; [done..|]. apply elements_ext; [intros e; rewrite elem_of_union, !elem_of_words; tauto|].
      intros e He. rewrite Hh, orb_true_iff, elem_of_union, !elem_of_words by done. tauto.
  - apply void_law. destruct (merge_words andb Z.land l t Hl Hc) as (l' & E & Hok & Hh).
    + intros x y Hx Hy. split; [apply in_u_land_l; done || lia|intros; apply Z.land_spec].
    + exists l'. split_and!; [done..|]. apply elements_ext; [intros e; rewrite elem_of_intersection, !elem_of_words; tauto|].
      intros e He. rewrite Hh, andb_true_iff, elem_of_intersection, !elem_of_words by done. tauto.
  - apply void_law. destruct (for_up_spec (fun _ _ => 0) (fun i s => at_word i (fun _ => 0) s) (CPUSET_WORDS m NCPU) 0 l)
      as (l' & E & Hn & Hz); [done|destruct Hl; lia|]. exists l'. split; [done|].
    assert (l' = replicate (CPUSET_WORDS m NCPU) 0) as ->; [|apply empty_words].
    destruct Hl as [Hl _]. apply list_eq_same_length with (n := CPUSET_WORDS m NCPU); [by rewrite length_replicate|lia|].
    intros i x y Hi Hx [-> _]%lookup_replicate. destruct (lookup_lt_is_Some_2 l i ltac:(lia)) as [z Hlz].
    rewrite (Hz i z Hlz), bool_decide_true in Hx by lia. congruence.
Qed.
End Cpusets.

(** The set in one word is the array of that word. *)
Section Cpuset1.
Context {W : WordOps} (m : data_model).
Definition cpus1 : gset Z := range 0 (BT_NBIPUL m * Z.of_nat 1).
#[export] Instance cpu1_places : Places cpus1 (fun _ => 0%nat) (fun e => e) 1 (fun _ => BT_NBIPUL m).
Proof.
  pose proof (nbipul_pos m). apply plain_places; [done|]. intros e He. rewrite Z.sub_0_r, Z.div_small, Z.mod_small by lia. done.
Qed.
Definition ok1 (x : Z) : Prop := words_ok 1 (fun _ => BT_NBIPUL m) [x].
Definition elems1 (x : Z) : gset Z := elements_of cpus1 (fun _ => 0%nat) (fun e => e) [x].

#[export] Instance cpuset1_family : SetMacros cpuset1_macro Z := {|
  well := ok1; denote := elems1; exec := cpuset1_exec m;
  legal c := match c with
    | IN_SET1 e | ADD1 e | DEL1 e | ATOMIC_ADD1 e | ATOMIC_DEL1 e | ATOMIC_XADD1 e | ATOMIC_XDEL1 e | ALL_BUT1 e | ONLY1 e => e ∈ cpus1
    | OR1 t | AND1 t | ISEQUAL1 t => ok1 t
    | ZERO1 | ALL1 | ISNULL1 | FIND1 => True end;
  mean c X := match c with
    | IN_SET1 _ | ISNULL1 | ISEQUAL1 _ | FIND1 => X
    | ADD1 e | ATOMIC_ADD1 e | ATOMIC_XADD1 e => {[e]} ∪ X | DEL1 e | ATOMIC_DEL1 e | ATOMIC_XDEL1 e => X ∖ {[e]}
    | OR1 t => X ∪ elems1 t | AND1 t => X ∩ elems1 t | ZERO1 => ∅ | ALL1 => cpus1
    | ALL_BUT1 e => cpus1 ∖ {[e]} | ONLY1 e => {[e]} end;
  answers c X v := match c with
    | IN_SET1 e => member e X v
    | ATOMIC_XADD1 e => v = if bool_decide (e ∈ X) then -1 else 0
    | ATOMIC_XDEL1 e => v = if bool_decide (e ∈ X) then 0 else -1
    | ISNULL1 => v = b2z (bool_decide (X = ∅))
    | ISEQUAL1 t => v = b2z (bool_decide (X = elems1 t))
    | FIND1 => X = ∅ /\ v = CPUSET_NOTINSET \/ v ∈ X /\ forall e, e ∈ X -> v <= e
    | _ => v = 0 end |}.

Lemma ok1_range x : ok1 x <-> in_u (BT_NBIPUL m) x.
Proof.
  split; [intros [_ H]; exact (H 0%nat x eq_refl)|]. intros Hx. split; [done|]. intros [|i] y; [by intros [= <-]|done].
Qed.
Lemma elem_of_1 x e : e ∈ elems1 x <-> Z.testbit x e = true /\ e ∈ cpus1.
Proof. unfold elems1. by rewrite elem_of_words. Qed.
(** A word is determined by its set. *)
Lemma elems1_inj x y : ok1 x -> ok1 y -> elems1 x = elems1 y -> x = y.
Proof.
  intros Hx%ok1_range Hy%ok1_range E. apply Z.bits_inj'. intros e He. destruct (Z.ltb_spec e (BT_NBIPUL m)).
  - assert (e ∈ cpus1) as Hd by (apply elem_of_range; lia). apply eq_true_iff_eq.
    pose proof (elem_of_1 x e). pose proof (elem_of_1 y e). rewrite E in *. tauto.
  - by rewrite !(in_u_testbit (BT_NBIPUL m)) by done.
Qed.
Lemma elems1_is x X : X ⊆ cpus1 -> (forall e, e ∈ cpus1 -> Z.testbit x e = true <-> e ∈ X) -> elems1 x = X.
Proof. intros Hs H. unfold elems1. apply elements_ext; [done|]. intros e He. by apply H. Qed.
Lemma cpu1_range e : e ∈ cpus1 -> 0 <= e < BT_NBIPUL m.
Proof. intros H%elem_of_range. lia. Qed.
Lemma CPUSET_bit e : e ∈ cpus1 -> CPUSET m e = 2 ^ e.
Proof. intros He%cpu1_range. by apply wrapu_shift1. Qed.
Lemma CPUSET_shift e : e ∈ cpus1 -> CPUSET m e = 1 <<< e.
Proof. intros He. rewrite CPUSET_bit by done. apply cpu1_range in He. by rewrite shift1 by lia. Qed.
Lemma CPUSET_ok e : e ∈ cpus1 -> in_u (BT_NBIPUL m) (CPUSET m e).
Proof. intros He. apply wrapu_range. pose proof (nbipul_pos m). lia. Qed.

Lemma find1 {L : WordOpsLaws} x : ok1 x ->
  elems1 x = ∅ /\ u32 (lowbit x - 1) = CPUSET_NOTINSET
  \/ u32 (lowbit x - 1) ∈ elems1 x /\ forall e, e ∈ elems1 x -> u32 (lowbit x - 1) <= e.
Proof.
  intros Hx%ok1_range. destruct (Z.eqb_spec x 0) as [->|Hne].
  - left. rewrite lowbit_zero. split; [|done]. apply elems1_is; [set_solver|]. intros e _. rewrite Z.testbit_0_l. set_solver.
  - right. destruct (lowbit_some x) as (Hp & Ht & Hl); [unfold in_u in Hx; lia|].
    assert (lowbit x - 1 < BT_NBIPUL m).
    { apply Z.nle_gt. intros Hge. by rewrite (in_u_testbit _ x _ Hx Hge) in Ht. }
    assert (BT_NBIPUL m <= 64) by (by destruct m). rewrite wrapu_id by (unfold in_u; lia). split.
    + apply elem_of_1. split; [done|]. apply elem_of_range. lia.
    + intros e [He _]%elem_of_1. apply Z.nlt_ge. intros Hlt. by rewrite Hl in He.
Qed.

(** A macro whose new word has the bits of the set it means. *)
Lemma law1 c x y v : exec c x = Some (y, v) -> in_u (BT_NBIPUL m) y -> mean c (elems1 x) ⊆ cpus1 ->
  (forall e, e ∈ cpus1 -> Z.testbit y e = true <-> e ∈ mean c (elems1 x)) -> answers c (elems1 x) v ->
  exists s' v, exec c x = Some (s', v) /\ ok1 s' /\ elems1 s' = mean c (elems1 x) /\ answers c (elems1 x) v.
Proof. intros E Hy Hs He Ha. exists y, v. split_and!; [done|by apply ok1_range|by apply elems1_is|done]. Qed.
Lemma elems1_sub x : elems1 x ⊆ cpus1.
Proof. intros e [_ ?]%elem_of_1. done. Qed.
Lemma elems1_bit x e : e ∈ cpus1 -> Z.testbit x e = true <-> e ∈ elems1 x.
Proof. rewrite elem_of_1. tauto. Qed.
Lemma elems1_bool x e : e ∈ cpus1 -> Z.testbit x e = bool_decide (e ∈ elems1 x).
Proof. intros He. apply eq_true_iff_eq. by rewrite bool_decide_eq_true, elems1_bit. Qed.
Lemma CPUSET_testbit e k : e ∈ cpus1 -> Z.testbit (CPUSET m e) k = (k =? e).
Proof. intros He. rewrite CPUSET_bit by done. apply pow2_testbit. apply cpu1_range in He. lia. Qed.
Lemma not_testbit x k : k ∈ cpus1 -> Z.testbit (wrapu (BT_NBIPUL m) (.~ x)) k = negb (Z.testbit x k).
Proof.
  intros Hk%cpu1_range. pose proof (nbipul_pos m). rewrite wrapu_testbit, lnot_testbit by lia. zcases. done.
Qed.

(** The new word bit by bit. *)
Ltac bits1 :=
  let k := fresh "k" in let Hk := fresh "Hk" in
  intros k Hk; rewrite ?Z.lor_spec, ?Z.land_spec, ?not_testbit, ?CPUSET_testbit, ?lnot_testbit, ?CPUSET_testbit, ?shift1, ?pow2_testbit, ?Z.testbit_0_l
    by (done || (apply cpu1_range in Hk; lia));
  rewrite ?elem_of_union, ?elem_of_intersection, ?elem_of_difference, ?elem_of_singleton, ?elem_of_empty, ?orb_true_iff, ?andb_true_iff,
    ?negb_true_iff, ?Z.eqb_neq, ?Z.eqb_eq, ?elems1_bit by done;
  try tauto.
Ltac step1 := eapply law1; [cbv beta iota zeta delta [exec cpuset1_family cpuset1_exec]|
  cbv beta iota zeta delta [mean answers cpuset1_family legal well] in *..].

Lemma cpuset1_laws {L : WordOpsLaws} : SetLaws cpuset1_macro Z cpuset1_family.
Proof.
  intros c x Hc Hx. pose proof (nbipul_pos m) as Hp. pose proof (proj1 (ok1_range x) Hx) as Hr. pose proof (elems1_sub x) as Hsub.
  destruct c as [e|e|e|e|e|e|e|t|t| | |e|e| |t|].
  - step1; [done..|bits1|]. unfold member. rewrite CPUSET_bit by done. rewrite truth_land_pow2 by (apply cpu1_range in Hc; lia). by apply elems1_bool.
  - step1; [done|apply in_u_lor; [lia|done|by apply CPUSET_ok]|set_solver|bits1|done].
  - step1; [done|apply in_u_land_l; [lia|done]|set_solver|bits1|done].
  - step1; [done|apply in_u_lor; [lia|done|by apply CPUSET_ok]|set_solver|bits1|done].
  - step1; [done|apply in_u_land_l; [lia|done]|set_solver|bits1|done].
  - apply cpu1_range in Hc as He. step1; [f_equal; apply set_excl_ok; lia|rewrite <- CPUSET_shift by done; apply in_u_lor; [lia|done|by apply CPUSET_ok]|set_solver| |by rewrite elems1_bool].
    rewrite <- CPUSET_shift by done. bits1.
  - apply cpu1_range in Hc as He. step1; [f_equal; apply clear_excl_ok; lia|apply in_u_land_l; [lia|done]|set_solver| |by rewrite elems1_bool].
    rewrite <- CPUSET_shift by done. bits1. apply cpu1_range in Hk. rewrite Z.leb_le. tauto.
  - step1; [done|apply in_u_lor; [lia|done|by apply ok1_range]|pose proof (elems1_sub t); set_solver|bits1|done].
  - step1; [done|apply in_u_land_l; [lia|done]|set_solver|bits1|done].
  - step1; [done|split; [lia|apply pow2_pos; lia]|set_solver|bits1; done|done].
  - step1; [done|apply wrapu_range; lia|done|bits1; done|done].
  - step1; [done|apply wrapu_range; lia|set_solver|bits1|done].
  - step1; [done|by apply CPUSET_ok|set_solver|bits1|done].
  - step1; [done..|bits1|]. f_equal. symmetry. destruct (Z.eqb_spec x 0) as [->|Hne]; [apply bool_decide_true|apply bool_decide_false].
    + apply elems1_is; [set_solver|bits1; done].
    + intros E. apply Hne, elems1_inj; [done|apply ok1_range; split; [lia|apply pow2_pos; lia]|]. rewrite E. symmetry.
      apply elems1_is; [set_solver|bits1; done].
  - step1; [done..|bits1|]. f_equal. symmetry. destruct (Z.eqb_spec x t) as [->|Hne]; [by apply bool_decide_true|apply bool_decide_false].
    intros E. by apply Hne, elems1_inj.
  - step1; [done..|bits1|]. by apply find1.
Qed.
End Cpuset1.

(** *** Privileges *)
Definition privs (n : nat) : gset Z := range 0 (32 * Z.of_nat n).
Definition priv_bit (b : Z) : Z := 32 - 1 - b mod 32.
#[export] Instance priv_places n : Places (privs n) privword priv_bit n (fun _ => 32).
Proof.
  apply (reversed_places _ _ (fun b => b mod 32)), plain_places; [lia|]. intros e _. by rewrite Z.sub_0_r.
Qed.
Lemma privmask_bit b : privmask b = 2 ^ priv_bit b.
Proof. apply wrapu_shift1. change (0 <= 32 - 1 - b mod 32 < 32). pose proof (Z.mod_pos_bound b 32 ltac:(lia)). lia. Qed.

#[export] Instance priv_family (n : nat) : SetMacros priv_macro (list Z) := {|
  well := words_ok n (fun _ => 32); denote := elements_of (privs n) privword priv_bit; exec := priv_exec;
  legal c := match c with __PRIV_ASSERT b | __PRIV_CLEAR b | __PRIV_ISASSERT b => b ∈ privs n end;
  mean c X := match c with __PRIV_ASSERT b => {[b]} ∪ X | __PRIV_CLEAR b => X ∖ {[b]} | __PRIV_ISASSERT _ => X end;
  answers c X v := match c with __PRIV_ISASSERT b => member b X v | _ => v = 0 end |}.
Lemma priv_laws n : SetLaws priv_macro (list Z) (priv_family n).
Proof.
  intros [b|b|b] l Hb Hl; cbn -[elements_of words_ok privs] in *.
  - apply void_law, set_bit, privmask_bit; done.
  - apply void_law, (clear_bit l b); [done..|]. intros x Hx. rewrite (land_wrapu 32 32), privmask_bit by (done || lia). done.
  - destruct (test_bit l b _ Hl Hb (privmask_bit b)) as (x & -> & _ & Ht). by eexists _, _.
Qed.

(** *** Signals *)
Definition signals : gset Z := range 1 MAXSIG.
Definition sig_bit (n : Z) : Z := (n - 1) mod 32.
Definition sig_width (i : nat) : Z := match i with O => 32 | _ => MAXSIG - 32 end.
Lemma sigmask_bit n : sigmask n = 2 ^ sig_bit n.
Proof.
  unfold sigmask. change (32 - 1) with (Z.ones 5). rewrite Z.land_ones by lia. apply wrapu_shift1.
  apply Z.mod_pos_bound. lia.
Qed.
Lemma sigword_div n : 1 <= n <= 128 -> sigword n = Z.to_nat ((n - 1) / 32).
Proof. intros Hn. unfold sigword. rewrite wrapu_id by (unfold in_u; lia). by rewrite Z.shiftr_div_pow2. Qed.
#[export] Instance sig_places : Places signals sigword sig_bit 2 sig_width.
Proof.
  unfold signals, sig_bit, MAXSIG. split.
  - intros [|i]; simpl; unfold MAXSIG; lia.
  - intros e He%elem_of_range. rewrite sigword_div by lia. pose proof (Z.mod_pos_bound (e - 1) 32 ltac:(lia)).
    pose proof (Z.div_mod (e - 1) 32 ltac:(lia)). assert ((e - 1) / 32 = 0 \/ (e - 1) / 32 = 1) as [Hq|Hq] by lia;
      rewrite Hq in *; simpl; unfold MAXSIG; lia.
  - intros e e' He%elem_of_range He'%elem_of_range. rewrite !sigword_div by lia. pose proof (Z.div_pos (e - 1) 32).
    pose proof (Z.div_pos (e' - 1) 32). pose proof (Z.div_mod (e - 1) 32). pose proof (Z.div_mod (e' - 1) 32). lia.
  - intros i b Hi Hb. exists (32 * Z.of_nat i + b + 1).
    assert (1 <= 32 * Z.of_nat i + b + 1 < 1 + 48) by (destruct i as [|[|]]; unfold sig_width, MAXSIG in Hb; lia).
    split; [by apply elem_of_range|]. rewrite sigword_div by lia.
    replace (32 * Z.of_nat i + b + 1 - 1) with (b + Z.of_nat i * 32) by lia. assert (b < 32) by (destruct i; simpl in Hb; unfold MAXSIG in Hb; lia).
    rewrite Z_div_plus_full, Z_mod_plus_full, Z.div_small, Z.mod_small by lia. split; lia.
Qed.

Abbreviation sig_ok := (words_ok 2 sig_width).
Abbreviation sig_elems := (elements_of signals sigword sig_bit).
#[export] Instance sig_family (nullsmask fillset : list Z) : SetMacros sig_macro (list Z) := {|
  well := sig_ok; denote := sig_elems; exec := sig_exec nullsmask fillset;
  legal c := match c with sigaddset n | sigdelset n | sigismember n => n ∈ signals | _ => True end;
  mean c X := match c with
    | sigemptyset => sig_elems nullsmask | sigfillset => sig_elems fillset | sigaddset n => {[n]} ∪ X | sigdelset n => X ∖ {[n]}
    | sigismember _ | sigisempty => X end;
  answers c X v := match c with
    | sigismember n => member n X v | sigisempty => v = b2z (bool_decide (X = ∅)) | _ => v = 0 end |}.

(** The two variables of the kernel are sets of signals; which ones is up to it. *)
Lemma sig_laws nullsmask fillset : sig_ok nullsmask -> sig_ok fillset -> SetLaws sig_macro (list Z) (sig_family nullsmask fillset).
Proof.
  intros Hnull Hfill [| |n|n|n|] l Hc Hl; cbn -[elements_of words_ok signals] in *.
  - by exists nullsmask, 0.
  - by exists fillset, 0.
  - apply void_law, set_bit, sigmask_bit; done.
  - apply void_law, (clear_bit l n); [done..|]. intros x Hx. rewrite (land_wrapu 32 (sig_width (sigword n))), sigmask_bit; [done| |done].
    destruct (sigword n); simpl; unfold MAXSIG; lia.
  - destruct (test_bit l n _ Hl Hc (sigmask_bit n)) as (x & -> & _ & Ht). simpl. eexists _, _. split_and!; [done..|].
    unfold member. by rewrite Z.land_comm.
  - destruct Hl as [Hn Hw]. destruct l as [|x [|y []]]; try done. simpl. eexists _, _. split_and!; [done..|]. f_equal.
    pose proof (zero_words [x; y] (conj Hn Hw)) as Hz. unfold truth. rewrite negb_involutive.
    destruct (Z.eqb_spec (x .| y) 0) as [E%Z.lor_eq_0_iff|E]; symmetry; [apply bool_decide_true, Hz|apply bool_decide_false].
    + intros [|[|i]] z; simpl; intros [= <-]; apply E.
    + intros H. pose proof (proj2 Hz H) as H0. clear H. apply E. rewrite (H0 0%nat x eq_refl), (H0 1%nat y eq_refl). done.
Qed.

(** *** Flag sets of /proc *)
Definition pr_flags (n : nat) : gset Z := range 1 (32 * Z.of_nat n).
Definition pr_word (flag : Z) : nat := Z.to_nat (Z.quot (flag - 1) 32).
Definition pr_bit (flag : Z) : Z := Z.rem (flag - 1) 32.
#[export] Instance pr_places n : Places (pr_flags n) pr_word pr_bit n (fun _ => 32).
Proof.
  apply plain_places; [lia|]. intros e He. unfold pr_word, pr_bit. rewrite Z.quot_div_nonneg, Z.rem_mod_nonneg by lia. done.
Qed.
Abbreviation pr_ok n := (words_ok n (fun _ => 32)).
Abbreviation pr_elems n := (elements_of (pr_flags n) pr_word pr_bit).
(** A flag that the set has no place for is never in it. *)
#[export] Instance pr_family (n : nat) (w : Z) : SetMacros pr_macro (list Z) := {|
  well := pr_ok n; denote := pr_elems n; exec := pr_exec n w;
  legal c := match c with praddset f | prdelset f | prismember f => - 2 ^ 31 < f < 2 ^ 31 | _ => True end;
  mean c X := match c with
    | prfillset => pr_flags n | premptyset => ∅ | praddset f => if decide (f ∈ pr_flags n) then {[f]} ∪ X else X
    | prdelset f => X ∖ {[f]} | prismember _ => X end;
  answers c X v := match c with prismember f => member f X v | _ => v = 0 end |}.

Lemma pr_in_range_spec n f : 32 * Z.of_nat n < 2 ^ 31 -> - 2 ^ 31 < f < 2 ^ 31 -> pr_in_range n f = bool_decide (f ∈ pr_flags n).
Proof.
  intros Hn Hf. unfold pr_in_range. replace (32 * (4 * Z.of_nat n) / 4) with (32 * Z.of_nat n)
    by (rewrite <- (Z.div_mul (32 * Z.of_nat n) 4) by lia; f_equal; lia).
  apply eq_true_iff_eq. rewrite Z.ltb_lt, bool_decide_eq_true. unfold pr_flags. rewrite elem_of_range.
  destruct (Z.leb_spec 1 f); [rewrite wrapu_id by (unfold in_u; lia); lia|].
  unfold wrapu. rewrite <- (Z_mod_plus_full _ 1), Z.mod_small by lia. lia.
Qed.
Lemma u32_id x : in_u 32 x -> u32 x = x.
Proof. apply wrapu_id. Qed.

Lemma pr_laws n w : 32 <= w -> 32 * Z.of_nat n < 2 ^ 31 -> SetLaws pr_macro (list Z) (pr_family n w).
Proof.
  intros Hw Hn c l Hc Hl. assert (forall f, f ∈ pr_flags n -> wrapu w (1 <<< Z.rem (f - 1) 32) = 2 ^ pr_bit f) as Hm.
  { intros f Hf. destruct (place_in f Hf) as [_ Hb]. apply wrapu_shift1. lia. }
  assert (forall f, f ∉ pr_flags n -> f ∉ pr_elems n l) as Hno by (intros f Hf; rewrite elem_of_words; tauto).
  destruct Hl as [Hlen Hr]. pose proof (conj Hlen Hr : pr_ok n l) as Hl.
  destruct c as [| |f|f|f]; cbn -[elements_of words_ok pr_flags pr_in_range while_down] in *; try change (Z.to_nat (Z.quot (f - 1) 32)) with (pr_word f).
  - apply void_law. rewrite while_down_spec, <- Hlen, drop_all, app_nil_r, Hlen by lia. eexists. split; [done|].
    apply full_words; [apply length_replicate|]. by intros i x [-> _]%lookup_replicate.
  - apply void_law. rewrite while_down_spec, <- Hlen, drop_all, app_nil_r, Hlen by lia. eexists. split; [done|]. apply empty_words.
  - rewrite pr_in_range_spec by done. case_decide as Hf; [rewrite bool_decide_true by done|rewrite bool_decide_false by done; by eexists _, _].
    apply void_law. rewrite Hm by done. apply (assign_bit l f true); [done..|]. intros x Hx. destruct (place_in f Hf) as [_ Hb].
    assert (in_u 32 (x .| 2 ^ pr_bit f)) as Hr' by (apply in_u_lor; [lia|done|split; [apply Z.lt_le_incl, pow2_pos; lia|apply Z.pow_lt_mono_r; lia]]).
    rewrite u32_id by done. split; [done|]. intros k Hk. rewrite Z.lor_spec, pow2_testbit by lia.
    destruct (k =? _); [apply orb_true_r|apply orb_false_r].
  - rewrite pr_in_range_spec by done. destruct (decide (f ∈ pr_flags n)) as [Hf|Hf];
      [rewrite bool_decide_true by done|rewrite bool_decide_false by done; eexists _, _; split_and!; [done..|specialize (Hno f Hf); set_solver|done]].
    apply void_law. rewrite Hm by done. apply (clear_bit l f); [done..|]. intros x Hx.
    rewrite (land_wrapu w 32) by (done || lia). apply u32_id, in_u_land_l; [lia|done].
  - rewrite pr_in_range_spec by done. destruct (decide (f ∈ pr_flags n)) as [Hf|Hf];
      [rewrite bool_decide_true by done|rewrite bool_decide_false by done; eexists _, _; split_and!; [done..|]].
    + rewrite Hm by done. destruct (test_bit l f _ Hl Hf eq_refl) as (x & -> & _ & Ht). simpl. eexists _, _. split_and!; [done..|].
      unfold member. rewrite Ht. by destruct (bool_decide _).
    + unfold member. rewrite bool_decide_false; [done|]. by apply Hno.
Qed.

(** *** Descriptors *)
Section Fds.
Context (m : data_model) (n : nat).
Abbreviation B := (FD_NFDBITS m).
Definition fds : gset Z := range 0 (B * Z.of_nat n).
Definition fd_word (e : Z) : nat := Z.to_nat (wrapu B e / B).
Definition fd_bit (e : Z) : Z := wrapu B e mod B.
Definition fd_longs (p : list Z) : list Z := wrapu B <$> p.

Lemma fd_bits_cases : B = 32 \/ B = 64.
Proof. destruct m; [by left|by right]. Qed.
Lemma fd_places : B * Z.of_nat n <= 2 ^ 31 -> Places fds fd_word fd_bit n (fun _ => B).
Proof.
  intros Hn. pose proof fd_bits_cases. apply plain_places; [lia|]. intros e He. unfold fd_word, fd_bit.
  rewrite Z.sub_0_r, wrapu_id; [done|]. split; [lia|]. apply Z.lt_le_trans with (2 ^ 31); [lia|]. apply Z.pow_le_mono_r; lia.
Qed.

(** A set is in signed longs; their bits are those of the unsigned ones. *)
#[export] Instance fd_family : SetMacros fd_macro (list Z) := {|
  well p := length p = n /\ Forall (fun x => - 2 ^ (B - 1) <= x < 2 ^ (B - 1)) p;
  denote p := elements_of fds fd_word fd_bit (fd_longs p); exec := fd_exec m;
  legal c := match c with FD_SET e | FD_CLR e | FD_ISSET e => e ∈ fds | FD_ZERO => True end;
  mean c X := match c with FD_SET e => {[e]} ∪ X | FD_CLR e => X ∖ {[e]} | FD_ISSET _ => X | FD_ZERO => ∅ end;
  answers c X v := match c with FD_ISSET e => member e X v | _ => v = 0 end |}.

Lemma longs_ok p : length p = n -> words_ok n (fun _ => B) (fd_longs p).
Proof.
  intros Hp. pose proof fd_bits_cases. split; [by unfold fd_longs; rewrite length_fmap|].
  intros i x (y & -> & _)%list_lookup_fmap_Some. apply wrapu_range. lia.
Qed.

(** An update of unsigned longs, done on the signed ones. *)
Lemma fd_update i g p X l' : well p -> (forall x, in_u B x -> in_u B (g x)) ->
  at_word i g (fd_longs p) = Some l' /\ words_ok n (fun _ => B) l' /\ elements_of fds fd_word fd_bit l' = X ->
  exists p' v, void (at_word i (fun x => wraps B (g (wrapu B x))) p) = Some (p', v) /\ well p' /\ denote p' = X /\ v = 0.
Proof.
  intros [Hp Hr] Hg (E & _ & HX). pose proof fd_bits_cases as HB. unfold at_word, fd_longs in *. rewrite list_lookup_fmap in E.
  destruct (p !! i) as [x|] eqn:Hx; [|done]. simpl in E. injection E as <-. simpl. eexists _, _. split; [done|].
  assert (in_u B (g (wrapu B x))) as Hy by (apply Hg, wrapu_range; lia). split_and!; [by rewrite length_insert| | |done].
  - apply Forall_insert; [done|]. apply wraps_range. lia.
  - rewrite <- HX. simpl. f_equal. unfold fd_longs. rewrite list_fmap_insert, wrapu_wraps, wrapu_id by (done || lia). done.
Qed.

Lemma fd_laws : B * Z.of_nat n <= 2 ^ 31 -> SetLaws fd_macro (list Z) fd_family.
Proof.
  intros Hn c p Hc Hp. pose proof fd_bits_cases as HB. pose proof (fd_places Hn) as HP. pose proof (longs_ok p (proj1 Hp)) as Hl.
  assert (forall e, e ∈ fds -> wrapu B (1 <<< fd_bit e) = 2 ^ fd_bit e) as Hm.
  { intros e He. apply wrapu_shift1. by destruct (place_in e He). }
  destruct c as [e|e|e|]; cbn -[elements_of words_ok fds well denote FD_NFDBITS] in *.
  - change (Z.to_nat (wrapu B e / B)) with (fd_word e). change (wrapu B e mod B) with (fd_bit e). rewrite Hm by done.
    destruct (set_bit _ e _ Hl Hc eq_refl) as (l' & H). apply (fd_update _ (fun x => x .| 2 ^ fd_bit e) p _ l'); [done| |done].
    intros x Hx. apply in_u_lor; [lia|done|]. destruct (place_in e Hc) as [_ Hb].
    split; [apply Z.lt_le_incl, pow2_pos; lia|apply Z.pow_lt_mono_r; lia].
  - change (Z.to_nat (wrapu B e / B)) with (fd_word e). change (wrapu B e mod B) with (fd_bit e). rewrite Hm by done.
    destruct (clear_bit _ e (fun x => x .& wrapu B (.~ 2 ^ fd_bit e)) Hl Hc) as (l' & H); [intros x Hx; apply (land_wrapu B B); [lia|done]|].
    apply (fd_update _ (fun x => x .& wrapu B (.~ 2 ^ fd_bit e)) p _ l'); [done| |done].
    intros x Hx. apply in_u_land_l; [lia|done].
  - change (Z.to_nat (wrapu B e / B)) with (fd_word e). change (wrapu B e mod B) with (fd_bit e). rewrite Hm by done.
    destruct (test_bit _ e _ Hl Hc eq_refl) as (x & Hx & _ & Ht). unfold fd_longs in Hx. apply list_lookup_fmap_Some in Hx as (y & -> & ->).
    simpl. eexists _, _. split; [done|split; [done|split; [done|]]]. unfold member. rewrite <- Ht.
    fold (truth (wrapu B y .& 2 ^ fd_bit e)). by destruct (truth (wrapu B y .& _)).
  - exists (replicate (length p) 0), 0. split; [done|]. split; [split; [rewrite length_replicate; apply Hp|]|split; [|done]].
    + apply Forall_replicate. pose proof (pow2_pos (B - 1) ltac:(lia)). lia.
    + simpl. unfold fd_longs. rewrite fmap_replicate, (proj1 Hp). apply empty_words.
Qed.
End Fds.

(** The words of a user's set that a kernel can keep. *)
Definition usignals : gset Z := range 1 128.
#[export] Instance usig_places : Places usignals sigword sig_bit 4 (fun _ => 32).
Proof. apply (plain_places 1 32 4); [lia|]. intros e He. by rewrite sigword_div by lia. Qed.
Abbreviation usig_ok := (words_ok 4 (fun _ => 32)).
Abbreviation usig_elems := (elements_of usignals sigword sig_bit).

(** The bit of a signal in the words of both sets. *)
Lemma sig_cases e : e ∈ signals -> sigword e = 0%nat /\ sig_bit e = e - 1 /\ e <= 32 \/ sigword e = 1%nat /\ sig_bit e = e - 33 /\ 33 <= e.
Proof.
  intros He%elem_of_range. unfold MAXSIG in He. rewrite sigword_div by lia. unfold sig_bit.
  pose proof (Z.div_mod (e - 1) 32 ltac:(lia)). pose proof (Z.mod_pos_bound (e - 1) 32 ltac:(lia)).
  assert ((e - 1) / 32 = 0 \/ (e - 1) / 32 = 1) as [Hq|Hq] by lia; rewrite Hq in *; [left|right]; simpl; lia.
Qed.
(** Which bits the two masks keep. *)
Lemma keep0 b : 0 <= b < 32 -> Z.testbit (FILLSET0 .& u32 (.~ CANTMASK0)) b = negb ((b =? SIGKILL - 1) || (b =? SIGSTOP - 1)).
Proof.
  intros Hb. change (FILLSET0 .& u32 (.~ CANTMASK0)) with (Z.ones 32 .& u32 (.~ (2 ^ (SIGKILL - 1) .| 2 ^ (SIGSTOP - 1)))).
  rewrite Z.land_spec, wrapu_testbit, lnot_testbit, Z.lor_spec, !pow2_testbit, ones_testbit by (unfold SIGKILL, SIGSTOP; lia). zcases; done.
Qed.
Lemma keep1 b : 0 <= b -> Z.testbit (FILLSET1 .& u32 (.~ CANTMASK1)) b = (b <? 16).
Proof. intros Hb. change (FILLSET1 .& u32 (.~ CANTMASK1)) with (Z.ones 16). rewrite ones_testbit by lia. zcases; done. Qed.

(** Two words as a kernel's set, four as a user's. *)
Lemma pair_ok a b : in_u 32 a -> in_u 16 b -> sig_ok [a; b].
Proof. intros Ha Hb. split; [done|]. intros [|[|i]] x; simpl; intros [= <-]; done. Qed.
Lemma has_signal l a b e : l !! 0%nat = Some a -> l !! 1%nat = Some b -> e ∈ signals ->
  has (word := sigword) (bit := sig_bit) l e = if e <=? 32 then Z.testbit a (e - 1) else Z.testbit b (e - 33).
Proof. intros Ha Hb He. unfold has. destruct (sig_cases e He) as [(-> & -> & ?)|(-> & -> & ?)]; rewrite ?Ha, ?Hb; zcases; done. Qed.
(** No signal beyond [MAXSIG] has a bit in the words a kernel returns. *)
Lemma has_none a b e : in_u 16 b -> e ∈ usignals -> e ∉ signals -> has (word := sigword) (bit := sig_bit) [a; b; 0; 0] e = false.
Proof.
  intros Hb He%elem_of_range Hn. unfold signals in Hn. rewrite elem_of_range in Hn. unfold MAXSIG in Hn.
  unfold has, sig_bit. rewrite sigword_div by lia.
  pose proof (Z.div_mod (e - 1) 32 ltac:(lia)). pose proof (Z.mod_pos_bound (e - 1) 32 ltac:(lia)).
  assert ((e - 1) / 32 = 1 \/ (e - 1) / 32 = 2 \/ (e - 1) / 32 = 3) as [Hq|[Hq|Hq]] by lia; rewrite Hq; simpl; [|apply Z.testbit_0_l..].
  apply (in_u_testbit 16); [done|lia].
Qed.
Lemma masked_words a b : in_u 32 a -> in_u 32 b ->
  sig_ok [a .& (FILLSET0 .& u32 (.~ CANTMASK0)); b .& (FILLSET1 .& u32 (.~ CANTMASK1))]
  /\ forall e, e ∈ signals -> has (word := sigword) (bit := sig_bit) [a .& (FILLSET0 .& u32 (.~ CANTMASK0)); b .& (FILLSET1 .& u32 (.~ CANTMASK1))] e
       = (if e <=? 32 then Z.testbit a (e - 1) else Z.testbit b (e - 33)) && negb ((e =? SIGKILL) || (e =? SIGSTOP)).
Proof.
  intros Ha Hb. split.
  - apply pair_ok; [apply in_u_land_l; [lia|done]|]. rewrite Z.land_comm. apply in_u_land_l; [lia|]. by vm_compute.
  - intros e He. erewrite has_signal by done. pose proof He as He'. apply elem_of_range in He'. unfold MAXSIG in He'.
    destruct (Z.leb_spec e 32); rewrite Z.land_spec, ?keep0, ?keep1 by lia; unfold SIGKILL, SIGSTOP; zcases;
      rewrite ?andb_true_r, ?andb_false_r; done.
Qed.
Lemma masked_same a b : sig_ok [a; b] -> SIGKILL ∉ sig_elems [a; b] -> SIGSTOP ∉ sig_elems [a; b] ->
  a .& (FILLSET0 .& u32 (.~ CANTMASK0)) = a /\ b .& (FILLSET1 .& u32 (.~ CANTMASK1)) = b.
Proof.
  intros [_ Hr] Hk Hs. pose proof (Hr 0%nat a eq_refl) as Ha. pose proof (Hr 1%nat b eq_refl) as Hb. simpl in Ha, Hb.
  rewrite elem_of_words in Hk, Hs. change (has _ _) with (Z.testbit a 8) in Hk at 1. change (has _ _) with (Z.testbit a 22) in Hs at 1.
  assert (Z.testbit a 8 = false /\ Z.testbit a 22 = false) as [E8 E22].
  { split; apply not_true_is_false; [intros E; apply Hk|intros E; apply Hs]; (split; [done|by apply elem_of_range]). }
  split; apply Z.bits_inj'; intros i Hi; rewrite Z.land_spec.
  - destruct (Z.ltb_spec i 32); [|by rewrite (in_u_testbit 32 a) by done]. rewrite keep0 by lia. unfold SIGKILL, SIGSTOP.
    zcases; subst; rewrite ?andb_true_r, ?andb_false_r; done.
  - rewrite keep1 by done. zcases; rewrite ?andb_true_r, ?andb_false_r; [done|]. by rewrite (in_u_testbit 16 b) by done.
Qed.

(** C24: a signal set passed by a program never masks SIGKILL or SIGSTOP: whatever
    the four words of a user's set are, [sigutok] stores the valid signals among
    its members without these two, and leaves a proper kernel set.  [sigktou]
    returns the members of a kernel set to the user, no other signal among them,
    and a set that goes to the user and back is unchanged if it has neither of
    the two. *)
Theorem signal_masks us ks : usig_ok us -> sig_ok ks ->
  (exists k, sigutok us ks = Some k /\ sig_ok k /\ sig_elems k = (usig_elems us ∩ signals) ∖ {[SIGKILL; SIGSTOP]})
  /\ exists u, sigktou ks us = Some u /\ usig_ok u /\ usig_elems u = sig_elems ks
       /\ (SIGKILL ∉ sig_elems ks -> SIGSTOP ∉ sig_elems ks -> sigutok u ks = Some ks).
Proof.
  intros Hus Hks. destruct us as [|u0 [|u1 [|u2 [|u3 []]]]]; try (by destruct Hus). destruct ks as [|k0 [|k1 []]]; try (by destruct Hks).
  assert (signals ⊆ usignals) as Hsub by (intros e He%elem_of_range; apply elem_of_range; unfold MAXSIG in He; lia). split.
  - destruct (masked_words u0 u1) as [Hok Hh]; [by apply (proj2 Hus 0%nat)|by apply (proj2 Hus 1%nat)|].
    eexists. split; [reflexivity|]. split; [exact Hok|]. apply elements_ext; [set_solver|]. intros e He.
    rewrite Hh, andb_true_iff, negb_true_iff, orb_false_iff, !Z.eqb_neq by done.
    rewrite elem_of_difference, elem_of_intersection, elem_of_words, elem_of_union, !elem_of_singleton.
    rewrite (has_signal [u0; u1; u2; u3] u0 u1) by done. pose proof (Hsub e He). tauto.
  - pose proof (proj2 Hks 0%nat k0 eq_refl) as H0. pose proof (proj2 Hks 1%nat k1 eq_refl) as H1. simpl in H0, H1.
    exists [k0; k1; 0; 0]. split; [reflexivity|]. split; [|split].
    + split; [done|]. intros i x Hx. assert (Forall (in_u 32) [k0; k1; 0; 0]) as HF.
      { pose proof (in_u_mono 16 32 k1 ltac:(lia) H1). repeat (apply Forall_cons_2); done. }
      by apply (Forall_lookup_1 _ _ _ _ HF Hx).
    + apply elements_ext; [intros e [_ He]%elem_of_words; by apply Hsub|]. intros e He. rewrite elem_of_words.
      destruct (decide (e ∈ signals)) as [Hs|Hs].
      * rewrite !(has_signal _ k0 k1) by done. tauto.
      * rewrite has_none by done. split; [done|]. by intros [_ ?].
    + intros Hk Hs. destruct (masked_same k0 k1 Hks Hk Hs) as [E0 E1]. unfold sigutok, at_word. simpl. by rewrite E0, E1.
Qed.

Lemma signal_masks_witness :
  sig_elems [0x2700; 0x8000] = {[9; 10; 11; 14; 48]}
  /\ exists k, sigutok [0x400100; 0; 0; 0] [0; 0] = Some k /\ sig_elems k = ∅.
Proof.
  split; [by vm_compute|].
  destruct (signal_masks [0x400100; 0; 0; 0] [0; 0]) as [(k & E & _ & Hk) _].
  - split; [done|]. intros i x Hx. repeat (destruct i as [|i]; [injection Hx as <-; by vm_compute|]). done.
  - split; [done|]. intros i x Hx. repeat (destruct i as [|i]; [injection Hx as <-; by vm_compute|]). done.
  - exists k. split; [exact E|]. rewrite Hk. by vm_compute.
Defined.

(** ** The theorem *)

(** C23: processor sets of one word and, for the macros that call no function of
    the kernel, of several, privilege sets, signal sets, the flag sets of /proc and
    descriptor sets implement finite sets: every sequence of the macros of a
    family, on members in range, succeeds without leaving the array of words,
    leaves the set of elements that the same operations on finite sets leave, and
    every test, exclusive operation and search answers for that set.
    [sigemptyset] and [sigfillset] leave what the kernel's variables [nullsmask]
    and [fillset] hold, the flag macros of /proc ignore flags out of range, and the
    exclusive operations and [lowbit] are as documented ([WordOpsLaws]). *)
Theorem bit_sets_refine :
  (forall (W : WordOps) (L : WordOpsLaws) m NCPU, implements_sets cpuset_macro (list Z) (cpuset_family m NCPU))
  /\ (forall (W : WordOps) (L : WordOpsLaws) m, implements_sets cpuset1_macro Z (cpuset1_family m))
  /\ (forall n, implements_sets priv_macro (list Z) (priv_family n))
  /\ (forall nullsmask fillset, sig_ok nullsmask -> sig_ok fillset ->
      implements_sets sig_macro (list Z) (sig_family nullsmask fillset))
  /\ (forall n w, 32 <= w -> 32 * Z.of_nat n < 2 ^ 31 -> implements_sets pr_macro (list Z) (pr_family n w))
  /\ (forall m n, FD_NFDBITS m * Z.of_nat n <= 2 ^ 31 -> implements_sets fd_macro (list Z) (fd_family m n)).
Proof.
  split_and!; intros; apply run_implements;
    auto using cpuset_laws, cpuset1_laws, priv_laws, sig_laws, pr_laws, fd_laws.
Qed.

(** Functions of one word as documented. *)
Fixpoint low (p : positive) : Z := match p with xO p => 1 + low p | _ => 1 end.
Definition word_ops : WordOps := {|
  lowbit x := match x with Zpos p => low p | _ => 0 end;
  atomic_set_long_excl x b := (x .| 1 <<< b, if Z.testbit x b then -1 else 0);
  atomic_clear_long_excl x b := (x .& .~ (1 <<< b), if Z.testbit x b then 0 else -1) |}.
Lemma low_ok p : 0 < low p /\ Z.testbit (Zpos p) (low p - 1) = true /\ forall j, j < low p - 1 -> Z.testbit (Zpos p) j = false.
Proof.
  induction p as [p _|p (H1 & H2 & H3)|]; cbn [low]; [split_and!; [lia|done|intros; by apply testbit_neg; lia]| |split_and!; [lia|done|intros; by apply testbit_neg; lia]].
  split; [lia|]. replace (1 + low p - 1) with (Z.succ (low p - 1)) by lia. change (Zpos p~0) with (2 * Zpos p). split.
  - by rewrite Z.testbit_even_succ by lia.
  - intros j Hj. destruct (Z.ltb_spec j 0); [by apply testbit_neg|]. destruct (Z.eqb_spec j 0) as [->|]; [apply Z.testbit_even_0|].
    replace j with (Z.succ (j - 1)) by lia. rewrite Z.testbit_even_succ by lia. apply H3. lia.
Qed.
#[export] Instance word_ops_laws : WordOpsLaws (W := word_ops).
Proof. split; [done| |done|done]. intros [|p|p] Hp; try lia. apply low_ok. Qed.

Lemma bit_sets_refine_witness :
  (exists vs, run (F := cpuset1_family (W := word_ops) LP64) [ADD1 9; ATOMIC_XADD1 3; ATOMIC_XADD1 9; FIND1; IN_SET1 4] 0 = Some (520, vs)
     /\ answered (F := cpuset1_family (W := word_ops) LP64) [ADD1 9; ATOMIC_XADD1 3; ATOMIC_XADD1 9; FIND1; IN_SET1 4] ∅ vs)
  /\ (exists s vs, run (F := pr_family 4 32) [praddset 33; praddset 200; prismember 200] [0; 0; 0; 0] = Some (s, vs)
     /\ elements_of (pr_flags 4) pr_word pr_bit s = {[33]})
  /\ exists s vs, run (F := sig_family [0; 0] [FILLSET0; FILLSET1]) [sigfillset; sigdelset 9; sigemptyset; sigaddset 48] [0; 0] = Some (s, vs)
     /\ sig_elems s = {[48]}.
Proof.
  destruct bit_sets_refine as (_ & H1 & _ & H3 & H2 & _).
  assert (forall a b, in_u 32 a -> in_u 16 b -> sig_ok [a; b]) as Hok.
  { intros x y Hx Hy. split; [done|]. intros [|[|i]] z; simpl; intros [= <-]; done. }
  split; [|split].
  - destruct (H1 word_ops word_ops_laws LP64 [ADD1 9; ATOMIC_XADD1 3; ATOMIC_XADD1 9; FIND1; IN_SET1 4] 0) as (s' & vs & E & _ & _ & Ha).
    + repeat constructor; by apply elem_of_range.
    + by apply ok1_range.
    + exists vs. split; [|exact Ha]. rewrite E. vm_compute in E. injection E as <- _. done.
  - destruct (H2 4%nat 32 ltac:(lia) ltac:(lia) [praddset 33; praddset 200; prismember 200] [0; 0; 0; 0]) as (s' & vs & E & _ & Hd & _).
    + repeat constructor; lia.
    + split; [done|]. intros i x Hx. repeat (destruct i as [|i]; [injection Hx as <-; by vm_compute|]). done.
    + exists s', vs. split; [exact E|]. etransitivity; [exact Hd|]. by vm_compute.
  - destruct (H3 [0; 0] [FILLSET0; FILLSET1] ltac:(by apply Hok) ltac:(by apply Hok)
      [sigfillset; sigdelset 9; sigemptyset; sigaddset 48] [0; 0]) as (s' & vs & E & _ & Hd & _).
    + repeat constructor; by apply elem_of_range.
    + by apply Hok.
    + exists s', vs. split; [exact E|]. etransitivity; [exact Hd|]. by vm_compute.
Defined.
