(* ===== verification/Ctype.v ===== *)
(** * Character classes of the kernel: sys/ctype.h

    The macros and the inline functions of [src/include/sys/ctype.h].  A
    [char] is a signed byte; [boolean_t] is [bool]. *)
From S2P Require Import Prelude.

Definition ISDIGIT (c : Z) : bool := (48 <=? c) && (c <=? 57).
Definition ISXDIGIT (c : Z) : bool :=
  ISDIGIT c || ((97 <=? c) && (c <=? 102)) || ((65 <=? c) && (c <=? 70)).
Definition ISLOWER (c : Z) : bool := (97 <=? c) && (c <=? 122).
Definition ISUPPER (c : Z) : bool := (65 <=? c) && (c <=? 90).
Definition ISALPHA (c : Z) : bool := ISUPPER c || ISLOWER c.
Definition ISALNUM (c : Z) : bool := ISALPHA c || ISDIGIT c.
Definition ISSPACE (c : Z) : bool := (c =? 32) || (c =? 9) || (c =? 13) || (c =? 10).

(** The argument is converted to [char]. *)
Definition isdigit (c : Z) : bool := ISDIGIT (s8 c).
Definition isxdigit (c : Z) : bool := ISXDIGIT (s8 c).
Definition islower (c : Z) : bool := ISLOWER (s8 c).
Definition isupper (c : Z) : bool := ISUPPER (s8 c).
Definition isalpha (c : Z) : bool := ISALPHA (s8 c).
Definition isalnum (c : Z) : bool := ISALNUM (s8 c).
Definition isspace (c : Z) : bool := ISSPACE (s8 c).

(** ** The classes as lists of ASCII characters *)
Definition chars (from n : nat) : list Z := Z.of_nat <$> seq from n.
Definition digits_class : list Z := chars 48 10.
Definition upper_class : list Z := chars 65 26.
Definition lower_class : list Z := chars 97 26.
Definition xdigit_class : list Z := digits_class ++ chars 65 6 ++ chars 97 6.
Definition space_class : list Z := [32; 9; 10; 13].

Lemma elem_of_chars c from n :
  c ∈ chars from n <-> Z.of_nat from <= c < Z.of_nat (from + n).
Proof.
  unfold chars. rewrite list_elem_of_fmap. split.
  - intros (k & -> & Hk%elem_of_seq). lia.
  - intros Hc. exists (Z.to_nat c). split; [lia|]. apply elem_of_seq. lia.
Qed.

(** Each class macro holds exactly on the ASCII characters of its class,
    for every integer; the functions apply it to the argument converted to a
    signed [char], so a byte over 127 is in no class; and every alphanumeric
    character is in exactly one of the classes of digits, upper case and lower
    case letters. *)
Theorem ctype_classes c :
  (ISDIGIT c = true <-> c ∈ digits_class)
  /\ (ISXDIGIT c = true <-> c ∈ xdigit_class)
  /\ (ISLOWER c = true <-> c ∈ lower_class)
  /\ (ISUPPER c = true <-> c ∈ upper_class)
  /\ (ISALPHA c = true <-> c ∈ upper_class ++ lower_class)
  /\ (ISALNUM c = true <-> c ∈ upper_class ++ lower_class ++ digits_class)
  /\ (ISSPACE c = true <-> c ∈ space_class)
  /\ (128 <= c < 256 -> isalnum c = false /\ isspace c = false /\ isxdigit c = false)
  /\ (isalnum c = true -> b2z (isdigit c) + b2z (isupper c) + b2z (islower c) = 1).
Proof.
  unfold ISXDIGIT, ISALNUM, ISALPHA, ISSPACE, ISDIGIT, ISLOWER, ISUPPER.
  unfold xdigit_class, digits_class, upper_class, lower_class, space_class.
  rewrite !elem_of_app, !elem_of_chars, !elem_of_cons, elem_of_nil.
  rewrite !orb_true_iff, !andb_true_iff, !Z.leb_le, !Z.eqb_eq.
  split_and!; try lia.
  - intros Hc. assert (s8 c = c - 256) as E.
    { unfold wraps. change (2 ^ (8 - 1)) with 128. change (2 ^ 8) with 256.
      rewrite <- (Z_mod_plus_full (c + 128) (-1)), Z.mod_small by lia. lia. }
    unfold isalnum, isspace, isxdigit, ISALNUM, ISALPHA, ISSPACE, ISXDIGIT, ISDIGIT, ISLOWER, ISUPPER. rewrite E.
    split_and!; zcases; done || lia.
  - unfold isalnum, isdigit, isupper, islower, ISALNUM, ISALPHA, ISDIGIT, ISLOWER, ISUPPER.
    generalize (s8 c). clear c. intros c. zcases; simpl; done || lia.
Qed.
