(* ===== verification/IpClassifier.v ===== *)
(** * Connections and the classifier: inet/ipclassifier.h

    [struct conn_s] and the macros of [src/include/inet/ipclassifier.h]: the
    flag tests, the hash functions of the fanout tables, the macros that
    initialise a connection's key and the ones that match a packet's against
    it.  The theorems say which packets a connection takes and that the hash
    functions agree with the matches.  The reference count is in [ConnRef].

    Parameters: [V4_PART_OF_V6], which no header of the tree defines, with the
    law the matching relies on ([V4Part]); [conn_wantpacket], [ip_output] and
    [IP_SQUEUE_GET], which are functions of the IP module.  The record leaves
    out [conn_lock], [conn_cv] and [conn_refcv], which only the macros of the
    reference count use. *)
From S2P Require Import Prelude ByteOrder In6.

(** ** Flags *)
Definition IPCL_BOUND := 0x80000000.
Definition IPCL_CONNECTED := 0x40000000.
Definition IPCL_TCP4 := 0x08000000.
Definition IPCL_TCP6 := 0x04000000.
Definition IPCL_EAGER := 0x01000000.
Definition IPCL_CL_LISTENER := 0x00800000.
Definition IPCL_ACCEPTOR := 0x00400000.
Definition IPCL_SOCKET := 0x00200000.
Definition IPCL_CHECK_POLICY := 0x00100000.
Definition IPCL_FULLY_BOUND := 0x00080000.
Definition IPCL_TCPMOD := 0x00040000.
Definition IPCL_TCPCONN := 0x00000001.
Definition IPCL_SCTPCONN := 0x00000002.
Definition IPCL_IPCCONN := 0x00000004.
Definition IPCL_ISV6 := 0x00000008.
Definition IPCL_TCP := IPCL_TCP4 .| IPCL_TCP6.
Definition IPCL_REMOVED := 0x00000020.
Definition IPCL_REUSED := 0x00000040.

Definition IPPROTO_ENCAP := 4.
Definition IPPROTO_TCP := 6.
Definition IPPROTO_IPV6 := 41.
Definition IPPROTO_RSVP := 46.
Definition IPPROTO_PIM := 103.
Definition INADDR_ANY := 0.

(** ** The connection *)

(** An address of another object; the macros only copy them. *)
Definition ptr := Z.

(** The one-bit fields. *)
Record conn_bits := ConnBits {
  conn_on_sqp : bool; conn_dontroute : bool; conn_loopback : bool; conn_broadcast : bool;
  conn_reuseaddr : bool; conn_multicast_loop : bool; conn_multi_router : bool; conn_draining : bool;
  conn_did_putbq : bool; conn_unspec_src : bool; conn_policy_cached : bool;
  conn_in_enforce_policy : bool; conn_out_enforce_policy : bool; conn_af_isv6 : bool;
  conn_pkt_isv6 : bool; conn_ipv6_recvpktinfo : bool; conn_ipv6_recvhoplimit : bool;
  conn_ipv6_recvhopopts : bool; conn_ipv6_recvdstopts : bool; conn_ipv6_recvrthdr : bool;
  conn_ipv6_recvrtdstopts : bool; conn_ipv6_v6only : bool; conn_ipv6_recvtclass : bool;
  conn_ipv6_recvpathmtu : bool; conn_pathmtu_valid : bool; conn_ipv6_dontfrag : bool;
  conn_fully_bound : bool; conn_recvif : bool; conn_recvslla : bool; conn_mdt_ok : bool }.

(** The fields no macro of the header reads: routes, interfaces, queues,
    policy, chains of the hash tables and of the drain list, options. *)
Record conn_links := ConnLinks {
  conn_ire_cache : ptr; conn_tcp : ptr; conn_recv : ptr; conn_pad1 : ptr; conn_xmit_if_ill : ptr;
  conn_nofailover_ill : ptr; conn_latch : ptr; conn_outgoing_ill : ptr; conn_rq : ptr; conn_wq : ptr;
  conn_dev : Z; conn_cred : ptr; conn_g_fanout : ptr; conn_g_next : ptr; conn_g_prev : ptr;
  conn_policy : ptr; conn_bound_source_v6 : in6_addr; conn_void : list ptr; conn_fanout : ptr;
  conn_next : ptr; conn_prev : ptr; conn_unused_byte : Z; conn_proto : Z; conn_incoming_ill : ptr;
  conn_outgoing_pill : ptr; conn_oper_pending_ill : ptr; conn_xioctl_pending_ill : ptr;
  conn_pending_sq : ptr; conn_ilg : ptr; conn_ilg_allocated : Z; conn_ilg_inuse : Z;
  conn_ilg_walker_cnt : Z; conn_multicast_ipif : ptr; conn_multicast_ill : ptr;
  conn_orig_bound_ifindex : Z; conn_orig_multicast_ifindex : Z; conn_orig_xmit_ifindex : Z;
  conn_drain_next : ptr; conn_drain_prev : ptr; conn_idl : ptr; conn_ipsec_opt_mp : ptr;
  conn_src_preferences : Z; mtuinfo : Z }.

(** [u_port] is the union of [conn_ports2] and the two ports: its octets,
    the remote port's before the local port's. *)
Record conn_s := ConnS {
  conn_ref : Z;
  conn_state_flags : Z;
  conn_flags : Z;
  bits : conn_bits;
  links : conn_links;
  conn_sqp : ptr;
  conn_send : ptr;
  conn_srcv6 : in6_addr;
  conn_remv6 : in6_addr;
  u_port : list Z;
  conn_ulp : Z;
  conn_zoneid : Z }.

Record connf_s := ConnfS { connf_head : option ptr }.

(** The views of the union of the ports, on a machine of byte order [e]. *)
Definition port_of (e : endian) (b : list Z) : Z :=
  match e with LittleEndian => of_le b | BigEndian => of_le (rev b) end.
Definition conn_ports (e : endian) (c : conn_s) : Z := word_of e (u_port c).
Definition conn_fport (e : endian) (c : conn_s) : Z := port_of e (take 2 (u_port c)).
Definition conn_lport (e : endian) (c : conn_s) : Z := port_of e (drop 2 (u_port c)).

(** The assignments. *)
Definition set_conn_flags (x : Z) (c : conn_s) : conn_s :=
  ConnS (conn_ref c) (conn_state_flags c) x (bits c) (links c) (conn_sqp c) (conn_send c)
        (conn_srcv6 c) (conn_remv6 c) (u_port c) (conn_ulp c) (conn_zoneid c).
Definition set_conn_ulp (x : Z) (c : conn_s) : conn_s :=
  ConnS (conn_ref c) (conn_state_flags c) (conn_flags c) (bits c) (links c) (conn_sqp c) (conn_send c)
        (conn_srcv6 c) (conn_remv6 c) (u_port c) (wrapu 8 x) (conn_zoneid c).
Definition set_conn_srcv6 (x : in6_addr) (c : conn_s) : conn_s :=
  ConnS (conn_ref c) (conn_state_flags c) (conn_flags c) (bits c) (links c) (conn_sqp c) (conn_send c)
        x (conn_remv6 c) (u_port c) (conn_ulp c) (conn_zoneid c).
Definition set_conn_remv6 (x : in6_addr) (c : conn_s) : conn_s :=
  ConnS (conn_ref c) (conn_state_flags c) (conn_flags c) (bits c) (links c) (conn_sqp c) (conn_send c)
        (conn_srcv6 c) x (u_port c) (conn_ulp c) (conn_zoneid c).
Definition set_conn_ports (e : endian) (x : Z) (c : conn_s) : conn_s :=
  ConnS (conn_ref c) (conn_state_flags c) (conn_flags c) (bits c) (links c) (conn_sqp c) (conn_send c)
        (conn_srcv6 c) (conn_remv6 c) (bytes_of e x) (conn_ulp c) (conn_zoneid c).
Definition set_conn_send (x : ptr) (c : conn_s) : conn_s :=
  ConnS (conn_ref c) (conn_state_flags c) (conn_flags c) (bits c) (links c) (conn_sqp c) x
        (conn_srcv6 c) (conn_remv6 c) (u_port c) (conn_ulp c) (conn_zoneid c).
Definition set_conn_sqp (x : ptr) (c : conn_s) : conn_s :=
  ConnS (conn_ref c) (conn_state_flags c) (conn_flags c) (bits c) (links c) x (conn_send c)
        (conn_srcv6 c) (conn_remv6 c) (u_port c) (conn_ulp c) (conn_zoneid c).

(** ** Tests of the flags *)
Definition IS_TCP_CONN (c : conn_s) : bool := negb ((conn_flags c .& IPCL_TCP) =? 0).
Definition IPCL_IS_TCP4 (c : conn_s) : bool := truth (conn_flags c .& IPCL_TCP4).
Definition IPCL_IS_TCP4_CONNECTED_NO_POLICY (c : conn_s) : bool :=
  (conn_flags c .& (((IPCL_TCP4 .| IPCL_CONNECTED) .| IPCL_CHECK_POLICY) .| IPCL_TCP6))
  =? (IPCL_TCP4 .| IPCL_CONNECTED).
Definition IPCL_IS_CONNECTED (c : conn_s) : bool := truth (conn_flags c .& IPCL_CONNECTED).
Definition IPCL_IS_BOUND (c : conn_s) : bool := truth (conn_flags c .& IPCL_BOUND).
Definition IPCL_IS_TCP4_BOUND (c : conn_s) : bool :=
  (conn_flags c .& ((IPCL_TCP4 .| IPCL_BOUND) .| IPCL_TCP6)) =? (IPCL_TCP4 .| IPCL_BOUND).
Definition IPCL_IS_FULLY_BOUND (c : conn_s) : bool := truth (conn_flags c .& IPCL_FULLY_BOUND).
Definition IPCL_IS_TCP (c : conn_s) : bool := truth (conn_flags c .& (IPCL_TCP4 .| IPCL_TCP6)).
Definition IPCL_IS_IPTUN (c : conn_s) : bool := (conn_ulp c =? IPPROTO_ENCAP) || (conn_ulp c =? IPPROTO_IPV6).

(** ** Packet headers *)
Record ipha_t := Ipha {
  ipha_version_and_hdr_length : Z; ipha_type_of_service : Z; ipha_length : Z; ipha_ident : Z;
  ipha_fragment_offset_and_flags : Z; ipha_ttl : Z; ipha_protocol : Z; ipha_hdr_checksum : Z;
  ipha_src : Z; ipha_dst : Z }.

(** [ip6_vfc] is the first octet of [ip6_flow]. *)
Record ip6_t := Ip6 {
  ip6_flow : Z; ip6_plen : Z; ip6_nxt : Z; ip6_hlim : Z; ip6_src : in6_addr; ip6_dst : in6_addr }.

(** ** Matching *)

(** The IPv4 address of an IPv6 address that holds one: on the addresses that
    map IPv4 addresses it is what [IN6_V4MAPPED_TO_IPADDR] reads. *)
Class V4Part (e : endian) := {
  V4_PART_OF_V6 : in6_addr -> Z;
  v4_part_mapped a : IN6_IS_ADDR_V4MAPPED e a = true -> V4_PART_OF_V6 a = IN6_V4MAPPED_TO_IPADDR e a }.

Section Match.
Context (e : endian) `{V4Part e}.

Definition conn_src (c : conn_s) : Z := V4_PART_OF_V6 (conn_srcv6 c).
Definition conn_rem (c : conn_s) : Z := V4_PART_OF_V6 (conn_remv6 c).

Definition _IPCL_V4_MATCH (v6addr : in6_addr) (v4addr : Z) : bool :=
  (V4_PART_OF_V6 v6addr =? v4addr) && IN6_IS_ADDR_V4MAPPED e v6addr.
Definition _IPCL_V4_MATCH_ANY (addr : in6_addr) : bool :=
  IN6_IS_ADDR_V4MAPPED_ANY e addr || IN6_IS_ADDR_UNSPECIFIED e addr.

Definition IPCL_PROTO_MATCH (conn_wantpacket : conn_s -> ptr -> ipha_t -> Z -> Z -> bool)
    (c : conn_s) (protocol : Z) (ipha : ipha_t) (ill : ptr) (fanout_flags zoneid : Z) : bool :=
  ((conn_src c =? INADDR_ANY)
   || ((conn_src c =? ipha_dst ipha) && ((conn_rem c =? INADDR_ANY) || (conn_rem c =? ipha_src ipha))))
  && (conn_zoneid c =? zoneid)
  && (conn_wantpacket c ill ipha fanout_flags zoneid || (protocol =? IPPROTO_PIM) || (protocol =? IPPROTO_RSVP)).
Definition IPCL_PROTO_MATCH_V6 (conn_wantpacket_v6 : conn_s -> ptr -> ip6_t -> Z -> Z -> bool)
    (c : conn_s) (protocol : Z) (ip6h : ip6_t) (ill : ptr) (fanout_flags zoneid : Z) : bool :=
  (IN6_IS_ADDR_UNSPECIFIED e (conn_srcv6 c)
   || (IN6_ARE_ADDR_EQUAL e (conn_srcv6 c) (ip6_dst ip6h)
       && (IN6_IS_ADDR_UNSPECIFIED e (conn_remv6 c) || IN6_ARE_ADDR_EQUAL e (conn_remv6 c) (ip6_src ip6h))))
  && (conn_wantpacket_v6 c ill ip6h fanout_flags zoneid || (protocol =? IPPROTO_RSVP)).

Definition IPCL_CONN_MATCH (c : conn_s) (proto src dst ports : Z) : bool :=
  (conn_ulp c =? proto) && (conn_ports e c =? ports) && _IPCL_V4_MATCH (conn_remv6 c) src
  && _IPCL_V4_MATCH (conn_srcv6 c) dst && negb (conn_ipv6_v6only (bits c)).
Definition IPCL_CONN_MATCH_V6 (c : conn_s) (proto : Z) (src dst : in6_addr) (ports : Z) : bool :=
  (conn_ulp c =? proto) && (conn_ports e c =? ports) && IN6_ARE_ADDR_EQUAL e (conn_remv6 c) src
  && IN6_ARE_ADDR_EQUAL e (conn_srcv6 c) dst.

Definition IPCL_CONN_INIT (c : conn_s) (protocol src rem ports : Z) : conn_s :=
  let c := set_conn_ulp protocol c in
  let c := set_conn_srcv6 (IN6_IPADDR_TO_V4MAPPED e src (conn_srcv6 c)) c in
  let c := set_conn_remv6 (IN6_IPADDR_TO_V4MAPPED e rem (conn_remv6 c)) c in
  set_conn_ports e ports c.
Definition IPCL_CONN_INIT_V6 (c : conn_s) (protocol : Z) (src rem : in6_addr) (ports : Z) : conn_s :=
  let c := set_conn_ulp protocol c in
  let c := set_conn_srcv6 src c in
  let c := set_conn_remv6 rem c in
  set_conn_ports e ports c.

Definition IPCL_BIND_MATCH (c : conn_s) (proto laddr lport : Z) : bool :=
  (conn_ulp c =? proto) && (conn_lport e c =? lport)
  && (_IPCL_V4_MATCH_ANY (conn_srcv6 c) || _IPCL_V4_MATCH (conn_srcv6 c) laddr)
  && negb (conn_ipv6_v6only (bits c)).
Definition IPCL_BIND_MATCH_V6 (c : conn_s) (proto : Z) (laddr : in6_addr) (lport : Z) : bool :=
  (conn_ulp c =? proto) && (conn_lport e c =? lport)
  && (IN6_ARE_ADDR_EQUAL e (conn_srcv6 c) laddr || IN6_IS_ADDR_UNSPECIFIED e (conn_srcv6 c)).

Definition IPCL_UDP_MATCH (c : conn_s) (lport laddr fport faddr : Z) : bool :=
  (conn_lport e c =? lport)
  && (_IPCL_V4_MATCH_ANY (conn_srcv6 c)
      || (_IPCL_V4_MATCH (conn_srcv6 c) laddr
          && (_IPCL_V4_MATCH_ANY (conn_remv6 c)
              || (_IPCL_V4_MATCH (conn_remv6 c) faddr && (conn_fport e c =? fport)))))
  && negb (conn_ipv6_v6only (bits c)).
Definition IPCL_UDP_MATCH_V6 (c : conn_s) (lport : Z) (laddr : in6_addr) (fport : Z) (faddr : in6_addr) : bool :=
  (conn_lport e c =? lport)
  && (IN6_IS_ADDR_UNSPECIFIED e (conn_srcv6 c)
      || (IN6_ARE_ADDR_EQUAL e (conn_srcv6 c) laddr
          && (IN6_IS_ADDR_UNSPECIFIED e (conn_remv6 c)
              || (IN6_ARE_ADDR_EQUAL e (conn_remv6 c) faddr && (conn_fport e c =? fport))))).

(** [ip_output] and the queue [IP_SQUEUE_GET(lbolt)] picks are passed in. *)
Definition IPCL_TCP_EAGER_INIT (ip_output squeue : ptr) (c : conn_s) (protocol src rem ports : Z) : conn_s :=
  let c := set_conn_flags (conn_flags c .| (IPCL_TCP4 .| IPCL_EAGER)) c in
  let c := set_conn_ulp protocol c in
  let c := set_conn_srcv6 (IN6_IPADDR_TO_V4MAPPED e src (conn_srcv6 c)) c in
  let c := set_conn_remv6 (IN6_IPADDR_TO_V4MAPPED e rem (conn_remv6 c)) c in
  let c := set_conn_ports e ports c in
  let c := set_conn_send ip_output c in
  set_conn_sqp squeue c.
Definition IPCL_TCP_EAGER_INIT_V6 (ip_output_v6 squeue : ptr) (c : conn_s) (protocol : Z) (src rem : in6_addr) (ports : Z) : conn_s :=
  let c := set_conn_flags (conn_flags c .| (IPCL_TCP6 .| IPCL_EAGER)) c in
  let c := set_conn_ulp protocol c in
  let c := set_conn_srcv6 src c in
  let c := set_conn_remv6 rem c in
  let c := set_conn_ports e ports c in
  let c := set_conn_send ip_output_v6 c in
  set_conn_sqp squeue c.

(** ** Hashing.  [%] by zero is undefined, so the sizes are positive. *)
Definition IPCL_CONN_HASH (ipcl_conn_fanout_size src ports : Z) : Z :=
  wrapu 32 ((((ntohl src .^ (ports >>> 24)) .^ (ports >>> 16)) .^ (ports >>> 8)) .^ ports)
  mod ipcl_conn_fanout_size.
Definition IPCL_CONN_HASH_V6 (ipcl_conn_fanout_size : Z) (src : in6_addr) (ports : Z) : Z :=
  IPCL_CONN_HASH ipcl_conn_fanout_size (V4_PART_OF_V6 src) ports.
Definition IPCL_BIND_HASH (ipcl_bind_fanout_size lport : Z) : Z :=
  wrapu 32 ((lport >>> 8) .^ lport) mod ipcl_bind_fanout_size.
Definition ipcl_proto_search (ipcl_proto_fanout : list connf_s) (protocol : nat) : option (option ptr) :=
  connf_head <$> ipcl_proto_fanout !! protocol.
Definition IPCL_UDP_HASH (port : Z) : Z :=
  match e with BigEndian => port .& 0xFF | LittleEndian => wrapu 16 port >>> 8 end.
Definition CONN_G_HASH_SIZE := 1024.
Definition IPCL_RAW_HASH (ipcl_raw_fanout_size lport : Z) : Z := (lport * 31) .& (ipcl_raw_fanout_size - 1).
End Match.

(** ** What the matches mean *)

(** ::ffff:a.b.c.d, for the IPv4 address in network byte order. *)
Definition v4mapped (e : endian) (v4 : Z) : in6_addr := replicate 10 0 ++ [255; 255] ++ bytes_of e v4.

#[refine, export] Instance v4_part_word e : V4Part e := {| V4_PART_OF_V6 a := _S6_u32 e a 3 |}.
Proof. done. Defined.

Lemma bytes_of_length e x : length (bytes_of e x) = 4%nat.
Proof. by destruct e. Qed.

Lemma bytes_of_bytes e x : Forall is_byte (bytes_of e x).
Proof. destruct e; unfold bytes_of; [apply Forall_rev|]; apply le_bytes_bytes. Qed.

Lemma bytes_of_inj e x y : in_u 32 x -> in_u 32 y -> bytes_of e x = bytes_of e y -> x = y.
Proof. intros Hx Hy E. by rewrite <- (word_bytes e x), <- (word_bytes e y), E. Qed.

Lemma v4mapped_ok e v4 : in6_ok (v4mapped e v4).
Proof.
  split; [unfold v4mapped; rewrite !length_app, bytes_of_length; done|].
  unfold v4mapped. apply Forall_app_2; [apply Forall_replicate; unfold is_byte; lia|].
  apply Forall_app_2; [all_bytes|apply bytes_of_bytes].
Qed.

Lemma v4mapped_inj e x y : in_u 32 x -> in_u 32 y -> v4mapped e x = v4mapped e y -> x = y.
Proof.
  intros Hx Hy E. unfold v4mapped in E. apply app_inj_1 in E as [_ E]; [|done].
  apply app_inj_1 in E as [_ E]; [|done]. by apply (bytes_of_inj e).
Qed.

Section Laws.
Context (e : endian) `{V4Part e}.

Lemma v4_part v4 : in_u 32 v4 -> V4_PART_OF_V6 (v4mapped e v4) = v4.
Proof.
  intros Hv. rewrite v4_part_mapped.
  - unfold IN6_V4MAPPED_TO_IPADDR, _S6_u32, v4mapped. cbn [replicate app drop Nat.mul Nat.add].
    rewrite drop_0, take_ge by (by rewrite bytes_of_length). by apply word_bytes.
  - rewrite v4mapped_octets by apply v4mapped_ok. by apply bool_decide_eq_true.
Qed.

(** A connection's address matches an IPv4 address when it is its mapped form. *)
Lemma v4_match a v4 : in6_ok a -> in_u 32 v4 -> _IPCL_V4_MATCH e a v4 = bool_decide (a = v4mapped e v4).
Proof.
  intros Ha Hv. unfold _IPCL_V4_MATCH. destruct (bool_decide_reflect (a = v4mapped e v4)) as [->|Hne].
  { rewrite v4_part, Z.eqb_refl, v4mapped_octets by (done || apply v4mapped_ok). by apply bool_decide_eq_true. }
  apply andb_false_iff. destruct (IN6_IS_ADDR_V4MAPPED e a) eqn:Em; [left|by right].
  rewrite v4_part_mapped by done. apply Z.eqb_neq. intros E. apply Hne.
  rewrite v4mapped_octets in Em by done. apply bool_decide_eq_true in Em.
  unfold v4mapped. rewrite app_assoc.
  rewrite <- Em, <- E. unfold IN6_V4MAPPED_TO_IPADDR, _S6_u32.
  destruct Ha as [Hl Hb]. rewrite bytes_word; [|by apply Forall_take, Forall_drop|rewrite length_take, length_drop; lia].
  rewrite (take_ge (drop _ a)) by (rewrite length_drop; lia). symmetry. apply take_drop.
Qed.

Lemma v4_match_any a : in6_ok a ->
  _IPCL_V4_MATCH_ANY e a = bool_decide (a = v4mapped e 0 \/ a = replicate 16 0).
Proof.
  intros Ha. unfold _IPCL_V4_MATCH_ANY. rewrite v4mapped_any_octets, unspecified_octets by done.
  rewrite bool_decide_or. f_equal. apply bool_decide_ext. by destruct e.
Qed.
End Laws.

(** ** The theorems on matching *)
Definition conn_ok (c : conn_s) : Prop :=
  in6_ok (conn_srcv6 c) /\ in6_ok (conn_remv6 c) /\ length (u_port c) = 4%nat /\ Forall is_byte (u_port c).

Lemma eqb_decide x y : (x =? y) = bool_decide (x = y).
Proof. by destruct (Z.eqb_spec x y); case_bool_decide. Qed.

(** The fields of a connection just assigned. *)
Ltac conn_fields :=
  cbn [set_conn_ulp set_conn_srcv6 set_conn_remv6 set_conn_ports set_conn_flags set_conn_send set_conn_sqp
       conn_ref conn_flags bits conn_srcv6 conn_remv6 u_port conn_ulp conn_send conn_sqp].
Ltac decide_conj := rewrite <- ?bool_decide_and; apply bool_decide_ext.

(** A connection initialised with a protocol, a pair of addresses and a
    pair of ports takes exactly the packets with that protocol, with the
    addresses the other way round and with those ports: the IPv4 macros unless
    it is restricted to IPv6, the IPv6 macros in any case; and an IPv4 packet
    matches a connection of the IPv6 kind exactly when its addresses are the
    mapped forms of the packet's. *)
Theorem conn_match_exact e `{V4Part e} c proto ports proto' ports' (src rem src' dst' : Z) (src6 rem6 src6' dst6' : in6_addr) :
  conn_ok c -> in_u 8 proto -> in_u 32 ports ->
  in_u 32 src -> in_u 32 rem -> in_u 32 src' -> in_u 32 dst' ->
  in6_ok src6 -> in6_ok rem6 -> in6_ok src6' -> in6_ok dst6' ->
  IPCL_CONN_MATCH e (IPCL_CONN_INIT e c proto src rem ports) proto' src' dst' ports'
  = bool_decide (proto = proto' /\ ports = ports' /\ rem = src' /\ src = dst' /\ conn_ipv6_v6only (bits c) = false)
  /\ IPCL_CONN_MATCH_V6 e (IPCL_CONN_INIT_V6 e c proto src6 rem6 ports) proto' src6' dst6' ports'
     = bool_decide (proto = proto' /\ ports = ports' /\ rem6 = src6' /\ src6 = dst6')
  /\ IPCL_CONN_MATCH e (IPCL_CONN_INIT_V6 e c proto src6 rem6 ports) proto' src' dst' ports'
     = bool_decide (proto = proto' /\ ports = ports' /\ rem6 = v4mapped e src' /\ src6 = v4mapped e dst'
                    /\ conn_ipv6_v6only (bits c) = false)
  /\ IPCL_CONN_MATCH_V6 e (IPCL_CONN_INIT e c proto src rem ports) proto' src6' dst6' ports'
     = bool_decide (proto = proto' /\ ports = ports' /\ v4mapped e rem = src6' /\ v4mapped e src = dst6').
Proof.
  intros [[Hs _] [[Hr _] _]] Hp Hq H1 H2 H3 H4 H5 H6 H7 H8.
  unfold IPCL_CONN_MATCH, IPCL_CONN_MATCH_V6, IPCL_CONN_INIT, IPCL_CONN_INIT_V6, conn_ports. conn_fields.
  rewrite !mapped_ip_octets by done. fold (v4mapped e src) (v4mapped e rem).
  rewrite !v4_match by (done || apply v4mapped_ok).
  rewrite !(fun a b Ha Hb => proj1 (in6_equal e a b Ha Hb)) by (done || apply v4mapped_ok).
  rewrite word_bytes, (wrapu_id 8) by done. rewrite !eqb_decide.
  assert (negb (conn_ipv6_v6only (bits c)) = bool_decide (conn_ipv6_v6only (bits c) = false)) as ->
    by (by destruct (conn_ipv6_v6only (bits c))).
  repeat apply conj; decide_conj.
  - split.
    + intros [[[[-> ->] E1] E2] ->]. repeat apply conj; try done; by apply (v4mapped_inj e).
    + intros (-> & -> & -> & -> & ->). done.
  - tauto.
  - tauto.
  - tauto.
Qed.

(** A connection with every field clear. *)
Definition conn_zero : conn_s :=
  ConnS 1 0 0
    (ConnBits false false false false false false false false false false false false false false false
       false false false false false false false false false false false false false false false)
    (ConnLinks 0 0 0 0 0 0 0 0 0 0 0 0 0 0 0 0 IN6ADDR_ANY_INIT [0] 0 0 0 0 0 0 0 0 0 0 0 0 0 0 0 0 0 0 0 0 0 0 0 0 0)
    0 0 IN6ADDR_ANY_INIT IN6ADDR_ANY_INIT [0; 0; 0; 0] 0 0.

Lemma any_ok : in6_ok IN6ADDR_ANY_INIT.
Proof. split; [done|all_bytes]. Qed.
Lemma conn_zero_ok : conn_ok conn_zero.
Proof. split; [apply any_ok|]. split; [apply any_ok|]. split; [done|all_bytes]. Qed.

Lemma conn_match_exact_witness :
  IPCL_CONN_MATCH LittleEndian (IPCL_CONN_INIT LittleEndian conn_zero 6 0x0100007f 0x0200000a 0x50001f90)
    6 0x0200000a 0x0100007f 0x50001f90
  = bool_decide (6 = 6 /\ 0x50001f90 = 0x50001f90 /\ 0x0200000a = 0x0200000a /\ 0x0100007f = 0x0100007f /\ false = false).
Proof.
  apply (conn_match_exact LittleEndian conn_zero 6 0x50001f90 6 0x50001f90 0x0100007f 0x0200000a 0x0200000a 0x0100007f
           IN6ADDR_ANY_INIT IN6ADDR_ANY_INIT IN6ADDR_ANY_INIT IN6ADDR_ANY_INIT);
    first [apply conn_zero_ok | apply any_ok | unfold in_u; lia].
Defined.

(** Which packets a listener takes.  A bound connection takes the packets
    for its protocol and local port whose destination is its own address, or
    any destination when its address is the wildcard of either family; a UDP
    endpoint with a local address moreover takes only its peer's packets once
    it has a peer; IPv4 packets never reach a connection restricted to IPv6. *)
Theorem bind_udp_match e `{V4Part e} c (proto laddr lport fport faddr : Z) :
  conn_ok c -> in_u 32 laddr -> in_u 32 faddr ->
  let wild a := a = v4mapped e 0 \/ a = replicate 16 0 in
  let src := conn_srcv6 c in
  let rem := conn_remv6 c in
  IPCL_BIND_MATCH e c proto laddr lport
  = bool_decide (conn_ulp c = proto /\ conn_lport e c = lport /\ (wild src \/ src = v4mapped e laddr)
                 /\ conn_ipv6_v6only (bits c) = false)
  /\ IPCL_UDP_MATCH e c lport laddr fport faddr
     = bool_decide (conn_lport e c = lport
         /\ (wild src \/ src = v4mapped e laddr /\ (wild rem \/ rem = v4mapped e faddr /\ conn_fport e c = fport))
         /\ conn_ipv6_v6only (bits c) = false)
  /\ (forall laddr6 faddr6, in6_ok laddr6 -> in6_ok faddr6 ->
      IPCL_BIND_MATCH_V6 e c proto laddr6 lport
      = bool_decide (conn_ulp c = proto /\ conn_lport e c = lport /\ (src = laddr6 \/ src = replicate 16 0))
      /\ IPCL_UDP_MATCH_V6 e c lport laddr6 fport faddr6
         = bool_decide (conn_lport e c = lport
             /\ (src = replicate 16 0 \/ src = laddr6 /\ (rem = replicate 16 0 \/ rem = faddr6 /\ conn_fport e c = fport)))).
Proof.
  intros (Hs & Hr & _) Hl Hf wild src rem.
  assert (negb (conn_ipv6_v6only (bits c)) = bool_decide (conn_ipv6_v6only (bits c) = false)) as Hv
    by (by destruct (conn_ipv6_v6only (bits c))).
  split; [|split; [|intros laddr6 faddr6 H1 H2; split]].
  - unfold IPCL_BIND_MATCH. rewrite v4_match_any, v4_match, Hv, !eqb_decide by done.
    rewrite <- bool_decide_or. decide_conj. unfold wild, src. tauto.
  - unfold IPCL_UDP_MATCH. rewrite !v4_match_any, !v4_match, Hv, !eqb_decide by done.
    rewrite <- !bool_decide_and, <- bool_decide_or, <- bool_decide_and, <- bool_decide_or. decide_conj.
    unfold wild, src, rem. tauto.
  - unfold IPCL_BIND_MATCH_V6. rewrite (proj1 (in6_equal e _ _ Hs H1)), unspecified_octets, !eqb_decide by done.
    rewrite <- bool_decide_or. decide_conj. unfold src. tauto.
  - unfold IPCL_UDP_MATCH_V6. rewrite (proj1 (in6_equal e _ _ Hs H1)), (proj1 (in6_equal e _ _ Hr H2)).
    rewrite !unspecified_octets, !eqb_decide by done.
    rewrite <- !bool_decide_and, <- bool_decide_or, <- bool_decide_and, <- bool_decide_or. decide_conj.
    unfold src, rem. tauto.
Qed.

Lemma bind_udp_match_witness :
  IPCL_BIND_MATCH LittleEndian conn_zero 0 0x0100007f 0 = true.
Proof.
  pose proof (bind_udp_match LittleEndian conn_zero 0 0x0100007f 0 0 0 conn_zero_ok
    ltac:(unfold in_u; lia) ltac:(unfold in_u; lia)) as [E _].
  rewrite E. apply bool_decide_eq_true. split; [reflexivity|]. split; [reflexivity|].
  split; [left; right; reflexivity|reflexivity].
Defined.

(** The classifier looks a packet up in the right bucket.  Every hash value
    is an index of its table, the raw table's size being a power of two; the
    UDP hash is the same octet of the packet on a machine of either byte order;
    and a packet that matches a connection hashes to the bucket the connection
    hashes to by its own addresses and ports. *)
Theorem hash_buckets e `{V4Part e} size src ports port k :
  0 < size -> in_u 16 port -> 0 <= k ->
  0 <= IPCL_CONN_HASH size src ports < size
  /\ 0 <= IPCL_BIND_HASH size port < size
  /\ 0 <= IPCL_RAW_HASH (2 ^ k) port < 2 ^ k
  /\ (forall hi lo, is_byte hi -> is_byte lo -> IPCL_UDP_HASH e (port_of e [hi; lo]) = lo)
  /\ (forall c proto dst, conn_ok c -> in_u 32 src -> IPCL_CONN_MATCH e c proto src dst ports = true ->
      IPCL_CONN_HASH size src ports = IPCL_CONN_HASH_V6 e size (conn_remv6 c) (conn_ports e c))
  /\ (forall c proto src6 dst6, conn_ok c -> in6_ok src6 -> IPCL_CONN_MATCH_V6 e c proto src6 dst6 ports = true ->
      IPCL_CONN_HASH_V6 e size src6 ports = IPCL_CONN_HASH_V6 e size (conn_remv6 c) (conn_ports e c)).
Proof.
  intros Hsz Hp Hk. repeat apply conj.
  1-4: apply Z.mod_pos_bound; done.
  - unfold IPCL_RAW_HASH. apply Z.land_nonneg. right. pose proof (pow2_pos k Hk). lia.
  - unfold IPCL_RAW_HASH. replace (2 ^ k - 1) with (Z.ones k) by (rewrite Z.ones_equiv; lia).
    rewrite Z.land_ones by done. apply Z.mod_pos_bound, pow2_pos. done.
  - intros hi lo Hhi Hlo. unfold is_byte in *. unfold IPCL_UDP_HASH, port_of. destruct e; cbn [rev app of_le].
    + change 0xFF with (Z.ones 8). rewrite Z.land_ones by lia. change (2 ^ 8) with 256. Z.div_mod_to_equations. lia.
    + rewrite wrapu_id by (unfold in_u; lia). rewrite Z.shiftr_div_pow2 by lia. change (2 ^ 8) with 256. Z.div_mod_to_equations. lia.
  - intros c proto dst (_ & Hr & _) Hsrc. unfold IPCL_CONN_MATCH. rewrite !andb_true_iff, Z.eqb_eq.
    intros [[[[_ E] Hm] _] _]. apply Z.eqb_eq in E. rewrite v4_match in Hm by done. apply bool_decide_eq_true in Hm.
    unfold IPCL_CONN_HASH_V6. by rewrite Hm, v4_part, E.
  - intros c proto src6 dst6 (_ & Hr & _) Hsrc. unfold IPCL_CONN_MATCH_V6. rewrite !andb_true_iff, Z.eqb_eq.
    intros [[[_ E] Hm] _]. apply Z.eqb_eq in E. rewrite (proj1 (in6_equal e _ _ Hr Hsrc)) in Hm.
    apply bool_decide_eq_true in Hm. by rewrite Hm, E.
Qed.

Lemma hash_buckets_witness :
  0 <= IPCL_CONN_HASH 1021 0x0100007f 0x50001f90 < 1021.
Proof.
  apply (hash_buckets LittleEndian 1021 0x0100007f 0x50001f90 80 8); [lia|unfold in_u; lia|lia].
Defined.
