(* ===== verification/ConnRef.v ===== *)
(** * The reference count of a connection: inet/ipclassifier.h

    [CONN_INC_REF], [CONN_INC_REF_LOCKED] and [CONN_DEC_REF] of
    [src/include/inet/ipclassifier.h], executed by any number of threads in any
    interleaving of their instructions, the lock [conn_lock] included.  While
    the callers take and drop references only when they have one, no panic or
    assertion fires, the connection is destroyed once, by the thread that drops
    the last reference, and nothing uses it afterwards; every run ends. *)
From S2P Require Import Prelude.
From stdpp Require Import relations.
#[local] Open Scope Z_scope.
#[local] Open Scope c_scope.

(** ** Instructions and threads *)

(** The statements of the three macros.  Left out are the DTrace probes and
    [conn_trace_ref] and [conn_untrace_ref], functions of the IP module that
    record a stack trace of the caller. *)
#[warnings="-register-all"] Inductive instr :=
  | mutex_enter | mutex_exit | assert_held
  | ref_incr | ref_decr
  | assert_ref_nonzero
  | panic_if_no_ref
  | if_last_ref (yes no : list instr)
  | cv_broadcast
  | ipcl_conn_destroy.

Definition CONN_INC_REF : list instr := [mutex_enter; ref_incr; assert_ref_nonzero; mutex_exit].
Definition CONN_INC_REF_LOCKED : list instr := [assert_held; ref_incr; assert_ref_nonzero].
Definition CONN_DEC_REF : list instr :=
  [mutex_enter; panic_if_no_ref; ref_decr;
   if_last_ref [mutex_exit; ipcl_conn_destroy] [cv_broadcast; mutex_exit]].

(** What a thread does with a connection: take a reference, take one with the
    lock it acquires itself, drop one. *)
Inductive stmt := INC | INC_LOCKED | DEC.
Definition code_of (s : stmt) : list instr :=
  match s with
  | INC => CONN_INC_REF
  | INC_LOCKED => mutex_enter :: CONN_INC_REF_LOCKED ++ [mutex_exit]
  | DEC => CONN_DEC_REF
  end.

(** [now]: the rest of the statement being executed; [todo]: the statements
    after it; [held]: the references the thread has (a ghost: no code reads
    it). *)
Record thread := Thread { now : list instr; todo : list stmt; held : nat }.

(** [fault]: a panic, a failed assertion, the release of a lock that is not
    held, or any use of the connection after [ipcl_conn_destroy]. *)
Record kstate := KState {
  ref : Z; owner : option nat; threads : list thread; destroys : nat; wakeups : nat; fault : bool }.

Definition set_now (l : list instr) (t : thread) : thread := Thread l (todo t) (held t).

(** One instruction of thread [i]; [None] when it has none, or waits for the
    lock. *)
Definition exec (i : nat) (s : kstate) : option kstate :=
  t ← threads s !! i;
  let ts l h := <[i := Thread l (todo t) h]> (threads s) in
  let bad b := fault s || b || negb (Nat.eqb (destroys s) 0) in
  match now t with
  | [] =>
    match todo t with
    | [] => None
    | c :: cs => Some (KState (ref s) (owner s) (<[i := Thread (code_of c) cs (held t)]> (threads s))
                              (destroys s) (wakeups s) (fault s))
    end
  | mutex_enter :: l =>
    match owner s with
    | Some _ => None
    | None => Some (KState (ref s) (Some i) (ts l (held t)) (destroys s) (wakeups s) (bad false))
    end
  | mutex_exit :: l =>
    Some (KState (ref s) None (ts l (held t)) (destroys s) (wakeups s) (bad (negb (bool_decide (owner s = Some i)))))
  | assert_held :: l =>
    Some (KState (ref s) (owner s) (ts l (held t)) (destroys s) (wakeups s) (bad (negb (bool_decide (owner s = Some i)))))
  | ref_incr :: l =>
    Some (KState (wrapu 32 (ref s + 1)) (owner s) (ts l (S (held t))) (destroys s) (wakeups s) (bad false))
  | ref_decr :: l =>
    Some (KState (wrapu 32 (ref s - 1)) (owner s) (ts l (pred (held t))) (destroys s) (wakeups s) (bad false))
  | assert_ref_nonzero :: l =>
    Some (KState (ref s) (owner s) (ts l (held t)) (destroys s) (wakeups s) (bad (ref s =? 0)))
  | panic_if_no_ref :: l =>
    Some (KState (ref s) (owner s) (ts l (held t)) (destroys s) (wakeups s) (bad (ref s <=? 0)))
  | if_last_ref yes no :: l =>
    Some (KState (ref s) (owner s) (ts ((if ref s =? 0 then yes else no) ++ l) (held t))
                 (destroys s) (wakeups s) (bad false))
  | cv_broadcast :: l =>
    Some (KState (ref s) (owner s) (ts l (held t)) (destroys s) (S (wakeups s)) (bad false))
  | ipcl_conn_destroy :: l =>
    Some (KState (ref s) (owner s) (ts l (held t)) (S (destroys s)) (wakeups s) (bad false))
  end.

Definition kstep (s s' : kstate) : Prop := exists i, exec i s = Some s'.

(** The discipline of the callers: a thread takes or drops a reference only
    while it has one. *)
Fixpoint disciplined (h : nat) (l : list stmt) : Prop :=
  match l with
  | [] => True
  | DEC :: l => (0 < h)%nat /\ disciplined (pred h) l
  | _ :: l => (0 < h)%nat /\ disciplined (S h) l
  end.

Definition total (ts : list thread) : nat := sum_list (held <$> ts).
(** The references a thread has and those it is yet to take. *)
Definition is_incr (c : instr) : nat := match c with ref_incr => 1 | _ => 0 end.
Definition pot (t : thread) : nat := held t + sum_list (is_incr <$> now t) + length (todo t).
(** The instructions a thread can still execute. *)
Fixpoint isize (c : instr) : nat :=
  match c with if_last_ref yes no => S (sum_list_with isize yes + sum_list_with isize no) | _ => 1 end.
Definition csize (l : list instr) : nat := sum_list_with isize l.
Definition tsize (t : thread) : nat := csize (now t) + sum_list ((fun c => S (csize (code_of c))) <$> todo t).
Definition work (s : kstate) : nat := sum_list (tsize <$> threads s).

Definition quiet (t : thread) : Prop := now t = [] /\ todo t = [].
#[export] Instance quiet_dec t : Decision (quiet t).
Proof. destruct t as [[|] [|] h]; solve [left; done | right; intros [? ?]; done]. Defined.

(** A live connection whose references are all with threads that have not
    started. *)
Definition initial (s : kstate) : Prop :=
  owner s = None /\ destroys s = 0%nat /\ fault s = false
  /\ ref s = Z.of_nat (total (threads s)) /\ 0 < ref s /\ Z.of_nat (sum_list (pot <$> threads s)) < 2 ^ 32
  /\ Forall (fun t => now t = [] /\ disciplined (held t) (todo t)) (threads s).

(** *** The invariant *)
Abbreviation IF_LAST := (if_last_ref [mutex_exit; ipcl_conn_destroy] [cv_broadcast; mutex_exit]).

(** Where a thread is, [mine] telling whether it has the lock. *)
Inductive point : bool -> thread -> Prop :=
  | at_idle l h : disciplined h l -> point false (Thread [] l h)
  | at_start c l h : disciplined h (c :: l) -> point false (Thread (code_of c) l h)
  | at_held l h : (0 < h)%nat -> disciplined (S h) l ->
      point true (Thread [assert_held; ref_incr; assert_ref_nonzero; mutex_exit] l h)
  | at_incr l h : (0 < h)%nat -> disciplined (S h) l -> point true (Thread [ref_incr; assert_ref_nonzero; mutex_exit] l h)
  | at_assert l h : (0 < h)%nat -> disciplined h l -> point true (Thread [assert_ref_nonzero; mutex_exit] l h)
  | at_exit l h : disciplined h l -> point true (Thread [mutex_exit] l h)
  | at_panic l h : (0 < h)%nat -> disciplined (pred h) l -> point true (Thread [panic_if_no_ref; ref_decr; IF_LAST] l h)
  | at_decr l h : (0 < h)%nat -> disciplined (pred h) l -> point true (Thread [ref_decr; IF_LAST] l h)
  | at_if l h : disciplined h l -> point true (Thread [IF_LAST] l h)
  | at_last : point true (Thread [mutex_exit; ipcl_conn_destroy] [] 0)
  | at_destroy : point false (Thread [ipcl_conn_destroy] [] 0)
  | at_broadcast l h : disciplined h l -> point true (Thread [cv_broadcast; mutex_exit] l h).

Definition dying (t : thread) : Prop := now t = [mutex_exit; ipcl_conn_destroy] \/ now t = [ipcl_conn_destroy].

(** Before the last reference is dropped, between that and the destruction,
    and after it. *)
Definition alive (s : kstate) : Prop :=
  0 < ref s /\ destroys s = 0%nat /\ Forall (fun t => ~ dying t) (threads s).
Definition closing (s : kstate) : Prop :=
  ref s = 0 /\ destroys s = 0%nat /\ exists i t, threads s !! i = Some t /\ (now t = [IF_LAST] \/ dying t)
  /\ forall j t', j <> i -> threads s !! j = Some t' -> quiet t'.
Definition gone (s : kstate) : Prop := ref s = 0 /\ destroys s = 1%nat /\ Forall quiet (threads s).

Record kinv (s : kstate) : Prop := {
  kinv_fault : fault s = false;
  kinv_ref : ref s = Z.of_nat (total (threads s));
  kinv_pot : Z.of_nat (sum_list (pot <$> threads s)) < 2 ^ 32;
  kinv_owner i : owner s = Some i -> is_Some (threads s !! i);
  kinv_point i t : threads s !! i = Some t -> point (bool_decide (owner s = Some i)) t;
  kinv_phase : alive s \/ closing s \/ gone s }.

(** Without a reference there is nothing left to do. *)
Lemma disciplined_0 l : disciplined 0 l -> l = [].
Proof. destruct l as [|[] l]; simpl; [done|lia..]. Qed.

Lemma quiet_point t : point false t -> held t = 0%nat -> ~ dying t -> quiet t.
Proof.
  intros Hp Hh Hn. remember false as b eqn:Eb. destruct Hp as [l h Hd|c l h Hd| | | | | | | | | |]; try done;
    simpl in Hh; subst.
  - split; [done|]. by apply disciplined_0.
  - apply disciplined_0 in Hd. done.
  - destruct Hn. by right.
Qed.

Lemma quiet_exec i t s : threads s !! i = Some t -> quiet t -> exec i s = None.
Proof. intros E [En El]. unfold exec. rewrite E. simpl. by rewrite En, El. Qed.

Lemma held_pot ts : (total ts <= sum_list (pot <$> ts))%nat.
Proof. unfold total. induction ts as [|t ts IH]; csimpl; [done|]. unfold pot at 1. lia. Qed.

Lemma held_incr ts i t :
  ts !! i = Some t -> (total ts + sum_list (is_incr <$> now t) <= sum_list (pot <$> ts))%nat.
Proof.
  revert i. unfold total. induction ts as [|a ts IH]; intros [|i] E; simplify_eq/=; csimpl.
  - pose proof (held_pot ts). unfold total in *. unfold pot at 1. lia.
  - specialize (IH _ E). unfold pot at 1. lia.
Qed.

(** The lock stays, is taken by [i], or is released by [i]. *)
Definition lock_moves (i : nat) (o o' : option nat) : Prop :=
  o' = o \/ (o = None /\ o' = Some i) \/ (o = Some i /\ o' = None).

Lemma points_insert s i t' o' :
  kinv s -> lock_moves i (owner s) o' -> point (bool_decide (o' = Some i)) t' ->
  forall j u, <[i := t']> (threads s) !! j = Some u -> point (bool_decide (o' = Some j)) u.
Proof.
  intros Hs Ho Hp j u E. apply list_lookup_insert_Some in E as [(-> & -> & _)|[Hne E]]; [done|].
  assert (bool_decide (o' = Some j) = bool_decide (owner s = Some j)) as ->; [|by apply kinv_point].
  apply bool_decide_ext. destruct Ho as [->|[[-> ->]|[-> ->]]]; [done|split; congruence..].
Qed.

Lemma owner_insert s i t t' o' :
  kinv s -> lock_moves i (owner s) o' -> threads s !! i = Some t ->
  forall j, o' = Some j -> is_Some (<[i := t']> (threads s) !! j).
Proof.
  intros Hs Ho Et j Hj. apply lookup_lt_is_Some. rewrite length_insert. apply lookup_lt_is_Some.
  destruct Ho as [->|[[_ ->]|[_ ->]]]; [by apply kinv_owner|by simplify_eq|done].
Qed.

(** A step before the last reference is dropped, or the one that drops it. *)
Lemma kinv_move s i t t' o' r' w' :
  kinv s -> alive s -> threads s !! i = Some t ->
  lock_moves i (owner s) o' -> point (bool_decide (o' = Some i)) t' ->
  r' + Z.of_nat (held t) = ref s + Z.of_nat (held t') -> (pot t' <= pot t)%nat -> ~ dying t' ->
  0 < r' \/ (now t' = [IF_LAST] /\ owner s = Some i /\ 0 <= r') ->
  kinv (KState r' o' (<[i := t']> (threads s)) 0 w' false).
Proof.
  intros Hs (Hr & Hd & Hn) Et Ho Hp Er Hpot Hdy Hcase.
  pose proof (sum_insert held _ _ _ t' Et) as Hh. pose proof (sum_insert pot _ _ _ t' Et) as Hq.
  pose proof (kinv_ref s Hs) as Href. pose proof (kinv_pot s Hs) as Hsp. unfold total in *.
  constructor; simpl; [done|unfold total; lia|lia|by eapply owner_insert|by apply points_insert|].
  destruct (decide (0 < r')) as [Hpos|Hz].
  - left. split; [done|]. split; [done|]. simpl. by apply Forall_insert.
  - right. left. destruct Hcase as [|(Hnow & Hown & H0)]; [lia|]. assert (r' = 0) as -> by lia.
    split; [done|]. split; [done|]. exists i, t'. simpl. split.
    { apply list_lookup_insert_eq. by eapply lookup_lt_Some. }
    split; [by left|]. intros j u Hj Eu. rewrite list_lookup_insert_ne in Eu by done.
    pose proof (kinv_point s Hs j u Eu) as Hpt. rewrite bool_decide_eq_false_2 in Hpt by congruence.
    apply quiet_point; [done| |by eapply (proj1 (Forall_lookup _ _) Hn)].
    assert (sum_list (held <$> <[i := t']> (threads s)) = 0%nat) as Hsum by lia.
    apply sum_zero in Hsum. eapply (proj1 (Forall_lookup _ _) Hsum j).
    by rewrite list_lookup_insert_ne.
Qed.

(** A step of a live connection. *)
Ltac kmove Hs Ha Et :=
  eapply (kinv_move _ _ _ _ _ _ _ Hs Ha Et); simpl;
  [ unfold lock_moves; try (left; done); try (right; left; done); try (right; right; done)
  | rewrite ?bool_decide_eq_true_2, ?bool_decide_eq_false_2 by congruence; first [done | constructor; (done || lia)]
  | simpl; lia | unfold pot; simpl; lia | intros [|]; done | try (left; lia) ].

Lemma kinv_alive s i s' : kinv s -> alive s -> exec i s = Some s' -> kinv s'.
Proof.
  intros Hs Ha E. unfold exec in E. destruct (threads s !! i) as [t|] eqn:Et; [|done]. simpl in E.
  pose proof (kinv_point s Hs i t Et) as Hp. pose proof (kinv_ref s Hs) as Href.
  pose proof (kinv_pot s Hs) as Hpot. pose proof (held_incr _ _ _ Et) as Hincr.
  pose proof (sum_le held _ _ _ Et) as Hhle. fold (total (threads s)) in Hhle.
  pose proof Ha as (Hr & Hd & Hn). pose proof (proj1 (Forall_lookup _ _) Hn i t Et) as Hnd.
  rewrite (kinv_fault s Hs), Hd in E. cbn [Nat.eqb negb orb] in E.
  case_bool_decide as Hown;
    inversion Hp as [l h Hdi|c l h Hdi|l h H0 Hdi|l h H0 Hdi|l h H0 Hdi|l h Hdi|l h H0 Hdi|l h H0 Hdi|l h Hdi| | |l h Hdi];
    subst t; cbn [now todo held] in *.
  all: try (by destruct Hnd; (left + right)).
  all: simpl in Hincr.
  1-8: injection E as <-; cbn [negb orb].
  - kmove Hs Ha Et.
  - rewrite wrapu_id by (unfold in_u; lia). kmove Hs Ha Et.
  - rewrite (proj2 (Z.eqb_neq (ref s) 0)) by lia. kmove Hs Ha Et.
  - kmove Hs Ha Et.
  - rewrite (proj2 (Z.leb_gt (ref s) 0)) by lia. kmove Hs Ha Et.
  - rewrite wrapu_id by (unfold in_u; lia). kmove Hs Ha Et. right. split; [done|]. split; [done|lia].
  - rewrite (proj2 (Z.eqb_neq (ref s) 0)) by lia. kmove Hs Ha Et.
  - kmove Hs Ha Et.
  - destruct l as [|c l]; [done|]. injection E as <-.
    assert (point false (Thread (code_of c) l h)) by (by apply at_start).
    destruct c; kmove Hs Ha Et.
  - destruct (owner s) eqn:Eo; [by destruct c|].
    destruct c; destruct Hdi; injection E as <-; kmove Hs Ha Et.
Qed.

(** The steps of the thread that dropped the last reference. *)
Ltac not_start := try match goal with H : code_of ?c = _ |- _ => by destruct c end.

Lemma kinv_closing s i s' : kinv s -> closing s -> exec i s = Some s' -> kinv s'.
Proof.
  intros Hs (Hr & Hd & k & t & Ek & Hnow & Hq) E.
  destruct (decide (i = k)) as [->|Hne].
  2: { destruct (threads s !! i) as [u|] eqn:Eu; [|unfold exec in E; by rewrite Eu in E].
       rewrite (quiet_exec i u s) in E; [done|done|by apply (Hq i)]. }
  pose proof (kinv_point s Hs k t Ek) as Hp. pose proof (kinv_ref s Hs) as Href. pose proof (kinv_pot s Hs) as Hpot.
  assert (held t = 0%nat) as Hh.
  { pose proof (sum_le held _ _ _ Ek). fold (total (threads s)) in *. lia. }
  assert (forall t' j u, j <> k -> <[k := t']> (threads s) !! j = Some u -> quiet u) as Hq'.
  { intros t' j u Hj Eu. rewrite list_lookup_insert_ne in Eu by done. by apply (Hq j). }
  unfold exec in E. rewrite Ek in E. simpl in E. rewrite (kinv_fault s Hs), Hd in E. cbn [Nat.eqb negb orb] in E.
  assert (forall t' o' d' w', held t' = 0%nat -> (pot t' <= pot t)%nat -> lock_moves k (owner s) o' ->
    point (bool_decide (o' = Some k)) t' ->
    closing (KState 0 o' (<[k := t']> (threads s)) d' w' false) \/ gone (KState 0 o' (<[k := t']> (threads s)) d' w' false) ->
    kinv (KState 0 o' (<[k := t']> (threads s)) d' w' false)) as Hmove.
  { intros t' o' d' w' Ht Hpt Ho Hpo Hph. pose proof (sum_insert held _ _ _ t' Ek) as Hsh.
    pose proof (sum_insert pot _ _ _ t' Ek) as Hsp. unfold total in *.
    constructor; simpl; [done|unfold total; lia|lia|by eapply owner_insert|by apply points_insert|by right]. }
  pose proof (lookup_lt_Some _ _ _ Ek) as Hlt.
  destruct t as [n l h]. simpl in Hh. subst h. unfold dying in Hnow. simpl in Hnow, E.
  destruct Hnow as [->|[->| ->]]; cbn [now] in E; injection E as <-; rewrite ?Hr; cbn [Z.eqb app].
  - inversion Hp; subst; not_start. assert (l = []) as -> by (by apply disciplined_0).
    assert (owner s = Some k) by (by apply (bool_decide_eq_true (owner s = Some k))). apply Hmove; try done; [by left| |].
    { rewrite bool_decide_eq_true_2 by done. constructor. }
    left. split; [done|]. split; [done|]. exists k, (Thread [mutex_exit; ipcl_conn_destroy] [] 0).
    split; [by apply list_lookup_insert_eq|]. split; [right; by left|]. apply Hq'.
  - inversion Hp; subst; not_start. assert (owner s = Some k) as Ho by (by apply (bool_decide_eq_true (owner s = Some k))).
    rewrite ?Ho, ?bool_decide_eq_true_2 by done. cbn [negb orb]. apply Hmove; try done; [right; right; done| |].
    { constructor. }
    left. split; [done|]. split; [done|]. exists k, (Thread [ipcl_conn_destroy] [] 0).
    split; [by apply list_lookup_insert_eq|]. split; [right; by right|]. apply Hq'.
  - inversion Hp as [|c l' h' Hd' Eo| | | | | | | | |Eo|]; subst; not_start.
    apply Hmove; try done; [by left| |].
    { rewrite <- Eo. by constructor. }
    right. split; [done|]. split; [done|]. apply Forall_lookup. intros j u Eu.
    destruct (decide (j = k)) as [->|Hj]; [|exact (Hq' _ j u Hj Eu)].
    cbn [threads] in Eu. rewrite list_lookup_insert_eq in Eu by done. by simplify_eq.
Qed.

Lemma kinv_step s s' : kinv s -> kstep s s' -> kinv s'.
Proof.
  intros Hs [i E]. destruct (kinv_phase s Hs) as [Ha|[Hc|(_ & _ & Hq)]].
  - by eapply kinv_alive.
  - by eapply kinv_closing.
  - destruct (threads s !! i) as [t|] eqn:Et; [|unfold exec in E; by rewrite Et in E].
    rewrite (quiet_exec i t s) in E; [done|done|]. by apply (proj1 (Forall_lookup _ _) Hq i).
Qed.

Lemma kinv_reach s s' : kinv s -> rtc kstep s s' -> kinv s'.
Proof. intros Hs Hr. induction Hr as [|s s1 s' H1 _ IH]; [done|]. apply IH. by eapply kinv_step. Qed.

Lemma initial_kinv s : initial s -> kinv s.
Proof.
  intros (Ho & Hd & Hf & Hr & Hpos & Hpot & Ht). rewrite Forall_lookup in Ht. constructor; try done.
  - rewrite Ho. done.
  - intros i [n l h] Et. destruct (Ht _ _ Et) as [Hn Hl]. simpl in Hn, Hl. subst n.
    rewrite Ho. by constructor.
  - left. split; [done|]. split; [done|]. apply Forall_lookup. intros i t Et [E|E];
      destruct (Ht _ _ Et) as [Hn _]; by rewrite Hn in E.
Qed.

(** Every instruction is work done. *)
Lemma exec_work i s s' : exec i s = Some s' -> (work s' < work s)%nat.
Proof.
  unfold exec, work. destruct (threads s !! i) as [[n l h]|] eqn:Et; [|done]. simpl.
  assert (forall t', (tsize t' < tsize (Thread n l h))%nat ->
    (sum_list (tsize <$> <[i := t']> (threads s)) < sum_list (tsize <$> threads s))%nat) as Hlt.
  { intros t' Ht. pose proof (sum_insert tsize _ _ _ t' Et). lia. }
  destruct n as [|c n]; [destruct l as [|c l]; [done|]|destruct c; try destruct (owner s)]; intros [=<-] || intros [=];
    cbn [threads]; apply Hlt; unfold tsize, csize; cbn [now todo]; csimpl; try lia.
  all: try (destruct (ref s =? 0); rewrite sum_list_with_app; simpl; lia).
Qed.

Lemma work_bounds n s s' : nsteps kstep n s s' -> (n + work s' <= work s)%nat.
Proof.
  induction 1 as [|n s s1 s' [i E] _ IH]; [lia|]. apply exec_work in E. lia.
Qed.

(** A thread with something to do can do it, or waits for the one that has the
    lock, which can go on. *)
Lemma kprogress s : kinv s -> Forall quiet (threads s) \/ exists s', kstep s s'.
Proof.
  intros Hs. destruct (owner s) as [i|] eqn:Eo.
  - right. destruct (kinv_owner s Hs i Eo) as [t Et]. pose proof (kinv_point s Hs i t Et) as Hp.
    rewrite bool_decide_eq_true_2 in Hp by done.
    assert (is_Some (exec i s)) as [s' E]; [|by exists s', i].
    unfold exec. rewrite Et. simpl. inversion Hp; subst; simpl; eauto.
  - destruct (decide (Forall quiet (threads s))) as [Hq|Hn]; [by left|].
    right. apply not_Forall_Exists in Hn; [|intros t; apply _]. apply Exists_exists in Hn as (t & Hin & Hb).
    apply list_elem_of_lookup in Hin as [i Et].
    assert (is_Some (exec i s)) as [s' E]; [|by exists s', i].
    unfold exec. rewrite Et. simpl. rewrite Eo.
    destruct t as [[|[] n] [|x l] h]; simpl in *; eauto. by destruct Hb.
Qed.

(** *** The theorems *)

(** C12: reference counting is safe.  However the instructions of the threads
    interleave, no panic or assertion fires, the lock is released only by its
    holder and the connection is never touched after it was destroyed; the
    count is the number of references the threads have, without wrapping; the
    connection is destroyed at most once, and when it is, every reference is
    gone and no thread has anything left to do. *)
Theorem conn_ref_safe s s' :
  initial s -> rtc kstep s s' ->
  fault s' = false
  /\ ref s' = Z.of_nat (total (threads s')) /\ in_u 32 (ref s')
  /\ (destroys s' <= 1)%nat
  /\ (destroys s' = 1%nat -> ref s' = 0 /\ Forall quiet (threads s')).
Proof.
  intros Hi Hr. apply initial_kinv in Hi. pose proof (kinv_reach s s' Hi Hr) as Hk.
  split; [by apply kinv_fault|]. split; [by apply kinv_ref|]. split.
  { pose proof (kinv_ref s' Hk). pose proof (kinv_pot s' Hk). pose proof (held_pot (threads s')). unfold in_u. lia. }
  destruct (kinv_phase s' Hk) as [(_ & -> & _)|[(_ & -> & _)|(H0 & -> & Hq)]]; (split; [lia|done]).
Qed.

(** Reference counting completes.  Every run of the threads ends within a
    number of steps known at the start; a thread that has something to do is
    never stuck for good; and when all are done, the connection has been
    destroyed exactly when no reference is left, and once. *)
Theorem conn_ref_completes s :
  initial s ->
  (forall n s', nsteps kstep n s s' -> (n <= work s)%nat)
  /\ (forall s', rtc kstep s s' ->
      Forall quiet (threads s') \/ exists s'', kstep s' s'')
  /\ (forall s', rtc kstep s s' -> Forall quiet (threads s') ->
      destroys s' = if total (threads s') =? 0 then 1%nat else 0%nat)%nat.
Proof.
  intros Hi. apply initial_kinv in Hi. split; [|split].
  - intros n s' Hn. apply work_bounds in Hn. lia.
  - intros s' Hr. apply kprogress. by eapply kinv_reach.
  - intros s' Hr Hq. pose proof (kinv_reach s s' Hi Hr) as Hk. pose proof (kinv_ref s' Hk) as Href.
    destruct (kinv_phase s' Hk) as [(Hpos & -> & _)|[(_ & _ & i & t & Et & Hnow & _)|(H0 & -> & _)]].
    + rewrite (proj2 (Nat.eqb_neq _ _)) by lia. done.
    + destruct (proj1 (Forall_lookup _ _) Hq i t Et) as [En _]. unfold dying in Hnow.
      rewrite En in Hnow. by destruct Hnow as [|[|]].
    + rewrite (proj2 (Nat.eqb_eq _ _)) by lia. done.
Qed.

(** Two threads with a reference each; one takes another. *)
Definition two_threads : kstate :=
  KState 2 None [Thread [] [INC; DEC; DEC] 1; Thread [] [INC_LOCKED; DEC; DEC] 1] 0 0 false.

Lemma two_threads_initial : initial two_threads.
Proof.
  split; [done|]. split; [done|]. split; [done|]. split; [done|]. split; [simpl; lia|]. split; [simpl; lia|].
  repeat constructor; simpl; lia.
Qed.

(** A run of the schedule [l]. *)
Fixpoint run (l : list nat) (s : kstate) : option kstate :=
  match l with [] => Some s | i :: l => s ← exec i s; run l s end.

Lemma run_rtc l s s' : run l s = Some s' -> rtc kstep s s'.
Proof.
  revert s. induction l as [|i l IH]; intros s E; simpl in E; [by simplify_eq|].
  destruct (exec i s) as [s1|] eqn:E1; [|done]. simpl in E. apply rtc_l with s1; [by exists i|by apply IH].
Qed.

Definition schedule : list nat := [0; 1]%nat ++ replicate 18 0%nat ++ replicate 19 1%nat.
Definition two_done : kstate := KState 0 None [Thread [] [] 0; Thread [] [] 0] 1 3 false.
Lemma two_threads_run : run schedule two_threads = Some two_done.
Proof. reflexivity. Qed.

Lemma conn_ref_safe_witness :
  destroys two_done = 1%nat /\ fault two_done = false /\ Forall quiet (threads two_done).
Proof.
  pose proof (conn_ref_safe two_threads two_done two_threads_initial (run_rtc _ _ _ two_threads_run))
    as (Hf & _ & _ & _ & Hq).
  split; [reflexivity|]. split; [exact Hf|]. exact (proj2 (Hq eq_refl)).
Defined.

Lemma conn_ref_completes_witness :
  destroys two_done = if (total (threads two_done) =? 0)%nat then 1%nat else 0%nat.
Proof.
  apply (conn_ref_completes two_threads two_threads_initial).
  - exact (run_rtc _ _ _ two_threads_run).
  - repeat constructor.
Defined.
