(* ===== verification/Ufs.v ===== *)
(** * The layout of a UFS file system: sys/fs/ufs_fs.h

    The superblock and the cylinder groups of [src/include/sys/fs/ufs_fs.h]
    and the macros that compute addresses from them: fragments and blocks of
    a file, the place of a cylinder group and of an inode on the disk, the
    size of a file's blocks and the bit maps.  The theorems say that the shifts
    and masks are the divisions the header's comments give, that inodes have
    places of their own inside their group, that the blocks of a file hold it,
    and that the maps are sets.

    Signed arithmetic that overflows is undefined in C: it is exact here, and
    the theorems bound their operands.  Casts wrap. *)
From S2P Require Import Prelude SysMacros.

(** ** Constants *)
Definition NBBY := 8.
Definition MAXFRAG : nat := 8.
Definition NDADDR := 12.
Definition BBSIZE := 8192.
Definition SBSIZE := 8192.
Definition BBOFF := 0.
Definition SBOFF := BBOFF + BBSIZE.
Definition BBLOCK := 0.
Definition SBLOCK := BBLOCK + BBSIZE / DEV_BSIZE.
Definition UFSROOTINO := 2.
Definition LOSTFOUNDINO := UFSROOTINO + 1.
Definition UFS_MAXOFFSET_T := (1 <<< (NBBY * 4 + DEV_BSHIFT - 1)) - 1.
Definition UFS_FILESIZE_BITS := 41.
Definition MINBSIZE := 4096.
Definition MAXMNTLEN := 512.
Definition MAXCSBUFS := 32.
Definition FS_MAGIC := 0x011954.
Definition MTB_UFS_MAGIC := 0xdecade.
Definition FSOKAY := 0x7c269d38.
Definition FSACTIVE := 0.
Definition FSCLEAN := 0x1.
Definition FSSTABLE := 0x2.
Definition FSBAD := wraps 8 0xff.
Definition FSSUSPEND := wraps 8 0xfe.
Definition FSLOG := wraps 8 0xfd.
Definition FSFIX := wraps 8 0xfc.
Definition FSLARGEFILES := 0x1.
Definition FS_42POSTBLFMT := -1.
Definition FS_DYNAMICPOSTBLFMT := 1.
Definition CG_MAGIC := 0x090255.

(** ** The superblock and the cylinder group *)
Record csum := Csum { cs_ndir : Z; cs_nbfree : Z; cs_nifree : Z; cs_nffree : Z }.

(** [fs_npsect] and [fs_state] change places with the byte order; [fs_u] is
    the summary array it points to. *)
Record fs := Fs {
  fs_link : Z; fs_rolled : Z; fs_sblkno : Z; fs_cblkno : Z; fs_iblkno : Z; fs_dblkno : Z;
  fs_cgoffset : Z; fs_cgmask : Z; fs_time : Z; fs_size : Z; fs_dsize : Z; fs_ncg : Z;
  fs_bsize : Z; fs_fsize : Z; fs_frag : Z; fs_minfree : Z; fs_rotdelay : Z; fs_rps : Z;
  fs_bmask : Z; fs_fmask : Z; fs_bshift : Z; fs_fshift : Z; fs_maxcontig : Z; fs_maxbpg : Z;
  fs_fragshift : Z; fs_fsbtodb : Z; fs_sbsize : Z; fs_csmask : Z; fs_csshift : Z; fs_nindir : Z;
  fs_inopb : Z; fs_nspf : Z; fs_optim : Z; fs_state : Z; fs_si : Z; fs_trackskew : Z;
  fs_id : list Z; fs_csaddr : Z; fs_cssize : Z; fs_cgsize : Z; fs_ntrak : Z; fs_nsect : Z;
  fs_spc : Z; fs_ncyl : Z; fs_cpg : Z; fs_ipg : Z; fs_fpg : Z; fs_cstotal : csum;
  fs_fmod : Z; fs_clean : Z; fs_ronly : Z; fs_flags : Z; fs_fsmnt : list Z; fs_cgrotor : Z;
  fs_csp : list csum; fs_cpc : Z; fs_opostbl : list (list Z); fs_sparecon : list Z; fs_version : Z;
  fs_logbno : Z; fs_reclaim : Z; fs_sparecon2 : Z; fs_npsect : Z; fs_qbmask : Z; fs_qfmask : Z;
  fs_postblformat : Z; fs_nrpos : Z; fs_postbloff : Z; fs_rotbloff : Z; fs_magic : Z;
  fs_space : list Z }.

Record cg := Cg {
  cg_link : Z; cg_magic : Z; cg_time : Z; cg_cgx : Z; cg_ncyl : Z; cg_niblk : Z; cg_ndblk : Z;
  cg_cs : csum; cg_rotor : Z; cg_frotor : Z; cg_irotor : Z; cg_frsum : list Z; cg_btotoff : Z;
  cg_boff : Z; cg_iusedoff : Z; cg_freeoff : Z; cg_nextfreeoff : Z; cg_sparecon : list Z;
  cg_space : list Z }.

Definition fs_cs (f : fs) (indx : nat) : option csum := fs_csp f !! indx.

(** The arrays of a superblock and of a cylinder group, as their offset in
    octets: in the old formats, that of a member of [struct fs] and of
    [struct ocg]. *)
Definition offsetof_fs_opostbl := 860.
Definition offsetof_fs_space := 1376.
Definition offsetof_ocg_btot := 84.
Definition offsetof_ocg_b := 212.
Definition offsetof_ocg_iused := 724.
Definition offsetof_ocg_free := 984.

Definition fs_postbl (f : fs) (cylno : Z) : Z :=
  if negb (fs_postblformat f =? FS_DYNAMICPOSTBLFMT) then offsetof_fs_opostbl + 16 * cylno
  else fs_postbloff f + 2 * (cylno * fs_nrpos f).
Definition fs_rotbl (f : fs) : Z :=
  if negb (fs_postblformat f =? FS_DYNAMICPOSTBLFMT) then offsetof_fs_space else fs_rotbloff f.
Definition cg_blktot (c : cg) : Z :=
  if negb (cg_magic c =? CG_MAGIC) then offsetof_ocg_btot else cg_btotoff c.
Definition cg_blks (f : fs) (c : cg) (cylno : Z) : Z :=
  if negb (cg_magic c =? CG_MAGIC) then offsetof_ocg_b + 16 * cylno else cg_boff c + 2 * (cylno * fs_nrpos f).
Definition cg_inosused (c : cg) : Z :=
  if negb (cg_magic c =? CG_MAGIC) then offsetof_ocg_iused else cg_iusedoff c.
Definition cg_blksfree (c : cg) : Z :=
  if negb (cg_magic c =? CG_MAGIC) then offsetof_ocg_free else cg_freeoff c.

(** ** Fragments, sectors and blocks *)
Section Address.
Context (f : fs).

(** [diskaddr_t] is an unsigned 64-bit type. *)
Definition fsbtodb (b : Z) : Z := wrapu 64 (wrapu 64 b <<< fs_fsbtodb f).
Definition dbtofsb (b : Z) : Z := b >>> fs_fsbtodb f.
Definition logbtodb (b : Z) : Z := if fs_magic f =? FS_MAGIC then wrapu 64 b else wrapu 64 (wrapu 64 b <<< fs_fsbtodb f).
Definition logbtofrag (b : Z) : Z := if fs_magic f =? FS_MAGIC then b >>> fs_fsbtodb f else b.
Definition logbtofsblk (b : Z) : Z :=
  if fs_magic f =? FS_MAGIC then b >>> (fs_fsbtodb f + fs_fragshift f) else b >>> fs_fragshift f.

Definition blkoff (loc : Z) : Z := wraps 32 (loc .& .~ fs_bmask f).
Definition fragoff (loc : Z) : Z := wraps 32 (loc .& .~ fs_fmask f).
Definition lblkno (loc : Z) : Z := wraps 32 (loc >>> fs_bshift f).
Definition numfrags (loc : Z) : Z := wraps 32 (loc >>> fs_fshift f).
Definition blkroundup (size : Z) : Z := (size + fs_bsize f - 1) .& wraps 64 (fs_bmask f).
Definition fragroundup (size : Z) : Z := (size + fs_fsize f - 1) .& wraps 64 (fs_fmask f).
Definition fragstoblks (frags : Z) : Z := frags >>> fs_fragshift f.
Definition blkstofrags (blks : Z) : Z := blks <<< fs_fragshift f.
Definition fragnum (fsb : Z) : Z := fsb .& (fs_frag f - 1).
Definition blknum (fsb : Z) : Z := fsb .& .~ (fs_frag f - 1).
Definition freespace (vfs_minfrags : Z) : Z :=
  (blkstofrags (cs_nbfree (fs_cstotal f)) + cs_nffree (fs_cstotal f)) - vfs_minfrags.

(** The size of block [lbn] of a file of [i_size] octets. *)
Definition blksize (i_size lbn : Z) : Z :=
  if (NDADDR <=? lbn) || (i_size >=? (wraps 64 (lbn + 1) <<< fs_bshift f)) then fs_bsize f
  else fragroundup (blkoff i_size).
Definition dblksize (di_size lbn : Z) : Z :=
  if (NDADDR <=? lbn) || (di_size >=? (wraps 64 (lbn + 1) <<< fs_bshift f)) then fs_bsize f
  else fragroundup (blkoff di_size).

Definition NSPB : Z := fs_nspf f <<< fs_fragshift f.
Definition NSPF : Z := fs_nspf f.
Definition INOPB : Z := fs_inopb f.
Definition INOPF : Z := fs_inopb f >>> fs_fragshift f.
Definition NINDIR : Z := fs_nindir f.

(** ** Cylinder groups *)
Definition cgbase (c : Z) : Z := wraps 32 (fs_fpg f * c).
Definition cgstart (c : Z) : Z := cgbase c + fs_cgoffset f * (c .& .~ fs_cgmask f).
Definition cgsblock (c : Z) : Z := cgstart c + fs_sblkno f.
Definition cgtod (c : Z) : Z := cgstart c + fs_cblkno f.
Definition cgimin (c : Z) : Z := cgstart c + fs_iblkno f.
Definition cgdmin (c : Z) : Z := cgstart c + fs_dblkno f.

(** Inode numbers are unsigned; block numbers are signed and [/] truncates. *)
Definition itoo (x : Z) : Z := x mod wrapu 32 INOPB.
Definition itog (x : Z) : Z := x / wrapu 32 (fs_ipg f).
Definition itod (x : Z) : Z :=
  wraps 32 (cgimin (itog x) + blkstofrags ((x mod fs_ipg f) / INOPB)).
Definition dtog (d : Z) : Z := Z.quot d (fs_fpg f).
Definition dtogd (d : Z) : Z := Z.rem d (fs_fpg f).

Definition blkmap (map : list Z) (loc : Z) : option Z :=
  b ← map !! Z.to_nat (loc / NBBY);
  Some ((b >>> (loc mod NBBY)) .& (0xff >>> (NBBY - fs_frag f))).
Definition cbtocylno (bno : Z) : Z := Z.quot (bno * NSPF) (fs_spc f).
Definition cbtorpos (bno : Z) : Z :=
  Z.quot (Z.rem (Z.rem (bno * NSPF) (fs_spc f)) (fs_nsect f) * fs_nrpos f) (fs_nsect f).
End Address.

(** ** Bit maps *)
(** The element of the map, an octet. *)
Definition bitloc (a : list Z) (i : Z) : option Z := a !! Z.to_nat (i / NBBY).
Definition setbit (a : list Z) (i : Z) : option (list Z) :=
  b ← bitloc a i; Some (<[Z.to_nat (i / NBBY) := wrapu 8 (b .| (1 <<< (i mod NBBY)))]> a).
Definition clrbit (a : list Z) (i : Z) : option (list Z) :=
  b ← bitloc a i; Some (<[Z.to_nat (i / NBBY) := wrapu 8 (b .& .~ (1 <<< (i mod NBBY)))]> a).
Definition isset (a : list Z) (i : Z) : option bool :=
  b ← bitloc a i; Some (truth (b .& (1 <<< (i mod NBBY)))).
Definition isclr (a : list Z) (i : Z) : option bool :=
  b ← bitloc a i; Some ((b .& (1 <<< (i mod NBBY))) =? 0).

(** ** Well-formed superblocks *)

(** The fields that "can be computed from the others". *)
Record sizes_ok (f : fs) : Prop := {
  so_fshift : 0 <= fs_fshift f;
  so_fragshift : 0 <= fs_fragshift f <= 3;
  so_bshift : fs_bshift f = fs_fshift f + fs_fragshift f;
  so_small : fs_bshift f <= 30;
  so_bsize : fs_bsize f = 2 ^ fs_bshift f;
  so_fsize : fs_fsize f = 2 ^ fs_fshift f;
  so_frag : fs_frag f = 2 ^ fs_fragshift f;
  so_bmask : fs_bmask f = - fs_bsize f;
  so_fmask : fs_fmask f = - fs_fsize f }.

(** The layout of the groups: the inode blocks are whole and lie between the
    group's block and its data, the metadata of each group is inside the group,
    and addresses fit in [daddr32_t]. *)
Record groups_ok (f : fs) : Prop := {
  go_fpg : 0 < fs_fpg f;
  go_inopb : 0 < fs_inopb f < 2 ^ 31;
  go_ipg : 0 < fs_ipg f < 2 ^ 31;
  go_whole : fs_ipg f mod fs_inopb f = 0;
  go_iblkno : 0 <= fs_iblkno f;
  go_dblkno : fs_iblkno f + fs_ipg f / fs_inopb f * fs_frag f <= fs_dblkno f;
  go_skew c : 0 <= c < fs_ncg f -> 0 <= fs_cgoffset f * (c .& .~ fs_cgmask f);
  go_inside c : 0 <= c < fs_ncg f -> fs_cgoffset f * (c .& .~ fs_cgmask f) + fs_dblkno f <= fs_fpg f;
  go_small : fs_fpg f * fs_ncg f < 2 ^ 31 }.

Lemma lnot_neg_pow2 k : 0 <= k -> .~ (- 2 ^ k) = Z.ones k.
Proof. intros Hk. rewrite Z.ones_equiv. unfold Z.lnot. lia. Qed.

Lemma land_lnot_neg k x : 0 <= k -> x .& .~ (- 2 ^ k) = x mod 2 ^ k.
Proof. intros Hk. rewrite lnot_neg_pow2 by done. by apply Z.land_ones. Qed.

Lemma land_lnot_ones k x : 0 <= k -> x .& .~ (2 ^ k - 1) = x / 2 ^ k * 2 ^ k.
Proof.
  intros Hk. replace (2 ^ k - 1) with (Z.ones k) by (rewrite Z.ones_equiv; lia).
  rewrite <- Z.ldiff_land, Z.ldiff_ones_r, Z.shiftl_mul_pow2, Z.shiftr_div_pow2 by done. done.
Qed.

Lemma land_neg k x : 0 <= k -> x .& (- 2 ^ k) = x / 2 ^ k * 2 ^ k.
Proof.
  intros Hk. rewrite <- land_lnot_ones by done. f_equal. unfold Z.lnot. lia.
Qed.

(** Rounding up to a power of two, by masking and by dividing. *)
Lemma land_roundup k x : 0 <= k -> (x + 2 ^ k - 1) .& (- 2 ^ k) = roundup x (2 ^ k).
Proof. intros Hk. rewrite land_neg by done. unfold roundup. do 2 f_equal. lia. Qed.

Lemma small_mask k : 0 <= k <= 30 -> wraps 64 (- 2 ^ k) = - 2 ^ k.
Proof.
  intros Hk. pose proof (Z.pow_le_mono_r 2 k 30 ltac:(lia) ltac:(lia)). pose proof (pow2_pos k ltac:(lia)).
  apply wraps_id; [lia|]. change (2 ^ (64 - 1)) with 9223372036854775808. lia.
Qed.

Lemma wraps_mod k x : 0 <= k <= 30 -> wraps 32 (x mod 2 ^ k) = x mod 2 ^ k.
Proof.
  intros Hk. pose proof (Z.pow_le_mono_r 2 k 30 ltac:(lia) ltac:(lia)). pose proof (pow2_pos k ltac:(lia)).
  pose proof (Z.mod_pos_bound x (2 ^ k) ltac:(lia)). apply wraps_id; [lia|]. change (2 ^ (32 - 1)) with 2147483648. lia.
Qed.

Lemma blkoff_mod f loc : sizes_ok f -> blkoff f loc = loc mod fs_bsize f.
Proof.
  intros Hf. pose proof (so_fshift f Hf). pose proof (so_fragshift f Hf). pose proof (so_bshift f Hf).
  pose proof (so_small f Hf). unfold blkoff. rewrite (so_bmask f Hf), (so_bsize f Hf), land_lnot_neg by lia.
  apply wraps_mod. lia.
Qed.

Lemma fragroundup_spec f size : sizes_ok f -> fragroundup f size = roundup size (fs_fsize f).
Proof.
  intros Hf. pose proof (so_fshift f Hf). pose proof (so_fragshift f Hf). pose proof (so_bshift f Hf).
  pose proof (so_small f Hf). unfold fragroundup. rewrite (so_fmask f Hf), (so_fsize f Hf), small_mask by lia.
  apply land_roundup. lia.
Qed.

Lemma blkroundup_spec f size : sizes_ok f -> blkroundup f size = roundup size (fs_bsize f).
Proof.
  intros Hf. pose proof (so_fshift f Hf). pose proof (so_fragshift f Hf). pose proof (so_bshift f Hf).
  pose proof (so_small f Hf). unfold blkroundup. rewrite (so_bmask f Hf), (so_bsize f Hf), small_mask by lia.
  apply land_roundup. lia.
Qed.

(** The shifts and masks compute what the comments of the header say, the
    quotients, remainders and roundings by the sizes of blocks and fragments,
    for every offset whose fragment number fits the 32-bit result. *)
Theorem ufs_size_macros f loc n :
  sizes_ok f -> 0 <= loc < 2 ^ 31 * fs_fsize f -> 0 <= n ->
  blkoff f loc = loc mod fs_bsize f
  /\ fragoff f loc = loc mod fs_fsize f
  /\ lblkno f loc = loc / fs_bsize f
  /\ numfrags f loc = loc / fs_fsize f
  /\ blkroundup f loc = roundup loc (fs_bsize f)
  /\ fragroundup f loc = roundup loc (fs_fsize f)
  /\ fragstoblks f n = n / fs_frag f
  /\ blkstofrags f n = n * fs_frag f
  /\ fragnum f n = n mod fs_frag f
  /\ blknum f n = n / fs_frag f * fs_frag f
  /\ fs_bsize f = fs_fsize f * fs_frag f.
Proof.
  intros Hf Hloc Hn. pose proof (so_fshift f Hf). pose proof (so_fragshift f Hf). pose proof (so_bshift f Hf) as Hb.
  pose proof (so_small f Hf).
  assert (forall k, fs_fshift f <= k <= 30 -> wraps 32 (loc >>> k) = loc / 2 ^ k) as Hshift.
  { intros k Hk. rewrite Z.shiftr_div_pow2 by lia. pose proof (pow2_pos (fs_fshift f) ltac:(lia)).
    pose proof (Z.pow_le_mono_r 2 (fs_fshift f) k ltac:(lia) ltac:(lia)) as Hm.
    apply wraps_id; [lia|]. change (2 ^ (32 - 1)) with (2 ^ 31). rewrite (so_fsize f Hf) in Hloc.
    split; [|apply Z.div_lt_upper_bound; nia]. pose proof (Z.div_pos loc (2 ^ k) ltac:(lia) ltac:(lia)). lia. }
  split; [by apply blkoff_mod|]. split.
  { unfold fragoff. rewrite (so_fmask f Hf), (so_fsize f Hf), land_lnot_neg by lia. apply wraps_mod. lia. }
  split; [rewrite (so_bsize f Hf); apply Hshift; lia|]. split; [rewrite (so_fsize f Hf); apply Hshift; lia|].
  split; [by apply blkroundup_spec|]. split; [by apply fragroundup_spec|]. rewrite (so_frag f Hf).
  split; [apply Z.shiftr_div_pow2; lia|]. split; [apply Z.shiftl_mul_pow2; lia|].
  split.
  { unfold fragnum. rewrite (so_frag f Hf). replace (2 ^ fs_fragshift f - 1) with (Z.ones (fs_fragshift f))
      by (rewrite Z.ones_equiv; lia). apply Z.land_ones. lia. }
  split; [unfold blknum; rewrite (so_frag f Hf); apply land_lnot_ones; lia|].
  rewrite (so_bsize f Hf), (so_fsize f Hf), Hb, Z.pow_add_r by lia. done.
Qed.

(** A file system of 8K blocks and 1K fragments, in four groups. *)
Definition sample_fs : fs :=
  Fs 0 0 16 24 32 48 16 (-8) 0 16384 16000 4 8192 1024 8 10 0 60 (-8192) (-1024) 13 10 1 2048 3 1 2048 0 0 2048
     64 2 0 0 0 0 [0; 0] 48 1024 4096 16 32 512 64 16 128 4096 (Csum 0 0 0 0) 0 1 0 0 [] 0 [] 0 [] [] 0 0 0 0 32
     8191 1023 1 8 0 0 0x011954 [].

Lemma sample_sizes : sizes_ok sample_fs.
Proof. constructor; simpl; done || lia. Qed.

Lemma sample_groups : groups_ok sample_fs.
Proof.
  constructor; try (simpl; done || lia).
  - intros c Hc. simpl in Hc. assert (c = 0 \/ c = 1 \/ c = 2 \/ c = 3) as [->|[->|[->| ->]]] by lia; by vm_compute.
  - intros c Hc. simpl in Hc. assert (c = 0 \/ c = 1 \/ c = 2 \/ c = 3) as [->|[->|[->| ->]]] by lia; by vm_compute.
Qed.

Lemma ufs_size_macros_witness :
  blkoff sample_fs 10000 = 10000 mod 8192 /\ fragroundup sample_fs 10000 = roundup 10000 1024.
Proof.
  pose proof (ufs_size_macros sample_fs 10000 5 sample_sizes ltac:(simpl; lia) ltac:(lia))
    as (H1 & _ & _ & _ & _ & H2 & _).
  split; [exact H1|exact H2].
Defined.

(** ** Inodes *)
Section Inodes.
Context (f : fs) (Hs : sizes_ok f) (Hg : groups_ok f).

Lemma itog_range x : 0 <= x < fs_ncg f * fs_ipg f -> itog f x = x / fs_ipg f /\ 0 <= itog f x < fs_ncg f.
Proof.
  intros Hx. pose proof (go_ipg f Hg). unfold itog. rewrite wrapu_id by (unfold in_u; lia).
  split; [done|]. split; [apply Z.div_pos; lia|apply Z.div_lt_upper_bound; lia].
Qed.

Lemma cgimin_at c : 0 <= c < fs_ncg f ->
  cgimin f c = fs_fpg f * c + fs_cgoffset f * (c .& .~ fs_cgmask f) + fs_iblkno f.
Proof.
  intros Hc. pose proof (go_fpg f Hg). pose proof (go_small f Hg). unfold cgimin, cgstart, cgbase.
  rewrite wraps_id; [done|lia|]. change (2 ^ (32 - 1)) with (2 ^ 31). nia.
Qed.

(** The block of an inode, counted from the start of its group's inodes. *)
Lemma itod_at x : 0 <= x < fs_ncg f * fs_ipg f ->
  let q := x mod fs_ipg f / fs_inopb f in
  itod f x = cgimin f (itog f x) + q * fs_frag f
  /\ 0 <= q < fs_ipg f / fs_inopb f
  /\ x mod fs_ipg f = fs_inopb f * q + itoo f x /\ 0 <= itoo f x < fs_inopb f.
Proof.
  intros Hx q. destruct (itog_range x Hx) as [Eg Hrange]. pose proof (go_fpg f Hg). pose proof (go_small f Hg).
  pose proof (go_inopb f Hg) as Hpb. pose proof (go_ipg f Hg) as Hipg. pose proof (go_whole f Hg) as Hw.
  pose proof (so_fragshift f Hs). pose proof (so_frag f Hs) as Hfr. pose proof (pow2_pos (fs_fragshift f) ltac:(lia)).
  pose proof (Z.mod_pos_bound x (fs_ipg f) ltac:(lia)) as Hm.
  assert (fs_ipg f = fs_inopb f * (fs_ipg f / fs_inopb f)) as Hipg' by (apply Z.div_exact; lia).
  assert (0 <= q < fs_ipg f / fs_inopb f) as Hq.
  { unfold q. split; [apply Z.div_pos; lia|]. apply Z.div_lt_upper_bound; lia. }
  assert (itoo f x = x mod fs_ipg f mod fs_inopb f) as Eo.
  { unfold itoo, INOPB. rewrite wrapu_id by (unfold in_u; lia).
    rewrite Hipg', Z.rem_mul_r, (Z.mul_comm (fs_inopb f) (_ mod _)), Z.mod_add, Z.mod_mod by lia. done. }
  split; [|split; [done|]].
  - unfold itod, blkstofrags, INOPB. fold q. rewrite Z.shiftl_mul_pow2, <- Hfr by lia. apply wraps_id; [lia|].
    change (2 ^ (32 - 1)) with (2 ^ 31). rewrite cgimin_at by done.
    pose proof (go_skew f Hg _ Hrange). pose proof (go_inside f Hg _ Hrange). pose proof (go_iblkno f Hg).
    pose proof (go_dblkno f Hg). nia.
  - rewrite Eo. split; [apply Z.div_mod; lia|apply Z.mod_pos_bound; lia].
Qed.
End Inodes.

(** C33: every inode has a place of its own.  The inode number splits into its
    cylinder group, its block in the group and its slot in the block; the block
    is inside the inode area of the group, before its data blocks; taking the
    group of that block gives the group of the inode; and no two inodes of the
    file system share a block and a slot. *)
Theorem inode_places f x :
  sizes_ok f -> groups_ok f -> 0 <= x < fs_ncg f * fs_ipg f ->
  let g := itog f x in
  0 <= g < fs_ncg f
  /\ 0 <= itoo f x < fs_inopb f
  /\ cgimin f g <= itod f x /\ itod f x + fs_frag f <= cgdmin f g
  /\ dtog f (itod f x) = g
  /\ x = g * fs_ipg f + (itod f x - cgimin f g) / fs_frag f * fs_inopb f + itoo f x
  /\ (forall y, 0 <= y < fs_ncg f * fs_ipg f -> itod f y = itod f x -> itoo f y = itoo f x -> y = x).
Proof.
  intros Hs Hg Hx g. pose proof (go_fpg f Hg). pose proof (go_iblkno f Hg). pose proof (go_dblkno f Hg).
  pose proof (go_inopb f Hg) as Hpb.
  pose proof (so_fragshift f Hs). pose proof (so_frag f Hs) as Hfr. pose proof (pow2_pos (fs_fragshift f) ltac:(lia)).
  assert (forall y, 0 <= y < fs_ncg f * fs_ipg f -> cgimin f (itog f y) <= itod f y
    /\ itod f y + fs_frag f <= cgdmin f (itog f y) /\ dtog f (itod f y) = itog f y
    /\ y = itog f y * fs_ipg f + (itod f y - cgimin f (itog f y)) / fs_frag f * fs_inopb f + itoo f y) as Hall.
  { intros y Hy. destruct (itog_range f Hg y Hy) as [Eg Hr]. destruct (itod_at f Hs Hg y Hy) as (Ed & Hq & Em & Ho).
    pose proof (go_skew f Hg _ Hr). pose proof (go_inside f Hg _ Hr). pose proof (go_ipg f Hg).
    pose proof (cgimin_at f Hg _ Hr) as Ec. rewrite Ed.
    assert (cgdmin f (itog f y) = cgimin f (itog f y) + fs_dblkno f - fs_iblkno f) as -> by (unfold cgdmin, cgimin; lia).
    set (q := y mod fs_ipg f / fs_inopb f) in *. split; [nia|]. split; [nia|]. split.
    - rewrite Ec. unfold dtog. rewrite Z.quot_div_nonneg by nia. symmetry.
      apply (Z.div_unique _ _ _ (fs_cgoffset f * (itog f y .& .~ fs_cgmask f) + fs_iblkno f + q * fs_frag f)); nia.
    - replace (cgimin f (itog f y) + q * fs_frag f - cgimin f (itog f y)) with (q * fs_frag f) by lia.
      rewrite Z.div_mul by lia. pose proof (Z.div_mod y (fs_ipg f) ltac:(lia)). rewrite <- Eg in *. lia. }
  split; [apply (itog_range f Hg x Hx)|]. split; [apply (itod_at f Hs Hg x Hx)|].
  destruct (Hall x Hx) as (Hx1 & Hx2 & Hx3 & Hx4). repeat (split; [done|]).
  intros y Hy Ed Eo. destruct (Hall y Hy) as (_ & _ & Hy3 & Hy4).
  rewrite Hx4, Hy4, Ed, Eo. rewrite Ed in Hy3. by rewrite <- Hy3, Hx3.
Qed.

Lemma inode_places_witness :
  dtog sample_fs (itod sample_fs 300) = itog sample_fs 300 /\ itog sample_fs 300 = 2.
Proof.
  pose proof (inode_places sample_fs 300 sample_sizes sample_groups ltac:(simpl; lia)) as (_ & _ & _ & _ & H & _).
  split; [exact H|reflexivity].
Defined.

(** ** The blocks of a file *)

(** What the first [n] blocks of a file of [size] octets occupy. *)
Fixpoint blocks_total (f : fs) (size : Z) (n : nat) : Z :=
  match n with O => 0 | S n => blocks_total f size n + blksize f size (Z.of_nat n) end.

Section FileBlocks.
Context (f : fs) (Hs : sizes_ok f).

Lemma bsize_pos : 0 < fs_bsize f.
Proof. rewrite (so_bsize f Hs). apply pow2_pos. pose proof (so_fshift f Hs). pose proof (so_fragshift f Hs).
  pose proof (so_bshift f Hs). lia. Qed.

Lemma bsize_frags : fs_bsize f = fs_frag f * fs_fsize f /\ 0 < fs_fsize f.
Proof.
  pose proof (so_fshift f Hs). pose proof (so_fragshift f Hs). rewrite (so_bsize f Hs), (so_frag f Hs), (so_fsize f Hs).
  rewrite (so_bshift f Hs), Z.pow_add_r by lia. split; [lia|by apply pow2_pos].
Qed.

Lemma blksize_cases size lbn : 0 <= lbn < 2 ^ 62 ->
  blksize f size lbn = if (NDADDR <=? lbn) || ((lbn + 1) * fs_bsize f <=? size) then fs_bsize f
                       else roundup (size mod fs_bsize f) (fs_fsize f).
Proof.
  intros Hl. pose proof (so_fshift f Hs). pose proof (so_fragshift f Hs). pose proof (so_bshift f Hs).
  unfold blksize. rewrite fragroundup_spec, blkoff_mod by done.
  rewrite wraps_id by (change (2 ^ (64 - 1)) with (2 * 2 ^ 62); lia).
  rewrite Z.shiftl_mul_pow2, <- (so_bsize f Hs) by lia. by rewrite Z.geb_leb.
Qed.

Lemma full_blocks size n :
  Z.of_nat n < 2 ^ 62 -> Z.of_nat n * fs_bsize f <= size -> blocks_total f size n = Z.of_nat n * fs_bsize f.
Proof.
  pose proof bsize_pos. induction n as [|n IH]; intros Hn Hsz; [done|]. simpl blocks_total.
  rewrite IH, blksize_cases by lia. rewrite (proj2 (Z.leb_le ((Z.of_nat n + 1) * fs_bsize f) size)) by lia.
  rewrite orb_true_r. lia.
Qed.

Lemma roundup_blocks q r : 0 <= r ->
  roundup (q * fs_bsize f + r) (fs_fsize f) = q * fs_bsize f + roundup r (fs_fsize f).
Proof.
  intros Hr. destruct bsize_frags as [E Hp]. unfold roundup. rewrite E.
  replace (q * (fs_frag f * fs_fsize f) + r + (fs_fsize f - 1)) with (r + (fs_fsize f - 1) + q * fs_frag f * fs_fsize f) by lia.
  rewrite Z.div_add by lia. lia.
Qed.
End FileBlocks.

(** The sizes of a file's blocks add up.  A file that fits the direct
    blocks occupies its size rounded up to fragments, only its last block being
    shorter than a block; a longer file occupies whole blocks. *)
Theorem blksize_total f size :
  sizes_ok f -> 0 <= size <= UFS_MAXOFFSET_T ->
  let n := Z.to_nat (howmany size (fs_bsize f)) in
  blocks_total f size n
  = (if size <=? NDADDR * fs_bsize f then fragroundup f size else blkroundup f size)
  /\ (forall lbn, 0 <= lbn < Z.of_nat n - 1 -> blksize f size lbn = fs_bsize f)
  /\ size <= blocks_total f size n.
Proof.
  intros Hs Hsz n. pose proof (bsize_pos f Hs) as Hb. destruct (bsize_frags f Hs) as [Ebf Hf].
  assert (UFS_MAXOFFSET_T = 2 ^ 40 - 1) as Emax by reflexivity. assert (size < 2 ^ 62) as Hbig by lia. clear Emax.
  rewrite fragroundup_spec, blkroundup_spec by done.
  set (q := size / fs_bsize f). set (r := size mod fs_bsize f).
  assert (size = q * fs_bsize f + r) as E by (unfold q, r; pose proof (Z.div_mod size (fs_bsize f)); lia).
  assert (0 <= r < fs_bsize f) as Hr by (apply Z.mod_pos_bound; lia).
  assert (0 <= q < 2 ^ 62) as Hq by (unfold q; split; [apply Z.div_pos; lia|apply Z.div_lt_upper_bound; nia]).
  assert (blocks_total f size (Z.to_nat q) = q * fs_bsize f) as Hfull
    by (rewrite full_blocks; rewrite ?Z2Nat.id; lia || done).
  assert (0 <= r -> r <= roundup r (fs_fsize f)) as Hup.
  { intros _. unfold roundup. pose proof (Z.div_mod (r + (fs_fsize f - 1)) (fs_fsize f) ltac:(lia)).
    pose proof (Z.mod_pos_bound (r + (fs_fsize f - 1)) (fs_fsize f) ltac:(lia)). lia. }
  assert (forall lbn, 0 <= lbn < q -> blksize f size lbn = fs_bsize f) as Hfulls.
  { intros lbn Hl. rewrite blksize_cases by (done || lia).
    rewrite (proj2 (Z.leb_le ((lbn + 1) * fs_bsize f) size)) by nia. by rewrite orb_true_r. }
  assert (forall s, roundup s (fs_bsize f) = howmany s (fs_bsize f) * fs_bsize f) as Hround by done.
  destruct (decide (r = 0)) as [E0|Hne].
  - assert (howmany size (fs_bsize f) = q) as En.
    { unfold howmany. symmetry. apply (Z.div_unique _ _ _ (fs_bsize f - 1)); lia. }
    assert (roundup size (fs_fsize f) = q * fs_bsize f) as Er.
    { rewrite E, roundup_blocks, E0 by (done || lia). unfold roundup. rewrite Z.div_small; lia. }
    unfold n. rewrite En, Hfull, Hround, En, Er. split; [by destruct (_ <=? _)|]. split; [|lia].
    intros lbn Hl. rewrite Z2Nat.id in Hl by lia. apply Hfulls. lia.
  - assert (howmany size (fs_bsize f) = q + 1) as En.
    { unfold howmany. symmetry. apply (Z.div_unique _ _ _ (r - 1)); lia. }
    assert (blocks_total f size n = q * fs_bsize f + blksize f size q) as Htot.
    { unfold n. rewrite En, Z.add_1_r, Z2Nat.inj_succ by lia. simpl. rewrite Hfull, Z2Nat.id by lia. done. }
    rewrite Htot, Hround, En, blksize_cases by (done || lia). fold r.
    rewrite (proj2 (Z.leb_gt ((q + 1) * fs_bsize f) size)) by nia. rewrite orb_false_r. unfold NDADDR.
    split; [|split].
    + destruct (Z.leb_spec 12 q), (Z.leb_spec size (12 * fs_bsize f)); [nia|lia| |nia].
      rewrite E at 1. rewrite roundup_blocks by (done || lia). done.
    + intros lbn Hl. unfold n in Hl. rewrite En, Z2Nat.id in Hl by lia. apply Hfulls. lia.
    + destruct (12 <=? q); lia.
Qed.

Lemma blksize_total_witness :
  blocks_total sample_fs 10000 2 = fragroundup sample_fs 10000.
Proof. apply (blksize_total sample_fs 10000 sample_sizes). vm_compute. split; discriminate. Defined.

(** ** Bit maps as sets *)
Definition map_bit (a : list Z) (i : Z) : bool :=
  match bitloc a i with Some b => Z.testbit b (i mod NBBY) | None => false end.

Lemma bit_range i : 0 <= i mod NBBY < 8.
Proof. apply Z.mod_pos_bound. done. Qed.

Lemma bitloc_in a i : 0 <= i < 8 * Z.of_nat (length a) -> exists b, bitloc a i = Some b.
Proof.
  intros Hi. unfold bitloc, NBBY. apply lookup_lt_is_Some. apply Nat2Z.inj_lt.
  rewrite Z2Nat.id by (apply Z.div_pos; lia). apply Z.div_lt_upper_bound; lia.
Qed.

Lemma isset_bit a i : 0 <= i < 8 * Z.of_nat (length a) -> isset a i = Some (map_bit a i).
Proof.
  intros Hi. destruct (bitloc_in a i Hi) as [b E]. pose proof (bit_range i). unfold isset, map_bit. rewrite E. simpl.
  rewrite Z.shiftl_mul_pow2, Z.mul_1_l by lia. f_equal. apply truth_land_pow2. lia.
Qed.

(** A change of one octet that changes one bit. *)
Lemma map_bit_update a i j b v x :
  0 <= i -> 0 <= j -> bitloc a i = Some b ->
  (forall n, 0 <= n < 8 -> Z.testbit v n = if n =? i mod NBBY then x else Z.testbit b n) ->
  map_bit (<[Z.to_nat (i / NBBY) := v]> a) j = if j =? i then x else map_bit a j.
Proof.
  intros Hi Hj Eb Hv. pose proof (lookup_lt_Some _ _ _ Eb) as Hlt. unfold map_bit, bitloc in *.
  pose proof (bit_range j). pose proof (Z.div_mod i NBBY ltac:(done)). pose proof (Z.div_mod j NBBY ltac:(done)).
  pose proof (Z.div_pos i NBBY Hi ltac:(done)). pose proof (Z.div_pos j NBBY Hj ltac:(done)).
  destruct (Z.eqb_spec (j / NBBY) (i / NBBY)) as [E|Hne].
  - rewrite E, list_lookup_insert_eq, Hv, Eb by done.
    destruct (Z.eqb_spec j i) as [->|]; [by rewrite Z.eqb_refl|].
    destruct (Z.eqb_spec (j mod NBBY) (i mod NBBY)); [lia|done].
  - rewrite list_lookup_insert_ne by lia. destruct (Z.eqb_spec j i) as [->|]; done.
Qed.

Lemma frag_cases s : 0 <= s <= 3 -> s = 0 \/ s = 1 \/ s = 2 \/ s = 3.
Proof. lia. Qed.

Lemma frag_mask s : 0 <= s <= 3 -> 0xff >>> (NBBY - 2 ^ s) = Z.ones (2 ^ s).
Proof. intros Hs. by destruct (frag_cases s Hs) as [->|[->|[->| ->]]]. Qed.

(** The fragments of a block are in one octet of the map. *)
Lemma frag_octet s i k :
  0 <= s <= 3 -> 0 <= i -> 0 <= k < 2 ^ s -> i mod 2 ^ s = 0 ->
  (i + k) / NBBY = i / NBBY /\ (i + k) mod NBBY = i mod NBBY + k.
Proof.
  intros Hs Hi Hk Hal. unfold NBBY.
  destruct (frag_cases s Hs) as [->|[->|[->| ->]]]; cbn in Hk, Hal; Z.div_mod_to_equations; lia.
Qed.

(** A bit map is a set of indices.  For an index inside the map, [setbit]
    adds it, [clrbit] removes it and neither changes another index or the
    map's length; [isset] and [isclr] test it; and [blkmap] of a block has the
    bits of the block's fragments and no others. *)
Theorem bit_maps f a i :
  sizes_ok f -> Forall is_byte a -> 0 <= i < 8 * Z.of_nat (length a) ->
  isset a i = Some (map_bit a i) /\ isclr a i = Some (negb (map_bit a i))
  /\ (exists a', setbit a i = Some a' /\ length a' = length a /\ Forall is_byte a'
        /\ forall j, 0 <= j -> map_bit a' j = if j =? i then true else map_bit a j)
  /\ (exists a', clrbit a i = Some a' /\ length a' = length a /\ Forall is_byte a'
        /\ forall j, 0 <= j -> map_bit a' j = if j =? i then false else map_bit a j)
  /\ (forall k, 0 <= k -> i mod fs_frag f = 0 ->
        exists m, blkmap f a i = Some m /\ Z.testbit m k = (k <? fs_frag f) && map_bit a (i + k)).
Proof.
  intros Hf Ha Hi. destruct (bitloc_in a i Hi) as [b Eb]. pose proof (bit_range i) as Hbr.
  assert (is_byte b) as Hb by (apply (proj1 (Forall_lookup _ _) Ha _ _ Eb)).
  assert (1 <<< (i mod NBBY) = 2 ^ (i mod NBBY)) as Epow by (rewrite Z.shiftl_mul_pow2; lia).
  split; [by apply isset_bit|]. split; [|split; [|split]].
  - pose proof (isset_bit a i Hi) as Es. unfold isset, isclr in *. rewrite Eb in *. simpl in *. injection Es as <-.
    unfold truth. by rewrite negb_involutive.
  - unfold setbit. rewrite Eb. simpl. eexists. split; [done|]. split; [apply length_insert|].
    split; [by apply Forall_insert; [|apply wrapu_range]|]. intros j Hj. apply (map_bit_update a i j b); [lia|done|done|].
    intros n Hn. rewrite Epow. autorewrite with zbits. rewrite ?pow2_testbit by lia.
    rewrite (proj2 (Z.ltb_lt n 8)), ?(proj2 (Z.leb_le 0 n)) by lia. cbn [andb].
    destruct (n =? i mod NBBY); [apply orb_true_r|apply orb_false_r].
  - unfold clrbit. rewrite Eb. simpl. eexists. split; [done|]. split; [apply length_insert|].
    split; [by apply Forall_insert; [|apply wrapu_range]|]. intros j Hj. apply (map_bit_update a i j b); [lia|done|done|].
    intros n Hn. rewrite Epow. autorewrite with zbits. rewrite ?pow2_testbit by lia.
    rewrite (proj2 (Z.ltb_lt n 8)), ?(proj2 (Z.leb_le 0 n)) by lia. cbn [andb].
    destruct (n =? i mod NBBY); [apply andb_false_r|apply andb_true_r].
  - intros k Hk Hal. unfold blkmap. fold (bitloc a i). rewrite Eb. simpl. eexists. split; [done|].
    pose proof (so_fragshift f Hf) as Hfs. rewrite (so_frag f Hf) in *.
    rewrite (frag_mask (fs_fragshift f)), Z.land_spec, ones_testbit, Z.shiftr_spec by (done || lia).
    rewrite (proj2 (Z.leb_le 0 k)) by lia. cbn [andb]. rewrite andb_comm. destruct (Z.ltb_spec k (2 ^ fs_fragshift f)); [|done].
    cbn [andb]. destruct (frag_octet (fs_fragshift f) i k) as [E1 E2]; [done|lia|lia|done|].
    unfold map_bit, bitloc in *. rewrite E1, Eb, E2. f_equal. lia.
Qed.

Lemma bit_maps_witness :
  exists a', setbit [0; 0] 9 = Some a' /\ map_bit a' 9 = true.
Proof.
  assert (Forall is_byte [0; 0]) as Hb by (repeat constructor; lia).
  destruct (bit_maps sample_fs [0; 0] 9 sample_sizes Hb ltac:(simpl; lia)) as (_ & _ & (a' & E & _ & _ & H) & _).
  exists a'. split; [exact E|]. rewrite (H 9) by lia. reflexivity.
Defined.
