(* ===== verification/PcFs.v ===== *)
(** * FAT file systems: sys/fs/pc_fs.h

    The parameter macros of [src/include/sys/fs/pc_fs.h]: the width of the FAT,
    the blocks of a file and of the root directory, and the addresses of clusters
    on the disk.  [OFF] is an offset (64 bits), a cluster number a
    [pc_cluster32_t] (an unsigned 32-bit number) and a disk address a [daddr_t]
    (a long); [DEV_BSIZE] sectors have 512 octets.  Of [struct pcfs] the model has the
    members the macros read. *)
From S2P Require Import Prelude SysMacros Ufs.

Record pcfs := {
  pcfs_flags : Z; pcfs_secsize : Z; pcfs_spcl : Z; pcfs_sdshift : Z; pcfs_rdirsec : Z; pcfs_datastart : Z;
  pcfs_clsize : Z; pcfs_ncluster : Z }.

Definition PCFS_FAT16 := 0x400.
Definition PCFS_FAT32 := 0x10000.
Definition PCF_FIRSTCLUSTER := 2.

Definition IS_FAT32 (f : pcfs) : bool := pcfs_flags f .& PCFS_FAT32 =? PCFS_FAT32.
Definition IS_FAT16 (f : pcfs) : bool := pcfs_flags f .& PCFS_FAT16 =? PCFS_FAT16.
Definition IS_FAT12 (f : pcfs) : bool := pcfs_flags f .& (PCFS_FAT16 .| PCFS_FAT32) =? 0.

(** [root] is the test of [VROOT] in the flags of the vnode; the products are of
    type [int]. *)
Definition pc_blksize (f : pcfs) (root : bool) (OFF : Z) : Z :=
  if root && negb (IS_FAT32 f)
  then if OFF >=? s32 ((pcfs_rdirsec f .& .~ (pcfs_spcl f - 1)) * pcfs_secsize f)
       then s32 ((pcfs_rdirsec f .& (pcfs_spcl f - 1)) * pcfs_secsize f)
       else pcfs_clsize f
  else pcfs_clsize f.
Definition pc_blkoff (f : pcfs) (OFF : Z) : Z := s32 (OFF .& (pcfs_clsize f - 1)).
Definition pc_lblkno (m : data_model) (f : pcfs) (OFF : Z) : Z := wraps (long_width m) (Z.quot OFF (pcfs_clsize f)).
Definition pc_dbtocl (f : pcfs) (DB : Z) : Z := s32 (Z.quot DB (pcfs_spcl f)).
(** The products of cluster numbers are unsigned 32-bit ones. *)
Definition pc_cltodb (m : data_model) (f : pcfs) (CL : Z) : Z := wraps (long_width m) (u32 (CL * pcfs_spcl f)).
Definition pc_cldaddr (m : data_model) (f : pcfs) (CL : Z) : Z :=
  wraps (long_width m) (wraps (long_width m) (pcfs_datastart f + u32 (u32 (CL - PCF_FIRSTCLUSTER) * pcfs_spcl f)) <<< pcfs_sdshift f).
Definition pc_daddrcl (m : data_model) (f : pcfs) (DADDR : Z) : Z :=
  s32 (Z.quot ((DADDR >>> pcfs_sdshift f) - pcfs_datastart f) (pcfs_spcl f) + 2).
Definition pc_dbdaddr (m : data_model) (f : pcfs) (DB : Z) : Z := wraps (long_width m) (DB <<< pcfs_sdshift f).
Definition pc_daddrdb (f : pcfs) (DADDR : Z) : Z := DADDR >>> pcfs_sdshift f.
Definition pc_validcl (f : pcfs) (CL : Z) : bool := (s32 CL >=? PCF_FIRSTCLUSTER) && (s32 CL <=? pcfs_ncluster f).

(** ** Well-formed file systems

    The sizes are powers of two, a cluster has [pcfs_spcl] sectors, and a sector
    [2 ^ pcfs_sdshift] times 512 octets.  The root directory of a FAT12 or FAT16
    volume has less than 2 gigabytes (an [int] of octets).  A volume has less than
    [2 ^ 32] data sectors, as many as its 32-bit sector count can say, and is no
    larger than a [daddr_t] can address. *)
Definition is_pow2 (x : Z) : Prop := exists k, 0 <= k < 31 /\ x = 2 ^ k.
Record pcfs_ok (m : data_model) (f : pcfs) : Prop := {
  ok_sec : pcfs_secsize f = DEV_BSIZE * 2 ^ pcfs_sdshift f; ok_shift : 0 <= pcfs_sdshift f < 20;
  ok_spcl : is_pow2 (pcfs_spcl f); ok_size : pcfs_clsize f = pcfs_spcl f * pcfs_secsize f; ok_int : pcfs_clsize f < 2 ^ 31;
  ok_start : 0 <= pcfs_datastart f; ok_root : 0 <= pcfs_rdirsec f /\ pcfs_rdirsec f * pcfs_secsize f < 2 ^ 31; ok_count : 0 <= pcfs_ncluster f < 2 ^ 31 - 1;
  ok_fit : pcfs_ncluster f * pcfs_spcl f < 2 ^ 32
           /\ (pcfs_datastart f + pcfs_ncluster f * pcfs_spcl f) * 2 ^ pcfs_sdshift f <= 2 ^ (long_width m - 1) }.

Lemma long_width_cases m : long_width m = 32 \/ long_width m = 64.
Proof. destruct m; [by left|by right]. Qed.
Lemma mask_mod x k : 0 <= k -> x .& (2 ^ k - 1) = x mod 2 ^ k.
Proof. intros Hk. replace (2 ^ k - 1) with (Z.ones k) by (rewrite Z.ones_equiv; lia). by apply Z.land_ones. Qed.

Section Ok.
Context {m : data_model} {f : pcfs} (Hf : pcfs_ok m f).
Lemma spcl_pow : exists k, 0 <= k < 31 /\ pcfs_spcl f = 2 ^ k /\ 0 < pcfs_spcl f.
Proof. destruct (ok_spcl _ _ Hf) as (k & Hk & E). exists k. rewrite E. split_and!; [lia|lia|done|apply pow2_pos; lia]. Qed.
Lemma clsize_pow : exists k, 0 <= k < 31 /\ pcfs_clsize f = 2 ^ k.
Proof.
  destruct Hf as [Hs Hh (k & Hk & E) Hc Hi _ _ _ _]. exists (k + (9 + pcfs_sdshift f)).
  assert (pcfs_clsize f = 2 ^ (k + (9 + pcfs_sdshift f))) as H
    by (rewrite Hc, Hs, E; change DEV_BSIZE with (2 ^ 9); rewrite !Z.pow_add_r by lia; done).
  split; [|done]. split; [lia|]. rewrite H in Hi. by apply Z.pow_lt_mono_r_iff in Hi; lia.
Qed.
Lemma secsize_pos : 512 <= pcfs_secsize f.
Proof.
  destruct Hf as [-> Hh _ _ _ _ _ _ _]. pose proof (pow2_pos (pcfs_sdshift f) ltac:(lia)). unfold DEV_BSIZE. lia.
Qed.
Lemma clsize_min : 512 <= pcfs_clsize f.
Proof. pose proof secsize_pos. destruct spcl_pow as (k & _ & _ & Hp). rewrite (ok_size _ _ Hf). unfold DEV_BSIZE in *. nia. Qed.
Lemma daddr_fits x : 0 <= x < 2 ^ (long_width m - 1) -> wraps (long_width m) x = x.
Proof. intros Hx. apply wraps_id; destruct (long_width_cases m) as [E|E]; rewrite E in *; lia. Qed.

Lemma cldaddr_val cl : PCF_FIRSTCLUSTER <= cl <= pcfs_ncluster f + 1 ->
  pc_cldaddr m f cl = (pcfs_datastart f + (cl - 2) * pcfs_spcl f) * 2 ^ pcfs_sdshift f.
Proof.
  unfold PCF_FIRSTCLUSTER. intros Hcl. destruct spcl_pow as (k & Hk & E & Hp). destruct (ok_fit _ _ Hf) as [Hu Hl].
  pose proof (ok_shift _ _ Hf). pose proof (ok_start _ _ Hf). pose proof (ok_count _ _ Hf). pose proof (pow2_pos (pcfs_sdshift f) ltac:(lia)) as Hq.
  unfold pc_cldaddr, PCF_FIRSTCLUSTER. assert (0 <= (cl - 2) * pcfs_spcl f <= pcfs_ncluster f * pcfs_spcl f) by nia.
  rewrite (wrapu_id 32 (cl - 2)) by (unfold in_u; lia). rewrite (wrapu_id 32 (_ * _)) by (unfold in_u; lia).
  set (a := pcfs_datastart f + (cl - 2) * pcfs_spcl f) in *. assert (0 <= a < pcfs_datastart f + pcfs_ncluster f * pcfs_spcl f) by nia.
  rewrite (daddr_fits a) by nia. rewrite Z.shiftl_mul_pow2 by lia. apply daddr_fits. nia.
Qed.
End Ok.

(** The products of [pc_blksize] are no more than the size of the directory. *)
Ltac root_product :=
  match goal with |- context [?r / ?s * ?s] => pose proof (Z.div_mod r s); pose proof (Z.mod_pos_bound r s); pose proof (Z.div_pos r s)
   | |- context [?r mod ?s] => pose proof (Z.div_mod r s); pose proof (Z.mod_pos_bound r s); pose proof (Z.div_pos r s) end;
  unfold DEV_BSIZE in *; nia.

(** C34: clusters and disk addresses.  On a volume that a [daddr_t] can address
    every one of the clusters numbered 2 to [pcfs_ncluster + 1] has [pcfs_spcl]
    sectors of its own: [pc_cldaddr] is the address after the [CL - 2] clusters
    before it, and [pc_daddrcl] leads from every [DEV_BSIZE] sector of a cluster back
    to it, so that no two clusters share one.  Sectors and clusters convert to their
    units and back where the results fit. *)
Theorem pcfs_clusters m f cl k : pcfs_ok m f -> PCF_FIRSTCLUSTER <= cl <= pcfs_ncluster f + 1 -> 0 <= k < pcfs_spcl f * 2 ^ pcfs_sdshift f ->
  pc_cldaddr m f cl = (pcfs_datastart f + (cl - 2) * pcfs_spcl f) * 2 ^ pcfs_sdshift f
  /\ pc_daddrcl m f (pc_cldaddr m f cl + k) = cl
  /\ (forall cl' k', PCF_FIRSTCLUSTER <= cl' <= pcfs_ncluster f + 1 -> 0 <= k' < pcfs_spcl f * 2 ^ pcfs_sdshift f ->
       pc_cldaddr m f cl + k = pc_cldaddr m f cl' + k' -> cl = cl')
  /\ (cl * pcfs_spcl f < 2 ^ 31 -> pc_dbtocl f (pc_cltodb m f cl) = cl)
  /\ (forall db, 0 <= db * 2 ^ pcfs_sdshift f < 2 ^ (long_width m - 1) -> pc_daddrdb f (pc_dbdaddr m f db) = db).
Proof.
  intros Hf Hcl Hk. assert (forall cl k, PCF_FIRSTCLUSTER <= cl <= pcfs_ncluster f + 1 -> 0 <= k < pcfs_spcl f * 2 ^ pcfs_sdshift f ->
    pc_daddrcl m f (pc_cldaddr m f cl + k) = cl) as Hback.
  { clear cl k Hcl Hk. unfold PCF_FIRSTCLUSTER. intros cl k Hcl Hk. rewrite (cldaddr_val Hf) by done. unfold pc_daddrcl.
    destruct (spcl_pow Hf) as (j & Hj & E & Hp). pose proof (ok_shift _ _ Hf). pose proof (ok_count _ _ Hf).
    pose proof (pow2_pos (pcfs_sdshift f) ltac:(lia)) as Hq. rewrite Z.shiftr_div_pow2 by lia.
    rewrite Z.div_add_l by lia. assert (0 <= k / 2 ^ pcfs_sdshift f < pcfs_spcl f) by (split; [apply Z.div_pos; lia|apply Z.div_lt_upper_bound; lia]).
    replace (_ + _ + _ - _) with ((cl - 2) * pcfs_spcl f + k / 2 ^ pcfs_sdshift f) by lia.
    rewrite Z.quot_div_nonneg by nia. rewrite Z.div_add_l, Z.div_small by lia. rewrite wraps_id by lia. lia. }
  pose proof (ok_count _ _ Hf). destruct (spcl_pow Hf) as (j & Hj & E & Hp). unfold PCF_FIRSTCLUSTER in *. split_and!.
  - by apply cldaddr_val.
  - by apply Hback.
  - intros cl' k' Hcl' Hk' Eq. rewrite <- (Hback cl k), <- (Hback cl' k'), Eq by done. done.
  - intros Hs. unfold pc_dbtocl, pc_cltodb. rewrite wrapu_id by (unfold in_u; nia).
    rewrite daddr_fits; [rewrite Z.quot_mul, wraps_id; lia|]. destruct (long_width_cases m) as [-> | ->]; nia.
  - intros db Hdb. unfold pc_daddrdb, pc_dbdaddr. pose proof (ok_shift _ _ Hf). rewrite Z.shiftl_mul_pow2 by lia.
    rewrite daddr_fits, <- Z.shiftl_mul_pow2, Z.shiftr_shiftl_l, Z.sub_diag by lia. apply Z.shiftl_0_r.
Qed.

(** [pc_validcl] accepts the numbers from 2 to [pcfs_ncluster]: if that is the
    number of clusters, as its comment says, the last cluster is rejected. *)
Theorem validcl_misses_last m f : pcfs_ok m f -> 0 < pcfs_ncluster f ->
  (forall cl, 0 <= cl < 2 ^ 31 -> pc_validcl f cl = (PCF_FIRSTCLUSTER <=? cl) && (cl <=? pcfs_ncluster f))
  /\ pc_validcl f (pcfs_ncluster f + 1) = false.
Proof.
  intros Hf H0. pose proof (ok_count _ _ Hf). split.
  - intros cl Hcl. unfold pc_validcl. rewrite wraps_id by lia. by rewrite Z.geb_leb.
  - unfold pc_validcl. rewrite wraps_id by lia. rewrite (proj2 (Z.leb_gt _ _)) by lia. apply andb_false_r.
Qed.

(** C35: the blocks of a file and of the root directory, for every offset a file
    size (a [uint_t]) can have.  An offset splits into a block number and a place in
    the block; the root directory of a FAT12 or FAT16 volume, which need not fill its
    last cluster, is covered exactly by its blocks: the block of every offset ends
    where the next one begins or at the end of the directory, and contains the
    offset. *)
Theorem pcfs_blocks m f root off : pcfs_ok m f -> 0 <= off < 2 ^ 32 ->
  off = pc_lblkno m f off * pcfs_clsize f + pc_blkoff f off /\ 0 <= pc_blkoff f off < pcfs_clsize f
  /\ (root && negb (IS_FAT32 f) = false -> pc_blksize f root off = pcfs_clsize f)
  /\ (root && negb (IS_FAT32 f) = true -> off < pcfs_rdirsec f * pcfs_secsize f ->
       pc_lblkno m f off * pcfs_clsize f + pc_blksize f root off = Z.min ((pc_lblkno m f off + 1) * pcfs_clsize f) (pcfs_rdirsec f * pcfs_secsize f)
       /\ pc_blkoff f off < pc_blksize f root off).
Proof.
  intros Hf Hoff. destruct (clsize_pow Hf) as (j & Hj & Ec). pose proof (pow2_pos j ltac:(lia)) as Hp.
  assert (pc_blkoff f off = off mod pcfs_clsize f) as Eb.
  { unfold pc_blkoff. rewrite Ec, mask_mod by lia. apply wraps_mod. lia. }
  assert (pc_lblkno m f off = off / pcfs_clsize f) as El.
  { unfold pc_lblkno. rewrite Z.quot_div_nonneg by lia. apply daddr_fits.
    pose proof (clsize_min Hf). assert (off / pcfs_clsize f < 2 ^ 31) by (apply Z.div_lt_upper_bound; nia). pose proof (Z.div_pos off (pcfs_clsize f)).
    destruct (long_width_cases m) as [-> | ->]; lia. }
  rewrite Eb, El. pose proof (Z.div_mod off (pcfs_clsize f) ltac:(lia)) as Hd. pose proof (Z.mod_pos_bound off (pcfs_clsize f) ltac:(lia)) as Hm.
  split; [lia|]. split; [lia|]. split; [by unfold pc_blksize; intros ->|]. unfold pc_blksize. intros -> Hin.
  destruct (spcl_pow Hf) as (k & Hk & Es & Hs).
  assert (pcfs_rdirsec f .& .~ (pcfs_spcl f - 1) = pcfs_rdirsec f / pcfs_spcl f * pcfs_spcl f) as -> by (rewrite Es; apply land_lnot_ones; lia).
  assert (pcfs_rdirsec f .& (pcfs_spcl f - 1) = pcfs_rdirsec f mod pcfs_spcl f) as -> by (rewrite Es; apply mask_mod; lia).
  pose proof (ok_size _ _ Hf) as Hc. destruct (ok_root _ _ Hf) as [Hr0 Hr1]. pose proof (secsize_pos Hf) as HB.
  rewrite !wraps_id; [|lia|root_product|lia|root_product]. set (q := off / pcfs_clsize f) in *. set (S := pcfs_spcl f) in *. set (B := pcfs_secsize f) in *.
  set (C := pcfs_clsize f) in *. set (R := pcfs_rdirsec f) in *. assert (0 < B) by nia.
  pose proof (Z.div_mod R S ltac:(lia)) as Hr. pose proof (Z.mod_pos_bound R S ltac:(lia)). set (n := R / S) in *. set (r := R mod S) in *.
  replace (n * S * B) with (n * C) by nia. rewrite Z.geb_leb. destruct (Z.leb_spec (n * C) off).
  - assert (q = n) as -> by nia. nia.
  - assert (q < n) by nia. nia.
Qed.

(** ** The kinds of FAT *)

(** Exactly one of the three tests holds unless both flags are set. *)
Lemma flag_test x k : 0 <= k -> (x .& 2 ^ k =? 2 ^ k) = Z.testbit x k.
Proof.
  intros Hk. rewrite <- truth_land_pow2 by done. unfold truth. pose proof (pow2_pos k Hk).
  assert (x .& 2 ^ k = 0 \/ x .& 2 ^ k = 2 ^ k) as [-> | ->].
  { destruct (Z.testbit x k) eqn:E; [right|left]; apply Z.bits_inj'; intros i Hi; rewrite Z.land_spec, ?Z.testbit_0_l, !pow2_testbit by done;
      destruct (Z.eqb_spec i k) as [->|]; rewrite ?E, ?andb_false_r; done. }
  - zcases; done.
  - zcases; done.
Qed.
Theorem fat_kinds f : IS_FAT12 f = negb (IS_FAT16 f || IS_FAT32 f).
Proof.
  unfold IS_FAT12, IS_FAT16, IS_FAT32, PCFS_FAT16, PCFS_FAT32. change 0x400 with (2 ^ 10). change 0x10000 with (2 ^ 16).
  rewrite !flag_test, <- !truth_land_pow2, Z.land_lor_distr_r by lia. unfold truth. rewrite <- negb_andb, negb_involutive.
  apply eq_true_iff_eq. rewrite andb_true_iff, !Z.eqb_eq. apply Z.lor_eq_0_iff.
Qed.

Definition sample_pcfs : pcfs := {|
  pcfs_flags := PCFS_FAT16; pcfs_secsize := 2048; pcfs_spcl := 8; pcfs_sdshift := 2; pcfs_rdirsec := 13; pcfs_datastart := 100;
  pcfs_clsize := 16384; pcfs_ncluster := 5000 |}.
Lemma sample_pcfs_ok : pcfs_ok ILP32 sample_pcfs.
Proof. split; simpl; try lia; [done|by exists 3]. Qed.
Lemma pcfs_clusters_witness : pc_cldaddr ILP32 sample_pcfs 7 = 560 /\ pc_daddrcl ILP32 sample_pcfs 591 = 7.
Proof.
  destruct (pcfs_clusters ILP32 sample_pcfs 7 31 sample_pcfs_ok) as (H1 & H2 & _); [unfold PCF_FIRSTCLUSTER; simpl; lia|simpl; lia|].
  split; [exact H1|exact H2].
Defined.
Lemma pcfs_blocks_witness : pc_blksize sample_pcfs true 20000 = 10240 /\ pc_blkoff sample_pcfs 20000 < pc_blksize sample_pcfs true 20000.
Proof.
  split; [by vm_compute|]. apply (pcfs_blocks ILP32 sample_pcfs true 20000 sample_pcfs_ok); [lia|done|by vm_compute].
Defined.
