(* ===== verification/Hsfs.v ===== *)
(** * CD-ROM volumes: sys/fs/hsfs_spec.h and sys/fs/hsfs_isospec.h

    The on-disk structures of the High Sierra and ISO 9660 formats, which the
    headers [src/include/sys/fs/hsfs_spec.h] and [hsfs_isospec.h] describe by a
    macro for the address of each field and one for its value: volume
    descriptors, path table entries and directory records.  A structure is
    somewhere in an array of octets; an address is an index of it.  The theorems
    say that the fields are where the formats put them, that integers recorded
    in both byte orders are read alike on every machine, that dates and the
    system use area are parsed right, and which date macros are not. *)
From S2P Require Import Prelude.

(** ** Integers *)

(** The machines the headers know; [int] and [short] read through a pointer. *)
Inductive machine := I386 | Sparc.
Definition deref_short (m : machine) (mem : list Z) (x : nat) : option Z :=
  a ← rd mem x; b ← rd mem (x + 1);
  Some (wraps 16 (match m with I386 => of_le [a; b] | Sparc => of_le [b; a] end)).
Definition deref_int (m : machine) (mem : list Z) (x : nat) : option Z :=
  a ← rd mem x; b ← rd mem (x + 1); c ← rd mem (x + 2); d ← rd mem (x + 3);
  Some (wraps 32 (match m with I386 => of_le [a; b; c; d] | Sparc => of_le [d; c; b; a] end)).

Definition ZERO (mem : list Z) (x : nat) : option Z := rd mem x.
Definition ONE (mem : list Z) (x : nat) : option Z := rd mem (x + 1).
Definition TWO (mem : list Z) (x : nat) : option Z := rd mem (x + 2).
Definition THREE (mem : list Z) (x : nat) : option Z := rd mem (x + 3).

Abbreviation shl8 v := (wrapu 32 (v <<< 8)).
Definition MSB_INT (mem : list Z) (x : nat) : option Z :=
  a ← ZERO mem x; b ← ONE mem x; c ← TWO mem x; d ← THREE mem x;
  Some (shl8 (shl8 (shl8 a .| b) .| c) .| d).
Definition LSB_INT (mem : list Z) (x : nat) : option Z :=
  a ← ZERO mem x; b ← ONE mem x; c ← TWO mem x; d ← THREE mem x;
  Some (shl8 (shl8 (shl8 d .| c) .| b) .| a).
Definition MSB_SHORT (mem : list Z) (x : nat) : option Z :=
  a ← ZERO mem x; b ← ONE mem x; Some (shl8 a .| b).
Definition LSB_SHORT (mem : list Z) (x : nat) : option Z :=
  a ← ZERO mem x; b ← ONE mem x; Some (shl8 b .| a).

Definition BOTH_SHORT (m : machine) (mem : list Z) (x : nat) : option Z :=
  match m with I386 => deref_short I386 mem x | Sparc => LSB_SHORT mem x end.
Definition BOTH_INT (m : machine) (mem : list Z) (x : nat) : option Z :=
  match m with I386 => deref_int I386 mem x | Sparc => LSB_INT mem x end.

(** ** High Sierra: the volume descriptor *)
Definition HS_SECTOR_SIZE : nat := 2048.
Definition HS_SECTOR_SHIFT := 11.
Definition HS_SYSAREA_SEC := 0.
Definition HS_VOLDESC_SEC := 16.
Definition MAXHSOFFSET := Z.of_nat HS_SECTOR_SIZE - 1.
Definition MAXHSMASK := .~ MAXHSOFFSET.
Definition HSV_ID_STRLEN : nat := 5.
Definition HSV_ID_VER := 1.
Definition HSV_FILE_STRUCT_ID_VER := 1.
Definition HSV_SYS_ID_STRLEN : nat := 32.
Definition HSV_VOL_ID_STRLEN : nat := 32.
Definition HSV_VOL_SET_ID_STRLEN : nat := 128.
Definition HSV_PUB_ID_STRLEN : nat := 128.
Definition HSV_PREP_ID_STRLEN : nat := 128.
Definition HSV_APPL_ID_STRLEN : nat := 128.
Definition HSV_COPYR_ID_STRLEN : nat := 32.
Definition HSV_ABSTR_ID_STRLEN : nat := 32.
Definition HSV_DATE_LEN : nat := 16.

Inductive hsv_addr :=
  | HSV_desc_lbn | HSV_desc_type | HSV_std_id | HSV_std_ver | HSV_sys_id | HSV_vol_id | HSV_vol_size | HSV_set_size
  | HSV_set_seq | HSV_blk_size | HSV_ptbl_size | HSV_ptbl_man_ls | HSV_ptbl_opt_ls1 | HSV_ptbl_opt_ls2
  | HSV_ptbl_opt_ls3 | HSV_ptbl_man_ms | HSV_ptbl_opt_ms1 | HSV_ptbl_opt_ms2 | HSV_ptbl_opt_ms3 | HSV_root_dir
  | HSV_vol_set_id | HSV_pub_id | HSV_prep_id | HSV_appl_id | HSV_copyr_id | HSV_abstr_id | HSV_cre_date
  | HSV_mod_date | HSV_exp_date | HSV_eff_date | HSV_file_struct_ver.
Definition hsv_at (f : hsv_addr) (x : nat) : nat :=
  match f with
  | HSV_desc_lbn => x + 0 | HSV_desc_type => x + 8 | HSV_std_id => x + 9 | HSV_std_ver => x + 14
  | HSV_sys_id => x + 16 | HSV_vol_id => x + 48 | HSV_vol_size => x + 88 | HSV_set_size => x + 128
  | HSV_set_seq => x + 132 | HSV_blk_size => x + 136 | HSV_ptbl_size => x + 140 | HSV_ptbl_man_ls => x + 148
  | HSV_ptbl_opt_ls1 => x + 152 | HSV_ptbl_opt_ls2 => x + 156 | HSV_ptbl_opt_ls3 => x + 160
  | HSV_ptbl_man_ms => x + 164 | HSV_ptbl_opt_ms1 => x + 168 | HSV_ptbl_opt_ms2 => x + 172
  | HSV_ptbl_opt_ms3 => x + 176 | HSV_root_dir => x + 180 | HSV_vol_set_id => x + 214 | HSV_pub_id => x + 342
  | HSV_prep_id => x + 470 | HSV_appl_id => x + 598 | HSV_copyr_id => x + 726 | HSV_abstr_id => x + 758
  | HSV_cre_date => x + 790 | HSV_mod_date => x + 806 | HSV_exp_date => x + 822 | HSV_eff_date => x + 838
  | HSV_file_struct_ver => x + 854
  end%nat.
#[local] Coercion hsv_at : hsv_addr >-> Funclass.

(** The members that are strings, dates or records: their addresses. *)
Inductive hsv_text :=
  | HSV_STD_ID | HSV_SYS_ID | HSV_VOL_ID | HSV_ROOT_DIR | HSV_VOL_SET_ID | HSV_PUB_ID | HSV_PREP_ID
  | HSV_APPL_ID | HSV_COPYR_ID | HSV_ABSTR_ID | HSV_CRE_DATE | HSV_MOD_DATE | HSV_EXP_DATE | HSV_EFF_DATE.
Definition hsv_text_at (f : hsv_text) (x : nat) : nat :=
  match f with
  | HSV_STD_ID => HSV_std_id x | HSV_SYS_ID => HSV_sys_id x | HSV_VOL_ID => HSV_vol_id x
  | HSV_ROOT_DIR => HSV_root_dir x | HSV_VOL_SET_ID => HSV_vol_set_id x | HSV_PUB_ID => HSV_pub_id x
  | HSV_PREP_ID => HSV_prep_id x | HSV_APPL_ID => HSV_appl_id x | HSV_COPYR_ID => HSV_copyr_id x
  | HSV_ABSTR_ID => HSV_abstr_id x | HSV_CRE_DATE => HSV_cre_date x | HSV_MOD_DATE => HSV_mod_date x
  | HSV_EXP_DATE => HSV_exp_date x | HSV_EFF_DATE => HSV_eff_date x
  end.
#[local] Coercion hsv_text_at : hsv_text >-> Funclass.
Definition HSV_DESC_LBN (m : machine) (mem : list Z) (x : nat) : option Z := BOTH_INT m mem (HSV_desc_lbn x).
Definition HSV_DESC_TYPE (mem : list Z) (x : nat) : option Z := rd mem (HSV_desc_type x).
Definition HSV_STD_VER (mem : list Z) (x : nat) : option Z := rd mem (HSV_std_ver x).
Definition HSV_VOL_SIZE (m : machine) (mem : list Z) (x : nat) : option Z := BOTH_INT m mem (HSV_vol_size x).
Definition HSV_SET_SIZE (m : machine) (mem : list Z) (x : nat) : option Z := BOTH_SHORT m mem (HSV_set_size x).
Definition HSV_SET_SEQ (m : machine) (mem : list Z) (x : nat) : option Z := BOTH_SHORT m mem (HSV_set_seq x).
Definition HSV_BLK_SIZE (m : machine) (mem : list Z) (x : nat) : option Z := BOTH_SHORT m mem (HSV_blk_size x).
Definition HSV_PTBL_SIZE (m : machine) (mem : list Z) (x : nat) : option Z := BOTH_INT m mem (HSV_ptbl_size x).
Definition HSV_PTBL_MAN_LS (mem : list Z) (x : nat) : option Z := LSB_INT mem (HSV_ptbl_man_ls x).
Definition HSV_PTBL_OPT_LS1 (mem : list Z) (x : nat) : option Z := LSB_INT mem (HSV_ptbl_opt_ls1 x).
Definition HSV_PTBL_OPT_LS2 (mem : list Z) (x : nat) : option Z := LSB_INT mem (HSV_ptbl_opt_ls2 x).
Definition HSV_PTBL_OPT_LS3 (mem : list Z) (x : nat) : option Z := LSB_INT mem (HSV_ptbl_opt_ls3 x).
Definition HSV_PTBL_MAN_MS (mem : list Z) (x : nat) : option Z := MSB_INT mem (HSV_ptbl_man_ms x).
Definition HSV_PTBL_OPT_MS1 (mem : list Z) (x : nat) : option Z := MSB_INT mem (HSV_ptbl_opt_ms1 x).
Definition HSV_PTBL_OPT_MS2 (mem : list Z) (x : nat) : option Z := MSB_INT mem (HSV_ptbl_opt_ms2 x).
Definition HSV_PTBL_OPT_MS3 (mem : list Z) (x : nat) : option Z := MSB_INT mem (HSV_ptbl_opt_ms3 x).
Definition HSV_FILE_STRUCT_VER (mem : list Z) (x : nat) : option Z := rd mem (HSV_file_struct_ver x).
Definition HSV_DATE_2DIG (mem : list Z) (x : nat) : option Z :=
  a ← rd mem x; b ← rd mem (x + 1); Some ((a - 48) * 10 + (b - 48)).
Definition HSV_DATE_4DIG (mem : list Z) (x : nat) : option Z :=
  a ← rd mem x; b ← rd mem (x + 1); c ← rd mem (x + 2); d ← rd mem (x + 3);
  Some ((a - 48) * 1000 + (b - 48) * 100 + (c - 48) * 10 + (d - 48)).
Definition HSV_DATE_YEAR (mem : list Z) (x : nat) : option Z := HSV_DATE_4DIG mem (x + 0).
Definition HSV_DATE_MONTH (mem : list Z) (x : nat) : option Z := HSV_DATE_2DIG mem (x + 4).
Definition HSV_DATE_DAY (mem : list Z) (x : nat) : option Z := HSV_DATE_2DIG mem (x + 6).
Definition HSV_DATE_HOUR (mem : list Z) (x : nat) : option Z := HSV_DATE_2DIG mem (x + 8).
Definition HSV_DATE_MIN (mem : list Z) (x : nat) : option Z := HSV_DATE_2DIG mem (x + 10).
Definition HSV_DATE_SEC (mem : list Z) (x : nat) : option Z := HSV_DATE_2DIG mem (x + 12).
Definition HSV_DATE_HSEC (mem : list Z) (x : nat) : option Z := HSV_DATE_2DIG mem (x + 14).
Definition HSV_DATE_GMTOFF (mem : list Z) (x : nat) : option Z := wraps 8 <$> rd mem (x + 16).

(** Path table entries *)
Definition HPE_FPESIZE : nat := 8.
Inductive hpe_addr :=
  | HPE_ext_lbn | HPE_xar_len | HPE_name_len | HPE_parent_no | HPE_name.
Definition hpe_at (f : hpe_addr) (x : nat) : nat :=
  match f with
  | HPE_ext_lbn => x + 0 | HPE_xar_len => x + 4 | HPE_name_len => x + 5 | HPE_parent_no => x + 6 | HPE_name => x + 8
  end%nat.
#[local] Coercion hpe_at : hpe_addr >-> Funclass.

Definition HPE_EXT_LBN (m : machine) (mem : list Z) (x : nat) : option Z :=
  match m with Sparc => MSB_INT mem (HPE_ext_lbn x) | I386 => deref_int I386 mem (HPE_ext_lbn x) end.
Definition HPE_XAR_LEN (mem : list Z) (x : nat) : option Z := rd mem (HPE_xar_len x).
Definition HPE_NAME_LEN (mem : list Z) (x : nat) : option Z := rd mem (HPE_name_len x).
Definition HPE_PARENT_NO (m : machine) (mem : list Z) (x : nat) : option Z := deref_short m mem (HPE_parent_no x).
Definition HPE_NAME (x : nat) : nat := HPE_name x.

(** Directory records *)
Definition HDE_ROOT_DIR_REC_SIZE : nat := 34.
Definition HDE_FDESIZE := 33.
Definition HDE_FUSIZE := 12.
Definition HDE_MAX_NAME_LEN := 255 - HDE_FDESIZE - HDE_FUSIZE.
Definition HDE_EXISTENCE := 0x01.
Definition HDE_DIRECTORY := 0x02.
Definition HDE_ASSOCIATED := 0x04.
Definition HDE_RECORD := 0x08.
Definition HDE_PROTECTION := 0x10.
Definition HDE_UNUSED_FLAGS := 0x60.
Definition HDE_LAST_EXTENT := 0x80.
Definition HDE_PROHIBITED := ((HDE_DIRECTORY .| HDE_RECORD) .| HDE_LAST_EXTENT) .| HDE_UNUSED_FLAGS.
Inductive hde_addr :=
  | HDE_dir_len | HDE_xar_len | HDE_ext_lbn | HDE_ext_size | HDE_cdate | HDE_flags | HDE_reserved | HDE_intrlv_size
  | HDE_intrlv_skip | HDE_vol_set | HDE_name_len | HDE_name | HDE_mode | HDE_uid | HDE_gid.
Definition hde_at (f : hde_addr) (x : nat) : nat :=
  match f with
  | HDE_dir_len => x + 0 | HDE_xar_len => x + 1 | HDE_ext_lbn => x + 2 | HDE_ext_size => x + 10 | HDE_cdate => x + 18
  | HDE_flags => x + 24 | HDE_reserved => x + 25 | HDE_intrlv_size => x + 26 | HDE_intrlv_skip => x + 27
  | HDE_vol_set => x + 28 | HDE_name_len => x + 32 | HDE_name => x + 33 | HDE_mode => x + 0 | HDE_uid => x + 4
  | HDE_gid => x + 8
  end%nat.
#[local] Coercion hde_at : hde_addr >-> Funclass.

Definition HDE_DIR_LEN (mem : list Z) (x : nat) : option Z := rd mem (HDE_dir_len x).
Definition HDE_XAR_LEN (mem : list Z) (x : nat) : option Z := rd mem (HDE_xar_len x).
Definition HDE_EXT_LBN (m : machine) (mem : list Z) (x : nat) : option Z := BOTH_INT m mem (HDE_ext_lbn x).
Definition HDE_EXT_SIZE (m : machine) (mem : list Z) (x : nat) : option Z := BOTH_INT m mem (HDE_ext_size x).
Definition HDE_CDATE (x : nat) : nat := HDE_cdate x.
Definition HDE_FLAGS (mem : list Z) (x : nat) : option Z := rd mem (HDE_flags x).
Definition HDE_RESERVED (mem : list Z) (x : nat) : option Z := rd mem (HDE_reserved x).
Definition HDE_INTRLV_SIZE (mem : list Z) (x : nat) : option Z := rd mem (HDE_intrlv_size x).
Definition HDE_INTRLV_SKIP (mem : list Z) (x : nat) : option Z := rd mem (HDE_intrlv_skip x).
Definition HDE_VOL_SET (m : machine) (mem : list Z) (x : nat) : option Z := BOTH_SHORT m mem (HDE_vol_set x).
Definition HDE_NAME_LEN (mem : list Z) (x : nat) : option Z := rd mem (HDE_name_len x).
Definition HDE_NAME (x : nat) : nat := HDE_name x.
Definition HDE_MODE (mem : list Z) (x : nat) : option Z := rd mem (HDE_mode x).
Definition HDE_UID (mem : list Z) (x : nat) : option Z := rd mem (HDE_uid x).
Definition HDE_GID (mem : list Z) (x : nat) : option Z := rd mem (HDE_gid x).
Definition HDE_DATE_YEAR (mem : list Z) (x : nat) : option Z := (fun v => v + 1900) <$> rd mem (x + 0).
Definition HDE_DATE_MONTH (mem : list Z) (x : nat) : option Z := rd mem (x + 1).
Definition HDE_DATE_DAY (mem : list Z) (x : nat) : option Z := rd mem (x + 2).
Definition HDE_DATE_HOUR (mem : list Z) (x : nat) : option Z := rd mem (x + 3).
Definition HDE_DATE_MIN (mem : list Z) (x : nat) : option Z := rd mem (x + 4).
Definition HDE_DATE_SEC (mem : list Z) (x : nat) : option Z := rd mem (x + 5).
Definition HDE_DATE_GMTOFF (mem : list Z) (x : nat) : option Z := wraps 8 <$> rd mem (x + 6).
Definition HDE_REGULAR_FILE (x : Z) : bool := (x .& HDE_PROHIBITED) =? 0.
Definition HDE_REGULAR_DIR (x : Z) : bool := (x .& HDE_PROHIBITED) =? HDE_DIRECTORY.

(** ** ISO 9660: the volume descriptor *)
Definition ISO_SECTOR_SIZE : nat := 2048.
Definition ISO_SECTOR_SHIFT := 11.
Definition ISO_SYSAREA_SEC := 0.
Definition ISO_VOLDESC_SEC := 16.
Definition MAXISOOFFSET := Z.of_nat ISO_SECTOR_SIZE - 1.
Definition MAXISOMASK := .~ MAXISOOFFSET.
Definition ISO_ID_STRLEN : nat := 5.
Definition ISO_ID_VER := 1.
Definition ISO_FILE_STRUCT_ID_VER := 1.
Definition ISO_SYS_ID_STRLEN : nat := 32.
Definition ISO_VOL_ID_STRLEN : nat := 32.
Definition ISO_VOL_SET_ID_STRLEN : nat := 128.
Definition ISO_PUB_ID_STRLEN : nat := 128.
Definition ISO_PREP_ID_STRLEN : nat := 128.
Definition ISO_APPL_ID_STRLEN : nat := 128.
Definition ISO_COPYR_ID_STRLEN : nat := 37.
Definition ISO_ABSTR_ID_STRLEN : nat := 37.
Definition ISO_SHORT_DATE_LEN : nat := 7.
Definition ISO_DATE_LEN : nat := 17.

Inductive iso_addr :=
  | ISO_desc_type | ISO_std_id | ISO_std_ver | ISO_sys_id | ISO_vol_id | ISO_vol_size | ISO_set_size | ISO_set_seq
  | ISO_blk_size | ISO_ptbl_size | ISO_ptbl_man_ls | ISO_ptbl_opt_ls1 | ISO_ptbl_man_ms | ISO_ptbl_opt_ms1
  | ISO_root_dir | ISO_vol_set_id | ISO_pub_id | ISO_prep_id | ISO_appl_id | ISO_copyr_id | ISO_abstr_id
  | ISO_bibli_id | ISO_cre_date | ISO_mod_date | ISO_exp_date | ISO_eff_date | ISO_file_struct_ver.
Definition iso_at (f : iso_addr) (x : nat) : nat :=
  match f with
  | ISO_desc_type => x + 0 | ISO_std_id => x + 1 | ISO_std_ver => x + 6 | ISO_sys_id => x + 8 | ISO_vol_id => x + 40
  | ISO_vol_size => x + 80 | ISO_set_size => x + 120 | ISO_set_seq => x + 124 | ISO_blk_size => x + 128
  | ISO_ptbl_size => x + 132 | ISO_ptbl_man_ls => x + 140 | ISO_ptbl_opt_ls1 => x + 144 | ISO_ptbl_man_ms => x + 148
  | ISO_ptbl_opt_ms1 => x + 152 | ISO_root_dir => x + 156 | ISO_vol_set_id => x + 190 | ISO_pub_id => x + 318
  | ISO_prep_id => x + 446 | ISO_appl_id => x + 574 | ISO_copyr_id => x + 702 | ISO_abstr_id => x + 739
  | ISO_bibli_id => x + 776 | ISO_cre_date => x + 813 | ISO_mod_date => x + 830 | ISO_exp_date => x + 847
  | ISO_eff_date => x + 864 | ISO_file_struct_ver => x + 881
  end%nat.
#[local] Coercion iso_at : iso_addr >-> Funclass.

(** The members that are strings, dates or records; the dates are those of the other format. *)
Inductive iso_text :=
  | ISO_STD_ID | ISO_SYS_ID | ISO_VOL_ID | ISO_ROOT_DIR | ISO_VOL_SET_ID | ISO_PUB_ID | ISO_PREP_ID
  | ISO_APPL_ID | ISO_COPYR_ID | ISO_ABSTR_ID | ISO_BIBLI_ID | ISO_CRE_DATE | ISO_MOD_DATE | ISO_EXP_DATE
  | ISO_EFF_DATE.
Definition iso_text_at (f : iso_text) (x : nat) : nat :=
  match f with
  | ISO_STD_ID => ISO_std_id x | ISO_SYS_ID => ISO_sys_id x | ISO_VOL_ID => ISO_vol_id x
  | ISO_ROOT_DIR => ISO_root_dir x | ISO_VOL_SET_ID => ISO_vol_set_id x | ISO_PUB_ID => ISO_pub_id x
  | ISO_PREP_ID => ISO_prep_id x | ISO_APPL_ID => ISO_appl_id x | ISO_COPYR_ID => ISO_copyr_id x
  | ISO_ABSTR_ID => ISO_abstr_id x | ISO_BIBLI_ID => ISO_bibli_id x | ISO_CRE_DATE => HSV_cre_date x
  | ISO_MOD_DATE => HSV_mod_date x | ISO_EXP_DATE => HSV_exp_date x | ISO_EFF_DATE => HSV_eff_date x
  end.
#[local] Coercion iso_text_at : iso_text >-> Funclass.
Definition ISO_DESC_TYPE (mem : list Z) (x : nat) : option Z := rd mem (ISO_desc_type x).
Definition ISO_STD_VER (mem : list Z) (x : nat) : option Z := rd mem (ISO_std_ver x).
Definition ISO_VOL_SIZE (m : machine) (mem : list Z) (x : nat) : option Z := BOTH_INT m mem (ISO_vol_size x).
Definition ISO_SET_SIZE (m : machine) (mem : list Z) (x : nat) : option Z := BOTH_SHORT m mem (ISO_set_size x).
Definition ISO_SET_SEQ (m : machine) (mem : list Z) (x : nat) : option Z := BOTH_SHORT m mem (ISO_set_seq x).
Definition ISO_BLK_SIZE (m : machine) (mem : list Z) (x : nat) : option Z := BOTH_SHORT m mem (ISO_blk_size x).
Definition ISO_PTBL_SIZE (m : machine) (mem : list Z) (x : nat) : option Z := BOTH_INT m mem (ISO_ptbl_size x).
Definition ISO_PTBL_MAN_LS (mem : list Z) (x : nat) : option Z := LSB_INT mem (ISO_ptbl_man_ls x).
Definition ISO_PTBL_OPT_LS1 (mem : list Z) (x : nat) : option Z := LSB_INT mem (ISO_ptbl_opt_ls1 x).
Definition ISO_PTBL_MAN_MS (mem : list Z) (x : nat) : option Z := MSB_INT mem (ISO_ptbl_man_ms x).
Definition ISO_PTBL_OPT_MS1 (mem : list Z) (x : nat) : option Z := MSB_INT mem (ISO_ptbl_opt_ms1 x).
Definition ISO_FILE_STRUCT_VER (mem : list Z) (x : nat) : option Z := rd mem (ISO_file_struct_ver x).
Definition ISO_DATE_2DIG (mem : list Z) (x : nat) : option Z :=
  a ← rd mem x; b ← rd mem (x + 1); Some ((a - 48) * 10 + (b - 48)).
Definition ISO_DATE_4DIG (mem : list Z) (x : nat) : option Z :=
  a ← rd mem x; b ← rd mem (x + 1); c ← rd mem (x + 2); d ← rd mem (x + 3);
  Some ((a - 48) * 1000 + (b - 48) * 100 + (c - 48) * 10 + (d - 48)).
Definition ISO_DATE_YEAR (mem : list Z) (x : nat) : option Z := ISO_DATE_4DIG mem (x + 0).
Definition ISO_DATE_MONTH (mem : list Z) (x : nat) : option Z := ISO_DATE_2DIG mem (x + 4).
Definition ISO_DATE_DAY (mem : list Z) (x : nat) : option Z := ISO_DATE_2DIG mem (x + 6).
Definition ISO_DATE_HOUR (mem : list Z) (x : nat) : option Z := ISO_DATE_2DIG mem (x + 8).
Definition ISO_DATE_MIN (mem : list Z) (x : nat) : option Z := ISO_DATE_2DIG mem (x + 10).
Definition ISO_DATE_SEC (mem : list Z) (x : nat) : option Z := ISO_DATE_2DIG mem (x + 12).
Definition ISO_DATE_HSEC (mem : list Z) (x : nat) : option Z := ISO_DATE_2DIG mem (x + 14).
Definition ISO_DATE_GMTOFF (mem : list Z) (x : nat) : option Z := wraps 8 <$> rd mem (x + 16).

(** Directory records *)
Definition IDE_ROOT_DIR_REC_SIZE : nat := 34.
Definition IDE_FDESIZE := 33.
Definition IDE_MAX_NAME_LEN := 255 - IDE_FDESIZE.
Definition IDE_EXISTENCE := 0x01.
Definition IDE_DIRECTORY := 0x02.
Definition IDE_ASSOCIATED := 0x04.
Definition IDE_RECORD := 0x08.
Definition IDE_PROTECTION := 0x10.
Definition IDE_UNUSED_FLAGS := 0x60.
Definition IDE_LAST_EXTENT := 0x80.
Definition IDE_PROHIBITED := ((IDE_DIRECTORY .| IDE_RECORD) .| IDE_LAST_EXTENT) .| IDE_UNUSED_FLAGS.
Inductive ide_addr :=
  | IDE_dir_len | IDE_xar_len | IDE_ext_lbn | IDE_ext_size | IDE_cdate | IDE_flags | IDE_intrlv_size
  | IDE_intrlv_skip | IDE_vol_set | IDE_name_len | IDE_name.
Definition ide_at (f : ide_addr) (x : nat) : nat :=
  match f with
  | IDE_dir_len => x + 0 | IDE_xar_len => x + 1 | IDE_ext_lbn => x + 2 | IDE_ext_size => x + 10 | IDE_cdate => x + 18
  | IDE_flags => x + 25 | IDE_intrlv_size => x + 26 | IDE_intrlv_skip => x + 27 | IDE_vol_set => x + 28
  | IDE_name_len => x + 32 | IDE_name => x + 33
  end%nat.
#[local] Coercion ide_at : ide_addr >-> Funclass.

Definition IDE_DIR_LEN (mem : list Z) (x : nat) : option Z := rd mem (IDE_dir_len x).
Definition IDE_XAR_LEN (mem : list Z) (x : nat) : option Z := rd mem (IDE_xar_len x).
Definition IDE_EXT_LBN (m : machine) (mem : list Z) (x : nat) : option Z := BOTH_INT m mem (IDE_ext_lbn x).
Definition IDE_EXT_SIZE (m : machine) (mem : list Z) (x : nat) : option Z := BOTH_INT m mem (IDE_ext_size x).
Definition IDE_CDATE (x : nat) : nat := IDE_cdate x.
Definition IDE_FLAGS (mem : list Z) (x : nat) : option Z := rd mem (IDE_flags x).
Definition IDE_INTRLV_SIZE (mem : list Z) (x : nat) : option Z := rd mem (IDE_intrlv_size x).
Definition IDE_INTRLV_SKIP (mem : list Z) (x : nat) : option Z := rd mem (IDE_intrlv_skip x).
Definition IDE_VOL_SET (m : machine) (mem : list Z) (x : nat) : option Z := BOTH_SHORT m mem (IDE_vol_set x).
Definition IDE_NAME_LEN (mem : list Z) (x : nat) : option Z := rd mem (IDE_name_len x).
Definition IDE_NAME (x : nat) : nat := IDE_name x.
Definition IDE_PAD_LEN (mem : list Z) (x : nat) : option Z :=
  n ← IDE_NAME_LEN mem x; Some (if truth (n mod 2) then 0 else 1).
Definition IDE_SUA_LEN (mem : list Z) (x : nat) : option Z :=
  d ← IDE_DIR_LEN mem x; n ← IDE_NAME_LEN mem x; p ← IDE_PAD_LEN mem x; Some (d - IDE_FDESIZE - n - p).
Definition IDE_sys_use_area (mem : list Z) (x : nat) : option nat :=
  n ← IDE_NAME_LEN mem x; p ← IDE_PAD_LEN mem x; Some (x + Z.to_nat (n + p) + Z.to_nat IDE_FDESIZE)%nat.
Definition IDE_DATE_YEAR (mem : list Z) (x : nat) : option Z := (fun v => v + 1900) <$> rd mem (x + 0).
Definition IDE_DATE_MONTH (mem : list Z) (x : nat) : option Z := rd mem (x + 1).
Definition IDE_DATE_DAY (mem : list Z) (x : nat) : option Z := rd mem (x + 2).
Definition IDE_DATE_HOUR (mem : list Z) (x : nat) : option Z := rd mem (x + 3).
Definition IDE_DATE_MIN (mem : list Z) (x : nat) : option Z := rd mem (x + 4).
Definition IDE_DATE_SEC (mem : list Z) (x : nat) : option Z := rd mem (x + 5).
Definition IDE_DATE_GMTOFF (mem : list Z) (x : nat) : option Z := wraps 8 <$> rd mem (x + 6).
Definition IDE_REGULAR_FILE (x : Z) : bool := (x .& IDE_PROHIBITED) =? 0.
Definition IDE_REGULAR_DIR (x : Z) : bool := (x .& IDE_PROHIBITED) =? IDE_DIRECTORY.

(** Path table entries *)
Definition IPE_FPESIZE : nat := 8.
Inductive ipe_addr :=
  | IPE_name_len | IPE_xar_len | IPE_ext_lbn | IPE_parent_no | IPE_name.
Definition ipe_at (f : ipe_addr) (x : nat) : nat :=
  match f with
  | IPE_name_len => x + 0 | IPE_xar_len => x + 1 | IPE_ext_lbn => x + 2 | IPE_parent_no => x + 6 | IPE_name => x + 8
  end%nat.
#[local] Coercion ipe_at : ipe_addr >-> Funclass.

Definition IPE_EXT_LBN (mem : list Z) (x : nat) : option Z := MSB_INT mem (IPE_ext_lbn x).
Definition IPE_XAR_LEN (mem : list Z) (x : nat) : option Z := rd mem (IPE_xar_len x).
Definition IPE_NAME_LEN (mem : list Z) (x : nat) : option Z := rd mem (IPE_name_len x).
Definition IPE_PARENT_NO (m : machine) (mem : list Z) (x : nat) : option Z := deref_short m mem (IPE_parent_no x).
Definition IPE_NAME (x : nat) : nat := IPE_name x.

(** ** Reading octets *)
Lemma rd_at pre l k : rd (pre ++ l) (length pre + k) = l !! k.
Proof. unfold rd. rewrite lookup_app_r by lia. f_equal. lia. Qed.

Lemma rd_at_0 pre l : rd (pre ++ l) (length pre) = l !! 0%nat.
Proof. unfold rd. rewrite lookup_app_r by lia. f_equal. lia. Qed.

Lemma shl8_lor v b : 0 <= v < 2 ^ 24 -> is_byte b -> shl8 v .| b = b + 256 * v.
Proof.
  intros Hv Hb. rewrite Z.shiftl_mul_pow2, wrapu_id by (unfold in_u; lia).
  rewrite Z.lor_comm, <- Z.shiftl_mul_pow2, lor_shift_add by (lia || done). lia.
Qed.

Lemma be_word a b c d : Forall is_byte [a; b; c; d] ->
  shl8 (shl8 (shl8 a .| b) .| c) .| d = of_le [d; c; b; a].
Proof.
  intros Hb. octets. unfold is_byte in *.
  rewrite (shl8_lor a), (shl8_lor (b + _)), (shl8_lor (c + _)) by (done || unfold is_byte; lia). simpl. lia.
Qed.

Lemma be_half a b : Forall is_byte [a; b] -> shl8 a .| b = of_le [b; a].
Proof.
  intros Hb. octets. unfold is_byte in *.
  rewrite (shl8_lor a) by (done || unfold is_byte; lia). simpl. lia.
Qed.

(** The readers on octets that are there. *)
Lemma ints_at pre a b c d post :
  Forall is_byte [a; b; c; d] -> let mem := pre ++ [a; b; c; d] ++ post in let x := length pre in
  LSB_INT mem x = Some (of_le [a; b; c; d]) /\ MSB_INT mem x = Some (of_le [d; c; b; a])
  /\ deref_int I386 mem x = Some (wraps 32 (of_le [a; b; c; d])).
Proof.
  intros Hb mem x. unfold LSB_INT, MSB_INT, deref_int, ZERO, ONE, TWO, THREE, mem, x.
  rewrite rd_at_0, !rd_at. cbn [lookup list_lookup app mbind option_bind mret].
  rewrite !be_word by (octets; all_bytes). done.
Qed.

Lemma shorts_at pre a b post :
  Forall is_byte [a; b] -> let mem := pre ++ [a; b] ++ post in let x := length pre in
  LSB_SHORT mem x = Some (of_le [a; b]) /\ MSB_SHORT mem x = Some (of_le [b; a])
  /\ deref_short I386 mem x = Some (wraps 16 (of_le [a; b])).
Proof.
  intros Hb mem x. unfold LSB_SHORT, MSB_SHORT, deref_short, ZERO, ONE, mem, x.
  rewrite rd_at_0, !rd_at. cbn [lookup list_lookup app mbind option_bind mret].
  rewrite !be_half by (octets; all_bytes). done.
Qed.

(** Numbers recorded in both byte orders.  A volume records a 32-bit
    number as four octets least significant first and four most significant
    first, a 16-bit number likewise: [LSB_INT] at the field and [MSB_INT] at its
    second half read the number, and [BOTH_INT] reads it at the field on every
    machine, as a signed integer on the i386 and an unsigned one on the SPARC. *)
Theorem both_orders v pre post :
  in_u 32 v ->
  let f := pre ++ (le_bytes 4 v ++ rev (le_bytes 4 v)) ++ post in
  let h := pre ++ (le_bytes 2 v ++ rev (le_bytes 2 v)) ++ post in
  let x := length pre in
  LSB_INT f x = Some v /\ MSB_INT f (x + 4) = Some v
  /\ BOTH_INT Sparc f x = Some v /\ BOTH_INT I386 f x = Some (wraps 32 v)
  /\ (in_u 16 v -> LSB_SHORT h x = Some v /\ MSB_SHORT h (x + 2) = Some v
      /\ BOTH_SHORT Sparc h x = Some v /\ BOTH_SHORT I386 h x = Some (wraps 16 v)).
Proof.
  intros Hv f h x.
  assert (exists a b c d, le_bytes 4 v = [a; b; c; d] /\ Forall is_byte [a; b; c; d] /\ of_le [a; b; c; d] = v)
    as (a & b & c & d & E & Hb & Ev).
  { do 4 eexists. split; [reflexivity|]. split; [apply (le_bytes_bytes 4)|].
    pose proof (of_le_le_bytes 4 v) as H. simpl le_bytes in H. rewrite H. by apply Z.mod_small. }
  assert (exists a b, le_bytes 2 v = [a; b] /\ Forall is_byte [a; b] /\ (in_u 16 v -> of_le [a; b] = v))
    as (a' & b' & E' & Hb' & Ev').
  { do 2 eexists. split; [reflexivity|]. split; [apply (le_bytes_bytes 2)|]. intros Hv2.
    pose proof (of_le_le_bytes 2 v) as H. simpl le_bytes in H. rewrite H. by apply Z.mod_small. }
  unfold f, h, x. rewrite E, E'. cbn [rev app].
  pose proof (ints_at pre a b c d ([d; c; b; a] ++ post) Hb) as (H1 & _ & H2).
  assert (Forall is_byte [d; c; b; a]) as Hr by (octets; all_bytes).
  pose proof (ints_at (pre ++ [a; b; c; d]) d c b a post Hr) as (_ & H3 & _).
  rewrite <- app_assoc, length_app in H3. cbn [app length] in *. rewrite Ev in *.
  split; [done|]. split; [done|]. split; [done|]. split; [done|]. intros Hv2.
  pose proof (shorts_at pre a' b' ([b'; a'] ++ post) Hb') as (K1 & _ & K2).
  assert (Forall is_byte [b'; a']) as Hr' by (octets; all_bytes).
  pose proof (shorts_at (pre ++ [a'; b']) b' a' post Hr') as (_ & K3 & _).
  rewrite <- app_assoc, length_app in K3. cbn [app length] in *. rewrite Ev' in * by done.
  split; [done|]. split; [done|]. split; done.
Qed.

Lemma both_orders_witness : BOTH_INT I386 [7; 0; 8; 0; 0; 0; 0; 8; 0; 9] 1 = Some 2048.
Proof.
  assert (in_u 32 2048) as H by (unfold in_u; lia).
  exact (proj1 (proj2 (proj2 (proj2 (both_orders 2048 [7] [9] H))))).
Defined.

(** ** Layouts *)

(** Fields, address and length, one after the other between two addresses. *)
Fixpoint packed (from : nat) (l : list (nat * nat)) (limit : nat) : Prop :=
  match l with [] => (from <= limit)%nat | (a, n) :: l => (from <= a)%nat /\ packed (a + n) l limit end.

Lemma packed_disjoint from l limit :
  packed from l limit ->
  (from <= limit)%nat
  /\ (forall i a n, l !! i = Some (a, n) -> from <= a /\ a + n <= limit)%nat
  /\ (forall i j a n b k, (i < j)%nat -> l !! i = Some (a, n) -> l !! j = Some (b, k) -> (a + n <= b)%nat).
Proof.
  revert from. induction l as [|[a n] l IH]; intros from Hp; [split; [done|]; split; intros; done|].
  destruct Hp as [Ha Hp]. destruct (IH _ Hp) as (H1 & H2 & H3). split; [lia|]. split.
  - intros [|i] b k E; simplify_eq/=; [lia|]. apply H2 in E. lia.
  - intros [|i] [|j] b k c k' Hij E E'; simplify_eq/=; try lia.
    + apply H2 in E'. lia.
    + eapply (H3 i j); [lia|done|done].
Qed.

(** The fields of the structures at [x]: a number in both orders has eight
    octets, or four for a 16-bit one. *)
Definition hsv_fields (x : nat) : list (nat * nat) :=
  [(HSV_desc_lbn x, 8); (HSV_desc_type x, 1); (HSV_std_id x, HSV_ID_STRLEN); (HSV_std_ver x, 1);
   (HSV_sys_id x, HSV_SYS_ID_STRLEN); (HSV_vol_id x, HSV_VOL_ID_STRLEN); (HSV_vol_size x, 8);
   (HSV_set_size x, 4); (HSV_set_seq x, 4); (HSV_blk_size x, 4); (HSV_ptbl_size x, 8);
   (HSV_ptbl_man_ls x, 4); (HSV_ptbl_opt_ls1 x, 4); (HSV_ptbl_opt_ls2 x, 4); (HSV_ptbl_opt_ls3 x, 4);
   (HSV_ptbl_man_ms x, 4); (HSV_ptbl_opt_ms1 x, 4); (HSV_ptbl_opt_ms2 x, 4); (HSV_ptbl_opt_ms3 x, 4);
   (HSV_root_dir x, HDE_ROOT_DIR_REC_SIZE); (HSV_vol_set_id x, HSV_VOL_SET_ID_STRLEN);
   (HSV_pub_id x, HSV_PUB_ID_STRLEN); (HSV_prep_id x, HSV_PREP_ID_STRLEN);
   (HSV_appl_id x, HSV_APPL_ID_STRLEN); (HSV_copyr_id x, HSV_COPYR_ID_STRLEN);
   (HSV_abstr_id x, HSV_ABSTR_ID_STRLEN); (HSV_cre_date x, HSV_DATE_LEN); (HSV_mod_date x, HSV_DATE_LEN);
   (HSV_exp_date x, HSV_DATE_LEN); (HSV_eff_date x, HSV_DATE_LEN); (HSV_file_struct_ver x, 1)]%nat.
Definition iso_fields (x : nat) : list (nat * nat) :=
  [(ISO_desc_type x, 1); (ISO_std_id x, ISO_ID_STRLEN); (ISO_std_ver x, 1); (ISO_sys_id x, ISO_SYS_ID_STRLEN);
   (ISO_vol_id x, ISO_VOL_ID_STRLEN); (ISO_vol_size x, 8); (ISO_set_size x, 4); (ISO_set_seq x, 4);
   (ISO_blk_size x, 4); (ISO_ptbl_size x, 8); (ISO_ptbl_man_ls x, 4); (ISO_ptbl_opt_ls1 x, 4);
   (ISO_ptbl_man_ms x, 4); (ISO_ptbl_opt_ms1 x, 4); (ISO_root_dir x, IDE_ROOT_DIR_REC_SIZE);
   (ISO_vol_set_id x, ISO_VOL_SET_ID_STRLEN); (ISO_pub_id x, ISO_PUB_ID_STRLEN);
   (ISO_prep_id x, ISO_PREP_ID_STRLEN); (ISO_appl_id x, ISO_APPL_ID_STRLEN);
   (ISO_copyr_id x, ISO_COPYR_ID_STRLEN); (ISO_abstr_id x, ISO_ABSTR_ID_STRLEN); (ISO_bibli_id x, 37);
   (ISO_cre_date x, ISO_DATE_LEN); (ISO_mod_date x, ISO_DATE_LEN); (ISO_exp_date x, ISO_DATE_LEN);
   (ISO_eff_date x, ISO_DATE_LEN); (ISO_file_struct_ver x, 1)]%nat.
Definition hde_fields (x : nat) : list (nat * nat) :=
  [(HDE_dir_len x, 1); (HDE_xar_len x, 1); (HDE_ext_lbn x, 8); (HDE_ext_size x, 8); (HDE_cdate x, 6);
   (HDE_flags x, 1); (HDE_reserved x, 1); (HDE_intrlv_size x, 1); (HDE_intrlv_skip x, 1);
   (HDE_vol_set x, 4); (HDE_name_len x, 1)]%nat.
Definition ide_fields (x : nat) : list (nat * nat) :=
  [(IDE_dir_len x, 1); (IDE_xar_len x, 1); (IDE_ext_lbn x, 8); (IDE_ext_size x, 8);
   (IDE_cdate x, ISO_SHORT_DATE_LEN); (IDE_flags x, 1); (IDE_intrlv_size x, 1); (IDE_intrlv_skip x, 1);
   (IDE_vol_set x, 4); (IDE_name_len x, 1)]%nat.

(** Inequalities of addresses: the macros add constants. *)
Ltac addresses := cbv beta iota delta -[Nat.add]; lia.

(** The fields of the volume descriptors and of the directory records of
    both formats are disjoint, in the order of the headers, and inside the
    sector and before the name respectively. *)
Theorem volume_layouts x :
  Forall (fun '(l, limit) =>
      (forall i a n, l !! i = Some (a, n) -> x <= a /\ a + n <= limit)%nat
      /\ (forall i j a n b k, (i < j)%nat -> l !! i = Some (a, n) -> l !! j = Some (b, k) -> (a + n <= b)%nat))
    [(hsv_fields x, (x + HS_SECTOR_SIZE)%nat); (iso_fields x, (x + ISO_SECTOR_SIZE)%nat);
     (hde_fields x, HDE_name x); (ide_fields x, IDE_name x)].
Proof.
  assert (forall l limit, packed x l limit ->
    (forall i a n, l !! i = Some (a, n) -> x <= a /\ a + n <= limit)%nat
    /\ (forall i j a n b k, (i < j)%nat -> l !! i = Some (a, n) -> l !! j = Some (b, k) -> (a + n <= b)%nat)) as Hp
    by (intros l limit H; apply (packed_disjoint x l limit H)).
  repeat (apply Forall_cons_2; [apply Hp|]); [..|apply Forall_nil_2].
  all: cbn [packed hsv_fields iso_fields hde_fields ide_fields]; repeat (split; [addresses|]); addresses.
Qed.

(** The date macros of the ISO descriptor take the addresses of the other
    format's: they read the bibliographic identifier and the dates before. *)
Theorem iso_dates_misplaced x :
  (ISO_bibli_id x <= ISO_CRE_DATE x /\ ISO_CRE_DATE x + ISO_DATE_LEN <= ISO_cre_date x
   /\ ISO_bibli_id x <= ISO_MOD_DATE x < ISO_cre_date x
   /\ ISO_cre_date x <= ISO_EXP_DATE x < ISO_mod_date x
   /\ ISO_mod_date x <= ISO_EFF_DATE x < ISO_exp_date x)%nat.
Proof. repeat split; addresses. Qed.

(** ** Dates *)

(** A date as the volume descriptors record it: decimal digits, year first,
    and in ISO 9660 the offset from Greenwich in one signed octet. *)
Definition digits2 (n : Z) : list Z := [48 + n / 10; 48 + n mod 10].
Definition digits4 (n : Z) : list Z := [48 + n / 1000; 48 + n / 100 mod 10; 48 + n / 10 mod 10; 48 + n mod 10].
Definition long_date (year month day hour min sec hsec : Z) : list Z :=
  digits4 year ++ digits2 month ++ digits2 day ++ digits2 hour ++ digits2 min ++ digits2 sec ++ digits2 hsec.

Lemma digits2_value n : 0 <= n < 100 -> (48 + n / 10 - 48) * 10 + (48 + n mod 10 - 48) = n.
Proof. intros Hn. Z.div_mod_to_equations. lia. Qed.

Lemma digits4_value n : 0 <= n < 10000 ->
  (48 + n / 1000 - 48) * 1000 + (48 + n / 100 mod 10 - 48) * 100 + (48 + n / 10 mod 10 - 48) * 10 + (48 + n mod 10 - 48) = n.
Proof. intros Hn. Z.div_mod_to_equations. lia. Qed.

(** A field of a date whose octets follow [pre]. *)
Ltac read_date :=
  unfold HSV_DATE_2DIG, HSV_DATE_4DIG, ISO_DATE_2DIG, ISO_DATE_4DIG; rewrite <- ?Nat.add_assoc; cbn [Nat.add];
  rewrite !rd_at; cbn [long_date digits4 digits2 app lookup list_lookup mbind option_bind];
  first [by rewrite digits2_value | by rewrite digits4_value].

(** Dates read back.  The macros of both formats give the fields of a date
    written in decimal digits, and the ISO macro the signed offset after it. *)
Theorem dates_read_back pre post year month day hour min sec hsec gmtoff :
  0 <= year < 10000 -> Forall (fun v => 0 <= v < 100) [month; day; hour; min; sec; hsec] -> -128 <= gmtoff < 128 ->
  let mem := pre ++ long_date year month day hour min sec hsec ++ [wrapu 8 gmtoff] ++ post in
  let x := length pre in
  HSV_DATE_YEAR mem x = Some year /\ HSV_DATE_MONTH mem x = Some month /\ HSV_DATE_DAY mem x = Some day
  /\ HSV_DATE_HOUR mem x = Some hour /\ HSV_DATE_MIN mem x = Some min /\ HSV_DATE_SEC mem x = Some sec
  /\ HSV_DATE_HSEC mem x = Some hsec
  /\ ISO_DATE_YEAR mem x = Some year /\ ISO_DATE_MONTH mem x = Some month /\ ISO_DATE_DAY mem x = Some day
  /\ ISO_DATE_HOUR mem x = Some hour /\ ISO_DATE_MIN mem x = Some min /\ ISO_DATE_SEC mem x = Some sec
  /\ ISO_DATE_HSEC mem x = Some hsec /\ ISO_DATE_GMTOFF mem x = Some gmtoff.
Proof.
  intros Hy Hv Hg mem x.
  repeat match goal with H : Forall _ (_ :: _) |- _ => apply Forall_cons_1 in H; destruct H as [? H] end.
  unfold mem, x. repeat apply conj; try (unfold HSV_DATE_YEAR, HSV_DATE_MONTH, HSV_DATE_DAY, HSV_DATE_HOUR,
    HSV_DATE_MIN, HSV_DATE_SEC, HSV_DATE_HSEC, ISO_DATE_YEAR, ISO_DATE_MONTH, ISO_DATE_DAY, ISO_DATE_HOUR,
    ISO_DATE_MIN, ISO_DATE_SEC, ISO_DATE_HSEC; read_date).
  unfold ISO_DATE_GMTOFF. rewrite rd_at. cbn [long_date digits4 digits2 app lookup list_lookup].
  simpl. f_equal. rewrite wraps_wrapu by lia. apply wraps_id; lia.
Qed.

Lemma dates_read_back_witness :
  let mem := [1] ++ long_date 2004 10 19 12 30 59 0 ++ [wrapu 8 (-8)] ++ [] in
  ISO_DATE_YEAR mem 1 = Some 2004 /\ ISO_DATE_GMTOFF mem 1 = Some (-8).
Proof.
  pose proof (dates_read_back [1] [] 2004 10 19 12 30 59 0 (-8) ltac:(lia)
    ltac:(repeat (apply Forall_cons_2; [lia|]); apply Forall_nil_2) ltac:(lia)) as H.
  cbv zeta in H. destruct H as (_ & _ & _ & _ & _ & _ & _ & H1 & _ & _ & _ & _ & _ & _ & H2).
  split; [exact H1|exact H2].
Defined.

(** ** Directory records *)

(** The tests of the flags, on every octet. *)
Definition regular_test (n : nat) : bool :=
  let f := Z.of_nat n in
  eqb (IDE_REGULAR_FILE f) (negb (Z.testbit f 1 || Z.testbit f 3 || Z.testbit f 5 || Z.testbit f 6 || Z.testbit f 7))
  && eqb (IDE_REGULAR_DIR f) (Z.testbit f 1 && negb (Z.testbit f 3 || Z.testbit f 5 || Z.testbit f 6 || Z.testbit f 7)).

Lemma regular_flags f : in_u 8 f ->
  IDE_REGULAR_FILE f = negb (Z.testbit f 1 || Z.testbit f 3 || Z.testbit f 5 || Z.testbit f 6 || Z.testbit f 7)
  /\ IDE_REGULAR_DIR f = Z.testbit f 1 && negb (Z.testbit f 3 || Z.testbit f 5 || Z.testbit f 6 || Z.testbit f 7).
Proof.
  intros Hf. unfold in_u in Hf. change (2 ^ 8) with 256 in Hf.
  assert (forallb regular_test (seq 0 256) = true) as Hall by (vm_compute; reflexivity).
  rewrite forallb_forall in Hall. specialize (Hall (Z.to_nat f)). rewrite in_seq in Hall.
  unfold regular_test in Hall. rewrite Z2Nat.id in Hall by lia. rewrite andb_true_iff, !eqb_true_iff in Hall.
  apply Hall. lia.
Qed.

(** The areas of an ISO directory record.  The system use area starts at
    an even distance from the start of the record, after the name and its
    padding, and together with its length reaches exactly the record's end; a
    record is a regular file or a plain directory exactly when the bits for a
    directory, a record format and a further extent and the unused bits are
    clear, but for the directory's. *)
Theorem record_areas mem x dir_len name_len flags :
  IDE_DIR_LEN mem x = Some dir_len -> IDE_NAME_LEN mem x = Some name_len -> 0 <= name_len -> in_u 8 flags ->
  (exists area len, IDE_sys_use_area mem x = Some area /\ IDE_SUA_LEN mem x = Some len
     /\ Z.of_nat (IDE_name x) + name_len <= Z.of_nat area <= Z.of_nat (IDE_name x) + name_len + 1
     /\ (Z.of_nat area - Z.of_nat x) mod 2 = 0
     /\ Z.of_nat area + len = Z.of_nat x + dir_len)
  /\ IDE_REGULAR_FILE flags
     = negb (Z.testbit flags 1 || Z.testbit flags 3 || Z.testbit flags 5 || Z.testbit flags 6 || Z.testbit flags 7)
  /\ IDE_REGULAR_DIR flags
     = Z.testbit flags 1 && negb (Z.testbit flags 3 || Z.testbit flags 5 || Z.testbit flags 6 || Z.testbit flags 7).
Proof.
  intros Hd Hn Hpos Hf. split.
  - unfold IDE_sys_use_area, IDE_SUA_LEN, IDE_PAD_LEN. rewrite Hd, Hn. cbn [mbind option_bind].
    do 2 eexists. split; [reflexivity|]. split; [reflexivity|]. unfold truth, ide_at, IDE_FDESIZE.
    pose proof (Z.mod_pos_bound name_len 2 ltac:(lia)). pose proof (Z.div_mod name_len 2 ltac:(lia)).
    destruct (Z.eqb_spec (name_len mod 2) 0); cbn [negb]; (split; [lia|]); (split; [|lia]).
    + replace (Z.of_nat (x + Z.to_nat (name_len + 1) + Z.to_nat 33) - Z.of_nat x)
        with ((name_len / 2 + 17) * 2) by lia. apply Z.mod_mul. lia.
    + replace (Z.of_nat (x + Z.to_nat (name_len + 0) + Z.to_nat 33) - Z.of_nat x)
        with ((name_len / 2 + 17) * 2) by lia. apply Z.mod_mul. lia.
  - by apply regular_flags.
Qed.

Lemma record_areas_witness :
  let mem := replicate 32 0 ++ [3] ++ replicate 10 0 in
  exists area, IDE_sys_use_area mem 0 = Some area /\ (Z.of_nat area - 0) mod 2 = 0.
Proof.
  destruct (record_areas (replicate 32 0 ++ [3] ++ replicate 10 0) 0 0 3 0 eq_refl eq_refl ltac:(lia)
    ltac:(unfold in_u; lia)) as [(area & len & H1 & _ & _ & H2 & _) _].
  exists area. split; [exact H1|exact H2].
Defined.
