(* ===== verification/Time.v ===== *)
(** * Time values and clock ticks: sys/time.h

    The structures and macros of [src/include/sys/time.h]: time values and
    their 32-bit forms, comparison, and the conversions between clock ticks and
    units of time.  The kernel's [hz], [msec_per_tick], [tick_per_msec],
    [usec_per_tick] and [nsec_per_tick] are variables of the section [Ticks].
    Division truncates; signed arithmetic is exact. *)
From S2P Require Import Prelude.

(** ** Time values *)
Record timeval := Timeval { tv_sec : Z; tv_usec : Z }.
Record timestruc := Timestruc { ts_sec : Z; ts_nsec : Z }.
Record timezone := Timezone { tz_minuteswest : Z; tz_dsttime : Z }.
Record itimerval := Itimerval { it_interval : timeval; it_value : timeval }.

Definition TIME32_MAX := 2 ^ 31 - 1.
Definition TIME32_MIN := - 2 ^ 31.

(** The members of the 32-bit structure are 32-bit integers, those of the
    native one have the width of [long]. *)
Definition long_bits (m : data_model) : Z := match m with LP64 => 64 | ILP32 => 32 end.
Definition TIMEVAL32_TO_TIMEVAL (m : data_model) (tv32 : timeval) : timeval :=
  Timeval (wraps (long_bits m) (tv_sec tv32)) (wraps (long_bits m) (tv_usec tv32)).
Definition TIMEVAL_TO_TIMEVAL32 (tv : timeval) : timeval :=
  Timeval (wraps 32 (tv_sec tv)) (wraps 32 (tv_usec tv)).
Definition TIMEVAL_OVERFLOW (tv : timeval) : bool :=
  (tv_sec tv <? TIME32_MIN) || (tv_sec tv >? TIME32_MAX).
Definition ITIMERVAL32_TO_ITIMERVAL (m : data_model) (itv32 : itimerval) : itimerval :=
  Itimerval (TIMEVAL32_TO_TIMEVAL m (it_interval itv32)) (TIMEVAL32_TO_TIMEVAL m (it_value itv32)).
Definition ITIMERVAL_TO_ITIMERVAL32 (itv : itimerval) : itimerval :=
  Itimerval (TIMEVAL_TO_TIMEVAL32 (it_interval itv)) (TIMEVAL_TO_TIMEVAL32 (it_value itv)).
Definition ITIMERVAL_OVERFLOW (itv : itimerval) : bool :=
  TIMEVAL_OVERFLOW (it_interval itv) || TIMEVAL_OVERFLOW (it_value itv).

Definition timerisset (tvp : timeval) : bool := truth (tv_sec tvp) || truth (tv_usec tvp).
(** [cmp] is the operator the caller passes. *)
Definition timercmp (tvp uvp : timeval) (cmp : Z -> Z -> bool) : bool :=
  if tv_sec tvp =? tv_sec uvp then cmp (tv_usec tvp) (tv_usec uvp) else cmp (tv_sec tvp) (tv_sec uvp).
Definition timerclear (tvp : timeval) : timeval := Timeval 0 0.

Definition SEC := 1.
Definition MILLISEC := 1000.
Definition MICROSEC := 1000000.
Definition NANOSEC := 1000000000.

Record todinfo := Todinfo {
  tod_sec : Z; tod_min : Z; tod_hour : Z; tod_dow : Z; tod_day : Z; tod_month : Z; tod_year : Z }.

(** ** Clock ticks *)
Section Ticks.
Context (hz msec_per_tick tick_per_msec usec_per_tick nsec_per_tick : Z).

Definition TICK_TO_SEC (tick : Z) : Z := Z.quot tick hz.
Definition SEC_TO_TICK (sec : Z) : Z := sec * hz.
Definition TICK_TO_MSEC (tick : Z) : Z :=
  if truth msec_per_tick then tick * msec_per_tick else Z.quot tick tick_per_msec.
Definition MSEC_TO_TICK (msec : Z) : Z :=
  if truth msec_per_tick then Z.quot msec msec_per_tick else msec * tick_per_msec.
Definition MSEC_TO_TICK_ROUNDUP (msec : Z) : Z :=
  if truth msec_per_tick then if msec =? 0 then 0 else Z.quot (msec - 1) msec_per_tick + 1
  else msec * tick_per_msec.
Definition TICK_TO_USEC (tick : Z) : Z := tick * usec_per_tick.
Definition USEC_TO_TICK (usec : Z) : Z := Z.quot usec usec_per_tick.
Definition USEC_TO_TICK_ROUNDUP (usec : Z) : Z := if usec =? 0 then 0 else USEC_TO_TICK (usec - 1) + 1.
Definition TICK_TO_NSEC (tick : Z) : Z := tick * nsec_per_tick.
Definition NSEC_TO_TICK (nsec : Z) : Z := Z.quot nsec nsec_per_tick.
Definition NSEC_TO_TICK_ROUNDUP (nsec : Z) : Z := if nsec =? 0 then 0 else NSEC_TO_TICK (nsec - 1) + 1.

Definition TICK_TO_TIMEVAL (tick : Z) : timeval :=
  let sec := TICK_TO_SEC tick in Timeval sec (TICK_TO_USEC (tick - SEC_TO_TICK sec)).
Definition TICK_TO_TIMEVAL32 (tick : Z) : timeval :=
  let tm := TICK_TO_SEC tick in Timeval (wraps 32 tm) (TICK_TO_USEC (tick - SEC_TO_TICK tm)).
Definition TICK_TO_TIMESTRUC (tick : Z) : timestruc :=
  let sec := TICK_TO_SEC tick in Timestruc sec (TICK_TO_NSEC (tick - SEC_TO_TICK sec)).
Definition TICK_TO_TIMESTRUC32 (tick : Z) : timestruc :=
  let tm := TICK_TO_SEC tick in Timestruc (wraps 32 tm) (TICK_TO_NSEC (tick - SEC_TO_TICK tm)).
Definition TIMEVAL_TO_TICK (tvp : timeval) : Z := SEC_TO_TICK (tv_sec tvp) + USEC_TO_TICK (tv_usec tvp).
Definition TIMESTRUC_TO_TICK (tsp : timestruc) : Z := SEC_TO_TICK (ts_sec tsp) + NSEC_TO_TICK (ts_nsec tsp).
End Ticks.

(** ** The 32-bit forms *)
Lemma wraps32_fix x : wraps 32 x = x <-> TIME32_MIN <= x <= TIME32_MAX.
Proof.
  unfold TIME32_MIN, TIME32_MAX. split; intros H.
  - pose proof (wraps_range 32 x ltac:(lia)) as Hr. change (32 - 1) with 31 in Hr. lia.
  - apply wraps_id; [lia|]. change (32 - 1) with 31. lia.
Qed.

Lemma overflow_spec tv : TIMEVAL_OVERFLOW tv = false <-> TIME32_MIN <= tv_sec tv <= TIME32_MAX.
Proof. unfold TIMEVAL_OVERFLOW. rewrite orb_false_iff, Z.ltb_ge, Z.gtb_ltb, Z.ltb_ge. done. Qed.

Lemma timeval32_back m tv :
  TIME32_MIN <= tv_usec tv <= TIME32_MAX ->
  TIMEVAL32_TO_TIMEVAL m (TIMEVAL_TO_TIMEVAL32 tv) = tv <-> TIMEVAL_OVERFLOW tv = false.
Proof.
  intros Hu. rewrite overflow_spec.
  assert (forall x, wraps (long_bits m) (wraps 32 x) = wraps 32 x) as Hw.
  { intros x. pose proof (wraps_range 32 x ltac:(lia)). apply wraps_id; destruct m; cbn in *; lia. }
  unfold TIMEVAL32_TO_TIMEVAL, TIMEVAL_TO_TIMEVAL32. cbn [tv_sec tv_usec]. rewrite !Hw.
  rewrite (proj2 (wraps32_fix (tv_usec tv))) by done. rewrite <- wraps32_fix. destruct tv as [s u]; simpl.
  split; [by intros [=]|by intros ->].
Qed.

(** [TIMEVAL_OVERFLOW] and [ITIMERVAL_OVERFLOW] are the right guards: in
    both data models, converting a time value or an interval timer to its
    32-bit form and back gives it back exactly when they are false. *)
Theorem time32_guards m itv :
  TIME32_MIN <= tv_usec (it_interval itv) <= TIME32_MAX -> TIME32_MIN <= tv_usec (it_value itv) <= TIME32_MAX ->
  (TIMEVAL32_TO_TIMEVAL m (TIMEVAL_TO_TIMEVAL32 (it_value itv)) = it_value itv
   <-> TIMEVAL_OVERFLOW (it_value itv) = false)
  /\ (ITIMERVAL32_TO_ITIMERVAL m (ITIMERVAL_TO_ITIMERVAL32 itv) = itv <-> ITIMERVAL_OVERFLOW itv = false).
Proof.
  intros Hi Hv. split; [by apply timeval32_back|]. unfold ITIMERVAL_OVERFLOW.
  rewrite orb_false_iff, <- !(timeval32_back m) by done. destruct itv as [i v].
  unfold ITIMERVAL32_TO_ITIMERVAL, ITIMERVAL_TO_ITIMERVAL32. cbn [it_interval it_value].
  split; [by intros [=]|by intros [-> ->]].
Qed.

Lemma time32_guards_witness :
  TIMEVAL32_TO_TIMEVAL LP64 (TIMEVAL_TO_TIMEVAL32 (Timeval (2 ^ 31) 0)) = Timeval (2 ^ 31) 0
  <-> TIMEVAL_OVERFLOW (Timeval (2 ^ 31) 0) = false.
Proof.
  apply (time32_guards LP64 (Itimerval (Timeval 0 0) (Timeval (2 ^ 31) 0))); vm_compute; split; discriminate.
Defined.

(** ** Comparison *)
Definition usecs (tv : timeval) : Z := tv_sec tv * MICROSEC + tv_usec tv.
Definition normal (tv : timeval) : Prop := 0 <= tv_usec tv < MICROSEC.

(** [timercmp] compares times: with any of C's comparison operators, on
    values whose microseconds are in range, it is the comparison of the times
    in microseconds; [timerisset] is false only of the zero time. *)
Theorem timercmp_orders t u :
  normal t -> normal u ->
  Forall (fun cmp => timercmp t u cmp = cmp (usecs t) (usecs u))
    [Z.ltb; Z.leb; Z.gtb; Z.geb; Z.eqb; fun x y => negb (x =? y)]
  /\ timerisset t = negb (usecs t =? 0).
Proof.
  unfold normal, usecs, MICROSEC. intros Ht Hu. split.
  - unfold timercmp. repeat apply Forall_cons_2; try apply Forall_nil_2;
      destruct (Z.eqb_spec (tv_sec t) (tv_sec u)); rewrite ?Z.gtb_ltb, ?Z.geb_leb;
      repeat match goal with |- context [?x <? ?y] => destruct (Z.ltb_spec x y)
        | |- context [?x <=? ?y] => destruct (Z.leb_spec x y)
        | |- context [?x =? ?y] => destruct (Z.eqb_spec x y) end; simpl; done || lia.
  - unfold timerisset, truth. destruct (Z.eqb_spec (tv_sec t) 0), (Z.eqb_spec (tv_usec t) 0),
      (Z.eqb_spec (tv_sec t * 1000000 + tv_usec t) 0); simpl; try done; lia.
Qed.

Lemma timercmp_orders_witness :
  timercmp (Timeval 1 999999) (Timeval 2 0) Z.ltb = (usecs (Timeval 1 999999) <? usecs (Timeval 2 0)).
Proof.
  pose proof (timercmp_orders (Timeval 1 999999) (Timeval 2 0) ltac:(unfold normal, MICROSEC; simpl; lia)
    ltac:(unfold normal, MICROSEC; simpl; lia)) as [H _].
  exact (Forall_inv H).
Defined.

(** ** Ticks *)

(** The smallest number of ticks of length [d] that covers [t]. *)
Definition covers_least (d t n : Z) : Prop := t <= n * d /\ forall k, 0 <= k -> t <= k * d -> n <= k.

Lemma roundup_least d t : 0 < d -> 0 <= t -> covers_least d t (if t =? 0 then 0 else Z.quot (t - 1) d + 1).
Proof.
  intros Hd Ht. destruct (Z.eqb_spec t 0) as [->|Hne]; [split; lia|].
  rewrite Z.quot_div_nonneg by lia. pose proof (Z.div_mod (t - 1) d ltac:(lia)).
  pose proof (Z.mod_pos_bound (t - 1) d Hd). split; [nia|]. intros k Hk Hc.
  assert ((t - 1) / d < k); [|lia]. apply Z.div_lt_upper_bound; lia.
Qed.

(** Ticks and time.  Where a second is a whole number of ticks of the
    configured lengths, a tick count converted to a time value or a
    [timestruc] comes back unchanged, and the time value is in range and
    denotes the same time; and the rounding conversions give the least number
    of ticks that covers the time asked for. *)
Theorem tick_conversions hz mpt tpm upt npt tick t :
  0 < hz -> upt * hz = MICROSEC -> npt * hz = NANOSEC -> 0 < mpt -> 0 <= tick -> 0 <= t ->
  TIMEVAL_TO_TICK hz upt (TICK_TO_TIMEVAL hz upt tick) = tick
  /\ TIMESTRUC_TO_TICK hz npt (TICK_TO_TIMESTRUC hz npt tick) = tick
  /\ normal (TICK_TO_TIMEVAL hz upt tick)
  /\ usecs (TICK_TO_TIMEVAL hz upt tick) = TICK_TO_USEC upt tick
  /\ covers_least mpt t (MSEC_TO_TICK_ROUNDUP mpt tpm t)
  /\ covers_least upt t (USEC_TO_TICK_ROUNDUP upt t)
  /\ covers_least npt t (NSEC_TO_TICK_ROUNDUP npt t).
Proof.
  unfold MICROSEC, NANOSEC. intros Hhz Hu Hn Hm Htick Ht. assert (0 < upt /\ 0 < npt) as [Hup Hnp] by nia.
  pose proof (Z.div_mod tick hz ltac:(lia)) as Hdm. pose proof (Z.mod_pos_bound tick hz Hhz) as Hmb.
  unfold TIMEVAL_TO_TICK, TIMESTRUC_TO_TICK, TICK_TO_TIMEVAL, TICK_TO_TIMESTRUC, TICK_TO_SEC, SEC_TO_TICK,
    TICK_TO_USEC, USEC_TO_TICK, TICK_TO_NSEC, NSEC_TO_TICK, normal, usecs. cbn [tv_sec tv_usec ts_sec ts_nsec].
  rewrite Z.quot_div_nonneg by lia. rewrite !Z.quot_mul by lia.
  assert (tick - tick / hz * hz = tick mod hz) as -> by lia. unfold MICROSEC.
  split; [lia|]. split; [lia|]. split; [nia|]. split; [nia|].
  split; [unfold MSEC_TO_TICK_ROUNDUP, truth; rewrite (proj2 (Z.eqb_neq mpt 0)) by lia; by apply roundup_least|].
  split; by apply roundup_least.
Qed.

Lemma tick_conversions_witness :
  TIMEVAL_TO_TICK 100 10000 (TICK_TO_TIMEVAL 100 10000 12345) = 12345.
Proof. apply (tick_conversions 100 10 0 10000 10000000 12345 7); unfold MICROSEC, NANOSEC; lia. Defined.
