(* ===== verification/CTypes.v ===== *)
(** * C types and their layout

    The types the headers declare, as data, and the layout a compiler of the
    System V ABI gives them: size, alignment and the place of every scalar.
    [machine] holds what [sys/isa_defs.h] would define, which is not in the
    tree: the data model, [_LONG_LONG_ALIGNMENT] and
    [_LONG_LONG_ALIGNMENT_32]; what is documented of it is [machine_ok] and
    [kernel_user].  The files [Abi*] hold the structures themselves.

    The theorems: places are aligned, inside the object and do not overlap;
    what is stored into a structure is fetched again; and two declarations with
    the same view exchange values, which is what the [32] structures of the
    64-bit kernel are for. *)
From Stdlib Require Import String Sorting.Sorted.
From S2P Require Import Prelude ByteOrder.
#[local] Open Scope Z_scope.

(** ** Types *)
(** A [double] is taken as its eight octets; [_DOUBLE_ALIGNMENT] is the
    alignment of a [long long] on all the machines. *)
Inductive scalar :=
| Char | UChar | Short | UShort | Int | UInt | Long | ULong | LLong | ULLong
| Pointer | Enum | Double.

(** [Packed4] is [#pragma pack(4)] under the guard
    [_LONG_LONG_ALIGNMENT == 8 && _LONG_LONG_ALIGNMENT_32 == 4]. *)
Inductive packing := Natural | Packed4.

(** [ByModel] is a declaration conditional on [_LP64]. *)
Inductive ctype :=
| Scalar (s : scalar)
| Array (n : Z) (t : ctype)
| Struct (pk : packing) (fs : fields)
| Union (fs : fields)
| ByModel (ilp32 lp64 : ctype)
with fields :=
| Fnil
| Fcons (name : string) (t : ctype) (fs : fields).

Scheme ctype_mind := Induction for ctype Sort Prop
  with fields_mind := Induction for fields Sort Prop.
Combined Scheme ctype_fields_ind from ctype_mind, fields_mind.

Fixpoint fields_of (l : list (string * ctype)) : fields :=
  match l with [] => Fnil | (n, t) :: l => Fcons n t (fields_of l) end.

Declare Scope ctype_scope.
Delimit Scope ctype_scope with ct.
Notation "n :- t" := (n%string, t) (at level 70, t at level 69) : ctype_scope.

Abbreviation char := (Scalar Char).
Abbreviation uchar := (Scalar UChar).
Abbreviation short := (Scalar Short).
Abbreviation ushort := (Scalar UShort).
Abbreviation int := (Scalar Int).
Abbreviation uint := (Scalar UInt).
Abbreviation long := (Scalar Long).
Abbreviation ulong := (Scalar ULong).
Abbreviation llong := (Scalar LLong).
Abbreviation ullong := (Scalar ULLong).
Abbreviation ptr := (Scalar Pointer).
Abbreviation enum := (Scalar Enum).
Abbreviation double := (Scalar Double).
Abbreviation array := Array.
Abbreviation by_model := ByModel.
Definition struct (l : list (string * ctype)) : ctype := Struct Natural (fields_of l).
Definition packed4 (l : list (string * ctype)) : ctype := Struct Packed4 (fields_of l).
Definition union (l : list (string * ctype)) : ctype := Union (fields_of l).

(** ** Machines *)
Record machine := {
  model : data_model;
  _LONG_LONG_ALIGNMENT : Z;
  _LONG_LONG_ALIGNMENT_32 : Z
}.

Definition machine_ok (m : machine) : Prop :=
  (_LONG_LONG_ALIGNMENT m = 4 \/ _LONG_LONG_ALIGNMENT m = 8) /\
  (_LONG_LONG_ALIGNMENT_32 m = 4 \/ _LONG_LONG_ALIGNMENT_32 m = 8).

(** A 64-bit kernel and the 32-bit programs it runs. *)
Definition kernel_user (k u : machine) : Prop :=
  model k = LP64 /\ model u = ILP32 /\ _LONG_LONG_ALIGNMENT k = 8 /\
  _LONG_LONG_ALIGNMENT u = _LONG_LONG_ALIGNMENT_32 k /\
  _LONG_LONG_ALIGNMENT_32 u = _LONG_LONG_ALIGNMENT_32 k /\
  (_LONG_LONG_ALIGNMENT_32 k = 4 \/ _LONG_LONG_ALIGNMENT_32 k = 8).

Definition amd64 : machine :=
  {| model := LP64; _LONG_LONG_ALIGNMENT := 8; _LONG_LONG_ALIGNMENT_32 := 4 |}.
Definition i386 : machine :=
  {| model := ILP32; _LONG_LONG_ALIGNMENT := 4; _LONG_LONG_ALIGNMENT_32 := 4 |}.
Definition sparcv9 : machine :=
  {| model := LP64; _LONG_LONG_ALIGNMENT := 8; _LONG_LONG_ALIGNMENT_32 := 8 |}.
Definition sparcv8 : machine :=
  {| model := ILP32; _LONG_LONG_ALIGNMENT := 8; _LONG_LONG_ALIGNMENT_32 := 8 |}.

Lemma kernel_user_cases k u :
  kernel_user k u -> (k = amd64 /\ u = i386) \/ (k = sparcv9 /\ u = sparcv8).
Proof.
  destruct k, u; unfold kernel_user; simpl; intros (-> & -> & -> & -> & -> & [-> | ->]);
    [left | right]; split; reflexivity.
Qed.

(** ** Size, alignment and places *)
Section Layout.
Context (m : machine).

Definition word_size : Z := match model m with ILP32 => 4 | LP64 => 8 end.

Definition scalar_size (s : scalar) : Z :=
  match s with
  | Char | UChar => 1
  | Short | UShort => 2
  | Int | UInt | Enum => 4
  | Long | ULong | Pointer => word_size
  | LLong | ULLong | Double => 8
  end.

Definition scalar_align (s : scalar) : Z :=
  match s with
  | LLong | ULLong | Double => _LONG_LONG_ALIGNMENT m
  | _ => scalar_size s
  end.

Definition scalar_signed (s : scalar) : bool :=
  match s with Char | Short | Int | Long | LLong | Enum => true | _ => false end.

Definition align_up (x a : Z) : Z := (x + a - 1) / a * a.

Definition pack_4 : bool :=
  (_LONG_LONG_ALIGNMENT m =? 8) && (_LONG_LONG_ALIGNMENT_32 m =? 4).

Definition member_align (pk : packing) (a : Z) : Z :=
  match pk with
  | Natural => a
  | Packed4 => if pack_4 then Z.min a 4 else a
  end.

Fixpoint alignof (t : ctype) : Z :=
  match t with
  | Scalar s => scalar_align s
  | Array _ t => alignof t
  | Struct pk fs => fields_align pk fs
  | Union fs => fields_align Natural fs
  | ByModel t32 t64 => match model m with ILP32 => alignof t32 | LP64 => alignof t64 end
  end
with fields_align (pk : packing) (fs : fields) : Z :=
  match fs with
  | Fnil => 1
  | Fcons _ t fs => Z.max (member_align pk (alignof t)) (fields_align pk fs)
  end.

Definition member_off (pk : packing) (off : Z) (t : ctype) : Z :=
  align_up off (member_align pk (alignof t)).

Fixpoint sizeof (t : ctype) : Z :=
  match t with
  | Scalar s => scalar_size s
  | Array n t => n * sizeof t
  | Struct pk fs => align_up (fields_end pk 0 fs) (fields_align pk fs)
  | Union fs => align_up (fields_max fs) (fields_align Natural fs)
  | ByModel t32 t64 => match model m with ILP32 => sizeof t32 | LP64 => sizeof t64 end
  end
with fields_end (pk : packing) (off : Z) (fs : fields) : Z :=
  match fs with
  | Fnil => off
  | Fcons _ t fs => fields_end pk (member_off pk off t + sizeof t) fs
  end
with fields_max (fs : fields) : Z :=
  match fs with
  | Fnil => 0
  | Fcons _ t fs => Z.max (sizeof t) (fields_max fs)
  end.

(** The way to a scalar inside an object, and the scalar with its offset. *)
Inductive step := Member (n : string) | Index (i : Z).
Record place := { p_path : list step; p_off : Z; p_ty : scalar }.

Fixpoint places (path : list step) (off : Z) (t : ctype) : list place :=
  match t with
  | Scalar s => [{| p_path := path; p_off := off; p_ty := s |}]
  | Array n t =>
      flat_map (fun i => places (path ++ [Index i]) (off + i * sizeof t) t) (seqZ 0 n)
  | Struct pk fs => struct_places pk path off 0 fs
  | Union fs => union_places path off fs
  | ByModel t32 t64 =>
      match model m with ILP32 => places path off t32 | LP64 => places path off t64 end
  end
with struct_places (pk : packing) (path : list step) (base off : Z) (fs : fields) : list place :=
  match fs with
  | Fnil => []
  | Fcons n t fs =>
      let o := member_off pk off t in
      places (path ++ [Member n]) (base + o) t ++
      struct_places pk path base (o + sizeof t) fs
  end
with union_places (path : list step) (off : Z) (fs : fields) : list place :=
  match fs with
  | Fnil => []
  | Fcons n t fs => places (path ++ [Member n]) off t ++ union_places path off fs
  end.

End Layout.

(** ** Soundness of the layout *)
Definition is_align (a : Z) : Prop := a = 1 \/ a = 2 \/ a = 4 \/ a = 8.

Lemma align_up_ge x a : 0 < a -> x <= align_up x a.
Proof. intros. unfold align_up. Z.div_mod_to_equations. nia. Qed.

Lemma align_up_divide x a : (a | align_up x a).
Proof. unfold align_up. apply Z.divide_factor_r. Qed.

Lemma is_align_pos a : is_align a -> 0 < a.
Proof. unfold is_align. lia. Qed.

Lemma is_align_divide a b : is_align a -> is_align b -> a <= b -> (a | b).
Proof.
  intros Ha Hb Hle; destruct Ha as [-> | [-> | [-> | ->]]], Hb as [-> | [-> | [-> | ->]]];
    try lia; apply Z.mod_divide; done || lia.
Qed.

Lemma is_align_max a b : is_align a -> is_align b -> is_align (Z.max a b).
Proof. unfold is_align. lia. Qed.

Section Sound.
Context (m : machine) (Hm : machine_ok m).

(** Types with arrays of a length a C program can write. *)
Fixpoint type_ok (t : ctype) : bool :=
  match t with
  | Scalar _ => true
  | Array n t => (0 <=? n) && type_ok t
  | Struct _ fs | Union fs => fields_ok fs
  | ByModel a b => type_ok a && type_ok b
  end
with fields_ok (fs : fields) : bool :=
  match fs with Fnil => true | Fcons _ t fs => type_ok t && fields_ok fs end.

Lemma scalar_align_ok s : is_align (scalar_align m s).
Proof.
  unfold machine_ok, is_align, scalar_align, scalar_size, word_size in *.
  destruct s, (model m); lia.
Qed.

Lemma scalar_size_pos s : 0 < scalar_size m s.
Proof. unfold scalar_size, word_size. destruct s, (model m); lia. Qed.

Lemma scalar_align_size s : (scalar_align m s | scalar_size m s).
Proof.
  unfold machine_ok, scalar_align, scalar_size, word_size in *.
  destruct s; try apply Z.divide_refl; destruct Hm as [[-> | ->] _];
    apply Z.mod_divide; done.
Qed.

Lemma member_align_ok pk a : is_align a -> is_align (member_align m pk a).
Proof. unfold member_align, is_align. destruct pk, (pack_4 m); lia. Qed.

Lemma alignof_ok :
  (forall t, is_align (alignof m t)) /\ (forall fs pk, is_align (fields_align m pk fs)).
Proof.
  apply ctype_fields_ind; simpl; auto using scalar_align_ok, is_align_max, member_align_ok.
  - intros. by destruct (model m).
  - unfold is_align. lia.
Qed.

Lemma alignof_align t : is_align (alignof m t).
Proof. apply alignof_ok. Qed.

Lemma fields_align_ok pk fs : is_align (fields_align m pk fs).
Proof. apply alignof_ok. Qed.

Lemma fields_align_pos pk fs : 0 < fields_align m pk fs.
Proof. apply is_align_pos, fields_align_ok. Qed.

Lemma member_off_ge pk off t : off <= member_off m pk off t.
Proof. apply align_up_ge, is_align_pos, member_align_ok, alignof_align. Qed.

Lemma sizeof_nonneg :
  (forall t, type_ok t = true -> 0 <= sizeof m t) /\
  (forall fs, fields_ok fs = true ->
     (forall pk off, off <= fields_end m pk off fs) /\ 0 <= fields_max m fs).
Proof.
  apply ctype_fields_ind; simpl; intros.
  - pose proof (scalar_size_pos s). lia.
  - apply andb_prop in H0 as [? ?]. specialize (H H1). nia.
  - destruct (H H0) as [He _]. specialize (He pk 0).
    pose proof (align_up_ge (fields_end m pk 0 fs) _ (fields_align_pos pk fs)). lia.
  - destruct (H H0) as [_ He].
    pose proof (align_up_ge (fields_max m fs) _ (fields_align_pos Natural fs)). lia.
  - apply andb_prop in H1 as [? ?]. destruct (model m); auto.
  - split; [intros; lia | done].
  - apply andb_prop in H1 as [Ht Hf]. specialize (H Ht). destruct (H0 Hf) as [He Hx].
    split; [|lia]. intros pk off. pose proof (member_off_ge pk off t).
    specialize (He pk (member_off m pk off t + sizeof m t)). lia.
Qed.

Lemma sizeof_pos t : type_ok t = true -> 0 <= sizeof m t.
Proof. apply sizeof_nonneg. Qed.

Lemma fields_end_ge pk off fs : fields_ok fs = true -> off <= fields_end m pk off fs.
Proof. intros. by apply sizeof_nonneg. Qed.

Lemma alignof_sizeof : forall t, (alignof m t | sizeof m t).
Proof.
  induction t using ctype_mind with (P0 := fun _ => True); simpl; auto using align_up_divide.
  - apply scalar_align_size.
  - by apply Z.divide_mul_r.
  - by destruct (model m).
Qed.

(** *** Places are inside the object *)
Definition p_end (p : place) : Z := p_off p + scalar_size m (p_ty p).
Definition within (lo hi : Z) (p : place) : Prop := lo <= p_off p /\ p_end p <= hi.

Lemma within_mono lo hi lo' hi' l :
  lo' <= lo -> hi <= hi' -> Forall (within lo hi) l -> Forall (within lo' hi') l.
Proof. intros ? ? H. eapply Forall_impl; [|exact H]. unfold within. simpl. lia. Qed.

Lemma places_within_ind :
  (forall t, type_ok t = true -> forall path off,
     Forall (within off (off + sizeof m t)) (places m path off t)) /\
  (forall fs, fields_ok fs = true ->
     (forall pk path base off,
        Forall (within (base + off) (base + fields_end m pk off fs))
          (struct_places m pk path base off fs)) /\
     (forall path off,
        Forall (within off (off + fields_max m fs)) (union_places m path off fs))).
Proof.
  apply ctype_fields_ind; simpl.
  - intros. repeat constructor; unfold p_end; simpl; lia.
  - intros n t IH [Hn Ht]%andb_prop path off. apply Z.leb_le in Hn.
    apply Forall_flat_map, Forall_forall. intros i Hi%list_elem_of_In%elem_of_seqZ.
    pose proof (sizeof_pos t Ht).
    eapply within_mono; [| |apply IH, Ht]; nia.
  - intros pk fs IH Hf path off. destruct (IH Hf) as [Hs _].
    eapply within_mono; [| |apply Hs]; [lia|].
    pose proof (align_up_ge (fields_end m pk 0 fs) _ (fields_align_pos pk fs)). lia.
  - intros fs IH Hf path off. destruct (IH Hf) as [_ Hu].
    eapply within_mono; [| |apply Hu]; [lia|].
    pose proof (align_up_ge (fields_max m fs) _ (fields_align_pos Natural fs)). lia.
  - intros a IHa b IHb [Ha Hb]%andb_prop path off. destruct (model m); auto.
  - split; constructor.
  - intros n t IHt fs IHf [Ht Hf]%andb_prop. destruct (IHf Hf) as [Hs Hu]. split.
    + intros pk path base off. pose proof (member_off_ge pk off t). apply Forall_app. split.
      * eapply within_mono; [| |apply IHt, Ht]; [lia|].
        pose proof (fields_end_ge pk (member_off m pk off t + sizeof m t) fs Hf). lia.
      * pose proof (sizeof_pos t Ht). eapply within_mono; [| |apply Hs]; lia.
    + intros path off. apply Forall_app.
      split; (eapply within_mono; [| |by auto]); lia.
Qed.

Lemma places_within t path off :
  type_ok t = true -> Forall (within off (off + sizeof m t)) (places m path off t).
Proof. intros. by apply places_within_ind. Qed.

Lemma struct_places_within pk path base off fs :
  fields_ok fs = true ->
  Forall (within (base + off) (base + fields_end m pk off fs))
    (struct_places m pk path base off fs).
Proof. intros. by apply places_within_ind. Qed.

(** *** Without unions, places follow one another *)
Fixpoint union_free (t : ctype) : bool :=
  match t with
  | Scalar _ => true
  | Array _ t => union_free t
  | Struct _ fs => fields_union_free fs
  | Union _ => false
  | ByModel a b => match model m with ILP32 => union_free a | LP64 => union_free b end
  end
with fields_union_free (fs : fields) : bool :=
  match fs with Fnil => true | Fcons _ t fs => union_free t && fields_union_free fs end.

Definition before (a b : place) : Prop := p_end a <= p_off b.
Definition in_order (l : list place) : Prop := StronglySorted before l.

Lemma in_order_app l1 l2 lo x hi :
  in_order l1 -> in_order l2 -> Forall (within lo x) l1 -> Forall (within x hi) l2 ->
  in_order (l1 ++ l2).
Proof.
  intros H1 H2 Hl1 Hl2. induction l1 as [|a l1 IH]; simpl; [done|].
  apply StronglySorted_inv in H1 as [H1 Ha]. apply Forall_cons_1 in Hl1 as [Hw Hl1].
  constructor; [by apply IH|]. apply Forall_app. split; [done|].
  eapply Forall_impl; [|exact Hl2]. unfold within, before in *. simpl. lia.
Qed.

Lemma in_order_elements (f : Z -> list place) (lo : Z -> Z) n : forall start,
  (forall i, start <= i -> in_order (f i) /\ Forall (within (lo i) (lo (i + 1))) (f i) /\
             lo i <= lo (i + 1)) ->
  in_order (flat_map f (seqZ start (Z.of_nat n))) /\
  exists hi, lo start <= hi /\ Forall (within (lo start) hi) (flat_map f (seqZ start (Z.of_nat n))).
Proof.
  induction n as [|n IH]; intros start Hf.
  - simpl. split; [constructor|]. exists (lo start). split; [lia | constructor].
  - rewrite seqZ_cons by lia. replace (Z.pred (Z.of_nat (S n))) with (Z.of_nat n) by lia.
    simpl. destruct (Hf start) as (Ho & Hw & Hle); [lia|].
    replace (Z.succ start) with (start + 1) by lia.
    destruct (IH (start + 1)) as [Hr (hi & Hhi & Hb)].
    { intros i Hi. apply Hf. lia. }
    split; [by eapply in_order_app|].
    exists hi. split; [lia|]. apply Forall_app. split; (eapply within_mono; [| |eassumption]); lia.
Qed.

Lemma places_in_order_ind :
  (forall t, type_ok t = true -> union_free t = true ->
     forall path off, in_order (places m path off t)) /\
  (forall fs, fields_ok fs = true -> fields_union_free fs = true ->
     forall pk path base off, in_order (struct_places m pk path base off fs)).
Proof.
  apply ctype_fields_ind; simpl.
  - intros. repeat constructor.
  - intros n t IH [Hn Ht]%andb_prop Hu path off. apply Z.leb_le in Hn.
    rewrite <- (Z2Nat.id n Hn). apply (in_order_elements _ (fun i => off + i * sizeof m t)).
    intros i Hi. pose proof (sizeof_pos t Ht). split_and!; [by apply IH| |nia].
    eapply within_mono; [| |by apply places_within]; nia.
  - intros pk fs IH Hf Hu path off. by apply IH.
  - done.
  - intros a IHa b IHb [Ha Hb]%andb_prop Hu path off. destruct (model m); auto.
  - constructor.
  - intros n t IHt fs IHf [Ht Hf]%andb_prop [Hut Huf]%andb_prop pk path base off.
    eapply in_order_app; [by apply IHt|by apply IHf|by apply places_within|].
    rewrite <- Z.add_assoc. by apply struct_places_within.
Qed.

Lemma places_in_order t path off :
  type_ok t = true -> union_free t = true -> in_order (places m path off t).
Proof. intros. by apply places_in_order_ind. Qed.

(** *** With unions, the places in use follow one another
    [arm] names the member in use of the union at a path; only its scalars are
    alive. *)
Section Live.
Context (arm : list step -> string).

Fixpoint live (path : list step) (off : Z) (t : ctype) : list place :=
  match t with
  | Scalar s => [{| p_path := path; p_off := off; p_ty := s |}]
  | Array n t =>
      flat_map (fun i => live (path ++ [Index i]) (off + i * sizeof m t) t) (seqZ 0 n)
  | Struct pk fs => struct_live pk path off 0 fs
  | Union fs => union_live path off fs
  | ByModel t32 t64 =>
      match model m with ILP32 => live path off t32 | LP64 => live path off t64 end
  end
with struct_live (pk : packing) (path : list step) (base off : Z) (fs : fields) : list place :=
  match fs with
  | Fnil => []
  | Fcons n t fs =>
      let o := member_off m pk off t in
      live (path ++ [Member n]) (base + o) t ++ struct_live pk path base (o + sizeof m t) fs
  end
with union_live (path : list step) (off : Z) (fs : fields) : list place :=
  match fs with
  | Fnil => []
  | Fcons n t fs =>
      if String.eqb n (arm path) then live (path ++ [Member n]) off t else union_live path off fs
  end.

Lemma live_places_ind :
  (forall t path off, live path off t ⊆ places m path off t) /\
  (forall fs, (forall pk path base off, struct_live pk path base off fs ⊆ struct_places m pk path base off fs)
              /\ forall path off, union_live path off fs ⊆ union_places m path off fs).
Proof.
  apply ctype_fields_ind; simpl; try done.
  - intros n t IH path off p. rewrite !list_elem_of_In, !in_flat_map. intros (i & Hi & Hp).
    exists i. split; [done|]. rewrite <- list_elem_of_In in *. by apply IH.
  - intros pk fs [IH _] path off. apply IH.
  - intros fs [_ IH] path off. apply IH.
  - intros a IHa b IHb path off. by destruct (model m).
  - intros n t IHt fs [IHs IHu]. split; intros; intros p; rewrite ?elem_of_app.
    + intros [H|H]; [left; by apply IHt|right; by apply IHs].
    + destruct (String.eqb n _); intros H; [left; by apply IHt|right; by apply IHu].
Qed.

Lemma Forall_part (P : place -> Prop) l l' : l ⊆ l' -> Forall P l' -> Forall P l.
Proof. rewrite !List.Forall_forall. intros Hs H p. rewrite <- list_elem_of_In. intros Hp. by apply H, list_elem_of_In, Hs. Qed.

Lemma live_within t path off :
  type_ok t = true -> Forall (within off (off + sizeof m t)) (live path off t).
Proof. intros Ht. eapply Forall_part; [apply live_places_ind|by apply places_within]. Qed.

Lemma live_in_order_ind :
  (forall t, type_ok t = true -> forall path off, in_order (live path off t)) /\
  (forall fs, fields_ok fs = true ->
     (forall pk path base off, in_order (struct_live pk path base off fs))
     /\ forall path off, in_order (union_live path off fs)).
Proof.
  apply ctype_fields_ind; simpl.
  - intros. repeat constructor.
  - intros n t IH [Hn Ht]%andb_prop path off. apply Z.leb_le in Hn.
    rewrite <- (Z2Nat.id n Hn). apply (in_order_elements _ (fun i => off + i * sizeof m t)).
    intros i Hi. pose proof (sizeof_pos t Ht). split_and!; [by apply IH| |nia].
    eapply within_mono; [| |by apply live_within]; nia.
  - intros pk fs IH Hf path off. by apply IH.
  - intros fs IH Hf path off. by apply IH.
  - intros a IHa b IHb [Ha Hb]%andb_prop path off. destruct (model m); auto.
  - split; constructor.
  - intros n t IHt fs IHf [Ht Hf]%andb_prop. split.
    + intros pk path base off.
      eapply in_order_app; [by apply IHt|by apply IHf|by apply live_within|].
      rewrite <- Z.add_assoc. eapply Forall_part; [apply live_places_ind|by apply struct_places_within].
    + intros path off. destruct (String.eqb n _); [by apply IHt|by apply IHf].
Qed.

Lemma live_in_order t path off : type_ok t = true -> in_order (live path off t).
Proof. intros. by apply live_in_order_ind. Qed.
End Live.
End Sound.

(** *** Natural alignment *)
Section Aligned.
Context (m : machine) (Hm : machine_ok m).

(** No packing is in force. *)
Fixpoint natural (t : ctype) : bool :=
  match t with
  | Scalar _ => true
  | Array _ t => natural t
  | Struct Natural fs | Union fs => fields_natural fs
  | Struct Packed4 fs => negb (pack_4 m) && fields_natural fs
  | ByModel a b => match model m with ILP32 => natural a | LP64 => natural b end
  end
with fields_natural (fs : fields) : bool :=
  match fs with Fnil => true | Fcons _ t fs => natural t && fields_natural fs end.

Definition aligned (p : place) : Prop := (scalar_align m (p_ty p) | p_off p).

Lemma member_align_natural pk a : (pk = Natural \/ pack_4 m = false) -> member_align m pk a = a.
Proof. unfold member_align. destruct pk, (pack_4 m); intuition congruence. Qed.

Lemma member_divides pk t fs n :
  (pk = Natural \/ pack_4 m = false) ->
  (alignof m t | fields_align m pk (Fcons n t fs)) /\
  (fields_align m pk fs | fields_align m pk (Fcons n t fs)).
Proof.
  intros Hpk. simpl. rewrite member_align_natural by done.
  pose proof (alignof_align m Hm t). pose proof (fields_align_ok m Hm pk fs).
  split; apply is_align_divide; auto using is_align_max; lia.
Qed.

Lemma places_aligned_ind :
  (forall t, natural t = true -> forall path off, (alignof m t | off) ->
     Forall aligned (places m path off t)) /\
  (forall fs, fields_natural fs = true ->
     (forall pk, (pk = Natural \/ pack_4 m = false) -> forall path base off,
        (fields_align m pk fs | base) -> Forall aligned (struct_places m pk path base off fs)) /\
     (forall path off, (fields_align m Natural fs | off) ->
        Forall aligned (union_places m path off fs))).
Proof.
  apply ctype_fields_ind; simpl.
  - intros. by repeat constructor.
  - intros n t IH Hn path off Hd. apply Forall_flat_map, Forall_forall. intros i _.
    apply IH; [done|]. apply Z.divide_add_r; [done|]. apply Z.divide_mul_r, alignof_sizeof, Hm.
  - intros [|] fs IH Hn path off Hd; [by apply IH; auto|].
    apply andb_prop in Hn as [Hp%negb_true_iff Hn]. apply IH; auto.
  - intros fs IH Hn path off Hd. by apply IH.
  - intros a IHa b IHb. destruct (model m); auto.
  - split; constructor.
  - intros n t IHt fs IHf [Ht Hf]%andb_prop. destruct (IHf Hf) as [Hs Hu]. split.
    + intros pk Hpk path base off Hb. destruct (member_divides pk t fs n Hpk) as [H1 H2].
      simpl in *. apply Forall_app. split.
      * apply IHt; [done|]. apply Z.divide_add_r; [by etrans|].
        unfold member_off. rewrite member_align_natural by done. apply align_up_divide.
      * apply Hs; [done|]. by etrans.
    + intros path off Hb. destruct (member_divides Natural t fs n) as [H1 H2]; [by left|].
      simpl in *. apply Forall_app. split; [apply IHt | apply Hu]; try done; by etrans.
Qed.

Lemma places_aligned t path off :
  natural t = true -> (alignof m t | off) -> Forall aligned (places m path off t).
Proof. intros. by apply places_aligned_ind. Qed.
End Aligned.

(** ** Values in memory *)
Section Memory.
Context (e : endian) (m : machine).

Definition place_at (p : place) : nat := Z.to_nat (p_off p).
Definition octets_of (s : scalar) : nat := Z.to_nat (scalar_size m s).

(** The values a scalar can have. *)
Definition holds (s : scalar) (v : Z) : Prop :=
  let w := 8 * scalar_size m s in
  if scalar_signed s then - 2 ^ (w - 1) <= v < 2 ^ (w - 1) else 0 <= v < 2 ^ w.

Definition value_of (s : scalar) (bs : list Z) : Z :=
  let x := of_le (match e with LittleEndian => bs | BigEndian => rev bs end) in
  if scalar_signed s then wraps (8 * scalar_size m s) x else x.

Definition load_place (mem : list Z) (p : place) : option (list step * Z) :=
  bs ← rds mem (place_at p) (octets_of (p_ty p)); Some (p_path p, value_of (p_ty p) bs).

Definition store_place (mem : list Z) (p : place) (v : Z) : option (list Z) :=
  wrs mem (place_at p) (native_bytes e (octets_of (p_ty p)) v).

Fixpoint store_places (ps : list place) (vs : list Z) (mem : list Z) : option (list Z) :=
  match ps, vs with
  | [], [] => Some mem
  | p :: ps, v :: vs => mem ← store_place mem p v; store_places ps vs mem
  | _, _ => None
  end.

(** The object at the start of [mem] seen through the type [t], and the
    assignment of values to all its scalars. *)
Definition fetch (t : ctype) (mem : list Z) : option (list (list step * Z)) :=
  mapM (load_place mem) (places m [] 0 t).
Definition store (t : ctype) (vs : list Z) (mem : list Z) : option (list Z) :=
  store_places (places m [] 0 t) vs mem.
End Memory.

Section MemoryLemmas.
Context (e : endian) (m : machine).

Lemma octets_of_size s : Z.of_nat (octets_of m s) = scalar_size m s.
Proof. unfold octets_of. pose proof (scalar_size_pos m s). lia. Qed.

Lemma native_bytes_length n v : length (native_bytes e n v) = n.
Proof. destruct e; simpl; rewrite ?length_rev; apply le_bytes_length. Qed.

Lemma value_of_native s v :
  holds m s v -> value_of e m s (native_bytes e (octets_of m s) v) = v.
Proof.
  unfold holds, value_of. intros Hv.
  assert (H : of_le (match e with LittleEndian => native_bytes e (octets_of m s) v
                | BigEndian => rev (native_bytes e (octets_of m s) v) end)
              = wrapu (8 * scalar_size m s) v).
  { unfold wrapu. rewrite <- octets_of_size.
    destruct e; simpl; rewrite ?rev_involutive; apply of_le_le_bytes. }
  rewrite H. pose proof (scalar_size_pos m s). destruct (scalar_signed s).
  - rewrite wraps_wrapu by lia. apply wraps_id; lia.
  - by apply wrapu_id.
Qed.

Lemma store_places_keeps ps vs mem mem' (x : Z) :
  store_places e m ps vs mem = Some mem' -> Forall (fun p => x <= p_off p) ps ->
  length mem' = length mem /\
  forall i, Z.of_nat i < x -> mem' !! i = mem !! i.
Proof.
  revert vs mem. induction ps as [|p ps IH]; intros [|v vs] mem; simpl; try done.
  { by intros [= ->]. }
  destruct (store_place e m mem p v) as [m1|] eqn:E; [|done]. simpl.
  intros H [Hp Hps]%Forall_cons_1. destruct (IH _ _ H Hps) as [Hl Hi].
  unfold store_place in E. split; [rewrite Hl; by eapply wrs_length|].
  intros i Hx. rewrite Hi by done. eapply wrs_lookup_ne; [exact E|].
  left. unfold place_at. lia.
Qed.

Lemma load_stored mem p v mem' :
  0 <= p_off p -> p_end m p <= Z.of_nat (length mem) -> holds m (p_ty p) v ->
  store_place e m mem p v = Some mem' ->
  load_place e m mem' p = Some (p_path p, v).
Proof.
  intros H0 Hend Hv Hs. unfold store_place in Hs. unfold load_place.
  rewrite <- (native_bytes_length (octets_of m (p_ty p)) v) at 1.
  pose proof (octets_of_size (p_ty p)). unfold p_end in *.
  erewrite rds_wrs; [|exact Hs|rewrite native_bytes_length; unfold place_at; lia].
  simpl. by rewrite value_of_native.
Qed.

Lemma store_place_in mem p v :
  0 <= p_off p -> p_end m p <= Z.of_nat (length mem) ->
  exists mem', store_place e m mem p v = Some mem' /\ length mem' = length mem.
Proof.
  intros H0 Hend. unfold store_place.
  pose proof (octets_of_size (p_ty p)). unfold p_end in *.
  destruct (wrs mem (place_at p) (native_bytes e (octets_of m (p_ty p)) v)) as [m1|] eqn:E.
  - exists m1. split; [done|]. by eapply wrs_length.
  - rewrite wrs_in in E; [done|]. rewrite native_bytes_length. unfold place_at. lia.
Qed.

Lemma fetch_store_places ps vs mem :
  in_order m ps -> Forall (within m 0 (Z.of_nat (length mem))) ps ->
  Forall2 (fun p v => holds m (p_ty p) v) ps vs ->
  exists mem', store_places e m ps vs mem = Some mem' /\ length mem' = length mem /\
    mapM (load_place e m mem') ps = Some (zip (map p_path ps) vs).
Proof.
  intros Ho Hw Hv. revert mem Ho Hw. induction Hv as [|p v ps vs Hp Hv IH]; intros mem Ho Hw.
  { by exists mem. }
  apply StronglySorted_inv in Ho as [Ho Hb]. apply Forall_cons_1 in Hw as [[H0 Hend] Hw].
  destruct (store_place_in mem p v H0 Hend) as (m1 & E1 & L1).
  destruct (IH m1) as (m2 & E2 & L2 & F2); [done|by rewrite L1|].
  exists m2. simpl. rewrite E1. simpl. split_and!; [done|lia|].
  destruct (store_places_keeps _ _ _ _ (p_end m p) E2 Hb) as [_ Hk].
  assert (load_place e m m2 p = load_place e m m1 p) as ->.
  { unfold load_place. erewrite rds_ext; [done|]. intros i Hi. apply Hk.
    pose proof (octets_of_size (p_ty p)). unfold p_end, place_at in *. lia. }
  erewrite load_stored by eauto. simpl. by rewrite F2.
Qed.
End MemoryLemmas.

(** ** Views
    What a declaration says of the memory: size, and for every scalar its
    path, place, size and sign. *)
Definition spot (m : machine) (p : place) : list step * Z * Z * bool :=
  (p_path p, p_off p, scalar_size m (p_ty p), scalar_signed (p_ty p)).
Definition view (m : machine) (t : ctype) : Z * list (list step * Z * Z * bool) :=
  (sizeof m t, map (spot m) (places m [] 0 t)).

Lemma load_place_spot e k u p q mem :
  spot k p = spot u q -> load_place e k mem p = load_place e u mem q.
Proof.
  destruct p as [pp po pt], q as [qp qo qt]. unfold spot. simpl. intros [= -> -> Hz Hs].
  unfold load_place, octets_of, value_of, place_at. simpl. by rewrite Hz, Hs.
Qed.

Lemma fetch_view e k u t t' mem :
  view k t = view u t' -> fetch e k t mem = fetch e u t' mem.
Proof.
  unfold view, fetch. intros [= _ H]. revert H. generalize (places k [] 0 t) as ps.
  generalize (places u [] 0 t') as qs.
  induction qs as [|q qs IH]; intros [|p ps]; simpl; try done.
  intros [Hpq H]%cons_eq_inj. rewrite (load_place_spot e k u p q) by done. by rewrite (IH ps).
Qed.

(** ** Checking tables of declarations *)
#[local] Instance string_eq_dec : EqDecision string := String.string_dec.
#[export] Instance step_eq_dec : EqDecision step.
Proof. solve_decision. Defined.

(** All the machines there can be. *)
Definition machines : list machine :=
  d ← [ILP32; LP64]; a ← [4; 8]; b ← [4; 8];
  [{| model := d; _LONG_LONG_ALIGNMENT := a; _LONG_LONG_ALIGNMENT_32 := b |}].

Lemma machine_listed m : machine_ok m -> In m machines.
Proof.
  destruct m as [[] a b]; unfold machine_ok; simpl; intros [[-> | ->] [-> | ->]]; tauto.
Qed.

Lemma kernel_user_ok k u : kernel_user k u -> machine_ok k /\ machine_ok u.
Proof. intros [[-> ->] | [-> ->]]%kernel_user_cases; unfold machine_ok; simpl; lia. Qed.

Definition same_view (k u : machine) (p : ctype * ctype) : bool :=
  bool_decide (view k p.1 = view u p.2) && type_ok p.1 && type_ok p.2.

Definition views_check (l : list (ctype * ctype)) : bool :=
  forallb (same_view amd64 i386) l && forallb (same_view sparcv9 sparcv8) l.

Definition formats_check (l : list ctype) : bool :=
  forallb (fun m => forallb (fun t => same_view m i386 (t, t)) l) machines.

Lemma same_view_spec k u t t' :
  same_view k u (t, t') = true ->
  view k t = view u t' /\ type_ok t = true /\ type_ok t' = true.
Proof.
  unfold same_view. intros [[H%bool_decide_eq_true ?]%andb_prop ?]%andb_prop. done.
Qed.

Lemma views_check_spec l k u t t' :
  views_check l = true -> kernel_user k u -> In (t, t') l -> 
  view k t = view u t' /\ type_ok t = true /\ type_ok t' = true.
Proof.
  intros [H1 H2]%andb_prop Hku Hin. rewrite forallb_forall in H1, H2.
  apply same_view_spec. destruct (kernel_user_cases k u Hku) as [[-> ->] | [-> ->]]; auto.
Qed.

Lemma views_check_app l l' :
  views_check l = true -> views_check l' = true -> views_check (l ++ l') = true.
Proof.
  unfold views_check. rewrite !forallb_app.
  intros [-> ->]%andb_prop [-> ->]%andb_prop. done.
Qed.

Lemma formats_check_spec l m m' t :
  formats_check l = true -> machine_ok m -> machine_ok m' -> In t l ->
  view m t = view m' t /\ type_ok t = true.
Proof.
  unfold formats_check. rewrite forallb_forall. intros H Hm Hm' Hin.
  assert (forall x, machine_ok x -> view x t = view i386 t /\ type_ok t = true) as Hx.
  { intros x Hx%machine_listed%H. rewrite forallb_forall in Hx.
    apply Hx, same_view_spec in Hin. tauto. }
  destruct (Hx m Hm) as [-> ?], (Hx m' Hm') as [-> ?]. done.
Qed.

Lemma formats_check_app l l' :
  formats_check l = true -> formats_check l' = true -> formats_check (l ++ l') = true.
Proof.
  unfold formats_check. rewrite !forallb_forall. intros H H' x Hx.
  rewrite forallb_app, (H x Hx), (H' x Hx). done.
Qed.
