(* ===== verification/BitFields.v ===== *)
(** * Bit fields

    Structures of bit fields, and the position of a field in the integer that
    holds it: from the low end where the headers define [_BIT_FIELDS_LTOH]
    (little-endian machines) and from the high end where they define
    [_BIT_FIELDS_HTOL].  A structure of bit fields is laid out as the integers
    its fields are allocated in. *)
From Stdlib Require Import String.
From S2P Require Import Prelude ByteOrder CTypes.
#[local] Open Scope Z_scope.

(** Fields of one declared type, in the order of the declaration. *)
Record bitfields := Bitfields { bf_base : scalar; bf_list : list (string * Z) }.

Definition base_bits (s : scalar) : Z :=
  match s with Char | UChar => 8 | Short | UShort => 16 | _ => 32 end.

(** Allocation: a field that does not fit into the rest of its integer opens
    the next one.  The result gives integer, first bit and length. *)
Fixpoint allocate (w unit used : Z) (l : list (string * Z)) : list (string * (Z * Z * Z)) :=
  match l with
  | [] => []
  | (n, len) :: l =>
      if used + len <=? w
      then (n, (unit, used, len)) :: allocate w unit (used + len) l
      else (n, (unit + 1, 0, len)) :: allocate w (unit + 1) len l
  end.

Definition units (b : bitfields) : Z :=
  List.last (map (fun f => f.2.1.1 + 1) (allocate (base_bits (bf_base b)) 0 0 (bf_list b))) 0.

(** The layout of the structure. *)
Definition bits (b : bitfields) : ctype := Array (units b) (Scalar (bf_base b)).

Fixpoint assoc {A} (n : string) (l : list (string * A)) : option A :=
  match l with
  | [] => None
  | (k, x) :: l => if String.eqb k n then Some x else assoc n l
  end.

(** Integer, lowest bit and length of a field; [None] if there is none of the
    name, which a compiler rejects. *)
Definition bit_place (e : endian) (b : bitfields) (n : string) : option (Z * Z * Z) :=
  '(u, start, len) ← assoc n (allocate (base_bits (bf_base b)) 0 0 (bf_list b));
  Some (u, match e with LittleEndian => start | BigEndian => base_bits (bf_base b) - start - len end,
        len).

Definition field_get (pos len w : Z) : Z := (w >>> pos) .& Z.ones len.
Definition field_put (pos len w v : Z) : Z :=
  (w .& .~ (Z.ones len <<< pos)) .| ((v .& Z.ones len) <<< pos).

(** Reading and assigning a field of the first integer, whose value is [w]. *)
Definition bget (e : endian) (b : bitfields) (n : string) (w : Z) : option Z :=
  '(u, pos, len) ← bit_place e b n; if u =? 0 then Some (field_get pos len w) else None.
Definition bput (e : endian) (b : bitfields) (n : string) (w v : Z) : option Z :=
  '(u, pos, len) ← bit_place e b n; if u =? 0 then Some (field_put pos len w v) else None.

Section Fields.
Context (pos len : Z) (Hpos : 0 <= pos) (Hlen : 0 <= len).

Lemma field_get_testbit w i :
  Z.testbit (field_get pos len w) i = (0 <=? i) && (i <? len) && Z.testbit w (i + pos).
Proof.
  unfold field_get. rewrite Z.land_spec, ones_testbit by lia.
  destruct (Z.leb_spec 0 i).
  - rewrite Z.shiftr_spec by lia. simpl. apply andb_comm.
  - rewrite Z.testbit_neg_r by lia. done.
Qed.

Lemma field_put_testbit w v i :
  Z.testbit (field_put pos len w v) i =
  if (pos <=? i) && (i <? pos + len) then Z.testbit v (i - pos) else Z.testbit w i.
Proof.
  unfold field_put. destruct (Z.ltb_spec i 0) as [Hn|Hn].
  { rewrite !Z.testbit_neg_r by lia. by destruct (_ && _). }
  rewrite Z.lor_spec, Z.land_spec, Z.lnot_spec, !Z.shiftl_spec, Z.land_spec by lia.
  rewrite !ones_testbit by lia.
  destruct (Z.leb_spec pos i), (Z.leb_spec 0 (i - pos)), (Z.ltb_spec (i - pos) len),
    (Z.ltb_spec i (pos + len)); try lia; simpl; rewrite ?andb_true_r, ?andb_false_r, ?orb_false_r;
    try done; by rewrite Z.testbit_neg_r by lia.
Qed.

Lemma field_get_put w v : field_get pos len (field_put pos len w v) = wrapu len v.
Proof.
  apply Z.bits_inj'. intros i Hi.
  rewrite field_get_testbit, field_put_testbit, wrapu_testbit by lia.
  replace (i + pos - pos) with i by lia.
  destruct (Z.leb_spec 0 i), (Z.ltb_spec i len), (Z.leb_spec pos (i + pos)),
    (Z.ltb_spec (i + pos) (pos + len)); try lia; done.
Qed.

End Fields.


(** Fields that do not overlap keep their values. *)
Lemma field_get_put_other pos len pos' len' w v :
  0 <= pos -> 0 <= len -> 0 <= pos' -> 0 <= len' ->
  (pos' + len' <= pos \/ pos + len <= pos') ->
  field_get pos' len' (field_put pos len w v) = field_get pos' len' w.
Proof.
  intros. apply Z.bits_inj'. intros i Hi.
  rewrite !field_get_testbit, field_put_testbit by lia.
  destruct (Z.leb_spec 0 i), (Z.ltb_spec i len'), (Z.leb_spec pos (i + pos')),
    (Z.ltb_spec (i + pos') (pos + len)); try lia; done.
Qed.

(** A field put into a word of [n] bits leaves a word of [n] bits. *)
Lemma field_put_range n pos len w v :
  0 <= pos -> 0 <= len -> pos + len <= n -> in_u n w -> in_u n (field_put pos len w v).
Proof.
  intros Hp Hl Hn Hw. apply in_u_iff_bits.
  - lia.
  - unfold field_put. apply Z.lor_nonneg. split.
    + apply Z.land_nonneg. left. apply Hw.
    + apply Z.shiftl_nonneg, Z.land_nonneg. right. rewrite Z.ones_equiv.
      pose proof (pow2_pos len Hl). lia.
  - intros i Hi. rewrite field_put_testbit by lia.
    destruct (Z.leb_spec pos i), (Z.ltb_spec i (pos + len)); try lia; simpl;
      by apply (in_u_testbit n).
Qed.
