(* ===== verification/Segments.v ===== *)
(** * Segment descriptors and selectors of x86: sys/segments.h

    The descriptors of [src/include/sys/segments.h] are structures of bit-fields,
    declared in words of 32 bits for i386 and of 64 bits for amd64, with macros
    that spread the base and the limit of a segment over several fields.  A
    descriptor is here the number its octets make on this little-endian machine;
    the place of each field follows from the declaration ([BitFields.allocate]).
    An assignment to a field keeps the low bits of the value. *)
From Stdlib Require Import String.
From stdpp Require Import sets.
From S2P Require Import Prelude BitFields.
#[local] Open Scope string_scope.
#[local] Open Scope Z_scope.

Inductive isa := i386 | amd64.
#[export] Instance isa_eq_dec : EqDecision isa.
Proof. solve_decision. Defined.
(** The width of the declared type of the fields. *)
Definition unit_bits (a : isa) : Z := match a with i386 => 32 | amd64 => 64 end.

(** ** Descriptors *)
Definition user_desc (a : isa) : list (string * Z) :=
  [("usd_lolimit", 16); ("usd_lobase", 16); ("usd_midbase", 8); ("usd_type", 5); ("usd_dpl", 2); ("usd_p", 1);
   ("usd_hilimit", 4); ("usd_avl", 1); (match a with i386 => "usd_reserved" | amd64 => "usd_long" end, 1);
   ("usd_def32", 1); ("usd_gran", 1); ("usd_hibase", 8)].
Definition system_desc (a : isa) : list (string * Z) :=
  [("ssd_lolimit", 16); ("ssd_lobase", 16); ("ssd_midbase", 8); ("ssd_type", 4);
   (match a with i386 => "ssd_zero" | amd64 => "ssd_zero1" end, 1); ("ssd_dpl", 2); ("ssd_p", 1); ("ssd_hilimit", 4); ("ssd_avl", 1);
   (match a with i386 => "ssd_reserved" | amd64 => "ssd_resv1" end, 2); ("ssd_gran", 1); ("ssd_hibase", 8)]
  ++ match a with
     | i386 => []
     | amd64 => [("ssd_hi64base", 32); ("ssd_resv2", 8); ("ssd_zero2", 5); ("ssd_resv3", 19)]
     end.
Definition gate_desc (a : isa) : list (string * Z) :=
  match a with
  | i386 => [("sgd_looffset", 16); ("sgd_selector", 16); ("sgd_stkcpy", 5); ("sgd_resv", 3); ("sgd_type", 5); ("sgd_dpl", 2);
             ("sgd_p", 1); ("sgd_hioffset", 16)]
  | amd64 => [("sgd_looffset", 16); ("sgd_selector", 16); ("sgd_ist", 3); ("sgd_resv1", 5); ("sgd_type", 5); ("sgd_dpl", 2);
              ("sgd_p", 1); ("sgd_hioffset", 16); ("sgd_hi64offset", 32); ("sgd_resv2", 8); ("sgd_zero", 5); ("sgd_resv3", 19)]
  end.

(** First bit and length of a field, and its value and assignment in the
    descriptor [d]. *)
Definition field_place (a : isa) (desc : isa -> list (string * Z)) (n : string) : option (Z * Z) :=
  '(u, start, len) ← assoc n (allocate (unit_bits a) 0 0 (desc a)); Some (u * unit_bits a + start, len).
Definition get (a : isa) (desc : isa -> list (string * Z)) (d : Z) (n : string) : option Z :=
  '(pos, len) ← field_place a desc n; Some (field_get pos len d).
Definition put (a : isa) (desc : isa -> list (string * Z)) (d : Z) (n : string) (v : Z) : option Z :=
  '(pos, len) ← field_place a desc n; Some (field_put pos len d v).

(** The fields are narrower than [int] and are promoted to it, so the value is an
    [int] and the shift of [usd_hibase] reaches its sign bit; it is taken as the
    wrap-around of the compilers. *)
Definition USEGD_GETBASE (a : isa) (usd : Z) : option Z :=
  lo ← get a user_desc usd "usd_lobase"; mid ← get a user_desc usd "usd_midbase"; hi ← get a user_desc usd "usd_hibase";
  Some (lo .| s32 (mid <<< 16) .| s32 (hi <<< (16 + 8))).
Definition USEGD_SETBASE (a : isa) (usd b : Z) : option Z :=
  usd ← put a user_desc usd "usd_lobase" b; usd ← put a user_desc usd "usd_midbase" (b >>> 16);
  put a user_desc usd "usd_hibase" (b >>> (16 + 8)).
Definition USEGD_GETLIMIT (a : isa) (usd : Z) : option Z :=
  lo ← get a user_desc usd "usd_lolimit"; hi ← get a user_desc usd "usd_hilimit"; Some (lo .| hi <<< 16).
Definition USEGD_SETLIMIT (a : isa) (usd lim : Z) : option Z :=
  usd ← put a user_desc usd "usd_lolimit" lim; put a user_desc usd "usd_hilimit" (lim >>> 16).
Definition SYSSEGD_SETLIMIT (a : isa) (ssd lim : Z) : option Z :=
  ssd ← put a system_desc ssd "ssd_lolimit" lim; put a system_desc ssd "ssd_hilimit" (lim >>> 16).
(** The macro of i386.  That of amd64 shifts a field of 32 bits by 32, which C
    leaves undefined where such a field is promoted by its width. *)
Definition GATESEG_GETOFFSET (sgd : Z) : option Z :=
  lo ← get i386 gate_desc sgd "sgd_looffset"; hi ← get i386 gate_desc sgd "sgd_hioffset"; Some (lo .| s32 (hi <<< 16)).

(** ** Selectors *)
Definition IDXTOSEL (s : Z) : Z := s <<< 3.
Definition SEL_GDT (s r : Z) : Z := IDXTOSEL s .| r.
Definition SELTOIDX (s : Z) : Z := s >>> 3.
Definition SEL_KPL := 0.
Definition SEL_UPL := 3.
Definition SEL_TI_LDT := 4.
Definition CPL_MASK := 3.
Definition SEL_LDT (s : Z) : Z := IDXTOSEL s .| SEL_TI_LDT .| SEL_UPL.
Definition SELISLDT (s : Z) : bool := s .& SEL_TI_LDT =? SEL_TI_LDT.
Definition SELISUPL (s : Z) : bool := s .& CPL_MASK =? SEL_UPL.

(** Entries of the global table; [None] where the architecture has no such
    entry. *)
Inductive gdt_entry :=
  | GDT_NULL | GDT_B32DATA | GDT_B32CODE | GDT_B64DATA | GDT_B64CODE | GDT_BOOTFLAT | GDT_BOOTCODE | GDT_BOOTCODE16 | GDT_BOOTDATA
  | GDT_KCODE | GDT_KDATA | GDT_U32CODE | GDT_UDATA | GDT_UCODE | GDT_LDT | GDT_KTSS | GDT_DBFLT | GDT_FS | GDT_GS | GDT_LWPFS | GDT_LWPGS.
#[export] Instance gdt_entry_eq_dec : EqDecision gdt_entry.
Proof. solve_decision. Defined.
Definition gdt_index (a : isa) (e : gdt_entry) : option Z :=
  match a, e with
  | _, GDT_NULL => Some 0
  | amd64, GDT_B32DATA => Some 1 | amd64, GDT_B32CODE => Some 2 | amd64, GDT_B64DATA => Some 3 | amd64, GDT_B64CODE => Some 4
  | amd64, GDT_KCODE => Some 5 | amd64, GDT_KDATA => Some 6 | amd64, GDT_U32CODE => Some 7 | amd64, GDT_UDATA => Some 8
  | amd64, GDT_UCODE => Some 9 | amd64, GDT_LDT => Some 10 | amd64, GDT_KTSS => Some 12 | amd64, GDT_FS => Some 0 | amd64, GDT_GS => Some 0
  | i386, GDT_BOOTFLAT => Some 1 | i386, GDT_BOOTCODE => Some 2 | i386, GDT_BOOTCODE16 => Some 3 | i386, GDT_BOOTDATA => Some 4
  | i386, GDT_LDT => Some 40 | i386, GDT_KTSS => Some 42 | i386, GDT_KCODE => Some 43 | i386, GDT_KDATA => Some 44
  | i386, GDT_UCODE => Some 45 | i386, GDT_UDATA => Some 46 | i386, GDT_DBFLT => Some 47 | i386, GDT_FS => Some 53 | i386, GDT_GS => Some 54
  | _, GDT_LWPFS => Some 55 | _, GDT_LWPGS => Some 56
  | _, _ => None
  end.
Definition NGDT (a : isa) : Z := match a with amd64 => 58 | i386 => 90 end.
(** The selectors the kernel and its processes load, each made of an entry and
    a privilege level. *)
Inductive selector :=
  KCS_SEL | KDS_SEL | UCS_SEL | U32CS_SEL | UDS_SEL | ULDT_SEL | KTSS_SEL | DFTSS_SEL | KFS_SEL | KGS_SEL | LWPFS_SEL | LWPGS_SEL
  | B64CODE_SEL | BOOTCODE_SEL | BOOTFLAT_SEL.
Definition sel_parts (s : selector) : gdt_entry * Z :=
  match s with
  | KCS_SEL => (GDT_KCODE, SEL_KPL) | KDS_SEL => (GDT_KDATA, SEL_KPL) | UCS_SEL => (GDT_UCODE, SEL_UPL) | U32CS_SEL => (GDT_U32CODE, SEL_UPL)
  | UDS_SEL => (GDT_UDATA, SEL_UPL) | ULDT_SEL => (GDT_LDT, SEL_KPL) | KTSS_SEL => (GDT_KTSS, SEL_KPL) | DFTSS_SEL => (GDT_DBFLT, SEL_KPL)
  | KFS_SEL => (GDT_NULL, SEL_KPL) | KGS_SEL => (GDT_GS, SEL_KPL) | LWPFS_SEL => (GDT_LWPFS, SEL_UPL) | LWPGS_SEL => (GDT_LWPGS, SEL_UPL)
  | B64CODE_SEL => (GDT_B64CODE, SEL_KPL) | BOOTCODE_SEL => (GDT_BOOTCODE, SEL_KPL) | BOOTFLAT_SEL => (GDT_BOOTFLAT, SEL_KPL)
  end.
Definition sel_value (a : isa) (s : selector) : option Z :=
  let '(e, r) := sel_parts s in i ← gdt_index a e; Some (SEL_GDT i r).

(** ** Fields of a descriptor *)

(** The places of all fields, as pairs of first bit and length. *)
Definition fields_of (a : isa) (desc : isa -> list (string * Z)) : list (string * (Z * Z)) :=
  map (fun '(n, (u, start, len)) => (n, (u * unit_bits a + start, len))) (allocate (unit_bits a) 0 0 (desc a)).
Lemma place_listed a desc n p : field_place a desc n = Some p -> (n, p) ∈ fields_of a desc.
Proof.
  unfold field_place, fields_of. generalize (allocate (unit_bits a) 0 0 (desc a)). intros l.
  induction l as [|[k [[u s] len]] l IH]; simpl; [done|]. destruct (String.eqb_spec k n) as [->|].
  - intros [= <-]. apply list_elem_of_here.
  - intros H. by apply list_elem_of_further, IH.
Qed.

(** Two fields of a descriptor are the same or apart, checked for all of them. *)
Definition apart (p q : Z * Z) : bool := (p.1 + p.2 <=? q.1) || (q.1 + q.2 <=? p.1).
Definition fields_apart (size : Z) (l : list (string * (Z * Z))) : bool :=
  forallb (fun x => (0 <=? x.2.1) && (0 <? x.2.2) && (x.2.1 + x.2.2 <=? size)
                    && forallb (fun y => String.eqb x.1 y.1 || apart x.2 y.2) l) l.
Definition desc_bits (a : isa) (desc : isa -> list (string * Z)) : Z := foldr Z.add 0 (snd <$> desc a).

Section Fields.
Context (a : isa) (desc : isa -> list (string * Z)) (Hd : fields_apart (desc_bits a desc) (fields_of a desc) = true).

Lemma place_range n pos len : field_place a desc n = Some (pos, len) -> 0 <= pos /\ 0 < len /\ pos + len <= desc_bits a desc.
Proof.
  intros H%place_listed. unfold fields_apart in Hd. rewrite forallb_forall in Hd. apply list_elem_of_In in H. specialize (Hd _ H). simpl in Hd.
  rewrite !andb_true_iff in Hd. destruct Hd as [[[H1%Z.leb_le H2%Z.ltb_lt] H3%Z.leb_le] _]. done.
Qed.
Lemma place_apart n k p q : field_place a desc n = Some p -> field_place a desc k = Some q -> n <> k -> apart p q = true.
Proof.
  intros Hn%place_listed Hk%place_listed Hne. apply list_elem_of_In in Hn, Hk. unfold fields_apart in Hd. rewrite forallb_forall in Hd.
  specialize (Hd _ Hn). simpl in Hd. rewrite !andb_true_iff in Hd. destruct Hd as [_ H]. rewrite forallb_forall in H.
  specialize (H _ Hk). simpl in H. apply orb_true_iff in H as [E|E]; [|done]. by apply String.eqb_eq in E.
Qed.

(** An assignment stores the low bits in its field and keeps the others. *)
Lemma put_get d n v pos len : field_place a desc n = Some (pos, len) ->
  exists d', put a desc d n v = Some d' /\ get a desc d' n = Some (wrapu len v)
    /\ (forall k, k <> n -> get a desc d' k = get a desc d k) /\ (in_u (desc_bits a desc) d -> in_u (desc_bits a desc) d').
Proof.
  intros H. destruct (place_range _ _ _ H) as (H1 & H2 & H3). exists (field_put pos len d v). unfold put, get. rewrite H. simpl. split_and!.
  - done.
  - by rewrite field_get_put by lia.
  - intros k Hk. destruct (field_place a desc k) as [[pos' len']|] eqn:E; [|done]. simpl. destruct (place_range _ _ _ E) as (? & ? & ?).
    pose proof (place_apart _ _ _ _ E H Hk) as Ha. unfold apart in Ha. simpl in Ha. apply orb_true_iff in Ha. rewrite !Z.leb_le in Ha.
    by rewrite field_get_put_other by lia.
  - intros Hr. apply field_put_range; [lia..|done].
Qed.
End Fields.

Lemma user_apart a : fields_apart (desc_bits a user_desc) (fields_of a user_desc) = true.
Proof. by destruct a. Qed.
Lemma system_apart a : fields_apart (desc_bits a system_desc) (fields_of a system_desc) = true.
Proof. by destruct a. Qed.
Lemma gate_apart a : fields_apart (desc_bits a gate_desc) (fields_of a gate_desc) = true.
Proof. by destruct a. Qed.

(** The parts of a number put together again. *)
Lemma join_parts n m v : 0 <= n -> 0 <= m -> wrapu n v .| wrapu m (v >>> n) <<< n = wrapu (n + m) v.
Proof. intros Hn Hm. zbits; replace (i - n + n) with i by lia; destruct (Z.testbit v i); zcases; done. Qed.

(** The bits of a signed number of [w] bits: those of the number, and from the last
    one on the sign. *)
Lemma signed_bits w z i : 0 < w -> - 2 ^ (w - 1) <= z < 2 ^ (w - 1) -> w - 1 <= i -> Z.testbit z i = (z <? 0).
Proof.
  intros Hw Hz Hi. destruct (Z.ltb_spec z 0).
  - assert (in_u (w - 1) (.~ z)) as Hn by (unfold in_u, Z.lnot; lia).
    pose proof (in_u_testbit (w - 1) _ i Hn ltac:(lia)) as E. rewrite Z.lnot_spec in E by lia. by apply negb_false_iff in E.
  - apply (in_u_testbit (w - 1)); [unfold in_u; lia|lia].
Qed.
Lemma wraps_bits w x i : 0 < w -> 0 <= i -> Z.testbit (wraps w x) i = Z.testbit x (Z.min i (w - 1)).
Proof.
  intros Hw Hi. assert (forall j, 0 <= j < w -> Z.testbit (wraps w x) j = Z.testbit x j) as Hlow.
  { intros j Hj. pose proof (f_equal (fun y => Z.testbit y j) (wrapu_wraps w x Hw)) as E. simpl in E.
    rewrite !wrapu_testbit in E by lia. rewrite (proj2 (Z.ltb_lt j w)) in E by lia. by destruct (Z.testbit (wraps w x) j), (Z.testbit x j). }
  destruct (Z.ltb_spec i w); [rewrite Hlow by lia; f_equal; lia|]. rewrite Z.min_r by lia. rewrite <- Hlow by lia.
  pose proof (wraps_range w x Hw). by rewrite !(signed_bits w) by lia.
Qed.
Lemma s32_lor x y : s32 (x .| y) = s32 x .| s32 y.
Proof. apply Z.bits_inj'. intros i Hi. by rewrite Z.lor_spec, !wraps_bits, Z.lor_spec by lia. Qed.
Lemma s32_id x : 0 <= x < 2 ^ 31 -> s32 x = x.
Proof. intros Hx. apply wraps_id; lia. Qed.

(** Two assignments to different fields. *)
Lemma put_put a desc d n v p k w q : fields_apart (desc_bits a desc) (fields_of a desc) = true ->
  field_place a desc n = Some p -> field_place a desc k = Some q -> n <> k ->
  exists d', (d1 ← put a desc d n v; put a desc d1 k w) = Some d' /\ get a desc d' n = Some (wrapu p.2 v) /\ get a desc d' k = Some (wrapu q.2 w)
    /\ (forall j, j <> n -> j <> k -> get a desc d' j = get a desc d j) /\ (in_u (desc_bits a desc) d -> in_u (desc_bits a desc) d').
Proof.
  destruct p as [p1 p2], q as [q1 q2]. intros Ha Hp Hq Hne. destruct (put_get a desc Ha d n v _ _ Hp) as (d1 & -> & G1 & F1 & R1).
  destruct (put_get a desc Ha d1 k w _ _ Hq) as (d2 & E2 & G2 & F2 & R2). exists d2. simpl. rewrite E2. split_and!; [done| |done| |auto].
  - rewrite F2 by done. done.
  - intros j Hj Hk. rewrite F2, F1 by done. done.
Qed.

Definition base_fields := ["usd_lobase"; "usd_midbase"; "usd_hibase"].
Lemma set_base a d v : exists d', USEGD_SETBASE a d v = Some d' /\ USEGD_GETBASE a d' = Some (s32 v)
  /\ (forall k, k ∉ base_fields -> get a user_desc d' k = get a user_desc d k) /\ (in_u 64 d -> in_u 64 d').
Proof.
  destruct (put_put a user_desc d "usd_lobase" v (16, 16) "usd_midbase" (v >>> 16) (32, 8) (user_apart a)) as (d1 & E1 & G1 & G2 & F1 & R1); [by destruct a..|done|].
  destruct (put_get a user_desc (user_apart a) d1 "usd_hibase" (v >>> (16 + 8)) 56 8) as (d2 & E2 & G3 & F2 & R2); [by destruct a|].
  exists d2. unfold USEGD_SETBASE, USEGD_GETBASE. apply bind_Some in E1 as (d0 & -> & E1). simpl. rewrite E1. simpl. split; [done|].
  rewrite (F2 "usd_lobase"), G1, (F2 "usd_midbase"), G2, G3 by done. simpl. split_and!.
  - assert (in_u 16 (wrapu 16 v)) as Hlo by (apply wrapu_range; lia). unfold in_u in Hlo.
    rewrite <- (s32_id (wrapu 16 v)) by lia. rewrite <- !s32_lor, (join_parts 16 8 v) by lia. change (16 + 8) with 24.
    rewrite (join_parts 24 8 v) by lia. by rewrite wraps_wrapu.
  - intros k Hk. rewrite F2, F1 by (unfold base_fields in Hk; set_solver). done.
  - destruct a; simpl in *; auto.
Qed.

Definition limit_fields := ["usd_lolimit"; "usd_hilimit"].
Lemma set_limit a d v : exists d', USEGD_SETLIMIT a d v = Some d' /\ USEGD_GETLIMIT a d' = Some (wrapu 20 v)
  /\ (forall k, k ∉ limit_fields -> get a user_desc d' k = get a user_desc d k) /\ (in_u 64 d -> in_u 64 d').
Proof.
  destruct (put_put a user_desc d "usd_lolimit" v (0, 16) "usd_hilimit" (v >>> 16) (48, 4) (user_apart a)) as (d1 & E1 & G1 & G2 & F1 & R1); [by destruct a..|done|].
  exists d1. unfold USEGD_SETLIMIT, USEGD_GETLIMIT. rewrite E1, G1, G2. simpl. split_and!; [done| | |destruct a; simpl in *; auto].
  - by rewrite (join_parts 16 4 v) by lia.
  - intros k Hk. apply F1; unfold limit_fields in Hk; set_solver.
Qed.

(** C36: the base and the limit of a segment.  On both architectures
    [USEGD_SETBASE] stores the low 32 bits of an address so that [USEGD_GETBASE]
    returns them as an [int]: the address itself below [2 ^ 31], and the negative
    number with the same 32 bits from there on; [USEGD_SETLIMIT] stores the low 20
    bits of a limit so that [USEGD_GETLIMIT] returns them; neither changes the other,
    nor any other field of the descriptor, nor makes it longer than 64 bits; and the
    two kernels store the same bits, so that a descriptor made by one is read by the
    other. *)
Theorem segment_descriptors a d v :
  (exists d', USEGD_SETBASE a d v = Some d' /\ USEGD_GETBASE a d' = Some (s32 v) /\ u32 (s32 v) = u32 v /\ (0 <= v < 2 ^ 31 -> s32 v = v)
     /\ USEGD_GETLIMIT a d' = USEGD_GETLIMIT a d
     /\ (forall k, k ∉ base_fields -> get a user_desc d' k = get a user_desc d k) /\ (in_u 64 d -> in_u 64 d'))
  /\ (exists d', USEGD_SETLIMIT a d v = Some d' /\ USEGD_GETLIMIT a d' = Some (wrapu 20 v) /\ USEGD_GETBASE a d' = USEGD_GETBASE a d
     /\ (forall k, k ∉ limit_fields -> get a user_desc d' k = get a user_desc d k) /\ (in_u 64 d -> in_u 64 d'))
  /\ USEGD_SETBASE i386 d v = USEGD_SETBASE amd64 d v /\ USEGD_SETLIMIT i386 d v = USEGD_SETLIMIT amd64 d v
  /\ USEGD_GETBASE i386 d = USEGD_GETBASE amd64 d /\ USEGD_GETLIMIT i386 d = USEGD_GETLIMIT amd64 d.
Proof.
  split; [|split; [|done]].
  - destruct (set_base a d v) as (d' & ? & ? & F & ?). exists d'. split_and!; try done; [by apply wrapu_wraps|apply s32_id|].
    unfold USEGD_GETLIMIT, base_fields in *. rewrite !F by set_solver. done.
  - destruct (set_limit a d v) as (d' & ? & ? & F & ?). exists d'. split_and!; try done. unfold USEGD_GETBASE, limit_fields in *.
    rewrite !F by set_solver. done.
Qed.

Lemma segment_descriptors_witness :
  (exists d, USEGD_SETBASE i386 0 0x12345678 = Some d /\ USEGD_GETBASE i386 d = Some 0x12345678)
  /\ exists d, USEGD_SETBASE amd64 0 0xfec00000 = Some d /\ USEGD_GETBASE amd64 d = Some (0xfec00000 - 2 ^ 32).
Proof.
  split.
  - destruct (segment_descriptors i386 0 0x12345678) as [(d & H1 & H2 & _) _]. exists d. split; [exact H1|exact H2].
  - destruct (segment_descriptors amd64 0 0xfec00000) as [(d & H1 & H2 & _) _]. exists d. split; [exact H1|exact H2].
Defined.

(** What a system descriptor and a gate hold: [SYSSEGD_SETLIMIT] stores the
    low 20 bits of a limit and nothing else, and [GATESEG_GETOFFSET] joins
    the parts of an offset, as an [int]. *)
Theorem system_descriptors a d v :
  (exists d', SYSSEGD_SETLIMIT a d v = Some d'
     /\ get a system_desc d' "ssd_lolimit" = Some (u16 v) /\ get a system_desc d' "ssd_hilimit" = Some (wrapu 4 (v >>> 16))
     /\ forall k, k <> "ssd_lolimit" -> k <> "ssd_hilimit" -> get a system_desc d' k = get a system_desc d k)
  /\ (get i386 gate_desc d "sgd_looffset" = Some (u16 v) -> get i386 gate_desc d "sgd_hioffset" = Some (u16 (v >>> 16)) ->
      GATESEG_GETOFFSET d = Some (s32 v)).
Proof.
  split.
  - destruct (put_put a system_desc d "ssd_lolimit" v (0, 16) "ssd_hilimit" (v >>> 16) (48, 4) (system_apart a)) as (d1 & E1 & G1 & G2 & F1 & _);
      [by destruct a..|done|]. exists d1. unfold SYSSEGD_SETLIMIT. split_and!; done.
  - intros H1 H2. unfold GATESEG_GETOFFSET. rewrite H1, H2. cbn [mbind option_bind].
    assert (in_u 16 (u16 v)) as Hlo by (apply wrapu_range; lia). unfold in_u in Hlo.
    rewrite <- (s32_id (u16 v)) by lia. rewrite <- s32_lor, (join_parts 16 16 v) by lia. change (16 + 16) with 32. by rewrite wraps_wrapu.
Qed.
Lemma system_descriptors_witness : GATESEG_GETOFFSET (0x1122 .| 0x3344 <<< 48) = Some 0x33441122.
Proof. apply (system_descriptors i386 _ 0x33441122); by vm_compute. Defined.

(** ** Selectors *)
Definition entries : list gdt_entry :=
  [GDT_NULL; GDT_B32DATA; GDT_B32CODE; GDT_B64DATA; GDT_B64CODE; GDT_BOOTFLAT; GDT_BOOTCODE; GDT_BOOTCODE16; GDT_BOOTDATA;
   GDT_KCODE; GDT_KDATA; GDT_U32CODE; GDT_UDATA; GDT_UCODE; GDT_LDT; GDT_KTSS; GDT_DBFLT; GDT_FS; GDT_GS; GDT_LWPFS; GDT_LWPGS].
(** How many slots of the table an entry takes: descriptors of 16 octets are
    those of system segments on amd64. *)
Definition slots (a : isa) (e : gdt_entry) : Z :=
  match a, e with amd64, (GDT_LDT | GDT_KTSS) => 2 | _, _ => 1 end.
(** Entries that are the null descriptor. *)
Definition is_null (a : isa) (e : gdt_entry) : bool :=
  match a, e with _, GDT_NULL | amd64, (GDT_FS | GDT_GS) => true | _, _ => false end.
Definition table_ok (a : isa) : bool :=
  forallb (fun e => match gdt_index a e with
    | Some i => (0 <=? i) && (i + slots a e <=? NGDT a) && (i mod slots a e =? 0) && (is_null a e || (0 <? i))
                && forallb (fun f => match gdt_index a f with
                     | Some j => bool_decide (e = f) || (is_null a e && is_null a f) || (i + slots a e <=? j) || (j + slots a f <=? i)
                     | None => true end) entries
    | None => true end) entries.

Lemma sel_parts_of s r : 0 <= s < 8192 -> 0 <= r < 8 -> SEL_GDT s r = s * 8 + r.
Proof. intros Hs Hr. unfold SEL_GDT, IDXTOSEL. rewrite Z.lor_comm, (lor_shift_add 3) by (unfold in_u; lia). lia. Qed.
Lemma sel_index s r : 0 <= s < 8192 -> 0 <= r < 8 -> SELTOIDX (SEL_GDT s r) = s.
Proof.
  intros Hs Hr. rewrite sel_parts_of by done. unfold SELTOIDX. rewrite Z.shiftr_div_pow2 by lia. change (2 ^ 3) with 8.
  rewrite Z.add_comm, Z_div_plus_full, Z.div_small by lia. done.
Qed.
(** The tests look at the low three bits. *)
Lemma sel_low s r k : 0 <= s < 8192 -> 0 <= r < 8 -> 0 <= k < 8 -> SEL_GDT s r .& k = r .& k.
Proof.
  intros Hs Hr Hk. unfold SEL_GDT, IDXTOSEL. apply Z.bits_inj'. intros i Hi. rewrite !Z.land_spec, Z.lor_spec, shiftl_testbit.
  destruct (Z.ltb_spec i 3); [rewrite (testbit_neg s) by lia; by rewrite andb_false_r|].
  rewrite (in_u_testbit 3 k) by (unfold in_u; lia). by rewrite !andb_false_r.
Qed.

(** Selectors and the global table.  A selector of any index and
    privilege is 16 bits wide and gives its index, its table and its privilege
    back; in the table of either architecture every entry lies inside, no two
    overlap but those that are null, the system descriptors of amd64 have two slots
    at an even index, and the entries for %fs and %gs of a thread are the same in
    both kernels. *)
Theorem segment_selectors s r : 0 <= s < 8192 -> 0 <= r < 4 ->
  (in_u 16 (SEL_GDT s r) /\ SELTOIDX (SEL_GDT s r) = s /\ SELISLDT (SEL_GDT s r) = false /\ SELISUPL (SEL_GDT s r) = (r =? SEL_UPL))
  /\ (in_u 16 (SEL_LDT s) /\ SELTOIDX (SEL_LDT s) = s /\ SELISLDT (SEL_LDT s) = true /\ SELISUPL (SEL_LDT s) = true)
  /\ table_ok i386 = true /\ table_ok amd64 = true
  /\ gdt_index i386 GDT_LWPFS = gdt_index amd64 GDT_LWPFS /\ gdt_index i386 GDT_LWPGS = gdt_index amd64 GDT_LWPGS
  /\ sel_value i386 LWPFS_SEL = sel_value amd64 LWPFS_SEL /\ sel_value i386 LWPGS_SEL = sel_value amd64 LWPGS_SEL.
Proof.
  intros Hs Hr. assert (SEL_LDT s = SEL_GDT s 7) as HL by (unfold SEL_LDT, SEL_GDT; by rewrite <- Z.lor_assoc).
  split; [|split; [rewrite HL|by vm_compute]]; unfold SELISLDT, SELISUPL, SEL_TI_LDT, CPL_MASK, SEL_UPL; rewrite !sel_low by lia;
    (split; [rewrite sel_parts_of by lia; unfold in_u; lia|split; [apply sel_index; lia|]]); [|done].
  assert (r = 0 \/ r = 1 \/ r = 2 \/ r = 3) as [->|[->|[->| ->]]] by lia; done.
Qed.
Lemma segment_selectors_witness : SELTOIDX (SEL_GDT 45 3) = 45 /\ sel_value i386 UCS_SEL = Some (SEL_GDT 45 3).
Proof. destruct (segment_selectors 45 3) as [(_ & H & _) _]; [lia|lia|]. split; [exact H|by vm_compute]. Defined.
