(* ===== verification/AbiTypes.v ===== *)
(** * Types of the system headers

    The scalar types, constants and structures that the structures of more than
    one of the files [Abi*] are made of. *)
From Stdlib Require Import String.
From S2P Require Import Prelude ByteOrder CTypes.
#[local] Open Scope Z_scope.
#[local] Open Scope ctype_scope.


(** [netinet/sctp.h] *)
Definition sctp_assoc_t : ctype := int.

(** [sys/dklabel.h] *)
(** The labels of x86 disks ([_SUNOS_VTOC_16]) and those of SPARC disks
    ([_SUNOS_VTOC_8]). *)
Definition NDKMAP : Z := 16.
Definition NDKMAP_8 : Z := 8.
Definition LEN_DKL_ASCII : Z := 128.
Definition LEN_DKL_VVOL : Z := 8.

(** [sys/elftypes.h] *)
Definition Elf32_Addr : ctype := by_model ulong uint.
Definition Elf32_Word : ctype := by_model ulong uint.

(** [sys/ethernet.h] *)
Definition ETHERADDRL : Z := 6.

(** [sys/int_types.h] *)
Definition int8_t : ctype := char.
Definition int16_t : ctype := short.
Definition int32_t : ctype := int.
Definition int64_t : ctype := by_model llong long.
Definition uint8_t : ctype := uchar.
Definition uint16_t : ctype := ushort.
Definition uint32_t : ctype := uint.
Definition uint64_t : ctype := by_model ullong ulong.
Definition uintptr_t : ctype := by_model uint ulong.

(** [sys/socket_impl.h] *)
Definition sa_family_t : ctype := uint16_t.

(** [sys/time.h] *)
Definition suseconds_t : ctype := long.

(** [sys/types.h] *)
Definition longlong_t : ctype := llong.

(** [sys/time.h] *)
Definition hrtime_t : ctype := longlong_t.

(** [sys/types.h] *)
Definition time_t : ctype := long.

(** [sys/time_impl.h] *)
Definition timespec : ctype :=
  struct ["tv_sec" :- time_t;
     "tv_nsec" :- long].
Definition timestruc_t : ctype := timespec.

(** [sys/types.h] *)
Definition u_longlong_t : ctype := ullong.
Definition t_scalar_t : ctype := by_model long int32_t.
Definition t_uscalar_t : ctype := by_model ulong uint32_t.
Definition uchar_t : ctype := uchar.
Definition ushort_t : ctype := ushort.
Definition uint_t : ctype := uint.
Definition ulong_t : ctype := ulong.
Definition caddr_t : ctype := ptr.
Definition daddr_t : ctype := long.
Definition pgcnt_t : ctype := ulong_t.
Definition off_t : ctype := long.
Definition off64_t : ctype := by_model longlong_t off_t.
Definition ino_t : ctype := ulong_t.
Definition blkcnt_t : ctype := long.
Definition fsblkcnt_t : ctype := ulong_t.
Definition fsfilcnt_t : ctype := ulong_t.
Definition ino64_t : ctype := by_model u_longlong_t ino_t.
Definition fsblkcnt64_t : ctype := by_model u_longlong_t fsblkcnt_t.
Definition fsfilcnt64_t : ctype := by_model u_longlong_t fsfilcnt_t.
Definition blksize_t : ctype := by_model long int.
Definition boolean_t : ctype := enum.
Definition offset_t : ctype := longlong_t.
Definition u_offset_t : ctype := u_longlong_t.
Definition diskaddr_t : ctype := u_longlong_t.
Definition id_t : ctype := by_model long int.
Definition major_t : ctype := by_model ulong_t uint_t.
Definition minor_t : ctype := by_model ulong_t uint_t.
Definition o_mode_t : ctype := ushort_t.
Definition o_dev_t : ctype := short.
Definition o_uid_t : ctype := ushort_t.
Definition o_gid_t : ctype := o_uid_t.
Definition key_t : ctype := int.
Definition mode_t : ctype := by_model ulong_t uint_t.
Definition uid_t : ctype := by_model long int.
Definition gid_t : ctype := uid_t.
Definition taskid_t : ctype := id_t.
Definition projid_t : ctype := id_t.
Definition poolid_t : ctype := id_t.
Definition zoneid_t : ctype := id_t.
Definition ctid_t : ctype := id_t.
Definition dev_t : ctype := ulong_t.
Definition nlink_t : ctype := by_model ulong_t uint_t.
Definition pid_t : ctype := by_model long int.
Definition size_t : ctype := by_model uint_t ulong_t.
Definition ssize_t : ctype := by_model int long.
Definition clock_t : ctype := long.

(** [sys/types32.h] *)
Definition caddr32_t : ctype := uint32_t.
Definition daddr32_t : ctype := int32_t.
Definition off32_t : ctype := int32_t.
Definition ino32_t : ctype := uint32_t.
Definition blkcnt32_t : ctype := int32_t.
Definition fsblkcnt32_t : ctype := uint32_t.
Definition fsfilcnt32_t : ctype := uint32_t.
Definition id32_t : ctype := int32_t.
Definition major32_t : ctype := uint32_t.
Definition minor32_t : ctype := uint32_t.
Definition key32_t : ctype := int32_t.
Definition mode32_t : ctype := uint32_t.
Definition uid32_t : ctype := int32_t.
Definition gid32_t : ctype := int32_t.
Definition nlink32_t : ctype := uint32_t.
Definition dev32_t : ctype := uint32_t.
Definition pid32_t : ctype := int32_t.
Definition size32_t : ctype := uint32_t.
Definition ssize32_t : ctype := int32_t.
Definition time32_t : ctype := int32_t.
Definition clock32_t : ctype := int32_t.
Definition timespec32 : ctype :=
  struct ["tv_sec" :- time32_t;
     "tv_nsec" :- int32_t].
Definition timestruc32_t : ctype := timespec32.
