(* ===== verification/Abi32Crypto.v ===== *)
(** * Structures of the cryptographic framework

    The arguments of the ioctls of [sys/crypto/ioctl.h] and [sys/crypto/ioctladmin.h] with the declarations a
    64-bit kernel uses for 32-bit callers. *)
From Stdlib Require Import String.
From S2P Require Import Prelude ByteOrder CTypes AbiTypes.
#[local] Open Scope Z_scope.
#[local] Open Scope ctype_scope.


(** [gssapi/gssapi.h] *)
Definition gss_uint32 : ctype := uint.
Definition OM_uint32 : ctype := gss_uint32.
Definition gss_OID_desc_struct : ctype :=
  struct ["length" :- OM_uint32;
     "elements" :- ptr].
Definition gss_OID_desc_struct32 : ctype :=
  struct ["length" :- OM_uint32;
     "elements" :- caddr32_t].

(** [sys/crypto/common.h] *)
Definition CRYPTO_MAX_MECH_NAME : Z := 32.
Definition crypto_mech_name_t : ctype := (array CRYPTO_MAX_MECH_NAME char).
Definition crypto_mech_type_t : ctype := uint64_t.
Definition crypto_mechanism : ctype :=
  struct ["cm_type" :- crypto_mech_type_t;
     "cm_param" :- caddr_t;
     "cm_param_len" :- size_t].
Definition crypto_key_format_t : ctype := enum.
Definition crypto_attr_type_t : ctype := uint64_t.
Definition crypto_object_id_t : ctype := uint32_t.
Definition crypto_object_attribute : ctype :=
  struct ["oa_type" :- crypto_attr_type_t;
     "oa_value" :- caddr_t;
     "oa_value_len" :- ssize_t].
Definition crypto_key : ctype :=
  struct ["ck_format" :- crypto_key_format_t;
     "cku_data" :- (union ["cku_key_value" :- (struct ["cku_v_length" :- uint_t; "cku_v_data" :- ptr]);
       "cku_key_id" :- crypto_object_id_t;
       "cku_key_attrs" :- (struct ["cku_a_count" :- uint_t; "cku_a_oattr" :- ptr])])].
Definition crypto_provider_id_t : ctype := uint32_t.
Definition crypto_provider_entry : ctype :=
  struct ["pe_provider_id" :- crypto_provider_id_t;
     "pe_mechanism_count" :- uint_t].
Definition crypto_version : ctype :=
  struct ["cv_major" :- uchar_t;
     "cv_minor" :- uchar_t].
Definition crypto_session_id_t : ctype := uint_t.

(** [sys/crypto/ioctl.h] *)
Definition crypto_get_mechanism_number : ctype :=
  struct ["pn_return_value" :- uint_t;
     "pn_mechanism_string" :- caddr_t;
     "pn_mechanism_len" :- size_t;
     "pn_internal_number" :- crypto_mech_type_t].
Definition crypto_get_mechanism_number32 : ctype :=
  packed4 ["pn_return_value" :- uint32_t;
     "pn_mechanism_string" :- caddr32_t;
     "pn_mechanism_len" :- size32_t;
     "pn_internal_number" :- crypto_mech_type_t].
Definition crypto_login : ctype :=
  struct ["co_return_value" :- uint_t;
     "co_session" :- crypto_session_id_t;
     "co_user_type" :- uint_t;
     "co_pin_len" :- uint_t;
     "co_pin" :- caddr_t].
Definition crypto_logout : ctype :=
  struct ["cl_return_value" :- uint_t;
     "cl_session" :- crypto_session_id_t].
Definition crypto_login32 : ctype :=
  struct ["co_return_value" :- uint32_t;
     "co_session" :- crypto_session_id_t;
     "co_user_type" :- uint32_t;
     "co_pin_len" :- uint32_t;
     "co_pin" :- caddr32_t].
Definition crypto_logout32 : ctype :=
  struct ["cl_return_value" :- uint32_t;
     "cl_session" :- crypto_session_id_t].
Definition crypto_encrypt : ctype :=
  struct ["ce_return_value" :- uint_t;
     "ce_session" :- crypto_session_id_t;
     "ce_datalen" :- size_t;
     "ce_databuf" :- caddr_t;
     "ce_encrlen" :- size_t;
     "ce_encrbuf" :- caddr_t].
Definition crypto_encrypt_init : ctype :=
  struct ["ei_return_value" :- uint_t;
     "ei_session" :- crypto_session_id_t;
     "ei_mech" :- crypto_mechanism;
     "ei_key" :- crypto_key].
Definition crypto_encrypt_update : ctype :=
  struct ["eu_return_value" :- uint_t;
     "eu_session" :- crypto_session_id_t;
     "eu_datalen" :- size_t;
     "eu_databuf" :- caddr_t;
     "eu_encrlen" :- size_t;
     "eu_encrbuf" :- caddr_t].
Definition crypto_encrypt_final : ctype :=
  struct ["ef_return_value" :- uint_t;
     "ef_session" :- crypto_session_id_t;
     "ef_encrlen" :- size_t;
     "ef_encrbuf" :- caddr_t].
Definition crypto_decrypt : ctype :=
  struct ["cd_return_value" :- uint_t;
     "cd_session" :- crypto_session_id_t;
     "cd_encrlen" :- size_t;
     "cd_encrbuf" :- caddr_t;
     "cd_datalen" :- size_t;
     "cd_databuf" :- caddr_t].
Definition crypto_decrypt_init : ctype :=
  struct ["di_return_value" :- uint_t;
     "di_session" :- crypto_session_id_t;
     "di_mech" :- crypto_mechanism;
     "di_key" :- crypto_key].
Definition crypto_decrypt_update : ctype :=
  struct ["du_return_value" :- uint_t;
     "du_session" :- crypto_session_id_t;
     "du_encrlen" :- size_t;
     "du_encrbuf" :- caddr_t;
     "du_datalen" :- size_t;
     "du_databuf" :- caddr_t].
Definition crypto_decrypt_final : ctype :=
  struct ["df_return_value" :- uint_t;
     "df_session" :- crypto_session_id_t;
     "df_datalen" :- size_t;
     "df_databuf" :- caddr_t].
Definition crypto_digest : ctype :=
  struct ["cd_return_value" :- uint_t;
     "cd_session" :- crypto_session_id_t;
     "cd_datalen" :- size_t;
     "cd_databuf" :- caddr_t;
     "cd_digestlen" :- size_t;
     "cd_digestbuf" :- caddr_t].
Definition crypto_digest_init : ctype :=
  struct ["di_return_value" :- uint_t;
     "di_session" :- crypto_session_id_t;
     "di_mech" :- crypto_mechanism].
Definition crypto_digest_update : ctype :=
  struct ["du_return_value" :- uint_t;
     "du_session" :- crypto_session_id_t;
     "du_datalen" :- size_t;
     "du_databuf" :- caddr_t].
Definition crypto_digest_key : ctype :=
  struct ["dk_return_value" :- uint_t;
     "dk_session" :- crypto_session_id_t;
     "dk_key" :- crypto_key].
Definition crypto_digest_final : ctype :=
  struct ["df_return_value" :- uint_t;
     "df_session" :- crypto_session_id_t;
     "df_digestlen" :- size_t;
     "df_digestbuf" :- caddr_t].
Definition crypto_mac : ctype :=
  struct ["cm_return_value" :- uint_t;
     "cm_session" :- crypto_session_id_t;
     "cm_datalen" :- size_t;
     "cm_databuf" :- caddr_t;
     "cm_maclen" :- size_t;
     "cm_macbuf" :- caddr_t].
Definition crypto_mac_init : ctype :=
  struct ["mi_return_value" :- uint_t;
     "mi_session" :- crypto_session_id_t;
     "mi_mech" :- crypto_mechanism;
     "mi_key" :- crypto_key].
Definition crypto_mac_update : ctype :=
  struct ["mu_return_value" :- uint_t;
     "mu_session" :- crypto_session_id_t;
     "mu_datalen" :- size_t;
     "mu_databuf" :- caddr_t].
Definition crypto_mac_final : ctype :=
  struct ["mf_return_value" :- uint_t;
     "mf_session" :- crypto_session_id_t;
     "mf_maclen" :- size_t;
     "mf_macbuf" :- caddr_t].
Definition crypto_sign : ctype :=
  struct ["cs_return_value" :- uint_t;
     "cs_session" :- crypto_session_id_t;
     "cs_datalen" :- size_t;
     "cs_databuf" :- caddr_t;
     "cs_signlen" :- size_t;
     "cs_signbuf" :- caddr_t].
Definition crypto_sign_init : ctype :=
  struct ["si_return_value" :- uint_t;
     "si_session" :- crypto_session_id_t;
     "si_mech" :- crypto_mechanism;
     "si_key" :- crypto_key].
Definition crypto_sign_update : ctype :=
  struct ["su_return_value" :- uint_t;
     "su_session" :- crypto_session_id_t;
     "su_datalen" :- size_t;
     "su_databuf" :- caddr_t].
Definition crypto_sign_final : ctype :=
  struct ["sf_return_value" :- uint_t;
     "sf_session" :- crypto_session_id_t;
     "sf_signlen" :- size_t;
     "sf_signbuf" :- caddr_t].
Definition crypto_sign_recover_init : ctype :=
  struct ["ri_return_value" :- uint_t;
     "ri_session" :- crypto_session_id_t;
     "ri_mech" :- crypto_mechanism;
     "ri_key" :- crypto_key].
Definition crypto_sign_recover : ctype :=
  struct ["sr_return_value" :- uint_t;
     "sr_session" :- crypto_session_id_t;
     "sr_datalen" :- size_t;
     "sr_databuf" :- caddr_t;
     "sr_signlen" :- size_t;
     "sr_signbuf" :- caddr_t].
Definition crypto_verify : ctype :=
  struct ["cv_return_value" :- uint_t;
     "cv_session" :- crypto_session_id_t;
     "cv_datalen" :- size_t;
     "cv_databuf" :- caddr_t;
     "cv_signlen" :- size_t;
     "cv_signbuf" :- caddr_t].
Definition crypto_verify_init : ctype :=
  struct ["vi_return_value" :- uint_t;
     "vi_session" :- crypto_session_id_t;
     "vi_mech" :- crypto_mechanism;
     "vi_key" :- crypto_key].
Definition crypto_verify_update : ctype :=
  struct ["vu_return_value" :- uint_t;
     "vu_session" :- crypto_session_id_t;
     "vu_datalen" :- size_t;
     "vu_databuf" :- caddr_t].
Definition crypto_verify_final : ctype :=
  struct ["vf_return_value" :- uint_t;
     "vf_session" :- crypto_session_id_t;
     "vf_signlen" :- size_t;
     "vf_signbuf" :- caddr_t].
Definition crypto_verify_recover_init : ctype :=
  struct ["ri_return_value" :- uint_t;
     "ri_session" :- crypto_session_id_t;
     "ri_mech" :- crypto_mechanism;
     "ri_key" :- crypto_key].
Definition crypto_verify_recover : ctype :=
  struct ["vr_return_value" :- uint_t;
     "vr_session" :- crypto_session_id_t;
     "vr_signlen" :- size_t;
     "vr_signbuf" :- caddr_t;
     "vr_datalen" :- size_t;
     "vr_databuf" :- caddr_t].
Definition crypto_digest_encrypt_update : ctype :=
  struct ["eu_return_value" :- uint_t;
     "eu_session" :- crypto_session_id_t;
     "eu_datalen" :- size_t;
     "eu_databuf" :- caddr_t;
     "eu_encrlen" :- size_t;
     "eu_encrbuf" :- caddr_t].
Definition crypto_decrypt_digest_update : ctype :=
  struct ["du_return_value" :- uint_t;
     "du_session" :- crypto_session_id_t;
     "du_encrlen" :- size_t;
     "du_encrbuf" :- caddr_t;
     "du_datalen" :- size_t;
     "du_databuf" :- caddr_t].
Definition crypto_sign_encrypt_update : ctype :=
  struct ["eu_return_value" :- uint_t;
     "eu_session" :- crypto_session_id_t;
     "eu_datalen" :- size_t;
     "eu_databuf" :- caddr_t;
     "eu_encrlen" :- size_t;
     "eu_encrbuf" :- caddr_t].
Definition crypto_decrypt_verify_update : ctype :=
  struct ["vu_return_value" :- uint_t;
     "vu_session" :- crypto_session_id_t;
     "vu_encrlen" :- size_t;
     "vu_encrbuf" :- caddr_t;
     "vu_datalen" :- size_t;
     "vu_databuf" :- caddr_t].
Definition crypto_mechanism32 : ctype :=
  struct ["cm_type" :- crypto_mech_type_t;
     "cm_param" :- caddr32_t;
     "cm_param_len" :- size32_t].
Definition crypto_object_attribute32 : ctype :=
  struct ["oa_type" :- uint64_t;
     "oa_value" :- caddr32_t;
     "oa_value_len" :- ssize32_t].
Definition crypto_key32 : ctype :=
  struct ["ck_format" :- crypto_key_format_t;
     "cku_data" :- (union ["cku_key_value" :- (struct ["cku_v_length" :- uint32_t; "cku_v_data" :- caddr32_t]);
       "cku_key_id" :- crypto_object_id_t;
       "cku_key_attrs" :- (struct ["cku_a_count" :- uint32_t; "cku_a_oattr" :- caddr32_t])])].
Definition crypto_encrypt32 : ctype :=
  struct ["ce_return_value" :- uint32_t;
     "ce_session" :- crypto_session_id_t;
     "ce_datalen" :- size32_t;
     "ce_databuf" :- caddr32_t;
     "ce_encrlen" :- size32_t;
     "ce_encrbuf" :- caddr32_t].
Definition crypto_encrypt_init32 : ctype :=
  packed4 ["ei_return_value" :- uint32_t;
     "ei_session" :- crypto_session_id_t;
     "ei_mech" :- crypto_mechanism32;
     "ei_key" :- crypto_key32].
Definition crypto_encrypt_update32 : ctype :=
  struct ["eu_return_value" :- uint32_t;
     "eu_session" :- crypto_session_id_t;
     "eu_datalen" :- size32_t;
     "eu_databuf" :- caddr32_t;
     "eu_encrlen" :- size32_t;
     "eu_encrbuf" :- caddr32_t].
Definition crypto_encrypt_final32 : ctype :=
  struct ["ef_return_value" :- uint32_t;
     "ef_session" :- crypto_session_id_t;
     "ef_encrlen" :- size32_t;
     "ef_encrbuf" :- caddr32_t].
Definition crypto_decrypt32 : ctype :=
  struct ["cd_return_value" :- uint32_t;
     "cd_session" :- crypto_session_id_t;
     "cd_encrlen" :- size32_t;
     "cd_encrbuf" :- caddr32_t;
     "cd_datalen" :- size32_t;
     "cd_databuf" :- caddr32_t].
Definition crypto_decrypt_init32 : ctype :=
  packed4 ["di_return_value" :- uint32_t;
     "di_session" :- crypto_session_id_t;
     "di_mech" :- crypto_mechanism32;
     "di_key" :- crypto_key32].
Definition crypto_decrypt_update32 : ctype :=
  struct ["du_return_value" :- uint32_t;
     "du_session" :- crypto_session_id_t;
     "du_encrlen" :- size32_t;
     "du_encrbuf" :- caddr32_t;
     "du_datalen" :- size32_t;
     "du_databuf" :- caddr32_t].
Definition crypto_decrypt_final32 : ctype :=
  struct ["df_return_value" :- uint32_t;
     "df_session" :- crypto_session_id_t;
     "df_datalen" :- size32_t;
     "df_databuf" :- caddr32_t].
Definition crypto_digest32 : ctype :=
  struct ["cd_return_value" :- uint32_t;
     "cd_session" :- crypto_session_id_t;
     "cd_datalen" :- size32_t;
     "cd_databuf" :- caddr32_t;
     "cd_digestlen" :- size32_t;
     "cd_digestbuf" :- caddr32_t].
Definition crypto_digest_init32 : ctype :=
  struct ["di_return_value" :- uint32_t;
     "di_session" :- crypto_session_id_t;
     "di_mech" :- crypto_mechanism32].
Definition crypto_digest_update32 : ctype :=
  struct ["du_return_value" :- uint32_t;
     "du_session" :- crypto_session_id_t;
     "du_datalen" :- size32_t;
     "du_databuf" :- caddr32_t].
Definition crypto_digest_key32 : ctype :=
  struct ["dk_return_value" :- uint32_t;
     "dk_session" :- crypto_session_id_t;
     "dk_key" :- crypto_key32].
Definition crypto_digest_final32 : ctype :=
  struct ["df_return_value" :- uint32_t;
     "df_session" :- crypto_session_id_t;
     "df_digestlen" :- size32_t;
     "df_digestbuf" :- caddr32_t].
Definition crypto_mac32 : ctype :=
  struct ["cm_return_value" :- uint32_t;
     "cm_session" :- crypto_session_id_t;
     "cm_datalen" :- size32_t;
     "cm_databuf" :- caddr32_t;
     "cm_maclen" :- size32_t;
     "cm_macbuf" :- caddr32_t].
Definition crypto_mac_init32 : ctype :=
  packed4 ["mi_return_value" :- uint32_t;
     "mi_session" :- crypto_session_id_t;
     "mi_mech" :- crypto_mechanism32;
     "mi_key" :- crypto_key32].
Definition crypto_mac_update32 : ctype :=
  struct ["mu_return_value" :- uint32_t;
     "mu_session" :- crypto_session_id_t;
     "mu_datalen" :- size32_t;
     "mu_databuf" :- caddr32_t].
Definition crypto_mac_final32 : ctype :=
  struct ["mf_return_value" :- uint32_t;
     "mf_session" :- crypto_session_id_t;
     "mf_maclen" :- size32_t;
     "mf_macbuf" :- caddr32_t].
Definition crypto_sign32 : ctype :=
  struct ["cs_return_value" :- uint32_t;
     "cs_session" :- crypto_session_id_t;
     "cs_datalen" :- size32_t;
     "cs_databuf" :- caddr32_t;
     "cs_signlen" :- size32_t;
     "cs_signbuf" :- caddr32_t].
Definition crypto_sign_init32 : ctype :=
  packed4 ["si_return_value" :- uint32_t;
     "si_session" :- crypto_session_id_t;
     "si_mech" :- crypto_mechanism32;
     "si_key" :- crypto_key32].
Definition crypto_sign_update32 : ctype :=
  struct ["su_return_value" :- uint32_t;
     "su_session" :- crypto_session_id_t;
     "su_datalen" :- size32_t;
     "su_databuf" :- caddr32_t].
Definition crypto_sign_final32 : ctype :=
  struct ["sf_return_value" :- uint32_t;
     "sf_session" :- crypto_session_id_t;
     "sf_signlen" :- size32_t;
     "sf_signbuf" :- caddr32_t].
Definition crypto_sign_recover_init32 : ctype :=
  packed4 ["ri_return_value" :- uint32_t;
     "ri_session" :- crypto_session_id_t;
     "ri_mech" :- crypto_mechanism32;
     "ri_key" :- crypto_key32].
Definition crypto_sign_recover32 : ctype :=
  struct ["sr_return_value" :- uint32_t;
     "sr_session" :- crypto_session_id_t;
     "sr_datalen" :- size32_t;
     "sr_databuf" :- caddr32_t;
     "sr_signlen" :- size32_t;
     "sr_signbuf" :- caddr32_t].
Definition crypto_verify32 : ctype :=
  struct ["cv_return_value" :- uint32_t;
     "cv_session" :- crypto_session_id_t;
     "cv_datalen" :- size32_t;
     "cv_databuf" :- caddr32_t;
     "cv_signlen" :- size32_t;
     "cv_signbuf" :- caddr32_t].
Definition crypto_verify_init32 : ctype :=
  packed4 ["vi_return_value" :- uint32_t;
     "vi_session" :- crypto_session_id_t;
     "vi_mech" :- crypto_mechanism32;
     "vi_key" :- crypto_key32].
Definition crypto_verify_update32 : ctype :=
  struct ["vu_return_value" :- uint32_t;
     "vu_session" :- crypto_session_id_t;
     "vu_datalen" :- size32_t;
     "vu_databuf" :- caddr32_t].
Definition crypto_verify_final32 : ctype :=
  struct ["vf_return_value" :- uint32_t;
     "vf_session" :- crypto_session_id_t;
     "vf_signlen" :- size32_t;
     "vf_signbuf" :- caddr32_t].
Definition crypto_verify_recover_init32 : ctype :=
  packed4 ["ri_return_value" :- uint32_t;
     "ri_session" :- crypto_session_id_t;
     "ri_mech" :- crypto_mechanism32;
     "ri_key" :- crypto_key32].
Definition crypto_verify_recover32 : ctype :=
  struct ["vr_return_value" :- uint32_t;
     "vr_session" :- crypto_session_id_t;
     "vr_signlen" :- size32_t;
     "vr_signbuf" :- caddr32_t;
     "vr_datalen" :- size32_t;
     "vr_databuf" :- caddr32_t].
Definition crypto_digest_encrypt_update32 : ctype :=
  struct ["eu_return_value" :- uint32_t;
     "eu_session" :- crypto_session_id_t;
     "eu_datalen" :- size32_t;
     "eu_databuf" :- caddr32_t;
     "eu_encrlen" :- size32_t;
     "eu_encrbuf" :- caddr32_t].
Definition crypto_decrypt_digest_update32 : ctype :=
  struct ["du_return_value" :- uint32_t;
     "du_session" :- crypto_session_id_t;
     "du_encrlen" :- size32_t;
     "du_encrbuf" :- caddr32_t;
     "du_datalen" :- size32_t;
     "du_databuf" :- caddr32_t].
Definition crypto_sign_encrypt_update32 : ctype :=
  struct ["eu_return_value" :- uint32_t;
     "eu_session" :- crypto_session_id_t;
     "eu_datalen" :- size32_t;
     "eu_databuf" :- caddr32_t;
     "eu_encrlen" :- size32_t;
     "eu_encrbuf" :- caddr32_t].
Definition crypto_decrypt_verify_update32 : ctype :=
  struct ["vu_return_value" :- uint32_t;
     "vu_session" :- crypto_session_id_t;
     "vu_encrlen" :- size32_t;
     "vu_encrbuf" :- caddr32_t;
     "vu_datalen" :- size32_t;
     "vu_databuf" :- caddr32_t].
Definition crypto_seed_random : ctype :=
  struct ["sr_return_value" :- uint_t;
     "sr_session" :- crypto_session_id_t;
     "sr_seedlen" :- size_t;
     "sr_seedbuf" :- caddr_t].
Definition crypto_generate_random : ctype :=
  struct ["gr_return_value" :- uint_t;
     "gr_session" :- crypto_session_id_t;
     "gr_buf" :- caddr_t;
     "gr_buflen" :- size_t].
Definition crypto_seed_random32 : ctype :=
  struct ["sr_return_value" :- uint32_t;
     "sr_session" :- crypto_session_id_t;
     "sr_seedlen" :- size32_t;
     "sr_seedbuf" :- caddr32_t].
Definition crypto_generate_random32 : ctype :=
  struct ["gr_return_value" :- uint32_t;
     "gr_session" :- crypto_session_id_t;
     "gr_buf" :- caddr32_t;
     "gr_buflen" :- size32_t].
Definition crypto_object_create : ctype :=
  struct ["oc_return_value" :- uint_t;
     "oc_session" :- crypto_session_id_t;
     "oc_handle" :- crypto_object_id_t;
     "oc_count" :- uint_t;
     "oc_attributes" :- caddr_t].
Definition crypto_object_copy : ctype :=
  struct ["oc_return_value" :- uint_t;
     "oc_session" :- crypto_session_id_t;
     "oc_handle" :- crypto_object_id_t;
     "oc_new_handle" :- crypto_object_id_t;
     "oc_count" :- uint_t;
     "oc_new_attributes" :- caddr_t].
Definition crypto_object_destroy : ctype :=
  struct ["od_return_value" :- uint_t;
     "od_session" :- crypto_session_id_t;
     "od_handle" :- crypto_object_id_t].
Definition crypto_object_get_attribute_value : ctype :=
  struct ["og_return_value" :- uint_t;
     "og_session" :- crypto_session_id_t;
     "og_handle" :- crypto_object_id_t;
     "og_count" :- uint_t;
     "og_attributes" :- caddr_t].
Definition crypto_object_get_size : ctype :=
  struct ["gs_return_value" :- uint_t;
     "gs_session" :- crypto_session_id_t;
     "gs_handle" :- crypto_object_id_t;
     "gs_size" :- size_t].
Definition crypto_object_set_attribute_value : ctype :=
  struct ["sa_return_value" :- uint_t;
     "sa_session" :- crypto_session_id_t;
     "sa_handle" :- crypto_object_id_t;
     "sa_count" :- uint_t;
     "sa_attributes" :- caddr_t].
Definition crypto_object_find_init : ctype :=
  struct ["fi_return_value" :- uint_t;
     "fi_session" :- crypto_session_id_t;
     "fi_count" :- uint_t;
     "fi_attributes" :- caddr_t].
Definition crypto_object_find_update : ctype :=
  struct ["fu_return_value" :- uint_t;
     "fu_session" :- crypto_session_id_t;
     "fu_max_count" :- uint_t;
     "fu_count" :- uint_t;
     "fu_handles" :- caddr_t].
Definition crypto_object_find_final : ctype :=
  struct ["ff_return_value" :- uint_t;
     "ff_session" :- crypto_session_id_t].
Definition crypto_object_create32 : ctype :=
  struct ["oc_return_value" :- uint32_t;
     "oc_session" :- crypto_session_id_t;
     "oc_handle" :- crypto_object_id_t;
     "oc_count" :- uint32_t;
     "oc_attributes" :- caddr32_t].
Definition crypto_object_copy32 : ctype :=
  struct ["oc_return_value" :- uint32_t;
     "oc_session" :- crypto_session_id_t;
     "oc_handle" :- crypto_object_id_t;
     "oc_new_handle" :- crypto_object_id_t;
     "oc_count" :- uint32_t;
     "oc_new_attributes" :- caddr32_t].
Definition crypto_object_destroy32 : ctype :=
  struct ["od_return_value" :- uint32_t;
     "od_session" :- crypto_session_id_t;
     "od_handle" :- crypto_object_id_t].
Definition crypto_object_get_attribute_value32 : ctype :=
  struct ["og_return_value" :- uint32_t;
     "og_session" :- crypto_session_id_t;
     "og_handle" :- crypto_object_id_t;
     "og_count" :- uint32_t;
     "og_attributes" :- caddr32_t].
Definition crypto_object_get_size32 : ctype :=
  struct ["gs_return_value" :- uint32_t;
     "gs_session" :- crypto_session_id_t;
     "gs_handle" :- crypto_object_id_t;
     "gs_size" :- size32_t].
Definition crypto_object_set_attribute_value32 : ctype :=
  struct ["sa_return_value" :- uint32_t;
     "sa_session" :- crypto_session_id_t;
     "sa_handle" :- crypto_object_id_t;
     "sa_count" :- uint32_t;
     "sa_attributes" :- caddr32_t].
Definition crypto_object_find_init32 : ctype :=
  struct ["fi_return_value" :- uint32_t;
     "fi_session" :- crypto_session_id_t;
     "fi_count" :- uint32_t;
     "fi_attributes" :- caddr32_t].
Definition crypto_object_find_update32 : ctype :=
  struct ["fu_return_value" :- uint32_t;
     "fu_session" :- crypto_session_id_t;
     "fu_max_count" :- uint32_t;
     "fu_count" :- uint32_t;
     "fu_handles" :- caddr32_t].
Definition crypto_object_find_final32 : ctype :=
  struct ["ff_return_value" :- uint32_t;
     "ff_session" :- crypto_session_id_t].
Definition crypto_object_generate_key : ctype :=
  struct ["gk_return_value" :- uint_t;
     "gk_session" :- crypto_session_id_t;
     "gk_handle" :- crypto_object_id_t;
     "gk_mechanism" :- crypto_mechanism;
     "gk_count" :- uint_t;
     "gk_attributes" :- caddr_t].
Definition crypto_object_generate_key_pair : ctype :=
  struct ["kp_return_value" :- uint_t;
     "kp_session" :- crypto_session_id_t;
     "kp_public_handle" :- crypto_object_id_t;
     "kp_private_handle" :- crypto_object_id_t;
     "kp_public_count" :- uint_t;
     "kp_private_count" :- uint_t;
     "kp_public_attributes" :- caddr_t;
     "kp_private_attributes" :- caddr_t;
     "kp_mechanism" :- crypto_mechanism].
Definition crypto_object_wrap_key : ctype :=
  struct ["wk_return_value" :- uint_t;
     "wk_session" :- crypto_session_id_t;
     "wk_mechanism" :- crypto_mechanism;
     "wk_wrapping_key" :- crypto_key;
     "wk_object_handle" :- crypto_object_id_t;
     "wk_wrapped_key_len" :- size_t;
     "wk_wrapped_key" :- caddr_t].
Definition crypto_object_unwrap_key : ctype :=
  struct ["uk_return_value" :- uint_t;
     "uk_session" :- crypto_session_id_t;
     "uk_mechanism" :- crypto_mechanism;
     "uk_unwrapping_key" :- crypto_key;
     "uk_object_handle" :- crypto_object_id_t;
     "uk_wrapped_key_len" :- size_t;
     "uk_wrapped_key" :- caddr_t;
     "uk_count" :- uint_t;
     "uk_attributes" :- caddr_t].
Definition crypto_derive_key : ctype :=
  struct ["dk_return_value" :- uint_t;
     "dk_session" :- crypto_session_id_t;
     "dk_mechanism" :- crypto_mechanism;
     "dk_base_key" :- crypto_key;
     "dk_object_handle" :- crypto_object_id_t;
     "dk_count" :- uint_t;
     "dk_attributes" :- caddr_t].
Definition crypto_object_generate_key32 : ctype :=
  packed4 ["gk_return_value" :- uint32_t;
     "gk_session" :- crypto_session_id_t;
     "gk_handle" :- crypto_object_id_t;
     "gk_mechanism" :- crypto_mechanism32;
     "gk_count" :- uint32_t;
     "gk_attributes" :- caddr32_t].
Definition crypto_object_generate_key_pair32 : ctype :=
  struct ["kp_return_value" :- uint32_t;
     "kp_session" :- crypto_session_id_t;
     "kp_public_handle" :- crypto_object_id_t;
     "kp_private_handle" :- crypto_object_id_t;
     "kp_public_count" :- uint32_t;
     "kp_private_count" :- uint32_t;
     "kp_public_attributes" :- caddr32_t;
     "kp_private_attributes" :- caddr32_t;
     "kp_mechanism" :- crypto_mechanism32].
Definition crypto_object_wrap_key32 : ctype :=
  struct ["wk_return_value" :- uint32_t;
     "wk_session" :- crypto_session_id_t;
     "wk_mechanism" :- crypto_mechanism32;
     "wk_wrapping_key" :- crypto_key32;
     "wk_object_handle" :- crypto_object_id_t;
     "wk_wrapped_key_len" :- size32_t;
     "wk_wrapped_key" :- caddr32_t].
Definition crypto_object_unwrap_key32 : ctype :=
  struct ["uk_return_value" :- uint32_t;
     "uk_session" :- crypto_session_id_t;
     "uk_mechanism" :- crypto_mechanism32;
     "uk_unwrapping_key" :- crypto_key32;
     "uk_object_handle" :- crypto_object_id_t;
     "uk_wrapped_key_len" :- size32_t;
     "uk_wrapped_key" :- caddr32_t;
     "uk_count" :- uint32_t;
     "uk_attributes" :- caddr32_t].
Definition crypto_derive_key32 : ctype :=
  struct ["dk_return_value" :- uint32_t;
     "dk_session" :- crypto_session_id_t;
     "dk_mechanism" :- crypto_mechanism32;
     "dk_base_key" :- crypto_key32;
     "dk_object_handle" :- crypto_object_id_t;
     "dk_count" :- uint32_t;
     "dk_attributes" :- caddr32_t].
Definition crypto_get_provider_list : ctype :=
  struct ["pl_return_value" :- uint_t;
     "pl_count" :- uint_t;
     "pl_list" :- array 1 crypto_provider_entry].

(** [sys/crypto/spi.h] *)
Definition CRYPTO_PROVIDER_DESCR_MAX_LEN : Z := 64.
Definition CRYPTO_EXT_SIZE_LABEL : Z := 32.
Definition CRYPTO_EXT_SIZE_MANUF : Z := 32.
Definition CRYPTO_EXT_SIZE_MODEL : Z := 16.
Definition CRYPTO_EXT_SIZE_SERIAL : Z := 16.
Definition CRYPTO_EXT_SIZE_TIME : Z := 16.

(** [sys/crypto/ioctl.h] *)
Definition crypto_provider_data : ctype :=
  struct ["pd_prov_desc" :- array CRYPTO_PROVIDER_DESCR_MAX_LEN uchar_t;
     "pd_label" :- array CRYPTO_EXT_SIZE_LABEL uchar_t;
     "pd_manufacturerID" :- array CRYPTO_EXT_SIZE_MANUF uchar_t;
     "pd_model" :- array CRYPTO_EXT_SIZE_MODEL uchar_t;
     "pd_serial_number" :- array CRYPTO_EXT_SIZE_SERIAL uchar_t;
     "pd_flags" :- ulong_t;
     "pd_max_session_count" :- ulong_t;
     "pd_session_count" :- ulong_t;
     "pd_max_rw_session_count" :- ulong_t;
     "pd_rw_session_count" :- ulong_t;
     "pd_max_pin_len" :- ulong_t;
     "pd_min_pin_len" :- ulong_t;
     "pd_total_public_memory" :- ulong_t;
     "pd_free_public_memory" :- ulong_t;
     "pd_total_private_memory" :- ulong_t;
     "pd_free_private_memory" :- ulong_t;
     "pd_hardware_version" :- crypto_version;
     "pd_firmware_version" :- crypto_version;
     "pd_time" :- array CRYPTO_EXT_SIZE_TIME uchar_t].
Definition crypto_get_provider_info : ctype :=
  struct ["gi_return_value" :- uint_t;
     "gi_provider_id" :- crypto_provider_id_t;
     "gi_provider_data" :- crypto_provider_data].
Definition crypto_get_provider_mechanisms : ctype :=
  struct ["pm_return_value" :- uint_t;
     "pm_provider_id" :- crypto_provider_id_t;
     "pm_count" :- uint_t;
     "pm_list" :- array 1 crypto_mech_name_t].
Definition crypto_init_token : ctype :=
  struct ["it_return_value" :- uint_t;
     "it_provider_id" :- crypto_provider_id_t;
     "it_pin" :- caddr_t;
     "it_pin_len" :- size_t;
     "it_label" :- caddr_t].
Definition crypto_init_pin : ctype :=
  struct ["ip_return_value" :- uint_t;
     "ip_session" :- crypto_session_id_t;
     "ip_pin" :- caddr_t;
     "ip_pin_len" :- size_t].
Definition crypto_set_pin : ctype :=
  struct ["sp_return_value" :- uint_t;
     "sp_session" :- crypto_session_id_t;
     "sp_old_pin" :- caddr_t;
     "sp_old_len" :- size_t;
     "sp_new_pin" :- caddr_t;
     "sp_new_len" :- size_t].
Definition crypto_get_provider_list32 : ctype :=
  struct ["pl_return_value" :- uint32_t;
     "pl_count" :- uint32_t;
     "pl_list" :- array 1 crypto_provider_entry].
Definition crypto_version32 : ctype :=
  struct ["cv_major" :- uchar_t;
     "cv_minor" :- uchar_t].
Definition crypto_provider_data32 : ctype :=
  struct ["pd_prov_desc" :- array CRYPTO_PROVIDER_DESCR_MAX_LEN uchar_t;
     "pd_label" :- array CRYPTO_EXT_SIZE_LABEL uchar_t;
     "pd_manufacturerID" :- array CRYPTO_EXT_SIZE_MANUF uchar_t;
     "pd_model" :- array CRYPTO_EXT_SIZE_MODEL uchar_t;
     "pd_serial_number" :- array CRYPTO_EXT_SIZE_SERIAL uchar_t;
     "pd_flags" :- uint32_t;
     "pd_max_session_count" :- uint32_t;
     "pd_session_count" :- uint32_t;
     "pd_max_rw_session_count" :- uint32_t;
     "pd_rw_session_count" :- uint32_t;
     "pd_max_pin_len" :- uint32_t;
     "pd_min_pin_len" :- uint32_t;
     "pd_total_public_memory" :- uint32_t;
     "pd_free_public_memory" :- uint32_t;
     "pd_total_private_memory" :- uint32_t;
     "pd_free_private_memory" :- uint32_t;
     "pd_hardware_version" :- crypto_version32;
     "pd_firmware_version" :- crypto_version32;
     "pd_time" :- array CRYPTO_EXT_SIZE_TIME uchar_t].
Definition crypto_get_provider_info32 : ctype :=
  struct ["gi_return_value" :- uint32_t;
     "gi_provider_id" :- crypto_provider_id_t;
     "gi_provider_data" :- crypto_provider_data32].
Definition crypto_get_provider_mechanisms32 : ctype :=
  struct ["pm_return_value" :- uint32_t;
     "pm_provider_id" :- crypto_provider_id_t;
     "pm_count" :- uint32_t;
     "pm_list" :- array 1 crypto_mech_name_t].
Definition crypto_init_token32 : ctype :=
  struct ["it_return_value" :- uint32_t;
     "it_provider_id" :- crypto_provider_id_t;
     "it_pin" :- caddr32_t;
     "it_pin_len" :- size32_t;
     "it_label" :- caddr32_t].
Definition crypto_init_pin32 : ctype :=
  struct ["ip_return_value" :- uint32_t;
     "ip_session" :- crypto_session_id_t;
     "ip_pin" :- caddr32_t;
     "ip_pin_len" :- size32_t].
Definition crypto_set_pin32 : ctype :=
  struct ["sp_return_value" :- uint32_t;
     "sp_session" :- crypto_session_id_t;
     "sp_old_pin" :- caddr32_t;
     "sp_old_len" :- size32_t;
     "sp_new_pin" :- caddr32_t;
     "sp_new_len" :- size32_t].

(** [sys/crypto/ioctladmin.h] *)
Definition crypto_get_soft_list : ctype :=
  struct ["sl_return_value" :- uint_t;
     "sl_soft_count" :- uint_t;
     "sl_soft_len" :- size_t;
     "sl_soft_names" :- caddr_t].
Definition crypto_get_soft_list32 : ctype :=
  struct ["sl_return_value" :- uint32_t;
     "sl_soft_count" :- uint32_t;
     "sl_soft_len" :- size32_t;
     "sl_soft_names" :- caddr32_t].

(** The structures and what the 64-bit kernel reads them as. *)
Definition views_crypto : list (ctype * ctype) :=
  [(crypto_decrypt32, crypto_decrypt);
   (crypto_decrypt_digest_update32, crypto_decrypt_digest_update);
   (crypto_decrypt_final32, crypto_decrypt_final);
   (crypto_decrypt_init32, crypto_decrypt_init);
   (crypto_decrypt_update32, crypto_decrypt_update);
   (crypto_decrypt_verify_update32, crypto_decrypt_verify_update);
   (crypto_derive_key32, crypto_derive_key);
   (crypto_digest32, crypto_digest);
   (crypto_digest_encrypt_update32, crypto_digest_encrypt_update);
   (crypto_digest_final32, crypto_digest_final);
   (crypto_digest_init32, crypto_digest_init);
   (crypto_digest_key32, crypto_digest_key);
   (crypto_digest_update32, crypto_digest_update);
   (crypto_encrypt32, crypto_encrypt);
   (crypto_encrypt_final32, crypto_encrypt_final);
   (crypto_encrypt_init32, crypto_encrypt_init);
   (crypto_encrypt_update32, crypto_encrypt_update);
   (crypto_generate_random32, crypto_generate_random);
   (crypto_get_mechanism_number32, crypto_get_mechanism_number);
   (crypto_get_provider_info32, crypto_get_provider_info);
   (crypto_get_provider_list32, crypto_get_provider_list);
   (crypto_get_provider_mechanisms32, crypto_get_provider_mechanisms);
   (crypto_get_soft_list32, crypto_get_soft_list);
   (crypto_init_pin32, crypto_init_pin);
   (crypto_init_token32, crypto_init_token);
   (crypto_key32, crypto_key);
   (crypto_login32, crypto_login);
   (crypto_logout32, crypto_logout);
   (crypto_mac32, crypto_mac);
   (crypto_mac_final32, crypto_mac_final);
   (crypto_mac_init32, crypto_mac_init);
   (crypto_mac_update32, crypto_mac_update);
   (crypto_mechanism32, crypto_mechanism);
   (crypto_object_attribute32, crypto_object_attribute);
   (crypto_object_copy32, crypto_object_copy);
   (crypto_object_create32, crypto_object_create);
   (crypto_object_destroy32, crypto_object_destroy);
   (crypto_object_find_final32, crypto_object_find_final);
   (crypto_object_find_init32, crypto_object_find_init);
   (crypto_object_find_update32, crypto_object_find_update);
   (crypto_object_generate_key32, crypto_object_generate_key);
   (crypto_object_generate_key_pair32, crypto_object_generate_key_pair);
   (crypto_object_get_attribute_value32, crypto_object_get_attribute_value);
   (crypto_object_get_size32, crypto_object_get_size);
   (crypto_object_set_attribute_value32, crypto_object_set_attribute_value);
   (crypto_object_unwrap_key32, crypto_object_unwrap_key);
   (crypto_object_wrap_key32, crypto_object_wrap_key);
   (crypto_provider_data32, crypto_provider_data);
   (crypto_seed_random32, crypto_seed_random);
   (crypto_set_pin32, crypto_set_pin);
   (crypto_sign32, crypto_sign);
   (crypto_sign_encrypt_update32, crypto_sign_encrypt_update);
   (crypto_sign_final32, crypto_sign_final);
   (crypto_sign_init32, crypto_sign_init);
   (crypto_sign_recover32, crypto_sign_recover);
   (crypto_sign_recover_init32, crypto_sign_recover_init);
   (crypto_sign_update32, crypto_sign_update);
   (crypto_verify32, crypto_verify);
   (crypto_verify_final32, crypto_verify_final);
   (crypto_verify_init32, crypto_verify_init);
   (crypto_verify_recover32, crypto_verify_recover);
   (crypto_verify_recover_init32, crypto_verify_recover_init);
   (crypto_verify_update32, crypto_verify_update);
   (crypto_version32, crypto_version);
   (gss_OID_desc_struct32, gss_OID_desc_struct)].

Lemma views_crypto_agree : views_check views_crypto = true.
Proof. vm_compute. reflexivity. Qed.
