(* ===== verification/Abi32Fs.v ===== *)
(** * Structures of file systems, sockets and streams

    The structures of the NFS, RPC, audit, socket, stream and file system calls
    and the declarations a 64-bit kernel uses for 32-bit callers. *)
From Stdlib Require Import String.
From S2P Require Import Prelude ByteOrder CTypes AbiTypes.
#[local] Open Scope Z_scope.
#[local] Open Scope ctype_scope.


(** [c2/audit.h] *)
Definition au_asid_t : ctype := pid_t.
Definition au_id_t : ctype := uid_t.
Definition au_mask : ctype :=
  struct ["am_success" :- uint;
     "am_failure" :- uint].
Definition au_mask_t : ctype := au_mask.
Definition au_tid : ctype :=
  struct ["port" :- dev_t;
     "machine" :- uint_t].
Definition au_tid32 : ctype :=
  struct ["port" :- uint_t;
     "machine" :- uint_t].
Definition au_tid32_t : ctype := au_tid32.
Definition au_tid_t : ctype := au_tid.
Definition au_tid_addr : ctype :=
  struct ["at_port" :- dev_t;
     "at_type" :- uint_t;
     "at_addr" :- array 4 uint_t].
Definition au_tid_addr32 : ctype :=
  struct ["at_port" :- uint_t;
     "at_type" :- uint_t;
     "at_addr" :- array 4 uint_t].
Definition au_tid32_addr_t : ctype := au_tid_addr32.
Definition au_tid_addr_t : ctype := au_tid_addr.
Definition au_qctrl : ctype :=
  struct ["aq_hiwater" :- size_t;
     "aq_lowater" :- size_t;
     "aq_bufsz" :- size_t;
     "aq_delay" :- clock_t].
Definition au_qctrl32 : ctype :=
  struct ["aq_hiwater" :- size32_t;
     "aq_lowater" :- size32_t;
     "aq_bufsz" :- size32_t;
     "aq_delay" :- clock32_t].
Definition auditinfo : ctype :=
  struct ["ai_auid" :- au_id_t;
     "ai_mask" :- au_mask_t;
     "ai_termid" :- au_tid_t;
     "ai_asid" :- au_asid_t].
Definition auditinfo32 : ctype :=
  struct ["ai_auid" :- au_id_t;
     "ai_mask" :- au_mask_t;
     "ai_termid" :- au_tid32_t;
     "ai_asid" :- au_asid_t].
Definition auditinfo_addr : ctype :=
  struct ["ai_auid" :- au_id_t;
     "ai_mask" :- au_mask_t;
     "ai_termid" :- au_tid_addr_t;
     "ai_asid" :- au_asid_t].
Definition auditinfo_addr32 : ctype :=
  struct ["ai_auid" :- au_id_t;
     "ai_mask" :- au_mask_t;
     "ai_termid" :- au_tid32_addr_t;
     "ai_asid" :- au_asid_t].
Definition auditpinfo : ctype :=
  struct ["ap_pid" :- pid_t;
     "ap_auid" :- au_id_t;
     "ap_mask" :- au_mask_t;
     "ap_termid" :- au_tid_t;
     "ap_asid" :- au_asid_t].
Definition auditpinfo32 : ctype :=
  struct ["ap_pid" :- pid_t;
     "ap_auid" :- au_id_t;
     "ap_mask" :- au_mask_t;
     "ap_termid" :- au_tid32_t;
     "ap_asid" :- au_asid_t].
Definition auditpinfo_addr : ctype :=
  struct ["ap_pid" :- pid_t;
     "ap_auid" :- au_id_t;
     "ap_mask" :- au_mask_t;
     "ap_termid" :- au_tid_addr_t;
     "ap_asid" :- au_asid_t].
Definition auditpinfo_addr32 : ctype :=
  struct ["ap_pid" :- pid_t;
     "ap_auid" :- au_id_t;
     "ap_mask" :- au_mask_t;
     "ap_termid" :- au_tid32_addr_t;
     "ap_asid" :- au_asid_t].

(** [ipp/ippctl.h] *)
Definition ippctl_ioctl : ctype :=
  struct ["ii_buf" :- caddr_t;
     "ii_buflen" :- size_t].
Definition ippctl_ioctl32 : ctype :=
  struct ["ii32_buf" :- caddr32_t;
     "ii32_buflen" :- size32_t].

(** [net/if.h] *)
Definition lifconf : ctype :=
  struct ["lifc_family" :- sa_family_t;
     "lifc_flags" :- int;
     "lifc_len" :- int;
     "lifc_lifcu" :- (union ["lifcu_buf" :- caddr_t; "lifcu_req" :- ptr])].
Definition lifsrcof : ctype :=
  struct ["lifs_ifindex" :- uint_t;
     "lifs_maxlen" :- size_t;
     "lifs_len" :- size_t;
     "lifs_lifsu" :- (union ["lifsu_buf" :- caddr_t; "lifsu_req" :- ptr])].
Definition lifconf32 : ctype :=
  struct ["lifc_family" :- sa_family_t;
     "lifc_flags" :- int;
     "lifc_len" :- int32_t;
     "lifc_lifcu" :- (union ["lifcu_buf" :- caddr32_t; "lifcu_req" :- caddr32_t])].
Definition lifsrcof32 : ctype :=
  struct ["lifs_ifindex" :- uint_t;
     "lifs_maxlen" :- size32_t;
     "lifs_len" :- size32_t;
     "lifs_lifsu" :- (union ["lifsu_buf" :- caddr32_t; "lifsu_req" :- caddr32_t])].
Definition ifconf : ctype :=
  struct ["ifc_len" :- int;
     "ifc_ifcu" :- (union ["ifcu_buf" :- caddr_t; "ifcu_req" :- ptr])].
Definition ifconf32 : ctype :=
  struct ["ifc_len" :- int32_t;
     "ifc_ifcu" :- (union ["ifcu_buf" :- caddr32_t; "ifcu_req" :- caddr32_t])].

(** [netinet/sctp.h] *)
Definition sctp_assoc32_t : ctype := int32_t.
Definition sctpopt : ctype :=
  struct ["sopt_aid" :- sctp_assoc_t;
     "sopt_name" :- int;
     "sopt_len" :- uint_t;
     "sopt_val" :- caddr_t].
Definition sctpopt32 : ctype :=
  struct ["sopt_aid" :- sctp_assoc32_t;
     "sopt_name" :- int32_t;
     "sopt_len" :- uint32_t;
     "sopt_val" :- caddr32_t].

(** [rpc/rpcsec_gss.h] *)
Definition MAX_NAME_LEN : Z := 64.
Definition rpc_gss_service_t : ctype := enum.

(** [nfs/nfs_sec.h] *)
Definition seconfig : ctype :=
  struct ["sc_name" :- array MAX_NAME_LEN char;
     "sc_nfsnum" :- int;
     "sc_rpcnum" :- int;
     "sc_gss_mech" :- array MAX_NAME_LEN char;
     "sc_gss_mech_type" :- ptr;
     "sc_qop" :- uint_t;
     "sc_service" :- rpc_gss_service_t;
     "sc_uid" :- uid_t].

(** [nfs/export.h] *)
Definition secinfo : ctype :=
  struct ["s_secinfo" :- seconfig;
     "s_flags" :- uint;
     "s_refcnt" :- uint32_t;
     "s_window" :- int;
     "s_rootcnt" :- int;
     "s_rootnames" :- ptr].

(** [nfs/nfs_sec.h] *)
Definition seconfig32 : ctype :=
  struct ["sc_name" :- array MAX_NAME_LEN char;
     "sc_nfsnum" :- int32_t;
     "sc_rpcnum" :- int32_t;
     "sc_gss_mech" :- array MAX_NAME_LEN char;
     "sc_gss_mech_type" :- caddr32_t;
     "sc_qop" :- uint32_t;
     "sc_service" :- int32_t;
     "sc_uid" :- uid_t].

(** [nfs/export.h] *)
Definition secinfo32 : ctype :=
  struct ["s_secinfo" :- seconfig32;
     "s_flags" :- uint32_t;
     "s_refcnt" :- uint32_t;
     "s_window" :- int32_t;
     "s_rootcnt" :- int32_t;
     "s_rootnames" :- caddr32_t].
Definition exportdata : ctype :=
  struct ["ex_version" :- int;
     "ex_path" :- ptr;
     "ex_pathlen" :- size_t;
     "ex_flags" :- int;
     "ex_anon" :- uint;
     "ex_seccnt" :- int;
     "ex_secinfo" :- ptr;
     "ex_index" :- ptr;
     "ex_log_buffer" :- ptr;
     "ex_log_bufferlen" :- size_t;
     "ex_tag" :- ptr;
     "ex_taglen" :- size_t].
Definition exportdata32 : ctype :=
  struct ["ex_version" :- int32_t;
     "ex_path" :- caddr32_t;
     "ex_pathlen" :- int32_t;
     "ex_flags" :- int32_t;
     "ex_anon" :- uint32_t;
     "ex_seccnt" :- int32_t;
     "ex_secinfo" :- caddr32_t;
     "ex_index" :- caddr32_t;
     "ex_log_buffer" :- caddr32_t;
     "ex_log_bufferlen" :- int32_t;
     "ex_tag" :- caddr32_t;
     "ex_taglen" :- int32_t].

(** [nfs/mount.h] *)
Definition nfs_args_extA : ctype :=
  struct ["secdata" :- ptr].
Definition nfs_args_extB : ctype :=
  struct ["secdata" :- ptr;
     "next" :- ptr].
Definition nfs_ext : ctype :=
  union ["nfs_extA" :- nfs_args_extA;
     "nfs_extB" :- nfs_args_extB].
Definition nfs_args : ctype :=
  struct ["addr" :- ptr;
     "syncaddr" :- ptr;
     "knconf" :- ptr;
     "hostname" :- ptr;
     "netname" :- ptr;
     "fh" :- caddr_t;
     "flags" :- int;
     "wsize" :- int;
     "rsize" :- int;
     "timeo" :- int;
     "retrans" :- int;
     "acregmin" :- int;
     "acregmax" :- int;
     "acdirmin" :- int;
     "acdirmax" :- int;
     "pathconf" :- ptr;
     "nfs_args_ext" :- int;
     "nfs_ext_u" :- nfs_ext].
Definition nfs_args_extA32 : ctype :=
  struct ["secdata" :- caddr32_t].
Definition nfs_args_extB32 : ctype :=
  struct ["secdata" :- caddr32_t;
     "next" :- caddr32_t].
Definition nfs_ext32 : ctype :=
  union ["nfs_extA" :- nfs_args_extA32;
     "nfs_extB" :- nfs_args_extB32].
Definition nfs_args32 : ctype :=
  struct ["addr" :- caddr32_t;
     "syncaddr" :- caddr32_t;
     "knconf" :- caddr32_t;
     "hostname" :- caddr32_t;
     "netname" :- caddr32_t;
     "fh" :- caddr32_t;
     "flags" :- int32_t;
     "wsize" :- int32_t;
     "rsize" :- int32_t;
     "timeo" :- int32_t;
     "retrans" :- int32_t;
     "acregmin" :- int32_t;
     "acregmax" :- int32_t;
     "acdirmin" :- int32_t;
     "acdirmax" :- int32_t;
     "pathconf" :- caddr32_t;
     "nfs_args_ext" :- int32_t;
     "nfs_ext_u" :- nfs_ext32].

(** [sys/tiuser.h] *)
Definition netbuf : ctype :=
  struct ["maxlen" :- uint;
     "len" :- uint;
     "buf" :- ptr].

(** [nfs/nfssys.h] *)
Definition nfs_svc_args : ctype :=
  struct ["fd" :- int;
     "netid" :- ptr;
     "addrmask" :- netbuf;
     "versmin" :- int;
     "versmax" :- int;
     "delegation" :- int].

(** [sys/tiuser.h] *)
Definition netbuf32 : ctype :=
  struct ["maxlen" :- uint32_t;
     "len" :- uint32_t;
     "buf" :- caddr32_t].

(** [nfs/nfssys.h] *)
Definition nfs_svc_args32 : ctype :=
  struct ["fd" :- int32_t;
     "netid" :- caddr32_t;
     "addrmask" :- netbuf32;
     "versmin" :- int32_t;
     "versmax" :- int32_t;
     "delegation" :- int32_t].
Definition exportfs_args : ctype :=
  struct ["dname" :- ptr;
     "uex" :- ptr].
Definition exportfs_args32 : ctype :=
  struct ["dname" :- caddr32_t;
     "uex" :- caddr32_t].
Definition nfs_getfh_args : ctype :=
  struct ["fname" :- ptr;
     "fhp" :- ptr].
Definition nfs_getfh_args32 : ctype :=
  struct ["fname" :- caddr32_t;
     "fhp" :- caddr32_t].
Definition nfs_revauth_args : ctype :=
  struct ["authtype" :- int;
     "uid" :- uid_t].
Definition nfs_revauth_args32 : ctype :=
  struct ["authtype" :- int32_t;
     "uid" :- uid32_t].
Definition lm_svc_args : ctype :=
  struct ["version" :- int;
     "fd" :- int;
     "n_fmly" :- enum;
     "n_proto" :- enum;
     "n_rdev" :- dev_t;
     "debug" :- int;
     "timout" :- time_t;
     "grace" :- int;
     "retransmittimeout" :- time_t].
Definition lm_svc_args32 : ctype :=
  struct ["version" :- int32_t;
     "fd" :- int32_t;
     "n_fmly" :- enum;
     "n_proto" :- enum;
     "n_rdev" :- dev32_t;
     "debug" :- int32_t;
     "timout" :- time32_t;
     "grace" :- int32_t;
     "retransmittimeout" :- time32_t].
Definition nfsl_flush_args : ctype :=
  struct ["version" :- int;
     "directive" :- int;
     "buff" :- ptr;
     "buff_len" :- int].
Definition nfsl_flush_args32 : ctype :=
  struct ["version" :- int32_t;
     "directive" :- int32_t;
     "buff" :- caddr32_t;
     "buff_len" :- int32_t].
Definition rdma_svc_args : ctype :=
  struct ["poolid" :- uint32_t;
     "netid" :- ptr;
     "nfs_versmin" :- int;
     "nfs_versmax" :- int;
     "delegation" :- int].
Definition rdma_svc_args32 : ctype :=
  struct ["poolid" :- uint32_t;
     "netid" :- caddr32_t;
     "nfs_versmin" :- int32_t;
     "nfs_versmax" :- int32_t;
     "delegation" :- int32_t].
Definition nfs4clrst_args : ctype :=
  struct ["vers" :- int;
     "addr_type" :- int;
     "ap" :- ptr].
Definition nfs4clrst_args32 : ctype :=
  struct ["vers" :- int32_t;
     "addr_type" :- int32_t;
     "ap" :- caddr32_t].
Definition nfssysargs : ctype :=
  union ["exportfs_args_u" :- ptr;
     "nfs_getfh_args_u" :- ptr;
     "nfs_svc_args_u" :- ptr;
     "rdma_svc_args_u" :- ptr;
     "nfs_revauth_args_u" :- ptr;
     "lm_svc_args_u" :- ptr;
     "nfsl_flush_args_u" :- ptr;
     "svcpool_args_u" :- ptr;
     "nfs4clrst_u" :- ptr;
     "nfsidmap_u" :- ptr].
Definition nfssysa : ctype :=
  struct ["opcode" :- enum;
     "arg" :- nfssysargs].
Definition nfssysargs32 : ctype :=
  union ["exportfs_args_u" :- caddr32_t;
     "nfs_getfh_args_u" :- caddr32_t;
     "nfs_svc_args_u" :- caddr32_t;
     "rdma_svc_args_u" :- caddr32_t;
     "nfs_revauth_args_u" :- caddr32_t;
     "lm_svc_args_u" :- caddr32_t;
     "nfsl_flush_args_u" :- caddr32_t;
     "svcpool_args_u" :- caddr32_t;
     "nfs4clrst_u" :- caddr32_t].
Definition nfssysa32 : ctype :=
  struct ["opcode" :- enum;
     "arg" :- nfssysargs32].
Definition nfs4_svc_args : ctype :=
  struct ["fd" :- int;
     "cmd" :- int;
     "netid" :- ptr;
     "addr" :- ptr;
     "protofmly" :- ptr;
     "proto" :- ptr;
     "addrmask" :- netbuf].
Definition nfs4_svc_args32 : ctype :=
  struct ["fd" :- int32_t;
     "cmd" :- int32_t;
     "netid" :- caddr32_t;
     "addr" :- caddr32_t;
     "protofmly" :- caddr32_t;
     "proto" :- caddr32_t;
     "addrmask" :- netbuf32].

(** [rpc/auth.h] *)
Definition sec_data : ctype :=
  struct ["secmod" :- uint_t;
     "rpcflavor" :- uint_t;
     "flags" :- int;
     "uid" :- uid_t;
     "data" :- caddr_t].
Definition sec_data32 : ctype :=
  struct ["secmod" :- uint32_t;
     "rpcflavor" :- uint32_t;
     "flags" :- int32_t;
     "uid" :- uid_t;
     "data" :- caddr32_t].
Definition des_clnt_data : ctype :=
  struct ["syncaddr" :- netbuf;
     "knconf" :- ptr;
     "netname" :- ptr;
     "netnamelen" :- int].
Definition des_clnt_data32 : ctype :=
  struct ["syncaddr" :- netbuf32;
     "knconf" :- caddr32_t;
     "netname" :- caddr32_t;
     "netnamelen" :- int32_t].

(** [rpc/clnt.h] *)
Definition knetconfig : ctype :=
  struct ["knc_semantics" :- uint;
     "knc_protofmly" :- caddr_t;
     "knc_proto" :- caddr_t;
     "knc_rdev" :- dev_t;
     "knc_unused" :- array 8 uint].
Definition knetconfig32 : ctype :=
  struct ["knc_semantics" :- uint32_t;
     "knc_protofmly" :- caddr32_t;
     "knc_proto" :- caddr32_t;
     "knc_rdev" :- dev32_t;
     "knc_unused" :- array 8 uint32_t].

(** [rpc/rpcsys.h] *)
Definition krpc_revauth_1 : ctype :=
  struct ["uid" :- uid_t;
     "rpcsec_flavor" :- int;
     "flavor_data" :- ptr].
Definition krpc_revauth_132 : ctype :=
  struct ["uid" :- uid32_t;
     "rpcsec_flavor" :- int32_t;
     "flavor_data" :- caddr32_t].
Definition krpc_revauth : ctype :=
  struct ["version" :- int;
     "krpc_revauth_u" :- (union ["r" :- krpc_revauth_1])].
Definition krpc_revauth32 : ctype :=
  struct ["version" :- int32_t;
     "krpc_revauth_u" :- (union ["r" :- krpc_revauth_132])].

(** [sys/aggr.h] *)
Definition aggr_lacp_mode_t : ctype := enum.
Definition aggr_lacp_timer_t : ctype := enum.
Definition laioc_create : ctype :=
  struct ["lc_key" :- uint32_t;
     "lc_nports" :- uint32_t;
     "lc_ports" :- caddr_t;
     "lc_policy" :- uint32_t;
     "lc_mac" :- array ETHERADDRL uchar_t;
     "lc_mac_fixed" :- boolean_t;
     "lc_lacp_mode" :- aggr_lacp_mode_t;
     "lc_lacp_timer" :- aggr_lacp_timer_t].
Definition laioc_create32 : ctype :=
  struct ["lc_key" :- uint32_t;
     "lc_nports" :- uint32_t;
     "lc_ports" :- caddr32_t;
     "lc_policy" :- uint32_t;
     "lc_mac" :- array ETHERADDRL uchar_t;
     "lc_mac_fixed" :- boolean_t;
     "lc_lacp_mode" :- aggr_lacp_mode_t;
     "lc_lacp_timer" :- aggr_lacp_timer_t].
Definition laioc_delete : ctype :=
  struct ["ld_key" :- uint32_t].
Definition laioc_delete32 : ctype :=
  struct ["ld_key" :- uint32_t].
Definition laioc_add_rem : ctype :=
  struct ["la_key" :- uint32_t;
     "la_nports" :- uint32_t;
     "la_ports" :- caddr_t].
Definition laioc_add_rem32 : ctype :=
  struct ["la_key" :- uint32_t;
     "la_nports" :- uint32_t;
     "la_ports" :- caddr32_t].
Definition laioc_modify : ctype :=
  struct ["lu_key" :- uint32_t;
     "lu_modify_mask" :- uint8_t;
     "lu_policy" :- uint32_t;
     "lu_mac" :- array ETHERADDRL uchar_t;
     "lu_mac_fixed" :- boolean_t;
     "lu_lacp_mode" :- aggr_lacp_mode_t;
     "lu_lacp_timer" :- aggr_lacp_timer_t].
Definition laioc_modify32 : ctype :=
  struct ["lu_key" :- uint32_t;
     "lu_modify_mask" :- uint8_t;
     "lu_policy" :- uint32_t;
     "lu_mac" :- array ETHERADDRL uchar_t;
     "lu_mac_fixed" :- boolean_t;
     "lu_lacp_mode" :- aggr_lacp_mode_t;
     "lu_lacp_timer" :- aggr_lacp_timer_t].

(** [sys/dirent.h] *)
Definition dirent : ctype :=
  struct ["d_ino" :- ino_t;
     "d_off" :- off_t;
     "d_reclen" :- ushort;
     "d_name" :- array 1 char].
Definition dirent32 : ctype :=
  struct ["d_ino" :- ino32_t;
     "d_off" :- off32_t;
     "d_reclen" :- uint16_t;
     "d_name" :- array 1 char].

(** [sys/fcntl.h] *)
Definition flock : ctype :=
  struct ["l_type" :- short;
     "l_whence" :- short;
     "l_start" :- off_t;
     "l_len" :- off_t;
     "l_sysid" :- int;
     "l_pid" :- pid_t;
     "l_pad" :- array 4 long].
Definition flock32 : ctype :=
  struct ["l_type" :- int16_t;
     "l_whence" :- int16_t;
     "l_start" :- off32_t;
     "l_len" :- off32_t;
     "l_sysid" :- int32_t;
     "l_pid" :- pid32_t;
     "l_pad" :- array 4 int32_t].
Definition flock64 : ctype :=
  struct ["l_type" :- short;
     "l_whence" :- short;
     "l_start" :- off64_t;
     "l_len" :- off64_t;
     "l_sysid" :- int;
     "l_pid" :- pid_t;
     "l_pad" :- array 4 long].
Definition flock64_32 : ctype :=
  packed4 ["l_type" :- int16_t;
     "l_whence" :- int16_t;
     "l_start" :- off64_t;
     "l_len" :- off64_t;
     "l_sysid" :- int32_t;
     "l_pid" :- pid32_t;
     "l_pad" :- array 4 int32_t].

(** [sys/fs/cachefs_fs.h] *)
Definition cachefsoptions : ctype :=
  struct ["opt_flags" :- uint_t;
     "opt_popsize" :- int;
     "opt_fgsize" :- int].
Definition C_MAX_MOUNT_FSCDIRNAME : Z := 128.
Definition cachefs_mountargs : ctype :=
  struct ["cfs_options" :- cachefsoptions;
     "cfs_fsid" :- ptr;
     "cfs_cacheid" :- array C_MAX_MOUNT_FSCDIRNAME char;
     "cfs_cachedir" :- ptr;
     "cfs_backfs" :- ptr;
     "cfs_acregmin" :- uint_t;
     "cfs_acregmax" :- uint_t;
     "cfs_acdirmin" :- uint_t;
     "cfs_acdirmax" :- uint_t;
     "cfs_hostname" :- ptr;
     "cfs_backfsname" :- ptr].
Definition cachefs_mountargs32 : ctype :=
  struct ["cfs_options" :- cachefsoptions;
     "cfs_fsid" :- caddr32_t;
     "cfs_cacheid" :- array C_MAX_MOUNT_FSCDIRNAME char;
     "cfs_cachedir" :- caddr32_t;
     "cfs_backfs" :- caddr32_t;
     "cfs_acregmin" :- uint32_t;
     "cfs_acregmax" :- uint32_t;
     "cfs_acdirmin" :- uint32_t;
     "cfs_acdirmax" :- uint32_t;
     "cfs_hostname" :- caddr32_t;
     "cfs_backfsname" :- caddr32_t].

(** [sys/fs/cachefs_ioctl.h] *)
Definition cfsdcmd_cmds_t : ctype := enum.
Definition cachefsio_dcmd : ctype :=
  struct ["d_cmd" :- cfsdcmd_cmds_t;
     "d_sdata" :- ptr;
     "d_slen" :- int;
     "d_rdata" :- ptr;
     "d_rlen" :- int].
Definition cachefsio_dcmd32 : ctype :=
  struct ["d_cmd" :- cfsdcmd_cmds_t;
     "d_sdata" :- caddr32_t;
     "d_slen" :- int32_t;
     "d_rdata" :- caddr32_t;
     "d_rlen" :- int32_t].

(** [sys/fs/ufs_filio.h] *)
Definition fioio : ctype :=
  struct ["fio_ino" :- ino_t;
     "fio_gen" :- int;
     "fio_fd" :- int].
Definition fioio32 : ctype :=
  struct ["fio_ino" :- ino32_t;
     "fio_gen" :- int32_t;
     "fio_fd" :- int32_t].

(** [sys/fs/ufs_quota.h] *)
Definition quotctl32 : ctype :=
  struct ["op" :- int;
     "uid" :- uid_t;
     "addr" :- uint32_t].
Definition quotctl : ctype :=
  struct ["op" :- int;
     "uid" :- uid_t;
     "addr" :- caddr_t].

(** [sys/lockfs.h] *)
Definition lockfs32 : ctype :=
  struct ["lf_lock" :- uint32_t;
     "lf_flags" :- uint32_t;
     "lf_key" :- uint32_t;
     "lf_comlen" :- uint32_t;
     "lf_comment" :- uint32_t].
Definition lockfs : ctype :=
  struct ["lf_lock" :- ulong_t;
     "lf_flags" :- ulong_t;
     "lf_key" :- ulong_t;
     "lf_comlen" :- ulong_t;
     "lf_comment" :- caddr_t].

(** [sys/mntio.h] *)
Definition mnttagdesc : ctype :=
  struct ["mtd_major" :- uint_t;
     "mtd_minor" :- uint_t;
     "mtd_mntpt" :- ptr;
     "mtd_tag" :- ptr].
Definition mnttagdesc32 : ctype :=
  struct ["mtd_major" :- uint32_t;
     "mtd_minor" :- uint32_t;
     "mtd_mntpt" :- caddr32_t;
     "mtd_tag" :- caddr32_t].

(** [sys/stat.h] *)
Definition _ST_FSTYPSZ : Z := 16.

(** [sys/mntio.h] *)
Definition mntlookup : ctype :=
  struct ["mtl_mntpt_off" :- size_t;
     "mtl_mntpt" :- ptr;
     "mtl_major" :- major_t;
     "mtl_minor" :- minor_t;
     "mtl_ino" :- ino64_t;
     "mtl_fstype" :- array _ST_FSTYPSZ char].
Definition mntlookup32 : ctype :=
  struct ["mtl_mntpt_off" :- size32_t;
     "mtl_mntpt" :- caddr32_t;
     "mtl_major" :- major32_t;
     "mtl_minor" :- minor32_t;
     "mtl_ino" :- ino64_t;
     "mtl_fstype" :- array _ST_FSTYPSZ char].

(** [sys/pathconf.h] *)
Definition _BITS : Z := (8 * sizeof i386 short).

(** [sys/unistd.h] *)
Definition _PC_LAST : Z := 67.

(** [sys/pathconf.h] *)
Definition _PC_N : Z := ((_PC_LAST + _BITS - 1) / _BITS).
Definition pathcnf : ctype :=
  struct ["pc_link_max" :- int;
     "pc_max_canon" :- short;
     "pc_max_input" :- short;
     "pc_name_max" :- short;
     "pc_path_max" :- short;
     "pc_pipe_buf" :- short;
     "pc_vdisable" :- uchar_t;
     "pc_xxx" :- char;
     "pc_mask" :- array _PC_N short;
     "pc_refcnt" :- short;
     "pc_next" :- ptr].
Definition pathcnf32 : ctype :=
  struct ["pc_link_max" :- int32_t;
     "pc_max_canon" :- int16_t;
     "pc_max_input" :- int16_t;
     "pc_name_max" :- int16_t;
     "pc_path_max" :- int16_t;
     "pc_pipe_buf" :- int16_t;
     "pc_vdisable" :- uint8_t;
     "pc_xxx" :- int8_t;
     "pc_mask" :- array _PC_N int16_t;
     "pc_refcnt" :- int16_t;
     "pc_next" :- caddr32_t].

(** [sys/socket.h] *)
Definition socklen_t : ctype := uint32_t.
Definition msghdr : ctype :=
  struct ["msg_name" :- ptr;
     "msg_namelen" :- socklen_t;
     "msg_iov" :- ptr;
     "msg_iovlen" :- int;
     "msg_control" :- ptr;
     "msg_controllen" :- socklen_t;
     "msg_flags" :- int].
Definition omsghdr : ctype :=
  struct ["msg_name" :- ptr;
     "msg_namelen" :- socklen_t;
     "msg_iov" :- ptr;
     "msg_iovlen" :- int;
     "msg_accrights" :- caddr_t;
     "msg_accrightslen" :- int].
Definition omsghdr32 : ctype :=
  struct ["msg_name" :- caddr32_t;
     "msg_namelen" :- uint32_t;
     "msg_iov" :- caddr32_t;
     "msg_iovlen" :- int32_t;
     "msg_accrights" :- caddr32_t;
     "msg_accrightslen" :- uint32_t].
Definition msghdr32 : ctype :=
  struct ["msg_name" :- caddr32_t;
     "msg_namelen" :- uint32_t;
     "msg_iov" :- caddr32_t;
     "msg_iovlen" :- int32_t;
     "msg_control" :- caddr32_t;
     "msg_controllen" :- uint32_t;
     "msg_flags" :- int32_t].

(** [sys/stat.h] *)
Definition stat : ctype :=
  struct ["st_dev" :- dev_t;
     "st_pad1" :- array 3 long;
     "st_ino" :- ino_t;
     "st_mode" :- mode_t;
     "st_nlink" :- nlink_t;
     "st_uid" :- uid_t;
     "st_gid" :- gid_t;
     "st_rdev" :- dev_t;
     "st_pad2" :- array 2 long;
     "st_size" :- off_t;
     "st_pad3" :- long;
     "st_atim" :- timestruc_t;
     "st_mtim" :- timestruc_t;
     "st_ctim" :- timestruc_t;
     "st_blksize" :- blksize_t;
     "st_blocks" :- blkcnt_t;
     "st_fstype" :- array _ST_FSTYPSZ char;
     "st_pad4" :- array 8 long].
Definition stat32 : ctype :=
  struct ["st_dev" :- dev32_t;
     "st_pad1" :- array 3 int32_t;
     "st_ino" :- ino32_t;
     "st_mode" :- mode32_t;
     "st_nlink" :- nlink32_t;
     "st_uid" :- uid32_t;
     "st_gid" :- gid32_t;
     "st_rdev" :- dev32_t;
     "st_pad2" :- array 2 int32_t;
     "st_size" :- off32_t;
     "st_pad3" :- int32_t;
     "st_atim" :- timestruc32_t;
     "st_mtim" :- timestruc32_t;
     "st_ctim" :- timestruc32_t;
     "st_blksize" :- int32_t;
     "st_blocks" :- blkcnt32_t;
     "st_fstype" :- array _ST_FSTYPSZ char;
     "st_pad4" :- array 8 int32_t].

(** [sys/statvfs.h] *)
Definition _FSTYPSZ : Z := 16.
Definition FSTYPSZ : Z := _FSTYPSZ.
Definition statvfs : ctype :=
  by_model
  (struct ["f_bsize" :- ulong;
     "f_frsize" :- ulong;
     "f_blocks" :- fsblkcnt_t;
     "f_bfree" :- fsblkcnt_t;
     "f_bavail" :- fsblkcnt_t;
     "f_files" :- fsfilcnt_t;
     "f_ffree" :- fsfilcnt_t;
     "f_favail" :- fsfilcnt_t;
     "f_fsid" :- ulong;
     "f_basetype" :- array _FSTYPSZ char;
     "f_flag" :- ulong;
     "f_namemax" :- ulong;
     "f_fstr" :- array 32 char;
     "f_filler" :- array 16 ulong])
  (struct ["f_bsize" :- ulong;
     "f_frsize" :- ulong;
     "f_blocks" :- fsblkcnt_t;
     "f_bfree" :- fsblkcnt_t;
     "f_bavail" :- fsblkcnt_t;
     "f_files" :- fsfilcnt_t;
     "f_ffree" :- fsfilcnt_t;
     "f_favail" :- fsfilcnt_t;
     "f_fsid" :- ulong;
     "f_basetype" :- array _FSTYPSZ char;
     "f_flag" :- ulong;
     "f_namemax" :- ulong;
     "f_fstr" :- array 32 char]).
Definition statvfs32 : ctype :=
  struct ["f_bsize" :- uint32_t;
     "f_frsize" :- uint32_t;
     "f_blocks" :- fsblkcnt32_t;
     "f_bfree" :- fsblkcnt32_t;
     "f_bavail" :- fsblkcnt32_t;
     "f_files" :- fsfilcnt32_t;
     "f_ffree" :- fsfilcnt32_t;
     "f_favail" :- fsfilcnt32_t;
     "f_fsid" :- uint32_t;
     "f_basetype" :- array _FSTYPSZ char;
     "f_flag" :- uint32_t;
     "f_namemax" :- uint32_t;
     "f_fstr" :- array 32 char;
     "f_filler" :- array 16 uint32_t].
Definition statvfs64 : ctype :=
  by_model
  (struct ["f_bsize" :- ulong;
     "f_frsize" :- ulong;
     "f_blocks" :- fsblkcnt64_t;
     "f_bfree" :- fsblkcnt64_t;
     "f_bavail" :- fsblkcnt64_t;
     "f_files" :- fsfilcnt64_t;
     "f_ffree" :- fsfilcnt64_t;
     "f_favail" :- fsfilcnt64_t;
     "f_fsid" :- ulong;
     "f_basetype" :- array FSTYPSZ char;
     "f_flag" :- ulong;
     "f_namemax" :- ulong;
     "f_fstr" :- array 32 char;
     "f_filler" :- array 16 ulong])
  (struct ["f_bsize" :- ulong;
     "f_frsize" :- ulong;
     "f_blocks" :- fsblkcnt64_t;
     "f_bfree" :- fsblkcnt64_t;
     "f_bavail" :- fsblkcnt64_t;
     "f_files" :- fsfilcnt64_t;
     "f_ffree" :- fsfilcnt64_t;
     "f_favail" :- fsfilcnt64_t;
     "f_fsid" :- ulong;
     "f_basetype" :- array FSTYPSZ char;
     "f_flag" :- ulong;
     "f_namemax" :- ulong;
     "f_fstr" :- array 32 char]).
Definition statvfs64_32 : ctype :=
  packed4 ["f_bsize" :- uint32_t;
     "f_frsize" :- uint32_t;
     "f_blocks" :- fsblkcnt64_t;
     "f_bfree" :- fsblkcnt64_t;
     "f_bavail" :- fsblkcnt64_t;
     "f_files" :- fsfilcnt64_t;
     "f_ffree" :- fsfilcnt64_t;
     "f_favail" :- fsfilcnt64_t;
     "f_fsid" :- uint32_t;
     "f_basetype" :- array FSTYPSZ char;
     "f_flag" :- uint32_t;
     "f_namemax" :- uint32_t;
     "f_fstr" :- array 32 char;
     "f_filler" :- array 16 uint32_t].

(** [sys/stropts.h] *)
Definition strioctl : ctype :=
  struct ["ic_cmd" :- int;
     "ic_timout" :- int;
     "ic_len" :- int;
     "ic_dp" :- ptr].
Definition strioctl32 : ctype :=
  struct ["ic_cmd" :- int32_t;
     "ic_timout" :- int32_t;
     "ic_len" :- int32_t;
     "ic_dp" :- caddr32_t].
Definition strbuf : ctype :=
  struct ["maxlen" :- int;
     "len" :- int;
     "buf" :- caddr_t].
Definition strbuf32 : ctype :=
  struct ["maxlen" :- int32_t;
     "len" :- int32_t;
     "buf" :- caddr32_t].
Definition strpeek : ctype :=
  struct ["ctlbuf" :- strbuf;
     "databuf" :- strbuf;
     "flags" :- t_uscalar_t].
Definition strpeek32 : ctype :=
  struct ["ctlbuf" :- strbuf32;
     "databuf" :- strbuf32;
     "flags" :- uint32_t].
Definition strfdinsert : ctype :=
  struct ["ctlbuf" :- strbuf;
     "databuf" :- strbuf;
     "flags" :- t_uscalar_t;
     "fildes" :- int;
     "offset" :- int].
Definition strfdinsert32 : ctype :=
  struct ["ctlbuf" :- strbuf32;
     "databuf" :- strbuf32;
     "flags" :- uint32_t;
     "fildes" :- int32_t;
     "offset" :- int32_t].
Definition str_list : ctype :=
  struct ["sl_nmods" :- int;
     "sl_modlist" :- ptr].
Definition str_list32 : ctype :=
  struct ["sl_nmods" :- int32_t;
     "sl_modlist" :- caddr32_t].
Definition strmodconf : ctype :=
  struct ["pos" :- int;
     "mod_name" :- caddr_t].
Definition strmodconf32 : ctype :=
  struct ["pos" :- int32_t;
     "mod_name" :- caddr32_t].

(** [sys/uio.h] *)
Definition iovec : ctype :=
  by_model
  (struct ["iov_base" :- caddr_t;
     "iov_len" :- long])
  (struct ["iov_base" :- caddr_t;
     "iov_len" :- size_t]).
Definition iovec32 : ctype :=
  struct ["iov_base" :- caddr32_t;
     "iov_len" :- int32_t].

(** [sys/ustat.h] *)
Definition ustat : ctype :=
  struct ["f_tfree" :- daddr_t;
     "f_tinode" :- ino_t;
     "f_fname" :- array 6 char;
     "f_fpack" :- array 6 char].
Definition ustat32 : ctype :=
  struct ["f_tfree" :- daddr32_t;
     "f_tinode" :- ino32_t;
     "f_fname" :- array 6 char;
     "f_fpack" :- array 6 char].

(** [sys/utime.h] *)
Definition utimbuf : ctype :=
  struct ["actime" :- time_t;
     "modtime" :- time_t].
Definition utimbuf32 : ctype :=
  struct ["actime" :- time32_t;
     "modtime" :- time32_t].

(** [sys/vfs.h] *)
Definition MAXFIDSZ : Z := 64.
Definition fid : ctype :=
  struct ["un" :- (union ["fid_pad" :- long;
       "_fid" :- (struct ["len" :- ushort_t; "data" :- array MAXFIDSZ char])])].
Definition fid32 : ctype :=
  struct ["un" :- (union ["fid_pad" :- int32_t;
       "_fid" :- (struct ["len" :- uint16_t; "data" :- array MAXFIDSZ char])])].

(** [sys/vnode.h] *)
Definition vtype_t : ctype := enum.
Definition vattr : ctype :=
  struct ["va_mask" :- uint_t;
     "va_type" :- vtype_t;
     "va_mode" :- mode_t;
     "va_uid" :- uid_t;
     "va_gid" :- gid_t;
     "va_fsid" :- dev_t;
     "va_nodeid" :- u_longlong_t;
     "va_nlink" :- nlink_t;
     "va_size" :- u_offset_t;
     "va_atime" :- timestruc_t;
     "va_mtime" :- timestruc_t;
     "va_ctime" :- timestruc_t;
     "va_rdev" :- dev_t;
     "va_blksize" :- uint_t;
     "va_nblocks" :- u_longlong_t;
     "va_seq" :- uint_t].
Definition vattr32 : ctype :=
  packed4 ["va_mask" :- uint32_t;
     "va_type" :- vtype_t;
     "va_mode" :- mode32_t;
     "va_uid" :- uid32_t;
     "va_gid" :- gid32_t;
     "va_fsid" :- dev32_t;
     "va_nodeid" :- u_longlong_t;
     "va_nlink" :- nlink_t;
     "va_size" :- u_offset_t;
     "va_atime" :- timestruc32_t;
     "va_mtime" :- timestruc32_t;
     "va_ctime" :- timestruc32_t;
     "va_rdev" :- dev32_t;
     "va_blksize" :- uint32_t;
     "va_nblocks" :- u_longlong_t;
     "va_seq" :- uint32_t].

(** The structures and what the 64-bit kernel reads them as. *)
Definition views_fs : list (ctype * ctype) :=
  [(au_qctrl32, au_qctrl);
   (au_tid32, au_tid);
   (au_tid_addr32, au_tid_addr);
   (auditinfo32, auditinfo);
   (auditinfo_addr32, auditinfo_addr);
   (auditpinfo32, auditpinfo);
   (auditpinfo_addr32, auditpinfo_addr);
   (cachefs_mountargs32, cachefs_mountargs);
   (cachefsio_dcmd32, cachefsio_dcmd);
   (des_clnt_data32, des_clnt_data);
   (dirent32, dirent);
   (exportfs_args32, exportfs_args);
   (fid32, fid);
   (fioio32, fioio);
   (flock32, flock);
   (flock64_32, flock64);
   (ifconf32, ifconf);
   (iovec32, iovec);
   (knetconfig32, knetconfig);
   (krpc_revauth32, krpc_revauth);
   (krpc_revauth_132, krpc_revauth_1);
   (laioc_add_rem32, laioc_add_rem);
   (laioc_create32, laioc_create);
   (laioc_delete32, laioc_delete);
   (laioc_modify32, laioc_modify);
   (lifconf32, lifconf);
   (lifsrcof32, lifsrcof);
   (lm_svc_args32, lm_svc_args);
   (lockfs32, lockfs);
   (mntlookup32, mntlookup);
   (mnttagdesc32, mnttagdesc);
   (msghdr32, msghdr);
   (netbuf32, netbuf);
   (nfs4_svc_args32, nfs4_svc_args);
   (nfs4clrst_args32, nfs4clrst_args);
   (nfs_args32, nfs_args);
   (nfs_args_extA32, nfs_args_extA);
   (nfs_args_extB32, nfs_args_extB);
   (nfs_ext32, nfs_ext);
   (nfs_getfh_args32, nfs_getfh_args);
   (nfs_revauth_args32, nfs_revauth_args);
   (nfs_svc_args32, nfs_svc_args);
   (nfsl_flush_args32, nfsl_flush_args);
   (pathcnf32, pathcnf);
   (quotctl32, quotctl);
   (rdma_svc_args32, rdma_svc_args);
   (sctpopt32, sctpopt);
   (sec_data32, sec_data);
   (secinfo32, secinfo);
   (seconfig32, seconfig);
   (stat32, stat);
   (statvfs32, statvfs);
   (statvfs64_32, statvfs64);
   (str_list32, str_list);
   (strbuf32, strbuf);
   (strfdinsert32, strfdinsert);
   (strioctl32, strioctl);
   (strmodconf32, strmodconf);
   (strpeek32, strpeek);
   (ustat32, ustat);
   (utimbuf32, utimbuf);
   (vattr32, vattr)].

Lemma views_fs_agree : views_check views_fs = true.
Proof. vm_compute. reflexivity. Qed.
