(* ===== verification/Abi32Dev.v ===== *)
(** * Structures of devices

    The arguments of the device ioctls and the declarations a 64-bit kernel uses
    for 32-bit callers. *)
From Stdlib Require Import String.
From S2P Require Import Prelude ByteOrder CTypes AbiTypes.
#[local] Open Scope Z_scope.
#[local] Open Scope ctype_scope.


(** [rpc/types.h] *)
Definition bool_t : ctype := int.

(** [sys/agpgart.h] *)
Definition _agp_version : ctype :=
  struct ["agpv_major" :- uint16_t;
     "agpv_minor" :- uint16_t].

(** [sys/agp/agpgart_impl.h] *)
Definition _agp_info32 : ctype :=
  struct ["agpi32_version" :- _agp_version;
     "agpi32_devid" :- uint32_t;
     "agpi32_mode" :- uint32_t;
     "agpi32_aperbase" :- uint32_t;
     "agpi32_apersize" :- uint32_t;
     "agpi32_pgtotal" :- uint32_t;
     "agpi32_pgsystem" :- uint32_t;
     "agpi32_pgused" :- uint32_t].

(** [sys/agpgart.h] *)
Definition _agp_info : ctype :=
  struct ["agpi_version" :- _agp_version;
     "agpi_devid" :- uint32_t;
     "agpi_mode" :- uint32_t;
     "agpi_aperbase" :- ulong_t;
     "agpi_apersize" :- size_t;
     "agpi_pgtotal" :- uint32_t;
     "agpi_pgsystem" :- uint32_t;
     "agpi_pgused" :- uint32_t].

(** [sys/av/iec61883.h] *)
Definition iec61883_isoch_init : ctype :=
  struct ["ii_version" :- int;
     "ii_pkt_size" :- int;
     "ii_frame_size" :- int;
     "ii_frame_cnt" :- int;
     "ii_direction" :- int;
     "ii_bus_speed" :- int;
     "ii_channel" :- uint64_t;
     "ii_dbs" :- int;
     "ii_fn" :- int;
     "ii_rate_n" :- int;
     "ii_rate_d" :- int;
     "ii_ts_mode" :- int;
     "ii_flags" :- int;
     "ii_handle" :- int;
     "ii_frame_rcnt" :- int;
     "ii_mmap_off" :- off_t;
     "ii_rchannel" :- int;
     "ii_error" :- int].
Definition iec61883_node_text_leaf : ctype :=
  struct ["tl_parent" :- int;
     "tl_num" :- int;
     "tl_len" :- int;
     "tl_data" :- ptr;
     "tl_cnt" :- int;
     "tl_rlen" :- int;
     "tl_spec" :- uint32_t;
     "tl_lang_id" :- uint32_t;
     "tl_desc_entry" :- uint32_t].
Definition iec61883_isoch_init32 : ctype :=
  struct ["ii_version" :- int;
     "ii_pkt_size" :- int;
     "ii_frame_size" :- int;
     "ii_frame_cnt" :- int;
     "ii_direction" :- int;
     "ii_bus_speed" :- int;
     "ii_channel" :- uint64_t;
     "ii_dbs" :- int;
     "ii_fn" :- int;
     "ii_rate_n" :- int;
     "ii_rate_d" :- int;
     "ii_ts_mode" :- int;
     "ii_flags" :- int;
     "ii_handle" :- int;
     "ii_frame_rcnt" :- int;
     "ii_mmap_off" :- int32_t;
     "ii_rchannel" :- int;
     "ii_error" :- int].
Definition iec61883_node_text_leaf32 : ctype :=
  struct ["tl_parent" :- int;
     "tl_num" :- int;
     "tl_len" :- int;
     "tl_data" :- caddr32_t;
     "tl_cnt" :- int;
     "tl_rlen" :- int;
     "tl_spec" :- uint32_t;
     "tl_lang_id" :- uint32_t;
     "tl_desc_entry" :- uint32_t].

(** [sys/bofi.h] *)
Definition NAMESIZE : Z := 256.
Definition ERRMSGSIZE : Z := 256.
Definition acc_log : ctype :=
  struct ["logsize" :- uint32_t;
     "entries" :- uint32_t;
     "flags" :- uint_t;
     "wrapcnt" :- uint_t;
     "start_time" :- hrtime_t;
     "stop_time" :- hrtime_t;
     "logbase" :- caddr_t].
Definition acc_log32 : ctype :=
  packed4 ["logsize" :- uint32_t;
     "entries" :- uint32_t;
     "flags" :- uint_t;
     "wrapcnt" :- uint_t;
     "start_time" :- hrtime_t;
     "stop_time" :- hrtime_t;
     "logbase" :- caddr32_t].
Definition bofi_errdef : ctype :=
  struct ["namesize" :- uint_t;
     "name" :- array NAMESIZE char;
     "instance" :- int;
     "rnumber" :- int;
     "offset" :- offset_t;
     "len" :- offset_t;
     "access_type" :- uint_t;
     "access_count" :- uint_t;
     "fail_count" :- uint_t;
     "acc_chk" :- uint_t;
     "optype" :- uint_t;
     "operand" :- uint64_t;
     "log" :- acc_log;
     "errdef_handle" :- uint64_t].
Definition bofi_errdef32 : ctype :=
  packed4 ["namesize" :- uint_t;
     "name" :- array NAMESIZE char;
     "instance" :- int;
     "rnumber" :- int;
     "offset" :- offset_t;
     "len" :- offset_t;
     "access_type" :- uint_t;
     "access_count" :- uint_t;
     "fail_count" :- uint_t;
     "acc_chk" :- uint_t;
     "optype" :- uint_t;
     "operand" :- uint64_t;
     "log" :- acc_log32;
     "errdef_handle" :- uint64_t].
Definition bofi_get_handles : ctype :=
  struct ["namesize" :- uint_t;
     "name" :- array NAMESIZE char;
     "instance" :- int;
     "count" :- int;
     "buffer" :- caddr_t].
Definition bofi_get_handles32 : ctype :=
  struct ["namesize" :- uint_t;
     "name" :- array NAMESIZE char;
     "instance" :- int;
     "count" :- int;
     "buffer" :- caddr32_t].
Definition bofi_get_hdl_info : ctype :=
  struct ["namesize" :- uint_t;
     "name" :- array NAMESIZE char;
     "count" :- int;
     "hdli" :- caddr_t].
Definition bofi_get_hdl_info32 : ctype :=
  struct ["namesize" :- uint_t;
     "name" :- array NAMESIZE char;
     "count" :- int;
     "hdli" :- caddr32_t].

(** [sys/sunddi.h] *)
Definition ddi_fault_impact_t : ctype := enum.

(** [sys/bofi.h] *)
Definition bofi_errstate : ctype :=
  struct ["fail_time" :- hrtime_t;
     "msg_time" :- hrtime_t;
     "access_count" :- uint_t;
     "fail_count" :- uint_t;
     "acc_chk" :- uint_t;
     "errmsg_count" :- uint_t;
     "buffer" :- array ERRMSGSIZE char;
     "severity" :- ddi_fault_impact_t;
     "log" :- acc_log;
     "errdef_handle" :- uint64_t].
Definition bofi_errstate32 : ctype :=
  packed4 ["fail_time" :- hrtime_t;
     "msg_time" :- hrtime_t;
     "access_count" :- uint_t;
     "fail_count" :- uint_t;
     "acc_chk" :- uint_t;
     "errmsg_count" :- uint_t;
     "buffer" :- array ERRMSGSIZE char;
     "severity" :- ddi_fault_impact_t;
     "log" :- acc_log32;
     "errdef_handle" :- uint64_t].

(** [sys/cdio.h] *)
Definition cdrom_read : ctype :=
  struct ["cdread_lba" :- int;
     "cdread_bufaddr" :- caddr_t;
     "cdread_buflen" :- int].
Definition cdrom_read32 : ctype :=
  struct ["cdread_lba" :- int;
     "cdread_bufaddr" :- caddr32_t;
     "cdread_buflen" :- int].
Definition cdrom_cdda : ctype :=
  struct ["cdda_addr" :- uint;
     "cdda_length" :- uint;
     "cdda_data" :- caddr_t;
     "cdda_subcode" :- uchar].
Definition cdrom_cdda32 : ctype :=
  struct ["cdda_addr" :- uint;
     "cdda_length" :- uint;
     "cdda_data" :- caddr32_t;
     "cdda_subcode" :- uchar].
Definition cdrom_cdxa : ctype :=
  struct ["cdxa_addr" :- uint;
     "cdxa_length" :- uint;
     "cdxa_data" :- caddr_t;
     "cdxa_format" :- uchar].
Definition cdrom_cdxa32 : ctype :=
  struct ["cdxa_addr" :- uint;
     "cdxa_length" :- uint;
     "cdxa_data" :- caddr32_t;
     "cdxa_format" :- uchar].
Definition cdrom_subcode : ctype :=
  struct ["cdsc_length" :- uint;
     "cdsc_addr" :- caddr_t].
Definition cdrom_subcode32 : ctype :=
  struct ["cdsc_length" :- uint;
     "cdsc_addr" :- caddr32_t].

(** [sys/cladm.h] *)
Definition cladm_netaddrs_t : ctype :=
  struct ["cladm_num_netaddrs" :- uint32_t;
     "cladm_netaddrs_array" :- ptr].
Definition cladm_netaddrs32_t : ctype :=
  struct ["cladm_num_netaddrs" :- uint32_t;
     "cladm_netaddrs_array" :- caddr32_t].

(** [sys/cpc_impl.h] *)
Definition __cpc_args : ctype :=
  struct ["udata1" :- ptr;
     "udata2" :- ptr;
     "udata3" :- ptr].
Definition __cpc_args32 : ctype :=
  struct ["udata1" :- caddr32_t;
     "udata2" :- caddr32_t;
     "udata3" :- caddr32_t].

(** [sys/cpuid_drv.h] *)
Definition cpuid_get_hwcap : ctype :=
  struct ["cgh_archname" :- ptr;
     "cgh_hwcap" :- uint_t].
Definition cpuid_get_hwcap32 : ctype :=
  struct ["cgh_archname" :- caddr32_t;
     "cgh_hwcap" :- uint32_t].

(** [sys/devctl.h] *)
Definition devctl_iocdata : ctype :=
  struct ["cmd" :- uint_t;
     "flags" :- uint_t;
     "cpyout_buf" :- ptr;
     "nvl_user" :- ptr;
     "nvl_usersz" :- size_t;
     "c_nodename" :- ptr;
     "c_unitaddr" :- ptr].
Definition devctl_iocdata32 : ctype :=
  struct ["cmd" :- uint32_t;
     "flags" :- uint32_t;
     "cpyout_buf" :- caddr32_t;
     "nvl_user" :- caddr32_t;
     "nvl_usersz" :- uint32_t;
     "c_nodename" :- caddr32_t;
     "c_unitaddr" :- caddr32_t].
Definition ap_rstate_t : ctype := enum.
Definition ap_ostate_t : ctype := enum.
Definition ap_condition_t : ctype := enum.
Definition devctl_ap_state : ctype :=
  struct ["ap_rstate" :- ap_rstate_t;
     "ap_ostate" :- ap_ostate_t;
     "ap_condition" :- ap_condition_t;
     "ap_last_change" :- time_t;
     "ap_error_code" :- uint32_t;
     "ap_in_transition" :- uint8_t].
Definition devctl_ap_state32 : ctype :=
  struct ["ap_rstate" :- ap_rstate_t;
     "ap_ostate" :- ap_ostate_t;
     "ap_condition" :- ap_condition_t;
     "ap_last_change" :- time32_t;
     "ap_error_code" :- uint32_t;
     "ap_in_transition" :- uint8_t].

(** [sys/dklabel.h] *)
Definition dk_map : ctype :=
  struct ["dkl_cylno" :- daddr_t;
     "dkl_nblk" :- daddr_t].

(** [sys/dkio.h] *)
Definition dk_allmap : ctype :=
  struct ["dka_map" :- array NDKMAP dk_map].

(** [sys/dklabel.h] *)
Definition dk_map32 : ctype :=
  struct ["dkl_cylno" :- daddr32_t;
     "dkl_nblk" :- daddr32_t].

(** [sys/dkio.h] *)
Definition dk_allmap32 : ctype :=
  struct ["dka_map" :- array NDKMAP dk_map32].
Definition defect_header32 : ctype :=
  struct ["head" :- int;
     "buffer" :- caddr32_t].
Definition defect_header : ctype :=
  struct ["head" :- int;
     "buffer" :- caddr_t].
Definition part_info32 : ctype :=
  struct ["p_start" :- daddr32_t;
     "p_length" :- int].
Definition part_info : ctype :=
  struct ["p_start" :- daddr_t;
     "p_length" :- int].
Definition VOL_SIDENAME : Z := 256.
Definition vol_directed_rd : ctype :=
  struct ["vdr_flags" :- int;
     "vdr_offset" :- offset_t;
     "vdr_nbytes" :- size_t;
     "vdr_bytesread" :- size_t;
     "vdr_data" :- ptr;
     "vdr_side" :- int;
     "vdr_side_name" :- array VOL_SIDENAME char].
Definition vol_directed_rd32 : ctype :=
  packed4 ["vdr_flags" :- int32_t;
     "vdr_offset" :- offset_t;
     "vdr_nbytes" :- size32_t;
     "vdr_bytesread" :- size32_t;
     "vdr_data" :- caddr32_t;
     "vdr_side" :- int32_t;
     "vdr_side_name" :- array VOL_SIDENAME char].

(** [sys/dktp/dadkio.h] *)
Definition dadk_ioc_string32 : ctype :=
  struct ["is_buf" :- caddr32_t;
     "is_size" :- int].
Definition dadk_ioc_string : ctype :=
  struct ["is_buf" :- caddr_t;
     "is_size" :- int].
Definition DADKIO_ERROR_INFO_LEN : Z := 128.
Definition dadkio_status : ctype :=
  struct ["status" :- int;
     "resid" :- ulong_t;
     "failed_blk_is_valid" :- int;
     "failed_blk" :- daddr_t;
     "fru_code_is_valid" :- int;
     "fru_code" :- int;
     "add_error_info" :- array DADKIO_ERROR_INFO_LEN char].
Definition dadkio_status32 : ctype :=
  struct ["status" :- int;
     "resid" :- uint32_t;
     "failed_blk_is_valid" :- int;
     "failed_blk" :- daddr32_t;
     "fru_code_is_valid" :- int;
     "fru_code" :- int;
     "add_error_info" :- array DADKIO_ERROR_INFO_LEN char].
Definition dadkio_rwcmd : ctype :=
  struct ["cmd" :- int;
     "flags" :- int;
     "blkaddr" :- daddr_t;
     "buflen" :- uint_t;
     "bufaddr" :- caddr_t;
     "status" :- dadkio_status].
Definition dadkio_rwcmd32 : ctype :=
  struct ["cmd" :- int;
     "flags" :- int;
     "blkaddr" :- daddr32_t;
     "buflen" :- uint_t;
     "bufaddr" :- caddr32_t;
     "status" :- dadkio_status32].

(** [sys/ecppsys.h] *)
Definition ecpp_device_id : ctype :=
  by_model
  (struct ["mode" :- int;
     "len" :- int;
     "rlen" :- int;
     "addr" :- ptr;
     "filler" :- array 2 int])
  (struct ["mode" :- int;
     "len" :- int;
     "rlen" :- int;
     "addr" :- ptr]).
Definition ecpp_device_id32 : ctype :=
  struct ["mode" :- int;
     "len" :- int;
     "rlen" :- int;
     "addr" :- caddr32_t;
     "filler" :- array 2 int].

(** [sys/fbio.h] *)
Definition fbcmap : ctype :=
  struct ["index" :- int;
     "count" :- int;
     "red" :- ptr;
     "green" :- ptr;
     "blue" :- ptr].
Definition fbcmap32 : ctype :=
  struct ["index" :- int32_t;
     "count" :- int32_t;
     "red" :- caddr32_t;
     "green" :- caddr32_t;
     "blue" :- caddr32_t].
Definition fbcurpos : ctype :=
  struct ["x" :- short;
     "y" :- short].
Definition fbcursor : ctype :=
  struct ["set" :- short;
     "enable" :- short;
     "pos" :- fbcurpos;
     "hot" :- fbcurpos;
     "cmap" :- fbcmap;
     "size" :- fbcurpos;
     "image" :- ptr;
     "mask" :- ptr].
Definition fbcursor32 : ctype :=
  struct ["set" :- short;
     "enable" :- short;
     "pos" :- fbcurpos;
     "hot" :- fbcurpos;
     "cmap" :- fbcmap32;
     "size" :- fbcurpos;
     "image" :- caddr32_t;
     "mask" :- caddr32_t].
Definition fb_wid_list : ctype :=
  struct ["wl_flags" :- uint;
     "wl_count" :- uint;
     "wl_list" :- ptr].
Definition fb_wid_list32 : ctype :=
  struct ["wl_flags" :- uint32_t;
     "wl_count" :- uint32_t;
     "wl_list" :- caddr32_t].
Definition fbcmap_i : ctype :=
  struct ["flags" :- uint;
     "id" :- int;
     "index" :- int;
     "count" :- int;
     "red" :- ptr;
     "green" :- ptr;
     "blue" :- ptr].
Definition fbcmap_i32 : ctype :=
  struct ["flags" :- uint32_t;
     "id" :- int32_t;
     "index" :- int32_t;
     "count" :- int32_t;
     "red" :- caddr32_t;
     "green" :- caddr32_t;
     "blue" :- caddr32_t].

(** [sys/fdio.h] *)
Definition fd_cmd : ctype :=
  struct ["fdc_cmd" :- ushort_t;
     "fdc_flags" :- int;
     "fdc_blkno" :- daddr_t;
     "fdc_secnt" :- int;
     "fdc_bufaddr" :- caddr_t;
     "fdc_buflen" :- uint_t].
Definition fd_cmd32 : ctype :=
  struct ["fdc_cmd" :- ushort_t;
     "fdc_flags" :- int;
     "fdc_blkno" :- daddr32_t;
     "fdc_secnt" :- int;
     "fdc_bufaddr" :- caddr32_t;
     "fdc_buflen" :- uint_t].
Definition fd_raw : ctype :=
  struct ["fdr_cmd" :- array 10 char;
     "fdr_cnum" :- short;
     "fdr_result" :- array 10 char;
     "fdr_nbytes" :- ushort_t;
     "fdr_addr" :- caddr_t].
Definition fd_raw32 : ctype :=
  struct ["fdr_cmd" :- array 10 char;
     "fdr_cnum" :- short;
     "fdr_result" :- array 10 char;
     "fdr_nbytes" :- ushort_t;
     "fdr_addr" :- caddr32_t].

(** [sys/hotplug/hpctrl.h] *)
Definition hpc_control_data : ctype :=
  struct ["cmd" :- uint_t;
     "data" :- ptr].
Definition hpc_control32_data : ctype :=
  struct ["cmd" :- uint_t;
     "data" :- caddr32_t].

(** [sys/logindmux.h] *)
Definition protocol_arg : ctype :=
  struct ["dev" :- dev_t;
     "flag" :- int].
Definition protocol_arg32 : ctype :=
  struct ["dev" :- dev32_t;
     "flag" :- int32_t].

(** [sys/mem.h] *)
Definition mem_name : ctype :=
  struct ["m_addr" :- uint64_t;
     "m_synd" :- uint64_t;
     "m_type" :- array 2 uint64_t;
     "m_name" :- caddr_t;
     "m_namelen" :- size_t].
Definition mem_name32 : ctype :=
  struct ["m_addr" :- uint64_t;
     "m_synd" :- uint64_t;
     "m_type" :- array 2 uint64_t;
     "m_name" :- caddr32_t;
     "m_namelen" :- size32_t].

(** [sys/mhd.h] *)
Definition mhioc_key_list : ctype :=
  struct ["listsize" :- uint32_t;
     "listlen" :- uint32_t;
     "list" :- ptr].
Definition mhioc_inkeys : ctype :=
  struct ["generation" :- uint32_t;
     "li" :- ptr].
Definition mhioc_key_list32 : ctype :=
  struct ["listsize" :- uint32_t;
     "listlen" :- uint32_t;
     "list" :- caddr32_t].
Definition mhioc_inkeys32 : ctype :=
  struct ["generation" :- uint32_t;
     "li" :- caddr32_t].
Definition mhioc_resv_desc_list : ctype :=
  struct ["listsize" :- uint32_t;
     "listlen" :- uint32_t;
     "list" :- ptr].
Definition mhioc_inresvs : ctype :=
  struct ["generation" :- uint32_t;
     "li" :- ptr].
Definition mhioc_resv_desc_list32 : ctype :=
  struct ["listsize" :- uint32_t;
     "listlen" :- uint32_t;
     "list" :- caddr32_t].
Definition mhioc_inresvs32 : ctype :=
  struct ["generation" :- uint32_t;
     "li" :- caddr32_t].

(** [sys/modctl.h] *)
Definition aliases : ctype :=
  struct ["a_next" :- ptr;
     "a_name" :- ptr;
     "a_len" :- int].
Definition MAXMODCONFNAME : Z := 256.
Definition modconfig : ctype :=
  struct ["drvname" :- array MAXMODCONFNAME char;
     "drvclass" :- array MAXMODCONFNAME char;
     "major" :- int;
     "num_aliases" :- int;
     "ap" :- ptr].
Definition aliases32 : ctype :=
  struct ["a_next" :- caddr32_t;
     "a_name" :- caddr32_t;
     "a_len" :- int32_t].
Definition modconfig32 : ctype :=
  struct ["drvname" :- array MAXMODCONFNAME char;
     "drvclass" :- array MAXMODCONFNAME char;
     "major" :- int32_t;
     "num_aliases" :- int32_t;
     "ap" :- caddr32_t].
Definition MODMAXNAMELEN : Z := 32.
Definition MODMAXLINKINFOLEN : Z := 32.
Definition modspecific_info : ctype :=
  struct ["msi_linkinfo" :- array MODMAXLINKINFOLEN char;
     "msi_p0" :- int].
Definition MODMAXLINK : Z := 10.
Definition modinfo : ctype :=
  struct ["mi_info" :- int;
     "mi_state" :- int;
     "mi_id" :- int;
     "mi_nextid" :- int;
     "mi_base" :- caddr_t;
     "mi_size" :- size_t;
     "mi_rev" :- int;
     "mi_loadcnt" :- int;
     "mi_name" :- array MODMAXNAMELEN char;
     "mi_msinfo" :- array MODMAXLINK modspecific_info].
Definition MODMAXNAMELEN32 : Z := 32.
Definition MODMAXLINKINFOLEN32 : Z := 32.
Definition MODMAXLINK32 : Z := 10.
Definition modspecific_info32 : ctype :=
  struct ["msi_linkinfo" :- array MODMAXLINKINFOLEN32 char;
     "msi_p0" :- int32_t].
Definition modinfo32 : ctype :=
  struct ["mi_info" :- int32_t;
     "mi_state" :- int32_t;
     "mi_id" :- int32_t;
     "mi_nextid" :- int32_t;
     "mi_base" :- caddr32_t;
     "mi_size" :- uint32_t;
     "mi_rev" :- int32_t;
     "mi_loadcnt" :- int32_t;
     "mi_name" :- array MODMAXNAMELEN32 char;
     "mi_msinfo" :- array MODMAXLINK32 modspecific_info32].

(** [sys/mtio.h] *)
Definition mtop : ctype :=
  struct ["mt_op" :- short;
     "mt_count" :- daddr_t].
Definition mtop32 : ctype :=
  struct ["mt_op" :- short;
     "mt_count" :- daddr32_t].
Definition mtget : ctype :=
  struct ["mt_type" :- short;
     "mt_dsreg" :- short;
     "mt_erreg" :- short;
     "mt_resid" :- daddr_t;
     "mt_fileno" :- daddr_t;
     "mt_blkno" :- daddr_t;
     "mt_flags" :- ushort_t;
     "mt_bf" :- short].
Definition mtget32 : ctype :=
  struct ["mt_type" :- short;
     "mt_dsreg" :- short;
     "mt_erreg" :- short;
     "mt_resid" :- daddr32_t;
     "mt_fileno" :- daddr32_t;
     "mt_blkno" :- daddr32_t;
     "mt_flags" :- ushort_t;
     "mt_bf" :- short].
Definition mtdrivetype_request : ctype :=
  struct ["size" :- int;
     "mtdtp" :- ptr].
Definition mtdrivetype_request32 : ctype :=
  struct ["size" :- int;
     "mtdtp" :- caddr32_t].

(** [sys/param.h] *)
Definition MAXNAMELEN : Z := 256.

(** [sys/pm.h] *)
Definition pm_request : ctype :=
  struct ["who" :- caddr_t;
     "select" :- int;
     "level" :- int;
     "dependent" :- caddr_t;
     "size" :- int].
Definition pm_req : ctype :=
  struct ["physpath" :- ptr;
     "component" :- int;
     "value" :- int;
     "data" :- ptr;
     "datasize" :- size_t].
Definition pm_state_change : ctype :=
  struct ["physpath" :- caddr_t;
     "component" :- int;
     "event" :- ushort_t;
     "flags" :- ushort_t;
     "timestamp" :- time_t;
     "old_level" :- int;
     "new_level" :- int;
     "size" :- size_t].
Definition pm_request32 : ctype :=
  struct ["who" :- caddr32_t;
     "select" :- int;
     "level" :- int;
     "dependent" :- caddr32_t;
     "size" :- size32_t].
Definition pm_req32 : ctype :=
  struct ["physpath" :- caddr32_t;
     "component" :- int;
     "value" :- int;
     "data" :- caddr32_t;
     "datasize" :- size32_t].
Definition pm_state_change32 : ctype :=
  struct ["physpath" :- caddr32_t;
     "component" :- int;
     "event" :- ushort_t;
     "flags" :- ushort_t;
     "timestamp" :- time32_t;
     "old_level" :- int;
     "new_level" :- int;
     "size" :- size32_t].

(** [sys/ppmio.h] *)
Definition ppm_dpwr : ctype :=
  struct ["domain" :- ptr;
     "level" :- int].
Definition ppm_bydev : ctype :=
  struct ["path" :- ptr;
     "domlist" :- ptr;
     "size" :- size_t].
Definition ppm_bydom : ctype :=
  struct ["domain" :- ptr;
     "devlist" :- ptr;
     "size" :- size_t].
Definition ppm_dpwr32 : ctype :=
  struct ["domain" :- caddr32_t;
     "level" :- int32_t].
Definition ppm_bydev32 : ctype :=
  struct ["path" :- caddr32_t;
     "domlist" :- caddr32_t;
     "size" :- size32_t].
Definition ppm_bydom32 : ctype :=
  struct ["domain" :- caddr32_t;
     "devlist" :- caddr32_t;
     "size" :- size32_t].

(** [sys/prnio.h] *)
Definition prn_interface_info : ctype :=
  by_model
  (struct ["if_len" :- uint_t;
     "if_rlen" :- uint_t;
     "if_data" :- ptr;
     "if_filler" :- int])
  (struct ["if_len" :- uint_t;
     "if_rlen" :- uint_t;
     "if_data" :- ptr]).
Definition prn_1284_device_id : ctype :=
  by_model
  (struct ["id_len" :- uint_t;
     "id_rlen" :- uint_t;
     "id_data" :- ptr;
     "id_filler" :- int])
  (struct ["id_len" :- uint_t;
     "id_rlen" :- uint_t;
     "id_data" :- ptr]).
Definition prn_interface_info32 : ctype :=
  struct ["if_len" :- uint_t;
     "if_rlen" :- uint_t;
     "if_data" :- caddr32_t].
Definition prn_1284_device_id32 : ctype :=
  struct ["id_len" :- uint_t;
     "id_rlen" :- uint_t;
     "id_data" :- caddr32_t].

(** [sys/raidioctl.h] *)
Definition update_flash : ctype :=
  struct ["ptrbuffer" :- caddr_t;
     "size" :- uint_t;
     "type" :- uint8_t].
Definition update_flash_32 : ctype :=
  struct ["ptrbuffer" :- caddr32_t;
     "size" :- uint32_t;
     "type" :- uint8_t].

(** [sys/rsm/rsm.h] *)
Definition rsm_gnum_t : ctype := uint16_t.

(** [sys/rsm/rsm_common.h] *)
Definition rsm_addr_t : ctype := uint64_t.

(** [sys/rsm/rsm.h] *)
Definition rsmka_int_controller_attr_t : ctype :=
  struct ["attr_direct_access_sizes" :- uint_t;
     "attr_atomic_sizes" :- uint_t;
     "attr_page_size" :- size_t;
     "attr_max_export_segment_size" :- size_t;
     "attr_tot_export_segment_size" :- size_t;
     "attr_max_export_segments" :- ulong_t;
     "attr_max_import_map_size" :- size_t;
     "attr_tot_import_map_size" :- size_t;
     "attr_max_import_segments" :- ulong_t;
     "attr_controller_addr" :- rsm_addr_t].
Definition rsmka_int_controller_attr32_t : ctype :=
  struct ["attr_direct_access_sizes" :- uint32_t;
     "attr_atomic_sizes" :- uint32_t;
     "attr_page_size" :- uint32_t;
     "attr_max_export_segment_size" :- uint32_t;
     "attr_tot_export_segment_size" :- uint32_t;
     "attr_max_export_segments" :- uint32_t;
     "attr_max_import_map_size" :- uint32_t;
     "attr_tot_import_map_size" :- uint32_t;
     "attr_max_import_segments" :- uint32_t;
     "attr_controller_addr" :- rsm_addr_t].

(** [sys/rsm/rsm_common.h] *)
Definition rsm_memseg_id_t : ctype := uint32_t.

(** [sys/rsm/rsmapi_common.h] *)
Definition rsm_localmemory_handle_t : ctype := ptr.

(** [sys/rsm/rsm.h] *)
Definition rsmka_iovec_t : ctype :=
  struct ["io_type" :- int;
     "local" :- (union ["handle" :- rsm_localmemory_handle_t;
       "segid" :- rsm_memseg_id_t;
       "vaddr" :- caddr_t]);
     "local_offset" :- size_t;
     "remote_offset" :- size_t;
     "transfer_len" :- size_t].
Definition rsmka_iovec32_t : ctype :=
  struct ["io_type" :- int32_t;
     "local" :- uint32_t;
     "local_offset" :- uint32_t;
     "remote_offset" :- uint32_t;
     "transfer_len" :- uint32_t].

(** [sys/rsm/rsm_common.h] *)
Definition rsm_node_id_t : ctype := uint32_t.
Definition rsm_memseg_import_handle_t : ctype := ptr.

(** [sys/rsm/rsm.h] *)
Definition rsmka_scat_gath_t : ctype :=
  struct ["local_nodeid" :- rsm_node_id_t;
     "io_request_count" :- ulong_t;
     "io_residual_count" :- ulong_t;
     "flags" :- uint_t;
     "remote_handle" :- rsm_memseg_import_handle_t;
     "iovec" :- ptr].
Definition rsmka_scat_gath32_t : ctype :=
  struct ["local_nodeid" :- rsm_node_id_t;
     "io_request_count" :- uint32_t;
     "io_residual_count" :- uint32_t;
     "flags" :- uint32_t;
     "remote_handle" :- caddr32_t;
     "iovec" :- caddr32_t].
Definition rsm_poll_event_t : ctype :=
  struct ["rnum" :- minor_t;
     "fdsidx" :- int;
     "revent" :- int].
Definition rsm_poll_event32_t : ctype :=
  struct ["rnum" :- minor_t;
     "fdsidx" :- int32_t;
     "revent" :- int32_t].
Definition rsm_consume_event_msg_t : ctype :=
  struct ["seglist" :- caddr_t;
     "numents" :- uint32_t].
Definition rsm_consume_event_msg32_t : ctype :=
  struct ["seglist" :- caddr32_t;
     "numents" :- uint32_t].

(** [sys/rsm/rsm_common.h] *)
Definition rsm_permission_t : ctype := uint32_t.
Definition rsm_barrier_component_t : ctype :=
  union ["u64" :- uint64_t;
     "i64" :- int64_t;
     "u32" :- array 2 uint32_t;
     "i32" :- array 2 int32_t;
     "u16" :- array 4 uint16_t;
     "i16" :- array 4 int16_t;
     "u8" :- array 8 uint8_t;
     "i8" :- array 8 int8_t;
     "uc" :- array 8 uchar_t;
     "c" :- array 8 char;
     "vp" :- ptr].
Definition rsm_barrier_t : ctype :=
  struct ["comp" :- array 4 rsm_barrier_component_t].

(** [sys/rsm/rsm.h] *)
Definition rsm_ioctlmsg_t : ctype :=
  struct ["cnum" :- int;
     "cname" :- caddr_t;
     "cname_len" :- int;
     "arg" :- caddr_t;
     "len" :- int;
     "vaddr" :- caddr_t;
     "off" :- int;
     "key" :- rsm_memseg_id_t;
     "acl_len" :- int;
     "acl" :- ptr;
     "nodeid" :- rsm_node_id_t;
     "hwaddr" :- rsm_addr_t;
     "perm" :- rsm_permission_t;
     "bar" :- rsm_barrier_t;
     "gnum" :- rsm_gnum_t;
     "rnum" :- minor_t].
Definition rsm_ioctlmsg32_t : ctype :=
  struct ["cnum" :- int32_t;
     "cname" :- caddr32_t;
     "cname_len" :- int32_t;
     "arg" :- caddr32_t;
     "len" :- int32_t;
     "vaddr" :- caddr32_t;
     "off" :- int32_t;
     "key" :- rsm_memseg_id_t;
     "acl_len" :- int32_t;
     "acl" :- caddr32_t;
     "nodeid" :- rsm_node_id_t;
     "hwaddr" :- rsm_addr_t;
     "perm" :- rsm_permission_t;
     "bar" :- rsm_barrier_t;
     "gnum" :- rsm_gnum_t;
     "rnum" :- minor_t].

(** [sys/rsm/rsmka_path_int.h] *)
Definition rsmka_topology_hdr_t : ctype :=
  struct ["local_nodeid" :- rsm_node_id_t;
     "local_cntlr_count" :- int].
Definition rsmka_topology_t : ctype :=
  struct ["topology_hdr" :- rsmka_topology_hdr_t;
     "connections" :- array 1 caddr_t].
Definition rsmka_topology32_t : ctype :=
  struct ["topology_hdr" :- rsmka_topology_hdr_t;
     "connections" :- array 1 caddr32_t].

(** [sys/ser_sync.h] *)
Definition sl_status : ctype :=
  struct ["type" :- int;
     "status" :- int;
     "tstamp" :- timestruc_t].
Definition sl_status32 : ctype :=
  struct ["type" :- int32_t;
     "status" :- int32_t;
     "tstamp" :- timestruc32_t].

(** [sys/vol.h] *)
Definition vio_labelent : ctype :=
  struct ["vl_off" :- off_t;
     "vl_len" :- size_t;
     "vl_mapout" :- bool_t].
Definition vio_labelent32 : ctype :=
  struct ["vl_off" :- off32_t;
     "vl_len" :- size32_t;
     "vl_mapout" :- int32_t].
Definition vioc_map : ctype :=
  struct ["vim_dev" :- dev_t;
     "vim_path" :- caddr_t;
     "vim_pathlen" :- size_t;
     "vim_unit" :- minor_t;
     "vim_basedev" :- dev_t;
     "vim_id" :- uint64_t;
     "vim_nvl" :- uint_t;
     "vim_vl" :- ptr;
     "vim_flags" :- uint_t].
Definition vioc_map32 : ctype :=
  packed4 ["vim_dev" :- dev32_t;
     "vim_path" :- caddr32_t;
     "vim_pathlen" :- size32_t;
     "vim_unit" :- minor32_t;
     "vim_basedev" :- dev32_t;
     "vim_id" :- uint64_t;
     "vim_nvl" :- uint32_t;
     "vim_vl" :- caddr32_t;
     "vim_flags" :- uint32_t].
Definition MAX_ATTR_LEN : Z := 128.
Definition vioc_dattr : ctype :=
  struct ["vda_unit" :- minor_t;
     "vda_value" :- array MAX_ATTR_LEN char;
     "vda_errno" :- int].
Definition vioc_dattr32 : ctype :=
  struct ["vda_unit" :- minor32_t;
     "vda_value" :- array MAX_ATTR_LEN char;
     "vda_errno" :- int32_t].
Definition vioc_eject : ctype :=
  struct ["viej_unit" :- minor_t;
     "viej_state" :- enum].
Definition vioc_eject32 : ctype :=
  struct ["viej_unit" :- minor32_t;
     "viej_state" :- int32_t].
Definition vioc_flags : ctype :=
  struct ["vfl_unit" :- minor_t;
     "vfl_flags" :- uint_t].
Definition vioc_flags32 : ctype :=
  struct ["vfl_unit" :- minor32_t;
     "vfl_flags" :- uint32_t].
Definition vol_str : ctype :=
  struct ["data" :- caddr_t;
     "data_len" :- size_t].
Definition vol_str32 : ctype :=
  struct ["data" :- caddr32_t;
     "data_len" :- size32_t].
Definition vioc_info : ctype :=
  struct ["vii_inuse" :- uint_t;
     "vii_id" :- uint64_t;
     "vii_devpath" :- caddr_t;
     "vii_pathlen" :- size_t].
Definition vioc_info32 : ctype :=
  packed4 ["vii_inuse" :- uint32_t;
     "vii_id" :- uint64_t;
     "vii_devpath" :- caddr32_t;
     "vii_pathlen" :- size32_t].
Definition vioc_sattr : ctype :=
  struct ["sa_attr" :- caddr_t;
     "sa_value" :- caddr_t;
     "sa_attr_len" :- size_t;
     "sa_value_len" :- size_t].
Definition vioc_sattr32 : ctype :=
  struct ["sa_attr" :- caddr32_t;
     "sa_value" :- caddr32_t;
     "sa_attr_len" :- size32_t;
     "sa_value_len" :- size32_t].
Definition vioc_gattr : ctype :=
  struct ["ga_attr" :- caddr_t;
     "ga_value" :- caddr_t;
     "ga_val_len" :- size_t;
     "ga_attr_len" :- size_t].
Definition vioc_gattr32 : ctype :=
  struct ["ga_attr" :- caddr32_t;
     "ga_value" :- caddr32_t;
     "ga_val_len" :- size32_t;
     "ga_attr_len" :- size32_t].
Definition vioc_symname : ctype :=
  struct ["sn_dev" :- dev_t;
     "sn_symname" :- caddr_t;
     "sn_pathlen" :- size_t].
Definition vioc_symname32 : ctype :=
  struct ["sn_dev" :- dev32_t;
     "sn_symname" :- caddr32_t;
     "sn_pathlen" :- size32_t].
Definition vioc_symdev : ctype :=
  struct ["sd_symname" :- caddr_t;
     "sd_symdevname" :- caddr_t;
     "sd_pathlen" :- size_t;
     "sd_symnamelen" :- size_t].
Definition vioc_symdev32 : ctype :=
  struct ["sd_symname" :- caddr32_t;
     "sd_symdevname" :- caddr32_t;
     "sd_pathlen" :- size32_t;
     "sd_symnamelen" :- size32_t].
Definition VOL_SYMNAME_LEN : Z := MAXNAMELEN.
Definition ve_attr : ctype :=
  struct ["viea_unit" :- minor_t;
     "viea_attr" :- array (MAX_ATTR_LEN + 1) char;
     "viea_value" :- array (MAX_ATTR_LEN + 1) char;
     "viea_uid" :- uid_t;
     "viea_gid" :- gid_t].
Definition ve_cancel : ctype :=
  struct ["viec_unit" :- minor_t].
Definition ve_check : ctype :=
  struct ["viec_dev" :- dev_t].
Definition ve_close : ctype :=
  struct ["viecl_unit" :- minor_t].
Definition ve_eject : ctype :=
  struct ["viej_unit" :- minor_t;
     "viej_user" :- uid_t;
     "viej_tty" :- dev_t;
     "viej_force" :- int].
Definition ve_error : ctype :=
  struct ["viee_dev" :- dev_t;
     "viee_errno" :- uint_t].
Definition ve_insert : ctype :=
  struct ["viei_dev" :- dev_t].
Definition ve_inuse : ctype :=
  struct ["vieu_dev" :- dev_t].
Definition ve_missing : ctype :=
  struct ["viem_unit" :- minor_t;
     "viem_ndelay" :- bool_t;
     "viem_user" :- uid_t;
     "viem_tty" :- dev_t].
Definition ve_newlabel : ctype :=
  struct ["vien_unit" :- minor_t].
Definition ve_remount : ctype :=
  struct ["vier_unit" :- minor_t].
Definition ve_rm : ctype :=
  struct ["virm_unit" :- minor_t].
Definition ve_symdev : ctype :=
  struct ["vied_symname" :- array (VOL_SYMNAME_LEN + 1) char].
Definition ve_symname : ctype :=
  struct ["vies_dev" :- dev_t].
Definition vioc_event : ctype :=
  struct ["vie_type" :- enum;
     "vie_un" :- (union ["vie_u_missing" :- ve_missing;
       "vie_u_eject" :- ve_eject;
       "vie_u_insert" :- ve_insert;
       "vie_u_inuse" :- ve_inuse;
       "vie_u_check" :- ve_check;
       "vie_u_error" :- ve_error;
       "vie_u_close" :- ve_close;
       "vie_u_cancel" :- ve_cancel;
       "vie_u_newlabel" :- ve_newlabel;
       "vie_u_attr" :- ve_attr;
       "vie_u_rm" :- ve_rm;
       "vie_u_symname" :- ve_symname;
       "vie_u_symdev" :- ve_symdev;
       "vie_u_remount" :- ve_remount])].
Definition ve_attr32 : ctype :=
  struct ["viea_unit" :- minor32_t;
     "viea_attr" :- array (MAX_ATTR_LEN + 1) char;
     "viea_value" :- array (MAX_ATTR_LEN + 1) char;
     "viea_uid" :- uid32_t;
     "viea_gid" :- gid32_t].
Definition ve_cancel32 : ctype :=
  struct ["viec_unit" :- minor32_t].
Definition ve_check32 : ctype :=
  struct ["viec_dev" :- dev32_t].
Definition ve_close32 : ctype :=
  struct ["viecl_unit" :- minor32_t].
Definition ve_eject32 : ctype :=
  struct ["viej_unit" :- minor32_t;
     "viej_user" :- uid32_t;
     "viej_tty" :- dev32_t;
     "viej_force" :- int32_t].
Definition ve_error32 : ctype :=
  struct ["viee_dev" :- dev32_t;
     "viee_errno" :- uint32_t].
Definition ve_insert32 : ctype :=
  struct ["viei_dev" :- dev32_t].
Definition ve_inuse32 : ctype :=
  struct ["vieu_dev" :- dev32_t].
Definition ve_missing32 : ctype :=
  struct ["viem_unit" :- minor32_t;
     "viem_ndelay" :- int32_t;
     "viem_user" :- uid32_t;
     "viem_tty" :- dev32_t].
Definition ve_newlabel32 : ctype :=
  struct ["vien_unit" :- minor32_t].
Definition ve_remount32 : ctype :=
  struct ["vier_unit" :- minor32_t].
Definition ve_rm32 : ctype :=
  struct ["virm_unit" :- minor32_t].
Definition ve_symdev32 : ctype :=
  struct ["vied_symname" :- array (VOL_SYMNAME_LEN + 1) char].
Definition ve_symname32 : ctype :=
  struct ["vies_dev" :- dev32_t].
Definition vioc_event32 : ctype :=
  struct ["vie_type" :- int32_t;
     "vie_un" :- (union ["vie_u_missing" :- ve_missing32;
       "vie_u_eject" :- ve_eject32;
       "vie_u_insert" :- ve_insert32;
       "vie_u_inuse" :- ve_inuse32;
       "vie_u_check" :- ve_check32;
       "vie_u_error" :- ve_error32;
       "vie_u_close" :- ve_close32;
       "vie_u_cancel" :- ve_cancel32;
       "vie_u_newlabel" :- ve_newlabel32;
       "vie_u_attr" :- ve_attr32;
       "vie_u_rm" :- ve_rm32;
       "vie_u_symname" :- ve_symname32;
       "vie_u_symdev" :- ve_symdev32;
       "vie_u_remount" :- ve_remount32])].

(** [sys/vtoc.h] *)
Definition V_NUMPAR : Z := NDKMAP.
Definition partition : ctype :=
  struct ["p_tag" :- ushort_t;
     "p_flag" :- ushort_t;
     "p_start" :- daddr_t;
     "p_size" :- long].
Definition vtoc : ctype :=
  struct ["v_bootinfo" :- array 3 ulong;
     "v_sanity" :- ulong;
     "v_version" :- ulong;
     "v_volume" :- array LEN_DKL_VVOL char;
     "v_sectorsz" :- ushort_t;
     "v_nparts" :- ushort_t;
     "v_reserved" :- array 10 ulong;
     "v_part" :- array V_NUMPAR partition;
     "timestamp" :- array V_NUMPAR time_t;
     "v_asciilabel" :- array LEN_DKL_ASCII char].
Definition partition32 : ctype :=
  struct ["p_tag" :- uint16_t;
     "p_flag" :- uint16_t;
     "p_start" :- daddr32_t;
     "p_size" :- int32_t].
Definition vtoc32 : ctype :=
  struct ["v_bootinfo" :- array 3 uint32_t;
     "v_sanity" :- uint32_t;
     "v_version" :- uint32_t;
     "v_volume" :- array LEN_DKL_VVOL char;
     "v_sectorsz" :- uint16_t;
     "v_nparts" :- uint16_t;
     "v_reserved" :- array 10 uint32_t;
     "v_part" :- array V_NUMPAR partition32;
     "timestamp" :- array V_NUMPAR time32_t;
     "v_asciilabel" :- array LEN_DKL_ASCII char].

(** The structures and what the 64-bit kernel reads them as. *)
Definition views_dev : list (ctype * ctype) :=
  [(__cpc_args32, __cpc_args);
   (acc_log32, acc_log);
   (aliases32, aliases);
   (bofi_errdef32, bofi_errdef);
   (bofi_errstate32, bofi_errstate);
   (bofi_get_handles32, bofi_get_handles);
   (bofi_get_hdl_info32, bofi_get_hdl_info);
   (cdrom_cdda32, cdrom_cdda);
   (cdrom_cdxa32, cdrom_cdxa);
   (cdrom_read32, cdrom_read);
   (cdrom_subcode32, cdrom_subcode);
   (cladm_netaddrs32_t, cladm_netaddrs_t);
   (cpuid_get_hwcap32, cpuid_get_hwcap);
   (dadk_ioc_string32, dadk_ioc_string);
   (dadkio_rwcmd32, dadkio_rwcmd);
   (dadkio_status32, dadkio_status);
   (defect_header32, defect_header);
   (devctl_ap_state32, devctl_ap_state);
   (devctl_iocdata32, devctl_iocdata);
   (dk_allmap32, dk_allmap);
   (dk_map32, dk_map);
   (ecpp_device_id32, ecpp_device_id);
   (fb_wid_list32, fb_wid_list);
   (fbcmap32, fbcmap);
   (fbcmap_i32, fbcmap_i);
   (fbcursor32, fbcursor);
   (fd_cmd32, fd_cmd);
   (fd_raw32, fd_raw);
   (hpc_control32_data, hpc_control_data);
   (iec61883_node_text_leaf32, iec61883_node_text_leaf);
   (mem_name32, mem_name);
   (mhioc_inkeys32, mhioc_inkeys);
   (mhioc_inresvs32, mhioc_inresvs);
   (mhioc_key_list32, mhioc_key_list);
   (mhioc_resv_desc_list32, mhioc_resv_desc_list);
   (modconfig32, modconfig);
   (modinfo32, modinfo);
   (modspecific_info32, modspecific_info);
   (mtdrivetype_request32, mtdrivetype_request);
   (mtget32, mtget);
   (mtop32, mtop);
   (part_info32, part_info);
   (partition32, partition);
   (pm_req32, pm_req);
   (pm_state_change32, pm_state_change);
   (ppm_bydev32, ppm_bydev);
   (ppm_bydom32, ppm_bydom);
   (ppm_dpwr32, ppm_dpwr);
   (protocol_arg32, protocol_arg);
   (rsm_consume_event_msg32_t, rsm_consume_event_msg_t);
   (rsm_poll_event32_t, rsm_poll_event_t);
   (rsmka_scat_gath32_t, rsmka_scat_gath_t);
   (rsmka_topology32_t, rsmka_topology_t);
   (sl_status32, sl_status);
   (update_flash_32, update_flash);
   (ve_attr32, ve_attr);
   (ve_cancel32, ve_cancel);
   (ve_check32, ve_check);
   (ve_close32, ve_close);
   (ve_eject32, ve_eject);
   (ve_error32, ve_error);
   (ve_insert32, ve_insert);
   (ve_inuse32, ve_inuse);
   (ve_missing32, ve_missing);
   (ve_newlabel32, ve_newlabel);
   (ve_remount32, ve_remount);
   (ve_rm32, ve_rm);
   (ve_symdev32, ve_symdev);
   (ve_symname32, ve_symname);
   (vio_labelent32, vio_labelent);
   (vioc_dattr32, vioc_dattr);
   (vioc_eject32, vioc_eject);
   (vioc_event32, vioc_event);
   (vioc_flags32, vioc_flags);
   (vioc_gattr32, vioc_gattr);
   (vioc_info32, vioc_info);
   (vioc_map32, vioc_map);
   (vioc_sattr32, vioc_sattr);
   (vioc_symdev32, vioc_symdev);
   (vioc_symname32, vioc_symname);
   (vol_directed_rd32, vol_directed_rd);
   (vol_str32, vol_str);
   (vtoc32, vtoc)].

Lemma views_dev_agree : views_check views_dev = true.
Proof. vm_compute. reflexivity. Qed.
