(* ===== verification/Abi32Proc.v ===== *)
(** * Structures of processes

    The structures of [/proc], signals, scheduling, resources, System V IPC and
    other system calls and the declarations a 64-bit kernel uses for 32-bit
    callers. *)
From Stdlib Require Import String.
From S2P Require Import Prelude ByteOrder CTypes AbiTypes.
#[local] Open Scope Z_scope.
#[local] Open Scope ctype_scope.


(** [sys/aio.h] *)
Definition aio_result_t : ctype :=
  struct ["aio_return" :- ssize_t;
     "aio_errno" :- int].
Definition aio_result32_t : ctype :=
  struct ["aio_return" :- int;
     "aio_errno" :- int].

(** [sys/auxv.h] *)
Definition auxv_t : ctype :=
  struct ["a_type" :- int;
     "a_un" :- (union ["a_val" :- long; "a_ptr" :- ptr; "a_fcn" :- ptr])].
Definition auxv32_t : ctype :=
  struct ["a_type" :- int32_t;
     "a_un" :- (union ["a_val" :- int32_t; "a_ptr" :- caddr32_t; "a_fcn" :- caddr32_t])].

(** [sys/bl.h] *)
Definition bl_req : ctype :=
  struct ["bl_fmri" :- caddr_t;
     "bl_fmrisz" :- size_t;
     "bl_class" :- caddr_t].
Definition bl_req32 : ctype :=
  struct ["bl_fmri" :- caddr32_t;
     "bl_fmrisz" :- size32_t;
     "bl_class" :- caddr32_t].

(** [sys/contract.h] *)
Definition ctevid_t : ctype := uint64_t.
Definition ctstate_t : ctype := enum.
Definition ct_typeid_t : ctype := enum.
Definition ct_event : ctype :=
  struct ["ctev_id" :- ctid_t;
     "ctev_pad1" :- uint32_t;
     "ctev_evid" :- ctevid_t;
     "ctev_cttype" :- ct_typeid_t;
     "ctev_flags" :- uint32_t;
     "ctev_type" :- uint32_t;
     "ctev_nbytes" :- uint32_t;
     "ctev_goffset" :- uint32_t;
     "ctev_pad2" :- uint32_t;
     "ctev_buffer" :- ptr].
Definition ct_status : ctype :=
  struct ["ctst_id" :- ctid_t;
     "ctst_zoneid" :- zoneid_t;
     "ctst_type" :- ct_typeid_t;
     "ctst_holder" :- pid_t;
     "ctst_state" :- ctstate_t;
     "ctst_nevents" :- int;
     "ctst_ntime" :- int;
     "ctst_qtime" :- int;
     "ctst_nevid" :- uint64_t;
     "ctst_detail" :- uint_t;
     "ctst_nbytes" :- size_t;
     "ctst_critical" :- uint_t;
     "ctst_informative" :- uint_t;
     "ctst_cookie" :- uint64_t;
     "ctst_buffer" :- ptr].

(** [sys/contract_impl.h] *)
Definition ct_event32 : ctype :=
  packed4 ["ctev_id" :- ctid_t;
     "ctev_pad1" :- uint32_t;
     "ctev_evid" :- ctevid_t;
     "ctev_cttype" :- ct_typeid_t;
     "ctev_flags" :- uint32_t;
     "ctev_type" :- uint32_t;
     "ctev_nbytes" :- uint32_t;
     "ctev_goffset" :- uint32_t;
     "ctev_pad2" :- uint32_t;
     "ctev_buffer" :- caddr32_t].
Definition ct_status32 : ctype :=
  packed4 ["ctst_id" :- ctid_t;
     "ctst_zoneid" :- zoneid_t;
     "ctst_type" :- ct_typeid_t;
     "ctst_holder" :- pid_t;
     "ctst_state" :- ctstate_t;
     "ctst_nevents" :- int;
     "ctst_ntime" :- int;
     "ctst_qtime" :- int;
     "ctst_nevid" :- uint64_t;
     "ctst_detail" :- uint_t;
     "ctst_nbytes" :- uint_t;
     "ctst_critical" :- uint_t;
     "ctst_informative" :- uint_t;
     "ctst_cookie" :- uint64_t;
     "ctst_buffer" :- caddr32_t].

(** [sys/poll.h] *)
Definition nfds_t : ctype := ulong.

(** [sys/devpoll.h] *)
Definition dvpoll : ctype :=
  struct ["dp_fds" :- ptr;
     "dp_nfds" :- nfds_t;
     "dp_timeout" :- int].
Definition dvpoll32 : ctype :=
  struct ["dp_fds" :- caddr32_t;
     "dp_nfds" :- uint32_t;
     "dp_timeout" :- int32_t].

(** [sys/door.h] *)
Definition door_arg : ctype :=
  struct ["data_ptr" :- ptr;
     "data_size" :- size_t;
     "desc_ptr" :- ptr;
     "desc_num" :- uint_t;
     "rbuf" :- ptr;
     "rsize" :- size_t].
Definition door_arg32 : ctype :=
  struct ["data_ptr" :- caddr32_t;
     "data_size" :- size32_t;
     "desc_ptr" :- caddr32_t;
     "desc_num" :- uint32_t;
     "rbuf" :- caddr32_t;
     "rsize" :- size32_t].
Definition door_results : ctype :=
  struct ["cookie" :- ptr;
     "data_ptr" :- ptr;
     "data_size" :- size_t;
     "desc_ptr" :- ptr;
     "desc_num" :- size_t;
     "pc" :- ptr;
     "nservers" :- int;
     "door_info" :- ptr].
Definition door_results32 : ctype :=
  struct ["cookie" :- caddr32_t;
     "data_ptr" :- caddr32_t;
     "data_size" :- size32_t;
     "desc_ptr" :- caddr32_t;
     "desc_num" :- size32_t;
     "pc" :- caddr32_t;
     "nservers" :- int;
     "door_info" :- caddr32_t].
Definition door_return_desc : ctype :=
  struct ["desc_ptr" :- ptr;
     "desc_num" :- uint_t].
Definition door_return_desc32 : ctype :=
  struct ["desc_ptr" :- caddr32_t;
     "desc_num" :- uint_t].

(** [sys/regset.h] *)
Definition greg_t : ctype := by_model int long.

(** [sys/frame.h] *)
Definition frame : ctype :=
  struct ["fr_savfp" :- greg_t;
     "fr_savpc" :- greg_t].

(** [sys/regset.h] *)
Definition greg32_t : ctype := int32_t.

(** [sys/frame.h] *)
Definition frame32 : ctype :=
  struct ["fr_savfp" :- greg32_t;
     "fr_savpc" :- greg32_t].

(** [sys/fxpriocntl.h] *)
Definition fxadmin32 : ctype :=
  struct ["fx_dpents" :- caddr32_t;
     "fx_ndpents" :- int16_t;
     "fx_cmd" :- int16_t].
Definition fxadmin : ctype :=
  struct ["fx_dpents" :- ptr;
     "fx_ndpents" :- short;
     "fx_cmd" :- short].

(** [sys/iapriocntl.h] *)
Definition iaadmin32 : ctype :=
  struct ["ia_dpents" :- caddr32_t;
     "ia_ndpents" :- int16_t;
     "ia_cmd" :- int16_t].
Definition iaadmin : ctype :=
  struct ["ia_dpents" :- ptr;
     "ia_ndpents" :- short;
     "ia_cmd" :- short].

(** [sys/ipc.h] *)
Definition ipc_perm : ctype :=
  by_model
  (struct ["uid" :- uid_t;
     "gid" :- gid_t;
     "cuid" :- uid_t;
     "cgid" :- gid_t;
     "mode" :- mode_t;
     "seq" :- uint_t;
     "key" :- key_t;
     "pad" :- array 4 int])
  (struct ["uid" :- uid_t;
     "gid" :- gid_t;
     "cuid" :- uid_t;
     "cgid" :- gid_t;
     "mode" :- mode_t;
     "seq" :- uint_t;
     "key" :- key_t]).

(** [sys/ipc_impl.h] *)
Definition ipc_perm32 : ctype :=
  struct ["uid" :- uid32_t;
     "gid" :- gid32_t;
     "cuid" :- uid32_t;
     "cgid" :- gid32_t;
     "mode" :- mode32_t;
     "seq" :- uint32_t;
     "key" :- key32_t;
     "pad" :- array 4 int32_t].

(** [sys/kstat.h] *)
Definition kid_t : ctype := int.
Definition KSTAT_STRLEN : Z := 31.
Definition kstat : ctype :=
  struct ["ks_crtime" :- hrtime_t;
     "ks_next" :- ptr;
     "ks_kid" :- kid_t;
     "ks_module" :- array KSTAT_STRLEN char;
     "ks_resv" :- uchar_t;
     "ks_instance" :- int;
     "ks_name" :- array KSTAT_STRLEN char;
     "ks_type" :- uchar_t;
     "ks_class" :- array KSTAT_STRLEN char;
     "ks_flags" :- uchar_t;
     "ks_data" :- ptr;
     "ks_ndata" :- uint_t;
     "ks_data_size" :- size_t;
     "ks_snaptime" :- hrtime_t;
     "ks_update" :- ptr;
     "ks_private" :- ptr;
     "ks_snapshot" :- ptr;
     "ks_lock" :- ptr].
Definition kid32_t : ctype := int32_t.
Definition kstat32 : ctype :=
  struct ["ks_crtime" :- hrtime_t;
     "ks_next" :- caddr32_t;
     "ks_kid" :- kid32_t;
     "ks_module" :- array KSTAT_STRLEN char;
     "ks_resv" :- uint8_t;
     "ks_instance" :- int32_t;
     "ks_name" :- array KSTAT_STRLEN char;
     "ks_type" :- uint8_t;
     "ks_class" :- array KSTAT_STRLEN char;
     "ks_flags" :- uint8_t;
     "ks_data" :- caddr32_t;
     "ks_ndata" :- uint32_t;
     "ks_data_size" :- size32_t;
     "ks_snaptime" :- hrtime_t;
     "_ks_update" :- int32_t;
     "_ks_private" :- caddr32_t;
     "_ks_snapshot" :- int32_t;
     "_ks_lock" :- caddr32_t].

(** [sys/lgrp.h] *)
Definition lgrp_id_t : ctype := id_t.

(** [sys/lgrp_user.h] *)
Definition lgrp_view_t : ctype := enum.
Definition lgrp_info : ctype :=
  struct ["info_lgrpid" :- lgrp_id_t;
     "info_latency" :- int;
     "info_parents" :- ptr;
     "info_children" :- ptr;
     "info_rset" :- ptr;
     "info_mem_free" :- pgcnt_t;
     "info_mem_install" :- pgcnt_t;
     "info_cpuids" :- ptr;
     "info_ncpus" :- int].
Definition lgrp_gen_t : ctype := uint_t.

(** [sys/pset.h] *)
Definition psetid_t : ctype := int.

(** [sys/lgrp_user.h] *)
Definition lgrp_snapshot_header : ctype :=
  struct ["ss_version" :- int;
     "ss_levels" :- int;
     "ss_nlgrps" :- int;
     "ss_nlgrps_os" :- int;
     "ss_nlgrps_max" :- int;
     "ss_root" :- int;
     "ss_ncpus" :- int;
     "ss_view" :- lgrp_view_t;
     "ss_pset" :- psetid_t;
     "ss_gen" :- lgrp_gen_t;
     "ss_size" :- size_t;
     "ss_magic" :- uintptr_t;
     "ss_info" :- ptr;
     "ss_cpuids" :- ptr;
     "ss_lgrpset" :- ptr;
     "ss_parents" :- ptr;
     "ss_children" :- ptr;
     "ss_rsets" :- ptr;
     "ss_latencies" :- ptr].
Definition lgrp_info32 : ctype :=
  struct ["info_lgrpid" :- int;
     "info_latency" :- int;
     "info_parents" :- caddr32_t;
     "info_children" :- caddr32_t;
     "info_rset" :- caddr32_t;
     "info_mem_free" :- uint32_t;
     "info_mem_install" :- uint32_t;
     "info_cpuids" :- caddr32_t;
     "info_ncpus" :- int].
Definition lgrp_snapshot_header32 : ctype :=
  struct ["ss_version" :- int;
     "ss_levels" :- int;
     "ss_nlgrps" :- int;
     "ss_nlgrps_os" :- int;
     "ss_nlgrps_max" :- int;
     "ss_root" :- int;
     "ss_ncpus" :- int;
     "ss_view" :- int;
     "ss_pset" :- int;
     "ss_gen" :- uint_t;
     "ss_size" :- size32_t;
     "ss_magic" :- uint32_t;
     "ss_info" :- caddr32_t;
     "ss_cpuids" :- caddr32_t;
     "ss_lgrpset" :- caddr32_t;
     "ss_parents" :- caddr32_t;
     "ss_children" :- caddr32_t;
     "ss_rsets" :- caddr32_t;
     "ss_latencies" :- caddr32_t].

(** [sys/link.h] *)
Definition link_map : ctype :=
  struct ["l_addr" :- ulong;
     "l_name" :- ptr;
     "l_ld" :- ptr;
     "l_next" :- ptr;
     "l_prev" :- ptr;
     "l_refname" :- ptr].
Definition link_map32 : ctype :=
  struct ["l_addr" :- Elf32_Word;
     "l_name" :- Elf32_Addr;
     "l_ld" :- Elf32_Addr;
     "l_next" :- Elf32_Addr;
     "l_prev" :- Elf32_Addr;
     "l_refname" :- Elf32_Addr].
Definition r_state_e : ctype := enum.
Definition rd_flags_e : ctype := enum.
Definition rd_event_e : ctype := enum.
Definition r_debug : ctype :=
  struct ["r_version" :- int;
     "r_map" :- ptr;
     "r_brk" :- ulong;
     "r_state" :- r_state_e;
     "r_ldbase" :- ulong;
     "r_ldsomap" :- ptr;
     "r_rdevent" :- rd_event_e;
     "r_flags" :- rd_flags_e].
Definition r_debug32 : ctype :=
  struct ["r_version" :- Elf32_Word;
     "r_map" :- Elf32_Addr;
     "r_brk" :- Elf32_Word;
     "r_state" :- r_state_e;
     "r_ldbase" :- Elf32_Word;
     "r_ldsomap" :- Elf32_Addr;
     "r_rdevent" :- rd_event_e;
     "r_flags" :- rd_flags_e].

(** [sys/lwp.h] *)
Definition lwpinfo : ctype :=
  struct ["lwp_utime" :- timestruc_t;
     "lwp_stime" :- timestruc_t;
     "lwpinfo_pad" :- array 64 long].
Definition lwpinfo32 : ctype :=
  struct ["lwp_utime" :- timestruc32_t;
     "lwp_stime" :- timestruc32_t;
     "lwpinfo_pad" :- array 64 int32_t].

(** [sys/mman.h] *)
Definition memcntl_mha : ctype :=
  struct ["mha_cmd" :- uint_t;
     "mha_flags" :- uint_t;
     "mha_pagesize" :- size_t].
Definition memcntl_mha32 : ctype :=
  struct ["mha_cmd" :- uint_t;
     "mha_flags" :- uint_t;
     "mha_pagesize" :- size32_t].
Definition meminfo : ctype :=
  struct ["mi_inaddr" :- ptr;
     "mi_info_req" :- ptr;
     "mi_outdata" :- ptr;
     "mi_validity" :- ptr;
     "mi_info_count" :- int].
Definition meminfo32 : ctype :=
  struct ["mi_inaddr" :- caddr32_t;
     "mi_info_req" :- caddr32_t;
     "mi_outdata" :- caddr32_t;
     "mi_validity" :- caddr32_t;
     "mi_info_count" :- int32_t].

(** [sys/msg.h] *)
Definition msgqnum_t : ctype := ulong.
Definition msglen_t : ctype := ulong.
Definition msqid_ds : ctype :=
  by_model
  (struct ["msg_perm" :- ipc_perm;
     "msg_first" :- ptr;
     "msg_last" :- ptr;
     "msg_cbytes" :- msglen_t;
     "msg_qnum" :- msgqnum_t;
     "msg_qbytes" :- msglen_t;
     "msg_lspid" :- pid_t;
     "msg_lrpid" :- pid_t;
     "msg_stime" :- time_t;
     "msg_pad1" :- int32_t;
     "msg_rtime" :- time_t;
     "msg_pad2" :- int32_t;
     "msg_ctime" :- time_t;
     "msg_pad3" :- int32_t;
     "msg_cv" :- short;
     "msg_qnum_cv" :- short;
     "msg_pad4" :- array 3 long])
  (struct ["msg_perm" :- ipc_perm;
     "msg_first" :- ptr;
     "msg_last" :- ptr;
     "msg_cbytes" :- msglen_t;
     "msg_qnum" :- msgqnum_t;
     "msg_qbytes" :- msglen_t;
     "msg_lspid" :- pid_t;
     "msg_lrpid" :- pid_t;
     "msg_stime" :- time_t;
     "msg_rtime" :- time_t;
     "msg_ctime" :- time_t;
     "msg_cv" :- short;
     "msg_qnum_cv" :- short;
     "msg_pad4" :- array 3 long]).
Definition msgsnap_head : ctype :=
  struct ["msgsnap_size" :- size_t;
     "msgsnap_nmsg" :- size_t].
Definition msgsnap_mhead : ctype :=
  struct ["msgsnap_mlen" :- size_t;
     "msgsnap_mtype" :- long].

(** [sys/msg_impl.h] *)
Definition msgsnap_head32 : ctype :=
  struct ["msgsnap_size" :- size32_t;
     "msgsnap_nmsg" :- size32_t].
Definition msgsnap_mhead32 : ctype :=
  struct ["msgsnap_mlen" :- size32_t;
     "msgsnap_mtype" :- int32_t].
Definition msqid_ds32 : ctype :=
  struct ["msg_perm" :- ipc_perm32;
     "msg_first" :- caddr32_t;
     "msg_last" :- caddr32_t;
     "msg_cbytes" :- uint32_t;
     "msg_qnum" :- uint32_t;
     "msg_qbytes" :- uint32_t;
     "msg_lspid" :- pid32_t;
     "msg_lrpid" :- pid32_t;
     "msg_stime" :- time32_t;
     "msg_pad1" :- int32_t;
     "msg_rtime" :- time32_t;
     "msg_pad2" :- int32_t;
     "msg_ctime" :- time32_t;
     "msg_pad3" :- int32_t;
     "msg_cv" :- int16_t;
     "msg_qnum_cv" :- int16_t;
     "msg_pad4" :- array 3 int32_t].

(** [sys/procfs.h] *)
Definition PRCLSZ : Z := 8.
Definition PRFNSZ : Z := 16.
Definition PRARGSZ : Z := 80.

(** [sys/old_procfs.h] *)
Definition prpsinfo : ctype :=
  struct ["pr_state" :- char;
     "pr_sname" :- char;
     "pr_zomb" :- char;
     "pr_nice" :- char;
     "pr_flag" :- uint_t;
     "pr_uid" :- uid_t;
     "pr_gid" :- gid_t;
     "pr_pid" :- pid_t;
     "pr_ppid" :- pid_t;
     "pr_pgrp" :- pid_t;
     "pr_sid" :- pid_t;
     "pr_addr" :- caddr_t;
     "pr_size" :- size_t;
     "pr_rssize" :- size_t;
     "pr_wchan" :- caddr_t;
     "pr_start" :- timestruc_t;
     "pr_time" :- timestruc_t;
     "pr_pri" :- int;
     "pr_oldpri" :- char;
     "pr_cpu" :- char;
     "pr_ottydev" :- o_dev_t;
     "pr_lttydev" :- dev_t;
     "pr_clname" :- array PRCLSZ char;
     "pr_fname" :- array PRFNSZ char;
     "pr_psargs" :- array PRARGSZ char;
     "pr_syscall" :- short;
     "pr_fill" :- short;
     "pr_ctime" :- timestruc_t;
     "pr_bysize" :- size_t;
     "pr_byrssize" :- size_t;
     "pr_argc" :- int;
     "pr_argv" :- ptr;
     "pr_envp" :- ptr;
     "pr_wstat" :- int;
     "pr_pctcpu" :- ushort_t;
     "pr_pctmem" :- ushort_t;
     "pr_euid" :- uid_t;
     "pr_egid" :- gid_t;
     "pr_aslwpid" :- id_t;
     "pr_dmodel" :- char;
     "pr_pad" :- array 3 char;
     "pr_filler" :- array 6 int].
Definition prpsinfo32 : ctype :=
  struct ["pr_state" :- char;
     "pr_sname" :- char;
     "pr_zomb" :- char;
     "pr_nice" :- char;
     "pr_flag" :- uint32_t;
     "pr_uid" :- uid32_t;
     "pr_gid" :- gid32_t;
     "pr_pid" :- pid32_t;
     "pr_ppid" :- pid32_t;
     "pr_pgrp" :- pid32_t;
     "pr_sid" :- pid32_t;
     "pr_addr" :- caddr32_t;
     "pr_size" :- size32_t;
     "pr_rssize" :- size32_t;
     "pr_wchan" :- caddr32_t;
     "pr_start" :- timestruc32_t;
     "pr_time" :- timestruc32_t;
     "pr_pri" :- int32_t;
     "pr_oldpri" :- char;
     "pr_cpu" :- char;
     "pr_ottydev" :- o_dev_t;
     "pr_lttydev" :- dev32_t;
     "pr_clname" :- array PRCLSZ char;
     "pr_fname" :- array PRFNSZ char;
     "pr_psargs" :- array PRARGSZ char;
     "pr_syscall" :- short;
     "pr_fill" :- short;
     "pr_ctime" :- timestruc32_t;
     "pr_bysize" :- size32_t;
     "pr_byrssize" :- size32_t;
     "pr_argc" :- int;
     "pr_argv" :- caddr32_t;
     "pr_envp" :- caddr32_t;
     "pr_wstat" :- int;
     "pr_pctcpu" :- ushort_t;
     "pr_pctmem" :- ushort_t;
     "pr_euid" :- uid32_t;
     "pr_egid" :- gid32_t;
     "pr_aslwpid" :- id32_t;
     "pr_dmodel" :- char;
     "pr_pad" :- array 3 char;
     "pr_filler" :- array 6 int32_t].

(** [sys/pool_impl.h] *)
Definition pool_elem_class_t : ctype := enum.
Definition pool_resource_elem_class_t : ctype := enum.
Definition pool_query : ctype :=
  struct ["pq_io_bufsize" :- size_t;
     "pq_io_buf" :- ptr].
Definition pool_query32 : ctype :=
  struct ["pq_io_bufsize" :- size32_t;
     "pq_io_buf" :- caddr32_t].
Definition pool_xtransfer : ctype :=
  struct ["px_o_id_type" :- pool_resource_elem_class_t;
     "px_o_src_id" :- id_t;
     "px_o_tgt_id" :- id_t;
     "px_o_complist_size" :- uint_t;
     "px_o_comp_list" :- ptr].
Definition pool_xtransfer32 : ctype :=
  struct ["px_o_id_type" :- pool_resource_elem_class_t;
     "px_o_src_id" :- id_t;
     "px_o_tgt_id" :- id_t;
     "px_o_complist_size" :- uint_t;
     "px_o_comp_list" :- caddr32_t].
Definition pool_propget : ctype :=
  struct ["pp_i_bufsize" :- size_t;
     "pp_i_buf" :- ptr;
     "pp_o_id_type" :- pool_elem_class_t;
     "pp_o_id_subtype" :- pool_resource_elem_class_t;
     "pp_o_id" :- id_t;
     "pp_o_prop_name_size" :- uint_t;
     "pp_o_prop_name" :- ptr].
Definition pool_propget32 : ctype :=
  struct ["pp_i_bufsize" :- size32_t;
     "pp_i_buf" :- caddr32_t;
     "pp_o_id_type" :- pool_elem_class_t;
     "pp_o_id_subtype" :- pool_resource_elem_class_t;
     "pp_o_id" :- id_t;
     "pp_o_prop_name_size" :- uint_t;
     "pp_o_prop_name" :- caddr32_t].
Definition pool_propgetall : ctype :=
  struct ["pp_i_proplist_size" :- size_t;
     "pp_i_prop_list" :- ptr;
     "pp_o_id_type" :- pool_elem_class_t;
     "pp_o_id_sub_type" :- pool_resource_elem_class_t;
     "pp_o_id" :- id_t].
Definition pool_propgetall32 : ctype :=
  struct ["pp_i_proplist_size" :- size32_t;
     "pp_i_prop_list" :- caddr32_t;
     "pp_o_id_type" :- pool_elem_class_t;
     "pp_o_id_sub_type" :- pool_resource_elem_class_t;
     "pp_o_id" :- id_t].
Definition pool_propput : ctype :=
  struct ["pp_o_id_type" :- pool_elem_class_t;
     "pp_o_id_sub_type" :- pool_resource_elem_class_t;
     "pp_o_id" :- id_t;
     "pp_o_bufsize" :- size_t;
     "pp_o_buf" :- ptr].
Definition pool_propput32 : ctype :=
  struct ["pp_o_id_type" :- pool_elem_class_t;
     "pp_o_id_sub_type" :- pool_resource_elem_class_t;
     "pp_o_id" :- id_t;
     "pp_o_bufsize" :- size32_t;
     "pp_o_buf" :- caddr32_t].
Definition pool_proprm : ctype :=
  struct ["pp_o_id_type" :- pool_elem_class_t;
     "pp_o_id_sub_type" :- pool_resource_elem_class_t;
     "pp_o_id" :- id_t;
     "pp_o_prop_name_size" :- size_t;
     "pp_o_prop_name" :- ptr].
Definition pool_proprm32 : ctype :=
  struct ["pp_o_id_type" :- pool_elem_class_t;
     "pp_o_id_sub_type" :- pool_resource_elem_class_t;
     "pp_o_id" :- id_t;
     "pp_o_prop_name_size" :- size32_t;
     "pp_o_prop_name" :- caddr32_t].

(** [sys/port.h] *)
Definition port_event : ctype :=
  struct ["portev_events" :- int;
     "portev_source" :- ushort_t;
     "portev_pad" :- ushort_t;
     "portev_object" :- uintptr_t;
     "portev_user" :- ptr].
Definition port_notify : ctype :=
  struct ["portnfy_port" :- int;
     "portnfy_user" :- ptr].
Definition port_event32 : ctype :=
  struct ["portev_events" :- int;
     "portev_source" :- ushort_t;
     "portev_pad" :- ushort_t;
     "portev_object" :- caddr32_t;
     "portev_user" :- caddr32_t].
Definition port_notify32 : ctype :=
  struct ["portnfy_port" :- int;
     "portnfy_user" :- caddr32_t].

(** [sys/priocntl.h] *)
Definition PC_VAPARMCNT : Z := 8.
Definition pc_vaparm : ctype :=
  struct ["pc_key" :- int;
     "pc_parm" :- u_longlong_t].
Definition pc_vaparms : ctype :=
  struct ["pc_vaparmscnt" :- uint_t;
     "pc_parms" :- array PC_VAPARMCNT pc_vaparm].
Definition pc_vaparm32_t : ctype :=
  packed4 ["pc_key" :- int32_t;
     "pc_parm" :- uint64_t].
Definition pc_vaparms32_t : ctype :=
  struct ["pc_vaparmscnt" :- uint32_t;
     "pc_parms" :- array PC_VAPARMCNT pc_vaparm32_t].
Definition pcadmin32 : ctype :=
  struct ["pc_cid" :- id32_t;
     "pc_cladmin" :- caddr32_t].
Definition pcadmin : ctype :=
  struct ["pc_cid" :- id_t;
     "pc_cladmin" :- caddr_t].

(** [sys/processor.h] *)
Definition processorid_t : ctype := int.

(** [sys/procfs.h] *)
Definition lwpsinfo : ctype :=
  struct ["pr_flag" :- int;
     "pr_lwpid" :- id_t;
     "pr_addr" :- uintptr_t;
     "pr_wchan" :- uintptr_t;
     "pr_stype" :- char;
     "pr_state" :- char;
     "pr_sname" :- char;
     "pr_nice" :- char;
     "pr_syscall" :- short;
     "pr_oldpri" :- char;
     "pr_cpu" :- char;
     "pr_pri" :- int;
     "pr_pctcpu" :- ushort_t;
     "pr_pad" :- ushort_t;
     "pr_start" :- timestruc_t;
     "pr_time" :- timestruc_t;
     "pr_clname" :- array PRCLSZ char;
     "pr_name" :- array PRFNSZ char;
     "pr_onpro" :- processorid_t;
     "pr_bindpro" :- processorid_t;
     "pr_bindpset" :- psetid_t;
     "pr_filler" :- array 5 int].
Definition psinfo : ctype :=
  struct ["pr_flag" :- int;
     "pr_nlwp" :- int;
     "pr_pid" :- pid_t;
     "pr_ppid" :- pid_t;
     "pr_pgid" :- pid_t;
     "pr_sid" :- pid_t;
     "pr_uid" :- uid_t;
     "pr_euid" :- uid_t;
     "pr_gid" :- gid_t;
     "pr_egid" :- gid_t;
     "pr_addr" :- uintptr_t;
     "pr_size" :- size_t;
     "pr_rssize" :- size_t;
     "pr_pad1" :- size_t;
     "pr_ttydev" :- dev_t;
     "pr_pctcpu" :- ushort_t;
     "pr_pctmem" :- ushort_t;
     "pr_start" :- timestruc_t;
     "pr_time" :- timestruc_t;
     "pr_ctime" :- timestruc_t;
     "pr_fname" :- array PRFNSZ char;
     "pr_psargs" :- array PRARGSZ char;
     "pr_wstat" :- int;
     "pr_argc" :- int;
     "pr_argv" :- uintptr_t;
     "pr_envp" :- uintptr_t;
     "pr_dmodel" :- char;
     "pr_pad2" :- array 3 char;
     "pr_taskid" :- taskid_t;
     "pr_projid" :- projid_t;
     "pr_nzomb" :- int;
     "pr_poolid" :- poolid_t;
     "pr_zoneid" :- zoneid_t;
     "pr_contract" :- id_t;
     "pr_filler" :- array 1 int;
     "pr_lwp" :- lwpsinfo].
Definition PRMAPSZ : Z := 64.
Definition prmap : ctype :=
  struct ["pr_vaddr" :- uintptr_t;
     "pr_size" :- size_t;
     "pr_mapname" :- array PRMAPSZ char;
     "pr_offset" :- offset_t;
     "pr_mflags" :- int;
     "pr_pagesize" :- int;
     "pr_shmid" :- int;
     "pr_filler" :- array 1 int].
Definition prxmap : ctype :=
  struct ["pr_vaddr" :- uintptr_t;
     "pr_size" :- size_t;
     "pr_mapname" :- array PRMAPSZ char;
     "pr_offset" :- offset_t;
     "pr_mflags" :- int;
     "pr_pagesize" :- int;
     "pr_shmid" :- int;
     "pr_dev" :- dev_t;
     "pr_ino" :- uint64_t;
     "pr_rss" :- ulong_t;
     "pr_anon" :- ulong_t;
     "pr_locked" :- ulong_t;
     "pr_hatpagesize" :- int;
     "pr_filler" :- array 8 ulong_t].
Definition prcred : ctype :=
  struct ["pr_euid" :- uid_t;
     "pr_ruid" :- uid_t;
     "pr_suid" :- uid_t;
     "pr_egid" :- gid_t;
     "pr_rgid" :- gid_t;
     "pr_sgid" :- gid_t;
     "pr_ngroups" :- int;
     "pr_groups" :- array 1 gid_t].
Definition prwatch : ctype :=
  struct ["pr_vaddr" :- uintptr_t;
     "pr_size" :- size_t;
     "pr_wflags" :- int;
     "pr_pad" :- int].
Definition priovec : ctype :=
  struct ["pio_base" :- ptr;
     "pio_len" :- size_t;
     "pio_offset" :- off_t].
Definition prusage : ctype :=
  struct ["pr_lwpid" :- id_t;
     "pr_count" :- int;
     "pr_tstamp" :- timestruc_t;
     "pr_create" :- timestruc_t;
     "pr_term" :- timestruc_t;
     "pr_rtime" :- timestruc_t;
     "pr_utime" :- timestruc_t;
     "pr_stime" :- timestruc_t;
     "pr_ttime" :- timestruc_t;
     "pr_tftime" :- timestruc_t;
     "pr_dftime" :- timestruc_t;
     "pr_kftime" :- timestruc_t;
     "pr_ltime" :- timestruc_t;
     "pr_slptime" :- timestruc_t;
     "pr_wtime" :- timestruc_t;
     "pr_stoptime" :- timestruc_t;
     "filltime" :- array 6 timestruc_t;
     "pr_minf" :- ulong_t;
     "pr_majf" :- ulong_t;
     "pr_nswap" :- ulong_t;
     "pr_inblk" :- ulong_t;
     "pr_oublk" :- ulong_t;
     "pr_msnd" :- ulong_t;
     "pr_mrcv" :- ulong_t;
     "pr_sigs" :- ulong_t;
     "pr_vctx" :- ulong_t;
     "pr_ictx" :- ulong_t;
     "pr_sysc" :- ulong_t;
     "pr_ioch" :- ulong_t;
     "filler" :- array 10 ulong_t].
Definition prpageheader : ctype :=
  struct ["pr_tstamp" :- timestruc_t;
     "pr_nmap" :- long;
     "pr_npage" :- long].
Definition prasmap : ctype :=
  struct ["pr_vaddr" :- uintptr_t;
     "pr_npage" :- size_t;
     "pr_mapname" :- array PRMAPSZ char;
     "pr_offset" :- offset_t;
     "pr_mflags" :- int;
     "pr_pagesize" :- int;
     "pr_shmid" :- int;
     "pr_filler" :- array 1 int].
Definition prheader : ctype :=
  struct ["pr_nent" :- long;
     "pr_entsize" :- long].
Definition lwpsinfo32 : ctype :=
  struct ["pr_flag" :- int;
     "pr_lwpid" :- id32_t;
     "pr_addr" :- caddr32_t;
     "pr_wchan" :- caddr32_t;
     "pr_stype" :- char;
     "pr_state" :- char;
     "pr_sname" :- char;
     "pr_nice" :- char;
     "pr_syscall" :- short;
     "pr_oldpri" :- char;
     "pr_cpu" :- char;
     "pr_pri" :- int;
     "pr_pctcpu" :- ushort_t;
     "pr_pad" :- ushort_t;
     "pr_start" :- timestruc32_t;
     "pr_time" :- timestruc32_t;
     "pr_clname" :- array PRCLSZ char;
     "pr_name" :- array PRFNSZ char;
     "pr_onpro" :- processorid_t;
     "pr_bindpro" :- processorid_t;
     "pr_bindpset" :- psetid_t;
     "pr_filler" :- array 5 int].
Definition psinfo32 : ctype :=
  struct ["pr_flag" :- int;
     "pr_nlwp" :- int;
     "pr_pid" :- pid32_t;
     "pr_ppid" :- pid32_t;
     "pr_pgid" :- pid32_t;
     "pr_sid" :- pid32_t;
     "pr_uid" :- uid32_t;
     "pr_euid" :- uid32_t;
     "pr_gid" :- gid32_t;
     "pr_egid" :- gid32_t;
     "pr_addr" :- caddr32_t;
     "pr_size" :- size32_t;
     "pr_rssize" :- size32_t;
     "pr_pad1" :- size32_t;
     "pr_ttydev" :- dev32_t;
     "pr_pctcpu" :- ushort_t;
     "pr_pctmem" :- ushort_t;
     "pr_start" :- timestruc32_t;
     "pr_time" :- timestruc32_t;
     "pr_ctime" :- timestruc32_t;
     "pr_fname" :- array PRFNSZ char;
     "pr_psargs" :- array PRARGSZ char;
     "pr_wstat" :- int;
     "pr_argc" :- int;
     "pr_argv" :- caddr32_t;
     "pr_envp" :- caddr32_t;
     "pr_dmodel" :- char;
     "pr_pad2" :- array 3 char;
     "pr_taskid" :- id32_t;
     "pr_projid" :- id32_t;
     "pr_nzomb" :- int;
     "pr_poolid" :- id32_t;
     "pr_zoneid" :- id32_t;
     "pr_contract" :- id32_t;
     "pr_filler" :- array 1 int;
     "pr_lwp" :- lwpsinfo32].
Definition prmap32 : ctype :=
  struct ["pr_vaddr" :- caddr32_t;
     "pr_size" :- size32_t;
     "pr_mapname" :- array 64 char;
     "pr_offset" :- offset_t;
     "pr_mflags" :- int;
     "pr_pagesize" :- int;
     "pr_shmid" :- int;
     "pr_filler" :- array 1 int].
Definition prxmap32 : ctype :=
  struct ["pr_vaddr" :- caddr32_t;
     "pr_size" :- size32_t;
     "pr_mapname" :- array PRMAPSZ char;
     "pr_offset" :- offset_t;
     "pr_mflags" :- int;
     "pr_pagesize" :- int;
     "pr_shmid" :- int;
     "pr_dev" :- dev32_t;
     "pr_ino" :- uint64_t;
     "pr_rss" :- uint32_t;
     "pr_anon" :- uint32_t;
     "pr_locked" :- uint32_t;
     "pr_hatpagesize" :- int;
     "pr_filler" :- array 7 uint32_t].
Definition prcred32 : ctype :=
  struct ["pr_euid" :- uid32_t;
     "pr_ruid" :- uid32_t;
     "pr_suid" :- uid32_t;
     "pr_egid" :- gid32_t;
     "pr_rgid" :- gid32_t;
     "pr_sgid" :- gid32_t;
     "pr_ngroups" :- int;
     "pr_groups" :- array 1 gid32_t].
Definition prwatch32 : ctype :=
  struct ["pr_vaddr" :- caddr32_t;
     "pr_size" :- size32_t;
     "pr_wflags" :- int;
     "pr_pad" :- int].
Definition priovec32 : ctype :=
  struct ["pio_base" :- caddr32_t;
     "pio_len" :- size32_t;
     "pio_offset" :- off32_t].
Definition prusage32 : ctype :=
  struct ["pr_lwpid" :- id32_t;
     "pr_count" :- int32_t;
     "pr_tstamp" :- timestruc32_t;
     "pr_create" :- timestruc32_t;
     "pr_term" :- timestruc32_t;
     "pr_rtime" :- timestruc32_t;
     "pr_utime" :- timestruc32_t;
     "pr_stime" :- timestruc32_t;
     "pr_ttime" :- timestruc32_t;
     "pr_tftime" :- timestruc32_t;
     "pr_dftime" :- timestruc32_t;
     "pr_kftime" :- timestruc32_t;
     "pr_ltime" :- timestruc32_t;
     "pr_slptime" :- timestruc32_t;
     "pr_wtime" :- timestruc32_t;
     "pr_stoptime" :- timestruc32_t;
     "filltime" :- array 6 timestruc32_t;
     "pr_minf" :- uint32_t;
     "pr_majf" :- uint32_t;
     "pr_nswap" :- uint32_t;
     "pr_inblk" :- uint32_t;
     "pr_oublk" :- uint32_t;
     "pr_msnd" :- uint32_t;
     "pr_mrcv" :- uint32_t;
     "pr_sigs" :- uint32_t;
     "pr_vctx" :- uint32_t;
     "pr_ictx" :- uint32_t;
     "pr_sysc" :- uint32_t;
     "pr_ioch" :- uint32_t;
     "filler" :- array 10 uint32_t].
Definition prpageheader32 : ctype :=
  struct ["pr_tstamp" :- timestruc32_t;
     "pr_nmap" :- int32_t;
     "pr_npage" :- int32_t].
Definition prasmap32 : ctype :=
  struct ["pr_vaddr" :- caddr32_t;
     "pr_npage" :- size32_t;
     "pr_mapname" :- array 64 char;
     "pr_offset" :- offset_t;
     "pr_mflags" :- int;
     "pr_pagesize" :- int;
     "pr_shmid" :- int;
     "pr_filler" :- array 1 int].
Definition prheader32 : ctype :=
  struct ["pr_nent" :- int32_t;
     "pr_entsize" :- int32_t].

(** [sys/resource.h] *)
Definition rlim_t : ctype := ulong.
Definition rlim32_t : ctype := uint32_t.
Definition rlimit32 : ctype :=
  struct ["rlim_cur" :- rlim32_t;
     "rlim_max" :- rlim32_t].
Definition rlimit : ctype :=
  struct ["rlim_cur" :- rlim_t;
     "rlim_max" :- rlim_t].

(** [sys/time.h] *)
Definition timeval : ctype :=
  struct ["tv_sec" :- time_t;
     "tv_usec" :- suseconds_t].

(** [sys/resource.h] *)
Definition rusage : ctype :=
  struct ["ru_utime" :- timeval;
     "ru_stime" :- timeval;
     "ru_maxrss" :- long;
     "ru_ixrss" :- long;
     "ru_idrss" :- long;
     "ru_isrss" :- long;
     "ru_minflt" :- long;
     "ru_majflt" :- long;
     "ru_nswap" :- long;
     "ru_inblock" :- long;
     "ru_oublock" :- long;
     "ru_msgsnd" :- long;
     "ru_msgrcv" :- long;
     "ru_nsignals" :- long;
     "ru_nvcsw" :- long;
     "ru_nivcsw" :- long].

(** [sys/types32.h] *)
Definition timeval32 : ctype :=
  struct ["tv_sec" :- time32_t;
     "tv_usec" :- int32_t].

(** [sys/resource.h] *)
Definition rusage32 : ctype :=
  struct ["ru_utime" :- timeval32;
     "ru_stime" :- timeval32;
     "ru_maxrss" :- int;
     "ru_ixrss" :- int;
     "ru_idrss" :- int;
     "ru_isrss" :- int;
     "ru_minflt" :- int;
     "ru_majflt" :- int;
     "ru_nswap" :- int;
     "ru_inblock" :- int;
     "ru_oublock" :- int;
     "ru_msgsnd" :- int;
     "ru_msgrcv" :- int;
     "ru_nsignals" :- int;
     "ru_nvcsw" :- int;
     "ru_nivcsw" :- int].

(** [sys/rtpriocntl.h] *)
Definition rtadmin32 : ctype :=
  struct ["rt_dpents" :- caddr32_t;
     "rt_ndpents" :- int16_t;
     "rt_cmd" :- int16_t].
Definition rtadmin : ctype :=
  struct ["rt_dpents" :- ptr;
     "rt_ndpents" :- short;
     "rt_cmd" :- short].

(** [sys/sem.h] *)
Definition semid_ds : ctype :=
  by_model
  (struct ["sem_perm" :- ipc_perm;
     "sem_base" :- ptr;
     "sem_nsems" :- ushort_t;
     "sem_otime" :- time_t;
     "sem_pad1" :- int32_t;
     "sem_ctime" :- time_t;
     "sem_pad2" :- int32_t;
     "sem_binary" :- int;
     "sem_pad3" :- array 3 long])
  (struct ["sem_perm" :- ipc_perm;
     "sem_base" :- ptr;
     "sem_nsems" :- ushort_t;
     "sem_otime" :- time_t;
     "sem_ctime" :- time_t;
     "sem_binary" :- int;
     "sem_pad3" :- array 3 long]).

(** [sys/sem_impl.h] *)
Definition semid_ds32 : ctype :=
  struct ["sem_perm" :- ipc_perm32;
     "sem_base" :- caddr32_t;
     "sem_nsems" :- uint16_t;
     "sem_otime" :- time32_t;
     "sem_pad1" :- int32_t;
     "sem_ctime" :- time32_t;
     "sem_pad2" :- int32_t;
     "sem_binary" :- int32_t;
     "sem_pad3" :- array 3 int32_t].

(** [sys/shm.h] *)
Definition shmatt_t : ctype := ulong.
Definition shmid_ds : ctype :=
  by_model
  (struct ["shm_perm" :- ipc_perm;
     "shm_segsz" :- size_t;
     "shm_amp" :- ptr;
     "shm_lkcnt" :- ushort_t;
     "shm_lpid" :- pid_t;
     "shm_cpid" :- pid_t;
     "shm_nattch" :- shmatt_t;
     "shm_cnattch" :- ulong_t;
     "shm_atime" :- time_t;
     "shm_pad1" :- int32_t;
     "shm_dtime" :- time_t;
     "shm_pad2" :- int32_t;
     "shm_ctime" :- time_t;
     "shm_pad3" :- int32_t;
     "shm_pad4" :- array 4 int32_t])
  (struct ["shm_perm" :- ipc_perm;
     "shm_segsz" :- size_t;
     "shm_amp" :- ptr;
     "shm_lkcnt" :- ushort_t;
     "shm_lpid" :- pid_t;
     "shm_cpid" :- pid_t;
     "shm_nattch" :- shmatt_t;
     "shm_cnattch" :- ulong_t;
     "shm_atime" :- time_t;
     "shm_dtime" :- time_t;
     "shm_ctime" :- time_t;
     "shm_pad4" :- array 4 int64_t]).

(** [sys/shm_impl.h] *)
Definition shmid_ds32 : ctype :=
  struct ["shm_perm" :- ipc_perm32;
     "shm_segsz" :- size32_t;
     "shm_amp" :- caddr32_t;
     "shm_lkcnt" :- uint16_t;
     "shm_lpid" :- pid32_t;
     "shm_cpid" :- pid32_t;
     "shm_nattch" :- uint32_t;
     "shm_cnattch" :- uint32_t;
     "shm_atime" :- time32_t;
     "shm_pad1" :- int32_t;
     "shm_dtime" :- time32_t;
     "shm_pad2" :- int32_t;
     "shm_ctime" :- time32_t;
     "shm_pad3" :- int32_t;
     "shm_pad4" :- array 4 int32_t].

(** [sys/siginfo.h] *)
Definition sigval : ctype :=
  union ["sival_int" :- int;
     "sival_ptr" :- ptr].
Definition sigval32 : ctype :=
  union ["sival_int" :- int32_t;
     "sival_ptr" :- caddr32_t].

(** [sys/signal.h] *)
Definition sigset_t : ctype :=
  struct ["__sigbits" :- array 4 uint].
Definition sigset32_t : ctype :=
  struct ["__sigbits" :- array 4 uint32_t].
Definition sigaction : ctype :=
  by_model
  (struct ["sa_flags" :- int;
     "_funcptr" :- (union ["_handler" :- ptr; "_sigaction" :- ptr]);
     "sa_mask" :- sigset_t;
     "sa_resv" :- array 2 int])
  (struct ["sa_flags" :- int;
     "_funcptr" :- (union ["_handler" :- ptr; "_sigaction" :- ptr]);
     "sa_mask" :- sigset_t]).
Definition sigaction32 : ctype :=
  struct ["sa_flags" :- int32_t;
     "_funcptr" :- (union ["_handler" :- caddr32_t; "_sigaction" :- caddr32_t]);
     "sa_mask" :- sigset32_t;
     "sa_resv" :- array 2 int32_t].
Definition signotify_id : ctype :=
  struct ["sn_pid" :- pid_t;
     "sn_index" :- int;
     "sn_pad" :- int].
Definition signotify32_id : ctype :=
  struct ["sn_pid" :- pid32_t;
     "sn_index" :- int32_t;
     "sn_pad" :- int32_t].

(** [sys/swap.h] *)
Definition swapres : ctype :=
  struct ["sr_name" :- ptr;
     "sr_start" :- off_t;
     "sr_length" :- off_t].
Definition swapent : ctype :=
  struct ["ste_path" :- ptr;
     "ste_start" :- off_t;
     "ste_length" :- off_t;
     "ste_pages" :- long;
     "ste_free" :- long;
     "ste_flags" :- int].
Definition swaptable : ctype :=
  struct ["swt_n" :- int;
     "swt_ent" :- array 1 swapent].
Definition swapres32 : ctype :=
  struct ["sr_name" :- caddr32_t;
     "sr_start" :- off32_t;
     "sr_length" :- off32_t].
Definition swapent32 : ctype :=
  struct ["ste_path" :- caddr32_t;
     "ste_start" :- off32_t;
     "ste_length" :- off32_t;
     "ste_pages" :- int32_t;
     "ste_free" :- int32_t;
     "ste_flags" :- int32_t].
Definition swaptable32 : ctype :=
  struct ["swt_n" :- int32_t;
     "swt_ent" :- array 1 swapent32].

(** [sys/termios.h] *)
Definition ppsclockev : ctype :=
  struct ["tv" :- timeval;
     "serial" :- uint_t].
Definition ppsclockev32 : ctype :=
  struct ["tv" :- timeval32;
     "serial" :- uint32_t].

(** [sys/time.h] *)
Definition itimerval : ctype :=
  struct ["it_interval" :- timeval;
     "it_value" :- timeval].
Definition itimerval32 : ctype :=
  struct ["it_interval" :- timeval32;
     "it_value" :- timeval32].

(** [sys/time_impl.h] *)
Definition itimerspec : ctype :=
  struct ["it_interval" :- timespec;
     "it_value" :- timespec].

(** [sys/timer.h] *)
Definition oldsigevent : ctype :=
  struct ["_notify" :- int;
     "_un" :- (union ["_signo" :- int; "_notify_function" :- ptr]);
     "_value" :- sigval].
Definition oldsigevent32 : ctype :=
  struct ["_notify" :- int32_t;
     "_un" :- (union ["_signo" :- int32_t; "_notify_function" :- caddr32_t]);
     "_value" :- sigval32].

(** [sys/times.h] *)
Definition tms : ctype :=
  struct ["tms_utime" :- clock_t;
     "tms_stime" :- clock_t;
     "tms_cutime" :- clock_t;
     "tms_cstime" :- clock_t].
Definition tms32 : ctype :=
  struct ["tms_utime" :- clock32_t;
     "tms_stime" :- clock32_t;
     "tms_cutime" :- clock32_t;
     "tms_cstime" :- clock32_t].

(** [sys/timex.h] *)
Definition ntptimeval : ctype :=
  struct ["time" :- timeval;
     "maxerror" :- int32_t;
     "esterror" :- int32_t].
Definition ntptimeval32 : ctype :=
  struct ["time" :- timeval32;
     "maxerror" :- int32_t;
     "esterror" :- int32_t].

(** [sys/tspriocntl.h] *)
Definition tsadmin32 : ctype :=
  struct ["ts_dpents" :- caddr32_t;
     "ts_ndpents" :- int16_t;
     "ts_cmd" :- int16_t].
Definition tsadmin : ctype :=
  struct ["ts_dpents" :- ptr;
     "ts_ndpents" :- short;
     "ts_cmd" :- short].

(** [sys/types32.h] *)
Definition itimerspec32 : ctype :=
  struct ["it_interval" :- timespec32;
     "it_value" :- timespec32].

(** [sys/zone.h] *)
Definition zone_def32 : ctype :=
  struct ["zone_name" :- caddr32_t;
     "zone_root" :- caddr32_t;
     "zone_privs" :- caddr32_t;
     "rctlbuf" :- caddr32_t;
     "rctlbufsz" :- size32_t;
     "extended_error" :- caddr32_t].
Definition zone_def : ctype :=
  struct ["zone_name" :- ptr;
     "zone_root" :- ptr;
     "zone_privs" :- ptr;
     "rctlbuf" :- ptr;
     "rctlbufsz" :- size_t;
     "extended_error" :- ptr].

(** [vm/anon.h] *)
Definition anoninfo : ctype :=
  struct ["ani_max" :- pgcnt_t;
     "ani_free" :- pgcnt_t;
     "ani_resv" :- pgcnt_t].
Definition anoninfo32 : ctype :=
  struct ["ani_max" :- size32_t;
     "ani_free" :- size32_t;
     "ani_resv" :- size32_t].

(** The structures and what the 64-bit kernel reads them as. *)
Definition views_proc : list (ctype * ctype) :=
  [(aio_result32_t, aio_result_t);
   (anoninfo32, anoninfo);
   (auxv32_t, auxv_t);
   (bl_req32, bl_req);
   (ct_event32, ct_event);
   (ct_status32, ct_status);
   (door_arg32, door_arg);
   (door_results32, door_results);
   (door_return_desc32, door_return_desc);
   (dvpoll32, dvpoll);
   (frame32, frame);
   (fxadmin32, fxadmin);
   (iaadmin32, iaadmin);
   (ipc_perm32, ipc_perm);
   (itimerspec32, itimerspec);
   (itimerval32, itimerval);
   (lgrp_info32, lgrp_info);
   (lgrp_snapshot_header32, lgrp_snapshot_header);
   (link_map32, link_map);
   (lwpinfo32, lwpinfo);
   (lwpsinfo32, lwpsinfo);
   (memcntl_mha32, memcntl_mha);
   (meminfo32, meminfo);
   (msgsnap_head32, msgsnap_head);
   (msgsnap_mhead32, msgsnap_mhead);
   (msqid_ds32, msqid_ds);
   (ntptimeval32, ntptimeval);
   (oldsigevent32, oldsigevent);
   (pc_vaparm32_t, pc_vaparm);
   (pc_vaparms32_t, pc_vaparms);
   (pcadmin32, pcadmin);
   (pool_propget32, pool_propget);
   (pool_propgetall32, pool_propgetall);
   (pool_propput32, pool_propput);
   (pool_proprm32, pool_proprm);
   (pool_query32, pool_query);
   (pool_xtransfer32, pool_xtransfer);
   (port_event32, port_event);
   (port_notify32, port_notify);
   (ppsclockev32, ppsclockev);
   (prasmap32, prasmap);
   (prcred32, prcred);
   (prheader32, prheader);
   (priovec32, priovec);
   (prmap32, prmap);
   (prpageheader32, prpageheader);
   (prpsinfo32, prpsinfo);
   (prusage32, prusage);
   (prwatch32, prwatch);
   (psinfo32, psinfo);
   (rlimit32, rlimit);
   (rtadmin32, rtadmin);
   (rusage32, rusage);
   (semid_ds32, semid_ds);
   (shmid_ds32, shmid_ds);
   (sigaction32, sigaction);
   (signotify32_id, signotify_id);
   (sigset32_t, sigset_t);
   (sigval32, sigval);
   (swapent32, swapent);
   (swapres32, swapres);
   (swaptable32, swaptable);
   (timespec32, timespec);
   (timeval32, timeval);
   (tms32, tms);
   (tsadmin32, tsadmin);
   (zone_def32, zone_def)].

Lemma views_proc_agree : views_check views_proc = true.
Proof. vm_compute. reflexivity. Qed.
