(* ===== verification/AbiNet.v ===== *)
(** * Network formats

    Messages and packet headers: PF_KEY, ICMPv6, IPv6, SCTP, ARP, PPP, RIP and
    the MIB records. *)
From Stdlib Require Import String.
From S2P Require Import Prelude ByteOrder CTypes AbiTypes.
#[local] Open Scope Z_scope.
#[local] Open Scope ctype_scope.


(** [inet/mib2.h] *)
Definition OCTET_LENGTH : Z := 32.
Definition Octet_s : ctype :=
  struct ["o_length" :- int;
     "o_bytes" :- array OCTET_LENGTH char].
Definition Counter : ctype := uint32_t.
Definition Counter32 : ctype := uint32_t.
Definition Counter64 : ctype := uint64_t.
Definition Gauge : ctype := uint32_t.
Definition IpAddress : ctype := uint32_t.

(** [netinet/in.h] *)
Definition in6_addr : ctype :=
  struct ["_S6_un" :- (union ["_S6_u8" :- array 16 uint8_t;
       "_S6_u32" :- array 4 uint32_t;
       "__S6_align" :- uint32_t])].

(** [inet/mib2.h] *)
Definition Ip6Address : ctype := in6_addr.
Definition DeviceName : ctype := Octet_s.
Definition PhysAddress : ctype := Octet_s.
Definition DeviceIndex : ctype := uint32_t.
Definition mib2_ip : ctype :=
  struct ["ipForwarding" :- int;
     "ipDefaultTTL" :- int;
     "ipInReceives" :- Counter;
     "ipInHdrErrors" :- Counter;
     "ipInAddrErrors" :- Counter;
     "ipForwDatagrams" :- Counter;
     "ipInUnknownProtos" :- Counter;
     "ipInDiscards" :- Counter;
     "ipInDelivers" :- Counter;
     "ipOutRequests" :- Counter;
     "ipOutDiscards" :- Counter;
     "ipOutNoRoutes" :- Counter;
     "ipReasmTimeout" :- int;
     "ipReasmReqds" :- Counter;
     "ipReasmOKs" :- Counter;
     "ipReasmFails" :- Counter;
     "ipFragOKs" :- Counter;
     "ipFragFails" :- Counter;
     "ipFragCreates" :- Counter;
     "ipAddrEntrySize" :- int;
     "ipRouteEntrySize" :- int;
     "ipNetToMediaEntrySize" :- int;
     "ipRoutingDiscards" :- Counter;
     "tcpInErrs" :- Counter;
     "udpNoPorts" :- Counter;
     "ipInCksumErrs" :- Counter;
     "ipReasmDuplicates" :- Counter;
     "ipReasmPartDups" :- Counter;
     "ipForwProhibits" :- Counter;
     "udpInCksumErrs" :- Counter;
     "udpInOverflows" :- Counter;
     "rawipInOverflows" :- Counter;
     "ipsecInSucceeded" :- Counter;
     "ipsecInFailed" :- Counter;
     "ipMemberEntrySize" :- int;
     "ipGroupSourceEntrySize" :- int;
     "ipInIPv6" :- Counter;
     "ipOutIPv6" :- Counter;
     "ipOutSwitchIPv6" :- Counter].
Definition mib2_ipv6IfStatsEntry : ctype :=
  struct ["ipv6IfIndex" :- DeviceIndex;
     "ipv6Forwarding" :- int;
     "ipv6DefaultHopLimit" :- int;
     "ipv6IfStatsEntrySize" :- int;
     "ipv6AddrEntrySize" :- int;
     "ipv6RouteEntrySize" :- int;
     "ipv6NetToMediaEntrySize" :- int;
     "ipv6MemberEntrySize" :- int;
     "ipv6GroupSourceEntrySize" :- int;
     "ipv6InReceives" :- Counter;
     "ipv6InHdrErrors" :- Counter;
     "ipv6InTooBigErrors" :- Counter;
     "ipv6InNoRoutes" :- Counter;
     "ipv6InAddrErrors" :- Counter;
     "ipv6InUnknownProtos" :- Counter;
     "ipv6InTruncatedPkts" :- Counter;
     "ipv6InDiscards" :- Counter;
     "ipv6InDelivers" :- Counter;
     "ipv6OutForwDatagrams" :- Counter;
     "ipv6OutRequests" :- Counter;
     "ipv6OutDiscards" :- Counter;
     "ipv6OutFragOKs" :- Counter;
     "ipv6OutFragFails" :- Counter;
     "ipv6OutFragCreates" :- Counter;
     "ipv6ReasmReqds" :- Counter;
     "ipv6ReasmOKs" :- Counter;
     "ipv6ReasmFails" :- Counter;
     "ipv6InMcastPkts" :- Counter;
     "ipv6OutMcastPkts" :- Counter;
     "ipv6OutNoRoutes" :- Counter;
     "ipv6ReasmDuplicates" :- Counter;
     "ipv6ReasmPartDups" :- Counter;
     "ipv6ForwProhibits" :- Counter;
     "udpInCksumErrs" :- Counter;
     "udpInOverflows" :- Counter;
     "rawipInOverflows" :- Counter;
     "ipv6InIPv4" :- Counter;
     "ipv6OutIPv4" :- Counter;
     "ipv6OutSwitchIPv4" :- Counter].
Definition ipAdEntInfo_s : ctype :=
  struct ["ae_mtu" :- Gauge;
     "ae_metric" :- int;
     "ae_broadcast_addr" :- IpAddress;
     "ae_pp_dst_addr" :- IpAddress;
     "ae_flags" :- int;
     "ae_ibcnt" :- Counter;
     "ae_obcnt" :- Counter;
     "ae_focnt" :- Counter;
     "ae_subnet" :- IpAddress;
     "ae_subnet_len" :- int;
     "ae_src_addr" :- IpAddress].
Definition mib2_ipAddrEntry : ctype :=
  struct ["ipAdEntAddr" :- IpAddress;
     "ipAdEntIfIndex" :- DeviceName;
     "ipAdEntNetMask" :- IpAddress;
     "ipAdEntBcastAddr" :- int;
     "ipAdEntReasmMaxSize" :- int;
     "ipAdEntInfo" :- ipAdEntInfo_s].
Definition ipv6AddrInfo_s : ctype :=
  struct ["ae_mtu" :- Gauge;
     "ae_metric" :- int;
     "ae_pp_dst_addr" :- Ip6Address;
     "ae_flags" :- int;
     "ae_ibcnt" :- Counter;
     "ae_obcnt" :- Counter;
     "ae_focnt" :- Counter;
     "ae_subnet" :- Ip6Address;
     "ae_subnet_len" :- int;
     "ae_src_addr" :- Ip6Address].
Definition mib2_ipv6AddrEntry : ctype :=
  struct ["ipv6AddrIfIndex" :- DeviceName;
     "ipv6AddrAddress" :- Ip6Address;
     "ipv6AddrPfxLength" :- uint_t;
     "ipv6AddrType" :- uint_t;
     "ipv6AddrAnycastFlag" :- uint_t;
     "ipv6AddrStatus" :- uint_t;
     "ipv6AddrInfo" :- ipv6AddrInfo_s].
Definition ipRouteInfo_s : ctype :=
  struct ["re_max_frag" :- Gauge;
     "re_rtt" :- Gauge;
     "re_ref" :- Counter;
     "re_frag_flag" :- int;
     "re_src_addr" :- IpAddress;
     "re_ire_type" :- int;
     "re_obpkt" :- Counter;
     "re_ibpkt" :- Counter;
     "re_flags" :- int;
     "re_in_ill" :- DeviceName;
     "re_in_src_addr" :- IpAddress].
Definition mib2_ipRouteEntry : ctype :=
  struct ["ipRouteDest" :- IpAddress;
     "ipRouteIfIndex" :- DeviceName;
     "ipRouteMetric1" :- int;
     "ipRouteMetric2" :- int;
     "ipRouteMetric3" :- int;
     "ipRouteMetric4" :- int;
     "ipRouteNextHop" :- IpAddress;
     "ipRouteType" :- int;
     "ipRouteProto" :- int;
     "ipRouteAge" :- int;
     "ipRouteMask" :- IpAddress;
     "ipRouteMetric5" :- int;
     "ipRouteInfo" :- ipRouteInfo_s].
Definition ipv6RouteInfo_s : ctype :=
  struct ["re_max_frag" :- Gauge;
     "re_rtt" :- Gauge;
     "re_ref" :- Counter;
     "re_frag_flag" :- int;
     "re_src_addr" :- Ip6Address;
     "re_ire_type" :- int;
     "re_obpkt" :- Counter;
     "re_ibpkt" :- Counter;
     "re_flags" :- int].
Definition mib2_ipv6RouteEntry : ctype :=
  struct ["ipv6RouteDest" :- Ip6Address;
     "ipv6RoutePfxLength" :- int;
     "ipv6RouteIndex" :- uint;
     "ipv6RouteIfIndex" :- DeviceName;
     "ipv6RouteNextHop" :- Ip6Address;
     "ipv6RouteType" :- int;
     "ipv6RouteProtocol" :- int;
     "ipv6RoutePolicy" :- uint;
     "ipv6RouteAge" :- int;
     "ipv6RouteNextHopRDI" :- uint;
     "ipv6RouteMetric" :- uint;
     "ipv6RouteWeight" :- uint;
     "ipv6RouteInfo" :- ipv6RouteInfo_s].
Definition ipNetToMediaInfo_s : ctype :=
  struct ["ntm_mask" :- PhysAddress;
     "ntm_flags" :- int].
Definition mib2_ipNetToMediaEntry : ctype :=
  struct ["ipNetToMediaIfIndex" :- DeviceName;
     "ipNetToMediaPhysAddress" :- PhysAddress;
     "ipNetToMediaNetAddress" :- IpAddress;
     "ipNetToMediaType" :- int;
     "ipNetToMediaInfo" :- ipNetToMediaInfo_s].
Definition mib2_ipv6NetToMediaEntry : ctype :=
  struct ["ipv6NetToMediaIfIndex" :- DeviceIndex;
     "ipv6NetToMediaNetAddress" :- Ip6Address;
     "ipv6NetToMediaPhysAddress" :- PhysAddress;
     "ipv6NetToMediaType" :- int;
     "ipv6NetToMediaState" :- int;
     "ipv6NetToMediaLastUpdated" :- int].
Definition ip_member : ctype :=
  struct ["ipGroupMemberIfIndex" :- DeviceName;
     "ipGroupMemberAddress" :- IpAddress;
     "ipGroupMemberRefCnt" :- Counter;
     "ipGroupMemberFilterMode" :- int].
Definition ipv6_member : ctype :=
  struct ["ipv6GroupMemberIfIndex" :- DeviceIndex;
     "ipv6GroupMemberAddress" :- Ip6Address;
     "ipv6GroupMemberRefCnt" :- Counter;
     "ipv6GroupMemberFilterMode" :- int].
Definition ip_grpsrc : ctype :=
  struct ["ipGroupSourceIfIndex" :- DeviceName;
     "ipGroupSourceGroup" :- IpAddress;
     "ipGroupSourceAddress" :- IpAddress].
Definition ipv6_grpsrc : ctype :=
  struct ["ipv6GroupSourceIfIndex" :- DeviceIndex;
     "ipv6GroupSourceGroup" :- Ip6Address;
     "ipv6GroupSourceAddress" :- Ip6Address].
Definition mib2_icmp : ctype :=
  struct ["icmpInMsgs" :- Counter;
     "icmpInErrors" :- Counter;
     "icmpInDestUnreachs" :- Counter;
     "icmpInTimeExcds" :- Counter;
     "icmpInParmProbs" :- Counter;
     "icmpInSrcQuenchs" :- Counter;
     "icmpInRedirects" :- Counter;
     "icmpInEchos" :- Counter;
     "icmpInEchoReps" :- Counter;
     "icmpInTimestamps" :- Counter;
     "icmpInTimestampReps" :- Counter;
     "icmpInAddrMasks" :- Counter;
     "icmpInAddrMaskReps" :- Counter;
     "icmpOutMsgs" :- Counter;
     "icmpOutErrors" :- Counter;
     "icmpOutDestUnreachs" :- Counter;
     "icmpOutTimeExcds" :- Counter;
     "icmpOutParmProbs" :- Counter;
     "icmpOutSrcQuenchs" :- Counter;
     "icmpOutRedirects" :- Counter;
     "icmpOutEchos" :- Counter;
     "icmpOutEchoReps" :- Counter;
     "icmpOutTimestamps" :- Counter;
     "icmpOutTimestampReps" :- Counter;
     "icmpOutAddrMasks" :- Counter;
     "icmpOutAddrMaskReps" :- Counter;
     "icmpInCksumErrs" :- Counter;
     "icmpInUnknowns" :- Counter;
     "icmpInFragNeeded" :- Counter;
     "icmpOutFragNeeded" :- Counter;
     "icmpOutDrops" :- Counter;
     "icmpInOverflows" :- Counter;
     "icmpInBadRedirects" :- Counter].
Definition mib2_ipv6IfIcmpEntry : ctype :=
  struct ["ipv6IfIcmpIfIndex" :- DeviceIndex;
     "ipv6IfIcmpEntrySize" :- int;
     "ipv6IfIcmpInMsgs" :- Counter32;
     "ipv6IfIcmpInErrors" :- Counter32;
     "ipv6IfIcmpInDestUnreachs" :- Counter32;
     "ipv6IfIcmpInAdminProhibs" :- Counter32;
     "ipv6IfIcmpInTimeExcds" :- Counter32;
     "ipv6IfIcmpInParmProblems" :- Counter32;
     "ipv6IfIcmpInPktTooBigs" :- Counter32;
     "ipv6IfIcmpInEchos" :- Counter32;
     "ipv6IfIcmpInEchoReplies" :- Counter32;
     "ipv6IfIcmpInRouterSolicits" :- Counter32;
     "ipv6IfIcmpInRouterAdvertisements" :- Counter32;
     "ipv6IfIcmpInNeighborSolicits" :- Counter32;
     "ipv6IfIcmpInNeighborAdvertisements" :- Counter32;
     "ipv6IfIcmpInRedirects" :- Counter32;
     "ipv6IfIcmpInGroupMembQueries" :- Counter32;
     "ipv6IfIcmpInGroupMembResponses" :- Counter32;
     "ipv6IfIcmpInGroupMembReductions" :- Counter32;
     "ipv6IfIcmpOutMsgs" :- Counter32;
     "ipv6IfIcmpOutErrors" :- Counter32;
     "ipv6IfIcmpOutDestUnreachs" :- Counter32;
     "ipv6IfIcmpOutAdminProhibs" :- Counter32;
     "ipv6IfIcmpOutTimeExcds" :- Counter32;
     "ipv6IfIcmpOutParmProblems" :- Counter32;
     "ipv6IfIcmpOutPktTooBigs" :- Counter32;
     "ipv6IfIcmpOutEchos" :- Counter32;
     "ipv6IfIcmpOutEchoReplies" :- Counter32;
     "ipv6IfIcmpOutRouterSolicits" :- Counter32;
     "ipv6IfIcmpOutRouterAdvertisements" :- Counter32;
     "ipv6IfIcmpOutNeighborSolicits" :- Counter32;
     "ipv6IfIcmpOutNeighborAdvertisements" :- Counter32;
     "ipv6IfIcmpOutRedirects" :- Counter32;
     "ipv6IfIcmpOutGroupMembQueries" :- Counter32;
     "ipv6IfIcmpOutGroupMembResponses" :- Counter32;
     "ipv6IfIcmpOutGroupMembReductions" :- Counter32;
     "ipv6IfIcmpInOverflows" :- Counter32;
     "ipv6IfIcmpBadHoplimit" :- Counter32;
     "ipv6IfIcmpInBadNeighborAdvertisements" :- Counter32;
     "ipv6IfIcmpInBadNeighborSolicitations" :- Counter32;
     "ipv6IfIcmpInBadRedirects" :- Counter32;
     "ipv6IfIcmpInGroupMembTotal" :- Counter32;
     "ipv6IfIcmpInGroupMembBadQueries" :- Counter32;
     "ipv6IfIcmpInGroupMembBadReports" :- Counter32;
     "ipv6IfIcmpInGroupMembOurReports" :- Counter32].
Definition mib2_tcp : ctype :=
  struct ["tcpRtoAlgorithm" :- int;
     "tcpRtoMin" :- int;
     "tcpRtoMax" :- int;
     "tcpMaxConn" :- int;
     "tcpActiveOpens" :- Counter;
     "tcpPassiveOpens" :- Counter;
     "tcpAttemptFails" :- Counter;
     "tcpEstabResets" :- Counter;
     "tcpCurrEstab" :- Gauge;
     "tcpInSegs" :- Counter;
     "tcpOutSegs" :- Counter;
     "tcpRetransSegs" :- Counter;
     "tcpConnTableSize" :- int;
     "tcpOutRsts" :- Counter;
     "tcpOutDataSegs" :- Counter;
     "tcpOutDataBytes" :- Counter;
     "tcpRetransBytes" :- Counter;
     "tcpOutAck" :- Counter;
     "tcpOutAckDelayed" :- Counter;
     "tcpOutUrg" :- Counter;
     "tcpOutWinUpdate" :- Counter;
     "tcpOutWinProbe" :- Counter;
     "tcpOutControl" :- Counter;
     "tcpOutFastRetrans" :- Counter;
     "tcpInAckSegs" :- Counter;
     "tcpInAckBytes" :- Counter;
     "tcpInDupAck" :- Counter;
     "tcpInAckUnsent" :- Counter;
     "tcpInDataInorderSegs" :- Counter;
     "tcpInDataInorderBytes" :- Counter;
     "tcpInDataUnorderSegs" :- Counter;
     "tcpInDataUnorderBytes" :- Counter;
     "tcpInDataDupSegs" :- Counter;
     "tcpInDataDupBytes" :- Counter;
     "tcpInDataPartDupSegs" :- Counter;
     "tcpInDataPartDupBytes" :- Counter;
     "tcpInDataPastWinSegs" :- Counter;
     "tcpInDataPastWinBytes" :- Counter;
     "tcpInWinProbe" :- Counter;
     "tcpInWinUpdate" :- Counter;
     "tcpInClosed" :- Counter;
     "tcpRttNoUpdate" :- Counter;
     "tcpRttUpdate" :- Counter;
     "tcpTimRetrans" :- Counter;
     "tcpTimRetransDrop" :- Counter;
     "tcpTimKeepalive" :- Counter;
     "tcpTimKeepaliveProbe" :- Counter;
     "tcpTimKeepaliveDrop" :- Counter;
     "tcpListenDrop" :- Counter;
     "tcpListenDropQ0" :- Counter;
     "tcpHalfOpenDrop" :- Counter;
     "tcpOutSackRetransSegs" :- Counter;
     "tcp6ConnTableSize" :- int].
Definition tcpConnEntryInfo_s : ctype :=
  struct ["ce_snxt" :- Gauge;
     "ce_suna" :- Gauge;
     "ce_swnd" :- Gauge;
     "ce_rnxt" :- Gauge;
     "ce_rack" :- Gauge;
     "ce_rwnd" :- Gauge;
     "ce_rto" :- Gauge;
     "ce_mss" :- Gauge;
     "ce_state" :- int].
Definition mib2_tcpConnEntry : ctype :=
  struct ["tcpConnState" :- int;
     "tcpConnLocalAddress" :- IpAddress;
     "tcpConnLocalPort" :- int;
     "tcpConnRemAddress" :- IpAddress;
     "tcpConnRemPort" :- int;
     "tcpConnEntryInfo" :- tcpConnEntryInfo_s].
Definition tcp6ConnEntryInfo_s : ctype :=
  struct ["ce_snxt" :- Gauge;
     "ce_suna" :- Gauge;
     "ce_swnd" :- Gauge;
     "ce_rnxt" :- Gauge;
     "ce_rack" :- Gauge;
     "ce_rwnd" :- Gauge;
     "ce_rto" :- Gauge;
     "ce_mss" :- Gauge;
     "ce_state" :- int].
Definition mib2_tcp6ConnEntry : ctype :=
  struct ["tcp6ConnLocalAddress" :- Ip6Address;
     "tcp6ConnLocalPort" :- int;
     "tcp6ConnRemAddress" :- Ip6Address;
     "tcp6ConnRemPort" :- int;
     "tcp6ConnIfIndex" :- DeviceIndex;
     "tcp6ConnState" :- int;
     "tcp6ConnEntryInfo" :- tcp6ConnEntryInfo_s].
Definition mib2_udp : ctype :=
  struct ["udpInDatagrams" :- Counter;
     "udpInErrors" :- Counter;
     "udpOutDatagrams" :- Counter;
     "udpEntrySize" :- int;
     "udp6EntrySize" :- int;
     "udpOutErrors" :- Counter].
Definition udpEntryInfo_s : ctype :=
  struct ["ue_state" :- int;
     "ue_RemoteAddress" :- IpAddress;
     "ue_RemotePort" :- int].
Definition mib2_udpEntry : ctype :=
  struct ["udpLocalAddress" :- IpAddress;
     "udpLocalPort" :- int;
     "udpEntryInfo" :- udpEntryInfo_s].
Definition udp6EntryInfo_s : ctype :=
  struct ["ue_state" :- int;
     "ue_RemoteAddress" :- Ip6Address;
     "ue_RemotePort" :- int].
Definition mib2_udp6Entry : ctype :=
  struct ["udp6LocalAddress" :- Ip6Address;
     "udp6LocalPort" :- int;
     "udp6IfIndex" :- DeviceIndex;
     "udp6EntryInfo" :- udp6EntryInfo_s].
Definition mib2_rawip : ctype :=
  struct ["rawipInDatagrams" :- Counter;
     "rawipInCksumErrs" :- Counter;
     "rawipInErrors" :- Counter;
     "rawipOutDatagrams" :- Counter;
     "rawipOutErrors" :- Counter].
Definition sctpConnEntryInfo_s : ctype :=
  struct ["ce_sendq" :- Gauge;
     "ce_recvq" :- Gauge;
     "ce_swnd" :- Gauge;
     "ce_rwnd" :- Gauge;
     "ce_mss" :- Gauge].
Definition mib2_sctpConnEntry : ctype :=
  struct ["sctpAssocId" :- uint32_t;
     "sctpAssocRemHostName" :- Octet_s;
     "sctpAssocLocalPort" :- uint32_t;
     "sctpAssocRemPort" :- uint32_t;
     "sctpAssocRemPrimAddrType" :- int;
     "sctpAssocRemPrimAddr" :- Ip6Address;
     "sctpAssocLocPrimAddr" :- Ip6Address;
     "sctpAssocHeartBeatInterval" :- uint32_t;
     "sctpAssocState" :- int;
     "sctpAssocInStreams" :- uint32_t;
     "sctpAssocOutStreams" :- uint32_t;
     "sctpAssocMaxRetr" :- uint32_t;
     "sctpAssocPrimProcess" :- uint32_t;
     "sctpAssocT1expired" :- Counter32;
     "sctpAssocT2expired" :- Counter32;
     "sctpAssocRtxChunks" :- Counter32;
     "sctpAssocStartTime" :- uint32_t;
     "sctpConnEntryInfo" :- sctpConnEntryInfo_s].
Definition mib2_sctpConnLocalAddrEntry : ctype :=
  struct ["sctpAssocId" :- uint32_t;
     "sctpAssocLocalAddrType" :- int;
     "sctpAssocLocalAddr" :- Ip6Address].
Definition mib2_sctpConnRemoteAddrEntry : ctype :=
  struct ["sctpAssocId" :- uint32_t;
     "sctpAssocRemAddrType" :- int;
     "sctpAssocRemAddr" :- Ip6Address;
     "sctpAssocRemAddrActive" :- int;
     "sctpAssocRemAddrHBActive" :- int;
     "sctpAssocRemAddrRTO" :- uint32_t;
     "sctpAssocRemAddrMaxPathRtx" :- uint32_t;
     "sctpAssocRemAddrRtx" :- uint32_t].
Definition mib2_sctp : ctype :=
  packed4 ["sctpRtoAlgorithm" :- int;
     "sctpRtoMin" :- uint32_t;
     "sctpRtoMax" :- uint32_t;
     "sctpRtoInitial" :- uint32_t;
     "sctpMaxAssocs" :- int32_t;
     "sctpValCookieLife" :- uint32_t;
     "sctpMaxInitRetr" :- uint32_t;
     "sctpCurrEstab" :- Counter32;
     "sctpActiveEstab" :- Counter32;
     "sctpPassiveEstab" :- Counter32;
     "sctpAborted" :- Counter32;
     "sctpShutdowns" :- Counter32;
     "sctpOutOfBlue" :- Counter32;
     "sctpChecksumError" :- Counter32;
     "sctpOutCtrlChunks" :- Counter64;
     "sctpOutOrderChunks" :- Counter64;
     "sctpOutUnorderChunks" :- Counter64;
     "sctpRetransChunks" :- Counter64;
     "sctpOutAck" :- Counter;
     "sctpOutAckDelayed" :- Counter;
     "sctpOutWinUpdate" :- Counter;
     "sctpOutFastRetrans" :- Counter;
     "sctpOutWinProbe" :- Counter;
     "sctpInCtrlChunks" :- Counter64;
     "sctpInOrderChunks" :- Counter64;
     "sctpInUnorderChunks" :- Counter64;
     "sctpInAck" :- Counter;
     "sctpInDupAck" :- Counter;
     "sctpInAckUnsent" :- Counter;
     "sctpFragUsrMsgs" :- Counter64;
     "sctpReasmUsrMsgs" :- Counter64;
     "sctpOutSCTPPkts" :- Counter64;
     "sctpInSCTPPkts" :- Counter64;
     "sctpInInvalidCookie" :- Counter;
     "sctpTimRetrans" :- Counter;
     "sctpTimRetransDrop" :- Counter;
     "sctpTimHeartBeatProbe" :- Counter;
     "sctpTimHeartBeatDrop" :- Counter;
     "sctpListenDrop" :- Counter;
     "sctpInClosed" :- Counter;
     "sctpEntrySize" :- int;
     "sctpLocalEntrySize" :- int;
     "sctpRemoteEntrySize" :- int].

(** [net/if_arp.h] *)
Definition arphdr : ctype :=
  struct ["ar_hrd" :- ushort_t;
     "ar_pro" :- ushort_t;
     "ar_hln" :- uchar_t;
     "ar_pln" :- uchar_t;
     "ar_op" :- ushort_t].

(** [sys/socket_impl.h] *)
Definition sockaddr_maxalign_t : ctype := double.
Definition _SS_ALIGNSIZE : Z := (sizeof i386 sockaddr_maxalign_t).
Definition _SS_PAD1SIZE : Z := (_SS_ALIGNSIZE - sizeof i386 sa_family_t).
Definition _SS_MAXSIZE : Z := 256.
Definition _SS_PAD2SIZE : Z := (_SS_MAXSIZE - (sizeof i386 sa_family_t+ _SS_PAD1SIZE + _SS_ALIGNSIZE)).
Definition sockaddr_storage : ctype :=
  struct ["ss_family" :- sa_family_t;
     "_ss_pad1" :- array _SS_PAD1SIZE char;
     "_ss_align" :- sockaddr_maxalign_t;
     "_ss_pad2" :- array _SS_PAD2SIZE char].

(** [net/if_dl.h] *)
Definition sockaddr_dl : ctype :=
  struct ["sdl_family" :- ushort_t;
     "sdl_index" :- ushort_t;
     "sdl_type" :- uchar_t;
     "sdl_nlen" :- uchar_t;
     "sdl_alen" :- uchar_t;
     "sdl_slen" :- uchar_t;
     "sdl_data" :- array 244 char].

(** [net/if_arp.h] *)
Definition xarpreq : ctype :=
  struct ["xarp_pa" :- sockaddr_storage;
     "xarp_ha" :- sockaddr_dl;
     "xarp_flags" :- int].

(** [sys/socket_impl.h] *)
Definition sockaddr : ctype :=
  struct ["sa_family" :- sa_family_t;
     "sa_data" :- array 14 char].

(** [net/if_arp.h] *)
Definition arpreq : ctype :=
  struct ["arp_pa" :- sockaddr;
     "arp_ha" :- sockaddr;
     "arp_flags" :- int].

(** [net/pfkeyv2.h] *)
Definition sadb_msg : ctype :=
  struct ["sadb_msg_version" :- uint8_t;
     "sadb_msg_type" :- uint8_t;
     "sadb_msg_errno" :- uint8_t;
     "sadb_msg_satype" :- uint8_t;
     "sadb_msg_len" :- uint16_t;
     "sadb_msg_reserved" :- uint16_t;
     "sadb_x_msg_u" :- (union ["sadb_x_msg_actual" :- (struct ["sadb_x_msg_useq" :- uint32_t; "sadb_x_msg_upid" :- uint32_t]);
       "sadb_x_msg_alignment" :- uint64_t])].
Definition sadb_ext : ctype :=
  struct ["sadb_x_ext_u" :- (union ["sadb_x_ext_actual" :- (struct ["sadb_x_ext_ulen" :- uint16_t; "sadb_x_ext_utype" :- uint16_t]);
       "sadb_x_ext_alignment" :- uint64_t])].
Definition sadb_sa : ctype :=
  struct ["sadb_x_sa_u" :- (union ["sadb_x_sa_uactual" :- (struct ["sadb_x_sa_ulen" :- uint16_t;
         "sadb_x_sa_uexttype" :- uint16_t;
         "sadb_x_sa_uspi" :- uint32_t]);
       "sadb_x_sa_alignment" :- uint64_t]);
     "sadb_sa_replay" :- uint8_t;
     "sadb_sa_state" :- uint8_t;
     "sadb_sa_auth" :- uint8_t;
     "sadb_sa_encrypt" :- uint8_t;
     "sadb_sa_flags" :- uint32_t].
Definition sadb_lifetime : ctype :=
  struct ["sadb_lifetime_len" :- uint16_t;
     "sadb_lifetime_exttype" :- uint16_t;
     "sadb_lifetime_allocations" :- uint32_t;
     "sadb_lifetime_bytes" :- uint64_t;
     "sadb_lifetime_addtime" :- uint64_t;
     "sadb_lifetime_usetime" :- uint64_t].
Definition sadb_address : ctype :=
  struct ["sadb_x_address_u" :- (union ["sadb_x_address_actual" :- (struct ["sadb_x_address_ulen" :- uint16_t;
         "sadb_x_address_uexttype" :- uint16_t;
         "sadb_x_address_uproto" :- uint8_t;
         "sadb_x_address_uprefixlen" :- uint8_t;
         "sadb_x_address_ureserved" :- uint16_t]);
       "sadb_x_address_alignment" :- uint64_t])].
Definition sadb_key : ctype :=
  struct ["sadb_x_key_u" :- (union ["sadb_x_key_actual" :- (struct ["sadb_x_key_ulen" :- uint16_t;
         "sadb_x_key_uexttype" :- uint16_t;
         "sadb_x_key_ubits" :- uint16_t;
         "sadb_x_key_ureserved" :- uint16_t]);
       "sadb_x_key_alignment" :- uint64_t])].
Definition sadb_ident : ctype :=
  struct ["sadb_ident_len" :- uint16_t;
     "sadb_ident_exttype" :- uint16_t;
     "sadb_ident_type" :- uint16_t;
     "sadb_ident_reserved" :- uint16_t;
     "sadb_ident_id" :- uint64_t].
Definition sadb_sens : ctype :=
  struct ["sadb_x_sens_u" :- (union ["sadb_x_sens_actual" :- (struct ["sadb_x_sens_ulen" :- uint16_t;
         "sadb_x_sens_uexttype" :- uint16_t;
         "sadb_x_sens_udpd" :- uint32_t]);
       "sadb_x_sens_alignment" :- uint64_t]);
     "sadb_sens_sens_level" :- uint8_t;
     "sadb_sens_sens_len" :- uint8_t;
     "sadb_sens_integ_level" :- uint8_t;
     "sadb_sens_integ_len" :- uint8_t;
     "sadb_sens_reserved" :- uint32_t].
Definition sadb_x_propbase : ctype :=
  struct ["sadb_x_propb_len" :- uint16_t;
     "sadb_x_propb_exttype" :- uint16_t;
     "sadb_x_propb_u" :- (union ["sadb_x_propb_lenres" :- (struct ["sadb_x_propb_lenres_replay" :- uint8_t;
         "sadb_x_propb_lenres_eres" :- uint8_t;
         "sadb_x_propb_lenres_numecombs" :- uint16_t]);
       "sadb_x_propb_oldres" :- (struct ["sadb_x_propb_oldres_replay" :- uint8_t;
         "sadb_x_propb_oldres_reserved" :- array 3 uint8_t])])].
Definition sadb_prop : ctype :=
  struct ["sadb_x_prop_u" :- (union ["sadb_x_prop_actual" :- sadb_x_propbase;
       "sadb_x_prop_alignment" :- uint64_t])].
Definition sadb_comb : ctype :=
  struct ["sadb_comb_auth" :- uint8_t;
     "sadb_comb_encrypt" :- uint8_t;
     "sadb_comb_flags" :- uint16_t;
     "sadb_comb_auth_minbits" :- uint16_t;
     "sadb_comb_auth_maxbits" :- uint16_t;
     "sadb_comb_encrypt_minbits" :- uint16_t;
     "sadb_comb_encrypt_maxbits" :- uint16_t;
     "sadb_comb_reserved" :- uint32_t;
     "sadb_comb_soft_allocations" :- uint32_t;
     "sadb_comb_hard_allocations" :- uint32_t;
     "sadb_comb_soft_bytes" :- uint64_t;
     "sadb_comb_hard_bytes" :- uint64_t;
     "sadb_comb_soft_addtime" :- uint64_t;
     "sadb_comb_hard_addtime" :- uint64_t;
     "sadb_comb_soft_usetime" :- uint64_t;
     "sadb_comb_hard_usetime" :- uint64_t].
Definition sadb_x_ecomb : ctype :=
  struct ["sadb_x_ecomb_numalgs" :- uint8_t;
     "sadb_x_ecomb_reserved" :- uint8_t;
     "sadb_x_ecomb_flags" :- uint16_t;
     "sadb_x_ecomb_reserved2" :- uint32_t;
     "sadb_x_ecomb_soft_allocations" :- uint32_t;
     "sadb_x_ecomb_hard_allocations" :- uint32_t;
     "sadb_x_ecomb_soft_bytes" :- uint64_t;
     "sadb_x_ecomb_hard_bytes" :- uint64_t;
     "sadb_x_ecomb_soft_addtime" :- uint64_t;
     "sadb_x_ecomb_hard_addtime" :- uint64_t;
     "sadb_x_ecomb_soft_usetime" :- uint64_t;
     "sadb_x_ecomb_hard_usetime" :- uint64_t].
Definition sadb_x_algdesc : ctype :=
  struct ["sadb_x_algdesc_u" :- (union ["sadb_x_algdesc_actual" :- (struct ["sadb_x_algdesc_usatype" :- uint8_t;
         "sadb_x_algdesc_ualgtype" :- uint8_t;
         "sadb_x_algdesc_ualg" :- uint8_t;
         "sadb_x_algdesc_ureserved" :- uint8_t;
         "sadb_x_algdesc_uminbits" :- uint16_t;
         "sadb_x_algdesc_umaxbits" :- uint16_t]);
       "sadb_x_algdesc_alignment" :- uint64_t])].
Definition sadb_supported : ctype :=
  struct ["sadb_x_supported_u" :- (union ["sadb_x_supported_actual" :- (struct ["sadb_x_supported_ulen" :- uint16_t;
         "sadb_x_supported_uexttype" :- uint16_t;
         "sadb_x_supported_ureserved" :- uint32_t]);
       "sadb_x_supported_alignment" :- uint64_t])].
Definition sadb_x_algb : ctype :=
  struct ["sadb_x_algb_id" :- uint8_t;
     "sadb_x_algb_ivlen" :- uint8_t;
     "sadb_x_algb_minbits" :- uint16_t;
     "sadb_x_algb_maxbits" :- uint16_t;
     "sadb_x_algb_union" :- (union ["sadb_x_algb_ureserved" :- uint16_t;
       "sadb_x_algb_udefaults" :- array 2 uint8_t])].
Definition sadb_alg : ctype :=
  struct ["sadb_x_alg_u" :- (union ["sadb_x_alg_actual" :- sadb_x_algb;
       "sadb_x_alg_alignment" :- uint64_t])].
Definition sadb_spirange : ctype :=
  struct ["sadb_spirange_len" :- uint16_t;
     "sadb_spirange_exttype" :- uint16_t;
     "sadb_spirange_min" :- uint32_t;
     "sadb_x_spirange_u" :- (union ["sadb_x_spirange_actual" :- (struct ["sadb_x_spirange_umax" :- uint32_t;
         "sadb_x_spirange_ureserved" :- uint32_t]);
       "sadb_x_spirange_alignment" :- uint64_t])].
Definition sadb_x_ereg : ctype :=
  struct ["sadb_x_ereg_u" :- (union ["sadb_x_ereg_actual" :- (struct ["sadb_x_ereg_ulen" :- uint16_t;
         "sadb_x_ereg_uexttype" :- uint16_t;
         "sadb_x_ereg_usatypes" :- array 4 uint8_t]);
       "sadb_x_ereg_alignment" :- uint64_t])].
Definition sadb_x_kmc : ctype :=
  struct ["sadb_x_kmc_len" :- uint16_t;
     "sadb_x_kmc_exttype" :- uint16_t;
     "sadb_x_kmc_proto" :- uint32_t;
     "sadb_x_kmc_u" :- (union ["sadb_x_kmc_actual" :- (struct ["sadb_x_kmc_ucookie" :- uint32_t; "sadb_x_kmc_ureserved" :- uint32_t]);
       "sadb_x_kmc_alignment" :- uint64_t])].

(** [net/pfpolicy.h] *)
Definition spd_msg : ctype :=
  struct ["spd_msg_version" :- uint8_t;
     "spd_msg_type" :- uint8_t;
     "spd_msg_errno" :- uint8_t;
     "spd_msg_spdid" :- uint8_t;
     "spd_msg_len" :- uint16_t;
     "spd_msg_diagnostic" :- uint16_t;
     "spd_msg_u" :- (union ["spd_msg_actual" :- (struct ["spd_msg_useq" :- uint32_t; "spd_msg_upid" :- uint32_t]);
       "spd_msg_alignment" :- uint64_t])].
Definition spd_ext : ctype :=
  struct ["spd_ext_u" :- (union ["spd_ext_actual" :- (struct ["spd_ext_ulen" :- uint16_t; "spd_ext_utype" :- uint16_t]);
       "spd_ext_alignment" :- uint64_t])].
Definition spd_rule : ctype :=
  struct ["spd_rule_len" :- uint16_t;
     "spd_rule_type" :- uint16_t;
     "spd_rule_priority" :- uint32_t;
     "spd_rule_flags" :- uint32_t;
     "spd_rule_unused" :- uint32_t;
     "spd_rule_index" :- uint64_t].
Definition spd_address : ctype :=
  struct ["spd_address_u" :- (union ["spd_address_actual" :- (struct ["spd_address_ulen" :- uint16_t;
         "spd_address_uexttype" :- uint16_t;
         "spd_address_uaf" :- uint8_t;
         "spd_address_uprefixlen" :- uint8_t;
         "spd_address_ureserved2" :- uint16_t]);
       "spd_address_alignment" :- uint64_t])].
Definition spd_proto : ctype :=
  struct ["spd_proto_u" :- (union ["spd_proto_actual" :- (struct ["spd_proto_ulen" :- uint16_t;
         "spd_proto_uexttype" :- uint16_t;
         "spd_proto_unumber" :- uint8_t;
         "spd_proto_ureserved1" :- uint8_t;
         "spd_proto_ureserved2" :- uint16_t]);
       "spd_proto_alignment" :- uint64_t])].
Definition spd_portrange : ctype :=
  struct ["spd_ports_u" :- (union ["spd_ports_actual" :- (struct ["spd_ports_ulen" :- uint16_t;
         "spd_ports_uexttype" :- uint16_t;
         "spd_ports_uminport" :- uint16_t;
         "spd_ports_umaxport" :- uint16_t]);
       "spd_ports_alignment" :- uint64_t])].
Definition spd_typecode : ctype :=
  struct ["spd_typecode_u" :- (union ["spd_typecode_actual" :- (struct ["spd_typecode_ulen" :- uint16_t;
         "spd_typecode_uexttype" :- uint16_t;
         "spd_typecode_utype" :- uint8_t;
         "spd_typecode_utype_end" :- uint8_t;
         "spd_typecode_ucode" :- uint8_t;
         "spd_typecode_ucode_end" :- uint8_t]);
       "spd_typecode_alignment" :- uint64_t])].
Definition spd_ext_actions : ctype :=
  struct ["spd_actions_u" :- (union ["spd_actions_actual" :- (struct ["spd_actions_ulen" :- uint16_t;
         "spd_actions_uexttype" :- uint16_t;
         "spd_actions_ucount" :- uint16_t;
         "spd_actions_ureserved" :- uint16_t]);
       "spd_actions_alignment" :- uint64_t])].
Definition spd_attribute : ctype :=
  struct ["spd_attribute_u" :- (union ["spd_attribute_actual" :- (struct ["spd_attr_utag" :- uint32_t; "spd_attr_uvalue" :- uint32_t]);
       "spd_attribute_alignment" :- uint64_t])].
Definition spd_ruleset_ext : ctype :=
  struct ["spd_ruleset_len" :- uint16_t;
     "spd_ruleset_type" :- uint16_t;
     "spd_ruleset_count" :- uint32_t;
     "spd_ruleset_version" :- uint64_t].

(** [net/ppp_defs.h] *)
Definition u_int32_t : ctype := uint.
Definition pppstat : ctype :=
  struct ["ppp_ibytes" :- u_int32_t;
     "ppp_ipackets" :- u_int32_t;
     "ppp_ierrors" :- u_int32_t;
     "ppp_obytes" :- u_int32_t;
     "ppp_opackets" :- u_int32_t;
     "ppp_oerrors" :- u_int32_t].
Definition vjstat : ctype :=
  struct ["vjs_packets" :- u_int32_t;
     "vjs_compressed" :- u_int32_t;
     "vjs_searches" :- u_int32_t;
     "vjs_misses" :- u_int32_t;
     "vjs_uncompressedin" :- u_int32_t;
     "vjs_compressedin" :- u_int32_t;
     "vjs_errorin" :- u_int32_t;
     "vjs_tossed" :- u_int32_t].
Definition ppp_stats : ctype :=
  struct ["p" :- pppstat;
     "vj" :- vjstat].
Definition compstat : ctype :=
  struct ["unc_bytes" :- u_int32_t;
     "unc_packets" :- u_int32_t;
     "comp_bytes" :- u_int32_t;
     "comp_packets" :- u_int32_t;
     "inc_bytes" :- u_int32_t;
     "inc_packets" :- u_int32_t;
     "ratio" :- u_int32_t].
Definition ppp_comp_stats : ctype :=
  struct ["c" :- compstat;
     "d" :- compstat].
Definition ppp_idle : ctype :=
  struct ["xmit_idle" :- u_int32_t;
     "recv_idle" :- u_int32_t].
Definition ppp_ls : ctype :=
  struct ["magic" :- u_int32_t;
     "ppp_message" :- u_int32_t].

(** [netinet/in.h] *)
Definition in_addr : ctype :=
  struct ["_S_un" :- (union ["_S_un_b" :- (struct ["s_b1" :- uint8_t;
         "s_b2" :- uint8_t;
         "s_b3" :- uint8_t;
         "s_b4" :- uint8_t]);
       "_S_un_w" :- (struct ["s_w1" :- uint16_t; "s_w2" :- uint16_t]);
       "_S_addr" :- uint32_t])].

(** [netinet/dhcp.h] *)
Definition dhcp : ctype :=
  struct ["op" :- uint8_t;
     "htype" :- uint8_t;
     "hlen" :- uint8_t;
     "hops" :- uint8_t;
     "xid" :- uint32_t;
     "secs" :- uint16_t;
     "flags" :- uint16_t;
     "ciaddr" :- in_addr;
     "yiaddr" :- in_addr;
     "siaddr" :- in_addr;
     "giaddr" :- in_addr;
     "chaddr" :- array 16 uint8_t;
     "sname" :- array 64 uint8_t;
     "file" :- array 128 uint8_t;
     "cookie" :- array 4 uint8_t;
     "options" :- array 60 uint8_t].

(** [netinet/icmp6.h] *)
Definition icmp6_hdr : ctype :=
  struct ["icmp6_type" :- uint8_t;
     "icmp6_code" :- uint8_t;
     "icmp6_cksum" :- uint16_t;
     "icmp6_dataun" :- (union ["icmp6_un_data32" :- array 1 uint32_t;
       "icmp6_un_data16" :- array 2 uint16_t;
       "icmp6_un_data8" :- array 4 uint8_t])].
Definition mld_hdr : ctype :=
  struct ["mld_icmp6_hdr" :- icmp6_hdr;
     "mld_addr" :- in6_addr].
Definition mld2q : ctype :=
  struct ["mld2q_hdr" :- mld_hdr;
     "mld2q_sqrv" :- uint8_t;
     "mld2q_qqic" :- uint8_t;
     "mld2q_numsrc" :- uint16_t].
Definition mld2mar : ctype :=
  struct ["mld2mar_type" :- uint8_t;
     "mld2mar_auxlen" :- uint8_t;
     "mld2mar_numsrc" :- uint16_t;
     "mld2mar_group" :- in6_addr].
Definition icmp6_router_renum : ctype :=
  struct ["rr_hdr" :- icmp6_hdr;
     "rr_segnum" :- uint8_t;
     "rr_flags" :- uint8_t;
     "rr_maxdelay" :- uint16_t;
     "rr_reserved" :- uint32_t].
Definition rr_pco_match : ctype :=
  struct ["rpm_code" :- uint8_t;
     "rpm_len" :- uint8_t;
     "rpm_ordinal" :- uint8_t;
     "rpm_matchlen" :- uint8_t;
     "rpm_minlen" :- uint8_t;
     "rpm_maxlen" :- uint8_t;
     "rpm_reserved" :- uint16_t;
     "rpm_prefix" :- in6_addr].
Definition rr_pco_use : ctype :=
  struct ["rpu_uselen" :- uint8_t;
     "rpu_keeplen" :- uint8_t;
     "rpu_ramask" :- uint8_t;
     "rpu_raflags" :- uint8_t;
     "rpu_vltime" :- uint32_t;
     "rpu_pltime" :- uint32_t;
     "rpu_flags" :- uint32_t;
     "rpu_prefix" :- in6_addr].
Definition rr_result : ctype :=
  struct ["rrr_flags" :- uint16_t;
     "rrr_ordinal" :- uint8_t;
     "rrr_matchedlen" :- uint8_t;
     "rrr_ifid" :- uint32_t;
     "rrr_prefix" :- in6_addr].
Definition nd_router_solicit : ctype :=
  struct ["nd_rs_hdr" :- icmp6_hdr].
Definition nd_router_advert : ctype :=
  struct ["nd_ra_hdr" :- icmp6_hdr;
     "nd_ra_reachable" :- uint32_t;
     "nd_ra_retransmit" :- uint32_t].
Definition nd_neighbor_solicit : ctype :=
  struct ["nd_ns_hdr" :- icmp6_hdr;
     "nd_ns_target" :- in6_addr].
Definition nd_neighbor_advert : ctype :=
  struct ["nd_na_hdr" :- icmp6_hdr;
     "nd_na_target" :- in6_addr].
Definition nd_redirect : ctype :=
  struct ["nd_rd_hdr" :- icmp6_hdr;
     "nd_rd_target" :- in6_addr;
     "nd_rd_dst" :- in6_addr].
Definition nd_opt_hdr : ctype :=
  struct ["nd_opt_type" :- uint8_t;
     "nd_opt_len" :- uint8_t].
Definition nd_opt_prefix_info : ctype :=
  struct ["nd_opt_pi_type" :- uint8_t;
     "nd_opt_pi_len" :- uint8_t;
     "nd_opt_pi_prefix_len" :- uint8_t;
     "nd_opt_pi_flags_reserved" :- uint8_t;
     "nd_opt_pi_valid_time" :- uint32_t;
     "nd_opt_pi_preferred_time" :- uint32_t;
     "nd_opt_pi_reserved2" :- uint32_t;
     "nd_opt_pi_prefix" :- in6_addr].
Definition nd_opt_rd_hdr : ctype :=
  struct ["nd_opt_rh_type" :- uint8_t;
     "nd_opt_rh_len" :- uint8_t;
     "nd_opt_rh_reserved1" :- uint16_t;
     "nd_opt_rh_reserved2" :- uint32_t].
Definition nd_opt_mtu : ctype :=
  struct ["nd_opt_mtu_type" :- uint8_t;
     "nd_opt_mtu_len" :- uint8_t;
     "nd_opt_mtu_reserved" :- uint16_t;
     "nd_opt_mtu_mtu" :- uint32_t].
Definition ND_MAX_HDW_LEN : Z := 64.
Definition nd_opt_lla : ctype :=
  struct ["nd_opt_lla_type" :- uint8_t;
     "nd_opt_lla_len" :- uint8_t;
     "nd_opt_lla_hdw_addr" :- array ND_MAX_HDW_LEN uint8_t].
Definition icmp6_filter : ctype :=
  struct ["__icmp6_filt" :- array 8 uint32_t].

(** [netinet/igmp.h] *)
Definition igmp : ctype :=
  struct ["igmp_type" :- uchar_t;
     "igmp_code" :- uchar_t;
     "igmp_cksum" :- ushort_t;
     "igmp_group" :- in_addr].
Definition igmp3r : ctype :=
  struct ["igmp3r_type" :- uchar_t;
     "igmp3r_code" :- uchar_t;
     "igmp3r_cksum" :- ushort_t;
     "igmp3r_res" :- ushort_t;
     "igmp3r_numrec" :- ushort_t].
Definition grphdr : ctype :=
  struct ["grphdr_type" :- uchar_t;
     "grphdr_auxlen" :- uchar_t;
     "grphdr_numsrc" :- ushort_t;
     "grphdr_group" :- in_addr].
Definition igmp3q : ctype :=
  struct ["igmp3q_type" :- uchar_t;
     "igmp3q_mxrt" :- uchar_t;
     "igmp3q_cksum" :- ushort_t;
     "igmp3q_group" :- in_addr;
     "igmp3q_res" :- ushort_t;
     "igmp3q_numsrc" :- ushort_t].
Definition igmp_s : ctype :=
  struct ["igmp_type" :- uint8_t;
     "igmp_code" :- uint8_t;
     "igmp_cksum" :- array 2 uint8_t;
     "igmp_group" :- array 4 uint8_t].

(** [netinet/in.h] *)
Definition ipaddr_t : ctype := uint32_t.

(** [netinet/igmp.h] *)
Definition igmpa_s : ctype :=
  struct ["igmpa_type" :- uint8_t;
     "igmpa_code" :- uint8_t;
     "igmpa_cksum" :- uint16_t;
     "igmpa_group" :- ipaddr_t].
Definition igmp3ra_s : ctype :=
  struct ["igmp3ra_type" :- uint8_t;
     "igmp3ra_res" :- uint8_t;
     "igmp3ra_cksum" :- uint16_t;
     "igmp3ra_res1" :- uint16_t;
     "igmp3ra_numrec" :- uint16_t].
Definition grphdra_s : ctype :=
  struct ["grphdra_type" :- uint8_t;
     "grphdra_auxlen" :- uint8_t;
     "grphdra_numsrc" :- uint16_t;
     "grphdra_group" :- ipaddr_t].
Definition igmp3qa_s : ctype :=
  struct ["igmp3qa_type" :- uint8_t;
     "igmp3qa_mxrc" :- uint8_t;
     "igmp3qa_cksum" :- uint16_t;
     "igmp3qa_group" :- ipaddr_t;
     "igmp3qa_sqrv" :- uint8_t;
     "igmp3qa_qqic" :- uint8_t;
     "igmp3qa_numsrc" :- uint16_t].

(** [netinet/in.h] *)
Definition in_port_t : ctype := uint16_t.
Definition in6_addr_t : ctype := in6_addr.

(** [netinet/ip6.h] *)
Definition ip6_hdrctl : ctype :=
  struct ["ip6_un1_flow" :- uint32_t;
     "ip6_un1_plen" :- uint16_t;
     "ip6_un1_nxt" :- uint8_t;
     "ip6_un1_hlim" :- uint8_t].
Definition ip6_hdr : ctype :=
  struct ["ip6_ctlun" :- (union ["ip6_un1" :- ip6_hdrctl; "ip6_un2_vfc" :- uint8_t]);
     "ip6_src" :- in6_addr;
     "ip6_dst" :- in6_addr].
Definition ip6_hbh : ctype :=
  struct ["ip6h_nxt" :- uint8_t;
     "ip6h_len" :- uint8_t].
Definition ip6_dest : ctype :=
  struct ["ip6d_nxt" :- uint8_t;
     "ip6d_len" :- uint8_t].
Definition ip6_rthdr : ctype :=
  struct ["ip6r_nxt" :- uint8_t;
     "ip6r_len" :- uint8_t;
     "ip6r_type" :- uint8_t;
     "ip6r_segleft" :- uint8_t].
Definition ip6_rthdr0 : ctype :=
  struct ["ip6r0_nxt" :- uint8_t;
     "ip6r0_len" :- uint8_t;
     "ip6r0_type" :- uint8_t;
     "ip6r0_segleft" :- uint8_t;
     "ip6r0_reserved" :- uint32_t].
Definition ip6_frag : ctype :=
  struct ["ip6f_nxt" :- uint8_t;
     "ip6f_reserved" :- uint8_t;
     "ip6f_offlg" :- uint16_t;
     "ip6f_ident" :- uint32_t].
Definition ip6_opt : ctype :=
  struct ["ip6o_type" :- uint8_t;
     "ip6o_len" :- uint8_t].
Definition ip6_opt_jumbo : ctype :=
  struct ["ip6oj_type" :- uint8_t;
     "ip6oj_len" :- uint8_t;
     "ip6oj_jumbo_len" :- array 4 uint8_t].
Definition ip6_opt_nsap : ctype :=
  struct ["ip6on_type" :- uint8_t;
     "ip6on_len" :- uint8_t;
     "ip6on_src_nsap_len" :- uint8_t;
     "ip6on_dst_nsap_len" :- uint8_t].
Definition ip6_opt_tunnel : ctype :=
  struct ["ip6ot_type" :- uint8_t;
     "ip6ot_len" :- uint8_t;
     "ip6ot_encap_limit" :- uint8_t].
Definition ip6_opt_router : ctype :=
  struct ["ip6or_type" :- uint8_t;
     "ip6or_len" :- uint8_t;
     "ip6or_value" :- array 2 uint8_t].
Definition ip6_opt_binding_update : ctype :=
  struct ["ip6ou_type" :- uint8_t;
     "ip6ou_len" :- uint8_t;
     "ip6ou_flags" :- uint8_t;
     "ip6ou_prefixlen" :- uint8_t;
     "ip6ou_seqno" :- array 2 uint8_t;
     "ip6ou_lifetime" :- array 4 uint8_t;
     "ip6ou_coa" :- array 16 uint8_t].
Definition ip6_opt_binding_ack : ctype :=
  struct ["ip6oa_type" :- uint8_t;
     "ip6oa_len" :- uint8_t;
     "ip6oa_status" :- uint8_t;
     "ip6oa_seqno" :- array 2 uint8_t;
     "ip6oa_lifetime" :- array 4 uint8_t;
     "ip6oa_refresh" :- array 4 uint8_t].
Definition ip6_opt_binding_request : ctype :=
  struct ["ip6or_type" :- uint8_t;
     "ip6or_len" :- uint8_t].
Definition ip6_opt_home_address : ctype :=
  struct ["ip6oh_type" :- uint8_t;
     "ip6oh_len" :- uint8_t;
     "ip6oh_addr" :- array 16 uint8_t].

(** [netinet/sctp.h] *)
Definition sctp_initmsg : ctype :=
  struct ["sinit_num_ostreams" :- uint16_t;
     "sinit_max_instreams" :- uint16_t;
     "sinit_max_attempts" :- uint16_t;
     "sinit_max_init_timeo" :- uint16_t].
Definition sctp_sndrcvinfo : ctype :=
  struct ["sinfo_stream" :- uint16_t;
     "sinfo_ssn" :- uint16_t;
     "sinfo_flags" :- uint16_t;
     "sinfo_ppid" :- uint32_t;
     "sinfo_context" :- uint32_t;
     "sinfo_timetolive" :- uint32_t;
     "sinfo_tsn" :- uint32_t;
     "sinfo_cumtsn" :- uint32_t;
     "sinfo_assoc_id" :- sctp_assoc_t].
Definition sctp_event_subscribe : ctype :=
  struct ["sctp_data_io_event" :- uint8_t;
     "sctp_association_event" :- uint8_t;
     "sctp_address_event" :- uint8_t;
     "sctp_send_failure_event" :- uint8_t;
     "sctp_peer_error_event" :- uint8_t;
     "sctp_shutdown_event" :- uint8_t;
     "sctp_partial_delivery_event" :- uint8_t;
     "sctp_adaption_layer_event" :- uint8_t].
Definition sctp_assoc_change : ctype :=
  struct ["sac_type" :- uint16_t;
     "sac_flags" :- uint16_t;
     "sac_length" :- uint32_t;
     "sac_state" :- uint16_t;
     "sac_error" :- uint16_t;
     "sac_outbound_streams" :- uint16_t;
     "sac_inbound_streams" :- uint16_t;
     "sac_assoc_id" :- sctp_assoc_t].
Definition sctp_remote_error : ctype :=
  struct ["sre_type" :- uint16_t;
     "sre_flags" :- uint16_t;
     "sre_length" :- uint32_t;
     "sre_error" :- uint16_t;
     "sre_assoc_id" :- sctp_assoc_t].
Definition sctp_paddr_change : ctype :=
  packed4 ["spc_type" :- uint16_t;
     "spc_flags" :- uint16_t;
     "spc_length" :- uint32_t;
     "spc_aaddr" :- sockaddr_storage;
     "spc_state" :- int;
     "spc_error" :- int;
     "spc_assoc_id" :- sctp_assoc_t].
Definition sctp_send_failed : ctype :=
  struct ["ssf_type" :- uint16_t;
     "ssf_flags" :- uint16_t;
     "ssf_length" :- uint32_t;
     "ssf_error" :- uint32_t;
     "ssf_info" :- sctp_sndrcvinfo;
     "ssf_assoc_id" :- sctp_assoc_t].
Definition sctp_shutdown_event : ctype :=
  struct ["sse_type" :- uint16_t;
     "sse_flags" :- uint16_t;
     "sse_length" :- uint16_t;
     "sse_assoc_id" :- sctp_assoc_t].
Definition sctp_adaption_event : ctype :=
  struct ["sai_type" :- uint16_t;
     "sai_flags" :- uint16_t;
     "sai_length" :- uint32_t;
     "sai_adaption_ind" :- uint32_t;
     "sai_assoc_id" :- sctp_assoc_t].
Definition sctp_pdapi_event : ctype :=
  struct ["pdapi_type" :- uint16_t;
     "pdapi_flags" :- uint16_t;
     "pdapi_length" :- uint32_t;
     "pdapi_indication" :- uint32_t;
     "pdapi_assoc_id" :- sctp_assoc_t].
Definition sctp_notification : ctype :=
  union ["sn_header" :- (struct ["sn_type" :- uint16_t;
       "sn_flags" :- uint16_t;
       "sn_length" :- uint32_t]);
     "sn_assoc_change" :- sctp_assoc_change;
     "sn_paddr_change" :- sctp_paddr_change;
     "sn_remote_error" :- sctp_remote_error;
     "sn_send_failed" :- sctp_send_failed;
     "sn_shutdown_event" :- sctp_shutdown_event;
     "sn_adaption_event" :- sctp_adaption_event;
     "sn_pdapi_event" :- sctp_pdapi_event].
Definition sctp_rtoinfo : ctype :=
  struct ["srto_assoc_id" :- sctp_assoc_t;
     "srto_initial" :- uint32_t;
     "srto_max" :- uint32_t;
     "srto_min" :- uint32_t].
Definition sctp_assocparams : ctype :=
  struct ["sasoc_assoc_id" :- sctp_assoc_t;
     "sasoc_asocmaxrxt" :- uint16_t;
     "sasoc_number_peer_destinations" :- uint16_t;
     "sasoc_peer_rwnd" :- uint32_t;
     "sasoc_local_rwnd" :- uint32_t;
     "sasoc_cookie_life" :- uint32_t].
Definition sctp_paddrinfo : ctype :=
  packed4 ["spinfo_assoc_id" :- sctp_assoc_t;
     "spinfo_address" :- sockaddr_storage;
     "spinfo_state" :- int32_t;
     "spinfo_cwnd" :- uint32_t;
     "spinfo_srtt" :- uint32_t;
     "spinfo_rto" :- uint32_t;
     "spinfo_mtu" :- uint32_t].
Definition sctp_paddrparams : ctype :=
  packed4 ["spp_assoc_id" :- sctp_assoc_t;
     "spp_address" :- sockaddr_storage;
     "spp_hbinterval" :- uint32_t;
     "spp_pathmaxrxt" :- uint16_t].
Definition sctp_setpeerprim : ctype :=
  packed4 ["sspp_assoc_id" :- sctp_assoc_t;
     "sspp_addr" :- sockaddr_storage].
Definition sctp_setprim : ctype :=
  packed4 ["ssp_assoc_id" :- sctp_assoc_t;
     "ssp_addr" :- sockaddr_storage].
Definition sctp_status : ctype :=
  struct ["sstat_assoc_id" :- sctp_assoc_t;
     "sstat_state" :- int32_t;
     "sstat_rwnd" :- uint32_t;
     "sstat_unackdata" :- uint16_t;
     "sstat_penddata" :- uint16_t;
     "sstat_instrms" :- uint16_t;
     "sstat_outstrms" :- uint16_t;
     "sstat_fragmentation_point" :- uint32_t;
     "sstat_primary" :- sctp_paddrinfo].
Definition sctp_setadaption : ctype :=
  struct ["ssb_adaption_ind" :- uint32_t].
Definition ftsn_entry_s : ctype :=
  struct ["ftsn_sid" :- uint16_t;
     "ftsn_ssn" :- uint16_t].
Definition sctp_hdr : ctype :=
  struct ["sh_sport" :- uint16_t;
     "sh_dport" :- uint16_t;
     "sh_verf" :- uint32_t;
     "sh_chksum" :- uint32_t].
Definition sctp_chunk_hdr : ctype :=
  struct ["sch_id" :- uint8_t;
     "sch_flags" :- uint8_t;
     "sch_len" :- uint16_t].
Definition sctp_init_chunk : ctype :=
  struct ["sic_inittag" :- uint32_t;
     "sic_a_rwnd" :- uint32_t;
     "sic_outstr" :- uint16_t;
     "sic_instr" :- uint16_t;
     "sic_inittsn" :- uint32_t].
Definition sctp_data_chunk : ctype :=
  struct ["sdc_tsn" :- uint32_t;
     "sdc_sid" :- uint16_t;
     "sdc_ssn" :- uint16_t;
     "sdc_payload_id" :- uint32_t].
Definition sctp_data_hdr : ctype :=
  struct ["sdh_chdr" :- sctp_chunk_hdr;
     "sdh_data" :- sctp_data_chunk].
Definition sctp_sack_chunk : ctype :=
  struct ["ssc_cumtsn" :- uint32_t;
     "ssc_a_rwnd" :- uint32_t;
     "ssc_numfrags" :- uint16_t;
     "ssc_numdups" :- uint16_t].
Definition sctp_sack_frag : ctype :=
  struct ["ssf_start" :- uint16_t;
     "ssf_end" :- uint16_t].
Definition sctp_parm_hdr : ctype :=
  struct ["sph_type" :- uint16_t;
     "sph_len" :- uint16_t].
Definition sctp_addip4 : ctype :=
  struct ["sad4_addip_ph" :- sctp_parm_hdr;
     "asconf_req_cid" :- uint32_t;
     "sad4_addr4_ph" :- sctp_parm_hdr;
     "sad4_addr" :- ipaddr_t].
Definition sctp_addip6 : ctype :=
  struct ["sad6_addip_ph" :- sctp_parm_hdr;
     "asconf_req_cid" :- uint32_t;
     "sad6_addr6_ph" :- sctp_parm_hdr;
     "sad6_addr" :- in6_addr_t].

(** [netinet/udp.h] *)
Definition udphdr : ctype :=
  struct ["uh_sport" :- in_port_t;
     "uh_dport" :- in_port_t;
     "uh_ulen" :- int16_t;
     "uh_sum" :- uint16_t].

(** [protocols/ripngd.h] *)
Definition netinfo6 : ctype :=
  struct ["rip6_prefix" :- in6_addr;
     "rip6_route_tag" :- uint16_t;
     "rip6_prefix_length" :- uint8_t;
     "rip6_metric" :- uint8_t].
Definition rip6 : ctype :=
  struct ["rip6_cmd" :- uint8_t;
     "rip6_vers" :- uint8_t;
     "rip6_res1" :- uint16_t;
     "rip6_nets" :- array 1 netinfo6].

(** [protocols/routed.h] *)
Definition netinfo : ctype :=
  struct ["rip_dst" :- sockaddr;
     "rip_metric" :- uint32_t].
Definition RIP_AUTH_PW_LEN : Z := 16.
Definition a_md5 : ctype :=
  struct ["md5_pkt_len" :- int16_t;
     "md5_keyid" :- int8_t;
     "md5_auth_len" :- int8_t;
     "md5_seqno" :- uint32_t;
     "rsvd" :- array 2 uint32_t].
Definition netauth : ctype :=
  struct ["a_family" :- uint16_t;
     "a_type" :- uint16_t;
     "au" :- (union ["au_pw" :- array RIP_AUTH_PW_LEN uint8_t; "a_md5" :- a_md5])].
Definition rip : ctype :=
  struct ["rip_cmd" :- uint8_t;
     "rip_vers" :- uint8_t;
     "rip_res1" :- uint16_t;
     "ripun" :- (union ["ru_nets" :- array 1 netinfo;
       "ru_tracefile" :- array 1 char;
       "ru_auth" :- array 1 netauth])].
Definition entryinfo : ctype :=
  struct ["rtu_dst" :- sockaddr;
     "rtu_router" :- sockaddr;
     "rtu_flags" :- short;
     "rtu_state" :- short;
     "rtu_timer" :- int;
     "rtu_metric" :- int;
     "int_flags" :- int;
     "int_name" :- array 16 char].

(** [sys/ethernet.h] *)
Definition ether_addr_t : ctype := (array ETHERADDRL uchar_t).
Definition ether_addr : ctype :=
  struct ["ether_addr_octet" :- ether_addr_t].

(** [sys/aggr_lacp.h] *)
Definition system_info : ctype :=
  struct ["system_id" :- ether_addr;
     "system_priority" :- uint16_t].
Definition lacp_stats_s : ctype :=
  struct ["LACPDUsRx" :- uint64_t;
     "MarkerPDUsRx" :- uint64_t;
     "MarkerResponsePDUsRx" :- uint64_t;
     "UnknownRx" :- uint64_t;
     "IllegalRx" :- uint64_t;
     "LACPDUsTx" :- uint64_t;
     "MarkerPDUsTx" :- uint64_t;
     "MarkerResponsePDUsTx" :- uint64_t].
Definition marker_pdu : ctype :=
  struct ["dest_addr" :- ether_addr;
     "src_addr" :- ether_addr;
     "type" :- uint16_t;
     "subtype" :- uint8_t;
     "version" :- uint8_t;
     "tlv_marker" :- uint8_t;
     "marker_len" :- uint8_t;
     "requestor_port" :- uint16_t;
     "system_id" :- ether_addr;
     "transaction_id" :- array 4 uint8_t;
     "pad" :- array 2 uint8_t;
     "reserved" :- array 90 uint8_t;
     "fcs" :- uint32_t].
Definition lag_id : ctype :=
  struct ["system_priority" :- uint16_t;
     "system_id" :- ether_addr;
     "oper_key" :- uint16_t;
     "port_priority" :- uint16_t;
     "port_number" :- uint16_t].

(** [sys/ethernet.h] *)
Definition ether_header : ctype :=
  struct ["ether_dhost" :- ether_addr;
     "ether_shost" :- ether_addr;
     "ether_type" :- ushort_t].
Definition ether_vlan_header : ctype :=
  struct ["ether_dhost" :- ether_addr;
     "ether_shost" :- ether_addr;
     "ether_tpid" :- ushort_t;
     "ether_tci" :- ushort_t;
     "ether_type" :- ushort_t].

(** [sys/llc1.h] *)
Definition llc1_multicast_addr : ctype :=
  struct ["llcm_refcnt" :- int;
     "llcm_addr" :- array ETHERADDRL uchar].
Definition llcaddr : ctype :=
  struct ["llca_addr" :- array ETHERADDRL uchar;
     "llca_sap" :- uchar].
Definition llcsaddr : ctype :=
  struct ["llca_saddr" :- array ETHERADDRL uchar;
     "llca_ssap" :- ushort].
Definition llchdr : ctype :=
  struct ["llc_dsap" :- uchar;
     "llc_ssap" :- uchar;
     "llc_ctl" :- uchar].
Definition llchdr_xid : ctype :=
  struct ["llcx_format" :- uchar;
     "llcx_class" :- uchar;
     "llcx_window" :- uchar].
Definition snaphdr : ctype :=
  struct ["snap_oid" :- array 3 uchar_t;
     "snap_type" :- array 2 uchar_t].
Definition ll_snioc : ctype :=
  struct ["lli_type" :- uchar_t;
     "lli_spare" :- array 3 uchar_t;
     "lli_ppa" :- int;
     "lli_index" :- int].

(** The formats of this file. *)
Definition formats_net : list ctype :=
  [Octet_s;
   mib2_ip;
   mib2_ipv6IfStatsEntry;
   mib2_ipAddrEntry;
   mib2_ipv6AddrEntry;
   mib2_ipRouteEntry;
   mib2_ipv6RouteEntry;
   mib2_ipNetToMediaEntry;
   mib2_ipv6NetToMediaEntry;
   ip_member;
   ipv6_member;
   ip_grpsrc;
   ipv6_grpsrc;
   mib2_icmp;
   mib2_ipv6IfIcmpEntry;
   mib2_tcp;
   mib2_tcpConnEntry;
   mib2_tcp6ConnEntry;
   mib2_udp;
   mib2_udpEntry;
   mib2_udp6Entry;
   mib2_rawip;
   mib2_sctpConnEntry;
   mib2_sctpConnLocalAddrEntry;
   mib2_sctpConnRemoteAddrEntry;
   sadb_msg;
   sadb_ext;
   sadb_sa;
   sadb_lifetime;
   sadb_address;
   sadb_key;
   sadb_ident;
   sadb_sens;
   sadb_x_propbase;
   sadb_prop;
   sadb_comb;
   sadb_x_ecomb;
   sadb_x_algdesc;
   sadb_supported;
   sadb_x_algb;
   sadb_alg;
   sadb_spirange;
   sadb_x_ereg;
   sadb_x_kmc;
   spd_msg;
   spd_ext;
   spd_rule;
   spd_address;
   spd_proto;
   spd_portrange;
   spd_typecode;
   spd_ext_actions;
   spd_attribute;
   spd_ruleset_ext;
   icmp6_hdr;
   mld_hdr;
   mld2q;
   mld2mar;
   icmp6_router_renum;
   rr_pco_match;
   rr_pco_use;
   rr_result;
   nd_router_solicit;
   nd_router_advert;
   nd_neighbor_solicit;
   nd_neighbor_advert;
   nd_redirect;
   nd_opt_hdr;
   nd_opt_prefix_info;
   nd_opt_rd_hdr;
   nd_opt_mtu;
   nd_opt_lla;
   icmp6_filter;
   ip6_hdr;
   ip6_hbh;
   ip6_dest;
   ip6_rthdr;
   ip6_rthdr0;
   ip6_frag;
   ip6_opt;
   ip6_opt_jumbo;
   ip6_opt_nsap;
   ip6_opt_tunnel;
   ip6_opt_router;
   ip6_opt_binding_update;
   ip6_opt_binding_ack;
   ip6_opt_binding_request;
   ip6_opt_home_address;
   sctp_initmsg;
   sctp_sndrcvinfo;
   sctp_event_subscribe;
   sctp_assoc_change;
   sctp_remote_error;
   sctp_send_failed;
   sctp_shutdown_event;
   sctp_adaption_event;
   sctp_pdapi_event;
   sctp_rtoinfo;
   sctp_assocparams;
   sctp_setadaption;
   ftsn_entry_s;
   sctp_hdr;
   sctp_chunk_hdr;
   sctp_init_chunk;
   sctp_data_chunk;
   sctp_data_hdr;
   sctp_sack_chunk;
   sctp_sack_frag;
   sctp_parm_hdr;
   sctp_addip4;
   sctp_addip6;
   igmp;
   igmp3r;
   grphdr;
   igmp3q;
   igmp_s;
   igmpa_s;
   igmp3ra_s;
   grphdra_s;
   igmp3qa_s;
   udphdr;
   dhcp;
   arphdr;
   xarpreq;
   arpreq;
   pppstat;
   vjstat;
   ppp_stats;
   compstat;
   ppp_comp_stats;
   ppp_idle;
   ppp_ls;
   netinfo;
   netauth;
   rip;
   entryinfo;
   netinfo6;
   rip6;
   system_info;
   lacp_stats_s;
   marker_pdu;
   lag_id;
   ether_addr;
   ether_header;
   ether_vlan_header;
   llc1_multicast_addr;
   llcaddr;
   llcsaddr;
   llchdr;
   llchdr_xid;
   snaphdr;
   ll_snioc].

Lemma formats_net_fixed : formats_check formats_net = true.
Proof. vm_compute. reflexivity. Qed.

(** Records whose layout is that of the instruction set, for both data models. *)
Definition shared_net : list ctype :=
  [mib2_sctp;
   sctp_paddr_change;
   sctp_notification;
   sctp_paddrinfo;
   sctp_paddrparams;
   sctp_setpeerprim;
   sctp_setprim;
   sctp_status].

Lemma shared_net_agree : views_check (map (fun t => (t, t)) shared_net) = true.
Proof. vm_compute. reflexivity. Qed.
