(* ===== verification/AbiStream.v ===== *)
(** * Stream messages

    The primitives of DLPI ([sys/dlpi.h]) and TPI ([sys/tihdr.h]). *)
From Stdlib Require Import String.
From S2P Require Import Prelude ByteOrder CTypes AbiTypes.
#[local] Open Scope Z_scope.
#[local] Open Scope ctype_scope.


(** [sys/dlpi.h] *)
Definition dl_through_t : ctype :=
  struct ["dl_target_value" :- t_scalar_t;
     "dl_accept_value" :- t_scalar_t].
Definition dl_transdelay_t : ctype :=
  struct ["dl_target_value" :- t_scalar_t;
     "dl_accept_value" :- t_scalar_t].
Definition dl_priority_t : ctype :=
  struct ["dl_min" :- t_scalar_t;
     "dl_max" :- t_scalar_t].
Definition dl_protect_t : ctype :=
  struct ["dl_min" :- t_scalar_t;
     "dl_max" :- t_scalar_t].
Definition dl_resilience_t : ctype :=
  struct ["dl_disc_prob" :- t_scalar_t;
     "dl_reset_prob" :- t_scalar_t].
Definition dl_qos_co_range1_t : ctype :=
  struct ["dl_qos_type" :- t_uscalar_t;
     "dl_rcv_throughput" :- dl_through_t;
     "dl_rcv_trans_delay" :- dl_transdelay_t;
     "dl_xmt_throughput" :- dl_through_t;
     "dl_xmt_trans_delay" :- dl_transdelay_t;
     "dl_priority" :- dl_priority_t;
     "dl_protection" :- dl_protect_t;
     "dl_residual_error" :- t_scalar_t;
     "dl_resilience" :- dl_resilience_t].
Definition dl_qos_co_sel1_t : ctype :=
  struct ["dl_qos_type" :- t_uscalar_t;
     "dl_rcv_throughput" :- t_scalar_t;
     "dl_rcv_trans_delay" :- t_scalar_t;
     "dl_xmt_throughput" :- t_scalar_t;
     "dl_xmt_trans_delay" :- t_scalar_t;
     "dl_priority" :- t_scalar_t;
     "dl_protection" :- t_scalar_t;
     "dl_residual_error" :- t_scalar_t;
     "dl_resilience" :- dl_resilience_t].
Definition dl_qos_cl_range1_t : ctype :=
  struct ["dl_qos_type" :- t_uscalar_t;
     "dl_trans_delay" :- dl_transdelay_t;
     "dl_priority" :- dl_priority_t;
     "dl_protection" :- dl_protect_t;
     "dl_residual_error" :- t_scalar_t].
Definition dl_qos_cl_sel1_t : ctype :=
  struct ["dl_qos_type" :- t_uscalar_t;
     "dl_trans_delay" :- t_scalar_t;
     "dl_priority" :- t_scalar_t;
     "dl_protection" :- t_scalar_t;
     "dl_residual_error" :- t_scalar_t].
Definition DL_qos_types : ctype :=
  union ["dl_qos_type" :- t_uscalar_t;
     "qos_co_range1" :- dl_qos_co_range1_t;
     "qos_co_sel1" :- dl_qos_co_sel1_t;
     "qos_cl_range1" :- dl_qos_cl_range1_t;
     "qos_cl_sel1" :- dl_qos_cl_sel1_t].
Definition dl_capability_sub_t : ctype :=
  struct ["dl_cap" :- t_uscalar_t;
     "dl_length" :- t_uscalar_t].
Definition dl_mid_t : ctype :=
  struct ["mid" :- array 4 t_uscalar_t].
Definition dl_capab_id_t : ctype :=
  struct ["id_mid" :- dl_mid_t;
     "id_subcap" :- dl_capability_sub_t].
Definition dl_capab_mdt_t : ctype :=
  struct ["mdt_version" :- t_uscalar_t;
     "mdt_flags" :- t_uscalar_t;
     "mdt_hdr_head" :- t_uscalar_t;
     "mdt_hdr_tail" :- t_uscalar_t;
     "mdt_max_pld" :- t_uscalar_t;
     "mdt_span_limit" :- t_uscalar_t;
     "mdt_mid" :- dl_mid_t].
Definition dl_capab_hcksum_t : ctype :=
  struct ["hcksum_version" :- t_uscalar_t;
     "hcksum_txflags" :- t_uscalar_t;
     "hcksum_mid" :- dl_mid_t].
Definition dl_capab_zerocopy_t : ctype :=
  struct ["zerocopy_version" :- t_uscalar_t;
     "zerocopy_flags" :- t_uscalar_t;
     "reserved" :- array 9 t_uscalar_t;
     "zerocopy_mid" :- dl_mid_t].
Definition dl_info_req_t : ctype :=
  struct ["dl_primitive" :- t_uscalar_t].
Definition dl_info_ack_t : ctype :=
  struct ["dl_primitive" :- t_uscalar_t;
     "dl_max_sdu" :- t_uscalar_t;
     "dl_min_sdu" :- t_uscalar_t;
     "dl_addr_length" :- t_uscalar_t;
     "dl_mac_type" :- t_uscalar_t;
     "dl_reserved" :- t_uscalar_t;
     "dl_current_state" :- t_uscalar_t;
     "dl_sap_length" :- t_scalar_t;
     "dl_service_mode" :- t_uscalar_t;
     "dl_qos_length" :- t_uscalar_t;
     "dl_qos_offset" :- t_uscalar_t;
     "dl_qos_range_length" :- t_uscalar_t;
     "dl_qos_range_offset" :- t_uscalar_t;
     "dl_provider_style" :- t_uscalar_t;
     "dl_addr_offset" :- t_uscalar_t;
     "dl_version" :- t_uscalar_t;
     "dl_brdcst_addr_length" :- t_uscalar_t;
     "dl_brdcst_addr_offset" :- t_uscalar_t;
     "dl_growth" :- t_uscalar_t].
Definition dl_attach_req_t : ctype :=
  struct ["dl_primitive" :- t_uscalar_t;
     "dl_ppa" :- t_uscalar_t].
Definition dl_detach_req_t : ctype :=
  struct ["dl_primitive" :- t_uscalar_t].
Definition dl_bind_req_t : ctype :=
  struct ["dl_primitive" :- t_uscalar_t;
     "dl_sap" :- t_uscalar_t;
     "dl_max_conind" :- t_uscalar_t;
     "dl_service_mode" :- uint16_t;
     "dl_conn_mgmt" :- uint16_t;
     "dl_xidtest_flg" :- t_uscalar_t].
Definition dl_bind_ack_t : ctype :=
  struct ["dl_primitive" :- t_uscalar_t;
     "dl_sap" :- t_uscalar_t;
     "dl_addr_length" :- t_uscalar_t;
     "dl_addr_offset" :- t_uscalar_t;
     "dl_max_conind" :- t_uscalar_t;
     "dl_xidtest_flg" :- t_uscalar_t].
Definition dl_subs_bind_req_t : ctype :=
  struct ["dl_primitive" :- t_uscalar_t;
     "dl_subs_sap_offset" :- t_uscalar_t;
     "dl_subs_sap_length" :- t_uscalar_t;
     "dl_subs_bind_class" :- t_uscalar_t].
Definition dl_subs_bind_ack_t : ctype :=
  struct ["dl_primitive" :- t_uscalar_t;
     "dl_subs_sap_offset" :- t_uscalar_t;
     "dl_subs_sap_length" :- t_uscalar_t].
Definition dl_unbind_req_t : ctype :=
  struct ["dl_primitive" :- t_uscalar_t].
Definition dl_subs_unbind_req_t : ctype :=
  struct ["dl_primitive" :- t_uscalar_t;
     "dl_subs_sap_offset" :- t_uscalar_t;
     "dl_subs_sap_length" :- t_uscalar_t].
Definition dl_ok_ack_t : ctype :=
  struct ["dl_primitive" :- t_uscalar_t;
     "dl_correct_primitive" :- t_uscalar_t].
Definition dl_error_ack_t : ctype :=
  struct ["dl_primitive" :- t_uscalar_t;
     "dl_error_primitive" :- t_uscalar_t;
     "dl_errno" :- t_uscalar_t;
     "dl_unix_errno" :- t_uscalar_t].
Definition dl_enabmulti_req_t : ctype :=
  struct ["dl_primitive" :- t_uscalar_t;
     "dl_addr_length" :- t_uscalar_t;
     "dl_addr_offset" :- t_uscalar_t].
Definition dl_disabmulti_req_t : ctype :=
  struct ["dl_primitive" :- t_uscalar_t;
     "dl_addr_length" :- t_uscalar_t;
     "dl_addr_offset" :- t_uscalar_t].
Definition dl_promiscon_req_t : ctype :=
  struct ["dl_primitive" :- t_uscalar_t;
     "dl_level" :- t_uscalar_t].
Definition dl_promiscoff_req_t : ctype :=
  struct ["dl_primitive" :- t_uscalar_t;
     "dl_level" :- t_uscalar_t].
Definition dl_phys_addr_req_t : ctype :=
  struct ["dl_primitive" :- t_uscalar_t;
     "dl_addr_type" :- t_uscalar_t].
Definition dl_phys_addr_ack_t : ctype :=
  struct ["dl_primitive" :- t_uscalar_t;
     "dl_addr_length" :- t_uscalar_t;
     "dl_addr_offset" :- t_uscalar_t].
Definition dl_set_phys_addr_req_t : ctype :=
  struct ["dl_primitive" :- t_uscalar_t;
     "dl_addr_length" :- t_uscalar_t;
     "dl_addr_offset" :- t_uscalar_t].
Definition dl_get_statistics_req_t : ctype :=
  struct ["dl_primitive" :- t_uscalar_t].
Definition dl_get_statistics_ack_t : ctype :=
  struct ["dl_primitive" :- t_uscalar_t;
     "dl_stat_length" :- t_uscalar_t;
     "dl_stat_offset" :- t_uscalar_t].
Definition dl_notify_req_t : ctype :=
  struct ["dl_primitive" :- t_uscalar_t;
     "dl_notifications" :- uint32_t;
     "dl_timelimit" :- uint32_t].
Definition dl_notify_ack_t : ctype :=
  struct ["dl_primitive" :- t_uscalar_t;
     "dl_notifications" :- uint32_t].
Definition dl_notify_ind_t : ctype :=
  struct ["dl_primitive" :- t_uscalar_t;
     "dl_notification" :- uint32_t;
     "dl_data" :- uint32_t;
     "dl_addr_length" :- t_uscalar_t;
     "dl_addr_offset" :- t_uscalar_t].
Definition dl_aggr_req_t : ctype :=
  struct ["dl_primitive" :- t_uscalar_t;
     "dl_key" :- uint32_t;
     "dl_port" :- uint32_t;
     "dl_addr_length" :- t_uscalar_t;
     "dl_addr_offset" :- t_uscalar_t].
Definition dl_aggr_ind_t : ctype :=
  struct ["dl_primitive" :- t_uscalar_t;
     "dl_key" :- uint32_t;
     "dl_port" :- uint32_t;
     "dl_addr_length" :- t_uscalar_t;
     "dl_addr_offset" :- t_uscalar_t].
Definition dl_unaggr_req_t : ctype :=
  struct ["dl_primitive" :- t_uscalar_t;
     "dl_key" :- uint32_t;
     "dl_port" :- uint32_t;
     "dl_addr_length" :- t_uscalar_t;
     "dl_addr_offset" :- t_uscalar_t].
Definition dl_capability_req_t : ctype :=
  struct ["dl_primitive" :- t_uscalar_t;
     "dl_sub_offset" :- t_uscalar_t;
     "dl_sub_length" :- t_uscalar_t].
Definition dl_capability_ack_t : ctype :=
  struct ["dl_primitive" :- t_uscalar_t;
     "dl_sub_offset" :- t_uscalar_t;
     "dl_sub_length" :- t_uscalar_t].
Definition dl_control_req_t : ctype :=
  struct ["dl_primitive" :- t_uscalar_t;
     "dl_operation" :- t_uscalar_t;
     "dl_type" :- t_uscalar_t;
     "dl_key_offset" :- t_uscalar_t;
     "dl_key_length" :- t_uscalar_t;
     "dl_data_offset" :- t_uscalar_t;
     "dl_data_length" :- t_uscalar_t].
Definition dl_control_ack_t : ctype :=
  struct ["dl_primitive" :- t_uscalar_t;
     "dl_operation" :- t_uscalar_t;
     "dl_type" :- t_uscalar_t;
     "dl_key_offset" :- t_uscalar_t;
     "dl_key_length" :- t_uscalar_t;
     "dl_data_offset" :- t_uscalar_t;
     "dl_data_length" :- t_uscalar_t].
Definition dl_passive_req_t : ctype :=
  struct ["dl_primitive" :- t_uscalar_t].
Definition dl_connect_req_t : ctype :=
  struct ["dl_primitive" :- t_uscalar_t;
     "dl_dest_addr_length" :- t_uscalar_t;
     "dl_dest_addr_offset" :- t_uscalar_t;
     "dl_qos_length" :- t_uscalar_t;
     "dl_qos_offset" :- t_uscalar_t;
     "dl_growth" :- t_uscalar_t].
Definition dl_connect_ind_t : ctype :=
  struct ["dl_primitive" :- t_uscalar_t;
     "dl_correlation" :- t_uscalar_t;
     "dl_called_addr_length" :- t_uscalar_t;
     "dl_called_addr_offset" :- t_uscalar_t;
     "dl_calling_addr_length" :- t_uscalar_t;
     "dl_calling_addr_offset" :- t_uscalar_t;
     "dl_qos_length" :- t_uscalar_t;
     "dl_qos_offset" :- t_uscalar_t;
     "dl_growth" :- t_uscalar_t].
Definition dl_connect_res_t : ctype :=
  struct ["dl_primitive" :- t_uscalar_t;
     "dl_correlation" :- t_uscalar_t;
     "dl_resp_token" :- t_uscalar_t;
     "dl_qos_length" :- t_uscalar_t;
     "dl_qos_offset" :- t_uscalar_t;
     "dl_growth" :- t_uscalar_t].
Definition dl_connect_con_t : ctype :=
  struct ["dl_primitive" :- t_uscalar_t;
     "dl_resp_addr_length" :- t_uscalar_t;
     "dl_resp_addr_offset" :- t_uscalar_t;
     "dl_qos_length" :- t_uscalar_t;
     "dl_qos_offset" :- t_uscalar_t;
     "dl_growth" :- t_uscalar_t].
Definition dl_token_req_t : ctype :=
  struct ["dl_primitive" :- t_uscalar_t].
Definition dl_token_ack_t : ctype :=
  struct ["dl_primitive" :- t_uscalar_t;
     "dl_token" :- t_uscalar_t].
Definition dl_disconnect_req_t : ctype :=
  struct ["dl_primitive" :- t_uscalar_t;
     "dl_reason" :- t_uscalar_t;
     "dl_correlation" :- t_uscalar_t].
Definition dl_disconnect_ind_t : ctype :=
  struct ["dl_primitive" :- t_uscalar_t;
     "dl_originator" :- t_uscalar_t;
     "dl_reason" :- t_uscalar_t;
     "dl_correlation" :- t_uscalar_t].
Definition dl_reset_req_t : ctype :=
  struct ["dl_primitive" :- t_uscalar_t].
Definition dl_reset_ind_t : ctype :=
  struct ["dl_primitive" :- t_uscalar_t;
     "dl_originator" :- t_uscalar_t;
     "dl_reason" :- t_uscalar_t].
Definition dl_reset_res_t : ctype :=
  struct ["dl_primitive" :- t_uscalar_t].
Definition dl_reset_con_t : ctype :=
  struct ["dl_primitive" :- t_uscalar_t].
Definition dl_unitdata_req_t : ctype :=
  struct ["dl_primitive" :- t_uscalar_t;
     "dl_dest_addr_length" :- t_uscalar_t;
     "dl_dest_addr_offset" :- t_uscalar_t;
     "dl_priority" :- dl_priority_t].
Definition dl_unitdata_ind_t : ctype :=
  struct ["dl_primitive" :- t_uscalar_t;
     "dl_dest_addr_length" :- t_uscalar_t;
     "dl_dest_addr_offset" :- t_uscalar_t;
     "dl_src_addr_length" :- t_uscalar_t;
     "dl_src_addr_offset" :- t_uscalar_t;
     "dl_group_address" :- t_uscalar_t].
Definition dl_uderror_ind_t : ctype :=
  struct ["dl_primitive" :- t_uscalar_t;
     "dl_dest_addr_length" :- t_uscalar_t;
     "dl_dest_addr_offset" :- t_uscalar_t;
     "dl_unix_errno" :- t_uscalar_t;
     "dl_errno" :- t_uscalar_t].
Definition dl_udqos_req_t : ctype :=
  struct ["dl_primitive" :- t_uscalar_t;
     "dl_qos_length" :- t_uscalar_t;
     "dl_qos_offset" :- t_uscalar_t].
Definition dl_test_req_t : ctype :=
  struct ["dl_primitive" :- t_uscalar_t;
     "dl_flag" :- t_uscalar_t;
     "dl_dest_addr_length" :- t_uscalar_t;
     "dl_dest_addr_offset" :- t_uscalar_t].
Definition dl_test_ind_t : ctype :=
  struct ["dl_primitive" :- t_uscalar_t;
     "dl_flag" :- t_uscalar_t;
     "dl_dest_addr_length" :- t_uscalar_t;
     "dl_dest_addr_offset" :- t_uscalar_t;
     "dl_src_addr_length" :- t_uscalar_t;
     "dl_src_addr_offset" :- t_uscalar_t].
Definition dl_test_res_t : ctype :=
  struct ["dl_primitive" :- t_uscalar_t;
     "dl_flag" :- t_uscalar_t;
     "dl_dest_addr_length" :- t_uscalar_t;
     "dl_dest_addr_offset" :- t_uscalar_t].
Definition dl_test_con_t : ctype :=
  struct ["dl_primitive" :- t_uscalar_t;
     "dl_flag" :- t_uscalar_t;
     "dl_dest_addr_length" :- t_uscalar_t;
     "dl_dest_addr_offset" :- t_uscalar_t;
     "dl_src_addr_length" :- t_uscalar_t;
     "dl_src_addr_offset" :- t_uscalar_t].
Definition dl_xid_req_t : ctype :=
  struct ["dl_primitive" :- t_uscalar_t;
     "dl_flag" :- t_uscalar_t;
     "dl_dest_addr_length" :- t_uscalar_t;
     "dl_dest_addr_offset" :- t_uscalar_t].
Definition dl_xid_ind_t : ctype :=
  struct ["dl_primitive" :- t_uscalar_t;
     "dl_flag" :- t_uscalar_t;
     "dl_dest_addr_length" :- t_uscalar_t;
     "dl_dest_addr_offset" :- t_uscalar_t;
     "dl_src_addr_length" :- t_uscalar_t;
     "dl_src_addr_offset" :- t_uscalar_t].
Definition dl_xid_res_t : ctype :=
  struct ["dl_primitive" :- t_uscalar_t;
     "dl_flag" :- t_uscalar_t;
     "dl_dest_addr_length" :- t_uscalar_t;
     "dl_dest_addr_offset" :- t_uscalar_t].
Definition dl_xid_con_t : ctype :=
  struct ["dl_primitive" :- t_uscalar_t;
     "dl_flag" :- t_uscalar_t;
     "dl_dest_addr_length" :- t_uscalar_t;
     "dl_dest_addr_offset" :- t_uscalar_t;
     "dl_src_addr_length" :- t_uscalar_t;
     "dl_src_addr_offset" :- t_uscalar_t].
Definition dl_data_ack_req_t : ctype :=
  struct ["dl_primitive" :- t_uscalar_t;
     "dl_correlation" :- t_uscalar_t;
     "dl_dest_addr_length" :- t_uscalar_t;
     "dl_dest_addr_offset" :- t_uscalar_t;
     "dl_src_addr_length" :- t_uscalar_t;
     "dl_src_addr_offset" :- t_uscalar_t;
     "dl_priority" :- t_uscalar_t;
     "dl_service_class" :- t_uscalar_t].
Definition dl_data_ack_ind_t : ctype :=
  struct ["dl_primitive" :- t_uscalar_t;
     "dl_dest_addr_length" :- t_uscalar_t;
     "dl_dest_addr_offset" :- t_uscalar_t;
     "dl_src_addr_length" :- t_uscalar_t;
     "dl_src_addr_offset" :- t_uscalar_t;
     "dl_priority" :- t_uscalar_t;
     "dl_service_class" :- t_uscalar_t].
Definition dl_data_ack_status_ind_t : ctype :=
  struct ["dl_primitive" :- t_uscalar_t;
     "dl_correlation" :- t_uscalar_t;
     "dl_status" :- t_uscalar_t].
Definition dl_reply_req_t : ctype :=
  struct ["dl_primitive" :- t_uscalar_t;
     "dl_correlation" :- t_uscalar_t;
     "dl_dest_addr_length" :- t_uscalar_t;
     "dl_dest_addr_offset" :- t_uscalar_t;
     "dl_src_addr_length" :- t_uscalar_t;
     "dl_src_addr_offset" :- t_uscalar_t;
     "dl_priority" :- t_uscalar_t;
     "dl_service_class" :- t_uscalar_t].
Definition dl_reply_ind_t : ctype :=
  struct ["dl_primitive" :- t_uscalar_t;
     "dl_dest_addr_length" :- t_uscalar_t;
     "dl_dest_addr_offset" :- t_uscalar_t;
     "dl_src_addr_length" :- t_uscalar_t;
     "dl_src_addr_offset" :- t_uscalar_t;
     "dl_priority" :- t_uscalar_t;
     "dl_service_class" :- t_uscalar_t].
Definition dl_reply_status_ind_t : ctype :=
  struct ["dl_primitive" :- t_uscalar_t;
     "dl_correlation" :- t_uscalar_t;
     "dl_status" :- t_uscalar_t].
Definition dl_reply_update_req_t : ctype :=
  struct ["dl_primitive" :- t_uscalar_t;
     "dl_correlation" :- t_uscalar_t;
     "dl_src_addr_length" :- t_uscalar_t;
     "dl_src_addr_offset" :- t_uscalar_t].
Definition dl_reply_update_status_ind_t : ctype :=
  struct ["dl_primitive" :- t_uscalar_t;
     "dl_correlation" :- t_uscalar_t;
     "dl_status" :- t_uscalar_t].
Definition DL_primitives : ctype :=
  union ["dl_primitive" :- t_uscalar_t;
     "info_req" :- dl_info_req_t;
     "info_ack" :- dl_info_ack_t;
     "attach_req" :- dl_attach_req_t;
     "detach_req" :- dl_detach_req_t;
     "bind_req" :- dl_bind_req_t;
     "bind_ack" :- dl_bind_ack_t;
     "unbind_req" :- dl_unbind_req_t;
     "subs_bind_req" :- dl_subs_bind_req_t;
     "subs_bind_ack" :- dl_subs_bind_ack_t;
     "subs_unbind_req" :- dl_subs_unbind_req_t;
     "ok_ack" :- dl_ok_ack_t;
     "error_ack" :- dl_error_ack_t;
     "connect_req" :- dl_connect_req_t;
     "connect_ind" :- dl_connect_ind_t;
     "connect_res" :- dl_connect_res_t;
     "connect_con" :- dl_connect_con_t;
     "token_req" :- dl_token_req_t;
     "token_ack" :- dl_token_ack_t;
     "disconnect_req" :- dl_disconnect_req_t;
     "disconnect_ind" :- dl_disconnect_ind_t;
     "reset_req" :- dl_reset_req_t;
     "reset_ind" :- dl_reset_ind_t;
     "reset_res" :- dl_reset_res_t;
     "reset_con" :- dl_reset_con_t;
     "unitdata_req" :- dl_unitdata_req_t;
     "unitdata_ind" :- dl_unitdata_ind_t;
     "uderror_ind" :- dl_uderror_ind_t;
     "udqos_req" :- dl_udqos_req_t;
     "enabmulti_req" :- dl_enabmulti_req_t;
     "disabmulti_req" :- dl_disabmulti_req_t;
     "promiscon_req" :- dl_promiscon_req_t;
     "promiscoff_req" :- dl_promiscoff_req_t;
     "physaddr_req" :- dl_phys_addr_req_t;
     "physaddr_ack" :- dl_phys_addr_ack_t;
     "set_physaddr_req" :- dl_set_phys_addr_req_t;
     "get_statistics_req" :- dl_get_statistics_req_t;
     "get_statistics_ack" :- dl_get_statistics_ack_t;
     "notify_req" :- dl_notify_req_t;
     "notify_ack" :- dl_notify_ack_t;
     "notify_ind" :- dl_notify_ind_t;
     "aggr_req" :- dl_aggr_req_t;
     "aggr_ind" :- dl_aggr_ind_t;
     "unaggr_req" :- dl_unaggr_req_t;
     "test_req" :- dl_test_req_t;
     "test_ind" :- dl_test_ind_t;
     "test_res" :- dl_test_res_t;
     "test_con" :- dl_test_con_t;
     "xid_req" :- dl_xid_req_t;
     "xid_ind" :- dl_xid_ind_t;
     "xid_res" :- dl_xid_res_t;
     "xid_con" :- dl_xid_con_t;
     "data_ack_req" :- dl_data_ack_req_t;
     "data_ack_ind" :- dl_data_ack_ind_t;
     "data_ack_status_ind" :- dl_data_ack_status_ind_t;
     "reply_req" :- dl_reply_req_t;
     "reply_ind" :- dl_reply_ind_t;
     "reply_status_ind" :- dl_reply_status_ind_t;
     "reply_update_req" :- dl_reply_update_req_t;
     "reply_update_status_ind" :- dl_reply_update_status_ind_t;
     "capability_req" :- dl_capability_req_t;
     "capability_ack" :- dl_capability_ack_t;
     "control_req" :- dl_control_req_t;
     "control_ack" :- dl_control_ack_t;
     "passive_req" :- dl_passive_req_t].

(** [sys/tihdr.h] *)
Definition T_conn_req : ctype :=
  struct ["PRIM_type" :- t_scalar_t;
     "DEST_length" :- t_scalar_t;
     "DEST_offset" :- t_scalar_t;
     "OPT_length" :- t_scalar_t;
     "OPT_offset" :- t_scalar_t].
Definition T_conn_res : ctype :=
  struct ["PRIM_type" :- t_scalar_t;
     "ACCEPTOR_id" :- t_uscalar_t;
     "OPT_length" :- t_scalar_t;
     "OPT_offset" :- t_scalar_t;
     "SEQ_number" :- t_scalar_t].
Definition T_discon_req : ctype :=
  struct ["PRIM_type" :- t_scalar_t;
     "SEQ_number" :- t_scalar_t].
Definition T_data_req : ctype :=
  struct ["PRIM_type" :- t_scalar_t;
     "MORE_flag" :- t_scalar_t].
Definition T_exdata_req : ctype :=
  struct ["PRIM_type" :- t_scalar_t;
     "MORE_flag" :- t_scalar_t].
Definition T_info_req : ctype :=
  struct ["PRIM_type" :- t_scalar_t].
Definition T_bind_req : ctype :=
  struct ["PRIM_type" :- t_scalar_t;
     "ADDR_length" :- t_scalar_t;
     "ADDR_offset" :- t_scalar_t;
     "CONIND_number" :- t_uscalar_t].
Definition T_unbind_req : ctype :=
  struct ["PRIM_type" :- t_scalar_t].
Definition T_unitdata_req : ctype :=
  struct ["PRIM_type" :- t_scalar_t;
     "DEST_length" :- t_scalar_t;
     "DEST_offset" :- t_scalar_t;
     "OPT_length" :- t_scalar_t;
     "OPT_offset" :- t_scalar_t].
Definition T_optmgmt_req : ctype :=
  struct ["PRIM_type" :- t_scalar_t;
     "OPT_length" :- t_scalar_t;
     "OPT_offset" :- t_scalar_t;
     "MGMT_flags" :- t_scalar_t].
Definition T_ordrel_req : ctype :=
  struct ["PRIM_type" :- t_scalar_t].
Definition T_addr_req : ctype :=
  struct ["PRIM_type" :- t_scalar_t].
Definition T_conn_ind : ctype :=
  struct ["PRIM_type" :- t_scalar_t;
     "SRC_length" :- t_scalar_t;
     "SRC_offset" :- t_scalar_t;
     "OPT_length" :- t_scalar_t;
     "OPT_offset" :- t_scalar_t;
     "SEQ_number" :- t_scalar_t].
Definition T_conn_con : ctype :=
  struct ["PRIM_type" :- t_scalar_t;
     "RES_length" :- t_scalar_t;
     "RES_offset" :- t_scalar_t;
     "OPT_length" :- t_scalar_t;
     "OPT_offset" :- t_scalar_t].
Definition T_discon_ind : ctype :=
  struct ["PRIM_type" :- t_scalar_t;
     "DISCON_reason" :- t_scalar_t;
     "SEQ_number" :- t_scalar_t].
Definition T_data_ind : ctype :=
  struct ["PRIM_type" :- t_scalar_t;
     "MORE_flag" :- t_scalar_t].
Definition T_exdata_ind : ctype :=
  struct ["PRIM_type" :- t_scalar_t;
     "MORE_flag" :- t_scalar_t].
Definition T_info_ack : ctype :=
  struct ["PRIM_type" :- t_scalar_t;
     "TSDU_size" :- t_scalar_t;
     "ETSDU_size" :- t_scalar_t;
     "CDATA_size" :- t_scalar_t;
     "DDATA_size" :- t_scalar_t;
     "ADDR_size" :- t_scalar_t;
     "OPT_size" :- t_scalar_t;
     "TIDU_size" :- t_scalar_t;
     "SERV_type" :- t_scalar_t;
     "CURRENT_state" :- t_scalar_t;
     "PROVIDER_flag" :- t_scalar_t].
Definition T_bind_ack : ctype :=
  struct ["PRIM_type" :- t_scalar_t;
     "ADDR_length" :- t_scalar_t;
     "ADDR_offset" :- t_scalar_t;
     "CONIND_number" :- t_uscalar_t].
Definition T_error_ack : ctype :=
  struct ["PRIM_type" :- t_scalar_t;
     "ERROR_prim" :- t_scalar_t;
     "TLI_error" :- t_scalar_t;
     "UNIX_error" :- t_scalar_t].
Definition T_ok_ack : ctype :=
  struct ["PRIM_type" :- t_scalar_t;
     "CORRECT_prim" :- t_scalar_t].
Definition T_unitdata_ind : ctype :=
  struct ["PRIM_type" :- t_scalar_t;
     "SRC_length" :- t_scalar_t;
     "SRC_offset" :- t_scalar_t;
     "OPT_length" :- t_scalar_t;
     "OPT_offset" :- t_scalar_t].
Definition T_uderror_ind : ctype :=
  struct ["PRIM_type" :- t_scalar_t;
     "DEST_length" :- t_scalar_t;
     "DEST_offset" :- t_scalar_t;
     "OPT_length" :- t_scalar_t;
     "OPT_offset" :- t_scalar_t;
     "ERROR_type" :- t_scalar_t].
Definition T_optmgmt_ack : ctype :=
  struct ["PRIM_type" :- t_scalar_t;
     "OPT_length" :- t_scalar_t;
     "OPT_offset" :- t_scalar_t;
     "MGMT_flags" :- t_scalar_t].
Definition T_ordrel_ind : ctype :=
  struct ["PRIM_type" :- t_scalar_t].
Definition T_addr_ack : ctype :=
  struct ["PRIM_type" :- t_scalar_t;
     "LOCADDR_length" :- t_scalar_t;
     "LOCADDR_offset" :- t_scalar_t;
     "REMADDR_length" :- t_scalar_t;
     "REMADDR_offset" :- t_scalar_t].
Definition T_optdata_req : ctype :=
  struct ["PRIM_type" :- t_scalar_t;
     "DATA_flag" :- t_scalar_t;
     "OPT_length" :- t_scalar_t;
     "OPT_offset" :- t_scalar_t].
Definition T_optdata_ind : ctype :=
  struct ["PRIM_type" :- t_scalar_t;
     "DATA_flag" :- t_scalar_t;
     "OPT_length" :- t_scalar_t;
     "OPT_offset" :- t_scalar_t].
Definition T_extconn_ind : ctype :=
  struct ["PRIM_type" :- t_scalar_t;
     "SRC_length" :- t_scalar_t;
     "SRC_offset" :- t_scalar_t;
     "OPT_length" :- t_scalar_t;
     "OPT_offset" :- t_scalar_t;
     "SEQ_number" :- t_scalar_t;
     "DEST_length" :- t_scalar_t;
     "DEST_offset" :- t_scalar_t].
Definition T_primitives : ctype :=
  union ["type" :- t_scalar_t;
     "conn_req" :- T_conn_req;
     "conn_res" :- T_conn_res;
     "discon_req" :- T_discon_req;
     "data_req" :- T_data_req;
     "exdata_req" :- T_exdata_req;
     "info_req" :- T_info_req;
     "bind_req" :- T_bind_req;
     "unbind_req" :- T_unbind_req;
     "unitdata_req" :- T_unitdata_req;
     "optmgmt_req" :- T_optmgmt_req;
     "ordrel_req" :- T_ordrel_req;
     "addr_req" :- T_addr_req;
     "conn_ind" :- T_conn_ind;
     "conn_con" :- T_conn_con;
     "discon_ind" :- T_discon_ind;
     "data_ind" :- T_data_ind;
     "exdata_ind" :- T_exdata_ind;
     "info_ack" :- T_info_ack;
     "bind_ack" :- T_bind_ack;
     "error_ack" :- T_error_ack;
     "ok_ack" :- T_ok_ack;
     "unitdata_ind" :- T_unitdata_ind;
     "uderror_ind" :- T_uderror_ind;
     "optmgmt_ack" :- T_optmgmt_ack;
     "ordrel_ind" :- T_ordrel_ind;
     "addr_ack" :- T_addr_ack].
Definition T_opthdr : ctype :=
  struct ["len" :- t_uscalar_t;
     "level" :- t_uscalar_t;
     "name" :- t_uscalar_t;
     "status" :- t_uscalar_t].

(** The formats of this file. *)
Definition formats_stream : list ctype :=
  [dl_through_t;
   dl_transdelay_t;
   dl_priority_t;
   dl_protect_t;
   dl_resilience_t;
   dl_qos_co_range1_t;
   dl_qos_co_sel1_t;
   dl_qos_cl_range1_t;
   dl_qos_cl_sel1_t;
   DL_qos_types;
   dl_capability_sub_t;
   dl_mid_t;
   dl_capab_id_t;
   dl_capab_mdt_t;
   dl_capab_hcksum_t;
   dl_capab_zerocopy_t;
   dl_info_req_t;
   dl_info_ack_t;
   dl_attach_req_t;
   dl_detach_req_t;
   dl_bind_req_t;
   dl_bind_ack_t;
   dl_subs_bind_req_t;
   dl_subs_bind_ack_t;
   dl_unbind_req_t;
   dl_subs_unbind_req_t;
   dl_ok_ack_t;
   dl_error_ack_t;
   dl_enabmulti_req_t;
   dl_disabmulti_req_t;
   dl_promiscon_req_t;
   dl_promiscoff_req_t;
   dl_phys_addr_req_t;
   dl_phys_addr_ack_t;
   dl_set_phys_addr_req_t;
   dl_get_statistics_req_t;
   dl_get_statistics_ack_t;
   dl_notify_req_t;
   dl_notify_ack_t;
   dl_notify_ind_t;
   dl_aggr_req_t;
   dl_aggr_ind_t;
   dl_unaggr_req_t;
   dl_capability_req_t;
   dl_capability_ack_t;
   dl_control_req_t;
   dl_control_ack_t;
   dl_passive_req_t;
   dl_connect_req_t;
   dl_connect_ind_t;
   dl_connect_res_t;
   dl_connect_con_t;
   dl_token_req_t;
   dl_token_ack_t;
   dl_disconnect_req_t;
   dl_disconnect_ind_t;
   dl_reset_req_t;
   dl_reset_ind_t;
   dl_reset_res_t;
   dl_reset_con_t;
   dl_unitdata_req_t;
   dl_unitdata_ind_t;
   dl_uderror_ind_t;
   dl_udqos_req_t;
   dl_test_req_t;
   dl_test_ind_t;
   dl_test_res_t;
   dl_test_con_t;
   dl_xid_req_t;
   dl_xid_ind_t;
   dl_xid_res_t;
   dl_xid_con_t;
   dl_data_ack_req_t;
   dl_data_ack_ind_t;
   dl_data_ack_status_ind_t;
   dl_reply_req_t;
   dl_reply_ind_t;
   dl_reply_status_ind_t;
   dl_reply_update_req_t;
   dl_reply_update_status_ind_t;
   DL_primitives;
   T_conn_req;
   T_conn_res;
   T_discon_req;
   T_data_req;
   T_exdata_req;
   T_info_req;
   T_bind_req;
   T_unbind_req;
   T_unitdata_req;
   T_optmgmt_req;
   T_ordrel_req;
   T_addr_req;
   T_conn_ind;
   T_conn_con;
   T_discon_ind;
   T_data_ind;
   T_exdata_ind;
   T_info_ack;
   T_bind_ack;
   T_error_ack;
   T_ok_ack;
   T_unitdata_ind;
   T_uderror_ind;
   T_optmgmt_ack;
   T_ordrel_ind;
   T_addr_ack;
   T_optdata_req;
   T_optdata_ind;
   T_extconn_ind;
   T_primitives;
   T_opthdr].

Lemma formats_stream_fixed : formats_check formats_stream = true.
Proof. vm_compute. reflexivity. Qed.
