(* ===== verification/AbiDisk.v ===== *)
(** * Disk formats

    Volume descriptors, directory entries, labels and logs as they are on disk. *)
From Stdlib Require Import String.
From S2P Require Import Prelude ByteOrder CTypes AbiTypes Abi32Dev.
#[local] Open Scope Z_scope.
#[local] Open Scope ctype_scope.


(** [archives.h] *)
Definition CMS_LEN : Z := 6.
Definition HNAMLEN : Z := 256.
Definition HTIMLEN : Z := 2.
Definition HSIZLEN : Z := 2.
Definition hdr_cpio : ctype :=
  struct ["h_magic" :- short;
     "h_dev" :- short;
     "h_ino" :- ushort_t;
     "h_mode" :- ushort_t;
     "h_uid" :- ushort_t;
     "h_gid" :- ushort_t;
     "h_nlink" :- short;
     "h_rdev" :- short;
     "h_mtime" :- array HTIMLEN short;
     "h_namesize" :- short;
     "h_filesize" :- array HSIZLEN short;
     "h_name" :- array HNAMLEN char].
Definition c_hdr : ctype :=
  struct ["c_magic" :- array CMS_LEN char;
     "c_dev" :- array 6 char;
     "c_ino" :- array 6 char;
     "c_mode" :- array 6 char;
     "c_uid" :- array 6 char;
     "c_gid" :- array 6 char;
     "c_nlink" :- array 6 char;
     "c_rdev" :- array 6 char;
     "c_mtime" :- array 11 char;
     "c_namesz" :- array 6 char;
     "c_filesz" :- array 11 char;
     "c_name" :- array HNAMLEN char].
Definition VMAGLEN : Z := 8.
Definition VVOLLEN : Z := 6.
Definition VFILLEN : Z := 464.
Definition volcopy_label : ctype :=
  struct ["v_magic" :- array VMAGLEN char;
     "v_volume" :- array VVOLLEN char;
     "v_reels" :- char;
     "v_reel" :- char;
     "v_time" :- int;
     "v_length" :- int;
     "v_dens" :- int;
     "v_reelblks" :- int;
     "v_blksize" :- int;
     "v_nblocks" :- int;
     "v_fill" :- array VFILLEN char;
     "v_offset" :- int;
     "v_type" :- int].
Definition xattr_hdr : ctype :=
  struct ["h_version" :- array 7 char;
     "h_size" :- array 10 char;
     "h_component_len" :- array 10 char;
     "h_link_component_len" :- array 10 char].
Definition xattr_buf : ctype :=
  struct ["h_namesz" :- array 7 char;
     "h_typeflag" :- char;
     "h_names" :- array 1 char].

(** [sys/cpr.h] *)
Definition CPR_MAXPLEN : Z := 15.

(** [sys/obpdefs.h] *)
Definition OBP_MAXPATHLEN : Z := 256.

(** [sys/cpr.h] *)
Definition cpr_prop_info : ctype :=
  struct ["mod" :- char;
     "name" :- array CPR_MAXPLEN char;
     "value" :- array OBP_MAXPATHLEN char].
Definition cpr_default_mini : ctype :=
  struct ["magic" :- int;
     "reusable" :- int].
Definition cpr_machdep_desc : ctype :=
  struct ["md_magic" :- uint_t;
     "md_size" :- uint_t].

(** [sys/dklabel.h] *)
Definition DK_LABEL_SIZE : Z := 512.
Definition dk_map2 : ctype :=
  struct ["p_tag" :- uint16_t;
     "p_flag" :- uint16_t].
Definition dkl_partition : ctype :=
  struct ["p_tag" :- uint16_t;
     "p_flag" :- uint16_t;
     "p_start" :- daddr32_t;
     "p_size" :- int32_t].
Definition dk_vtoc : ctype :=
  struct ["v_bootinfo" :- array 3 uint32_t;
     "v_sanity" :- uint32_t;
     "v_version" :- uint32_t;
     "v_volume" :- array LEN_DKL_VVOL char;
     "v_sectorsz" :- uint16_t;
     "v_nparts" :- uint16_t;
     "v_reserved" :- array 10 uint32_t;
     "v_part" :- array NDKMAP dkl_partition;
     "timestamp" :- array NDKMAP time32_t;
     "v_asciilabel" :- array LEN_DKL_ASCII char].
Definition LEN_DKL_PAD : Z := (DK_LABEL_SIZE - ((sizeof i386 dk_vtoc + (4 * sizeof i386 uint32_t) + (12 * sizeof i386 uint16_t) + (2 * (sizeof i386 uint16_t))))).
Definition dk_label : ctype :=
  struct ["dkl_vtoc" :- dk_vtoc;
     "dkl_pcyl" :- uint32_t;
     "dkl_ncyl" :- uint32_t;
     "dkl_acyl" :- uint16_t;
     "dkl_bcyl" :- uint16_t;
     "dkl_nhead" :- uint32_t;
     "dkl_nsect" :- uint32_t;
     "dkl_intrlv" :- uint16_t;
     "dkl_skew" :- uint16_t;
     "dkl_apc" :- uint16_t;
     "dkl_rpm" :- uint16_t;
     "dkl_write_reinstruct" :- uint16_t;
     "dkl_read_reinstruct" :- uint16_t;
     "dkl_extra" :- array 4 uint16_t;
     "dkl_pad" :- array LEN_DKL_PAD char;
     "dkl_magic" :- uint16_t;
     "dkl_cksum" :- uint16_t].
(** The same two with [_SUNOS_VTOC_8]. *)
Definition dk_vtoc_8 : ctype :=
  struct ["v_version" :- uint32_t;
     "v_volume" :- array LEN_DKL_VVOL char;
     "v_nparts" :- uint16_t;
     "v_part" :- array NDKMAP_8 dk_map2;
     "v_bootinfo" :- array 3 uint32_t;
     "v_sanity" :- uint32_t;
     "v_reserved" :- array 10 uint32_t;
     "v_timestamp" :- array NDKMAP_8 time32_t].
Definition LEN_DKL_PAD_8 : Z := (DK_LABEL_SIZE - (LEN_DKL_ASCII + sizeof i386 dk_vtoc_8 + (sizeof i386 dk_map32 * NDKMAP_8) + (14 * sizeof i386 uint16_t) + (2 * (sizeof i386 uint16_t)))).
Definition dk_label_8 : ctype :=
  struct ["dkl_asciilabel" :- array LEN_DKL_ASCII char;
     "dkl_vtoc" :- dk_vtoc_8;
     "dkl_write_reinstruct" :- uint16_t;
     "dkl_read_reinstruct" :- uint16_t;
     "dkl_pad" :- array LEN_DKL_PAD_8 char;
     "dkl_rpm" :- uint16_t;
     "dkl_pcyl" :- uint16_t;
     "dkl_apc" :- uint16_t;
     "dkl_obs1" :- uint16_t;
     "dkl_obs2" :- uint16_t;
     "dkl_intrlv" :- uint16_t;
     "dkl_ncyl" :- uint16_t;
     "dkl_acyl" :- uint16_t;
     "dkl_nhead" :- uint16_t;
     "dkl_nsect" :- uint16_t;
     "dkl_obs3" :- uint16_t;
     "dkl_obs4" :- uint16_t;
     "dkl_map" :- array NDKMAP_8 dk_map32;
     "dkl_magic" :- uint16_t;
     "dkl_cksum" :- uint16_t].
(** The comment of the header: a label fills a sector of 512 octets. *)
Lemma labels_fill_sector :
  Forall (fun m => sizeof m dk_label = DK_LABEL_SIZE /\ sizeof m dk_label_8 = DK_LABEL_SIZE) [i386; amd64; sparcv8; sparcv9].
Proof. repeat constructor. Qed.
Definition fk_label : ctype :=
  struct ["fkl_type" :- uchar_t;
     "fkl_magich" :- uchar_t;
     "fkl_magicl" :- uchar_t;
     "filler" :- uchar_t].
Definition DK_DEVID_BLKSIZE : Z := 512.
Definition DK_DEVID_SIZE : Z := (DK_DEVID_BLKSIZE - ((sizeof i386 uchar_t * 7))).
Definition dk_devid : ctype :=
  struct ["dkd_rev_hi" :- uchar_t;
     "dkd_rev_lo" :- uchar_t;
     "dkd_flags" :- uchar_t;
     "dkd_devid" :- array DK_DEVID_SIZE uchar_t;
     "dkd_checksum3" :- uchar_t;
     "dkd_checksum2" :- uchar_t;
     "dkd_checksum1" :- uchar_t;
     "dkd_checksum0" :- uchar_t].

(** [sys/dktp/fdisk.h] *)
Definition BOOTSZ : Z := 446.
Definition FD_NUMPART : Z := 4.
Definition ipart : ctype :=
  struct ["bootid" :- uchar;
     "beghead" :- uchar;
     "begsect" :- uchar;
     "begcyl" :- uchar;
     "systid" :- uchar;
     "endhead" :- uchar;
     "endsect" :- uchar;
     "endcyl" :- uchar;
     "relsect" :- int;
     "numsect" :- int].
Definition mboot : ctype :=
  struct ["bootinst" :- array BOOTSZ char;
     "parts" :- array (FD_NUMPART * sizeof i386 ipart) char;
     "signature" :- ushort_t].

(** [sys/efi_partition.h] *)
Definition EFI_LABEL_SIZE : Z := 512.

(** [sys/uuid.h] *)
Definition uuid : ctype :=
  struct ["time_low" :- uint32_t;
     "time_mid" :- uint16_t;
     "time_hi_and_version" :- uint16_t;
     "clock_seq_hi_and_reserved" :- uint8_t;
     "clock_seq_low" :- uint8_t;
     "node_addr" :- array 6 uint8_t].

(** [sys/efi_partition.h] *)
Definition LEN_EFI_PAD : Z := (EFI_LABEL_SIZE - ((5 * sizeof i386 diskaddr_t) + (7 * sizeof i386 uint_t) + (8 * sizeof i386 char) + (1 * (sizeof i386 uuid)))).
Definition efi_gpt : ctype :=
  struct ["efi_gpt_Signature" :- uint64_t;
     "efi_gpt_Revision" :- uint_t;
     "efi_gpt_HeaderSize" :- uint_t;
     "efi_gpt_HeaderCRC32" :- uint_t;
     "efi_gpt_Reserved1" :- uint_t;
     "efi_gpt_MyLBA" :- diskaddr_t;
     "efi_gpt_AlternateLBA" :- diskaddr_t;
     "efi_gpt_FirstUsableLBA" :- diskaddr_t;
     "efi_gpt_LastUsableLBA" :- diskaddr_t;
     "efi_gpt_DiskGUID" :- uuid;
     "efi_gpt_PartitionEntryLBA" :- diskaddr_t;
     "efi_gpt_NumberOfPartitionEntries" :- uint_t;
     "efi_gpt_SizeOfPartitionEntry" :- uint_t;
     "efi_gpt_PartitionEntryArrayCRC32" :- uint_t;
     "efi_gpt_Reserved2" :- array LEN_EFI_PAD char].
Definition EFI_PART_NAME_LEN : Z := 36.
Definition dk_part : ctype :=
  struct ["p_start" :- diskaddr_t;
     "p_size" :- diskaddr_t;
     "p_guid" :- uuid;
     "p_tag" :- ushort_t;
     "p_flag" :- ushort_t;
     "p_name" :- array EFI_PART_NAME_LEN char;
     "p_uguid" :- uuid;
     "p_resv" :- array 8 uint_t].
Definition dk_gpt : ctype :=
  struct ["efi_version" :- uint_t;
     "efi_nparts" :- uint_t;
     "efi_part_size" :- uint_t;
     "efi_lbasize" :- uint_t;
     "efi_last_lba" :- diskaddr_t;
     "efi_first_u_lba" :- diskaddr_t;
     "efi_last_u_lba" :- diskaddr_t;
     "efi_disk_uguid" :- uuid;
     "efi_flags" :- uint_t;
     "efi_reserved" :- array 15 uint_t;
     "efi_parts" :- array 1 dk_part].
Definition partition64 : ctype :=
  struct ["p_type" :- uuid;
     "p_partno" :- uint_t;
     "p_resv1" :- uint_t;
     "p_start" :- diskaddr_t;
     "p_size" :- diskaddr_t].

(** [sys/fs/pc_dir.h] *)
Definition PCFNAMESIZE : Z := 8.
Definition PCFEXTSIZE : Z := 3.
Definition pctime : ctype :=
  struct ["pct_time" :- ushort_t;
     "pct_date" :- ushort_t].

(** [sys/fs/pc_fs.h] *)
Definition pc_cluster16_t : ctype := uint16_t.

(** [sys/fs/pc_dir.h] *)
Definition pcdir : ctype :=
  struct ["pcd_filename" :- array PCFNAMESIZE char;
     "pcd_ext" :- array PCFEXTSIZE char;
     "pcd_attr" :- uchar_t;
     "pcd_ntattr" :- uchar_t;
     "pcd_crtime_msec" :- uchar_t;
     "pcd_crtime" :- pctime;
     "pcd_ladate" :- ushort_t;
     "un" :- (union ["pcd_eattr" :- uint16_t; "pcd_scluster_hi" :- pc_cluster16_t]);
     "pcd_mtime" :- pctime;
     "pcd_scluster_lo" :- pc_cluster16_t;
     "pcd_size" :- uint_t].
Definition PCLF_FIRSTNAMESIZE : Z := 10.
Definition PCLF_SECONDNAMESIZE : Z := 12.
Definition PCLF_THIRDNAMESIZE : Z := 4.
Definition pcdir_lfn : ctype :=
  struct ["pcdl_ordinal" :- uchar_t;
     "pcdl_firstfilename" :- array PCLF_FIRSTNAMESIZE uchar_t;
     "pcdl_attr" :- uchar_t;
     "pcdl_type" :- uchar_t;
     "pcdl_checksum" :- uchar_t;
     "pcdl_secondfilename" :- array PCLF_SECONDNAMESIZE uchar_t;
     "pcd_scluster" :- pc_cluster16_t;
     "pcdl_thirdfilename" :- array PCLF_THIRDNAMESIZE uchar_t].

(** [sys/fs/pc_fs.h] *)
Definition bootsec : ctype :=
  struct ["instr" :- array 3 uchar_t;
     "version" :- array 8 uchar_t;
     "bps" :- array 2 uchar_t;
     "spcl" :- uchar_t;
     "res_sec" :- array 2 uchar_t;
     "nfat" :- uchar_t;
     "rdirents" :- array 2 uchar_t;
     "numsect" :- array 2 uchar_t;
     "mediadesriptor" :- uchar_t;
     "fatsec" :- ushort_t;
     "spt" :- ushort_t;
     "nhead" :- ushort_t;
     "hiddensec" :- ushort_t;
     "totalsec" :- uint_t].
Definition fat32_bootsec : ctype :=
  struct ["f_bs" :- bootsec;
     "f_fatlength" :- uint32_t;
     "f_flags" :- uint16_t;
     "f_major" :- uint8_t;
     "f_minor" :- uint8_t;
     "f_rootcluster" :- uint32_t;
     "f_infosector" :- uint16_t;
     "f_backupboot" :- uint16_t;
     "f_reserved2" :- array 6 uint16_t].
Definition fat32_boot_fsinfo : ctype :=
  struct ["fs_reserved1" :- uint32_t;
     "fs_signature" :- uint32_t;
     "fs_free_clusters" :- uint32_t;
     "fs_next_cluster" :- uint32_t;
     "fs_reserved2" :- array 4 uint32_t].
Definition old_pcfs_args : ctype :=
  struct ["secondswest" :- int;
     "dsttime" :- int].
Definition pcfs_args : ctype :=
  struct ["secondswest" :- int;
     "dsttime" :- int;
     "flags" :- int].

(** [sys/fs/udf_volume.h] *)
Definition dstring_t : ctype := char.
Definition tag : ctype :=
  struct ["tag_id" :- uint16_t;
     "tag_desc_ver" :- uint16_t;
     "tag_cksum" :- uint8_t;
     "tag_res" :- uint8_t;
     "tag_sno" :- uint16_t;
     "tag_crc" :- uint16_t;
     "tag_crc_len" :- uint16_t;
     "tag_loc" :- uint32_t].
Definition tag_t : ctype := tag.
Definition charspec : ctype :=
  struct ["cs_type" :- uint8_t;
     "cs_info" :- array 63 char].
Definition charspec_t : ctype := charspec.
Definition regid : ctype :=
  struct ["reg_flags" :- uint8_t;
     "reg_id" :- array 23 char;
     "reg_ids" :- array 8 char].
Definition regid_t : ctype := regid.
Definition lb_addr : ctype :=
  struct ["lba_aaa" :- array 6 char].
Definition extent_ad : ctype :=
  struct ["ext_len" :- uint32_t;
     "ext_loc" :- uint32_t].
Definition extent_ad_t : ctype := extent_ad.
Definition short_ad : ctype :=
  struct ["sad_ext_len" :- uint32_t;
     "sad_ext_loc" :- uint32_t].
Definition long_ad : ctype :=
  struct ["lad_ext_len" :- uint32_t;
     "lad_ext_loc" :- uint32_t;
     "lad_ext_prn" :- uint16_t;
     "lad_iu" :- array 6 char].
Definition long_ad_t : ctype := long_ad.
Definition tstamp : ctype :=
  struct ["ts_tzone" :- uint16_t;
     "ts_year" :- uint16_t;
     "ts_month" :- uint8_t;
     "ts_day" :- uint8_t;
     "ts_hour" :- uint8_t;
     "ts_min" :- uint8_t;
     "ts_sec" :- uint8_t;
     "ts_csec" :- uint8_t;
     "ts_husec" :- uint8_t;
     "ts_usec" :- uint8_t].
Definition tstamp_t : ctype := tstamp.
Definition icb_tag : ctype :=
  struct ["itag_prnde" :- uint32_t;
     "itag_strategy" :- uint16_t;
     "itag_param" :- uint16_t;
     "itag_max_ent" :- uint16_t;
     "itag_rsvd" :- uint8_t;
     "itag_ftype" :- uint8_t;
     "itag_lb_loc" :- uint32_t;
     "itag_lb_prn" :- uint16_t;
     "itag_flags" :- uint16_t].
Definition icb_tag_t : ctype := icb_tag.
Definition pri_vol_desc : ctype :=
  struct ["pvd_tag" :- tag_t;
     "pvd_vdsn" :- uint32_t;
     "pvd_pvdn" :- uint32_t;
     "pvd_vol_id" :- array 32 dstring_t;
     "pvd_vsn" :- uint16_t;
     "pvd_mvsn" :- uint16_t;
     "pvd_il" :- uint16_t;
     "pvd_mil" :- uint16_t;
     "pvd_csl" :- uint32_t;
     "pvd_mcsl" :- uint32_t;
     "pvd_vsi" :- array 128 dstring_t;
     "pvd_desc_cs" :- charspec_t;
     "pvd_exp_cs" :- charspec_t;
     "pvd_vol_abs" :- extent_ad_t;
     "pvd_vcn" :- extent_ad_t;
     "pvd_appl_id" :- regid_t;
     "pvd_time" :- tstamp_t;
     "pvd_ii" :- regid_t;
     "pvd_iu" :- array 64 char;
     "pvd_pvdsl" :- uint32_t;
     "pvd_flags" :- uint16_t;
     "pvd_res" :- array 22 uint8_t].
Definition anch_vol_desc_ptr : ctype :=
  struct ["avd_tag" :- tag_t;
     "avd_main_vdse" :- extent_ad_t;
     "avd_res_vdse" :- extent_ad_t;
     "avd_res" :- array 480 char].
Definition vol_desc_ptr : ctype :=
  struct ["vdp_tag" :- tag_t;
     "vdp_vdsn" :- uint32_t;
     "vdp_nvdse" :- extent_ad_t;
     "vdp_res" :- array 484 uint8_t].
Definition iuvd_desc : ctype :=
  struct ["iuvd_tag" :- tag_t;
     "iuvd_vdsn" :- uint32_t;
     "iuvd_ii" :- regid_t;
     "iuvd_cset" :- charspec_t;
     "iuvd_lvi" :- array 128 dstring_t;
     "iuvd_ifo1" :- array 36 dstring_t;
     "iuvd_ifo2" :- array 36 dstring_t;
     "iuvd_ifo3" :- array 36 dstring_t;
     "iuvd_iid" :- regid_t;
     "iuvd_iu" :- array 128 uint8_t].
Definition part_desc : ctype :=
  struct ["pd_tag" :- tag_t;
     "pd_vdsn" :- uint32_t;
     "pd_pflags" :- uint16_t;
     "pd_pnum" :- uint16_t;
     "pd_pcontents" :- regid_t;
     "pd_pc_use" :- array 128 uint8_t;
     "pd_acc_type" :- uint32_t;
     "pd_part_start" :- uint32_t;
     "pd_part_length" :- uint32_t;
     "pd_ii" :- regid_t;
     "pd_iu" :- array 128 uint8_t;
     "pd_res" :- array 156 uint8_t].
Definition phdr_desc : ctype :=
  struct ["phdr_ust" :- short_ad;
     "phdr_usb" :- short_ad;
     "phdr_it" :- short_ad;
     "phdr_fst" :- short_ad;
     "phdr_fsb" :- short_ad].
Definition log_vol_desc : ctype :=
  struct ["lvd_tag" :- tag_t;
     "lvd_vdsn" :- uint32_t;
     "lvd_desc_cs" :- charspec_t;
     "lvd_lvid" :- array 128 dstring_t;
     "lvd_log_bsize" :- uint32_t;
     "lvd_dom_id" :- regid_t;
     "lvd_lvcu" :- long_ad_t;
     "lvd_mtbl_len" :- uint32_t;
     "lvd_num_pmaps" :- uint32_t;
     "lvd_ii" :- regid_t;
     "lvd_iu" :- array 128 uint8_t;
     "lvd_int_seq_ext" :- extent_ad_t;
     "lvd_pmaps" :- array 72 uint8_t].
Definition unall_spc_desc : ctype :=
  struct ["ua_tag" :- tag_t;
     "ua_vdsn" :- uint32_t;
     "ua_nad" :- uint32_t;
     "ua_al_dsc" :- array 488 uint8_t].
Definition term_desc : ctype :=
  struct ["td_tag" :- tag_t;
     "td_res" :- array 496 uint8_t].
Definition log_vol_hdr_desc : ctype :=
  struct ["lvhd_uniqid" :- uint64_t;
     "lvhd_pad" :- array 24 uint8_t].
Definition log_vol_hdr_desc_t : ctype := log_vol_hdr_desc.
Definition log_vol_int_desc : ctype :=
  struct ["lvid_tag" :- tag_t;
     "lvid_tstamp" :- tstamp_t;
     "lvid_int_type" :- uint32_t;
     "lvid_nie" :- extent_ad_t;
     "lvid_lvcu" :- log_vol_hdr_desc_t;
     "lvid_npart" :- uint32_t;
     "lvid_liu" :- uint32_t;
     "lvid_fst" :- array 2 uint32_t].
Definition lvid_iu : ctype :=
  struct ["lvidiu_regid" :- regid_t;
     "lvidiu_nfiles" :- uint32_t;
     "lvidiu_ndirs" :- uint32_t;
     "lvidiu_mread" :- uint16_t;
     "lvidiu_mwrite" :- uint16_t;
     "lvidiu_maxwr" :- uint16_t].
Definition file_set_desc : ctype :=
  struct ["fsd_tag" :- tag_t;
     "fsd_time" :- tstamp_t;
     "fsd_ilevel" :- uint16_t;
     "fsd_mi_level" :- uint16_t;
     "fsd_cs_list" :- uint32_t;
     "fsd_mcs_list" :- uint32_t;
     "fsd_fs_no" :- uint32_t;
     "fsd_fsd_no" :- uint32_t;
     "fsd_lvidcs" :- charspec_t;
     "fsd_lvid" :- array 128 char;
     "fsd_fscs" :- charspec_t;
     "fsd_fsi" :- array 32 char;
     "fsd_cfi" :- array 32 char;
     "fsd_afi" :- array 32 char;
     "fsd_root_icb" :- long_ad_t;
     "fsd_did" :- regid_t;
     "fsd_next" :- long_ad_t;
     "fsd_res" :- array 48 uint8_t].
Definition file_id : ctype :=
  struct ["fid_tag" :- tag_t;
     "fid_ver" :- uint16_t;
     "fid_flags" :- uint8_t;
     "fid_idlen" :- uint8_t;
     "fid_icb" :- long_ad_t;
     "fid_iulen" :- uint16_t;
     "fid_spec" :- array 2 uint8_t].
Definition alloc_ext_desc : ctype :=
  struct ["aed_tag" :- tag_t;
     "aed_rev_ael" :- uint32_t;
     "aed_len_aed" :- uint32_t].
Definition indirect_entry : ctype :=
  struct ["ie_tag" :- tag_t;
     "ie_icb_tag" :- icb_tag_t;
     "ie_indirecticb" :- long_ad_t].
Definition term_entry : ctype :=
  struct ["te_tag" :- tag_t;
     "te_icb_tag" :- icb_tag_t].
Definition file_entry : ctype :=
  struct ["fe_tag" :- tag_t;
     "fe_icb_tag" :- icb_tag_t;
     "fe_uid" :- uint32_t;
     "fe_gid" :- uint32_t;
     "fe_perms" :- uint32_t;
     "fe_lcount" :- uint16_t;
     "fe_rec_for" :- uint8_t;
     "fe_rec_dis" :- uint8_t;
     "fe_rec_len" :- uint32_t;
     "fe_info_len" :- uint64_t;
     "fe_lbr" :- uint64_t;
     "fe_acc_time" :- tstamp_t;
     "fe_mod_time" :- tstamp_t;
     "fe_attr_time" :- tstamp_t;
     "fe_ckpoint" :- uint32_t;
     "fe_ea_icb" :- long_ad_t;
     "fe_impl_id" :- regid_t;
     "fe_uniq_id" :- uint64_t;
     "fe_len_ear" :- uint32_t;
     "fe_len_adesc" :- uint32_t;
     "fe_spec" :- array 336 char].
Definition ext_attr_hdr : ctype :=
  struct ["eah_tag" :- tag_t;
     "eah_ial" :- uint32_t;
     "eah_aal" :- uint32_t].
Definition unall_space_ent : ctype :=
  struct ["use_tag" :- tag_t;
     "use_icb_tag" :- icb_tag_t;
     "use_len_ad" :- uint32_t;
     "use_ad" :- array 484 uint8_t].
Definition space_bmap_desc : ctype :=
  struct ["sbd_tag" :- tag_t;
     "sbd_nbits" :- uint32_t;
     "sbd_nbytes" :- uint32_t;
     "sbd_bmap" :- array 500 uint8_t].
Definition part_int_desc : ctype :=
  struct ["pid_tag" :- tag_t;
     "pid_idb_tag" :- icb_tag_t;
     "pid_rtime" :- tstamp_t;
     "pid_integ" :- uint8_t;
     "pid_res" :- array 175 uint8_t;
     "pid_ii" :- regid_t;
     "pid_iu" :- array 256 uint8_t].
Definition attr_hdr : ctype :=
  struct ["ahdr_atype" :- uint32_t;
     "ahdr_astype" :- uint8_t;
     "ahdr_res" :- array 3 uint8_t;
     "ahdr_length" :- uint32_t;
     "ahdr_data" :- array 4 uint8_t].
Definition dev_spec_ear : ctype :=
  struct ["ds_atype" :- uint32_t;
     "ds_astype" :- uint8_t;
     "ds_res" :- array 3 uint8_t;
     "ds_attr_len" :- uint32_t;
     "ds_iu_len" :- uint32_t;
     "ds_major_id" :- uint32_t;
     "ds_minor_id" :- uint32_t;
     "ds_iu" :- array 4 uint8_t].
Definition ftimes_ear : ctype :=
  struct ["ft_atype" :- uint32_t;
     "ft_astype" :- uint8_t;
     "ft_res" :- array 3 uint8_t;
     "ft_attr_len" :- uint32_t;
     "ft_data_len" :- uint32_t;
     "ft_exist" :- uint32_t;
     "ft_ft" :- array 4 uint8_t].
Definition iu_ea : ctype :=
  struct ["iuea_atype" :- uint32_t;
     "iuea_astype" :- uint8_t;
     "iuea_res" :- array 3 uint8_t;
     "iuea_attr_len" :- uint32_t;
     "iuea_iu_len" :- uint32_t;
     "iuea_ii" :- regid_t;
     "iuea_iu" :- array 4 uint8_t].
Definition copy_mgt_info : ctype :=
  struct ["cgms_cksum" :- uint16_t;
     "cgms_info" :- uint8_t;
     "cgms_dstype" :- uint8_t;
     "cgms_psi" :- uint32_t].
Definition FREE_SPACE : ctype :=
  struct ["fs_cksum" :- uint16_t;
     "fs_freesp" :- array 2 uint8_t].
Definition pmap_hdr : ctype :=
  struct ["maph_type" :- uint8_t;
     "maph_length" :- uint8_t].
Definition pmap_typ1 : ctype :=
  struct ["map1_type" :- uint8_t;
     "map1_length" :- uint8_t;
     "map1_vsn" :- uint16_t;
     "map1_pn" :- uint16_t].
Definition pmap_typ2 : ctype :=
  struct ["map2_type" :- uint8_t;
     "map2_length" :- uint8_t;
     "map2_pad1" :- uint16_t;
     "map2_pti" :- regid_t;
     "map2_vsn" :- uint16_t;
     "map2_pn" :- uint16_t;
     "map2_pl" :- uint16_t;
     "map2_nst" :- uint8_t;
     "map2_pad2" :- uint8_t;
     "map2_sest" :- uint32_t;
     "map2_st" :- array 4 uint32_t].
Definition stbl_entry : ctype :=
  struct ["sent_ol" :- uint32_t;
     "sent_ml" :- uint32_t].
Definition stbl_entry_t : ctype := stbl_entry.
Definition stbl : ctype :=
  struct ["stbl_tag" :- tag_t;
     "stbl_si" :- regid_t;
     "stbl_len" :- uint16_t;
     "stbl_res1" :- uint16_t;
     "stbl_seqno" :- uint32_t;
     "stbl_entry" :- stbl_entry_t].
Definition path_comp : ctype :=
  struct ["pc_type" :- uint8_t;
     "pc_len" :- uint8_t;
     "pc_ver" :- uint16_t;
     "pc_id" :- array 4 uint8_t].

(** [sys/fs/ufs_acl.h] *)
Definition ufs_acl : ctype :=
  struct ["acl_un" :- (union ["acl_next" :- uint32_t; "acl_tag" :- ushort_t]);
     "acl_perm" :- o_mode_t;
     "acl_who" :- uid_t].
Definition ufs_aclmask : ctype :=
  struct ["acl_ismask" :- short;
     "acl_maskbits" :- o_mode_t].
Definition ufs_fsd : ctype :=
  struct ["fsd_type" :- int;
     "fsd_size" :- int;
     "fsd_data" :- array 1 char].

(** [sys/fs/ufs_fs.h] *)
Definition csum : ctype :=
  struct ["cs_ndir" :- int32_t;
     "cs_nbfree" :- int32_t;
     "cs_nifree" :- int32_t;
     "cs_nffree" :- int32_t].

(** [sys/param.h] *)
Definition MAXFRAG : Z := 8.

(** [sys/fs/ufs_fs.h] *)
Definition cg : ctype :=
  struct ["cg_link" :- uint32_t;
     "cg_magic" :- int32_t;
     "cg_time" :- time32_t;
     "cg_cgx" :- int32_t;
     "cg_ncyl" :- short;
     "cg_niblk" :- short;
     "cg_ndblk" :- int32_t;
     "cg_cs" :- csum;
     "cg_rotor" :- int32_t;
     "cg_frotor" :- int32_t;
     "cg_irotor" :- int32_t;
     "cg_frsum" :- array MAXFRAG int32_t;
     "cg_btotoff" :- int32_t;
     "cg_boff" :- int32_t;
     "cg_iusedoff" :- int32_t;
     "cg_freeoff" :- int32_t;
     "cg_nextfreeoff" :- int32_t;
     "cg_sparecon" :- array 16 int32_t;
     "cg_space" :- array 1 uchar_t].
Definition ocg : ctype :=
  struct ["cg_link" :- uint32_t;
     "cg_rlink" :- uint32_t;
     "cg_time" :- time32_t;
     "cg_cgx" :- int32_t;
     "cg_ncyl" :- short;
     "cg_niblk" :- short;
     "cg_ndblk" :- int32_t;
     "cg_cs" :- csum;
     "cg_rotor" :- int32_t;
     "cg_frotor" :- int32_t;
     "cg_irotor" :- int32_t;
     "cg_frsum" :- array 8 int32_t;
     "cg_btot" :- array 32 int32_t;
     "cg_b" :- array 32 (array 8 short);
     "cg_iused" :- array 256 char;
     "cg_magic" :- int32_t;
     "cg_free" :- array 1 uchar_t].

(** [sys/fs/ufs_fsdir.h] *)
Definition MAXNAMLEN : Z := 255.
Definition direct : ctype :=
  struct ["d_ino" :- uint32_t;
     "d_reclen" :- ushort_t;
     "d_namlen" :- ushort_t;
     "d_name" :- array (MAXNAMLEN + 1) char].
Definition dirtemplate : ctype :=
  struct ["dot_ino" :- uint32_t;
     "dot_reclen" :- short;
     "dot_namlen" :- short;
     "dot_name" :- array 4 char;
     "dotdot_ino" :- uint32_t;
     "dotdot_reclen" :- short;
     "dotdot_namlen" :- short;
     "dotdot_name" :- array 4 char].

(** [sys/fs/ufs_inode.h] *)
Definition NDADDR : Z := 12.
Definition NIADDR : Z := 3.
Definition icommon : ctype :=
  struct ["ic_smode" :- o_mode_t;
     "ic_nlink" :- short;
     "ic_suid" :- o_uid_t;
     "ic_sgid" :- o_gid_t;
     "ic_lsize" :- u_offset_t;
     "ic_atime" :- time32_t;
     "ic_atspare" :- int32_t;
     "ic_mtime" :- time32_t;
     "ic_mtspare" :- int32_t;
     "ic_ctime" :- time32_t;
     "ic_ctspare" :- int32_t;
     "ic_db" :- array NDADDR daddr32_t;
     "ic_ib" :- array NIADDR daddr32_t;
     "ic_flags" :- int32_t;
     "ic_blocks" :- int32_t;
     "ic_gen" :- int32_t;
     "ic_shadow" :- int32_t;
     "ic_uid" :- uid_t;
     "ic_gid" :- gid_t;
     "ic_oeftflag" :- uint32_t].
Definition dinode : ctype :=
  struct ["di_un" :- (union ["di_icom" :- icommon; "di_size" :- array 128 char])].
Definition ufid : ctype :=
  struct ["ufid_len" :- ushort_t;
     "ufid_flags" :- ushort_t;
     "ufid_ino" :- int32_t;
     "ufid_gen" :- int32_t].

(** [sys/fs/ufs_log.h] *)
Definition extent : ctype :=
  struct ["lbno" :- uint32_t;
     "pbno" :- uint32_t;
     "nbno" :- uint32_t].
Definition extent_block : ctype :=
  struct ["type" :- uint32_t;
     "chksum" :- int32_t;
     "nextents" :- uint32_t;
     "nbytes" :- uint32_t;
     "nextbno" :- uint32_t;
     "extents" :- array 1 extent].
Definition sect_trailer : ctype :=
  struct ["st_tid" :- uint32_t;
     "st_ident" :- uint32_t].

(** [sys/fs/ufs_trans.h] *)
Definition delta_t : ctype := enum.

(** [sys/fs/ufs_log.h] *)
Definition delta : ctype :=
  struct ["d_mof" :- int64_t;
     "d_nb" :- int32_t;
     "d_typ" :- delta_t].

(** The formats of this file. *)
Definition formats_disk : list ctype :=
  [tag;
   charspec;
   regid;
   lb_addr;
   extent_ad;
   short_ad;
   long_ad;
   tstamp;
   icb_tag;
   pri_vol_desc;
   anch_vol_desc_ptr;
   vol_desc_ptr;
   iuvd_desc;
   part_desc;
   phdr_desc;
   log_vol_desc;
   unall_spc_desc;
   term_desc;
   log_vol_hdr_desc;
   log_vol_int_desc;
   lvid_iu;
   file_set_desc;
   file_id;
   alloc_ext_desc;
   indirect_entry;
   term_entry;
   file_entry;
   ext_attr_hdr;
   unall_space_ent;
   space_bmap_desc;
   part_int_desc;
   attr_hdr;
   dev_spec_ear;
   ftimes_ear;
   iu_ea;
   copy_mgt_info;
   FREE_SPACE;
   pmap_hdr;
   pmap_typ1;
   pmap_typ2;
   stbl_entry;
   stbl;
   path_comp;
   bootsec;
   fat32_bootsec;
   fat32_boot_fsinfo;
   old_pcfs_args;
   pcfs_args;
   pctime;
   pcdir;
   pcdir_lfn;
   csum;
   cg;
   ocg;
   icommon;
   dinode;
   ufid;
   extent;
   extent_block;
   sect_trailer;
   delta;
   ufs_acl;
   ufs_aclmask;
   ufs_fsd;
   direct;
   dirtemplate;
   dk_map2;
   dkl_partition;
   dk_vtoc;
   dk_label;
   dk_vtoc_8;
   dk_label_8;
   fk_label;
   dk_devid;
   efi_gpt;
   dk_part;
   dk_gpt;
   partition64;
   ipart;
   mboot;
   hdr_cpio;
   c_hdr;
   volcopy_label;
   xattr_hdr;
   xattr_buf;
   cpr_prop_info;
   cpr_default_mini;
   cpr_machdep_desc].

Lemma formats_disk_fixed : formats_check formats_disk = true.
Proof. vm_compute. reflexivity. Qed.
