(* ===== verification/AbiDevice.v ===== *)
(** * Device messages

    Message formats of the MPT, I2O, Fibre Channel and SBP-2 controllers. *)
From Stdlib Require Import String.
From S2P Require Import Prelude ByteOrder CTypes AbiTypes.
#[local] Open Scope Z_scope.
#[local] Open Scope ctype_scope.


(** [sys/fc4/fc.h] *)
Definition FC2_RJT_PARAM : ctype :=
  struct ["rjt_action" :- uchar_t;
     "rjt_reason" :- uchar_t;
     "reserved" :- array 2 uchar_t].
Definition Xfer_Rdy : ctype :=
  struct ["seq_ro" :- int;
     "burst_len" :- int;
     "reserved" :- int].
Definition LA_RLS_reply : ctype :=
  struct ["code" :- int;
     "link_failure" :- int;
     "loss_of_sync" :- int;
     "loss_of_signal" :- int;
     "primitive_error" :- int;
     "code_violations" :- int;
     "invalid_crc" :- int].
Definition LOGI_PAYLOAD : ctype :=
  struct ["code" :- uint_t;
     "common_service_params" :- array 16 uchar_t;
     "port_name" :- array 8 uchar_t;
     "node_name" :- array 8 uchar_t;
     "class1_service_params" :- array 16 uchar_t;
     "class2_service_params" :- array 16 uchar_t;
     "class3_service_params" :- array 16 uchar_t].
Definition FC_MAX_ELS : Z := 56.
Definition els_cmd_u : ctype :=
  union ["c" :- (struct ["ls_command" :- uchar_t; "reserved" :- array 3 uchar_t]);
     "i" :- uint_t].
Definition ELS_payload : ctype :=
  struct ["els_cmd" :- els_cmd_u;
     "els_data" :- array FC_MAX_ELS uchar_t].
Definition fc_dataseg : ctype :=
  struct ["fc_base" :- uint32_t;
     "fc_count" :- uint32_t].

(** [sys/fc4/fcal_linkapp.h] *)
Definition la_ba_rjt : ctype :=
  struct ["reserved" :- uchar_t;
     "reason_code" :- uchar_t;
     "explanation" :- uchar_t;
     "vendor" :- uchar_t].
Definition common_service : ctype :=
  struct ["fcph" :- uint_t;
     "btob_crdt" :- uint_t;
     "cmn_features" :- uint_t;
     "reserved" :- uint_t].
Definition service_param : ctype :=
  struct ["data" :- array 16 uchar_t].
Definition la_els_rls : ctype :=
  struct ["ls_code" :- uchar_t;
     "mbz" :- array 3 uchar_t;
     "reserved" :- uchar_t;
     "nport_id" :- array 3 uchar_t].
Definition la_els_rls_reply : ctype :=
  struct ["ls_code" :- uchar_t;
     "mbz" :- array 3 uchar_t;
     "link_failure" :- uint_t;
     "loss_of_sync" :- uint_t;
     "loss_of_signal" :- uint_t;
     "primitive" :- uint_t;
     "invalid_transmission" :- uint_t;
     "invalid_crc" :- uint_t].
Definition la_els_rrq : ctype :=
  struct ["ls_code" :- uchar_t;
     "mbz" :- array 3 uchar_t;
     "reserved" :- uchar_t;
     "source_id" :- array 3 uchar_t;
     "ox_id" :- ushort_t;
     "rx_id" :- ushort_t;
     "assoc_header" :- array 32 uchar_t].
Definition la_els_prli : ctype :=
  struct ["ls_code" :- uchar_t;
     "page_length" :- uchar_t;
     "payload_length" :- ushort_t;
     "service_params" :- array 16 uchar_t].
Definition la_els_adisc : ctype :=
  struct ["ls_code" :- uchar_t;
     "mbz" :- array 3 uchar_t;
     "hard_address" :- uint_t;
     "port_wwn" :- array 8 uchar_t;
     "node_wwn" :- array 8 uchar_t;
     "nport_id" :- uint_t].
Definition la_els_identify : ctype :=
  struct ["ls_code" :- uint_t;
     "byte_count" :- uint_t].
Definition la_els_rjt : ctype :=
  struct ["ls_code" :- uchar_t;
     "mbz" :- array 3 uchar_t;
     "reserved" :- uchar_t;
     "reason_code" :- uchar_t;
     "explanation" :- uchar_t;
     "vendor" :- uchar_t].

(** [sys/fc4/fcp.h] *)
Definition fcp_ent_addr : ctype :=
  struct ["ent_addr_0" :- ushort_t;
     "ent_addr_1" :- ushort_t;
     "ent_addr_2" :- ushort_t;
     "ent_addr_3" :- ushort_t].
Definition fcp_rsp_info : ctype :=
  struct ["resvd1" :- uchar_t;
     "resvd2" :- uchar_t;
     "resvd3" :- uchar_t;
     "rsp_code" :- uchar_t;
     "resvd4" :- uchar_t;
     "resvd5" :- uchar_t;
     "resvd6" :- uchar_t;
     "resvd7" :- uchar_t].

(** [sys/i2o/i2oadptr.h] *)
Definition i2o_hba_controller_info_scalar : ctype :=
  struct ["BusType" :- uint8_t;
     "BusState" :- uint8_t;
     "Reserved2" :- uint16_t;
     "BusName" :- array 12 uint8_t].
Definition i2o_hba_hist_stats_scalar : ctype :=
  struct ["TimeLastPoweredUp" :- uint32_t;
     "TimeLastReset" :- uint32_t].
Definition i2o_hba_scsi_bus_port_info_scalar : ctype :=
  struct ["PhysicalInterface" :- uint8_t;
     "ElectricalInterface" :- uint8_t;
     "Isochronous" :- uint8_t;
     "ConnectorType" :- uint8_t;
     "ConnectorGender" :- uint8_t;
     "Reserved1" :- uint8_t;
     "Reserved2" :- uint16_t;
     "MaxNumberDevices" :- uint32_t;
     "DeviceIdBegin" :- uint32_t;
     "DeviceIdEnd" :- uint32_t;
     "LunBegin" :- array 8 uint8_t;
     "LunEnd" :- array 8 uint8_t].
Definition i2o_hba_fca_controller_info_scalar : ctype :=
  struct ["FcaType" :- uint8_t;
     "Reserved1" :- uint8_t;
     "Reserved2" :- uint16_t].
Definition i2o_hba_fca_port_info_scalar : ctype :=
  struct ["Reserved4" :- uint32_t].

(** [sys/i2o/i2obscsi.h] *)
Definition i2o_scsi_device_info_scalar : ctype :=
  struct ["DeviceType" :- uint8_t;
     "Flags" :- uint8_t;
     "Reserved2" :- uint16_t;
     "Identifier" :- uint32_t;
     "LunInfo" :- array 8 uint8_t;
     "QueueDepth" :- uint32_t;
     "Reserved1a" :- uint8_t;
     "NegOffset" :- uint8_t;
     "NegDataWidth" :- uint8_t;
     "Reserved1b" :- uint8_t;
     "NegSyncRate" :- uint64_t].
Definition i2o_scsi_bus_port_info_scalar : ctype :=
  struct ["PhysicalInterface" :- uint8_t;
     "ElectricalInterface" :- uint8_t;
     "Isochronous" :- uint8_t;
     "ConnectorType" :- uint8_t;
     "ConnectorGender" :- uint8_t;
     "Reserved1" :- uint8_t;
     "Reserved2" :- uint16_t;
     "MaxNumberDevices" :- uint32_t].

(** [sys/i2o/i2oexec.h] *)
Definition I2O_EXEC_IOP_RESET_STATUS_RESERVED_SZ : Z := 3.
Definition i2o_exec_iop_reset_status : ctype :=
  struct ["ResetStatus" :- uint8_t;
     "reserved" :- array I2O_EXEC_IOP_RESET_STATUS_RESERVED_SZ uint8_t].
Definition I2O_EXEC_OUTBOUND_INIT_RESERVED_SZ : Z := 3.
Definition i2o_exec_outbound_init_status : ctype :=
  struct ["InitStatus" :- uint8_t;
     "reserved" :- array I2O_EXEC_OUTBOUND_INIT_RESERVED_SZ uint8_t].
Definition i2o_exec_outbound_init_reclaim_list : ctype :=
  struct ["MFACount" :- uint32_t;
     "MFAReleaseCount" :- uint32_t;
     "MFAAddress" :- array 1 uint32_t].
Definition i2o_sw_id : ctype :=
  struct ["ModuleID" :- uint16_t;
     "OrganizationID" :- uint16_t].
Definition I2O_SET_SYSTAB_RESERVED_SZ : Z := 8.
Definition i2o_set_systab_header : ctype :=
  struct ["NumberEntries" :- uint8_t;
     "SysTabVersion" :- uint8_t;
     "reserved" :- uint16_t;
     "CurrentChangeIndicator" :- uint32_t;
     "reserved1" :- array I2O_SET_SYSTAB_RESERVED_SZ uint8_t].
Definition i2o_messenger_info : ctype :=
  struct ["InboundMessagePortAddressLow" :- uint32_t;
     "InboundMessagePortAddressHigh" :- uint32_t].
Definition i2o_exec_iop_hardware_scalar : ctype :=
  struct ["I2oVendorID" :- uint16_t;
     "ProductID" :- uint16_t;
     "ProcessorMemory" :- uint32_t;
     "PermMemory" :- uint32_t;
     "HWCapabilities" :- uint32_t;
     "ProcessorType" :- uint8_t;
     "ProcessorVersion" :- uint8_t].
Definition i2o_exec_iop_message_if_scalar : ctype :=
  struct ["InboundFrameSize" :- uint32_t;
     "InboundSizeTarget" :- uint32_t;
     "InboundMax" :- uint32_t;
     "InboundTarget" :- uint32_t;
     "InboundPoolCount" :- uint32_t;
     "InboundCurrentFree" :- uint32_t;
     "InboundCurrentPost" :- uint32_t;
     "StaticCount" :- uint16_t;
     "StaticInstanceCount" :- uint16_t;
     "StaticLimit" :- uint16_t;
     "StaticInstanceLimit" :- uint16_t;
     "OutboundFrameSize" :- uint32_t;
     "OutboundMax" :- uint32_t;
     "OutboundMaxTarget" :- uint32_t;
     "OutboundCurrentFree" :- uint32_t;
     "OutboundCurrentPost" :- uint32_t;
     "InitCode" :- uint8_t].
Definition i2o_exec_execute_environment_scalar : ctype :=
  struct ["MemTotal" :- uint32_t;
     "MemFree" :- uint32_t;
     "PageSize" :- uint32_t;
     "EventQMax" :- uint32_t;
     "EventQCurrent" :- uint32_t;
     "DDMLoadMax" :- uint32_t].

(** [sys/i2o/i2omsg.h] *)
Definition I2O_MODULE_NAME_SZ : Z := 24.

(** [sys/i2o/i2oexec.h] *)
Definition i2o_exec_execute_ddm_table : ctype :=
  struct ["DdmTID" :- uint16_t;
     "ModuleType" :- uint8_t;
     "reserved" :- uint8_t;
     "I2oVendorID" :- uint16_t;
     "ModuleID" :- uint16_t;
     "ModuleName" :- array I2O_MODULE_NAME_SZ uint8_t;
     "ModuleVersion" :- uint32_t;
     "DataSize" :- uint32_t;
     "CodeSize" :- uint32_t].
Definition i2o_exec_driver_store_scalar : ctype :=
  struct ["ModuleLimit" :- uint32_t;
     "ModuleCount" :- uint32_t;
     "CurrentSpace" :- uint32_t;
     "FreeSpace" :- uint32_t].
Definition i2o_exec_driver_store_table : ctype :=
  struct ["StoredDdmIndex" :- uint16_t;
     "ModuleType" :- uint8_t;
     "reserved" :- uint8_t;
     "I2oVendorID" :- uint16_t;
     "ModuleID" :- uint16_t;
     "ModuleName" :- array I2O_MODULE_NAME_SZ uint8_t;
     "ModuleVersion" :- uint32_t;
     "DateDay" :- uint16_t;
     "DateMonth" :- uint16_t;
     "DateYear" :- uint32_t;
     "ModuleSize" :- uint32_t;
     "MpbSize" :- uint32_t;
     "ModuleFlags" :- uint32_t].
Definition i2o_exec_iop_bus_attribute_table : ctype :=
  struct ["BusID" :- uint32_t;
     "BusType" :- uint8_t;
     "MaxAdapters" :- uint8_t;
     "AdapterCount" :- uint8_t;
     "BusAttributes" :- uint8_t].
Definition i2o_exec_iop_sw_attributes_scalar : ctype :=
  struct ["I2oVendorID" :- uint16_t;
     "ProductID" :- uint16_t;
     "CodeSize" :- uint32_t;
     "SWCapabilities" :- uint32_t].
Definition i2o_exec_hardware_resource_table : ctype :=
  struct ["AdapterID" :- uint32_t;
     "StateInfo" :- uint16_t;
     "BusNumber" :- uint8_t;
     "BusType" :- uint8_t;
     "PhysicalLocation" :- u_longlong_t;
     "MemorySpace" :- uint32_t;
     "IoSpace" :- uint32_t].
Definition i2o_exec_lct_scalar : ctype :=
  struct ["BootDevice" :- uint16_t;
     "IopFlags" :- uint32_t;
     "CurrentChangeIndicator" :- uint32_t].

(** [sys/i2o/i2omsg.h] *)
Definition I2O_IDENTITY_TAG_SZ : Z := 8.

(** [sys/i2o/i2oexec.h] *)
Definition i2o_exec_lct_table : ctype :=
  struct ["LocalTID" :- uint16_t;
     "UserTID" :- uint16_t;
     "ParentTID" :- uint16_t;
     "DdmTID" :- uint16_t;
     "ChangeIndicator" :- uint32_t;
     "DeviceFlags" :- uint32_t;
     "ClassID" :- uint32_t;
     "SubClass" :- uint32_t;
     "IdentityTag" :- array I2O_IDENTITY_TAG_SZ uint8_t;
     "EventCapabilities" :- uint32_t;
     "BiosInfo" :- uint8_t].
Definition i2o_exec_system_table : ctype :=
  struct ["IOP_ID" :- uint16_t;
     "OrganizationID" :- uint16_t;
     "SegmentNumber" :- uint16_t;
     "Version" :- uint8_t;
     "IopState" :- uint8_t;
     "MessengerType" :- uint8_t;
     "reserved" :- uint8_t;
     "InboundMessagePortAddress" :- uint32_t;
     "InboundMessageFrameSize" :- uint16_t;
     "IopCapabilities" :- uint32_t;
     "MessengerInfo" :- i2o_messenger_info].
Definition i2o_exec_external_connection_table : ctype :=
  struct ["LocalAliasTID" :- uint16_t;
     "RemoteTID" :- uint16_t;
     "RemoteIOP" :- uint16_t;
     "RemoteUnitID" :- uint16_t;
     "Flags" :- uint8_t;
     "reserved" :- uint8_t].

(** [sys/i2o/i2omsg.h] *)
Definition I2O_DEVID_DESCRIPTION_SZ : Z := 16.
Definition I2O_DEVID_VENDOR_INFO_SZ : Z := 16.
Definition I2O_DEVID_PRODUCT_INFO_SZ : Z := 16.
Definition I2O_DEVID_REV_LEVEL_SZ : Z := 8.
Definition i2o_trl_control_word : ctype :=
  struct ["TrlCount" :- uint8_t;
     "TrlElementSize" :- uint8_t;
     "reserved" :- uint8_t;
     "TrlFlags" :- uint8_t].
Definition I2O_MAX_SERIAL_NUMBER_SZ : Z := 256.
Definition i2o_serial_info : ctype :=
  struct ["SerialNumberLength" :- uint8_t;
     "SerialNumberFormat" :- uint8_t;
     "SerialNumber" :- array I2O_MAX_SERIAL_NUMBER_SZ uint8_t].
Definition i2o_pci_bus_info : ctype :=
  struct ["PciFunctionNumber" :- uint8_t;
     "PciDeviceNumber" :- uint8_t;
     "PciBusNumber" :- uint8_t;
     "reserved" :- uint8_t;
     "PciVendorID" :- uint16_t;
     "PciDeviceID" :- uint16_t].
Definition i2o_local_bus_info : ctype :=
  struct ["LbBaseIOPort" :- uint16_t;
     "reserved" :- uint16_t;
     "LbBaseMemoryAddress" :- uint32_t].
Definition i2o_isa_bus_info : ctype :=
  struct ["IsaBaseIOPort" :- uint16_t;
     "CSN" :- uint8_t;
     "reserved" :- uint8_t;
     "IsaBaseMemoryAddress" :- uint32_t].
Definition i2o_eisa_bus_info : ctype :=
  struct ["EisaBaseIOPort" :- uint16_t;
     "reserved" :- uint8_t;
     "EisaSlotNumber" :- uint8_t;
     "EisaBaseMemoryAddress" :- uint32_t].
Definition i2o_other_bus_info : ctype :=
  struct ["BaseIOPort" :- uint16_t;
     "reserved" :- uint16_t;
     "BaseMemoryAddress" :- uint32_t].
Definition i2o_sge_sgl_attributes_element : ctype :=
  struct ["SglAttributeFlags" :- uint16_t;
     "ElementLength" :- uint8_t;
     "Flags" :- uint8_t;
     "PageFrameSize" :- uint32_t].
Definition i2o_sge_short_transaction_element : ctype :=
  struct ["ClassFields" :- uint16_t;
     "ElementLength" :- uint8_t;
     "Flags" :- uint8_t;
     "BufferContext" :- uint32_t].
Definition i2o_param_operations_list_header : ctype :=
  struct ["OperationCount" :- uint16_t;
     "Reserved" :- uint16_t].
Definition i2o_param_results_list_header : ctype :=
  struct ["ResultCount" :- uint16_t;
     "Reserved" :- uint16_t].
Definition i2o_param_read_operation_result : ctype :=
  struct ["BlockSize" :- uint16_t;
     "BlockStatus" :- uint8_t;
     "ErrorInfoSize" :- uint8_t].
Definition i2o_table_read_operation_result : ctype :=
  struct ["BlockSize" :- uint16_t;
     "BlockStatus" :- uint8_t;
     "ErrorInfoSize" :- uint8_t;
     "RowCount" :- uint16_t;
     "MoreFlag" :- uint16_t].
Definition i2o_param_error_info_template : ctype :=
  struct ["OperationCode" :- uint16_t;
     "GroupNumber" :- uint16_t;
     "FieldIdx" :- uint16_t;
     "AdditionalStatus" :- uint8_t;
     "NumberKeys" :- uint8_t].
Definition i2o_param_operation_specific_template : ctype :=
  struct ["Operation" :- uint16_t;
     "GroupNumber" :- uint16_t;
     "FieldCount" :- uint16_t;
     "FieldIdx" :- array 1 uint16_t].
Definition i2o_param_operation_all_template : ctype :=
  struct ["Operation" :- uint16_t;
     "GroupNumber" :- uint16_t;
     "FieldCount" :- uint16_t].
Definition i2o_param_operation_all_list_template : ctype :=
  struct ["Operation" :- uint16_t;
     "GroupNumber" :- uint16_t;
     "FieldCount" :- uint16_t;
     "KeyCount" :- uint16_t;
     "KeyValue" :- uint8_t].
Definition i2o_param_modify_operation_result : ctype :=
  struct ["BlockSize" :- uint16_t;
     "BlockStatus" :- uint8_t;
     "ErrorInfoSize" :- uint8_t].
Definition i2o_param_operation_row_delete_template : ctype :=
  struct ["Operation" :- uint16_t;
     "GroupNumber" :- uint16_t;
     "RowCount" :- uint16_t;
     "KeyValue" :- uint8_t].
Definition i2o_param_operation_table_clear_template : ctype :=
  struct ["Operation" :- uint16_t;
     "GroupNumber" :- uint16_t].
Definition i2o_util_group_descriptor_table : ctype :=
  struct ["GroupNumber" :- uint16_t;
     "FieldCount" :- uint16_t;
     "RowCount" :- uint16_t;
     "Properties" :- uint8_t;
     "reserved" :- uint8_t].
Definition i2o_util_physical_device_table : ctype :=
  struct ["AdapterID" :- uint32_t].
Definition i2o_util_claimed_table : ctype :=
  struct ["ClaimedTID" :- uint16_t].
Definition i2o_util_user_table : ctype :=
  struct ["Instance" :- uint16_t;
     "UserTID" :- uint16_t;
     "ClaimType" :- uint8_t;
     "reserved1" :- uint8_t;
     "reserved2" :- uint16_t].
Definition i2o_util_private_message_extensions_table : ctype :=
  struct ["ExtInstance" :- uint16_t;
     "OrganizationID" :- uint16_t;
     "XFunctionCode" :- uint16_t].
Definition i2o_util_authorized_user_table : ctype :=
  struct ["AlternateTID" :- uint16_t].
Definition i2o_util_device_identity_scalar : ctype :=
  struct ["ClassID" :- uint32_t;
     "OwnerTID" :- uint16_t;
     "ParentTID" :- uint16_t;
     "VendorInfo" :- array I2O_DEVID_VENDOR_INFO_SZ uint8_t;
     "ProductInfo" :- array I2O_DEVID_PRODUCT_INFO_SZ uint8_t;
     "Description" :- array I2O_DEVID_DESCRIPTION_SZ uint8_t;
     "ProductRevLevel" :- array I2O_DEVID_REV_LEVEL_SZ uint8_t;
     "SNFormat" :- uint8_t;
     "SerialNumber" :- array I2O_MAX_SERIAL_NUMBER_SZ uint8_t].
Definition i2o_util_ddm_identity_scalar : ctype :=
  struct ["DdmTID" :- uint16_t;
     "ModuleName" :- array I2O_MODULE_NAME_SZ uint8_t;
     "ModuleRevLevel" :- array I2O_DEVID_REV_LEVEL_SZ uint8_t;
     "SNFormat" :- uint8_t;
     "SerialNumber" :- array I2O_MAX_SERIAL_NUMBER_SZ uint8_t].
Definition I2O_USER_DEVICE_NAME_SZ : Z := 64.
Definition I2O_USER_SERVICE_NAME_SZ : Z := 64.
Definition I2O_USER_PHYSICAL_LOCATION_SZ : Z := 64.
Definition i2o_util_user_information_scalar : ctype :=
  struct ["DeviceName" :- array I2O_USER_DEVICE_NAME_SZ uint8_t;
     "ServiceName" :- array I2O_USER_SERVICE_NAME_SZ uint8_t;
     "PhysicalLocation" :- array I2O_USER_PHYSICAL_LOCATION_SZ uint8_t;
     "InstanceNumber" :- uint32_t].
Definition i2o_util_sgl_operating_limits_scalar : ctype :=
  struct ["SglChainSize" :- uint32_t;
     "SglChainSizeMax" :- uint32_t;
     "SglChainSizeTarget" :- uint32_t;
     "SglFragCount" :- uint16_t;
     "SglFragCountMax" :- uint16_t;
     "SglFragCountTarget" :- uint16_t].
Definition i2o_util_sensors_table : ctype :=
  struct ["SensorInstance" :- uint16_t;
     "Component" :- uint8_t;
     "ComponentInstance" :- uint16_t;
     "SensorClass" :- uint8_t;
     "SensorType" :- uint8_t;
     "ScalingExponent" :- int8_t;
     "ActualReading" :- int32_t;
     "MinimumReading" :- int32_t;
     "Low2LowCatThreshold" :- int32_t;
     "LowCat2LowThreshold" :- int32_t;
     "LowWarn2LowThreshold" :- int32_t;
     "Low2LowWarnThreshold" :- int32_t;
     "Norm2LowWarnThreshold" :- int32_t;
     "LowWarn2NormThreshold" :- int32_t;
     "NominalReading" :- int32_t;
     "HiWarn2NormThreshold" :- int32_t;
     "Norm2HiWarnThreshold" :- int32_t;
     "High2HiWarnThreshold" :- int32_t;
     "HiWarn2HighThreshold" :- int32_t;
     "HiCat2HighThreshold" :- int32_t;
     "Hi2HiCatThreshold" :- int32_t;
     "MaximumReading" :- int32_t;
     "SensorState" :- uint8_t;
     "EventEnable" :- uint16_t].

(** [sys/i2o/i2omstr.h] *)
Definition i2o_bsa_device_info_scalar : ctype :=
  struct ["DeviceType" :- uint8_t;
     "NumberOfPaths" :- uint8_t;
     "PowerState" :- uint16_t;
     "BlockSize" :- uint32_t;
     "DeviceCapacity" :- uint64_t;
     "DeviceCapabilitySupport" :- uint32_t;
     "DeviceState" :- uint32_t].
Definition i2o_bsa_operational_control_scalar : ctype :=
  struct ["AutoReassign" :- uint8_t;
     "ReassignTolerance" :- uint8_t;
     "RetryAttempts" :- uint8_t;
     "reserved1" :- uint8_t;
     "ReassignSize" :- uint32_t;
     "ExpectedTimeout" :- uint32_t;
     "RWVTimeout" :- uint32_t;
     "RWVTimeoutBase" :- uint32_t;
     "TimeoutBase" :- uint32_t;
     "OrderedRequestDepth" :- uint32_t;
     "AtomicWriteSize" :- uint32_t].
Definition i2o_bsa_power_control_scalar : ctype :=
  struct ["PowerdownTimeout" :- uint32_t;
     "OnAccess" :- uint32_t].
Definition i2o_bsa_cache_control_scalar : ctype :=
  struct ["TotalCacheSize" :- uint32_t;
     "ReadCacheSize" :- uint32_t;
     "WriteCacheSize" :- uint32_t;
     "WritePolicy" :- uint8_t;
     "ReadPolicy" :- uint8_t;
     "ErrorCorrection" :- uint8_t;
     "reserved1" :- uint8_t].
Definition i2o_bsa_hist_stats_scalar : ctype :=
  struct ["StatisticsControl" :- uint8_t;
     "reserved1" :- uint8_t;
     "reserved2" :- uint16_t;
     "StorageStatistics" :- uint32_t;
     "CacheStatistics" :- uint32_t].
Definition i2o_bsa_cache_hist_stats_scalar : ctype :=
  struct ["CacheAccess" :- uint64_t;
     "CacheHit" :- uint64_t;
     "PartialCacheHit" :- uint64_t;
     "HitDataSize" :- uint64_t;
     "ValidUsage" :- uint32_t;
     "DirtyUsage" :- uint32_t;
     "TimeLastFault" :- uint32_t;
     "LastFaultFailure" :- uint32_t].
Definition i2o_bsa_volume_info_scalar : ctype :=
  struct ["Name" :- array 64 uint8_t;
     "TotalStorageCapacity" :- uint64_t;
     "StripeLength" :- uint64_t;
     "InterleaveDepth" :- uint64_t].
Definition i2o_bsa_agg_prot_space_ext_scalar : ctype :=
  struct ["NumberBlocks" :- uint64_t].
Definition i2o_bsa_phys_ext_scalar : ctype :=
  struct ["StartAddress" :- uint64_t;
     "NumberBlocks" :- uint64_t;
     "BlockSize" :- uint32_t;
     "GranularityUnit" :- uint32_t;
     "CheckDataInterleave" :- uint64_t;
     "CheckData" :- uint64_t;
     "UserData" :- uint64_t].
Definition i2o_bsa_agg_phys_ext_scalar : ctype :=
  struct ["NumberBlocks" :- uint64_t;
     "CheckData" :- uint64_t].
Definition i2o_bsa_redundancy_scalar : ctype :=
  struct ["RedundancyType" :- uint8_t;
     "reserved1" :- uint8_t;
     "reserved2" :- uint16_t].
Definition i2o_bsa_component_spares_table : ctype :=
  struct ["RowNumber" :- uint8_t;
     "SpareType" :- uint8_t;
     "ToBeSparedIndex" :- uint8_t;
     "SparedIndex" :- uint8_t;
     "SpareFunctioningState" :- uint8_t;
     "reserved1" :- uint8_t;
     "reserved2" :- uint16_t].
Definition i2o_bsa_association_table : ctype :=
  struct ["RowNumber" :- uint8_t;
     "Type" :- uint8_t;
     "Object1Type" :- uint8_t;
     "Object1Index" :- uint8_t;
     "Object2Type" :- uint8_t;
     "Object2Index" :- uint8_t;
     "reserved2" :- uint16_t].

(** [sys/mpt/mpi.h] *)
Definition mpi_version_struct : ctype :=
  struct ["Dev" :- uint8_t;
     "Unit" :- uint8_t;
     "Minor" :- uint8_t;
     "Major" :- uint8_t].
Definition mpi_version_format : ctype :=
  union ["Struct" :- mpi_version_struct;
     "Word" :- uint32_t].
Definition sge_simple32 : ctype :=
  struct ["FlagsLength" :- uint32_t;
     "Address" :- uint32_t].
Definition sge_simple64 : ctype :=
  struct ["FlagsLength" :- uint32_t;
     "Address_Low" :- uint32_t;
     "Address_High" :- uint32_t].
Definition sge_simple_union : ctype :=
  struct ["FlagsLength" :- uint32_t;
     "u1" :- (union ["Address32" :- uint32_t;
       "Address64_Low" :- uint32_t;
       "Address64_High" :- uint32_t])].
Definition sge_chain32 : ctype :=
  struct ["Length" :- uint16_t;
     "NextChainOffset" :- uint8_t;
     "Flags" :- uint8_t;
     "Address" :- uint32_t].
Definition sge_chain64 : ctype :=
  struct ["Length" :- uint16_t;
     "NextChainOffset" :- uint8_t;
     "Flags" :- uint8_t;
     "Address64_Low" :- uint32_t;
     "Address64_High" :- uint32_t].
Definition sge_chain_union : ctype :=
  struct ["Length" :- uint16_t;
     "NextChainOffset" :- uint8_t;
     "Flags" :- uint8_t;
     "u1" :- (union ["Address32" :- uint32_t;
       "Address64_Low" :- uint32_t;
       "Address64_High" :- uint32_t])].
Definition sge_transaction32 : ctype :=
  struct ["Reserved" :- uint8_t;
     "ContextSize" :- uint8_t;
     "DetailsLength" :- uint8_t;
     "Flags" :- uint8_t;
     "TransactionContext" :- array 1 uint32_t;
     "TransactionDetails" :- array 1 uint32_t].
Definition sge_transaction64 : ctype :=
  struct ["Reserved" :- uint8_t;
     "ContextSize" :- uint8_t;
     "DetailsLength" :- uint8_t;
     "Flags" :- uint8_t;
     "TransactionContext" :- array 2 uint32_t;
     "TransactionDetails" :- array 1 uint32_t].
Definition sge_transaction96 : ctype :=
  struct ["Reserved" :- uint8_t;
     "ContextSize" :- uint8_t;
     "DetailsLength" :- uint8_t;
     "Flags" :- uint8_t;
     "TransactionContext" :- array 3 uint32_t;
     "TransactionDetails" :- array 1 uint32_t].
Definition sge_transaction128 : ctype :=
  struct ["Reserved" :- uint8_t;
     "ContextSize" :- uint8_t;
     "DetailsLength" :- uint8_t;
     "Flags" :- uint8_t;
     "TransactionContext" :- array 4 uint32_t;
     "TransactionDetails" :- array 1 uint32_t].
Definition sge_transaction_union : ctype :=
  struct ["Reserved" :- uint8_t;
     "ContextSize" :- uint8_t;
     "DetailsLength" :- uint8_t;
     "Flags" :- uint8_t;
     "u1" :- (union ["TransactionContext32" :- array 1 uint32_t;
       "TransactionContext64" :- array 2 uint32_t;
       "TransactionContext96" :- array 3 uint32_t;
       "TransactionContext128" :- array 4 uint32_t]);
     "TransactionDetails" :- array 1 uint32_t].
Definition sge_io_union : ctype :=
  struct ["u1" :- (union ["Simple" :- sge_simple_union; "Chain" :- sge_chain_union])].
Definition sge_trans_simple_union : ctype :=
  struct ["u1" :- (union ["Simple" :- sge_simple_union; "Transaction" :- sge_transaction_union])].
Definition sge_mpi_union : ctype :=
  struct ["u1" :- (union ["Simple" :- sge_simple_union;
       "Chain" :- sge_chain_union;
       "Transaction" :- sge_transaction_union])].
Definition msg_request_header : ctype :=
  struct ["Reserved" :- array 2 uint8_t;
     "ChainOffset" :- uint8_t;
     "Function" :- uint8_t;
     "Reserved1" :- array 3 uint8_t;
     "MsgFlags" :- uint8_t;
     "MsgContext" :- uint32_t].
Definition msg_default_reply : ctype :=
  struct ["Reserved" :- array 2 uint8_t;
     "MsgLength" :- uint8_t;
     "Function" :- uint8_t;
     "Reserved1" :- array 3 uint8_t;
     "MsgFlags" :- uint8_t;
     "MsgContext" :- uint32_t;
     "Reserved2" :- array 2 uint8_t;
     "IOCStatus" :- uint16_t;
     "IOCLogInfo" :- uint32_t].

(** [sys/mpt/mpi_cnfg.h] *)
Definition config_page_header : ctype :=
  struct ["PageVersion" :- uint8_t;
     "PageLength" :- uint8_t;
     "PageNumber" :- uint8_t;
     "PageType" :- uint8_t].
Definition config_page_header_union : ctype :=
  union ["Struct" :- config_page_header;
     "Bytes" :- array 4 uint8_t;
     "Word16" :- array 2 uint16_t;
     "Word32" :- uint32_t].
Definition config_extended_page_header : ctype :=
  struct ["PageVersion" :- uint8_t;
     "Reserved1" :- uint8_t;
     "PageNumber" :- uint8_t;
     "PageType" :- uint8_t;
     "ExtPageLength" :- uint16_t;
     "ExtPageType" :- uint8_t;
     "Reserved2" :- uint8_t].
Definition msg_config : ctype :=
  struct ["Action" :- uint8_t;
     "Reserved" :- uint8_t;
     "ChainOffset" :- uint8_t;
     "Function" :- uint8_t;
     "ExtPageLength" :- uint16_t;
     "ExtPageType" :- uint8_t;
     "MsgFlags" :- uint8_t;
     "MsgContext" :- uint32_t;
     "Reserved2" :- array 8 uint8_t;
     "Header" :- config_page_header;
     "PageAddress" :- uint32_t;
     "PageBufferSGE" :- sge_io_union].
Definition msg_config_reply : ctype :=
  struct ["Action" :- uint8_t;
     "Reserved" :- uint8_t;
     "MsgLength" :- uint8_t;
     "Function" :- uint8_t;
     "ExtPageLength" :- uint16_t;
     "ExtPageType" :- uint8_t;
     "MsgFlags" :- uint8_t;
     "MsgContext" :- uint32_t;
     "Reserved2" :- array 2 uint8_t;
     "IOCStatus" :- uint16_t;
     "IOCLogInfo" :- uint32_t;
     "Header" :- config_page_header].
Definition config_page_manufacturing_0 : ctype :=
  struct ["Header" :- config_page_header;
     "ChipName" :- array 16 uint8_t;
     "ChipRevision" :- array 8 uint8_t;
     "BoardName" :- array 16 uint8_t;
     "BoardAssembly" :- array 16 uint8_t;
     "BoardTracerNumber" :- array 16 uint8_t].
Definition config_page_manufacturing_1 : ctype :=
  struct ["Header" :- config_page_header;
     "VPD" :- array 256 uint8_t].
Definition mpi_chip_revision_id : ctype :=
  struct ["DeviceID" :- uint16_t;
     "PCIRevisionID" :- uint8_t;
     "Reserved" :- uint8_t].
Definition MPI_MAN_PAGE_2_HW_SETTINGS_WORDS : Z := 1.
Definition config_page_manufacturing_2 : ctype :=
  struct ["Header" :- config_page_header;
     "ChipId" :- mpi_chip_revision_id;
     "HwSettings" :- array MPI_MAN_PAGE_2_HW_SETTINGS_WORDS uint32_t].
Definition MPI_MAN_PAGE_3_INFO_WORDS : Z := 1.
Definition config_page_manufacturing_3 : ctype :=
  struct ["Header" :- config_page_header;
     "ChipId" :- mpi_chip_revision_id;
     "Info" :- array MPI_MAN_PAGE_3_INFO_WORDS uint32_t].
Definition config_page_manufacturing_4 : ctype :=
  struct ["Header" :- config_page_header;
     "Reserved1" :- uint32_t;
     "InfoOffset0" :- uint8_t;
     "InfoSize0" :- uint8_t;
     "InfoOffset1" :- uint8_t;
     "InfoSize1" :- uint8_t;
     "InquirySize" :- uint8_t;
     "Flags" :- uint8_t;
     "Reserved2" :- uint16_t;
     "InquiryData" :- array 56 uint8_t;
     "ISVolumeSettings" :- uint32_t;
     "IMEVolumeSettings" :- uint32_t;
     "IMVolumeSettings" :- uint32_t].
Definition config_page_manufacturing_6 : ctype :=
  struct ["Header" :- config_page_header;
     "ProductSpecificInfo" :- uint32_t].
Definition config_page_io_unit_1 : ctype :=
  struct ["Header" :- config_page_header;
     "Flags" :- uint32_t].
Definition mpi_adapter_info : ctype :=
  struct ["PciBusNumber" :- uint8_t;
     "PciDeviceAndFunctionNumber" :- uint8_t;
     "AdapterFlags" :- uint16_t].
Definition config_page_io_unit_2 : ctype :=
  struct ["Header" :- config_page_header;
     "Flags" :- uint32_t;
     "BiosVersion" :- uint32_t;
     "AdapterOrder" :- array 4 mpi_adapter_info].
Definition MPI_IO_UNIT_PAGE_3_GPIO_VAL_MAX : Z := 1.
Definition config_page_io_unit_3 : ctype :=
  struct ["Header" :- config_page_header;
     "GPIOCount" :- uint8_t;
     "Reserved1" :- uint8_t;
     "Reserved2" :- uint16_t;
     "GPIOVal" :- array MPI_IO_UNIT_PAGE_3_GPIO_VAL_MAX uint16_t].
Definition config_page_ioc_0 : ctype :=
  struct ["Header" :- config_page_header;
     "TotalNVStore" :- uint32_t;
     "FreeNVStore" :- uint32_t;
     "VendorID" :- uint16_t;
     "DeviceID" :- uint16_t;
     "RevisionID" :- uint8_t;
     "Reserved" :- array 3 uint8_t;
     "ClassCode" :- uint32_t;
     "SubsystemVendorID" :- uint16_t;
     "SubsystemID" :- uint16_t].
Definition config_page_ioc_1 : ctype :=
  struct ["Header" :- config_page_header;
     "Flags" :- uint32_t;
     "CoalescingTimeout" :- uint32_t;
     "CoalescingDepth" :- uint8_t;
     "PCISlotNum" :- uint8_t;
     "Reserved" :- array 2 uint8_t].
Definition config_page_ioc_2_raid_vol : ctype :=
  struct ["VolumeID" :- uint8_t;
     "VolumeBus" :- uint8_t;
     "VolumeIOC" :- uint8_t;
     "VolumePageNumber" :- uint8_t;
     "VolumeType" :- uint8_t;
     "Flags" :- uint8_t;
     "Reserved3" :- uint16_t].
Definition MPI_IOC_PAGE_2_RAID_VOLUME_MAX : Z := 1.
Definition config_page_ioc_2 : ctype :=
  struct ["Header" :- config_page_header;
     "CapabilitiesFlags" :- uint32_t;
     "NumActiveVolumes" :- uint8_t;
     "MaxVolumes" :- uint8_t;
     "NumActivePhysDisks" :- uint8_t;
     "MaxPhysDisks" :- uint8_t;
     "RaidVolume" :- array MPI_IOC_PAGE_2_RAID_VOLUME_MAX config_page_ioc_2_raid_vol].
Definition ioc_3_phys_disk : ctype :=
  struct ["PhysDiskID" :- uint8_t;
     "PhysDiskBus" :- uint8_t;
     "PhysDiskIOC" :- uint8_t;
     "PhysDiskNum" :- uint8_t].
Definition MPI_IOC_PAGE_3_PHYSDISK_MAX : Z := 1.
Definition config_page_ioc_3 : ctype :=
  struct ["Header" :- config_page_header;
     "NumPhysDisks" :- uint8_t;
     "Reserved1" :- uint8_t;
     "Reserved2" :- uint16_t;
     "PhysDisk" :- array MPI_IOC_PAGE_3_PHYSDISK_MAX ioc_3_phys_disk].
Definition ioc_4_sep : ctype :=
  struct ["SEPTargetID" :- uint8_t;
     "SEPBus" :- uint8_t;
     "Reserved" :- uint16_t].
Definition MPI_IOC_PAGE_4_SEP_MAX : Z := 1.
Definition config_page_ioc_4 : ctype :=
  struct ["Header" :- config_page_header;
     "ActiveSEP" :- uint8_t;
     "MaxSEP" :- uint8_t;
     "Reserved1" :- uint16_t;
     "SEP" :- array MPI_IOC_PAGE_4_SEP_MAX ioc_4_sep].
Definition config_page_scsi_port_0 : ctype :=
  struct ["Header" :- config_page_header;
     "Capabilities" :- uint32_t;
     "PhysicalInterface" :- uint32_t].
Definition config_page_scsi_port_1 : ctype :=
  struct ["Header" :- config_page_header;
     "Configuration" :- uint32_t;
     "OnBusTimerValue" :- uint32_t].
Definition mpi_device_info : ctype :=
  struct ["Timeout" :- uint8_t;
     "SyncFactor" :- uint8_t;
     "DeviceFlags" :- uint16_t].
Definition config_page_scsi_port_2 : ctype :=
  struct ["Header" :- config_page_header;
     "PortFlags" :- uint32_t;
     "PortSettings" :- uint32_t;
     "DeviceSettings" :- array 16 mpi_device_info].
Definition config_page_scsi_device_0 : ctype :=
  struct ["Header" :- config_page_header;
     "NegotiatedParameters" :- uint32_t;
     "Information" :- uint32_t].
Definition config_page_scsi_device_1 : ctype :=
  struct ["Header" :- config_page_header;
     "RequestedParameters" :- uint32_t;
     "Reserved" :- uint32_t;
     "Configuration" :- uint32_t].
Definition config_page_scsi_device_2 : ctype :=
  struct ["Header" :- config_page_header;
     "DomainValidation" :- uint32_t;
     "ParityPipeSelect" :- uint32_t;
     "DataPipeSelect" :- uint32_t].
Definition config_page_fc_port_0 : ctype :=
  struct ["Header" :- config_page_header;
     "Flags" :- uint32_t;
     "MPIPortNumber" :- uint8_t;
     "Reserved" :- array 3 uint8_t;
     "PortIdentifier" :- uint32_t;
     "WWNN" :- uint64_t;
     "WWPN" :- uint64_t;
     "SupportedServiceClass" :- uint32_t;
     "SupportedSpeeds" :- uint32_t;
     "CurrentSpeed" :- uint32_t;
     "MaxFrameSize" :- uint32_t;
     "FabricWWNN" :- uint64_t;
     "FabricWWPN" :- uint64_t;
     "DiscoveredPortsCount" :- uint32_t;
     "MaxInitiators" :- uint32_t].
Definition config_page_fc_port_2 : ctype :=
  struct ["Header" :- config_page_header;
     "NumberActive" :- uint8_t;
     "ALPA" :- array 127 uint8_t].
Definition wwn_format : ctype :=
  struct ["WWNN" :- uint64_t;
     "WWPN" :- uint64_t].
Definition fc_port_persistent_physical_id : ctype :=
  union ["WWN" :- wwn_format;
     "Did" :- uint32_t].
Definition config_page_fc_port_4 : ctype :=
  struct ["Header" :- config_page_header;
     "PortFlags" :- uint32_t;
     "PortSettings" :- uint32_t].
Definition config_page_fc_port_6 : ctype :=
  struct ["Header" :- config_page_header;
     "Reserved" :- uint32_t;
     "TimeSinceReset" :- uint64_t;
     "TxFrames" :- uint64_t;
     "RxFrames" :- uint64_t;
     "TxWords" :- uint64_t;
     "RxWords" :- uint64_t;
     "LipCount" :- uint64_t;
     "NosCount" :- uint64_t;
     "ErrorFrames" :- uint64_t;
     "DumpedFrames" :- uint64_t;
     "LinkFailureCount" :- uint64_t;
     "LossOfSyncCount" :- uint64_t;
     "LossOfSignalCount" :- uint64_t;
     "PrimativeSeqErrCount" :- uint64_t;
     "InvalidTxWordCount" :- uint64_t;
     "InvalidCrcCount" :- uint64_t;
     "FcpInitiatorIoCount" :- uint64_t].
Definition config_page_fc_port_7 : ctype :=
  struct ["Header" :- config_page_header;
     "Reserved" :- uint32_t;
     "PortSymbolicName" :- array 256 uint8_t].
Definition config_page_fc_port_8 : ctype :=
  struct ["Header" :- config_page_header;
     "BitVector" :- array 8 uint32_t].
Definition raid_vol0_phys_disk : ctype :=
  struct ["Reserved" :- uint16_t;
     "PhysDiskMap" :- uint8_t;
     "PhysDiskNum" :- uint8_t].
Definition raid_vol0_status : ctype :=
  struct ["Flags" :- uint8_t;
     "State" :- uint8_t;
     "Reserved" :- uint16_t].
Definition raid_vol0_settings : ctype :=
  struct ["Settings" :- uint16_t;
     "HotSparePool" :- uint8_t;
     "Reserved" :- uint8_t].
Definition MPI_RAID_VOL_PAGE_0_PHYSDISK_MAX : Z := 1.
Definition config_page_raid_vol_0 : ctype :=
  struct ["Header" :- config_page_header;
     "VolumeID" :- uint8_t;
     "VolumeBus" :- uint8_t;
     "VolumeIOC" :- uint8_t;
     "VolumeType" :- uint8_t;
     "VolumeStatus" :- raid_vol0_status;
     "VolumeSettings" :- raid_vol0_settings;
     "MaxLBA" :- uint32_t;
     "Reserved1" :- uint32_t;
     "StripeSize" :- uint32_t;
     "Reserved2" :- uint32_t;
     "Reserved3" :- uint32_t;
     "NumPhysDisks" :- uint8_t;
     "Reserved4" :- uint8_t;
     "Reserved5" :- uint16_t;
     "PhysDisk" :- array MPI_RAID_VOL_PAGE_0_PHYSDISK_MAX raid_vol0_phys_disk].
Definition raid_phys_disk0_error_data : ctype :=
  struct ["ErrorCdbByte" :- uint8_t;
     "ErrorSenseKey" :- uint8_t;
     "Reserved" :- uint16_t;
     "ErrorCount" :- uint16_t;
     "ErrorASC" :- uint8_t;
     "ErrorASCQ" :- uint8_t;
     "SmartCount" :- uint16_t;
     "SmartASC" :- uint8_t;
     "SmartASCQ" :- uint8_t].
Definition raid_phys_disk_inquiry_data : ctype :=
  struct ["VendorID" :- array 8 uint8_t;
     "ProductID" :- array 16 uint8_t;
     "ProductRevLevel" :- array 4 uint8_t;
     "Info" :- array 32 uint8_t].
Definition raid_phys_disk0_settings : ctype :=
  struct ["SepID" :- uint8_t;
     "SepBus" :- uint8_t;
     "HotSparePool" :- uint8_t;
     "PhysDiskSettings" :- uint8_t].
Definition raid_phys_disk0_status : ctype :=
  struct ["Flags" :- uint8_t;
     "State" :- uint8_t;
     "Reserved" :- uint16_t].
Definition config_page_raid_phys_disk_0 : ctype :=
  struct ["Header" :- config_page_header;
     "PhysDiskID" :- uint8_t;
     "PhysDiskBus" :- uint8_t;
     "PhysDiskIOC" :- uint8_t;
     "PhysDiskNum" :- uint8_t;
     "PhysDiskSettings" :- raid_phys_disk0_settings;
     "Reserved1" :- uint32_t;
     "Reserved2" :- uint32_t;
     "Reserved3" :- uint32_t;
     "DiskIdentifier" :- array 16 uint8_t;
     "InquiryData" :- raid_phys_disk_inquiry_data;
     "PhysDiskStatus" :- raid_phys_disk0_status;
     "MaxLBA" :- uint32_t;
     "ErrorData" :- raid_phys_disk0_error_data].
Definition config_page_lan_0 : ctype :=
  struct ["Header" :- config_page_header;
     "TxRxModes" :- uint16_t;
     "Reserved" :- uint16_t;
     "PacketPrePad" :- uint32_t].
Definition config_page_lan_1 : ctype :=
  struct ["Header" :- config_page_header;
     "Reserved" :- uint16_t;
     "CurrentDeviceState" :- uint8_t;
     "Reserved1" :- uint8_t;
     "MinPacketSize" :- uint32_t;
     "MaxPacketSize" :- uint32_t;
     "HardwareAddressLow" :- uint32_t;
     "HardwareAddressHigh" :- uint32_t;
     "MaxWireSpeedLow" :- uint32_t;
     "MaxWireSpeedHigh" :- uint32_t;
     "BucketsRemaining" :- uint32_t;
     "MaxReplySize" :- uint32_t;
     "NegWireSpeedLow" :- uint32_t;
     "NegWireSpeedHigh" :- uint32_t].
Definition config_page_inband_0 : ctype :=
  struct ["Header" :- config_page_header;
     "InbandVersion" :- mpi_version_format;
     "MaximumBuffers" :- uint16_t;
     "Reserved1" :- uint16_t].
Definition mpi_sas_io_unit0_phy_data : ctype :=
  struct ["Port" :- uint8_t;
     "PortFlags" :- uint8_t;
     "PhyFlags" :- uint8_t;
     "NegotiatedLinkRate" :- uint8_t;
     "ControllerPhyDeviceInfo" :- uint32_t;
     "AttachedDeviceHandle" :- uint16_t;
     "ControllerDevHandle" :- uint16_t;
     "Reserved2" :- uint32_t].
Definition MPI_SAS_IOUNIT0_PHY_MAX : Z := 1.
Definition config_page_sas_io_unit_0 : ctype :=
  struct ["Header" :- config_extended_page_header;
     "Reserved1" :- uint32_t;
     "NumPhys" :- uint8_t;
     "Reserved2" :- uint8_t;
     "Reserved3" :- uint16_t;
     "PhyData" :- array MPI_SAS_IOUNIT0_PHY_MAX mpi_sas_io_unit0_phy_data].
Definition mpi_sas_io_unit1_phy_data : ctype :=
  struct ["Port" :- uint8_t;
     "PortFlags" :- uint8_t;
     "PhyFlags" :- uint8_t;
     "MaxMinLinkRate" :- uint8_t;
     "ControllerPhyDeviceInfo" :- uint32_t;
     "Reserved1" :- uint32_t].
Definition MPI_SAS_IOUNIT1_PHY_MAX : Z := 1.
Definition config_page_sas_io_unit_1 : ctype :=
  struct ["Header" :- config_extended_page_header;
     "Reserved1" :- uint32_t;
     "NumPhys" :- uint8_t;
     "Reserved2" :- uint8_t;
     "Reserved3" :- uint16_t;
     "PhyData" :- array MPI_SAS_IOUNIT1_PHY_MAX mpi_sas_io_unit1_phy_data].
Definition config_page_sas_io_unit_2 : ctype :=
  struct ["Header" :- config_extended_page_header;
     "Reserved1" :- uint32_t;
     "MaxPersistentIDs" :- uint16_t;
     "NumPersistentIDsUsed" :- uint16_t;
     "Status" :- uint8_t;
     "Flags" :- uint8_t;
     "Reserved2" :- uint16_t].
Definition config_page_sas_io_unit_3 : ctype :=
  struct ["Header" :- config_extended_page_header;
     "Reserved1" :- uint32_t;
     "MaxInvalidDwordCount" :- uint32_t;
     "InvalidDwordCountTime" :- uint32_t;
     "MaxRunningDisparityErrorCount" :- uint32_t;
     "RunningDisparityErrorTime" :- uint32_t;
     "MaxLossDwordSynchCount" :- uint32_t;
     "LossDwordSynchCountTime" :- uint32_t;
     "MaxPhyResetProblemCount" :- uint32_t;
     "PhyResetProblemTime" :- uint32_t].
Definition config_page_sas_expander_1 : ctype :=
  struct ["Header" :- config_extended_page_header;
     "Reserved1" :- uint32_t;
     "NumPhys" :- uint8_t;
     "Phy" :- uint8_t;
     "Reserved2" :- uint16_t;
     "ProgrammedLinkRate" :- uint8_t;
     "HwLinkRate" :- uint8_t;
     "AttachedDevHandle" :- uint16_t;
     "PhyInfo" :- uint32_t;
     "AttachedDeviceInfo" :- uint32_t;
     "OwnerDevHandle" :- uint16_t;
     "ChangeCount" :- uint8_t;
     "Reserved3" :- uint8_t;
     "PhyIdentifier" :- uint8_t;
     "AttachedPhyIdentifier" :- uint8_t;
     "NumTableEntriesProg" :- uint8_t;
     "DiscoveryInfo" :- uint8_t;
     "Reserved4" :- uint32_t].
Definition config_page_sas_phy_1 : ctype :=
  struct ["Header" :- config_extended_page_header;
     "Reserved1" :- uint32_t;
     "InvalidDwordCount" :- uint32_t;
     "RunningDisparityErrorCount" :- uint32_t;
     "LossDwordSynchCount" :- uint32_t;
     "PhyResetProblemCount" :- uint32_t].

(** [sys/mpt/mpi_init.h] *)
Definition msg_scsi_io_request : ctype :=
  struct ["TargetID" :- uint8_t;
     "Bus" :- uint8_t;
     "ChainOffset" :- uint8_t;
     "Function" :- uint8_t;
     "CDBLength" :- uint8_t;
     "SenseBufferLength" :- uint8_t;
     "Reserved" :- uint8_t;
     "MsgFlags" :- uint8_t;
     "MsgContext" :- uint32_t;
     "LUN" :- array 8 uint8_t;
     "Control" :- uint32_t;
     "CDB" :- array 16 uint8_t;
     "DataLength" :- uint32_t;
     "SenseBufferLowAddr" :- uint32_t;
     "SGL" :- sge_io_union].
Definition msg_scsi_io_reply : ctype :=
  struct ["TargetID" :- uint8_t;
     "Bus" :- uint8_t;
     "MsgLength" :- uint8_t;
     "Function" :- uint8_t;
     "CDBLength" :- uint8_t;
     "SenseBufferLength" :- uint8_t;
     "Reserved" :- uint8_t;
     "MsgFlags" :- uint8_t;
     "MsgContext" :- uint32_t;
     "SCSIStatus" :- uint8_t;
     "SCSIState" :- uint8_t;
     "IOCStatus" :- uint16_t;
     "IOCLogInfo" :- uint32_t;
     "TransferCount" :- uint32_t;
     "SenseCount" :- uint32_t;
     "ResponseInfo" :- uint32_t;
     "TaskTag" :- uint16_t;
     "Reserved1" :- uint16_t].
Definition msg_scsi_task_mgmt : ctype :=
  struct ["TargetID" :- uint8_t;
     "Bus" :- uint8_t;
     "ChainOffset" :- uint8_t;
     "Function" :- uint8_t;
     "Reserved" :- uint8_t;
     "TaskType" :- uint8_t;
     "Reserved1" :- uint8_t;
     "MsgFlags" :- uint8_t;
     "MsgContext" :- uint32_t;
     "LUN" :- array 8 uint8_t;
     "Reserved2" :- array 7 uint32_t;
     "TaskMsgContext" :- uint32_t].
Definition msg_scsi_task_mgmt_reply : ctype :=
  struct ["TargetID" :- uint8_t;
     "Bus" :- uint8_t;
     "MsgLength" :- uint8_t;
     "Function" :- uint8_t;
     "Reserved" :- uint8_t;
     "TaskType" :- uint8_t;
     "Reserved1" :- uint8_t;
     "MsgFlags" :- uint8_t;
     "MsgContext" :- uint32_t;
     "Reserved2" :- array 2 uint8_t;
     "IOCStatus" :- uint16_t;
     "IOCLogInfo" :- uint32_t;
     "TerminationCount" :- uint32_t].
Definition msg_sep_request : ctype :=
  struct ["TargetID" :- uint8_t;
     "Bus" :- uint8_t;
     "ChainOffset" :- uint8_t;
     "Function" :- uint8_t;
     "Action" :- uint8_t;
     "Reserved1" :- uint8_t;
     "Reserved2" :- uint8_t;
     "MsgFlags" :- uint8_t;
     "MsgContext" :- uint32_t;
     "SlotStatus" :- uint32_t].

(** [sys/mpt/mpi_ioc.h] *)
Definition msg_ioc_init : ctype :=
  struct ["WhoInit" :- uint8_t;
     "Reserved" :- uint8_t;
     "ChainOffset" :- uint8_t;
     "Function" :- uint8_t;
     "Flags" :- uint8_t;
     "MaxDevices" :- uint8_t;
     "MaxBuses" :- uint8_t;
     "MsgFlags" :- uint8_t;
     "MsgContext" :- uint32_t;
     "ReplyFrameSize" :- uint16_t;
     "Reserved1" :- array 2 uint8_t;
     "HostMfaHighAddr" :- uint32_t;
     "SenseBufferHighAddr" :- uint32_t;
     "ReplyFifoHostSignalingAddr" :- uint32_t;
     "HostPageBufferSGE" :- sge_simple_union;
     "MsgVersion" :- uint16_t;
     "HeaderVersion" :- uint16_t].
Definition msg_ioc_init_reply : ctype :=
  struct ["WhoInit" :- uint8_t;
     "Reserved" :- uint8_t;
     "MsgLength" :- uint8_t;
     "Function" :- uint8_t;
     "Flags" :- uint8_t;
     "MaxDevices" :- uint8_t;
     "MaxBuses" :- uint8_t;
     "MsgFlags" :- uint8_t;
     "MsgContext" :- uint32_t;
     "Reserved2" :- uint16_t;
     "IOCStatus" :- uint16_t;
     "IOCLogInfo" :- uint32_t].
Definition msg_ioc_facts : ctype :=
  struct ["Reserved" :- array 2 uint8_t;
     "ChainOffset" :- uint8_t;
     "Function" :- uint8_t;
     "Reserved1" :- array 3 uint8_t;
     "MsgFlags" :- uint8_t;
     "MsgContext" :- uint32_t].
Definition mpi_fw_version_struct : ctype :=
  struct ["Dev" :- uint8_t;
     "Unit" :- uint8_t;
     "Minor" :- uint8_t;
     "Major" :- uint8_t].
Definition mpi_fw_version : ctype :=
  union ["Struct" :- mpi_fw_version_struct;
     "Word" :- uint32_t].
Definition msg_ioc_facts_reply : ctype :=
  struct ["MsgVersion" :- uint16_t;
     "MsgLength" :- uint8_t;
     "Function" :- uint8_t;
     "HeaderVersion" :- uint16_t;
     "IOCNumber" :- uint8_t;
     "MsgFlags" :- uint8_t;
     "MsgContext" :- uint32_t;
     "IOCExceptions" :- uint16_t;
     "IOCStatus" :- uint16_t;
     "IOCLogInfo" :- uint32_t;
     "MaxChainDepth" :- uint8_t;
     "WhoInit" :- uint8_t;
     "BlockSize" :- uint8_t;
     "Flags" :- uint8_t;
     "ReplyQueueDepth" :- uint16_t;
     "RequestFrameSize" :- uint16_t;
     "Reserved_0101_FWVersion" :- uint16_t;
     "ProductID" :- uint16_t;
     "CurrentHostMfaHighAddr" :- uint32_t;
     "GlobalCredits" :- uint16_t;
     "NumberOfPorts" :- uint8_t;
     "EventState" :- uint8_t;
     "CurrentSenseBufferHighAddr" :- uint32_t;
     "CurReplyFrameSize" :- uint16_t;
     "MaxDevices" :- uint8_t;
     "MaxBuses" :- uint8_t;
     "FWImageSize" :- uint32_t;
     "IOCCapabilities" :- uint32_t;
     "FWVersion" :- mpi_fw_version;
     "HighPriorityQueueDepth" :- uint16_t;
     "Reserved2" :- uint16_t;
     "HostPageBufferSGE" :- sge_simple_union].
Definition msg_port_facts : ctype :=
  struct ["Reserved" :- array 2 uint8_t;
     "ChainOffset" :- uint8_t;
     "Function" :- uint8_t;
     "Reserved1" :- array 2 uint8_t;
     "PortNumber" :- uint8_t;
     "MsgFlags" :- uint8_t;
     "MsgContext" :- uint32_t].
Definition msg_port_facts_reply : ctype :=
  struct ["Reserved" :- uint16_t;
     "MsgLength" :- uint8_t;
     "Function" :- uint8_t;
     "Reserved1" :- uint16_t;
     "PortNumber" :- uint8_t;
     "MsgFlags" :- uint8_t;
     "MsgContext" :- uint32_t;
     "Reserved2" :- uint16_t;
     "IOCStatus" :- uint16_t;
     "IOCLogInfo" :- uint32_t;
     "Reserved3" :- uint8_t;
     "PortType" :- uint8_t;
     "MaxDevices" :- uint16_t;
     "PortSCSIID" :- uint16_t;
     "ProtocolFlags" :- uint16_t;
     "MaxPostedCmdBuffers" :- uint16_t;
     "MaxPersistentIDs" :- uint16_t;
     "MaxLanBuckets" :- uint16_t;
     "Reserved4" :- uint16_t;
     "Reserved5" :- uint32_t].
Definition msg_port_enable : ctype :=
  struct ["Reserved" :- array 2 uint8_t;
     "ChainOffset" :- uint8_t;
     "Function" :- uint8_t;
     "Reserved1" :- array 2 uint8_t;
     "PortNumber" :- uint8_t;
     "MsgFlags" :- uint8_t;
     "MsgContext" :- uint32_t].
Definition msg_port_enable_reply : ctype :=
  struct ["Reserved" :- array 2 uint8_t;
     "MsgLength" :- uint8_t;
     "Function" :- uint8_t;
     "Reserved1" :- array 2 uint8_t;
     "PortNumber" :- uint8_t;
     "MsgFlags" :- uint8_t;
     "MsgContext" :- uint32_t;
     "Reserved2" :- uint16_t;
     "IOCStatus" :- uint16_t;
     "IOCLogInfo" :- uint32_t].
Definition msg_event_notify : ctype :=
  struct ["Switch" :- uint8_t;
     "Reserved" :- uint8_t;
     "ChainOffset" :- uint8_t;
     "Function" :- uint8_t;
     "Reserved1" :- array 3 uint8_t;
     "MsgFlags" :- uint8_t;
     "MsgContext" :- uint32_t].
Definition msg_event_notify_reply : ctype :=
  struct ["EventDataLength" :- uint16_t;
     "MsgLength" :- uint8_t;
     "Function" :- uint8_t;
     "Reserved1" :- array 2 uint8_t;
     "AckRequired" :- uint8_t;
     "MsgFlags" :- uint8_t;
     "MsgContext" :- uint32_t;
     "Reserved2" :- array 2 uint8_t;
     "IOCStatus" :- uint16_t;
     "IOCLogInfo" :- uint32_t;
     "Event" :- uint32_t;
     "EventContext" :- uint32_t;
     "Data" :- array 1 uint32_t].
Definition msg_event_ack : ctype :=
  struct ["Reserved" :- array 2 uint8_t;
     "ChainOffset" :- uint8_t;
     "Function" :- uint8_t;
     "Reserved1" :- array 3 uint8_t;
     "MsgFlags" :- uint8_t;
     "MsgContext" :- uint32_t;
     "Event" :- uint32_t;
     "EventContext" :- uint32_t].
Definition msg_event_ack_reply : ctype :=
  struct ["Reserved" :- array 2 uint8_t;
     "Function" :- uint8_t;
     "MsgLength" :- uint8_t;
     "Reserved1" :- array 3 uint8_t;
     "MsgFlags" :- uint8_t;
     "MsgContext" :- uint32_t;
     "Reserved2" :- uint16_t;
     "IOCStatus" :- uint16_t;
     "IOCLogInfo" :- uint32_t].
Definition event_data_event_change : ctype :=
  struct ["EventState" :- uint8_t;
     "Reserved" :- uint8_t;
     "Reserved1" :- uint16_t].
Definition event_data_scsi : ctype :=
  struct ["TargetID" :- uint8_t;
     "BusPort" :- uint8_t;
     "Reserved" :- uint16_t].
Definition event_data_scsi_device_status_change : ctype :=
  struct ["TargetID" :- uint8_t;
     "Bus" :- uint8_t;
     "ReasonCode" :- uint8_t;
     "LUN" :- uint8_t;
     "ASC" :- uint8_t;
     "ASCQ" :- uint8_t;
     "Reserved" :- uint16_t].
Definition event_data_sas_device_status_change : ctype :=
  struct ["TargetID" :- uint8_t;
     "Bus" :- uint8_t;
     "ReasonCode" :- uint8_t;
     "Reserved" :- uint8_t;
     "ASC" :- uint8_t;
     "ASCQ" :- uint8_t;
     "DevHandle" :- uint16_t;
     "DeviceInfo" :- uint32_t;
     "ParentDevHandle" :- uint16_t;
     "PhyNum" :- uint8_t;
     "Reserved1" :- uint8_t;
     "SASAddress" :- uint64_t].
Definition event_data_queue_full : ctype :=
  struct ["TargetID" :- uint8_t;
     "Bus" :- uint8_t;
     "CurrentDepth" :- uint16_t].
Definition event_data_link_status : ctype :=
  struct ["State" :- uint8_t;
     "Reserved" :- uint8_t;
     "Reserved1" :- uint16_t;
     "Reserved2" :- uint8_t;
     "Port" :- uint8_t;
     "Reserved3" :- uint16_t].
Definition event_data_loop_state : ctype :=
  struct ["Character4" :- uint8_t;
     "Character3" :- uint8_t;
     "Type" :- uint8_t;
     "Reserved" :- uint8_t;
     "Reserved1" :- uint8_t;
     "Port" :- uint8_t;
     "Reserved2" :- uint16_t].
Definition event_data_logout : ctype :=
  struct ["NPortID" :- uint32_t;
     "Reserved" :- uint8_t;
     "Port" :- uint8_t;
     "Reserved1" :- uint16_t].
Definition event_data_raid : ctype :=
  struct ["VolumeID" :- uint8_t;
     "VolumeBus" :- uint8_t;
     "ReasonCode" :- uint8_t;
     "PhysDiskNum" :- uint8_t;
     "ASC" :- uint8_t;
     "ASCQ" :- uint8_t;
     "Reserved" :- uint16_t;
     "SettingsStatus" :- uint32_t].
Definition msg_fw_download : ctype :=
  struct ["ImageType" :- uint8_t;
     "Reserved" :- uint8_t;
     "ChainOffset" :- uint8_t;
     "Function" :- uint8_t;
     "Reserved1" :- array 3 uint8_t;
     "MsgFlags" :- uint8_t;
     "MsgContext" :- uint32_t;
     "SGL" :- sge_mpi_union].
Definition fw_download_tcsge : ctype :=
  struct ["Reserved" :- uint8_t;
     "ContextSize" :- uint8_t;
     "DetailsLength" :- uint8_t;
     "Flags" :- uint8_t;
     "Reserved_0100_Checksum" :- uint32_t;
     "ImageOffset" :- uint32_t;
     "ImageSize" :- uint32_t].
Definition msg_fw_download_reply : ctype :=
  struct ["ImageType" :- uint8_t;
     "Reserved" :- uint8_t;
     "MsgLength" :- uint8_t;
     "Function" :- uint8_t;
     "Reserved1" :- array 3 uint8_t;
     "MsgFlags" :- uint8_t;
     "MsgContext" :- uint32_t;
     "Reserved2" :- uint16_t;
     "IOCStatus" :- uint16_t;
     "IOCLogInfo" :- uint32_t].
Definition msg_fw_upload : ctype :=
  struct ["ImageType" :- uint8_t;
     "Reserved" :- uint8_t;
     "ChainOffset" :- uint8_t;
     "Function" :- uint8_t;
     "Reserved1" :- array 3 uint8_t;
     "MsgFlags" :- uint8_t;
     "MsgContext" :- uint32_t;
     "SGL" :- sge_mpi_union].
Definition fw_upload_tcsge : ctype :=
  struct ["Reserved" :- uint8_t;
     "ContextSize" :- uint8_t;
     "DetailsLength" :- uint8_t;
     "Flags" :- uint8_t;
     "Reserved1" :- uint32_t;
     "ImageOffset" :- uint32_t;
     "ImageSize" :- uint32_t].
Definition msg_fw_upload_reply : ctype :=
  struct ["ImageType" :- uint8_t;
     "Reserved" :- uint8_t;
     "MsgLength" :- uint8_t;
     "Function" :- uint8_t;
     "Reserved1" :- array 3 uint8_t;
     "MsgFlags" :- uint8_t;
     "MsgContext" :- uint32_t;
     "Reserved2" :- uint16_t;
     "IOCStatus" :- uint16_t;
     "IOCLogInfo" :- uint32_t;
     "ActualImageSize" :- uint32_t].
Definition msg_fw_header : ctype :=
  struct ["ArmBranchInstruction0" :- uint32_t;
     "Signature0" :- uint32_t;
     "Signature1" :- uint32_t;
     "Signature2" :- uint32_t;
     "ArmBranchInstruction1" :- uint32_t;
     "ArmBranchInstruction2" :- uint32_t;
     "Reserved" :- uint32_t;
     "Checksum" :- uint32_t;
     "VendorId" :- uint16_t;
     "ProductId" :- uint16_t;
     "FWVersion" :- mpi_fw_version;
     "SeqCodeVersion" :- uint32_t;
     "ImageSize" :- uint32_t;
     "NextImageHeaderOffset" :- uint32_t;
     "LoadStartAddress" :- uint32_t;
     "IopResetVectorValue" :- uint32_t;
     "IopResetRegAddr" :- uint32_t;
     "VersionNameWhat" :- uint32_t;
     "VersionName" :- array 32 uint8_t;
     "VendorNameWhat" :- uint32_t;
     "VendorName" :- array 32 uint8_t].
Definition mpi_ext_image_header : ctype :=
  struct ["ImageType" :- uint8_t;
     "Reserved" :- uint8_t;
     "Reserved1" :- uint16_t;
     "Checksum" :- uint32_t;
     "ImageSize" :- uint32_t;
     "NextImageHeaderOffset" :- uint32_t;
     "LoadStartAddress" :- uint32_t;
     "Reserved2" :- uint32_t].

(** [sys/mpt/mpi_raid.h] *)
Definition msg_raid_action : ctype :=
  struct ["Action" :- uint8_t;
     "Reserved1" :- uint8_t;
     "ChainOffset" :- uint8_t;
     "Function" :- uint8_t;
     "VolumeID" :- uint8_t;
     "VolumeBus" :- uint8_t;
     "PhysDiskNum" :- uint8_t;
     "MsgFlags" :- uint8_t;
     "MsgContext" :- uint32_t;
     "Reserved2" :- uint32_t;
     "ActionDataWord" :- uint32_t;
     "ActionDataSGE" :- sge_simple_union].
Definition msg_raid_action_reply : ctype :=
  struct ["Action" :- uint8_t;
     "Reserved" :- uint8_t;
     "MsgLength" :- uint8_t;
     "Function" :- uint8_t;
     "VolumeID" :- uint8_t;
     "VolumeBus" :- uint8_t;
     "PhysDiskNum" :- uint8_t;
     "MsgFlags" :- uint8_t;
     "MsgContext" :- uint32_t;
     "ActionStatus" :- uint16_t;
     "IOCStatus" :- uint16_t;
     "IOCLogInfo" :- uint32_t;
     "VolumeStatus" :- uint32_t;
     "ActionData" :- uint32_t].
Definition mpi_raid_vol_indicator : ctype :=
  struct ["TotalBlocks" :- uint64_t;
     "BlocksRemaining" :- uint64_t].
Definition msg_scsi_io_raid_pt_request : ctype :=
  struct ["PhysDiskNum" :- uint8_t;
     "Reserved1" :- uint8_t;
     "ChainOffset" :- uint8_t;
     "Function" :- uint8_t;
     "CDBLength" :- uint8_t;
     "SenseBufferLength" :- uint8_t;
     "Reserved2" :- uint8_t;
     "MsgFlags" :- uint8_t;
     "MsgContext" :- uint32_t;
     "LUN" :- array 8 uint8_t;
     "Control" :- uint32_t;
     "CDB" :- array 16 uint8_t;
     "DataLength" :- uint32_t;
     "SenseBufferLowAddr" :- uint32_t;
     "SGL" :- sge_io_union].
Definition msg_scsi_io_raid_pt_reply : ctype :=
  struct ["PhysDiskNum" :- uint8_t;
     "Reserved1" :- uint8_t;
     "MsgLength" :- uint8_t;
     "Function" :- uint8_t;
     "CDBLength" :- uint8_t;
     "SenseBufferLength" :- uint8_t;
     "Reserved2" :- uint8_t;
     "MsgFlags" :- uint8_t;
     "MsgContext" :- uint32_t;
     "SCSIStatus" :- uint8_t;
     "SCSIState" :- uint8_t;
     "IOCStatus" :- uint16_t;
     "IOCLogInfo" :- uint32_t;
     "TransferCount" :- uint32_t;
     "SenseCount" :- uint32_t;
     "ResponseInfo" :- uint32_t].

(** [sys/sbp2/common.h] *)
Definition sbp2_addr_t : ctype := (array 2 uint32_t).
Definition sbp2_orbp_t : ctype := (array 2 uint32_t).

(** [sys/sbp2/defs.h] *)
Definition sbp2_dummy_orb : ctype :=
  struct ["do_next_orb" :- sbp2_orbp_t;
     "do_ignored1" :- array 2 uint32_t;
     "do_params" :- uint16_t;
     "do_ignored2" :- uint16_t].
Definition sbp2_cmd_orb : ctype :=
  struct ["co_next_orb" :- sbp2_orbp_t;
     "co_data_descr" :- array 2 uint32_t;
     "co_params" :- uint16_t;
     "co_data_size" :- uint16_t].
Definition sbp2_mgt_orb : ctype :=
  struct ["mo_fdep1" :- array 4 uint32_t;
     "mo_params" :- uint16_t;
     "mo_fdep2" :- uint16_t;
     "mo_fdep3" :- uint32_t;
     "mo_status_fifo" :- sbp2_addr_t].
Definition sbp2_login_orb : ctype :=
  struct ["lo_passwd" :- sbp2_addr_t;
     "lo_resp" :- sbp2_addr_t;
     "lo_params" :- uint16_t;
     "lo_lun" :- uint16_t;
     "lo_passwd_len" :- uint16_t;
     "lo_resp_len" :- uint16_t;
     "lo_status_fifo" :- sbp2_addr_t].
Definition sbp2_login_resp : ctype :=
  struct ["lr_len" :- uint16_t;
     "lr_login_id" :- uint16_t;
     "lr_cmd_agent" :- sbp2_addr_t;
     "lr_reserved" :- uint16_t;
     "lr_reconnect_hold" :- uint16_t].
Definition sbp2_qlogins_orb : ctype :=
  struct ["qo_reserved1" :- array 2 uint32_t;
     "qo_resp" :- sbp2_addr_t;
     "qo_params" :- uint16_t;
     "qo_lun" :- uint16_t;
     "qo_reserved2" :- uint16_t;
     "qo_len" :- uint16_t;
     "qo_status_fifo" :- sbp2_addr_t].
Definition sbp2_reconnect_orb : ctype :=
  struct ["ro_reserved1" :- array 4 uint32_t;
     "ro_params" :- uint16_t;
     "ro_login_id" :- uint16_t;
     "ro_reserved2" :- uint32_t;
     "ro_status_fifo" :- sbp2_addr_t].
Definition sbp2_logout_orb : ctype :=
  struct ["lo_reserved1" :- array 4 uint32_t;
     "lo_params" :- uint16_t;
     "lo_login_id" :- uint16_t;
     "lo_reserved2" :- uint32_t;
     "lo_status_fifo" :- sbp2_addr_t].
Definition sbp2_task_mgt_orb : ctype :=
  struct ["to_orb" :- sbp2_orbp_t;
     "to_reserved1" :- array 2 uint32_t;
     "to_params" :- uint16_t;
     "to_login_id" :- uint16_t;
     "to_reserved" :- uint32_t;
     "to_status_fifo" :- sbp2_addr_t].
Definition sbp2_status : ctype :=
  struct ["st_param" :- uint8_t;
     "st_sbp_status" :- uint8_t;
     "st_orb_offset_hi" :- uint16_t;
     "st_orb_offset_lo" :- uint32_t;
     "st_data" :- array 6 uint32_t].
Definition sbp2_pt_unrestricted : ctype :=
  struct ["pt_seg_len" :- uint16_t;
     "pt_seg_base_hi" :- uint16_t;
     "pt_seg_base_lo" :- uint32_t].

(** The formats of this file. *)
Definition formats_device : list ctype :=
  [mpi_version_struct;
   mpi_version_format;
   sge_simple32;
   sge_simple64;
   sge_simple_union;
   sge_chain32;
   sge_chain64;
   sge_chain_union;
   sge_transaction32;
   sge_transaction64;
   sge_transaction96;
   sge_transaction128;
   sge_transaction_union;
   sge_io_union;
   sge_trans_simple_union;
   sge_mpi_union;
   msg_request_header;
   msg_default_reply;
   config_page_header;
   config_page_header_union;
   config_extended_page_header;
   msg_config;
   msg_config_reply;
   config_page_manufacturing_0;
   config_page_manufacturing_1;
   mpi_chip_revision_id;
   config_page_manufacturing_2;
   config_page_manufacturing_3;
   config_page_manufacturing_4;
   config_page_manufacturing_6;
   config_page_io_unit_1;
   mpi_adapter_info;
   config_page_io_unit_2;
   config_page_io_unit_3;
   config_page_ioc_0;
   config_page_ioc_1;
   config_page_ioc_2_raid_vol;
   config_page_ioc_2;
   ioc_3_phys_disk;
   config_page_ioc_3;
   ioc_4_sep;
   config_page_ioc_4;
   config_page_scsi_port_0;
   config_page_scsi_port_1;
   mpi_device_info;
   config_page_scsi_port_2;
   config_page_scsi_device_0;
   config_page_scsi_device_1;
   config_page_scsi_device_2;
   config_page_fc_port_0;
   config_page_fc_port_2;
   wwn_format;
   fc_port_persistent_physical_id;
   config_page_fc_port_4;
   config_page_fc_port_6;
   config_page_fc_port_7;
   config_page_fc_port_8;
   raid_vol0_phys_disk;
   raid_vol0_status;
   raid_vol0_settings;
   config_page_raid_vol_0;
   raid_phys_disk0_error_data;
   raid_phys_disk_inquiry_data;
   raid_phys_disk0_settings;
   raid_phys_disk0_status;
   config_page_raid_phys_disk_0;
   config_page_lan_0;
   config_page_lan_1;
   config_page_inband_0;
   mpi_sas_io_unit0_phy_data;
   config_page_sas_io_unit_0;
   mpi_sas_io_unit1_phy_data;
   config_page_sas_io_unit_1;
   config_page_sas_io_unit_2;
   config_page_sas_io_unit_3;
   config_page_sas_expander_1;
   config_page_sas_phy_1;
   msg_ioc_init;
   msg_ioc_init_reply;
   msg_ioc_facts;
   mpi_fw_version_struct;
   mpi_fw_version;
   msg_ioc_facts_reply;
   msg_port_facts;
   msg_port_facts_reply;
   msg_port_enable;
   msg_port_enable_reply;
   msg_event_notify;
   msg_event_notify_reply;
   msg_event_ack;
   msg_event_ack_reply;
   event_data_event_change;
   event_data_scsi;
   event_data_scsi_device_status_change;
   event_data_sas_device_status_change;
   event_data_queue_full;
   event_data_link_status;
   event_data_loop_state;
   event_data_logout;
   event_data_raid;
   msg_fw_download;
   fw_download_tcsge;
   msg_fw_download_reply;
   msg_fw_upload;
   fw_upload_tcsge;
   msg_fw_upload_reply;
   msg_fw_header;
   mpi_ext_image_header;
   msg_scsi_io_request;
   msg_scsi_io_reply;
   msg_scsi_task_mgmt;
   msg_scsi_task_mgmt_reply;
   msg_sep_request;
   msg_raid_action;
   msg_raid_action_reply;
   mpi_raid_vol_indicator;
   msg_scsi_io_raid_pt_request;
   msg_scsi_io_raid_pt_reply;
   i2o_trl_control_word;
   i2o_serial_info;
   i2o_pci_bus_info;
   i2o_local_bus_info;
   i2o_isa_bus_info;
   i2o_eisa_bus_info;
   i2o_other_bus_info;
   i2o_sge_sgl_attributes_element;
   i2o_sge_short_transaction_element;
   i2o_param_operations_list_header;
   i2o_param_results_list_header;
   i2o_param_read_operation_result;
   i2o_table_read_operation_result;
   i2o_param_error_info_template;
   i2o_param_operation_specific_template;
   i2o_param_operation_all_template;
   i2o_param_operation_all_list_template;
   i2o_param_modify_operation_result;
   i2o_param_operation_row_delete_template;
   i2o_param_operation_table_clear_template;
   i2o_util_group_descriptor_table;
   i2o_util_physical_device_table;
   i2o_util_claimed_table;
   i2o_util_user_table;
   i2o_util_private_message_extensions_table;
   i2o_util_authorized_user_table;
   i2o_util_device_identity_scalar;
   i2o_util_ddm_identity_scalar;
   i2o_util_user_information_scalar;
   i2o_util_sgl_operating_limits_scalar;
   i2o_util_sensors_table;
   i2o_exec_iop_reset_status;
   i2o_exec_outbound_init_status;
   i2o_exec_outbound_init_reclaim_list;
   i2o_sw_id;
   i2o_set_systab_header;
   i2o_messenger_info;
   i2o_exec_iop_hardware_scalar;
   i2o_exec_iop_message_if_scalar;
   i2o_exec_execute_environment_scalar;
   i2o_exec_execute_ddm_table;
   i2o_exec_driver_store_scalar;
   i2o_exec_driver_store_table;
   i2o_exec_iop_bus_attribute_table;
   i2o_exec_iop_sw_attributes_scalar;
   i2o_exec_hardware_resource_table;
   i2o_exec_lct_scalar;
   i2o_exec_lct_table;
   i2o_exec_system_table;
   i2o_exec_external_connection_table;
   i2o_bsa_device_info_scalar;
   i2o_bsa_operational_control_scalar;
   i2o_bsa_power_control_scalar;
   i2o_bsa_cache_control_scalar;
   i2o_bsa_hist_stats_scalar;
   i2o_bsa_cache_hist_stats_scalar;
   i2o_bsa_volume_info_scalar;
   i2o_bsa_agg_prot_space_ext_scalar;
   i2o_bsa_phys_ext_scalar;
   i2o_bsa_agg_phys_ext_scalar;
   i2o_bsa_redundancy_scalar;
   i2o_bsa_component_spares_table;
   i2o_bsa_association_table;
   i2o_scsi_device_info_scalar;
   i2o_scsi_bus_port_info_scalar;
   i2o_hba_controller_info_scalar;
   i2o_hba_hist_stats_scalar;
   i2o_hba_scsi_bus_port_info_scalar;
   i2o_hba_fca_controller_info_scalar;
   i2o_hba_fca_port_info_scalar;
   FC2_RJT_PARAM;
   Xfer_Rdy;
   LA_RLS_reply;
   LOGI_PAYLOAD;
   ELS_payload;
   fc_dataseg;
   la_ba_rjt;
   common_service;
   service_param;
   la_els_rls;
   la_els_rls_reply;
   la_els_rrq;
   la_els_prli;
   la_els_adisc;
   la_els_identify;
   la_els_rjt;
   fcp_ent_addr;
   fcp_rsp_info;
   sbp2_dummy_orb;
   sbp2_cmd_orb;
   sbp2_mgt_orb;
   sbp2_login_orb;
   sbp2_login_resp;
   sbp2_qlogins_orb;
   sbp2_reconnect_orb;
   sbp2_logout_orb;
   sbp2_task_mgt_orb;
   sbp2_status;
   sbp2_pt_unrestricted].

Lemma formats_device_fixed : formats_check formats_device = true.
Proof. vm_compute. reflexivity. Qed.
