(* ===== verification/AbiObject.v ===== *)
(** * Object files

    ELF, the DTrace object format, CTF and the signature records. *)
From Stdlib Require Import String.
From S2P Require Import Prelude ByteOrder CTypes AbiTypes.
#[local] Open Scope Z_scope.
#[local] Open Scope ctype_scope.


(** [sys/crypto/elfsign.h] *)
Definition filesig_vers_t : ctype := uint32_t.
Definition filesig_version1 : ctype :=
  struct ["filesig_v1_dnsize" :- uint32_t;
     "filesig_v1_sigsize" :- uint32_t;
     "filesig_v1_oidsize" :- uint32_t;
     "filesig_v1_data" :- array 1 char].
Definition filesig_version3 : ctype :=
  struct ["filesig_v3_time" :- uint64_t;
     "filesig_v3_dnsize" :- uint32_t;
     "filesig_v3_sigsize" :- uint32_t;
     "filesig_v3_oidsize" :- uint32_t;
     "filesig_v3_data" :- array 1 char].
Definition filesig : ctype :=
  struct ["filesig_size" :- uint32_t;
     "filesig_version" :- filesig_vers_t;
     "_u2" :- (union ["filesig_v1" :- filesig_version1; "filesig_v3" :- filesig_version3])].
Definition filesignatures : ctype :=
  struct ["filesig_cnt" :- uint32_t;
     "filesig_pad" :- uint32_t;
     "_u1" :- (union ["filesig_data" :- array 1 char;
       "filesig_sig" :- filesig;
       "filesig_align" :- uint64_t])].

(** [sys/ctf.h] *)
Definition ctf_preamble : ctype :=
  struct ["ctp_magic" :- ushort_t;
     "ctp_version" :- uchar_t;
     "ctp_flags" :- uchar_t].
Definition ctf_header : ctype :=
  struct ["cth_preamble" :- ctf_preamble;
     "cth_parlabel" :- uint_t;
     "cth_parname" :- uint_t;
     "cth_lbloff" :- uint_t;
     "cth_objtoff" :- uint_t;
     "cth_funcoff" :- uint_t;
     "cth_typeoff" :- uint_t;
     "cth_stroff" :- uint_t;
     "cth_strlen" :- uint_t].
Definition ctf_lblent : ctype :=
  struct ["ctl_label" :- uint_t;
     "ctl_typeidx" :- uint_t].
Definition ctf_stype : ctype :=
  struct ["ctt_name" :- uint_t;
     "ctt_info" :- ushort_t;
     "_u" :- (union ["_size" :- ushort_t; "_type" :- ushort_t])].
Definition ctf_type : ctype :=
  struct ["ctt_name" :- uint_t;
     "ctt_info" :- ushort_t;
     "_u" :- (union ["_size" :- ushort_t; "_type" :- ushort_t]);
     "ctt_lsizehi" :- uint_t;
     "ctt_lsizelo" :- uint_t].
Definition ctf_array : ctype :=
  struct ["cta_contents" :- ushort_t;
     "cta_index" :- ushort_t;
     "cta_nelems" :- uint_t].
Definition ctf_member : ctype :=
  struct ["ctm_name" :- uint_t;
     "ctm_type" :- ushort_t;
     "ctm_offset" :- ushort_t].
Definition ctf_lmember : ctype :=
  struct ["ctlm_name" :- uint_t;
     "ctlm_type" :- ushort_t;
     "ctlm_pad" :- ushort_t;
     "ctlm_offsethi" :- uint_t;
     "ctlm_offsetlo" :- uint_t].
Definition ctf_enum : ctype :=
  struct ["cte_name" :- uint_t;
     "cte_value" :- int].

(** [sys/dtrace.h] *)
Definition DTRACE_PROVNAMELEN : Z := 64.
Definition DTRACE_MODNAMELEN : Z := 64.
Definition DTRACE_FUNCNAMELEN : Z := 128.
Definition DTRACE_NAMELEN : Z := 64.
Definition DTRACE_ARGTYPELEN : Z := 128.
Definition dtrace_id_t : ctype := uint32_t.
Definition dtrace_epid_t : ctype := uint32_t.
Definition dtrace_actkind_t : ctype := uint16_t.
Definition dtrace_diftype : ctype :=
  struct ["dtdt_kind" :- uint8_t;
     "dtdt_ckind" :- uint8_t;
     "dtdt_flags" :- uint8_t;
     "dtdt_pad" :- uint8_t;
     "dtdt_size" :- uint32_t].
Definition dtrace_difv : ctype :=
  struct ["dtdv_name" :- uint32_t;
     "dtdv_id" :- uint32_t;
     "dtdv_kind" :- uint8_t;
     "dtdv_scope" :- uint8_t;
     "dtdv_flags" :- uint16_t;
     "dtdv_type" :- dtrace_diftype].
Definition DOF_ID_SIZE : Z := 16.
Definition dof_hdr : ctype :=
  struct ["dofh_ident" :- array DOF_ID_SIZE uint8_t;
     "dofh_flags" :- uint32_t;
     "dofh_hdrsize" :- uint32_t;
     "dofh_secsize" :- uint32_t;
     "dofh_secnum" :- uint32_t;
     "dofh_secoff" :- uint64_t;
     "dofh_loadsz" :- uint64_t;
     "dofh_filesz" :- uint64_t;
     "dofh_pad" :- uint64_t].
Definition dof_secidx_t : ctype := uint32_t.
Definition dof_stridx_t : ctype := uint32_t.
Definition dof_sec : ctype :=
  struct ["dofs_type" :- uint32_t;
     "dofs_align" :- uint32_t;
     "dofs_flags" :- uint32_t;
     "dofs_entsize" :- uint32_t;
     "dofs_offset" :- uint64_t;
     "dofs_size" :- uint64_t].
Definition dof_ecbdesc : ctype :=
  struct ["dofe_probes" :- dof_secidx_t;
     "dofe_pred" :- dof_secidx_t;
     "dofe_actions" :- dof_secidx_t;
     "dofe_pad" :- uint32_t;
     "dofe_uarg" :- uint64_t].
Definition dof_probedesc : ctype :=
  struct ["dofp_strtab" :- dof_secidx_t;
     "dofp_provider" :- dof_stridx_t;
     "dofp_mod" :- dof_stridx_t;
     "dofp_func" :- dof_stridx_t;
     "dofp_name" :- dof_stridx_t;
     "dofp_id" :- uint32_t].
Definition dof_actdesc : ctype :=
  struct ["dofa_difo" :- dof_secidx_t;
     "dofa_strtab" :- dof_secidx_t;
     "dofa_kind" :- uint32_t;
     "dofa_ntuple" :- uint32_t;
     "dofa_arg" :- uint64_t;
     "dofa_uarg" :- uint64_t].
Definition dof_difohdr : ctype :=
  struct ["dofd_rtype" :- dtrace_diftype;
     "dofd_links" :- array 1 dof_secidx_t].
Definition dof_relohdr : ctype :=
  struct ["dofr_strtab" :- dof_secidx_t;
     "dofr_relsec" :- dof_secidx_t;
     "dofr_tgtsec" :- dof_secidx_t].
Definition dof_relodesc : ctype :=
  struct ["dofr_name" :- dof_stridx_t;
     "dofr_type" :- uint32_t;
     "dofr_offset" :- uint64_t;
     "dofr_data" :- uint64_t].
Definition dof_optdesc : ctype :=
  struct ["dofo_option" :- uint32_t;
     "dofo_strtab" :- dof_secidx_t;
     "dofo_value" :- uint64_t].
Definition dof_attr_t : ctype := uint32_t.
Definition dof_provider : ctype :=
  struct ["dofpv_strtab" :- dof_secidx_t;
     "dofpv_probes" :- dof_secidx_t;
     "dofpv_prargs" :- dof_secidx_t;
     "dofpv_proffs" :- dof_secidx_t;
     "dofpv_name" :- dof_stridx_t;
     "dofpv_provattr" :- dof_attr_t;
     "dofpv_modattr" :- dof_attr_t;
     "dofpv_funcattr" :- dof_attr_t;
     "dofpv_nameattr" :- dof_attr_t;
     "dofpv_argsattr" :- dof_attr_t].
Definition dof_probe : ctype :=
  struct ["dofpr_addr" :- uint64_t;
     "dofpr_func" :- dof_stridx_t;
     "dofpr_name" :- dof_stridx_t;
     "dofpr_nargv" :- dof_stridx_t;
     "dofpr_xargv" :- dof_stridx_t;
     "dofpr_argidx" :- uint32_t;
     "dofpr_offidx" :- uint32_t;
     "dofpr_nargc" :- uint8_t;
     "dofpr_xargc" :- uint8_t;
     "dofpr_noffs" :- uint16_t;
     "dofpr_pad" :- uint32_t].
Definition dtrace_probedesc : ctype :=
  struct ["dtpd_id" :- dtrace_id_t;
     "dtpd_provider" :- array DTRACE_PROVNAMELEN char;
     "dtpd_mod" :- array DTRACE_MODNAMELEN char;
     "dtpd_func" :- array DTRACE_FUNCNAMELEN char;
     "dtpd_name" :- array DTRACE_NAMELEN char].
Definition dtrace_repldesc : ctype :=
  struct ["dtrpd_match" :- dtrace_probedesc;
     "dtrpd_create" :- dtrace_probedesc].
Definition dtrace_recdesc : ctype :=
  struct ["dtrd_action" :- dtrace_actkind_t;
     "dtrd_size" :- uint32_t;
     "dtrd_offset" :- uint32_t;
     "dtrd_alignment" :- uint16_t;
     "dtrd_format" :- uint16_t;
     "dtrd_arg" :- uint64_t;
     "dtrd_uarg" :- uint64_t].
Definition dtrace_eprobedesc : ctype :=
  struct ["dtepd_epid" :- dtrace_epid_t;
     "dtepd_probeid" :- dtrace_id_t;
     "dtepd_uarg" :- uint64_t;
     "dtepd_size" :- uint32_t;
     "dtepd_nrecs" :- int;
     "dtepd_rec" :- array 1 dtrace_recdesc].
Definition dtrace_status : ctype :=
  struct ["dtst_dyndrops" :- uint64_t;
     "dtst_dyndrops_rinsing" :- uint64_t;
     "dtst_dyndrops_dirty" :- uint64_t;
     "dtst_specdrops" :- uint64_t;
     "dtst_specdrops_busy" :- uint64_t;
     "dtst_specdrops_unavail" :- uint64_t;
     "dtst_errors" :- uint64_t;
     "dtst_filled" :- uint64_t;
     "dtst_killed" :- char;
     "dtst_exiting" :- char;
     "dtst_pad" :- array 6 char].
Definition dtrace_conf : ctype :=
  struct ["dtc_difversion" :- uint_t;
     "dtc_difintregs" :- uint_t;
     "dtc_diftupregs" :- uint_t;
     "dtc_ctfmodel" :- uint_t;
     "dtc_pad" :- array 8 uint_t].
Definition dtrace_argdesc : ctype :=
  struct ["dtargd_id" :- dtrace_id_t;
     "dtargd_ndx" :- int;
     "dtargd_mapping" :- int;
     "dtargd_native" :- array DTRACE_ARGTYPELEN char;
     "dtargd_xlate" :- array DTRACE_ARGTYPELEN char].
Definition dtrace_stability_t : ctype := uint8_t.
Definition dtrace_class_t : ctype := uint8_t.
Definition dtrace_ppriv : ctype :=
  struct ["dtpp_flags" :- uint32_t;
     "dtpp_uid" :- uid_t].
Definition dtrace_attribute : ctype :=
  struct ["dtat_name" :- dtrace_stability_t;
     "dtat_data" :- dtrace_stability_t;
     "dtat_class" :- dtrace_class_t].
Definition dtrace_pattr : ctype :=
  struct ["dtpa_provider" :- dtrace_attribute;
     "dtpa_mod" :- dtrace_attribute;
     "dtpa_func" :- dtrace_attribute;
     "dtpa_name" :- dtrace_attribute;
     "dtpa_args" :- dtrace_attribute].
Definition dtrace_providerdesc : ctype :=
  struct ["dtvd_name" :- array DTRACE_PROVNAMELEN char;
     "dtvd_attr" :- dtrace_pattr;
     "dtvd_priv" :- dtrace_ppriv].
Definition dof_helper : ctype :=
  struct ["dofhp_mod" :- array DTRACE_MODNAMELEN char;
     "dofhp_addr" :- uint64_t;
     "dofhp_dof" :- uint64_t].

(** [sys/elf.h] *)
Definition EI_NIDENT : Z := 16.

(** [sys/elftypes.h] *)
Definition Elf32_Half : ctype := ushort.
Definition Elf32_Off : ctype := by_model ulong uint.

(** [sys/elf.h] *)
Definition Elf32_Ehdr : ctype :=
  struct ["e_ident" :- array EI_NIDENT uchar;
     "e_type" :- Elf32_Half;
     "e_machine" :- Elf32_Half;
     "e_version" :- Elf32_Word;
     "e_entry" :- Elf32_Addr;
     "e_phoff" :- Elf32_Off;
     "e_shoff" :- Elf32_Off;
     "e_flags" :- Elf32_Word;
     "e_ehsize" :- Elf32_Half;
     "e_phentsize" :- Elf32_Half;
     "e_phnum" :- Elf32_Half;
     "e_shentsize" :- Elf32_Half;
     "e_shnum" :- Elf32_Half;
     "e_shstrndx" :- Elf32_Half].

(** [sys/elftypes.h] *)
Definition Elf64_Half : ctype := ushort.
Definition Elf64_Word : ctype := uint.
Definition Elf64_Addr : ctype := by_model ullong ulong.
Definition Elf64_Off : ctype := by_model ullong ulong.

(** [sys/elf.h] *)
Definition Elf64_Ehdr : ctype :=
  struct ["e_ident" :- array EI_NIDENT uchar;
     "e_type" :- Elf64_Half;
     "e_machine" :- Elf64_Half;
     "e_version" :- Elf64_Word;
     "e_entry" :- Elf64_Addr;
     "e_phoff" :- Elf64_Off;
     "e_shoff" :- Elf64_Off;
     "e_flags" :- Elf64_Word;
     "e_ehsize" :- Elf64_Half;
     "e_phentsize" :- Elf64_Half;
     "e_phnum" :- Elf64_Half;
     "e_shentsize" :- Elf64_Half;
     "e_shnum" :- Elf64_Half;
     "e_shstrndx" :- Elf64_Half].
Definition Elf32_Phdr : ctype :=
  struct ["p_type" :- Elf32_Word;
     "p_offset" :- Elf32_Off;
     "p_vaddr" :- Elf32_Addr;
     "p_paddr" :- Elf32_Addr;
     "p_filesz" :- Elf32_Word;
     "p_memsz" :- Elf32_Word;
     "p_flags" :- Elf32_Word;
     "p_align" :- Elf32_Word].

(** [sys/elftypes.h] *)
Definition Elf64_Xword : ctype := by_model ullong ulong.

(** [sys/elf.h] *)
Definition Elf64_Phdr : ctype :=
  struct ["p_type" :- Elf64_Word;
     "p_flags" :- Elf64_Word;
     "p_offset" :- Elf64_Off;
     "p_vaddr" :- Elf64_Addr;
     "p_paddr" :- Elf64_Addr;
     "p_filesz" :- Elf64_Xword;
     "p_memsz" :- Elf64_Xword;
     "p_align" :- Elf64_Xword].
Definition Elf32_Shdr : ctype :=
  struct ["sh_name" :- Elf32_Word;
     "sh_type" :- Elf32_Word;
     "sh_flags" :- Elf32_Word;
     "sh_addr" :- Elf32_Addr;
     "sh_offset" :- Elf32_Off;
     "sh_size" :- Elf32_Word;
     "sh_link" :- Elf32_Word;
     "sh_info" :- Elf32_Word;
     "sh_addralign" :- Elf32_Word;
     "sh_entsize" :- Elf32_Word].
Definition Elf64_Shdr : ctype :=
  struct ["sh_name" :- Elf64_Word;
     "sh_type" :- Elf64_Word;
     "sh_flags" :- Elf64_Xword;
     "sh_addr" :- Elf64_Addr;
     "sh_offset" :- Elf64_Off;
     "sh_size" :- Elf64_Xword;
     "sh_link" :- Elf64_Word;
     "sh_info" :- Elf64_Word;
     "sh_addralign" :- Elf64_Xword;
     "sh_entsize" :- Elf64_Xword].
Definition Elf32_Sym : ctype :=
  struct ["st_name" :- Elf32_Word;
     "st_value" :- Elf32_Addr;
     "st_size" :- Elf32_Word;
     "st_info" :- uchar;
     "st_other" :- uchar;
     "st_shndx" :- Elf32_Half].
Definition Elf64_Sym : ctype :=
  struct ["st_name" :- Elf64_Word;
     "st_info" :- uchar;
     "st_other" :- uchar;
     "st_shndx" :- Elf64_Half;
     "st_value" :- Elf64_Addr;
     "st_size" :- Elf64_Xword].
Definition Elf32_Rel : ctype :=
  struct ["r_offset" :- Elf32_Addr;
     "r_info" :- Elf32_Word].

(** [sys/elftypes.h] *)
Definition Elf32_Sword : ctype := by_model long int.

(** [sys/elf.h] *)
Definition Elf32_Rela : ctype :=
  struct ["r_offset" :- Elf32_Addr;
     "r_info" :- Elf32_Word;
     "r_addend" :- Elf32_Sword].
Definition Elf64_Rel : ctype :=
  struct ["r_offset" :- Elf64_Addr;
     "r_info" :- Elf64_Xword].

(** [sys/elftypes.h] *)
Definition Elf64_Sxword : ctype := by_model llong long.

(** [sys/elf.h] *)
Definition Elf64_Rela : ctype :=
  struct ["r_offset" :- Elf64_Addr;
     "r_info" :- Elf64_Xword;
     "r_addend" :- Elf64_Sxword].
Definition Elf32_Nhdr : ctype :=
  struct ["n_namesz" :- Elf32_Word;
     "n_descsz" :- Elf32_Word;
     "n_type" :- Elf32_Word].
Definition Elf64_Nhdr : ctype :=
  struct ["n_namesz" :- Elf64_Word;
     "n_descsz" :- Elf64_Word;
     "n_type" :- Elf64_Word].

(** [sys/elftypes.h] *)
Definition Elf32_Lword : ctype := by_model ullong ulong.

(** [sys/elf.h] *)
Definition Elf32_Move : ctype :=
  struct ["m_value" :- Elf32_Lword;
     "m_info" :- Elf32_Word;
     "m_poffset" :- Elf32_Word;
     "m_repeat" :- Elf32_Half;
     "m_stride" :- Elf32_Half].

(** [sys/elftypes.h] *)
Definition Elf64_Lword : ctype := by_model ullong ulong.

(** [sys/elf.h] *)
Definition Elf64_Move : ctype :=
  struct ["m_value" :- Elf64_Lword;
     "m_info" :- Elf64_Xword;
     "m_poffset" :- Elf64_Xword;
     "m_repeat" :- Elf64_Half;
     "m_stride" :- Elf64_Half].
Definition Elf32_Cap : ctype :=
  struct ["c_tag" :- Elf32_Word;
     "c_un" :- (union ["c_val" :- Elf32_Word; "c_ptr" :- Elf32_Addr])].
Definition Elf64_Cap : ctype :=
  struct ["c_tag" :- Elf64_Xword;
     "c_un" :- (union ["c_val" :- Elf64_Xword; "c_ptr" :- Elf64_Addr])].

(** [sys/link.h] *)
Definition Elf32_Dyn : ctype :=
  struct ["d_tag" :- Elf32_Sword;
     "d_un" :- (union ["d_val" :- Elf32_Word; "d_ptr" :- Elf32_Addr; "d_off" :- Elf32_Off])].
Definition Elf64_Dyn : ctype :=
  struct ["d_tag" :- Elf64_Xword;
     "d_un" :- (union ["d_val" :- Elf64_Xword; "d_ptr" :- Elf64_Addr])].
Definition Elf32_Verdef : ctype :=
  struct ["vd_version" :- Elf32_Half;
     "vd_flags" :- Elf32_Half;
     "vd_ndx" :- Elf32_Half;
     "vd_cnt" :- Elf32_Half;
     "vd_hash" :- Elf32_Word;
     "vd_aux" :- Elf32_Word;
     "vd_next" :- Elf32_Word].
Definition Elf32_Verdaux : ctype :=
  struct ["vda_name" :- Elf32_Word;
     "vda_next" :- Elf32_Word].
Definition Elf32_Verneed : ctype :=
  struct ["vn_version" :- Elf32_Half;
     "vn_cnt" :- Elf32_Half;
     "vn_file" :- Elf32_Word;
     "vn_aux" :- Elf32_Word;
     "vn_next" :- Elf32_Word].
Definition Elf32_Vernaux : ctype :=
  struct ["vna_hash" :- Elf32_Word;
     "vna_flags" :- Elf32_Half;
     "vna_other" :- Elf32_Half;
     "vna_name" :- Elf32_Word;
     "vna_next" :- Elf32_Word].
Definition Elf32_Syminfo : ctype :=
  struct ["si_boundto" :- Elf32_Half;
     "si_flags" :- Elf32_Half].
Definition Elf64_Verdef : ctype :=
  struct ["vd_version" :- Elf64_Half;
     "vd_flags" :- Elf64_Half;
     "vd_ndx" :- Elf64_Half;
     "vd_cnt" :- Elf64_Half;
     "vd_hash" :- Elf64_Word;
     "vd_aux" :- Elf64_Word;
     "vd_next" :- Elf64_Word].
Definition Elf64_Verdaux : ctype :=
  struct ["vda_name" :- Elf64_Word;
     "vda_next" :- Elf64_Word].
Definition Elf64_Verneed : ctype :=
  struct ["vn_version" :- Elf64_Half;
     "vn_cnt" :- Elf64_Half;
     "vn_file" :- Elf64_Word;
     "vn_aux" :- Elf64_Word;
     "vn_next" :- Elf64_Word].
Definition Elf64_Vernaux : ctype :=
  struct ["vna_hash" :- Elf64_Word;
     "vna_flags" :- Elf64_Half;
     "vna_other" :- Elf64_Half;
     "vna_name" :- Elf64_Word;
     "vna_next" :- Elf64_Word].
Definition Elf64_Syminfo : ctype :=
  struct ["si_boundto" :- Elf64_Half;
     "si_flags" :- Elf64_Half].
Definition Elf32_Boot : ctype :=
  struct ["eb_tag" :- Elf32_Sword;
     "eb_un" :- (union ["eb_val" :- Elf32_Word; "eb_ptr" :- Elf32_Addr; "eb_off" :- Elf32_Off])].
Definition Elf64_Boot : ctype :=
  struct ["eb_tag" :- Elf64_Xword;
     "eb_un" :- (union ["eb_val" :- Elf64_Xword;
       "eb_ptr" :- Elf64_Addr;
       "eb_off" :- Elf64_Off])].

(** The formats of this file. *)
Definition formats_object : list ctype :=
  [Elf32_Ehdr;
   Elf64_Ehdr;
   Elf32_Phdr;
   Elf64_Phdr;
   Elf32_Shdr;
   Elf64_Shdr;
   Elf32_Sym;
   Elf64_Sym;
   Elf32_Rel;
   Elf32_Rela;
   Elf64_Rel;
   Elf64_Rela;
   Elf32_Nhdr;
   Elf64_Nhdr;
   Elf32_Cap;
   Elf64_Cap;
   Elf32_Dyn;
   Elf64_Dyn;
   Elf32_Verdef;
   Elf32_Verdaux;
   Elf32_Verneed;
   Elf32_Vernaux;
   Elf32_Syminfo;
   Elf64_Verdef;
   Elf64_Verdaux;
   Elf64_Verneed;
   Elf64_Vernaux;
   Elf64_Syminfo;
   Elf32_Boot;
   Elf64_Boot;
   dtrace_diftype;
   dtrace_difv;
   dof_hdr;
   dof_sec;
   dof_ecbdesc;
   dof_probedesc;
   dof_actdesc;
   dof_difohdr;
   dof_relohdr;
   dof_relodesc;
   dof_optdesc;
   dof_provider;
   dof_probe;
   dtrace_probedesc;
   dtrace_repldesc;
   dtrace_recdesc;
   dtrace_eprobedesc;
   dtrace_status;
   dtrace_conf;
   dtrace_argdesc;
   dtrace_ppriv;
   dtrace_attribute;
   dtrace_pattr;
   dtrace_providerdesc;
   dof_helper;
   ctf_preamble;
   ctf_header;
   ctf_lblent;
   ctf_stype;
   ctf_type;
   ctf_array;
   ctf_member;
   ctf_lmember;
   ctf_enum;
   filesignatures].

Lemma formats_object_fixed : formats_check formats_object = true.
Proof. vm_compute. reflexivity. Qed.
