(* ===== verification/Abi.v ===== *)
(** * Layouts that two sides must agree on

    A 64-bit kernel reads the structures of a 32-bit program through
    declarations of its own, the [..32] structures, some of them packed; and
    messages, disk formats and object files must be laid out alike by every
    compiler.  The tables of the files [Abi*] are put together here and the
    contract is proved for all of them; the declarations that break it are
    named at the end. *)
From Stdlib Require Import String Sorting.Sorted.
From S2P Require Import Prelude ByteOrder CTypes AbiTypes.
From S2P Require Import Abi32Crypto Abi32Fs Abi32Dev Abi32Proc.
From S2P Require Import AbiNet AbiStream AbiDisk AbiDevice AbiObject.
#[local] Open Scope Z_scope.

(** Each structure a 32-bit program passes, after the kernel's declaration. *)
Definition views32 : list (ctype * ctype) :=
  views_crypto ++ views_fs ++ views_dev ++ views_proc.

(** What the two declarations of a structure have in common.  [SameView] is the
    contract; the others are what is left of it where the headers depart from it. *)
Inductive agreement :=
  | SameView    (* name, place, size and sign of every scalar *)
  | OtherNames  (* all but the names *)
  | OtherSigns  (* all but the signs *)
  | SamePlaces  (* places and sizes *)
  | Covered     (* the kernel's scalars are at places of the program's *)
  | Broken.     (* the kernel's is larger where a 64-bit number has alignment 4 *)

(** Every structure with a declaration for 32-bit programs that the files [Abi32*]
    hold, and the [Elf32_Move] of object files. *)
Definition modelled32 : list (agreement * (ctype * ctype)) :=
  map (pair SameView) views32 ++
  [(OtherNames, (_agp_info32, _agp_info)); (OtherNames, (ippctl_ioctl32, ippctl_ioctl));
   (OtherSigns, (exportdata32, exportdata)); (OtherSigns, (omsghdr32, omsghdr));
   (OtherSigns, (pm_request32, pm_request)); (OtherSigns, (r_debug32, r_debug));
   (SamePlaces, (kstat32, kstat));
   (Covered, (nfssysargs32, nfssysargs)); (Covered, (nfssysa32, nfssysa));
   (Covered, (rsmka_iovec32_t, rsmka_iovec_t)); (Covered, (prxmap32, prxmap));
   (Covered, (prn_interface_info32, prn_interface_info));
   (Covered, (prn_1284_device_id32, prn_1284_device_id));
   (Broken, (iec61883_isoch_init32, iec61883_isoch_init));
   (Broken, (rsmka_int_controller_attr32_t, rsmka_int_controller_attr_t));
   (Broken, (rsm_ioctlmsg32_t, rsm_ioctlmsg_t)); (Broken, (Elf32_Move, Elf32_Move))].

(** Formats that leave the machine or are shared with other programs. *)
Definition formats : list ctype :=
  formats_net ++ formats_stream ++ formats_disk ++ formats_device ++ formats_object.

(** The scalars of an object by place and size, with sign, with name. *)
Definition spots (m : machine) (t : ctype) : list (Z * Z) :=
  map (fun p => (p_off p, scalar_size m (p_ty p))) (places m [] 0 t).
Definition signs (m : machine) (t : ctype) : list bool := map (fun p => scalar_signed (p_ty p)) (places m [] 0 t).
Definition names (m : machine) (t : ctype) : list (list step) := map p_path (places m [] 0 t).

Definition agrees (a : agreement) (k u : machine) (t32 t : ctype) : Prop :=
  match a with
  | SameView => view k t32 = view u t
  | OtherNames => sizeof k t32 = sizeof u t /\ spots k t32 = spots u t /\ signs k t32 = signs u t
  | OtherSigns => sizeof k t32 = sizeof u t /\ spots k t32 = spots u t /\ names k t32 = names u t
  | SamePlaces => sizeof k t32 = sizeof u t /\ spots k t32 = spots u t
  | Covered => sizeof k t32 <= sizeof u t /\ Forall (fun s => s ∈ spots u t) (spots k t32)
  | Broken => _LONG_LONG_ALIGNMENT_32 k = 4 -> sizeof u t < sizeof k t32
  end.
#[export] Instance agrees_dec a k u t32 t : Decision (agrees a k u t32 t).
Proof. destruct a; unfold agrees; apply _. Defined.

Lemma views32_check : views_check views32 = true.
Proof.
  exact (views_check_app _ _ views_crypto_agree
    (views_check_app _ _ views_fs_agree
      (views_check_app _ _ views_dev_agree views_proc_agree))).
Qed.

Lemma formats_ok : formats_check formats = true.
Proof.
  exact (formats_check_app _ _ formats_net_fixed
    (formats_check_app _ _ formats_stream_fixed
      (formats_check_app _ _ formats_disk_fixed
        (formats_check_app _ _ formats_device_fixed formats_object_fixed)))).
Qed.

Lemma formats_natural : forallb (fun m => forallb (natural m) formats) machines = true.
Proof. vm_compute. reflexivity. Qed.

Lemma view_places k u t t' :
  view k t = view u t' -> map p_path (places k [] 0 t) = map p_path (places u [] 0 t').
Proof.
  unfold view. intros [= _ H].
  apply (f_equal (map (fun s : list step * Z * Z * bool => s.1.1.1))) in H.
  rewrite !map_map in H. exact H.
Qed.

Lemma store_fetch e m t vs mem :
  machine_ok m -> type_ok t = true -> union_free m t = true ->
  sizeof m t <= Z.of_nat (length mem) ->
  Forall2 (fun p v => holds m (p_ty p) v) (places m [] 0 t) vs ->
  exists mem', store e m t vs mem = Some mem' /\
    fetch e m t mem' = Some (zip (map p_path (places m [] 0 t)) vs).
Proof.
  intros Hm Ht Hu Hl Hv.
  destruct (fetch_store_places e m (places m [] 0 t) vs mem) as (mem' & H1 & _ & H2); eauto.
  - by apply places_in_order.
  - eapply within_mono; [| |by apply places_within]; lia.
Qed.

(** C27: what a 64-bit kernel and a 32-bit program agree on, for every structure of
    system calls and ioctls that is modelled, on both families of machines.  But
    for seventeen it is all: size, and name, place, size and sign of every scalar.
    Two have other names and four other signs, in one both differ; in six the
    kernel declares less than the program has, at the program's places; and four
    are broken: where 64-bit numbers of 32-bit programs have alignment 4, the
    kernel's is larger than the program's. *)
Theorem syscall32_views : forall k u a t32 t,
  kernel_user k u -> In (a, (t32, t)) modelled32 -> agrees a k u t32 t.
Proof.
  intros k u a t32 t Hku H. unfold modelled32 in H. apply in_app_iff in H as [H|H].
  - apply in_map_iff in H as ([t1 t2] & [= <- <- <-] & H). by apply (views_check_spec _ k u _ _ views32_check Hku).
  - destruct (kernel_user_cases k u Hku) as [[-> ->] | [-> ->]];
      repeat (destruct H as [[= <- <- <-] | H]; [apply (bool_decide_unpack _); vm_compute; exact I|]); destruct H.
Qed.

Lemma syscall32_views_witness :
  kernel_user amd64 i386 /\ view amd64 stat32 = view i386 stat /\ signs amd64 _agp_info32 = signs i386 _agp_info.
Proof.
  assert (kernel_user amd64 i386) as H by (unfold kernel_user; simpl; tauto).
  split; [exact H|]. split.
  - apply (syscall32_views amd64 i386 SameView stat32 stat H). unfold modelled32. apply in_app_iff. left. apply in_map.
    unfold views32, views_fs. rewrite !in_app_iff. right. left. simpl. tauto.
  - apply (syscall32_views amd64 i386 OtherNames _agp_info32 _agp_info H). unfold modelled32. apply in_app_iff. right. simpl. tauto.
Defined.

(** What a 32-bit program assigns to the members of such a structure is
    what the 64-bit kernel finds in the members of its own declaration,
    whatever the values and the byte order. *)
Theorem syscall32_exchange : forall e k u t32 t vs mem,
  kernel_user k u -> In (t32, t) views32 -> union_free u t = true ->
  sizeof u t <= Z.of_nat (length mem) ->
  Forall2 (fun p v => holds u (p_ty p) v) (places u [] 0 t) vs ->
  exists mem', store e u t vs mem = Some mem' /\
    fetch e k t32 mem' = Some (zip (map p_path (places k [] 0 t32)) vs).
Proof.
  intros e k u t32 t vs mem Hku Hin Hu Hl Hv.
  destruct (views_check_spec _ k u t32 t views32_check Hku Hin) as (Hview & _ & Ht).
  destruct (kernel_user_ok k u Hku) as [_ Hm].
  destruct (store_fetch e u t vs mem Hm Ht Hu Hl Hv) as (mem' & Hs & Hf).
  exists mem'. split; [done|]. by rewrite (fetch_view e k u t32 t), (view_places k u t32 t).
Qed.

Lemma syscall32_exchange_witness :
  exists mem', store LittleEndian i386 iovec [4096; -3] (replicate 8 0) = Some mem' /\
    fetch LittleEndian amd64 iovec32 mem'
    = Some [([Member "iov_base"], 4096); ([Member "iov_len"], -3)]%string.
Proof.
  assert (kernel_user amd64 i386) as H by (unfold kernel_user; simpl; tauto).
  apply (syscall32_exchange LittleEndian amd64 i386 iovec32 iovec [4096; -3]
           (replicate 8 0) H).
  - unfold views32, views_fs. rewrite !in_app_iff. right. left. simpl. tauto.
  - reflexivity.
  - simpl. vm_compute. discriminate.
  - repeat constructor; vm_compute; discriminate.
Defined.

(** Where the layout of an object may put its scalars: inside it, aligned unless
    packed, and, whichever member of each union is in use, one after the other. *)
Definition sound (m : machine) (t : ctype) : Prop :=
  let ps := places m [] 0 t in
  Forall (within m 0 (sizeof m t)) ps /\
  (forall arm, live m arm [] 0 t ⊆ ps /\ in_order m (live m arm [] 0 t)) /\
  (natural m t = true -> Forall (aligned m) ps).

Lemma type_sound m t : machine_ok m -> type_ok t = true -> sound m t.
Proof.
  intros Hm Ht. split_and!.
  - by apply (places_within m Hm t [] 0).
  - intros arm. split; [by apply live_places_ind|by apply live_in_order].
  - intros Hn. apply places_aligned; [done | done | apply Z.divide_0_r].
Qed.

(** C31: the listed message, packet, disk and object formats have one layout, the
    same for every data model and alignment of 64-bit numbers, in which every
    scalar is inside its structure and aligned (none is packed), and the scalars
    in use, one member of each union, are clear of each other.  Of the formats of
    these headers that are modelled, the [Elf32_Move] and [Elf64_Move] entries,
    which break this, and the packed records of [shared_records] are not in the
    list. *)
Theorem formats_fixed : forall m m' t,
  machine_ok m -> machine_ok m' -> In t formats ->
  view m t = view m' t /\ sound m t /\ natural m t = true.
Proof.
  intros m m' t Hm Hm' Hin.
  destruct (formats_check_spec _ m m' t formats_ok Hm Hm' Hin) as [Hv Ht].
  split; [done|]. split; [by apply type_sound|].
  pose proof formats_natural as Hn. rewrite forallb_forall in Hn. specialize (Hn m (machine_listed m Hm)).
  rewrite forallb_forall in Hn. by apply Hn.
Qed.

Lemma formats_fixed_witness :
  view i386 dof_hdr = view sparcv9 dof_hdr /\ sound i386 dof_hdr /\ natural i386 dof_hdr = true.
Proof.
  apply (formats_fixed i386 sparcv9 dof_hdr).
  - unfold machine_ok. simpl. lia.
  - unfold machine_ok. simpl. lia.
  - unfold formats. rewrite !in_app_iff. do 4 right. unfold formats_object. simpl. tauto.
Defined.

(** The MIB and SCTP records are packed so that the 32-bit and the 64-bit
    programs of one machine see the same record. *)
Theorem shared_records : forall k u t,
  kernel_user k u -> In t shared_net -> view k t = view u t /\ sound k t /\ sound u t.
Proof.
  intros k u t Hku Hin. destruct (kernel_user_ok k u Hku) as [Hk Hu].
  destruct (views_check_spec _ k u t t shared_net_agree Hku) as (Hv & Ht & _).
  { apply in_map_iff. by exists t. }
  split_and!; [done | by apply type_sound..].
Qed.

Lemma shared_records_witness : view amd64 mib2_sctp = view i386 mib2_sctp.
Proof.
  assert (kernel_user amd64 i386) as H by (unfold kernel_user; simpl; tauto).
  apply (shared_records amd64 i386 mib2_sctp H). simpl. tauto.
Defined.

(** The offset of a scalar given by its path. *)
Definition offset_of (m : machine) (t : ctype) (path : list step) : option Z :=
  p ← list_find (fun p => p_path p = path) (places m [] 0 t); Some (p_off p.2).

(** The declarations that break the contract on the amd64 kernel: the
    structures below hold a 64-bit member and are not packed, so the kernel's
    size is not the program's; in [rsm_ioctlmsg32_t] an embedded structure with
    pointers moves what follows it; an [Elf32_Move] entry of an i386 object is
    smaller than the 64-bit tools read. *)
Theorem views_broken :
  (sizeof amd64 iec61883_isoch_init32 = 80 /\ sizeof i386 iec61883_isoch_init = 76) /\
  (sizeof amd64 rsmka_int_controller_attr32_t = 48 /\
   sizeof i386 rsmka_int_controller_attr_t = 44) /\
  (offset_of amd64 rsm_ioctlmsg32_t [Member "gnum"%string] = Some 96 /\
   offset_of i386 rsm_ioctlmsg_t [Member "gnum"%string] = Some 88) /\
  (sizeof amd64 Elf32_Move = 24 /\ sizeof i386 Elf32_Move = 20).
Proof. vm_compute. tauto. Qed.
