(* ===== verification/DataModel.v ===== *)
(** * Structures of either data model: sys/model.h

    The macros of [src/include/sys/model.h] let a 64-bit kernel work on a
    structure of a program whose data model it learns at run time: a handle has
    two views of one buffer, the kernel's own declaration and the [..32] one, and
    every access chooses between them.  The declarations are those of the files
    [Abi*]; a member is named by its path.  The variants of a 32-bit kernel have
    one view and nothing to choose. *)
From Stdlib Require Import String Sorting.Sorted.
From S2P Require Import Prelude ByteOrder CTypes AbiTypes.
From S2P Require Import Abi32Fs Abi32Proc Abi.
#[local] Open Scope Z_scope.

Definition DATAMODEL_MASK := 0x0FF00000.
Definition DATAMODEL_ILP32 := 0x00100000.
Definition DATAMODEL_LP64 := 0x00200000.
Definition DATAMODEL_NONE := 0.

(** *** The usual arithmetic conversions
    [c ? a : b] has the common type of [a] and [b]: both are promoted, and of two
    different integer types the one of higher rank is taken, or its unsigned form
    when it is signed and cannot have all values of an unsigned other.  [None]: no
    integer types ([double], which only goes with itself) or a pointer, which the
    macros with a final [P] are for. *)
Definition promote (s : scalar) : scalar :=
  match s with Char | UChar | Short | UShort | Enum => Int | _ => s end.
Definition rank (s : scalar) : Z :=
  match s with Int | UInt => 1 | Long | ULong => 2 | LLong | ULLong => 3 | _ => 0 end.
Definition unsigned_of (s : scalar) : scalar :=
  match s with Int => UInt | Long => ULong | LLong => ULLong | _ => s end.
Definition common_type (m : machine) (a b : scalar) : option scalar :=
  match promote a, promote b with
  | Pointer, _ | _, Pointer => None
  | Double, Double => Some Double
  | Double, _ | _, Double => None
  | a, b =>
      let '(lo, hi) := if rank a <? rank b then (a, b) else (b, a) in
      if rank lo =? rank hi then Some (if scalar_signed lo then hi else lo)
      else if negb (scalar_signed hi) || scalar_signed lo || (scalar_size m lo <? scalar_size m hi) then Some hi
      else Some (unsigned_of hi)
  end.
(** A value converted to an integer type. *)
Definition convert (m : machine) (s : scalar) (v : Z) : Z :=
  if scalar_signed s then wraps (8 * scalar_size m s) v else wrapu (8 * scalar_size m s) v.

Lemma convert_holds m s v : holds m s v -> convert m s v = v.
Proof.
  pose proof (scalar_size_pos m s). unfold holds, convert. destruct (scalar_signed s); intros Hv; [apply wraps_id|apply wrapu_id]; done || lia.
Qed.

(** A handle: the types its two pointers point to, the data model, and the
    octets at the address both have ([STRUCT_BUF]). *)
Record struct_handle := { m32 : ctype; m64 : ctype; h_model : Z; STRUCT_BUF : list Z }.

(** A buffer for the kernel's structure, with whatever octets were there. *)
Definition STRUCT_DECL (t32 t : ctype) (garbage : list Z) : struct_handle :=
  {| m32 := t32; m64 := t; h_model := DATAMODEL_ILP32; STRUCT_BUF := garbage |}.
(** [None] if the assertion fails. *)
Definition STRUCT_INIT (h : struct_handle) (umodel : Z) : option struct_handle :=
  if umodel .& DATAMODEL_MASK =? DATAMODEL_NONE then None
  else Some {| m32 := m32 h; m64 := m64 h; h_model := u32 umodel .& DATAMODEL_MASK; STRUCT_BUF := STRUCT_BUF h |}.

Section Kernel.
Context (e : endian) (k : machine).
Definition is_ilp32 (h : struct_handle) : bool := h_model h =? DATAMODEL_ILP32.
Definition STRUCT_SIZE (h : struct_handle) : Z := if is_ilp32 h then sizeof k (m32 h) else sizeof k (m64 h).
(** The place of a member in one of the two types. *)
Definition member_place (t : ctype) (field : list step) : option place :=
  List.find (fun p => bool_decide (p_path p = field)) (places k [] 0 t).
Definition member_load (t : ctype) (buf : list Z) (field : list step) : option Z :=
  p ← member_place t field; snd <$> load_place e k buf p.
Definition member_store (t : ctype) (buf : list Z) (field : list step) (v : Z) : option (list Z) :=
  p ← member_place t field; store_place e k buf p v.
Definition set_buf (h : struct_handle) (buf : list Z) : struct_handle :=
  {| m32 := m32 h; m64 := m64 h; h_model := h_model h; STRUCT_BUF := buf |}.

Definition STRUCT_FADDR (h : struct_handle) (field : list step) : option Z :=
  p_off <$> (if is_ilp32 h then member_place (m32 h) field else member_place (m64 h) field).
(** The type of [(model == DATAMODEL_ILP32) ? m32->field : m64->field]. *)
Definition member_common (t32 t64 : ctype) (field : list step) : option scalar :=
  p ← member_place t32 field; q ← member_place t64 field; common_type k (p_ty p) (p_ty q).
Definition STRUCT_FGET (h : struct_handle) (field : list step) : option Z :=
  c ← member_common (m32 h) (m64 h) field;
  v ← (if is_ilp32 h then member_load (m32 h) (STRUCT_BUF h) field else member_load (m64 h) (STRUCT_BUF h) field);
  Some (convert k c v).
(** The member is a pointer: a [caddr32_t] through one view. *)
Definition STRUCT_FGETP (h : struct_handle) (field : list step) : option Z :=
  if is_ilp32 h then wrapu 64 <$> member_load (m32 h) (STRUCT_BUF h) field else member_load (m64 h) (STRUCT_BUF h) field.
Definition STRUCT_FSET (h : struct_handle) (field : list step) (val : Z) : option struct_handle :=
  set_buf h <$> (if is_ilp32 h then member_store (m32 h) (STRUCT_BUF h) field val else member_store (m64 h) (STRUCT_BUF h) field val).
Definition STRUCT_FSETP (h : struct_handle) (field : list step) (val : Z) : option struct_handle :=
  set_buf h <$> (if is_ilp32 h then member_store (m32 h) (STRUCT_BUF h) field (u32 (u64 val)) else member_store (m64 h) (STRUCT_BUF h) field val).
Definition SIZEOF_PTR (umodel : Z) : Z :=
  if umodel .& DATAMODEL_MASK =? DATAMODEL_ILP32 then sizeof k uint else sizeof k ptr.
Definition SIZEOF_STRUCT (t32 t : ctype) (umodel : Z) : Z :=
  if umodel .& DATAMODEL_MASK =? DATAMODEL_ILP32 then sizeof k t32 else sizeof k t.
End Kernel.

(** What a program passes is copied to the buffer, and back: the number of
    octets is [STRUCT_SIZE]; [None] if the buffer is too small. *)
Definition copy_in (k : machine) (h : struct_handle) (user : list Z) : option struct_handle :=
  let n := Z.to_nat (STRUCT_SIZE k h) in
  if ((n <=? length user) && (n <=? length (STRUCT_BUF h)))%nat
  then Some (set_buf h (take n user ++ drop n (STRUCT_BUF h))) else None.
Definition copy_out (k : machine) (h : struct_handle) : list Z := take (Z.to_nat (STRUCT_SIZE k h)) (STRUCT_BUF h).

(** The structures whose 32-bit declaration is the longer one, for which the
    buffer of [STRUCT_DECL] is too small. *)
Definition longer32 : list (ctype * ctype) := [(statvfs32, statvfs); (statvfs64_32, statvfs64); (ipc_perm32, ipc_perm)].

(** ** Members *)

(** The values of members by their paths. *)
Fixpoint value_at (field : list step) (l : list (list step * Z)) : option Z :=
  match l with [] => None | (f, v) :: l => if bool_decide (f = field) then Some v else value_at field l end.
Fixpoint assign (field : list step) (v : Z) (l : list (list step * Z)) : list (list step * Z) :=
  match l with [] => [] | (f, w) :: l => if bool_decide (f = field) then (f, v) :: l else (f, w) :: assign field v l end.

Section Members.
Context (e : endian) (k : machine).

Lemma load_at ps mem l field : mapM (load_place e k mem) ps = Some l ->
  (p ← List.find (fun p => bool_decide (p_path p = field)) ps; snd <$> load_place e k mem p) = value_at field l.
Proof.
  revert l. induction ps as [|p ps IH]; intros l; simpl; [by intros [= <-]|].
  destruct (load_place e k mem p) as [[f v]|] eqn:E; [|done]. simpl. destruct (mapM _ ps) as [l'|] eqn:El; [|done]. simpl.
  intros [= <-]. simpl. assert (f = p_path p) as -> by (unfold load_place in E; destruct (rds _ _ _); [|done]; by injection E as <- _).
  case_bool_decide; [simpl; by rewrite E|by apply IH].
Qed.

(** Octets outside of a place do not matter to it. *)
Lemma load_ext mem mem' p : (forall i, (p_off p <= Z.of_nat i < p_end k p) -> mem !! i = mem' !! i) -> 0 <= p_off p ->
  load_place e k mem p = load_place e k mem' p.
Proof.
  intros H Hp. unfold load_place. erewrite rds_ext; [done|]. intros i Hi. apply H.
  pose proof (octets_of_size k (p_ty p)). unfold p_end, place_at in *. lia.
Qed.
Lemma store_other mem p q v mem' : store_place e k mem p v = Some mem' -> before k p q \/ before k q p -> 0 <= p_off p -> 0 <= p_off q ->
  load_place e k mem' q = load_place e k mem q.
Proof.
  intros Hs Hb Hp Hq. apply load_ext; [|done]. intros i Hi. eapply wrs_lookup_ne; [exact Hs|]. rewrite native_bytes_length.
  pose proof (octets_of_size k (p_ty p)). unfold before, p_end, place_at in *. lia.
Qed.
Lemma load_all_ext ps mem mem' : (forall p, In p ps -> load_place e k mem' p = load_place e k mem p) ->
  mapM (load_place e k mem') ps = mapM (load_place e k mem) ps.
Proof.
  induction ps as [|q ps IH]; intros H; simpl; [done|]. rewrite H by (by left). rewrite IH; [done|]. intros p Hp. apply H. by right.
Qed.

(** Storing one member of places in order. *)
Lemma store_at ps mem l field v p : in_order k ps -> Forall (within k 0 (Z.of_nat (length mem))) ps ->
  mapM (load_place e k mem) ps = Some l -> List.find (fun p => bool_decide (p_path p = field)) ps = Some p -> holds k (p_ty p) v ->
  exists mem', store_place e k mem p v = Some mem' /\ length mem' = length mem /\ mapM (load_place e k mem') ps = Some (assign field v l).
Proof.
  intros Ho Hw Hl Hf Hv. assert (In p ps) as Hin by (by apply List.find_some in Hf as [? _]).
  assert (0 <= p_off p /\ p_end k p <= Z.of_nat (length mem)) as [H0 H1]
    by (rewrite Forall_forall in Hw; by apply (Hw p Hin)).
  destruct (store_place_in e k mem p v H0 H1) as (mem' & E & L). exists mem'. split; [done|]. split; [done|].
  revert l Hl. clear Hin. induction ps as [|q ps IH]; intros l Hl; [done|]. apply StronglySorted_inv in Ho as [Ho Hb].
  apply Forall_cons_1 in Hw as [[Hq _] Hw]. simpl in Hf, Hl |- *.
  destruct (load_place e k mem q) as [[f w]|] eqn:Eq; [|done]. simpl in Hl. destruct (mapM _ ps) as [l'|] eqn:El; [|done]. simpl in Hl.
  injection Hl as <-. assert (f = p_path q) as -> by (unfold load_place in Eq; destruct (rds _ _ _); [|done]; by injection Eq as <- _).
  simpl. rewrite Forall_forall in Hb, Hw. case_bool_decide.
  - injection Hf as ->. rewrite (load_stored e k mem p v mem') by done. simpl. rewrite (load_all_ext ps mem mem'), El; [done|].
    intros r Hr. eapply store_other; [exact E|left; by apply Hb|done|by apply Hw].
  - assert (In p ps) as Hin by (by apply List.find_some in Hf as [? _]).
    rewrite (store_other mem p q v mem' E), Eq by (done || right; by apply Hb). simpl.
    rewrite (IH Ho) with (l := l'); [done|by rewrite Forall_forall|done..].
Qed.
End Members.

(** ** Views of one buffer *)

(** The order of places and their range are the same in equal views. *)
Lemma sorted_map {A B} (f : A -> B) (R : B -> B -> Prop) l : StronglySorted R (map f l) <-> StronglySorted (fun a b => R (f a) (f b)) l.
Proof.
  induction l as [|a l IH]; simpl; [split; constructor|]. split; intros [H1 H2]%StronglySorted_inv; constructor.
  - by apply IH.
  - by apply (proj1 (List.Forall_map f (R (f a)) l)).
  - by apply IH.
  - by apply (proj2 (List.Forall_map f (R (f a)) l)).
Qed.
Definition spot_before (a b : list step * Z * Z * bool) : Prop := a.1.1.2 + a.1.2 <= b.1.1.2.
Lemma view_places_ok k p w t size : machine_ok p -> type_ok t = true -> union_free p t = true -> view k w = view p t -> sizeof p t <= size ->
  in_order k (places k [] 0 w) /\ Forall (within k 0 size) (places k [] 0 w).
Proof.
  intros Hp Ht Hu [= _ Hs] Hsize. split.
  - apply (proj1 (sorted_map (spot k) spot_before _)). rewrite Hs. apply (sorted_map (spot p) spot_before). by apply places_in_order.
  - assert (Forall (fun s : list step * Z * Z * bool => 0 <= s.1.1.2 /\ s.1.1.2 + s.1.2 <= size) (map (spot k) (places k [] 0 w))) as H.
    { rewrite Hs. apply List.Forall_map. eapply Forall_impl; [|by apply places_within]. unfold within, p_end, spot. simpl. intros q. lia. }
    exact (proj1 (List.Forall_map _ _ _) H).
Qed.

Lemma umodel_mask umodel : u32 umodel .& DATAMODEL_MASK = umodel .& DATAMODEL_MASK.
Proof.
  apply Z.bits_inj'. intros i Hi. rewrite !Z.land_spec, wrapu_testbit by lia.
  destruct (Z.ltb_spec i 32); [done|]. by rewrite (in_u_testbit 32 DATAMODEL_MASK), !andb_false_r by (done || unfold in_u, DATAMODEL_MASK; lia).
Qed.

(** The program a handle is for, and its data model in the bits of [umodel]. *)
Definition program (k u : machine) (d : data_model) : machine := match d with ILP32 => u | LP64 => k end.
Definition model_bits (d : data_model) : Z := match d with ILP32 => DATAMODEL_ILP32 | LP64 => DATAMODEL_LP64 end.
(** The view a handle of the data model chooses. *)
Definition seen (d : data_model) (t32 t : ctype) : ctype := match d with ILP32 => t32 | LP64 => t end.

Lemma seen_view k u d t32 t : kernel_user k u -> In (t32, t) views32 ->
  view k (seen d t32 t) = view (program k u d) t /\ machine_ok (program k u d) /\ type_ok t = true.
Proof.
  intros Hku Hin. destruct (views_check_spec _ k u t32 t views32_check Hku Hin) as (Hv & _ & Ht). destruct (kernel_user_ok k u Hku).
  by destruct d.
Qed.

(** A handle on a buffer that begins with the structure of a program: the
    members read are those the program stored, and a member that is set is set for
    the program. *)
Section Handle.
Context (e : endian) (k p : machine) (w t : ctype) (Hp : machine_ok p) (Ht : type_ok t = true) (Hu : union_free p t = true) (Hv : view k w = view p t).
Context (user rest : list Z) (Huser : Z.of_nat (length user) = sizeof p t) (vs : list (list step * Z)) (Hvs : fetch e p t user = Some vs).

Lemma fetch_front : mapM (load_place e k (user ++ rest)) (places k [] 0 w) = Some vs.
Proof.
  destruct (view_places_ok k p w t (sizeof p t) Hp Ht Hu Hv (Z.le_refl _)) as [_ Hw]. rewrite <- (fetch_view e k p w t) in Hvs by done.
  unfold fetch in Hvs. rewrite <- Hvs. apply load_all_ext. intros q Hq. rewrite List.Forall_forall in Hw. destruct (Hw q Hq) as [H0 H1].
  apply load_ext; [|done]. intros i Hi. rewrite lookup_app_l by lia. done.
Qed.
Lemma front_get field : member_load e k w (user ++ rest) field = value_at field vs.
Proof. apply load_at, fetch_front. Qed.
Lemma front_set field v q : member_place k w field = Some q -> holds k (p_ty q) v ->
  exists buf, member_store e k w (user ++ rest) field v = Some buf /\ length buf = length (user ++ rest)
    /\ fetch e p t (take (length user) buf) = Some (assign field v vs).
Proof.
  intros Hq Hh. destruct (view_places_ok k p w t (Z.of_nat (length (user ++ rest))) Hp Ht Hu Hv) as [Ho Hw]; [rewrite length_app; lia|].
  destruct (store_at e k _ (user ++ rest) vs field v q Ho Hw fetch_front Hq Hh) as (buf & E & L & F). exists buf.
  unfold member_store. rewrite Hq. simpl. split; [done|]. split; [done|].
  rewrite <- (fetch_view e k p w t) by done. unfold fetch. rewrite <- F. apply load_all_ext. intros r Hr.
  destruct (view_places_ok k p w t (sizeof p t) Hp Ht Hu Hv (Z.le_refl _)) as [_ Hw']. rewrite List.Forall_forall in Hw'. destruct (Hw' r Hr) as [H0 H1].
  apply load_ext; [|done]. intros i Hi. rewrite lookup_take_lt by lia. done.
Qed.
End Handle.


