(* ===== verification/Convert.v ===== *)
(** * Converting structures between data models

    Macros that copy a structure of a 32-bit program member by member into the
    structure of a 64-bit kernel and back: [sys/vtoc.h] (the table of contents of
    a disk), [sys/cdio.h] (requests to a CD-ROM) and [sys/time_impl.h] (times).
    A macro is a list of statements; it is executed on the octets of two
    structures whose declarations are those of the files [Abi*].  Every statement
    reads and sets the members of one path. *)
From Stdlib Require Import String Sorting.Sorted.
From S2P Require Import Prelude ByteOrder Time CTypes AbiTypes.
From S2P Require Import Abi32Fs Abi32Dev Abi32Proc Abi DataModel.
#[local] Open Scope Z_scope.

(** ** Statements *)

(** The right-hand side of an assignment: the member of the source, through
    casts; the same unless it is above a bound; the result of a function; zero. *)
Inductive rhs := As (via : list scalar) | Clamp (bound : Z) (via : list scalar) | Call (f : Z -> Z) | Zero.
(** [out->field = rhs], and [if (bad(in->field)) error = EOVERFLOW]. *)
Inductive statement := Put (field : list step) (r : rhs) | Overflow_if (field : list step) (bad : Z -> bool).

Definition EOVERFLOW := 79.

Section Exec.
Context (e : endian) (k : machine).
(** Conversion of a value to a type. *)
Definition cast (s : scalar) (v : Z) : Z :=
  if scalar_signed s then wraps (8 * scalar_size k s) v else wrapu (8 * scalar_size k s) v.
Definition casts (via : list scalar) (v : Z) : Z := fold_left (fun v s => cast s v) via v.
Definition eval (r : rhs) (v : Z) : Z :=
  match r with
  | As via => casts via v
  | Clamp bound via => if v >? bound then bound else casts via v
  | Call f => f v
  | Zero => 0
  end.
Definition exec1 (tin tout : ctype) (inb : list Z) (s : statement) (st : list Z * Z) : option (list Z * Z) :=
  match s with
  | Put field r => v ← member_load e k tin inb field; out ← member_store e k tout st.1 field (eval r v); Some (out, st.2)
  | Overflow_if field bad => v ← member_load e k tin inb field; Some (st.1, if bad v then EOVERFLOW else st.2)
  end.
Fixpoint exec (tin tout : ctype) (inb : list Z) (prog : list statement) (st : list Z * Z) : option (list Z * Z) :=
  match prog with [] => Some st | s :: prog => st ← exec1 tin tout inb s st; exec tin tout inb prog st end.
End Exec.

(** A loop over an index, and [bcopy] of an array of [n] characters. *)
Definition for_ (n : Z) (body : Z -> list statement) : list statement := flat_map body (seqZ 0 n).
Definition bcopy (field : list step) (n : Z) : list statement := for_ n (fun i => [Put (field ++ [Index i]) (As [])]).
Definition elem (f : string) (i : Z) : list step := [Member f; Index i].
Definition elem_field (f : string) (i : Z) (g : string) : list step := [Member f; Index i; Member g].

(** ** sys/vtoc.h *)
Definition vtoc32tovtoc : list statement :=
  [Put (elem "v_bootinfo" 0) (As []); Put (elem "v_bootinfo" 1) (As []); Put (elem "v_bootinfo" 2) (As []);
   Put [Member "v_sanity"] (As []); Put [Member "v_version"] (As [])] ++
  bcopy [Member "v_volume"] LEN_DKL_VVOL ++
  [Put [Member "v_sectorsz"] (As []); Put [Member "v_nparts"] (As []); Put [Member "v_version"] (As [])] ++
  for_ 10 (fun i => [Put (elem "v_reserved" i) (As [])]) ++
  for_ V_NUMPAR (fun i => [Put (elem_field "v_part" i "p_tag") (As [UShort]); Put (elem_field "v_part" i "p_flag") (As [UShort]);
                           Put (elem_field "v_part" i "p_start") (As [Long]); Put (elem_field "v_part" i "p_size") (As [Long])]) ++
  for_ V_NUMPAR (fun i => [Put (elem "timestamp" i) (As [Long])]) ++
  bcopy [Member "v_asciilabel"] LEN_DKL_ASCII.
Definition vtoctovtoc32 : list statement :=
  [Put (elem "v_bootinfo" 0) (As []); Put (elem "v_bootinfo" 1) (As []); Put (elem "v_bootinfo" 2) (As []);
   Put [Member "v_sanity"] (As []); Put [Member "v_version"] (As [])] ++
  bcopy [Member "v_volume"] LEN_DKL_VVOL ++
  [Put [Member "v_sectorsz"] (As []); Put [Member "v_nparts"] (As []); Put [Member "v_version"] (As [])] ++
  for_ 10 (fun i => [Put (elem "v_reserved" i) (As [])]) ++
  for_ V_NUMPAR (fun i => [Put (elem_field "v_part" i "p_tag") (As [UShort]); Put (elem_field "v_part" i "p_flag") (As [UShort]);
                           Put (elem_field "v_part" i "p_start") (As [Int]); Put (elem_field "v_part" i "p_size") (As [Int])]) ++
  for_ V_NUMPAR (fun i => [Put (elem "timestamp" i) (Clamp TIME32_MAX [Int])]) ++
  bcopy [Member "v_asciilabel"] LEN_DKL_ASCII.

(** ** sys/cdio.h *)
Definition cdrom_read32tocdrom_read : list statement :=
  [Put [Member "cdread_lba"] (As []); Put [Member "cdread_bufaddr"] (As [ULong; Pointer]); Put [Member "cdread_buflen"] (As [])].
Definition cdrom_readtocdrom_read32 : list statement :=
  [Put [Member "cdread_lba"] (As []); Put [Member "cdread_bufaddr"] (As [ULong; UInt]); Put [Member "cdread_buflen"] (As [])].
Definition cdrom_cdda32tocdrom_cdda : list statement :=
  [Put [Member "cdda_addr"] (As []); Put [Member "cdda_length"] (As []); Put [Member "cdda_data"] (As [ULong; Pointer]);
   Put [Member "cdda_subcode"] (As [])].
Definition cdrom_cddatocdrom_cdda32 : list statement :=
  [Put [Member "cdda_addr"] (As []); Put [Member "cdda_length"] (As []); Put [Member "cdda_data"] (As [ULong; UInt]);
   Put [Member "cdda_subcode"] (As [])].
Definition cdrom_cdxa32tocdrom_cdxa : list statement :=
  [Put [Member "cdxa_addr"] (As []); Put [Member "cdxa_length"] (As []); Put [Member "cdxa_data"] (As [ULong; Pointer]);
   Put [Member "cdxa_format"] (As [])].
Definition cdrom_cdxatocdrom_cdxa32 : list statement :=
  [Put [Member "cdxa_addr"] (As []); Put [Member "cdxa_length"] (As []); Put [Member "cdxa_data"] (As [ULong; UInt]);
   Put [Member "cdxa_format"] (As [])].
Definition cdrom_subcode32tocdrom_subcode : list statement :=
  [Put [Member "cdsc_length"] (As []); Put [Member "cdsc_addr"] (As [ULong; Pointer])].
Definition cdrom_subcodetocdrom_subcode32 : list statement :=
  [Put [Member "cdsc_length"] (As []); Put [Member "cdsc_addr"] (As [ULong; UInt])].

(** ** sys/time_impl.h: at the member [at_] of a structure *)
Definition TIMESPEC32_TO_TIMESPEC (at_ : list step) : list statement :=
  [Put (at_ ++ [Member "tv_sec"]) (As [Long]); Put (at_ ++ [Member "tv_nsec"]) (As [])].
Definition TIMESPEC_TO_TIMESPEC32 (at_ : list step) : list statement :=
  [Put (at_ ++ [Member "tv_sec"]) (As [Int]); Put (at_ ++ [Member "tv_nsec"]) (As [])].
Definition ITIMERSPEC32_TO_ITIMERSPEC : list statement :=
  TIMESPEC32_TO_TIMESPEC [Member "it_interval"] ++ TIMESPEC32_TO_TIMESPEC [Member "it_value"].
Definition ITIMERSPEC_TO_ITIMERSPEC32 : list statement :=
  TIMESPEC_TO_TIMESPEC32 [Member "it_interval"] ++ TIMESPEC_TO_TIMESPEC32 [Member "it_value"].
(** The tests, on the values of a structure. *)
Definition TIMESPEC_OVERFLOW (vs : list (list step * Z)) (at_ : list step) : option bool :=
  s ← value_at (at_ ++ [Member "tv_sec"]) vs; Some ((s <? TIME32_MIN) || (s >? TIME32_MAX)).
Definition ITIMERSPEC_OVERFLOW (vs : list (list step * Z)) : option bool :=
  a ← TIMESPEC_OVERFLOW vs [Member "it_interval"]; if (a : bool) then TIMESPEC_OVERFLOW vs [Member "it_value"] else Some false.

(** ** Execution on values

    What a program of statements does to the values of the members. *)
Section Values.
Context (e : endian) (k : machine).

Lemma cast_holds s v : holds k s (cast k s v).
Proof.
  unfold holds, cast. pose proof (scalar_size_pos k s). destruct (scalar_signed s); [apply wraps_range; lia|apply wrapu_range; lia].
Qed.
Lemma cast_id s v : holds k s v -> cast k s v = v.
Proof.
  unfold holds, cast. pose proof (scalar_size_pos k s). destruct (scalar_signed s); intros H1; [apply wraps_id; lia|apply wrapu_id; exact H1].
Qed.
Lemma store_cast mem p v : store_place e k mem p v = store_place e k mem p (cast k (p_ty p) v).
Proof.
  unfold store_place. f_equal. assert (le_bytes (octets_of k (p_ty p)) v = le_bytes (octets_of k (p_ty p)) (cast k (p_ty p) v)) as E.
  { rewrite <- (le_bytes_mod _ v), <- (le_bytes_mod _ (cast _ _ _)), octets_of_size. f_equal. unfold cast.
    pose proof (scalar_size_pos k (p_ty p)). destruct (scalar_signed _); symmetry; [apply wrapu_wraps; lia|].
    unfold wrapu. by rewrite Z.mod_mod by (apply Z.pow_nonzero; lia). }
  unfold native_bytes. by destruct e; rewrite E.
Qed.

(** A value that is read is one of the type. *)
Lemma rds_bytes mem p n bs : Forall is_byte mem -> rds mem p n = Some bs -> Forall is_byte bs.
Proof.
  intros Hm. revert p bs. induction n as [|n IH]; intros p bs; simpl; [by intros [= <-]|].
  destruct (rd mem p) as [b|] eqn:E; [|done]. simpl. destruct (rds mem (S p) n) eqn:E'; [|done]. intros [= <-].
  constructor; [by eapply Forall_lookup_1|by eapply IH].
Qed.
Lemma load_holds mem p f v : Forall is_byte mem -> load_place e k mem p = Some (f, v) -> f = p_path p /\ holds k (p_ty p) v.
Proof.
  intros Hb. unfold load_place. destruct (rds _ _ _) as [bs|] eqn:E; [|done]. intros [= <- <-]. split; [done|].
  pose proof (rds_length _ _ _ _ E) as Hl. apply rds_bytes in E; [|done]. unfold value_of, holds. pose proof (scalar_size_pos k (p_ty p)).
  set (l := match e with LittleEndian => bs | BigEndian => rev bs end). assert (0 <= of_le l < 2 ^ (8 * scalar_size k (p_ty p))).
  { rewrite <- octets_of_size, <- Hl. unfold l. destruct e; [rewrite <- length_rev|]; apply of_le_bound; [by apply Forall_rev|done]. }
  destruct (scalar_signed _); [apply wraps_range; lia|done].
Qed.
Lemma rds_in mem p n : (p + n <= length mem)%nat -> is_Some (rds mem p n).
Proof.
  revert p. induction n as [|n IH]; intros p H; simpl; [done|]. destruct (lookup_lt_is_Some_2 mem p) as [b E]; [lia|].
  unfold rd. rewrite E. simpl. destruct (IH (S p)) as [bs ->]; [lia|done].
Qed.
Lemma load_place_in mem p : 0 <= p_off p -> p_end k p <= Z.of_nat (length mem) -> is_Some (load_place e k mem p).
Proof.
  intros H0 H1. unfold load_place.
  pose proof (octets_of_size k (p_ty p)). unfold p_end in H1.
  assert (is_Some (rds mem (place_at p) (octets_of k (p_ty p)))) as [bs ->]; [|done]. apply rds_in. unfold place_at. lia.
Qed.

(** *** Lists of values *)
Lemma value_at_assign f g v l : g ∈ map fst l -> value_at g (assign f v l) = if bool_decide (f = g) then Some v else value_at g l.
Proof.
  induction l as [|[h w] l IH]; simpl; [by intros ?%elem_of_nil|]. intros Hin.
  destruct (decide (h = f)) as [->|Hf]; [rewrite (bool_decide_eq_true_2 (f = f)) by done|rewrite (bool_decide_eq_false_2 (h = f)) by done]; simpl.
  - by case_bool_decide.
  - destruct (decide (h = g)) as [->|Hg]; [rewrite (bool_decide_eq_true_2 (g = g)), (bool_decide_eq_false_2 (f = g)) by congruence; done|].
    rewrite !(bool_decide_eq_false_2 (h = g)) by done. apply IH. apply elem_of_cons in Hin as [->|]; done.
Qed.
Lemma assign_fst f v l : map fst (assign f v l) = map fst l.
Proof. induction l as [|[h w] l IH]; simpl; [done|]. case_bool_decide; simpl; congruence. Qed.
Lemma values_ext l l' : map fst l = map fst l' -> NoDup (map fst l) -> (forall f, f ∈ map fst l -> value_at f l = value_at f l') -> l = l'.
Proof.
  revert l'. induction l as [|[f v] l IH]; intros [|[f' v'] l']; simpl; try done. intros [= -> E] [Hn Hd]%list.NoDup_cons H.
  pose proof (H f' (list_elem_of_here _ _)) as H1. rewrite (bool_decide_eq_true_2 (f' = f')) in H1 by done. injection H1 as ->. f_equal.
  apply IH; [done..|]. intros g Hg. specialize (H g (list_elem_of_further _ _ _ Hg)).
  rewrite (bool_decide_eq_false_2 (f' = g)) in H by (intros ->; done). done.
Qed.
Lemma value_at_in f l : f ∈ map fst l -> is_Some (value_at f l).
Proof.
  induction l as [|[g v] l IH]; simpl; [by intros ?%elem_of_nil|]. case_bool_decide; [done|]. intros [->|]%elem_of_cons; [done|by apply IH].
Qed.
Lemma fetch_paths t mem vs : fetch e k t mem = Some vs -> map fst vs = map p_path (places k [] 0 t).
Proof.
  unfold fetch. generalize (places k [] 0 t) as ps. intros ps. revert vs. induction ps as [|p ps IH]; intros vs; simpl; [by intros [= <-]|].
  destruct (load_place e k mem p) as [[f v]|] eqn:E; [|done]. simpl. destruct (mapM _ ps) as [l|]; [|done]. intros [= <-]. simpl.
  rewrite (IH l) by done. f_equal. unfold load_place in E. destruct (rds _ _ _); [|done]. by injection E as <- _.
Qed.
Lemma fetch_in t mem : machine_ok k -> type_ok t = true -> sizeof k t <= Z.of_nat (length mem) -> is_Some (fetch e k t mem).
Proof.
  intros Hk Ht Hs. unfold fetch. apply mapM_is_Some. eapply Forall_impl; [|by apply (places_within k Hk t [] 0)].
  intros p [H0 H1]. apply load_place_in; lia.
Qed.
Lemma fetch_holds t mem vs f v p : Forall is_byte mem -> fetch e k t mem = Some vs -> value_at f vs = Some v -> member_place k t f = Some p ->
  holds k (p_ty p) v.
Proof.
  intros Hb Hf Hv Hp. rewrite <- (load_at e k _ _ _ f Hf) in Hv. unfold member_place in Hp. rewrite Hp in Hv. simpl in Hv.
  destruct (load_place e k mem p) as [[g w]|] eqn:E; [|done]. injection Hv as ->. by apply load_holds in E as [_ ?].
Qed.

(** *** Programs on values *)
Definition type_at (t : ctype) (f : list step) : option scalar := p_ty <$> member_place k t f.
Definition step_values (tout : ctype) (vs : list (list step * Z)) (s : statement) (st : list (list step * Z) * Z) : option (list (list step * Z) * Z) :=
  match s with
  | Put f r => v ← value_at f vs; ty ← type_at tout f; Some (assign f (cast k ty (eval k r v)) st.1, st.2)
  | Overflow_if f bad => v ← value_at f vs; Some (st.1, if bad v then EOVERFLOW else st.2)
  end.
Fixpoint run_values (tout : ctype) (vs : list (list step * Z)) (prog : list statement) (st : list (list step * Z) * Z) : option (list (list step * Z) * Z) :=
  match prog with [] => Some st | s :: prog => st ← step_values tout vs s st; run_values tout vs prog st end.

Section Run.
Context (tin tout : ctype) (Hk : machine_ok k) (Hto : type_ok tout = true) (Hu : union_free k tout = true).
Context (inb : list Z) (vs : list (list step * Z)) (Hin : fetch e k tin inb = Some vs).

Lemma exec1_values s out err ws st : sizeof k tout <= Z.of_nat (length out) -> fetch e k tout out = Some ws ->
  step_values tout vs s (ws, err) = Some st ->
  exists out', exec1 e k tin tout inb s (out, err) = Some (out', st.2) /\ length out' = length out /\ fetch e k tout out' = Some st.1.
Proof.
  intros Hl Hf. assert (forall f, member_load e k tin inb f = value_at f vs) as Hload by (intros f; by apply load_at).
  destruct s as [f r|f bad]; simpl; rewrite Hload; (destruct (value_at f vs) as [v|]; [|done]); simpl; [|intros [= <-]; eauto].
  unfold type_at, member_store. destruct (member_place k tout f) as [p|] eqn:Ep; [|done]. intros [= <-]. simpl.
  destruct (store_at e k (places k [] 0 tout) out ws f (cast k (p_ty p) (eval k r v)) p) as (out' & E & L & F);
    [by apply places_in_order| |done|done|apply cast_holds|].
  { eapply Forall_impl; [|by apply (places_within k Hk tout [] 0)]. unfold within. intros q. lia. }
  rewrite store_cast, E. simpl. eauto.
Qed.
Lemma exec_values prog : forall out err ws st, sizeof k tout <= Z.of_nat (length out) -> fetch e k tout out = Some ws ->
  run_values tout vs prog (ws, err) = Some st ->
  exists out', exec e k tin tout inb prog (out, err) = Some (out', st.2) /\ length out' = length out /\ fetch e k tout out' = Some st.1.
Proof.
  induction prog as [|s prog IH]; intros out err ws st Hl Hf; simpl; [intros [= <-]; eauto|].
  destruct (step_values tout vs s (ws, err)) as [[ws1 err1]|] eqn:E; [|done]. simpl. intros H.
  destruct (exec1_values s out err ws (ws1, err1) Hl Hf E) as (out1 & -> & L1 & F1). simpl in *.
  destruct (IH out1 err1 ws1 st) as (out2 & -> & L2 & F2); [lia|done|done|]. exists out2. split_and!; [done|lia|done].
Qed.
End Run.

(** The last assignment to a member, and whether a test fails. *)
Fixpoint last_put (prog : list statement) (f : list step) : option rhs :=
  match prog with
  | [] => None
  | s :: prog =>
      match last_put prog f with
      | Some r => Some r
      | None => match s with Put g r => if bool_decide (g = f) then Some r else None | Overflow_if _ _ => None end
      end
  end.
Definition flagged (vs : list (list step * Z)) (prog : list statement) : bool :=
  existsb (fun s => match s with Overflow_if f bad => match value_at f vs with Some v => bad v | None => false end | Put _ _ => false end) prog.
Definition known (pin pout : list (list step)) (s : statement) : bool :=
  match s with Put f _ => bool_decide (f ∈ pin) && bool_decide (f ∈ pout) | Overflow_if f _ => bool_decide (f ∈ pin) end.

Definition paths (t : ctype) : list (list step) := map p_path (places k [] 0 t).
Lemma type_at_in t f : f ∈ paths t -> is_Some (type_at t f).
Proof.
  unfold paths, type_at, member_place. induction (places k [] 0 t) as [|p ps IH]; simpl; [by intros ?%elem_of_nil|].
  case_bool_decide; [done|]. intros [->|]%elem_of_cons; [done|by apply IH].
Qed.
Definition put_value (tout : ctype) (vs : list (list step * Z)) (prog : list statement) (f : list step) : option Z :=
  r ← last_put prog f; v ← value_at f vs; s ← type_at tout f; Some (cast k s (eval k r v)).

Lemma run_values_spec tout vs pin prog : map fst vs = pin -> forall ws err, map fst ws = paths tout -> forallb (known pin (paths tout)) prog = true ->
  exists ws', run_values tout vs prog (ws, err) = Some (ws', if flagged vs prog then EOVERFLOW else err) /\ map fst ws' = paths tout
    /\ forall f, f ∈ paths tout -> value_at f ws' = match last_put prog f with Some _ => put_value tout vs prog f | None => value_at f ws end.
Proof.
  intros <-. unfold put_value. induction prog as [|s prog IH]; intros ws err Hw Hc; simpl; [eauto|].
  simpl in Hc. apply andb_true_iff in Hc as [Hs Hc]. destruct s as [g r|g bad]; simpl in *.
  - apply andb_true_iff in Hs as [H1%bool_decide_eq_true H2%bool_decide_eq_true]. destruct (value_at_in g vs H1) as [v Ev].
    destruct (type_at_in tout g H2) as [ty Et]. rewrite Ev, Et. simpl.
    destruct (IH (assign g (cast k ty (eval k r v)) ws) err) as (ws' & E & P & V); [by rewrite assign_fst|done|].
    exists ws'. split_and!; [done|done|]. intros f Hf. rewrite V by done. destruct (last_put prog f) as [r'|] eqn:El; [done|].
    rewrite value_at_assign by (by rewrite Hw). case_bool_decide; [subst; simpl; by rewrite Ev, Et|done].
  - apply bool_decide_eq_true in Hs. destruct (value_at_in g vs Hs) as [v Ev]. rewrite Ev. simpl.
    destruct (IH ws (if bad v then EOVERFLOW else err)) as (ws' & E & P & V); [done|done|].
    exists ws'. split_and!; [rewrite E; destruct (bad v), (flagged vs prog); done|done|]. intros f Hf. rewrite V by done. by destruct (last_put prog f).
Qed.

(** A conversion that sets every member. *)
Definition complete (tin tout : ctype) (prog : list statement) : bool :=
  type_ok tin && type_ok tout && union_free k tout && bool_decide (NoDup (paths tout)) && bool_decide (paths tin = paths tout)
  && forallb (known (paths tin) (paths tout)) prog && forallb (fun f => bool_decide (is_Some (last_put prog f))) (paths tout).
Lemma exec_complete tin tout prog inb vs out err : machine_ok k -> complete tin tout prog = true ->
  fetch e k tin inb = Some vs -> sizeof k tout <= Z.of_nat (length out) ->
  exists out' ws, exec e k tin tout inb prog (out, err) = Some (out', if flagged vs prog then EOVERFLOW else err)
    /\ length out' = length out /\ fetch e k tout out' = Some ws /\ map fst ws = map fst vs /\ NoDup (map fst ws)
    /\ forall f, f ∈ paths tout -> value_at f ws = put_value tout vs prog f.
Proof.
  intros Hk Hc Hin Hl. unfold complete in Hc. rewrite !andb_true_iff, !bool_decide_eq_true in Hc.
  destruct Hc as ((((((Hti & Hto) & Hu) & Hn) & Hp) & Hkn) & Hall). pose proof (fetch_paths _ _ _ Hin) as Hvp.
  destruct (fetch_in tout out Hk Hto Hl) as [ws0 F0].
  destruct (run_values_spec tout vs (paths tin) prog Hvp ws0 err) as (ws & E & P & V); [by eapply fetch_paths|done|].
  destruct (exec_values tin tout Hk Hto Hu inb vs Hin prog out err ws0 _ Hl F0 E) as (out' & X & L & F). exists out', ws.
  split_and!; [done|done|done| |by rewrite P|].
  - rewrite P, Hvp. unfold paths in Hp. done.
  - intros f Hf. rewrite V by done. rewrite forallb_forall in Hall. specialize (Hall f (proj1 (list_elem_of_In _ _) Hf)).
    apply bool_decide_eq_true in Hall as [r ->]. done.
Qed.

(** *** Values that survive *)

(** Every value of the type [s] is one of [t]. *)
Definition sub (s t : scalar) : bool :=
  if scalar_signed s then scalar_signed t && (scalar_size k s <=? scalar_size k t)
  else if scalar_signed t then scalar_size k s <? scalar_size k t else scalar_size k s <=? scalar_size k t.
Lemma sub_holds s t v : sub s t = true -> holds k s v -> holds k t v.
Proof.
  unfold sub, holds. pose proof (scalar_size_pos k s). pose proof (scalar_size_pos k t).
  destruct (scalar_signed s), (scalar_signed t); simpl; try done; zcases; try done; intros _ Hv.
  - pose proof (Z.pow_le_mono_r 2 (8 * scalar_size k s - 1) (8 * scalar_size k t - 1)). lia.
  - pose proof (Z.pow_le_mono_r 2 (8 * scalar_size k s) (8 * scalar_size k t - 1)). lia.
  - pose proof (Z.pow_le_mono_r 2 (8 * scalar_size k s) (8 * scalar_size k t)). lia.
Qed.
Lemma casts_id s via v : forallb (sub s) via = true -> holds k s v -> casts k via v = v.
Proof.
  intros H Hv. unfold casts. induction via as [|t via IH]; simpl in *; [done|]. apply andb_true_iff in H as [H1 H2].
  rewrite (cast_id t v) by (by eapply sub_holds). by apply IH.
Qed.
(** Casts to wider types before a conversion do not matter. *)
Lemma wrapu_shrink w w' v : 0 <= w <= w' -> wrapu w (wrapu w' v) = wrapu w v.
Proof. intros H. unfold wrapu. apply Z.mod_mod_divide. exists (2 ^ (w' - w)). rewrite <- Z.pow_add_r by lia. f_equal. lia. Qed.
Lemma cast_cast s t v : scalar_size k t <= scalar_size k s -> cast k t (cast k s v) = cast k t v.
Proof.
  intros Hst. pose proof (scalar_size_pos k s). pose proof (scalar_size_pos k t).
  assert (wrapu (8 * scalar_size k t) (cast k s v) = wrapu (8 * scalar_size k t) v) as E.
  { unfold cast. destruct (scalar_signed s); [rewrite <- (wrapu_shrink _ (8 * scalar_size k s)), wrapu_wraps by lia|]; apply wrapu_shrink; lia. }
  unfold cast at 1 3. destruct (scalar_signed t); [|done]. rewrite <- wraps_wrapu, E, wraps_wrapu by lia. done.
Qed.
Lemma casts_wide t via v : forallb (fun s => scalar_size k t <=? scalar_size k s) via = true -> cast k t (casts k via v) = cast k t v.
Proof.
  unfold casts. revert v. induction via as [|s via IH]; intros v; simpl; [done|]. intros [H1%Z.leb_le H2]%andb_true_iff.
  rewrite IH by done. by apply cast_cast.
Qed.

(** An assignment that keeps every value of the type [s]. *)
Definition keeps (s : scalar) (r : rhs) (d : scalar) : bool :=
  match r with
  | As via => forallb (sub s) (via ++ [d])
  | Clamp bound via => forallb (sub s) (via ++ [d]) && (2 ^ (8 * scalar_size k s - if scalar_signed s then 1 else 0) - 1 <=? bound)
  | Call _ | Zero => false
  end.
Lemma keeps_eval s r d v : keeps s r d = true -> holds k s v -> cast k d (eval k r v) = v.
Proof.
  assert (forall via, forallb (sub s) (via ++ [d]) = true -> holds k s v -> cast k d (casts k via v) = v) as H.
  { intros via H Hv. rewrite forallb_app, andb_true_iff in H. destruct H as [H1 H2]. simpl in H2. rewrite andb_true_r in H2.
    rewrite (casts_id s) by done. apply cast_id. by eapply sub_holds. }
  destruct r as [via|bound via| |]; simpl; try done; [by apply H|]. intros [H1 H2%Z.leb_le]%andb_true_iff Hv.
  destruct (Z.gtb_spec v bound); [|by apply H]. exfalso. unfold holds in Hv. destruct (scalar_signed s); [lia|].
  rewrite Z.sub_0_r in H2. lia.
Qed.
Definition preserves (t32 tout : ctype) (prog : list statement) : bool :=
  forallb (fun f => match last_put prog f, type_at t32 f, type_at tout f with Some r, Some s, Some d => keeps s r d | _, _, _ => false end) (paths tout).
(** The values of a list are of the types of the members. *)
Definition typed (t : ctype) (vs : list (list step * Z)) : Prop := forall f v s, value_at f vs = Some v -> type_at t f = Some s -> holds k s v.
Lemma preserves_all t32 tout prog vs ws : preserves t32 tout prog = true -> typed t32 vs -> map fst ws = map fst vs -> NoDup (map fst ws) ->
  map fst ws = paths tout -> (forall f, f ∈ paths tout -> value_at f ws = put_value tout vs prog f) -> ws = vs.
Proof.
  intros Hp Hty Hf Hn Hpo V. apply values_ext; [done|done|]. intros f Hin. pose proof Hin as Hin2. rewrite Hf in Hin2. rewrite Hpo in Hin.
  rewrite V by done. unfold preserves in Hp. rewrite forallb_forall in Hp. specialize (Hp f (proj1 (list_elem_of_In _ _) Hin)).
  unfold put_value. destruct (last_put prog f) as [r|]; [|done]. destruct (type_at t32 f) as [s|] eqn:Es; [|done].
  destruct (type_at tout f) as [d|]; [|done]. destruct (value_at_in f vs Hin2) as [v Ev]. rewrite Ev. simpl. f_equal.
  eapply keeps_eval; [done|]. by eapply Hty.
Qed.
Lemma fetch_typed t mem vs : Forall is_byte mem -> fetch e k t mem = Some vs -> typed t vs.
Proof.
  intros Hb Hf f v s Hv Hs. unfold type_at in Hs. destruct (member_place k t f) as [p|] eqn:Ep; [|done]. injection Hs as <-. by eapply fetch_holds.
Qed.

(** What a member of 32 bits is given: the value cut to its type, time
    stamps limited from above. *)
Definition stamp (f : list step) : bool := bool_decide (head f = Some (Member "timestamp")).
Definition clamped (f : list step) (v : Z) : Z := if stamp f then Z.min v TIME32_MAX else v.
Definition narrows (t32 : ctype) (prog : list statement) : bool :=
  forallb (fun f =>
    match type_at t32 f with
    | Some d =>
        match last_put prog f with
        | Some (As via) => negb (stamp f) && forallb (fun s => scalar_size k d <=? scalar_size k s) via
        | Some (Clamp bound via) => stamp f && (bound =? TIME32_MAX) && forallb (fun s => scalar_size k d <=? scalar_size k s) via
        | _ => false
        end
    | None => false
    end) (paths t32).
Lemma narrows_put t32 prog vs f v d : narrows t32 prog = true -> f ∈ paths t32 -> value_at f vs = Some v -> type_at t32 f = Some d ->
  put_value t32 vs prog f = Some (cast k d (clamped f v)).
Proof.
  intros Hn Hin Hv Hd. unfold narrows in Hn. rewrite forallb_forall in Hn. specialize (Hn f (proj1 (list_elem_of_In _ _) Hin)). rewrite Hd in Hn.
  unfold put_value. rewrite Hv, Hd. destruct (last_put prog f) as [r|]; [|done]. simpl. unfold clamped.
  destruct r as [via|bound via| |]; try done.
  - apply andb_true_iff in Hn as [->%negb_true_iff Hw]. simpl. by rewrite casts_wide.
  - rewrite !andb_true_iff in Hn. destruct Hn as [[-> ->%Z.eqb_eq] Hw]. simpl. destruct (Z.gtb_spec v TIME32_MAX); [by rewrite Z.min_r by lia|].
    rewrite casts_wide, Z.min_l by (done || lia). done.
Qed.
Definition only_puts (prog : list statement) : bool := forallb (fun s => match s with Put _ _ => true | Overflow_if _ _ => false end) prog.
Lemma only_puts_flagged vs prog : only_puts prog = true -> flagged vs prog = false.
Proof. induction prog as [|[f r|f b] prog IH]; simpl; [done|apply IH|done]. Qed.
End Values.

(** ** The conversions without errors *)
Definition conversions : list (ctype * ctype * list statement * list statement) :=
  [(vtoc32, vtoc, vtoc32tovtoc, vtoctovtoc32);
   (cdrom_read32, cdrom_read, cdrom_read32tocdrom_read, cdrom_readtocdrom_read32);
   (cdrom_cdda32, cdrom_cdda, cdrom_cdda32tocdrom_cdda, cdrom_cddatocdrom_cdda32);
   (cdrom_cdxa32, cdrom_cdxa, cdrom_cdxa32tocdrom_cdxa, cdrom_cdxatocdrom_cdxa32);
   (cdrom_subcode32, cdrom_subcode, cdrom_subcode32tocdrom_subcode, cdrom_subcodetocdrom_subcode32);
   (timespec32, timespec, TIMESPEC32_TO_TIMESPEC [], TIMESPEC_TO_TIMESPEC32 []);
   (itimerspec32, itimerspec, ITIMERSPEC32_TO_ITIMERSPEC, ITIMERSPEC_TO_ITIMERSPEC32)].
Definition conversion_check (k u : machine) (c : ctype * ctype * list statement * list statement) : bool :=
  let '(t32, t, up, down) := c in
  same_view k u (t32, t) && complete k t32 t up && complete k t t32 down && preserves k t32 t up && preserves k t32 t32 down
  && narrows k t32 down && only_puts up && only_puts down.
Lemma conversions_check k u : kernel_user k u -> forallb (conversion_check k u) conversions = true.
Proof. intros [[-> ->]|[-> ->]]%kernel_user_cases; vm_cast_no_check (@eq_refl bool true). Qed.

Section Conversion.
Context (e : endian) (k u : machine) (Hku : kernel_user k u) (t32 t : ctype) (up down : list statement) (Hc : In (t32, t, up, down) conversions).

Lemma conversion_ok : view k t32 = view u t /\ machine_ok k /\ complete k t32 t up = true /\ complete k t t32 down = true
  /\ preserves k t32 t up = true /\ preserves k t32 t32 down = true /\ narrows k t32 down = true /\ only_puts up = true /\ only_puts down = true.
Proof.
  pose proof (conversions_check k u Hku) as H. rewrite forallb_forall in H. specialize (H _ Hc). unfold conversion_check in H.
  rewrite !andb_true_iff in H. destruct H as (((((((H1 & ?) & ?) & ?) & ?) & ?) & ?) & ?). apply same_view_spec in H1 as [? _].
  destruct (kernel_user_ok k u Hku). done.
Qed.

Lemma widen_values user out vs : Forall is_byte user -> fetch e u t user = Some vs -> sizeof k t <= Z.of_nat (length out) ->
  exists buf, exec e k t32 t user up (out, 0) = Some (buf, 0) /\ length buf = length out /\ fetch e k t buf = Some vs /\ typed k t32 vs.
Proof.
  destruct conversion_ok as (Hv & Hk & Hup & _ & Hpre & _ & _ & Hpu & _). intros Hb Hf Hl. rewrite <- (fetch_view e k u t32 t) in Hf by done.
  destruct (exec_complete e k t32 t up user vs out 0 Hk Hup Hf Hl) as (buf & ws & E & L & F & P & N & V).
  pose proof (fetch_typed e k t32 user vs Hb Hf) as Hty. rewrite (only_puts_flagged vs up Hpu) in E. exists buf. split_and!; [done..| |done].
  rewrite F. f_equal. eapply preserves_all; [exact Hpre|done|done|done|by eapply fetch_paths|done].
Qed.
Lemma narrow_values mem ws out : fetch e k t mem = Some ws -> sizeof k t32 <= Z.of_nat (length out) ->
  exists buf ws32, exec e k t t32 mem down (out, 0) = Some (buf, 0) /\ length buf = length out /\ fetch e k t32 buf = Some ws32
    /\ (typed k t32 ws -> ws32 = ws)
    /\ forall f v d, value_at f ws = Some v -> type_at k t32 f = Some d -> value_at f ws32 = Some (cast k d (clamped f v)).
Proof.
  destruct conversion_ok as (Hv & Hk & _ & Hdn & _ & Hpre & Hna & _ & Hpd). intros Hf Hl.
  destruct (exec_complete e k t t32 down mem ws out 0 Hk Hdn Hf Hl) as (buf & ws32 & E & L & F & P & N & V).
  rewrite (only_puts_flagged ws down Hpd) in E. exists buf, ws32. pose proof (fetch_paths _ _ _ _ _ F) as Hp. split_and!; [done..| |].
  - intros Hty. eapply preserves_all; [exact Hpre|done|done|done|exact Hp|done].
  - intros f v d Hvf Hd. assert (f ∈ paths k t32) as Hin.
    { unfold paths. rewrite <- Hp, P. clear -Hvf. induction ws as [|[g w] ws IH]; simpl in *; [done|]. case_bool_decide; [subst; apply list_elem_of_here|].
      apply list_elem_of_further, IH, Hvf. }
    rewrite V by done. by apply narrows_put.
Qed.
End Conversion.

(** C29: converting structures.  For the table of contents of a disk, four CD-ROM
    requests, times and timers, on either byte order and both architectures: the
    conversion for the kernel sets every member to the value the 32-bit program
    stored, whatever the memory held, and the conversion back gives the program
    the same values; and for any structure of the kernel each 32-bit member gets
    the kernel's value cut to its type, but a time stamp beyond the last 32-bit
    time becomes that time. *)
Theorem conversions32 e k u t32 t up down user out vs :
  kernel_user k u -> In (t32, t, up, down) conversions -> Forall is_byte user -> fetch e u t user = Some vs -> Z.of_nat (length out) = sizeof k t ->
  (exists buf, exec e k t32 t user up (out, 0) = Some (buf, 0) /\ fetch e k t buf = Some vs
     /\ forall out32, Z.of_nat (length out32) = sizeof u t ->
          exists buf32, exec e k t t32 buf down (out32, 0) = Some (buf32, 0) /\ fetch e u t buf32 = Some vs)
  /\ forall mem ws out32, fetch e k t mem = Some ws -> Z.of_nat (length out32) = sizeof u t ->
       exists buf32 ws32, exec e k t t32 mem down (out32, 0) = Some (buf32, 0) /\ fetch e u t buf32 = Some ws32
         /\ forall f v d, value_at f ws = Some v -> type_at k t32 f = Some d -> value_at f ws32 = Some (cast k d (clamped f v)).
Proof.
  intros Hku Hc Hb Hf Hl. destruct (conversion_ok k u Hku t32 t up down Hc) as (Hv & _). pose proof Hv as [= Hs _].
  split.
  - destruct (widen_values e k u Hku t32 t up down Hc user out vs Hb Hf) as (buf & E & L & F & Hty); [lia|]. exists buf. split_and!; [done..|].
    intros out32 Hl32. destruct (narrow_values e k u Hku t32 t up down Hc buf vs out32 F) as (buf32 & ws32 & E32 & _ & F32 & Hsame & _); [lia|].
    exists buf32. split; [done|]. rewrite <- (fetch_view e k u t32 t), F32 by done. f_equal. by apply Hsame.
  - intros mem ws out32 Hm Hl32. destruct (narrow_values e k u Hku t32 t up down Hc mem ws out32 Hm) as (buf32 & ws32 & E32 & _ & F32 & _ & Hn); [lia|].
    exists buf32, ws32. split_and!; [done| |done]. by rewrite <- (fetch_view e k u t32 t), F32 by done.
Qed.
Definition sample_time : list Z := [1; 2; 3; 4; 5; 6; 7; 8].
Lemma conversions32_witness : exists buf, exec LittleEndian amd64 timespec32 timespec sample_time (TIMESPEC32_TO_TIMESPEC []) (replicate 16 9, 0) = Some (buf, 0)
  /\ fetch LittleEndian amd64 timespec buf = fetch LittleEndian i386 timespec sample_time.
Proof.
  destruct (conversions32 LittleEndian amd64 i386 timespec32 timespec (TIMESPEC32_TO_TIMESPEC []) (TIMESPEC_TO_TIMESPEC32 []) sample_time (replicate 16 9)
    [([Member "tv_sec"], 0x4030201); ([Member "tv_nsec"], 0x8070605)]) as [(buf & H1 & H2 & _) _].
  - unfold kernel_user. simpl. split_and!; auto.
  - simpl. tauto.
  - unfold sample_time, is_byte. repeat constructor; lia.
  - by vm_compute.
  - by vm_compute.
  - exists buf. split; [exact H1|]. rewrite H2. by vm_compute.
Defined.

(** [ITIMERSPEC_OVERFLOW] asks whether both times of a timer overflow: a timer
    with one time beyond 32 bits passes the test and is changed by the
    conversion. *)
Lemma itimerspec_overflow_misses : exists mem ws buf ws32,
  fetch LittleEndian amd64 itimerspec mem = Some ws /\ ITIMERSPEC_OVERFLOW ws = Some false
  /\ exec LittleEndian amd64 itimerspec itimerspec32 mem ITIMERSPEC_TO_ITIMERSPEC32 (replicate 16 0, 0) = Some (buf, 0)
  /\ fetch LittleEndian i386 itimerspec buf = Some ws32 /\ ws32 <> ws.
Proof.
  exists (replicate 20 0 ++ [1] ++ replicate 11 0). do 3 eexists. split; [by vm_compute|]. split; [by vm_compute|].
  split; [by vm_compute|]. split; [by vm_compute|]. discriminate.
Qed.
