(* ===== verification/CacheFs.v ===== *)
(** * The attributes of a cached file: sys/fs/cachefs_fs.h

    The cache file system keeps the attributes of files on disk with 32-bit
    times and device numbers.  The macros that convert them in a 64-bit kernel
    are programs of statements ([Convert]); they set [error] where a value has no
    32-bit form.  The copy of a file identifier, whose length is in the data, is
    not modelled; in a 32-bit kernel the macros are structure assignments. *)
From Stdlib Require Import String.
From S2P Require Import Prelude ByteOrder Time CTypes AbiTypes.
From S2P Require Import Abi32Fs Abi DataModel Convert.
#[local] Open Scope Z_scope.

(** [cmpldev] stores a device number of 32 bits and returns zero if there is
    none, [expldev] expands it. *)
Section Cachefs.
Context (cmpldev : Z -> Z * Z) (expldev : Z -> Z).
Definition CACHEFS_DEV_TO_DEV32_COPY (field : list step) : list statement :=
  [Put field (Call (fun dev => (cmpldev dev).1)); Overflow_if field (fun dev => (cmpldev dev).2 =? 0)].
Definition CACHEFS_DEV32_TO_DEV_COPY (field : list step) : list statement := [Put field (Call (fun dev => wrapu 64 (expldev dev)))].
Definition TIME_OVERFLOW (tval : Z) : bool := (tval <? TIME32_MIN) || (tval >? TIME32_MAX).
Definition CACHEFS_TIME_TO_TIME32_COPY (field : list step) : list statement := [Put field (As []); Overflow_if field TIME_OVERFLOW].
Definition CACHEFS_TIME32_TO_TIME_COPY (field : list step) : list statement := [Put field (As [])].
Definition CACHEFS_TS_TO_TS32_COPY (ts : list step) : list statement :=
  Put (ts ++ [Member "tv_nsec"]) (As []) :: CACHEFS_TIME_TO_TIME32_COPY (ts ++ [Member "tv_sec"]).
Definition CACHEFS_TS32_TO_TS_COPY (ts : list step) : list statement :=
  Put (ts ++ [Member "tv_nsec"]) (As []) :: CACHEFS_TIME32_TO_TIME_COPY (ts ++ [Member "tv_sec"]).
Definition CACHEFS_VATTR_TO_VATTR32_COPY : list statement :=
  [Put [Member "va_mask"] (As []); Put [Member "va_type"] (As []); Put [Member "va_mode"] (As []);
   Put [Member "va_uid"] (As []); Put [Member "va_gid"] (As [])] ++
  CACHEFS_DEV_TO_DEV32_COPY [Member "va_fsid"] ++
  [Put [Member "va_nodeid"] (As []); Put [Member "va_nlink"] (As []); Put [Member "va_size"] (As [])] ++
  CACHEFS_TS_TO_TS32_COPY [Member "va_atime"] ++ CACHEFS_TS_TO_TS32_COPY [Member "va_mtime"] ++
  CACHEFS_TS_TO_TS32_COPY [Member "va_ctime"] ++ CACHEFS_DEV_TO_DEV32_COPY [Member "va_rdev"] ++
  [Put [Member "va_blksize"] (As []); Put [Member "va_nblocks"] (As []); Put [Member "va_seq"] Zero].
Definition CACHEFS_VATTR32_TO_VATTR_COPY : list statement :=
  [Put [Member "va_mask"] (As []); Put [Member "va_type"] (As []); Put [Member "va_mode"] (As []);
   Put [Member "va_uid"] (As []); Put [Member "va_gid"] (As [])] ++
  CACHEFS_DEV32_TO_DEV_COPY [Member "va_fsid"] ++
  [Put [Member "va_nodeid"] (As []); Put [Member "va_nlink"] (As []); Put [Member "va_size"] (As [])] ++
  CACHEFS_TS32_TO_TS_COPY [Member "va_atime"] ++ CACHEFS_TS32_TO_TS_COPY [Member "va_mtime"] ++
  CACHEFS_TS32_TO_TS_COPY [Member "va_ctime"] ++ CACHEFS_DEV32_TO_DEV_COPY [Member "va_rdev"] ++
  [Put [Member "va_blksize"] (As []); Put [Member "va_nblocks"] (As []); Put [Member "va_seq"] Zero].
End Cachefs.

(** ** The attributes of a cached file *)
Section Attributes.
Context (e : endian) (k u : machine) (Hku : kernel_user k u) (cmpldev : Z -> Z * Z) (expldev : Z -> Z).

Definition attr_devs : list (list step) := [[Member "va_fsid"]; [Member "va_rdev"]].
Definition attr_times : list (list step) := [[Member "va_atime"]; [Member "va_mtime"]; [Member "va_ctime"]].
Definition time_fields : list string := ["tv_sec"%string; "tv_nsec"%string].
(** The devices have a short form, and the times are 32-bit times. *)
Definition attr_fits (ws : list (list step * Z)) : Prop :=
  (forall f d, In f attr_devs -> value_at f ws = Some d -> (cmpldev d).2 <> 0)
  /\ (forall f s, In f attr_times -> value_at (f ++ [Member "tv_sec"]) ws = Some s -> TIME32_MIN <= s <= TIME32_MAX).
Definition seq_field : list step := [Member "va_seq"].
Definition changed (f : list step) : bool :=
  bool_decide (f ∈ seq_field :: attr_devs ++ map (fun t => t ++ [Member "tv_sec"]) attr_times ++ map (fun t => t ++ [Member "tv_nsec"]) attr_times).
Definition to32 := CACHEFS_VATTR_TO_VATTR32_COPY cmpldev.
Definition to64 := CACHEFS_VATTR32_TO_VATTR_COPY expldev.

Lemma attr_complete : complete k vattr vattr32 to32 = true /\ complete k vattr32 vattr to64 = true.
Proof. destruct (kernel_user_cases k u Hku) as [[-> ->]|[-> ->]]; by vm_compute. Qed.
Lemma attr_paths : paths k vattr32 = paths k vattr /\ seq_field ∈ paths k vattr /\ (forall f, In f attr_devs -> f ∈ paths k vattr)
  /\ forall f, In f attr_times -> f ++ [Member "tv_sec"] ∈ paths k vattr.
Proof.
  assert (paths k vattr32 = paths k vattr
    /\ forallb (fun f => bool_decide (f ∈ paths k vattr)) (seq_field :: attr_devs ++ map (fun t => t ++ [Member "tv_sec"]) attr_times) = true) as [-> H]
    by (destruct (kernel_user_cases k u Hku) as [[-> ->]|[-> ->]]; by vm_compute).
  rewrite forallb_forall in H. assert (forall f, In f (seq_field :: attr_devs ++ map (fun t => t ++ [Member "tv_sec"]) attr_times) -> f ∈ paths k vattr) as H'
    by (intros f Hf; by eapply bool_decide_eq_true_1, H). split_and!; [done|apply H'; by left|intros f Hf|intros f Hf].
  - apply H'. right. apply in_or_app. by left.
  - apply H'. right. apply in_or_app. right. by apply (in_map (fun t => t ++ [Member "tv_sec"])).
Qed.
(** The members that are only copied have types of the same range. *)
Lemma attr_copied f : f ∈ paths k vattr -> changed f = false ->
  exists r r' s d, last_put to32 f = Some r /\ last_put to64 f = Some r' /\ type_at k vattr f = Some s /\ type_at k vattr32 f = Some d
    /\ keeps k s r d = true /\ keeps k s r' s = true.
Proof.
  assert (forallb (fun f => changed f || match last_put to32 f, last_put to64 f, type_at k vattr f, type_at k vattr32 f with
    | Some r, Some r', Some s, Some d => keeps k s r d && keeps k s r' s | _, _, _, _ => false end) (paths k vattr) = true) as H
    by (destruct (kernel_user_cases k u Hku) as [[-> ->]|[-> ->]]; by vm_compute).
  intros Hin Hch. rewrite forallb_forall in H. specialize (H f (proj1 (list_elem_of_In _ _) Hin)). rewrite Hch, orb_false_l in H.
  destruct (last_put to32 f) as [r|]; [|done]. destruct (last_put to64 f) as [r'|]; [|done]. destruct (type_at k vattr f) as [s|]; [|done].
  destruct (type_at k vattr32 f) as [d|]; [|done]. apply andb_true_iff in H as [? ?]. naive_solver.
Qed.
Lemma attr_flagged ws : map fst ws = paths k vattr -> flagged ws to32 = false <-> attr_fits ws.
Proof.
  intros Hp. destruct attr_paths as (_ & _ & Hd & Ht).
  assert (forall f, f ∈ paths k vattr -> exists v, value_at f ws = Some v) as Hv by (intros f Hf; rewrite <- Hp in Hf; by apply value_at_in).
  destruct (Hv _ (Hd [Member "va_fsid"] ltac:(simpl; auto))) as [d1 E1]. destruct (Hv _ (Hd [Member "va_rdev"] ltac:(simpl; auto))) as [d2 E2].
  destruct (Hv _ (Ht [Member "va_atime"] ltac:(simpl; auto))) as [s1 F1]. destruct (Hv _ (Ht [Member "va_mtime"] ltac:(simpl; auto))) as [s2 F2].
  destruct (Hv _ (Ht [Member "va_ctime"] ltac:(simpl; auto))) as [s3 F3]. simpl in F1, F2, F3.
  unfold flagged, to32. cbn -[value_at TIME_OVERFLOW]. rewrite E1, E2, F1, F2, F3. unfold TIME_OVERFLOW.
  rewrite !Z.gtb_ltb, !orb_false_iff, !Z.eqb_neq, !Z.ltb_ge. unfold attr_fits. split.
  - intros (H1 & H2 & H3 & H4 & H5 & _). split; simpl; intros f x; [intros [<-|[<-|[]]]|intros [<-|[<-|[<-|[]]]]]; simpl; congruence || intros Hx;
      rewrite ?F1, ?F2, ?F3 in Hx; injection Hx as <-; lia.
  - intros [H1 H2]. pose proof (H1 [Member "va_fsid"] _ ltac:(simpl; auto) E1). pose proof (H1 [Member "va_rdev"] _ ltac:(simpl; auto) E2).
    pose proof (H2 [Member "va_atime"] _ ltac:(simpl; auto) F1). pose proof (H2 [Member "va_mtime"] _ ltac:(simpl; auto) F2).
    pose proof (H2 [Member "va_ctime"] _ ltac:(simpl; auto) F3). lia.
Qed.

(** The members that are not only copied. *)
Lemma attr_dev f : In f attr_devs ->
  last_put to32 f = Some (Call (fun dev => (cmpldev dev).1)) /\ last_put to64 f = Some (Call (fun dev => wrapu 64 (expldev dev)))
  /\ type_at k vattr32 f = Some UInt /\ type_at k vattr f = Some ULong.
Proof. destruct (kernel_user_cases k u Hku) as [[-> ->]|[-> ->]]; intros [<-|[<-|[]]]; split_and!; reflexivity. Qed.
Lemma attr_time f n : In f attr_times -> In n time_fields ->
  last_put to32 (f ++ [Member n]) = Some (As []) /\ last_put to64 (f ++ [Member n]) = Some (As [])
  /\ type_at k vattr32 (f ++ [Member n]) = Some Int /\ type_at k vattr (f ++ [Member n]) = Some Long.
Proof.
  destruct (kernel_user_cases k u Hku) as [[-> ->]|[-> ->]]; intros [<-|[<-|[<-|[]]]] [<-|[<-|[]]]; split_and!; reflexivity.
Qed.
Lemma attr_seq : last_put to64 seq_field = Some Zero /\ type_at k vattr seq_field = Some UInt
  /\ last_put to32 seq_field = Some Zero /\ type_at k vattr32 seq_field = Some UInt.
Proof. destruct (kernel_user_cases k u Hku) as [[-> ->]|[-> ->]]; split_and!; reflexivity. Qed.
Lemma changed_cases f : changed f = true ->
  f = seq_field \/ In f attr_devs \/ exists t n, In t attr_times /\ In n time_fields /\ f = t ++ [Member n].
Proof.
  intros [->|H]%bool_decide_eq_true%elem_of_cons; [by left|right]. rewrite !list_elem_of_In, !in_app_iff, !in_map_iff in H.
  destruct H as [H|[(t & <- & H)|(t & <- & H)]]; [by left|right; exists t, "tv_sec"%string|right; exists t, "tv_nsec"%string]; simpl; auto.
Qed.
Lemma changed_seq f : changed f = false -> f <> seq_field.
Proof. intros H ->. by vm_compute in H. Qed.
Lemma long_width_k : scalar_size k ULong = 8 /\ scalar_size k Long = 8.
Proof. destruct (kernel_user_cases k u Hku) as [[-> ->]|[-> ->]]; done. Qed.

(** The value a member has after both conversions: a device is compressed and
    expanded, the parts of a time go through an [int32_t]. *)
Definition cached (f : list step) (v : Z) : Z :=
  if bool_decide (f = seq_field) then 0
  else if bool_decide (f ∈ attr_devs) then wrapu 64 (expldev (u32 (cmpldev v).1))
  else if bool_decide (f ∈ map (fun t => t ++ [Member "tv_sec"]) attr_times ++ map (fun t => t ++ [Member "tv_nsec"]) attr_times) then s32 v
  else v.
Lemma attr_back ws ws32 f v : typed k vattr ws ->
  f ∈ paths k vattr -> value_at f ws = Some v -> value_at f ws32 = put_value k vattr32 ws to32 f ->
  put_value k vattr ws32 to64 f = Some (cached f v).
Proof.
  intros Hty Hin Hv H32. destruct (changed f) eqn:Ec; [apply changed_cases in Ec as [->|[Hf|(t & n & Hf & Hn & ->)]]|].
  - destruct attr_seq as (L1 & T1 & L2 & T2). unfold put_value in *. rewrite L2, T2, Hv in H32.
    simpl in H32. by rewrite L1, T1, H32.
  - destruct (attr_dev f Hf) as (L1 & L2 & T1 & T2). destruct long_width_k as [Hw _].
    assert (cached f v = wrapu 64 (expldev (u32 (cmpldev v).1))) as -> by (by destruct Hf as [<-|[<-|[]]]).
    unfold put_value in *. rewrite L1, T1, Hv in H32. simpl in H32. rewrite L2, T2, H32. simpl. f_equal.
    unfold cast. simpl in *. rewrite Hw. apply wrapu_id, wrapu_range. lia.
  - destruct (attr_time t n Hf Hn) as (L1 & L2 & T1 & T2). destruct long_width_k as [_ Hw].
    assert (cached (t ++ [Member n]) v = s32 v) as -> by (by destruct Hf as [<-|[<-|[<-|[]]]], Hn as [<-|[<-|[]]]).
    unfold put_value in *. rewrite L1, T1, Hv in H32. simpl in H32. rewrite L2, T2, H32. simpl. f_equal. unfold casts. simpl.
    apply cast_id. unfold holds, cast. simpl in *. rewrite Hw. pose proof (wraps_range 32 v ltac:(lia)). lia.
  - assert (cached f v = v) as ->.
    { unfold cached. pose proof (bool_decide_eq_false_1 _ Ec) as Hn. rewrite !elem_of_cons, !elem_of_app in Hn.
      rewrite !bool_decide_eq_false_2; [done|rewrite elem_of_app; tauto|tauto..]. }
    destruct (attr_copied f Hin Ec) as (r & r' & s & d & L1 & L2 & T1 & T2 & K1 & K2).
    specialize (Hty f v s Hv T1). unfold put_value in *. rewrite L1, T2, Hv in H32. simpl in H32. rewrite (keeps_eval k s r d v) in H32 by done.
    rewrite L2, T1, H32. simpl. by rewrite (keeps_eval k s r' s v).
Qed.
End Attributes.

Lemma value_at_map (g : list step -> Z -> Z) f l : value_at f (map (fun a => (a.1, g a.1 a.2)) l) = g f <$> value_at f l.
Proof. induction l as [|[f' v] l IH]; simpl; [done|]. case_bool_decide; [by subst|done]. Qed.

(** C30: the attributes of a cached file, whatever [cmpldev] and [expldev] do.  The
    conversion for the disk always completes; it sets [error] to [EOVERFLOW] exactly
    when a time is no 32-bit time or [cmpldev] reports a device without a short
    form, and leaves it as it was otherwise.  The conversion back always completes
    and leaves [error] alone; it gives every attribute the value it had, but the
    sequence number, which is zero, the devices, which are what [expldev] makes of
    the 32 bits [cmpldev] stored, and the seconds and nanoseconds, of which the low
    32 bits are left, as a signed number: for the seconds, if there was no error,
    and for a proper number of nanoseconds this is the value it had. *)
Theorem cached_attributes e k u cmpldev expldev mem ws out err :
  kernel_user k u -> Forall is_byte mem -> fetch e k vattr mem = Some ws -> Z.of_nat (length out) = sizeof k vattr32 ->
  exists buf err', exec e k vattr vattr32 mem (CACHEFS_VATTR_TO_VATTR32_COPY cmpldev) (out, err) = Some (buf, err')
    /\ (~ attr_fits cmpldev ws -> err' = EOVERFLOW) /\ (attr_fits cmpldev ws -> err' = err)
    /\ (forall out64 err64, Z.of_nat (length out64) = sizeof k vattr ->
          exists buf64, exec e k vattr32 vattr buf (CACHEFS_VATTR32_TO_VATTR_COPY expldev) (out64, err64) = Some (buf64, err64)
            /\ fetch e k vattr buf64 = Some (map (fun a => (a.1, cached cmpldev expldev a.1 a.2)) ws))
    /\ (forall t s, In t attr_times -> value_at (t ++ [Member "tv_sec"]) ws = Some s -> attr_fits cmpldev ws ->
          cached cmpldev expldev (t ++ [Member "tv_sec"]) s = s)
    /\ (forall t n, In t attr_times -> 0 <= n < 10 ^ 9 -> cached cmpldev expldev (t ++ [Member "tv_nsec"]) n = n).
Proof.
  intros Hku Hb Hf Hl. destruct (kernel_user_ok k u Hku) as [Hk _]. destruct (attr_complete k u Hku cmpldev expldev) as [C1 C2].
  destruct (attr_paths k u Hku) as (Hpp & Hseq & _). pose proof (fetch_paths _ _ _ _ _ Hf) as Hwp.
  destruct (exec_complete e k vattr vattr32 (to32 cmpldev) mem ws out err Hk C1 Hf) as (buf & ws32 & E & L & F & P & N & V); [lia|].
  exists buf. eexists. split; [exact E|]. pose proof (attr_flagged k u Hku cmpldev ws Hwp) as Hfl. split_and!.
  - intros Hno. destruct (flagged _ _); [done|]. by apply proj1 in Hfl; destruct (Hno (Hfl eq_refl)).
  - intros Hfit. by rewrite (proj2 Hfl Hfit).
  - intros out64 err64 Hl64.
    destruct (exec_complete e k vattr32 vattr (to64 expldev) buf ws32 out64 err64 Hk C2 F) as (buf64 & ws64 & E64 & L64 & F64 & P64 & N64 & V64); [lia|].
    exists buf64. split; [exact E64|]. rewrite F64. f_equal. apply values_ext; [by rewrite map_map, P64, P|done|].
    intros f Hin. rewrite P64, P, Hwp in Hin. fold (paths k vattr) in Hin. rewrite V64 by done. destruct (value_at_in f ws) as [v Hv]; [by rewrite Hwp|].
    rewrite (attr_back k u Hku cmpldev expldev ws ws32 f v); [|by eapply fetch_typed|done|done|apply V; by rewrite Hpp].
    by rewrite value_at_map, Hv.
  - intros t s Ht Hs [_ Hfit]. specialize (Hfit t s Ht Hs). assert (cached cmpldev expldev (t ++ [Member "tv_sec"]) s = s32 s) as ->
      by (by destruct Ht as [<-|[<-|[<-|[]]]]). apply wraps_id; unfold TIME32_MIN, TIME32_MAX in *; lia.
  - intros t n Ht Hn. assert (cached cmpldev expldev (t ++ [Member "tv_nsec"]) n = s32 n) as ->
      by (by destruct Ht as [<-|[<-|[<-|[]]]]). apply wraps_id; lia.
Qed.
(** A compression of device numbers with 14 bits of major and 18 of minor number. *)
Definition sample_cmpldev (d : Z) : Z * Z :=
  if (d / 2 ^ 32 <? 2 ^ 14 - 1) && (d mod 2 ^ 32 <? 2 ^ 18) then (d / 2 ^ 32 * 2 ^ 18 + d mod 2 ^ 32, 1) else (2 ^ 32 - 1, 0).
Definition sample_expldev (c : Z) : Z := c / 2 ^ 18 * 2 ^ 32 + c mod 2 ^ 18.
Definition sample_attr : list Z := [5; 0; 0; 0] ++ replicate 132 0.
(** With a device that [sample_cmpldev] shortens and one it does not. *)
Lemma cached_attributes_witness :
  (exists buf err,
    exec BigEndian sparcv9 vattr vattr32 sample_attr (CACHEFS_VATTR_TO_VATTR32_COPY sample_cmpldev) (replicate (Z.to_nat (sizeof sparcv9 vattr32)) 1, 0) = Some (buf, err))
  /\ cached sample_cmpldev sample_expldev [Member "va_fsid"%string] (7 * 2 ^ 32 + 9) = 7 * 2 ^ 32 + 9
  /\ cached sample_cmpldev sample_expldev [Member "va_fsid"%string] (2 ^ 60) = 16383 * 2 ^ 32 + 262143.
Proof.
  split; [|by vm_compute].
  destruct (cached_attributes BigEndian sparcv9 sparcv8 sample_cmpldev sample_expldev sample_attr
    (default [] (fetch BigEndian sparcv9 vattr sample_attr)) (replicate (Z.to_nat (sizeof sparcv9 vattr32)) 1) 0) as (buf & err & H1 & _).
  - unfold kernel_user. simpl. split_and!; auto.
  - unfold sample_attr, is_byte. apply Forall_app. split; [repeat constructor; lia|apply Forall_replicate; lia].
  - by vm_compute.
  - by vm_compute.
  - exists buf, err. exact H1.
Defined.
