(* ===== verification/I2oData.v ===== *)
(** * I2O messages: data

    The structures with bit fields of [sys/i2o/i2omsg.h], [i2outil.h],
    [i2oexec.h], [i2omstr.h], [i2obscsi.h] and [i2oadptr.h], in the variants for
    little-endian and big-endian machines, and the accessor macros of both.  An
    accessor takes the value [w] of the integer that holds the field, which the
    big-endian macros fetch with [ddi_get32] or [ddi_get16]; an assignment gives
    the new value of that integer, which they store with [ddi_put32] or
    [ddi_put16].  [None]: the variant has no such macro, or its body names a
    member or a variable that is not there. *)
From Stdlib Require Import String.
From S2P Require Import Prelude ByteOrder CTypes AbiTypes BitFields AbiDevice.
#[local] Open Scope Z_scope.
#[local] Open Scope ctype_scope.


(** [sys/i2o/i2oadptr.h] *)
Definition i2o_hbq_flags_t : ctype := uint32_t.

(** [sys/i2o/i2obscsi.h] *)
Definition I2O_SCSI_SENSE_DATA_SZ : Z := 40.
Definition I2O_SCSI_CDB_LENGTH : Z := 16.

(** [sys/i2o/i2oexec.h] *)
Definition I2O_EXEC_IOP_RESET_RESERVED_SZ : Z := 16.
Definition I2O_EXEC_STATIC_MF_CREATE_RESERVED_SZ : Z := 3.
Definition I2O_EXEC_STATUS_GET_RESERVED_SZ : Z := 16.
Definition I2O_IOP_STATUS_PROD_ID_STR_SZ : Z := 24.

(** [sys/i2o/i2omsg.h] *)
Definition i2o_initiator_context_t : ctype :=
  union ["i2o_msg_complete" :- ptr;
     "initiator_context_32bits" :- uint32_t].
Definition i2o_transaction_context_t : ctype := uint32_t.

(** [sys/i2o/i2omstr.h] *)
Definition i2o_bsa_ctl_flags_t : ctype := uint16_t.
Definition i2o_bsa_read_flags_t : ctype := uint16_t.
Definition i2o_bsa_write_flags_t : ctype := uint16_t.
Definition i2o_bsa_reset_flags_t : ctype := uint16_t.
Definition i2o_bsa_verify_flags_t : ctype := uint16_t.
Definition i2o_bsa_media_id_t : ctype := uint32_t.
Definition i2o_bsa_load_flags_t : ctype := uint8_t.
Definition i2o_bsa_operation_t : ctype := uint8_t.

(** [sys/i2o/i2omsg.h] *)
Definition i2o_message_frame_u2_s2 (e : endian) : bitfields :=
  match e with
  | LittleEndian => Bitfields UInt [("TargetAddress"%string, 12); ("InitiatorAddress"%string, 12); ("Function"%string, 8)]
  | BigEndian => Bitfields UInt [("Function"%string, 8); ("InitiatorAddress"%string, 12); ("TargetAddress"%string, 12)]
  end.
Definition i2o_message_frame (e : endian) : ctype :=
  struct ["VersionOffset" :- uint8_t;
     "MsgFlags" :- uint8_t;
     "MessageSize" :- uint16_t;
     "u2" :- (union ["s2" :- bits (i2o_message_frame_u2_s2 e); "w2" :- uint32_t]);
     "InitiatorContext" :- i2o_initiator_context_t].
Definition get_msg_TargetAddress (e : endian) (w : Z) : option Z :=
  match e with
  | LittleEndian => bget e (i2o_message_frame_u2_s2 e) "TargetAddress" w
  | BigEndian => Some ((w .& 0xfff))
  end.
Definition put_msg_TargetAddress (e : endian) (w v : Z) : option Z :=
  match e with
  | LittleEndian => bput e (i2o_message_frame_u2_s2 e) "TargetAddress" w v
  | BigEndian => Some (u32 ((w .& .~ 0xfff) .| (v .& 0xfff)))
  end.
Definition get_msg_InitiatorAddress (e : endian) (w : Z) : option Z :=
  match e with
  | LittleEndian => bget e (i2o_message_frame_u2_s2 e) "InitiatorAddress" w
  | BigEndian => Some (((w >>> 12) .& 0xfff))
  end.
Definition put_msg_InitiatorAddress (e : endian) (w v : Z) : option Z :=
  match e with
  | LittleEndian => bput e (i2o_message_frame_u2_s2 e) "InitiatorAddress" w v
  | BigEndian => Some (u32 ((w .& .~ 0xfff000) .| ((v .& 0xfff) <<< 12)))
  end.
Definition get_msg_Function (e : endian) (w : Z) : option Z :=
  match e with
  | LittleEndian => bget e (i2o_message_frame_u2_s2 e) "Function" w
  | BigEndian => bget e (i2o_message_frame_u2_s2 e) "Function" w
  end.
Definition put_msg_Function (e : endian) (w v : Z) : option Z :=
  match e with
  | LittleEndian => bput e (i2o_message_frame_u2_s2 e) "Function" w v
  | BigEndian => bput e (i2o_message_frame_u2_s2 e) "Function" w v
  end.
Definition i2o_single_reply_message_frame (e : endian) : ctype :=
  struct ["StdMessageFrame" :- (i2o_message_frame e);
     "TransactionContext" :- i2o_transaction_context_t;
     "DetailedStatusCode" :- uint16_t;
     "reserved" :- uint8_t;
     "ReqStatus" :- uint8_t].
Definition i2o_multiple_reply_message_frame (e : endian) : ctype :=
  struct ["StdMessageFrame" :- (i2o_message_frame e);
     "TrlControlWord" :- i2o_trl_control_word;
     "DetailedStatusCode" :- uint16_t;
     "reserved" :- uint8_t;
     "ReqStatus" :- uint8_t].
Definition i2o_private_message_frame (e : endian) : ctype :=
  struct ["StdMessageFrame" :- (i2o_message_frame e);
     "TransactionContext" :- i2o_transaction_context_t;
     "XFunctionCode" :- uint16_t;
     "OrganizationID" :- uint16_t].
Definition i2o_failure_reply_message_frame_u1_s (e : endian) : bitfields :=
  match e with
  | LittleEndian => Bitfields UShort [("FailingIOP_ID"%string, 12); ("reserved"%string, 4)]
  | BigEndian => Bitfields UShort [("reserved"%string, 4); ("FailingIOP_ID"%string, 12)]
  end.
Definition i2o_failure_reply_message_frame (e : endian) : ctype :=
  struct ["StdMessageFrame" :- (i2o_message_frame e);
     "TransactionContext" :- i2o_transaction_context_t;
     "LowestVersion" :- uint8_t;
     "HighestVersion" :- uint8_t;
     "Severity" :- uint8_t;
     "FailureCode" :- uint8_t;
     "u1" :- (union ["s" :- bits (i2o_failure_reply_message_frame_u1_s e); "h" :- uint16_t]);
     "FailingHostUnitID" :- uint16_t;
     "AgeLimit" :- uint32_t;
     "PreservedMFA" :- ptr].
Definition get_reply_msg_FailingIOP_ID (e : endian) (w : Z) : option Z :=
  match e with
  | LittleEndian => bget e (i2o_failure_reply_message_frame_u1_s e) "FailingIOP_ID" w
  | BigEndian => Some ((w .& 0xfff))
  end.
Definition i2o_transaction_error_reply_message_frame (e : endian) : ctype :=
  struct ["StdMessageFrame" :- (i2o_message_frame e);
     "TransactionContext" :- i2o_transaction_context_t;
     "DetailedStatusCode" :- uint16_t;
     "reserved" :- uint8_t;
     "ReqStatus" :- uint8_t;
     "ErrorOffset" :- uint32_t;
     "BitOffset" :- uint8_t;
     "reserved1" :- uint8_t;
     "reserved2" :- uint16_t].
Definition i2o_hrt_entry_u2_s2 (e : endian) : bitfields :=
  match e with
  | LittleEndian => Bitfields UShort [("ControllingTID"%string, 12); ("AdapterState"%string, 4)]
  | BigEndian => Bitfields UShort [("AdapterState"%string, 4); ("ControllingTID"%string, 12)]
  end.
Definition i2o_hrt_entry (e : endian) : ctype :=
  struct ["AdapterID" :- uint32_t;
     "u2" :- (union ["s2" :- bits (i2o_hrt_entry_u2_s2 e); "h2" :- uint16_t]);
     "BusNumber" :- uint8_t;
     "BusType" :- uint8_t;
     "uBus" :- (union ["PCIBus" :- i2o_pci_bus_info; "LocalBus" :- i2o_local_bus_info; "ISABus" :- i2o_isa_bus_info; "EISABus" :- i2o_eisa_bus_info; "OtherBus" :- i2o_other_bus_info])].
Definition get_hrt_entry_ControllingTID (e : endian) (w : Z) : option Z :=
  match e with
  | LittleEndian => bget e (i2o_hrt_entry_u2_s2 e) "ControllingTID" w
  | BigEndian => Some ((w .& 0xfff))
  end.
Definition get_hrt_entry_AdapterState (e : endian) (w : Z) : option Z :=
  match e with
  | LittleEndian => bget e (i2o_hrt_entry_u2_s2 e) "AdapterState" w
  | BigEndian => Some (((w >>> 12) .& 0xf))
  end.
Definition i2o_hrt (e : endian) : ctype :=
  struct ["NumberEntries" :- uint16_t;
     "EntryLength" :- uint8_t;
     "HRTVersion" :- uint8_t;
     "CurrentChangeIndicator" :- uint32_t;
     "HRTEntry" :- array 1 (i2o_hrt_entry e)].
Definition i2o_lct_entry_u1_s1 (e : endian) : bitfields :=
  match e with
  | LittleEndian => Bitfields UInt [("TableEntrySize"%string, 16); ("LocalTID"%string, 12); ("reserved"%string, 4)]
  | BigEndian => Bitfields UInt [("reserved"%string, 4); ("LocalTID"%string, 12); ("TableEntrySize"%string, 16)]
  end.
Definition i2o_lct_entry_u4_s4 (e : endian) : bitfields :=
  match e with
  | LittleEndian => Bitfields UInt [("Class"%string, 12); ("Version"%string, 4); ("OrganizationID"%string, 16)]
  | BigEndian => Bitfields UInt [("OrganizationID"%string, 16); ("Version"%string, 4); ("Class"%string, 12)]
  end.
Definition i2o_lct_entry_u6_s6 (e : endian) : bitfields :=
  match e with
  | LittleEndian => Bitfields UInt [("UserTID"%string, 12); ("ParentTID"%string, 12); ("BiosInfo"%string, 8)]
  | BigEndian => Bitfields UInt [("BiosInfo"%string, 8); ("ParentTID"%string, 12); ("UserTID"%string, 12)]
  end.
Definition i2o_lct_entry (e : endian) : ctype :=
  struct ["u1" :- (union ["s1" :- bits (i2o_lct_entry_u1_s1 e); "w1" :- uint32_t]);
     "ChangeIndicator" :- uint32_t;
     "DeviceFlags" :- uint32_t;
     "u4" :- (union ["s4" :- bits (i2o_lct_entry_u4_s4 e); "w4" :- uint32_t]);
     "SubClassInfo" :- uint32_t;
     "u6" :- (union ["s6" :- bits (i2o_lct_entry_u6_s6 e); "w6" :- uint32_t]);
     "IdentityTag" :- array I2O_IDENTITY_TAG_SZ uint8_t;
     "EventCapabilities" :- uint32_t].
Definition get_lct_entry_LocalTID (e : endian) (w : Z) : option Z :=
  match e with
  | LittleEndian => bget e (i2o_lct_entry_u1_s1 e) "LocalTID" w
  | BigEndian => None
  end.
Definition get_lct_entry_TableEntrySize (e : endian) (w : Z) : option Z :=
  match e with
  | LittleEndian => bget e (i2o_lct_entry_u1_s1 e) "TableEntrySize" w
  | BigEndian => Some ((w .& 0xffff))
  end.
Definition get_lct_entry_Class (e : endian) (w : Z) : option Z :=
  match e with
  | LittleEndian => bget e (i2o_lct_entry_u4_s4 e) "Class" w
  | BigEndian => Some ((w .& 0xfff))
  end.
Definition get_lct_entry_Version (e : endian) (w : Z) : option Z :=
  match e with
  | LittleEndian => bget e (i2o_lct_entry_u4_s4 e) "Version" w
  | BigEndian => Some (((w >>> 12) .& 0xf))
  end.
Definition get_lct_entry_OrganizationID (e : endian) (w : Z) : option Z :=
  match e with
  | LittleEndian => bget e (i2o_lct_entry_u4_s4 e) "OrganizationID" w
  | BigEndian => None
  end.
Definition get_lct_entry_BiosInfo (e : endian) (w : Z) : option Z :=
  match e with
  | LittleEndian => bget e (i2o_lct_entry_u6_s6 e) "BiosInfo" w
  | BigEndian => bget e (i2o_lct_entry_u6_s6 e) "BiosInfo" w
  end.
Definition get_lct_entry_ParentTID (e : endian) (w : Z) : option Z :=
  match e with
  | LittleEndian => bget e (i2o_lct_entry_u6_s6 e) "ParentTID" w
  | BigEndian => None
  end.
Definition get_lct_entry_UserTID (e : endian) (w : Z) : option Z :=
  match e with
  | LittleEndian => bget e (i2o_lct_entry_u6_s6 e) "UserTID" w
  | BigEndian => None
  end.
Definition i2o_lct_u1_s1 (e : endian) : bitfields :=
  match e with
  | LittleEndian => Bitfields UShort [("BootDeviceTID"%string, 12); ("LctVer"%string, 4)]
  | BigEndian => Bitfields UShort [("LctVer"%string, 4); ("BootDeviceTID"%string, 12)]
  end.
Definition i2o_lct (e : endian) : ctype :=
  struct ["TableSize" :- uint16_t;
     "u1" :- (union ["s1" :- bits (i2o_lct_u1_s1 e); "h1" :- uint16_t]);
     "IopFlags" :- uint32_t;
     "CurrentChangeIndicator" :- uint32_t;
     "LCTEntry" :- array 1 (i2o_lct_entry e)].
Definition get_lct_BootDeviceTID (e : endian) (w : Z) : option Z :=
  match e with
  | LittleEndian => bget e (i2o_lct_u1_s1 e) "BootDeviceTID" w
  | BigEndian => None
  end.
Definition get_lct_LctVer (e : endian) (w : Z) : option Z :=
  match e with
  | LittleEndian => bget e (i2o_lct_u1_s1 e) "LctVer" w
  | BigEndian => None
  end.
Definition i2o_flags_count_flags_count (e : endian) : bitfields :=
  match e with
  | LittleEndian => Bitfields UInt [("Count"%string, 24); ("Flags"%string, 8)]
  | BigEndian => Bitfields UInt [("Flags"%string, 8); ("Count"%string, 24)]
  end.
Definition i2o_flags_count (e : endian) : ctype :=
  union ["flags_count" :- bits (i2o_flags_count_flags_count e);
     "cword" :- uint32_t].
Definition get_flags_count_Count (e : endian) (w : Z) : option Z :=
  match e with
  | LittleEndian => bget e (i2o_flags_count_flags_count e) "Count" w
  | BigEndian => Some ((w .& 0xffffff))
  end.
Definition put_flags_count_Count (e : endian) (w v : Z) : option Z :=
  match e with
  | LittleEndian => bput e (i2o_flags_count_flags_count e) "Count" w v
  | BigEndian => Some (u32 ((w .& .~ 0xffffff) .| ((u32 v) .& 0xffffff)))
  end.
Definition get_flags_count_Flags (e : endian) (w : Z) : option Z :=
  match e with
  | LittleEndian => bget e (i2o_flags_count_flags_count e) "Flags" w
  | BigEndian => Some (((w >>> 24) .& 0xff))
  end.
Definition put_flags_count_Flags (e : endian) (w v : Z) : option Z :=
  match e with
  | LittleEndian => bput e (i2o_flags_count_flags_count e) "Flags" w v
  | BigEndian => Some (u32 ((w .& .~ 0xff000000) .| ((u32 v) <<< 24)))
  end.
Definition i2o_sge_bit_bucket_element (e : endian) : ctype :=
  struct ["FlagsCount" :- (i2o_flags_count e);
     "BufferContext" :- uint32_t].
Definition i2o_sge_chain_element (e : endian) : ctype :=
  struct ["FlagsCount" :- (i2o_flags_count e);
     "PhysicalAddress" :- uint32_t].
Definition i2o_sge_chain_context_element (e : endian) : ctype :=
  struct ["FlagsCount" :- (i2o_flags_count e);
     "Context" :- array 1 uint32_t;
     "PhysicalAddress" :- uint32_t].
Definition i2o_sge_ignore_element (e : endian) : ctype :=
  struct ["FlagsCount" :- (i2o_flags_count e)].
Definition i2o_sge_immediate_data_element (e : endian) : ctype :=
  struct ["FlagsCount" :- (i2o_flags_count e)].
Definition i2o_sge_immediate_data_context_element (e : endian) : ctype :=
  struct ["FlagsCount" :- (i2o_flags_count e);
     "BufferContext" :- uint32_t].
Definition i2o_sge_long_transaction_element_u1_s1 (e : endian) : bitfields :=
  match e with
  | LittleEndian => Bitfields UInt [("LongElementLength"%string, 24); ("Flags"%string, 8)]
  | BigEndian => Bitfields UInt [("Flags"%string, 8); ("LongElementLength"%string, 24)]
  end.
Definition i2o_sge_long_transaction_element (e : endian) : ctype :=
  struct ["u1" :- (union ["s1" :- bits (i2o_sge_long_transaction_element_u1_s1 e); "w1" :- uint32_t]);
     "BufferContext" :- uint32_t].
Definition get_sge_long_LongElementLength (e : endian) (w : Z) : option Z :=
  match e with
  | LittleEndian => bget e (i2o_sge_long_transaction_element_u1_s1 e) "LongElementLength" w
  | BigEndian => Some ((w .& 0xffffff))
  end.
Definition put_sge_long_LongElementLength (e : endian) (w v : Z) : option Z :=
  match e with
  | LittleEndian => bput e (i2o_sge_long_transaction_element_u1_s1 e) "LongElementLength" w v
  | BigEndian => Some (u32 ((w .& .~ 0xffffff) .| ((u32 v) .& 0xffffff)))
  end.
Definition get_sge_long_Flags (e : endian) (w : Z) : option Z :=
  match e with
  | LittleEndian => bget e (i2o_sge_long_transaction_element_u1_s1 e) "Flags" w
  | BigEndian => Some ((w >>> 24))
  end.
Definition put_sge_long_Flags (e : endian) (w v : Z) : option Z :=
  match e with
  | LittleEndian => bput e (i2o_sge_long_transaction_element_u1_s1 e) "Flags" w v
  | BigEndian => Some (u32 ((w .& .~ 0xff000000) .| ((u32 v) <<< 24)))
  end.
Definition i2o_sge_page_element (e : endian) : ctype :=
  struct ["FlagsCount" :- (i2o_flags_count e);
     "PhysicalAddress" :- array 1 uint32_t].
Definition i2o_sge_page_context_element (e : endian) : ctype :=
  struct ["FlagsCount" :- (i2o_flags_count e);
     "BufferContext" :- array 1 uint32_t;
     "PhysicalAddress" :- array 1 uint32_t].
Definition i2o_sge_simple_element (e : endian) : ctype :=
  struct ["FlagsCount" :- (i2o_flags_count e);
     "PhysicalAddress" :- uint32_t].
Definition i2o_sge_simple_context_element (e : endian) : ctype :=
  struct ["FlagsCount" :- (i2o_flags_count e);
     "BufferContext" :- array 1 uint32_t;
     "PhysicalAddress" :- uint32_t].
Definition i2o_sge_transport_element_bits (e : endian) : bitfields :=
  Bitfields UInt [("LongElementLength"%string, 24); ("Flags"%string, 8)].
Definition i2o_sge_transport_element (e : endian) : ctype :=
  bits (i2o_sge_transport_element_bits e).
Definition i2o_sg_element (e : endian) : ctype :=
  struct ["u1" :- (union ["BitBucket" :- (i2o_sge_bit_bucket_element e); "Chain" :- (i2o_sge_chain_element e); "ChainContext" :- (i2o_sge_chain_context_element e); "Ignore" :- (i2o_sge_ignore_element e); "ImmediateData" :- (i2o_sge_immediate_data_element e); "ImmediateDataContext" :- (i2o_sge_immediate_data_context_element e); "LongTransaction" :- (i2o_sge_long_transaction_element e); "Page" :- (i2o_sge_page_element e); "PageContext" :- (i2o_sge_page_context_element e); "SGLAttribute" :- i2o_sge_sgl_attributes_element; "ShortTransaction" :- i2o_sge_short_transaction_element; "Simple" :- array 1 (i2o_sge_simple_element e); "SimpleContext" :- array 1 (i2o_sge_simple_context_element e); "Transport" :- (i2o_sge_transport_element e)])].

(** [sys/i2o/i2outil.h] *)
Definition i2o_util_abort_message (e : endian) : ctype :=
  struct ["StdMessageFrame" :- (i2o_message_frame e);
     "TransactionContext" :- i2o_transaction_context_t;
     "reserved" :- uint16_t;
     "AbortType" :- uint8_t;
     "FunctionToAbort" :- uint8_t;
     "TransactionContextToAbort" :- i2o_transaction_context_t].
Definition i2o_util_abort_reply (e : endian) : ctype :=
  struct ["StdMessageFrame" :- (i2o_message_frame e);
     "TransactionContext" :- i2o_transaction_context_t;
     "CountOfAbortedMessages" :- uint32_t].
Definition i2o_util_claim_message (e : endian) : ctype :=
  struct ["StdMessageFrame" :- (i2o_message_frame e);
     "TransactionContext" :- i2o_transaction_context_t;
     "ClaimFlags" :- uint16_t;
     "reserved" :- uint8_t;
     "ClaimType" :- uint8_t].
Definition i2o_util_claim_release_message (e : endian) : ctype :=
  struct ["StdMessageFrame" :- (i2o_message_frame e);
     "TransactionContext" :- i2o_transaction_context_t;
     "ReleaseFlags" :- uint16_t;
     "reserved" :- uint8_t;
     "ClaimType" :- uint8_t].
Definition i2o_util_config_dialog_message (e : endian) : ctype :=
  struct ["StdMessageFrame" :- (i2o_message_frame e);
     "TransactionContext" :- i2o_transaction_context_t;
     "PageNumber" :- uint32_t;
     "SGL" :- (i2o_sg_element e)].
Definition i2o_util_event_ack_message (e : endian) : ctype :=
  struct ["StdMessageFrame" :- (i2o_message_frame e);
     "TransactionContext" :- i2o_transaction_context_t;
     "EventIndicator" :- uint32_t;
     "EventData" :- array 1 uint32_t].
Definition i2o_util_event_ack_reply (e : endian) : ctype :=
  struct ["StdMessageFrame" :- (i2o_message_frame e);
     "TransactionContext" :- i2o_transaction_context_t;
     "EventIndicator" :- uint32_t;
     "EventData" :- array 1 uint32_t].
Definition i2o_util_event_register_message (e : endian) : ctype :=
  struct ["StdMessageFrame" :- (i2o_message_frame e);
     "TransactionContext" :- i2o_transaction_context_t;
     "EventMask" :- uint32_t].
Definition i2o_util_event_register_reply (e : endian) : ctype :=
  struct ["StdMessageFrame" :- (i2o_message_frame e);
     "TransactionContext" :- i2o_transaction_context_t;
     "EventIndicator" :- uint32_t;
     "EventData" :- array 1 uint32_t].
Definition i2o_util_lock_message (e : endian) : ctype :=
  struct ["StdMessageFrame" :- (i2o_message_frame e);
     "TransactionContext" :- i2o_transaction_context_t].
Definition i2o_util_lock_release_message (e : endian) : ctype :=
  struct ["StdMessageFrame" :- (i2o_message_frame e);
     "TransactionContext" :- i2o_transaction_context_t].
Definition i2o_util_nop_message (e : endian) : ctype :=
  struct ["StdMessageFrame" :- (i2o_message_frame e)].
Definition i2o_util_params_get_message (e : endian) : ctype :=
  struct ["StdMessageFrame" :- (i2o_message_frame e);
     "TransactionContext" :- i2o_transaction_context_t;
     "OperationFlags" :- uint32_t;
     "SGL" :- (i2o_sg_element e)].
Definition i2o_util_params_set_message (e : endian) : ctype :=
  struct ["StdMessageFrame" :- (i2o_message_frame e);
     "TransactionContext" :- i2o_transaction_context_t;
     "OperationFlags" :- uint32_t;
     "SGL" :- (i2o_sg_element e)].
Definition i2o_util_reply_fault_notify_message_u1_s (e : endian) : bitfields :=
  match e with
  | LittleEndian => Bitfields UShort [("FailingIOP_ID"%string, 12); ("reserved"%string, 4)]
  | BigEndian => Bitfields UShort [("reserved"%string, 4); ("FailingIOP_ID"%string, 12)]
  end.
Definition i2o_util_reply_fault_notify_message (e : endian) : ctype :=
  match e with
  | LittleEndian => struct ["StdMessageFrame" :- (i2o_message_frame e);
         "TransactionContext" :- i2o_transaction_context_t;
         "LowestVersion" :- uint8_t;
         "HighestVersion" :- uint8_t;
         "Severity" :- uint8_t;
         "FailureCode" :- uint8_t;
         "u1" :- (union ["s" :- bits (i2o_util_reply_fault_notify_message_u1_s e); "h1" :- uint16_t]);
         "FailingHostUnitID" :- uint16_t;
         "AgeLimit" :- uint32_t;
         "OriginalMFALowPart" :- ptr;
         "OriginalMFAHighPart" :- uint32_t]
  | BigEndian => struct ["StdMessageFrame" :- (i2o_message_frame e);
         "TransactionContext" :- i2o_transaction_context_t;
         "LowestVersion" :- uint8_t;
         "HighestVersion" :- uint8_t;
         "Severity" :- uint8_t;
         "FailureCode" :- uint8_t;
         "u1" :- (union ["s" :- bits (i2o_util_reply_fault_notify_message_u1_s e); "h1" :- uint32_t]);
         "FailingHostUnitID" :- uint16_t;
         "AgeLimit" :- uint32_t;
         "OriginalMFALowPart" :- ptr;
         "OriginalMFAHighPart" :- uint32_t]
  end.
Definition get_i2o_util_FailingIOP_ID (e : endian) (w : Z) : option Z :=
  match e with
  | LittleEndian => bget e (i2o_util_reply_fault_notify_message_u1_s e) "FailingIOP_ID" w
  | BigEndian => Some ((w .& 0xfff))
  end.
Definition i2o_util_device_reserve_message (e : endian) : ctype :=
  struct ["StdMessageFrame" :- (i2o_message_frame e);
     "TransactionContext" :- i2o_transaction_context_t].
Definition i2o_util_device_release_message (e : endian) : ctype :=
  struct ["StdMessageFrame" :- (i2o_message_frame e);
     "TransactionContext" :- i2o_transaction_context_t].

(** [sys/i2o/i2oexec.h] *)
Definition i2o_exec_adapter_assign_message_u1_s (e : endian) : bitfields :=
  match e with
  | LittleEndian => Bitfields UInt [("DdmTID"%string, 12); ("reserved"%string, 12); ("OperationFlags"%string, 8)]
  | BigEndian => Bitfields UInt [("OperationFlags"%string, 8); ("reserved"%string, 12); ("DdmTID"%string, 12)]
  end.
Definition i2o_exec_adapter_assign_message (e : endian) : ctype :=
  struct ["StdMessageFrame" :- (i2o_message_frame e);
     "TransactionContext" :- i2o_transaction_context_t;
     "u1" :- (union ["s" :- bits (i2o_exec_adapter_assign_message_u1_s e); "w" :- uint32_t]);
     "HRTEntry" :- (i2o_hrt_entry e)].
Definition get_i2o_exec_adapter_DdmTID (e : endian) (w : Z) : option Z :=
  match e with
  | LittleEndian => bget e (i2o_exec_adapter_assign_message_u1_s e) "DdmTID" w
  | BigEndian => Some ((w .& 0xfff))
  end.
Definition put_i2o_exec_adapter_DdmTID (e : endian) (w v : Z) : option Z :=
  match e with
  | LittleEndian => bput e (i2o_exec_adapter_assign_message_u1_s e) "DdmTID" w v
  | BigEndian => Some (u32 ((w .& .~ 0xfff) .| (v .& 0xfff)))
  end.
Definition get_i2o_exec_adapter_OperationFlags (e : endian) (w : Z) : option Z :=
  match e with
  | LittleEndian => bget e (i2o_exec_adapter_assign_message_u1_s e) "OperationFlags" w
  | BigEndian => bget e (i2o_exec_adapter_assign_message_u1_s e) "OperationFlags" w
  end.
Definition put_i2o_exec_adapter_OperationFlags (e : endian) (w v : Z) : option Z :=
  match e with
  | LittleEndian => bput e (i2o_exec_adapter_assign_message_u1_s e) "OperationFlags" w v
  | BigEndian => None
  end.
Definition put_i2o_exec_adapter_OperatonFlags (e : endian) (w v : Z) : option Z :=
  match e with
  | LittleEndian => None
  | BigEndian => bput e (i2o_exec_adapter_assign_message_u1_s e) "OperationFlags" w v
  end.
Definition i2o_exec_adapter_read_message (e : endian) : ctype :=
  struct ["StdMessageFrame" :- (i2o_message_frame e);
     "TransactionContext" :- i2o_transaction_context_t;
     "AdapterID" :- uint32_t;
     "RequestFlags" :- uint32_t;
     "Offset" :- uint32_t;
     "Length" :- uint32_t;
     "SGL" :- (i2o_sg_element e)].
Definition i2o_exec_dapater_release_message (e : endian) : ctype :=
  struct ["StdMessageFrame" :- (i2o_message_frame e);
     "TransactionContext" :- i2o_transaction_context_t;
     "reserved" :- array 3 uint8_t;
     "OperationFlags" :- uint8_t;
     "HRTEntry" :- (i2o_hrt_entry e)].
Definition i2o_exec_bios_info_set_message_u1_s (e : endian) : bitfields :=
  match e with
  | LittleEndian => Bitfields UInt [("DeviceTID"%string, 12); ("reserved"%string, 12); ("BiosInfo"%string, 8)]
  | BigEndian => Bitfields UInt [("BiosInfo"%string, 8); ("reserved"%string, 12); ("DeviceTID"%string, 12)]
  end.
Definition i2o_exec_bios_info_set_message (e : endian) : ctype :=
  struct ["StdMessageFrame" :- (i2o_message_frame e);
     "TransactionContext" :- i2o_transaction_context_t;
     "u1" :- (union ["s" :- bits (i2o_exec_bios_info_set_message_u1_s e); "w" :- uint32_t])].
Definition get_i2o_exec_bios_DeviceTID (e : endian) (w : Z) : option Z :=
  match e with
  | LittleEndian => bget e (i2o_exec_bios_info_set_message_u1_s e) "DeviceTID" w
  | BigEndian => None
  end.
Definition put_i2o_exec_bios_DeviceTID (e : endian) (w v : Z) : option Z :=
  match e with
  | LittleEndian => bput e (i2o_exec_bios_info_set_message_u1_s e) "DeviceTID" w v
  | BigEndian => None
  end.
Definition get_i2o_exec_BiosInfo (e : endian) (w : Z) : option Z :=
  match e with
  | LittleEndian => bget e (i2o_exec_bios_info_set_message_u1_s e) "BiosInfo" w
  | BigEndian => bget e (i2o_exec_bios_info_set_message_u1_s e) "BiosInfo" w
  end.
Definition put_i2o_exec_BiosInfo (e : endian) (w v : Z) : option Z :=
  match e with
  | LittleEndian => None
  | BigEndian => bput e (i2o_exec_bios_info_set_message_u1_s e) "BiosInfo" w v
  end.
Definition get_i2o_exec_bios_DeviceID (e : endian) (w : Z) : option Z :=
  match e with
  | LittleEndian => None
  | BigEndian => Some ((w .& 0xfff))
  end.
Definition put_i2o_exec_bios_DeviceID (e : endian) (w v : Z) : option Z :=
  match e with
  | LittleEndian => None
  | BigEndian => Some (u32 ((w .& .~ 0xfff) .| (v .& 0xfff)))
  end.
Definition i2o_exec_boot_device_set_message_u1_s (e : endian) : bitfields :=
  match e with
  | LittleEndian => Bitfields UInt [("BootDevice"%string, 12); ("reserved"%string, 20)]
  | BigEndian => Bitfields UInt [("reserved"%string, 20); ("BootDevice"%string, 12)]
  end.
Definition i2o_exec_boot_device_set_message (e : endian) : ctype :=
  struct ["StdMessageFrame" :- (i2o_message_frame e);
     "TransactionContext" :- i2o_transaction_context_t;
     "u1" :- (union ["s" :- bits (i2o_exec_boot_device_set_message_u1_s e); "w" :- uint32_t])].
Definition get_i2o_exec_boot_BootDevice (e : endian) (w : Z) : option Z :=
  match e with
  | LittleEndian => bget e (i2o_exec_boot_device_set_message_u1_s e) "BootDevice" w
  | BigEndian => Some ((w .& 0xfff))
  end.
Definition put_i2o_exec_boot_BootDevice (e : endian) (w v : Z) : option Z :=
  match e with
  | LittleEndian => bput e (i2o_exec_boot_device_set_message_u1_s e) "BootDevice" w v
  | BigEndian => Some (u32 ((w .& .~ 0xfff) .| (v .& 0xfff)))
  end.
Definition i2o_exec_config_validate_message (e : endian) : ctype :=
  struct ["StdMessageFrame" :- (i2o_message_frame e);
     "TransactionContext" :- i2o_transaction_context_t].
Definition i2o_alias_connect_setup_u1_s (e : endian) : bitfields :=
  match e with
  | LittleEndian => Bitfields UInt [("IOP1AliasForTargetDevice"%string, 12); ("IOP2AliasForInitiatorDevice"%string, 12); ("reserved"%string, 8)]
  | BigEndian => Bitfields UInt [("reserved"%string, 8); ("IOP2AliasForInitiatorDevice"%string, 12); ("IOP1AliasForTargetDevice"%string, 12)]
  end.
Definition i2o_alias_connect_setup (e : endian) : ctype :=
  struct ["u1" :- (union ["s" :- bits (i2o_alias_connect_setup_u1_s e); "w" :- uint32_t])].
Definition get_i2o_exec_setup_IOP1AliasForTargetDevice (e : endian) (w : Z) : option Z :=
  match e with
  | LittleEndian => bget e (i2o_alias_connect_setup_u1_s e) "IOP1AliasForTargetDevice" w
  | BigEndian => Some ((w .& 0xfff))
  end.
Definition put_i2o_exec_setup_IOP1AliasForTargetDevice (e : endian) (w v : Z) : option Z :=
  match e with
  | LittleEndian => bput e (i2o_alias_connect_setup_u1_s e) "IOP1AliasForTargetDevice" w v
  | BigEndian => Some (u32 ((w .& .~ 0xfff) .| (v .& 0xfff)))
  end.
Definition get_i2o_exec_setup_IOP2AliasForInitiatorDevice (e : endian) (w : Z) : option Z :=
  match e with
  | LittleEndian => bget e (i2o_alias_connect_setup_u1_s e) "IOP2AliasForInitiatorDevice" w
  | BigEndian => None
  end.
Definition put_i2o_exec_setup_IOP2AliasForInitiatortDevice (e : endian) (w v : Z) : option Z :=
  match e with
  | LittleEndian => None
  | BigEndian => None
  end.
Definition get_i2o_exec_setup_IOP2ForInitiatorDevice (e : endian) (w : Z) : option Z :=
  match e with
  | LittleEndian => None
  | BigEndian => Some (((w >>> 12) .& 0xfff))
  end.
Definition put_i2o_exec_setup_IOP2ForInitiatorDevice (e : endian) (w v : Z) : option Z :=
  match e with
  | LittleEndian => None
  | BigEndian => None
  end.
Definition i2o_object_connect_setup_u1_s (e : endian) : bitfields :=
  match e with
  | LittleEndian => Bitfields UInt [("TargetDevice"%string, 12); ("InitiatorDevice"%string, 12); ("OperationFlags"%string, 8)]
  | BigEndian => Bitfields UInt [("OperationFlags"%string, 8); ("InitiatorDevice"%string, 12); ("TargetDevice"%string, 12)]
  end.
Definition i2o_object_connect_setup (e : endian) : ctype :=
  struct ["u1" :- (union ["s" :- bits (i2o_object_connect_setup_u1_s e); "w" :- uint32_t])].
Definition get_i2o_exec_setup_TargetDevice (e : endian) (w : Z) : option Z :=
  match e with
  | LittleEndian => bget e (i2o_object_connect_setup_u1_s e) "TargetDevice" w
  | BigEndian => Some ((w .& 0xfff))
  end.
Definition put_i2o_exec_setup_TargetDevice (e : endian) (w v : Z) : option Z :=
  match e with
  | LittleEndian => bput e (i2o_object_connect_setup_u1_s e) "TargetDevice" w v
  | BigEndian => Some (u32 ((w .& .~ 0xfff) .| (v .& 0xfff)))
  end.
Definition get_i2o_exec_setup_InitiatorDevice (e : endian) (w : Z) : option Z :=
  match e with
  | LittleEndian => bget e (i2o_object_connect_setup_u1_s e) "InitiatorDevice" w
  | BigEndian => Some (((w >>> 12) .& 0xfff))
  end.
Definition put_i2o_exec_setup_InitiatorDevice (e : endian) (w v : Z) : option Z :=
  match e with
  | LittleEndian => None
  | BigEndian => None
  end.
Definition get_i2o_exec_setup_OperationFlags (e : endian) (w : Z) : option Z :=
  match e with
  | LittleEndian => None
  | BigEndian => bget e (i2o_object_connect_setup_u1_s e) "OperationFlags" w
  end.
Definition put_i2o_exec_setup_OperationFlags (e : endian) (w v : Z) : option Z :=
  match e with
  | LittleEndian => bput e (i2o_object_connect_setup_u1_s e) "OperationFlags" w v
  | BigEndian => bput e (i2o_object_connect_setup_u1_s e) "OperationFlags" w v
  end.
Definition i2o_exec_conn_setup_message (e : endian) : ctype :=
  struct ["StdMessageFrame" :- (i2o_message_frame e);
     "TransactionContext" :- i2o_transaction_context_t;
     "ObjectInfo" :- (i2o_object_connect_setup e);
     "AliasInfo" :- (i2o_alias_connect_setup e);
     "IOP2InboundMFrameSize" :- uint16_t;
     "reserved" :- uint16_t;
     "MessageClass" :- uint32_t].
Definition i2o_object_connect_reply_u1_s (e : endian) : bitfields :=
  match e with
  | LittleEndian => Bitfields UInt [("TargetDevice"%string, 12); ("InitiatorDevice"%string, 12); ("ReplyStatusCode"%string, 8)]
  | BigEndian => Bitfields UInt [("ReplyStatusCode"%string, 8); ("InitiatorDevice"%string, 12); ("TargetDevice"%string, 12)]
  end.
Definition i2o_object_connect_reply (e : endian) : ctype :=
  struct ["u1" :- (union ["s" :- bits (i2o_object_connect_reply_u1_s e); "w" :- uint32_t])].
Definition get_connect_reply_TargetDevice (e : endian) (w : Z) : option Z :=
  match e with
  | LittleEndian => bget e (i2o_object_connect_reply_u1_s e) "TargetDevice" w
  | BigEndian => Some ((w .& 0xfff))
  end.
Definition get_connect_reply_InitiatorDevice (e : endian) (w : Z) : option Z :=
  match e with
  | LittleEndian => bget e (i2o_object_connect_reply_u1_s e) "InitiatorDevice" w
  | BigEndian => Some (((w >>> 12) .& 0xfff))
  end.
Definition get_connect_reply_RepluStatus (e : endian) (w : Z) : option Z :=
  match e with
  | LittleEndian => bget e (i2o_object_connect_reply_u1_s e) "ReplyStatusCode" w
  | BigEndian => None
  end.
Definition get_connect_reply_ReplyStatusCode (e : endian) (w : Z) : option Z :=
  match e with
  | LittleEndian => None
  | BigEndian => bget e (i2o_object_connect_reply_u1_s e) "ReplyStatusCode" w
  end.
Definition i2o_exec_conn_setup_reply (e : endian) : ctype :=
  struct ["StdMessageFrame" :- (i2o_message_frame e);
     "TransactionContext" :- i2o_transaction_context_t;
     "ObjectInfo" :- (i2o_object_connect_reply e);
     "AliasInfo" :- (i2o_alias_connect_setup e);
     "IOP2InboundMFrameSize" :- uint16_t;
     "reserved" :- uint16_t].
Definition i2o_exec_ddm_destroy_message_u1_s (e : endian) : bitfields :=
  match e with
  | LittleEndian => Bitfields UInt [("DdmTID"%string, 12); ("reserved"%string, 20)]
  | BigEndian => Bitfields UInt [("reserved"%string, 20); ("DdmTID"%string, 12)]
  end.
Definition i2o_exec_ddm_destroy_message (e : endian) : ctype :=
  struct ["StdMessageFrame" :- (i2o_message_frame e);
     "TransactionContext" :- i2o_transaction_context_t;
     "u1" :- (union ["s" :- bits (i2o_exec_ddm_destroy_message_u1_s e); "w" :- uint32_t])].
Definition get_i2o_exec_ddm_destroy_DdmTID (e : endian) (w : Z) : option Z :=
  match e with
  | LittleEndian => bget e (i2o_exec_ddm_destroy_message_u1_s e) "DdmTID" w
  | BigEndian => Some ((w .& 0xfff))
  end.
Definition put_i2o_exec_ddm_destroy_DdmTID (e : endian) (w v : Z) : option Z :=
  match e with
  | LittleEndian => bput e (i2o_exec_ddm_destroy_message_u1_s e) "DdmTID" w v
  | BigEndian => Some (u32 ((w .& .~ 0xfff) .| (v .& 0xfff)))
  end.
Definition i2o_exec_ddm_enable_message_u2_s2 (e : endian) : bitfields :=
  match e with
  | LittleEndian => Bitfields UInt [("DeviceTID"%string, 12); ("reserved1"%string, 20)]
  | BigEndian => Bitfields UInt [("reserved1"%string, 20); ("DeviceTID"%string, 12)]
  end.
Definition i2o_exec_ddm_enable_message_u3_s3 (e : endian) : bitfields :=
  match e with
  | LittleEndian => Bitfields UShort [("IOP_ID"%string, 12); ("reserved"%string, 4)]
  | BigEndian => Bitfields UShort [("reserved"%string, 4); ("IOP_ID"%string, 12)]
  end.
Definition i2o_exec_ddm_enable_message (e : endian) : ctype :=
  struct ["StdMessageFrame" :- (i2o_message_frame e);
     "TransactionContext" :- i2o_transaction_context_t;
     "u2" :- (union ["s2" :- bits (i2o_exec_ddm_enable_message_u2_s2 e); "w2" :- uint32_t]);
     "u3" :- (union ["s3" :- bits (i2o_exec_ddm_enable_message_u3_s3 e); "h1" :- uint16_t]);
     "HostUnitID" :- uint16_t].
Definition get_i2o_exec_ddm_enable_DeviceTID (e : endian) (w : Z) : option Z :=
  match e with
  | LittleEndian => bget e (i2o_exec_ddm_enable_message_u2_s2 e) "DeviceTID" w
  | BigEndian => Some ((w .& 0xfff))
  end.
Definition put_i2o_exec_ddm_enable_DeviceTID (e : endian) (w v : Z) : option Z :=
  match e with
  | LittleEndian => bput e (i2o_exec_ddm_enable_message_u2_s2 e) "DeviceTID" w v
  | BigEndian => Some (u32 ((w .& .~ 0xfff) .| (v .& 0xfff)))
  end.
Definition get_i2o_exec_ddm_enable_IOP_ID (e : endian) (w : Z) : option Z :=
  match e with
  | LittleEndian => bget e (i2o_exec_ddm_enable_message_u3_s3 e) "IOP_ID" w
  | BigEndian => Some ((w .& 0xfff))
  end.
Definition put_i2o_exec_ddm_enable_IOP_ID (e : endian) (w v : Z) : option Z :=
  match e with
  | LittleEndian => bput e (i2o_exec_ddm_enable_message_u3_s3 e) "IOP_ID" w v
  | BigEndian => Some (u16 ((w .& .~ 0xfff) .| (v .& 0xfff)))
  end.
Definition i2o_exec_ddm_quiesce_message_u2_s2 (e : endian) : bitfields :=
  match e with
  | LittleEndian => Bitfields UInt [("DeviceTID"%string, 12); ("reserved1"%string, 20)]
  | BigEndian => Bitfields UInt [("reserved1"%string, 20); ("DeviceTID"%string, 12)]
  end.
Definition i2o_exec_ddm_quiesce_message_u3_s3 (e : endian) : bitfields :=
  match e with
  | LittleEndian => Bitfields UShort [("IOP_ID"%string, 12); ("reserved"%string, 4)]
  | BigEndian => Bitfields UShort [("reserved"%string, 4); ("IOP_ID"%string, 12)]
  end.
Definition i2o_exec_ddm_quiesce_message (e : endian) : ctype :=
  struct ["StdMessageFrame" :- (i2o_message_frame e);
     "TransactionContext" :- i2o_transaction_context_t;
     "u2" :- (union ["s2" :- bits (i2o_exec_ddm_quiesce_message_u2_s2 e); "w2" :- uint32_t]);
     "u3" :- (union ["s3" :- bits (i2o_exec_ddm_quiesce_message_u3_s3 e); "h1" :- uint16_t]);
     "HostUnitID" :- uint16_t].
Definition get_i2o_exec_ddm_quiesce_DeviceTID (e : endian) (w : Z) : option Z :=
  match e with
  | LittleEndian => bget e (i2o_exec_ddm_quiesce_message_u2_s2 e) "DeviceTID" w
  | BigEndian => Some ((w .& 0xfff))
  end.
Definition put_i2o_exec_ddm_quiesce_DeviceTID (e : endian) (w v : Z) : option Z :=
  match e with
  | LittleEndian => bput e (i2o_exec_ddm_quiesce_message_u2_s2 e) "DeviceTID" w v
  | BigEndian => Some (u32 ((w .& .~ 0xfff) .| (v .& 0xfff)))
  end.
Definition get_i2o_exec_ddm_quiesce_IOP_ID (e : endian) (w : Z) : option Z :=
  match e with
  | LittleEndian => bget e (i2o_exec_ddm_quiesce_message_u3_s3 e) "IOP_ID" w
  | BigEndian => Some ((w .& 0xfff))
  end.
Definition put_i2o_exec_ddm_quiesce_IOP_ID (e : endian) (w v : Z) : option Z :=
  match e with
  | LittleEndian => bput e (i2o_exec_ddm_quiesce_message_u3_s3 e) "IOP_ID" w v
  | BigEndian => Some (u16 ((w .& .~ 0xfff) .| (v .& 0xfff)))
  end.
Definition i2o_exec_ddm_reset_message_u2_s2 (e : endian) : bitfields :=
  match e with
  | LittleEndian => Bitfields UInt [("DeviceTID"%string, 12); ("reserved1"%string, 20)]
  | BigEndian => Bitfields UInt [("reserved1"%string, 20); ("DeviceTID"%string, 12)]
  end.
Definition i2o_exec_ddm_reset_message_u3_s3 (e : endian) : bitfields :=
  match e with
  | LittleEndian => Bitfields UShort [("IOP_ID"%string, 12); ("reserved"%string, 4)]
  | BigEndian => Bitfields UShort [("reserved"%string, 4); ("IOP_ID"%string, 12)]
  end.
Definition i2o_exec_ddm_reset_message (e : endian) : ctype :=
  struct ["StdMessageFrame" :- (i2o_message_frame e);
     "TransactionContext" :- i2o_transaction_context_t;
     "u2" :- (union ["s2" :- bits (i2o_exec_ddm_reset_message_u2_s2 e); "w2" :- uint32_t]);
     "u3" :- (union ["s3" :- bits (i2o_exec_ddm_reset_message_u3_s3 e); "h1" :- uint16_t]);
     "HostUnitID" :- uint16_t].
Definition get_i2o_exec_ddm_reset_DeviceTID (e : endian) (w : Z) : option Z :=
  match e with
  | LittleEndian => bget e (i2o_exec_ddm_reset_message_u2_s2 e) "DeviceTID" w
  | BigEndian => Some ((w .& 0xfff))
  end.
Definition put_i2o_exec_ddm_reset_DeviceTID (e : endian) (w v : Z) : option Z :=
  match e with
  | LittleEndian => bput e (i2o_exec_ddm_reset_message_u2_s2 e) "DeviceTID" w v
  | BigEndian => Some (u32 ((w .& .~ 0xfff) .| (v .& 0xfff)))
  end.
Definition get_i2o_exec_ddm_reset_IOP_ID (e : endian) (w : Z) : option Z :=
  match e with
  | LittleEndian => bget e (i2o_exec_ddm_reset_message_u3_s3 e) "IOP_ID" w
  | BigEndian => Some ((w .& 0xfff))
  end.
Definition put_i2o_exec_ddm_resetquiesce_IOP_ID (e : endian) (w v : Z) : option Z :=
  match e with
  | LittleEndian => bput e (i2o_exec_ddm_reset_message_u3_s3 e) "IOP_ID" w v
  | BigEndian => None
  end.
Definition put_i2o_exec_ddm_reset_IOP_ID (e : endian) (w v : Z) : option Z :=
  match e with
  | LittleEndian => None
  | BigEndian => Some (u16 ((w .& .~ 0xfff) .| (v .& 0xfff)))
  end.
Definition i2o_exec_ddm_suspend_message_u1_s (e : endian) : bitfields :=
  match e with
  | LittleEndian => Bitfields UInt [("DdmTID"%string, 12); ("reserved"%string, 20)]
  | BigEndian => Bitfields UInt [("reserved"%string, 20); ("DdmTID"%string, 12)]
  end.
Definition i2o_exec_ddm_suspend_message (e : endian) : ctype :=
  struct ["StdMessageFrame" :- (i2o_message_frame e);
     "TransactionContext" :- i2o_transaction_context_t;
     "u1" :- (union ["s" :- bits (i2o_exec_ddm_suspend_message_u1_s e); "w" :- uint32_t])].
Definition get_i2o_exec_ddm_suspend_DdmTID (e : endian) (w : Z) : option Z :=
  match e with
  | LittleEndian => bget e (i2o_exec_ddm_suspend_message_u1_s e) "DdmTID" w
  | BigEndian => Some ((w .& 0xfff))
  end.
Definition put_i2o_exec_ddm_suspend_DdmTID (e : endian) (w v : Z) : option Z :=
  match e with
  | LittleEndian => bput e (i2o_exec_ddm_suspend_message_u1_s e) "DdmTID" w v
  | BigEndian => Some (u32 ((w .& .~ 0xfff) .| (v .& 0xfff)))
  end.
Definition i2o_exec_device_assign_message_u2_s2 (e : endian) : bitfields :=
  match e with
  | LittleEndian => Bitfields UInt [("DeviceTID"%string, 12); ("DdmTID"%string, 12); ("OperationFlags"%string, 8)]
  | BigEndian => Bitfields UInt [("OperationFlags"%string, 8); ("DdmTID"%string, 12); ("DeviceTID"%string, 12)]
  end.
Definition i2o_exec_device_assign_message_u3_s3 (e : endian) : bitfields :=
  match e with
  | LittleEndian => Bitfields UShort [("IOP_ID"%string, 12); ("reserved"%string, 4)]
  | BigEndian => Bitfields UShort [("reserved"%string, 4); ("IOP_ID"%string, 12)]
  end.
Definition i2o_exec_device_assign_message (e : endian) : ctype :=
  struct ["StdMessageFrame" :- (i2o_message_frame e);
     "TransactionContext" :- i2o_transaction_context_t;
     "u2" :- (union ["s2" :- bits (i2o_exec_device_assign_message_u2_s2 e); "w2" :- uint32_t]);
     "u3" :- (union ["s3" :- bits (i2o_exec_device_assign_message_u3_s3 e); "h1" :- uint16_t]);
     "HostUnitID" :- uint16_t].
Definition get_i2o_exec_device_assign_DeviceTID (e : endian) (w : Z) : option Z :=
  match e with
  | LittleEndian => bget e (i2o_exec_device_assign_message_u2_s2 e) "DeviceTID" w
  | BigEndian => Some ((w .& 0xfff))
  end.
Definition put_i2o_exec_device_assign_DeviceTID (e : endian) (w v : Z) : option Z :=
  match e with
  | LittleEndian => bput e (i2o_exec_device_assign_message_u2_s2 e) "DeviceTID" w v
  | BigEndian => Some (u32 ((w .& .~ 0xfff) .| (v .& 0xfff)))
  end.
Definition get_i2o_exec_device_assign_DdmTID (e : endian) (w : Z) : option Z :=
  match e with
  | LittleEndian => bget e (i2o_exec_device_assign_message_u2_s2 e) "DdmTID" w
  | BigEndian => Some (((w >>> 12) .& 0xfff))
  end.
Definition put_i2o_exec_device_assign_DdmTID (e : endian) (w v : Z) : option Z :=
  match e with
  | LittleEndian => None
  | BigEndian => Some (u32 ((w .& .~ 0xfff000) .| ((v .& 0xfff) <<< 12)))
  end.
Definition get_i2o_exec_device_assign_OperationFlags (e : endian) (w : Z) : option Z :=
  match e with
  | LittleEndian => None
  | BigEndian => bget e (i2o_exec_device_assign_message_u2_s2 e) "OperationFlags" w
  end.
Definition put_i2o_exec_device_assign_OperationFlags (e : endian) (w v : Z) : option Z :=
  match e with
  | LittleEndian => bput e (i2o_exec_device_assign_message_u2_s2 e) "OperationFlags" w v
  | BigEndian => bput e (i2o_exec_device_assign_message_u2_s2 e) "OperationFlags" w v
  end.
Definition get_i2o_exec_device_assign_IOP_ID (e : endian) (w : Z) : option Z :=
  match e with
  | LittleEndian => bget e (i2o_exec_device_assign_message_u3_s3 e) "IOP_ID" w
  | BigEndian => Some ((w .& 0xfff))
  end.
Definition put_i2o_exec_device_assign_IOP_ID (e : endian) (w v : Z) : option Z :=
  match e with
  | LittleEndian => bput e (i2o_exec_device_assign_message_u3_s3 e) "IOP_ID" w v
  | BigEndian => Some (u16 ((w .& .~ 0xfff) .| (v .& 0xfff)))
  end.
Definition i2o_exec_device_release_message_u2_s2 (e : endian) : bitfields :=
  match e with
  | LittleEndian => Bitfields UInt [("DeviceTID"%string, 12); ("DdmTID"%string, 12); ("OperationFlags"%string, 8)]
  | BigEndian => Bitfields UInt [("OperationFlags"%string, 8); ("DdmTID"%string, 12); ("DeviceTID"%string, 12)]
  end.
Definition i2o_exec_device_release_message_u3_s3 (e : endian) : bitfields :=
  match e with
  | LittleEndian => Bitfields UShort [("IOP_ID"%string, 12); ("reserved"%string, 4)]
  | BigEndian => Bitfields UShort [("reserved"%string, 4); ("IOP_ID"%string, 12)]
  end.
Definition i2o_exec_device_release_message (e : endian) : ctype :=
  struct ["StdMessageFrame" :- (i2o_message_frame e);
     "TransactionContext" :- i2o_transaction_context_t;
     "u2" :- (union ["s2" :- bits (i2o_exec_device_release_message_u2_s2 e); "w2" :- uint32_t]);
     "u3" :- (union ["s3" :- bits (i2o_exec_device_release_message_u3_s3 e); "h1" :- uint16_t]);
     "HostUnitID" :- uint16_t].
Definition get_i2o_exec_device_release_DeviceTID (e : endian) (w : Z) : option Z :=
  match e with
  | LittleEndian => bget e (i2o_exec_device_release_message_u2_s2 e) "DeviceTID" w
  | BigEndian => Some ((w .& 0xfff))
  end.
Definition put_i2o_exec_device_release_DeviceTID (e : endian) (w v : Z) : option Z :=
  match e with
  | LittleEndian => bput e (i2o_exec_device_release_message_u2_s2 e) "DeviceTID" w v
  | BigEndian => Some (u32 ((w .& .~ 0xfff) .| (v .& 0xfff)))
  end.
Definition get_i2o_exec_device_release_DdmTID (e : endian) (w : Z) : option Z :=
  match e with
  | LittleEndian => bget e (i2o_exec_device_release_message_u2_s2 e) "DdmTID" w
  | BigEndian => Some (((w >>> 12) .& 0xfff))
  end.
Definition put_i2o_exec_device_release_DdmTID (e : endian) (w v : Z) : option Z :=
  match e with
  | LittleEndian => None
  | BigEndian => Some (u32 ((w .& .~ 0xfff000) .| ((v .& 0xfff) <<< 12)))
  end.
Definition get_i2o_exec_device_release_OperationFlags (e : endian) (w : Z) : option Z :=
  match e with
  | LittleEndian => None
  | BigEndian => bget e (i2o_exec_device_release_message_u2_s2 e) "OperationFlags" w
  end.
Definition put_i2o_exec_device_release_OperationFlags (e : endian) (w v : Z) : option Z :=
  match e with
  | LittleEndian => bput e (i2o_exec_device_release_message_u2_s2 e) "OperationFlags" w v
  | BigEndian => bput e (i2o_exec_device_release_message_u2_s2 e) "OperationFlags" w v
  end.
Definition get_i2o_exec_device_release_IOP_ID (e : endian) (w : Z) : option Z :=
  match e with
  | LittleEndian => bget e (i2o_exec_device_release_message_u3_s3 e) "IOP_ID" w
  | BigEndian => Some ((w .& 0xfff))
  end.
Definition put_i2o_exec_device_release_IOP_ID (e : endian) (w v : Z) : option Z :=
  match e with
  | LittleEndian => bput e (i2o_exec_device_release_message_u3_s3 e) "IOP_ID" w v
  | BigEndian => Some (u16 ((w .& .~ 0xfff) .| (v .& 0xfff)))
  end.
Definition i2o_exec_hrt_get_message (e : endian) : ctype :=
  struct ["StdMessageFrame" :- (i2o_message_frame e);
     "TransactionContext" :- i2o_transaction_context_t;
     "SGL" :- (i2o_sg_element e)].
Definition i2o_exec_iop_clear_message (e : endian) : ctype :=
  struct ["StdMessageFrame" :- (i2o_message_frame e);
     "TransactionContext" :- i2o_transaction_context_t].
Definition i2o_exec_iop_connect_message_u2_s2 (e : endian) : bitfields :=
  match e with
  | LittleEndian => Bitfields UInt [("reserved"%string, 24); ("IOP1MsgerType"%string, 8)]
  | BigEndian => Bitfields UInt [("IOP1MsgerType"%string, 8); ("reserved"%string, 24)]
  end.
Definition i2o_exec_iop_connect_message_u3_s3 (e : endian) : bitfields :=
  match e with
  | LittleEndian => Bitfields UShort [("IOP1AliasForIOP2"%string, 12); ("reserved1"%string, 4)]
  | BigEndian => Bitfields UShort [("reserved1"%string, 8); ("IOP1AliasForIOP2"%string, 12)]
  end.
Definition i2o_exec_iop_connect_message_u4_s4 (e : endian) : bitfields :=
  match e with
  | LittleEndian => Bitfields UShort [("IOP_ID1"%string, 12); ("reserved2"%string, 4)]
  | BigEndian => Bitfields UShort [("reserved2"%string, 4); ("IOP_ID1"%string, 12)]
  end.
Definition i2o_exec_iop_connect_message (e : endian) : ctype :=
  struct ["StdMessageFrame" :- (i2o_message_frame e);
     "TransactionContext" :- i2o_transaction_context_t;
     "u2" :- (union ["s2" :- bits (i2o_exec_iop_connect_message_u2_s2 e); "w2" :- uint32_t]);
     "IOP1InboundMFrameSize" :- uint16_t;
     "u3" :- (union ["s3" :- bits (i2o_exec_iop_connect_message_u3_s3 e); "h2" :- uint16_t]);
     "u4" :- (union ["s4" :- bits (i2o_exec_iop_connect_message_u4_s4 e); "h1" :- uint16_t]);
     "HostUnitID1" :- uint16_t].
Definition get_i2o_exec_iop_connect_IOP1MsgerType (e : endian) (w : Z) : option Z :=
  match e with
  | LittleEndian => None
  | BigEndian => Some (((w >>> 24) .& 0xff))
  end.
Definition put_i2o_exec_iop_connect_IOP1MsgerType (e : endian) (w v : Z) : option Z :=
  match e with
  | LittleEndian => bput e (i2o_exec_iop_connect_message_u2_s2 e) "IOP1MsgerType" w v
  | BigEndian => Some (u32 ((w .& .~ 0xff) .| ((v .& 0xff) <<< 24)))
  end.
Definition get_i2o_exec_iop_connect_IOP1AliasForIOP2 (e : endian) (w : Z) : option Z :=
  match e with
  | LittleEndian => None
  | BigEndian => Some ((w .& 0xfff))
  end.
Definition put_i2o_exec_iop_connect_IOP1AliasForIOP2 (e : endian) (w v : Z) : option Z :=
  match e with
  | LittleEndian => bput e (i2o_exec_iop_connect_message_u3_s3 e) "IOP1AliasForIOP2" w v
  | BigEndian => Some (u16 ((w .& .~ 0xfff) .| (v .& 0xfff)))
  end.
Definition get_i2o_exec_iop_connect_IOP_ID1 (e : endian) (w next : Z) : option Z :=
  match e with
  | LittleEndian => None
  | BigEndian => Some (((w <<< 16) .| next) .& 0xfff)
  end.
Definition put_i2o_exec_iop_connect_IOP_ID1 (e : endian) (w v : Z) : option Z :=
  match e with
  | LittleEndian => bput e (i2o_exec_iop_connect_message_u4_s4 e) "IOP_ID1" w v
  | BigEndian => Some (u16 ((w .& .~ 0xfff) .| (v .& 0xfff)))
  end.
Definition i2o_exec_iop_connect_iop_reply_u3_s3 (e : endian) : bitfields :=
  match e with
  | LittleEndian => Bitfields UShort [("IOP2AliasForIOP1"%string, 12); ("reserved1"%string, 4)]
  | BigEndian => Bitfields UShort [("reserved1"%string, 8); ("IOP2AliasForIOP1"%string, 12)]
  end.
Definition i2o_exec_iop_connect_iop_reply_u4_s4 (e : endian) : bitfields :=
  match e with
  | LittleEndian => Bitfields UShort [("IOP_ID2"%string, 12); ("reserved2"%string, 4)]
  | BigEndian => Bitfields UShort [("reserved2"%string, 4); ("IOP_ID2"%string, 12)]
  end.
Definition i2o_exec_iop_connect_iop_reply (e : endian) : ctype :=
  match e with
  | LittleEndian => struct ["StdMessageFrame" :- (i2o_message_frame e);
         "TransactionContext" :- i2o_transaction_context_t;
         "DetailedStatusCode" :- uint16_t;
         "reserved" :- uint8_t;
         "ReqStatus" :- uint8_t;
         "IOP2InboundMFrameSize" :- uint16_t;
         "u3" :- (union ["s3" :- bits (i2o_exec_iop_connect_iop_reply_u3_s3 e); "h2" :- uint16_t]);
         "u4" :- (union ["s4" :- bits (i2o_exec_iop_connect_iop_reply_u4_s4 e); "w4" :- uint16_t]);
         "HostUnitID2" :- uint16_t]
  | BigEndian => struct ["StdMessageFrame" :- (i2o_message_frame e);
         "TransactionContext" :- i2o_transaction_context_t;
         "DetailedStatusCode" :- uint16_t;
         "reserved" :- uint8_t;
         "ReqStatus" :- uint8_t;
         "IOP2InboundMFrameSize" :- uint16_t;
         "u3" :- (union ["s3" :- bits (i2o_exec_iop_connect_iop_reply_u3_s3 e); "h2" :- uint16_t]);
         "u4" :- (union ["s4" :- bits (i2o_exec_iop_connect_iop_reply_u4_s4 e); "h1" :- uint16_t]);
         "HostUnitID2" :- uint16_t]
  end.
Definition get_i2o_exec_iop_connect_reply_IOP2AliasForIOP1 (e : endian) (w : Z) : option Z :=
  match e with
  | LittleEndian => None
  | BigEndian => Some ((w .& 0xfff))
  end.
Definition put_i2o_exec_iop_connect_reply_IOP2AliasForIOP1 (e : endian) (w v : Z) : option Z :=
  match e with
  | LittleEndian => bput e (i2o_exec_iop_connect_iop_reply_u3_s3 e) "IOP2AliasForIOP1" w v
  | BigEndian => Some (u16 ((w .& .~ 0xfff) .| (v .& 0xfff)))
  end.
Definition get_i2o_exec_iop_connect_reply_IOP_ID2 (e : endian) (w next : Z) : option Z :=
  match e with
  | LittleEndian => None
  | BigEndian => Some (((w <<< 16) .| next) .& 0xfff)
  end.
Definition put_i2o_exec_iop_connect_reply_IOP_ID2 (e : endian) (w v : Z) : option Z :=
  match e with
  | LittleEndian => bput e (i2o_exec_iop_connect_iop_reply_u4_s4 e) "IOP_ID2" w v
  | BigEndian => Some (u16 ((w .& .~ 0xfff) .| (v .& 0xfff)))
  end.
Definition i2o_exec_iop_reset_message_u2_s2 (e : endian) : bitfields :=
  match e with
  | LittleEndian => Bitfields UInt [("TargetAddress"%string, 12); ("InitiatorAddress"%string, 12); ("Function"%string, 8)]
  | BigEndian => Bitfields UInt [("Function"%string, 8); ("InitiatorAddress"%string, 12); ("TargetAddress"%string, 12)]
  end.
Definition i2o_exec_iop_reset_message (e : endian) : ctype :=
  struct ["VersionOffset" :- uint8_t;
     "MsgFlags" :- uint8_t;
     "MessageSize" :- uint16_t;
     "u2" :- (union ["s2" :- bits (i2o_exec_iop_reset_message_u2_s2 e); "w2" :- uint32_t]);
     "Reserved" :- array I2O_EXEC_IOP_RESET_RESERVED_SZ uint8_t;
     "StatusWordLowAddress" :- uint32_t;
     "StatusWordHighAddress" :- uint32_t].
Definition get_i2o_exec_reset_TargetAddress (e : endian) (w : Z) : option Z :=
  match e with
  | LittleEndian => bget e (i2o_exec_iop_reset_message_u2_s2 e) "TargetAddress" w
  | BigEndian => Some ((w .& 0xfff))
  end.
Definition put_i2o_exec_reset_TargetAddress (e : endian) (w v : Z) : option Z :=
  match e with
  | LittleEndian => bput e (i2o_exec_iop_reset_message_u2_s2 e) "TargetAddress" w v
  | BigEndian => Some (u32 ((w .& .~ 0xfff) .| (v .& 0xfff)))
  end.
Definition get_i2o_exec_reset_InitiatorAddress (e : endian) (w : Z) : option Z :=
  match e with
  | LittleEndian => bget e (i2o_exec_iop_reset_message_u2_s2 e) "InitiatorAddress" w
  | BigEndian => Some (((w >>> 12) .& 0xfff))
  end.
Definition put_i2o_exec_reset_InitiatorAddress (e : endian) (w v : Z) : option Z :=
  match e with
  | LittleEndian => bput e (i2o_exec_iop_reset_message_u2_s2 e) "InitiatorAddress" w v
  | BigEndian => Some (u32 ((w .& .~ 0xfff000) .| ((v .& 0xfff) <<< 12)))
  end.
Definition get_i2o_exec_reset_Function (e : endian) (w : Z) : option Z :=
  match e with
  | LittleEndian => bget e (i2o_exec_iop_reset_message_u2_s2 e) "Function" w
  | BigEndian => bget e (i2o_exec_iop_reset_message_u2_s2 e) "Function" w
  end.
Definition put_i2o_exec_reset_Function (e : endian) (w v : Z) : option Z :=
  match e with
  | LittleEndian => bput e (i2o_exec_iop_reset_message_u2_s2 e) "Function" w v
  | BigEndian => bput e (i2o_exec_iop_reset_message_u2_s2 e) "Function" w v
  end.
Definition i2o_exec_lct_notify_message (e : endian) : ctype :=
  struct ["StdMessageFrame" :- (i2o_message_frame e);
     "TransactionContext" :- i2o_transaction_context_t;
     "ClassIdentifier" :- uint32_t;
     "LastReportedChangeIndicator" :- uint32_t;
     "SGL" :- (i2o_sg_element e)].
Definition i2o_exec_outbound_init_message (e : endian) : ctype :=
  struct ["StdMessageFrame" :- (i2o_message_frame e);
     "TransactionContext" :- i2o_transaction_context_t;
     "HostPageFrameSize" :- uint32_t;
     "InitCode" :- uint8_t;
     "reserved" :- uint8_t;
     "OutboundMFrameSize" :- uint16_t;
     "SGL" :- (i2o_sg_element e)].
Definition i2o_exec_path_enable_message_u2_s2 (e : endian) : bitfields :=
  match e with
  | LittleEndian => Bitfields UShort [("IOP_ID"%string, 12); ("reserved"%string, 4)]
  | BigEndian => Bitfields UShort [("reserved"%string, 4); ("IOP_ID"%string, 12)]
  end.
Definition i2o_exec_path_enable_message (e : endian) : ctype :=
  struct ["StdMessageFrame" :- (i2o_message_frame e);
     "TransactionContext" :- i2o_transaction_context_t;
     "u2" :- (union ["s2" :- bits (i2o_exec_path_enable_message_u2_s2 e); "h1" :- uint16_t]);
     "HostUnitID" :- uint16_t].
Definition get_i2o_exec_path_enable_IOP_ID (e : endian) (w next : Z) : option Z :=
  match e with
  | LittleEndian => bget e (i2o_exec_path_enable_message_u2_s2 e) "IOP_ID" w
  | BigEndian => Some (((w <<< 16) .| next) .& 0xfff)
  end.
Definition put_i2o_exec_path_enable_IOP_ID (e : endian) (w v : Z) : option Z :=
  match e with
  | LittleEndian => bput e (i2o_exec_path_enable_message_u2_s2 e) "IOP_ID" w v
  | BigEndian => Some (u16 ((w .& .~ 0xfff) .| (v .& 0xfff)))
  end.
Definition i2o_exec_path_quiesce_message_u2_s2 (e : endian) : bitfields :=
  match e with
  | LittleEndian => Bitfields UShort [("IOP_ID"%string, 12); ("reserved"%string, 4)]
  | BigEndian => Bitfields UShort [("reserved"%string, 4); ("IOP_ID"%string, 12)]
  end.
Definition i2o_exec_path_quiesce_message (e : endian) : ctype :=
  struct ["StdMessageFrame" :- (i2o_message_frame e);
     "TransactionContext" :- i2o_transaction_context_t;
     "u2" :- (union ["s2" :- bits (i2o_exec_path_quiesce_message_u2_s2 e); "h1" :- uint16_t]);
     "HostUnitID" :- uint16_t].
Definition get_i2o_exec_path_quiesce_IOP_ID (e : endian) (w : Z) : option Z :=
  match e with
  | LittleEndian => bget e (i2o_exec_path_quiesce_message_u2_s2 e) "IOP_ID" w
  | BigEndian => Some ((w .& 0xfff))
  end.
Definition put_i2o_exec_path_quiesce_IOP_ID (e : endian) (w v : Z) : option Z :=
  match e with
  | LittleEndian => bput e (i2o_exec_path_quiesce_message_u2_s2 e) "IOP_ID" w v
  | BigEndian => Some (u16 ((w .& .~ 0xfff) .| (v .& 0xfff)))
  end.
Definition i2o_exec_path_reset_message_u2_s2 (e : endian) : bitfields :=
  match e with
  | LittleEndian => Bitfields UShort [("IOP_ID"%string, 12); ("reserved"%string, 4)]
  | BigEndian => Bitfields UShort [("reserved"%string, 4); ("IOP_ID"%string, 12)]
  end.
Definition i2o_exec_path_reset_message (e : endian) : ctype :=
  struct ["StdMessageFrame" :- (i2o_message_frame e);
     "TransactionContext" :- i2o_transaction_context_t;
     "u2" :- (union ["s2" :- bits (i2o_exec_path_reset_message_u2_s2 e); "h1" :- uint16_t]);
     "HostUnitID" :- uint16_t].
Definition get_i2o_exec_path_reset_IOP_ID (e : endian) (w : Z) : option Z :=
  match e with
  | LittleEndian => bget e (i2o_exec_path_reset_message_u2_s2 e) "IOP_ID" w
  | BigEndian => Some ((w .& 0xfff))
  end.
Definition put_i2o_exec_path_reset_IOP_ID (e : endian) (w v : Z) : option Z :=
  match e with
  | LittleEndian => bput e (i2o_exec_path_reset_message_u2_s2 e) "IOP_ID" w v
  | BigEndian => Some (u16 ((w .& .~ 0xfff) .| (v .& 0xfff)))
  end.
Definition i2o_exec_static_mf_create_message (e : endian) : ctype :=
  struct ["StdMessageFrame" :- (i2o_message_frame e);
     "TransactionContext" :- i2o_transaction_context_t;
     "MaxOutstanding" :- uint8_t;
     "reserved" :- array I2O_EXEC_STATIC_MF_CREATE_RESERVED_SZ uint8_t;
     "StaticMessageFrame" :- (i2o_message_frame e)].
Definition i2o_exec_static_mf_create_reply (e : endian) : ctype :=
  struct ["StdReplyFrame" :- (i2o_single_reply_message_frame e);
     "StaticMFA" :- (i2o_message_frame e)].
Definition i2o_exec_static_mf_release_message (e : endian) : ctype :=
  struct ["StdMessageFrame" :- (i2o_message_frame e);
     "TransactionContext" :- i2o_transaction_context_t;
     "StaticMFA" :- (i2o_message_frame e)].
Definition i2o_exec_status_get_message_u2_s2 (e : endian) : bitfields :=
  Bitfields UInt [("Function"%string, 8); ("InitiatorAddress"%string, 12); ("TargetAddress"%string, 12)].
Definition i2o_exec_status_get_message (e : endian) : ctype :=
  struct ["VersionOffset" :- uint8_t;
     "MsgFlags" :- uint8_t;
     "MessageSize" :- uint16_t;
     "u2" :- (union ["s2" :- bits (i2o_exec_status_get_message_u2_s2 e); "w2" :- uint32_t]);
     "Reserved" :- array I2O_EXEC_STATUS_GET_RESERVED_SZ uint8_t;
     "ReplyBufferAddressLow" :- uint32_t;
     "ReplyBufferAddressHigh" :- uint32_t;
     "ReplyBufferLength" :- uint32_t].
Definition get_i2o_exec_status_TargetAddress (e : endian) (w : Z) : option Z :=
  match e with
  | LittleEndian => bget e (i2o_exec_status_get_message_u2_s2 e) "TargetAddress" w
  | BigEndian => Some ((w .& 0xfff))
  end.
Definition put_i2o_exec_status_TargetAddress (e : endian) (w v : Z) : option Z :=
  match e with
  | LittleEndian => bput e (i2o_exec_status_get_message_u2_s2 e) "TargetAddress" w v
  | BigEndian => Some (u32 ((w .& .~ 0xfff) .| (v .& 0xfff)))
  end.
Definition get_i2o_exec_status_InitiatorAddress (e : endian) (w : Z) : option Z :=
  match e with
  | LittleEndian => bget e (i2o_exec_status_get_message_u2_s2 e) "InitiatorAddress" w
  | BigEndian => Some (((w >>> 12) .& 0xfff))
  end.
Definition put_i2o_exec_status_InitiatorAddress (e : endian) (w v : Z) : option Z :=
  match e with
  | LittleEndian => bput e (i2o_exec_status_get_message_u2_s2 e) "InitiatorAddress" w v
  | BigEndian => Some (u32 ((w .& .~ 0xfff000) .| ((v .& 0xfff) <<< 12)))
  end.
Definition get_i2o_exec_status_Function (e : endian) (w : Z) : option Z :=
  match e with
  | LittleEndian => bget e (i2o_exec_status_get_message_u2_s2 e) "Function" w
  | BigEndian => bget e (i2o_exec_status_get_message_u2_s2 e) "Function" w
  end.
Definition put_i2o_exec_status_Function (e : endian) (w v : Z) : option Z :=
  match e with
  | LittleEndian => bput e (i2o_exec_status_get_message_u2_s2 e) "Function" w v
  | BigEndian => bput e (i2o_exec_status_get_message_u2_s2 e) "Function" w v
  end.
Definition i2o_exec_status_get_reply_u2_s2 (e : endian) : bitfields :=
  match e with
  | LittleEndian => Bitfields UShort [("IOP_ID"%string, 12); ("reserved1"%string, 4)]
  | BigEndian => Bitfields UShort [("reserved1"%string, 4); ("IOP_ID"%string, 12)]
  end.
Definition i2o_exec_status_get_reply_u3_s3 (e : endian) : bitfields :=
  match e with
  | LittleEndian => Bitfields UShort [("SegmentNumber"%string, 12); ("I2oVersion"%string, 4)]
  | BigEndian => Bitfields UShort [("I2oVersion"%string, 4); ("SegmentNumber"%string, 12)]
  end.
Definition i2o_exec_status_get_reply (e : endian) : ctype :=
  struct ["OrganizationID" :- uint16_t;
     "reserved" :- uint16_t;
     "u2" :- (union ["s2" :- bits (i2o_exec_status_get_reply_u2_s2 e); "h1" :- uint16_t]);
     "HostUnitID" :- uint16_t;
     "u3" :- (union ["s3" :- bits (i2o_exec_status_get_reply_u3_s3 e); "h1" :- uint16_t]);
     "IopState" :- uint8_t;
     "MessengerType" :- uint8_t;
     "InboundMFrameSize" :- uint16_t;
     "InitCode" :- uint8_t;
     "reserved2" :- uint8_t;
     "MaxInboundMFrames" :- uint32_t;
     "CurrentInboundMFrames" :- uint32_t;
     "MaxOutboundMFrames" :- uint32_t;
     "ProductIDString" :- array I2O_IOP_STATUS_PROD_ID_STR_SZ uint8_t;
     "ExpectedLCTSize" :- uint32_t;
     "IopCapabilities" :- uint32_t;
     "DesiredPrivateMemSize" :- uint32_t;
     "CurrentPrivateMemSize" :- uint32_t;
     "CurrentPrivateMemBase" :- uint32_t;
     "DesiredPrivateIOSize" :- uint32_t;
     "CurrentPrivateIOSize" :- uint32_t;
     "CurrentPrivateIOBase" :- uint32_t;
     "reserved3" :- array 3 uint8_t;
     "SyncByte" :- uint8_t].
Definition get_i2o_exec_status_reply_IOP_ID (e : endian) (w : Z) : option Z :=
  match e with
  | LittleEndian => bget e (i2o_exec_status_get_reply_u2_s2 e) "IOP_ID" w
  | BigEndian => Some ((w .& 0xfff))
  end.
Definition get_i2o_exec_status_reply_SegmentNumber (e : endian) (w : Z) : option Z :=
  match e with
  | LittleEndian => bget e (i2o_exec_status_get_reply_u3_s3 e) "SegmentNumber" w
  | BigEndian => None
  end.
Definition get_i2o_exec_status_reply_I2oVersion (e : endian) (w : Z) : option Z :=
  match e with
  | LittleEndian => bget e (i2o_exec_status_get_reply_u3_s3 e) "I2oVersion" w
  | BigEndian => Some ((w >>> 4))
  end.
Definition get_i2o_exec_staus_reply_SegmentNumber (e : endian) (w : Z) : option Z :=
  match e with
  | LittleEndian => None
  | BigEndian => Some ((w .& 0xfff))
  end.
Definition i2o_exec_sw_donwload_message (e : endian) : ctype :=
  struct ["StdMessageFrame" :- (i2o_message_frame e);
     "TransactionContext" :- i2o_transaction_context_t;
     "CurrentFragment" :- uint8_t;
     "TotalFragments" :- uint8_t;
     "SwType" :- uint8_t;
     "DownloadFlags" :- uint8_t;
     "SWSize" :- uint32_t;
     "SwID" :- i2o_sw_id;
     "SGL" :- (i2o_sg_element e)].
Definition i2o_exec_sw_upload_message (e : endian) : ctype :=
  struct ["StdMessageFrame" :- (i2o_message_frame e);
     "TransactionContext" :- i2o_transaction_context_t;
     "CurrentFragment" :- uint8_t;
     "TotalFragments" :- uint8_t;
     "SwType" :- uint8_t;
     "UploadFlags" :- uint8_t;
     "SWSize" :- uint32_t;
     "SwID" :- i2o_sw_id;
     "SGL" :- (i2o_sg_element e)].
Definition i2o_exec_sw_remove_message (e : endian) : ctype :=
  struct ["StdMessageFrame" :- (i2o_message_frame e);
     "TransactionContext" :- i2o_transaction_context_t;
     "reserved" :- uint16_t;
     "SwType" :- uint8_t;
     "RemoveFlags" :- uint8_t;
     "SWSize" :- uint32_t;
     "SwID" :- i2o_sw_id].
Definition i2o_exec_sys_enable_message (e : endian) : ctype :=
  struct ["StdMessageFrame" :- (i2o_message_frame e);
     "TransactionContext" :- i2o_transaction_context_t].
Definition i2o_exec_sys_modify_message (e : endian) : ctype :=
  struct ["StdMessageFrame" :- (i2o_message_frame e);
     "TransactionContext" :- i2o_transaction_context_t;
     "SGL" :- (i2o_sg_element e)].
Definition i2o_exec_sys_quiesce_message (e : endian) : ctype :=
  struct ["StdMessageFrame" :- (i2o_message_frame e);
     "TransactionContext" :- i2o_transaction_context_t].
Definition i2o_exec_sys_tab_set_message_u2_s2 (e : endian) : bitfields :=
  match e with
  | LittleEndian => Bitfields UShort [("IOP_ID"%string, 12); ("reserved"%string, 4)]
  | BigEndian => Bitfields UShort [("reserved"%string, 4); ("IOP_ID"%string, 12)]
  end.
Definition i2o_exec_sys_tab_set_message_u3_s3 (e : endian) : bitfields :=
  match e with
  | LittleEndian => Bitfields UInt [("SegmentNumber"%string, 12); ("reserved1"%string, 20)]
  | BigEndian => Bitfields UInt [("reserved1"%string, 20); ("SegmentNumnber"%string, 12)]
  end.
Definition i2o_exec_sys_tab_set_message (e : endian) : ctype :=
  struct ["StdMessageFrame" :- (i2o_message_frame e);
     "TransactionContext" :- i2o_transaction_context_t;
     "u2" :- (union ["s2" :- bits (i2o_exec_sys_tab_set_message_u2_s2 e); "h1" :- uint16_t]);
     "HostUnitID" :- uint16_t;
     "u3" :- (union ["s3" :- bits (i2o_exec_sys_tab_set_message_u3_s3 e); "w3" :- uint32_t]);
     "SGL" :- (i2o_sg_element e)].
Definition get_i2o_exec_sys_tab_set_IOP_ID (e : endian) (w : Z) : option Z :=
  match e with
  | LittleEndian => bget e (i2o_exec_sys_tab_set_message_u2_s2 e) "IOP_ID" w
  | BigEndian => Some ((w .& 0xfff))
  end.
Definition put_i2o_exec_sys_tab_set_IOP_ID (e : endian) (w v : Z) : option Z :=
  match e with
  | LittleEndian => bput e (i2o_exec_sys_tab_set_message_u2_s2 e) "IOP_ID" w v
  | BigEndian => Some (u16 ((w .& .~ 0xfff) .| (v .& 0xfff)))
  end.
Definition get_i2o_exec_sys_tab_set_SegmentNumber (e : endian) (w : Z) : option Z :=
  match e with
  | LittleEndian => bget e (i2o_exec_sys_tab_set_message_u3_s3 e) "SegmentNumber" w
  | BigEndian => Some ((w .& 0xfff))
  end.
Definition put_i2o_exec_sys_tab_set_SegmentNumber (e : endian) (w v : Z) : option Z :=
  match e with
  | LittleEndian => bput e (i2o_exec_sys_tab_set_message_u3_s3 e) "SegmentNumber" w v
  | BigEndian => Some (u32 ((w .& .~ 0xfff) .| (v .& 0xfff)))
  end.
Definition i2o_iop_entry_u2_s2 (e : endian) : bitfields :=
  match e with
  | LittleEndian => Bitfields UInt [("IOP_ID"%string, 12); ("reserved1"%string, 20)]
  | BigEndian => Bitfields UInt [("reserved1"%string, 20); ("IOP_ID"%string, 12)]
  end.
Definition i2o_iop_entry_u3_s3 (e : endian) : bitfields :=
  match e with
  | LittleEndian => Bitfields UShort [("SegmentNumber"%string, 12); ("I2oVersion"%string, 4)]
  | BigEndian => Bitfields UShort [("I2oVersion"%string, 4); ("SegmentNumber"%string, 12)]
  end.
Definition i2o_iop_entry (e : endian) : ctype :=
  struct ["OrganizationID" :- uint16_t;
     "reserved" :- uint16_t;
     "u2" :- (union ["s2" :- bits (i2o_iop_entry_u2_s2 e); "w2" :- uint32_t]);
     "u3" :- (union ["s3" :- bits (i2o_iop_entry_u3_s3 e); "h1" :- uint16_t]);
     "IopState" :- uint8_t;
     "MessengerType" :- uint8_t;
     "InboundMessageFrameSize" :- uint16_t;
     "reserved2" :- uint16_t;
     "LastChanged" :- uint32_t;
     "IopCapabilities" :- uint32_t;
     "MessengerInfo" :- i2o_messenger_info].
Definition get_i2o_iop_entry_IOP_ID (e : endian) (w : Z) : option Z :=
  match e with
  | LittleEndian => bget e (i2o_iop_entry_u2_s2 e) "IOP_ID" w
  | BigEndian => Some ((w .& 0xfff))
  end.
Definition put_i2o_iop_entry_IOP_ID (e : endian) (w v : Z) : option Z :=
  match e with
  | LittleEndian => bput e (i2o_iop_entry_u2_s2 e) "IOP_ID" w v
  | BigEndian => None
  end.
Definition get_i2o_iop_entry_SegmentNumber (e : endian) (w : Z) : option Z :=
  match e with
  | LittleEndian => bget e (i2o_iop_entry_u3_s3 e) "SegmentNumber" w
  | BigEndian => Some ((w .& 0xfff))
  end.
Definition put_i2o_iop_entry_SegmentNumber (e : endian) (w v : Z) : option Z :=
  match e with
  | LittleEndian => bput e (i2o_iop_entry_u3_s3 e) "SegmentNumber" w v
  | BigEndian => None
  end.
Definition get_i2o_iop_entry_I2oVersion (e : endian) (w : Z) : option Z :=
  match e with
  | LittleEndian => bget e (i2o_iop_entry_u3_s3 e) "I2oVersion" w
  | BigEndian => Some (((w >>> 12) .& 0xf))
  end.
Definition put_i2o_iop_entry_I2oVersion (e : endian) (w v : Z) : option Z :=
  match e with
  | LittleEndian => bput e (i2o_iop_entry_u3_s3 e) "I2oVersion" w v
  | BigEndian => None
  end.

(** [sys/i2o/i2omstr.h] *)
Definition i2o_bsa_reply_message_frame (e : endian) : ctype :=
  struct ["StdMessageFrame" :- (i2o_message_frame e);
     "TransactionContext" :- i2o_transaction_context_t;
     "DetailedStatusCode" :- uint16_t;
     "RetryCount" :- uint8_t;
     "ReqStatus" :- uint8_t].
Definition i2o_bsa_success_reply_message_frame (e : endian) : ctype :=
  struct ["BsaReplyFrame" :- (i2o_bsa_reply_message_frame e);
     "TransferCount" :- uint32_t].
Definition i2o_bsa_abort_reply_message_frame (e : endian) : ctype :=
  struct ["BsaReplyFrame" :- (i2o_bsa_reply_message_frame e)].
Definition i2o_bsa_progress_reply_message_frame (e : endian) : ctype :=
  struct ["BsaReplyFrame" :- (i2o_bsa_reply_message_frame e);
     "PercentComplete" :- uint8_t;
     "Reserved" :- array 3 uint8_t].
Definition i2o_bsa_error_reply_message_frame (e : endian) : ctype :=
  struct ["BsaReplyFrame" :- (i2o_bsa_reply_message_frame e);
     "TransferCount" :- uint32_t;
     "LogicalByteAddress" :- uint64_t].
Definition i2o_bsa_read_message (e : endian) : ctype :=
  struct ["StdMessageFrame" :- (i2o_message_frame e);
     "TransactionContext" :- i2o_transaction_context_t;
     "ControlFlags" :- i2o_bsa_read_flags_t;
     "TimeMultiplier" :- uint8_t;
     "FetchAhead" :- uint8_t;
     "TransferByteCount" :- uint32_t;
     "LogicalByteAddress" :- uint64_t;
     "SGL" :- (i2o_sg_element e)].
Definition i2o_bsa_block_reassign_message (e : endian) : ctype :=
  struct ["StdMessageFrame" :- (i2o_message_frame e);
     "TransactionContext" :- i2o_transaction_context_t;
     "Reserved1" :- uint16_t;
     "TimeMultiplier" :- uint8_t;
     "Reserved2" :- uint8_t;
     "SGL" :- (i2o_sg_element e)].
Definition i2o_bsa_write_message (e : endian) : ctype :=
  struct ["StdMessageFrame" :- (i2o_message_frame e);
     "TransactionContext" :- i2o_transaction_context_t;
     "ControlFlags" :- i2o_bsa_write_flags_t;
     "TimeMultiplier" :- uint8_t;
     "Reserved" :- uint8_t;
     "TransferByteCount" :- uint32_t;
     "LogicalByteAddress" :- uint64_t;
     "SGL" :- (i2o_sg_element e)].
Definition i2o_bsa_write_verify_message (e : endian) : ctype :=
  struct ["StdMessageFrame" :- (i2o_message_frame e);
     "TransactionContext" :- i2o_transaction_context_t;
     "ControlFlags" :- i2o_bsa_write_flags_t;
     "TimeMultiplier" :- uint8_t;
     "Reserved" :- uint8_t;
     "TransferByteCount" :- uint32_t;
     "LogicalByteAddress" :- uint64_t;
     "SGL" :- (i2o_sg_element e)].
Definition i2o_bsa_cache_flush_message (e : endian) : ctype :=
  struct ["StdMessageFrame" :- (i2o_message_frame e);
     "TransactionContext" :- i2o_transaction_context_t;
     "ControlFlags" :- i2o_bsa_ctl_flags_t;
     "TimeMultiplier" :- uint8_t;
     "Reserved" :- uint8_t].
Definition _12o_bsa_device_reset_message (e : endian) : ctype :=
  struct ["StdMessageFrame" :- (i2o_message_frame e);
     "TransactionContext" :- i2o_transaction_context_t;
     "ControlFlags" :- i2o_bsa_reset_flags_t;
     "TimeMultiplier" :- uint8_t;
     "Reserved" :- uint8_t].
Definition i2o_bsa_media_eject_message (e : endian) : ctype :=
  struct ["StdMessageFrame" :- (i2o_message_frame e);
     "TransactionContext" :- i2o_transaction_context_t;
     "MediaIdentifier" :- i2o_bsa_media_id_t].
Definition i2o_bsa_media_lock_message (e : endian) : ctype :=
  struct ["StdMessageFrame" :- (i2o_message_frame e);
     "TransactionContext" :- i2o_transaction_context_t;
     "MediaIdentifier" :- i2o_bsa_media_id_t].
Definition i2o_bsa_media_mount_message (e : endian) : ctype :=
  struct ["StdMessageFrame" :- (i2o_message_frame e);
     "TransactionContext" :- i2o_transaction_context_t;
     "MediaIdentifier" :- i2o_bsa_media_id_t;
     "LoadFlags" :- i2o_bsa_load_flags_t;
     "Reserved" :- array 3 uint8_t].
Definition i2o_bsa_media_unlock_message (e : endian) : ctype :=
  struct ["StdMessageFrame" :- (i2o_message_frame e);
     "TransactionContext" :- i2o_transaction_context_t;
     "MediaIdentifier" :- i2o_bsa_media_id_t].
Definition i2o_bsa_media_verify_message (e : endian) : ctype :=
  struct ["StdMessageFrame" :- (i2o_message_frame e);
     "TransactionContext" :- i2o_transaction_context_t;
     "ControlFlags" :- i2o_bsa_verify_flags_t;
     "TimeMultiplier" :- uint8_t;
     "Reserved" :- uint8_t;
     "ByteCount" :- uint32_t;
     "LogicalByteAddress" :- uint64_t].
Definition i2o_bsa_power_management_message (e : endian) : ctype :=
  struct ["StdMessageFrame" :- (i2o_message_frame e);
     "TransactionContext" :- i2o_transaction_context_t;
     "ControlFlags" :- i2o_bsa_ctl_flags_t;
     "TimeMultiplier" :- uint8_t;
     "ReplyType" :- uint8_t;
     "Operation" :- i2o_bsa_operation_t].
Definition i2o_bsa_status_check_message (e : endian) : ctype :=
  struct ["StdMessageFrame" :- (i2o_message_frame e);
     "TransactionContext" :- i2o_transaction_context_t].

(** [sys/i2o/i2obscsi.h] *)
Definition i2o_scsi_success_reply_message_frame (e : endian) : ctype :=
  struct ["StdReplyFrame" :- (i2o_single_reply_message_frame e);
     "TransferCount" :- uint32_t].
Definition i2o_scsi_error_reply_message_frame (e : endian) : ctype :=
  struct ["StdReplyFrame" :- (i2o_single_reply_message_frame e);
     "TransferCount" :- uint32_t;
     "AutoSenseTransferCount" :- uint32_t;
     "SenseData" :- array I2O_SCSI_SENSE_DATA_SZ uint8_t].
Definition i2o_scsi_device_reset_message (e : endian) : ctype :=
  struct ["StdMessageFrame" :- (i2o_message_frame e);
     "TransactionContext" :- i2o_transaction_context_t].
Definition i2o_scsi_scb_abort_message (e : endian) : ctype :=
  struct ["StdMessageFrame" :- (i2o_message_frame e);
     "TransactionContext" :- i2o_transaction_context_t;
     "TransactionContextToAbort" :- i2o_transaction_context_t].
Definition i2o_scsi_scb_execute_message (e : endian) : ctype :=
  struct ["StdMessageFrame" :- (i2o_message_frame e);
     "TransactionContext" :- i2o_transaction_context_t;
     "CDBLength" :- uint8_t;
     "Reserved" :- uint8_t;
     "SCBFlags" :- uint16_t;
     "CDB" :- array I2O_SCSI_CDB_LENGTH uint8_t;
     "ByteCount" :- uint32_t;
     "SGL" :- (i2o_sg_element e)].

(** [sys/i2o/i2oadptr.h] *)
Definition i2o_hba_reply_message_frame (e : endian) : ctype :=
  struct ["StdReplyFrame" :- (i2o_single_reply_message_frame e)].
Definition i2o_hba_adapter_reset_message (e : endian) : ctype :=
  struct ["StdMessageFrame" :- (i2o_message_frame e);
     "TransactionContext" :- i2o_transaction_context_t].
Definition i2o_hba_bus_quiesce_message (e : endian) : ctype :=
  struct ["StdMessageFrame" :- (i2o_message_frame e);
     "TransactionContext" :- i2o_transaction_context_t;
     "Flags" :- i2o_hbq_flags_t].
Definition i2o_hba_bus_reset_message (e : endian) : ctype :=
  struct ["StdMessageFrame" :- (i2o_message_frame e);
     "TransactionContext" :- i2o_transaction_context_t].
Definition i2o_hba_bus_scan_message (e : endian) : ctype :=
  struct ["StdMessageFrame" :- (i2o_message_frame e);
     "TransactionContext" :- i2o_transaction_context_t].
