(* ===== verification/I2o.v ===== *)
(** * I2O messages

    The two variants of the I2O headers describe the same messages: a field has
    the same bits of its integer whether it is a bit field of a little-endian
    machine or is masked out of the word by the big-endian macros, and the
    structures have the same layout.  The exceptions are named. *)
From Stdlib Require Import String.
From S2P Require Import Prelude ByteOrder CTypes AbiTypes BitFields AbiDevice I2oData.
#[local] Open Scope Z_scope.

(** The accessors of a field by the name they have in the headers: the macro that
    reads it and the one that assigns it, the variants in which each of them is
    defined and expands to C, and the bits of the integer it is for. *)
Record accessor := Accessor {
  a_name : string;
  a_get : endian -> Z -> option Z; a_gets : endian -> bool;
  a_put : endian -> Z -> Z -> option Z; a_puts : endian -> bool;
  a_width : Z;
  a_pos : Z;
  a_len : Z
}.
Definition both (e : endian) : bool := true.
Definition little (e : endian) : bool := match e with LittleEndian => true | BigEndian => false end.
Definition big (e : endian) : bool := negb (little e).
Definition nowhere (e : endian) : bool := false.
Definition no_get (e : endian) (w : Z) : option Z := None.
Definition no_put (e : endian) (w v : Z) : option Z := None.

(** All accessor macros of [I2oData].  Three big-endian macros read the member after
    the one they name too, which is taken to be zero here. *)
Definition accessors : list accessor :=
  [Accessor "msg_TargetAddress" get_msg_TargetAddress both put_msg_TargetAddress both 32 0 12;
   Accessor "msg_InitiatorAddress" get_msg_InitiatorAddress both put_msg_InitiatorAddress both 32 12 12;
   Accessor "msg_Function" get_msg_Function both put_msg_Function both 32 24 8;
   Accessor "reply_msg_FailingIOP_ID" get_reply_msg_FailingIOP_ID both no_put nowhere 16 0 12;
   Accessor "hrt_entry_ControllingTID" get_hrt_entry_ControllingTID both no_put nowhere 16 0 12;
   Accessor "hrt_entry_AdapterState" get_hrt_entry_AdapterState both no_put nowhere 16 12 4;
   Accessor "lct_entry_LocalTID" get_lct_entry_LocalTID little no_put nowhere 32 16 12;
   Accessor "lct_entry_TableEntrySize" get_lct_entry_TableEntrySize both no_put nowhere 32 0 16;
   Accessor "lct_entry_Class" get_lct_entry_Class both no_put nowhere 32 0 12;
   Accessor "lct_entry_Version" get_lct_entry_Version both no_put nowhere 32 12 4;
   Accessor "lct_entry_OrganizationID" get_lct_entry_OrganizationID little no_put nowhere 32 16 16;
   Accessor "lct_entry_BiosInfo" get_lct_entry_BiosInfo both no_put nowhere 32 24 8;
   Accessor "lct_entry_ParentTID" get_lct_entry_ParentTID little no_put nowhere 32 12 12;
   Accessor "lct_entry_UserTID" get_lct_entry_UserTID little no_put nowhere 32 0 12;
   Accessor "lct_BootDeviceTID" get_lct_BootDeviceTID little no_put nowhere 16 0 12;
   Accessor "lct_LctVer" get_lct_LctVer little no_put nowhere 16 12 4;
   Accessor "flags_count_Count" get_flags_count_Count both put_flags_count_Count both 32 0 24;
   Accessor "flags_count_Flags" get_flags_count_Flags both put_flags_count_Flags both 32 24 8;
   Accessor "sge_long_LongElementLength" get_sge_long_LongElementLength both put_sge_long_LongElementLength both 32 0 24;
   Accessor "sge_long_Flags" get_sge_long_Flags both put_sge_long_Flags both 32 24 8;
   Accessor "i2o_util_FailingIOP_ID" get_i2o_util_FailingIOP_ID both no_put nowhere 16 0 12;
   Accessor "i2o_exec_adapter_DdmTID" get_i2o_exec_adapter_DdmTID both put_i2o_exec_adapter_DdmTID both 32 0 12;
   Accessor "i2o_exec_adapter_OperationFlags" get_i2o_exec_adapter_OperationFlags both put_i2o_exec_adapter_OperationFlags little 32 24 8;
   Accessor "i2o_exec_adapter_OperatonFlags" no_get nowhere put_i2o_exec_adapter_OperatonFlags big 32 24 8;
   Accessor "i2o_exec_bios_DeviceTID" get_i2o_exec_bios_DeviceTID little put_i2o_exec_bios_DeviceTID little 32 0 12;
   Accessor "i2o_exec_BiosInfo" get_i2o_exec_BiosInfo both put_i2o_exec_BiosInfo big 32 24 8;
   Accessor "i2o_exec_bios_DeviceID" get_i2o_exec_bios_DeviceID big put_i2o_exec_bios_DeviceID big 32 0 12;
   Accessor "i2o_exec_boot_BootDevice" get_i2o_exec_boot_BootDevice both put_i2o_exec_boot_BootDevice both 32 0 12;
   Accessor "i2o_exec_setup_IOP1AliasForTargetDevice" get_i2o_exec_setup_IOP1AliasForTargetDevice both put_i2o_exec_setup_IOP1AliasForTargetDevice both 32 0 12;
   Accessor "i2o_exec_setup_IOP2AliasForInitiatorDevice" get_i2o_exec_setup_IOP2AliasForInitiatorDevice little no_put nowhere 32 12 12;
   Accessor "i2o_exec_setup_IOP2AliasForInitiatortDevice" no_get nowhere put_i2o_exec_setup_IOP2AliasForInitiatortDevice nowhere 32 12 12;
   Accessor "i2o_exec_setup_IOP2ForInitiatorDevice" get_i2o_exec_setup_IOP2ForInitiatorDevice big put_i2o_exec_setup_IOP2ForInitiatorDevice nowhere 32 12 12;
   Accessor "i2o_exec_setup_TargetDevice" get_i2o_exec_setup_TargetDevice both put_i2o_exec_setup_TargetDevice both 32 0 12;
   Accessor "i2o_exec_setup_InitiatorDevice" get_i2o_exec_setup_InitiatorDevice both put_i2o_exec_setup_InitiatorDevice nowhere 32 12 12;
   Accessor "i2o_exec_setup_OperationFlags" get_i2o_exec_setup_OperationFlags big put_i2o_exec_setup_OperationFlags both 32 24 8;
   Accessor "connect_reply_TargetDevice" get_connect_reply_TargetDevice both no_put nowhere 32 0 12;
   Accessor "connect_reply_InitiatorDevice" get_connect_reply_InitiatorDevice both no_put nowhere 32 12 12;
   Accessor "connect_reply_RepluStatus" get_connect_reply_RepluStatus little no_put nowhere 32 24 8;
   Accessor "connect_reply_ReplyStatusCode" get_connect_reply_ReplyStatusCode big no_put nowhere 32 24 8;
   Accessor "i2o_exec_ddm_destroy_DdmTID" get_i2o_exec_ddm_destroy_DdmTID both put_i2o_exec_ddm_destroy_DdmTID both 32 0 12;
   Accessor "i2o_exec_ddm_enable_DeviceTID" get_i2o_exec_ddm_enable_DeviceTID both put_i2o_exec_ddm_enable_DeviceTID both 32 0 12;
   Accessor "i2o_exec_ddm_enable_IOP_ID" get_i2o_exec_ddm_enable_IOP_ID both put_i2o_exec_ddm_enable_IOP_ID both 16 0 12;
   Accessor "i2o_exec_ddm_quiesce_DeviceTID" get_i2o_exec_ddm_quiesce_DeviceTID both put_i2o_exec_ddm_quiesce_DeviceTID both 32 0 12;
   Accessor "i2o_exec_ddm_quiesce_IOP_ID" get_i2o_exec_ddm_quiesce_IOP_ID both put_i2o_exec_ddm_quiesce_IOP_ID both 16 0 12;
   Accessor "i2o_exec_ddm_reset_DeviceTID" get_i2o_exec_ddm_reset_DeviceTID both put_i2o_exec_ddm_reset_DeviceTID both 32 0 12;
   Accessor "i2o_exec_ddm_reset_IOP_ID" get_i2o_exec_ddm_reset_IOP_ID both put_i2o_exec_ddm_reset_IOP_ID big 16 0 12;
   Accessor "i2o_exec_ddm_resetquiesce_IOP_ID" no_get nowhere put_i2o_exec_ddm_resetquiesce_IOP_ID little 16 0 12;
   Accessor "i2o_exec_ddm_suspend_DdmTID" get_i2o_exec_ddm_suspend_DdmTID both put_i2o_exec_ddm_suspend_DdmTID both 32 0 12;
   Accessor "i2o_exec_device_assign_DeviceTID" get_i2o_exec_device_assign_DeviceTID both put_i2o_exec_device_assign_DeviceTID both 32 0 12;
   Accessor "i2o_exec_device_assign_DdmTID" get_i2o_exec_device_assign_DdmTID both put_i2o_exec_device_assign_DdmTID big 32 12 12;
   Accessor "i2o_exec_device_assign_OperationFlags" get_i2o_exec_device_assign_OperationFlags big put_i2o_exec_device_assign_OperationFlags both 32 24 8;
   Accessor "i2o_exec_device_assign_IOP_ID" get_i2o_exec_device_assign_IOP_ID both put_i2o_exec_device_assign_IOP_ID both 16 0 12;
   Accessor "i2o_exec_device_release_DeviceTID" get_i2o_exec_device_release_DeviceTID both put_i2o_exec_device_release_DeviceTID both 32 0 12;
   Accessor "i2o_exec_device_release_DdmTID" get_i2o_exec_device_release_DdmTID both put_i2o_exec_device_release_DdmTID big 32 12 12;
   Accessor "i2o_exec_device_release_OperationFlags" get_i2o_exec_device_release_OperationFlags big put_i2o_exec_device_release_OperationFlags both 32 24 8;
   Accessor "i2o_exec_device_release_IOP_ID" get_i2o_exec_device_release_IOP_ID both put_i2o_exec_device_release_IOP_ID both 16 0 12;
   Accessor "get_i2o_exec_iop_connect_IOP1MsgerType" get_i2o_exec_iop_connect_IOP1MsgerType big no_put nowhere 32 24 8;
   Accessor "put_i2o_exec_iop_connect_IOP1MsgerType" no_get nowhere put_i2o_exec_iop_connect_IOP1MsgerType both 32 24 8;
   Accessor "i2o_exec_iop_connect_IOP1AliasForIOP2" get_i2o_exec_iop_connect_IOP1AliasForIOP2 big put_i2o_exec_iop_connect_IOP1AliasForIOP2 both 16 0 12;
   Accessor "get_i2o_exec_iop_connect_IOP_ID1" (fun e w => get_i2o_exec_iop_connect_IOP_ID1 e w 0) big no_put nowhere 16 0 12;
   Accessor "put_i2o_exec_iop_connect_IOP_ID1" no_get nowhere put_i2o_exec_iop_connect_IOP_ID1 both 16 0 12;
   Accessor "i2o_exec_iop_connect_reply_IOP2AliasForIOP1" get_i2o_exec_iop_connect_reply_IOP2AliasForIOP1 big put_i2o_exec_iop_connect_reply_IOP2AliasForIOP1 both 16 0 12;
   Accessor "get_i2o_exec_iop_connect_reply_IOP_ID2" (fun e w => get_i2o_exec_iop_connect_reply_IOP_ID2 e w 0) big no_put nowhere 16 0 12;
   Accessor "put_i2o_exec_iop_connect_reply_IOP_ID2" no_get nowhere put_i2o_exec_iop_connect_reply_IOP_ID2 both 16 0 12;
   Accessor "i2o_exec_reset_TargetAddress" get_i2o_exec_reset_TargetAddress both put_i2o_exec_reset_TargetAddress both 32 0 12;
   Accessor "i2o_exec_reset_InitiatorAddress" get_i2o_exec_reset_InitiatorAddress both put_i2o_exec_reset_InitiatorAddress both 32 12 12;
   Accessor "i2o_exec_reset_Function" get_i2o_exec_reset_Function both put_i2o_exec_reset_Function both 32 24 8;
   Accessor "get_i2o_exec_path_enable_IOP_ID" (fun e w => get_i2o_exec_path_enable_IOP_ID e w 0) both no_put nowhere 16 0 12;
   Accessor "put_i2o_exec_path_enable_IOP_ID" no_get nowhere put_i2o_exec_path_enable_IOP_ID both 16 0 12;
   Accessor "i2o_exec_path_quiesce_IOP_ID" get_i2o_exec_path_quiesce_IOP_ID both put_i2o_exec_path_quiesce_IOP_ID both 16 0 12;
   Accessor "i2o_exec_path_reset_IOP_ID" get_i2o_exec_path_reset_IOP_ID both put_i2o_exec_path_reset_IOP_ID both 16 0 12;
   Accessor "i2o_exec_status_TargetAddress" get_i2o_exec_status_TargetAddress both put_i2o_exec_status_TargetAddress both 32 0 12;
   Accessor "i2o_exec_status_InitiatorAddress" get_i2o_exec_status_InitiatorAddress both put_i2o_exec_status_InitiatorAddress both 32 12 12;
   Accessor "i2o_exec_status_Function" get_i2o_exec_status_Function both put_i2o_exec_status_Function both 32 24 8;
   Accessor "i2o_exec_status_reply_IOP_ID" get_i2o_exec_status_reply_IOP_ID both no_put nowhere 16 0 12;
   Accessor "i2o_exec_status_reply_SegmentNumber" get_i2o_exec_status_reply_SegmentNumber little no_put nowhere 16 0 12;
   Accessor "i2o_exec_status_reply_I2oVersion" get_i2o_exec_status_reply_I2oVersion both no_put nowhere 16 12 4;
   Accessor "i2o_exec_staus_reply_SegmentNumber" get_i2o_exec_staus_reply_SegmentNumber big no_put nowhere 16 0 12;
   Accessor "i2o_exec_sys_tab_set_IOP_ID" get_i2o_exec_sys_tab_set_IOP_ID both put_i2o_exec_sys_tab_set_IOP_ID both 16 0 12;
   Accessor "i2o_exec_sys_tab_set_SegmentNumber" get_i2o_exec_sys_tab_set_SegmentNumber both put_i2o_exec_sys_tab_set_SegmentNumber both 32 0 12;
   Accessor "i2o_iop_entry_IOP_ID" get_i2o_iop_entry_IOP_ID both put_i2o_iop_entry_IOP_ID little 32 0 12;
   Accessor "i2o_iop_entry_SegmentNumber" get_i2o_iop_entry_SegmentNumber both put_i2o_iop_entry_SegmentNumber little 16 0 12;
   Accessor "i2o_iop_entry_I2oVersion" get_i2o_iop_entry_I2oVersion both put_i2o_iop_entry_I2oVersion little 16 12 4]%string.

(** Those that do not do what they are for. *)
Definition defective : list string :=
  ["put_i2o_exec_iop_connect_IOP1MsgerType";
   "get_i2o_exec_iop_connect_IOP_ID1";
   "get_i2o_exec_iop_connect_reply_IOP_ID2";
   "get_i2o_exec_path_enable_IOP_ID";
   "i2o_exec_status_TargetAddress";
   "i2o_exec_status_InitiatorAddress";
   "i2o_exec_status_Function";
   "i2o_exec_status_reply_I2oVersion"]%string.

(** The messages and other structures with bit fields. *)
Definition messages : list (endian -> ctype) :=
  [i2o_message_frame; i2o_single_reply_message_frame; i2o_multiple_reply_message_frame;
   i2o_private_message_frame; i2o_failure_reply_message_frame;
   i2o_transaction_error_reply_message_frame; i2o_hrt_entry; i2o_hrt; i2o_lct_entry; i2o_lct;
   i2o_flags_count; i2o_sge_bit_bucket_element; i2o_sge_chain_element;
   i2o_sge_chain_context_element; i2o_sge_ignore_element; i2o_sge_immediate_data_element;
   i2o_sge_immediate_data_context_element; i2o_sge_long_transaction_element;
   i2o_sge_page_element; i2o_sge_page_context_element; i2o_sge_simple_element;
   i2o_sge_simple_context_element; i2o_sge_transport_element; i2o_sg_element;
   i2o_util_abort_message; i2o_util_abort_reply; i2o_util_claim_message;
   i2o_util_claim_release_message; i2o_util_config_dialog_message; i2o_util_event_ack_message;
   i2o_util_event_ack_reply; i2o_util_event_register_message; i2o_util_event_register_reply;
   i2o_util_lock_message; i2o_util_lock_release_message; i2o_util_nop_message;
   i2o_util_params_get_message; i2o_util_params_set_message; i2o_util_device_reserve_message;
   i2o_util_device_release_message; i2o_exec_adapter_assign_message;
   i2o_exec_adapter_read_message; i2o_exec_dapater_release_message;
   i2o_exec_bios_info_set_message; i2o_exec_boot_device_set_message;
   i2o_exec_config_validate_message; i2o_alias_connect_setup; i2o_object_connect_setup;
   i2o_exec_conn_setup_message; i2o_object_connect_reply; i2o_exec_conn_setup_reply;
   i2o_exec_ddm_destroy_message; i2o_exec_ddm_enable_message; i2o_exec_ddm_quiesce_message;
   i2o_exec_ddm_reset_message; i2o_exec_ddm_suspend_message; i2o_exec_device_assign_message;
   i2o_exec_device_release_message; i2o_exec_hrt_get_message; i2o_exec_iop_clear_message;
   i2o_exec_iop_reset_message; i2o_exec_lct_notify_message; i2o_exec_outbound_init_message;
   i2o_exec_path_enable_message; i2o_exec_path_quiesce_message; i2o_exec_path_reset_message;
   i2o_exec_static_mf_create_message; i2o_exec_static_mf_create_reply;
   i2o_exec_static_mf_release_message; i2o_exec_status_get_message; i2o_exec_status_get_reply;
   i2o_exec_sw_donwload_message; i2o_exec_sw_upload_message; i2o_exec_sw_remove_message;
   i2o_exec_sys_enable_message; i2o_exec_sys_modify_message; i2o_exec_sys_quiesce_message;
   i2o_exec_sys_tab_set_message; i2o_iop_entry; i2o_bsa_reply_message_frame;
   i2o_bsa_success_reply_message_frame; i2o_bsa_abort_reply_message_frame;
   i2o_bsa_progress_reply_message_frame; i2o_bsa_error_reply_message_frame;
   i2o_bsa_read_message; i2o_bsa_block_reassign_message; i2o_bsa_write_message;
   i2o_bsa_write_verify_message; i2o_bsa_cache_flush_message; _12o_bsa_device_reset_message;
   i2o_bsa_media_eject_message; i2o_bsa_media_lock_message; i2o_bsa_media_mount_message;
   i2o_bsa_media_unlock_message; i2o_bsa_media_verify_message;
   i2o_bsa_power_management_message; i2o_bsa_status_check_message;
   i2o_scsi_success_reply_message_frame; i2o_scsi_error_reply_message_frame;
   i2o_scsi_device_reset_message; i2o_scsi_scb_abort_message; i2o_scsi_scb_execute_message;
   i2o_hba_reply_message_frame; i2o_hba_adapter_reset_message; i2o_hba_bus_quiesce_message;
   i2o_hba_bus_reset_message; i2o_hba_bus_scan_message].

(** The words of bit fields. *)
Definition words : list (endian -> bitfields) :=
  [i2o_message_frame_u2_s2; i2o_failure_reply_message_frame_u1_s; i2o_hrt_entry_u2_s2;
   i2o_lct_entry_u1_s1; i2o_lct_entry_u4_s4; i2o_lct_entry_u6_s6; i2o_lct_u1_s1;
   i2o_flags_count_flags_count; i2o_sge_long_transaction_element_u1_s1;
   i2o_util_reply_fault_notify_message_u1_s; i2o_exec_adapter_assign_message_u1_s;
   i2o_exec_bios_info_set_message_u1_s; i2o_exec_boot_device_set_message_u1_s;
   i2o_alias_connect_setup_u1_s; i2o_object_connect_setup_u1_s; i2o_object_connect_reply_u1_s;
   i2o_exec_ddm_destroy_message_u1_s; i2o_exec_ddm_enable_message_u2_s2;
   i2o_exec_ddm_enable_message_u3_s3; i2o_exec_ddm_quiesce_message_u2_s2;
   i2o_exec_ddm_quiesce_message_u3_s3; i2o_exec_ddm_reset_message_u2_s2;
   i2o_exec_ddm_reset_message_u3_s3; i2o_exec_ddm_suspend_message_u1_s;
   i2o_exec_device_assign_message_u2_s2; i2o_exec_device_assign_message_u3_s3;
   i2o_exec_device_release_message_u2_s2; i2o_exec_device_release_message_u3_s3;
   i2o_exec_iop_connect_message_u2_s2; i2o_exec_iop_connect_message_u4_s4;
   i2o_exec_iop_connect_iop_reply_u4_s4; i2o_exec_iop_reset_message_u2_s2;
   i2o_exec_path_enable_message_u2_s2; i2o_exec_path_quiesce_message_u2_s2;
   i2o_exec_path_reset_message_u2_s2; i2o_exec_status_get_reply_u2_s2;
   i2o_exec_status_get_reply_u3_s3; i2o_exec_sys_tab_set_message_u2_s2; i2o_iop_entry_u2_s2;
   i2o_iop_entry_u3_s3].

(** Both variants put every field at the same bits. *)
Definition word_agrees (b : endian -> bitfields) : bool :=
  forallb (fun f => bool_decide (bit_place LittleEndian (b LittleEndian) f.1
                                 = bit_place BigEndian (b BigEndian) f.1))
    (bf_list (b LittleEndian)) &&
  (units (b LittleEndian) =? units (b BigEndian)).

(** What an accessor is for, in the variants that have it. *)
Definition accessor_ok (a : accessor) : Prop :=
  0 <= a_pos a /\ 0 < a_len a /\ a_pos a + a_len a <= a_width a /\
  forall e w v, in_u (a_width a) w ->
    a_get a e w = (if a_gets a e then Some (field_get (a_pos a) (a_len a) w) else None) /\
    a_put a e w v = (if a_puts a e then Some (field_put (a_pos a) (a_len a) w v) else None).

Lemma put_masked n pos len w v :
  0 <= pos -> 0 <= len -> pos + len <= n -> in_u n w ->
  wrapu n (field_put pos len w v) = field_put pos len w v.
Proof. intros. by apply wrapu_id, field_put_range. Qed.

Lemma put_cast pos len w v :
  0 <= pos -> 0 <= len -> pos + len <= 32 -> in_u 32 w ->
  u32 ((w .& .~ (Z.ones len <<< pos)) .| ((u32 v .& Z.ones len) <<< pos))
  = field_put pos len w v.
Proof.
  intros. transitivity (u32 (field_put pos len w (u32 v))); [reflexivity|].
  rewrite put_masked by done. apply Z.bits_inj'. intros i Hi.
  rewrite !field_put_testbit by lia.
  destruct (Z.leb_spec pos i), (Z.ltb_spec i (pos + len)); simpl; try done.
  rewrite wrapu_testbit by lia.
  destruct (Z.leb_spec 0 (i - pos)), (Z.ltb_spec (i - pos) 32); try lia; done.
Qed.

Lemma put_shifted w v :
  in_u 32 w ->
  u32 ((w .& .~ (Z.ones 8 <<< 24)) .| (u32 v <<< 24)) = field_put 24 8 w v.
Proof.
  intros Hw. apply Z.bits_inj'. intros i Hi. rewrite wrapu_testbit by lia.
  rewrite field_put_testbit by lia.
  rewrite Z.lor_spec, Z.land_spec, Z.lnot_spec, !Z.shiftl_spec by lia.
  rewrite ones_testbit by lia.
  destruct (Z.ltb_spec i 32), (Z.leb_spec 24 i), (Z.ltb_spec i (24 + 8)); try lia; simpl.
  - rewrite wrapu_testbit by lia.
    destruct (Z.leb_spec 0 (i - 24)), (Z.ltb_spec (i - 24) 8), (Z.ltb_spec (i - 24) 32);
      try lia.
    simpl. by rewrite andb_false_r.
  - rewrite (Z.testbit_neg_r (u32 v)) by lia.
    destruct (Z.leb_spec 0 (i - 24)); try lia. simpl. by rewrite andb_true_r, orb_false_r.
  - symmetry. by apply (in_u_testbit 32).
Qed.

Lemma get_unmasked w : in_u 32 w -> w >>> 24 = field_get 24 8 w.
Proof.
  intros Hw. unfold field_get. rewrite land_ones_mod by lia. symmetry. apply Z.mod_small.
  pose proof (in_u_shiftr 32 24 w). unfold in_u in *. simpl in *. lia.
Qed.

Ltac put_form Hw :=
  apply (f_equal Some);
  lazymatch goal with
  | |- wrapu ?n _ = field_put ?p ?l ?w ?v =>
      first [ exact (put_masked n p l w v ltac:(lia) ltac:(lia) ltac:(lia) Hw)
            | exact (put_cast p l w v ltac:(lia) ltac:(lia) ltac:(lia) Hw)
            | exact (put_shifted w v Hw) ]
  | |- _ >>> 24 = _ => exact (get_unmasked _ Hw)
  end.

Ltac accessor_tac :=
  split_and!; [simpl; lia | simpl; lia | simpl; lia |];
  let Hw := fresh in
  intros e w v Hw; simpl a_width in Hw; simpl; split;
  destruct e; first [reflexivity | put_form Hw].

(** A value that shows the contrary. *)
Ltac broken_tac e w v :=
  let H := fresh in
  intros (_ & _ & _ & H); specialize (H e w v ltac:(unfold in_u; simpl; lia));
  vm_compute in H; destruct H as [? ?]; discriminate.

Definition is_defective (a : accessor) : bool := existsb (String.eqb (a_name a)) defective.
Definition accessor_meant (a : accessor) : Prop := if is_defective a then ~ accessor_ok a else accessor_ok a.

Lemma defective_spec a : is_defective a = true <-> In (a_name a) defective.
Proof.
  unfold is_defective. rewrite existsb_exists. split.
  - intros (n & Hn & ->%String.eqb_eq). done.
  - intros Hn. exists (a_name a). by rewrite String.eqb_refl.
Qed.

Lemma accessors_meant : Forall accessor_meant accessors.
Proof.
  unfold accessors.
  repeat (apply Forall_cons_2;
    [match goal with |- accessor_meant ?a =>
       let b := eval vm_compute in (is_defective a) in
       unfold accessor_meant; replace (is_defective a) with b by (vm_compute; reflexivity); cbv iota end;
     lazymatch goal with
     | |- ~ _ => first [ broken_tac BigEndian 0x020000ff 0x01 | broken_tac BigEndian 0x1234 0 | broken_tac LittleEndian 0x12345678 0 ]
     | |- _ => accessor_tac
     end|]).
  apply Forall_nil_2.
Qed.

Definition message_agrees (f : endian -> ctype) : bool :=
  forallb (fun m => bool_decide (view m (f LittleEndian) = view m (f BigEndian))) machines.

Lemma messages_agree : forallb message_agrees messages = true.
Proof. vm_compute. reflexivity. Qed.

Lemma words_agree : forallb word_agrees words = true.
Proof. vm_compute. reflexivity. Qed.

Lemma accessor_listed a : In a accessors -> accessor_meant a.
Proof. apply Forall_forall, accessors_meant. Qed.

(** C39: the accessor macros of I2O message fields.  All of them but the eight of
    [defective], in every variant that has them, read and assign the bits of their
    field, the same bits in both variants; what is put is what is got, cut to the
    width of the field, and no bit outside of the field changes.  The eight do not. *)
Theorem i2o_accessors :
  (forall a e w, In a accessors -> ~ In (a_name a) defective -> in_u (a_width a) w ->
     (a_gets a e = true -> a_get a e w = Some (field_get (a_pos a) (a_len a) w)) /\
     (a_puts a e = true -> forall v,
        exists w', a_put a e w v = Some w' /\ in_u (a_width a) w' /\
          field_get (a_pos a) (a_len a) w' = wrapu (a_len a) v /\
          (a_gets a e = true -> a_get a e w' = Some (wrapu (a_len a) v)) /\
          forall i, ~ (a_pos a <= i < a_pos a + a_len a) -> Z.testbit w' i = Z.testbit w i)) /\
  (forall a, In a accessors -> In (a_name a) defective -> ~ accessor_ok a).
Proof.
  split.
  2: { intros a Ha%accessor_listed Hd. unfold accessor_meant in Ha. by rewrite (proj2 (defective_spec a) Hd) in Ha. }
  intros a e w Ha%accessor_listed Hd Hw. unfold accessor_meant in Ha.
  rewrite <- defective_spec, not_true_iff_false in Hd. rewrite Hd in Ha.
  destruct Ha as (Hp & Hl & Hn & Ha). split; [intros Hg; destruct (Ha e w 0 Hw) as [-> _]; by rewrite Hg|].
  intros Hput v. destruct (Ha e w v Hw) as [_ H]. rewrite Hput in H. eexists. split; [exact H|].
  assert (in_u (a_width a) (field_put (a_pos a) (a_len a) w v)) as Hw'
    by (apply field_put_range; lia || done).
  split; [done|]. split; [by rewrite field_get_put by lia|]. split.
  - intros Hg. destruct (Ha e _ 0 Hw') as [-> _]. by rewrite Hg, field_get_put by lia.
  - intros i Hi. rewrite field_put_testbit by lia.
    destruct (Z.leb_spec (a_pos a) i), (Z.ltb_spec i (a_pos a + a_len a)); simpl; lia || done.
Qed.

Lemma i2o_accessors_witness :
  get_msg_Function LittleEndian 0xab001002 = Some 0xab /\
  exists w', put_msg_Function BigEndian 0xab001002 0x1a0 = Some w' /\
    get_msg_Function BigEndian w' = Some 0xa0.
Proof.
  set (a := Accessor "msg_Function" get_msg_Function both put_msg_Function both 32 24 8).
  assert (In a accessors) as Hin by (simpl; tauto).
  assert (~ In (a_name a) defective) as Hd by (rewrite <- defective_spec; by vm_compute).
  assert (in_u (a_width a) 0xab001002) as Hw by (unfold in_u; simpl; lia).
  destruct (i2o_accessors) as [H _].
  split; [exact (proj1 (H a LittleEndian _ Hin Hd Hw) eq_refl)|].
  destruct (proj2 (H a BigEndian _ Hin Hd Hw) eq_refl 0x1a0) as (w' & H1 & _ & _ & H2 & _).
  exists w'. split; [exact H1 | exact (H2 eq_refl)].
Defined.

(** The little-endian and the big-endian declarations of the I2O words and
    messages agree: the same bits for every field, and the same size and places
    of everything else on every machine. *)
Theorem i2o_variants :
  (forall b n, In b words -> In n (map fst (bf_list (b LittleEndian))) ->
     bit_place LittleEndian (b LittleEndian) n = bit_place BigEndian (b BigEndian) n) /\
  (forall f m, In f messages -> machine_ok m ->
     view m (f LittleEndian) = view m (f BigEndian)).
Proof.
  split.
  - intros b n Hb [x [<- Hx]]%in_map_iff. pose proof words_agree as H.
    rewrite forallb_forall in H. specialize (H b Hb).
    apply andb_prop in H as [H _]. rewrite forallb_forall in H.
    by apply H, bool_decide_eq_true in Hx.
  - intros f m Hf Hm%machine_listed. pose proof messages_agree as H.
    rewrite forallb_forall in H. specialize (H f Hf). unfold message_agrees in H.
    rewrite forallb_forall in H. by apply H, bool_decide_eq_true in Hm.
Qed.

Lemma i2o_variants_witness :
  view i386 (i2o_message_frame LittleEndian) = view i386 (i2o_message_frame BigEndian).
Proof.
  apply (proj2 i2o_variants i2o_message_frame i386).
  - unfold messages. simpl. tauto.
  - unfold machine_ok. simpl. lia.
Defined.

Lemma land_next w next : (((w <<< 16) .| next) .& 0xfff) = next .& 0xfff.
Proof.
  change 0xfff with (Z.ones 12). apply Z.bits_inj'. intros i Hi.
  rewrite !Z.land_spec, Z.lor_spec, Z.shiftl_spec, ones_testbit by lia.
  destruct (Z.ltb_spec i 12); [|by rewrite !andb_false_r].
  by rewrite (Z.testbit_neg_r w) by lia.
Qed.

(** Where the variants part.  The little-endian ExecStatusGet message has
    the bits of its function code where every other message has the target
    address; two structures are longer on big-endian machines and the transport
    element has its fields exchanged there; an assignment to IOP1MsgerType keeps
    the old type and clears another octet; the version of a status reply is
    shifted by 4 instead of 12; a 32-bit access to a 16-bit member returns the
    next one; and a 64-bit compiler makes the message frame longer. *)
Theorem i2o_defects :
  bit_place LittleEndian (i2o_exec_status_get_message_u2_s2 LittleEndian) "Function"
    = Some (0, 0, 8) /\
  bit_place LittleEndian (i2o_message_frame_u2_s2 LittleEndian) "Function" = Some (0, 24, 8) /\
  sizeof i386 (i2o_exec_iop_connect_message LittleEndian) = 28 /\
  sizeof i386 (i2o_exec_iop_connect_message BigEndian) = 32 /\
  sizeof i386 (i2o_util_reply_fault_notify_message LittleEndian) = 36 /\
  sizeof i386 (i2o_util_reply_fault_notify_message BigEndian) = 40 /\
  bit_place LittleEndian (i2o_sge_transport_element_bits LittleEndian) "Flags"
    = Some (0, 24, 8) /\
  bit_place BigEndian (i2o_sge_transport_element_bits BigEndian) "Flags" = Some (0, 0, 8) /\
  put_i2o_exec_iop_connect_IOP1MsgerType BigEndian 0x020000ff 0x01 = Some 0x03000000 /\
  get_i2o_exec_status_reply_I2oVersion BigEndian 0x1234 = Some 0x123 /\
  get_i2o_exec_status_reply_I2oVersion LittleEndian 0x1234 = Some 0x1 /\
  (forall w next,
     get_i2o_exec_path_enable_IOP_ID BigEndian w next = Some (next .& 0xfff)) /\
  sizeof i386 (i2o_message_frame LittleEndian) = 12 /\
  sizeof amd64 (i2o_message_frame LittleEndian) = 16.
Proof.
  split_and!; try (vm_compute; reflexivity).
  intros w next. simpl. by rewrite land_next.
Qed.
