(* ===== verification/DTrace.v ===== *)
(** * DTrace: instructions, actions and arguments

    The DTrace Intermediate Format of [sys/dtrace.h], the encoding of actions and
    of the arguments of aggregations, and the structures with a pointer that a
    32-bit consumer shares with a 64-bit kernel ([DTRACE_PTR]).  An instruction
    is a value of [dif_instr], written with the operands the comments of the
    header give; [dif_encode] builds its word with the header's macros and
    [dif_decode] takes a word apart with them. *)
From Stdlib Require Import String.
From S2P Require Import Prelude ByteOrder CTypes AbiTypes AbiObject.
#[local] Open Scope Z_scope.

(** ** Opcodes and limits *)
Inductive dif_op :=
  | DIF_OP_OR | DIF_OP_XOR | DIF_OP_AND | DIF_OP_SLL | DIF_OP_SRL | DIF_OP_SUB | DIF_OP_ADD | DIF_OP_MUL
  | DIF_OP_SDIV | DIF_OP_UDIV | DIF_OP_SREM | DIF_OP_UREM | DIF_OP_NOT | DIF_OP_MOV | DIF_OP_CMP | DIF_OP_TST
  | DIF_OP_BA | DIF_OP_BE | DIF_OP_BNE | DIF_OP_BG | DIF_OP_BGU | DIF_OP_BGE | DIF_OP_BGEU | DIF_OP_BL
  | DIF_OP_BLU | DIF_OP_BLE | DIF_OP_BLEU | DIF_OP_LDSB | DIF_OP_LDSH | DIF_OP_LDSW | DIF_OP_LDUB
  | DIF_OP_LDUH | DIF_OP_LDUW | DIF_OP_LDX | DIF_OP_RET | DIF_OP_NOP | DIF_OP_SETX | DIF_OP_SETS | DIF_OP_SCMP
  | DIF_OP_LDGA | DIF_OP_LDGS | DIF_OP_STGS | DIF_OP_LDTA | DIF_OP_LDTS | DIF_OP_STTS | DIF_OP_SRA
  | DIF_OP_CALL | DIF_OP_PUSHTR | DIF_OP_PUSHTV | DIF_OP_POPTS | DIF_OP_FLUSHTS | DIF_OP_LDGAA | DIF_OP_LDTAA
  | DIF_OP_STGAA | DIF_OP_STTAA | DIF_OP_LDLS | DIF_OP_STLS | DIF_OP_ALLOCS | DIF_OP_COPYS | DIF_OP_STB
  | DIF_OP_STH | DIF_OP_STW | DIF_OP_STX | DIF_OP_ULDSB | DIF_OP_ULDSH | DIF_OP_ULDSW | DIF_OP_ULDUB
  | DIF_OP_ULDUH | DIF_OP_ULDUW | DIF_OP_ULDX | DIF_OP_RLDSB | DIF_OP_RLDSH | DIF_OP_RLDSW | DIF_OP_RLDUB
  | DIF_OP_RLDUH | DIF_OP_RLDUW | DIF_OP_RLDX.
Definition dif_op_code (o : dif_op) : Z :=
  match o with
  | DIF_OP_OR => 1 | DIF_OP_XOR => 2 | DIF_OP_AND => 3 | DIF_OP_SLL => 4 | DIF_OP_SRL => 5 | DIF_OP_SUB => 6
  | DIF_OP_ADD => 7 | DIF_OP_MUL => 8 | DIF_OP_SDIV => 9 | DIF_OP_UDIV => 10 | DIF_OP_SREM => 11
  | DIF_OP_UREM => 12 | DIF_OP_NOT => 13 | DIF_OP_MOV => 14 | DIF_OP_CMP => 15 | DIF_OP_TST => 16
  | DIF_OP_BA => 17 | DIF_OP_BE => 18 | DIF_OP_BNE => 19 | DIF_OP_BG => 20 | DIF_OP_BGU => 21
  | DIF_OP_BGE => 22 | DIF_OP_BGEU => 23 | DIF_OP_BL => 24 | DIF_OP_BLU => 25 | DIF_OP_BLE => 26
  | DIF_OP_BLEU => 27 | DIF_OP_LDSB => 28 | DIF_OP_LDSH => 29 | DIF_OP_LDSW => 30 | DIF_OP_LDUB => 31
  | DIF_OP_LDUH => 32 | DIF_OP_LDUW => 33 | DIF_OP_LDX => 34 | DIF_OP_RET => 35 | DIF_OP_NOP => 36
  | DIF_OP_SETX => 37 | DIF_OP_SETS => 38 | DIF_OP_SCMP => 39 | DIF_OP_LDGA => 40 | DIF_OP_LDGS => 41
  | DIF_OP_STGS => 42 | DIF_OP_LDTA => 43 | DIF_OP_LDTS => 44 | DIF_OP_STTS => 45 | DIF_OP_SRA => 46
  | DIF_OP_CALL => 47 | DIF_OP_PUSHTR => 48 | DIF_OP_PUSHTV => 49 | DIF_OP_POPTS => 50 | DIF_OP_FLUSHTS => 51
  | DIF_OP_LDGAA => 52 | DIF_OP_LDTAA => 53 | DIF_OP_STGAA => 54 | DIF_OP_STTAA => 55 | DIF_OP_LDLS => 56
  | DIF_OP_STLS => 57 | DIF_OP_ALLOCS => 58 | DIF_OP_COPYS => 59 | DIF_OP_STB => 60 | DIF_OP_STH => 61
  | DIF_OP_STW => 62 | DIF_OP_STX => 63 | DIF_OP_ULDSB => 64 | DIF_OP_ULDSH => 65 | DIF_OP_ULDSW => 66
  | DIF_OP_ULDUB => 67 | DIF_OP_ULDUH => 68 | DIF_OP_ULDUW => 69 | DIF_OP_ULDX => 70 | DIF_OP_RLDSB => 71
  | DIF_OP_RLDSH => 72 | DIF_OP_RLDSW => 73 | DIF_OP_RLDUB => 74 | DIF_OP_RLDUH => 75 | DIF_OP_RLDUW => 76
  | DIF_OP_RLDX => 77
  end.
Coercion dif_op_code : dif_op >-> Z.

Definition DIF_INTOFF_MAX : Z := 0xffff.
Definition DIF_STROFF_MAX : Z := 0xffff.
Definition DIF_REGISTER_MAX : Z := 0xff.
Definition DIF_VARIABLE_MAX : Z := 0xffff.
Definition DIF_SUBROUTINE_MAX : Z := 0xffff.
Definition DIF_VAR_ARRAY_MIN : Z := 0x0000.
Definition DIF_VAR_ARRAY_MAX : Z := 0x00ff.

Definition DIF_VAR_TIMESTAMP : Z := 0x0101.

(** ** Instruction words *)
Definition DIF_INSTR_OP (i : Z) : Z := (i >>> 24) .& 0xff.
Definition DIF_INSTR_R1 (i : Z) : Z := (i >>> 16) .& 0xff.
Definition DIF_INSTR_R2 (i : Z) : Z := (i >>> 8) .& 0xff.
Definition DIF_INSTR_RD (i : Z) : Z := i .& 0xff.
Definition DIF_INSTR_RS (i : Z) : Z := i .& 0xff.
Definition DIF_INSTR_LABEL (i : Z) : Z := i .& 0xffffff.
Definition DIF_INSTR_VAR (i : Z) : Z := (i >>> 8) .& 0xffff.
Definition DIF_INSTR_INTEGER (i : Z) : Z := (i >>> 8) .& 0xffff.
Definition DIF_INSTR_STRING (i : Z) : Z := (i >>> 8) .& 0xffff.
Definition DIF_INSTR_SUBR (i : Z) : Z := (i >>> 8) .& 0xffff.
Definition DIF_INSTR_TYPE (i : Z) : Z := (i >>> 16) .& 0xff.

Definition DIF_INSTR_FMT (op r1 r2 d : Z) : Z :=
  (op <<< 24) .| (r1 <<< 16) .| (r2 <<< 8) .| d.

Definition DIF_INSTR_NOT (r1 d : Z) : Z := DIF_INSTR_FMT DIF_OP_NOT r1 0 d.
Definition DIF_INSTR_MOV (r1 d : Z) : Z := DIF_INSTR_FMT DIF_OP_MOV r1 0 d.
Definition DIF_INSTR_CMP (op r1 r2 : Z) : Z := DIF_INSTR_FMT op r1 r2 0.
Definition DIF_INSTR_TST (r1 : Z) : Z := DIF_INSTR_FMT DIF_OP_TST r1 0 0.
Definition DIF_INSTR_BRANCH (op label : Z) : Z := (op <<< 24) .| label.
Definition DIF_INSTR_LOAD (op r1 d : Z) : Z := DIF_INSTR_FMT op r1 0 d.
Definition DIF_INSTR_STORE (op r1 d : Z) : Z := DIF_INSTR_FMT op r1 0 d.
Definition DIF_INSTR_SETX (i d : Z) : Z := (DIF_OP_SETX <<< 24) .| (i <<< 8) .| d.
Definition DIF_INSTR_SETS (s d : Z) : Z := (DIF_OP_SETS <<< 24) .| (s <<< 8) .| d.
Definition DIF_INSTR_RET (d : Z) : Z := DIF_INSTR_FMT DIF_OP_RET 0 0 d.
Definition DIF_INSTR_NOP : Z := DIF_OP_NOP <<< 24.
Definition DIF_INSTR_LDA (op v r d : Z) : Z := DIF_INSTR_FMT op v r d.
Definition DIF_INSTR_LDV (op v d : Z) : Z := (op <<< 24) .| (v <<< 8) .| d.
Definition DIF_INSTR_STV (op v rs : Z) : Z := (op <<< 24) .| (v <<< 8) .| rs.
Definition DIF_INSTR_CALL (s d : Z) : Z := (DIF_OP_CALL <<< 24) .| (s <<< 8) .| d.
Definition DIF_INSTR_PUSHTS (op t r2 rs : Z) : Z := DIF_INSTR_FMT op t r2 rs.
Definition DIF_INSTR_POPTS : Z := DIF_OP_POPTS <<< 24.
Definition DIF_INSTR_FLUSHTS : Z := DIF_OP_FLUSHTS <<< 24.
Definition DIF_INSTR_ALLOCS (r1 d : Z) : Z := DIF_INSTR_FMT DIF_OP_ALLOCS r1 0 d.
Definition DIF_INSTR_COPYS (r1 r2 d : Z) : Z := DIF_INSTR_FMT DIF_OP_COPYS r1 r2 d.

(** ** Actions *)
Definition DTRACEACT_PROC : Z := 0x0100.
Definition DTRACEACT_PROC_DESTRUCTIVE : Z := 0x0200.
Definition DTRACEACT_PROC_CONTROL : Z := 0x0300.
Definition DTRACEACT_KERNEL : Z := 0x0400.
Definition DTRACEACT_KERNEL_DESTRUCTIVE : Z := 0x0500.
Definition DTRACEACT_SPECULATIVE : Z := 0x0600.
Definition DTRACEACT_AGGREGATION : Z := 0x0700.
Inductive dtrace_action :=
  | DTRACEACT_NONE | DTRACEACT_DIFEXPR | DTRACEACT_EXIT | DTRACEACT_PRINTF | DTRACEACT_PRINTA
  | DTRACEACT_LIBACT | DTRACEACT_USTACK | DTRACEACT_JSTACK | DTRACEACT_STOP | DTRACEACT_RAISE
  | DTRACEACT_SYSTEM | DTRACEACT_FREOPEN | DTRACEACT_STACK | DTRACEACT_BREAKPOINT | DTRACEACT_PANIC
  | DTRACEACT_CHILL | DTRACEACT_SPECULATE | DTRACEACT_COMMIT | DTRACEACT_DISCARD | DTRACEAGG_COUNT
  | DTRACEAGG_MIN | DTRACEAGG_MAX | DTRACEAGG_AVG | DTRACEAGG_SUM | DTRACEAGG_STDDEV | DTRACEAGG_QUANTIZE
  | DTRACEAGG_LQUANTIZE.
Definition action_code (a : dtrace_action) : Z :=
  match a with
  | DTRACEACT_NONE => 0 | DTRACEACT_DIFEXPR => 1 | DTRACEACT_EXIT => 2 | DTRACEACT_PRINTF => 3
  | DTRACEACT_PRINTA => 4 | DTRACEACT_LIBACT => 5 | DTRACEACT_USTACK => DTRACEACT_PROC + 1
  | DTRACEACT_JSTACK => DTRACEACT_PROC + 2 | DTRACEACT_STOP => DTRACEACT_PROC_DESTRUCTIVE + 1
  | DTRACEACT_RAISE => DTRACEACT_PROC_DESTRUCTIVE + 2 | DTRACEACT_SYSTEM => DTRACEACT_PROC_DESTRUCTIVE + 3
  | DTRACEACT_FREOPEN => DTRACEACT_PROC_DESTRUCTIVE + 4 | DTRACEACT_STACK => DTRACEACT_KERNEL + 1
  | DTRACEACT_BREAKPOINT => DTRACEACT_KERNEL_DESTRUCTIVE + 1
  | DTRACEACT_PANIC => DTRACEACT_KERNEL_DESTRUCTIVE + 2 | DTRACEACT_CHILL => DTRACEACT_KERNEL_DESTRUCTIVE + 3
  | DTRACEACT_SPECULATE => DTRACEACT_SPECULATIVE + 1 | DTRACEACT_COMMIT => DTRACEACT_SPECULATIVE + 2
  | DTRACEACT_DISCARD => DTRACEACT_SPECULATIVE + 3 | DTRACEAGG_COUNT => DTRACEACT_AGGREGATION + 1
  | DTRACEAGG_MIN => DTRACEACT_AGGREGATION + 2 | DTRACEAGG_MAX => DTRACEACT_AGGREGATION + 3
  | DTRACEAGG_AVG => DTRACEACT_AGGREGATION + 4 | DTRACEAGG_SUM => DTRACEACT_AGGREGATION + 5
  | DTRACEAGG_STDDEV => DTRACEACT_AGGREGATION + 6 | DTRACEAGG_QUANTIZE => DTRACEACT_AGGREGATION + 7
  | DTRACEAGG_LQUANTIZE => DTRACEACT_AGGREGATION + 8
  end.
Coercion action_code : dtrace_action >-> Z.

Definition DTRACEACT_CLASS (x : Z) : Z := x .& 0xff00.
Definition DTRACEACT_ISDESTRUCTIVE (x : Z) : bool :=
  (DTRACEACT_CLASS x =? DTRACEACT_PROC_DESTRUCTIVE) ||
  (DTRACEACT_CLASS x =? DTRACEACT_KERNEL_DESTRUCTIVE).
Definition DTRACEACT_ISSPECULATIVE (x : Z) : bool := DTRACEACT_CLASS x =? DTRACEACT_SPECULATIVE.
Definition DTRACEACT_ISPRINTFLIKE (x : Z) : bool :=
  (x =? DTRACEACT_PRINTF) || (x =? DTRACEACT_PRINTA) ||
  (x =? DTRACEACT_SYSTEM) || (x =? DTRACEACT_FREOPEN).
Definition DTRACEACT_ISAGG (x : Z) : bool := DTRACEACT_CLASS x =? DTRACEACT_AGGREGATION.

(** ** Arguments of aggregations
    [sizeof (uint64_t) * NBBY] is 64; bucket numbers are non-negative. *)
Definition DTRACE_QUANTIZE_NBUCKETS : Z := (64 - 1) * 2 + 1.
Definition DTRACE_QUANTIZE_ZEROBUCKET : Z := 64 - 1.
Definition DTRACE_QUANTIZE_BUCKETVAL (buck : Z) : Z :=
  s64 (if buck <? DTRACE_QUANTIZE_ZEROBUCKET
       then - (1 <<< (DTRACE_QUANTIZE_ZEROBUCKET - 1 - buck))
       else if buck =? DTRACE_QUANTIZE_ZEROBUCKET then 0
       else 1 <<< (buck - DTRACE_QUANTIZE_ZEROBUCKET - 1)).

Definition DTRACE_LQUANTIZE_STEPSHIFT : Z := 48.
Definition DTRACE_LQUANTIZE_STEPMASK : Z := 0xffff <<< 48.
Definition DTRACE_LQUANTIZE_LEVELSHIFT : Z := 32.
Definition DTRACE_LQUANTIZE_LEVELMASK : Z := 0xffff <<< 32.
Definition DTRACE_LQUANTIZE_BASESHIFT : Z := 0.
Definition DTRACE_LQUANTIZE_BASEMASK : Z := 0xffffffff.
Definition DTRACE_LQUANTIZE_STEP (x : Z) : Z :=
  u16 ((x .& DTRACE_LQUANTIZE_STEPMASK) >>> DTRACE_LQUANTIZE_STEPSHIFT).
Definition DTRACE_LQUANTIZE_LEVELS (x : Z) : Z :=
  u16 ((x .& DTRACE_LQUANTIZE_LEVELMASK) >>> DTRACE_LQUANTIZE_LEVELSHIFT).
Definition DTRACE_LQUANTIZE_BASE (x : Z) : Z :=
  s32 ((x .& DTRACE_LQUANTIZE_BASEMASK) >>> DTRACE_LQUANTIZE_BASESHIFT).

Definition DTRACE_USTACK_NFRAMES (x : Z) : Z := u32 (x .& 0xffffffff).
Definition DTRACE_USTACK_STRSIZE (x : Z) : Z := u32 (x >>> 32).
Definition DTRACE_USTACK_ARG (x y : Z) : Z := u64 (u64 y <<< 32) .| (x .& 0xffffffff).

Definition DOF_ATTR (n d c : Z) : Z := (n <<< 24) .| (d <<< 16) .| (c <<< 8).
Definition DOF_ATTR_NAME (a : Z) : Z := (a >>> 24) .& 0xff.
Definition DOF_ATTR_DATA (a : Z) : Z := (a >>> 16) .& 0xff.
Definition DOF_ATTR_CLASS (a : Z) : Z := (a >>> 8) .& 0xff.

(** ** Structures with a pointer
    On a 32-bit machine the pointer has its low word's place in a 64-bit one. *)
Definition DTRACE_PTR (e : endian) (d : data_model) (name : string) : list (string * ctype) :=
  match d, e with
  | ILP32, BigEndian => [((name ++ "pad")%string, uint32_t); (name, ptr)]
  | ILP32, LittleEndian => [(name, ptr); ((name ++ "pad")%string, uint32_t)]
  | LP64, _ => [(name, ptr)]
  end.

Definition dtrace_aggid_t : ctype := uint32_t.
Definition dtrace_aggdesc (e : endian) (d : data_model) : ctype :=
  struct (DTRACE_PTR e d "dtagd_name" ++
    ["dtagd_flags" :- int;
     "dtagd_id" :- dtrace_aggid_t;
     "dtagd_epid" :- dtrace_epid_t;
     "dtagd_size" :- uint32_t;
     "dtagd_nrecs" :- int;
     "dtagd_pad" :- uint32_t;
     "dtagd_rec" :- array 1 dtrace_recdesc])%ct.
Definition dtrace_fmtdesc (e : endian) (d : data_model) : ctype :=
  struct (DTRACE_PTR e d "dtfd_string" ++
    ["dtfd_length" :- int;
     "dtfd_format" :- uint16_t])%ct.
Definition dtrace_bufdesc (e : endian) (d : data_model) : ctype :=
  struct (["dtbd_size" :- uint64_t;
     "dtbd_cpu" :- uint32_t;
     "dtbd_errors" :- uint32_t;
     "dtbd_drops" :- uint64_t] ++
    DTRACE_PTR e d "dtbd_data" ++
    ["dtbd_oldest" :- uint64_t])%ct.

(** The size of a description with [nrecs] records, the first of which is in the
    structure. *)
Definition DTRACE_SIZEOF_EPROBEDESC (m : machine) (nrecs : Z) : Z :=
  sizeof m dtrace_eprobedesc +
  (if nrecs =? 0 then 0 else (nrecs - 1) * sizeof m dtrace_recdesc).
Definition DTRACE_SIZEOF_AGGDESC (e : endian) (m : machine) (nrecs : Z) : Z :=
  sizeof m (dtrace_aggdesc e (model m)) +
  (if nrecs =? 0 then 0 else (nrecs - 1) * sizeof m dtrace_recdesc).

(** ** Instructions
    The operands of each format, as the comments of the opcodes give them:
    registers [r1], [r2], [rd], a branch label, a variable, an integer, string or
    subroutine number. *)
Inductive dif_instr : Type :=
  | Alu (op r1 r2 rd : Z)
  | Not (r1 rd : Z)
  | Mov (r1 rd : Z)
  | Cmp (op r1 r2 : Z)
  | Tst (r1 : Z)
  | Branch (op label : Z)
  | Load (op r1 rd : Z)
  | Store (op r1 rd : Z)
  | Ret (rd : Z)
  | Nop
  | Setx (i rd : Z)
  | Sets (s rd : Z)
  | Lda (op v r rd : Z)
  | Ldv (op v rd : Z)
  | Stv (op v rs : Z)
  | Call (subr rd : Z)
  | Pushts (op t r2 rs : Z)
  | Popts
  | Flushts
  | Allocs (r1 rd : Z)
  | Copys (r1 r2 rd : Z).

Definition among (l : list dif_op) (op : Z) : bool := existsb (fun o => op =? dif_op_code o) l.
Definition is_alu : Z -> bool :=
  among [DIF_OP_OR; DIF_OP_XOR; DIF_OP_AND; DIF_OP_SLL; DIF_OP_SRL; DIF_OP_SUB; DIF_OP_ADD;
         DIF_OP_MUL; DIF_OP_SDIV; DIF_OP_UDIV; DIF_OP_SREM; DIF_OP_UREM; DIF_OP_SRA].
Definition is_cmp : Z -> bool := among [DIF_OP_CMP; DIF_OP_SCMP].
Definition is_branch : Z -> bool :=
  among [DIF_OP_BA; DIF_OP_BE; DIF_OP_BNE; DIF_OP_BG; DIF_OP_BGU; DIF_OP_BGE; DIF_OP_BGEU;
         DIF_OP_BL; DIF_OP_BLU; DIF_OP_BLE; DIF_OP_BLEU].
Definition is_load : Z -> bool :=
  among [DIF_OP_LDSB; DIF_OP_LDSH; DIF_OP_LDSW; DIF_OP_LDUB; DIF_OP_LDUH; DIF_OP_LDUW; DIF_OP_LDX;
         DIF_OP_ULDSB; DIF_OP_ULDSH; DIF_OP_ULDSW; DIF_OP_ULDUB; DIF_OP_ULDUH; DIF_OP_ULDUW;
         DIF_OP_ULDX; DIF_OP_RLDSB; DIF_OP_RLDSH; DIF_OP_RLDSW; DIF_OP_RLDUB; DIF_OP_RLDUH;
         DIF_OP_RLDUW; DIF_OP_RLDX].
Definition is_store : Z -> bool := among [DIF_OP_STB; DIF_OP_STH; DIF_OP_STW; DIF_OP_STX].
Definition is_lda : Z -> bool := among [DIF_OP_LDGA; DIF_OP_LDTA].
Definition is_ldv : Z -> bool :=
  among [DIF_OP_LDGS; DIF_OP_LDTS; DIF_OP_LDGAA; DIF_OP_LDTAA; DIF_OP_LDLS].
Definition is_stv : Z -> bool :=
  among [DIF_OP_STGS; DIF_OP_STTS; DIF_OP_STGAA; DIF_OP_STTAA; DIF_OP_STLS].
Definition is_push : Z -> bool := among [DIF_OP_PUSHTR; DIF_OP_PUSHTV].

Definition dif_encode (i : dif_instr) : Z :=
  match i with
  | Alu op r1 r2 rd => DIF_INSTR_FMT op r1 r2 rd
  | Not r1 rd => DIF_INSTR_NOT r1 rd
  | Mov r1 rd => DIF_INSTR_MOV r1 rd
  | Cmp op r1 r2 => DIF_INSTR_CMP op r1 r2
  | Tst r1 => DIF_INSTR_TST r1
  | Branch op l => DIF_INSTR_BRANCH op l
  | Load op r1 rd => DIF_INSTR_LOAD op r1 rd
  | Store op r1 rd => DIF_INSTR_STORE op r1 rd
  | Ret rd => DIF_INSTR_RET rd
  | Nop => DIF_INSTR_NOP
  | Setx i rd => DIF_INSTR_SETX i rd
  | Sets s rd => DIF_INSTR_SETS s rd
  | Lda op v r rd => DIF_INSTR_LDA op v r rd
  | Ldv op v rd => DIF_INSTR_LDV op v rd
  | Stv op v rs => DIF_INSTR_STV op v rs
  | Call s rd => DIF_INSTR_CALL s rd
  | Pushts op t r2 rs => DIF_INSTR_PUSHTS op t r2 rs
  | Popts => DIF_INSTR_POPTS
  | Flushts => DIF_INSTR_FLUSHTS
  | Allocs r1 rd => DIF_INSTR_ALLOCS r1 rd
  | Copys r1 r2 rd => DIF_INSTR_COPYS r1 r2 rd
  end.

Definition dif_decode (w : Z) : option dif_instr :=
  let op := DIF_INSTR_OP w in
  let r1 := DIF_INSTR_R1 w in
  let r2 := DIF_INSTR_R2 w in
  let rd := DIF_INSTR_RD w in
  if is_alu op then Some (Alu op r1 r2 rd)
  else if op =? DIF_OP_NOT then Some (Not r1 rd)
  else if op =? DIF_OP_MOV then Some (Mov r1 rd)
  else if is_cmp op then Some (Cmp op r1 r2)
  else if op =? DIF_OP_TST then Some (Tst r1)
  else if is_branch op then Some (Branch op (DIF_INSTR_LABEL w))
  else if is_load op then Some (Load op r1 rd)
  else if is_store op then Some (Store op r1 rd)
  else if op =? DIF_OP_RET then Some (Ret rd)
  else if op =? DIF_OP_NOP then Some Nop
  else if op =? DIF_OP_SETX then Some (Setx (DIF_INSTR_INTEGER w) rd)
  else if op =? DIF_OP_SETS then Some (Sets (DIF_INSTR_STRING w) rd)
  else if is_lda op then Some (Lda op r1 r2 rd)
  else if is_ldv op then Some (Ldv op (DIF_INSTR_VAR w) rd)
  else if is_stv op then Some (Stv op (DIF_INSTR_VAR w) (DIF_INSTR_RS w))
  else if op =? DIF_OP_CALL then Some (Call (DIF_INSTR_SUBR w) rd)
  else if is_push op then Some (Pushts op (DIF_INSTR_TYPE w) r2 (DIF_INSTR_RS w))
  else if op =? DIF_OP_POPTS then Some Popts
  else if op =? DIF_OP_FLUSHTS then Some Flushts
  else if op =? DIF_OP_ALLOCS then Some (Allocs r1 rd)
  else if op =? DIF_OP_COPYS then Some (Copys r1 r2 rd)
  else None.

(** The operands a format has room for. *)
Definition reg (r : Z) : Prop := 0 <= r <= DIF_REGISTER_MAX.
Definition dif_wf (i : dif_instr) : Prop :=
  match i with
  | Alu op r1 r2 rd => is_alu op = true /\ reg r1 /\ reg r2 /\ reg rd
  | Cmp op r1 r2 => is_cmp op = true /\ reg r1 /\ reg r2
  | Branch op l => is_branch op = true /\ in_u 24 l
  | Load op r1 rd => is_load op = true /\ reg r1 /\ reg rd
  | Store op r1 rd => is_store op = true /\ reg r1 /\ reg rd
  | Setx i rd => 0 <= i <= DIF_INTOFF_MAX /\ reg rd
  | Sets s rd => 0 <= s <= DIF_STROFF_MAX /\ reg rd
  | Lda op v r rd => is_lda op = true /\ DIF_VAR_ARRAY_MIN <= v <= DIF_VAR_ARRAY_MAX /\ reg r /\ reg rd
  | Ldv op v rd => is_ldv op = true /\ 0 <= v <= DIF_VARIABLE_MAX /\ reg rd
  | Stv op v rs => is_stv op = true /\ 0 <= v <= DIF_VARIABLE_MAX /\ reg rs
  | Call s rd => 0 <= s <= DIF_SUBROUTINE_MAX /\ reg rd
  | Pushts op t r2 rs => is_push op = true /\ in_u 8 t /\ reg r2 /\ reg rs
  | Copys r1 r2 rd => reg r1 /\ reg r2 /\ reg rd
  | Not r1 rd | Mov r1 rd | Allocs r1 rd => reg r1 /\ reg rd
  | Tst r => reg r
  | Ret r => reg r
  | Nop | Popts | Flushts => True
  end.

(** *** The fields of a word *)
Lemma fmt_sum op r1 r2 d :
  in_u 8 r1 -> in_u 8 r2 -> in_u 8 d ->
  DIF_INSTR_FMT op r1 r2 d = op * 2 ^ 24 + (r1 * 2 ^ 16 + (r2 * 2 ^ 8 + d)).
Proof.
  intros H1 H2 Hd. unfold DIF_INSTR_FMT. rewrite <- !Z.lor_assoc.
  pose proof (in_u_pair 8 8 r2 d ltac:(lia) ltac:(lia) H2 Hd) as H3.
  pose proof (in_u_pair 16 8 r1 _ ltac:(lia) ltac:(lia) H1 H3) as H4.
  by rewrite (lor_high 8), (lor_high 16), (lor_high 24) by (done || lia).
Qed.

Lemma wide_sum op v d :
  in_u 16 v -> in_u 8 d ->
  (op <<< 24) .| (v <<< 8) .| d = op * 2 ^ 24 + (v * 2 ^ 8 + d).
Proof.
  intros Hv Hd. rewrite <- Z.lor_assoc.
  pose proof (in_u_pair 8 16 v d ltac:(lia) ltac:(lia) Hv Hd) as H.
  by rewrite (lor_high 8), (lor_high 24) by (done || lia).
Qed.

(** The operation is at the top of every word, the operands below it. *)
Lemma op_at_top op l : in_u 8 op -> in_u 24 l ->
  DIF_INSTR_OP (op * 2 ^ 24 + l) = op /\ DIF_INSTR_LABEL (op * 2 ^ 24 + l) = l.
Proof.
  unfold DIF_INSTR_OP, DIF_INSTR_LABEL, in_u. intros Ho Hl.
  rewrite byte_of by lia. change 0xffffff with (Z.ones 24). rewrite land_ones_mod by lia.
  rewrite Z.div_add_l, (Z.div_small l), Z.add_0_r, Z.mod_small by lia.
  split; [done|]. rewrite Z.add_comm, Z_mod_plus_full. apply Z.mod_small. lia.
Qed.

Lemma fmt_fields op r1 r2 d : in_u 8 op -> in_u 8 r1 -> in_u 8 r2 -> in_u 8 d ->
  let w := DIF_INSTR_FMT op r1 r2 d in
  DIF_INSTR_OP w = op /\ DIF_INSTR_R1 w = r1 /\ DIF_INSTR_R2 w = r2 /\ DIF_INSTR_RD w = d.
Proof.
  intros Ho H1 H2 Hd. cbv zeta. rewrite fmt_sum by done.
  unfold DIF_INSTR_OP, DIF_INSTR_R1, DIF_INSTR_R2, DIF_INSTR_RD, in_u in *.
  rewrite !byte_of, low_byte by lia. Z.to_euclidean_division_equations. lia.
Qed.

Lemma wide_fields op v d : in_u 8 op -> in_u 16 v -> in_u 8 d ->
  let w := (op <<< 24) .| (v <<< 8) .| d in
  DIF_INSTR_OP w = op /\ DIF_INSTR_VAR w = v /\ DIF_INSTR_RD w = d.
Proof.
  intros Ho Hv Hd. cbv zeta. rewrite wide_sum by done.
  unfold DIF_INSTR_OP, DIF_INSTR_VAR, DIF_INSTR_RD, in_u in *.
  rewrite !byte_of, half_of, low_byte by lia. Z.to_euclidean_division_equations. lia.
Qed.

Lemma branch_fields op l : in_u 8 op -> in_u 24 l ->
  DIF_INSTR_OP (DIF_INSTR_BRANCH op l) = op /\ DIF_INSTR_LABEL (DIF_INSTR_BRANCH op l) = l.
Proof. intros. unfold DIF_INSTR_BRANCH. rewrite lor_high by (done || lia). by apply op_at_top. Qed.

(** A property of all opcodes of a list, from a check on each. *)
Lemma among_spec l op : among l op = true <-> In op (map dif_op_code l).
Proof.
  unfold among. rewrite existsb_exists, in_map_iff. split; intros (o & H1 & H2); exists o.
  - apply Z.eqb_eq in H2. by subst.
  - subst. split; [done|]. apply Z.eqb_refl.
Qed.
Lemma among_all (P : Z -> bool) l op : among l op = true -> forallb (fun o => P (dif_op_code o)) l = true -> P op = true.
Proof. rewrite among_spec, in_map_iff, forallb_forall. intros (o & <- & Ho) Hl. by apply Hl. Qed.

Lemma reg_byte r : reg r -> in_u 8 r.
Proof. unfold reg, DIF_REGISTER_MAX, in_u. simpl. lia. Qed.

Lemma half_range v : 0 <= v <= 0xffff -> in_u 16 v.
Proof. unfold in_u. simpl. lia. Qed.

Lemma octet_range v : 0 <= v <= 0xff -> in_u 8 v.
Proof. unfold in_u. simpl. lia. Qed.

Create HintDb dif.
#[export] Hint Resolve reg_byte half_range octet_range : dif.

(** Opcodes are octets below 128, so an instruction word is never negative. *)
Definition opcode (op : Z) : bool := (0 <? op) && (op <=? DIF_OP_RLDX).

Lemma opcode_byte op : opcode op = true -> in_u 7 op.
Proof. unfold opcode, in_u, dif_op_code. rewrite andb_true_iff, Z.ltb_lt, Z.leb_le. simpl. lia. Qed.

(** The word of an instruction, by its format: three octets or a wide operand. *)
Definition op_of (i : dif_instr) : Z :=
  match i with
  | Alu op _ _ _ | Cmp op _ _ | Branch op _ | Load op _ _ | Store op _ _
  | Lda op _ _ _ | Ldv op _ _ | Stv op _ _ | Pushts op _ _ _ => op
  | Not _ _ => DIF_OP_NOT | Mov _ _ => DIF_OP_MOV | Tst _ => DIF_OP_TST
  | Ret _ => DIF_OP_RET | Nop => DIF_OP_NOP | Setx _ _ => DIF_OP_SETX
  | Sets _ _ => DIF_OP_SETS | Call _ _ => DIF_OP_CALL | Popts => DIF_OP_POPTS
  | Flushts => DIF_OP_FLUSHTS | Allocs _ _ => DIF_OP_ALLOCS | Copys _ _ _ => DIF_OP_COPYS
  end.

Lemma op_of_opcode i : dif_wf i -> opcode (op_of i) = true.
Proof.
  destruct i; simpl; intros H; try reflexivity;
    destruct H as [H _]; by apply (among_all opcode _ _ H).
Qed.

(** [each_opcode H]: one goal for every opcode of a class. *)
Ltac each_opcode H :=
  apply among_spec in H; simpl in H;
  repeat (destruct H as [<- | H]; [|]); [.. | destruct H].

Ltac operand := solve [eauto with dif | vm_compute; split; [discriminate | reflexivity]].

(** [decode]: decode the word in the goal, whose opcode is a constant, by the
    fields of its format. *)
Ltac decode :=
  let H1 := fresh in let H2 := fresh in let H3 := fresh in let H4 := fresh in
  lazymatch goal with
  | |- dif_decode (DIF_INSTR_FMT ?op ?r1 ?r2 ?d) = _ =>
      pose proof (fmt_fields op r1 r2 d ltac:(operand) ltac:(operand) ltac:(operand)
                    ltac:(operand)) as (H1 & H2 & H3 & H4);
      cbv zeta in *; unfold dif_decode, DIF_INSTR_TYPE, DIF_INSTR_RS;
      fold (DIF_INSTR_R1 (DIF_INSTR_FMT op r1 r2 d)); fold (DIF_INSTR_RD (DIF_INSTR_FMT op r1 r2 d));
      rewrite H1, H2, H3, H4; reflexivity
  | |- dif_decode ((?op <<< 24) .| (?v <<< 8) .| ?d) = _ =>
      pose proof (wide_fields op v d ltac:(operand) ltac:(operand) ltac:(operand)) as (H1 & H2 & H3);
      cbv zeta in *; unfold dif_decode, DIF_INSTR_INTEGER, DIF_INSTR_STRING, DIF_INSTR_SUBR, DIF_INSTR_RS;
      fold (DIF_INSTR_VAR ((op <<< 24) .| (v <<< 8) .| d));
      fold (DIF_INSTR_RD ((op <<< 24) .| (v <<< 8) .| d));
      rewrite H1, H2, H3; reflexivity
  | |- dif_decode (DIF_INSTR_BRANCH ?op ?l) = _ =>
      destruct (branch_fields op l ltac:(operand) ltac:(operand)) as [H1 H2];
      unfold dif_decode; rewrite H1, H2; reflexivity
  | |- _ => reflexivity
  end.

Ltac unfold_encode :=
  unfold dif_encode, DIF_INSTR_NOT, DIF_INSTR_MOV, DIF_INSTR_CMP, DIF_INSTR_TST,
    DIF_INSTR_LOAD, DIF_INSTR_STORE, DIF_INSTR_SETX, DIF_INSTR_SETS, DIF_INSTR_RET,
    DIF_INSTR_LDA, DIF_INSTR_LDV, DIF_INSTR_STV, DIF_INSTR_CALL, DIF_INSTR_PUSHTS,
    DIF_INSTR_ALLOCS, DIF_INSTR_COPYS.

Lemma dif_decode_encode i : dif_wf i -> dif_decode (dif_encode i) = Some i.
Proof.
  unfold dif_wf, DIF_INTOFF_MAX, DIF_STROFF_MAX, DIF_VAR_ARRAY_MIN, DIF_VAR_ARRAY_MAX,
    DIF_VARIABLE_MAX, DIF_SUBROUTINE_MAX.
  destruct i; intros H; unfold_encode;
    try (match type of H with _ _ = true /\ _ => destruct H as [Hop H]; each_opcode Hop end);
    destruct_and?; decode.
Qed.

Lemma fmt_range op r1 r2 d :
  in_u 7 op -> in_u 8 r1 -> in_u 8 r2 -> in_u 8 d -> in_u 31 (DIF_INSTR_FMT op r1 r2 d).
Proof. intros. rewrite fmt_sum by done. unfold in_u in *. lia. Qed.

Lemma wide_range op v d :
  in_u 7 op -> in_u 16 v -> in_u 8 d -> in_u 31 ((op <<< 24) .| (v <<< 8) .| d).
Proof. intros. rewrite wide_sum by done. unfold in_u in *. lia. Qed.

Lemma branch_range op l : in_u 7 op -> in_u 24 l -> in_u 31 (DIF_INSTR_BRANCH op l).
Proof. intros. unfold DIF_INSTR_BRANCH. rewrite lor_high by (done || lia). unfold in_u in *. lia. Qed.

Lemma encode_range i : dif_wf i -> in_u 31 (dif_encode i).
Proof.
  intros H. pose proof (opcode_byte _ (op_of_opcode i H)) as Ho. revert H.
  unfold dif_wf, DIF_INTOFF_MAX, DIF_STROFF_MAX, DIF_VAR_ARRAY_MIN, DIF_VAR_ARRAY_MAX,
    DIF_VARIABLE_MAX, DIF_SUBROUTINE_MAX.
  destruct i; intros H; destruct_and?; simpl in Ho; unfold_encode;
    lazymatch goal with
    | |- in_u _ (DIF_INSTR_FMT _ _ _ _) => apply fmt_range; operand
    | |- in_u _ (DIF_INSTR_BRANCH _ _) => apply branch_range; operand
    | |- in_u _ (_ .| _) => apply wide_range; operand
    | |- _ => operand
    end.
Qed.

(** *** The opcodes with a format *)
Definition formatted (op : Z) : bool :=
  is_alu op || is_cmp op || is_branch op || is_load op || is_store op || is_lda op ||
  is_ldv op || is_stv op || is_push op ||
  among [DIF_OP_NOT; DIF_OP_MOV; DIF_OP_TST; DIF_OP_RET; DIF_OP_NOP; DIF_OP_SETX; DIF_OP_SETS;
         DIF_OP_CALL; DIF_OP_POPTS; DIF_OP_FLUSHTS; DIF_OP_ALLOCS; DIF_OP_COPYS] op.

Lemma octet_listed x : in_u 8 x -> In x (seqZ 0 256).
Proof. intros H. apply list_elem_of_In, elem_of_seqZ. unfold in_u in H. simpl in H. lia. Qed.

Lemma formatted_opcode op : in_u 8 op -> formatted op = opcode op.
Proof.
  intros H. apply eqb_prop. revert H. intros H%octet_listed.
  assert (forallb (fun op => eqb (formatted op) (opcode op)) (seqZ 0 256) = true) as Hall by reflexivity.
  rewrite forallb_forall in Hall. by apply Hall.
Qed.

Lemma byte_field n w : 0 <= n -> in_u 8 ((w >>> n) .& 0xff).
Proof. intros. rewrite byte_of by done. unfold in_u. apply Z.mod_pos_bound. lia. Qed.

Lemma decode_formatted w : is_Some (dif_decode w) <-> formatted (DIF_INSTR_OP w) = true.
Proof.
  unfold dif_decode, formatted. cbn [among existsb]. split.
  - intros [i Hi]. repeat (case_match; [by rewrite ?orb_true_r|]).
    revert Hi. repeat (case_match; [by rewrite ?orb_true_r|]). done.
  - intros H. repeat (case_match; [by eexists|]). simpl in H. congruence.
Qed.

Lemma label_range w : in_u 24 (DIF_INSTR_LABEL w).
Proof.
  unfold DIF_INSTR_LABEL. change 0xffffff with (Z.ones 24). rewrite land_ones_mod by lia.
  unfold in_u. apply Z.mod_pos_bound. lia.
Qed.

Lemma half_field w : 0 <= (w >>> 8) .& 0xffff <= 0xffff.
Proof. rewrite half_of by lia. pose proof (Z.mod_pos_bound (w / 2 ^ 8) (2 ^ 16)). lia. Qed.

Lemma reg_fields w :
  reg (DIF_INSTR_R1 w) /\ reg (DIF_INSTR_R2 w) /\ reg (DIF_INSTR_RD w) /\ reg (DIF_INSTR_RS w).
Proof.
  pose proof (byte_field 16 w). pose proof (byte_field 8 w). pose proof (byte_field 0 w) as Hlow.
  rewrite Z.shiftr_0_r in Hlow. unfold reg, DIF_REGISTER_MAX, in_u in *.
  change (2 ^ 8) with 256 in *.
  unfold DIF_INSTR_R1, DIF_INSTR_R2, DIF_INSTR_RD, DIF_INSTR_RS. lia.
Qed.

Lemma decode_wf w i : dif_decode w = Some i -> dif_wf i /\ op_of i = DIF_INSTR_OP w.
Proof.
  destruct (reg_fields w) as (H1 & H2 & Hd & Hs). pose proof (label_range w).
  pose proof (half_field w). pose proof (byte_field 16 w ltac:(lia)).
  unfold dif_decode. cbv zeta. intros Hi.
  repeat (case_match; [injection Hi as <-; cbn [dif_wf op_of];
    split; [split_and?; first [match goal with H : ?P |- ?P => exact H end | exact I | apply H1 | apply half_field | apply byte_field; lia]
           | first [reflexivity | symmetry; by apply Z.eqb_eq]]|]).
  discriminate.
Qed.

(** ** What the macros promise *)

(** C37: an instruction built by the macros of the header from operands that fit
    their fields is a non-negative word, from which the field macros recover
    the instruction.  Conversely a word is an instruction exactly when its opcode
    is one of the 77 of the header, and the operands read from it fit the fields
    of its format. *)
Theorem dif_roundtrip :
  (forall i, dif_wf i -> dif_decode (dif_encode i) = Some i /\ in_u 31 (dif_encode i)) /\
  (forall w, is_Some (dif_decode w) <-> DIF_OP_OR <= DIF_INSTR_OP w <= DIF_OP_RLDX) /\
  (forall w i, dif_decode w = Some i -> dif_wf i /\ op_of i = DIF_INSTR_OP w).
Proof.
  split_and!; [| |apply decode_wf].
  - intros i Hi. split; [by apply dif_decode_encode | by apply encode_range].
  - intros w. rewrite decode_formatted, formatted_opcode by (apply byte_field; lia).
    unfold opcode, dif_op_code. rewrite andb_true_iff, Z.ltb_lt, Z.leb_le. lia.
Qed.

Lemma dif_roundtrip_witness :
  dif_decode (dif_encode (Ldv DIF_OP_LDGS DIF_VAR_TIMESTAMP 1)) = Some (Ldv DIF_OP_LDGS DIF_VAR_TIMESTAMP 1).
Proof.
  apply (proj1 dif_roundtrip (Ldv DIF_OP_LDGS DIF_VAR_TIMESTAMP 1)).
  vm_compute. repeat split; discriminate.
Defined.

Lemma quantize_next :
  forallb (fun b => (DTRACE_QUANTIZE_BUCKETVAL b <? DTRACE_QUANTIZE_BUCKETVAL (b + 1)) &&
    (DTRACE_QUANTIZE_BUCKETVAL (DTRACE_QUANTIZE_NBUCKETS - 1 - b) =? - DTRACE_QUANTIZE_BUCKETVAL b))
    (seqZ 0 (DTRACE_QUANTIZE_NBUCKETS - 1)) = true.
Proof. vm_compute. reflexivity. Qed.

Lemma quantize_increasing b n :
  0 <= b -> b + Z.of_nat (S n) < DTRACE_QUANTIZE_NBUCKETS ->
  DTRACE_QUANTIZE_BUCKETVAL b < DTRACE_QUANTIZE_BUCKETVAL (b + Z.of_nat (S n)).
Proof.
  intros Hb. pose proof quantize_next as H. rewrite forallb_forall in H.
  assert (forall x, 0 <= x -> x + 1 < DTRACE_QUANTIZE_NBUCKETS ->
    DTRACE_QUANTIZE_BUCKETVAL x < DTRACE_QUANTIZE_BUCKETVAL (x + 1)) as Hnext.
  { intros x Hx Hx'. specialize (H x). rewrite andb_true_iff, Z.ltb_lt in H.
    apply H, list_elem_of_In, elem_of_seqZ. lia. }
  induction n as [|n IH]; intros Hn; [by apply Hnext|].
  specialize (IH ltac:(lia)). specialize (Hnext (b + Z.of_nat (S n)) ltac:(lia) ltac:(lia)).
  replace (b + Z.of_nat (S (S n))) with (b + Z.of_nat (S n) + 1) by lia. lia.
Qed.

(** The buckets of [quantize()] have strictly increasing values, negative
    below the zero bucket and positive above it: the value of bucket [b] above
    it is the power of two [2 ^ (b - 64)], and the buckets are symmetric. *)
Theorem quantize_buckets : forall b b',
  0 <= b < b' -> b' < DTRACE_QUANTIZE_NBUCKETS ->
  DTRACE_QUANTIZE_BUCKETVAL b < DTRACE_QUANTIZE_BUCKETVAL b' /\
  DTRACE_QUANTIZE_BUCKETVAL (DTRACE_QUANTIZE_NBUCKETS - 1 - b) = - DTRACE_QUANTIZE_BUCKETVAL b /\
  (DTRACE_QUANTIZE_ZEROBUCKET <= b -> DTRACE_QUANTIZE_BUCKETVAL b' = 2 ^ (b' - 64)).
Proof.
  intros b b' Hb Hb'. split_and!.
  - pose proof (quantize_increasing b (Z.to_nat (b' - b - 1)) ltac:(lia)) as H.
    replace (b + _) with b' in H by lia. by apply H.
  - pose proof quantize_next as H. rewrite forallb_forall in H. specialize (H b).
    rewrite andb_true_iff, Z.eqb_eq in H. apply H, list_elem_of_In, elem_of_seqZ. lia.
  - unfold DTRACE_QUANTIZE_BUCKETVAL, DTRACE_QUANTIZE_NBUCKETS, DTRACE_QUANTIZE_ZEROBUCKET in *.
    intros. destruct (Z.ltb_spec b' (64 - 1)), (Z.eqb_spec b' (64 - 1)); try lia.
    rewrite Z.shiftl_1_l, wraps_id; [f_equal; lia | lia |].
    pose proof (Z.pow_pos_nonneg 2 (b' - (64 - 1) - 1)).
    pose proof (Z.pow_lt_mono_r 2 (b' - (64 - 1) - 1) 63). lia.
Qed.

Lemma quantize_buckets_witness : DTRACE_QUANTIZE_BUCKETVAL 70 = 2 ^ 6.
Proof.
  apply (quantize_buckets 63 70); unfold DTRACE_QUANTIZE_NBUCKETS, DTRACE_QUANTIZE_ZEROBUCKET; lia.
Defined.

Lemma lquantize_parts x : in_u 64 x ->
  DTRACE_LQUANTIZE_STEP x = x / 2 ^ 48 /\ DTRACE_LQUANTIZE_LEVELS x = x / 2 ^ 32 mod 2 ^ 16 /\
  u32 (DTRACE_LQUANTIZE_BASE x) = x mod 2 ^ 32.
Proof.
  intros Hx. unfold DTRACE_LQUANTIZE_STEP, DTRACE_LQUANTIZE_LEVELS, DTRACE_LQUANTIZE_BASE,
    DTRACE_LQUANTIZE_STEPMASK, DTRACE_LQUANTIZE_LEVELMASK, DTRACE_LQUANTIZE_BASEMASK,
    DTRACE_LQUANTIZE_STEPSHIFT, DTRACE_LQUANTIZE_LEVELSHIFT, DTRACE_LQUANTIZE_BASESHIFT.
  rewrite !Z.shiftr_land, (wrapu_wraps 32), Z.shiftr_0_r by lia.
  change ((0xffff <<< 48) >>> 48) with (Z.ones 16). change ((0xffff <<< 32) >>> 32) with (Z.ones 16).
  change (0xffffffff >>> 0) with (Z.ones 32).
  rewrite !land_ones_mod, !Z.shiftr_div_pow2 by lia. unfold wrapu, in_u in *.
  rewrite !Z.mod_mod by lia. split_and!; [|done..].
  apply Z.mod_small. split; [by apply Z.div_pos; lia | by apply Z.div_lt_upper_bound; lia].
Qed.

Lemma ustack_sum n d : in_u 32 n -> in_u 32 d -> DTRACE_USTACK_ARG n d = d * 2 ^ 32 + n.
Proof.
  intros Hn Hd. unfold DTRACE_USTACK_ARG. change 0xffffffff with (Z.ones 32).
  rewrite land_ones_mod, Z.mod_small, (wrapu_id 64 d) by (unfold in_u in *; lia).
  rewrite wrapu_id; [by apply lor_high|]. rewrite Z.shiftl_mul_pow2 by lia. unfold in_u in *. lia.
Qed.

Lemma attr_sum n d c : in_u 8 n -> in_u 8 d -> in_u 8 c -> DOF_ATTR n d c = DIF_INSTR_FMT n d c 0.
Proof. intros. unfold DOF_ATTR, DIF_INSTR_FMT. by rewrite Z.lor_0_r. Qed.

(** The step, the levels and the base of an [lquantize()] argument are its
    three parts; the arguments of [ustack()] and the attributes of the object
    format are recovered from the word made of them. *)
Theorem dtrace_arguments : forall x n d c,
  (in_u 64 x ->
   x = DTRACE_LQUANTIZE_STEP x * 2 ^ 48 + DTRACE_LQUANTIZE_LEVELS x * 2 ^ 32 + u32 (DTRACE_LQUANTIZE_BASE x)) /\
  (in_u 32 n -> in_u 32 d -> in_u 64 (DTRACE_USTACK_ARG n d) /\
   DTRACE_USTACK_NFRAMES (DTRACE_USTACK_ARG n d) = n /\ DTRACE_USTACK_STRSIZE (DTRACE_USTACK_ARG n d) = d) /\
  (in_u 8 n -> in_u 8 d -> in_u 8 c ->
   DOF_ATTR_NAME (DOF_ATTR n d c) = n /\ DOF_ATTR_DATA (DOF_ATTR n d c) = d /\
   DOF_ATTR_CLASS (DOF_ATTR n d c) = c).
Proof.
  intros x n d c. split_and!.
  - intros Hx. destruct (lquantize_parts x Hx) as (-> & -> & ->).
    unfold in_u in Hx. Z.to_euclidean_division_equations. lia.
  - intros Hn Hd. rewrite ustack_sum by done.
    unfold DTRACE_USTACK_NFRAMES, DTRACE_USTACK_STRSIZE. change 0xffffffff with (Z.ones 32).
    rewrite land_ones_mod, Z.shiftr_div_pow2, Z.div_add_l, (Z.div_small n), Z.add_0_r by (unfold in_u in *; lia).
    rewrite Z.add_comm, Z_mod_plus_full. unfold wrapu, in_u in *.
    rewrite !(Z.mod_small n), (Z.mod_small d) by lia. lia.
  - intros Hn Hd Hc. rewrite attr_sum by done.
    destruct (fmt_fields n d c 0 Hn Hd Hc ltac:(operand)) as (E1 & E2 & E3 & _). split_and!; done.
Qed.

Lemma dtrace_arguments_witness : DTRACE_USTACK_STRSIZE (DTRACE_USTACK_ARG 20 512) = 512.
Proof. apply (dtrace_arguments 0 20 512 0); unfold in_u; lia. Defined.

(** *** Pointers in shared structures *)
Definition scalar_at (m : machine) (t : ctype) (name : string) : option place :=
  snd <$> list_find (fun p => p_path p = [Member name]) (places m [] 0 t).

(** The value of a member, in memory that holds the structure. *)
Definition member (e : endian) (m : machine) (t : ctype) (mem : list Z) (name : string) : option Z :=
  p ← scalar_at m t name; snd <$> load_place e m mem p.

(** The places of the members other than the pointer and its padding. *)
Definition other_spots (m : machine) (t : ctype) (name : string) :=
  filter (fun s => s.1.1.1 <> [Member name] /\ s.1.1.1 <> [Member (name ++ "pad")]) (view m t).2.

Definition shared_pointers : list ((endian -> data_model -> ctype) * string) :=
  [(dtrace_aggdesc, "dtagd_name"); (dtrace_fmtdesc, "dtfd_string"); (dtrace_bufdesc, "dtbd_data")]%string.

Lemma dt_rds_split mem p n m :
  rds mem p (n + m) = (a ← rds mem p n; b ← rds mem (p + n) m; Some (a ++ b)).
Proof.
  revert p. induction n as [|n IH]; intros p; simpl.
  - rewrite Nat.add_0_r. by destruct (rds mem p m).
  - rewrite IH, Nat.add_succ_r. destruct (rd mem p); simpl; [|done].
    destruct (rds mem (S p) n); simpl; [|done]. by destruct (rds mem (S (p + n)) m).
Qed.

(** A 64-bit number in memory, read as two words in the order of the machine. *)
Lemma load_words e k u mem o pk pp pq :
  model k = LP64 -> model u = ILP32 -> 0 <= o ->
  let low := match e with BigEndian => o + 4 | LittleEndian => o end in
  let high := match e with BigEndian => o | LittleEndian => o + 4 end in
  snd <$> load_place e k mem {| p_path := pk; p_off := o; p_ty := Pointer |}
  = (a ← snd <$> load_place e u mem {| p_path := pp; p_off := low; p_ty := Pointer |};
     b ← snd <$> load_place e u mem {| p_path := pq; p_off := high; p_ty := UInt |};
     Some (a + 2 ^ 32 * b)).
Proof.
  intros Hk Hu Ho. unfold load_place, place_at, octets_of, value_of, scalar_size, word_size.
  cbn [p_path p_off p_ty scalar_signed]. rewrite Hk, Hu. cbv zeta. change (Z.to_nat 8) with (4 + 4)%nat. change (Z.to_nat 4) with 4%nat.
  rewrite dt_rds_split.
  destruct e; replace (Z.to_nat (o + 4)) with (Z.to_nat o + 4)%nat by lia;
  destruct (rds mem (Z.to_nat o) 4) as [a|] eqn:Ea, (rds mem (Z.to_nat o + 4) 4) as [b|] eqn:Eb;
    try reflexivity; cbn [mbind option_bind fmap option_fmap option_map snd];
    apply rds_length in Ea, Eb; f_equal.
  - rewrite rev_app_distr, of_le_app, length_rev, Eb. reflexivity.
  - rewrite of_le_app, Ea. reflexivity.
Qed.

(** The structures that hold a pointer have the same size in a 32-bit
    consumer and in a 64-bit kernel, with the other members at the same places;
    the pointer that the kernel reads is the consumer's, extended by the
    padding, which is its high word in either byte order. *)
Theorem dtrace_ptr_shared : forall e k u t name mem,
  kernel_user k u -> In (t, name) shared_pointers ->
  sizeof k (t e LP64) = sizeof u (t e ILP32) /\
  other_spots k (t e LP64) name = other_spots u (t e ILP32) name /\
  member e k (t e LP64) mem name =
    (p ← member e u (t e ILP32) mem name; pad ← member e u (t e ILP32) mem (name ++ "pad");
     Some (p + 2 ^ 32 * pad)).
Proof.
  intros e k u t name mem Hku Hin.
  destruct (kernel_user_cases k u Hku) as [[-> ->] | [-> ->]], e;
    repeat (destruct Hin as [[= <- <-] | Hin];
      [split_and!; [vm_compute; reflexivity | vm_compute; reflexivity |]|]);
    try (by destruct Hin);
    unfold member;
    repeat match goal with |- context [scalar_at ?m ?t ?n] =>
      let p := eval vm_compute in (scalar_at m t n) in
      replace (scalar_at m t n) with p by (vm_compute; reflexivity) end;
    cbn [mbind option_bind];
    match goal with |- snd <$> load_place ?e ?k ?mem {| p_path := ?pk; p_off := ?o |} = _ =>
      match goal with |- context [load_place e ?u mem _] =>
        refine (load_words e k u mem o _ _ _ eq_refl eq_refl _); lia end end.
Qed.

Lemma dtrace_ptr_shared_witness :
  member LittleEndian amd64 (dtrace_fmtdesc LittleEndian LP64)
    [0x78; 0x56; 0x34; 0x12; 0; 0; 0; 0; 9; 0; 0; 0; 1; 0; 0; 0] "dtfd_string" = Some 0x12345678.
Proof.
  assert (kernel_user amd64 i386) as H by (unfold kernel_user; simpl; tauto).
  assert (In (dtrace_fmtdesc, "dtfd_string"%string) shared_pointers) as Hin by (simpl; tauto).
  destruct (dtrace_ptr_shared LittleEndian amd64 i386 dtrace_fmtdesc "dtfd_string"
    [0x78; 0x56; 0x34; 0x12; 0; 0; 0; 0; 9; 0; 0; 0; 1; 0; 0; 0] H Hin) as (_ & _ & ->).
  vm_compute. reflexivity.
Defined.
