(* ===== verification/NcaLock.v ===== *)
(** * The reader-writer lock of the NCA: nca/nca.h

    [DCB_RD_ENTER], [DCB_RD_EXIT], [DCB_WR_ENTER] and [DCB_WR_EXIT] of
    [src/include/nca/nca.h] protect the list of door control blocks.  A reader
    adds one to a counter of its CPU; a writer sets the flag [DCB_COUNT_USELOCK]
    in the counter of every CPU, which sends new readers to a mutex, and sleeps
    until the readers it has seen are gone.  Threads execute these macros in any
    interleaving of their atomic operations.  No reader is inside while a writer
    is, at most one writer is, and no state is a deadlock: in particular no
    wakeup of a sleeping writer is lost. *)
From S2P Require Import Prelude.
From stdpp Require Import relations.
#[local] Open Scope Z_scope.
#[local] Open Scope c_scope.

(** ** State *)

Definition DCB_COUNT_USELOCK : Z := 0x80000000.
Definition DCB_COUNT_MASK : Z := 0x3FFFFFFF.

(** Where a thread is in the macros: the operation it executes next.  [c] is the
    CPU of a reader ([CPU->cpu_seqid]); [cpu], [readers] and [old] are the
    variables of the writer's loops. *)
Inductive pc :=
  | Idle
  (* DCB_RD_ENTER *)
  | RD_add (c : nat) | RD_lock (c : nat) | RD_sub (c : nat) | RD_waiters (c : nat)
  | RD_signal (c : nat) | RD_unlock (c : nat) | RD_block (c : nat) | RD_unblock (c : nat)
  | Reading (c : nat)
  (* DCB_RD_EXIT *)
  | RX_sub (c : nat) | RX_lock | RX_waiters | RX_signal | RX_unlock
  (* DCB_WR_ENTER *)
  | WR_readers | WR_lock | WR_load (cpu : nat) (readers : Z) | WR_cas (cpu : nat) (readers old : Z)
  | WR_reload (cpu : nat) (readers : Z) | WR_asleep | WR_unlock
  | Writing
  (* DCB_WR_EXIT *)
  | WX_lock | WX_load (cpu : nat) | WX_cas (cpu : nat) (old : Z) | WX_reload (cpu : nat)
  | WX_unlock | WX_unreaders.

Inductive job := Read (c : nat) | Write.
Record thread := Thread { at_ : pc; jobs : list job }.

(** [gv]: [nca_gv[cpu].dcb_readers]; [lock]: the owner of [nca_dcb_lock];
    [rlock]: the owner of [nca_dcb_readers]; [waiting]: the threads that sleep on
    [nca_dcb_wait]. *)
Record dcb := Dcb {
  gv : list Z; lock : option nat; rlock : option nat; waiting : list nat; threads : list thread }.

(** ** Operations of the kernel *)
Section Ops.
Context (i : nat) (s : dcb).

(** Thread [i] goes to [p]. *)
Definition goto (p : pc) (s : dcb) : option dcb :=
  t ← threads s !! i;
  Some (Dcb (gv s) (lock s) (rlock s) (waiting s) (<[i := Thread p (jobs t)]> (threads s))).

Definition set_gv (c : nat) (v : Z) : dcb :=
  Dcb (<[c := v]> (gv s)) (lock s) (rlock s) (waiting s) (threads s).
Definition set_lock (o : option nat) : dcb := Dcb (gv s) o (rlock s) (waiting s) (threads s).
Definition set_rlock (o : option nat) : dcb := Dcb (gv s) (lock s) o (waiting s) (threads s).
Definition set_waiting (l : list nat) : dcb := Dcb (gv s) (lock s) (rlock s) l (threads s).

Definition enter_lock : option dcb :=
  match lock s with None => Some (set_lock (Some i)) | Some _ => None end.
Definition exit_lock : dcb := set_lock None.
Definition enter_rlock : option dcb :=
  match rlock s with None => Some (set_rlock (Some i)) | Some _ => None end.
Definition exit_rlock : dcb := set_rlock None.
Definition CV_HAS_WAITERS : bool := match waiting s with [] => false | _ => true end.
(** [cv_signal] wakes the thread that has slept longest. *)
Definition cv_signal : dcb := set_waiting (tail (waiting s)).
Definition uselock (v : Z) : bool := truth (v .& DCB_COUNT_USELOCK).
End Ops.

(** ** The macros
    One atomic operation of thread [i]; [None] when it waits for a mutex or for a
    wakeup. *)
Section Macros.
Context (i : nat) (s : dcb).

Definition DCB_RD_ENTER (p : pc) : option dcb :=
  match p with
  | RD_add c =>
    v ← gv s !! c;
    let nv := u32 (v + 1) in
    goto i (if uselock nv then RD_lock c else Reading c) (set_gv s c nv)
  | RD_lock c => s ← enter_lock i s; goto i (RD_sub c) s
  | RD_sub c =>
    v ← gv s !! c;
    let nv := u32 (v - 1) in
    goto i (if nv =? DCB_COUNT_USELOCK then RD_waiters c else RD_unlock c) (set_gv s c nv)
  | RD_waiters c => goto i (if CV_HAS_WAITERS s then RD_signal c else RD_unlock c) s
  | RD_signal c => goto i (RD_unlock c) (cv_signal s)
  | RD_unlock c => goto i (RD_block c) (exit_lock s)
  | RD_block c => s ← enter_rlock i s; goto i (RD_unblock c) s
  | RD_unblock c => goto i (RD_add c) (exit_rlock s)
  | _ => None
  end.

Definition DCB_RD_EXIT (p : pc) : option dcb :=
  match p with
  | RX_sub c =>
    v ← gv s !! c;
    let nv := u32 (v - 1) in
    goto i (if nv =? DCB_COUNT_USELOCK then RX_lock else Idle) (set_gv s c nv)
  | RX_lock => s ← enter_lock i s; goto i RX_waiters s
  | RX_waiters => goto i (if CV_HAS_WAITERS s then RX_signal else RX_unlock) s
  | RX_signal => goto i RX_unlock (cv_signal s)
  | RX_unlock => goto i Idle (exit_lock s)
  | _ => None
  end.

(** [max_ncpus] is the length of [gv]. *)
Definition DCB_WR_ENTER (p : pc) : option dcb :=
  match p with
  | WR_readers => s ← enter_rlock i s; goto i WR_lock s
  | WR_lock => s ← enter_lock i s; goto i (WR_load 0 0) s
  | WR_load cpu readers =>
    match gv s !! cpu with
    | Some old =>
      if uselock old then goto i (WR_load (S cpu) (s32 (readers + (old .& DCB_COUNT_MASK)))) s
      else goto i (WR_cas cpu readers old) s
    | None =>
      if readers =? 0 then goto i WR_unlock s
      else goto i WR_asleep (set_waiting (exit_lock s) (waiting s ++ [i]))
    end
  | WR_cas cpu readers old =>
    v ← gv s !! cpu;
    let new := old .| DCB_COUNT_USELOCK in
    if v =? old then
      goto i (WR_load (S cpu) (s32 (readers + (new .& DCB_COUNT_MASK)))) (set_gv s cpu new)
    else goto i (WR_reload cpu readers) s
  | WR_reload cpu readers => old ← gv s !! cpu; goto i (WR_cas cpu readers old) s
  | WR_asleep =>
    if bool_decide (i ∈ waiting s) then None
    else s ← enter_lock i s; goto i (WR_load 0 0) s
  | WR_unlock => goto i Writing (exit_lock s)
  | _ => None
  end.

Definition DCB_WR_EXIT (p : pc) : option dcb :=
  match p with
  | WX_lock => s ← enter_lock i s; goto i (WX_load 0) s
  | WX_load cpu =>
    match gv s !! cpu with
    | Some old => goto i (WX_cas cpu old) s
    | None => goto i WX_unlock s
    end
  | WX_cas cpu old =>
    v ← gv s !! cpu;
    if v =? old then goto i (WX_load (S cpu)) (set_gv s cpu (old .& u32 (.~ DCB_COUNT_USELOCK)))
    else goto i (WX_reload cpu) s
  | WX_reload cpu => old ← gv s !! cpu; goto i (WX_cas cpu old) s
  | WX_unlock => goto i WX_unreaders (exit_lock s)
  | WX_unreaders => goto i Idle (exit_rlock s)
  | _ => None
  end.

(** A thread reads or writes by the macros around the critical section. *)
Definition exec : option dcb :=
  t ← threads s !! i;
  match at_ t with
  | Idle =>
    match jobs t with
    | [] => None
    | j :: js =>
      let p := match j with Read c => RD_add c | Write => WR_readers end in
      Some (Dcb (gv s) (lock s) (rlock s) (waiting s) (<[i := Thread p js]> (threads s)))
    end
  | Reading c => goto i (RX_sub c) s
  | Writing => goto i WX_lock s
  | RD_add _ | RD_lock _ | RD_sub _ | RD_waiters _ | RD_signal _ | RD_unlock _ | RD_block _
  | RD_unblock _ => DCB_RD_ENTER (at_ t)
  | RX_sub _ | RX_lock | RX_waiters | RX_signal | RX_unlock => DCB_RD_EXIT (at_ t)
  | WR_readers | WR_lock | WR_load _ _ | WR_cas _ _ _ | WR_reload _ _ | WR_asleep | WR_unlock =>
    DCB_WR_ENTER (at_ t)
  | WX_lock | WX_load _ | WX_cas _ _ | WX_reload _ | WX_unlock | WX_unreaders => DCB_WR_EXIT (at_ t)
  end.
End Macros.

Definition step (s s' : dcb) : Prop := exists i, exec i s = Some s'.

Definition job_ok (n : nat) (j : job) : Prop := match j with Read c => (c < n)%nat | Write => True end.

(** Nobody inside, all counters zero, and few enough threads for the counters
    and for the sum of the writer, an [int]. *)
Definition initial (s : dcb) : Prop :=
  Forall (fun v => v = 0) (gv s) /\ lock s = None /\ rlock s = None /\ waiting s = [] /\
  Forall (fun t => at_ t = Idle /\ Forall (job_ok (length (gv s))) (jobs t)) (threads s) /\
  Z.of_nat (length (threads s)) < 2 ^ 30 /\
  Z.of_nat (length (gv s)) * Z.of_nat (length (threads s)) < 2 ^ 31.

(** ** The invariant *)

(** A thread is counted on CPU [c] between its increment and its decrement, and
    reads inside unless it is on its way to the mutex. *)
Definition counted (c : nat) (t : thread) : nat :=
  match at_ t with
  | RD_lock c' | RD_sub c' | Reading c' | RX_sub c' => if (c =? c')%nat then 1 else 0
  | _ => 0
  end.
Definition reads (c : nat) (t : thread) : Prop := at_ t = Reading c \/ at_ t = RX_sub c.
Definition count (c : nat) (ts : list thread) : nat := sum_list (counted c <$> ts).

Definition in_lock (p : pc) : bool :=
  match p with
  | RD_sub _ | RD_waiters _ | RD_signal _ | RD_unlock _ | RX_waiters | RX_signal | RX_unlock
  | WR_load _ _ | WR_cas _ _ _ | WR_reload _ _ | WR_unlock
  | WX_load _ | WX_cas _ _ | WX_reload _ | WX_unlock => true
  | _ => false
  end.
Definition in_rlock (p : pc) : bool :=
  match p with
  | RD_unblock _ | WR_lock | WR_load _ _ | WR_cas _ _ _ | WR_reload _ _ | WR_asleep | WR_unlock | Writing
  | WX_lock | WX_load _ | WX_cas _ _ | WX_reload _ | WX_unlock | WX_unreaders => true
  | _ => false
  end.

(** The CPU a pc uses. *)
Definition pc_ok (n : nat) (p : pc) : Prop :=
  match p with
  | RD_add c | RD_lock c | RD_sub c | RD_waiters c | RD_signal c | RD_unlock c | RD_block c
  | RD_unblock c | Reading c | RX_sub c => (c < n)%nat
  | WR_cas cpu _ _ | WR_reload cpu _ | WX_cas cpu _ | WX_reload cpu => (cpu < n)%nat
  | WR_load cpu _ | WX_load cpu => (cpu <= n)%nat
  | _ => True
  end.

Definition flagged (s : dcb) (c : nat) : Prop := exists v, gv s !! c = Some v /\ 2 ^ 31 <= v.

(** A thread that will find the sleeping writer. *)
Definition signals (t : thread) : Prop :=
  match at_ t with RD_waiters _ | RD_signal _ | RX_lock | RX_waiters | RX_signal => True | _ => False end.
Definition presses (s : dcb) (t : thread) : Prop :=
  signals t \/ exists c, counted c t = 1%nat /\ flagged s c.
Definition pressure (s : dcb) : Prop := exists j t, threads s !! j = Some t /\ presses s t.

Definition no_reader (s : dcb) (c : nat) : Prop :=
  forall j t, threads s !! j = Some t -> ~ reads c t.

(** What the holder of [nca_dcb_readers] knows. *)
Definition scanned (s : dcb) (cpu : nat) (readers : Z) : Prop :=
  0 <= readers <= Z.of_nat cpu * Z.of_nat (length (threads s)) /\
  (forall c, (c < cpu)%nat -> flagged s c) /\
  (readers = 0 -> forall c, (c < cpu)%nat -> no_reader s c) /\
  (readers <> 0 -> pressure s).
Definition view (s : dcb) (p : pc) : Prop :=
  match p with
  | RD_unblock _ | WR_lock | WX_unlock | WX_unreaders => forall c, ~ flagged s c
  | WR_load cpu r | WR_cas cpu r _ | WR_reload cpu r => scanned s cpu r
  | WR_asleep => (forall c, (c < length (gv s))%nat -> flagged s c) /\ (waiting s <> [] -> pressure s)
  | WR_unlock | Writing | WX_lock =>
    forall c, (c < length (gv s))%nat -> flagged s c /\ no_reader s c
  | WX_load cpu | WX_cas cpu _ | WX_reload cpu => forall c, (c < cpu)%nat -> ~ flagged s c
  | _ => True
  end.

Definition word (k : nat) (b : bool) : Z := Z.of_nat k + if b then 2 ^ 31 else 0.

Record inv (s : dcb) : Prop := {
  inv_lock i t : threads s !! i = Some t -> in_lock (at_ t) = bool_decide (lock s = Some i);
  inv_rlock i t : threads s !! i = Some t -> in_rlock (at_ t) = bool_decide (rlock s = Some i);
  inv_lock_in i : lock s = Some i -> is_Some (threads s !! i);
  inv_rlock_in i : rlock s = Some i -> is_Some (threads s !! i);
  inv_pc i t : threads s !! i = Some t ->
    pc_ok (length (gv s)) (at_ t) /\ Forall (job_ok (length (gv s))) (jobs t);
  inv_waiting : waiting s = [] \/
    exists i t, waiting s = [i] /\ threads s !! i = Some t /\ at_ t = WR_asleep;
  inv_count c v : gv s !! c = Some v -> exists b, v = word (count c (threads s)) b;
  inv_small : Z.of_nat (length (threads s)) < 2 ^ 30 /\
    Z.of_nat (length (gv s)) * Z.of_nat (length (threads s)) < 2 ^ 31;
  inv_view i t : threads s !! i = Some t -> view s (at_ t);
  inv_free : rlock s = None -> forall c, ~ flagged s c }.

(** *** Counter words *)
Lemma counted_le c t : (counted c t <= 1)%nat.
Proof. unfold counted. destruct (at_ t); try lia; case_match; lia. Qed.

Lemma count_le c ts : (count c ts <= length ts)%nat.
Proof.
  unfold count. induction ts as [|t ts IH]; csimpl; [done|]. pose proof (counted_le c t). lia.
Qed.

Section Words.
Context (k : nat) (Hk : Z.of_nat k < 2 ^ 30).

Lemma word_or : word k true = Z.of_nat k .| (1 <<< 31).
Proof. rewrite (lor_shift_add 31) by (unfold in_u; lia). unfold word. lia. Qed.

Lemma word_bit b : Z.testbit (word k b) 31 = b.
Proof.
  destruct b.
  - rewrite word_or, Z.lor_spec, (in_u_testbit 31) by (unfold in_u; lia). done.
  - unfold word. rewrite Z.add_0_r. apply (in_u_testbit 31); [unfold in_u; lia|lia].
Qed.

Lemma uselock_word b : uselock (word k b) = b.
Proof.
  unfold uselock, DCB_COUNT_USELOCK. change 0x80000000 with (2 ^ 31).
  rewrite truth_land_pow2 by lia. apply word_bit.
Qed.

Lemma mask_word b : word k b .& DCB_COUNT_MASK = Z.of_nat k.
Proof.
  unfold DCB_COUNT_MASK. change 0x3FFFFFFF with (Z.ones 30). rewrite land_ones_mod by lia.
  unfold word. destruct b.
  - change (2 ^ 31) with (2 * 2 ^ 30). rewrite Z_mod_plus_full. apply Z.mod_small. lia.
  - rewrite Z.add_0_r. apply Z.mod_small. lia.
Qed.

Lemma word_set b : word k b .| DCB_COUNT_USELOCK = word k true.
Proof.
  apply Z.bits_inj'. intros n Hn. unfold DCB_COUNT_USELOCK. change 0x80000000 with (2 ^ 31).
  rewrite Z.lor_spec, pow2_testbit by lia.
  destruct (Z.eqb_spec n 31) as [->|Hne]; [by rewrite !word_bit, orb_true_r|].
  rewrite orb_false_r. destruct b; [done|].
  rewrite word_or, Z.lor_spec, Z.shiftl_1_l, pow2_testbit by lia.
  rewrite (proj2 (Z.eqb_neq n 31)), orb_false_r by done. unfold word. by rewrite Z.add_0_r.
Qed.

Lemma word_clear b : word k b .& u32 (.~ DCB_COUNT_USELOCK) = word k false.
Proof.
  unfold DCB_COUNT_USELOCK. change (u32 (.~ 0x80000000)) with (Z.ones 31).
  rewrite land_ones_mod by lia. unfold word. destruct b; rewrite ?Z.add_0_r.
  - replace (Z.of_nat k + 2 ^ 31) with (Z.of_nat k + 1 * 2 ^ 31) by lia.
    rewrite Z_mod_plus_full. apply Z.mod_small. lia.
  - apply Z.mod_small. lia.
Qed.

Lemma word_flag b : 2 ^ 31 <= word k b <-> b = true.
Proof. unfold word. destruct b; split; (done || lia). Qed.
End Words.

Lemma word_incr k b : Z.of_nat k < 2 ^ 30 -> u32 (word k b + 1) = word (S k) b.
Proof. intros. rewrite wrapu_id; unfold in_u, word; destruct b; lia. Qed.

Lemma word_decr k b : Z.of_nat k < 2 ^ 30 -> (0 < k)%nat -> u32 (word k b - 1) = word (pred k) b.
Proof. intros. rewrite wrapu_id; unfold in_u, word; destruct b; lia. Qed.

Lemma word_last k b : Z.of_nat k < 2 ^ 30 -> (word k b =? DCB_COUNT_USELOCK) = b && (k =? 0)%nat.
Proof.
  intros. unfold word, DCB_COUNT_USELOCK.
  destruct (Z.eqb_spec (Z.of_nat k + (if b then 2 ^ 31 else 0)) 0x80000000), b, (Nat.eqb_spec k 0); simpl; lia.
Qed.

(** *** Steps *)
Lemma count_insert c ts i t t' :
  ts !! i = Some t -> (count c (<[i := t']> ts) + counted c t = count c ts + counted c t')%nat.
Proof. apply sum_insert. Qed.

Lemma count_pos c ts : (0 < count c ts)%nat -> exists j u, ts !! j = Some u /\ counted c u = 1%nat.
Proof.
  unfold count. induction ts as [|t ts IH]; csimpl; [lia|]. intros H.
  destruct (decide (counted c t = 1)%nat) as [E|E]; [by exists 0%nat, t|].
  pose proof (counted_le c t). destruct IH as (j & u & Hj & Hu); [lia|]. by exists (S j), u.
Qed.

(** The mutex stays, is taken by [i], or is released by [i]. *)
Definition lock_moves (i : nat) (o o' : option nat) : Prop :=
  o' = o \/ (o = None /\ o' = Some i) \/ (o = Some i /\ o' = None).

Lemma lock_insert (f : pc -> bool) o o' (ts : list thread) i t' :
  (forall j u, ts !! j = Some u -> f (at_ u) = bool_decide (o = Some j)) ->
  lock_moves i o o' -> f (at_ t') = bool_decide (o' = Some i) ->
  forall j u, <[i := t']> ts !! j = Some u -> f (at_ u) = bool_decide (o' = Some j).
Proof.
  intros H Ho Hi j u E. apply list_lookup_insert_Some in E as [(-> & -> & _)|[Hne E]]; [done|].
  rewrite (H j u E). apply bool_decide_ext. destruct Ho as [->|[[-> ->]|[-> ->]]]; split; congruence.
Qed.

Lemma dcb_owner_insert (ts : list thread) i (t t' : thread) o o' :
  ts !! i = Some t -> (forall j, o = Some j -> is_Some (ts !! j)) -> lock_moves i o o' ->
  forall j, o' = Some j -> is_Some (<[i := t']> ts !! j).
Proof.
  intros Et H Ho j Hj. apply lookup_lt_is_Some. rewrite length_insert. apply lookup_lt_is_Some.
  destruct Ho as [->|[[_ ->]|[_ ->]]]; [by apply H|by simplify_eq|done].
Qed.

(** What a step of thread [i] from [t] to [t'] must give. *)
Lemma inv_move s i t t' g lk rl wt :
  let s' := Dcb g lk rl wt (<[i := t']> (threads s)) in
  inv s -> threads s !! i = Some t -> length g = length (gv s) ->
  lock_moves i (lock s) lk -> in_lock (at_ t') = bool_decide (lk = Some i) ->
  lock_moves i (rlock s) rl -> in_rlock (at_ t') = bool_decide (rl = Some i) ->
  pc_ok (length g) (at_ t') -> Forall (job_ok (length g)) (jobs t') ->
  (wt = [] \/ exists j u, wt = [j] /\ threads s' !! j = Some u /\ at_ u = WR_asleep) ->
  (forall c v, g !! c = Some v -> exists b, v = word (count c (threads s')) b) ->
  view s' (at_ t') -> (forall j u, j <> i -> threads s !! j = Some u -> view s' (at_ u)) ->
  (rl = None -> forall c, ~ flagged s' c) -> inv s'.
Proof.
  intros s' Hs Et Hg Hl Hil Hr Hir Hpc Hj Hw Hc Hv Hv' Hf. constructor; simpl; try done.
  - eapply lock_insert; [apply (inv_lock s Hs)|done|done].
  - eapply lock_insert; [apply (inv_rlock s Hs)|done|done].
  - eapply dcb_owner_insert; [done|apply (inv_lock_in s Hs)|done].
  - eapply dcb_owner_insert; [done|apply (inv_rlock_in s Hs)|done].
  - intros j u E. apply list_lookup_insert_Some in E as [(-> & -> & _)|[Hne E]]; [done|].
    rewrite Hg. by apply (inv_pc s Hs j).
  - rewrite length_insert, Hg. apply inv_small, Hs.
  - intros j u E. apply list_lookup_insert_Some in E as [(-> & -> & _)|[Hne E]]; [done|]. by apply (Hv' j).
Qed.

Lemma view_outside s s' p : in_rlock p = false -> view s p -> view s' p.
Proof. by destruct p. Qed.

(** While [i] has or takes [nca_dcb_readers], nobody else knows anything. *)
Lemma others_outside s s' i j u :
  inv s -> rlock s = None \/ rlock s = Some i -> j <> i -> threads s !! j = Some u -> view s' (at_ u).
Proof.
  intros Hs Hr Hne Eu. pose proof (inv_rlock s Hs j u Eu) as H.
  rewrite bool_decide_eq_false_2 in H by (destruct Hr; congruence).
  eapply (view_outside s); [done|by apply (inv_view s Hs j)].
Qed.

Definition same_flags (s s' : dcb) : Prop := forall c, flagged s c <-> flagged s' c.

Lemma no_reader_insert s s' i t t' c :
  threads s !! i = Some t -> threads s' = <[i := t']> (threads s) ->
  (reads c t' -> reads c t) -> no_reader s c -> no_reader s' c.
Proof.
  intros Et Hts Hr Hn j u Eu Hu. rewrite Hts in Eu.
  apply list_lookup_insert_Some in Eu as [(<- & <- & _)|[Hne Eu]].
  - exact (Hn i t Et (Hr Hu)).
  - exact (Hn j u Eu Hu).
Qed.

(** What others know survives a step of [i] that leaves the flags, adds no reader
    on a flagged CPU and loses no signal the writer waits for. *)
Lemma others_stable s s' i t t' j u :
  inv s -> threads s !! i = Some t -> threads s' = <[i := t']> (threads s) ->
  length (gv s') = length (gv s) -> same_flags s s' ->
  (forall c, flagged s c -> reads c t' -> reads c t) ->
  (waiting s' <> [] -> waiting s <> []) ->
  ((pressure s -> pressure s') \/ (lock s = Some i /\ waiting s' = [])) ->
  j <> i -> threads s !! j = Some u -> view s' (at_ u).
Proof.
  intros Hs Et Hts Hg Hf Hrd Hw Hp Hne Eu. pose proof (inv_view s Hs j u Eu) as Hv.
  pose proof (inv_lock s Hs j u Eu) as Hl.
  assert (forall c, flagged s c -> no_reader s c -> no_reader s' c) as Hno
    by (intros c Hc; exact (no_reader_insert s s' i t t' c Et Hts (Hrd c Hc))).
  assert (forall cpu r, in_lock (at_ u) = true -> scanned s cpu r -> scanned s' cpu r) as Hscan.
  { intros cpu r Hin (H1 & H2 & H3 & H4). rewrite Hin in Hl. symmetry in Hl. apply bool_decide_eq_true in Hl.
    unfold scanned. rewrite Hts, length_insert. split_and!; [lia|lia| | |].
    - intros c Hc. by apply Hf, H2.
    - intros H0 c Hc. by apply Hno; [apply H2|apply H3].
    - intros H0. destruct Hp as [Hp|[Hp _]]; [by apply Hp, H4|congruence]. }
  assert (forall P : nat -> Prop, (forall c, P c -> ~ flagged s c) -> forall c, P c -> ~ flagged s' c) as Hnf
    by (intros P H c Hc; rewrite <- (Hf c); by apply H).
  assert ((forall c, (c < length (gv s))%nat -> flagged s c /\ no_reader s c) ->
          forall c, (c < length (gv s'))%nat -> flagged s' c /\ no_reader s' c) as Hall.
  { intros H c Hc. rewrite Hg in Hc. destruct (H c Hc). split; [by apply Hf|by apply Hno]. }
  destruct (at_ u); simpl in *; auto; try (by intros x; rewrite <- (Hf x)).
  1: { destruct Hv as [H1 H2]. rewrite Hg. split; [intros c Hc; by apply Hf, H1|].
       intros Hn. destruct Hp as [Hp|[_ Hp]]; [by apply Hp, H2, Hw|congruence]. }
  all: by apply Hnf.
Qed.

Lemma pressure_mono s s' i t t' :
  threads s !! i = Some t -> threads s' = <[i := t']> (threads s) -> same_flags s s' ->
  (presses s t -> presses s' t' \/ exists j u, j <> i /\ threads s !! j = Some u /\ presses s u) ->
  pressure s -> pressure s'.
Proof.
  intros Et Hts Hf Hi (j & u & Eu & Hu).
  assert (forall j u, j <> i -> threads s !! j = Some u -> presses s u -> pressure s') as Hother.
  { intros k x Hk Ex Hx. exists k, x. rewrite Hts, list_lookup_insert_ne by done. split; [done|].
    destruct Hx as [Hx|(c & Hc & Hfc)]; [by left|]. right. exists c. by rewrite <- (Hf c). }
  destruct (decide (j = i)) as [->|Hne]; [|by apply (Hother j u)].
  simplify_eq. destruct (Hi Hu) as [H|(k & x & Hk & Ex & Hx)]; [|by apply (Hother k x)].
  exists i, t'. rewrite Hts. split; [|done]. apply list_lookup_insert_eq. by eapply lookup_lt_Some.
Qed.

Lemma view_triv s p : in_rlock p = false -> view s p.
Proof. by destruct p. Qed.

Lemma count_same c ts i t t' :
  ts !! i = Some t -> counted c t' = counted c t -> count c (<[i := t']> ts) = count c ts.
Proof. intros Et Hc. pose proof (count_insert c ts i t t' Et). lia. Qed.

Lemma waiting_insert s i t t' :
  inv s -> threads s !! i = Some t -> at_ t <> WR_asleep ->
  waiting s = [] \/
  exists j u, waiting s = [j] /\ <[i := t']> (threads s) !! j = Some u /\ at_ u = WR_asleep.
Proof.
  intros Hs Et Hn. destruct (inv_waiting s Hs) as [|(j & u & Hw & Eu & Hu)]; [by left|right].
  exists j, u. split; [done|]. split; [|done]. rewrite list_lookup_insert_ne; [done|].
  intros ->. simplify_eq.
Qed.

(** A step that leaves the counters and [nca_dcb_readers] alone. *)
Lemma inv_plain s i t t' lk wt :
  inv s -> threads s !! i = Some t ->
  lock_moves i (lock s) lk -> in_lock (at_ t') = bool_decide (lk = Some i) ->
  in_rlock (at_ t) = false -> in_rlock (at_ t') = false ->
  (forall c, counted c t' = counted c t) ->
  pc_ok (length (gv s)) (at_ t') -> Forall (job_ok (length (gv s))) (jobs t') ->
  (wt = waiting s \/ wt = []) -> (forall c, reads c t' -> reads c t) ->
  ((signals t -> signals t') \/ (lock s = Some i /\ wt = [])) ->
  inv (Dcb (gv s) lk (rlock s) wt (<[i := t']> (threads s))).
Proof.
  intros Hs Et Hl Hil Hir Hir' Hc Hpc Hj Hw Hrd Hsig.
  pose proof (inv_rlock s Hs i t Et) as Hri. rewrite Hir in Hri.
  apply (inv_move s i t); try done.
  - by left.
  - by rewrite Hir', <- Hri.
  - destruct Hw as [->| ->]; [|by left]. apply (waiting_insert s i t t' Hs Et). by intros E; rewrite E in Hir.
  - intros c v Hv. simpl. rewrite (count_same c _ i t) by done. by apply (inv_count s Hs).
  - by apply view_triv.
  - intros j u Hne Eu. eapply (others_stable s _ i t t' j u); try done; simpl.
    + intros c _. apply Hrd.
    + destruct Hw as [->| ->]; done.
    + destruct Hsig as [Hsig|[? ->]]; [left|by right].
      apply (pressure_mono s _ i t t'); [done|done|done|].
      intros [Hp|(c & Hp & Hfc)]; left; [left; by apply Hsig|right; exists c; by rewrite Hc].
  - apply (inv_free s Hs).
Qed.

Lemma count_small s c : inv s -> Z.of_nat (count c (threads s)) < 2 ^ 30.
Proof. intros Hs. pose proof (count_le c (threads s)). pose proof (proj1 (inv_small s Hs)). lia. Qed.

Lemma flagged_word s c k b :
  gv s !! c = Some (word k b) -> Z.of_nat k < 2 ^ 30 -> (flagged s c <-> b = true).
Proof.
  intros E Hk. rewrite <- (word_flag k Hk b). split.
  - intros (v & Ev & Hv). by simplify_eq.
  - intros Hv. by exists (word k b).
Qed.

Lemma flagged_insert s s' c v v' :
  gv s' = <[c := v']> (gv s) -> gv s !! c = Some v -> (2 ^ 31 <= v <-> 2 ^ 31 <= v') -> same_flags s s'.
Proof.
  intros Hg Ev Hv x. unfold flagged. rewrite Hg. destruct (decide (x = c)) as [->|Hne].
  - rewrite list_lookup_insert_eq by (by eapply lookup_lt_Some). rewrite Ev.
    split; intros (w & [= <-] & Hw); eexists; (split; [done|]); by apply Hv.
  - by rewrite list_lookup_insert_ne.
Qed.

(** The counters after a thread has gone from [t] to [t'] on CPU [c]. *)
Lemma dcb_counts_insert s i t t' c b b' :
  inv s -> threads s !! i = Some t -> gv s !! c = Some (word (count c (threads s)) b) ->
  (forall c', c' <> c -> counted c' t' = counted c' t) ->
  forall c' v, <[c := word (count c (<[i := t']> (threads s))) b']> (gv s) !! c' = Some v ->
  exists b, v = word (count c' (<[i := t']> (threads s))) b.
Proof.
  intros Hs Et Ec Hc c' v E. apply list_lookup_insert_Some in E as [(<- & <- & _)|[Hne E]]; [by exists b'|].
  rewrite (count_same c' _ i t) by auto. by apply (inv_count s Hs).
Qed.

(** A reader is counted or stops being counted on CPU [c]. *)
Lemma inv_counter s i t t' c b :
  let s' := Dcb (<[c := word (count c (<[i := t']> (threads s))) b]> (gv s)) (lock s) (rlock s) (waiting s)
              (<[i := t']> (threads s)) in
  inv s -> threads s !! i = Some t -> gv s !! c = Some (word (count c (threads s)) b) ->
  in_lock (at_ t') = in_lock (at_ t) -> in_rlock (at_ t) = false -> in_rlock (at_ t') = false ->
  (forall c', c' <> c -> counted c' t' = counted c' t) ->
  pc_ok (length (gv s)) (at_ t') -> Forall (job_ok (length (gv s))) (jobs t') ->
  (forall x, flagged s x -> reads x t' -> reads x t) ->
  (presses s t -> presses s' t' \/ exists j u, j <> i /\ threads s !! j = Some u /\ presses s u) ->
  inv s'.
Proof.
  intros s' Hs Et Ec Hil Hir Hir' Hc Hpc Hj Hrd Hp.
  pose proof (inv_rlock s Hs i t Et) as Hri. rewrite Hir in Hri.
  assert (Z.of_nat (count c (<[i := t']> (threads s))) < 2 ^ 30) as Hk'.
  { pose proof (count_le c (<[i := t']> (threads s))) as Hle. rewrite length_insert in Hle.
    pose proof (proj1 (inv_small s Hs)). lia. }
  assert (same_flags s s') as Hf.
  { eapply flagged_insert; [done|done|]. by rewrite (word_flag _ (count_small s c Hs)), (word_flag _ Hk'). }
  apply (inv_move s i t); try done; rewrite ?length_insert; try done.
  - by left.
  - rewrite Hil. by apply (inv_lock s Hs).
  - by left.
  - by rewrite Hir', <- Hri.
  - apply (waiting_insert s i t t' Hs Et). by intros E; rewrite E in Hir.
  - by apply (dcb_counts_insert s i t t' c b).
  - by apply view_triv.
  - intros j u Hne Eu. eapply (others_stable s s' i t t' j u); try done; simpl; [by rewrite length_insert|].
    left. by apply (pressure_mono s s' i t t').
  - intros Hn x Hx. apply (inv_free s Hs Hn x). by apply (Hf x).
Qed.

(** *** Readers *)
Lemma last_decrement s i t t' c b :
  inv s -> threads s !! i = Some t -> gv s !! c = Some (word (count c (threads s)) b) ->
  counted c t = 1%nat -> counted c t' = 0%nat ->
  u32 (word (count c (threads s)) b - 1) = word (count c (<[i := t']> (threads s))) b /\
  (word (count c (<[i := t']> (threads s))) b =? DCB_COUNT_USELOCK)
  = b && (count c (<[i := t']> (threads s)) =? 0)%nat.
Proof.
  intros Hs Et Ec H1 H0. pose proof (count_small s c Hs). pose proof (count_insert c _ i t t' Et).
  rewrite word_decr by lia. split; [f_equal; lia|]. apply word_last. lia.
Qed.

(** A thread that leaves a flagged counter is the last, and signals, or leaves
    another one behind. *)
Lemma pressure_left s s' i t t' c b :
  inv s -> threads s !! i = Some t -> gv s !! c = Some (word (count c (threads s)) b) ->
  (forall x, counted x t = if (x =? c)%nat then 1%nat else 0%nat) -> counted c t' = 0%nat -> ~ signals t ->
  (b = true -> count c (<[i := t']> (threads s)) = 0%nat -> signals t') ->
  presses s t -> presses s' t' \/ exists j u, j <> i /\ threads s !! j = Some u /\ presses s u.
Proof.
  intros Hs Et Ec H1 H0 Hn Hlast [?|(x & Hx & Hf)]; [done|].
  rewrite H1 in Hx. destruct (Nat.eqb x c) eqn:Exc; [apply Nat.eqb_eq in Exc; subst x|done].
  apply (flagged_word s c _ b Ec (count_small s c Hs)) in Hf as ->.
  destruct (decide (count c (<[i := t']> (threads s)) = 0%nat)) as [E|E].
  - left. left. by apply Hlast.
  - right. destruct (count_pos c (<[i := t']> (threads s))) as (j & u & Eu & Hu); [lia|].
    apply list_lookup_insert_Some in Eu as [(<- & <- & _)|[Hne Eu]]; [by rewrite H0 in Hu|].
    exists j, u. split; [done|]. split; [done|]. right. exists c. split; [done|].
    by apply (flagged_word s c _ true Ec (count_small s c Hs)).
Qed.

Lemma goto_spec i p s t s' :
  threads s !! i = Some t -> goto i p s = Some s' ->
  s' = Dcb (gv s) (lock s) (rlock s) (waiting s) (<[i := Thread p (jobs t)]> (threads s)).
Proof. unfold goto. intros ->. simpl. by intros [= <-]. Qed.

Lemma enter_lock_spec i s s' : enter_lock i s = Some s' -> lock s = None /\ s' = set_lock s (Some i).
Proof. unfold enter_lock. destruct (lock s); [done|]. by intros [= <-]. Qed.

Lemma enter_rlock_spec i s s' : enter_rlock i s = Some s' -> rlock s = None /\ s' = set_rlock s (Some i).
Proof. unfold enter_rlock. destruct (rlock s); [done|]. by intros [= <-]. Qed.

Lemma waiting_tail s : inv s -> tail (waiting s) = [].
Proof. intros Hs. by destruct (inv_waiting s Hs) as [->|(? & ? & -> & _)]. Qed.

(** [plain]: a step of thread [t] at a known pc that changes at most the mutex or
    the sleepers. *)
Ltac plain Hs Et :=
  eapply (inv_plain _ _ _ _ _ _ Hs Et); simpl;
  [ unfold lock_moves; tauto
  | rewrite ?bool_decide_eq_true_2, ?bool_decide_eq_false_2 by congruence; done
  | done | done | intros ?; reflexivity
  | done | done
  | solve [tauto | left; congruence]
  | intros ? [?|?]; simplify_eq/=; done
  | try (left; done); try (right; done) ].

(** The facts about thread [t] at [p] that the steps use. *)
Lemma thread_facts s i p js :
  inv s -> threads s !! i = Some (Thread p js) ->
  pc_ok (length (gv s)) p /\ Forall (job_ok (length (gv s))) js /\
  (in_lock p = true -> lock s = Some i) /\ (in_lock p = false -> lock s <> Some i) /\
  (in_rlock p = true -> rlock s = Some i).
Proof.
  intros Hs Et. destruct (inv_pc s Hs i _ Et). split; [done|]. split; [done|].
  pose proof (inv_lock s Hs i _ Et) as Hl. pose proof (inv_rlock s Hs i _ Et) as Hr. simpl in Hl, Hr.
  split_and!; intros Hp; rewrite Hp in *.
  - by apply (bool_decide_eq_true (lock s = Some i)).
  - by apply (bool_decide_eq_false (lock s = Some i)).
  - by apply (bool_decide_eq_true (rlock s = Some i)).
Qed.

Lemma counter_at s c : inv s -> (c < length (gv s))%nat ->
  exists b, gv s !! c = Some (word (count c (threads s)) b).
Proof.
  intros Hs Hc. destruct (lookup_lt_is_Some_2 (gv s) c Hc) as [v Ev].
  destruct (inv_count s Hs c v Ev) as [b ->]. by exists b.
Qed.

Lemma rd_add_inv s i c js s' :
  inv s -> threads s !! i = Some (Thread (RD_add c) js) ->
  DCB_RD_ENTER i s (RD_add c) = Some s' -> inv s'.
Proof.
  intros Hs Et. destruct (thread_facts s i _ _ Hs Et) as (Hpc & Hj & _ & Hnl & _).
  destruct (counter_at s c Hs Hpc) as [b Ec]. unfold DCB_RD_ENTER. rewrite Ec. simpl.
  pose proof (count_small s c Hs) as Hk. rewrite word_incr by done.
  assert (forall t', at_ t' = (if b then RD_lock c else Reading c) -> jobs t' = js ->
    count c (<[i := t']> (threads s)) = S (count c (threads s))) as Hcount.
  { intros t' Ht _. pose proof (count_insert c _ i _ t' Et) as H. unfold counted in H at 1. simpl in H.
    assert (counted c t' = 1%nat); [|lia]. unfold counted. rewrite Ht. destruct b; by rewrite Nat.eqb_refl. }
  assert (Z.of_nat (S (count c (threads s))) < 2 ^ 30) as Hk'.
  { rewrite <- (Hcount (Thread (if b then RD_lock c else Reading c) js)) by done.
    pose proof (count_le c (<[i := Thread (if b then RD_lock c else Reading c) js]> (threads s))) as Hle.
    rewrite length_insert in Hle. pose proof (proj1 (inv_small s Hs)). lia. }
  rewrite (uselock_word _ Hk').
  intros E. apply (goto_spec i _ (set_gv s c _) (Thread (RD_add c) js)) in E; [|done]. subst s'. simpl.
  rewrite <- (Hcount (Thread (if b then RD_lock c else Reading c) js)) by done.
  eapply inv_counter; try done; simpl; try (by destruct b).
  - intros c' Hne. unfold counted. destruct b; simpl; by rewrite (proj2 (Nat.eqb_neq c' c)).
  - intros x Hx [H|H]; destruct b; simplify_eq/=.
    by apply (flagged_word s x _ false Ec Hk) in Hx.
  - intros [[]|(x & H & _)]. done.
Qed.

(** The decrement of a reader, on its way to the mutex or out. *)
Lemma decrement_inv s i p p' c js b :
  (p = RD_sub c /\ (forall last : bool, p' last = if last then RD_waiters c else RD_unlock c)) \/
  (p = RX_sub c /\ (forall last : bool, p' last = if last then RX_lock else Idle)) ->
  inv s -> threads s !! i = Some (Thread p js) -> gv s !! c = Some (word (count c (threads s)) b) ->
  let nv := u32 (word (count c (threads s)) b - 1) in
  let t' := Thread (p' (nv =? DCB_COUNT_USELOCK)) js in
  inv (Dcb (<[c := nv]> (gv s)) (lock s) (rlock s) (waiting s) (<[i := t']> (threads s))).
Proof.
  intros Hp Hs Et Ec nv t'. destruct (thread_facts s i _ _ Hs Et) as (Hpc & Hj & Hl & Hnl & _).
  assert (forall x last, counted x (Thread p js) = (if (x =? c)%nat then 1%nat else 0%nat) /\
    counted x (Thread (p' last) js) = 0%nat) as Hcnt.
  { intros x last. unfold counted. destruct Hp as [[-> Hp]|[-> Hp]]; simpl; rewrite Hp; by destruct last. }
  assert (counted c (Thread p js) = 1%nat) as H1
    by (by rewrite (proj1 (Hcnt c true)), Nat.eqb_refl).
  destruct (last_decrement s i _ t' c b Hs Et Ec H1 (proj2 (Hcnt _ _))) as [Env Elast].
  fold nv in Env. rewrite <- Env in Elast. subst t'.
  remember (nv =? DCB_COUNT_USELOCK) as last eqn:El. clear El. rewrite Env.
  apply (inv_counter s i (Thread p js) (Thread (p' last) js) c b); try done; simpl.
  - destruct Hp as [[-> Hp]|[-> Hp]]; rewrite Hp; by destruct last.
  - by destruct Hp as [[-> Hp]|[-> Hp]].
  - destruct Hp as [[-> Hp]|[-> Hp]]; rewrite Hp; by destruct last.
  - intros x Hx. rewrite (proj2 (Hcnt _ _)), (proj1 (Hcnt x true)). by rewrite (proj2 (Nat.eqb_neq x c)).
  - destruct Hp as [[-> Hp]|[-> Hp]]; rewrite Hp; by destruct last.
  - intros x _ [H|H]; simpl in H; destruct Hp as [[-> Hp]|[-> Hp]]; rewrite Hp in H; by destruct last.
  - apply (pressure_left s _ i _ _ c b); try done.
    + intros x. apply (Hcnt x true).
    + apply Hcnt.
    + destruct Hp as [[-> Hp]|[-> Hp]]; intros [].
    + intros -> H0. rewrite H0 in Elast. simpl in Elast. subst last. unfold signals. simpl.
      destruct Hp as [[-> Hp]|[-> Hp]]; by rewrite Hp.
Qed.

Lemma rd_enter_inv s i p js s' :
  inv s -> threads s !! i = Some (Thread p js) -> DCB_RD_ENTER i s p = Some s' ->
  in_rlock p = false -> (forall c, p <> RD_block c) -> inv s'.
Proof.
  intros Hs Et E Hr Hb. destruct (thread_facts s i _ _ Hs Et) as (Hpc & Hj & Hl & Hnl & _).
  destruct p as [|c|c|c|c|c|c|c| | | | | | | | | | | | | | | | | | | | |]; try done; simpl in E.
  - by eapply rd_add_inv.
  - destruct (enter_lock i s) as [s1|] eqn:E1; [|done]. apply enter_lock_spec in E1 as [Hn ->]. simpl in E.
    apply (goto_spec i _ (set_lock s (Some i)) _ _ Et) in E as ->. plain Hs Et.
  - destruct (counter_at s c Hs Hpc) as [b Ec]. rewrite Ec in E. simpl in E.
    apply (goto_spec i _ (set_gv s c _) _ _ Et) in E as ->.
    by apply (decrement_inv s i (RD_sub c) (fun last : bool => if last then RD_waiters c else RD_unlock c) c js b);
      [left|..].
  - specialize (Hl eq_refl). apply (goto_spec i _ s _ _ Et) in E as ->. unfold CV_HAS_WAITERS.
    destruct (waiting s) eqn:Ew; plain Hs Et.
  - specialize (Hl eq_refl). apply (goto_spec i _ (cv_signal s) _ _ Et) in E as ->. simpl.
    rewrite (waiting_tail s Hs). plain Hs Et.
  - specialize (Hl eq_refl). apply (goto_spec i _ (exit_lock s) _ _ Et) in E as ->. plain Hs Et.
  - by destruct (Hb c).
Qed.

Lemma rd_exit_inv s i p js s' :
  inv s -> threads s !! i = Some (Thread p js) -> DCB_RD_EXIT i s p = Some s' -> inv s'.
Proof.
  intros Hs Et E. destruct (thread_facts s i _ _ Hs Et) as (Hpc & Hj & Hl & Hnl & _).
  destruct p as [| | | | | | | | | |c| | | | | | | | | | | | | | | | | |]; try done; simpl in E.
  - destruct (counter_at s c Hs Hpc) as [b Ec]. rewrite Ec in E. simpl in E.
    apply (goto_spec i _ (set_gv s c _) _ _ Et) in E as ->.
    by apply (decrement_inv s i (RX_sub c) (fun last : bool => if last then RX_lock else Idle) c js b);
      [right|..].
  - destruct (enter_lock i s) as [s1|] eqn:E1; [|done]. apply enter_lock_spec in E1 as [Hn ->]. simpl in E.
    apply (goto_spec i _ (set_lock s (Some i)) _ _ Et) in E as ->. plain Hs Et.
  - specialize (Hl eq_refl). apply (goto_spec i _ s _ _ Et) in E as ->. unfold CV_HAS_WAITERS.
    destruct (waiting s) eqn:Ew; plain Hs Et.
  - specialize (Hl eq_refl). apply (goto_spec i _ (cv_signal s) _ _ Et) in E as ->. simpl.
    rewrite (waiting_tail s Hs). plain Hs Et.
  - specialize (Hl eq_refl). apply (goto_spec i _ (exit_lock s) _ _ Et) in E as ->. plain Hs Et.
Qed.

(** *** The holder of [nca_dcb_readers] *)
Lemma uncounted_counts s i t t' :
  inv s -> threads s !! i = Some t -> (forall c, counted c t' = counted c t) ->
  forall c v, gv s !! c = Some v -> exists b, v = word (count c (<[i := t']> (threads s))) b.
Proof. intros Hs Et Hc c v Hv. rewrite (count_same c _ i t) by done. by apply (inv_count s Hs). Qed.

(** A step that has or takes [nca_dcb_readers] and leaves the counters alone. *)
Lemma inv_own s i t t' lk rl :
  let s' := Dcb (gv s) lk rl (waiting s) (<[i := t']> (threads s)) in
  inv s -> threads s !! i = Some t -> rlock s = None \/ rlock s = Some i -> at_ t <> WR_asleep ->
  lock_moves i (lock s) lk -> in_lock (at_ t') = bool_decide (lk = Some i) ->
  lock_moves i (rlock s) rl -> in_rlock (at_ t') = bool_decide (rl = Some i) ->
  (forall c, counted c t' = counted c t) -> jobs t' = jobs t ->
  pc_ok (length (gv s)) (at_ t') -> view s' (at_ t') -> (rl = None -> forall c, ~ flagged s c) ->
  inv s'.
Proof.
  intros s' Hs Et Hr Hn Hl Hil Hrl Hir Hc Hjs Hpc Hv Hf.
  apply (inv_move s i t); try done; simpl.
  - rewrite Hjs. by apply (inv_pc s Hs i).
  - by apply (waiting_insert s i t t' Hs Et).
  - by apply (uncounted_counts s i t t').
  - intros j u Hne Eu. by apply (others_outside s s' i j u).
Qed.

Ltac own Hs Et :=
  eapply (inv_own _ _ _ _ _ _ Hs Et); simpl;
  [ tauto | done
  | unfold lock_moves; tauto
  | rewrite ?bool_decide_eq_true_2, ?bool_decide_eq_false_2 by congruence; done
  | unfold lock_moves; tauto
  | rewrite ?bool_decide_eq_true_2, ?bool_decide_eq_false_2 by congruence; done
  | intros ?; reflexivity | done | try done | | try (by intros ?; congruence) ].

(** A thread outside of the counters that goes on keeps what was scanned. *)
Lemma scanned_insert s s' i t t' cpu r :
  threads s !! i = Some t -> threads s' = <[i := t']> (threads s) -> gv s' = gv s ->
  ~ presses s t -> (forall c, ~ reads c t') -> scanned s cpu r -> scanned s' cpu r.
Proof.
  intros Et Hts Hg Hp Hr (H1 & H2 & H3 & H4).
  assert (same_flags s s') as Hf by (intros c; unfold flagged; by rewrite Hg).
  unfold scanned. rewrite Hts, length_insert. split_and!; [lia|lia| | |].
  - intros c Hc. by apply Hf, H2.
  - intros H0 c Hc. eapply no_reader_insert; [done|done| |by apply H3]. intros H. by destruct (Hr c).
  - intros H0. apply (pressure_mono s s' i t t'); auto. done.
Qed.

(** The flag of the next CPU is set and its readers are added. *)
Lemma scanned_next s cpu r :
  flagged s cpu -> scanned s cpu r -> scanned s (S cpu) (r + Z.of_nat (count cpu (threads s))).
Proof.
  intros Hf (H1 & H2 & H3 & H4). pose proof (count_le cpu (threads s)) as Hle.
  unfold scanned. split_and!; [lia|lia| | |].
  - intros c Hc. destruct (decide (c = cpu)) as [->|]; [done|]. apply H2. lia.
  - intros H0 c Hc. destruct (decide (c = cpu)) as [->|]; [|apply H3; lia].
    intros j u Eu Hu. pose proof (sum_le (counted cpu) _ _ _ Eu) as Hs.
    assert (counted cpu u = 1%nat); [|unfold count in *; lia].
    unfold counted. destruct Hu as [-> | ->]; by rewrite Nat.eqb_refl.
  - intros H0. destruct (decide (r = 0)) as [->|Hr]; [|by apply H4].
    destruct (count_pos cpu (threads s)) as (j & u & Eu & Hu); [lia|].
    exists j, u. split; [done|]. right. by exists cpu.
Qed.

(** More flags, the same threads. *)
Lemma scanned_flags s s' cpu r :
  threads s' = threads s -> (forall c, flagged s c -> flagged s' c) -> scanned s cpu r -> scanned s' cpu r.
Proof.
  intros Hts Hf (H1 & H2 & H3 & H4). unfold scanned, no_reader, pressure. rewrite Hts.
  split_and!; [lia|lia| | |].
  - intros c Hc. by apply Hf, H2.
  - done.
  - intros H0. destruct (H4 H0) as (j & u & Eu & [Hu|(c & Hc & Hfc)]); exists j, u; (split; [done|]).
    + by left.
    + right. exists c. auto.
Qed.

Lemma sum_int s cpu r :
  inv s -> (cpu < length (gv s))%nat -> scanned s cpu r ->
  s32 (r + Z.of_nat (count cpu (threads s))) = r + Z.of_nat (count cpu (threads s)).
Proof.
  intros Hs Hc (H1 & _). destruct (inv_small s Hs) as [_ Hsm]. pose proof (count_le cpu (threads s)).
  apply wraps_id; [lia|]. nia.
Qed.

Lemma holder_quiet s p js : in_rlock p = true ->
  ~ presses s (Thread p js) /\ (forall c, ~ reads c (Thread p js)) /\ (forall c, counted c (Thread p js) = 0%nat).
Proof.
  intros Hp. split_and!.
  - intros [H|(c & H & _)]; destruct p; done.
  - intros c [H|H]; simpl in H; subst p; done.
  - intros c. destruct p; done.
Qed.

(** The counter of CPU [cpu] is rewritten by the holder, which goes to [p']. *)
Lemma inv_flag s i p p' js cpu b b' :
  let s' := Dcb (<[cpu := word (count cpu (threads s)) b']> (gv s)) (lock s) (rlock s) (waiting s)
              (<[i := Thread p' js]> (threads s)) in
  inv s -> threads s !! i = Some (Thread p js) -> gv s !! cpu = Some (word (count cpu (threads s)) b) ->
  in_lock p = true -> in_lock p' = true -> in_rlock p = true -> in_rlock p' = true ->
  pc_ok (length (gv s)) p' -> view s' p' -> inv s'.
Proof.
  intros s' Hs Et Ec Hil Hil' Hir Hir' Hpc Hv.
  destruct (thread_facts s i _ _ Hs Et) as (_ & Hj & Hl & _ & Hr). specialize (Hl Hil). specialize (Hr Hir).
  assert (forall c, counted c (Thread p' js) = counted c (Thread p js)) as Hcnt.
  { intros c. destruct (holder_quiet s p js Hir) as (_ & _ & ->).
    by destruct (holder_quiet s p' js Hir') as (_ & _ & ->). }
  apply (inv_move s i (Thread p js)); try done; simpl; rewrite ?length_insert; try done.
  - by left.
  - by rewrite Hil', bool_decide_eq_true_2.
  - by left.
  - by rewrite Hir', bool_decide_eq_true_2.
  - apply (waiting_insert s i (Thread p js) _ Hs Et). intros E. simpl in E. by subst p.
  - intros c v E. pose proof (dcb_counts_insert s i (Thread p js) (Thread p' js) cpu b b' Hs Et Ec
      (fun c _ => Hcnt c) c v) as H. rewrite (count_same cpu _ i (Thread p js)) in H by done. auto.
  - intros j u Hne Eu. apply (others_outside s s' i j u); auto.
  - intros E. congruence.
Qed.

Lemma flag_set s c k lk rl wt ts :
  Z.of_nat k < 2 ^ 30 -> is_Some (gv s !! c) ->
  let s' := Dcb (<[c := word k true]> (gv s)) lk rl wt ts in
  flagged s' c /\ forall x, flagged s x -> flagged s' x.
Proof.
  intros Hk [v Ev] s'. assert (flagged s' c) as Hc.
  { exists (word k true). simpl. split; [|by apply word_flag]. apply list_lookup_insert_eq. by eapply lookup_lt_Some. }
  split; [done|]. intros x (w & Ew & Hw). destruct (decide (x = c)) as [->|Hne]; [done|].
  exists w. simpl. by rewrite list_lookup_insert_ne.
Qed.

Lemma flag_cleared s c k lk rl wt ts x :
  Z.of_nat k < 2 ^ 30 -> is_Some (gv s !! c) ->
  flagged (Dcb (<[c := word k false]> (gv s)) lk rl wt ts) x -> x <> c /\ flagged s x.
Proof.
  intros Hk [v Ev] (w & Ew & Hw). simpl in Ew.
  apply list_lookup_insert_Some in Ew as [(<- & <- & _)|[Hne Ew]].
  - by apply (word_flag k Hk false) in Hw.
  - split; [done|]. by exists w.
Qed.

(** The writer scans the counter of the next CPU. *)
Lemma wr_load_inv s i js cpu r s' :
  inv s -> threads s !! i = Some (Thread (WR_load cpu r) js) ->
  DCB_WR_ENTER i s (WR_load cpu r) = Some s' -> inv s'.
Proof.
  intros Hs Et E. destruct (thread_facts s i _ _ Hs Et) as (Hpc & Hj & Hl & _ & Hr).
  specialize (Hl eq_refl). specialize (Hr eq_refl). simpl in E, Hpc.
  pose proof (inv_view s Hs i _ Et) as Hscan. simpl in Hscan.
  destruct (holder_quiet s (WR_load cpu r) js eq_refl) as (Hq & _ & _).
  destruct (gv s !! cpu) as [v|] eqn:Ec.
  - destruct (inv_count s Hs cpu v Ec) as [b ->]. pose proof (count_small s cpu Hs) as Hk.
    pose proof (lookup_lt_Some _ _ _ Ec) as Hlt.
    rewrite (uselock_word _ Hk) in E. destruct b; apply (goto_spec i _ s _ _ Et) in E as ->.
    + rewrite (mask_word _ Hk), (sum_int s) by done. own Hs Et.
      eapply (scanned_insert s _ i _ _ _ _ Et); [done|done|done|by intros ? [|]|].
      apply scanned_next; [|done]. by apply (flagged_word s cpu _ true Ec Hk).
    + own Hs Et. eapply (scanned_insert s _ i _ _ _ _ Et); [done|done|done|by intros ? [|]|done].
  - apply lookup_ge_None in Ec. assert (cpu = length (gv s)) as -> by lia.
    destruct Hscan as (_ & H2 & H3 & H4). destruct (Z.eqb_spec r 0) as [->|Hne].
    + apply (goto_spec i _ s _ _ Et) in E as ->. own Hs Et.
      intros c Hc. split; [by apply (H2 c)|].
      eapply no_reader_insert; [exact Et|done| |by apply H3]. by intros [|].
    + apply (goto_spec i _ (set_waiting (exit_lock s) _) _ _ Et) in E as ->. simpl.
      assert (waiting s = []) as ->.
      { destruct (inv_waiting s Hs) as [|(j & u & _ & Eu & Hu)]; [done|].
        pose proof (inv_rlock s Hs j u Eu) as Hj'. rewrite Hu in Hj'. symmetry in Hj'.
        apply (bool_decide_eq_true (rlock s = Some j)) in Hj'. by simplify_eq. }
      eapply (inv_move s i _ _ _ _ _ _ Hs Et); simpl; try done; try (by unfold lock_moves; tauto).
      * by rewrite bool_decide_eq_true_2.
      * right. exists i, (Thread WR_asleep js). split; [done|]. split; [|done]. apply list_lookup_insert_eq. by eapply lookup_lt_Some.
      * by apply (uncounted_counts s i _ _ Hs Et).
      * split; [intros c Hc; by apply (H2 c)|]. intros _.
        apply (pressure_mono s _ i _ (Thread WR_asleep js) Et); [done|done|done|by apply H4].
      * intros j u Hj' Eu. by apply (others_outside s _ i j u Hs (or_intror Hr)).
      * congruence.
Qed.

(** The writer sets the flag of CPU [cpu], or finds that the counter has changed. *)
Lemma wr_cas_inv s i js cpu r old s' :
  inv s -> threads s !! i = Some (Thread (WR_cas cpu r old) js) ->
  DCB_WR_ENTER i s (WR_cas cpu r old) = Some s' -> inv s'.
Proof.
  intros Hs Et E. destruct (thread_facts s i _ _ Hs Et) as (Hpc & Hj & Hl & _ & Hr).
  specialize (Hl eq_refl). specialize (Hr eq_refl). cbn [DCB_WR_ENTER] in E.
  pose proof (inv_view s Hs i _ Et) as Hv. simpl in Hv.
  destruct (counter_at s cpu Hs Hpc) as [b Ec]. rewrite Ec in E. simpl in E.
  pose proof (count_small s cpu Hs) as Hk. simpl in Hpc.
  destruct (Z.eqb_spec (word (count cpu (threads s)) b) old) as [<-|Hne].
  - apply (goto_spec i _ (set_gv s cpu _) _ _ Et) in E as ->. simpl.
    rewrite (word_set _ Hk), (mask_word _ Hk), (sum_int s) by done.
    eapply (inv_flag s i _ _ js cpu b true Hs Et Ec); try done. cbn [view].
    destruct (flag_set s cpu (count cpu (threads s)) (lock s) (rlock s) (waiting s) (threads s) Hk (mk_is_Some _ _ Ec))
      as [Hfc Hfm].
    destruct (holder_quiet (set_gv s cpu (word (count cpu (threads s)) true))
      (WR_cas cpu r (word (count cpu (threads s)) b)) js eq_refl) as (Hq & _ & _).
    eapply (scanned_insert (set_gv s cpu (word (count cpu (threads s)) true)) _ i _ _ _ _ Et);
      [done|done|done|by intros ? [|]|].
    apply (scanned_next (set_gv s cpu (word (count cpu (threads s)) true))); [done|].
    by apply (scanned_flags s).
  - apply (goto_spec i _ s _ _ Et) in E as ->. own Hs Et.
    destruct (holder_quiet s (WR_cas cpu r old) js eq_refl) as (Hq & _ & _).
    eapply (scanned_insert s _ i _ _ _ _ Et); [done|done|done|by intros ? [|]|done].
Qed.

(** The writer has been woken and takes the mutex again. *)
Lemma wr_wake_inv s i js s' :
  inv s -> threads s !! i = Some (Thread WR_asleep js) -> DCB_WR_ENTER i s WR_asleep = Some s' -> inv s'.
Proof.
  intros Hs Et E. destruct (thread_facts s i _ _ Hs Et) as (Hpc & Hj & _ & _ & Hr).
  specialize (Hr eq_refl). cbn [DCB_WR_ENTER] in E.
  case_bool_decide as Hw; [done|].
  destruct (enter_lock i s) as [s1|] eqn:E1; [|done]. apply enter_lock_spec in E1 as [Hn ->]. simpl in E.
  apply (goto_spec i _ (set_lock s (Some i)) _ _ Et) in E as ->. simpl.
  assert (waiting s = []) as Hw0.
  { destruct (inv_waiting s Hs) as [|(j & u & Hj' & Eu & Hu)]; [done|].
    pose proof (inv_rlock s Hs j u Eu) as Hrj. rewrite Hu in Hrj. symmetry in Hrj.
    apply (bool_decide_eq_true (rlock s = Some j)) in Hrj. simplify_eq. rewrite Hj' in Hw. by destruct Hw; left. }
  eapply (inv_move s i _ _ _ _ _ _ Hs Et); simpl; try done; try (by unfold lock_moves; tauto); try lia.
  - by rewrite bool_decide_eq_true_2.
  - by rewrite bool_decide_eq_true_2.
  - by apply (uncounted_counts s i _ _ Hs Et).
  - unfold scanned. split_and!; [lia|lia| | |]; intros; lia.
  - intros j u Hj' Eu. by apply (others_outside s _ i j u Hs (or_intror Hr)).
  - congruence.
Qed.

Lemma wr_enter_inv s i p js s' :
  inv s -> threads s !! i = Some (Thread p js) -> DCB_WR_ENTER i s p = Some s' -> inv s'.
Proof.
  intros Hs Et E. destruct (thread_facts s i _ _ Hs Et) as (Hpc & Hj & Hl & Hnl & Hr).
  pose proof (inv_view s Hs i _ Et) as Hv. simpl in Hv.
  destruct p as [| | | | | | | | | | | | | | | | |cpu r|cpu r old|cpu r| | | | | | | | |]; try done;
    try specialize (Hl eq_refl); try specialize (Hnl eq_refl); try specialize (Hr eq_refl); cbn [DCB_WR_ENTER] in E.
  - destruct (enter_rlock i s) as [s1|] eqn:E1; [|done]. apply enter_rlock_spec in E1 as [Hn ->]. simpl in E.
    apply (goto_spec i _ (set_rlock s (Some i)) _ _ Et) in E as ->. own Hs Et.
    apply (inv_free s Hs Hn).
  - destruct (enter_lock i s) as [s1|] eqn:E1; [|done]. apply enter_lock_spec in E1 as [Hn ->]. simpl in E.
    apply (goto_spec i _ (set_lock s (Some i)) _ _ Et) in E as ->. own Hs Et; [lia|].
    unfold scanned. split_and!; [lia|lia| | |]; intros; lia.
  - by eapply wr_load_inv.
  - by eapply wr_cas_inv.
  - destruct (counter_at s cpu Hs Hpc) as [b Ec]. rewrite Ec in E. simpl in E.
    apply (goto_spec i _ s _ _ Et) in E as ->. own Hs Et.
    destruct (holder_quiet s (WR_reload cpu r) js eq_refl) as (Hq & _ & _).
    eapply (scanned_insert s _ i _ _ _ _ Et); [done|done|done|by intros ? [|]|done].
  - by eapply wr_wake_inv.
  - apply (goto_spec i _ (exit_lock s) _ _ Et) in E as ->. own Hs Et.
    intros c Hc. destruct (Hv c Hc) as [Hf Hno]. split; [done|].
    eapply no_reader_insert; [exact Et|done| |done]. by intros [|].
Qed.

Lemma wr_exit_inv s i p js s' :
  inv s -> threads s !! i = Some (Thread p js) -> DCB_WR_EXIT i s p = Some s' -> inv s'.
Proof.
  intros Hs Et E. destruct (thread_facts s i _ _ Hs Et) as (Hpc & Hj & Hl & Hnl & Hr).
  pose proof (inv_view s Hs i _ Et) as Hv. simpl in Hv.
  destruct p as [| | | | | | | | | | | | | | | | | | | | | | | |cpu|cpu old|cpu| |]; try done;
    try specialize (Hl eq_refl); try specialize (Hnl eq_refl); try specialize (Hr eq_refl); cbn [DCB_WR_EXIT] in E.
  - destruct (enter_lock i s) as [s1|] eqn:E1; [|done]. apply enter_lock_spec in E1 as [Hn ->]. simpl in E.
    apply (goto_spec i _ (set_lock s (Some i)) _ _ Et) in E as ->. own Hs Et; [lia|]. intros; lia.
  - destruct (gv s !! cpu) as [v|] eqn:Ec; apply (goto_spec i _ s _ _ Et) in E as ->; own Hs Et.
    + by eapply lookup_lt_Some.
    + exact Hv.
    + intros c Hf. pose proof Hf as (w & Ew & _). simpl in Ew. apply (Hv c); [|done].
      apply lookup_lt_Some in Ew. apply lookup_ge_None in Ec. lia.
  - destruct (counter_at s cpu Hs Hpc) as [b Ec]. rewrite Ec in E. simpl in E.
    pose proof (count_small s cpu Hs) as Hk.
    destruct (Z.eqb_spec (word (count cpu (threads s)) b) old) as [<-|Hne].
    + apply (goto_spec i _ (set_gv s cpu _) _ _ Et) in E as ->. simpl. rewrite (word_clear _ Hk).
      eapply (inv_flag s i _ _ js cpu b false Hs Et Ec); try done. cbn [view].
      intros c Hc Hf. destruct (flag_cleared s cpu _ _ _ _ _ c Hk (mk_is_Some _ _ Ec) Hf). apply (Hv c); [lia|done].
    + apply (goto_spec i _ s _ _ Et) in E as ->. own Hs Et. exact Hv.
  - destruct (counter_at s cpu Hs Hpc) as [b Ec]. rewrite Ec in E. simpl in E.
    apply (goto_spec i _ s _ _ Et) in E as ->. own Hs Et. exact Hv.
  - apply (goto_spec i _ (exit_lock s) _ _ Et) in E as ->. own Hs Et. exact Hv.
  - apply (goto_spec i _ (exit_rlock s) _ _ Et) in E as ->. own Hs Et; [done|]. intros _. exact Hv.
Qed.

Lemma rd_block_inv s i c js s' :
  inv s -> threads s !! i = Some (Thread (RD_block c) js) -> DCB_RD_ENTER i s (RD_block c) = Some s' -> inv s'.
Proof.
  intros Hs Et E. destruct (thread_facts s i _ _ Hs Et) as (Hpc & _ & _ & Hnl & _). specialize (Hnl eq_refl).
  cbn [DCB_RD_ENTER] in E. destruct (enter_rlock i s) as [s1|] eqn:E1; [|done].
  apply enter_rlock_spec in E1 as [Hn ->]. simpl in E.
  apply (goto_spec i _ (set_rlock s (Some i)) _ _ Et) in E as ->. own Hs Et. apply (inv_free s Hs Hn).
Qed.

Lemma rd_unblock_inv s i c js s' :
  inv s -> threads s !! i = Some (Thread (RD_unblock c) js) -> DCB_RD_ENTER i s (RD_unblock c) = Some s' -> inv s'.
Proof.
  intros Hs Et E. destruct (thread_facts s i _ _ Hs Et) as (Hpc & _ & _ & Hnl & Hr).
  specialize (Hnl eq_refl). specialize (Hr eq_refl). pose proof (inv_view s Hs i _ Et) as Hv.
  apply (goto_spec i _ (exit_rlock s) _ _ Et) in E as ->. own Hs Et; [done|]. intros _. exact Hv.
Qed.

Lemma dcb_inv_step s s' : inv s -> step s s' -> inv s'.
Proof.
  intros Hs [i E]. unfold exec in E. destruct (threads s !! i) as [[p js]|] eqn:Et; [|done]. simpl in E.
  destruct (thread_facts s i _ _ Hs Et) as (Hpc & Hj & _ & Hnl & Hr).
  destruct p; try (by eapply wr_enter_inv); try (by eapply wr_exit_inv); try (by eapply rd_exit_inv);
    try (by eapply rd_block_inv); try (by eapply rd_unblock_inv); try (by eapply rd_enter_inv).
  - specialize (Hnl eq_refl). destruct js as [|j js]; [done|]. apply Forall_cons_1 in Hj as [Hj1 Hj2].
    injection E as <-. destruct j; plain Hs Et.
  - specialize (Hnl eq_refl). apply (goto_spec i _ s _ _ Et) in E as ->.
    eapply (inv_plain _ _ _ _ _ _ Hs Et); simpl; try done; try (by unfold lock_moves; tauto); try tauto.
    + by rewrite bool_decide_eq_false_2.
    + intros x [H|H]; simplify_eq/=. by left.
  - specialize (Hnl eq_refl). specialize (Hr eq_refl). pose proof (inv_view s Hs i _ Et) as Hv.
    apply (goto_spec i _ s _ _ Et) in E as ->. own Hs Et.
    intros c Hc. destruct (Hv c Hc) as [Hf Hno]. split; [done|].
    eapply no_reader_insert; [exact Et|done| |done]. by intros [|].
Qed.

Lemma dcb_inv_reach s s' : inv s -> rtc step s s' -> inv s'.
Proof. intros Hs Hr. induction Hr as [|s s1 s' H1 _ IH]; [done|]. apply IH. by eapply dcb_inv_step. Qed.

Lemma dcb_initial_inv s : initial s -> inv s.
Proof.
  intros (Hg & Hl & Hr & Hw & Ht & Hsm & Hn). rewrite Forall_lookup in Ht. rewrite Forall_lookup in Hg.
  assert (forall c, ~ flagged s c) as Hf.
  { intros c (v & Ev & Hv). rewrite (Hg c v Ev) in Hv. lia. }
  assert (forall c, count c (threads s) = 0%nat) as Hc.
  { intros c. unfold count. destruct (decide (sum_list (counted c <$> threads s) = 0%nat)) as [|Hne]; [done|].
    destruct (count_pos c (threads s)) as (j & u & Eu & Hu); [unfold count; lia|].
    destruct (Ht j u Eu) as [E _]. unfold counted in Hu. by rewrite E in Hu. }
  constructor; try done.
  - intros i t Et. destruct (Ht i t Et) as [-> _]. rewrite Hl. done.
  - intros i t Et. destruct (Ht i t Et) as [-> _]. rewrite Hr. done.
  - by rewrite Hl.
  - by rewrite Hr.
  - intros i t Et. destruct (Ht i t Et) as [-> Hj]. done.
  - by left.
  - intros c v Ev. exists false. rewrite Hc, (Hg c v Ev). done.
  - intros i t Et. destruct (Ht i t Et) as [-> _]. done.
Qed.

(** *** Progress *)
Definition wants_lock (p : pc) : Prop :=
  match p with RD_lock _ | RX_lock | WR_lock | WX_lock => True | _ => False end.
Definition wants_rlock (p : pc) : Prop := match p with RD_block _ | WR_readers => True | _ => False end.
Definition quiet (t : thread) : Prop := at_ t = Idle /\ jobs t = [].

Lemma exec_blocked s i t :
  inv s -> threads s !! i = Some t -> exec i s = None ->
  quiet t \/ (wants_lock (at_ t) /\ lock s <> None) \/ (wants_rlock (at_ t) /\ rlock s <> None) \/
  (at_ t = WR_asleep /\ (i ∈ waiting s \/ lock s <> None)).
Proof.
  intros Hs Et E. destruct t as [p js]. destruct (thread_facts s i _ _ Hs Et) as (Hpc & _).
  unfold exec in E. rewrite Et in E. simpl in E, Hpc.
  assert (forall p s0, threads s0 = threads s -> goto i p s0 <> None) as Hgo
    by (intros p0 s0 H0; unfold goto; by rewrite H0, Et).
  destruct p as [|c|c|c| | | | | | |c| | | | | | | |cpu r old|cpu r| | | | | |cpu old|cpu| |]; simpl in E;
    try (exfalso; by eapply Hgo).
  all: try (destruct (counter_at s _ Hs Hpc) as [b Ec]; rewrite Ec in E; simpl in E; try case_match; exfalso; refine (Hgo _ _ _ E); reflexivity).
  all: unfold enter_lock, enter_rlock in E; simpl.
  all: try (left; split; [done|]; by destruct js).
  all: try (right; left; split; [done|]; destruct (lock s); [done|]; simpl in E; by eapply Hgo in E).
  all: try (right; right; left; split; [done|]; destruct (rlock s); [done|]; simpl in E; by eapply Hgo in E).
  all: try (exfalso; repeat case_match; by eapply Hgo in E).
  right. right. right. split; [done|]. case_bool_decide as Hw; [by left|right].
  destruct (lock s); [done|]. simpl in E. by eapply Hgo in E.
Qed.

(** Only a thread without a job, or one that waits, has no step. *)
Lemma all_blocked s :
  inv s -> (forall i, exec i s = None) -> forall i t, threads s !! i = Some t -> quiet t.
Proof.
  intros Hs Hb.
  assert (lock s = None) as Hl.
  { destruct (lock s) as [i|] eqn:Hl; [exfalso|done]. destruct (inv_lock_in s Hs i Hl) as [t Et].
    pose proof (inv_lock s Hs i t Et) as H. rewrite bool_decide_eq_true_2 in H by done.
    destruct (exec_blocked s i t Hs Et (Hb i)) as [[E _]|[[E _]|[[E _]|[E _]]]];
      destruct (at_ t); done. }
  assert (forall j u, threads s !! j = Some u -> ~ presses s u) as Hnp.
  { intros j u Eu Hu.
    destruct (exec_blocked s j u Hs Eu (Hb j)) as [[E _]|[[E H]|[[E _]|[E _]]]]; [|by destruct H| |];
      destruct Hu as [Hu|(c & Hu & _)]; unfold signals, counted in Hu; destruct (at_ u); done. }
  assert (rlock s = None) as Hr.
  { destruct (rlock s) as [i|] eqn:Hr; [exfalso|done]. destruct (inv_rlock_in s Hs i Hr) as [t Et].
    pose proof (inv_rlock s Hs i t Et) as H. rewrite bool_decide_eq_true_2 in H by done.
    pose proof (inv_view s Hs i t Et) as Hv.
    destruct (exec_blocked s i t Hs Et (Hb i)) as [[E _]|[[E H']|[[E _]|[E Hw]]]]; [|by destruct H'| |].
    - by rewrite E in H.
    - destruct (at_ t); done.
    - rewrite E in Hv. destruct Hv as [_ Hp]. destruct Hw as [Hw|Hw]; [|by destruct Hw].
      destruct Hp as (j & u & Eu & Hu); [|by destruct (Hnp j u Eu)]. intros H0. rewrite H0 in Hw. by inversion Hw. }
  intros i t Et. destruct (exec_blocked s i t Hs Et (Hb i)) as [E|[[_ E]|[[_ E]|[E Hw]]]]; [done|by destruct E|by destruct E|].
  pose proof (inv_rlock s Hs i t Et) as H. rewrite E, Hr in H. done.
Qed.

Lemma step_or_blocked s : (exists s', step s s') \/ forall i, exec i s = None.
Proof.
  destruct (decide (Exists (fun i => is_Some (exec i s)) (seq 0 (length (threads s))))) as [H|H].
  - left. apply Exists_exists in H as (i & _ & s' & E). by exists s', i.
  - right. intros i. destruct (decide (i < length (threads s))%nat) as [Hi|Hi].
    + destruct (exec i s) eqn:E; [|done]. destruct H. apply Exists_exists. exists i.
      split; [apply elem_of_seq; lia|by rewrite E].
    + unfold exec. by rewrite lookup_ge_None_2 by lia.
Qed.

(** ** The theorems *)

(** C2: however readers and writers interleave, a thread that writes is alone:
    no other thread reads or writes.  A thread has each mutex exactly while it
    is between its entry and its exit, so none is released by another; and the
    count in the counter of a CPU is the number of readers it stands for. *)
Theorem dcb_exclusion : forall s s', initial s -> rtc step s s' ->
  (forall i t, threads s' !! i = Some t -> at_ t = Writing ->
   forall j u, threads s' !! j = Some u -> j <> i ->
     at_ u <> Writing /\ forall c, at_ u <> Reading c) /\
  (forall i t, threads s' !! i = Some t ->
     in_lock (at_ t) = bool_decide (lock s' = Some i) /\
     in_rlock (at_ t) = bool_decide (rlock s' = Some i)) /\
  (forall c v, gv s' !! c = Some v -> v .& DCB_COUNT_MASK = Z.of_nat (count c (threads s'))).
Proof.
  intros s s' Hi Hr. pose proof (dcb_inv_reach s s' (dcb_initial_inv s Hi) Hr) as Hs. split_and!.
  - intros i t Et Hw j u Eu Hne. pose proof (inv_view s' Hs i t Et) as Hv. rewrite Hw in Hv. simpl in Hv.
    pose proof (inv_rlock s' Hs i t Et) as Hri. pose proof (inv_rlock s' Hs j u Eu) as Hrj.
    rewrite Hw in Hri. symmetry in Hri. apply (bool_decide_eq_true (rlock s' = Some i)) in Hri. split.
    + intros E. rewrite E in Hrj. symmetry in Hrj.
      apply (bool_decide_eq_true (rlock s' = Some j)) in Hrj. congruence.
    + intros c E. destruct (inv_pc s' Hs j u Eu) as [Hpc _]. rewrite E in Hpc.
      destruct (Hv c Hpc) as [_ Hno]. apply (Hno j u Eu). by left.
  - intros i t Et. split; [by apply (inv_lock s' Hs)|by apply (inv_rlock s' Hs)].
  - intros c v Ev. destruct (inv_count s' Hs c v Ev) as [b ->]. by apply mask_word, count_small.
Qed.

(** C3: no state is a deadlock.  As long as some thread has something to do, one
    can take a step; a sleeping writer is always woken.  When all threads are
    done, every counter is zero and both mutexes are free. *)
Theorem dcb_progress : forall s s', initial s -> rtc step s s' ->
  (exists s'', step s' s'') \/
  (Forall quiet (threads s') /\ Forall (fun v => v = 0) (gv s') /\ lock s' = None /\ rlock s' = None).
Proof.
  intros s s' Hi Hr. pose proof (dcb_inv_reach s s' (dcb_initial_inv s Hi) Hr) as Hs.
  destruct (step_or_blocked s') as [H|Hb]; [by left|right].
  pose proof (all_blocked s' Hs Hb) as Hq.
  assert (forall f o, (forall i t, threads s' !! i = Some t -> f (at_ t) = bool_decide (o = Some i)) ->
    (forall i, o = Some i -> is_Some (threads s' !! i)) -> f Idle = false -> o = None) as Hfree.
  { intros f [i|] Hf Hin H0; [|done]. destruct (Hin i eq_refl) as [t Et]. destruct (Hq i t Et) as [E _].
    specialize (Hf i t Et). rewrite E, H0, bool_decide_eq_true_2 in Hf by done. done. }
  pose proof (Hfree _ _ (inv_rlock s' Hs) (inv_rlock_in s' Hs) eq_refl) as Hrl.
  split_and!; [by apply Forall_lookup| |by eapply Hfree; [apply Hs|apply Hs|]|done].
  apply Forall_lookup. intros c v Ev. destruct (inv_count s' Hs c v Ev) as [b ->].
  assert (count c (threads s') = 0%nat) as H0.
  { destruct (count c (threads s')) eqn:E; [done|]. destruct (count_pos c (threads s')) as (j & u & Eu & Hu); [lia|].
    destruct (Hq j u Eu) as [Ej _]. unfold counted in Hu. by rewrite Ej in Hu. }
  rewrite H0 in *. destruct b; [|done]. exfalso. apply (inv_free s' Hs Hrl c). exists (word 0 true). done.
Qed.

(** A run of the schedule [l]. *)
Fixpoint run (l : list nat) (s : dcb) : option dcb :=
  match l with [] => Some s | i :: l => s ← exec i s; run l s end.

Lemma dcb_run_rtc l s s' : run l s = Some s' -> rtc step s s'.
Proof.
  revert s. induction l as [|i l IH]; intros s E; simpl in E; [by simplify_eq|].
  destruct (exec i s) as [s1|] eqn:E1; [|done]. simpl in E. apply rtc_l with s1; [by exists i|by apply IH].
Qed.

(** A reader is inside when the writer comes: the writer sleeps, the reader wakes
    it on its way out, and the writer goes in. *)
Definition start : dcb :=
  Dcb [0; 0] None None [] [Thread Idle [Read 1; Read 0]; Thread Idle [Write]].
Definition schedule : list nat :=
  replicate 2 0%nat ++ replicate 8 1%nat ++ replicate 6 0%nat ++ replicate 5 1%nat ++ replicate 2 0%nat.
Definition writer_inside : dcb :=
  Dcb [DCB_COUNT_USELOCK + 1; DCB_COUNT_USELOCK] None (Some 1%nat) []
    [Thread (RD_lock 0) []; Thread Writing []].

Lemma start_initial : initial start.
Proof.
  split_and!; try done; repeat constructor; simpl; lia.
Qed.

Lemma schedule_run : run schedule start = Some writer_inside.
Proof. reflexivity. Qed.

Lemma dcb_exclusion_witness :
  (forall c, at_ (Thread (RD_lock 0) []) <> Reading c) /\ (DCB_COUNT_USELOCK + 1) .& DCB_COUNT_MASK = 1.
Proof.
  pose proof (dcb_exclusion start writer_inside start_initial (dcb_run_rtc _ _ _ schedule_run)) as (H & _ & Hc).
  split; [|exact (Hc 0%nat _ eq_refl)].
  exact (proj2 (H 1%nat _ eq_refl eq_refl 0%nat _ eq_refl ltac:(lia))).
Defined.

Lemma dcb_progress_witness : exists s'', step writer_inside s''.
Proof.
  destruct (dcb_progress start writer_inside start_initial (dcb_run_rtc _ _ _ schedule_run)) as [H|(_ & _ & _ & H)];
    [exact H|discriminate H].
Defined.
