(* ===== verification/Kcf.v ===== *)
(** * Providers of the cryptographic framework

    [src/include/sys/crypto/spi.h] declares the entry points of a provider of
    cryptographic operations, in fourteen structures any of which may be missing
    and any member of which may be [NULL]; the macros [KCF_PROV_*] of
    [src/include/sys/crypto/impl.h] call them.  An entry point is a function of
    the state of the kernel; the pointers it is given are opaque.  The entry
    points themselves are the providers' and are not in the tree.  Each macro is a
    constructor with its parameters, without the provider descriptor the
    operations are taken from.  The four macros of the dual operations have no such
    parameter and use the variable [pd] of their place of use.  [KCF_PROV_STATUS]
    chooses between a function without a value and a number, which C does not
    allow, and is not modelled. *)
From stdpp Require Import sets.
From S2P Require Import Prelude.
#[local] Open Scope Z_scope.

(** ** Entry points *)

(** The state of the kernel, and the pointers and handles of the interface. *)
Class CryptoTypes := {
  kstate : Type;
  char_p : Type; crypto_ctx_p : Type; crypto_data_p : Type; crypto_dual_data_p : Type; crypto_key_p : Type; crypto_mechanism_p : Type;
  crypto_object_attribute_p : Type; crypto_object_id_p : Type; crypto_provider_ext_info_p : Type; crypto_provider_handle_t : Type;
  crypto_req_handle_t : Type; crypto_session_id_p : Type; crypto_spi_ctx_template_p : Type; crypto_spi_ctx_template_t : Type; size_p : Type;
  uchar_p : Type; uint_p : Type; void_p : Type; void_pp : Type
}.
Definition op {T : CryptoTypes} : Type := kstate -> Z * kstate.

Section Interface.
Context {T : CryptoTypes}.

Record crypto_control_ops := {
  provider_status : option (crypto_provider_handle_t -> uint_p -> kstate -> kstate)
}.
Record crypto_ctx_ops := {
  create_ctx_template : option (crypto_provider_handle_t -> crypto_mechanism_p -> crypto_key_p -> crypto_spi_ctx_template_p ->
      size_p -> crypto_req_handle_t -> op);
  free_context : option (crypto_ctx_p -> op)
}.
Record crypto_digest_ops := {
  digest_init : option (crypto_ctx_p -> crypto_mechanism_p -> crypto_req_handle_t -> op);
  digest : option (crypto_ctx_p -> crypto_data_p -> crypto_data_p -> crypto_req_handle_t -> op);
  digest_update : option (crypto_ctx_p -> crypto_data_p -> crypto_req_handle_t -> op);
  digest_key : option (crypto_ctx_p -> crypto_key_p -> crypto_req_handle_t -> op);
  digest_final : option (crypto_ctx_p -> crypto_data_p -> crypto_req_handle_t -> op);
  digest_atomic : option (crypto_provider_handle_t -> Z -> crypto_mechanism_p -> crypto_data_p -> crypto_data_p ->
      crypto_req_handle_t -> op)
}.
Record crypto_cipher_ops := {
  encrypt_init : option (crypto_ctx_p -> crypto_mechanism_p -> crypto_key_p -> crypto_spi_ctx_template_t -> crypto_req_handle_t -> op);
  encrypt : option (crypto_ctx_p -> crypto_data_p -> crypto_data_p -> crypto_req_handle_t -> op);
  encrypt_update : option (crypto_ctx_p -> crypto_data_p -> crypto_data_p -> crypto_req_handle_t -> op);
  encrypt_final : option (crypto_ctx_p -> crypto_data_p -> crypto_req_handle_t -> op);
  encrypt_atomic : option (crypto_provider_handle_t -> Z -> crypto_mechanism_p -> crypto_key_p -> crypto_data_p -> crypto_data_p ->
      crypto_spi_ctx_template_t -> crypto_req_handle_t -> op);
  decrypt_init : option (crypto_ctx_p -> crypto_mechanism_p -> crypto_key_p -> crypto_spi_ctx_template_t -> crypto_req_handle_t -> op);
  decrypt : option (crypto_ctx_p -> crypto_data_p -> crypto_data_p -> crypto_req_handle_t -> op);
  decrypt_update : option (crypto_ctx_p -> crypto_data_p -> crypto_data_p -> crypto_req_handle_t -> op);
  decrypt_final : option (crypto_ctx_p -> crypto_data_p -> crypto_req_handle_t -> op);
  decrypt_atomic : option (crypto_provider_handle_t -> Z -> crypto_mechanism_p -> crypto_key_p -> crypto_data_p -> crypto_data_p ->
      crypto_spi_ctx_template_t -> crypto_req_handle_t -> op)
}.
Record crypto_mac_ops := {
  mac_init : option (crypto_ctx_p -> crypto_mechanism_p -> crypto_key_p -> crypto_spi_ctx_template_t -> crypto_req_handle_t -> op);
  mac : option (crypto_ctx_p -> crypto_data_p -> crypto_data_p -> crypto_req_handle_t -> op);
  mac_update : option (crypto_ctx_p -> crypto_data_p -> crypto_req_handle_t -> op);
  mac_final : option (crypto_ctx_p -> crypto_data_p -> crypto_req_handle_t -> op);
  mac_atomic : option (crypto_provider_handle_t -> Z -> crypto_mechanism_p -> crypto_key_p -> crypto_data_p -> crypto_data_p ->
      crypto_spi_ctx_template_t -> crypto_req_handle_t -> op);
  mac_verify_atomic : option (crypto_provider_handle_t -> Z -> crypto_mechanism_p -> crypto_key_p -> crypto_data_p -> crypto_data_p ->
      crypto_spi_ctx_template_t -> crypto_req_handle_t -> op)
}.
Record crypto_sign_ops := {
  sign_init : option (crypto_ctx_p -> crypto_mechanism_p -> crypto_key_p -> crypto_spi_ctx_template_t -> crypto_req_handle_t -> op);
  sign : option (crypto_ctx_p -> crypto_data_p -> crypto_data_p -> crypto_req_handle_t -> op);
  sign_update : option (crypto_ctx_p -> crypto_data_p -> crypto_req_handle_t -> op);
  sign_final : option (crypto_ctx_p -> crypto_data_p -> crypto_req_handle_t -> op);
  sign_atomic : option (crypto_provider_handle_t -> Z -> crypto_mechanism_p -> crypto_key_p -> crypto_data_p -> crypto_data_p ->
      crypto_spi_ctx_template_t -> crypto_req_handle_t -> op);
  sign_recover_init : option (crypto_ctx_p -> crypto_mechanism_p -> crypto_key_p -> crypto_spi_ctx_template_t -> crypto_req_handle_t -> op);
  sign_recover : option (crypto_ctx_p -> crypto_data_p -> crypto_data_p -> crypto_req_handle_t -> op);
  sign_recover_atomic : option (crypto_provider_handle_t -> Z -> crypto_mechanism_p -> crypto_key_p -> crypto_data_p ->
      crypto_data_p -> crypto_spi_ctx_template_t -> crypto_req_handle_t -> op)
}.
Record crypto_verify_ops := {
  verify_init : option (crypto_ctx_p -> crypto_mechanism_p -> crypto_key_p -> crypto_spi_ctx_template_t -> crypto_req_handle_t -> op);
  verify : option (crypto_ctx_p -> crypto_data_p -> crypto_data_p -> crypto_req_handle_t -> op);
  verify_update : option (crypto_ctx_p -> crypto_data_p -> crypto_req_handle_t -> op);
  verify_final : option (crypto_ctx_p -> crypto_data_p -> crypto_req_handle_t -> op);
  verify_atomic : option (crypto_provider_handle_t -> Z -> crypto_mechanism_p -> crypto_key_p -> crypto_data_p -> crypto_data_p ->
      crypto_spi_ctx_template_t -> crypto_req_handle_t -> op);
  verify_recover_init : option (crypto_ctx_p -> crypto_mechanism_p -> crypto_key_p -> crypto_spi_ctx_template_t ->
      crypto_req_handle_t -> op);
  verify_recover : option (crypto_ctx_p -> crypto_data_p -> crypto_data_p -> crypto_req_handle_t -> op);
  verify_recover_atomic : option (crypto_provider_handle_t -> Z -> crypto_mechanism_p -> crypto_key_p -> crypto_data_p ->
      crypto_data_p -> crypto_spi_ctx_template_t -> crypto_req_handle_t -> op)
}.
Record crypto_dual_ops := {
  digest_encrypt_update : option (crypto_ctx_p -> crypto_ctx_p -> crypto_data_p -> crypto_data_p -> crypto_req_handle_t -> op);
  decrypt_digest_update : option (crypto_ctx_p -> crypto_ctx_p -> crypto_data_p -> crypto_data_p -> crypto_req_handle_t -> op);
  sign_encrypt_update : option (crypto_ctx_p -> crypto_ctx_p -> crypto_data_p -> crypto_data_p -> crypto_req_handle_t -> op);
  decrypt_verify_update : option (crypto_ctx_p -> crypto_ctx_p -> crypto_data_p -> crypto_data_p -> crypto_req_handle_t -> op)
}.
Record crypto_dual_cipher_mac_ops := {
  encrypt_mac_init : option (crypto_ctx_p -> crypto_mechanism_p -> crypto_key_p -> crypto_mechanism_p -> crypto_key_p ->
      crypto_spi_ctx_template_t -> crypto_spi_ctx_template_t -> crypto_req_handle_t -> op);
  encrypt_mac : option (crypto_ctx_p -> crypto_data_p -> crypto_dual_data_p -> crypto_data_p -> crypto_req_handle_t -> op);
  encrypt_mac_update : option (crypto_ctx_p -> crypto_data_p -> crypto_dual_data_p -> crypto_req_handle_t -> op);
  encrypt_mac_final : option (crypto_ctx_p -> crypto_dual_data_p -> crypto_data_p -> crypto_req_handle_t -> op);
  encrypt_mac_atomic : option (crypto_provider_handle_t -> Z -> crypto_mechanism_p -> crypto_key_p -> crypto_mechanism_p ->
      crypto_key_p -> crypto_data_p -> crypto_dual_data_p -> crypto_data_p -> crypto_spi_ctx_template_t -> crypto_spi_ctx_template_t ->
      crypto_req_handle_t -> op);
  mac_decrypt_init : option (crypto_ctx_p -> crypto_mechanism_p -> crypto_key_p -> crypto_mechanism_p -> crypto_key_p ->
      crypto_spi_ctx_template_t -> crypto_spi_ctx_template_t -> crypto_req_handle_t -> op);
  mac_decrypt : option (crypto_ctx_p -> crypto_dual_data_p -> crypto_data_p -> crypto_data_p -> crypto_req_handle_t -> op);
  mac_decrypt_update : option (crypto_ctx_p -> crypto_dual_data_p -> crypto_data_p -> crypto_req_handle_t -> op);
  mac_decrypt_final : option (crypto_ctx_p -> crypto_data_p -> crypto_data_p -> crypto_req_handle_t -> op);
  mac_decrypt_atomic : option (crypto_provider_handle_t -> Z -> crypto_mechanism_p -> crypto_key_p -> crypto_mechanism_p ->
      crypto_key_p -> crypto_dual_data_p -> crypto_data_p -> crypto_data_p -> crypto_spi_ctx_template_t -> crypto_spi_ctx_template_t ->
      crypto_req_handle_t -> op);
  mac_verify_decrypt_atomic : option (crypto_provider_handle_t -> Z -> crypto_mechanism_p -> crypto_key_p -> crypto_mechanism_p ->
      crypto_key_p -> crypto_dual_data_p -> crypto_data_p -> crypto_data_p -> crypto_spi_ctx_template_t -> crypto_spi_ctx_template_t ->
      crypto_req_handle_t -> op)
}.
Record crypto_random_number_ops := {
  seed_random : option (crypto_provider_handle_t -> Z -> uchar_p -> Z -> crypto_req_handle_t -> op);
  generate_random : option (crypto_provider_handle_t -> Z -> uchar_p -> Z -> crypto_req_handle_t -> op)
}.
Record crypto_session_ops := {
  session_open : option (crypto_provider_handle_t -> crypto_session_id_p -> crypto_req_handle_t -> op);
  session_close : option (crypto_provider_handle_t -> Z -> crypto_req_handle_t -> op);
  session_login : option (crypto_provider_handle_t -> Z -> Z -> char_p -> Z -> crypto_req_handle_t -> op);
  session_logout : option (crypto_provider_handle_t -> Z -> crypto_req_handle_t -> op)
}.
Record crypto_object_ops := {
  object_create : option (crypto_provider_handle_t -> Z -> crypto_object_attribute_p -> Z -> crypto_object_id_p ->
      crypto_req_handle_t -> op);
  object_copy : option (crypto_provider_handle_t -> Z -> Z -> crypto_object_attribute_p -> Z -> crypto_object_id_p ->
      crypto_req_handle_t -> op);
  object_destroy : option (crypto_provider_handle_t -> Z -> Z -> crypto_req_handle_t -> op);
  object_get_size : option (crypto_provider_handle_t -> Z -> Z -> size_p -> crypto_req_handle_t -> op);
  object_get_attribute_value : option (crypto_provider_handle_t -> Z -> Z -> crypto_object_attribute_p -> Z -> crypto_req_handle_t -> op);
  object_set_attribute_value : option (crypto_provider_handle_t -> Z -> Z -> crypto_object_attribute_p -> Z -> crypto_req_handle_t -> op);
  object_find_init : option (crypto_provider_handle_t -> Z -> crypto_object_attribute_p -> Z -> void_pp -> crypto_req_handle_t -> op);
  object_find : option (crypto_provider_handle_t -> void_p -> crypto_object_id_p -> Z -> uint_p -> crypto_req_handle_t -> op);
  object_find_final : option (crypto_provider_handle_t -> void_p -> crypto_req_handle_t -> op)
}.
Record crypto_key_ops := {
  key_generate : option (crypto_provider_handle_t -> Z -> crypto_mechanism_p -> crypto_object_attribute_p -> Z -> crypto_object_id_p ->
      crypto_req_handle_t -> op);
  key_generate_pair : option (crypto_provider_handle_t -> Z -> crypto_mechanism_p -> crypto_object_attribute_p -> Z ->
      crypto_object_attribute_p -> Z -> crypto_object_id_p -> crypto_object_id_p -> crypto_req_handle_t -> op);
  key_wrap : option (crypto_provider_handle_t -> Z -> crypto_mechanism_p -> crypto_key_p -> crypto_object_id_p -> uchar_p -> size_p ->
      crypto_req_handle_t -> op);
  key_unwrap : option (crypto_provider_handle_t -> Z -> crypto_mechanism_p -> crypto_key_p -> uchar_p -> size_p ->
      crypto_object_attribute_p -> Z -> crypto_object_id_p -> crypto_req_handle_t -> op);
  key_derive : option (crypto_provider_handle_t -> Z -> crypto_mechanism_p -> crypto_key_p -> crypto_object_attribute_p -> Z ->
      crypto_object_id_p -> crypto_req_handle_t -> op);
  key_check : option (crypto_provider_handle_t -> crypto_mechanism_p -> crypto_key_p -> op)
}.
Record crypto_provider_management_ops := {
  ext_info : option (crypto_provider_handle_t -> crypto_provider_ext_info_p -> crypto_req_handle_t -> op);
  init_token : option (crypto_provider_handle_t -> char_p -> Z -> char_p -> crypto_req_handle_t -> op);
  init_pin : option (crypto_provider_handle_t -> Z -> char_p -> Z -> crypto_req_handle_t -> op);
  set_pin : option (crypto_provider_handle_t -> Z -> char_p -> Z -> char_p -> Z -> crypto_req_handle_t -> op)
}.
Record crypto_ops := {
  control_ops : option crypto_control_ops; digest_ops : option crypto_digest_ops; cipher_ops : option crypto_cipher_ops;
  mac_ops : option crypto_mac_ops; sign_ops : option crypto_sign_ops; verify_ops : option crypto_verify_ops; dual_ops : option
      crypto_dual_ops;
  dual_cipher_mac_ops : option crypto_dual_cipher_mac_ops; random_ops : option crypto_random_number_ops; session_ops : option
      crypto_session_ops;
  object_ops : option crypto_object_ops; key_ops : option crypto_key_ops; provider_ops : option crypto_provider_management_ops;
  ctx_ops : option crypto_ctx_ops
}.

(** The statistics of the scheduler, the states of a provider and what the
    macros use of its descriptor. *)
Record kcf_sched_info := { ks_ndispatches : Z; ks_nfails : Z; ks_nbusy_rval : Z }.
Record kcf_provider_desc := { pd_prov_handle : crypto_provider_handle_t; pd_ops_vector : crypto_ops }.

Definition CRYPTO_SUCCESS := 0x00000000.
Definition CRYPTO_NOT_SUPPORTED := 0x00000044.
Definition CRYPTO_QUEUED := 0x00000045.
Definition CRYPTO_BUSY := 0x0000004E.

(** [(OPS(pd) && OPS(pd)->entry) ? OPS(pd)->entry(...) : CRYPTO_NOT_SUPPORTED] *)
Definition try {O F} (ops : option O) (entry : O -> option F) (call : F -> op) : op := fun s =>
  match ops with
  | Some v => match entry v with Some f => call f s | None => (CRYPTO_NOT_SUPPORTED, s) end
  | None => (CRYPTO_NOT_SUPPORTED, s)
  end.

(** Calls of the contexts, digests and ciphers. *)
Inductive ctx_call :=
| KCF_PROV_CREATE_CTX_TEMPLATE (mech : crypto_mechanism_p) (key : crypto_key_p) (templ : crypto_spi_ctx_template_p) (size : size_p)
    (req : crypto_req_handle_t)
| KCF_PROV_FREE_CONTEXT (ctx : crypto_ctx_p)
| KCF_PROV_DIGEST_INIT (ctx : crypto_ctx_p) (mech : crypto_mechanism_p) (req : crypto_req_handle_t)
| KCF_PROV_DIGEST (ctx : crypto_ctx_p) (data : crypto_data_p) (_digest : crypto_data_p) (req : crypto_req_handle_t)
| KCF_PROV_DIGEST_UPDATE (ctx : crypto_ctx_p) (data : crypto_data_p) (req : crypto_req_handle_t)
| KCF_PROV_DIGEST_KEY (ctx : crypto_ctx_p) (key : crypto_key_p) (req : crypto_req_handle_t)
| KCF_PROV_DIGEST_FINAL (ctx : crypto_ctx_p) (digest : crypto_data_p) (req : crypto_req_handle_t)
| KCF_PROV_DIGEST_ATOMIC (session : Z) (mech : crypto_mechanism_p) (data : crypto_data_p) (digest : crypto_data_p)
    (req : crypto_req_handle_t)
| KCF_PROV_ENCRYPT_INIT (ctx : crypto_ctx_p) (mech : crypto_mechanism_p) (key : crypto_key_p) (templ : crypto_spi_ctx_template_t)
    (req : crypto_req_handle_t)
| KCF_PROV_ENCRYPT (ctx : crypto_ctx_p) (plaintext : crypto_data_p) (ciphertext : crypto_data_p) (req : crypto_req_handle_t)
| KCF_PROV_ENCRYPT_UPDATE (ctx : crypto_ctx_p) (plaintext : crypto_data_p) (ciphertext : crypto_data_p) (req : crypto_req_handle_t)
| KCF_PROV_ENCRYPT_FINAL (ctx : crypto_ctx_p) (ciphertext : crypto_data_p) (req : crypto_req_handle_t)
| KCF_PROV_ENCRYPT_ATOMIC (session : Z) (mech : crypto_mechanism_p) (key : crypto_key_p) (plaintext : crypto_data_p)
    (ciphertext : crypto_data_p) (templ : crypto_spi_ctx_template_t) (req : crypto_req_handle_t)
| KCF_PROV_DECRYPT_INIT (ctx : crypto_ctx_p) (mech : crypto_mechanism_p) (key : crypto_key_p) (templ : crypto_spi_ctx_template_t)
    (req : crypto_req_handle_t)
| KCF_PROV_DECRYPT (ctx : crypto_ctx_p) (ciphertext : crypto_data_p) (plaintext : crypto_data_p) (req : crypto_req_handle_t)
| KCF_PROV_DECRYPT_UPDATE (ctx : crypto_ctx_p) (ciphertext : crypto_data_p) (plaintext : crypto_data_p) (req : crypto_req_handle_t)
| KCF_PROV_DECRYPT_FINAL (ctx : crypto_ctx_p) (plaintext : crypto_data_p) (req : crypto_req_handle_t)
| KCF_PROV_DECRYPT_ATOMIC (session : Z) (mech : crypto_mechanism_p) (key : crypto_key_p) (ciphertext : crypto_data_p)
    (plaintext : crypto_data_p) (templ : crypto_spi_ctx_template_t) (req : crypto_req_handle_t).
Definition ctx_exec (c : ctx_call) (pd : kcf_provider_desc) : op :=
  match c with
  | KCF_PROV_CREATE_CTX_TEMPLATE mech key templ size req => try (ctx_ops (pd_ops_vector pd)) create_ctx_template (fun f =>
      f (pd_prov_handle pd) mech key templ size req)
  | KCF_PROV_FREE_CONTEXT ctx => try (ctx_ops (pd_ops_vector pd)) free_context (fun f => f ctx)
  | KCF_PROV_DIGEST_INIT ctx mech req => try (digest_ops (pd_ops_vector pd)) digest_init (fun f => f ctx mech req)
  | KCF_PROV_DIGEST ctx data _digest req => try (digest_ops (pd_ops_vector pd)) digest (fun f => f ctx data _digest req)
  | KCF_PROV_DIGEST_UPDATE ctx data req => try (digest_ops (pd_ops_vector pd)) digest_update (fun f => f ctx data req)
  | KCF_PROV_DIGEST_KEY ctx key req => try (digest_ops (pd_ops_vector pd)) digest_key (fun f => f ctx key req)
  | KCF_PROV_DIGEST_FINAL ctx digest req => try (digest_ops (pd_ops_vector pd)) digest_final (fun f => f ctx digest req)
  | KCF_PROV_DIGEST_ATOMIC session mech data digest req => try (digest_ops (pd_ops_vector pd)) digest_atomic (fun f =>
      f (pd_prov_handle pd) session mech data digest req)
  | KCF_PROV_ENCRYPT_INIT ctx mech key templ req => try (cipher_ops (pd_ops_vector pd)) encrypt_init (fun f => f ctx mech key templ req)
  | KCF_PROV_ENCRYPT ctx plaintext ciphertext req => try (cipher_ops (pd_ops_vector pd)) encrypt (fun f => f ctx plaintext ciphertext req)
  | KCF_PROV_ENCRYPT_UPDATE ctx plaintext ciphertext req => try (cipher_ops (pd_ops_vector pd)) encrypt_update (fun f =>
      f ctx plaintext ciphertext req)
  | KCF_PROV_ENCRYPT_FINAL ctx ciphertext req => try (cipher_ops (pd_ops_vector pd)) encrypt_final (fun f => f ctx ciphertext req)
  | KCF_PROV_ENCRYPT_ATOMIC session mech key plaintext ciphertext templ req =>
      try (cipher_ops (pd_ops_vector pd)) encrypt_atomic (fun f => f (pd_prov_handle pd) session mech key plaintext ciphertext templ req)
  | KCF_PROV_DECRYPT_INIT ctx mech key templ req => try (cipher_ops (pd_ops_vector pd)) decrypt_init (fun f => f ctx mech key templ req)
  | KCF_PROV_DECRYPT ctx ciphertext plaintext req => try (cipher_ops (pd_ops_vector pd)) decrypt (fun f => f ctx ciphertext plaintext req)
  | KCF_PROV_DECRYPT_UPDATE ctx ciphertext plaintext req => try (cipher_ops (pd_ops_vector pd)) decrypt_update (fun f =>
      f ctx ciphertext plaintext req)
  | KCF_PROV_DECRYPT_FINAL ctx plaintext req => try (cipher_ops (pd_ops_vector pd)) decrypt_final (fun f => f ctx plaintext req)
  | KCF_PROV_DECRYPT_ATOMIC session mech key ciphertext plaintext templ req =>
      try (cipher_ops (pd_ops_vector pd)) decrypt_atomic (fun f => f (pd_prov_handle pd) session mech key ciphertext plaintext templ req)
  end.

(** Calls of message authentication, signatures and their verification. *)
Inductive sign_call :=
| KCF_PROV_MAC_INIT (ctx : crypto_ctx_p) (mech : crypto_mechanism_p) (key : crypto_key_p) (templ : crypto_spi_ctx_template_t)
    (req : crypto_req_handle_t)
| KCF_PROV_MAC (ctx : crypto_ctx_p) (data : crypto_data_p) (_mac : crypto_data_p) (req : crypto_req_handle_t)
| KCF_PROV_MAC_UPDATE (ctx : crypto_ctx_p) (data : crypto_data_p) (req : crypto_req_handle_t)
| KCF_PROV_MAC_FINAL (ctx : crypto_ctx_p) (mac : crypto_data_p) (req : crypto_req_handle_t)
| KCF_PROV_MAC_ATOMIC (session : Z) (mech : crypto_mechanism_p) (key : crypto_key_p) (data : crypto_data_p) (mac : crypto_data_p)
    (templ : crypto_spi_ctx_template_t) (req : crypto_req_handle_t)
| KCF_PROV_MAC_VERIFY_ATOMIC (session : Z) (mech : crypto_mechanism_p) (key : crypto_key_p) (data : crypto_data_p)
    (mac : crypto_data_p) (templ : crypto_spi_ctx_template_t) (req : crypto_req_handle_t)
| KCF_PROV_SIGN_INIT (ctx : crypto_ctx_p) (mech : crypto_mechanism_p) (key : crypto_key_p) (templ : crypto_spi_ctx_template_t)
    (req : crypto_req_handle_t)
| KCF_PROV_SIGN (ctx : crypto_ctx_p) (data : crypto_data_p) (sig : crypto_data_p) (req : crypto_req_handle_t)
| KCF_PROV_SIGN_UPDATE (ctx : crypto_ctx_p) (data : crypto_data_p) (req : crypto_req_handle_t)
| KCF_PROV_SIGN_FINAL (ctx : crypto_ctx_p) (sig : crypto_data_p) (req : crypto_req_handle_t)
| KCF_PROV_SIGN_ATOMIC (session : Z) (mech : crypto_mechanism_p) (key : crypto_key_p) (data : crypto_data_p)
    (templ : crypto_spi_ctx_template_t) (sig : crypto_data_p) (req : crypto_req_handle_t)
| KCF_PROV_SIGN_RECOVER_INIT (ctx : crypto_ctx_p) (mech : crypto_mechanism_p) (key : crypto_key_p) (templ : crypto_spi_ctx_template_t)
    (req : crypto_req_handle_t)
| KCF_PROV_SIGN_RECOVER (ctx : crypto_ctx_p) (data : crypto_data_p) (sig : crypto_data_p) (req : crypto_req_handle_t)
| KCF_PROV_SIGN_RECOVER_ATOMIC (session : Z) (mech : crypto_mechanism_p) (key : crypto_key_p) (data : crypto_data_p)
    (templ : crypto_spi_ctx_template_t) (sig : crypto_data_p) (req : crypto_req_handle_t)
| KCF_PROV_VERIFY_INIT (ctx : crypto_ctx_p) (mech : crypto_mechanism_p) (key : crypto_key_p) (templ : crypto_spi_ctx_template_t)
    (req : crypto_req_handle_t)
| KCF_PROV_VERIFY (ctx : crypto_ctx_p) (data : crypto_data_p) (sig : crypto_data_p) (req : crypto_req_handle_t)
| KCF_PROV_VERIFY_UPDATE (ctx : crypto_ctx_p) (data : crypto_data_p) (req : crypto_req_handle_t)
| KCF_PROV_VERIFY_FINAL (ctx : crypto_ctx_p) (sig : crypto_data_p) (req : crypto_req_handle_t)
| KCF_PROV_VERIFY_ATOMIC (session : Z) (mech : crypto_mechanism_p) (key : crypto_key_p) (data : crypto_data_p)
    (templ : crypto_spi_ctx_template_t) (sig : crypto_data_p) (req : crypto_req_handle_t)
| KCF_PROV_VERIFY_RECOVER_INIT (ctx : crypto_ctx_p) (mech : crypto_mechanism_p) (key : crypto_key_p)
    (templ : crypto_spi_ctx_template_t) (req : crypto_req_handle_t)
| KCF_PROV_VERIFY_RECOVER (ctx : crypto_ctx_p) (sig : crypto_data_p) (data : crypto_data_p) (req : crypto_req_handle_t)
| KCF_PROV_VERIFY_RECOVER_ATOMIC (session : Z) (mech : crypto_mechanism_p) (key : crypto_key_p) (sig : crypto_data_p)
    (templ : crypto_spi_ctx_template_t) (data : crypto_data_p) (req : crypto_req_handle_t).
Definition sign_exec (c : sign_call) (pd : kcf_provider_desc) : op :=
  match c with
  | KCF_PROV_MAC_INIT ctx mech key templ req => try (mac_ops (pd_ops_vector pd)) mac_init (fun f => f ctx mech key templ req)
  | KCF_PROV_MAC ctx data _mac req => try (mac_ops (pd_ops_vector pd)) mac (fun f => f ctx data _mac req)
  | KCF_PROV_MAC_UPDATE ctx data req => try (mac_ops (pd_ops_vector pd)) mac_update (fun f => f ctx data req)
  | KCF_PROV_MAC_FINAL ctx mac req => try (mac_ops (pd_ops_vector pd)) mac_final (fun f => f ctx mac req)
  | KCF_PROV_MAC_ATOMIC session mech key data mac templ req => try (mac_ops (pd_ops_vector pd)) mac_atomic (fun f =>
      f (pd_prov_handle pd) session mech key data mac templ req)
  | KCF_PROV_MAC_VERIFY_ATOMIC session mech key data mac templ req => try (mac_ops (pd_ops_vector pd)) mac_verify_atomic (fun f =>
      f (pd_prov_handle pd) session mech key data mac templ req)
  | KCF_PROV_SIGN_INIT ctx mech key templ req => try (sign_ops (pd_ops_vector pd)) sign_init (fun f => f ctx mech key templ req)
  | KCF_PROV_SIGN ctx data sig req => try (sign_ops (pd_ops_vector pd)) sign (fun f => f ctx data sig req)
  | KCF_PROV_SIGN_UPDATE ctx data req => try (sign_ops (pd_ops_vector pd)) sign_update (fun f => f ctx data req)
  | KCF_PROV_SIGN_FINAL ctx sig req => try (sign_ops (pd_ops_vector pd)) sign_final (fun f => f ctx sig req)
  | KCF_PROV_SIGN_ATOMIC session mech key data templ sig req => try (sign_ops (pd_ops_vector pd)) sign_atomic (fun f =>
      f (pd_prov_handle pd) session mech key data sig templ req)
  | KCF_PROV_SIGN_RECOVER_INIT ctx mech key templ req => try (sign_ops (pd_ops_vector pd)) sign_recover_init (fun f =>
      f ctx mech key templ req)
  | KCF_PROV_SIGN_RECOVER ctx data sig req => try (sign_ops (pd_ops_vector pd)) sign_recover (fun f => f ctx data sig req)
  | KCF_PROV_SIGN_RECOVER_ATOMIC session mech key data templ sig req => try (sign_ops (pd_ops_vector pd)) sign_recover_atomic (fun f =>
      f (pd_prov_handle pd) session mech key data sig templ req)
  | KCF_PROV_VERIFY_INIT ctx mech key templ req => try (verify_ops (pd_ops_vector pd)) verify_init (fun f => f ctx mech key templ req)
  | KCF_PROV_VERIFY ctx data sig req => try (verify_ops (pd_ops_vector pd)) verify (fun f => f ctx data sig req)
  | KCF_PROV_VERIFY_UPDATE ctx data req => try (verify_ops (pd_ops_vector pd)) verify_update (fun f => f ctx data req)
  | KCF_PROV_VERIFY_FINAL ctx sig req => try (verify_ops (pd_ops_vector pd)) verify_final (fun f => f ctx sig req)
  | KCF_PROV_VERIFY_ATOMIC session mech key data templ sig req => try (verify_ops (pd_ops_vector pd)) verify_atomic (fun f =>
      f (pd_prov_handle pd) session mech key data sig templ req)
  | KCF_PROV_VERIFY_RECOVER_INIT ctx mech key templ req => try (verify_ops (pd_ops_vector pd)) verify_recover_init (fun f =>
      f ctx mech key templ req)
  | KCF_PROV_VERIFY_RECOVER ctx sig data req => try (verify_ops (pd_ops_vector pd)) verify_recover (fun f => f ctx sig data req)
  | KCF_PROV_VERIFY_RECOVER_ATOMIC session mech key sig templ data req =>
      try (verify_ops (pd_ops_vector pd)) verify_recover_atomic (fun f => f (pd_prov_handle pd) session mech key sig data templ req)
  end.

(** Calls of two operations at once. *)
Inductive dual_call :=
| KCF_PROV_DIGEST_ENCRYPT_UPDATE (digest_ctx : crypto_ctx_p) (encrypt_ctx : crypto_ctx_p) (plaintext : crypto_data_p)
    (ciphertext : crypto_data_p) (req : crypto_req_handle_t)
| KCF_PROV_DECRYPT_DIGEST_UPDATE (decrypt_ctx : crypto_ctx_p) (digest_ctx : crypto_ctx_p) (ciphertext : crypto_data_p)
    (plaintext : crypto_data_p) (req : crypto_req_handle_t)
| KCF_PROV_SIGN_ENCRYPT_UPDATE (sign_ctx : crypto_ctx_p) (encrypt_ctx : crypto_ctx_p) (plaintext : crypto_data_p)
    (ciphertext : crypto_data_p) (req : crypto_req_handle_t)
| KCF_PROV_DECRYPT_VERIFY_UPDATE (decrypt_ctx : crypto_ctx_p) (verify_ctx : crypto_ctx_p) (ciphertext : crypto_data_p)
    (plaintext : crypto_data_p) (req : crypto_req_handle_t)
| KCF_PROV_ENCRYPT_MAC_INIT (ctx : crypto_ctx_p) (encr_mech : crypto_mechanism_p) (encr_key : crypto_key_p)
    (mac_mech : crypto_mechanism_p) (mac_key : crypto_key_p) (encr_ctx_template : crypto_spi_ctx_template_t)
    (mac_ctx_template : crypto_spi_ctx_template_t) (req : crypto_req_handle_t)
| KCF_PROV_ENCRYPT_MAC (ctx : crypto_ctx_p) (plaintext : crypto_data_p) (ciphertext : crypto_dual_data_p) (mac : crypto_data_p)
    (req : crypto_req_handle_t)
| KCF_PROV_ENCRYPT_MAC_UPDATE (ctx : crypto_ctx_p) (plaintext : crypto_data_p) (ciphertext : crypto_dual_data_p) (req : crypto_req_handle_t)
| KCF_PROV_ENCRYPT_MAC_FINAL (ctx : crypto_ctx_p) (ciphertext : crypto_dual_data_p) (mac : crypto_data_p) (req : crypto_req_handle_t)
| KCF_PROV_ENCRYPT_MAC_ATOMIC (session : Z) (encr_mech : crypto_mechanism_p) (encr_key : crypto_key_p) (mac_mech : crypto_mechanism_p)
    (mac_key : crypto_key_p) (plaintext : crypto_data_p) (ciphertext : crypto_dual_data_p) (mac : crypto_data_p)
    (encr_ctx_template : crypto_spi_ctx_template_t) (mac_ctx_template : crypto_spi_ctx_template_t) (req : crypto_req_handle_t)
| KCF_PROV_MAC_DECRYPT_INIT (ctx : crypto_ctx_p) (mac_mech : crypto_mechanism_p) (mac_key : crypto_key_p)
    (decr_mech : crypto_mechanism_p) (decr_key : crypto_key_p) (mac_ctx_template : crypto_spi_ctx_template_t)
    (decr_ctx_template : crypto_spi_ctx_template_t) (req : crypto_req_handle_t)
| KCF_PROV_MAC_DECRYPT (ctx : crypto_ctx_p) (ciphertext : crypto_dual_data_p) (mac : crypto_data_p) (plaintext : crypto_data_p)
    (req : crypto_req_handle_t)
| KCF_PROV_MAC_DECRYPT_UPDATE (ctx : crypto_ctx_p) (ciphertext : crypto_dual_data_p) (plaintext : crypto_data_p) (req : crypto_req_handle_t)
| KCF_PROV_MAC_DECRYPT_FINAL (ctx : crypto_ctx_p) (mac : crypto_data_p) (plaintext : crypto_data_p) (req : crypto_req_handle_t)
| KCF_PROV_MAC_DECRYPT_ATOMIC (session : Z) (mac_mech : crypto_mechanism_p) (mac_key : crypto_key_p) (decr_mech : crypto_mechanism_p)
    (decr_key : crypto_key_p) (ciphertext : crypto_dual_data_p) (mac : crypto_data_p) (plaintext : crypto_data_p)
    (mac_ctx_template : crypto_spi_ctx_template_t) (decr_ctx_template : crypto_spi_ctx_template_t) (req : crypto_req_handle_t)
| KCF_PROV_MAC_VERIFY_DECRYPT_ATOMIC (session : Z) (mac_mech : crypto_mechanism_p) (mac_key : crypto_key_p)
    (decr_mech : crypto_mechanism_p) (decr_key : crypto_key_p) (ciphertext : crypto_dual_data_p) (mac : crypto_data_p)
    (plaintext : crypto_data_p) (mac_ctx_template : crypto_spi_ctx_template_t) (decr_ctx_template : crypto_spi_ctx_template_t)
    (req : crypto_req_handle_t).
Definition dual_exec (c : dual_call) (pd : kcf_provider_desc) : op :=
  match c with
  | KCF_PROV_DIGEST_ENCRYPT_UPDATE digest_ctx encrypt_ctx plaintext ciphertext req =>
      try (dual_ops (pd_ops_vector pd)) digest_encrypt_update (fun f => f digest_ctx encrypt_ctx plaintext ciphertext req)
  | KCF_PROV_DECRYPT_DIGEST_UPDATE decrypt_ctx digest_ctx ciphertext plaintext req =>
      try (dual_ops (pd_ops_vector pd)) decrypt_digest_update (fun f => f decrypt_ctx digest_ctx ciphertext plaintext req)
  | KCF_PROV_SIGN_ENCRYPT_UPDATE sign_ctx encrypt_ctx plaintext ciphertext req =>
      try (dual_ops (pd_ops_vector pd)) sign_encrypt_update (fun f => f sign_ctx encrypt_ctx plaintext ciphertext req)
  | KCF_PROV_DECRYPT_VERIFY_UPDATE decrypt_ctx verify_ctx ciphertext plaintext req =>
      try (dual_ops (pd_ops_vector pd)) decrypt_verify_update (fun f => f decrypt_ctx verify_ctx ciphertext plaintext req)
  | KCF_PROV_ENCRYPT_MAC_INIT ctx encr_mech encr_key mac_mech mac_key encr_ctx_template mac_ctx_template req =>
      try (dual_cipher_mac_ops (pd_ops_vector pd)) encrypt_mac_init (fun f =>
      f ctx encr_mech encr_key mac_mech mac_key encr_ctx_template mac_ctx_template req)
  | KCF_PROV_ENCRYPT_MAC ctx plaintext ciphertext mac req => try (dual_cipher_mac_ops (pd_ops_vector pd)) encrypt_mac (fun f =>
      f ctx plaintext ciphertext mac req)
  | KCF_PROV_ENCRYPT_MAC_UPDATE ctx plaintext ciphertext req =>
      try (dual_cipher_mac_ops (pd_ops_vector pd)) encrypt_mac_update (fun f => f ctx plaintext ciphertext req)
  | KCF_PROV_ENCRYPT_MAC_FINAL ctx ciphertext mac req => try (dual_cipher_mac_ops (pd_ops_vector pd)) encrypt_mac_final (fun f =>
      f ctx ciphertext mac req)
  | KCF_PROV_ENCRYPT_MAC_ATOMIC session encr_mech encr_key mac_mech mac_key plaintext ciphertext mac encr_ctx_template mac_ctx_template
      req => try (dual_cipher_mac_ops (pd_ops_vector pd)) encrypt_mac_atomic (fun f =>
      f (pd_prov_handle pd) session encr_mech encr_key mac_mech mac_key plaintext ciphertext mac encr_ctx_template mac_ctx_template req)
  | KCF_PROV_MAC_DECRYPT_INIT ctx mac_mech mac_key decr_mech decr_key mac_ctx_template decr_ctx_template req =>
      try (dual_cipher_mac_ops (pd_ops_vector pd)) mac_decrypt_init (fun f =>
      f ctx mac_mech mac_key decr_mech decr_key mac_ctx_template decr_ctx_template req)
  | KCF_PROV_MAC_DECRYPT ctx ciphertext mac plaintext req => try (dual_cipher_mac_ops (pd_ops_vector pd)) mac_decrypt (fun f =>
      f ctx ciphertext mac plaintext req)
  | KCF_PROV_MAC_DECRYPT_UPDATE ctx ciphertext plaintext req =>
      try (dual_cipher_mac_ops (pd_ops_vector pd)) mac_decrypt_update (fun f => f ctx ciphertext plaintext req)
  | KCF_PROV_MAC_DECRYPT_FINAL ctx mac plaintext req => try (dual_cipher_mac_ops (pd_ops_vector pd)) mac_decrypt_final (fun f =>
      f ctx mac plaintext req)
  | KCF_PROV_MAC_DECRYPT_ATOMIC session mac_mech mac_key decr_mech decr_key ciphertext mac plaintext mac_ctx_template decr_ctx_template
      req => try (dual_cipher_mac_ops (pd_ops_vector pd)) mac_decrypt_atomic (fun f =>
      f (pd_prov_handle pd) session mac_mech mac_key decr_mech decr_key ciphertext mac plaintext mac_ctx_template decr_ctx_template req)
  | KCF_PROV_MAC_VERIFY_DECRYPT_ATOMIC session mac_mech mac_key decr_mech decr_key ciphertext mac plaintext mac_ctx_template
      decr_ctx_template req => try (dual_cipher_mac_ops (pd_ops_vector pd)) mac_verify_decrypt_atomic (fun f =>
      f (pd_prov_handle pd) session mac_mech mac_key decr_mech decr_key ciphertext mac plaintext mac_ctx_template decr_ctx_template req)
  end.

(** Calls of random numbers, sessions and objects. *)
Inductive object_call :=
| KCF_PROV_SEED_RANDOM (session : Z) (buf : uchar_p) (len : Z) (req : crypto_req_handle_t)
| KCF_PROV_GENERATE_RANDOM (session : Z) (buf : uchar_p) (len : Z) (req : crypto_req_handle_t)
| KCF_PROV_SESSION_OPEN (session : crypto_session_id_p) (req : crypto_req_handle_t) (pd : kcf_provider_desc)
| KCF_PROV_SESSION_CLOSE (session : Z) (req : crypto_req_handle_t) (pd : kcf_provider_desc)
| KCF_PROV_SESSION_LOGIN (session : Z) (user_type : Z) (pin : char_p) (len : Z) (req : crypto_req_handle_t)
| KCF_PROV_SESSION_LOGOUT (session : Z) (req : crypto_req_handle_t)
| KCF_PROV_OBJECT_CREATE (session : Z) (templ : crypto_object_attribute_p) (count : Z) (obj : crypto_object_id_p)
    (req : crypto_req_handle_t)
| KCF_PROV_OBJECT_COPY (session : Z) (obj : Z) (templ : crypto_object_attribute_p) (count : Z) (new_object : crypto_object_id_p)
    (req : crypto_req_handle_t)
| KCF_PROV_OBJECT_DESTROY (session : Z) (obj : Z) (req : crypto_req_handle_t)
| KCF_PROV_OBJECT_GET_SIZE (session : Z) (obj : Z) (size : size_p) (req : crypto_req_handle_t)
| KCF_PROV_OBJECT_GET_ATTRIBUTE_VALUE (session : Z) (obj : Z) (templ : crypto_object_attribute_p) (count : Z) (req : crypto_req_handle_t)
| KCF_PROV_OBJECT_SET_ATTRIBUTE_VALUE (session : Z) (obj : Z) (templ : crypto_object_attribute_p) (count : Z) (req : crypto_req_handle_t)
| KCF_PROV_OBJECT_FIND_INIT (session : Z) (templ : crypto_object_attribute_p) (count : Z) (ppriv : void_pp) (req : crypto_req_handle_t)
| KCF_PROV_OBJECT_FIND (ppriv : void_p) (objects : crypto_object_id_p) (max_objects : Z) (object_count : uint_p) (req : crypto_req_handle_t)
| KCF_PROV_OBJECT_FIND_FINAL (ppriv : void_p) (req : crypto_req_handle_t).
Definition object_exec (c : object_call) (pd : kcf_provider_desc) : op :=
  match c with
  | KCF_PROV_SEED_RANDOM session buf len req => try (random_ops (pd_ops_vector pd)) seed_random (fun f =>
      f (pd_prov_handle pd) session buf len req)
  | KCF_PROV_GENERATE_RANDOM session buf len req => try (random_ops (pd_ops_vector pd)) generate_random (fun f =>
      f (pd_prov_handle pd) session buf len req)
  | KCF_PROV_SESSION_OPEN session req pd' => try (session_ops (pd_ops_vector pd)) session_open (fun f => f (pd_prov_handle pd') session req)
  | KCF_PROV_SESSION_CLOSE session req pd' => try (session_ops (pd_ops_vector pd)) session_close (fun f =>
      f (pd_prov_handle pd') session req)
  | KCF_PROV_SESSION_LOGIN session user_type pin len req => try (session_ops (pd_ops_vector pd)) session_login (fun f =>
      f (pd_prov_handle pd) session user_type pin len req)
  | KCF_PROV_SESSION_LOGOUT session req => try (session_ops (pd_ops_vector pd)) session_logout (fun f => f (pd_prov_handle pd) session req)
  | KCF_PROV_OBJECT_CREATE session templ count obj req => try (object_ops (pd_ops_vector pd)) object_create (fun f =>
      f (pd_prov_handle pd) session templ count obj req)
  | KCF_PROV_OBJECT_COPY session obj templ count new_object req => try (object_ops (pd_ops_vector pd)) object_copy (fun f =>
      f (pd_prov_handle pd) session obj templ count new_object req)
  | KCF_PROV_OBJECT_DESTROY session obj req => try (object_ops (pd_ops_vector pd)) object_destroy (fun f =>
      f (pd_prov_handle pd) session obj req)
  | KCF_PROV_OBJECT_GET_SIZE session obj size req => try (object_ops (pd_ops_vector pd)) object_get_size (fun f =>
      f (pd_prov_handle pd) session obj size req)
  | KCF_PROV_OBJECT_GET_ATTRIBUTE_VALUE session obj templ count req =>
      try (object_ops (pd_ops_vector pd)) object_get_attribute_value (fun f => f (pd_prov_handle pd) session obj templ count req)
  | KCF_PROV_OBJECT_SET_ATTRIBUTE_VALUE session obj templ count req =>
      try (object_ops (pd_ops_vector pd)) object_set_attribute_value (fun f => f (pd_prov_handle pd) session obj templ count req)
  | KCF_PROV_OBJECT_FIND_INIT session templ count ppriv req => try (object_ops (pd_ops_vector pd)) object_find_init (fun f =>
      f (pd_prov_handle pd) session templ count ppriv req)
  | KCF_PROV_OBJECT_FIND ppriv objects max_objects object_count req => try (object_ops (pd_ops_vector pd)) object_find (fun f =>
      f (pd_prov_handle pd) ppriv objects max_objects object_count req)
  | KCF_PROV_OBJECT_FIND_FINAL ppriv req => try (object_ops (pd_ops_vector pd)) object_find_final (fun f => f (pd_prov_handle pd) ppriv req)
  end.

(** Calls of keys and the management of providers. *)
Inductive key_call :=
| KCF_PROV_KEY_GENERATE (session : Z) (mech : crypto_mechanism_p) (templ : crypto_object_attribute_p) (count : Z)
    (obj : crypto_object_id_p) (req : crypto_req_handle_t)
| KCF_PROV_KEY_GENERATE_PAIR (session : Z) (mech : crypto_mechanism_p) (pub_template : crypto_object_attribute_p) (pub_count : Z)
    (priv_template : crypto_object_attribute_p) (priv_count : Z) (pub_key : crypto_object_id_p) (priv_key : crypto_object_id_p)
    (req : crypto_req_handle_t)
| KCF_PROV_KEY_WRAP (session : Z) (mech : crypto_mechanism_p) (wrapping_key : crypto_key_p) (key : crypto_object_id_p)
    (wrapped_key : uchar_p) (wrapped_key_len : size_p) (req : crypto_req_handle_t)
| KCF_PROV_KEY_UNWRAP (session : Z) (mech : crypto_mechanism_p) (unwrapping_key : crypto_key_p) (wrapped_key : uchar_p)
    (wrapped_key_len : size_p) (templ : crypto_object_attribute_p) (count : Z) (key : crypto_object_id_p) (req : crypto_req_handle_t)
| KCF_PROV_KEY_DERIVE (session : Z) (mech : crypto_mechanism_p) (base_key : crypto_key_p) (templ : crypto_object_attribute_p)
    (count : Z) (key : crypto_object_id_p) (req : crypto_req_handle_t)
| KCF_PROV_KEY_CHECK (mech : crypto_mechanism_p) (key : crypto_key_p)
| KCF_PROV_EXT_INFO (provext_info : crypto_provider_ext_info_p) (req : crypto_req_handle_t) (pd : kcf_provider_desc)
| KCF_PROV_INIT_TOKEN (pin : char_p) (pin_len : Z) (label : char_p) (req : crypto_req_handle_t)
| KCF_PROV_INIT_PIN (session : Z) (pin : char_p) (pin_len : Z) (req : crypto_req_handle_t)
| KCF_PROV_SET_PIN (session : Z) (old_pin : char_p) (old_len : Z) (new_pin : char_p) (new_len : Z) (req : crypto_req_handle_t).
Definition key_exec (c : key_call) (pd : kcf_provider_desc) : op :=
  match c with
  | KCF_PROV_KEY_GENERATE session mech templ count obj req => try (key_ops (pd_ops_vector pd)) key_generate (fun f =>
      f (pd_prov_handle pd) session mech templ count obj req)
  | KCF_PROV_KEY_GENERATE_PAIR session mech pub_template pub_count priv_template priv_count pub_key priv_key req =>
      try (key_ops (pd_ops_vector pd)) key_generate_pair (fun f =>
      f (pd_prov_handle pd) session mech pub_template pub_count priv_template priv_count pub_key priv_key req)
  | KCF_PROV_KEY_WRAP session mech wrapping_key key wrapped_key wrapped_key_len req =>
      try (key_ops (pd_ops_vector pd)) key_wrap (fun f => f (pd_prov_handle pd) session mech wrapping_key key wrapped_key wrapped_key_len
      req)
  | KCF_PROV_KEY_UNWRAP session mech unwrapping_key wrapped_key wrapped_key_len templ count key req =>
      try (key_ops (pd_ops_vector pd)) key_unwrap (fun f => f
      (pd_prov_handle pd) session mech unwrapping_key wrapped_key wrapped_key_len templ count key req)
  | KCF_PROV_KEY_DERIVE session mech base_key templ count key req => try (key_ops (pd_ops_vector pd)) key_derive (fun f =>
      f (pd_prov_handle pd) session mech base_key templ count key req)
  | KCF_PROV_KEY_CHECK mech key => try (key_ops (pd_ops_vector pd)) key_check (fun f => f (pd_prov_handle pd) mech key)
  | KCF_PROV_EXT_INFO provext_info req pd' => try (provider_ops (pd_ops_vector pd)) ext_info (fun f =>
      f (pd_prov_handle pd') provext_info req)
  | KCF_PROV_INIT_TOKEN pin pin_len label req => try (provider_ops (pd_ops_vector pd)) init_token (fun f =>
      f (pd_prov_handle pd) pin pin_len label req)
  | KCF_PROV_INIT_PIN session pin pin_len req => try (provider_ops (pd_ops_vector pd)) init_pin (fun f =>
      f (pd_prov_handle pd) session pin pin_len req)
  | KCF_PROV_SET_PIN session old_pin old_len new_pin new_len req => try (provider_ops (pd_ops_vector pd)) set_pin (fun f =>
      f (pd_prov_handle pd) session old_pin old_len new_pin new_len req)
  end.


(** ** Statistics, states and mechanism numbers *)

(** After an operation of the provider. *)
Definition KCF_PROV_INCRSTATS (i : kcf_sched_info) (error : Z) : kcf_sched_info :=
  let i := {| ks_ndispatches := u64 (ks_ndispatches i + 1); ks_nfails := ks_nfails i; ks_nbusy_rval := ks_nbusy_rval i |} in
  if error =? CRYPTO_BUSY then {| ks_ndispatches := ks_ndispatches i; ks_nfails := ks_nfails i; ks_nbusy_rval := u64
      (ks_nbusy_rval i + 1) |}
  else if negb (error =? CRYPTO_SUCCESS) && negb (error =? CRYPTO_QUEUED)
  then {| ks_ndispatches := ks_ndispatches i; ks_nfails := u64 (ks_nfails i + 1); ks_nbusy_rval := ks_nbusy_rval i |} else i.

Inductive kcf_prov_state :=
  KCF_PROV_ALLOCATED | KCF_PROV_UNVERIFIED | KCF_PROV_READY | KCF_PROV_BUSY | KCF_PROV_FAILED | KCF_PROV_DISABLED | KCF_PROV_REMOVED |
      KCF_PROV_FREED.
Definition prov_state_code (s : kcf_prov_state) : Z :=
  match s with
  | KCF_PROV_ALLOCATED => 1 | KCF_PROV_UNVERIFIED => 2 | KCF_PROV_READY => 3 | KCF_PROV_BUSY => 4
  | KCF_PROV_FAILED => 5 | KCF_PROV_DISABLED => 6 | KCF_PROV_REMOVED => 7 | KCF_PROV_FREED => 8
  end.
Definition KCF_IS_PROV_UNVERIFIED (pd_state : Z) : bool := pd_state =? prov_state_code KCF_PROV_UNVERIFIED.
Definition KCF_IS_PROV_USABLE (pd_state : Z) : bool :=
  (pd_state =? prov_state_code KCF_PROV_READY) || (pd_state =? prov_state_code KCF_PROV_BUSY).
Definition KCF_IS_PROV_REMOVED (pd_state : Z) : bool := pd_state >=? prov_state_code KCF_PROV_REMOVED.

(** A mechanism is numbered by its class, the number of a table, and its
    index there; [crypto_mech_type_t] has 64 bits. *)
Definition KCF_MECHID (class index : Z) : Z := u64 (u64 class <<< 32) .| u64 index.
Definition KCF_MECH2CLASS (mech_type : Z) : Z := u32 (mech_type >>> 32).
Definition KCF_MECH2INDEX (mech_type : Z) : Z := s32 mech_type.
End Interface.

(** ** Calls and entry points *)

Inductive entry :=
  E_create_ctx_template | E_free_context | E_digest_init | E_digest | E_digest_update | E_digest_key | E_digest_final | E_digest_atomic |
  E_encrypt_init | E_encrypt | E_encrypt_update | E_encrypt_final | E_encrypt_atomic | E_decrypt_init | E_decrypt | E_decrypt_update |
  E_decrypt_final | E_decrypt_atomic | E_mac_init | E_mac | E_mac_update | E_mac_final | E_mac_atomic | E_mac_verify_atomic | E_sign_init |
  E_sign | E_sign_update | E_sign_final | E_sign_atomic | E_sign_recover_init | E_sign_recover | E_sign_recover_atomic | E_verify_init |
      E_verify |
  E_verify_update | E_verify_final | E_verify_atomic | E_verify_recover_init | E_verify_recover | E_verify_recover_atomic |
  E_digest_encrypt_update | E_decrypt_digest_update | E_sign_encrypt_update | E_decrypt_verify_update | E_encrypt_mac_init | E_encrypt_mac |
  E_encrypt_mac_update | E_encrypt_mac_final | E_encrypt_mac_atomic | E_mac_decrypt_init | E_mac_decrypt | E_mac_decrypt_update |
  E_mac_decrypt_final | E_mac_decrypt_atomic | E_mac_verify_decrypt_atomic | E_seed_random | E_generate_random | E_session_open |
      E_session_close |
  E_session_login | E_session_logout | E_object_create | E_object_copy | E_object_destroy | E_object_get_size |
      E_object_get_attribute_value |
  E_object_set_attribute_value | E_object_find_init | E_object_find | E_object_find_final | E_key_generate | E_key_generate_pair |
      E_key_wrap |
  E_key_unwrap | E_key_derive | E_key_check | E_ext_info | E_init_token | E_init_pin | E_set_pin.
#[export] Instance entry_eq_dec : EqDecision entry.
Proof. solve_decision. Defined.

Section Dispatch.
Context {T : CryptoTypes}.
Inductive call := Ctx (c : ctx_call) | Sign (c : sign_call) | Dual (c : dual_call) | Object (c : object_call) | Key (c : key_call).
Definition kcf_exec (c : call) : kcf_provider_desc -> op :=
  match c with Ctx c => ctx_exec c | Sign c => sign_exec c | Dual c => dual_exec c | Object c => object_exec c | Key c => key_exec c end.
(** The entry point a macro is named after. *)
Definition ctx_entry (c : ctx_call) : entry :=
  match c with
  | KCF_PROV_CREATE_CTX_TEMPLATE _ _ _ _ _ => E_create_ctx_template | KCF_PROV_FREE_CONTEXT _ => E_free_context
  | KCF_PROV_DIGEST_INIT _ _ _ => E_digest_init | KCF_PROV_DIGEST _ _ _ _ => E_digest | KCF_PROV_DIGEST_UPDATE _ _ _ => E_digest_update
  | KCF_PROV_DIGEST_KEY _ _ _ => E_digest_key | KCF_PROV_DIGEST_FINAL _ _ _ => E_digest_final | KCF_PROV_DIGEST_ATOMIC _ _ _ _ _ =>
      E_digest_atomic
  | KCF_PROV_ENCRYPT_INIT _ _ _ _ _ => E_encrypt_init | KCF_PROV_ENCRYPT _ _ _ _ => E_encrypt | KCF_PROV_ENCRYPT_UPDATE _ _ _ _ =>
      E_encrypt_update
  | KCF_PROV_ENCRYPT_FINAL _ _ _ => E_encrypt_final | KCF_PROV_ENCRYPT_ATOMIC _ _ _ _ _ _ _ => E_encrypt_atomic
  | KCF_PROV_DECRYPT_INIT _ _ _ _ _ => E_decrypt_init | KCF_PROV_DECRYPT _ _ _ _ => E_decrypt | KCF_PROV_DECRYPT_UPDATE _ _ _ _ =>
      E_decrypt_update
  | KCF_PROV_DECRYPT_FINAL _ _ _ => E_decrypt_final | KCF_PROV_DECRYPT_ATOMIC _ _ _ _ _ _ _ => E_decrypt_atomic
  end.
Definition sign_entry (c : sign_call) : entry :=
  match c with
  | KCF_PROV_MAC_INIT _ _ _ _ _ => E_mac_init | KCF_PROV_MAC _ _ _ _ => E_mac | KCF_PROV_MAC_UPDATE _ _ _ => E_mac_update
  | KCF_PROV_MAC_FINAL _ _ _ => E_mac_final | KCF_PROV_MAC_ATOMIC _ _ _ _ _ _ _ => E_mac_atomic
  | KCF_PROV_MAC_VERIFY_ATOMIC _ _ _ _ _ _ _ => E_mac_verify_atomic | KCF_PROV_SIGN_INIT _ _ _ _ _ =>
      E_sign_init | KCF_PROV_SIGN _ _ _ _ => E_sign
  | KCF_PROV_SIGN_UPDATE _ _ _ => E_sign_update | KCF_PROV_SIGN_FINAL _ _ _ => E_sign_final | KCF_PROV_SIGN_ATOMIC _ _ _ _ _ _ _ =>
      E_sign_atomic
  | KCF_PROV_SIGN_RECOVER_INIT _ _ _ _ _ => E_sign_recover_init | KCF_PROV_SIGN_RECOVER _ _ _ _ => E_sign_recover
  | KCF_PROV_SIGN_RECOVER_ATOMIC _ _ _ _ _ _ _ => E_sign_recover_atomic | KCF_PROV_VERIFY_INIT _ _ _ _ _ => E_verify_init
  | KCF_PROV_VERIFY _ _ _ _ => E_verify | KCF_PROV_VERIFY_UPDATE _ _ _ => E_verify_update | KCF_PROV_VERIFY_FINAL _ _ _ => E_verify_final
  | KCF_PROV_VERIFY_ATOMIC _ _ _ _ _ _ _ => E_verify_atomic | KCF_PROV_VERIFY_RECOVER_INIT _ _ _ _ _ => E_verify_recover_init
  | KCF_PROV_VERIFY_RECOVER _ _ _ _ => E_verify_recover | KCF_PROV_VERIFY_RECOVER_ATOMIC _ _ _ _ _ _ _ => E_verify_recover_atomic
  end.
Definition dual_entry (c : dual_call) : entry :=
  match c with
  | KCF_PROV_DIGEST_ENCRYPT_UPDATE _ _ _ _ _ => E_digest_encrypt_update | KCF_PROV_DECRYPT_DIGEST_UPDATE _ _ _ _ _ =>
      E_decrypt_digest_update
  | KCF_PROV_SIGN_ENCRYPT_UPDATE _ _ _ _ _ => E_sign_encrypt_update | KCF_PROV_DECRYPT_VERIFY_UPDATE _ _ _ _ _ => E_decrypt_verify_update
  | KCF_PROV_ENCRYPT_MAC_INIT _ _ _ _ _ _ _ _ => E_encrypt_mac_init | KCF_PROV_ENCRYPT_MAC _ _ _ _ _ => E_encrypt_mac
  | KCF_PROV_ENCRYPT_MAC_UPDATE _ _ _ _ => E_encrypt_mac_update | KCF_PROV_ENCRYPT_MAC_FINAL _ _ _ _ => E_encrypt_mac_final
  | KCF_PROV_ENCRYPT_MAC_ATOMIC _ _ _ _ _ _ _ _ _ _ _ => E_encrypt_mac_atomic | KCF_PROV_MAC_DECRYPT_INIT _ _ _ _ _ _ _ _ =>
      E_mac_decrypt_init
  | KCF_PROV_MAC_DECRYPT _ _ _ _ _ => E_mac_decrypt | KCF_PROV_MAC_DECRYPT_UPDATE _ _ _ _ => E_mac_decrypt_update
  | KCF_PROV_MAC_DECRYPT_FINAL _ _ _ _ => E_mac_decrypt_final | KCF_PROV_MAC_DECRYPT_ATOMIC _ _ _ _ _ _ _ _ _ _ _ => E_mac_decrypt_atomic
  | KCF_PROV_MAC_VERIFY_DECRYPT_ATOMIC _ _ _ _ _ _ _ _ _ _ _ => E_mac_verify_decrypt_atomic
  end.
Definition object_entry (c : object_call) : entry :=
  match c with
  | KCF_PROV_SEED_RANDOM _ _ _ _ => E_seed_random | KCF_PROV_GENERATE_RANDOM _ _ _ _ => E_generate_random
  | KCF_PROV_SESSION_OPEN _ _ _ => E_session_open | KCF_PROV_SESSION_CLOSE _ _ _ => E_session_close
  | KCF_PROV_SESSION_LOGIN _ _ _ _ _ => E_session_login | KCF_PROV_SESSION_LOGOUT _ _ => E_session_logout
  | KCF_PROV_OBJECT_CREATE _ _ _ _ _ => E_object_create | KCF_PROV_OBJECT_COPY _ _ _ _ _ _ => E_object_copy
  | KCF_PROV_OBJECT_DESTROY _ _ _ => E_object_destroy | KCF_PROV_OBJECT_GET_SIZE _ _ _ _ => E_object_get_size
  | KCF_PROV_OBJECT_GET_ATTRIBUTE_VALUE _ _ _ _ _ => E_object_get_attribute_value
  | KCF_PROV_OBJECT_SET_ATTRIBUTE_VALUE _ _ _ _ _ => E_object_set_attribute_value | KCF_PROV_OBJECT_FIND_INIT _ _ _ _ _ =>
      E_object_find_init
  | KCF_PROV_OBJECT_FIND _ _ _ _ _ => E_object_find | KCF_PROV_OBJECT_FIND_FINAL _ _ => E_object_find_final
  end.
Definition key_entry (c : key_call) : entry :=
  match c with
  | KCF_PROV_KEY_GENERATE _ _ _ _ _ _ => E_key_generate | KCF_PROV_KEY_GENERATE_PAIR _ _ _ _ _ _ _ _ _ => E_key_generate_pair
  | KCF_PROV_KEY_WRAP _ _ _ _ _ _ _ => E_key_wrap | KCF_PROV_KEY_UNWRAP _ _ _ _ _ _ _ _ _ => E_key_unwrap
  | KCF_PROV_KEY_DERIVE _ _ _ _ _ _ _ => E_key_derive | KCF_PROV_KEY_CHECK _ _ => E_key_check | KCF_PROV_EXT_INFO _ _ _ => E_ext_info
  | KCF_PROV_INIT_TOKEN _ _ _ _ => E_init_token | KCF_PROV_INIT_PIN _ _ _ _ => E_init_pin | KCF_PROV_SET_PIN _ _ _ _ _ _ => E_set_pin
  end.
Definition entry_of (c : call) : entry :=
  match c with Ctx c => ctx_entry c | Sign c => sign_entry c | Dual c => dual_entry c | Object c => object_entry c | Key c =>
      key_entry c end.

(** A provider with only the entry points in [K]. *)
Definition when {A} (b : bool) (x : option A) : option A := if b then x else None.
Definition keep (K : entry -> bool) (pd : kcf_provider_desc) : kcf_provider_desc :=
  let v := pd_ops_vector pd in
  {| pd_prov_handle := pd_prov_handle pd; pd_ops_vector := {|
     control_ops := control_ops v;
     digest_ops := (fun x => {|
       digest_init := when (K E_digest_init) (digest_init x); digest := when (K E_digest) (digest x);
       digest_update := when (K E_digest_update) (digest_update x); digest_key := when (K E_digest_key) (digest_key x);
       digest_final := when (K E_digest_final) (digest_final x); digest_atomic := when (K E_digest_atomic)
           (digest_atomic x) |}) <$> digest_ops v;
     cipher_ops := (fun x => {|
       encrypt_init := when (K E_encrypt_init) (encrypt_init x); encrypt := when (K E_encrypt) (encrypt x);
       encrypt_update := when (K E_encrypt_update) (encrypt_update x); encrypt_final := when (K E_encrypt_final) (encrypt_final x);
       encrypt_atomic := when (K E_encrypt_atomic) (encrypt_atomic x); decrypt_init := when (K E_decrypt_init) (decrypt_init x);
       decrypt := when (K E_decrypt) (decrypt x); decrypt_update := when (K E_decrypt_update) (decrypt_update x);
       decrypt_final := when (K E_decrypt_final) (decrypt_final x); decrypt_atomic := when (K E_decrypt_atomic)
           (decrypt_atomic x) |}) <$> cipher_ops v;
     mac_ops := (fun x => {|
       mac_init := when (K E_mac_init) (mac_init x); mac := when (K E_mac) (mac x); mac_update := when (K E_mac_update) (mac_update x);
       mac_final := when (K E_mac_final) (mac_final x); mac_atomic := when (K E_mac_atomic) (mac_atomic x);
       mac_verify_atomic := when (K E_mac_verify_atomic) (mac_verify_atomic x) |}) <$> mac_ops v;
     sign_ops := (fun x => {|
       sign_init := when (K E_sign_init) (sign_init x); sign := when (K E_sign) (sign x); sign_update := when (K E_sign_update)
           (sign_update x);
       sign_final := when (K E_sign_final) (sign_final x); sign_atomic := when (K E_sign_atomic) (sign_atomic x);
       sign_recover_init := when (K E_sign_recover_init) (sign_recover_init x); sign_recover := when (K E_sign_recover) (sign_recover x);
       sign_recover_atomic := when (K E_sign_recover_atomic) (sign_recover_atomic x) |}) <$> sign_ops v;
     verify_ops := (fun x => {|
       verify_init := when (K E_verify_init) (verify_init x); verify := when (K E_verify) (verify x);
       verify_update := when (K E_verify_update) (verify_update x); verify_final := when (K E_verify_final) (verify_final x);
       verify_atomic := when (K E_verify_atomic) (verify_atomic x); verify_recover_init := when (K E_verify_recover_init)
           (verify_recover_init x);
       verify_recover := when (K E_verify_recover) (verify_recover x);
       verify_recover_atomic := when (K E_verify_recover_atomic) (verify_recover_atomic x) |}) <$> verify_ops v;
     dual_ops := (fun x => {|
       digest_encrypt_update := when (K E_digest_encrypt_update) (digest_encrypt_update x);
       decrypt_digest_update := when (K E_decrypt_digest_update) (decrypt_digest_update x);
       sign_encrypt_update := when (K E_sign_encrypt_update) (sign_encrypt_update x);
       decrypt_verify_update := when (K E_decrypt_verify_update) (decrypt_verify_update x) |}) <$> dual_ops v;
     dual_cipher_mac_ops := (fun x => {|
       encrypt_mac_init := when (K E_encrypt_mac_init) (encrypt_mac_init x); encrypt_mac := when (K E_encrypt_mac) (encrypt_mac x);
       encrypt_mac_update := when (K E_encrypt_mac_update) (encrypt_mac_update x);
       encrypt_mac_final := when (K E_encrypt_mac_final) (encrypt_mac_final x);
       encrypt_mac_atomic := when (K E_encrypt_mac_atomic) (encrypt_mac_atomic x);
       mac_decrypt_init := when (K E_mac_decrypt_init) (mac_decrypt_init x); mac_decrypt := when (K E_mac_decrypt) (mac_decrypt x);
       mac_decrypt_update := when (K E_mac_decrypt_update) (mac_decrypt_update x);
       mac_decrypt_final := when (K E_mac_decrypt_final) (mac_decrypt_final x);
       mac_decrypt_atomic := when (K E_mac_decrypt_atomic) (mac_decrypt_atomic x);
       mac_verify_decrypt_atomic := when (K E_mac_verify_decrypt_atomic) (mac_verify_decrypt_atomic x) |}) <$> dual_cipher_mac_ops v;
     random_ops := (fun x => {|
       seed_random := when (K E_seed_random) (seed_random x); generate_random := when (K E_generate_random)
           (generate_random x) |}) <$> random_ops v;
     session_ops := (fun x => {|
       session_open := when (K E_session_open) (session_open x); session_close := when (K E_session_close) (session_close x);
       session_login := when (K E_session_login) (session_login x); session_logout := when (K E_session_logout)
           (session_logout x) |}) <$> session_ops v;
     object_ops := (fun x => {|
       object_create := when (K E_object_create) (object_create x); object_copy := when (K E_object_copy) (object_copy x);
       object_destroy := when (K E_object_destroy) (object_destroy x); object_get_size := when (K E_object_get_size) (object_get_size x);
       object_get_attribute_value := when (K E_object_get_attribute_value) (object_get_attribute_value x);
       object_set_attribute_value := when (K E_object_set_attribute_value) (object_set_attribute_value x);
       object_find_init := when (K E_object_find_init) (object_find_init x); object_find := when (K E_object_find) (object_find x);
       object_find_final := when (K E_object_find_final) (object_find_final x) |}) <$> object_ops v;
     key_ops := (fun x => {|
       key_generate := when (K E_key_generate) (key_generate x); key_generate_pair := when (K E_key_generate_pair) (key_generate_pair x);
       key_wrap := when (K E_key_wrap) (key_wrap x); key_unwrap := when (K E_key_unwrap) (key_unwrap x);
       key_derive := when (K E_key_derive) (key_derive x); key_check := when (K E_key_check) (key_check x) |}) <$> key_ops v;
     provider_ops := (fun x => {|
       ext_info := when (K E_ext_info) (ext_info x); init_token := when (K E_init_token) (init_token x);
       init_pin := when (K E_init_pin) (init_pin x); set_pin := when (K E_set_pin) (set_pin x) |}) <$> provider_ops v;
     ctx_ops := (fun x => {|
       create_ctx_template := when (K E_create_ctx_template) (create_ctx_template x); free_context := when (K E_free_context)
           (free_context x) |}) <$> ctx_ops v |} |}.

(** Whether the provider has the entry point. *)
Definition has {O F} (ops : option O) (e : O -> option F) : bool := match ops with Some v => match e v with Some _ => true | None =>
    false end | None => false end.
Definition supports (e : entry) (v : crypto_ops) : bool :=
  match e with
  | E_create_ctx_template => has (ctx_ops v) create_ctx_template | E_free_context => has (ctx_ops v) free_context
  | E_digest_init => has (digest_ops v) digest_init | E_digest => has (digest_ops v) digest | E_digest_update =>
      has (digest_ops v) digest_update
  | E_digest_key => has (digest_ops v) digest_key | E_digest_final => has (digest_ops v) digest_final
  | E_digest_atomic => has (digest_ops v) digest_atomic | E_encrypt_init => has (cipher_ops v) encrypt_init
  | E_encrypt => has (cipher_ops v) encrypt | E_encrypt_update => has (cipher_ops v) encrypt_update
  | E_encrypt_final => has (cipher_ops v) encrypt_final | E_encrypt_atomic => has (cipher_ops v) encrypt_atomic
  | E_decrypt_init => has (cipher_ops v) decrypt_init | E_decrypt => has (cipher_ops v) decrypt
  | E_decrypt_update => has (cipher_ops v) decrypt_update | E_decrypt_final => has (cipher_ops v) decrypt_final
  | E_decrypt_atomic => has (cipher_ops v) decrypt_atomic | E_mac_init => has (mac_ops v) mac_init | E_mac => has (mac_ops v) mac
  | E_mac_update => has (mac_ops v) mac_update | E_mac_final => has (mac_ops v) mac_final | E_mac_atomic => has (mac_ops v) mac_atomic
  | E_mac_verify_atomic => has (mac_ops v) mac_verify_atomic | E_sign_init => has (sign_ops v) sign_init | E_sign => has (sign_ops v) sign
  | E_sign_update => has (sign_ops v) sign_update | E_sign_final => has (sign_ops v) sign_final | E_sign_atomic =>
      has (sign_ops v) sign_atomic
  | E_sign_recover_init => has (sign_ops v) sign_recover_init | E_sign_recover => has (sign_ops v) sign_recover
  | E_sign_recover_atomic => has (sign_ops v) sign_recover_atomic | E_verify_init => has (verify_ops v) verify_init
  | E_verify => has (verify_ops v) verify | E_verify_update => has (verify_ops v) verify_update | E_verify_final =>
      has (verify_ops v) verify_final
  | E_verify_atomic => has (verify_ops v) verify_atomic | E_verify_recover_init => has (verify_ops v) verify_recover_init
  | E_verify_recover => has (verify_ops v) verify_recover | E_verify_recover_atomic => has (verify_ops v) verify_recover_atomic
  | E_digest_encrypt_update => has (dual_ops v) digest_encrypt_update | E_decrypt_digest_update => has (dual_ops v) decrypt_digest_update
  | E_sign_encrypt_update => has (dual_ops v) sign_encrypt_update | E_decrypt_verify_update => has (dual_ops v) decrypt_verify_update
  | E_encrypt_mac_init => has (dual_cipher_mac_ops v) encrypt_mac_init | E_encrypt_mac => has (dual_cipher_mac_ops v) encrypt_mac
  | E_encrypt_mac_update => has (dual_cipher_mac_ops v) encrypt_mac_update | E_encrypt_mac_final =>
      has (dual_cipher_mac_ops v) encrypt_mac_final
  | E_encrypt_mac_atomic => has (dual_cipher_mac_ops v) encrypt_mac_atomic | E_mac_decrypt_init =>
      has (dual_cipher_mac_ops v) mac_decrypt_init
  | E_mac_decrypt => has (dual_cipher_mac_ops v) mac_decrypt | E_mac_decrypt_update => has (dual_cipher_mac_ops v) mac_decrypt_update
  | E_mac_decrypt_final => has (dual_cipher_mac_ops v) mac_decrypt_final | E_mac_decrypt_atomic =>
      has (dual_cipher_mac_ops v) mac_decrypt_atomic
  | E_mac_verify_decrypt_atomic => has (dual_cipher_mac_ops v) mac_verify_decrypt_atomic | E_seed_random => has (random_ops v) seed_random
  | E_generate_random => has (random_ops v) generate_random | E_session_open => has (session_ops v) session_open
  | E_session_close => has (session_ops v) session_close | E_session_login => has (session_ops v) session_login
  | E_session_logout => has (session_ops v) session_logout | E_object_create => has (object_ops v) object_create
  | E_object_copy => has (object_ops v) object_copy | E_object_destroy => has (object_ops v) object_destroy
  | E_object_get_size => has (object_ops v) object_get_size | E_object_get_attribute_value => has (object_ops v) object_get_attribute_value
  | E_object_set_attribute_value => has (object_ops v) object_set_attribute_value | E_object_find_init =>
      has (object_ops v) object_find_init
  | E_object_find => has (object_ops v) object_find | E_object_find_final => has (object_ops v) object_find_final
  | E_key_generate => has (key_ops v) key_generate | E_key_generate_pair => has (key_ops v) key_generate_pair
  | E_key_wrap => has (key_ops v) key_wrap | E_key_unwrap => has (key_ops v) key_unwrap | E_key_derive => has (key_ops v) key_derive
  | E_key_check => has (key_ops v) key_check | E_ext_info => has (provider_ops v) ext_info | E_init_token => has (provider_ops v) init_token
  | E_init_pin => has (provider_ops v) init_pin | E_set_pin => has (provider_ops v) set_pin
  end.

Lemma try_keep {O F} (v : option O) (e : O -> option F) (k : O -> O) b call s : (forall x, e (k x) = when b (e x)) ->
  try (k <$> v) e call s = if b then try v e call s else (CRYPTO_NOT_SUPPORTED, s).
Proof. intros H. destruct v as [x|]; simpl; [|by destruct b]. rewrite H. by destruct b. Qed.
Lemma exec_keep K c pd s : kcf_exec c (keep K pd) s = if K (entry_of c) then kcf_exec c pd s else (CRYPTO_NOT_SUPPORTED, s).
Proof.
  destruct c as [c|c|c|c|c]; destruct c; apply try_keep; reflexivity.
Qed.
Lemma supports_keep K e pd : supports e (pd_ops_vector (keep K pd)) = K e && supports e (pd_ops_vector pd).
Proof.
  assert (forall O F (v : option O) (f : O -> option F) k b, (forall x, f (k x) = when b (f x)) -> has (k <$> v) f = b && has v f) as H.
  { intros O F [x|] f k b Hk; simpl; [rewrite Hk|by destruct b]. by destruct b. }
  destruct e; apply H; reflexivity.
Qed.
Lemma exec_unsupported c pd s : supports (entry_of c) (pd_ops_vector pd) = false -> kcf_exec c pd s = (CRYPTO_NOT_SUPPORTED, s).
Proof.
  assert (forall O F (v : option O) (e : O -> option F) call, has v e = false -> try v e call s = (CRYPTO_NOT_SUPPORTED, s)) as H.
  { intros O F [x|] e call; simpl; [|done]. by destruct (e x). }
  destruct c as [c|c|c|c|c]; destruct c; apply H.
Qed.
End Dispatch.

(** ** A provider that records its calls

    Pointers are numbers, and the state is the list of the calls made, each
    with the arguments in the order of the prototype. *)
Definition tracing : CryptoTypes := {| kstate := list (entry * list Z);
  char_p := Z; crypto_ctx_p := Z; crypto_data_p := Z; crypto_dual_data_p := Z; crypto_key_p := Z; crypto_mechanism_p := Z;
  crypto_object_attribute_p := Z; crypto_object_id_p := Z; crypto_provider_ext_info_p := Z; crypto_provider_handle_t := Z;
  crypto_req_handle_t := Z; crypto_session_id_p := Z; crypto_spi_ctx_template_p := Z; crypto_spi_ctx_template_t := Z; size_p := Z;
      uchar_p := Z;
  uint_p := Z; void_p := Z; void_pp := Z |}.
#[local] Existing Instance tracing.
Section Tracer.
Context (answer : entry -> list Z -> Z).
Definition note (e : entry) (args : list Z) : op := fun log => (answer e args, log ++ [(e, args)]).
Definition tracer (handle : Z) : kcf_provider_desc := {| pd_prov_handle := handle; pd_ops_vector := {|
  control_ops := None;
  digest_ops := Some {|
    digest_init := Some (fun x0 x1 x2 => note E_digest_init [x0; x1; x2]); digest := Some (fun x0 x1 x2 x3 =>
        note E_digest [x0; x1; x2; x3]);
    digest_update := Some (fun x0 x1 x2 => note E_digest_update [x0; x1; x2]); digest_key := Some (fun x0 x1 x2 =>
        note E_digest_key [x0; x1; x2]);
    digest_final := Some (fun x0 x1 x2 => note E_digest_final [x0; x1; x2]);
    digest_atomic := Some (fun x0 x1 x2 x3 x4 x5 => note E_digest_atomic [x0; x1; x2; x3; x4; x5]) |};
  cipher_ops := Some {|
    encrypt_init := Some (fun x0 x1 x2 x3 x4 => note E_encrypt_init [x0; x1; x2; x3; x4]);
    encrypt := Some (fun x0 x1 x2 x3 => note E_encrypt [x0; x1; x2; x3]);
    encrypt_update := Some (fun x0 x1 x2 x3 => note E_encrypt_update [x0; x1; x2; x3]);
    encrypt_final := Some (fun x0 x1 x2 => note E_encrypt_final [x0; x1; x2]);
    encrypt_atomic := Some (fun x0 x1 x2 x3 x4 x5 x6 x7 => note E_encrypt_atomic [x0; x1; x2; x3; x4; x5; x6; x7]);
    decrypt_init := Some (fun x0 x1 x2 x3 x4 => note E_decrypt_init [x0; x1; x2; x3; x4]);
    decrypt := Some (fun x0 x1 x2 x3 => note E_decrypt [x0; x1; x2; x3]);
    decrypt_update := Some (fun x0 x1 x2 x3 => note E_decrypt_update [x0; x1; x2; x3]);
    decrypt_final := Some (fun x0 x1 x2 => note E_decrypt_final [x0; x1; x2]);
    decrypt_atomic := Some (fun x0 x1 x2 x3 x4 x5 x6 x7 => note E_decrypt_atomic [x0; x1; x2; x3; x4; x5; x6; x7]) |};
  mac_ops := Some {|
    mac_init := Some (fun x0 x1 x2 x3 x4 => note E_mac_init [x0; x1; x2; x3; x4]); mac := Some (fun x0 x1 x2 x3 =>
        note E_mac [x0; x1; x2; x3]);
    mac_update := Some (fun x0 x1 x2 => note E_mac_update [x0; x1; x2]); mac_final := Some (fun x0 x1 x2 => note E_mac_final [x0; x1; x2]);
    mac_atomic := Some (fun x0 x1 x2 x3 x4 x5 x6 x7 => note E_mac_atomic [x0; x1; x2; x3; x4; x5; x6; x7]);
    mac_verify_atomic := Some (fun x0 x1 x2 x3 x4 x5 x6 x7 => note E_mac_verify_atomic [x0; x1; x2; x3; x4; x5; x6; x7]) |};
  sign_ops := Some {|
    sign_init := Some (fun x0 x1 x2 x3 x4 => note E_sign_init [x0; x1; x2; x3; x4]);
    sign := Some (fun x0 x1 x2 x3 => note E_sign [x0; x1; x2; x3]); sign_update := Some (fun x0 x1 x2 => note E_sign_update [x0; x1; x2]);
    sign_final := Some (fun x0 x1 x2 => note E_sign_final [x0; x1; x2]);
    sign_atomic := Some (fun x0 x1 x2 x3 x4 x5 x6 x7 => note E_sign_atomic [x0; x1; x2; x3; x4; x5; x6; x7]);
    sign_recover_init := Some (fun x0 x1 x2 x3 x4 => note E_sign_recover_init [x0; x1; x2; x3; x4]);
    sign_recover := Some (fun x0 x1 x2 x3 => note E_sign_recover [x0; x1; x2; x3]);
    sign_recover_atomic := Some (fun x0 x1 x2 x3 x4 x5 x6 x7 => note E_sign_recover_atomic [x0; x1; x2; x3; x4; x5; x6; x7]) |};
  verify_ops := Some {|
    verify_init := Some (fun x0 x1 x2 x3 x4 => note E_verify_init [x0; x1; x2; x3; x4]);
    verify := Some (fun x0 x1 x2 x3 => note E_verify [x0; x1; x2; x3]); verify_update := Some (fun x0 x1 x2 =>
        note E_verify_update [x0; x1; x2]);
    verify_final := Some (fun x0 x1 x2 => note E_verify_final [x0; x1; x2]);
    verify_atomic := Some (fun x0 x1 x2 x3 x4 x5 x6 x7 => note E_verify_atomic [x0; x1; x2; x3; x4; x5; x6; x7]);
    verify_recover_init := Some (fun x0 x1 x2 x3 x4 => note E_verify_recover_init [x0; x1; x2; x3; x4]);
    verify_recover := Some (fun x0 x1 x2 x3 => note E_verify_recover [x0; x1; x2; x3]);
    verify_recover_atomic := Some (fun x0 x1 x2 x3 x4 x5 x6 x7 => note E_verify_recover_atomic [x0; x1; x2; x3; x4; x5; x6; x7]) |};
  dual_ops := Some {|
    digest_encrypt_update := Some (fun x0 x1 x2 x3 x4 => note E_digest_encrypt_update [x0; x1; x2; x3; x4]);
    decrypt_digest_update := Some (fun x0 x1 x2 x3 x4 => note E_decrypt_digest_update [x0; x1; x2; x3; x4]);
    sign_encrypt_update := Some (fun x0 x1 x2 x3 x4 => note E_sign_encrypt_update [x0; x1; x2; x3; x4]);
    decrypt_verify_update := Some (fun x0 x1 x2 x3 x4 => note E_decrypt_verify_update [x0; x1; x2; x3; x4]) |};
  dual_cipher_mac_ops := Some {|
    encrypt_mac_init := Some (fun x0 x1 x2 x3 x4 x5 x6 x7 => note E_encrypt_mac_init [x0; x1; x2; x3; x4; x5; x6; x7]);
    encrypt_mac := Some (fun x0 x1 x2 x3 x4 => note E_encrypt_mac [x0; x1; x2; x3; x4]);
    encrypt_mac_update := Some (fun x0 x1 x2 x3 => note E_encrypt_mac_update [x0; x1; x2; x3]);
    encrypt_mac_final := Some (fun x0 x1 x2 x3 => note E_encrypt_mac_final [x0; x1; x2; x3]);
    encrypt_mac_atomic := Some (fun x0 x1 x2 x3 x4 x5 x6 x7 x8 x9 x10 x11 =>
        note E_encrypt_mac_atomic [x0; x1; x2; x3; x4; x5; x6; x7; x8; x9; x10; x11]);
    mac_decrypt_init := Some (fun x0 x1 x2 x3 x4 x5 x6 x7 => note E_mac_decrypt_init [x0; x1; x2; x3; x4; x5; x6; x7]);
    mac_decrypt := Some (fun x0 x1 x2 x3 x4 => note E_mac_decrypt [x0; x1; x2; x3; x4]);
    mac_decrypt_update := Some (fun x0 x1 x2 x3 => note E_mac_decrypt_update [x0; x1; x2; x3]);
    mac_decrypt_final := Some (fun x0 x1 x2 x3 => note E_mac_decrypt_final [x0; x1; x2; x3]);
    mac_decrypt_atomic := Some (fun x0 x1 x2 x3 x4 x5 x6 x7 x8 x9 x10 x11 =>
        note E_mac_decrypt_atomic [x0; x1; x2; x3; x4; x5; x6; x7; x8; x9; x10; x11]);
    mac_verify_decrypt_atomic := Some (fun x0 x1 x2 x3 x4 x5 x6 x7 x8 x9 x10 x11 =>
        note E_mac_verify_decrypt_atomic [x0; x1; x2; x3; x4; x5; x6; x7; x8; x9; x10; x11]) |};
  random_ops := Some {|
    seed_random := Some (fun x0 x1 x2 x3 x4 => note E_seed_random [x0; x1; x2; x3; x4]);
    generate_random := Some (fun x0 x1 x2 x3 x4 => note E_generate_random [x0; x1; x2; x3; x4]) |};
  session_ops := Some {|
    session_open := Some (fun x0 x1 x2 => note E_session_open [x0; x1; x2]);
    session_close := Some (fun x0 x1 x2 => note E_session_close [x0; x1; x2]);
    session_login := Some (fun x0 x1 x2 x3 x4 x5 => note E_session_login [x0; x1; x2; x3; x4; x5]);
    session_logout := Some (fun x0 x1 x2 => note E_session_logout [x0; x1; x2]) |};
  object_ops := Some {|
    object_create := Some (fun x0 x1 x2 x3 x4 x5 => note E_object_create [x0; x1; x2; x3; x4; x5]);
    object_copy := Some (fun x0 x1 x2 x3 x4 x5 x6 => note E_object_copy [x0; x1; x2; x3; x4; x5; x6]);
    object_destroy := Some (fun x0 x1 x2 x3 => note E_object_destroy [x0; x1; x2; x3]);
    object_get_size := Some (fun x0 x1 x2 x3 x4 => note E_object_get_size [x0; x1; x2; x3; x4]);
    object_get_attribute_value := Some (fun x0 x1 x2 x3 x4 x5 => note E_object_get_attribute_value [x0; x1; x2; x3; x4; x5]);
    object_set_attribute_value := Some (fun x0 x1 x2 x3 x4 x5 => note E_object_set_attribute_value [x0; x1; x2; x3; x4; x5]);
    object_find_init := Some (fun x0 x1 x2 x3 x4 x5 => note E_object_find_init [x0; x1; x2; x3; x4; x5]);
    object_find := Some (fun x0 x1 x2 x3 x4 x5 => note E_object_find [x0; x1; x2; x3; x4; x5]);
    object_find_final := Some (fun x0 x1 x2 => note E_object_find_final [x0; x1; x2]) |};
  key_ops := Some {|
    key_generate := Some (fun x0 x1 x2 x3 x4 x5 x6 => note E_key_generate [x0; x1; x2; x3; x4; x5; x6]);
    key_generate_pair := Some (fun x0 x1 x2 x3 x4 x5 x6 x7 x8 x9 => note E_key_generate_pair [x0; x1; x2; x3; x4; x5; x6; x7; x8; x9]);
    key_wrap := Some (fun x0 x1 x2 x3 x4 x5 x6 x7 => note E_key_wrap [x0; x1; x2; x3; x4; x5; x6; x7]);
    key_unwrap := Some (fun x0 x1 x2 x3 x4 x5 x6 x7 x8 x9 => note E_key_unwrap [x0; x1; x2; x3; x4; x5; x6; x7; x8; x9]);
    key_derive := Some (fun x0 x1 x2 x3 x4 x5 x6 x7 => note E_key_derive [x0; x1; x2; x3; x4; x5; x6; x7]);
    key_check := Some (fun x0 x1 x2 => note E_key_check [x0; x1; x2]) |};
  provider_ops := Some {|
    ext_info := Some (fun x0 x1 x2 => note E_ext_info [x0; x1; x2]);
    init_token := Some (fun x0 x1 x2 x3 x4 => note E_init_token [x0; x1; x2; x3; x4]);
    init_pin := Some (fun x0 x1 x2 x3 x4 => note E_init_pin [x0; x1; x2; x3; x4]);
    set_pin := Some (fun x0 x1 x2 x3 x4 x5 x6 => note E_set_pin [x0; x1; x2; x3; x4; x5; x6]) |};
  ctx_ops := Some {|
    create_ctx_template := Some (fun x0 x1 x2 x3 x4 x5 => note E_create_ctx_template [x0; x1; x2; x3; x4; x5]);
    free_context := Some (fun x0 => note E_free_context [x0]) |} |} |}.
End Tracer.
(** What a macro is given: the handle of the provider if it passes one, and its parameters. *)
Definition ctx_given (handle : Z) (c : ctx_call) : list Z :=
  match c with
  | KCF_PROV_CREATE_CTX_TEMPLATE mech key templ size req => [handle; mech; key; templ; size; req] | KCF_PROV_FREE_CONTEXT ctx => [ctx]
  | KCF_PROV_DIGEST_INIT ctx mech req => [ctx; mech; req] | KCF_PROV_DIGEST ctx data _digest req => [ctx; data; _digest; req]
  | KCF_PROV_DIGEST_UPDATE ctx data req => [ctx; data; req] | KCF_PROV_DIGEST_KEY ctx key req => [ctx; key; req]
  | KCF_PROV_DIGEST_FINAL ctx digest req => [ctx; digest; req]
  | KCF_PROV_DIGEST_ATOMIC session mech data digest req => [handle; session; mech; data; digest; req]
  | KCF_PROV_ENCRYPT_INIT ctx mech key templ req => [ctx; mech; key; templ; req]
  | KCF_PROV_ENCRYPT ctx plaintext ciphertext req => [ctx; plaintext; ciphertext; req]
  | KCF_PROV_ENCRYPT_UPDATE ctx plaintext ciphertext req => [ctx; plaintext; ciphertext; req]
  | KCF_PROV_ENCRYPT_FINAL ctx ciphertext req => [ctx; ciphertext; req]
  | KCF_PROV_ENCRYPT_ATOMIC session mech key plaintext ciphertext templ req =>
      [handle; session; mech; key; plaintext; ciphertext; templ; req]
  | KCF_PROV_DECRYPT_INIT ctx mech key templ req => [ctx; mech; key; templ; req]
  | KCF_PROV_DECRYPT ctx ciphertext plaintext req => [ctx; ciphertext; plaintext; req]
  | KCF_PROV_DECRYPT_UPDATE ctx ciphertext plaintext req => [ctx; ciphertext; plaintext; req]
  | KCF_PROV_DECRYPT_FINAL ctx plaintext req => [ctx; plaintext; req]
  | KCF_PROV_DECRYPT_ATOMIC session mech key ciphertext plaintext templ req =>
      [handle; session; mech; key; ciphertext; plaintext; templ; req]
  end.
Definition sign_given (handle : Z) (c : sign_call) : list Z :=
  match c with
  | KCF_PROV_MAC_INIT ctx mech key templ req => [ctx; mech; key; templ; req] | KCF_PROV_MAC ctx data _mac req => [ctx; data; _mac; req]
  | KCF_PROV_MAC_UPDATE ctx data req => [ctx; data; req] | KCF_PROV_MAC_FINAL ctx mac req => [ctx; mac; req]
  | KCF_PROV_MAC_ATOMIC session mech key data mac templ req => [handle; session; mech; key; data; mac; templ; req]
  | KCF_PROV_MAC_VERIFY_ATOMIC session mech key data mac templ req => [handle; session; mech; key; data; mac; templ; req]
  | KCF_PROV_SIGN_INIT ctx mech key templ req => [ctx; mech; key; templ; req] | KCF_PROV_SIGN ctx data sig req => [ctx; data; sig; req]
  | KCF_PROV_SIGN_UPDATE ctx data req => [ctx; data; req] | KCF_PROV_SIGN_FINAL ctx sig req => [ctx; sig; req]
  | KCF_PROV_SIGN_ATOMIC session mech key data templ sig req => [handle; session; mech; key; data; templ; sig; req]
  | KCF_PROV_SIGN_RECOVER_INIT ctx mech key templ req => [ctx; mech; key; templ; req]
  | KCF_PROV_SIGN_RECOVER ctx data sig req => [ctx; data; sig; req]
  | KCF_PROV_SIGN_RECOVER_ATOMIC session mech key data templ sig req => [handle; session; mech; key; data; templ; sig; req]
  | KCF_PROV_VERIFY_INIT ctx mech key templ req => [ctx; mech; key; templ; req] | KCF_PROV_VERIFY ctx data sig req => [ctx; data; sig; req]
  | KCF_PROV_VERIFY_UPDATE ctx data req => [ctx; data; req] | KCF_PROV_VERIFY_FINAL ctx sig req => [ctx; sig; req]
  | KCF_PROV_VERIFY_ATOMIC session mech key data templ sig req => [handle; session; mech; key; data; templ; sig; req]
  | KCF_PROV_VERIFY_RECOVER_INIT ctx mech key templ req => [ctx; mech; key; templ; req]
  | KCF_PROV_VERIFY_RECOVER ctx sig data req => [ctx; sig; data; req]
  | KCF_PROV_VERIFY_RECOVER_ATOMIC session mech key sig templ data req => [handle; session; mech; key; sig; templ; data; req]
  end.
Definition dual_given (handle : Z) (c : dual_call) : list Z :=
  match c with
  | KCF_PROV_DIGEST_ENCRYPT_UPDATE digest_ctx encrypt_ctx plaintext ciphertext req => [digest_ctx; encrypt_ctx; plaintext; ciphertext; req]
  | KCF_PROV_DECRYPT_DIGEST_UPDATE decrypt_ctx digest_ctx ciphertext plaintext req => [decrypt_ctx; digest_ctx; ciphertext; plaintext; req]
  | KCF_PROV_SIGN_ENCRYPT_UPDATE sign_ctx encrypt_ctx plaintext ciphertext req => [sign_ctx; encrypt_ctx; plaintext; ciphertext; req]
  | KCF_PROV_DECRYPT_VERIFY_UPDATE decrypt_ctx verify_ctx ciphertext plaintext req => [decrypt_ctx; verify_ctx; ciphertext; plaintext; req]
  | KCF_PROV_ENCRYPT_MAC_INIT ctx encr_mech encr_key mac_mech mac_key encr_ctx_template mac_ctx_template req =>
      [ctx; encr_mech; encr_key; mac_mech; mac_key; encr_ctx_template; mac_ctx_template; req]
  | KCF_PROV_ENCRYPT_MAC ctx plaintext ciphertext mac req => [ctx; plaintext; ciphertext; mac; req]
  | KCF_PROV_ENCRYPT_MAC_UPDATE ctx plaintext ciphertext req => [ctx; plaintext; ciphertext; req]
  | KCF_PROV_ENCRYPT_MAC_FINAL ctx ciphertext mac req => [ctx; ciphertext; mac; req]
  | KCF_PROV_ENCRYPT_MAC_ATOMIC session encr_mech encr_key mac_mech mac_key plaintext ciphertext mac encr_ctx_template mac_ctx_template
      req => [handle; session; encr_mech; encr_key; mac_mech; mac_key; plaintext; ciphertext; mac; encr_ctx_template; mac_ctx_template; req]
  | KCF_PROV_MAC_DECRYPT_INIT ctx mac_mech mac_key decr_mech decr_key mac_ctx_template decr_ctx_template req =>
      [ctx; mac_mech; mac_key; decr_mech; decr_key; mac_ctx_template; decr_ctx_template; req]
  | KCF_PROV_MAC_DECRYPT ctx ciphertext mac plaintext req => [ctx; ciphertext; mac; plaintext; req]
  | KCF_PROV_MAC_DECRYPT_UPDATE ctx ciphertext plaintext req => [ctx; ciphertext; plaintext; req]
  | KCF_PROV_MAC_DECRYPT_FINAL ctx mac plaintext req => [ctx; mac; plaintext; req]
  | KCF_PROV_MAC_DECRYPT_ATOMIC session mac_mech mac_key decr_mech decr_key ciphertext mac plaintext mac_ctx_template decr_ctx_template
      req => [handle; session; mac_mech; mac_key; decr_mech; decr_key; ciphertext; mac; plaintext; mac_ctx_template; decr_ctx_template; req]
  | KCF_PROV_MAC_VERIFY_DECRYPT_ATOMIC session mac_mech mac_key decr_mech decr_key ciphertext mac plaintext mac_ctx_template
      decr_ctx_template req => [handle; session; mac_mech; mac_key; decr_mech; decr_key; ciphertext; mac; plaintext; mac_ctx_template;
      decr_ctx_template; req]
  end.
Definition object_given (handle : Z) (c : object_call) : list Z :=
  match c with
  | KCF_PROV_SEED_RANDOM session buf len req => [handle; session; buf; len; req]
  | KCF_PROV_GENERATE_RANDOM session buf len req => [handle; session; buf; len; req]
  | KCF_PROV_SESSION_OPEN session req pd' => [pd_prov_handle pd'; session; req]
  | KCF_PROV_SESSION_CLOSE session req pd' => [pd_prov_handle pd'; session; req]
  | KCF_PROV_SESSION_LOGIN session user_type pin len req => [handle; session; user_type; pin; len; req]
  | KCF_PROV_SESSION_LOGOUT session req => [handle; session; req]
  | KCF_PROV_OBJECT_CREATE session templ count obj req => [handle; session; templ; count; obj; req]
  | KCF_PROV_OBJECT_COPY session obj templ count new_object req => [handle; session; obj; templ; count; new_object; req]
  | KCF_PROV_OBJECT_DESTROY session obj req => [handle; session; obj; req]
  | KCF_PROV_OBJECT_GET_SIZE session obj size req => [handle; session; obj; size; req]
  | KCF_PROV_OBJECT_GET_ATTRIBUTE_VALUE session obj templ count req => [handle; session; obj; templ; count; req]
  | KCF_PROV_OBJECT_SET_ATTRIBUTE_VALUE session obj templ count req => [handle; session; obj; templ; count; req]
  | KCF_PROV_OBJECT_FIND_INIT session templ count ppriv req => [handle; session; templ; count; ppriv; req]
  | KCF_PROV_OBJECT_FIND ppriv objects max_objects object_count req => [handle; ppriv; objects; max_objects; object_count; req]
  | KCF_PROV_OBJECT_FIND_FINAL ppriv req => [handle; ppriv; req]
  end.
Definition key_given (handle : Z) (c : key_call) : list Z :=
  match c with
  | KCF_PROV_KEY_GENERATE session mech templ count obj req => [handle; session; mech; templ; count; obj; req]
  | KCF_PROV_KEY_GENERATE_PAIR session mech pub_template pub_count priv_template priv_count pub_key priv_key req =>
      [handle; session; mech; pub_template; pub_count; priv_template; priv_count; pub_key; priv_key; req]
  | KCF_PROV_KEY_WRAP session mech wrapping_key key wrapped_key wrapped_key_len req =>
      [handle; session; mech; wrapping_key; key; wrapped_key; wrapped_key_len; req]
  | KCF_PROV_KEY_UNWRAP session mech unwrapping_key wrapped_key wrapped_key_len templ count key req =>
      [handle; session; mech; unwrapping_key; wrapped_key; wrapped_key_len; templ; count; key; req]
  | KCF_PROV_KEY_DERIVE session mech base_key templ count key req => [handle; session; mech; base_key; templ; count; key; req]
  | KCF_PROV_KEY_CHECK mech key => [handle; mech; key] | KCF_PROV_EXT_INFO provext_info req pd' => [pd_prov_handle pd'; provext_info; req]
  | KCF_PROV_INIT_TOKEN pin pin_len label req => [handle; pin; pin_len; label; req]
  | KCF_PROV_INIT_PIN session pin pin_len req => [handle; session; pin; pin_len; req]
  | KCF_PROV_SET_PIN session old_pin old_len new_pin new_len req => [handle; session; old_pin; old_len; new_pin; new_len; req]
  end.
Definition given (handle : Z) (c : call) : list Z :=
  match c with Ctx c => ctx_given handle c | Sign c => sign_given handle c | Dual c => dual_given handle c
  | Object c => object_given handle c | Key c => key_given handle c end.

Ltac permute := simpl; repeat first [apply perm_nil | apply perm_skip | eapply perm_trans; [apply perm_swap|]].
Lemma exec_traced answer handle c log : exists args,
  kcf_exec c (tracer answer handle) log = (answer (entry_of c) args, log ++ [(entry_of c, args)]) /\ Permutation args (given handle c).
Proof. destruct c as [c|c|c|c|c]; destruct c; eexists; (split; [reflexivity|permute]). Qed.

(** The prototypes of four entry points have the template after the data that
    the macros have before it. *)
Definition reordered : list entry := [E_sign_atomic; E_sign_recover_atomic; E_verify_atomic; E_verify_recover_atomic].
Lemma traced_order answer handle c log : entry_of c ∉ reordered ->
  kcf_exec c (tracer answer handle) log = (answer (entry_of c) (given handle c), log ++ [(entry_of c, given handle c)]).
Proof. destruct c as [c|c|c|c|c]; destruct c; first [intros _; reflexivity | intros H; destruct H; unfold reordered; set_solver]. Qed.

(** C25: calls of a provider.  Every macro uses one entry point, the one it is
    named after: without it the result is [CRYPTO_NOT_SUPPORTED] and nothing
    happens, and whether the provider has any of the others makes no difference.
    The entry point is called once, with every argument of the macro and the handle
    of the provider once and, but for four macros whose parameters are in another
    order, in this order; its result is the result. *)
Theorem provider_dispatch :
  (forall (T : CryptoTypes) c pd s K,
     kcf_exec c (keep K pd) s = (if K (entry_of c) then kcf_exec c pd s else (CRYPTO_NOT_SUPPORTED, s))
     /\ (supports (entry_of c) (pd_ops_vector pd) = false -> kcf_exec c pd s = (CRYPTO_NOT_SUPPORTED, s)))
  /\ forall answer handle c log, exists args,
       kcf_exec c (tracer answer handle) log = (answer (entry_of c) args, log ++ [(entry_of c, args)])
       /\ Permutation args (given handle c) /\ (entry_of c ∉ reordered -> args = given handle c).
Proof.
  split; [intros T c pd s K; split; [apply exec_keep|apply exec_unsupported]|]. intros answer handle c log.
  destruct (exec_traced answer handle c log) as (args & E & P). exists args. split_and!; [done|done|]. intros H.
  pose proof (traced_order answer handle c log H) as E'. rewrite E in E'. injection E' as _ E'. apply app_inj_tail in E' as [_ [= E']].
      done.
Qed.
Lemma provider_dispatch_witness :
  kcf_exec (Ctx (KCF_PROV_DIGEST_UPDATE 5 6 7)) (keep (fun e => bool_decide (e = E_digest)) (tracer (fun _ _ =>
      0) 1)) [] = (CRYPTO_NOT_SUPPORTED, []).
Proof.
  destruct provider_dispatch as [H _].
  destruct (H tracing (Ctx (@KCF_PROV_DIGEST_UPDATE tracing 5 6 7)) (tracer (fun _ _ => 0) 1) [] (fun e =>
      bool_decide (e = E_digest))) as [E _]. exact E.
Defined.

(** ** Runs of calls *)
Section Runs.
Context {T : CryptoTypes}.
(** Each call is followed by the update of the statistics. *)
Fixpoint kcf_run (cs : list call) (pd : kcf_provider_desc) (s : kstate) (i : kcf_sched_info) : list Z * kstate * kcf_sched_info :=
  match cs with
  | [] => ([], s, i)
  | c :: cs =>
      let '(r, s) := kcf_exec c pd s in
      let '(rs, s, i) := kcf_run cs pd s (KCF_PROV_INCRSTATS i r) in (r :: rs, s, i)
  end.
Definition busy (r : Z) : bool := r =? CRYPTO_BUSY.
Definition failed (r : Z) : bool := negb (bool_decide (r ∈ [CRYPTO_SUCCESS; CRYPTO_QUEUED; CRYPTO_BUSY])).
Definition count (p : Z -> bool) (rs : list Z) : Z := Z.of_nat (length (List.filter p rs)).
Definition info_ok (i : kcf_sched_info) : Prop := in_u 64 (ks_ndispatches i) /\ in_u 64 (ks_nfails i) /\ in_u 64 (ks_nbusy_rval i).

Lemma incrstats_spec i r : KCF_PROV_INCRSTATS i r =
  {| ks_ndispatches := u64 (ks_ndispatches i + 1); ks_nfails := if failed r then u64 (ks_nfails i + 1) else ks_nfails i;
     ks_nbusy_rval := if busy r then u64 (ks_nbusy_rval i + 1) else ks_nbusy_rval i |}.
Proof.
  unfold KCF_PROV_INCRSTATS, failed, busy. destruct (Z.eqb_spec r CRYPTO_BUSY) as [->|Hb]; [reflexivity|].
  destruct (Z.eqb_spec r CRYPTO_SUCCESS) as [->|Hs]; [reflexivity|]. destruct (Z.eqb_spec r CRYPTO_QUEUED) as [->|Hq]; [reflexivity|].
  rewrite bool_decide_eq_false_2 by set_solver. reflexivity.
Qed.
Lemma wrap_count w x n k : wrapu w (wrapu w (x + n) + k) = wrapu w (x + (n + k)).
Proof. unfold wrapu. rewrite Zplus_mod_idemp_l. f_equal. lia. Qed.

Lemma run_counts cs pd : forall s i, info_ok i ->
  let '(rs, s', i') := kcf_run cs pd s i in
  length rs = length cs /\ info_ok i' /\ ks_ndispatches i' = u64 (ks_ndispatches i + Z.of_nat (length cs))
  /\ ks_nbusy_rval i' = u64 (ks_nbusy_rval i + count busy rs) /\ ks_nfails i' = u64 (ks_nfails i + count failed rs).
Proof.
  induction cs as [|c cs IH]; intros s i Hi; simpl.
  { destruct Hi as (H1 & H2 & H3). unfold count. simpl. rewrite !Z.add_0_r, !wrapu_id by done. done. }
  destruct (kcf_exec c pd s) as [r s1]. rewrite incrstats_spec.
  match goal with |- context [kcf_run cs pd s1 ?j] => specialize (IH s1 j); destruct (kcf_run cs pd s1 j) as [[rs s2] i2] end.
  destruct IH as (L & O & D & B & F); [destruct Hi as (H1 & H2 & H3); unfold info_ok; simpl; destruct (failed r),
      (busy r); split_and!; try done; apply wrapu_range; lia|].
  simpl in *. unfold count in *. simpl. rewrite D, B, F. split_and!; [lia|done| | |].
  - rewrite wrap_count. f_equal. lia.
  - destruct (busy r); simpl; [rewrite wrap_count|]; f_equal; lia.
  - destruct (failed r); simpl; [rewrite wrap_count|]; f_equal; lia.
Qed.

(** The statistics of a provider.  After any run of calls the counters have
    grown by the number of calls, of busy results and of other failures, in 64
    bits; together the latter two are never more than the calls; and when the
    provider has none of the entry points called, nothing has happened, every
    result is [CRYPTO_NOT_SUPPORTED] and all are counted as failures. *)
Theorem provider_statistics cs pd s i : info_ok i ->
  (let '(rs, _, i') := kcf_run cs pd s i in
   length rs = length cs /\ ks_ndispatches i' = u64 (ks_ndispatches i + Z.of_nat (length cs))
   /\ ks_nbusy_rval i' = u64 (ks_nbusy_rval i + count busy rs) /\ ks_nfails i' = u64 (ks_nfails i + count failed rs)
   /\ count busy rs + count failed rs <= Z.of_nat (length cs))
  /\ (Forall (fun c => supports (entry_of c) (pd_ops_vector pd) = false) cs ->
       let '(rs, s', i') := kcf_run cs pd s i in
       s' = s /\ Forall (fun r => r = CRYPTO_NOT_SUPPORTED) rs /\ ks_nfails i' = u64 (ks_nfails i + Z.of_nat (length cs))).
Proof.
  intros Hi. pose proof (run_counts cs pd s i Hi) as H. split.
  - destruct (kcf_run cs pd s i) as [[rs s'] i']. destruct H as
      (L & _ & D & B & F). split_and!; [done..|]. rewrite <- L. unfold count. clear.
    assert (forall r, busy r = true -> failed r = false) as Hx by (unfold busy, failed; intros r ->%Z.eqb_eq; reflexivity).
    induction rs as [|r rs IH]; simpl; [lia|]. specialize (Hx r). destruct (busy r), (failed r); simpl; lia.
  - intros Hn. assert (forall j, let '(rs, s', _) := kcf_run cs pd s j in s' = s /\ Forall (fun r => r = CRYPTO_NOT_SUPPORTED) rs) as Hr.
    { clear H. induction Hn as [|c cs Hc Hn IH]; intros j; simpl; [done|]. rewrite exec_unsupported by done. specialize (IH
        (KCF_PROV_INCRSTATS j CRYPTO_NOT_SUPPORTED)).
      destruct (kcf_run cs pd s _) as [[rs s'] i']. destruct IH. by auto. }
    specialize (Hr i). destruct (kcf_run cs pd s i) as [[rs s'] i']. destruct H as
        (L & _ & _ & _ & F), Hr as [-> Hr]. split_and!; [done|done|].
    rewrite F, <- L. do 2 f_equal. unfold count. clear -Hr. induction Hr as [|r rs -> Hr IH]; simpl; lia.
Qed.
End Runs.
Lemma provider_statistics_witness :
  let '(rs, _, i) := kcf_run [Ctx (KCF_PROV_FREE_CONTEXT 1); Key (KCF_PROV_KEY_CHECK 2 3)]
    (keep (fun e => bool_decide (e = E_key_check)) (tracer (fun _ _ =>
        CRYPTO_BUSY) 9)) [] {| ks_ndispatches := 0; ks_nfails := 0; ks_nbusy_rval := 2 ^ 64 - 1 |} in
  ks_nbusy_rval i = u64 (2 ^ 64 - 1 + count busy rs) /\ rs = [CRYPTO_NOT_SUPPORTED; CRYPTO_BUSY].
Proof.
  destruct (provider_statistics [Ctx (@KCF_PROV_FREE_CONTEXT tracing 1); Key (@KCF_PROV_KEY_CHECK tracing 2 3)]
    (keep (fun e => bool_decide (e = E_key_check)) (tracer (fun _ _ =>
        CRYPTO_BUSY) 9)) [] {| ks_ndispatches := 0; ks_nfails := 0; ks_nbusy_rval := 2 ^ 64 - 1 |}) as [H _];
    [unfold info_ok, in_u; simpl; lia|]. simpl in H |- *. split; [apply H|reflexivity].
Defined.

(** ** States and mechanisms *)

(** The states in which a provider is usable are those the comments of the
    enumeration give: not below [KCF_PROV_READY], not above [KCF_PROV_BUSY]. *)
Lemma usable_states st : let c := prov_state_code st in
  KCF_IS_PROV_USABLE c = (prov_state_code KCF_PROV_READY <=? c) && (c <=? prov_state_code KCF_PROV_BUSY)
  /\ (KCF_IS_PROV_USABLE c = true -> KCF_IS_PROV_UNVERIFIED c = false /\ KCF_IS_PROV_REMOVED c = false).
Proof. by destruct st. Qed.

(** A mechanism number gives its class and its index back, so that different
    mechanisms have different numbers. *)
Theorem mechanism_ids class index : 0 < class < 2 ^ 31 -> 0 <= index < 2 ^ 31 ->
  in_u 64 (KCF_MECHID class index) /\ KCF_MECH2CLASS (KCF_MECHID class index) = class /\ KCF_MECH2INDEX (KCF_MECHID class index) = index
  /\ (forall t, in_u 64 t -> 0 <= KCF_MECH2INDEX t -> KCF_MECHID (KCF_MECH2CLASS t) (KCF_MECH2INDEX t) = t).
Proof.
  assert (forall a b, 0 <= a < 2 ^ 32 -> 0 <= b < 2 ^ 31 -> KCF_MECHID a b = a * 2 ^ 32 + b) as Hid.
  { intros a b Ha Hb. unfold KCF_MECHID. rewrite !(wrapu_id 64) by (unfold in_u; rewrite ?wrapu_id, ?Z.shiftl_mul_pow2 by
      (unfold in_u; lia); lia).
    by rewrite lor_high by (unfold in_u; lia). }
  intros Hc Hi. rewrite Hid by lia. unfold KCF_MECH2CLASS, KCF_MECH2INDEX. split_and!.
  - unfold in_u. lia.
  - rewrite Z.shiftr_div_pow2, Z.div_add_l, Z.div_small, Z.add_0_r by lia. apply wrapu_id. unfold in_u. lia.
  - rewrite <- wraps_wrapu by lia. unfold wrapu. rewrite Z.add_comm, Z_mod_plus_full, Z.mod_small by lia. apply wraps_id; lia.
  - intros t Ht Hp. unfold in_u in Ht. pose proof (Z.div_mod t (2 ^ 32) ltac:(lia)). pose proof (Z.mod_pos_bound t (2 ^ 32) ltac:(lia)).
    assert (0 <= t / 2 ^ 32 < 2 ^ 32) by (split; [apply Z.div_pos; lia|apply Z.div_lt_upper_bound; lia]).
    assert (s32 t = t mod 2 ^ 32) as E.
    { rewrite <- wraps_wrapu by lia. apply wraps_id; [lia|]. unfold wrapu. destruct (Z_lt_le_dec (t mod 2 ^ 32) (2 ^ 31)); [lia|].
      exfalso. rewrite <- wraps_wrapu in Hp by lia. unfold wrapu, wraps in Hp. 
      replace (t mod 2 ^ 32 + 2 ^ (32 - 1)) with (t mod 2 ^ 32 - 2 ^ 31 + 1 * 2 ^ 32) in Hp by lia. rewrite Z_mod_plus_full, Z.mod_small
          in Hp; lia. }
    rewrite E, Z.shiftr_div_pow2, (wrapu_id 32) by (unfold in_u; lia). rewrite E in Hp. assert (t mod 2 ^ 32 < 2 ^ 31) by
        (rewrite <- E; apply (wraps_range 32 t); lia).
    rewrite Hid by lia. lia.
Qed.
Lemma mechanism_ids_witness : KCF_MECH2CLASS (KCF_MECHID 4 17) = 4 /\ KCF_MECH2INDEX (KCF_MECHID 4 17) = 17.
Proof. destruct (mechanism_ids 4 17) as (_ & H1 & H2 & _); [lia|lia|]. split; [exact H1|exact H2]. Defined.
