(* ===== verification/AtomicRef.v ===== *)
(** * Atomic reference counts

    The kernel headers count references to shared objects by pairs of macros: one
    adds a reference, the other drops one and calls the function that frees the
    object when it was the last.  The count is changed by [atomic_add_32] and
    [atomic_add_32_nv], without a lock.  The class [RefMacros] is such a pair,
    its laws are [RefLaws], and the instances are the pairs of
    [src/include/sys/crypto/impl.h] and [sched_impl.h], [sys/aggr_impl.h],
    [inet/ip.h], [inet/ipsec_impl.h], [inet/sadb.h], [inet/sctp/sctp_addr.h] and
    [fs/sockfs/nl7curi.h].  For every pair and any interleaving of threads that
    use references they have, no assertion fails, the object is freed once, by
    the thread that drops the last reference, and not touched afterwards. *)
From S2P Require Import Prelude.
From stdpp Require Import relations.
#[local] Open Scope Z_scope.

(** ** The statements of the macros *)
#[warnings="-register-all"] Inductive instr :=
  | atomic_add_1                            (* atomic_add_32(&p->refcnt, 1) *)
  | ASSERT_nonzero                          (* ASSERT(p->refcnt != 0) *)
  | membar_exit
  | if_atomic_dec_zero (last : list instr)  (* if (atomic_add_32_nv(&p->refcnt, -1) == 0) *)
  | call_last                               (* a call that uses the object *)
  | free                                    (* the call that frees the object *)
  | forget.                                 (* p = 0 *)

Definition KCF_AREQ_REFHOLD : list instr := [atomic_add_1; ASSERT_nonzero].
Definition KCF_AREQ_REFRELE : list instr := [ASSERT_nonzero; membar_exit; if_atomic_dec_zero [free]].
Definition KCF_CONTEXT_REFHOLD : list instr := [atomic_add_1; ASSERT_nonzero].
Definition KCF_CONTEXT_REFRELE : list instr := [ASSERT_nonzero; membar_exit; if_atomic_dec_zero [free]].
Definition KCF_PROV_REFHOLD : list instr := [atomic_add_1; ASSERT_nonzero].
Definition KCF_PROV_REFRELE : list instr := [ASSERT_nonzero; membar_exit; if_atomic_dec_zero [free]].
Definition KCF_POLICY_REFHOLD : list instr := [atomic_add_1; ASSERT_nonzero].
Definition KCF_POLICY_REFRELE : list instr := [ASSERT_nonzero; membar_exit; if_atomic_dec_zero [free]].
Definition AGGR_GRP_REFHOLD : list instr := [atomic_add_1; ASSERT_nonzero].
Definition AGGR_GRP_REFRELE : list instr := [ASSERT_nonzero; membar_exit; if_atomic_dec_zero [free]].
Definition AGGR_PORT_REFHOLD : list instr := [atomic_add_1; ASSERT_nonzero].
Definition AGGR_PORT_REFRELE : list instr := [ASSERT_nonzero; membar_exit; if_atomic_dec_zero [free]].
Definition IPACT_REFHOLD : list instr := [atomic_add_1; ASSERT_nonzero].
Definition IPACT_REFRELE : list instr := [ASSERT_nonzero; membar_exit; if_atomic_dec_zero [free]; forget].
Definition IPPOL_REFHOLD : list instr := [atomic_add_1; ASSERT_nonzero].
Definition IPPOL_REFRELE : list instr := [ASSERT_nonzero; membar_exit; if_atomic_dec_zero [free]; forget].
Definition IPPH_REFHOLD : list instr := [atomic_add_1; ASSERT_nonzero].
Definition IPPH_REFRELE : list instr := [ASSERT_nonzero; membar_exit; if_atomic_dec_zero [free]; forget].
Definition IPSA_REFHOLD : list instr := [atomic_add_1; ASSERT_nonzero].
Definition IPSA_REFRELE : list instr := [ASSERT_nonzero; membar_exit; if_atomic_dec_zero [free]].
Definition IPLATCH_REFHOLD : list instr := [atomic_add_1; ASSERT_nonzero].
Definition IPLATCH_REFRELE : list instr := [ASSERT_nonzero; membar_exit; if_atomic_dec_zero [free]].
(** Without [IRE_DEBUG], which adds calls that record the caller. *)
Definition IRE_REFHOLD : list instr := [atomic_add_1; ASSERT_nonzero].
Definition IRE_REFRELE : list instr := [ASSERT_nonzero; membar_exit; if_atomic_dec_zero [free]].
Definition SCTP_IPIF_REFHOLD : list instr := [atomic_add_1; ASSERT_nonzero].
Definition SCTP_IPIF_REFRELE : list instr := [ASSERT_nonzero; if_atomic_dec_zero [free]].
Definition REF_HOLD : list instr := [atomic_add_1; ASSERT_nonzero].
Definition REF_RELE : list instr := [if_atomic_dec_zero [call_last; free]].

(** ** Threads *)
Class RefMacros := { refhold : list instr; refrele : list instr }.

Inductive stmt := HOLD | RELE.
Definition code_of {M : RefMacros} (c : stmt) : list instr :=
  match c with HOLD => refhold | RELE => refrele end.

(** [now]: the rest of the macro; [todo]: the macros after it; [held]: the
    references the thread has (a ghost). *)
Record thread := Thread { now : list instr; todo : list stmt; held : nat }.

(** [fault]: a failed assertion or a use of the object after it was freed. *)
Record state := State { ref : Z; threads : list thread; frees : nat; fault : bool }.

(** One instruction of thread [i]. *)
Definition exec {M : RefMacros} (i : nat) (s : state) : option state :=
  t ← threads s !! i;
  let ts l h := <[i := Thread l (todo t) h]> (threads s) in
  let bad b := fault s || b || negb (Nat.eqb (frees s) 0) in
  match now t with
  | [] =>
    match todo t with
    | [] => None
    | c :: cs => Some (State (ref s) (<[i := Thread (code_of c) cs (held t)]> (threads s)) (frees s) (fault s))
    end
  | atomic_add_1 :: l => Some (State (u32 (ref s + 1)) (ts l (S (held t))) (frees s) (bad false))
  | ASSERT_nonzero :: l => Some (State (ref s) (ts l (held t)) (frees s) (bad (ref s =? 0)))
  | (membar_exit | forget) :: l => Some (State (ref s) (ts l (held t)) (frees s) (fault s))
  | if_atomic_dec_zero last :: l =>
    let nv := u32 (ref s - 1) in
    Some (State nv (ts ((if nv =? 0 then last else []) ++ l) (pred (held t))) (frees s) (bad false))
  | call_last :: l => Some (State (ref s) (ts l (held t)) (frees s) (bad false))
  | free :: l => Some (State (ref s) (ts l (held t)) (S (frees s)) (bad false))
  end.

Definition step {M : RefMacros} (s s' : state) : Prop := exists i, exec i s = Some s'.

(** A thread takes or drops a reference only while it has one. *)
Fixpoint disciplined (h : nat) (l : list stmt) : Prop :=
  match l with
  | [] => True
  | HOLD :: l => (0 < h)%nat /\ disciplined (S h) l
  | RELE :: l => (0 < h)%nat /\ disciplined (pred h) l
  end.

Definition total (ts : list thread) : nat := sum_list (held <$> ts).
Definition adds (l : list instr) : nat := sum_list ((fun c => match c with atomic_add_1 => 1%nat | _ => 0%nat end) <$> l).
(** The references a thread has and those it is yet to take. *)
Definition pot {M : RefMacros} (t : thread) : nat :=
  (held t + adds (now t) + sum_list ((fun c => adds (code_of c)) <$> todo t))%nat.

Definition initial {M : RefMacros} (s : state) : Prop :=
  frees s = 0%nat /\ fault s = false /\ ref s = Z.of_nat (total (threads s)) /\ 0 < ref s /\
  Z.of_nat (sum_list (pot <$> threads s)) < 2 ^ 32 /\
  Forall (fun t => now t = [] /\ disciplined (held t) (todo t)) (threads s).

Definition quiet (t : thread) : Prop := now t = [] /\ todo t = [].

(** ** Safe code *)

(** What may follow the free. *)
Fixpoint no_use (l : list instr) : bool :=
  match l with [] => true | (membar_exit | forget) :: l => no_use l | _ => false end.
(** The code of the thread that drops the last reference: it frees the object
    once and leaves it alone afterwards. *)
Fixpoint frees_once (l : list instr) : bool :=
  match l with
  | (membar_exit | forget | call_last) :: l => frees_once l
  | free :: l => no_use l
  | _ => false
  end.

(** Code that uses the object only with a reference, and ends with a number of
    references that satisfies [Q]. *)
Fixpoint safe (l : list instr) (h : nat) (Q : nat -> Prop) : Prop :=
  match l with
  | [] => Q h
  | atomic_add_1 :: l => (0 < h)%nat /\ safe l (S h) Q
  | (ASSERT_nonzero | call_last) :: l => (0 < h)%nat /\ safe l h Q
  | (membar_exit | forget) :: l => safe l h Q
  | if_atomic_dec_zero last :: l => (0 < h)%nat /\ safe l (pred h) Q /\ frees_once (last ++ l) = true /\ adds last = 0%nat
  | free :: _ => False
  end.

Class RefLaws (M : RefMacros) : Prop := {
  hold_safe h (Q : nat -> Prop) : (0 < h)%nat -> Q (S h) -> safe refhold h Q;
  rele_safe h (Q : nat -> Prop) : (0 < h)%nat -> Q (pred h) -> safe refrele h Q }.

Definition macros (hold rele : list instr) : RefMacros := {| refhold := hold; refrele := rele |}.

Definition counted_objects : list RefMacros :=
  [macros KCF_AREQ_REFHOLD KCF_AREQ_REFRELE; macros KCF_CONTEXT_REFHOLD KCF_CONTEXT_REFRELE;
   macros KCF_PROV_REFHOLD KCF_PROV_REFRELE; macros KCF_POLICY_REFHOLD KCF_POLICY_REFRELE;
   macros AGGR_GRP_REFHOLD AGGR_GRP_REFRELE; macros AGGR_PORT_REFHOLD AGGR_PORT_REFRELE;
   macros IPACT_REFHOLD IPACT_REFRELE; macros IPPOL_REFHOLD IPPOL_REFRELE;
   macros IPPH_REFHOLD IPPH_REFRELE; macros IPSA_REFHOLD IPSA_REFRELE;
   macros IPLATCH_REFHOLD IPLATCH_REFRELE; macros IRE_REFHOLD IRE_REFRELE;
   macros SCTP_IPIF_REFHOLD SCTP_IPIF_REFRELE; macros REF_HOLD REF_RELE].

Lemma counted_laws : Forall RefLaws counted_objects.
Proof.
  repeat constructor; intros; simpl in *;
    repeat match goal with |- _ /\ _ => split end; auto; lia.
Qed.

(** ** The invariant *)
Section Counting.
Context {M : RefMacros} (Laws : RefLaws M).

Definition safe_thread (t : thread) : Prop := safe (now t) (held t) (fun h => disciplined h (todo t)).

(** The thread that has dropped the last reference. *)
Definition closer (t : thread) : Prop := frees_once (now t) = true /\ todo t = [] /\ held t = 0%nat.

Definition alive (s : state) : Prop := 0 < ref s /\ frees s = 0%nat /\ Forall safe_thread (threads s).
Definition closing (s : state) : Prop :=
  ref s = 0 /\ frees s = 0%nat /\ exists i t, threads s !! i = Some t /\ closer t /\
  forall j u, j <> i -> threads s !! j = Some u -> safe_thread u.
Definition gone (s : state) : Prop := ref s = 0 /\ frees s = 1%nat /\ Forall safe_thread (threads s).

Record inv (s : state) : Prop := {
  inv_fault : fault s = false;
  inv_ref : ref s = Z.of_nat (total (threads s));
  inv_pot : Z.of_nat (sum_list (pot <$> threads s)) < 2 ^ 32;
  inv_phase : alive s \/ closing s \/ gone s }.

Lemma ar_disciplined_0 l : disciplined 0 l -> l = [].
Proof. destruct l as [|[] l]; simpl; [done|lia..]. Qed.

(** Without a reference a thread only finishes its macro. *)
Lemma safe_0 l Q : safe l 0 Q -> no_use l = true /\ Q 0%nat.
Proof. induction l as [|[] l IH]; simpl; try (by intros [? _]; lia); auto. done. Qed.

Lemma no_use_frees l : no_use l = true -> frees_once l = false.
Proof. by induction l as [|[] l IH]. Qed.

Lemma held_total ts i t : ts !! i = Some t -> (held t <= total ts)%nat.
Proof. apply sum_le. Qed.

Lemma ar_held_pot ts : (total ts <= sum_list (pot <$> ts))%nat.
Proof. unfold total. induction ts as [|t ts IH]; csimpl; [done|]. unfold pot at 1. lia. Qed.

Lemma held_adds ts i t :
  ts !! i = Some t -> (total ts + adds (now t) <= sum_list (pot <$> ts))%nat.
Proof.
  revert i. unfold total. induction ts as [|a ts IH]; intros [|i] E; simplify_eq/=; csimpl.
  - pose proof (ar_held_pot ts). unfold total in *. unfold pot at 1. lia.
  - specialize (IH _ E). unfold pot at 1. lia.
Qed.

(** The threads after a step of [i], which stays safe. *)
Lemma safe_insert ts (i : nat) t' :
  safe_thread t' -> Forall safe_thread ts -> Forall safe_thread (<[i := t']> ts).
Proof. intros. by apply Forall_insert. Qed.

(** The counts after thread [i] has gone from [t] to [t']. *)
Lemma ar_counts_insert s i t t' r :
  inv s -> threads s !! i = Some t -> r + Z.of_nat (held t) = ref s + Z.of_nat (held t') ->
  (pot t' <= pot t)%nat ->
  r = Z.of_nat (total (<[i := t']> (threads s))) /\
  Z.of_nat (sum_list (pot <$> <[i := t']> (threads s))) < 2 ^ 32.
Proof.
  intros Hs Et Hr Hp. pose proof (inv_ref s Hs) as H1. pose proof (inv_pot s Hs) as H2.
  pose proof (sum_insert held _ _ _ t' Et). pose proof (sum_insert pot _ _ _ t' Et).
  unfold total in *. lia.
Qed.

(** A step of a safe thread while the object is alive, or that only finishes. *)
Lemma safe_step s i t t' r :
  inv s -> alive s -> threads s !! i = Some t ->
  r + Z.of_nat (held t) = ref s + Z.of_nat (held t') -> (pot t' <= pot t)%nat ->
  (0 < r /\ safe_thread t') \/ (r = 0 /\ closer t') ->
  inv (State r (<[i := t']> (threads s)) 0 false).
Proof.
  intros Hs (Hpos & Hfr & Hsafe) Et Hr Hp Hcase.
  destruct (ar_counts_insert s i t t' r Hs Et Hr Hp) as [H1 H2]. constructor; simpl; try done.
  destruct Hcase as [[H3 H4]|[H3 H4]].
  - left. split; [done|]. split; [done|]. by apply safe_insert.
  - right. left. split; [done|]. split; [done|]. exists i, t'. simpl. split; [|split; [done|]].
    + apply list_lookup_insert_eq. by eapply lookup_lt_Some.
    + intros j u Hne Eu. rewrite list_lookup_insert_ne in Eu by done.
      by apply (proj1 (Forall_lookup _ _) Hsafe j).
Qed.

Lemma adds_app l l' : adds (l ++ l') = (adds l + adds l')%nat.
Proof. unfold adds. rewrite fmap_app. apply sum_list_with_app. Qed.

Lemma inv_alive s i s' : inv s -> alive s -> exec i s = Some s' -> inv s'.
Proof.
  intros Hs Ha E. unfold exec in E. destruct (threads s !! i) as [[l td h]|] eqn:Et; [|done]. simpl in E.
  pose proof Ha as (Hpos & Hfr & Hsafe). rewrite (inv_fault s Hs), Hfr in E. cbn [Nat.eqb negb orb] in E.
  pose proof (proj1 (Forall_lookup _ _) Hsafe i _ Et) as Ht. unfold safe_thread in Ht. simpl in Ht.
  pose proof (held_adds _ _ _ Et) as Hadd. simpl in Hadd. pose proof (inv_pot s Hs) as Hpot.
  pose proof (inv_ref s Hs) as Href. pose proof (held_total _ _ _ Et) as Hle. simpl in Hle.
  destruct l as [|c l].
  - destruct td as [|c td]; [done|]. injection E as <-.
    eapply (safe_step s i _ _ _ Hs Ha Et); [done|unfold pot; csimpl; lia|]. left. split; [done|].
    unfold safe_thread. simpl. destruct c; destruct Ht as [Hh Hd]; [by apply hold_safe|by apply rele_safe].
  - destruct c as [| | |last| | |]; simpl in Ht; try done; injection E as <-.
    + destruct Ht as [Hh Ht]. unfold adds in Hadd. csimpl in Hadd. rewrite wrapu_id by (unfold in_u; lia).
      eapply (safe_step s i _ _ _ Hs Ha Et); simpl; [lia|unfold pot, adds; csimpl; lia|left; split; [lia|done]].
    + destruct Ht as [Hh Ht]. rewrite (proj2 (Z.eqb_neq (ref s) 0)) by lia.
      eapply (safe_step s i _ _ _ Hs Ha Et); simpl; [lia|unfold pot, adds; csimpl; lia|left; done].
    + eapply (safe_step s i _ _ _ Hs Ha Et); simpl; [lia|unfold pot, adds; csimpl; lia|left; done].
    + destruct Ht as (Hh & Ht & Hfo & Hno). pose proof (ar_held_pot (threads s)).
      rewrite wrapu_id by (unfold in_u; lia). destruct (Z.eqb_spec (ref s - 1) 0) as [H0|H0].
      * rewrite H0. eapply (safe_step s i _ _ _ Hs Ha Et); simpl; [lia| |right; split; [done|]].
        { unfold pot. simpl. rewrite adds_app, Hno. unfold adds. csimpl. lia. }
        assert (h = 1%nat) as -> by lia. apply safe_0 in Ht as [_ ->%ar_disciplined_0]. done.
      * eapply (safe_step s i _ _ _ Hs Ha Et); simpl; [lia|unfold pot, adds; csimpl; lia|left; split; [lia|done]].
    + destruct Ht as [Hh Ht].
      eapply (safe_step s i _ _ _ Hs Ha Et); simpl; [lia|unfold pot, adds; csimpl; lia|left; done].
    + eapply (safe_step s i _ _ _ Hs Ha Et); simpl; [lia|unfold pot, adds; csimpl; lia|left; done].
Qed.

(** When no reference is left, a safe thread only finishes its macro. *)
Lemma finish_step s i t s' :
  inv s -> total (threads s) = 0%nat -> threads s !! i = Some t -> safe_thread t -> exec i s = Some s' ->
  exists t', s' = State (ref s) (<[i := t']> (threads s)) (frees s) (fault s) /\ safe_thread t' /\
    held t' = held t /\ (pot t' <= pot t)%nat.
Proof.
  intros Hs H0 Et Ht E. unfold exec in E. rewrite Et in E. destruct t as [l td h]. simpl in E.
  pose proof (held_total _ _ _ Et) as Hle. simpl in Hle. assert (h = 0%nat) as -> by lia.
  unfold safe_thread in Ht. simpl in Ht. destruct l as [|c l].
  - simpl in Ht. apply ar_disciplined_0 in Ht as ->. done.
  - destruct c; simpl in Ht; try (destruct Ht; lia); try done; injection E as <-;
      (eexists; split; [done|]; split; [exact Ht|]; split; [done|]; unfold pot, adds; csimpl; lia).
Qed.

Lemma inv_closing s i s' : inv s -> closing s -> exec i s = Some s' -> inv s'.
Proof.
  intros Hs (Hr & Hfr & k & t & Ek & (Hfo & Htd & Hh) & Hoth) E.
  assert (total (threads s) = 0%nat) as Htot by (pose proof (inv_ref s Hs); lia).
  destruct (decide (i = k)) as [->|Hne].
  - unfold exec in E. rewrite Ek in E. destruct t as [l td h]. simpl in *. subst td h.
    rewrite (inv_fault s Hs), Hfr in E. cbn [Nat.eqb negb orb] in E.
    assert (forall l' f, adds l' = 0%nat \/ (adds l' <= adds l)%nat ->
      closing (State (ref s) (<[k := Thread l' [] 0]> (threads s)) f false) \/
      gone (State (ref s) (<[k := Thread l' [] 0]> (threads s)) f false) ->
      inv (State (ref s) (<[k := Thread l' [] 0]> (threads s)) f false)) as Hinv.
    { intros l' f Hadd Hph. destruct (ar_counts_insert s k _ (Thread l' [] 0) (ref s) Hs Ek) as [H1 H2];
        [done|unfold pot; simpl; lia|]. constructor; simpl; auto. }
    pose proof (lookup_lt_Some _ _ _ Ek) as Hlt.
    assert (forall l', frees_once l' = true ->
      closing (State (ref s) (<[k := Thread l' [] 0]> (threads s)) 0 false)) as Hcl.
    { intros l' Hl. split; [done|]. split; [done|]. exists k, (Thread l' [] 0). simpl. split_and!; try done.
      - by apply list_lookup_insert_eq.
      - intros j u Hj Eu. rewrite list_lookup_insert_ne in Eu by done. by apply (Hoth j). }
    destruct l as [|[] l]; try done; injection E as <-.
    1,2,4: apply Hinv; [right; unfold adds; csimpl; lia|left; by apply Hcl].
    apply Hinv; [right; unfold adds; csimpl; lia|right]. split; [done|]. split; [done|]. simpl.
    apply Forall_lookup. intros j u Eu. apply list_lookup_insert_Some in Eu as [(<- & <- & _)|[Hj Eu]]; [|by apply (Hoth j)].
    unfold safe_thread. simpl in *. clear -Hfo. induction l as [|[] l IH]; simpl in *; auto; done.
  - destruct (threads s !! i) as [u|] eqn:Eu; [|unfold exec in E; by rewrite Eu in E].
    destruct (finish_step s i u s' Hs Htot Eu (Hoth i u Hne Eu) E) as (u' & -> & Hu & Hhu & Hpu).
    destruct (ar_counts_insert s i u u' (ref s) Hs Eu) as [H1 H2]; [lia|done|].
    constructor; simpl; try done; [apply (inv_fault s Hs)|]. right. left.
    split; [done|]. split; [done|]. exists k, t. simpl. rewrite list_lookup_insert_ne by done. split_and!; try done.
    intros j x Hj Ex. apply list_lookup_insert_Some in Ex as [(<- & <- & _)|[Hij Ex]]; [done|by apply (Hoth j)].
Qed.

Lemma ar_inv_step s s' : inv s -> step s s' -> inv s'.
Proof.
  intros Hs [i E]. destruct (inv_phase s Hs) as [Ha|[Hc|(Hr & Hfr & Hsafe)]].
  - by eapply inv_alive.
  - by eapply inv_closing.
  - destruct (threads s !! i) as [u|] eqn:Eu; [|unfold exec in E; by rewrite Eu in E].
    assert (total (threads s) = 0%nat) as Htot by (pose proof (inv_ref s Hs); lia).
    destruct (finish_step s i u s' Hs Htot Eu (proj1 (Forall_lookup _ _) Hsafe i u Eu) E) as (u' & -> & Hu & Hhu & Hpu).
    destruct (ar_counts_insert s i u u' (ref s) Hs Eu) as [H1 H2]; [lia|done|].
    constructor; simpl; try done; [apply (inv_fault s Hs)|]. right. right.
    split; [done|]. split; [done|]. by apply safe_insert.
Qed.

Lemma ar_inv_reach s s' : inv s -> rtc step s s' -> inv s'.
Proof. intros Hs Hr. induction Hr as [|s s1 s' H1 _ IH]; [done|]. apply IH. by eapply ar_inv_step. Qed.

Lemma ar_initial_inv s : initial s -> inv s.
Proof.
  intros (Hf & Hb & Hr & Hpos & Hp & Ht). constructor; try done. left. split; [done|]. split; [done|].
  apply (Forall_impl _ _ _ Ht). intros t [En Hd]. unfold safe_thread. by rewrite En.
Qed.
End Counting.

(** *** Every run ends *)
Fixpoint isize (c : instr) : nat :=
  match c with if_atomic_dec_zero last => S (sum_list_with isize last) | _ => 1 end.
Definition csize (l : list instr) : nat := sum_list_with isize l.
Definition tsize {M : RefMacros} (t : thread) : nat :=
  (csize (now t) + sum_list_with (fun c => S (csize (code_of c))) (todo t))%nat.
Definition work {M : RefMacros} (s : state) : nat := sum_list (tsize <$> threads s).

Lemma ar_exec_work {M : RefMacros} i s s' : exec i s = Some s' -> (work s' < work s)%nat.
Proof.
  unfold exec, work. destruct (threads s !! i) as [[l td h]|] eqn:Et; [|done]. simpl.
  assert (forall t', (tsize t' < tsize (Thread l td h))%nat ->
    (sum_list (tsize <$> <[i := t']> (threads s)) < sum_list (tsize <$> threads s))%nat) as Hlt.
  { intros t' Ht. pose proof (sum_insert tsize _ _ _ t' Et). lia. }
  destruct l as [|c l]; [destruct td as [|c td]; [done|]|destruct c];
    intros [= <-]; cbn [threads]; apply Hlt; unfold tsize, csize; simpl; try lia.
  destruct (_ =? 0); simpl; rewrite ?sum_list_with_app; lia.
Qed.

(** A thread with something to do can do it: there is no lock. *)
Lemma can_step {M : RefMacros} s i t : threads s !! i = Some t -> ~ quiet t -> is_Some (exec i s).
Proof.
  intros Et Hq. unfold exec. rewrite Et. destruct t as [[|[] l] [|c td] h]; simpl; try done.
  by destruct Hq.
Qed.

(** ** The theorems *)

(** C9: for every pair of macros and however the instructions of the threads
    interleave, no assertion fails and the object is not used after it was
    freed; the count is the number of references the threads have, without
    wrapping; the object is freed at most once, and only when no reference is
    left. *)
Theorem atomic_ref_safe : forall M s s',
  In M counted_objects -> initial s -> rtc step s s' ->
  fault s' = false /\ ref s' = Z.of_nat (total (threads s')) /\ in_u 32 (ref s') /\
  (frees s' <= 1)%nat /\ (frees s' = 1%nat -> ref s' = 0).
Proof.
  intros M s s' HM Hi Hr.
  pose proof (proj1 (Forall_forall _ _) counted_laws M ltac:(by apply list_elem_of_In)) as HL.
  pose proof (ar_inv_reach HL s s' (ar_initial_inv s Hi) Hr) as Hs.
  split; [by apply inv_fault|]. split; [by apply inv_ref|]. split.
  { pose proof (inv_ref s' Hs). pose proof (inv_pot s' Hs). pose proof (ar_held_pot (threads s')). unfold in_u. lia. }
  destruct (inv_phase s' Hs) as [(_ & -> & _)|[(_ & -> & _)|(H0 & -> & _)]]; (split; [lia|done]).
Qed.

(** Every run of the threads ends within a number of steps known at the
    start, none is stuck, and when all are done the object has been freed
    exactly when no reference is left. *)
Theorem atomic_ref_completes : forall M s,
  In M counted_objects -> initial s ->
  (forall n s', nsteps step n s s' -> (n <= work s)%nat) /\
  (forall s' i t, rtc step s s' -> threads s' !! i = Some t -> ~ quiet t -> exists s'', step s' s'') /\
  (forall s', rtc step s s' -> Forall quiet (threads s') ->
     frees s' = if (total (threads s') =? 0)%nat then 1%nat else 0%nat).
Proof.
  intros M s HM Hi. split_and!.
  - assert (forall n s s', nsteps step n s s' -> (n + work s' <= work s)%nat) as H.
    { induction 1 as [|n s0 s1 s2 [i E] _ IH]; [lia|]. apply ar_exec_work in E. lia. }
    intros n s' Hn. specialize (H n s s' Hn). lia.
  - intros s' i t _ Et Hq. destruct (can_step s' i t Et Hq) as [s'' E]. by exists s'', i.
  - intros s' Hr Hq.
    pose proof (proj1 (Forall_forall _ _) counted_laws M ltac:(by apply list_elem_of_In)) as HL.
    pose proof (ar_inv_reach HL s s' (ar_initial_inv s Hi) Hr) as Hs. pose proof (inv_ref s' Hs) as Href.
    destruct (inv_phase s' Hs) as [(Hpos & -> & _)|[(_ & _ & i & t & Et & (Hfo & _) & _)|(H0 & -> & _)]].
    + by rewrite (proj2 (Nat.eqb_neq _ _)) by lia.
    + destruct (proj1 (Forall_lookup _ _) Hq i t Et) as [En _]. by rewrite En in Hfo.
    + by rewrite (proj2 (Nat.eqb_eq _ _)) by lia.
Qed.

(** A run of the schedule [l]. *)
Fixpoint run {M : RefMacros} (l : list nat) (s : state) : option state :=
  match l with [] => Some s | i :: l => s ← exec i s; run l s end.

Lemma ar_run_rtc {M : RefMacros} l s s' : run l s = Some s' -> rtc step s s'.
Proof.
  revert s. induction l as [|i l IH]; intros s E; simpl in E; [by simplify_eq|].
  destruct (exec i s) as [s1|] eqn:E1; [|done]. simpl in E. apply rtc_l with s1; [by exists i|by apply IH].
Qed.

(** Two threads with a reference each to a route; one of them takes another. *)
Definition routes : RefMacros := macros IRE_REFHOLD IRE_REFRELE.
Definition two_users : state := State 2 [Thread [] [HOLD; RELE; RELE] 1; Thread [] [RELE] 1] 0 false.
Definition schedule : list nat := [0; 1; 1; 0; 0; 1; 1]%nat ++ replicate 9 0%nat.
Definition all_dropped : state := State 0 [Thread [] [] 0; Thread [] [] 0] 1 false.

Lemma routes_listed : In routes counted_objects.
Proof. unfold counted_objects, routes. simpl. tauto. Qed.

Lemma two_users_initial : @initial routes two_users.
Proof. split_and!; try done; repeat constructor; simpl; lia. Qed.

Lemma two_users_run : @run routes schedule two_users = Some all_dropped.
Proof. reflexivity. Qed.

Lemma atomic_ref_safe_witness : fault all_dropped = false /\ ref all_dropped = 0.
Proof.
  pose proof (atomic_ref_safe routes two_users all_dropped routes_listed two_users_initial
    (ar_run_rtc _ _ _ two_users_run)) as (Hf & _ & _ & _ & H).
  split; [exact Hf|exact (H eq_refl)].
Defined.

Lemma atomic_ref_completes_witness :
  frees all_dropped = if (total (threads all_dropped) =? 0)%nat then 1%nat else 0%nat.
Proof.
  apply (atomic_ref_completes routes two_users routes_listed two_users_initial).
  - exact (ar_run_rtc _ _ _ two_users_run).
  - repeat constructor.
Defined.
