(* ===== verification/Avl.v ===== *)
(** * AVL tree nodes: sys/avl_impl.h

    A node of an AVL tree keeps its parent, its place among the parent's children
    and its balance.  [src/include/sys/avl_impl.h] keeps them in three members on
    a 32-bit machine and packs them into one word on a 64-bit one, behind the
    same macros.  The class [AvlNode] is the macros, [AvlLaws] what the tree code
    relies on, and both layouts are instances. *)
From S2P Require Import Prelude.
#[local] Open Scope Z_scope.
#[local] Open Scope c_scope.

(** ** The macros *)
Class AvlNode (N : Type) := {
  avl_child : N -> Z * Z;
  AVL_XPARENT : N -> Z;
  AVL_SETPARENT : N -> Z -> N;
  AVL_XCHILD : N -> Z;
  AVL_SETCHILD : N -> Z -> N;
  AVL_XBALANCE : N -> Z;
  AVL_SETBALANCE : N -> Z -> N }.

(** 32-bit machines *)
Module ILP32.
Record avl_node_32 := Node {
  child : Z * Z; avl_parent : Z; avl_child_index : Z; avl_balance : Z }.
Definition XPARENT_32 (n : avl_node_32) : Z := avl_parent n.
Definition SETPARENT_32 (n : avl_node_32) (p : Z) : avl_node_32 := Node (child n) p (avl_child_index n) (avl_balance n).
Definition XCHILD_32 (n : avl_node_32) : Z := avl_child_index n.
Definition SETCHILD_32 (n : avl_node_32) (c : Z) : avl_node_32 := Node (child n) (avl_parent n) (u16 c) (avl_balance n).
Definition XBALANCE_32 (n : avl_node_32) : Z := avl_balance n.
Definition SETBALANCE_32 (n : avl_node_32) (b : Z) : avl_node_32 :=
  Node (child n) (avl_parent n) (avl_child_index n) (wraps 16 b).
#[global] Instance macros_32 : AvlNode avl_node_32 :=
  {| avl_child := child; AVL_XPARENT := XPARENT_32; AVL_SETPARENT := SETPARENT_32; AVL_XCHILD := XCHILD_32;
     AVL_SETCHILD := SETCHILD_32; AVL_XBALANCE := XBALANCE_32; AVL_SETBALANCE := SETBALANCE_32 |}.
End ILP32.

(** 64-bit machines: [~7] is an [int], extended to [uintptr_t]. *)
Module LP64.
Record avl_node_64 := Node { child : Z * Z; avl_pcb : Z }.
Definition XPARENT_64 (n : avl_node_64) : Z := avl_pcb n .& u64 (.~ 7).
Definition SETPARENT_64 (n : avl_node_64) (p : Z) : avl_node_64 := Node (child n) ((avl_pcb n .& 7) .| p).
Definition XCHILD_64 (n : avl_node_64) : Z := (avl_pcb n >>> 2) .& 1.
Definition SETCHILD_64 (n : avl_node_64) (c : Z) : avl_node_64 :=
  Node (child n) (u64 ((avl_pcb n .& u64 (.~ 4)) .| u64 (c <<< 2))).
Definition XBALANCE_64 (n : avl_node_64) : Z := s32 (u64 ((avl_pcb n .& 3) - 1)).
Definition SETBALANCE_64 (n : avl_node_64) (b : Z) : avl_node_64 :=
  Node (child n) (u64 ((avl_pcb n .& u64 (.~ 3)) .| u64 (b + 1))).
#[global] Instance macros_64 : AvlNode avl_node_64 :=
  {| avl_child := child; AVL_XPARENT := XPARENT_64; AVL_SETPARENT := SETPARENT_64; AVL_XCHILD := XCHILD_64;
     AVL_SETCHILD := SETCHILD_64; AVL_XBALANCE := XBALANCE_64; AVL_SETBALANCE := SETBALANCE_64 |}.
End LP64.

(** Nodes and the data they are in; [w] is the width of a pointer. *)
Definition AVL_NODE2DATA (w n o : Z) : Z := wrapu w (n - o).
Definition AVL_DATA2NODE (w d o : Z) : Z := wrapu w (d + o).

(** An index: a node and the child a new node would be. *)
Definition AVL_INDEX2NODE (w x : Z) : Z := x .& wrapu w (.~ 1).
Definition AVL_INDEX2CHILD (x : Z) : Z := x .& 1.
Definition AVL_MKINDEX (n c : Z) : Z := n .| c.

(** ** What the tree code relies on *)
Record position := Position { parent : Z; index : Z; balance : Z }.

Definition place {N} `{AvlNode N} (n : N) : position := Position (AVL_XPARENT n) (AVL_XCHILD n) (AVL_XBALANCE n).

(** Nodes are aligned to 8 octets, below [2 ^ w]. *)
Definition is_node (w p : Z) : Prop := in_u w p /\ p mod 8 = 0.

Class AvlLaws (N : Type) `{AvlNode N} (w : Z) (wf : N -> Prop) : Prop := {
  avl_place_ok n : wf n ->
    is_node w (AVL_XPARENT n) /\ 0 <= AVL_XCHILD n <= 1 /\ -1 <= AVL_XBALANCE n <= 1;
  avl_set_parent n p : wf n -> is_node w p ->
    let n' := AVL_SETPARENT n p in
    wf n' /\ avl_child n' = avl_child n /\ place n' = Position p (AVL_XCHILD n) (AVL_XBALANCE n);
  avl_set_child n c : wf n -> 0 <= c <= 1 ->
    let n' := AVL_SETCHILD n c in
    wf n' /\ avl_child n' = avl_child n /\ place n' = Position (AVL_XPARENT n) c (AVL_XBALANCE n);
  avl_set_balance n b : wf n -> -1 <= b <= 1 ->
    let n' := AVL_SETBALANCE n b in
    wf n' /\ avl_child n' = avl_child n /\ place n' = Position (AVL_XPARENT n) (AVL_XCHILD n) b }.

Definition wf32 (n : ILP32.avl_node_32) : Prop :=
  is_node 32 (ILP32.avl_parent n) /\ 0 <= ILP32.avl_child_index n <= 1 /\ -1 <= ILP32.avl_balance n <= 1.
(** The packed word, with one of the three balances. *)
Definition pack (p c b : Z) : Z := p + 4 * c + (b + 1).
Definition wf64 (n : LP64.avl_node_64) : Prop :=
  exists p c b, is_node 64 p /\ 0 <= c <= 1 /\ -1 <= b <= 1 /\ LP64.avl_pcb n = pack p c b.

#[export] Instance laws32 : AvlLaws ILP32.avl_node_32 32 wf32.
Proof.
  split; intros [ch p c b]; unfold wf32; simpl.
  - done.
  - intros p' (_ & Hc & Hb) Hp. done.
  - intros c' (Hp & _ & Hb) Hc. unfold place. simpl. unfold ILP32.XCHILD_32. simpl.
    rewrite (wrapu_id 16) by (unfold in_u; lia). done.
  - intros b' (Hp & Hc & _) Hb. unfold place. simpl. unfold ILP32.XBALANCE_32. simpl.
    rewrite (wraps_id 16) by lia. done.
Qed.

(** *** The packed word *)
Lemma node_shift w p : is_node w p -> p = (p / 8) <<< 3.
Proof. intros [_ H]. rewrite Z.shiftl_mul_pow2 by lia. change (2 ^ 3) with 8. Z.div_mod_to_equations. lia. Qed.

Lemma node_lo w p i : is_node w p -> i < 3 -> Z.testbit p i = false.
Proof.
  intros Hp Hi. rewrite (node_shift w p Hp). destruct (Z.ltb_spec i 0); [by apply Z.testbit_neg_r|].
  by apply Z.shiftl_spec_low.
Qed.

Lemma small_hi k i : 0 <= k < 8 -> 3 <= i -> Z.testbit k i = false.
Proof. intros Hk Hi. apply (in_u_testbit 3); [unfold in_u; lia|lia]. Qed.

Lemma node_land p k : is_node 64 p -> 0 <= k < 8 -> p .& k = 0.
Proof.
  intros Hp Hk. apply Z.bits_inj'. intros i Hi. rewrite Z.land_spec, Z.bits_0.
  destruct (Z.ltb_spec i 3); [by rewrite (node_lo 64 p)|]. by rewrite (small_hi k), andb_false_r.
Qed.

Lemma node_mask w p k : 0 <= w -> is_node w p -> 0 <= k < 8 -> p .& wrapu w (.~ k) = p.
Proof.
  intros Hw Hp Hk. apply Z.bits_inj'. intros i Hi. rewrite Z.land_spec, wrapu_testbit, lnot_testbit by lia.
  destruct (Z.ltb_spec i 3); [by rewrite (node_lo w p)|].
  rewrite (small_hi k) by lia. destruct (Z.ltb_spec i w).
  - rewrite (proj2 (Z.leb_le 0 i)) by lia. by rewrite andb_true_r.
  - rewrite (in_u_testbit w p i (proj1 Hp)) by lia. done.
Qed.

Lemma pack_or p c b : is_node 64 p -> 0 <= c <= 1 -> -1 <= b <= 1 -> pack p c b = p .| (4 * c + (b + 1)).
Proof.
  intros Hp Hc Hb. rewrite lor_disjoint_add by (apply node_land; (done || lia)). unfold pack. lia.
Qed.

Lemma avl_word_range p k : is_node 64 p -> 0 <= k < 8 -> in_u 64 (p .| k).
Proof.
  intros [Hp H] Hk. apply in_u_lor; [lia|done|]. unfold in_u. lia.
Qed.

(** Masks, parts and replacements of a packed word whose low bits are known. *)
Lemma word_land p s k : is_node 64 p -> 0 <= k < 8 -> (p .| s) .& k = s .& k.
Proof. intros Hp Hk. by rewrite Z.land_lor_distr_l, node_land, Z.lor_0_l. Qed.

Lemma avl_word_mask p s k : is_node 64 p -> 0 <= k < 8 -> (p .| s) .& u64 (.~ k) = p .| (s .& u64 (.~ k)).
Proof. intros Hp Hk. by rewrite Z.land_lor_distr_l, (node_mask 64) by (done || lia). Qed.

Lemma word_child p s : is_node 64 p -> ((p .| s) >>> 2) .& 1 = (s >>> 2) .& 1.
Proof.
  intros Hp. rewrite Z.shiftr_lor, Z.land_lor_distr_l.
  replace ((p >>> 2) .& 1) with 0; [by rewrite Z.lor_0_l|].
  symmetry. change 1 with (4 >>> 2). rewrite <- Z.shiftr_land, node_land by (done || lia). done.
Qed.

Ltac each_place c b :=
  let Hc := fresh in let Hb := fresh in
  assert (c = 0 \/ c = 1) as Hc by lia; assert (b = -1 \/ b = 0 \/ b = 1) as Hb by lia;
  destruct Hc as [-> | ->], Hb as [-> | [-> | ->]].

(** The place of a packed word, and the word of a place. *)
Lemma place_pack ch p c b :
  is_node 64 p -> 0 <= c <= 1 -> -1 <= b <= 1 -> place (LP64.Node ch (pack p c b)) = Position p c b.
Proof.
  intros Hp Hc Hb. rewrite pack_or by done. unfold place. simpl.
  unfold LP64.XPARENT_64, LP64.XCHILD_64, LP64.XBALANCE_64. simpl.
  rewrite avl_word_mask, word_child, word_land by (done || lia).
  each_place c b; f_equal; apply Z.lor_0_r.
Qed.

Lemma set_pack ch p c b p' c' b' :
  is_node 64 p -> is_node 64 p' -> 0 <= c <= 1 -> 0 <= c' <= 1 -> -1 <= b <= 1 -> -1 <= b' <= 1 ->
  LP64.SETPARENT_64 (LP64.Node ch (pack p c b)) p' = LP64.Node ch (pack p' c b) /\
  LP64.SETCHILD_64 (LP64.Node ch (pack p c b)) c' = LP64.Node ch (pack p c' b) /\
  LP64.SETBALANCE_64 (LP64.Node ch (pack p c b)) b' = LP64.Node ch (pack p c b').
Proof.
  intros Hp Hp' Hc Hc' Hb Hb'. rewrite !pack_or by done.
  unfold LP64.SETPARENT_64, LP64.SETCHILD_64, LP64.SETBALANCE_64. simpl.
  rewrite !avl_word_mask, word_land, <- !Z.lor_assoc by (done || lia). split_and!; f_equal.
  - rewrite Z.lor_comm. each_place c b; reflexivity.
  - assert (c' = 0 \/ c' = 1) as [-> | ->] by lia; each_place c b;
      (rewrite wrapu_id; [reflexivity|apply avl_word_range; [done|vm_compute; split; (discriminate || reflexivity)]]).
  - assert (b' = -1 \/ b' = 0 \/ b' = 1) as [-> | [-> | ->]] by lia; each_place c b;
      (rewrite wrapu_id; [reflexivity|apply avl_word_range; [done|vm_compute; split; (discriminate || reflexivity)]]).
Qed.

#[export] Instance laws64 : AvlLaws LP64.avl_node_64 64 wf64.
Proof.
  split; intros [ch w].
  - intros (p & c & b & Hp & Hc & Hb & E). simpl in E. subst w.
    pose proof (place_pack ch p c b Hp Hc Hb) as H. unfold place in H. simpl in *. injection H as -> -> ->. done.
  - intros p' (p & c & b & Hp & Hc & Hb & E) Hp'. simpl in E. subst w. cbv zeta. simpl.
    pose proof (place_pack ch p c b Hp Hc Hb) as [= _ -> ->].
    destruct (set_pack ch p c b p' c b Hp Hp' Hc Hc Hb Hb) as (E & _). rewrite E.
    split; [by exists p', c, b|]. split; [done|]. by apply place_pack.
  - intros c' (p & c & b & Hp & Hc & Hb & E) Hc'. simpl in E. subst w. cbv zeta. simpl.
    pose proof (place_pack ch p c b Hp Hc Hb) as [= -> _ ->].
    destruct (set_pack ch p c b p c' b Hp Hp Hc Hc' Hb Hb) as (_ & E & _). rewrite E.
    split; [by exists p, c', b|]. split; [done|]. by apply place_pack.
  - intros b' (p & c & b & Hp & Hc & Hb & E) Hb'. simpl in E. subst w. cbv zeta. simpl.
    pose proof (place_pack ch p c b Hp Hc Hb) as [= -> -> _].
    destruct (set_pack ch p c b p c b' Hp Hp Hc Hc Hb Hb') as (_ & _ & E). rewrite E.
    split; [by exists p, c, b'|]. split; [done|]. by apply place_pack.
Qed.

(** ** The theorems *)

(** The operations on a node. *)
Inductive update := SetParent (p : Z) | SetChild (c : Z) | SetBalance (b : Z).
Definition update_ok (w : Z) (u : update) : Prop :=
  match u with SetParent p => is_node w p | SetChild c => 0 <= c <= 1 | SetBalance b => -1 <= b <= 1 end.
Definition apply_update {N} `{AvlNode N} (n : N) (u : update) : N :=
  match u with
  | SetParent p => AVL_SETPARENT n p
  | SetChild c => AVL_SETCHILD n c
  | SetBalance b => AVL_SETBALANCE n b
  end.
Definition spec_update (q : position) (u : update) : position :=
  match u with
  | SetParent p => Position p (index q) (balance q)
  | SetChild c => Position (parent q) c (balance q)
  | SetBalance b => Position (parent q) (index q) b
  end.

Lemma updates_ok {N} `{HL : AvlLaws N w wf} us : forall n : N,
  wf n -> Forall (update_ok w) us ->
  let n' := fold_left apply_update us n in
  wf n' /\ avl_child n' = avl_child n /\ place n' = fold_left spec_update us (place n).
Proof.
  induction us as [|u us IH]; intros n Hn Hu; [done|]. apply Forall_cons_1 in Hu as [Hu Hus]. simpl.
  assert (wf (apply_update n u) /\ avl_child (apply_update n u) = avl_child n /\
    place (apply_update n u) = spec_update (place n) u) as (H1 & H2 & H3).
  { destruct u; simpl in *; [by apply avl_set_parent|by apply avl_set_child|by apply avl_set_balance]. }
  destruct (IH _ H1 Hus) as (H4 & H5 & H6). split; [done|]. split; [by rewrite H5|]. by rewrite H6, H3.
Qed.

(** The two layouts of a tree node implement the same record.  After any
    sequence of the set macros with valid values, the get macros of the 32-bit
    node with three members and of the 64-bit node with one packed word both give
    the parent, the child index and the balance that were set last, the children
    are untouched, and the values stay valid. *)
Theorem avl_node_refines : forall us n32 n64,
  Forall (update_ok 32) us -> wf32 n32 -> wf64 n64 -> place n32 = place n64 ->
  let m32 := fold_left apply_update us n32 in
  let m64 := fold_left apply_update us n64 in
  place m32 = fold_left spec_update us (place n32) /\ place m64 = place m32 /\
  wf32 m32 /\ wf64 m64 /\ avl_child m32 = avl_child n32 /\ avl_child m64 = avl_child n64.
Proof.
  intros us n32 n64 Hu H32 H64 Hp m32 m64.
  assert (Forall (update_ok 64) us) as Hu'.
  { eapply Forall_impl; [|exact Hu]. intros [p| |]; simpl; try done. intros [Hr Hm]. split; [|done].
    by apply (in_u_mono 32 64). }
  destruct (updates_ok us n32 H32 Hu) as (A1 & A2 & A3). destruct (updates_ok us n64 H64 Hu') as (B1 & B2 & B3).
  split_and!; try done. unfold m64, m32. by rewrite A3, B3, Hp.
Qed.

Lemma avl_node_refines_witness :
  place (fold_left apply_update [SetParent 4096; SetBalance (-1); SetChild 1] (LP64.Node (0, 0) 1))
  = Position 4096 1 (-1).
Proof.
  destruct (avl_node_refines [SetParent 4096; SetBalance (-1); SetChild 1]
    (ILP32.Node (0, 0) 0 0 0) (LP64.Node (0, 0) 1)) as (H1 & H2 & _).
  - repeat constructor; unfold in_u; lia.
  - repeat constructor; simpl; unfold in_u; lia.
  - exists 0, 0, 0. repeat constructor; simpl; unfold in_u; lia.
  - reflexivity.
  - rewrite H2, H1. reflexivity.
Defined.

(** An index into the tree gives back the node and the child it was made of,
    and a node and the data it is part of give back each other. *)
Theorem avl_index_roundtrip : forall w n c d o,
  3 <= w -> is_node w n -> 0 <= c <= 1 -> in_u w d ->
  AVL_INDEX2NODE w (AVL_MKINDEX n c) = n /\ AVL_INDEX2CHILD (AVL_MKINDEX n c) = c /\
  AVL_NODE2DATA w (AVL_DATA2NODE w d o) o = d /\ AVL_DATA2NODE w (AVL_NODE2DATA w d o) o = d.
Proof.
  intros w n c d o Hw Hn Hc Hd.
  unfold AVL_INDEX2NODE, AVL_INDEX2CHILD, AVL_MKINDEX, AVL_NODE2DATA, AVL_DATA2NODE.
  rewrite !Z.land_lor_distr_l, (node_mask w n 1) by (done || lia).
  assert (n .& 1 = 0) as ->.
  { apply Z.bits_inj'. intros i Hi. rewrite Z.land_spec, Z.bits_0. destruct (Z.ltb_spec i 3).
    - by rewrite (node_lo w n).
    - by rewrite (small_hi 1), andb_false_r by lia. }
  assert (c .& wrapu w (.~ 1) = 0) as ->.
  { apply Z.bits_inj'. intros i Hi. rewrite Z.land_spec, wrapu_testbit, lnot_testbit, Z.bits_0 by lia.
    destruct (Z.eqb_spec i 0) as [->|]; [by rewrite andb_false_r, andb_false_r|].
    rewrite (in_u_testbit 1 c) by (unfold in_u; lia). done. }
  split_and!; [apply Z.lor_0_r|assert (c = 0 \/ c = 1) as [-> | ->] by lia; done| |];
    unfold wrapu; [rewrite Zminus_mod_idemp_l|rewrite Zplus_mod_idemp_l];
    rewrite ?Z.add_simpl_r, ?Z.sub_add; apply Z.mod_small, Hd.
Qed.

Lemma avl_index_roundtrip_witness : AVL_INDEX2NODE 32 (AVL_MKINDEX 4096 1) = 4096.
Proof. apply (avl_index_roundtrip 32 4096 1 0 0); [lia|split; [unfold in_u; lia|reflexivity]|lia|unfold in_u; lia]. Defined.
