(* ===== verification/Ioctl.v ===== *)
(** * Ioctl codes: sys/ioccom.h and sys/sockio.h

    An ioctl code holds a group, a number and the direction and the size of its
    argument.  [_IO] and its variants of [src/include/sys/ioccom.h] build the
    codes, those of the sockets are in [src/include/sys/sockio.h], and the
    structures whose sizes they hold are in [net/if.h], [net/if_arp.h] and
    [netinet/ip_mroute.h].  A code is the same in a 32-bit program and in a 64-bit
    kernel only if the size is, which [sizeof] of the layout model decides. *)
From Stdlib Require Import String.
From S2P Require Import Prelude CTypes AbiTypes AbiNet.
#[local] Open Scope Z_scope.
#[local] Open Scope c_scope.

(** ** [sys/ioccom.h] *)
Definition IOCPARM_MASK : Z := 0xff.
Definition IOC_VOID : Z := 0x20000000.
Definition IOC_OUT : Z := 0x40000000.
Definition IOC_IN : Z := 0x80000000.
Definition IOC_INOUT : Z := IOC_IN .| IOC_OUT.

Definition _IO (x y : Z) : Z := IOC_VOID .| (x <<< 8) .| y.
Definition _IORN (x y t : Z) : Z := s32 (u32 (IOC_OUT .| ((t .& IOCPARM_MASK) <<< 16) .| (x <<< 8) .| y)).
Definition _IOWN (x y t : Z) : Z := s32 (u32 (IOC_IN .| ((t .& IOCPARM_MASK) <<< 16) .| (x <<< 8) .| y)).
Definition _IOWRN (x y t : Z) : Z := s32 (u32 (IOC_INOUT .| ((t .& IOCPARM_MASK) <<< 16) .| (x <<< 8) .| y)).
Definition _IOR (m : machine) (x y : Z) (t : ctype) : Z :=
  s32 (u32 (IOC_OUT .| ((sizeof m t .& IOCPARM_MASK) <<< 16) .| (x <<< 8) .| y)).
Definition _IOW (m : machine) (x y : Z) (t : ctype) : Z :=
  s32 (u32 (IOC_IN .| ((sizeof m t .& IOCPARM_MASK) <<< 16) .| (x <<< 8) .| y)).
Definition _IOWR (m : machine) (x y : Z) (t : ctype) : Z :=
  s32 (u32 (IOC_INOUT .| ((sizeof m t .& IOCPARM_MASK) <<< 16) .| (x <<< 8) .| y)).

(** ** Arguments *)
Definition lif_nd_req : ctype :=
  struct ["lnr_addr" :- sockaddr_storage;
     "lnr_state_create" :- uint8_t;
     "lnr_state_same_lla" :- uint8_t;
     "lnr_state_diff_lla" :- uint8_t;
     "lnr_hdw_len" :- int;
     "lnr_flags" :- int;
     "lnr_pad0" :- int;
     "lnr_hdw_addr" :- array ND_MAX_HDW_LEN char]%ct.
Definition lif_ifinfo_req : ctype :=
  struct ["lir_maxhops" :- uint8_t;
     "lir_reachtime" :- uint32_t;
     "lir_reachretrans" :- uint32_t;
     "lir_maxmtu" :- uint32_t]%ct.
Definition _LIFNAMSIZ : Z := 32.
Definition LIFNAMSIZ : Z := _LIFNAMSIZ.
Definition LIFGRNAMSIZ : Z := LIFNAMSIZ.
Definition lifreq : ctype :=
  struct ["lifr_name" :- array LIFNAMSIZ char;
     "lifr_lifru1" :- (union ["lifru_addrlen" :- int; "lifru_ppa" :- uint_t]);
     "lifr_movetoindex" :- uint_t;
     "lifr_lifru" :- (union ["lifru_addr" :- sockaddr_storage;
       "lifru_dstaddr" :- sockaddr_storage;
       "lifru_broadaddr" :- sockaddr_storage;
       "lifru_token" :- sockaddr_storage;
       "lifru_subnet" :- sockaddr_storage;
       "lifru_index" :- int;
       "lifru_flags" :- uint64_t;
       "lifru_metric" :- int;
       "lifru_mtu" :- uint_t;
       "lifru_data" :- array 1 char;
       "lifru_enaddr" :- array 6 char;
       "lif_muxid" :- array 2 int;
       "lifru_nd_req" :- lif_nd_req;
       "lifru_ifinfo_req" :- lif_ifinfo_req;
       "lifru_groupname" :- array LIFGRNAMSIZ char;
       "lifru_delay" :- uint_t;
       "lifru_zoneid" :- zoneid_t])]%ct.
Definition sioc_addrreq : ctype :=
  struct ["sa_addr" :- sockaddr_storage; "sa_res" :- int; "sa_pad" :- int]%ct.
Definition sioc_lsg_req : ctype :=
  struct ["slr_src" :- sockaddr_storage;
     "slr_grp" :- sockaddr_storage;
     "slr_pktcnt" :- uint_t;
     "slr_bytecnt" :- uint_t;
     "slr_wrong_if" :- uint_t;
     "slr_pad" :- uint_t]%ct.
Definition IFNAMSIZ : Z := 16.
Definition ifreq : ctype :=
  struct ["ifr_name" :- array IFNAMSIZ char;
     "ifr_ifru" :- (union ["ifru_addr" :- sockaddr;
       "ifru_dstaddr" :- sockaddr;
       "ifru_oname" :- array IFNAMSIZ char;
       "ifru_broadaddr" :- sockaddr;
       "ifru_index" :- int;
       "ifru_flags" :- short;
       "ifru_metric" :- int;
       "ifru_data" :- array 1 char;
       "ifru_enaddr" :- array 6 char;
       "if_muxid" :- array 2 int;
       "ifru_ppaflags" :- (struct ["ifrup_flags" :- short; "ifrup_filler" :- short; "ifrup_ppa" :- uint_t]);
       "ifru_dnld_req" :- (struct ["v_addr" :- uint32_t; "m_addr" :- uint32_t; "ex_addr" :- uint32_t;
         "size" :- uint32_t]);
       "ifru_fddi_stat" :- (struct ["stat_size" :- uint32_t; "fddi_stats" :- uint32_t]);
       "ifru_netmapent" :- (struct ["map_ent_size" :- uint32_t; "entry_number" :- uint32_t;
         "fddi_map_ent" :- uint32_t]);
       "ifru_fddi_gstruct" :- (struct ["ifru_fddi_gioctl" :- uint32_t; "ifru_fddi_gaddr" :- uint32_t])])]%ct.
Definition lifnum : ctype :=
  struct ["lifn_family" :- sa_family_t; "lifn_flags" :- int; "lifn_count" :- int]%ct.
Definition IFTUN_SECINFOLEN : Z := 8.
Definition iftun_req : ctype :=
  struct ["ifta_lifr_name" :- array LIFNAMSIZ char;
     "ifta_saddr" :- sockaddr_storage;
     "ifta_daddr" :- sockaddr_storage;
     "ifta_flags" :- uint_t;
     "ifta_upper" :- Scalar Enum;
     "ifta_lower" :- Scalar Enum;
     "ifta_vers" :- uint_t;
     "ifta_secinfo" :- array IFTUN_SECINFOLEN uint32_t;
     "ifta_encap_lim" :- int16_t;
     "ifta_hop_limit" :- uint8_t;
     "ifta_spare0" :- uint8_t;
     "ifta_spare1" :- uint32_t]%ct.
Definition vifi_t : ctype := ushort_t.
Definition sioc_sg_req : ctype :=
  struct ["src" :- in_addr; "grp" :- in_addr; "pktcnt" :- uint_t; "bytecnt" :- uint_t; "wrong_if" :- uint_t]%ct.
Definition sioc_vif_req : ctype :=
  struct ["vifi" :- vifi_t; "icount" :- uint_t; "ocount" :- uint_t; "ibytes" :- uint_t; "obytes" :- uint_t]%ct.

(** The groups are characters. *)
Definition C_i : Z := 105.
Definition C_r : Z := 114.
Definition C_s : Z := 115.

(** ** The socket ioctls of [sys/sockio.h]
    Each on a machine [m], which gives the size of its argument. *)
Inductive sioc :=
  | SIOCSHIWAT | SIOCGHIWAT | SIOCSLOWAT | SIOCGLOWAT | SIOCATMARK | SIOCSPGRP | SIOCGPGRP | SIOCADDRT | SIOCDELRT
  | SIOCGETVIFCNT | SIOCGETSGCNT | SIOCGETLSGCNT | SIOCSIFADDR | SIOCGIFADDR | SIOCSIFDSTADDR | SIOCGIFDSTADDR
  | SIOCSIFFLAGS | SIOCGIFFLAGS | SIOCSIFMEM | SIOCGIFMEM | O_SIOCGIFCONF | SIOCSIFMTU | SIOCGIFMTU | SIOCGIFBRDADDR
  | SIOCSIFBRDADDR | SIOCGIFNETMASK | SIOCSIFNETMASK | SIOCGIFMETRIC | SIOCSIFMETRIC | SIOCSARP | SIOCGARP
  | SIOCDARP | SIOCUPPER | SIOCLOWER | SIOCSETSYNC | SIOCGETSYNC | SIOCSSDSTATS | SIOCSSESTATS | SIOCSPROMISC
  | SIOCADDMULTI | SIOCDELMULTI | SIOCGETNAME | SIOCGETPEER | IF_UNITSEL | SIOCXPROTO | SIOCIFDETACH | SIOCGENPSTATS
  | SIOCX25XMT | SIOCX25RCV | SIOCX25TBL | SIOCSLGETREQ | SIOCSLSTAT | SIOCSIFNAME | SIOCGENADDR | SIOCGIFNUM
  | SIOCGIFMUXID | SIOCSIFMUXID | SIOCGIFINDEX | SIOCSIFINDEX | SIOCGIFCONF | SIOCLIFREMOVEIF | SIOCLIFADDIF
  | SIOCSLIFADDR | SIOCGLIFADDR | SIOCSLIFDSTADDR | SIOCGLIFDSTADDR | SIOCSLIFFLAGS | SIOCGLIFFLAGS | O_SIOCGLIFCONF
  | SIOCSLIFMTU | SIOCGLIFMTU | SIOCGLIFBRDADDR | SIOCSLIFBRDADDR | SIOCGLIFNETMASK | SIOCSLIFNETMASK
  | SIOCGLIFMETRIC | SIOCSLIFMETRIC | SIOCSLIFNAME | SIOCGLIFNUM | SIOCGLIFMUXID | SIOCSLIFMUXID | SIOCGLIFINDEX
  | SIOCSLIFINDEX | SIOCSLIFTOKEN | SIOCGLIFTOKEN | SIOCSLIFSUBNET | SIOCGLIFSUBNET | SIOCSLIFLNKINFO
  | SIOCGLIFLNKINFO | SIOCLIFDELND | SIOCLIFGETND | SIOCLIFSETND | SIOCTMYADDR | SIOCTONLINK | SIOCTMYSITE
  | SIOCGTUNPARAM | SIOCSTUNPARAM | SIOCFIPSECONFIG | SIOCSIPSECONFIG | SIOCDIPSECONFIG | SIOCLIPSECONFIG
  | SIOCLIFFAILOVER | SIOCLIFFAILBACK | SIOCSLIFGROUPNAME | SIOCGLIFGROUPNAME | SIOCGLIFOINDEX | SIOCSLIFOINDEX
  | SIOCGIP6ADDRPOLICY | SIOCSIP6ADDRPOLICY | SIOCGDSTINFO | SIOCGLIFCONF | SIOCSXARP | SIOCGXARP | SIOCDXARP
  | SIOCPOPSOCKFS | SIOCGLIFZONE | SIOCSLIFZONE | SIOCSCTPSOPT | SIOCSCTPGOPT | SIOCSCTPPEELOFF | SIOCGLIFUSESRC
  | SIOCSLIFUSESRC | SIOCGLIFSRCOF | SIOCGMSFILTER | SIOCSMSFILTER | SIOCGIPMSFILTER | SIOCSIPMSFILTER.
#[export] Instance sioc_eq_dec : EqDecision sioc.
Proof. solve_decision. Defined.
Definition sioc_code (c : sioc) (m : machine) : Z :=
  match c with
  | SIOCSHIWAT => _IOW m C_s 0 int
  | SIOCGHIWAT => _IOR m C_s 1 int
  | SIOCSLOWAT => _IOW m C_s 2 int
  | SIOCGLOWAT => _IOR m C_s 3 int
  | SIOCATMARK => _IOR m C_s 7 int
  | SIOCSPGRP => _IOW m C_s 8 int
  | SIOCGPGRP => _IOR m C_s 9 int
  | SIOCADDRT => _IOWN C_r 10 48
  | SIOCDELRT => _IOWN C_r 11 48
  | SIOCGETVIFCNT => _IOWR m C_r 20 sioc_vif_req
  | SIOCGETSGCNT => _IOWR m C_r 21 sioc_sg_req
  | SIOCGETLSGCNT => _IOWR m C_r 21 sioc_lsg_req
  | SIOCSIFADDR => _IOW m C_i 12 ifreq
  | SIOCGIFADDR => _IOWR m C_i 13 ifreq
  | SIOCSIFDSTADDR => _IOW m C_i 14 ifreq
  | SIOCGIFDSTADDR => _IOWR m C_i 15 ifreq
  | SIOCSIFFLAGS => _IOW m C_i 16 ifreq
  | SIOCGIFFLAGS => _IOWR m C_i 17 ifreq
  | SIOCSIFMEM => _IOW m C_i 18 ifreq
  | SIOCGIFMEM => _IOWR m C_i 19 ifreq
  | O_SIOCGIFCONF => _IOWRN C_i 20 8
  | SIOCSIFMTU => _IOW m C_i 21 ifreq
  | SIOCGIFMTU => _IOWR m C_i 22 ifreq
  | SIOCGIFBRDADDR => _IOWR m C_i 23 ifreq
  | SIOCSIFBRDADDR => _IOW m C_i 24 ifreq
  | SIOCGIFNETMASK => _IOWR m C_i 25 ifreq
  | SIOCSIFNETMASK => _IOW m C_i 26 ifreq
  | SIOCGIFMETRIC => _IOWR m C_i 27 ifreq
  | SIOCSIFMETRIC => _IOW m C_i 28 ifreq
  | SIOCSARP => _IOW m C_i 30 arpreq
  | SIOCGARP => _IOWR m C_i 31 arpreq
  | SIOCDARP => _IOW m C_i 32 arpreq
  | SIOCUPPER => _IOW m C_i 40 ifreq
  | SIOCLOWER => _IOW m C_i 41 ifreq
  | SIOCSETSYNC => _IOW m C_i 44 ifreq
  | SIOCGETSYNC => _IOWR m C_i 45 ifreq
  | SIOCSSDSTATS => _IOWR m C_i 46 ifreq
  | SIOCSSESTATS => _IOWR m C_i 47 ifreq
  | SIOCSPROMISC => _IOW m C_i 48 int
  | SIOCADDMULTI => _IOW m C_i 49 ifreq
  | SIOCDELMULTI => _IOW m C_i 50 ifreq
  | SIOCGETNAME => _IOR m C_s 52 sockaddr
  | SIOCGETPEER => _IOR m C_s 53 sockaddr
  | IF_UNITSEL => _IOW m C_s 54 int
  | SIOCXPROTO => _IO C_s 55
  | SIOCIFDETACH => _IOW m C_i 56 ifreq
  | SIOCGENPSTATS => _IOWR m C_i 57 ifreq
  | SIOCX25XMT => _IOWR m C_i 59 ifreq
  | SIOCX25RCV => _IOWR m C_i 60 ifreq
  | SIOCX25TBL => _IOWR m C_i 61 ifreq
  | SIOCSLGETREQ => _IOWR m C_i 71 ifreq
  | SIOCSLSTAT => _IOW m C_i 72 ifreq
  | SIOCSIFNAME => _IOW m C_i 73 ifreq
  | SIOCGENADDR => _IOWR m C_i 85 ifreq
  | SIOCGIFNUM => _IOR m C_i 87 int
  | SIOCGIFMUXID => _IOWR m C_i 88 ifreq
  | SIOCSIFMUXID => _IOW m C_i 89 ifreq
  | SIOCGIFINDEX => _IOWR m C_i 90 ifreq
  | SIOCSIFINDEX => _IOW m C_i 91 ifreq
  | SIOCGIFCONF => _IOWRN C_i 92 8
  | SIOCLIFREMOVEIF => _IOW m C_i 110 lifreq
  | SIOCLIFADDIF => _IOWR m C_i 111 lifreq
  | SIOCSLIFADDR => _IOW m C_i 112 lifreq
  | SIOCGLIFADDR => _IOWR m C_i 113 lifreq
  | SIOCSLIFDSTADDR => _IOW m C_i 114 lifreq
  | SIOCGLIFDSTADDR => _IOWR m C_i 115 lifreq
  | SIOCSLIFFLAGS => _IOW m C_i 116 lifreq
  | SIOCGLIFFLAGS => _IOWR m C_i 117 lifreq
  | O_SIOCGLIFCONF => _IOWRN C_i 120 16
  | SIOCSLIFMTU => _IOW m C_i 121 lifreq
  | SIOCGLIFMTU => _IOWR m C_i 122 lifreq
  | SIOCGLIFBRDADDR => _IOWR m C_i 123 lifreq
  | SIOCSLIFBRDADDR => _IOW m C_i 124 lifreq
  | SIOCGLIFNETMASK => _IOWR m C_i 125 lifreq
  | SIOCSLIFNETMASK => _IOW m C_i 126 lifreq
  | SIOCGLIFMETRIC => _IOWR m C_i 127 lifreq
  | SIOCSLIFMETRIC => _IOW m C_i 128 lifreq
  | SIOCSLIFNAME => _IOWR m C_i 129 lifreq
  | SIOCGLIFNUM => _IOWR m C_i 130 lifnum
  | SIOCGLIFMUXID => _IOWR m C_i 131 lifreq
  | SIOCSLIFMUXID => _IOW m C_i 132 lifreq
  | SIOCGLIFINDEX => _IOWR m C_i 133 lifreq
  | SIOCSLIFINDEX => _IOW m C_i 134 lifreq
  | SIOCSLIFTOKEN => _IOW m C_i 135 lifreq
  | SIOCGLIFTOKEN => _IOWR m C_i 136 lifreq
  | SIOCSLIFSUBNET => _IOW m C_i 137 lifreq
  | SIOCGLIFSUBNET => _IOWR m C_i 138 lifreq
  | SIOCSLIFLNKINFO => _IOW m C_i 139 lifreq
  | SIOCGLIFLNKINFO => _IOWR m C_i 140 lifreq
  | SIOCLIFDELND => _IOW m C_i 141 lifreq
  | SIOCLIFGETND => _IOWR m C_i 142 lifreq
  | SIOCLIFSETND => _IOW m C_i 143 lifreq
  | SIOCTMYADDR => _IOWR m C_i 144 sioc_addrreq
  | SIOCTONLINK => _IOWR m C_i 145 sioc_addrreq
  | SIOCTMYSITE => _IOWR m C_i 146 sioc_addrreq
  | SIOCGTUNPARAM => _IOR m C_i 147 iftun_req
  | SIOCSTUNPARAM => _IOW m C_i 148 iftun_req
  | SIOCFIPSECONFIG => _IOW m C_i 149 int
  | SIOCSIPSECONFIG => _IOW m C_i 150 int
  | SIOCDIPSECONFIG => _IOW m C_i 151 int
  | SIOCLIPSECONFIG => _IOW m C_i 152 int
  | SIOCLIFFAILOVER => _IOW m C_i 153 lifreq
  | SIOCLIFFAILBACK => _IOW m C_i 154 lifreq
  | SIOCSLIFGROUPNAME => _IOW m C_i 155 lifreq
  | SIOCGLIFGROUPNAME => _IOWR m C_i 156 lifreq
  | SIOCGLIFOINDEX => _IOWR m C_i 157 lifreq
  | SIOCSLIFOINDEX => _IOWR m C_i 161 lifreq
  | SIOCGIP6ADDRPOLICY => _IOWRN C_i 162 0
  | SIOCSIP6ADDRPOLICY => _IOWN C_i 163 0
  | SIOCGDSTINFO => _IOWRN C_i 164 0
  | SIOCGLIFCONF => _IOWRN C_i 165 16
  | SIOCSXARP => _IOW m C_i 166 xarpreq
  | SIOCGXARP => _IOWR m C_i 167 xarpreq
  | SIOCDXARP => _IOW m C_i 168 xarpreq
  | SIOCPOPSOCKFS => _IOW m C_i 169 int
  | SIOCGLIFZONE => _IOWR m C_i 170 lifreq
  | SIOCSLIFZONE => _IOW m C_i 171 lifreq
  | SIOCSCTPSOPT => _IOWN C_i 172 16
  | SIOCSCTPGOPT => _IOWRN C_i 173 16
  | SIOCSCTPPEELOFF => _IOWR m C_i 174 int
  | SIOCGLIFUSESRC => _IOWR m C_i 175 lifreq
  | SIOCSLIFUSESRC => _IOW m C_i 176 lifreq
  | SIOCGLIFSRCOF => _IOWRN C_i 177 16
  | SIOCGMSFILTER => _IOWR m C_i 178 int
  | SIOCSMSFILTER => _IOW m C_i 179 int
  | SIOCGIPMSFILTER => _IOWR m C_i 180 int
  | SIOCSIPMSFILTER => _IOW m C_i 181 int
  end.
Coercion sioc_code : sioc >-> Funclass.

Definition sockio : list sioc :=
  [SIOCSHIWAT; SIOCGHIWAT; SIOCSLOWAT; SIOCGLOWAT; SIOCATMARK; SIOCSPGRP; SIOCGPGRP; SIOCADDRT; SIOCDELRT;
  SIOCGETVIFCNT; SIOCGETSGCNT; SIOCGETLSGCNT; SIOCSIFADDR; SIOCGIFADDR; SIOCSIFDSTADDR; SIOCGIFDSTADDR;
  SIOCSIFFLAGS; SIOCGIFFLAGS; SIOCSIFMEM; SIOCGIFMEM; O_SIOCGIFCONF; SIOCSIFMTU; SIOCGIFMTU; SIOCGIFBRDADDR;
  SIOCSIFBRDADDR; SIOCGIFNETMASK; SIOCSIFNETMASK; SIOCGIFMETRIC; SIOCSIFMETRIC; SIOCSARP; SIOCGARP; SIOCDARP;
  SIOCUPPER; SIOCLOWER; SIOCSETSYNC; SIOCGETSYNC; SIOCSSDSTATS; SIOCSSESTATS; SIOCSPROMISC; SIOCADDMULTI;
  SIOCDELMULTI; SIOCGETNAME; SIOCGETPEER; IF_UNITSEL; SIOCXPROTO; SIOCIFDETACH; SIOCGENPSTATS; SIOCX25XMT;
  SIOCX25RCV; SIOCX25TBL; SIOCSLGETREQ; SIOCSLSTAT; SIOCSIFNAME; SIOCGENADDR; SIOCGIFNUM; SIOCGIFMUXID;
  SIOCSIFMUXID; SIOCGIFINDEX; SIOCSIFINDEX; SIOCGIFCONF; SIOCLIFREMOVEIF; SIOCLIFADDIF; SIOCSLIFADDR; SIOCGLIFADDR;
  SIOCSLIFDSTADDR; SIOCGLIFDSTADDR; SIOCSLIFFLAGS; SIOCGLIFFLAGS; O_SIOCGLIFCONF; SIOCSLIFMTU; SIOCGLIFMTU;
  SIOCGLIFBRDADDR; SIOCSLIFBRDADDR; SIOCGLIFNETMASK; SIOCSLIFNETMASK; SIOCGLIFMETRIC; SIOCSLIFMETRIC; SIOCSLIFNAME;
  SIOCGLIFNUM; SIOCGLIFMUXID; SIOCSLIFMUXID; SIOCGLIFINDEX; SIOCSLIFINDEX; SIOCSLIFTOKEN; SIOCGLIFTOKEN;
  SIOCSLIFSUBNET; SIOCGLIFSUBNET; SIOCSLIFLNKINFO; SIOCGLIFLNKINFO; SIOCLIFDELND; SIOCLIFGETND; SIOCLIFSETND;
  SIOCTMYADDR; SIOCTONLINK; SIOCTMYSITE; SIOCGTUNPARAM; SIOCSTUNPARAM; SIOCFIPSECONFIG; SIOCSIPSECONFIG;
  SIOCDIPSECONFIG; SIOCLIPSECONFIG; SIOCLIFFAILOVER; SIOCLIFFAILBACK; SIOCSLIFGROUPNAME; SIOCGLIFGROUPNAME;
  SIOCGLIFOINDEX; SIOCSLIFOINDEX; SIOCGIP6ADDRPOLICY; SIOCSIP6ADDRPOLICY; SIOCGDSTINFO; SIOCGLIFCONF; SIOCSXARP;
  SIOCGXARP; SIOCDXARP; SIOCPOPSOCKFS; SIOCGLIFZONE; SIOCSLIFZONE; SIOCSCTPSOPT; SIOCSCTPGOPT; SIOCSCTPPEELOFF;
  SIOCGLIFUSESRC; SIOCSLIFUSESRC; SIOCGLIFSRCOF; SIOCGMSFILTER; SIOCSMSFILTER; SIOCGIPMSFILTER; SIOCSIPMSFILTER].

(** ** The fields of a code *)
Definition ioc_dir (c : Z) : Z := u32 c .& (IOC_VOID .| IOC_INOUT).
Definition ioc_size (c : Z) : Z := (u32 c >>> 16) .& IOCPARM_MASK.
Definition ioc_group (c : Z) : Z := (u32 c >>> 8) .& 0xff.
Definition ioc_number (c : Z) : Z := u32 c .& 0xff.
Definition fields (c : Z) : Z * Z * Z * Z := (ioc_dir c, ioc_size c, ioc_group c, ioc_number c).

(** A code of its parts; the direction is in the three high bits. *)
Lemma code_sum d n x y :
  in_u 8 n -> in_u 8 x -> in_u 8 y -> 
  (d * 2 ^ 29) .| (n <<< 16) .| (x <<< 8) .| y = d * 2 ^ 29 + (n * 2 ^ 16 + (x * 2 ^ 8 + y)).
Proof.
  intros Hn Hx Hy. rewrite <- !Z.lor_assoc, <- Z.shiftl_mul_pow2 by lia.
  pose proof (in_u_pair 8 8 x y ltac:(lia) ltac:(lia) Hx Hy) as H1.
  pose proof (in_u_pair 16 8 n _ ltac:(lia) ltac:(lia) Hn H1) as H2.
  rewrite (lor_high 8), (lor_high 16) by (done || lia).
  rewrite (lor_high 29); [by rewrite Z.shiftl_mul_pow2 by lia|lia|]. apply (in_u_mono 24 29); [lia|done].
Qed.

Lemma code_fields d n x y :
  in_u 3 d -> in_u 8 n -> in_u 8 x -> in_u 8 y ->
  fields (s32 (u32 ((d * 2 ^ 29) .| (n <<< 16) .| (x <<< 8) .| y))) = (d * 2 ^ 29, n, x, y).
Proof.
  intros Hd Hn Hx Hy. unfold fields, ioc_dir, ioc_size, ioc_group, ioc_number.
  rewrite (wrapu_wraps 32), code_sum by (done || lia). unfold IOCPARM_MASK.
  set (w := d * 2 ^ 29 + (n * 2 ^ 16 + (x * 2 ^ 8 + y))).
  assert (in_u 32 w) as Hw by (unfold w, in_u in *; lia). rewrite !(wrapu_id 32 w) by done.
  change (IOC_VOID .| IOC_INOUT) with (7 * 2 ^ 29).
  replace (w .& (7 * 2 ^ 29)) with (d * 2 ^ 29).
  - rewrite !byte_of, low_byte by lia.
    assert (w / 2 ^ 16 mod 2 ^ 8 = n /\ w / 2 ^ 8 mod 2 ^ 8 = x /\ w mod 2 ^ 8 = y) as (-> & -> & ->); [|done].
    unfold w, in_u in *. clear w Hw. Z.to_euclidean_division_equations. lia.
  - rewrite <- !Z.shiftl_mul_pow2 by lia. unfold w. rewrite <- (lor_high 29).
    + rewrite Z.land_lor_distr_l, <- Z.shiftl_land. change 7 with (Z.ones 3).
      rewrite land_ones_mod, Z.mod_small by (unfold in_u in *; lia).
      match goal with |- _ = _ .| ?z => assert (z = 0) as -> end; [|by rewrite Z.lor_0_r].
      apply Z.bits_inj'. intros i Hi. rewrite Z.land_spec, Z.bits_0. destruct (Z.ltb_spec i 29).
      * by rewrite Z.shiftl_spec_low, andb_false_r.
      * rewrite (in_u_testbit 29); [done|unfold in_u in *; lia|lia].
    + lia.
    + unfold in_u in *. lia.
Qed.

(** A code gives back the direction, the low octet of the size, the group and
    the number it was made of, so codes of one direction and size differ when
    their groups or numbers do. *)
Theorem ioctl_fields : forall m x y n t,
  in_u 8 x -> in_u 8 y ->
  fields (_IO x y) = (IOC_VOID, 0, x, y) /\
  fields (_IORN x y n) = (IOC_OUT, n .& IOCPARM_MASK, x, y) /\
  fields (_IOWN x y n) = (IOC_IN, n .& IOCPARM_MASK, x, y) /\
  fields (_IOWRN x y n) = (IOC_INOUT, n .& IOCPARM_MASK, x, y) /\
  fields (_IOR m x y t) = (IOC_OUT, sizeof m t .& IOCPARM_MASK, x, y) /\
  fields (_IOW m x y t) = (IOC_IN, sizeof m t .& IOCPARM_MASK, x, y) /\
  fields (_IOWR m x y t) = (IOC_INOUT, sizeof m t .& IOCPARM_MASK, x, y).
Proof.
  intros m x y n t Hx Hy.
  assert (forall k, in_u 8 (k .& IOCPARM_MASK)) as Hmask.
  { intros k. unfold IOCPARM_MASK. rewrite low_byte. unfold in_u. apply Z.mod_pos_bound. lia. }
  assert (forall d, 1 <= d <= 6 -> in_u 3 d) as Hdir by (unfold in_u; lia).
  split_and!.
  - assert (_IO x y = s32 (u32 ((1 * 2 ^ 29) .| (0 <<< 16) .| (x <<< 8) .| y))) as ->.
    { unfold _IO, IOC_VOID. change 0x20000000 with ((1 * 2 ^ 29) .| (0 <<< 16)).
      rewrite code_sum by (done || (unfold in_u; lia)).
      rewrite wrapu_id by (unfold in_u in *; lia). symmetry. apply wraps_id; unfold in_u in *; lia. }
    rewrite code_fields by (done || (unfold in_u; lia)). done.
  - apply (code_fields 2); auto. apply Hdir. lia.
  - apply (code_fields 4); auto. apply Hdir. lia.
  - apply (code_fields 6); auto. apply Hdir. lia.
  - apply (code_fields 2); auto. apply Hdir. lia.
  - apply (code_fields 4); auto. apply Hdir. lia.
  - apply (code_fields 6); auto. apply Hdir. lia.
Qed.

Lemma ioctl_fields_witness : fields (_IOWR i386 C_i 13 ifreq) = (IOC_INOUT, 32, C_i, 13).
Proof. apply (ioctl_fields i386 C_i 13 0 ifreq); unfold in_u, C_i; lia. Defined.

Lemma sockio_all c : In c sockio.
Proof. destruct c; (apply list_elem_of_In, (bool_decide_eq_true (_ ∈ _)); vm_compute; reflexivity). Qed.
Lemma map_injective {A B : Type} (f : A -> B) l x y : NoDup (map f l) -> In x l -> In y l -> f x = f y -> x = y.
Proof.
  induction l as [|z l IH]; simpl; intros Hn Hx Hy E; [done|]. inversion_clear Hn as [|? ? Hz Hn'].
  assert (forall w, In w l -> f w <> f z) as Hne by (intros w Hw E'; apply Hz, list_elem_of_In; rewrite <- E'; by apply in_map).
  destruct Hx as [->|Hx], Hy as [->|Hy]; [done|..|by apply IH]; exfalso; [by apply (Hne y)|by apply (Hne x)].
Qed.

(** The codes of the socket ioctls are the same in a 32-bit program and in a
    64-bit kernel, and no two ioctls have the same code. *)
Theorem sockio_shared k u :
  kernel_user k u -> (forall c : sioc, c k = c u) /\ (forall c d : sioc, c u = d u -> c = d).
Proof.
  intros Hk. assert (forallb (fun c : sioc => c k =? c u) sockio = true /\ NoDup (map (fun c : sioc => c u) sockio)) as [H1 H2].
  { destruct (kernel_user_cases _ _ Hk) as [[-> ->] | [-> ->]];
      (split; [vm_compute; reflexivity|]); apply (bool_decide_eq_true (NoDup _)); vm_compute; reflexivity. }
  rewrite forallb_forall in H1. split; [intros c; by apply Z.eqb_eq, H1, sockio_all|].
  intros c d. apply (map_injective (fun c : sioc => c u) sockio); [done|apply sockio_all..].
Qed.

Lemma sockio_shared_witness : SIOCGLIFADDR amd64 = SIOCGLIFADDR i386.
Proof.
  assert (kernel_user amd64 i386) as H by (unfold kernel_user; simpl; tauto).
  exact (proj1 (sockio_shared amd64 i386 H) SIOCGLIFADDR).
Defined.

(** Arguments of 256 octets and more do not fit the size field: the codes of
    the ioctls on [lifreq], [xarpreq], [sioc_addrreq], [sioc_lsg_req] and
    [iftun_req] hold the low octet of the size, which is 0 for [xarpreq], and
    where no argument is meant by 0, the size of an [int]. *)
Theorem sockio_truncated :
  (sizeof i386 lifreq = 376 /\ ioc_size (SIOCGLIFADDR i386) = 120) /\
  (sizeof i386 xarpreq = 512 /\ ioc_size (SIOCSXARP i386) = 0) /\
  (sizeof i386 sioc_addrreq = 264 /\ ioc_size (SIOCTMYADDR i386) = 8) /\
  (sizeof i386 sioc_lsg_req = 528 /\ ioc_size (SIOCGETLSGCNT i386) = 16) /\
  (sizeof i386 iftun_req = 600 /\ ioc_size (SIOCGTUNPARAM i386) = 88) /\
  ioc_size (SIOCFIPSECONFIG i386) = 4.
Proof. vm_compute. tauto. Qed.
