(* ===== verification/IfQueue.v ===== *)
(** * Interface queues: net/if.h

    The queue of message buffers of a network interface, [struct ifqueue], and the
    macros [IF_QFULL], [IF_DROP], [IF_ENQUEUE], [IF_PREPEND] and [IF_DEQUEUE] of
    [src/include/net/if.h].  The buffers are linked by [m_act] in a store of
    addresses, 0 being the null pointer.  Any sequence of the macros behaves as
    the same sequence on a list.  [IF_ADJ] and [IF_DEQUEUEIF] use [mtod] and
    [MFREE], whose header is not in the tree. *)
From S2P Require Import Prelude.
From stdpp Require Import gmap.
#[local] Open Scope Z_scope.

(** ** Data *)

(** The [m_act] of every buffer. *)
Abbreviation store := (gmap Z Z).

Record ifqueue := Ifqueue { ifq_head : Z; ifq_tail : Z; ifq_len : Z; ifq_maxlen : Z; ifq_drops : Z }.

(** [p->m_act = v]; [None] when [p] is not a buffer. *)
Definition set_m_act (p v : Z) (h : store) : option store :=
  match h !! p with Some _ => Some (<[p := v]> h) | None => None end.

(** ** The macros *)
Definition IFQ_MAXLEN : Z := 50.
Definition IF_QFULL (q : ifqueue) : bool := ifq_maxlen q <=? ifq_len q.
Definition IF_DROP (q : ifqueue) : ifqueue :=
  Ifqueue (ifq_head q) (ifq_tail q) (ifq_len q) (ifq_maxlen q) (ifq_drops q + 1).

Definition IF_ENQUEUE (h : store) (q : ifqueue) (m : Z) : option (store * ifqueue) :=
  h ← set_m_act m 0 h;
  '(h, head) ← (if ifq_tail q =? 0 then Some (h, m)
                else h ← set_m_act (ifq_tail q) m h; Some (h, ifq_head q));
  Some (h, Ifqueue head m (ifq_len q + 1) (ifq_maxlen q) (ifq_drops q)).

Definition IF_PREPEND (h : store) (q : ifqueue) (m : Z) : option (store * ifqueue) :=
  h ← set_m_act m (ifq_head q) h;
  let tail := if ifq_tail q =? 0 then m else ifq_tail q in
  Some (h, Ifqueue m tail (ifq_len q + 1) (ifq_maxlen q) (ifq_drops q)).

(** The result is the buffer, or 0. *)
Definition IF_DEQUEUE (h : store) (q : ifqueue) : option (store * ifqueue * Z) :=
  let m := ifq_head q in
  if m =? 0 then Some (h, q, m)
  else
    next ← h !! m;
    let tail := if next =? 0 then 0 else ifq_tail q in
    h ← set_m_act m 0 h;
    Some (h, Ifqueue next tail (ifq_len q - 1) (ifq_maxlen q) (ifq_drops q), m).

(** ** Queues as lists *)

(** The buffers [l], linked from [p] and ended by a null pointer. *)
Fixpoint linked (h : store) (p : Z) (l : list Z) : Prop :=
  match l with
  | [] => p = 0
  | m :: l => p = m /\ m <> 0 /\ exists next, h !! m = Some next /\ linked h next l
  end.

Record queue (h : store) (q : ifqueue) (l : list Z) : Prop := {
  queue_linked : linked h (ifq_head q) l;
  queue_tail : ifq_tail q = List.last l 0;
  queue_len : ifq_len q = Z.of_nat (length l);
  queue_nodup : NoDup l }.

Lemma linked_nonzero h p l m : linked h p l -> m ∈ l -> m <> 0 /\ is_Some (h !! m).
Proof.
  revert p. induction l as [|x l IH]; intros p; [by intros _ ?%elem_of_nil|].
  intros (_ & Hx & n & Hn & Hl) [->|Hm]%elem_of_cons; [by eauto|by eapply IH].
Qed.

(** Buffers outside of the queue can be changed. *)
Lemma linked_insert h p l m v : m ∉ l -> linked h p l -> linked (<[m := v]> h) p l.
Proof.
  revert p. induction l as [|x l IH]; intros p; [done|]. rewrite not_elem_of_cons.
  intros [Hx Hm] (-> & Hx0 & n & Hn & Hl). split; [done|]. split; [done|]. exists n.
  split; [by rewrite lookup_insert_ne|]. by apply IH.
Qed.

(** The last buffer is linked to a new one. *)
Lemma linked_snoc h p l m :
  l <> [] -> NoDup (l ++ [m]) -> m <> 0 -> h !! m = Some 0 -> linked h p l ->
  linked (<[List.last l 0 := m]> h) p (l ++ [m]).
Proof.
  revert p. induction l as [|x l IH]; intros p Hne Hnd Hm Hh; [done|].
  intros (-> & Hx0 & n & Hn & Hl). simpl in Hnd. apply NoDup_cons in Hnd as [Hx Hnd].
  rewrite not_elem_of_app in Hx. destruct Hx as [Hxl Hxm]. rewrite list_elem_of_singleton in Hxm.
  split; [done|]. split; [done|]. destruct l as [|y l].
  - simpl in *. exists m. rewrite lookup_insert_eq. split; [done|]. split; [done|]. split; [done|].
    exists 0. by rewrite lookup_insert_ne.
  - exists n. rewrite lookup_insert_ne.
    + split; [done|]. by apply IH.
    + intros E. apply Hxl. rewrite <- E. apply list_elem_of_In.
      change (List.last (x :: y :: l) 0) with (List.last (y :: l) 0).
      destruct (@exists_last _ (y :: l) ltac:(done)) as (l' & z & ->). rewrite last_last.
      apply in_or_app. right. by left.
Qed.

Lemma last_nonzero h p l : linked h p l -> l <> [] -> List.last l 0 <> 0 /\ is_Some (h !! List.last l 0).
Proof.
  intros Hl Hne. destruct (@exists_last _ l Hne) as (l' & z & ->). rewrite last_last.
  eapply linked_nonzero; [done|]. apply elem_of_app. right. by apply list_elem_of_singleton.
Qed.

Lemma set_m_act_in p v h : is_Some (h !! p) -> set_m_act p v h = Some (<[p := v]> h).
Proof. unfold set_m_act. by intros [x ->]. Qed.

Lemma last_snoc (l : list Z) m d : List.last (l ++ [m]) d = m.
Proof. apply last_last. Qed.

(** ** The operations *)
Section Operations.
Context (h : store) (q : ifqueue) (l : list Z) (Hq : queue h q l).

Lemma tail_zero : (ifq_tail q =? 0) = bool_decide (l = []).
Proof.
  rewrite (queue_tail _ _ _ Hq). destruct (decide (l = [])) as [->|Hne]; [done|].
  rewrite bool_decide_eq_false_2 by done. apply Z.eqb_neq. by eapply last_nonzero; [apply Hq|].
Qed.

Lemma enqueue_ok m :
  m <> 0 -> is_Some (h !! m) -> m ∉ l ->
  exists h' q', IF_ENQUEUE h q m = Some (h', q') /\ queue h' q' (l ++ [m]) /\
    ifq_maxlen q' = ifq_maxlen q /\ ifq_drops q' = ifq_drops q /\ dom h' = dom h.
Proof.
  intros Hm Hin Hnl. unfold IF_ENQUEUE. rewrite set_m_act_in by done. simpl. rewrite tail_zero.
  assert (linked (<[m := 0]> h) (ifq_head q) l) as Hl by (apply linked_insert; [done|apply Hq]).
  assert (NoDup (l ++ [m])) as Hnd.
  { apply NoDup_app. split; [apply Hq|]. split; [|apply NoDup_singleton].
    intros x Hx ->%list_elem_of_singleton. done. }
  assert (dom (<[m := 0]> h) = dom h) as Hd by (apply dom_insert_lookup_L, Hin).
  destruct (decide (l = [])) as [E|Hne].
  - rewrite bool_decide_eq_true_2 by done. simpl. eexists _, _. split; [done|]. rewrite E in *. split_and!; try done.
    constructor; simpl; try done.
    + split; [done|]. split; [done|]. exists 0. by rewrite lookup_insert_eq.
    + rewrite (queue_len _ _ _ Hq). by rewrite ?E.
  - rewrite bool_decide_eq_false_2 by done. rewrite (queue_tail _ _ _ Hq).
    destruct (last_nonzero _ _ _ Hl Hne) as [Hl0 Hlin]. rewrite set_m_act_in by done. simpl.
    eexists _, _. split; [done|]. split_and!; try done.
    + constructor; simpl; [|by rewrite last_snoc|by rewrite (queue_len _ _ _ Hq), length_app; simpl; lia|done].
      apply linked_snoc; try done. by rewrite lookup_insert_eq.
    + by rewrite dom_insert_lookup_L.
Qed.

Lemma prepend_ok m :
  m <> 0 -> is_Some (h !! m) -> m ∉ l ->
  exists h' q', IF_PREPEND h q m = Some (h', q') /\ queue h' q' (m :: l) /\
    ifq_maxlen q' = ifq_maxlen q /\ ifq_drops q' = ifq_drops q /\ dom h' = dom h.
Proof.
  intros Hm Hin Hnl. unfold IF_PREPEND. rewrite set_m_act_in by done. simpl. rewrite tail_zero.
  eexists _, _. split; [done|]. split_and!; try done; [|by apply dom_insert_lookup_L].
  constructor; simpl.
  - split; [done|]. split; [done|]. exists (ifq_head q). rewrite lookup_insert_eq. split; [done|].
    apply linked_insert; [done|apply Hq].
  - rewrite (queue_tail _ _ _ Hq). by destruct l.
  - rewrite (queue_len _ _ _ Hq). lia.
  - apply NoDup_cons. split; [done|apply Hq].
Qed.

Lemma dequeue_ok :
  exists h' q' m, IF_DEQUEUE h q = Some (h', q', m) /\ queue h' q' (tail l) /\
    m = hd 0 l /\ (m <> 0 -> h' !! m = Some 0) /\
    ifq_maxlen q' = ifq_maxlen q /\ ifq_drops q' = ifq_drops q /\ dom h' = dom h.
Proof.
  destruct Hq as [Hl Ht Hn Hd]. unfold IF_DEQUEUE. destruct l as [|m l'].
  - simpl in Hl. rewrite Hl. simpl. eexists _, _, _. split; [done|]. split_and!; try done.
  - destruct Hl as (-> & Hm & next & Hnext & Hl). rewrite (proj2 (Z.eqb_neq m 0)) by done. rewrite Hnext. simpl.
    rewrite set_m_act_in by eauto. simpl. eexists _, _, _. split; [done|].
    apply NoDup_cons in Hd as [Hml Hd]. split_and!; try done.
    + constructor; simpl; [by apply linked_insert| |rewrite Hn; simpl; lia|done].
      destruct l' as [|y l'']; simpl in Hl.
      * by rewrite Hl.
      * destruct Hl as (-> & Hy & _). by rewrite (proj2 (Z.eqb_neq y 0)).
    + intros _. apply lookup_insert_eq.
    + apply dom_insert_lookup_L. eauto.
Qed.
End Operations.

(** ** Any sequence of operations *)
Inductive op := Enqueue (m : Z) | Prepend (m : Z) | Dequeue.

(** The buffers that were dequeued, in order; 0 when the queue was empty. *)
Fixpoint run (ops : list op) (h : store) (q : ifqueue) : option (store * ifqueue * list Z) :=
  match ops with
  | [] => Some (h, q, [])
  | Enqueue m :: ops => '(h, q) ← IF_ENQUEUE h q m; run ops h q
  | Prepend m :: ops => '(h, q) ← IF_PREPEND h q m; run ops h q
  | Dequeue :: ops =>
    '(h, q, m) ← IF_DEQUEUE h q; '(h, q, out) ← run ops h q; Some (h, q, m :: out)
  end.

Fixpoint spec (ops : list op) (l : list Z) : list Z * list Z :=
  match ops with
  | [] => (l, [])
  | Enqueue m :: ops => spec ops (l ++ [m])
  | Prepend m :: ops => spec ops (m :: l)
  | Dequeue :: ops => let r := spec ops (tail l) in (r.1, hd 0 l :: r.2)
  end.

(** A buffer that is put in the queue exists and is not in it. *)
Fixpoint ops_ok (h : store) (ops : list op) (l : list Z) : Prop :=
  match ops with
  | [] => True
  | Enqueue m :: ops => m <> 0 /\ m ∈ dom h /\ m ∉ l /\ ops_ok h ops (l ++ [m])
  | Prepend m :: ops => m <> 0 /\ m ∈ dom h /\ m ∉ l /\ ops_ok h ops (m :: l)
  | Dequeue :: ops => ops_ok h ops (tail l)
  end.

Lemma ops_ok_dom h h' ops l : dom h' = dom h -> ops_ok h ops l -> ops_ok h' ops l.
Proof.
  intros Hd. revert l. induction ops as [|[] ops IH]; intros l; simpl; [done|rewrite ?Hd..]; naive_solver.
Qed.

(** The macros implement a list.  From a well-formed queue, any sequence of
    enqueue, prepend and dequeue operations succeeds, delivers the buffers that
    the same operations on a list deliver, each unlinked or 0 for an empty queue,
    and leaves a well-formed queue of the list that remains: head, tail, links
    and length agree. *)
Theorem ifqueue_refines_list : forall ops h q l,
  queue h q l -> ops_ok h ops l ->
  exists h' q', run ops h q = Some (h', q', (spec ops l).2) /\ queue h' q' (spec ops l).1.
Proof.
  induction ops as [|[m|m|] ops IH]; intros h q l Hq Hok; simpl in *.
  - by exists h, q.
  - destruct Hok as (Hm & Hin%elem_of_dom & Hnl & Hok).
    destruct (enqueue_ok h q l Hq m Hm Hin Hnl) as (h1 & q1 & -> & Hq1 & _ & _ & Hd). simpl.
    apply IH; [done|by apply (ops_ok_dom h)].
  - destruct Hok as (Hm & Hin%elem_of_dom & Hnl & Hok).
    destruct (prepend_ok h q l Hq m Hm Hin Hnl) as (h1 & q1 & -> & Hq1 & _ & _ & Hd). simpl.
    apply IH; [done|by apply (ops_ok_dom h)].
  - destruct (dequeue_ok h q l Hq) as (h1 & q1 & m & -> & Hq1 & -> & _ & _ & _ & Hd). simpl.
    destruct (IH h1 q1 (tail l) Hq1) as (h2 & q2 & -> & Hq2); [by apply (ops_ok_dom h)|].
    by exists h2, q2.
Qed.

Definition empty_queue : ifqueue := Ifqueue 0 0 0 IFQ_MAXLEN 0.
Definition three_bufs : store := {[1 := 7; 2 := 7; 3 := 7]}.

Lemma ifqueue_refines_list_witness :
  exists h' q', run [Enqueue 1; Enqueue 2; Prepend 3; Dequeue; Dequeue] three_bufs empty_queue
    = Some (h', q', [3; 1]) /\ queue h' q' [2].
Proof.
  apply (ifqueue_refines_list [Enqueue 1; Enqueue 2; Prepend 3; Dequeue; Dequeue] three_bufs empty_queue []).
  - constructor; simpl; try done. apply NoDup_nil_2.
  - simpl. unfold three_bufs. rewrite !dom_insert_L, !elem_of_union, !elem_of_singleton, dom_singleton_L.
    set_solver.
Defined.
