(* ===== verification/Monitor.v ===== *)
(** * Data under a mutex: threads, condition variables, atomic sections

    Many macros of the kernel headers have one shape: they enter a mutex, may
    wait on a condition variable, test and change the data the mutex protects,
    may wake the waiting threads, and leave.  This file has a language for such
    macros, the machine on which threads execute them statement by statement in
    any interleaving, and a second machine on which a whole section from the
    entry to the exit, or to the wait, is one step.  The first refines the
    second ([sim_run]), so that a client proves an invariant of the second only
    (class [MonitorLaws]) and gets the properties of the first
    ([monitor_safe], [monitor_progress], [monitor_bounded]).  Files with macros
    of this kind: [PtLock], [CfgLock], [LockedRef]. *)
From S2P Require Import Prelude.
From stdpp Require Import relations.
#[local] Open Scope nat_scope.

(** ** Statements *)

(** [D] is the data; conditions and assignments may depend on the number of the
    thread ([curthread]).  [While_wait c a k] is [while (c) { ASSERT(a);
    cv_wait }] before [k].  [Destroy] is a call that frees the object with its
    mutex. *)
Inductive code (D : Type) :=
  | Ret
  | Mutex_enter (k : code D)
  | Mutex_exit (k : code D)
  | While_wait (c a : nat -> D -> bool) (k : code D)
  | Assign (f : nat -> D -> D) (k : code D)
  | Assert (p : nat -> D -> bool) (k : code D)
  | If (c : nat -> D -> bool) (yes no : code D)
  | Broadcast (k : code D)
  | Destroy (k : code D).
Arguments Ret {D}.
Arguments Mutex_enter {D} k.
Arguments Mutex_exit {D} k.
Arguments While_wait {D} c a k.
Arguments Assign {D} f k.
Arguments Assert {D} p k.
Arguments If {D} c yes no.
Arguments Broadcast {D} k.
Arguments Destroy {D} k.

(** The statements of C are functions on the code that follows. *)
Declare Scope stmt_scope.
Delimit Scope stmt_scope with stmt.
Definition stmt (D : Type) := code D -> code D.
Bind Scope stmt_scope with stmt.
Definition seq_ {D} (s1 s2 : stmt D) : stmt D := fun k => s1 (s2 k).
Notation "s1 ;; s2" := (seq_ s1 s2) (at level 100, s2 at level 200, right associativity) : stmt_scope.
Definition mutex_enter {D} : stmt D := Mutex_enter.
Definition mutex_exit {D} : stmt D := Mutex_exit.
Definition cv_broadcast {D} : stmt D := Broadcast.
Definition destroy {D} : stmt D := Destroy.
Definition skip {D} : stmt D := fun k => k.
Definition assign {D} (f : D -> D) : stmt D := Assign (fun _ => f).
Definition ASSERT {D} (p : D -> bool) : stmt D := Assert (fun _ => p).
Definition while_wait {D} (c : D -> bool) : stmt D := While_wait (fun _ => c) (fun _ _ => true).
Definition if_else {D} (c : D -> bool) (yes no : stmt D) : stmt D := fun k => If (fun _ => c) (yes k) (no k).
Definition if_ {D} (c : D -> bool) (yes : stmt D) : stmt D := if_else c yes skip.
Definition macro {D} (s : stmt D) : code D := s Ret.

(** *** Shape *)

(** Inside the mutex, after a possible wait: every path leaves it once, at the
    end. *)
Fixpoint inside {D} (k : code D) : bool :=
  match k with
  | Mutex_exit Ret | Destroy Ret => true
  | Assign _ k | Assert _ k | Broadcast k => inside k
  | If _ k1 k2 => inside k1 && inside k2
  | _ => false
  end.
Definition section {D} (k : code D) : bool := match k with While_wait _ _ k => inside k | _ => inside k end.

(** Statements and broadcasts on the longest path. *)
Fixpoint nstmts {D} (k : code D) : nat :=
  match k with
  | Ret => 0
  | Mutex_enter k | Mutex_exit k | While_wait _ _ k | Assign _ k | Assert _ k | Broadcast k | Destroy k => S (nstmts k)
  | If _ k1 k2 => S (max (nstmts k1) (nstmts k2))
  end.
Fixpoint wakes {D} (k : code D) : nat :=
  match k with
  | Ret => 0
  | Mutex_enter k | Mutex_exit k | While_wait _ _ k | Assign _ k | Assert _ k | Destroy k => wakes k
  | If _ k1 k2 => max (wakes k1) (wakes k2)
  | Broadcast k => S (wakes k)
  end.

Section Machine.
Context {D op : Type} (code_of : op -> code D).

(** ** The machine *)

(** [cont]: the rest of the macro at the head of [todo], if the thread has
    begun it.  [asleep]: it waits for a broadcast. *)
Record thread := Thread { cont : option (code D); todo : list op; asleep : bool }.

(** [dead]: the object was freed; [fault]: an assertion failed, or a macro used
    the data without the mutex, entered it twice, or used a freed object. *)
Record mstate := MState { data : D; owner : option nat; dead : bool; fault : bool; threads : list thread }.

(** The thread after a statement that is followed by [k]. *)
Definition next (t : thread) (k : code D) : thread :=
  match k with Ret => Thread None (tail (todo t)) false | _ => Thread (Some k) (todo t) false end.
Definition wake (t : thread) : thread := Thread (cont t) (todo t) false.

Definition panic (s : mstate) : mstate := MState (data s) (owner s) (dead s) true (threads s).

(** One statement of thread [i]. *)
Definition exec (i : nat) (s : mstate) : option mstate :=
  t ← threads s !! i;
  if fault s || asleep t then None else
  match cont t with
  | None =>
    match todo t with
    | [] => None
    | o :: _ => Some (MState (data s) (owner s) (dead s) false
                  (<[i := Thread (Some (code_of o)) (todo t) false]> (threads s)))
    end
  | Some c =>
    let go d o k := Some (MState d o false false (<[i := next t k]> (threads s))) in
    if dead s then Some (panic s) else
    match c, owner s with
    | Mutex_enter k, None => go (data s) (Some i) k
    | Mutex_enter _, Some j => if (i =? j)%nat then Some (panic s) else None
    | _, None => Some (panic s)
    | c, Some j =>
      if negb (i =? j)%nat then Some (panic s) else
      match c with
      | Mutex_exit k => go (data s) None k
      | While_wait b a k =>
        if b i (data s) then
          if a i (data s) then
            Some (MState (data s) None false false (<[i := Thread (Some (Mutex_enter c)) (todo t) true]> (threads s)))
          else Some (panic s)
        else go (data s) (Some i) k
      | Assign f k => go (f i (data s)) (Some i) k
      | Assert p k => if p i (data s) then go (data s) (Some i) k else Some (panic s)
      | If b k1 k2 => go (data s) (Some i) (if b i (data s) then k1 else k2)
      | Broadcast k => Some (MState (data s) (Some i) false false (<[i := next t k]> (wake <$> threads s)))
      | Destroy k => Some (MState (data s) None true false (<[i := next t k]> (threads s)))
      | Ret | Mutex_enter _ => Some (panic s)
      end
    end
  end.

Definition step (s s' : mstate) : Prop := exists i, exec i s = Some s'.

(** A run of the schedule [l]. *)
Fixpoint run (l : list nat) (s : mstate) : option mstate :=
  match l with [] => Some s | i :: l => s ← exec i s; run l s end.

Lemma mon_run_rtc l s s' : run l s = Some s' -> rtc step s s'.
Proof.
  revert s. induction l as [|i l IH]; intros s E; simpl in E; [by simplify_eq|].
  destruct (exec i s) as [s1|] eqn:E1; [|done]. simpl in E. apply rtc_l with s1; [by exists i|by apply IH].
Qed.

(** ** Sections as single steps *)

Inductive outcome := Panicked | Slept | Left (d : D) (woken freed : bool).

(** What thread [i] does from inside the mutex until it leaves it. *)
Fixpoint sect (i : nat) (k : code D) (d : D) (w : bool) : outcome :=
  match k with
  | Mutex_exit _ => Left d w false
  | Destroy _ => Left d w true
  | Assign f k => sect i k (f i d) w
  | Assert p k => if p i d then sect i k d w else Panicked
  | If b k1 k2 => if b i d then sect i k1 d w else sect i k2 d w
  | While_wait b a k => if b i d then (if a i d then Slept else Panicked) else sect i k d w
  | Broadcast k => sect i k d true
  | Ret | Mutex_enter _ => Panicked
  end.

Record athread := AThread { atodo : list op; aasleep : bool }.
Record astate := AState { adata : D; adead : bool; afault : bool; athreads : list athread }.

Definition awake (w : bool) (u : athread) : athread := AThread (atodo u) (aasleep u && negb w).

Definition aexec (i : nat) (a : astate) : option astate :=
  u ← athreads a !! i;
  if afault a || aasleep u then None else
  match atodo u with
  | [] => None
  | o :: os =>
    let bad := Some (AState (adata a) (adead a) true (athreads a)) in
    if adead a then bad else
    match code_of o with
    | Mutex_enter k =>
      match sect i k (adata a) false with
      | Panicked => bad
      | Slept => Some (AState (adata a) false false (<[i := AThread (atodo u) true]> (athreads a)))
      | Left d w f => Some (AState d f false (<[i := AThread os false]> (awake w <$> athreads a)))
      end
    | _ => bad
    end
  end.
Definition astep (a a' : astate) : Prop := exists i, aexec i a = Some a'.

(** *** The simulation *)
Context (Hcode : forall o, exists k, code_of o = Mutex_enter k /\ section k = true).

(** A thread outside the mutex; [w]: a broadcast of the section that is being
    executed has woken it already. *)
Definition rest (w : bool) (t : thread) (u : athread) : Prop :=
  todo t = atodo u /\ asleep t = aasleep u && negb w
  /\ match cont t with None => aasleep u = false | Some k => exists o os, todo t = o :: os /\ k = code_of o end.

(** The thread in the mutex, with its section [k0], is at [k]. *)
Record within (i : nat) (w : bool) (d d0 : D) (t : thread) (u : athread) : Prop := {
  in_todo : todo t = atodo u;
  in_awake : asleep t = false /\ aasleep u = false;
  in_code : exists k k0 o os, cont t = Some k /\ atodo u = o :: os /\ code_of o = Mutex_enter k0
    /\ section k0 = true /\ sect i k d w = sect i k0 d0 false
    /\ (inside k = true \/ (k = k0 /\ w = false /\ d = d0)) }.

Definition related (s : mstate) (a : astate) : Prop :=
  match owner s with
  | None => data s = adata a /\ Forall2 (rest false) (threads s) (athreads a)
  | Some i => adead a = false /\ exists w,
      length (threads s) = length (athreads a)
      /\ (forall j t u, threads s !! j = Some t -> athreads a !! j = Some u ->
           if (i =? j)%nat then within i w (data s) (adata a) t u else rest w t u)
      /\ i < length (threads s)
  end.

Definition sim (s : mstate) (a : astate) : Prop :=
  fault s = afault a /\ (fault s = false -> dead s = adead a /\ related s a).

Lemma section_next t k : section k = true -> next t k = Thread (Some k) (todo t) false.
Proof. by destruct k. Qed.
Lemma inside_section (k : code D) : inside k = true -> section k = true.
Proof. by destruct k. Qed.

(** Outside the section: a thread begins its macro. *)
Lemma rest_begin w t u o os :
  rest w t u -> cont t = None -> todo t = o :: os -> rest w (Thread (Some (code_of o)) (todo t) false) u.
Proof. intros (Ht & Ha & Hc) En Eo. rewrite En in Hc. split; [done|]. rewrite Hc. simpl. eauto. Qed.

Lemma rest_wake w t u : rest w t u -> rest true (wake t) u.
Proof. intros (Ht & Ha & Hc). split; [done|]. simpl. by rewrite andb_false_r. Qed.

Lemma rest_left w t u : rest w t u -> rest false t (awake w u).
Proof.
  intros (Ht & Ha & Hc). split; [done|]. simpl. rewrite andb_true_r. split; [done|].
  destruct (cont t); [done|]. by rewrite Hc.
Qed.

(** The thread in the mutex leaves it: the other threads rest again. *)
Lemma related_leave i (ts : list thread) us w t' u' (P : thread -> athread -> Prop) :
  length ts = length us -> i < length ts ->
  (forall j t u, ts !! j = Some t -> us !! j = Some u -> if (i =? j)%nat then P t u else rest w t u) ->
  rest false t' u' -> Forall2 (rest false) (<[i := t']> ts) (<[i := u']> (awake w <$> us)).
Proof.
  intros Hl Hi Hr Hn. apply Forall2_same_length_lookup_2.
  { by rewrite !length_insert, length_fmap. }
  intros j t u Et Eu. apply list_lookup_insert_Some in Et as [(-> & -> & _)|[Hne Et]].
  - apply list_lookup_insert_Some in Eu as [(_ & -> & _)|[? _]]; done.
  - rewrite list_lookup_insert_ne, list_lookup_fmap in Eu by done.
    destruct (us !! j) as [v|] eqn:Ev; [|done]. simplify_eq/=. apply rest_left.
    specialize (Hr j t v Et Ev). by rewrite (proj2 (Nat.eqb_neq i j) Hne) in Hr.
Qed.

Lemma awake_false (us : list athread) : awake false <$> us = us.
Proof. induction us as [|[l []] us IH]; csimpl; [done|by f_equal..]. Qed.

Lemma todo_awake w (us : list athread) : atodo <$> (awake w <$> us) = atodo <$> us.
Proof. rewrite <- list_fmap_compose. by apply list_fmap_ext. Qed.

(** The thread in the mutex goes on inside. *)
Lemma related_within i ts us w w' d d' d0 (t : thread) u k k0 o os o' (f : thread -> thread) :
  length ts = length us -> ts !! i = Some t -> us !! i = Some u ->
  (forall j t u, ts !! j = Some t -> us !! j = Some u ->
    if (i =? j)%nat then within i w d d0 t u else rest w t u) ->
  (forall t u, rest w t u -> rest w' (f t) u) ->
  atodo u = o :: os -> code_of o = Mutex_enter k0 -> section k0 = true -> todo t = atodo u -> aasleep u = false ->
  inside k = true -> sect i k d' w' = sect i k0 d0 false -> o' = Some i ->
  related (MState d' o' false false (<[i := next t k]> (f <$> ts))) (AState d0 false false us).
Proof.
  intros Hl Et Eu Hr Hf Eo Ec Hs Ht Hau Hk Hsect ->. unfold related. simpl. split; [done|]. exists w'.
  rewrite length_insert, length_fmap. split; [done|]. split; [|by eapply lookup_lt_Some].
  intros j t1 u1 E1 E2. apply list_lookup_insert_Some in E1 as [(-> & <- & _)|[Hne E1]].
  - simplify_eq. rewrite Nat.eqb_refl. rewrite section_next by (by apply inside_section).
    split; [done|done|]. exists k, k0, o, os. simpl. eauto 10.
  - rewrite (proj2 (Nat.eqb_neq i j)) by done. rewrite list_lookup_fmap in E1.
    destruct (ts !! j) as [t2|] eqn:E3; [|done]. simplify_eq/=. apply Hf.
    specialize (Hr j t2 u1 E3 E2). by rewrite (proj2 (Nat.eqb_neq i j)) in Hr by done.
Qed.

(** A thread outside the mutex, which another thread has, can only begin. *)
Lemma sim_other i j s a t s' :
  sim s a -> fault s = false -> owner s = Some j -> i <> j -> threads s !! i = Some t ->
  exec i s = Some s' -> sim s' a.
Proof.
  intros [Hf Hr] Ef Eo Hij Et E. destruct (Hr Ef) as [Hd Hrel]. unfold related in Hrel. rewrite Eo in Hrel.
  destruct Hrel as (Had & w & Hl & Hall & Hlt).
  destruct (lookup_lt_is_Some_2 (athreads a) i) as [u Eu]; [rewrite <- Hl; by eapply lookup_lt_Some|].
  pose proof (Hall i t u Et Eu) as Hrest. rewrite (proj2 (Nat.eqb_neq j i)) in Hrest by done.
  unfold exec in E. rewrite Et, Ef, Hd, Had, Eo in E. cbn [mbind option_bind orb] in E.
  destruct (asleep t); [done|]. destruct (cont t) as [k|] eqn:Ek.
  - destruct Hrest as (_ & _ & Hc). rewrite Ek in Hc. destruct Hc as (o & os & _ & ->).
    destruct (Hcode o) as (k & Hk & _). rewrite Hk in E. by rewrite (proj2 (Nat.eqb_neq i j)) in E.
  - destruct (todo t) as [|o os] eqn:Eo'; [done|]. simplify_eq. split; [by rewrite <- Hf|]. intros _.
    split; [done|]. unfold related. simpl. split; [done|]. exists w. rewrite length_insert.
    split; [done|]. split; [|done]. intros j' t1 u1 E1 E2.
    apply list_lookup_insert_Some in E1 as [(-> & <- & _)|[Hne E1]]; [|by apply Hall].
    simplify_eq. rewrite (proj2 (Nat.eqb_neq j j')) by done. rewrite <- Eo'. by eapply rest_begin.
Qed.

(** No thread has the mutex. *)
Lemma sim_free i s a t s' :
  sim s a -> fault s = false -> owner s = None -> threads s !! i = Some t ->
  exec i s = Some s' -> exists a', rtc (astep) a a' /\ sim s' a'.
Proof.
  intros [Hf Hr] Ef Eo Et E. destruct (Hr Ef) as [Hd Hrel]. unfold related in Hrel. rewrite Eo in Hrel.
  destruct Hrel as [Hdata Hall].
  destruct (Forall2_lookup_l _ _ _ _ _ Hall Et) as (u & Eu & Hrest).
  unfold exec in E. rewrite Et, Ef, Eo in E. cbn [mbind option_bind orb] in E.
  destruct (asleep t) eqn:Ea; [done|]. pose proof Hrest as (Htodo & Hasleep & Hc). rewrite Ea, andb_true_r in Hasleep.
  destruct (cont t) as [k|] eqn:Ek.
  - destruct Hc as (o & os & Eos & ->). destruct (Hcode o) as (k & Hk & Hsec). rewrite Hk in E.
    destruct (dead s) eqn:Edead; injection E as <-.
    + exists (AState (adata a) (adead a) true (athreads a)). split; [|done]. apply rtc_once. exists i.
      unfold aexec. rewrite Eu. cbn [mbind option_bind]. by rewrite <- Hf, Ef, <- Hasleep, <- Htodo, Eos, <- Hd.
    + exists a. split; [done|]. split; [by rewrite <- Hf|]. intros _. split; [done|].
      unfold related. simpl. split; [done|]. exists false. rewrite length_insert. split; [by eapply Forall2_length|].
      split; [|by eapply lookup_lt_Some]. intros j t1 u1 E1 E2.
      apply list_lookup_insert_Some in E1 as [(-> & <- & _)|[Hne E1]].
      * simplify_eq. rewrite Nat.eqb_refl, section_next by done. split; [done|done|].
        exists k, k, o, os. rewrite <- Htodo. simpl. rewrite Hdata. eauto 10.
      * rewrite (proj2 (Nat.eqb_neq i j)) by done. by eapply Forall2_lookup_lr.
  - destruct (todo t) as [|o os] eqn:Eos; [done|]. simplify_eq. exists a. split; [done|].
    split; [by rewrite <- Hf|]. intros _. split; [done|]. unfold related. simpl. split; [done|].
    rewrite <- (list_insert_id (athreads a) i u Eu). apply Forall2_insert; [done|].
    rewrite <- Eos. by eapply rest_begin.
Qed.

(** The step of [a] for the section of thread [i]. *)
Lemma astep_sect i a u o os k0 :
  athreads a !! i = Some u -> afault a = false -> adead a = false -> aasleep u = false ->
  atodo u = o :: os -> code_of o = Mutex_enter k0 ->
  aexec i a = match sect i k0 (adata a) false with
    | Panicked => Some (AState (adata a) false true (athreads a))
    | Slept => Some (AState (adata a) false false (<[i := AThread (atodo u) true]> (athreads a)))
    | Left d w f => Some (AState d f false (<[i := AThread os false]> (awake w <$> athreads a)))
    end.
Proof.
  intros Eu Ef Ed Ea Eo Ec. unfold aexec. rewrite Eu. cbn [mbind option_bind]. by rewrite Ef, Ea, Eo, Ed, Ec.
Qed.

(** The thread that has the mutex executes a statement of its section. *)
Lemma sim_owner i s a t s' :
  sim s a -> fault s = false -> owner s = Some i -> threads s !! i = Some t ->
  exec i s = Some s' -> exists a', rtc (astep) a a' /\ sim s' a'.
Proof.
  intros [Hf Hr] Ef Eo Et E. destruct (Hr Ef) as [Hd Hrel]. unfold related in Hrel. rewrite Eo in Hrel.
  destruct Hrel as (Had & w & Hl & Hall & Hlt).
  destruct (lookup_lt_is_Some_2 (athreads a) i) as [u Eu]; [by rewrite <- Hl|].
  pose proof (Hall i t u Et Eu) as Hin. rewrite Nat.eqb_refl in Hin.
  destruct Hin as [Htodo [Hat Hau] (k & k0 & o & os & Ek & Eos & Ec & Hk0 & Hsect & Hcase)].
  assert (section k = true) as Hk by (destruct Hcase as [?|(-> & _)]; [by apply inside_section|done]).
  pose proof (astep_sect i a u o os k0 Eu (eq_trans (eq_sym Hf) Ef) Had Hau Eos Ec) as Hstep. rewrite <- Hsect in Hstep.
  clear Hr. rewrite Had in Hd. destruct a as [d0 ad af us]. simpl in *. subst ad. subst af.
  unfold exec in E. rewrite Et in E. cbn [mbind option_bind] in E. rewrite Ef, Hd, Eo, Hat, Ek in E. cbn [orb] in E.
  assert (forall d' w' k' f, inside k' = true -> sect i k' d' w' = sect i k0 d0 false ->
    (forall t u, rest w t u -> rest w' (f t) u) ->
    exists a', rtc astep (AState d0 false (fault s) us) a' /\
      sim (MState d' (Some i) false false (<[i := next t k']> (f <$> threads s))) a') as Hgo.
  { intros d' w' k' f Hk' Hs' Hw. exists (AState d0 false (fault s) us). split; [done|]. rewrite Ef. split; [done|].
    intros _. split; [done|]. by eapply (related_within i (threads s) us w w' (data s) d'). }
  assert (forall s1, fault s1 = true -> sect i k (data s) w = Panicked ->
    exists a', rtc astep (AState d0 false (fault s) us) a' /\ sim s1 a') as Hpanic.
  { intros s1 H1 Hp. rewrite Hp in Hstep. eexists. split; [apply rtc_once; by exists i|]. split; [done|]. by rewrite H1. }
  assert (forall f d1, sect i k (data s) w = Left d1 w f ->
    exists a', rtc astep (AState d0 false (fault s) us) a' /\
      sim (MState d1 None f false (<[i := Thread None (tail (todo t)) false]> (threads s))) a') as Hleave.
  { intros f d1 Hp. rewrite Hp in Hstep. eexists. split; [apply rtc_once; by exists i|]. split; [done|]. intros _.
    split; [done|]. unfold related. simpl. split; [done|]. apply related_leave with (P := within i w (data s) d0); [done|done|done|].
    split; [|done]. simpl. by rewrite Htodo, Eos. }
  assert (id <$> threads s = threads s) as Hid by apply list_fmap_id.
  destruct k; try done; cbn [sect] in *; rewrite Nat.eqb_refl in E; cbn [negb] in E.
  - destruct k; try done. injection E as <-. by apply Hleave.
  - destruct Hcase as [|(<- & -> & Hdd)]; [done|]. simpl in Hk. destruct (c i (data s)) eqn:Eb.
    + destruct (a i (data s)) eqn:Ea; injection E as <-; [|by apply Hpanic].
      eexists. split; [apply rtc_once; by exists i|]. split; [done|]. intros _. split; [done|].
      unfold related. simpl. split; [done|]. rewrite <- (awake_false us). 
      apply related_leave with (P := within i false (data s) d0); [done|done|done|]. split; [done|]. split; [done|]. simpl.
      exists o, os. by rewrite Htodo, Ec.
    + injection E as <-. rewrite <- Hid. by eapply Hgo.
  - injection E as <-. rewrite <- Hid. eapply Hgo; try done. 
  - destruct (p i (data s)); injection E as <-; [|by apply Hpanic]. rewrite <- Hid. by eapply Hgo.
  - injection E as <-. rewrite <- Hid. simpl in Hk. apply andb_true_iff in Hk as [? ?].
    destruct (c i (data s)); by eapply Hgo.
  - injection E as <-. eapply Hgo; try done. intros. by eapply rest_wake.
  - destruct k; try done. injection E as <-. by apply Hleave.
Qed.

Lemma sim_step s a s' : sim s a -> step s s' -> exists a', rtc (astep) a a' /\ sim s' a'.
Proof.
  intros Hs [i E]. pose proof E as E'. unfold exec in E'. destruct (threads s !! i) as [t|] eqn:Et; [|done].
  simpl in E'. destruct (fault s) eqn:Ef; [done|]. clear E'.
  destruct (owner s) as [j|] eqn:Eo; [|by eapply sim_free].
  destruct (decide (i = j)) as [->|Hij]; [by eapply sim_owner|]. exists a. split; [done|]. by eapply sim_other.
Qed.

(** Every run of statements is a run of sections. *)
Lemma sim_run s a s' : sim s a -> rtc step s s' -> exists a', rtc (astep) a a' /\ sim s' a'.
Proof.
  intros Hs Hr. revert a Hs. induction Hr as [s|s s1 s' H1 _ IH]; intros a Hs; [by exists a|].
  destruct (sim_step _ _ _ Hs H1) as (a1 & Ha1 & Hs1). destruct (IH a1 Hs1) as (a2 & Ha2 & Hs2).
  exists a2. split; [by etrans|done].
Qed.

(** The two machines at the start: no macro has begun. *)
Definition astart (d : D) (ps : list (list op)) : astate := AState d false false ((fun l => AThread l false) <$> ps).
Definition start (d : D) (ps : list (list op)) : mstate := MState d None false false ((fun l => Thread None l false) <$> ps).

Lemma sim_start d ps : sim (start d ps) (astart d ps).
Proof.
  split; [done|]. intros _. split; [done|]. unfold related. simpl. split; [done|].
  apply Forall2_fmap, Forall_Forall2_diag, Forall_true. done.
Qed.

(** What is left to do is the same on both machines. *)
Lemma sim_todo s a : sim s a -> fault s = false -> todo <$> threads s = atodo <$> athreads a.
Proof.
  intros [_ Hr] Ef. destruct (Hr Ef) as [_ Hrel]. apply list_eq. intros j. rewrite !list_lookup_fmap.
  unfold related in Hrel. destruct (owner s) as [i|].
  - destruct Hrel as (_ & w & Hl & Hall & _). destruct (threads s !! j) as [t|] eqn:Et.
    + destruct (lookup_lt_is_Some_2 (athreads a) j) as [u Eu]; [rewrite <- Hl; by eapply lookup_lt_Some|].
      rewrite Eu. simpl. specialize (Hall j t u Et Eu). destruct (i =? j); [by destruct Hall as [-> _ _]|].
      by destruct Hall as [-> _].
    + apply lookup_ge_None in Et. rewrite (proj2 (lookup_ge_None (athreads a) j)) by lia. done.
  - destruct Hrel as [_ Hall]. destruct (threads s !! j) as [t|] eqn:Et.
    + destruct (Forall2_lookup_l _ _ _ _ _ Hall Et) as (u & Eu & [Htd _]). rewrite Eu. simpl. by rewrite Htd.
    + apply lookup_ge_None in Et. rewrite (proj2 (lookup_ge_None (athreads a) j)) by (rewrite <- (Forall2_length _ _ _ Hall); lia).
      done.
Qed.

(** A state without a step: the threads that are not done sleep, on both
    machines. *)
Definition stuck (u : athread) : Prop := atodo u = [] \/ aasleep u = true.

Lemma sim_stuck s a : sim s a -> fault s = false -> (exists s', step s s') \/ Forall stuck (athreads a).
Proof.
  intros Hs Ef. pose proof Hs as [Hf Hr]. destruct (Hr Ef) as [Hd Hrel]. unfold related in Hrel.
  destruct (owner s) as [i|] eqn:Eo.
  - left. destruct Hrel as (Had & w & Hl & Hall & Hlt). destruct (lookup_lt_is_Some_2 (threads s) i Hlt) as [t Et].
    destruct (lookup_lt_is_Some_2 (athreads a) i) as [u Eu]; [by rewrite <- Hl|].
    pose proof (Hall i t u Et Eu) as Hin. rewrite Nat.eqb_refl in Hin.
    destruct Hin as [_ [Hat _] (k & k0 & o & os & Ek & _ & _ & Hk0 & _ & Hcase)].
    assert (section k = true) as Hk by (destruct Hcase as [?|(-> & _)]; [by apply inside_section|done]).
    assert (is_Some (exec i s)) as [s' E]; [|by exists s', i].
    unfold exec. rewrite Et. cbn [mbind option_bind]. rewrite Ef, Eo, Hat, Ek. cbn [orb]. destruct (dead s); [done|].
    destruct k; try done; rewrite Nat.eqb_refl; cbn [negb]; try done; repeat case_match; done.
  - destruct Hrel as [Hdata Hall].
    destruct (decide (Forall (fun t => todo t = [] \/ asleep t = true) (threads s))) as [HF|HF].
    + right. apply Forall_lookup. intros j u Eu. destruct (Forall2_lookup_r _ _ _ _ _ Hall Eu) as (t & Et & Htd & Has & _).
      rewrite Forall_lookup in HF. specialize (HF j t Et). rewrite andb_true_r in Has. unfold stuck. by rewrite <- Htd, <- Has.
    + left. apply not_Forall_Exists in HF; [|intros; apply _]. apply Exists_exists in HF as (t & Hin & Hn). cbn beta in Hn.
      apply list_elem_of_lookup in Hin as [i Et]. assert (is_Some (exec i s)) as [s' E]; [|by exists s', i].
      destruct (Forall2_lookup_l _ _ _ _ _ Hall Et) as (u & Eu & _ & _ & Hc).
      unfold exec. rewrite Et. cbn [mbind option_bind]. rewrite Ef, Eo. cbn [orb].
      destruct (asleep t) eqn:Ea; [destruct Hn; by right|].
      destruct (cont t) as [k|].
      * destruct Hc as (o & os & _ & ->). destruct (Hcode o) as (k & -> & _). by destruct (dead s).
      * destruct (todo t) eqn:Ed; [destruct Hn; by left|done].
Qed.

(** ** Every run ends *)

(** The statements a thread executes before it sleeps or is done with the macro
    at the head of [todo], and the broadcasts of all its macros.  [m] bounds the
    size of a macro. *)
Context (m : nat) (Hm : forall o, nstmts (code_of o) <= m).

Definition cost (t : thread) : nat :=
  if asleep t then 0 else
  match cont t with Some k => S (nstmts k) | None => match todo t with [] => 0 | _ => m + 2 end end.
Definition budget (t : thread) : nat :=
  match cont t with
  | Some k => wakes k + sum_list_with (fun o => wakes (code_of o)) (tail (todo t))
  | None => sum_list_with (fun o => wakes (code_of o)) (todo t)
  end.
(** [n] threads. *)
Definition tcost (n : nat) (t : thread) : nat := cost t + n * (m + 2) * budget t + (m + 3) * length (todo t).
Definition work (s : mstate) : nat :=
  sum_list (tcost (length (threads s)) <$> threads s) + (if fault s then 0 else 1).

(** What [exec] keeps of a thread: it has something to do in the code it has
    begun, and a thread that sleeps has begun its macro. *)
Definition tidy (t : thread) : Prop :=
  match cont t with
  | Some k => k <> Ret /\ todo t <> [] /\ match k with Mutex_enter k => nstmts k <= m | _ => nstmts k <= m end
  | None => asleep t = false
  end.

Lemma wake_cost n t : tidy t -> tcost n (wake t) <= tcost n t + (m + 2).
Proof.
  intros Ht. unfold tcost, cost, budget, wake, tidy in *. simpl. destruct (cont t) as [k|]; [|rewrite Ht; lia].
  assert (nstmts k <= m + 1) by (destruct Ht as (_ & _ & Hk); destruct k; simpl in *; lia). destruct (asleep t); lia.
Qed.

Lemma wake_sum n ts : Forall tidy ts ->
  sum_list (tcost n <$> (wake <$> ts)) <= sum_list (tcost n <$> ts) + length ts * (m + 2).
Proof. induction 1 as [|t ts Ht _ IH]; csimpl; [lia|]. pose proof (wake_cost n t Ht). lia. Qed.

Lemma next_cost n t c k b :
  cont t = Some c -> asleep t = false -> todo t <> [] -> nstmts k < nstmts c -> wakes k + b <= wakes c ->
  tcost n (next t k) + n * (m + 2) * b < tcost n t.
Proof.
  intros Ec Ea Et Hs Hw. unfold tcost, cost, budget. rewrite Ec, Ea. destruct (todo t) as [|o os] eqn:Eo; [done|].
  assert (next t k = (match k with Ret => Thread None os false | _ => Thread (Some k) (o :: os) false end)) as ->
    by (unfold next; by rewrite Eo).
  pose proof (Nat.mul_le_mono_l _ _ (n * (m + 2)) Hw).
  destruct k; cbn [asleep cont todo tail length]; try (simpl nstmts in *; nia).
  cbn [wakes] in *. destruct os; cbn [length]; nia.
Qed.

Lemma next_tidy t k : todo t <> [] -> nstmts k <= m -> tidy (next t k).
Proof.
  intros Ht Hk. unfold next. destruct k; try done; unfold tidy; cbn [cont todo];
    (split; [done|]); (split; [done|]); simpl in *; lia.
Qed.

(** A statement of a thread, which may wake the others, is work done. *)
Lemma work_go ts i t k c b :
  Forall tidy ts -> ts !! i = Some t -> cont t = Some c -> asleep t = false ->
  nstmts k < nstmts c -> wakes k + (if b : bool then 1 else 0) <= wakes c ->
  let ts' := <[i := next t k]> (if b then wake <$> ts else ts) in
  sum_list (tcost (length ts') <$> ts') < sum_list (tcost (length ts) <$> ts) /\ Forall tidy ts'.
Proof.
  intros Hts Et Ec Ea Hs Hw ts'. pose proof (proj1 (Forall_lookup _ _) Hts i t Et) as Ht.
  unfold tidy in Ht. rewrite Ec in Ht. destruct Ht as (Hret & Htodo & Hsz).
  assert (tidy (next t k)) as Hnext by (apply next_tidy; [done|destruct c; simpl in *; lia]).
  pose proof (next_cost (length ts) t c k _ Ec Ea Htodo Hs Hw) as Hc. subst ts'.
  assert (wake t = t) as Hwt by (destruct t; simpl in *; by subst).
  destruct b.
  - rewrite length_insert, length_fmap. split.
    + assert ((wake <$> ts) !! i = Some t) as Ew by (rewrite list_lookup_fmap, Et; simpl; by rewrite Hwt).
      pose proof (sum_insert (tcost (length ts)) _ _ _ (next t k) Ew). pose proof (wake_sum (length ts) ts Hts). lia.
    + apply Forall_insert; [|done]. apply Forall_fmap. eapply Forall_impl; [exact Hts|].
      intros u Hu. unfold tidy, wake in *. simpl. by destruct (cont u).
  - rewrite length_insert. split; [|by apply Forall_insert].
    pose proof (sum_insert (tcost (length ts)) _ _ _ (next t k) Et). lia.
Qed.

Lemma exec_tidy_work i s s' :
  Forall tidy (threads s) -> exec i s = Some s' -> work s' < work s /\ Forall tidy (threads s').
Proof.
  intros Hts E. unfold exec in E. destruct (threads s !! i) as [t|] eqn:Et; [|done]. cbn [mbind option_bind] in E.
  pose proof (proj1 (Forall_lookup _ _) Hts i t Et) as Ht.
  destruct (fault s) eqn:Ef; [done|]. destruct (asleep t) eqn:Ea; [done|]. cbn [orb] in E.
  assert (work (panic s) < work s /\ Forall tidy (threads (panic s))) as Hpanic.
  { split; [|done]. unfold work. rewrite Ef. simpl. lia. }
  assert (forall c k o b d dd, cont t = Some c -> nstmts k < nstmts c -> wakes k + (if b : bool then 1 else 0) <= wakes c ->
    let s1 := MState d o dd false (<[i := next t k]> (if b then wake <$> threads s else threads s)) in
    work s1 < work s /\ Forall tidy (threads s1)) as Hgo.
  { intros c k o b d dd Ec Hsz Hw s1. destruct (work_go (threads s) i t k c b Hts Et Ec Ea Hsz Hw) as [H1 H2].
    split; [|done]. unfold work. rewrite Ef. simpl. lia. }
  assert (forall t' d o dd, tcost (length (threads s)) t' < tcost (length (threads s)) t ->
    work (MState d o dd false (<[i := t']> (threads s))) < work s) as Hone.
  { intros t' d o dd Hlt. unfold work. rewrite Ef. simpl. rewrite length_insert.
    pose proof (sum_insert (tcost (length (threads s))) _ _ _ t' Et). lia. }
  destruct (cont t) as [c|] eqn:Ec.
  - destruct (dead s); [by injection E as <-|].
    assert (forall b a k, c = While_wait b a k ->
      let s1 := MState (data s) None false false (<[i := Thread (Some (Mutex_enter c)) (todo t) true]> (threads s)) in
      work s1 < work s /\ Forall tidy (threads s1)) as Hsleep.
    { intros b a k -> s1. unfold tidy in Ht. rewrite Ec in Ht. destruct Ht as (_ & Htodo & Hsz).
      split; [|by apply Forall_insert]. apply Hone. unfold tcost, cost, budget. rewrite Ec, Ea. simpl. lia. }
    destruct c; repeat case_match; simplify_eq; try done;
      solve [ by eapply Hsleep | eapply (Hgo _ _ _ false); [done|simpl; lia..]
            | eapply (Hgo _ _ _ true); [done|simpl; lia..] ].
  - destruct (todo t) as [|o os] eqn:Eo; [done|]. injection E as <-. split.
    + apply Hone. unfold tcost, cost, budget. rewrite Ec, Ea, Eo. cbn [cont todo asleep tail sum_list_with].
      pose proof (Hm o). lia.
    + apply Forall_insert; [done|]. unfold tidy. cbn [cont todo].
      pose proof (Hm o). destruct (Hcode o) as (k & Hk & _). rewrite Hk in *. simpl in *. split; [done|]. split; [done|lia].
Qed.

Lemma start_tidy d ps : Forall tidy (threads (start d ps)).
Proof. simpl. apply Forall_fmap, Forall_true. done. Qed.

Lemma work_steps n s s' : Forall tidy (threads s) -> nsteps step n s s' -> n + work s' <= work s.
Proof.
  intros Ht Hn. induction Hn as [|n s s1 s' [i E] _ IH]; [lia|]. destruct (exec_tidy_work _ _ _ Ht E) as [Hw Ht1].
  specialize (IH Ht1). lia.
Qed.

(** The thread, the macro and the outcome of a step of the second machine. *)
Lemma aexec_inv i a a' :
  aexec i a = Some a' -> afault a = false ->
  exists u o os k, athreads a !! i = Some u /\ aasleep u = false /\ atodo u = o :: os /\ code_of o = Mutex_enter k
  /\ ((adead a = true /\ a' = AState (adata a) true true (athreads a))
      \/ (adead a = false /\ match sect i k (adata a) false with
          | Panicked => a' = AState (adata a) false true (athreads a)
          | Slept => a' = AState (adata a) false false (<[i := AThread (o :: os) true]> (athreads a))
          | Left d w f => a' = AState d f false (<[i := AThread os false]> (awake w <$> athreads a))
          end)).
Proof.
  intros E Ef. unfold aexec in E. destruct (athreads a !! i) as [u|] eqn:Eu; [|done]. cbn [mbind option_bind] in E.
  rewrite Ef in E. destruct (aasleep u) eqn:Ea; [done|]. cbn [orb] in E. destruct (atodo u) as [|o os] eqn:Eo; [done|].
  destruct (Hcode o) as (k & Hk & _). rewrite Hk in E. exists u, o, os, k.
  split; [done|]. split; [done|]. split; [done|]. split; [done|]. destruct (adead a); [by left; simplify_eq|].
  right. split; [done|]. destruct (sect i k (adata a) false); by simplify_eq.
Qed.
End Machine.

(** ** The interface *)

(** What a set of macros promises: every macro is one section, and [inv] is an
    invariant of the machine of sections that excludes faults and deadlocks. *)
Class MonitorLaws {D op : Type} (code_of : op -> code D) (inv : astate -> Prop) := {
  macro_size : nat;
  law_size o : nstmts (code_of o) <= macro_size;
  law_code o : exists k, code_of o = Mutex_enter k /\ section k = true;
  law_safe a : inv a -> afault a = false;
  law_step i a a' : inv a -> aexec code_of i a = Some a' -> inv a';
  law_live a : inv a -> Forall stuck (athreads a) -> Forall (fun u => atodo u = []) (athreads a) }.

Section Client.
Context {D op : Type} (code_of : op -> code D) (inv : astate -> Prop) `{!MonitorLaws code_of inv}.
Context (d : D) (ps : list (list op)) (Hinit : inv (astart d ps)).

Lemma law_reach a a' : inv a -> rtc (astep code_of) a a' -> inv a'.
Proof. intros Ha Hr. induction Hr as [|a a1 a' [i E] _ IH]; [done|]. apply IH. by eapply law_step. Qed.

(** A reachable state has no fault, and corresponds to a state of the machine of
    sections that satisfies the invariant. *)
Lemma monitor_safe s :
  rtc (step code_of) (start d ps) s ->
  fault s = false /\ exists a, inv a /\ sim code_of s a
  /\ todo <$> threads s = atodo <$> athreads a /\ (owner s = None -> data s = adata a /\ dead s = adead a).
Proof.
  intros Hr. destruct (sim_run code_of law_code _ _ _ (sim_start code_of d ps) Hr) as (a & Ha & Hs).
  pose proof (law_reach _ _ Hinit Ha) as Hi. pose proof Hs as [Hf Hrel]. rewrite (law_safe a Hi) in Hf.
  split; [done|]. exists a. split; [done|]. split; [done|]. split; [by eapply sim_todo|].
  intros Eo. destruct (Hrel Hf) as [Hd Hdata]. unfold related in Hdata. rewrite Eo in Hdata. by destruct Hdata.
Qed.

Lemma monitor_progress s :
  rtc (step code_of) (start d ps) s -> Forall (fun t => todo t = []) (threads s) \/ exists s', step code_of s s'.
Proof.
  intros Hr. destruct (monitor_safe s Hr) as (Hf & a & Hi & Hs & Htodo & _).
  destruct (sim_stuck code_of law_code s a Hs Hf) as [?|Hst]; [by right|left].
  pose proof (law_live a Hi Hst) as Hd. apply (Forall_fmap todo (fun l => l = [])). rewrite Htodo. by apply Forall_fmap.
Qed.

Lemma monitor_bounded n s : nsteps (step code_of) n (start d ps) s -> n <= work code_of macro_size (start d ps).
Proof.
  intros Hn. pose proof (work_steps code_of law_code macro_size law_size n _ _ (start_tidy macro_size d ps) Hn). lia.
Qed.
End Client.
