(* ===== verification/PtLock.v ===== *)
(** * The lock of a pseudo terminal: sys/ptms.h

    [PT_ENTER_READ], [PT_EXIT_READ], [PT_ENTER_WRITE] and [PT_EXIT_WRITE] of
    [src/include/sys/ptms.h] protect the queue pointers of a pseudo terminal by
    the count [pt_refcnt]: -1 for a writer, else the number of readers.  The
    macros are sections of a monitor ([Monitor]); threads execute them statement
    by statement. *)
From S2P Require Import Prelude Monitor.
From stdpp Require Import relations.
#[local] Open Scope Z_scope.

(** The members the macros do not use are numbers.  [pt_refcnt] is an [int] that
    counts readers inside: exact with fewer than [2 ^ 31] threads. *)
Record pt_ttys := PtTtys {
  ptm_rdq : Z; pts_rdq : Z; pt_nullmsg : Z; pt_pid : Z; pt_minor : Z; pt_refcnt : Z; pt_state : Z; pt_zoneid : Z }.

Definition PTLOCK : Z := 0x01.
Definition PTMOPEN : Z := 0x02.
Definition PTSOPEN : Z := 0x04.
Definition PTSTTY : Z := 0x08.

Definition set_refcnt (f : Z -> Z) (p : pt_ttys) : pt_ttys :=
  PtTtys (ptm_rdq p) (pts_rdq p) (pt_nullmsg p) (pt_pid p) (pt_minor p) (f (pt_refcnt p)) (pt_state p) (pt_zoneid p).

Definition PT_ENTER_READ : code pt_ttys := macro
  (mutex_enter ;;
   while_wait (fun p => pt_refcnt p <? 0) ;;
   assign (set_refcnt (fun n => n + 1)) ;;
   mutex_exit)%stmt.

Definition PT_ENTER_WRITE : code pt_ttys := macro
  (mutex_enter ;;
   while_wait (fun p => negb (pt_refcnt p =? 0)) ;;
   assign (set_refcnt (fun _ => -1)) ;;
   mutex_exit)%stmt.

Definition PT_EXIT_READ : code pt_ttys := macro
  (mutex_enter ;;
   ASSERT (fun p => 0 <? pt_refcnt p) ;;
   assign (set_refcnt (fun n => n - 1)) ;;
   if_ (fun p => pt_refcnt p =? 0) cv_broadcast ;;
   mutex_exit)%stmt.

Definition PT_EXIT_WRITE : code pt_ttys := macro
  (mutex_enter ;;
   ASSERT (fun p => pt_refcnt p =? -1) ;;
   assign (set_refcnt (fun _ => 0)) ;;
   cv_broadcast ;;
   mutex_exit)%stmt.

Inductive pt_op := RD | RX | WR | WX.
Definition pt_code (o : pt_op) : code pt_ttys :=
  match o with RD => PT_ENTER_READ | RX => PT_EXIT_READ | WR => PT_ENTER_WRITE | WX => PT_EXIT_WRITE end.

(** What a thread has: it is between the end of an entry and the end of the
    exit that follows. *)
Inductive mode := Out | Reading | Writing.
#[export] Instance mode_eq_dec : EqDecision mode.
Proof. solve_decision. Defined.
Definition mode_of (l : list pt_op) : mode := match l with RX :: _ => Reading | WX :: _ => Writing | _ => Out end.

(** The discipline of the callers: entries and exits alternate. *)
Fixpoint paired (m : mode) (l : list pt_op) : bool :=
  match m, l with
  | Out, [] => true
  | Out, RD :: l => paired Reading l
  | Out, WR :: l => paired Writing l
  | Reading, RX :: l | Writing, WX :: l => paired Out l
  | _, _ => false
  end.

(** The threads that have [m], from what is left to do. *)
Definition has (m : mode) (l : list pt_op) : nat := if decide (mode_of l = m) then 1 else 0.
Definition count (m : mode) (ls : list (list pt_op)) : nat := sum_list (has m <$> ls).

(** Nobody sleeps without a reason. *)
Definition waits (n : Z) (u : athread) : Prop :=
  aasleep u = true -> match atodo u with RD :: _ => n < 0 | WR :: _ => n <> 0 | _ => False end.

(** What the comment says of [pt_refcnt]. *)
Definition counted (n : Z) (ls : list (list pt_op)) : Prop :=
  (count Writing ls = 0%nat /\ n = Z.of_nat (count Reading ls))
  \/ (count Writing ls = 1%nat /\ count Reading ls = 0%nat /\ n = -1).

Record pt_inv (a : astate (D := pt_ttys) (op := pt_op)) : Prop := {
  pt_ok : afault a = false /\ adead a = false;
  pt_paired : Forall (fun u => paired (mode_of (atodo u)) (atodo u) = true) (athreads a);
  pt_waits : Forall (waits (pt_refcnt (adata a))) (athreads a);
  pt_count : counted (pt_refcnt (adata a)) (atodo <$> athreads a) }.

Lemma paired_mode m l : paired m l = true -> mode_of l = m.
Proof. by destruct m, l as [|[] l]. Qed.

Lemma paired_tail o l : paired (mode_of (o :: l)) (o :: l) = true -> paired (mode_of l) l = true.
Proof. destruct o; simpl; destruct l as [|[] l]; simpl; done. Qed.


(** The reasons to sleep after a change of the count. *)
Ltac waits_tac :=
  intros [[|[] l] b] Hv; unfold waits, awake in *; cbn in *; rewrite ?andb_false_r, ?andb_true_r; intros Hb;
  try discriminate Hb; specialize (Hv Hb); (done || lia).

(** A thread leaves its section. *)
Lemma pt_move a i u o os d w :
  pt_inv a -> athreads a !! i = Some u -> atodo u = o :: os ->
  (forall v, waits (pt_refcnt (adata a)) v -> waits (pt_refcnt d) (awake w v)) ->
  counted (pt_refcnt d) (<[i := os]> (atodo <$> athreads a)) ->
  pt_inv (AState d false false (<[i := AThread os false]> (awake w <$> athreads a))).
Proof.
  intros [_ Hp Hw _] Eu Eo Hwaits Hc. split; simpl.
  - done.
  - apply Forall_insert; [by apply Forall_fmap|]. simpl. apply (paired_tail o).
    rewrite Forall_lookup in Hp. specialize (Hp i u Eu). by rewrite Eo in Hp.
  - apply Forall_insert; [|by intros [=]]. apply Forall_fmap. eapply Forall_impl; [exact Hw|]. apply Hwaits.
  - by rewrite list_fmap_insert, todo_awake.
Qed.

(** A thread that has nothing goes to sleep. *)
Lemma pt_sleep a i u o os :
  pt_inv a -> athreads a !! i = Some u -> atodo u = o :: os ->
  waits (pt_refcnt (adata a)) (AThread (o :: os) true) ->
  pt_inv (AState (adata a) false false (<[i := AThread (o :: os) true]> (athreads a))).
Proof.
  intros [_ Hp Hw Hc] Eu Eo Hwait. split; simpl; [done| |by apply Forall_insert|].
  - apply Forall_insert; [done|]. rewrite Forall_lookup in Hp. specialize (Hp i u Eu). by rewrite Eo in Hp.
  - rewrite list_fmap_insert. simpl. rewrite list_insert_id; [done|]. by rewrite list_lookup_fmap, Eu, <- Eo.
Qed.

Lemma pt_step i a a' : pt_inv a -> aexec pt_code i a = Some a' -> pt_inv a'.
Proof.
  intros Ha E. pose proof Ha as [[Hf Hd] Hp Hw Hc].
  apply aexec_inv in E as (u & o & os & k & Eu & Ea & Eo & Ek & Hcase); [|intros []; by eexists|done].
  rewrite Hd in Hcase. destruct Hcase as [[[=] _]|[_ Hcase]].
  pose proof (proj1 (Forall_lookup _ _) Hp i u Eu) as Hpu. cbn beta in Hpu. rewrite Eo in Hpu.
  assert ((atodo <$> athreads a) !! i = Some (o :: os)) as El by (by rewrite list_lookup_fmap, Eu, <- Eo).
  pose proof (sum_insert (has Reading) _ _ _ os El) as HcR. pose proof (sum_insert (has Writing) _ _ _ os El) as HcW.
  pose proof (sum_le (has Reading) _ _ _ El) as HlR. pose proof (sum_le (has Writing) _ _ _ El) as HlW.
  assert (forall d w, (forall v, waits (pt_refcnt (adata a)) v -> waits (pt_refcnt d) (awake w v)) ->
    counted (pt_refcnt d) (<[i := os]> (atodo <$> athreads a)) ->
    pt_inv (AState d false false (<[i := AThread os false]> (awake w <$> athreads a)))) as Hmove
    by (intros; by eapply pt_move).
  pose proof (pt_sleep a i u o os Ha Eu Eo) as Hsleep.
  destruct o; simpl in Ek; injection Ek as <-; cbn in Hcase; simpl in Hpu;
    unfold has in HcR at 2 4, HcW at 2 4, HlR at 1, HlW at 1; rewrite (paired_mode _ _ Hpu) in HcR, HcW;
    cbn [mode_of] in HcR, HcW, HlR, HlW; repeat (case_decide; try done); unfold counted, count in *.
  - destruct (Z.ltb_spec (pt_refcnt (adata a)) 0) as [Hn|Hn]; subst a'; [by apply Hsleep; intros _|].
    apply Hmove; [waits_tac|simpl; lia].
  - destruct (Z.ltb_spec 0 (pt_refcnt (adata a))) as [Hn|Hn]; [|lia].
    destruct (Z.eqb_spec (pt_refcnt (adata a) - 1) 0) as [Hz|Hz]; subst a'; (apply Hmove; [waits_tac|simpl; lia]).
  - destruct (Z.eqb_spec (pt_refcnt (adata a)) 0) as [Hn|Hn]; cbn in Hcase; subst a'; [|by apply Hsleep; intros _].
    apply Hmove; [waits_tac|simpl; lia].
  - destruct (Z.eqb_spec (pt_refcnt (adata a)) (-1)) as [Hn|Hn]; [|lia]. subst a'. apply Hmove; [waits_tac|simpl; lia].
Qed.

(** Somebody is inside while somebody sleeps. *)
Lemma pt_live a : pt_inv a -> Forall stuck (athreads a) -> Forall (fun u => atodo u = []) (athreads a).
Proof.
  intros [_ Hp Hw Hc] Hs. destruct (decide (pt_refcnt (adata a) = 0)) as [Hz|Hz].
  - apply Forall_lookup. intros i u Eu. rewrite Forall_lookup in Hs, Hw.
    destruct (Hs i u Eu) as [?|Has]; [done|]. specialize (Hw i u Eu Has). destruct (atodo u) as [|[] l]; lia.
  - exfalso. assert (exists m, m <> Out /\ count m (atodo <$> athreads a) <> 0%nat) as (m & Hm & Hcm).
    { destruct Hc as [[_ H]|[H _]]; [exists Reading|exists Writing]; (split; [done|lia]). }
    apply Hcm. unfold count. clear Hcm Hp Hc. induction (athreads a) as [|u us IH]; [done|].
    apply Forall_cons in Hs as [Hu Hs]. apply Forall_cons in Hw as [Hwu Hw]. csimpl. rewrite IH by done.
    unfold has. destruct Hu as [-> |Hu]; [by rewrite decide_False by (by destruct m)|].
    specialize (Hwu Hu). destruct (atodo u) as [|[] l]; try done; by rewrite decide_False by (by destruct m).
Qed.

#[export] Instance pt_laws : MonitorLaws pt_code pt_inv.
Proof.
  refine {| macro_size := 6 |}.
  - intros []; simpl; lia.
  - intros []; by eexists.
  - intros a Ha. by destruct Ha as [[? _] _ _ _].
  - apply pt_step.
  - apply pt_live.
Defined.

Lemma pt_initial p ps :
  pt_refcnt p = 0 -> Forall (fun l => paired Out l = true) ps -> pt_inv (astart p ps).
Proof.
  intros H0 Hps. assert (forall m, m <> Out -> count m ps = 0%nat) as Hc.
  { intros m Hm. unfold count. induction Hps as [|l ps Hl _ IH]; [done|]. csimpl. rewrite IH. unfold has.
    by rewrite (paired_mode _ _ Hl), decide_False. }
  split; simpl; [done| | |].
  - apply Forall_fmap. eapply Forall_impl; [exact Hps|]. intros l Hl. simpl. by rewrite (paired_mode _ _ Hl).
  - apply Forall_fmap, Forall_true. intros l [=].
  - left. rewrite <- list_fmap_compose, list_fmap_id, !Hc by done. done.
Qed.

(** ** The theorems *)

(** C7: readers and writers exclude each other.  However threads interleave the
    statements of the macros, with entries and exits that alternate in each of
    them, no assertion fails and the data is used under the mutex only; while a
    thread is inside for writing no other is inside, and whenever the mutex is
    free [pt_refcnt] is -1 with a writer inside and the number of readers
    without. *)
Theorem pt_exclusion p ps s :
  pt_refcnt p = 0 -> Forall (fun l => paired Out l = true) ps -> rtc (step pt_code) (start p ps) s ->
  fault s = false
  /\ (forall i j t u, i <> j -> threads s !! i = Some t -> threads s !! j = Some u ->
       mode_of (todo t) = Writing -> mode_of (todo u) = Out)
  /\ (owner s = None -> pt_refcnt (data s) =
       if (count Writing (todo <$> threads s) =? 0)%nat then Z.of_nat (count Reading (todo <$> threads s)) else -1).
Proof.
  intros H0 Hps Hr.
  destruct (monitor_safe pt_code pt_inv p ps (pt_initial p ps H0 Hps) s Hr) as (Hf & a & Ha & _ & Htodo & Hdata).
  split; [done|]. pose proof (pt_count a Ha) as Hc. rewrite <- Htodo in Hc. split.
  - intros i j t u Hij Et Eu Hm.
    assert ((todo <$> threads s) !! i = Some (todo t)) as E1 by (by rewrite list_lookup_fmap, Et).
    assert ((todo <$> threads s) !! j = Some (todo u)) as E2 by (by rewrite list_lookup_fmap, Eu).
    pose proof (sum_two (has Writing) _ i j _ _ Hij E1 E2) as H2. pose proof (sum_le (has Reading) _ _ _ E2) as H3.
    unfold counted, count, has in *. rewrite Hm in H2. destruct (mode_of (todo u)) eqn:Em; [done|exfalso..];
      repeat (case_decide; try done); lia.
  - intros Eo. destruct (Hdata Eo) as [-> _]. destruct Hc as [[-> ->]|(-> & _ & ->)]; done.
Qed.

(** C8: the lock is free of deadlock and every run ends.  In a reachable state
    some thread can go on, or all have done all their entries and exits; so no
    wakeup is lost; and the number of steps is bounded by [work] of the start. *)
Theorem pt_completes p ps :
  pt_refcnt p = 0 -> Forall (fun l => paired Out l = true) ps ->
  (forall n s, nsteps (step pt_code) n (start p ps) s -> (n <= work pt_code 6 (start p ps))%nat)
  /\ forall s, rtc (step pt_code) (start p ps) s ->
     Forall (fun t => todo t = []) (threads s) \/ exists s', step pt_code s s'.
Proof.
  intros H0 Hps. pose proof (pt_initial p ps H0 Hps) as Hi. split; [intros n s H|intros s Hs].
  - exact (monitor_bounded pt_code pt_inv p ps n s H).
  - by apply (monitor_progress pt_code pt_inv p ps Hi s).
Qed.

Definition a_pty : pt_ttys := PtTtys 10 20 30 400 5 0 PTMOPEN 0.
Definition three_users : list (list pt_op) := [[RD; RX; WR; WX]; [WR; WX]; [RD; RX]].
(** The first reads, the second finds it inside and sleeps, the third reads, both
    leave, the second writes. *)
Definition pt_schedule : list nat := [0;0;0;0;0; 1;1;1; 2;2;2;2;2; 0;0;0;0;0;0; 2;2;2;2;2;2;2; 1;1;1;1]%nat.
Definition writer_in : mstate := MState (set_refcnt (fun _ => -1) a_pty) None false false
  [Thread None [WR; WX] false; Thread None [WX] false; Thread None [] false].

Lemma three_users_run : run pt_code pt_schedule (start a_pty three_users) = Some writer_in.
Proof. vm_compute. reflexivity. Qed.

Lemma pt_exclusion_witness : fault writer_in = false /\ pt_refcnt (data writer_in) = -1.
Proof.
  destruct (pt_exclusion a_pty three_users writer_in eq_refl ltac:(repeat constructor)
    (mon_run_rtc _ _ _ _ three_users_run)) as (Hf & _ & Hr).
  split; [exact Hf|]. rewrite Hr; reflexivity.
Defined.

Lemma pt_completes_witness :
  Forall (fun t => todo t = []) (threads writer_in) \/ exists s', step pt_code writer_in s'.
Proof.
  apply (pt_completes a_pty three_users eq_refl ltac:(repeat constructor)).
  exact (mon_run_rtc _ _ _ _ three_users_run).
Defined.
