(* ===== verification/CfgLock.v ===== *)
(** * The configuration lock of IP policy actions: ipp/ipp_impl.h

    [CONFIG_LOCK_ENTER] and [CONFIG_LOCK_EXIT] of [src/include/ipp/ipp_impl.h]
    on a [cfglock_t]: one thread at a time has the lock, for reading or for
    writing, and the thread that has it for writing may enter again.  The macros
    are sections of a monitor ([Monitor]). *)
From S2P Require Import Prelude Monitor.
From stdpp Require Import relations.
#[local] Open Scope Z_scope.

Record cfglock := CfgLock { cl_writers : Z; cl_reader : bool; cl_owner : option nat }.

Definition set_writers (f : Z -> Z) (l : cfglock) : cfglock := CfgLock (f (cl_writers l)) (cl_reader l) (cl_owner l).
Definition set_reader (b : bool) (l : cfglock) : cfglock := CfgLock (cl_writers l) b (cl_owner l).
Definition set_owner (o : option nat) (l : cfglock) : cfglock := CfgLock (cl_writers l) (cl_reader l) o.

Definition CL_READ : Z := 0.
Definition CL_WRITE : Z := 1.

(** [curthread] is the argument of conditions and assignments. *)
Definition CONFIG_LOCK_ENTER (rw : Z) : code cfglock := macro
  (mutex_enter ;;
   (if rw =? CL_WRITE then
      While_wait (fun curthread l => cl_reader l ||
          (negb (bool_decide (cl_owner l = None)) && negb (bool_decide (cl_owner l = Some curthread))))
        (fun _ _ => true) ;;
      Assign (fun curthread => set_owner (Some curthread)) ;;
      assign (set_writers (fun n => u32 (n + 1)))
    else if rw =? CL_READ then
      While_wait (fun _ l => cl_reader l || (0 <? cl_writers l))
        (fun curthread l => negb (bool_decide (cl_owner l = Some curthread))) ;;
      Assign (fun curthread => set_owner (Some curthread)) ;;
      assign (set_reader true)
    else skip) ;;
   mutex_exit)%stmt.

Definition CONFIG_LOCK_EXIT : code cfglock := macro
  (mutex_enter ;;
   if_else cl_reader
     (assign (set_reader false) ;; assign (set_owner None) ;; cv_broadcast)
     (ASSERT (fun l => negb (cl_writers l =? 0)) ;;
      assign (set_writers (fun n => u32 (n - 1))) ;;
      if_ (fun l => cl_writers l =? 0) (assign (set_owner None) ;; cv_broadcast)) ;;
   mutex_exit)%stmt.

(** The exits are one macro; [XR] and [XW] say what the caller has. *)
Inductive cfg_op := ER | EW | XR | XW.
Definition cfg_code (o : cfg_op) : code cfglock :=
  match o with ER => CONFIG_LOCK_ENTER CL_READ | EW => CONFIG_LOCK_ENTER CL_WRITE | XR | XW => CONFIG_LOCK_EXIT end.

(** The discipline of the callers: a thread that reads leaves before it enters
    again; a thread that writes may enter for writing again.  [n]: how often it
    has entered for writing. *)
Fixpoint nested (r : bool) (n : nat) (l : list cfg_op) : bool :=
  match r, n, l with
  | false, O, [] => true
  | false, O, ER :: l => nested true 0 l
  | false, n, EW :: l => nested false (S n) l
  | true, O, XR :: l => nested false 0 l
  | false, S n, XW :: l => nested false n l
  | _, _, _ => false
  end.

(** What a thread has, from what is left to do. *)
Definition reading (l : list cfg_op) : bool := match l with XR :: _ => true | _ => false end.
Definition weight (o : cfg_op) : Z := match o with EW => -1 | XW => 1 | _ => 0 end.
Fixpoint depth (l : list cfg_op) : Z := match l with [] => 0 | o :: l => weight o + depth l end.
Definition lawful (l : list cfg_op) : Prop := nested (reading l) (Z.to_nat (depth l)) l = true /\ Z.of_nat (length l) < 2 ^ 32.
Definition has_none (l : list cfg_op) : Prop := reading l = false /\ depth l = 0.

Lemma nested_holds r n l : nested r n l = true -> r = reading l /\ Z.of_nat n = depth l.
Proof.
  revert r n. induction l as [|o l IH]; intros r n H.
  - destruct r, n; done.
  - destruct o, r, n as [|n]; try done; simpl in H; apply IH in H as [Hr Hn]; simpl; (split; [done|lia]).
Qed.

Lemma depth_length l : depth l <= Z.of_nat (length l).
Proof. induction l as [|[] l IH]; simpl; lia. Qed.

Lemma nested_lawful r n l : nested r n l = true -> Z.of_nat (length l) < 2 ^ 32 -> lawful l.
Proof.
  intros H Hl. destruct (nested_holds _ _ _ H) as [Hr Hn]. split; [|done]. by rewrite <- Hr, <- Hn, Nat2Z.id.
Qed.

(** *** The invariant *)
Abbreviation ustate := (athread (op := cfg_op)).

(** Thread [i] has the lock. *)
Definition holder (d : cfglock) (l : list cfg_op) : Prop :=
  (reading l = true /\ depth l = 0 /\ cl_reader d = true /\ cl_writers d = 0)
  \/ (reading l = false /\ 0 < depth l /\ cl_reader d = false /\ cl_writers d = depth l).

Definition lock_state (d : cfglock) (ls : list (list cfg_op)) : Prop :=
  match cl_owner d with
  | None => cl_reader d = false /\ cl_writers d = 0 /\ Forall has_none ls
  | Some i => (exists l, ls !! i = Some l /\ holder d l) /\ forall j l, j <> i -> ls !! j = Some l -> has_none l
  end.

Definition waits (d : cfglock) (u : ustate) : Prop :=
  aasleep u = true -> cl_owner d <> None /\ has_none (atodo u).

Record cfg_inv (a : astate (D := cfglock) (op := cfg_op)) : Prop := {
  cfg_ok : afault a = false /\ adead a = false;
  cfg_lawful : Forall (fun u => lawful (atodo u)) (athreads a);
  cfg_waits : Forall (waits (adata a)) (athreads a);
  cfg_state : lock_state (adata a) (atodo <$> athreads a) }.

Lemma lawful_step o l : lawful (o :: l) ->
  match o with
  | ER => has_none (ER :: l) /\ reading l = true /\ depth l = 0
  | EW => reading l = false /\ 0 <= depth (EW :: l) /\ depth l = depth (EW :: l) + 1
  | XR => depth (XR :: l) = 0 /\ has_none l
  | XW => 0 < depth (XW :: l) /\ reading l = false /\ depth l = depth (XW :: l) - 1
  end /\ lawful l /\ depth (o :: l) < 2 ^ 32 /\ depth l < 2 ^ 32.
Proof.
  intros [Hn Hl]. pose proof (depth_length (o :: l)) as Hd. pose proof (depth_length l) as Hd'. simpl length in *.
  assert (Z.of_nat (length l) < 2 ^ 32) as Hl' by lia.
  destruct (nested_holds _ _ _ Hn) as [_ Hz]. 
  assert (depth l < 2 ^ 32 /\ depth (o :: l) < 2 ^ 32) as [? ?] by lia.
  destruct o; cbn [reading] in Hn; cbn [nested] in Hn; destruct (Z.to_nat (depth _)) as [|n] eqn:En; try done;
    pose proof (nested_lawful _ _ _ Hn Hl'); destruct (nested_holds _ _ _ Hn) as [Hr Hk];
    (split; [|split; [done|lia]]); cbn [depth weight] in *; unfold has_none; cbn [reading depth weight];
    repeat split; try done; lia.
Qed.

Lemma cfg_move a i u o os d w :
  cfg_inv a -> athreads a !! i = Some u -> atodo u = o :: os ->
  (w = true \/ cl_owner d <> None) -> lock_state d (<[i := os]> (atodo <$> athreads a)) ->
  cfg_inv (AState d false false (<[i := AThread os false]> (awake w <$> athreads a))).
Proof.
  intros [_ Hl Hw _] Eu Eo Hwake Hs. split; simpl.
  - done.
  - apply Forall_insert; [by apply Forall_fmap|]. rewrite Forall_lookup in Hl. specialize (Hl i u Eu).
    rewrite Eo in Hl. by apply lawful_step in Hl as (_ & ? & _).
  - apply Forall_insert; [|by intros [=]]. apply Forall_fmap. eapply Forall_impl; [exact Hw|].
    intros [l b] Hv. unfold waits in *. simpl in *. destruct Hwake as [->|Hd]; [by rewrite andb_false_r|].
    intros Hb. apply andb_true_iff in Hb as [Hb _]. destruct (Hv Hb) as [_ ?]. done.
  - by rewrite list_fmap_insert, todo_awake.
Qed.

Lemma cfg_sleep a i u o os :
  cfg_inv a -> athreads a !! i = Some u -> atodo u = o :: os -> cl_owner (adata a) <> None -> has_none (o :: os) ->
  cfg_inv (AState (adata a) false false (<[i := AThread (o :: os) true]> (athreads a))).
Proof.
  intros [_ Hl Hw Hs] Eu Eo Ho Hn. split; simpl; [done| | |].
  - apply Forall_insert; [done|]. rewrite Forall_lookup in Hl. specialize (Hl i u Eu). by rewrite Eo in Hl.
  - apply Forall_insert; [done|]. by intros _.
  - rewrite list_fmap_insert. simpl. rewrite list_insert_id; [done|]. by rewrite list_lookup_fmap, Eu, <- Eo.
Qed.

(** The lock after a step of thread [i], when the others have nothing. *)
Lemma lock_after d ls i l :
  (i < length ls)%nat -> (forall j k, j <> i -> ls !! j = Some k -> has_none k) ->
  (cl_owner d = Some i /\ holder d l) \/ (cl_owner d = None /\ cl_reader d = false /\ cl_writers d = 0 /\ has_none l) ->
  lock_state d (<[i := l]> ls).
Proof.
  intros Hi Ho [[Ed Hh]|(Ed & Hr & Hw & Hn)]; unfold lock_state; rewrite Ed.
  - split; [exists l; split; [by apply list_lookup_insert_eq|done]|]. intros j k Hj Ek.
    rewrite list_lookup_insert_ne in Ek by done. by apply (Ho j).
  - split; [done|]. split; [done|]. apply Forall_lookup. intros j k Ek.
    apply list_lookup_insert_Some in Ek as [(_ & <- & _)|[Hj Ek]]; [done|]. by apply (Ho j).
Qed.

Ltac decide_owner := repeat first [rewrite bool_decide_eq_true_2 by congruence | rewrite bool_decide_eq_false_2 by congruence].

Lemma cfg_step i a a' : cfg_inv a -> aexec cfg_code i a = Some a' -> cfg_inv a'.
Proof.
  intros Ha E. pose proof Ha as [[Hf Hd] Hl Hw Hs].
  apply aexec_inv in E as (u & o & os & k & Eu & Ea & Eo & Ek & Hcase); [|intros []; by eexists|done].
  rewrite Hd in Hcase. destruct Hcase as [[[=] _]|[_ Hcase]].
  pose proof (proj1 (Forall_lookup _ _) Hl i u Eu) as Hlu. cbn beta in Hlu. rewrite Eo in Hlu.
  apply lawful_step in Hlu as (Ho & _ & Hb & Hb').
  assert ((atodo <$> athreads a) !! i = Some (o :: os)) as El by (by rewrite list_lookup_fmap, Eu, <- Eo).
  pose proof (lookup_lt_Some _ _ _ El) as Hlt.
  unfold lock_state in Hs. destruct (adata a) as [wr rd ow] eqn:Ed. simpl in Hs. destruct ow as [j|].
  - destruct Hs as ((lj & Ej & Hh) & Hothers). destruct (decide (j = i)) as [->|Hji].
    + (* the thread has the lock *)
      simplify_eq. assert (forall d w, (w = true \/ cl_owner d <> None) ->
        (cl_owner d = Some i /\ holder d os) \/ (cl_owner d = None /\ cl_reader d = false /\ cl_writers d = 0 /\ has_none os) ->
        cfg_inv (AState d false false (<[i := AThread os false]> (awake w <$> athreads a)))) as Hmove.
      { intros d w Hdw Hc. eapply cfg_move; [done..|]. by apply lock_after. }
      unfold holder, has_none in *. simpl in Hh.
      destruct o; simpl in Ek; injection Ek as <-; cbn [reading] in *;
        destruct Hh as [(Hr & Hdp & -> & ->)|(Hr & Hdp & -> & ->)]; try done; cbn in Hcase.
      * exfalso. simpl in Hdp. lia.
      * revert Hcase. decide_owner. intros ->. apply Hmove; [by right|]. left. simpl. split; [done|]. right.
        cbn [depth weight] in *. rewrite wrapu_id by (unfold in_u; lia). repeat split; first [done | lia | by destruct Ho as [? [? ?]]].
      * subst a'. apply Hmove; [by left|]. right. repeat split; first [done | lia | by destruct Ho as [? [? ?]]].
      * destruct Ho as (_ & Hros & _). cbn [depth weight] in *. revert Hcase. rewrite (proj2 (Z.eqb_neq (1 + depth os) 0)) by lia. cbn [negb].
        rewrite wrapu_id by (unfold in_u; lia). destruct (Z.eqb_spec (1 + depth os - 1) 0) as [Hz|Hz]; intros ->.
        -- apply Hmove; [by left|]. right. simpl. rewrite wrapu_id by (unfold in_u; lia). repeat split; done || lia.
        -- apply Hmove; [by right|]. left. simpl. split; [done|]. right. rewrite wrapu_id by (unfold in_u; lia).
           repeat split; done || lia.
    + (* another thread has it *)
      pose proof (Hothers i _ ltac:(congruence) El) as Hn.
      assert (cfg_inv (AState (adata a) false false (<[i := AThread (o :: os) true]> (athreads a)))) as Hsl
        by (apply (cfg_sleep a i u); rewrite ?Ed; done).
      rewrite Ed in Hsl. unfold has_none in Hn.
      destruct o; simpl in Ek; injection Ek as <-; cbn in Hcase; [| |by destruct Hn|cbn [reading depth weight] in *; exfalso; lia].
      * revert Hcase. decide_owner.
        assert (rd || (0 <? wr) = true) as ->; [|by intros ->].
        unfold holder in Hh. simpl in Hh. destruct Hh as [(_ & _ & -> & _)|(_ & Hp & -> & ->)]; [done|]. by apply Z.ltb_lt.
      * revert Hcase. decide_owner. cbn [negb andb]. rewrite orb_true_r. by intros ->.
  - destruct Hs as (-> & -> & Hnone). rewrite Forall_lookup in Hnone.
    pose proof (Hnone i _ El) as [Hr Hdp].
    assert (forall d, cl_owner d = Some i -> holder d os ->
      cfg_inv (AState d false false (<[i := AThread os false]> (awake false <$> athreads a)))) as Hmove.
    { intros d Hdo Hc. eapply cfg_move; [done..|right; by rewrite Hdo|]. apply lock_after; [done| |by left].
      intros j l _ Ej. by apply (Hnone j). }
    destruct o; simpl in Ek; injection Ek as <-; cbn in Hcase; [| |done|cbn [depth weight] in *; exfalso; lia].
    + subst a'. apply Hmove; [done|]. left. simpl. repeat split; first [done | lia | by destruct Ho as [? [? ?]]].
    + revert Hcase. decide_owner. cbn [negb andb]. intros ->. apply Hmove; [done|]. right. simpl.
      cbn [depth weight] in *. rewrite wrapu_id by (unfold in_u; lia). repeat split; first [done | lia | by destruct Ho as [? [? ?]]].
Qed.

(** The thread that has the lock is awake. *)
Lemma cfg_live a : cfg_inv a -> Forall stuck (athreads a) -> Forall (fun u => atodo u = []) (athreads a).
Proof.
  intros [_ Hl Hw Hs] Hst. rewrite Forall_lookup in Hw, Hst. destruct (cl_owner (adata a)) as [i|] eqn:Eo.
  - exfalso. unfold lock_state in Hs. rewrite Eo in Hs. destruct Hs as ((l & El & Hh) & _).
    rewrite list_lookup_fmap in El. destruct (athreads a !! i) as [u|] eqn:Eu; [|done]. simplify_eq/=.
    unfold holder in Hh. destruct (Hst i u Eu) as [Hnil|Has].
    + rewrite Hnil in Hh. simpl in Hh. destruct Hh as [(? & _)|(_ & ? & _)]; [done|lia].
    + destruct (Hw i u Eu Has) as [_ [Hr Hd]]. rewrite Hr, Hd in Hh. destruct Hh as [(? & _)|(_ & ? & _)]; [done|lia].
  - apply Forall_lookup. intros i u Eu. destruct (Hst i u Eu) as [?|Has]; [done|].
    destruct (Hw i u Eu Has) as [Hne _]. by rewrite Eo in Hne.
Qed.

#[export] Instance cfg_laws : MonitorLaws cfg_code cfg_inv.
Proof.
  refine {| macro_size := 8 |}.
  - intros []; simpl; lia.
  - intros []; by eexists.
  - intros a Ha. by destruct Ha as [[? _] _ _ _].
  - apply cfg_step.
  - apply cfg_live.
Defined.

(** A lock after [CONFIG_LOCK_INIT] of an action that was allocated with zeros,
    and the callers of a run. *)
Definition unlocked : cfglock := CfgLock 0 false None.
Definition callers (ps : list (list cfg_op)) : Prop :=
  Forall (fun l => nested false 0 l = true /\ Z.of_nat (length l) < 2 ^ 32) ps.

Lemma cfg_initial ps : callers ps -> cfg_inv (astart unlocked ps).
Proof.
  intros Hps. split; simpl; [done| | |].
  - apply Forall_fmap. eapply Forall_impl; [exact Hps|]. intros l [Hl Hn]. by eapply nested_lawful.
  - apply Forall_fmap, Forall_true. intros l [=].
  - split; [done|]. split; [done|]. rewrite <- list_fmap_compose, list_fmap_id.
    eapply Forall_impl; [exact Hps|]. intros l [Hl _]. destruct (nested_holds _ _ _ Hl) as [? ?]. by split.
Qed.

(** ** The theorems *)

(** C11: the lock excludes.  However threads interleave the statements of the
    macros, with calls nested as the discipline says, no assertion fails; at most
    one thread has the lock, for reading or for writing; and whenever the mutex
    is free, [cl_writers] is the number of times the thread with the lock has
    entered for writing, [cl_reader] tells whether it reads, and [cl_owner] is
    that thread, or none. *)
Theorem cfg_exclusion ps s :
  callers ps -> rtc (step cfg_code) (start unlocked ps) s ->
  fault s = false
  /\ (forall i j t u, i <> j -> threads s !! i = Some t -> threads s !! j = Some u ->
       has_none (todo t) \/ has_none (todo u))
  /\ (owner s = None -> forall i t, threads s !! i = Some t ->
       if bool_decide (cl_owner (data s) = Some i)
       then cl_reader (data s) = reading (todo t) /\ cl_writers (data s) = depth (todo t) /\ ~ has_none (todo t)
       else has_none (todo t)).
Proof.
  intros Hps Hr.
  destruct (monitor_safe cfg_code cfg_inv unlocked ps (cfg_initial ps Hps) s Hr) as (Hf & a & Ha & _ & Htodo & Hdata).
  split; [done|]. pose proof (cfg_state a Ha) as Hs. rewrite <- Htodo in Hs.
  assert (forall i t, threads s !! i = Some t -> (todo <$> threads s) !! i = Some (todo t)) as Hlk.
  { intros i t Et. by rewrite list_lookup_fmap, Et. }
  unfold lock_state in Hs. split.
  - intros i j t u Hij Et%Hlk Eu%Hlk. destruct (cl_owner (adata a)) as [k|].
    + destruct Hs as [_ Ho]. destruct (decide (i = k)) as [->|Hne]; [right|left]; by eapply Ho.
    + destruct Hs as (_ & _ & HF). left. by eapply (proj1 (Forall_lookup _ _) HF i).
  - intros Eo i t Et%Hlk. destruct (Hdata Eo) as [-> _]. case_bool_decide as Hc.
    + rewrite Hc in Hs. destruct Hs as ((l & El & Hh) & _). simplify_eq. unfold has_none.
      destruct Hh as [(Hr1 & -> & -> & ->)|(Hr1 & Hd & -> & ->)]; rewrite Hr1; (split; [done|]); (split; [done|]);
        intros [? ?]; [done|lia].
    + destruct (cl_owner (adata a)) as [k|].
      * destruct Hs as [_ Ho]. apply (Ho i); [congruence|done].
      * destruct Hs as (_ & _ & HF). by eapply (proj1 (Forall_lookup _ _) HF i).
Qed.

(** The lock is free of deadlock and every run ends. *)
Theorem cfg_completes ps :
  callers ps ->
  (forall n s, nsteps (step cfg_code) n (start unlocked ps) s -> (n <= work cfg_code 8 (start unlocked ps))%nat)
  /\ forall s, rtc (step cfg_code) (start unlocked ps) s ->
     Forall (fun t => todo t = []) (threads s) \/ exists s', step cfg_code s s'.
Proof.
  intros Hps. pose proof (cfg_initial ps Hps) as Hi. split; [intros n s H|intros s Hs].
  - exact (monitor_bounded cfg_code cfg_inv unlocked ps n s H).
  - by apply (monitor_progress cfg_code cfg_inv unlocked ps Hi s).
Qed.

Definition two_callers : list (list cfg_op) := [[EW; EW; XW; XW]; [ER; XR]].
(** The first enters twice, the second finds it inside and sleeps. *)
Definition cfg_schedule : list nat := [0;0;0;0;0;0; 1;1;1; 0;0;0;0;0;0]%nat.
Definition entered_twice : mstate := MState (CfgLock 2 false (Some 0%nat)) None false false
  [Thread None [XW; XW] false; Thread (Some (CONFIG_LOCK_ENTER CL_READ)) [ER; XR] true].

Lemma two_callers_run : run cfg_code cfg_schedule (start unlocked two_callers) = Some entered_twice.
Proof. reflexivity. Qed.

Lemma two_callers_ok : callers two_callers.
Proof. repeat constructor. Qed.

Lemma cfg_exclusion_witness : fault entered_twice = false /\ cl_writers (data entered_twice) = depth [XW; XW].
Proof.
  destruct (cfg_exclusion two_callers entered_twice two_callers_ok (mon_run_rtc _ _ _ _ two_callers_run)) as (Hf & _ & H).
  split; [exact Hf|]. apply (H eq_refl 0%nat (Thread None [XW; XW] false) eq_refl).
Defined.

Lemma cfg_completes_witness :
  Forall (fun t => todo t = []) (threads entered_twice) \/ exists s', step cfg_code entered_twice s'.
Proof. apply (cfg_completes two_callers two_callers_ok). exact (mon_run_rtc _ _ _ _ two_callers_run). Defined.

(** The discipline is needed: a thread that reads and enters for writing waits
    for itself. *)
Lemma cfg_upgrade_deadlocks :
  exists s, rtc (step cfg_code) (start unlocked [[ER; EW; XW]]) s /\ fault s = false
    /\ ~ Forall (fun t => todo t = []) (threads s) /\ ~ exists s', step cfg_code s s'.
Proof.
  exists (MState (CfgLock 0 true (Some 0%nat)) None false false
    [Thread (Some (CONFIG_LOCK_ENTER CL_WRITE)) [EW; XW] true]).
  split; [apply (mon_run_rtc _ [0;0;0;0;0;0;0;0;0]%nat); reflexivity|]. split; [done|]. split.
  - intros H. by inversion_clear H.
  - intros (s' & [|i] & E); done.
Qed.
