(* ===== verification/SctpRun.v ===== *)
(** * The running flag of an SCTP association: inet/sctp/sctp_impl.h

    [RUN_SCTP] and [WAKE_SCTP] of [src/include/inet/sctp/sctp_impl.h] let one
    thread at a time process an association: the flag [sctp_running] is set and
    cleared under a mutex and threads wait for it on a condition variable.  What
    [WAKE_SCTP] does for a timer that fired meanwhile, [sctp_process_timer], is a
    parameter; it works on the rest of the association. *)
From S2P Require Import Prelude Monitor.
From stdpp Require Import relations.
#[local] Open Scope Z_scope.

(** [R]: the rest of the association. *)
Record sctp_t (R : Type) := Sctp { sctp_running : bool; sctp_rest : R }.
Arguments Sctp {R} _ _. Arguments sctp_running {R} _. Arguments sctp_rest {R} _.

Section Sctp.
Context {R : Type} (timer_pending : R -> bool) (sctp_process_timer : R -> R).
Definition set_running (b : bool) (s : sctp_t R) : sctp_t R := Sctp b (sctp_rest s).
Definition process_timer (s : sctp_t R) : sctp_t R := Sctp (sctp_running s) (sctp_process_timer (sctp_rest s)).

Definition RUN_SCTP : code (sctp_t R) := macro
  (mutex_enter ;;
   while_wait sctp_running ;;
   assign (set_running true) ;;
   mutex_exit)%stmt.
Definition WAKE_SCTP : code (sctp_t R) := macro
  (mutex_enter ;;
   if_ (fun s => timer_pending (sctp_rest s)) (assign process_timer) ;;
   assign (set_running false) ;;
   cv_broadcast ;;
   mutex_exit)%stmt.

Inductive sctp_op := Run | Wake.
Definition sctp_code (o : sctp_op) : code (sctp_t R) := match o with Run => RUN_SCTP | Wake => WAKE_SCTP end.

(** The thread has the association; the discipline of the callers. *)
Definition inside (l : list sctp_op) : nat := match l with Wake :: _ => 1 | _ => 0 end.
Fixpoint brackets (l : list sctp_op) : bool := match l with [] => true | Run :: Wake :: l => brackets l | _ => false end.
Definition in_turn (l : list sctp_op) : Prop := brackets l = true \/ exists k, l = Wake :: k /\ brackets k = true.
Definition users (ls : list (list sctp_op)) : nat := sum_list (inside <$> ls).

Record sctp_inv (a : astate (D := sctp_t R) (op := sctp_op)) : Prop := {
  sctp_ok : afault a = false /\ adead a = false;
  sctp_turn : Forall (fun u => in_turn (atodo u)) (athreads a);
  sctp_waits : Forall (fun u => aasleep u = true -> sctp_running (adata a) = true /\ inside (atodo u) = 0%nat) (athreads a);
  sctp_count : users (atodo <$> athreads a) = if sctp_running (adata a) then 1%nat else 0%nat }.

Lemma in_turn_tail o l : in_turn (o :: l) -> in_turn l /\ inside (o :: l) = (match o with Wake => 1 | Run => 0 end)%nat
  /\ inside l = (match o with Wake => 0 | Run => 1 end)%nat.
Proof.
  intros [H|(k & [= -> ->] & H)].
  - destruct o; [|done]. destruct l as [|[] l]; try done. split; [right; by exists l|done].
  - split; [by left|]. split; [done|]. by destruct k as [|[] k].
Qed.

Lemma sctp_step i a a' : sctp_inv a -> aexec sctp_code i a = Some a' -> sctp_inv a'.
Proof.
  intros [[Hf Hd] Hp Hw Hc] E.
  apply aexec_inv in E as (u & o & os & k & Eu & Ea & Eo & Ek & Hcase); [|intros []; by eexists|done].
  rewrite Hd in Hcase. destruct Hcase as [[[=] _]|[_ Hcase]].
  pose proof (proj1 (Forall_lookup _ _) Hp i u Eu) as Hpu. cbn beta in Hpu. rewrite Eo in Hpu. destruct (in_turn_tail _ _ Hpu) as (Ht & Hi & Hi').
  assert ((atodo <$> athreads a) !! i = Some (o :: os)) as El by (by rewrite list_lookup_fmap, Eu, <- Eo).
  pose proof (sum_insert inside _ _ _ os El) as Hs. fold (users (<[i := os]> (atodo <$> athreads a))) in Hs. fold (users (atodo <$> athreads a)) in Hs.
  rewrite Hi, Hi', Hc in Hs.
  (* A thread leaves its section with the flag [b]. *)
  assert (forall (b w : bool) r, users (<[i := os]> (atodo <$> athreads a)) = (if b then 1 else 0)%nat -> (w = true \/ b = true) ->
    sctp_inv (AState (Sctp b r) false false (<[i := AThread os false]> (awake w <$> athreads a)))) as Hmove.
  { intros b w r Hu Hb. split; simpl; [done| | |by rewrite list_fmap_insert, todo_awake].
    - apply Forall_insert; [by apply Forall_fmap|done].
    - apply Forall_insert; [|by intros [=]]. apply Forall_fmap. eapply Forall_impl; [exact Hw|]. intros [l z] Hv. simpl in *.
      destruct Hb as [->|Hb]; [by rewrite andb_false_r|]. intros [Hz _]%andb_true_iff. split; [done|]. by apply Hv. }
  destruct o; simpl in Ek; injection Ek as <-; cbn in Hcase.
  - destruct (sctp_running (adata a)) eqn:Er; subst a'.
    + split; simpl; [done| |apply Forall_insert; [rewrite Er; done|by rewrite Er]|].
      * apply Forall_insert; done.
      * rewrite list_fmap_insert, Er. simpl. rewrite list_insert_id; [done|]. by rewrite list_lookup_fmap, Eu, <- Eo.
    + apply (Hmove true false); [lia|by right].
  - assert (users (<[i := os]> (atodo <$> athreads a)) = 0%nat) as Hu by (destruct (sctp_running (adata a)); lia).
    destruct (timer_pending (sctp_rest (adata a))); subst a'; (apply (Hmove false true); [done|by left]).
Qed.

Lemma sctp_live a : sctp_inv a -> Forall stuck (athreads a) -> Forall (fun u => atodo u = []) (athreads a).
Proof.
  intros [_ Hp Hw Hc] Hs. destruct (sctp_running (adata a)) eqn:Er.
  - exfalso. assert (users (atodo <$> athreads a) = 0%nat) as H0; [|lia]. unfold users. clear Hc Hp.
    induction (athreads a) as [|u us IH]; [done|]. apply Forall_cons in Hs as [Hu Hs]. apply Forall_cons in Hw as [Hwu Hw].
    csimpl. rewrite IH by done. destruct Hu as [->|Hu]; [done|]. by rewrite (proj2 (Hwu Hu)).
  - apply Forall_lookup. intros i u Eu. rewrite Forall_lookup in Hs, Hw. destruct (Hs i u Eu) as [?|Ha]; [done|].
    by destruct (Hw i u Eu Ha).
Qed.

#[export] Instance sctp_laws : MonitorLaws sctp_code sctp_inv.
Proof.
  refine {| macro_size := 6 |}.
  - intros []; simpl; lia.
  - intros []; by eexists.
  - intros a Ha. by destruct Ha as [[? _] _ _ _].
  - apply sctp_step.
  - apply sctp_live.
Defined.

Lemma sctp_initial s ps : sctp_running s = false -> Forall (fun l => brackets l = true) ps -> sctp_inv (astart s ps).
Proof.
  intros H0 Hps. split; simpl; [done| | |].
  - apply Forall_fmap. eapply Forall_impl; [exact Hps|]. intros l Hl. by left.
  - apply Forall_fmap, Forall_true. intros l [=].
  - rewrite H0, <- list_fmap_compose, list_fmap_id. unfold users. induction Hps as [|l ps Hl _ IH]; [done|]. csimpl. rewrite IH.
    by destruct l as [|[] l].
Qed.

(** One thread at a time runs an association, and each gets its turn: for all
    threads that bracket their work by RUN_SCTP and WAKE_SCTP, however their
    statements interleave and whatever the processing of timers does to the rest of
    the association, at most one thread is inside, no wakeup is lost (some thread
    can go on until all are done) and the number of steps is bounded. *)
Theorem sctp_run_exclusive s0 ps :
  sctp_running s0 = false -> Forall (fun l => brackets l = true) ps ->
  (forall n s, nsteps (step sctp_code) n (start s0 ps) s -> (n <= work sctp_code 6 (start s0 ps))%nat)
  /\ forall s, rtc (step sctp_code) (start s0 ps) s ->
     fault s = false /\ (users (todo <$> threads s) <= 1)%nat
     /\ (owner s = None -> (sctp_running (data s) = true <-> users (todo <$> threads s) = 1%nat))
     /\ (Forall (fun t => todo t = []) (threads s) \/ exists s', step sctp_code s s').
Proof.
  intros H0 Hps. pose proof (sctp_initial s0 ps H0 Hps) as Hi. split; [intros n s H; exact (monitor_bounded sctp_code sctp_inv s0 ps n s H)|].
  intros s Hs. destruct (monitor_safe sctp_code sctp_inv s0 ps Hi s Hs) as (Hf & a & Ha & _ & Htodo & Hdata).
  pose proof (sctp_count a Ha) as Hc. rewrite <- Htodo in Hc. split; [done|]. split; [rewrite Hc; destruct (sctp_running (adata a)); lia|].
  split; [|by apply (monitor_progress sctp_code sctp_inv s0 ps Hi s)].
  intros Eo. destruct (Hdata Eo) as [-> _]. rewrite Hc. by destruct (sctp_running (adata a)).
Qed.
End Sctp.

Definition two_runners : list (list sctp_op) := [[Run; Wake]; [Run; Wake; Run; Wake]].
Definition second_in : mstate := MState (Sctp true 5) None false false [Thread None [] false; Thread None [Wake; Run; Wake] false].
Lemma two_runners_run :
  run (sctp_code (fun r : Z => r =? 4) (fun r => r + 1)) [0;0;0;0;0; 1;1;1; 0;0;0;0;0;0;0; 1;1;1;1]%nat (start (Sctp false 4) two_runners) = Some second_in.
Proof. vm_compute. reflexivity. Qed.
Lemma sctp_run_exclusive_witness : fault second_in = false /\ (users (todo <$> threads second_in) <= 1)%nat.
Proof.
  destruct (sctp_run_exclusive (fun r : Z => r =? 4) (fun r => r + 1) (Sctp false 4) two_runners eq_refl ltac:(repeat constructor)) as [_ H].
  destruct (H second_in (mon_run_rtc _ _ _ _ two_runners_run)) as (? & ? & _). done.
Defined.
