(* ===== verification/LockedRef.v ===== *)
(** * Reference counts under a mutex

    Counts that the macros of kernel headers change with a mutex held: the
    neighbour cache entries of [src/include/inet/ip_ndp.h], whose last reference
    frees the entry with its mutex; the adapters, paths and ipc
    information of [src/include/sys/rsm/rsmka_path_int.h] and the terminal of
    a session of [src/include/sys/session.h], which outlive their references; the
    walkers of multicast memberships of [src/include/inet/ip.h].  What a section
    of these macros does is the class [CountedLaws]; the theorems are proved
    against it, on threads that execute the statements ([Monitor]). *)
From S2P Require Import Prelude Monitor.
From stdpp Require Import relations.
#[local] Open Scope Z_scope.

(** ** The macros *)

(** [cv_signal]: the threads that wait for these conditions do it in functions
    that are not in the tree. *)
Definition cv_signal : stmt Z := cv_broadcast.
(** A macro whose caller has the mutex; its [ASSERT(MUTEX_HELD)] is what the
    machine checks at every assignment. *)
Definition with_lock (s : stmt Z) : code Z := macro (mutex_enter ;; s ;; mutex_exit)%stmt.

Section Ndp.
Local Open Scope stmt_scope.
Definition NCE_REFHOLD : code Z := macro
  (mutex_enter ;; assign (fun n => u32 (n + 1)) ;; ASSERT (fun n => negb (n =? 0)) ;; mutex_exit).
Definition NCE_REFHOLD_NOTR : code Z := macro
  (mutex_enter ;; assign (fun n => u32 (n + 1)) ;; ASSERT (fun n => negb (n =? 0)) ;; mutex_exit).
Definition NCE_REFHOLD_LOCKED : stmt Z := assign (fun n => u32 (n + 1)).
(** [ndp_inactive] frees the entry and its mutex. *)
Definition NCE_REFRELE : code Z := macro
  (mutex_enter ;; ASSERT (fun n => negb (n =? 0)) ;; assign (fun n => u32 (n - 1)) ;;
   if_else (fun n => n =? 0) destroy mutex_exit).
Definition NCE_REFRELE_NOTR : code Z := macro
  (mutex_enter ;; ASSERT (fun n => negb (n =? 0)) ;; assign (fun n => u32 (n - 1)) ;;
   if_else (fun n => n =? 0) destroy mutex_exit).
End Ndp.

Section Rsm.
Local Open Scope stmt_scope.
Definition ADAPTER_HOLD : code Z := macro
  (mutex_enter ;; assign (fun n => n + 1) ;; ASSERT (fun n => negb (n =? 0)) ;; mutex_exit).
Definition ADAPTER_RELE : code Z := macro
  (mutex_enter ;; assign (fun n => n - 1) ;; ASSERT (fun n => 0 <=? n) ;; mutex_exit).
Definition ADAPTER_RELE_NOLOCK : stmt Z := assign (fun n => n - 1) ;; ASSERT (fun n => 0 <=? n).
Definition PATH_HOLD : code Z := macro
  (mutex_enter ;; assign (fun n => n + 1) ;; ASSERT (fun n => negb (n =? 0)) ;; mutex_exit).
Definition PATH_HOLD_NOLOCK : stmt Z := assign (fun n => n + 1) ;; ASSERT (fun n => negb (n =? 0)).
Definition PATH_RELE : code Z := macro
  (mutex_enter ;; assign (fun n => n - 1) ;; ASSERT (fun n => 0 <=? n) ;;
   if_ (fun n => n =? 0) cv_signal ;; mutex_exit).
Definition PATH_RELE_NOLOCK : stmt Z :=
  assign (fun n => n - 1) ;; ASSERT (fun n => 0 <=? n) ;; if_ (fun n => n =? 0) cv_signal.
Definition IPCINFO_HOLD : code Z := macro
  (mutex_enter ;; assign (fun n => n + 1) ;; ASSERT (fun n => negb (n =? 0)) ;; mutex_exit).
Definition IPCINFO_HOLD_NOLOCK : stmt Z := assign (fun n => n + 1) ;; ASSERT (fun n => negb (n =? 0)).
Definition IPCINFO_RELE : code Z := macro
  (mutex_enter ;; assign (fun n => n - 1) ;; ASSERT (fun n => 0 <=? n) ;; mutex_exit).
Definition IPCINFO_RELE_NOLOCK : stmt Z := assign (fun n => n - 1) ;; ASSERT (fun n => 0 <=? n).
End Rsm.

Section Other.
Local Open Scope stmt_scope.
Definition TTY_HOLD : code Z := macro (mutex_enter ;; assign (fun n => n + 1) ;; mutex_exit).
Definition TTY_RELE : code Z := macro
  (mutex_enter ;; assign (fun n => n - 1) ;; if_ (fun n => n =? 0) cv_signal ;; mutex_exit).
Definition ILM_WALKER_HOLD : code Z := macro (mutex_enter ;; assign (fun n => u32 (n + 1)) ;; mutex_exit).
(** [ilm_walker_cleanup] takes marked memberships off a list; it does not touch
    the count.  [reqd]: [ill_ilm_cleanup_reqd]. *)
Definition ILM_WALKER_RELE (reqd : bool) : code Z := macro
  (mutex_enter ;; assign (fun n => u32 (n - 1)) ;; if_ (fun n => (n =? 0) && reqd) skip ;; mutex_exit).
End Other.

(** ** Counted objects *)

(** The macros that take a reference and those that drop one; whether the last
    one frees the object; the width of the count. *)
Record counted := Counted {
  hold : code Z; holds : list (code Z); rele : code Z; reles : list (code Z); frees : bool; width : Z }.

Definition nce : counted :=
  Counted NCE_REFHOLD [NCE_REFHOLD_NOTR; with_lock NCE_REFHOLD_LOCKED] NCE_REFRELE [NCE_REFRELE_NOTR] true 32.
Definition adapter : counted := Counted ADAPTER_HOLD [] ADAPTER_RELE [with_lock ADAPTER_RELE_NOLOCK] false 31.
Definition path : counted :=
  Counted PATH_HOLD [with_lock PATH_HOLD_NOLOCK] PATH_RELE [with_lock PATH_RELE_NOLOCK] false 31.
Definition ipc_info : counted :=
  Counted IPCINFO_HOLD [with_lock IPCINFO_HOLD_NOLOCK] IPCINFO_RELE [with_lock IPCINFO_RELE_NOLOCK] false 31.
Definition tty : counted := Counted TTY_HOLD [] TTY_RELE [] false 31.
Definition ilm_walkers : counted := Counted ILM_WALKER_HOLD [] (ILM_WALKER_RELE true) [ILM_WALKER_RELE false] false 32.

(** What a section of a macro does with the count [n]. *)
Definition hold_ok (w : Z) (c : code Z) : Prop :=
  (nstmts c <= 8)%nat /\ exists k, c = Mutex_enter k /\ section k = true
  /\ forall i n, 0 <= n -> n + 1 < 2 ^ w -> sect i k n false = Left (n + 1) false false.
Definition rele_ok (fr : bool) (w : Z) (c : code Z) : Prop :=
  (nstmts c <= 8)%nat /\ exists k, c = Mutex_enter k /\ section k = true
  /\ forall i n, 0 < n < 2 ^ w -> exists b, sect i k n false = Left (n - 1) b (fr && (n - 1 =? 0)).

Class CountedLaws (c : counted) : Prop := {
  holds_ok : Forall (hold_ok (width c)) (hold c :: holds c);
  reles_ok : Forall (rele_ok (frees c) (width c)) (rele c :: reles c) }.

Ltac section_tac :=
  (split; [simpl; lia|]); eexists; (split; [reflexivity|]); (split; [reflexivity|]); intros i n Hn; intros;
  cbn -[Z.pow] in *; rewrite ?wrapu_id by (unfold in_u; lia);
  repeat match goal with
    | |- context [?a =? ?b] => destruct (Z.eqb_spec a b); try lia; cbn [negb andb]
    | |- context [?a <=? ?b] => destruct (Z.leb_spec a b); try lia; cbn [negb andb]
    end; eauto.

#[export] Instance nce_laws : CountedLaws nce.
Proof. split; repeat (apply Forall_cons_2 || apply Forall_nil_2); section_tac. Qed.
#[export] Instance adapter_laws : CountedLaws adapter.
Proof. split; repeat (apply Forall_cons_2 || apply Forall_nil_2); section_tac. Qed.
#[export] Instance path_laws : CountedLaws path.
Proof. split; repeat (apply Forall_cons_2 || apply Forall_nil_2); section_tac. Qed.
#[export] Instance ipc_info_laws : CountedLaws ipc_info.
Proof. split; repeat (apply Forall_cons_2 || apply Forall_nil_2); section_tac. Qed.
#[export] Instance tty_laws : CountedLaws tty.
Proof. split; repeat (apply Forall_cons_2 || apply Forall_nil_2); section_tac. Qed.
#[export] Instance ilm_walkers_laws : CountedLaws ilm_walkers.
Proof. split; repeat (apply Forall_cons_2 || apply Forall_nil_2); section_tac. Qed.

Definition counted_objects : list counted := [nce; adapter; path; ipc_info; tty; ilm_walkers].

Lemma locked_counted_laws c : c ∈ counted_objects -> CountedLaws c.
Proof. unfold counted_objects. rewrite !elem_of_cons, elem_of_nil. intros H. destruct_or! H; subst; (done || apply _). Qed.

(** ** Threads that use a counted object *)
Inductive ref_op := Hold (v : nat) | Rele (v : nat).

Section Counting.
Context (c : counted) `{!CountedLaws c}.

Definition ref_code (o : ref_op) : code Z :=
  match o with
  | Hold v => default (hold c) (holds c !! v)
  | Rele v => default (rele c) (reles c !! v)
  end.

(** The discipline of the callers: a thread drops a reference only when it has
    one, takes one of an object that can be freed only when it has one, and
    keeps none in the end. *)
Fixpoint disciplined (h : nat) (l : list ref_op) : bool :=
  match l with
  | [] => (h =? 0)%nat
  | Hold _ :: l => (negb (frees c) || (0 <? h)%nat) && disciplined (S h) l
  | Rele _ :: l => (0 <? h)%nat && disciplined (pred h) l
  end.

(** The references a thread has, from what is left to do. *)
Fixpoint refs (l : list ref_op) : nat :=
  match l with [] => 0 | Hold _ :: l => pred (refs l) | Rele _ :: l => S (refs l) end.
Definition total (ls : list (list ref_op)) : nat := sum_list (refs <$> ls).

Lemma disciplined_refs h l : disciplined h l = true -> refs l = h.
Proof.
  revert h. induction l as [|[v|v] l IH]; intros h H; simpl in *.
  - by apply Nat.eqb_eq in H.
  - apply andb_true_iff in H as [_ H]. by rewrite (IH _ H).
  - apply andb_true_iff in H as [H0 H]. apply Nat.ltb_lt in H0. rewrite (IH _ H). lia.
Qed.

Lemma refs_length l : (refs l <= length l)%nat.
Proof. induction l as [|[] l IH]; simpl; lia. Qed.

Lemma total_length ls : (total ls <= sum_list (length <$> ls))%nat.
Proof. unfold total. induction ls as [|l ls IH]; csimpl; [done|]. pose proof (refs_length l). lia. Qed.

Record ref_inv (a : astate (D := Z) (op := ref_op)) : Prop := {
  ref_ok : afault a = false;
  ref_disciplined : Forall (fun u => disciplined (refs (atodo u)) (atodo u) = true /\ aasleep u = false) (athreads a);
  ref_bound : Z.of_nat (sum_list (length <$> (atodo <$> athreads a))) < 2 ^ width c;
  ref_count : adata a = Z.of_nat (total (atodo <$> athreads a));
  ref_dead : adead a = frees c && (adata a =? 0) }.

(** Without a reference to an object that can be freed there is nothing to do. *)
Lemma no_refs_done l : frees c = true -> disciplined (refs l) l = true -> refs l = 0%nat -> l = [].
Proof. intros Hf H H0. rewrite H0 in H. destruct l as [|[] l]; simpl in H; rewrite ?Hf in H; done. Qed.

Lemma ref_step i a a' : ref_inv a -> aexec ref_code i a = Some a' -> ref_inv a'.
Proof.
  intros [Hf Hdis Hb Hc Hdead] E.
  assert (forall v, hold_ok (width c) (ref_code (Hold v))) as Hhold.
  { intros v. simpl. pose proof (proj1 (Forall_cons _ _ _) holds_ok) as [H0 Hs].
    destruct (holds c !! v) as [k|] eqn:Ev; [|done]. by eapply (proj1 (Forall_lookup _ _) Hs v). }
  assert (forall v, rele_ok (frees c) (width c) (ref_code (Rele v))) as Hrele.
  { intros v. simpl. pose proof (proj1 (Forall_cons _ _ _) reles_ok) as [H0 Hs].
    destruct (reles c !! v) as [k|] eqn:Ev; [|done]. by eapply (proj1 (Forall_lookup _ _) Hs v). }
  apply aexec_inv in E as (u & o & os & k & Eu & Ea & Eo & Ek & Hcase); [| |done].
  2: { intros [v|v]; [destruct (Hhold v) as (_ & k & ? & ? & _)|destruct (Hrele v) as (_ & k & ? & ? & _)]; eauto. }
  pose proof (proj1 (Forall_lookup _ _) Hdis i u Eu) as [Hdu _]. rewrite Eo in Hdu.
  assert ((atodo <$> athreads a) !! i = Some (o :: os)) as El by (by rewrite list_lookup_fmap, Eu, <- Eo).
  pose proof (sum_insert refs _ _ _ os El) as Hsum. pose proof (sum_le refs _ _ _ El) as Hle.
  pose proof (sum_insert length _ _ _ os El) as Hlen. pose proof (total_length (<[i := os]> (atodo <$> athreads a))) as Htl.
  fold (total (atodo <$> athreads a)) in Hsum, Hle. fold (total (<[i := os]> (atodo <$> athreads a))) in Hsum.
  cbn [length] in Hlen.
  assert (adead a = false) as Hnd.
  { rewrite Hdead. destruct (frees c) eqn:Efr; [|done]. simpl. apply Z.eqb_neq. intros H0.
    assert (refs (o :: os) = 0%nat) as Hz by lia. by pose proof (no_refs_done _ Efr Hdu Hz). }
  rewrite Hnd in Hcase. destruct Hcase as [[[=] _]|[_ Hcase]].
  assert (forall d w, d = Z.of_nat (total (<[i := os]> (atodo <$> athreads a))) -> disciplined (refs os) os = true ->
    ref_inv (AState d (frees c && (d =? 0)) false (<[i := AThread os false]> (awake w <$> athreads a)))) as Hmove.
  { intros d w Hd Hos. assert (atodo <$> <[i := AThread os false]> (awake w <$> athreads a) = <[i := os]> (atodo <$> athreads a)) as Hls
      by (by rewrite list_fmap_insert, todo_awake).
    split; cbn [afault adata adead athreads]; rewrite ?Hls; [done| |lia|done|done].
    apply Forall_insert; [|done]. apply Forall_fmap. eapply Forall_impl; [exact Hdis|].
    intros v [? Hv]. simpl. by rewrite Hv. }
  destruct o as [v|v]; cbn [disciplined] in Hdu; apply andb_true_iff in Hdu as [Hpos Hdu]; pose proof (disciplined_refs _ _ Hdu) as Hr;
    simpl refs in *.
  - destruct (Hhold v) as (_ & k' & Hk' & _ & Hs). rewrite Ek in Hk'. injection Hk' as <-.
    rewrite Hs in Hcase by lia. subst a'.
    assert (frees c && (adata a + 1 =? 0) = false) as Hz.
    { rewrite (proj2 (Z.eqb_neq _ _)) by lia. by rewrite andb_false_r. }
    rewrite <- Hz at 1. apply Hmove; [lia|]. by rewrite Hr at 1.
  - destruct (Hrele v) as (_ & k' & Hk' & _ & Hs). rewrite Ek in Hk'. injection Hk' as <-.
    destruct (Hs i (adata a)) as [b Hb']; [lia|]. rewrite Hb' in Hcase. subst a'. apply Hmove; [lia|]. by rewrite Hr at 1.
Qed.

#[export] Instance ref_monitor : MonitorLaws ref_code ref_inv.
Proof.
  assert (forall o, (nstmts (ref_code o) <= 8)%nat /\ exists k, ref_code o = Mutex_enter k /\ section k = true) as Hok.
  { pose proof (proj1 (Forall_cons _ _ _) holds_ok) as [H0 Hs]. pose proof (proj1 (Forall_cons _ _ _) reles_ok) as [R0 Rs].
    intros [v|v]; simpl.
    - assert (hold_ok (width c) (default (hold c) (holds c !! v))) as (? & k & ? & ? & _); [|eauto].
      destruct (holds c !! v) as [k|] eqn:Ev; [|done]. by eapply (proj1 (Forall_lookup _ _) Hs v).
    - assert (rele_ok (frees c) (width c) (default (rele c) (reles c !! v))) as (? & k & ? & ? & _); [|eauto].
      destruct (reles c !! v) as [k|] eqn:Ev; [|done]. by eapply (proj1 (Forall_lookup _ _) Rs v). }
  refine {| macro_size := 8 |}.
  - intros o. apply Hok.
  - intros o. apply Hok.
  - intros a Ha. by apply ref_ok.
  - apply ref_step.
  - intros a Ha Hs. apply Forall_lookup. intros i u Eu. rewrite Forall_lookup in Hs.
    destruct (Hs i u Eu) as [?|H]; [done|]. destruct (proj1 (Forall_lookup _ _) (ref_disciplined a Ha) i u Eu) as [_ H'].
    by rewrite H in H'.
Defined.

(** The threads at the start: the count is the number of their references, of
    which there is one at least if the object can be freed. *)
Definition users (n : Z) (ps : list (list ref_op)) : Prop :=
  Forall (fun l => disciplined (refs l) l = true) ps /\ Z.of_nat (sum_list (length <$> ps)) < 2 ^ width c
  /\ n = Z.of_nat (total ps) /\ (frees c = true -> 0 < n).

Lemma ref_initial n ps : users n ps -> ref_inv (astart n ps).
Proof.
  intros (Hd & Hb & Hn & H0).
  assert (atodo <$> athreads (astart n ps) = ps) as Hls by (simpl; by rewrite <- list_fmap_compose, list_fmap_id).
  split; rewrite ?Hls; try done.
  - simpl. apply Forall_fmap. eapply Forall_impl; [exact Hd|]. done.
  - simpl. destruct (frees c); [|done]. simpl. symmetry. apply Z.eqb_neq. specialize (H0 eq_refl). lia.
Qed.
End Counting.

(** ** The theorems *)

(** C10: counts under a mutex are right.  For every object above and however its
    users interleave the statements of the macros, no assertion fails, the count
    is used under the mutex only and never after the object was freed; whenever
    the mutex is free the count is the number of references the threads have,
    without wrapping; an object that the last reference frees has been freed
    exactly if none is left, and then no thread has anything to do. *)
Theorem locked_ref_safe c n ps s :
  c ∈ counted_objects -> users c n ps -> rtc (step (ref_code c)) (start n ps) s ->
  fault s = false
  /\ (owner s = None ->
      data s = Z.of_nat (total (todo <$> threads s)) /\ in_u (width c) (data s)
      /\ dead s = frees c && (data s =? 0)
      /\ (dead s = true -> Forall (fun t => todo t = []) (threads s))).
Proof.
  intros Hin Hu Hr. assert (CountedLaws c) as Hlaws by (by apply locked_counted_laws).
  destruct (monitor_safe (ref_code c) (ref_inv c) n ps (ref_initial c n ps Hu) s Hr) as (Hf & a & Ha & _ & Htodo & Hdata).
  split; [done|]. intros Eo. destruct (Hdata Eo) as [-> ->]. destruct Ha as [_ Hdis Hb Hc Hdead]. rewrite Htodo.
  split; [done|]. split.
  { pose proof (total_length (atodo <$> athreads a)). unfold in_u. lia. }
  split; [done|]. intros Hd. rewrite Hdead in Hd. apply andb_true_iff in Hd as [Hfr H0]. apply Z.eqb_eq in H0.
  apply (Forall_fmap todo (fun l => l = [])). rewrite Htodo. apply Forall_fmap, Forall_lookup. intros i u Eu. simpl.
  destruct (proj1 (Forall_lookup _ _) Hdis i u Eu) as [Hdu _]. apply (no_refs_done c); [done|done|].
  assert ((atodo <$> athreads a) !! i = Some (atodo u)) as El by (by rewrite list_lookup_fmap, Eu).
  pose proof (sum_le refs _ _ _ El) as Hle. fold (total (atodo <$> athreads a)) in Hle. lia.
Qed.

(** Every run of the users ends with all references dropped. *)
Theorem locked_ref_completes c n ps :
  c ∈ counted_objects -> users c n ps ->
  (forall k s, nsteps (step (ref_code c)) k (start n ps) s -> (k <= work (ref_code c) 8 (start n ps))%nat)
  /\ forall s, rtc (step (ref_code c)) (start n ps) s ->
     Forall (fun t => todo t = []) (threads s) \/ exists s', step (ref_code c) s s'.
Proof.
  intros Hin Hu. assert (CountedLaws c) as Hlaws by (by apply locked_counted_laws).
  pose proof (ref_initial c n ps Hu) as Hi. split; [intros k s H|intros s Hs].
  - exact (monitor_bounded (ref_code c) (ref_inv c) n ps k s H).
  - by apply (monitor_progress (ref_code c) (ref_inv c) n ps Hi s).
Qed.

Definition two_holders : list (list ref_op) := [[Hold 1; Rele 0; Rele 0]; [Rele 7]].
Definition all_dropped : mstate (op := ref_op) := MState 0 None true false [Thread None [] false; Thread None [] false].
Definition ref_schedule : list nat := [0;0;0;0; 1;1;1;1;1;1; 0;0;0;0;0;0; 0;0;0;0;0;0]%nat.

Lemma two_holders_run : run (ref_code nce) ref_schedule (start 2 two_holders) = Some all_dropped.
Proof. vm_compute. reflexivity. Qed.

Lemma two_holders_ok : users nce 2 two_holders.
Proof. split; [repeat constructor|]. split; [done|]. split; [done|]. done. Qed.

Lemma locked_ref_safe_witness : fault all_dropped = false /\ dead all_dropped = true && (data all_dropped =? 0).
Proof.
  destruct (locked_ref_safe nce 2 two_holders all_dropped ltac:(apply list_elem_of_here) two_holders_ok
    (mon_run_rtc _ _ _ _ two_holders_run)) as [Hf H].
  split; [exact Hf|]. destruct (H eq_refl) as (_ & _ & Hd & _). by rewrite Hd.
Defined.

Lemma locked_ref_completes_witness :
  Forall (fun t => todo t = []) (threads all_dropped) \/ exists s', step (ref_code nce) all_dropped s'.
Proof.
  apply (locked_ref_completes nce 2 two_holders ltac:(apply list_elem_of_here) two_holders_ok).
  exact (mon_run_rtc _ _ _ _ two_holders_run).
Defined.
