(* ===== verification/BufCache.v ===== *)
(** * The buffer cache's lists: sys/buf.h

    [binshash], [bremhash] and [notavail] of [src/include/sys/buf.h] on a store
    of buffers.  A buffer has two pairs of links: it is on the hash chain of a
    bucket, and, unless it is busy, on the list of available buffers of one.  A
    bucket's header ([hbuf]) is used as a buffer; the comment of the header
    requires the links of both structures, and of [dwbuf], to be at the same
    offset. *)
From S2P Require Import Prelude DList.
From stdpp Require Import gmap.
#[local] Open Scope Z_scope.
#[local] Open Scope c_scope.

Definition B_BUSY : Z := 0x0001.

(** A buffer: flags, links (NULL is [None]) and whether [b_sem] is held.  The
    macros use no other member. *)
Record buf := Buf {
  b_flags : Z; b_forw : option Z; b_back : option Z; av_forw : option Z; av_back : option Z; b_sem : bool }.
Abbreviation store := (gmap Z buf).

Definition set_b_forw x b := Buf (b_flags b) x (b_back b) (av_forw b) (av_back b) (b_sem b).
Definition set_b_back x b := Buf (b_flags b) (b_forw b) x (av_forw b) (av_back b) (b_sem b).
Definition set_av_forw x b := Buf (b_flags b) (b_forw b) (b_back b) x (av_back b) (b_sem b).
Definition set_av_back x b := Buf (b_flags b) (b_forw b) (b_back b) (av_forw b) x (b_sem b).
Definition or_flags f b := Buf (b_flags b .| f) (b_forw b) (b_back b) (av_forw b) (av_back b) (b_sem b).

Definition upd (bp : Z) (f : buf -> buf) (h : store) : option store := b ← h !! bp; Some (<[bp := f b]> h).

Definition hash_links : DList store Z := {|
  nextp h a := h !! a ≫= b_forw; prevp h a := h !! a ≫= b_back;
  set_nextp a x := upd a (set_b_forw x); set_prevp a x := upd a (set_b_back x) |}.
Definition av_links : DList store Z := {|
  nextp h a := h !! a ≫= av_forw; prevp h a := h !! a ≫= av_back;
  set_nextp a x := upd a (set_av_forw x); set_prevp a x := upd a (set_av_back x) |}.

Definition is_null (p : option Z) : bool := match p with None => true | Some _ => false end.
Definition guard (b : bool) (h : store) : option store := if b then Some h else None.

Definition bremhash (bp : Z) (h : store) : option store :=
  b ← h !! bp;
  h ← guard (negb (is_null (b_forw b)) && negb (is_null (b_back b))) h;
  h ← unlink_back hash_links bp h;
  h ← upd bp (set_b_back None) h; upd bp (set_b_forw None) h.

Definition binshash (bp dp : Z) (h : store) : option store :=
  b ← h !! bp; d ← h !! dp;
  h ← guard (is_null (b_forw b) && is_null (b_back b) && negb (is_null (b_forw d)) && negb (is_null (b_back d))) h;
  link_after hash_links dp bp h.

Definition notavail (bp : Z) (h : store) : option store :=
  b ← h !! bp;
  h ← guard (b_sem b && negb (is_null (av_forw b)) && negb (is_null (av_back b))
       && negb (bool_decide (av_forw b = Some bp)) && negb (bool_decide (av_back b = Some bp))) h;
  h ← unlink_back av_links bp h;
  h ← upd bp (or_flags B_BUSY) h;
  h ← upd bp (set_av_back None) h; upd bp (set_av_forw None) h.

(** ** Frames *)
Lemma upd_Some bp f h b : h !! bp = Some b -> upd bp f h = Some (<[bp := f b]> h).
Proof. intros E. unfold upd. by rewrite E. Qed.

Ltac buf_cells :=
  refine {| cell h k := is_Some (h !! k) |}; simpl;
  [ intros h k y E; apply bind_Some in E as (b & ? & _); by exists b
  | intros h k y E; apply bind_Some in E as (b & ? & _); by exists b
  | intros h k x [b Hb]; rewrite (upd_Some _ _ _ _ Hb); eexists; (split; [reflexivity|]);
    (split_and!; intros j; destruct (decide (j = k)) as [->|Hne];
     rewrite ?lookup_insert_eq, ?lookup_insert_ne, ?Hb by done; done)
  | intros h k x [b Hb]; rewrite (upd_Some _ _ _ _ Hb); eexists; (split; [reflexivity|]);
    (split_and!; intros j; destruct (decide (j = k)) as [->|Hne];
     rewrite ?lookup_insert_eq, ?lookup_insert_ne, ?Hb by done; done) ].
#[export] Instance hash_cells : DListCells hash_links.
Proof. buf_cells. Defined.
#[export] Instance av_cells : DListCells av_links.
Proof. buf_cells. Defined.

Lemma hash_cell h x b : h !! x = Some b -> cell (D := hash_links) h x.
Proof. intros E. by exists b. Qed.
Lemma av_cell h x b : h !! x = Some b -> cell (D := av_links) h x.
Proof. intros E. by exists b. Qed.

(** What an operation on the hash chains (on the available lists) leaves. *)
Definition same (p : buf -> Z * option Z * option Z * bool) (h h' : store) : Prop := forall x, p <$> h' !! x = p <$> h !! x.
Definition av_part (b : buf) := (b_flags b, av_forw b, av_back b, b_sem b).
Definition hash_part (b : buf) := (b_flags b, b_forw b, b_back b, b_sem b).

#[export] Instance same_preorder p : PreOrder (same p).
Proof. split; [done|]. intros h1 h2 h3 H12 H23 x. by rewrite H23, H12. Qed.

Lemma upd_same p x f h h' : (forall b, p (f b) = p b) -> upd x f h = Some h' -> same p h h'.
Proof.
  intros Hp E. apply bind_Some in E as (b & Hb & [= <-]). intros y.
  destruct (decide (y = x)) as [->|Hne]; [by rewrite lookup_insert_eq, Hb; simpl; rewrite Hp|by rewrite lookup_insert_ne].
Qed.

Lemma same_av h h' : same av_part h h' ->
  forall j, nextp (DList := av_links) h' j = nextp (DList := av_links) h j
    /\ prevp (DList := av_links) h' j = prevp (DList := av_links) h j.
Proof. intros Hs j. specialize (Hs j). simpl. destruct (h' !! j), (h !! j); simplify_eq/=; done. Qed.
Lemma same_hash h h' : same hash_part h h' ->
  forall j, nextp (DList := hash_links) h' j = nextp (DList := hash_links) h j
    /\ prevp (DList := hash_links) h' j = prevp (DList := hash_links) h j.
Proof. intros Hs j. specialize (Hs j). simpl. destruct (h' !! j), (h !! j); simplify_eq/=; done. Qed.

(** Storing NULL into the links of a buffer that is on no list. *)
Lemma rings_clear (D : DList store Z) `{!DListCells D} (h h' : store) m x :
  rings D h m -> ~ on m x ->
  (forall j, j <> x -> nextp h' j = nextp h j /\ prevp h' j = prevp h j) -> rings D h' m.
Proof. intros Hr Hx Hj. eapply rings_agree; [|done]. intros j Hon. apply Hj. by intros ->. Qed.

(** ** The state of the cache *)

(** [C]: the hash chain of each header; [F]: its available buffers. *)
Record cache (h : store) (C F : gmap Z (list Z)) : Prop := {
  cache_hash : rings hash_links h C;
  cache_av : rings av_links h F;
  cache_idle x b : h !! x = Some b -> ~ on C x -> b_forw b = None /\ b_back b = None;
  cache_busy x b : h !! x = Some b -> F !! x = None -> (on F x <-> Z.testbit (b_flags b) 0 = false) }.

Inductive op := Ins (bp dp : Z) | Rem (bp : Z) | Take (bp : Z).
Definition exec (o : op) (h : store) : option store :=
  match o with Ins bp dp => binshash bp dp h | Rem bp => bremhash bp h | Take bp => notavail bp h end.
Fixpoint run (l : list op) (h : store) : option store :=
  match l with [] => Some h | o :: l => h ← exec o h; run l h end.

(** The same on lists. *)
Definition spec (o : op) (s : gmap Z (list Z) * gmap Z (list Z)) : gmap Z (list Z) * gmap Z (list Z) :=
  match o with
  | Ins bp dp => (alter (cons bp) dp s.1, s.2)
  | Rem bp => (take_off bp s.1, s.2)
  | Take bp => (s.1, take_off bp s.2)
  end.

(** A buffer goes on a chain when it is on none, and comes off a list it is on;
    who makes it busy holds its semaphore. *)
Definition allowed (h : store) (o : op) (s : gmap Z (list Z) * gmap Z (list Z)) : Prop :=
  match o with
  | Ins bp dp => is_Some (h !! bp) /\ ~ on s.1 bp /\ is_Some (s.1 !! dp)
  | Rem bp => exists a l, s.1 !! a = Some l /\ bp ∈ l
  | Take bp => (exists a l, s.2 !! a = Some l /\ bp ∈ l) /\ exists b, h !! bp = Some b /\ b_sem b = true
  end.
Fixpoint allowed_all (h : store) (l : list op) s : Prop :=
  match l with [] => True | o :: l => allowed h o s /\ allowed_all h l (spec o s) end.

(** Buffers and semaphores do not change. *)
Definition same_sems (h h' : store) : Prop := forall x, b_sem <$> h' !! x = b_sem <$> h !! x.

Lemma same_sem p h h' : (forall b b', p b = p b' -> b_sem b = b_sem b') -> same p h h' -> same_sems h h'.
Proof. intros Hp Hs x. specialize (Hs x). destruct (h' !! x), (h !! x); simplify_eq/=; try done. f_equal. by apply Hp. Qed.

Lemma same_cells p h h' x : same p h h' -> is_Some (h' !! x) <-> is_Some (h !! x).
Proof. intros Hs. specialize (Hs x). destruct (h' !! x), (h !! x); simplify_eq/=; split; intros [? ?]; by eauto. Qed.

Lemma cache_same_av h h' C C' F :
  cache h C F -> same av_part h h' -> rings hash_links h' C' ->
  (forall x b, h' !! x = Some b -> ~ on C' x -> b_forw b = None /\ b_back b = None) -> cache h' C' F.
Proof.
  intros [Hc Ha Hi Hb] Hs Hr Hidle. split; [done| |done|].
  - eapply rings_agree; [|exact Ha]. intros j _. by apply same_av.
  - intros x b' E' Hx. pose proof (Hs x) as Hsx. rewrite E' in Hsx. destruct (h !! x) as [b|] eqn:E; [|done].
    simplify_eq/=. rewrite (Hb x b E Hx). by replace (b_flags b') with (b_flags b) by (unfold av_part in *; congruence).
Qed.

Lemma binshash_ok h C F bp dp :
  cache h C F -> is_Some (h !! bp) -> ~ on C bp -> is_Some (C !! dp) ->
  exists h', binshash bp dp h = Some h' /\ cache h' (alter (cons bp) dp C) F /\ same_sems h h'.
Proof.
  intros Hcache [b Eb] Hon [l El]. pose proof Hcache as [Hc _ Hi _]. destruct (Hi bp b Eb Hon) as [Hf Hk].
  destruct (rings_ring _ _ _ Hc _ _ El) as [Hp _].
  destruct (path_first hash_links _ _ _ _ Hp) as (n & Nd & _). destruct (path_last hash_links _ _ _ _ Hp) as (p & Pd & _).
  simpl in Nd, Pd. destruct (h !! dp) as [d|] eqn:Ed; [|done]. simpl in Nd, Pd.
  destruct (rings_insert hash_links h C dp l bp Hc El (hash_cell _ _ _ Eb) Hon) as (h' & E & Hr & _ & Hframe).
  exists h'. split.
  { unfold binshash. rewrite Eb, Ed. cbn [mbind option_bind]. by rewrite Hf, Hk, Nd, Pd. }
  assert (same av_part h h') as Hs.
  { eapply (link_after_keeps hash_links (same av_part)); [..|exact E]; intros ???? H; (eapply upd_same; [|exact H]); done. }
  assert (alter (cons bp) dp C = <[dp := bp :: l]> C) as ->.
  { apply map_eq. intros a. destruct (decide (a = dp)) as [->|Hne].
    - by rewrite lookup_alter_eq, lookup_insert_eq, El.
    - by rewrite lookup_alter_ne, lookup_insert_ne. }
  split; [|by eapply (same_sem av_part); [unfold av_part; congruence|]]. eapply cache_same_av; try done.
  intros x b' E' Hx. assert (x <> bp) as Hxb.
  { intros ->. apply Hx. exists dp, (bp :: l). split; [apply lookup_insert_eq|right; by left]. }
  assert (~ on C x) as Hxc.
  { intros Ho. apply Hx. eapply on_ext; [|exact Ho]. intros a k Ea Hin. destruct (decide (a = dp)) as [->|Hne].
    - simplify_eq. exists (bp :: l). split; [apply lookup_insert_eq|]. rewrite !elem_of_cons in *. tauto.
    - exists k. by rewrite lookup_insert_ne. }
  destruct (Hframe x Hxb Hxc) as [Hn Hpv]. simpl in Hn, Hpv. rewrite E' in Hn, Hpv. simpl in Hn, Hpv.
  rewrite Hn, Hpv. destruct (h !! x) as [b0|] eqn:E0; [|done]. by apply (Hi x).
Qed.

Lemma bremhash_ok h C F bp a l :
  cache h C F -> C !! a = Some l -> bp ∈ l ->
  exists h', bremhash bp h = Some h' /\ cache h' (take_off bp C) F /\ same_sems h h'.
Proof.
  intros Hcache El Hin. pose proof Hcache as [Hc _ Hi _]. pose proof (rings_ring _ _ _ Hc _ _ El) as Hring.
  destruct (rings_remove hash_links h C a l bp Hc El Hin) as (h1 & E1 & Hr1 & _ & Hframe).
  apply list_elem_of_split in Hin as Hsp. destruct Hsp as (l1 & l2 & ->).
  destruct (ring_neighbours hash_links _ _ _ _ _ Hring) as (p & n & Pb & _ & Nb & _). simpl in Pb, Nb.
  destruct (h !! bp) as [b|] eqn:Eb; [|done]. simpl in Pb, Nb.
  assert (same av_part h h1) as Hs1.
  { eapply (unlink_back_keeps hash_links (same av_part)); [..|exact E1]; intros ???? H; (eapply upd_same; [|exact H]); done. }
  destruct (proj2 (same_cells _ _ _ bp Hs1) ltac:(by exists b)) as [b1 Eb1].
  pose proof (upd_Some bp (set_b_back None) h1 b1 Eb1) as E2.
  pose proof (upd_Some bp (set_b_forw None) (<[bp := set_b_back None b1]> h1) _ (lookup_insert_eq _ _ _)) as E3.
  rewrite insert_insert_eq in E3. eexists. split.
  { unfold bremhash. rewrite Eb. cbn [mbind option_bind]. rewrite Nb, Pb. cbn [is_null negb andb guard mbind option_bind].
    rewrite E1. cbn [mbind option_bind]. rewrite E2. cbn [mbind option_bind]. exact E3. }
  pose proof (take_off_off C a _ bp (rings_apart _ _ _ Hc) El Hin (proj2 Hring)) as Hoff.
  set (h' := <[bp := set_b_forw None (set_b_back None b1)]> h1).
  assert (same av_part h h') as Hs.
  { transitivity h1; [done|]. intros x. subst h'. destruct (decide (x = bp)) as [->|Hne];
      [by rewrite lookup_insert_eq, Eb1|by rewrite lookup_insert_ne]. }
  split; [|by eapply (same_sem av_part); [unfold av_part; congruence|]]. eapply cache_same_av; try done.
  - eapply (rings_clear hash_links h1 h' _ bp); [done|done|]. intros j Hj. subst h'. simpl. by rewrite lookup_insert_ne.
  - intros x b' E' Hx. destruct (decide (x = bp)) as [->|Hne].
    { subst h'. rewrite lookup_insert_eq in E'. by simplify_eq. }
    subst h'. rewrite lookup_insert_ne in E' by done.
    assert (~ on C x) as Hxc by (intros Ho; apply Hx; by apply take_off_keep).
    destruct (Hframe x (or_intror Hxc)) as [Hn Hpv]. simpl in Hn, Hpv. rewrite E' in Hn, Hpv. simpl in Hn, Hpv.
    rewrite Hn, Hpv. destruct (h !! x) as [b0|] eqn:E0; [|done]. by apply (Hi x).
Qed.

Lemma notavail_ok h C F bp a l b :
  cache h C F -> F !! a = Some l -> bp ∈ l -> h !! bp = Some b -> b_sem b = true ->
  exists h', notavail bp h = Some h' /\ cache h' C (take_off bp F) /\ same_sems h h'.
Proof.
  intros [Hc Ha Hi Hb] El Hin Eb Hsem. pose proof (rings_ring _ _ _ Ha _ _ El) as Hring.
  destruct (rings_remove av_links h F a l bp Ha El Hin) as (h1 & E1 & Hr1 & _ & Hframe).
  apply list_elem_of_split in Hin as Hsp. destruct Hsp as (l1 & l2 & ->).
  destruct (ring_neighbours av_links _ _ _ _ _ Hring) as (p & n & Pb & _ & Nb & _ & Hpb & Hnb & _). simpl in Pb, Nb.
  rewrite Eb in Pb, Nb. simpl in Pb, Nb.
  assert (same hash_part h h1) as Hs1.
  { eapply (unlink_back_keeps av_links (same hash_part)); [..|exact E1]; intros ???? H; (eapply upd_same; [|exact H]); done. }
  destruct (proj2 (same_cells _ _ _ bp Hs1) ltac:(by exists b)) as [b1 Eb1].
  set (b' := set_av_forw None (set_av_back None (or_flags B_BUSY b1))).
  exists (<[bp := b']> h1). split.
  { unfold notavail. rewrite Eb. cbn [mbind option_bind]. rewrite Hsem, Nb, Pb. cbn [is_null negb andb].
    rewrite !bool_decide_eq_false_2 by congruence. cbn [negb andb guard mbind option_bind]. rewrite E1. cbn [mbind option_bind].
    rewrite (upd_Some _ _ _ _ Eb1). cbn [mbind option_bind]. rewrite (upd_Some _ _ _ _ (lookup_insert_eq _ _ _)).
    cbn [mbind option_bind]. rewrite (upd_Some _ _ _ _ (lookup_insert_eq _ _ _)). by rewrite !insert_insert_eq. }
  pose proof (take_off_off F a _ bp (rings_apart _ _ _ Ha) El Hin (proj2 Hring)) as Hoff.
  pose proof (Hs1 bp) as Hbp. rewrite Eb, Eb1 in Hbp. simpl in Hbp. unfold hash_part in Hbp.
  assert (forall x c', x <> bp -> h1 !! x = Some c' -> exists c, h !! x = Some c /\ hash_part c = hash_part c') as Hback.
  { intros x c' _ E. pose proof (Hs1 x) as Hx. rewrite E in Hx. destruct (h !! x) as [c|]; [|done].
    exists c. split; [done|]. simpl in Hx. congruence. }
  split; [split|].
  - eapply rings_agree; [|exact Hc]. intros j _. destruct (same_hash _ _ Hs1 j) as [Hn Hp]. rewrite <- Hn, <- Hp. simpl.
    destruct (decide (j = bp)) as [->|Hne]; [by rewrite lookup_insert_eq, Eb1|by rewrite lookup_insert_ne].
  - eapply (rings_clear av_links h1 _ _ bp); [done|done|]. intros j Hj. simpl. by rewrite lookup_insert_ne.
  - intros x c' E Hx. destruct (decide (x = bp)) as [->|Hne].
    + rewrite lookup_insert_eq in E. simplify_eq/=. destruct (Hi bp b Eb Hx). simplify_eq. split; congruence.
    + rewrite lookup_insert_ne in E by done. destruct (Hback x c' Hne E) as (c & Ec & Hpart). unfold hash_part in Hpart.
      destruct (Hi x c Ec Hx). split; congruence.
  - intros x c' E Hx. unfold take_off in Hx. rewrite lookup_fmap in Hx. destruct (F !! x) eqn:EF; [done|].
    destruct (decide (x = bp)) as [->|Hne].
    + rewrite lookup_insert_eq in E. simplify_eq. split; [done|].
      cbn [set_av_forw set_av_back or_flags b_flags]. rewrite Z.lor_spec. change (Z.testbit B_BUSY 0) with true.
      by rewrite orb_true_r.
    + rewrite lookup_insert_ne in E by done. destruct (Hback x c' Hne E) as (c & Ec & Hpart). unfold hash_part in Hpart.
      replace (b_flags c') with (b_flags c) by congruence. rewrite <- (Hb x c Ec EF).
      split; [apply take_off_on|by apply take_off_keep].
  - intros x. destruct (decide (x = bp)) as [->|Hne].
    + rewrite lookup_insert_eq, Eb. subst b'. simpl. f_equal. congruence.
    + rewrite lookup_insert_ne by done. by eapply (same_sem hash_part); [unfold hash_part; congruence|].
Qed.

Lemma allowed_same h h' o s : same_sems h h' -> allowed h o s -> allowed h' o s.
Proof.
  intros Hs. destruct o as [bp dp|bp|bp]; simpl; [|done|].
  - intros ([b Eb] & ? & ?). split; [|done]. specialize (Hs bp). rewrite Eb in Hs. destruct (h' !! bp); [by eexists|done].
  - intros (? & b & Eb & Hb). split; [done|]. specialize (Hs bp). rewrite Eb in Hs. simpl in Hs.
    destruct (h' !! bp) as [b'|]; simplify_eq/=. exists b'. split; [done|congruence].
Qed.
Lemma allowed_all_same h h' l s : same_sems h h' -> allowed_all h l s -> allowed_all h' l s.
Proof. intros Hs. revert s. induction l as [|o l IH]; intros s; simpl; [done|]. intros [? ?]. split; [by eapply allowed_same|by apply IH]. Qed.

(** C16: the macros keep the lists of the cache.  Any sequence in which buffers go
    on a chain when they are on none, and come off a list they are on, passes the
    assertions, and leaves rings of exactly the buffers that the same operations
    leave on lists: the chains of all headers and the available buffers of all
    headers, undisturbed by each other; a buffer on no chain has NULL links, and a
    buffer is available exactly if it is not marked [B_BUSY]. *)
Theorem buf_cache_refines l h C F :
  cache h C F -> allowed_all h l (C, F) ->
  exists h', run l h = Some h' /\ cache h' (foldl (fun s o => spec o s) (C, F) l).1 (foldl (fun s o => spec o s) (C, F) l).2
    /\ same_sems h h'.
Proof.
  revert h C F. induction l as [|o l IH]; intros h C F Hc Hal; simpl in *; [by exists h|]. destruct Hal as [Ho Hl].
  assert (exists h', exec o h = Some h' /\ cache h' (spec o (C, F)).1 (spec o (C, F)).2 /\ same_sems h h') as (h1 & E1 & Hc1 & Hs1).
  { destruct o as [bp dp|bp|bp]; simpl in *.
    - destruct Ho as (? & ? & ?). by apply binshash_ok.
    - destruct Ho as (a & k & ? & ?). by eapply bremhash_ok.
    - destruct Ho as ((a & k & ? & ?) & b & ? & ?). by eapply notavail_ok. }
  rewrite E1. cbn [mbind option_bind]. destruct (IH h1 (spec o (C, F)).1 (spec o (C, F)).2 Hc1) as (h2 & E2 & Hc2 & Hs2).
  { rewrite <- surjective_pairing. by eapply allowed_all_same. }
  rewrite <- surjective_pairing in Hc2. exists h2. split; [done|]. split; [done|]. intros x. by rewrite Hs2, Hs1.
Qed.

(** Two headers (1 and 2), a buffer (3) on the chain of the first and available,
    one (4) on no list and busy. *)
Definition small_cache : store :=
  {[ 1 := Buf 0 (Some 3) (Some 3) (Some 3) (Some 3) false; 2 := Buf 0 (Some 2) (Some 2) (Some 2) (Some 2) false;
     3 := Buf 0 (Some 1) (Some 1) (Some 1) (Some 1) true; 4 := Buf B_BUSY None None None None true ]}.
Definition small_chains : gmap Z (list Z) := {[ 1 := [3]; 2 := [] ]}.

Lemma small_rings : rings hash_links small_cache small_chains /\ rings av_links small_cache small_chains.
Proof.
  assert (apart small_chains) as Hap.
  { intros a l a' l' x Ha Ha' Hx Hx'. unfold small_chains in *.
    apply lookup_insert_Some in Ha as [[<- <-]|[_ Ha]]; apply lookup_insert_Some in Ha' as [[<- <-]|[_ Ha']]; try done;
      try (apply lookup_singleton_Some in Ha as [<- <-]); try (apply lookup_singleton_Some in Ha' as [<- <-]); set_solver. }
  split; split; try done; intros a l Ha; unfold small_chains in Ha;
    (apply lookup_insert_Some in Ha as [[<- <-]|[_ Ha]]; [|apply lookup_singleton_Some in Ha as [<- <-]]);
    (split; [repeat split|apply (bool_decide_eq_true _); reflexivity]).
Qed.

Lemma small_cache_ok : cache small_cache small_chains small_chains.
Proof.
  destruct small_rings as [Hh Ha].
  assert (forall x, on small_chains x <-> x = 1 \/ x = 2 \/ x = 3) as Hon.
  { intros x. unfold on, small_chains. split.
    - intros (a & l & E & Hin). apply lookup_insert_Some in E as [[<- <-]|[_ E]]; [set_solver|].
      apply lookup_singleton_Some in E as [<- <-]. set_solver.
    - intros [->|[->| ->]]; [exists 1, [3]|exists 2, []|exists 1, [3]]; (split; [done|set_solver]). }
  split; [done|done| |]; intros x b E; rewrite Hon; unfold small_cache in E;
    repeat (apply lookup_insert_Some in E as [[<- <-]|[_ E]]; [simpl; naive_solver|]);
    apply lookup_singleton_Some in E as [<- <-]; simpl; try done; intros _; split; [lia|done].
Qed.

Definition move_and_take : list op := [Rem 3; Ins 3 2; Take 3; Ins 4 2].

Lemma buf_cache_refines_witness :
  exists h', run move_and_take small_cache = Some h' /\ rings hash_links h' {[ 1 := []; 2 := [4; 3] ]}.
Proof.
  destruct (buf_cache_refines move_and_take small_cache small_chains small_chains small_cache_ok) as (h' & E & [Hr _ _ _] & _).
  - cbn [allowed_all move_and_take allowed spec fst snd].
    assert (forall C : gmap Z (list Z), forall x, (forall a l, C !! a = Some l -> (a = 1 \/ a = 2) /\ x <> a /\ x ∉ l) -> ~ on C x) as Hno.
    { intros C x HC (a & l & Ea & Hin). destruct (HC a l Ea) as (_ & ? & ?). rewrite elem_of_cons in Hin. tauto. }
    split; [exists 1, [3]; split; [done|by left]|].
    split; [split; [by eexists|split; [|by eexists]]|].
    { apply Hno. intros a l Ha. vm_compute in Ha. revert Ha. destruct a as [|[[]|[]|]|]; intros [=<-]; set_solver. }
    split; [split; [exists 1, [3]; split; [done|by left]|by eexists]|].
    split; [split; [by eexists|split; [|by eexists]]|done].
    apply Hno. intros a l Ha. vm_compute in Ha. revert Ha. destruct a as [|[[]|[]|]|]; intros [=<-]; set_solver.
  - exists h'. split; [exact E|]. exact Hr.
Defined.
