(* ===== verification/CallTable.v ===== *)
(** * The table of outstanding calls: rpc/clnt.h

    [call_table_enter], [call_table_remove] and [call_table_find] of
    [src/include/rpc/clnt.h].  The bucket of a call is the head of a circular
    list: the macros use a bucket as a call and a call as a bucket, because both
    begin with the two links ([links_overlay] shows that they do, and the same of
    the headers of the buffer cache, [BufCache]). *)
From Stdlib Require Import String.
From S2P Require Import Prelude DList CTypes AbiTypes.
From stdpp Require Import gmap.
#[local] Open Scope Z_scope.

(** ** Layout *)
Section Types.
Local Open Scope string_scope.
Local Open Scope ctype_scope.

Definition kmutex_t : ctype := struct ["_opaque" :- by_model (array 2 ptr) (array 1 ptr)].
Definition kcondvar_t : ctype := struct ["_opaque" :- ushort_t].
Definition ksema_t : ctype := struct ["_opaque" :- array 2 ptr].

Definition call_table_t : ctype := CTypes.union
  ["ct_s" :- struct ["uct_call_next" :- ptr; "uct_call_prev" :- ptr; "uct_len" :- uint_t; "uct_lock" :- kmutex_t];
   "uct_pad" :- array 64 char].

Definition rpcvers_t : ctype := by_model ulong uint32_t.
Definition rpc_err : ctype := struct
  ["re_status" :- enum;
   "ru" :- CTypes.union
     ["RE_err" :- struct ["RE_errno" :- int; "RE_t_errno" :- int];
      "RE_why" :- enum;
      "RE_vers" :- struct ["low" :- rpcvers_t; "high" :- rpcvers_t];
      "RE_lb" :- struct ["s1" :- int32_t; "s2" :- int32_t]]].

Definition calllist_t : ctype := struct
  ["call_next" :- ptr; "call_prev" :- ptr; "call_notified" :- int; "call_xid" :- uint_t; "call_hash" :- uint_t;
   "call_bucket" :- ptr; "call_reply" :- ptr; "call_cv" :- kcondvar_t; "call_lock" :- kmutex_t;
   "call_err" :- rpc_err; "call_wq" :- ptr].

(** [lldaddr_t] in the order of a little-endian machine. *)
Definition lldaddr_t : ctype := CTypes.union ["_f" :- longlong_t; "_p" :- struct ["_l" :- int32_t; "_u" :- int32_t]].

Definition buf_t : ctype := struct
  ["b_flags" :- int; "b_forw" :- ptr; "b_back" :- ptr; "av_forw" :- ptr; "av_back" :- ptr;
   "b_dev" :- o_dev_t; "b_bcount" :- size_t;
   "b_un" :- CTypes.union ["b_addr" :- ptr; "b_fs" :- ptr; "b_cg" :- ptr; "b_dino" :- ptr; "b_daddr" :- ptr];
   "_b_blkno" :- lldaddr_t; "b_obs1" :- char; "b_resid" :- size_t; "b_start" :- clock_t; "b_proc" :- ptr;
   "b_pages" :- ptr; "b_obs2" :- clock_t; "b_bufsize" :- size_t; "b_iodone" :- ptr; "b_vp" :- ptr; "b_chain" :- ptr;
   "b_obs3" :- int; "b_error" :- int; "b_private" :- ptr; "b_edev" :- dev_t; "b_sem" :- ksema_t; "b_io" :- ksema_t;
   "b_list" :- ptr; "b_shadow" :- ptr; "b_dip" :- ptr; "b_file" :- ptr; "b_offset" :- offset_t].
Definition diskhd : ctype := struct
  ["b_flags" :- int; "b_forw" :- ptr; "b_back" :- ptr; "av_forw" :- ptr; "av_back" :- ptr;
   "b_dev" :- o_dev_t; "b_bcount" :- size_t].
Definition hbuf : ctype := struct
  ["b_flags" :- int; "b_forw" :- ptr; "b_back" :- ptr; "av_forw" :- ptr; "av_back" :- ptr;
   "b_length" :- int; "b_lock" :- kmutex_t].
Definition dwbuf : ctype := struct
  ["b_flags" :- int; "b_forw" :- ptr; "b_back" :- ptr; "av_forw" :- ptr; "av_back" :- ptr].
End Types.

(** The offsets, widths and signs of the scalars of a structure. *)
Definition spots (m : machine) (t : ctype) : list (Z * Z * bool) :=
  (fun p => (p_off p, scalar_size m (p_ty p), scalar_signed (p_ty p))) <$> places m [] 0 t.
(** The first [n] scalars of [t] and [u] are at the same places. *)
Definition overlay (n : nat) (t u : ctype) (m : machine) : bool :=
  bool_decide (take n (spots m t) = take n (spots m u)) && (n <=? length (spots m t))%nat.

(** The structures can be used as each other.  On every machine a bucket of
    the call table and a call have their links at the same place, and a bucket
    is padded to 64 octets as its comment says; the headers of the buffer cache
    ([hbuf], [dwbuf], [diskhd]) have flags and the four links where a buffer has
    them, as the comments require. *)
Theorem links_overlay m :
  machine_ok m ->
  overlay 2 call_table_t calllist_t m = true /\ sizeof m call_table_t = 64
  /\ overlay 5 hbuf buf_t m = true /\ overlay 5 dwbuf buf_t m = true /\ overlay 7 diskhd buf_t m = true.
Proof.
  intros Hm. apply machine_listed in Hm. simpl in Hm.
  repeat (destruct Hm as [<-|Hm]; [vm_compute; tauto|]). done.
Qed.

Lemma links_overlay_witness : overlay 2 call_table_t calllist_t amd64 = true.
Proof. apply links_overlay. unfold machine_ok. simpl. lia. Defined.

(** ** The operations *)

(** The links of buckets and calls; for a call its [call_xid] and [call_bucket];
    for a bucket its [ct_len] and whether [ct_lock] is held. *)
Record heap := Heap {
  links : gmap Z (option Z * option Z); calls : gmap Z (Z * Z); buckets : gmap Z (Z * bool) }.

Definition upd (a : Z) (f : option Z * option Z -> option Z * option Z) (h : heap) : option heap :=
  p ← links h !! a; Some (Heap (<[a := f p]> (links h)) (calls h) (buckets h)).
Definition call_links : DList heap Z := {|
  nextp h a := links h !! a ≫= fst; prevp h a := links h !! a ≫= snd;
  set_nextp a x := upd a (fun p => (x, p.2)); set_prevp a x := upd a (fun p => (p.1, x)) |}.

Definition set_bucket (a : Z) (v : Z * bool) (h : heap) : heap := Heap (links h) (calls h) (<[a := v]> (buckets h)).
(** [None]: the caller would wait. *)
Definition mutex_enter (a : Z) (h : heap) : option heap :=
  v ← buckets h !! a; if v.2 : bool then None else Some (set_bucket a (v.1, true) h).
Definition mutex_exit (a : Z) (h : heap) : option heap :=
  v ← buckets h !! a; Some (set_bucket a (v.1, false) h).
Definition add_len (a : Z) (n : Z) (h : heap) : option heap :=
  v ← buckets h !! a; Some (set_bucket a (u32 (v.1 + n), v.2) h).

Definition call_hash (xid hashsize : Z) : Z := Z.rem xid hashsize.

Definition call_table_enter (e : Z) (h : heap) : option heap :=
  c ← calls h !! e;
  h ← mutex_enter c.2 h; h ← add_len c.2 1 h;
  h ← link_after call_links c.2 e h; mutex_exit c.2 h.

Definition call_table_remove (e : Z) (h : heap) : option heap :=
  c ← calls h !! e;
  h ← mutex_enter c.2 h; h ← add_len c.2 (-1) h;
  h ← unlink_back call_links e h; mutex_exit c.2 h.

(** The loop of [call_table_find]; [ele] is what it has found. *)
Fixpoint find_loop (fuel : nat) (ctp xid cp ele : Z) (h : heap) : option Z :=
  match fuel with
  | O => None
  | S fuel =>
    if cp =? ctp then Some ele else
    c ← calls h !! cp; n ← nextp (DList := call_links) h cp;
    find_loop fuel ctp xid n (if c.1 =? xid then cp else ele) h
  end.

(** The call found, or 0; the mutex stays with the caller. *)
Definition call_table_find (fuel : nat) (ctp xid : Z) (h : heap) : option (heap * Z) :=
  h ← mutex_enter ctp h; n ← nextp (DList := call_links) h ctp;
  ele ← find_loop fuel ctp xid n 0 h; Some (h, ele).

(** ** The state of the table *)
Lemma upd_links a f h p : links h !! a = Some p -> upd a f h = Some (Heap (<[a := f p]> (links h)) (calls h) (buckets h)).
Proof. intros E. unfold upd. by rewrite E. Qed.

#[export] Instance call_cells : DListCells call_links.
Proof.
  refine {| cell h k := is_Some (links h !! k) |}; simpl.
  - intros h k y E. apply bind_Some in E as (b & ? & _). by exists b.
  - intros h k y E. apply bind_Some in E as (b & ? & _). by exists b.
  - intros h k x [b Hb]. rewrite (upd_links _ _ _ _ Hb). eexists. split; [reflexivity|].
    split_and!; intros j; (destruct (decide (j = k)) as [->|Hne];
      cbn [links]; rewrite ?lookup_insert_eq, ?lookup_insert_ne, ?Hb by done; done).
  - intros h k x [b Hb]. rewrite (upd_links _ _ _ _ Hb). eexists. split; [reflexivity|].
    split_and!; intros j; (destruct (decide (j = k)) as [->|Hne];
      cbn [links]; rewrite ?lookup_insert_eq, ?lookup_insert_ne, ?Hb by done; done).
Defined.

(** [T]: the calls of each bucket. *)
Record table (h : heap) (T : gmap Z (list Z)) : Prop := {
  table_rings : rings call_links h T;
  table_bucket a l : T !! a = Some l -> buckets h !! a = Some (u32 (Z.of_nat (length l)), false);
  table_calls a l e : T !! a = Some l -> e ∈ l -> exists xid, calls h !! e = Some (xid, a) /\ e <> 0 }.

Inductive op := Enter (e : Z) | Remove (e : Z) | Find (a xid : Z).
(** [Find] releases the mutex as its callers do.  Fuel: the length of the list
    and one. *)
Definition exec (fuel : nat) (o : op) (h : heap) : option (heap * list Z) :=
  match o with
  | Enter e => h ← call_table_enter e h; Some (h, [])
  | Remove e => h ← call_table_remove e h; Some (h, [])
  | Find a xid => '(h, e) ← call_table_find fuel a xid h; h ← mutex_exit a h; Some (h, [e])
  end.
Fixpoint run (fuel : nat) (l : list op) (h : heap) : option (heap * list Z) :=
  match l with
  | [] => Some (h, [])
  | o :: l => '(h, r) ← exec fuel o h; '(h, rs) ← run fuel l h; Some (h, r ++ rs)
  end.

(** The same on lists; a call is found by its number, the one entered first if
    there are several. *)
Section Spec.
Context (info : gmap Z (Z * Z)).
Definition bucket_of (e : Z) : Z := default 0 (snd <$> info !! e).
Definition has_xid (xid e : Z) : bool := match info !! e with Some c => c.1 =? xid | None => false end.
Definition found (xid : Z) (l : list Z) : Z := foldl (fun ele e => if has_xid xid e then e else ele) 0 l.

Definition spec (o : op) (T : gmap Z (list Z)) : gmap Z (list Z) * list Z :=
  match o with
  | Enter e => (alter (cons e) (bucket_of e) T, [])
  | Remove e => (take_off e T, [])
  | Find a xid => (T, [found xid (default [] (T !! a))])
  end.
Fixpoint spec_all (l : list op) (T : gmap Z (list Z)) : gmap Z (list Z) * list Z :=
  match l with [] => (T, []) | o :: l => let '(T1, r) := spec o T in let '(T2, rs) := spec_all l T1 in (T2, r ++ rs) end.

(** Calls are entered when they are in no bucket, and removed when they are in
    one; fewer than 2^32 are in a bucket. *)
Definition allowed (fuel : nat) (h : heap) (o : op) (T : gmap Z (list Z)) : Prop :=
  match o with
  | Enter e => e <> 0 /\ is_Some (links h !! e) /\ ~ on T e /\ is_Some (info !! e) /\
      exists l, T !! bucket_of e = Some l /\ (S (length l) < fuel)%nat
  | Remove e => exists a l, T !! a = Some l /\ e ∈ l
  | Find a xid => exists l, T !! a = Some l /\ (length l < fuel)%nat
  end.
Fixpoint allowed_all (fuel : nat) (h : heap) (l : list op) T : Prop :=
  match l with [] => True | o :: l => allowed fuel h o T /\ allowed_all fuel h l (spec o T).1 end.
End Spec.

(** ** Frames *)
Definition keeps (h h' : heap) : Prop :=
  calls h' = calls h /\ buckets h' = buckets h /\ (forall x, is_Some (links h' !! x) <-> is_Some (links h !! x)).
#[export] Instance keeps_preorder : PreOrder keeps.
Proof.
  split; [done|]. intros h1 h2 h3 (? & ? & H12) (? & ? & H23). split_and!; [congruence..|]. intros x. by rewrite H23, H12.
Qed.
Lemma upd_keeps a f h h' : upd a f h = Some h' -> keeps h h'.
Proof.
  intros E. apply bind_Some in E as (p & Hp & [= <-]). split_and!; [done..|]. intros x. simpl.
  destruct (decide (x = a)) as [->|]; [|by rewrite lookup_insert_ne].
  rewrite lookup_insert_eq, Hp. split; intros _; eauto.
Qed.

Lemma rings_links h h' T : links h' = links h -> rings call_links h T -> rings call_links h' T.
Proof. intros E Hr. eapply rings_agree; [|exact Hr]. intros j _. simpl. by rewrite E. Qed.

(** The bucket while its mutex is held, and the table when it is released. *)
Lemma lock_len h a (l : list Z) n :
  buckets h !! a = Some (u32 (Z.of_nat (length l)), false) ->
  (h1 ← mutex_enter a h; add_len a n h1) =
    Some (Heap (links h) (calls h) (<[a := (u32 (Z.of_nat (length l) + n), true)]> (buckets h))).
Proof.
  intros E. unfold mutex_enter, add_len. rewrite E. simpl. rewrite lookup_insert_eq. simpl. unfold set_bucket. simpl.
  rewrite insert_insert_eq. do 4 f_equal. unfold wrapu. by rewrite Zplus_mod_idemp_l.
Qed.

Lemma table_step h h' T T' a l n :
  table h T -> T !! a = Some l -> keeps (Heap (links h) (calls h) (<[a := (n, true)]> (buckets h))) h' ->
  rings call_links h' T' -> (forall b, b <> a -> T' !! b = T !! b) ->
  (forall l', T' !! a = Some l' -> n = u32 (Z.of_nat (length l')) /\ forall e, e ∈ l' -> exists xid, calls h !! e = Some (xid, a) /\ e <> 0) ->
  exists h2, mutex_exit a h' = Some h2 /\ table h2 T' /\ calls h2 = calls h /\ (forall x, is_Some (links h2 !! x) <-> is_Some (links h !! x)).
Proof.
  intros [Hr Hb Hc] El (Hcalls & Hbuckets & Hlinks) Hr' Hother Hnew. simpl in *. unfold mutex_exit. rewrite Hbuckets, lookup_insert_eq.
  eexists. split; [reflexivity|]. simpl. split; [split|done].
  - by eapply rings_links; [|exact Hr'].
  - intros b k Eb. simpl. rewrite Hbuckets. destruct (decide (b = a)) as [->|Hne].
    + rewrite lookup_insert_eq. by destruct (Hnew k Eb) as [-> _].
    + rewrite !lookup_insert_ne by done. rewrite Hother in Eb by done. by apply Hb.
  - intros b k e Eb He. simpl. rewrite Hcalls. destruct (decide (b = a)) as [->|Hne].
    + by apply (Hnew k Eb).
    + rewrite Hother in Eb by done. by eapply Hc.
Qed.

Lemma enter_ok h T e xid a l :
  table h T -> calls h !! e = Some (xid, a) -> e <> 0 -> is_Some (links h !! e) -> ~ on T e -> T !! a = Some l ->
  exists h', call_table_enter e h = Some h' /\ table h' (<[a := e :: l]> T) /\ calls h' = calls h
    /\ (forall x, is_Some (links h' !! x) <-> is_Some (links h !! x)).
Proof.
  intros Ht Ec He [p Hp] Hon El. pose proof Ht as [Hr Hb Hc]. unfold call_table_enter. rewrite Ec. cbn [mbind option_bind snd].
  pose proof (lock_len h a l 1 (Hb a l El)) as Elock. apply bind_Some in Elock as (h0 & -> & Elock). cbn [mbind option_bind].
  rewrite Elock. cbn [mbind option_bind]. set (h1 := Heap _ _ _).
  assert (rings call_links h1 T) as Hr1 by (by apply (rings_links h)).
  assert (cell (D := call_links) h1 e) as Hcell by (by exists p).
  destruct (rings_insert call_links h1 T a l e Hr1 El Hcell Hon) as (h2 & E2 & Hr2 & _ & _). rewrite E2. cbn [mbind option_bind].
  assert (keeps h1 h2) as Hk.
  { eapply (link_after_keeps call_links keeps); [..|exact E2]; intros ????; apply upd_keeps. }
  eapply (table_step h h2 T); try done.
  - intros b Hne. by rewrite lookup_insert_ne.
  - intros l' El'. rewrite lookup_insert_eq in El'. simplify_eq. split; [f_equal; simpl; lia|].
    intros y Hy. apply elem_of_cons in Hy as [->|Hy]; [by exists xid|by eapply Hc].
Qed.

Lemma remove_ok h T e a l :
  table h T -> T !! a = Some l -> e ∈ l ->
  exists h', call_table_remove e h = Some h' /\ table h' (take_off e T) /\ calls h' = calls h
    /\ (forall x, is_Some (links h' !! x) <-> is_Some (links h !! x)).
Proof.
  intros Ht El He. pose proof Ht as [Hr Hb Hc]. destruct (Hc a l e El He) as (xid & Ec & _).
  unfold call_table_remove. rewrite Ec. cbn [mbind option_bind snd].
  pose proof (lock_len h a l (-1) (Hb a l El)) as Elock. apply bind_Some in Elock as (h0 & -> & Elock). cbn [mbind option_bind].
  rewrite Elock. cbn [mbind option_bind]. set (h1 := Heap _ _ _).
  assert (rings call_links h1 T) as Hr1 by (by apply (rings_links h)).
  destruct (rings_remove call_links h1 T a l e Hr1 El He) as (h2 & E2 & Hr2 & _ & _). rewrite E2. cbn [mbind option_bind].
  assert (keeps h1 h2) as Hk.
  { eapply (unlink_back_keeps call_links keeps); [..|exact E2]; intros ????; apply upd_keeps. }
  pose proof (rings_ring _ _ _ Hr _ _ El) as [_ Hnd].
  apply list_elem_of_split in He as (l1 & l2 & ->).
  pose proof (take_off_lookup T a l1 e l2 (rings_apart _ _ _ Hr) El Hnd) as Htk. rewrite Htk in *.
  eapply (table_step h h2 T); try done.
  - intros b Hne. by rewrite lookup_insert_ne.
  - intros l' El'. rewrite lookup_insert_eq in El'. simplify_eq. split.
    + f_equal. rewrite !length_app. simpl. lia.
    + intros y Hy. eapply Hc; [done|]. rewrite elem_of_app in *. rewrite elem_of_cons. tauto.
Qed.

Lemma find_loop_ok h a xid l cp ele fuel :
  path call_links h cp l a -> (forall e, e ∈ cp :: l -> is_Some (calls h !! e)) -> NoDup (a :: cp :: l) ->
  (S (length l) < fuel)%nat ->
  find_loop fuel a xid cp ele h = Some (foldl (fun ele e => if has_xid (calls h) xid e then e else ele) ele (cp :: l)).
Proof.
  revert cp ele fuel. induction l as [|b l IH]; intros cp ele [|fuel] Hp Hc Hnd Hf; simpl in *; try lia.
  - destruct fuel as [|fuel]; [lia|]. inversion_clear Hnd as [|? ? Hn _]. rewrite elem_of_cons in Hn.
    rewrite (proj2 (Z.eqb_neq cp a)) by (intros ->; tauto). destruct (Hc cp ltac:(by left)) as [c Ec].
    destruct Hp as [Hp _]. simpl in Hp. unfold has_xid. rewrite Ec, Hp. simpl. by rewrite Z.eqb_refl.
  - inversion_clear Hnd as [|? ? Hn Hnd']. rewrite !elem_of_cons in Hn.
    rewrite (proj2 (Z.eqb_neq cp a)) by (intros ->; tauto). destruct (Hc cp ltac:(by left)) as [c Ec].
    assert (has_xid (calls h) xid cp = (c.1 =? xid)) as Hx by (unfold has_xid; by rewrite Ec).
    destruct Hp as [[Hn1 _] Hp]. simpl in Hn1. rewrite Ec, Hn1. cbn [mbind option_bind].
    rewrite IH; [|done|intros; apply Hc; by right| |lia].
    + simpl. by rewrite Hx.
    + inversion_clear Hnd' as [|? ? _ Hnd2]. constructor; [|done]. rewrite elem_of_cons. tauto.
Qed.

Lemma find_ok h T a xid l fuel :
  table h T -> T !! a = Some l -> (length l < fuel)%nat ->
  exists h1, call_table_find fuel a xid h = Some (h1, found (calls h) xid l)
    /\ buckets h1 !! a = Some (u32 (Z.of_nat (length l)), true) /\ mutex_exit a h1 = Some h.
Proof.
  intros [Hr Hb Hc] El Hf. pose proof (Hb a l El) as Eb. unfold call_table_find, mutex_enter. rewrite Eb.
  cbn [mbind option_bind snd fst]. set (h1 := set_bucket _ _ _).
  destruct (rings_ring _ _ _ (rings_links h h1 T eq_refl Hr) _ _ El) as [Hp Hnd].
  assert (forall ele, exists n, nextp (DList := call_links) h1 a = Some n
    /\ find_loop fuel a xid n ele h1 = Some (foldl (fun ele e => if has_xid (calls h) xid e then e else ele) ele l)) as Hfind.
  { intros ele. destruct l as [|b l].
    - destruct Hp as [Hn _]. exists a. split; [done|]. destruct fuel; [simpl in Hf; lia|]. simpl. by rewrite Z.eqb_refl.
    - destruct Hp as [[Hn _] Hp]. exists b. split; [done|]. apply (find_loop_ok h1); [done| |done|simpl in Hf; lia].
      intros e He. destruct (Hc a _ e El He) as (x & Ex & _). by eexists. }
  destruct (Hfind 0) as (n & Hn & Hl). rewrite Hn. cbn [mbind option_bind]. rewrite Hl. cbn [mbind option_bind].
  exists h1. split; [done|]. unfold mutex_exit. subst h1. simpl. rewrite lookup_insert_eq. split; [done|]. simpl.
  unfold set_bucket. simpl. rewrite insert_insert_eq, insert_id by done. by destruct h.
Qed.

(** ** The theorem *)

(** C13: the macros implement a table of lists.  Any sequence of calls entered,
    removed and looked up, with fuel for the longest list, completes, finds what
    the same operations on lists find (a call with the number asked for if there
    is one, the first that was entered, else 0), and leaves circular lists of
    exactly the calls that remain in each bucket, their number in [ct_len], modulo
    2^32, and all mutexes released. *)
Theorem call_table_refines fuel ops h T :
  table h T -> allowed_all (calls h) fuel h ops T ->
  exists h', run fuel ops h = Some (h', (spec_all (calls h) ops T).2) /\ table h' (spec_all (calls h) ops T).1.
Proof.
  remember (calls h) as info eqn:Einfo. revert h T Einfo.
  induction ops as [|o ops IH]; intros h T -> Ht Hal; simpl in *; [by exists h|]. destruct Hal as [Ho Hal].
  assert (exists h1, exec fuel o h = Some (h1, (spec (calls h) o T).2) /\ table h1 (spec (calls h) o T).1 /\ calls h1 = calls h
    /\ forall x, is_Some (links h1 !! x) <-> is_Some (links h !! x)) as (h1 & E1 & Ht1 & Hc1 & Hl1).
  { destruct o as [e|e|a xid]; simpl in *.
    - destruct Ho as (He & Hlk & Hon & [[xid a] Ei] & l & El & _). unfold bucket_of in *. rewrite Ei in *. simpl in *.
      destruct (enter_ok h T e xid a l) as (h1 & -> & Ht1 & ? & ?); try done. exists h1. split; [done|]. split; [|done].
      replace (alter (cons e) a T) with (<[a := e :: l]> T); [done|]. apply map_eq. intros b.
      destruct (decide (b = a)) as [->|]; [by rewrite lookup_alter_eq, lookup_insert_eq, El|by rewrite lookup_alter_ne, lookup_insert_ne].
    - destruct Ho as (a & l & El & He). destruct (remove_ok h T e a l Ht El He) as (h1 & -> & ? & ? & ?). by exists h1.
    - destruct Ho as (l & El & Hf). destruct (find_ok h T a xid l fuel Ht El Hf) as (h1 & -> & _ & Hex).
      cbn [mbind option_bind]. rewrite Hex, El. by exists h. }
  rewrite E1. cbn [mbind option_bind]. destruct (spec (calls h) o T) as [T1 r] eqn:Es. simpl in *.
  destruct (IH h1 T1) as (h2 & E2 & Ht2); [done|done| |].
  { clear -Hal Hl1. revert T1 Hal. induction ops as [|o' ops IH']; intros T1 Hal; simpl in *; [done|]. destruct Hal as [Ho Hal].
    split; [|by apply IH']. destruct o'; simpl in *; [|done|done]. by rewrite Hl1. }
  destruct (spec_all (calls h) ops T1) as [T2 rs] eqn:Es2. simpl in *. rewrite E2. simpl. by exists h2.
Qed.

(** A bucket at 10 and two calls with one number. *)
Definition two_calls : heap :=
  Heap {[10 := (Some 10, Some 10); 1 := (None, None); 2 := (None, None)]} {[1 := (77, 10); 2 := (77, 10)]} {[10 := (0, false)]}.

Lemma two_calls_table : table two_calls {[10 := []]}.
Proof.
  split.
  - split.
    + intros a l E. apply lookup_singleton_Some in E as [<- <-]. split; [done|]. apply NoDup_singleton.
    + intros a l a' l' x Ea Ea' _ _. apply lookup_singleton_Some in Ea as [<- _].
      by apply lookup_singleton_Some in Ea' as [<- _].
  - intros a l E. by apply lookup_singleton_Some in E as [<- <-].
  - intros a l e E He. apply lookup_singleton_Some in E as [<- <-]. by apply elem_of_nil in He.
Qed.

Lemma call_table_refines_witness :
  exists h', run 4 [Enter 1; Enter 2; Find 10 77; Remove 1; Find 10 77; Find 10 5] two_calls = Some (h', [1; 2; 0])
    /\ table h' {[10 := [2]]}.
Proof.
  apply (call_table_refines 4 [Enter 1; Enter 2; Find 10 77; Remove 1; Find 10 77; Find 10 5] two_calls {[10 := []]}
    two_calls_table).
  assert (forall x l, x <> 10 -> x ∉ l -> ~ on {[10 := l]} x) as Hno.
  { intros x l Hx Hl (a & k & Ek & Hin). apply lookup_singleton_Some in Ek as [<- <-]. rewrite elem_of_cons in Hin. tauto. }
  split; [split; [done|]; split; [by eexists|]; split; [apply Hno; [done|apply not_elem_of_nil]|]; split; [by eexists|]; by exists []; split; [|simpl; lia]|].
  split; [split; [done|]; split; [by eexists|]; split; [apply (Hno 2 [1]); [done|set_solver]|]; split; [by eexists|]; by exists [1]; split; [|simpl; lia]|].
  split; [exists [2; 1]; split; [done|simpl; lia]|]. split; [exists 10, [2; 1]; split; [done|set_solver]|].
  split; [exists [2]; split; [done|simpl; lia]|]. split; [exists [2]; split; [done|simpl; lia]|done].
Defined.
