(* ===== verification/Kmem.v ===== *)
(** * The kernel memory allocator: sys/kmem_impl.h and sys/vmem_impl.h

    What the allocator stores around its buffers and how it finds it again:
    the encoded sizes in the redzone, the control structures at fixed offsets of
    a buffer, the slab at the end of its pages, and the hash tables of buffers and
    segments.  Addresses are numbers of [w] bits, [w] the width of a pointer. *)
From Stdlib Require Import String.
From S2P Require Import Prelude SysMacros CTypes AbiTypes CallTable.
#[local] Open Scope Z_scope.

(** ** Structures *)
Section Types.
Local Open Scope string_scope.
Local Open Scope ctype_scope.
Definition KMEM_STACK_DEPTH : Z := 15.
Definition kmem_bufctl : ctype := struct ["bc_next" :- ptr; "bc_addr" :- ptr; "bc_slab" :- ptr].
Definition kmem_bufctl_audit : ctype := struct
  ["bc_next" :- ptr; "bc_addr" :- ptr; "bc_slab" :- ptr; "bc_cache" :- ptr; "bc_timestamp" :- hrtime_t; "bc_thread" :- ptr;
   "bc_lastlog" :- ptr; "bc_contents" :- ptr; "bc_depth" :- int; "bc_stack" :- array KMEM_STACK_DEPTH uintptr_t].
Definition kmem_buftag : ctype := struct ["bt_redzone" :- uint64_t; "bt_bufctl" :- ptr; "bt_bxstat" :- by_model int long].
Definition kmem_buftag_lite : ctype := struct ["bt_buftag" :- kmem_buftag; "bt_history" :- array 1 uintptr_t].
Definition kmem_slab : ctype := struct
  ["slab_cache" :- ptr; "slab_base" :- ptr; "slab_next" :- ptr; "slab_prev" :- ptr; "slab_head" :- ptr; "slab_refcnt" :- long;
   "slab_chunks" :- long].
Definition kmem_cpu_cache (pad : Z) : ctype := struct
  ["cc_lock" :- kmutex_t; "cc_alloc" :- uint64_t; "cc_free" :- uint64_t; "cc_loaded" :- ptr; "cc_ploaded" :- ptr; "cc_rounds" :- int;
   "cc_prounds" :- int; "cc_magsize" :- int; "cc_flags" :- int; "cc_pad" :- array pad char].
End Types.
Definition KMEM_CPU_CACHE_SIZE : Z := 64.
Definition KMEM_CPU_PAD (m : machine) : Z :=
  KMEM_CPU_CACHE_SIZE - sizeof m kmutex_t - 2 * sizeof m uint64_t - 2 * sizeof m ptr - 4 * sizeof m int.
(** The members of [kmem_cache] that the macros read. *)
Record kmem_cache := { cache_bufctl : Z; cache_buftag : Z; cache_slabsize : Z; cache_hash_shift : Z; cache_hash_mask : Z }.

(** ** Sizes in the redzone, at the width of the type they have *)
Definition KMEM_SIZE_ENCODE (w x : Z) : Z := wrapu w (251 * x + 1).
Definition KMEM_SIZE_DECODE (x : Z) : Z := x / 251.
Definition KMEM_SIZE_VALID (x : Z) : bool := (x mod 251 =? 1) && negb (x =? 1).
Definition KMEM_FREE_PATTERN := 0xdeadbeefdeadbeef.
Definition KMEM_UNINITIALIZED_PATTERN := 0xbaddcafebaddcafe.
Definition KMEM_REDZONE_PATTERN := 0xfeedfacefeedface.
Definition KMEM_REDZONE_BYTE := 0xbb.

(** ** Addresses *)
Section Addresses.
Context (w : Z).
Definition KMEM_BUFTAG (cp : kmem_cache) (buf : Z) : Z := wrapu w (buf + cache_buftag cp).
Definition KMEM_BUFCTL (cp : kmem_cache) (buf : Z) : Z := wrapu w (buf + cache_bufctl cp).
Definition KMEM_BUF (cp : kmem_cache) (bcp : Z) : Z := wrapu w (bcp - cache_bufctl cp).
(** The structure before the end of the slab's pages. *)
Definition KMEM_SLAB (m : machine) (cp : kmem_cache) (buf : Z) : Z := wrapu w (P2END w buf (cache_slabsize cp) - sizeof m kmem_slab).
Definition KMEM_SLAB_MEMBER (cp : kmem_cache) (slab_base buf : Z) : bool := wrapu w (buf - slab_base) <? cache_slabsize cp.
(** The index in the hash table. *)
Definition KMEM_HASH (cp : kmem_cache) (buf : Z) : Z := (buf >>> cache_hash_shift cp) .& cache_hash_mask cp.
Definition VMEM_HASH_INDEX (a s q m : Z) : Z := (wrapu w (wrapu w (a + (a >>> s)) + (a >>> (s <<< 1))) >>> q) .& m.
End Addresses.

(** A size other than zero survives encoding, what is accepted as valid is
    the code of exactly one such size, and nothing the allocator fills memory
    with (the patterns of free, new and redzone memory, the redzone octet, zeros)
    is accepted: a redzone that was not written is told from a wrong size. *)
Theorem kmem_sizes w x : 0 < x -> 251 * x + 1 < 2 ^ w ->
  KMEM_SIZE_VALID (KMEM_SIZE_ENCODE w x) = true /\ KMEM_SIZE_DECODE (KMEM_SIZE_ENCODE w x) = x
  /\ (forall y, 0 <= y < 2 ^ w -> KMEM_SIZE_VALID y = true -> 0 < KMEM_SIZE_DECODE y /\ KMEM_SIZE_ENCODE w (KMEM_SIZE_DECODE y) = y)
  /\ KMEM_SIZE_VALID (KMEM_SIZE_ENCODE w 0) = false
  /\ forallb (fun y => negb (KMEM_SIZE_VALID y))
       [u32 KMEM_FREE_PATTERN; u32 KMEM_UNINITIALIZED_PATTERN; u32 KMEM_REDZONE_PATTERN; of_le (replicate 4 KMEM_REDZONE_BYTE); 0;
        KMEM_FREE_PATTERN; KMEM_UNINITIALIZED_PATTERN; KMEM_REDZONE_PATTERN; of_le (replicate 8 KMEM_REDZONE_BYTE)] = true.
Proof.
  intros Hx Hw. unfold KMEM_SIZE_VALID, KMEM_SIZE_DECODE, KMEM_SIZE_ENCODE.
  assert (forall z, 0 <= z -> 251 * z + 1 < 2 ^ w -> wrapu w (251 * z + 1) = 251 * z + 1) as Hid by (intros; apply wrapu_id; unfold in_u; lia).
  rewrite (Hid x), (Hid 0) by lia. split_and!.
  - rewrite andb_true_iff, negb_true_iff, Z.eqb_eq, Z.eqb_neq. split; [|lia]. rewrite Z.add_comm, Z.mul_comm, Z_mod_plus_full. done.
  - rewrite Z.add_comm, Z.mul_comm, Z_div_plus_full by lia. done.
  - intros y Hy [H1%Z.eqb_eq H2%negb_true_iff%Z.eqb_neq]%andb_true_iff. pose proof (Z.div_mod y 251 ltac:(lia)).
    rewrite Hid; lia.
  - done.
  - by vm_compute.
Qed.
Lemma kmem_sizes_witness : KMEM_SIZE_DECODE (KMEM_SIZE_ENCODE 32 4096) = 4096.
Proof. apply (kmem_sizes 32 4096); lia. Defined.

Lemma mask_range x j : 0 <= j -> 0 <= x .& (2 ^ j - 1) < 2 ^ j.
Proof.
  intros Hj. replace (2 ^ j - 1) with (Z.ones j) by (rewrite Z.ones_equiv; lia). rewrite Z.land_ones by done.
  apply Z.mod_pos_bound, pow2_pos. done.
Qed.
Lemma slab_pos m : machine_ok m -> 0 < sizeof m kmem_slab.
Proof. intros Hm. apply machine_listed in Hm. simpl in Hm. repeat (destruct Hm as [<-|Hm]; [by vm_compute|]). done. Qed.

(** The control structures of buffers and slabs.  The address of the
    control structure leads back to its buffer; every buffer in a slab of
    [2 ^ k] octets, aligned to its size, leads to the one [kmem_slab] at the end of
    the slab, which lies inside; [KMEM_SLAB_MEMBER] accepts exactly the addresses
    of the slab, wherever in memory, also below its base; hash values are indices
    of a table of [2 ^ j] entries.  An audited control structure begins as a plain
    one does, and the cache of a processor has the size of a cache line on a
    64-bit machine and on a 32-bit one. *)
Theorem kmem_addresses m w k j cp base buf a s q :
  machine_ok m -> w = 8 * sizeof m ptr -> 0 <= k < w -> cache_slabsize cp = 2 ^ k -> sizeof m kmem_slab <= 2 ^ k ->
  0 <= base -> base mod 2 ^ k = 0 -> base + 2 ^ k < 2 ^ w -> in_u w buf ->
  0 <= j -> cache_hash_mask cp = 2 ^ j - 1 -> 0 <= cache_hash_shift cp -> 0 <= q ->
  KMEM_BUF w cp (KMEM_BUFCTL w cp buf) = buf
  /\ (base <= buf < base + 2 ^ k -> KMEM_SLAB w m cp buf = base + 2 ^ k - sizeof m kmem_slab /\ base <= KMEM_SLAB w m cp buf)
  /\ KMEM_SLAB_MEMBER w cp base buf = (base <=? buf) && (buf <? base + 2 ^ k)
  /\ 0 <= KMEM_HASH cp buf < 2 ^ j /\ 0 <= VMEM_HASH_INDEX w a s q (2 ^ j - 1) < 2 ^ j
  /\ overlay 3 kmem_bufctl kmem_bufctl_audit m = true /\ sizeof m (kmem_cpu_cache (KMEM_CPU_PAD m)) = KMEM_CPU_CACHE_SIZE.
Proof.
  intros Hm Hw Hk Hs Hfit Hb Hal Htop Hbuf Hj Hmask Hsh Hq. pose proof (pow2_pos k ltac:(lia)) as Hp. split_and!.
  - unfold KMEM_BUF, KMEM_BUFCTL, wrapu. rewrite Zminus_mod_idemp_l. replace (buf + _ - _) with buf by lia. by apply Z.mod_small.
  - intros Hin. unfold KMEM_SLAB. rewrite Hs. destruct (p2_macros w k buf 0 0) as (_ & _ & _ & _ & -> & _); [done|done|unfold in_u; lia..|].
    assert (buf - buf mod 2 ^ k = base) as E.
    { pose proof (Z.div_mod base (2 ^ k) ltac:(lia)). pose proof (Z.div_mod buf (2 ^ k) ltac:(lia)).
      pose proof (Z.mod_pos_bound buf (2 ^ k) Hp). assert (buf / 2 ^ k = base / 2 ^ k) by nia. nia. }
    rewrite E, (wrapu_id w (base + 2 ^ k)) by (unfold in_u; lia). pose proof (slab_pos m Hm). rewrite wrapu_id by (unfold in_u; lia). lia.
  - unfold KMEM_SLAB_MEMBER. rewrite Hs. unfold in_u in Hbuf. destruct (Z.leb_spec base buf); simpl.
    + rewrite wrapu_id by (unfold in_u; lia). zcases; done || lia.
    + unfold wrapu. rewrite <- (Z_mod_plus_full _ 1), Z.mod_small by lia. zcases; done || lia.
  - unfold KMEM_HASH. rewrite Hmask. apply mask_range. done.
  - unfold KMEM_HASH. rewrite Hmask. apply mask_range. done.
  - apply mask_range. done.
  - apply mask_range. done.
  - apply machine_listed in Hm. simpl in Hm. repeat (destruct Hm as [<-|Hm]; [by vm_compute|]). done.
  - apply machine_listed in Hm. simpl in Hm. repeat (destruct Hm as [<-|Hm]; [by vm_compute|]). done.
Qed.
Lemma kmem_addresses_witness :
  KMEM_SLAB 64 amd64 {| cache_bufctl := 56; cache_buftag := 64; cache_slabsize := 4096; cache_hash_shift := 6; cache_hash_mask := 63 |} 8200
  = 8192 + 4096 - 56.
Proof.
  eapply (kmem_addresses amd64 64 12 6 {| cache_bufctl := 56; cache_buftag := 64; cache_slabsize := 4096; cache_hash_shift := 6; cache_hash_mask := 63 |}
    8192 8200 0 0 0); unfold machine_ok, in_u; simpl; try lia; by vm_compute.
Defined.
