(* ===== verification/HashChain.v ===== *)
(** * Hash chains with a pointer to the pointer: inet/ipsec_impl.h

    [HASH_INSERT], [HASH_UNCHAIN], [HASH_NEXT] and [HASH_ITERATE] of
    [src/include/inet/ipsec_impl.h].  An entry holds the address of the pointer
    that points to it, the head of a bucket or the [hash_next] of the entry
    before it, so that it is taken off its chain without knowing the bucket.
    [NfsIndex] uses the chains for those of the NFS server, which have a back
    pointer instead. *)
From S2P Require Import Prelude DList.
From stdpp Require Import gmap.
#[local] Open Scope Z_scope.

(** ** The macros of IPsec *)

(** The address of a pointer to an entry: [&(table)[hash].hash_head] or
    [&(var)->field.hash_next]. *)
Inductive slot := Head (hash : nat) | Next (x : Z).
#[export] Instance slot_eq_dec : EqDecision slot.
Proof. solve_decision. Defined.

(** [HASH_LINK] and [HASH_HEAD]: entries are not 0, which is NULL. *)
Record hash_link := HashLink { hash_next : Z; hash_pp : option slot }.
Record hash_bucket := HashBucket { hash_head : Z; hash_lock : bool }.
Record mem := Mem { table : list hash_bucket; entries : gmap Z hash_link }.

Definition rd_slot (s : slot) (m : mem) : option Z :=
  match s with Head i => hash_head <$> table m !! i | Next x => hash_next <$> entries m !! x end.
Definition set_next (x v : Z) (m : mem) : option mem :=
  e ← entries m !! x; Some (Mem (table m) (<[x := HashLink v (hash_pp e)]> (entries m))).
Definition set_pp (x : Z) (s : option slot) (m : mem) : option mem :=
  e ← entries m !! x; Some (Mem (table m) (<[x := HashLink (hash_next e) s]> (entries m))).
Definition wr_slot (s : slot) (v : Z) (m : mem) : option mem :=
  match s with
  | Head i => b ← table m !! i; Some (Mem (<[i := HashBucket v (hash_lock b)]> (table m)) (entries m))
  | Next x => set_next x v m
  end.

Definition HASH_LOCKED (hash : nat) (m : mem) : bool := match table m !! hash with Some b => hash_lock b | None => false end.
Definition HASH_NEXT (x : Z) (m : mem) : option Z := hash_next <$> entries m !! x.

Definition set_lock (hash : nat) (old new : bool) (m : mem) : option mem :=
  b ← table m !! hash;
  if Bool.eqb (hash_lock b) old then Some (Mem (<[hash := HashBucket (hash_head b) new]> (table m)) (entries m)) else None.
Definition HASH_LOCK (hash : nat) (m : mem) : option mem := set_lock hash false true m.
Definition HASH_UNLOCK (hash : nat) (m : mem) : option mem := set_lock hash true false m.

Definition HASH_INSERT (var : Z) (hash : nat) (m : mem) : option mem :=
  if HASH_LOCKED hash m then
    b ← table m !! hash;
    m ← set_next var (hash_head b) m;
    m ← set_pp var (Some (Head hash)) m;
    m ← wr_slot (Head hash) var m;
    n ← HASH_NEXT var m;
    if n =? 0 then Some m else set_pp n (Some (Next var)) m
  else None.

(** The statements of [HASH_UNCHAIN] that change the neighbours. *)
Definition unchain (var : Z) (m : mem) : option mem :=
  e ← entries m !! var; pp ← hash_pp e;
  m ← wr_slot pp (hash_next e) m;
  e ← entries m !! var;
  if hash_next e =? 0 then Some m else set_pp (hash_next e) (hash_pp e) m.
Definition HASH_UNCHAIN (var : Z) (hash : nat) (m : mem) : option mem :=
  if HASH_LOCKED hash m then
    m ← unchain var m; m ← set_next var 0 m; set_pp var None m
  else None.

(** The entries [for (HASH_ITERATE(var, field, table, hash))] visits. *)
Fixpoint walk (fuel : nat) (var : Z) (m : mem) : option (list Z) :=
  match fuel with
  | O => None
  | S fuel => if var =? 0 then Some [] else n ← HASH_NEXT var m; l ← walk fuel n m; Some (var :: l)
  end.
Definition HASH_ITERATE (fuel hash : nat) (m : mem) : option (list Z) :=
  b ← table m !! hash; walk fuel (hash_head b) m.

(** ** Chains *)
Section Chains.
Implicit Types (m : mem) (s : slot) (l : list Z) (x : Z).

Definition pp_of m x : option slot := e ← entries m !! x; hash_pp e.

(** [l] is linked from the pointer at [s] on; [to]: up to the pointer where it
    ends. *)
Fixpoint seg m s l : Prop :=
  match l with [] => True | x :: l => rd_slot s m = Some x /\ x <> 0 /\ pp_of m x = Some s /\ seg m (Next x) l end.
Fixpoint end_slot s l : slot := match l with [] => s | x :: l => end_slot (Next x) l end.
Definition chain m s l : Prop := seg m s l /\ rd_slot (end_slot s l) m = Some 0.

Lemma seg_app m s l1 l2 : seg m s (l1 ++ l2) <-> seg m s l1 /\ seg m (end_slot s l1) l2.
Proof. revert s. induction l1 as [|x l1 IH]; intros s; simpl; [tauto|]. rewrite IH. tauto. Qed.
Lemma end_slot_app s l1 l2 : end_slot s (l1 ++ l2) = end_slot (end_slot s l1) l2.
Proof. revert s. induction l1 as [|x l1 IH]; intros s; simpl; [done|]. apply IH. Qed.
Lemma end_slot_in s l : end_slot s l = s \/ exists x, end_slot s l = Next x /\ x ∈ l.
Proof.
  revert s. induction l as [|x l IH]; intros s; simpl; [by left|]. right.
  destruct (IH (Next x)) as [->|(y & -> & Hy)]; [exists x|exists y]; (split; [done|]); [by left|by right].
Qed.

(** The slots a segment reads. *)
Fixpoint slots s l : list slot := match l with [] => [] | x :: l => s :: slots (Next x) l end.

Lemma seg_frame m m' s l :
  (forall r, r ∈ slots s l -> rd_slot r m' = rd_slot r m) -> (forall x, x ∈ l -> pp_of m' x = pp_of m x) ->
  seg m s l -> seg m' s l.
Proof.
  revert s. induction l as [|x l IH]; intros s Hr Hp; simpl; [done|]. intros (H1 & H2 & H3 & H4).
  split; [rewrite Hr by (by left); done|]. split; [done|]. split; [rewrite Hp by (by left); done|].
  apply IH; [intros r Hin; apply Hr; by right|intros y Hy; apply Hp; by right|done].
Qed.

Lemma slots_in s l r : r ∈ slots s l -> r = s \/ exists x, r = Next x /\ x ∈ l.
Proof.
  revert s. induction l as [|x l IH]; intros s; simpl; [by intros ?%elem_of_nil|]. rewrite elem_of_cons.
  intros [->|Hin]; [by left|]. right. destruct (IH _ Hin) as [->|(y & -> & Hy)]; [exists x|exists y]; (split; [done|]); [by left|by right].
Qed.

(** The pointer where a segment ends is none of those it reads. *)
Lemma end_slot_fresh s l : NoDup l -> (forall x, x ∈ l -> s <> Next x) -> end_slot s l ∉ slots s l.
Proof.
  revert s. induction l as [|x l IH]; intros s Hnd Hs; simpl; [apply not_elem_of_nil|]. inversion_clear Hnd as [|? ? Hx Hnd'].
  rewrite not_elem_of_cons. split.
  - destruct (end_slot_in (Next x) l) as [->|(y & -> & Hy)]; [|].
    + intros <-. by apply (Hs x); [left|].
    + intros <-. by apply (Hs y); [right|].
  - apply IH; [done|]. intros y Hy [=->]. done.
Qed.
End Chains.

(** ** What the stores do *)
Definition valid (m : mem) (x : Z) : Prop := is_Some (entries m !! x).
Definition frame (m m' : mem) : Prop := (forall x, valid m' x <-> valid m x) /\ hash_lock <$> table m' = hash_lock <$> table m.
#[export] Instance frame_preorder : PreOrder frame.
Proof. split; [done|]. intros m1 m2 m3 [? ?] [Hv ?]. split; [|congruence]. intros x. by rewrite Hv. Qed.

Lemma wr_slot_ok s v w m :
  rd_slot s m = Some w -> exists m', wr_slot s v m = Some m' /\ frame m m'
    /\ (forall r, rd_slot r m' = if decide (r = s) then Some v else rd_slot r m) /\ (forall x, pp_of m' x = pp_of m x).
Proof.
  intros E. destruct s as [i|x]; simpl in E.
  - destruct (table m !! i) as [b|] eqn:Eb; [|done]. simpl. rewrite Eb. simpl. eexists. split; [reflexivity|].
    split; [split; [done|]; simpl; rewrite list_fmap_insert; simpl; apply list_insert_id; by rewrite list_lookup_fmap, Eb|].
    split; [|done]. intros r. destruct (decide (r = Head i)) as [->|Hne]; simpl.
    + rewrite list_lookup_insert_eq; [done|]. by eapply lookup_lt_Some.
    + destruct r as [j|y]; simpl; [|done]. rewrite list_lookup_insert_ne; [done|congruence].
  - destruct (entries m !! x) as [e|] eqn:Ee; [|done]. simpl. unfold set_next. rewrite Ee. simpl. eexists. split; [reflexivity|].
    split; [split; [|done]|split].
    + intros y. unfold valid. simpl. destruct (decide (y = x)) as [->|]; [rewrite lookup_insert_eq, Ee; split; eauto|by rewrite lookup_insert_ne].
    + intros r. destruct (decide (r = Next x)) as [->|Hne]; simpl; [by rewrite lookup_insert_eq|].
      destruct r as [j|y]; simpl; [done|]. rewrite lookup_insert_ne; [done|congruence].
    + intros y. unfold pp_of. simpl. destruct (decide (y = x)) as [->|]; [by rewrite lookup_insert_eq, Ee|by rewrite lookup_insert_ne].
Qed.

Lemma set_pp_ok x s m :
  valid m x -> exists m', set_pp x s m = Some m' /\ frame m m'
    /\ (forall r, rd_slot r m' = rd_slot r m) /\ (forall y, pp_of m' y = if decide (y = x) then s else pp_of m y).
Proof.
  intros [e Ee]. unfold set_pp. rewrite Ee. simpl. eexists. split; [reflexivity|]. split; [split; [|done]|split].
  - intros y. unfold valid. simpl. destruct (decide (y = x)) as [->|]; [rewrite lookup_insert_eq, Ee; split; eauto|by rewrite lookup_insert_ne].
  - intros [j|y]; simpl; [done|]. destruct (decide (y = x)) as [->|]; [by rewrite lookup_insert_eq, Ee|by rewrite lookup_insert_ne].
  - intros y. unfold pp_of. simpl. case_decide as Hd; simplify_eq; [by rewrite lookup_insert_eq|by rewrite lookup_insert_ne].
Qed.

Lemma pp_valid m x s : pp_of m x = Some s -> valid m x.
Proof. unfold pp_of. intros E. apply bind_Some in E as (e & ? & _). by exists e. Qed.
Lemma rd_valid m x v : rd_slot (Next x) m = Some v -> valid m x.
Proof. simpl. intros E. apply fmap_Some in E as (e & ? & _). by exists e. Qed.
Lemma valid_rd m x : valid m x -> exists v, rd_slot (Next x) m = Some v.
Proof. intros [e E]. simpl. rewrite E. by eexists. Qed.

Arguments rd_slot : simpl never.

(** A new head [x] of the chain at [Head i]. *)
Lemma insert_ok m i x l :
  chain m (Head i) l -> HASH_LOCKED i m = true -> valid m x -> x <> 0 -> NoDup (x :: l) ->
  exists m', HASH_INSERT x i m = Some m' /\ chain m' (Head i) (x :: l) /\ frame m m'
    /\ (forall r, r <> Head i -> r <> Next x -> rd_slot r m' = rd_slot r m)
    /\ (forall y, y ∉ x :: l -> pp_of m' y = pp_of m y).
Proof.
  intros [Hseg Hend] Hlock Hv Hx Hnd. unfold HASH_INSERT. rewrite Hlock. unfold HASH_LOCKED in Hlock.
  destruct (table m !! i) as [b|] eqn:Eb; [|done]. cbn [mbind option_bind].
  assert (rd_slot (Head i) m = Some (hash_head b)) as Hhead by (unfold rd_slot; by rewrite Eb).
  destruct (valid_rd m x Hv) as [v0 Hv0].
  destruct (wr_slot_ok (Next x) (hash_head b) v0 m Hv0) as (m1 & E1 & F1 & R1 & P1). simpl in E1. rewrite E1. cbn [mbind option_bind].
  destruct (set_pp_ok x (Some (Head i)) m1) as (m2 & -> & F2 & R2 & P2); [by apply F1|]. cbn [mbind option_bind].
  destruct (wr_slot_ok (Head i) x (hash_head b) m2) as (m3 & E3 & F3 & R3 & P3).
  { by rewrite R2, R1, decide_False. }
  rewrite E3. cbn [mbind option_bind].
  assert (frame m m3) as F by (transitivity m1; [done|]; transitivity m2; done).
  assert (forall r, rd_slot r m3 = if decide (r = Head i) then Some x else if decide (r = Next x) then Some (hash_head b) else rd_slot r m) as R.
  { intros r. by rewrite R3, R2, R1. }
  assert (forall y, pp_of m3 y = if decide (y = x) then Some (Head i) else pp_of m y) as P by (intros y; by rewrite P3, P2, P1).
  change (HASH_NEXT x m3) with (rd_slot (Next x) m3). rewrite R, decide_False, decide_True by done. cbn [mbind option_bind].
  inversion_clear Hnd as [|? ? Hxl Hndl].
  destruct l as [|y l]; simpl in Hseg, Hend.
  - rewrite Hhead in Hend. injection Hend as Hz. rewrite Hz in *. simpl. exists m3. split; [done|]. split; [|split; [done|split]].
    + split; [simpl; split_and!; try done|simpl].
      * rewrite R, decide_True; done.
      * by rewrite P, decide_True.
      * change (rd_slot (Next x) m3 = Some 0). by rewrite R, decide_False, decide_True.
    + intros r ? ?. by rewrite R, !decide_False.
    + intros z Hz'. rewrite not_elem_of_cons in Hz'. rewrite P, decide_False; [done|tauto].
  - destruct Hseg as (H1 & H2 & H3 & H4). rewrite Hhead in H1. injection H1 as Hby. rewrite Hby in *. rewrite (proj2 (Z.eqb_neq y 0)) by done.
    destruct (set_pp_ok y (Some (Next x)) m3) as (m4 & -> & F4 & R4 & P4); [apply F; by eapply pp_valid|].
    rewrite not_elem_of_cons in Hxl. inversion_clear Hndl as [|? ? Hyl Hndl'].
    exists m4. split; [done|]. split; [|split; [by transitivity m3|split]].
    + split.
      * simpl. split_and!; try done.
        -- change (rd_slot (Head i) m4 = Some x). by rewrite R4, R, decide_True.
        -- rewrite P4, decide_False by tauto. by rewrite P, decide_True.
        -- change (rd_slot (Next x) m4 = Some y). by rewrite R4, R, decide_False, decide_True.
        -- by rewrite P4, decide_True.
        -- eapply seg_frame; [..|exact H4].
           ++ intros r Hr. rewrite R4, R. destruct (slots_in _ _ _ Hr) as [->|(z & -> & Hz)];
                rewrite !decide_False; try done; intros [=->]; tauto.
           ++ intros z Hz. rewrite P4, P, !decide_False; [done| |]; intros ->; tauto.
      * simpl. simpl in Hend. rewrite R4, R. destruct (end_slot_in (Next y) l) as [E|(z & E & Hz)]; rewrite E in *;
          rewrite !decide_False; try done; intros [=->]; tauto.
    + intros r ? ?. by rewrite R4, R, !decide_False.
    + intros z Hz. rewrite !not_elem_of_cons in Hz. rewrite P4, P, !decide_False; [done|tauto..].
Qed.

Lemma entry_of m x v s : rd_slot (Next x) m = Some v -> pp_of m x = Some s -> entries m !! x = Some (HashLink v (Some s)).
Proof.
  unfold rd_slot, pp_of. destruct (entries m !! x) as [[n p]|]; [|done]. simpl. by intros [= ->] ->.
Qed.

(** What one store to the pointer [s] and one to the back pointer of the first
    entry of [l] do to a chain that ends with [l]. *)
Lemma relink_ok m m' s l1 x l2 :
  NoDup (l1 ++ x :: l2) -> (forall y, y ∈ l1 ++ x :: l2 -> s <> Next y) -> chain m s (l1 ++ x :: l2) ->
  (forall r, rd_slot r m' = if decide (r = end_slot s l1) then rd_slot (Next x) m else rd_slot r m) ->
  (forall y, pp_of m' y = if decide (head l2 = Some y) then Some (end_slot s l1) else pp_of m y) ->
  chain m' s (l1 ++ l2).
Proof.
  intros Hnd Hs [Hseg Hend] R P. rewrite end_slot_app in Hend. simpl in Hend.
  apply seg_app in Hseg as [Hs1 (Hx & Hx0 & Hpx & Hs2)]. apply NoDup_app in Hnd as (Hn1 & Hd & Hn2).
  apply NoDup_cons in Hn2 as [Hxl Hn2].
  assert (forall y, y ∈ x :: l2 -> end_slot s l1 <> Next y) as Hfresh.
  { intros y Hy. destruct (end_slot_in s l1) as [->|(z & -> & Hz)]; [apply Hs; set_solver|].
    intros [= ->]. by apply (Hd y). }
  unfold chain. rewrite seg_app, end_slot_app. split; [split|].
  - eapply seg_frame; [..|exact Hs1].
    + intros r Hr. rewrite R, decide_False; [done|]. intros ->. revert Hr. apply end_slot_fresh; [done|]. intros y Hy. apply Hs. set_solver.
    + intros y Hy. rewrite P, decide_False; [done|]. destruct l2 as [|z l2]; [done|]. intros [= ->]. apply (Hd y Hy). set_solver.
  - destruct l2 as [|z l2]; [done|]. simpl in Hs2 |- *. destruct Hs2 as (Hz & Hz0 & Hpz & Hs2). apply NoDup_cons in Hn2 as [Hzl _].
    split; [by rewrite R, decide_True|]. split; [done|]. split; [by rewrite P, decide_True|].
    eapply seg_frame; [..|exact Hs2].
    + intros r Hr. rewrite R, decide_False; [done|]. intros ->.
      destruct (slots_in _ _ _ Hr) as [E|(w & E & Hw)]; apply Hfresh in E; set_solver.
    + intros w Hw. rewrite P, decide_False; [done|]. simpl. intros [= ->]. done.
  - destruct l2 as [|z l2]; simpl in *.
    + by rewrite R, decide_True.
    + rewrite R, decide_False; [done|].
      destruct (end_slot_in (Next z) l2) as [E|(w & E & Hw)]; rewrite E; intros E'; symmetry in E'; apply Hfresh in E'; set_solver.
Qed.

Lemma unchain_ok m s l1 x l2 :
  NoDup (l1 ++ x :: l2) -> (forall y, y ∈ l1 ++ x :: l2 -> s <> Next y) -> chain m s (l1 ++ x :: l2) ->
  exists m', unchain x m = Some m' /\ chain m' s (l1 ++ l2) /\ frame m m'
    /\ (forall r, r <> end_slot s l1 -> rd_slot r m' = rd_slot r m) /\ (forall y, y ∉ l2 -> pp_of m' y = pp_of m y).
Proof.
  intros Hnd Hs Hc. pose proof Hc as [Hseg Hend]. apply seg_app in Hseg as [Hs1 (Hx & Hx0 & Hpx & Hs2)].
  rewrite end_slot_app in Hend. simpl in Hend.
  destruct (valid_rd m x (pp_valid _ _ _ Hpx)) as [v Hv].
  unfold unchain. rewrite (entry_of _ _ _ _ Hv Hpx). cbn [mbind option_bind hash_pp hash_next].
  destruct (wr_slot_ok (end_slot s l1) v x m Hx) as (m1 & -> & F1 & R1 & P1). cbn [mbind option_bind].
  assert (end_slot s l1 <> Next x) as Hne.
  { destruct (end_slot_in s l1) as [->|(z & -> & Hz)]; [apply Hs; set_solver|]. intros [= ->].
    apply NoDup_app in Hnd as (_ & Hd & _). apply (Hd x Hz). set_solver. }
  rewrite (entry_of m1 x v (end_slot s l1)); [|by rewrite R1, decide_False|by rewrite P1]. cbn [mbind option_bind hash_pp hash_next].
  destruct l2 as [|z l2].
  - simpl in Hend. rewrite Hv in Hend. injection Hend as ->. simpl. exists m1. split_and!; [done| |done|intros; by rewrite R1, decide_False|intros; apply P1].
    by apply relink_ok with (m := m) (x := x); [..|intros r; rewrite R1, Hv|].
  - destruct Hs2 as (Hz & Hz0 & Hpz & Hs2). rewrite Hv in Hz. injection Hz as ->. rewrite (proj2 (Z.eqb_neq z 0)) by done.
    destruct (set_pp_ok z (Some (end_slot s l1)) m1) as (m2 & -> & F2 & R2 & P2); [apply F1; by eapply pp_valid|].
    exists m2. split_and!; [done| |by transitivity m1|intros; by rewrite R2, R1, decide_False|].
    + apply relink_ok with (m := m) (x := x); [done..|intros r; by rewrite R2, R1, Hv|].
      intros y. rewrite P2, P1. simpl. destruct (decide (y = z)), (decide (Some z = Some y)); congruence.
    + intros y Hy. rewrite P2, P1, decide_False; [done|set_solver].
Qed.

Lemma chain_valid m s l x : chain m s l -> x ∈ l -> valid m x.
Proof. intros [Hs _] (l1 & l2 & ->)%list_elem_of_split. apply seg_app in Hs as [_ (_ & _ & Hp & _)]. by eapply pp_valid. Qed.
Lemma chain_frame m m' s l :
  (forall r, r = s \/ (exists x, r = Next x /\ x ∈ l) -> rd_slot r m' = rd_slot r m) -> (forall x, x ∈ l -> pp_of m' x = pp_of m x) ->
  chain m s l -> chain m' s l.
Proof.
  intros Hr Hp [Hs He]. split; [eapply seg_frame; [|done|done]; intros r Hin; apply Hr; by apply slots_in|].
  rewrite Hr; [done|]. apply end_slot_in.
Qed.

Lemma HASH_UNCHAIN_ok m i l1 x l2 :
  NoDup (l1 ++ x :: l2) -> chain m (Head i) (l1 ++ x :: l2) -> HASH_LOCKED i m = true ->
  exists m', HASH_UNCHAIN x i m = Some m' /\ chain m' (Head i) (l1 ++ l2) /\ frame m m'
    /\ entries m' !! x = Some (HashLink 0 None)
    /\ (forall r, r <> Head i -> (forall y, y ∈ l1 ++ x :: l2 -> r <> Next y) -> rd_slot r m' = rd_slot r m)
    /\ (forall y, y ∉ l1 ++ x :: l2 -> pp_of m' y = pp_of m y).
Proof.
  intros Hnd Hc Hlock. pose proof Hnd as (_ & Hd & Hn2)%NoDup_app. apply NoDup_cons in Hn2 as [Hx2 _].
  assert (x ∉ l1) as Hx1 by (intros Hin; apply (Hd x Hin); set_solver).
  unfold HASH_UNCHAIN. rewrite Hlock. destruct (unchain_ok m (Head i) l1 x l2) as (m1 & -> & C1 & F1 & R1 & P1); [done..|].
  cbn [mbind option_bind]. assert (valid m x) as Hv by (eapply chain_valid; [exact Hc|set_solver]).
  destruct (valid_rd m1 x) as [v Hv1]; [by apply F1|].
  destruct (wr_slot_ok (Next x) 0 v m1 Hv1) as (m2 & E2 & F2 & R2 & P2). simpl in E2. rewrite E2. cbn [mbind option_bind].
  destruct (set_pp_ok x None m2) as (m3 & E3 & F3 & R3 & P3); [by apply F2, F1|].
  exists m3. split_and!; [done| |by do 2 (etransitivity; [eassumption|])| | |].
  - eapply chain_frame; [..|exact C1].
    + intros r Hr. rewrite R3, R2, decide_False; [done|]. intros ->. destruct Hr as [Hr|(y & [= ->] & Hy)]; [done|]. set_solver.
    + intros y Hy. rewrite P3, P2, decide_False; [done|]. intros ->. set_solver.
  - assert (rd_slot (Next x) m3 = Some 0) as Hr by (by rewrite R3, R2, decide_True).
    assert (pp_of m3 x = None) as Hp by (by rewrite P3, decide_True).
    unfold rd_slot, pp_of in *. destruct (entries m3 !! x) as [[n p]|]; simplify_eq/=. done.
  - intros r Hi Hn. rewrite R3, R2, decide_False by (apply Hn; set_solver). apply R1.
    destruct (end_slot_in (Head i) l1) as [->|(z & -> & Hz)]; [done|]. apply Hn. set_solver.
  - intros y Hy. rewrite P3, P2, decide_False by set_solver. apply P1. set_solver.
Qed.

(** The loop of [HASH_ITERATE] visits the chain and ends. *)
Lemma walk_chain m s l h : chain m s l -> rd_slot s m = Some h -> walk (S (length l)) h m = Some l.
Proof.
  revert s h. induction l as [|x l IH]; intros s h [Hseg Hend] Hh; simpl in *; [rewrite Hh in Hend; by injection Hend as ->|].
  destruct Hseg as (Hx & Hx0 & Hp & Hseg). rewrite Hh in Hx. injection Hx as ->. rewrite (proj2 (Z.eqb_neq x 0)) by done.
  destruct (valid_rd m x) as [v Hv]; [by eapply pp_valid|]. change (HASH_NEXT x m) with (rd_slot (Next x) m). rewrite Hv.
  cbn [mbind option_bind]. pose proof (IH (Next x) v (conj Hseg Hend) Hv) as E. simpl in E. by rewrite E.
Qed.

(** ** The table *)

(** What a table promises: buckets, each with its lock and its entries, the last
    inserted first.  The memory is given as each bucket sees it: all see the same
    one here, in [NfsIndex] the view depends on the bucket. *)
#[local] Notation buckets := (list (bool * list Z)).
Record table_ok (known : gset Z) (v : nat -> mem) (A : buckets) : Prop := {
  tab_known i x : x ∈ known -> valid (v i) x;
  tab_locks i : hash_lock <$> table (v i) = fst <$> A;
  tab_chain i b l : A !! i = Some (b, l) -> chain (v i) (Head i) l /\ NoDup l;
  tab_apart i j b b' l l' x : A !! i = Some (b, l) -> A !! j = Some (b', l') -> x ∈ l -> x ∈ l' -> i = j }.

Inductive op := Lock (i : nat) | Unlock (i : nat) | Insert (x : Z) (i : nat) | Unchain (x : Z) (i : nat).
Definition exec (o : op) : mem -> option mem :=
  match o with Lock i => HASH_LOCK i | Unlock i => HASH_UNLOCK i | Insert x i => HASH_INSERT x i | Unchain x i => HASH_UNCHAIN x i end.
Definition run (l : list op) (m : mem) : option mem := foldl (fun (r : option mem) o => m ← r; exec o m) (Some m) l.

Definition step (known : gset Z) (o : op) (A : buckets) : option buckets :=
  match o with
  | Lock i => match A !! i with Some (false, l) => Some (<[i := (true, l)]> A) | _ => None end
  | Unlock i => match A !! i with Some (true, l) => Some (<[i := (false, l)]> A) | _ => None end
  | Insert x i =>
      match A !! i with
      | Some (true, l) =>
          if bool_decide (x ∈ known /\ x <> 0 /\ Forall (fun q : bool * list Z => x ∉ q.2) A) then Some (<[i := (true, x :: l)]> A) else None
      | _ => None
      end
  | Unchain x i =>
      match A !! i with
      | Some (true, l) => if bool_decide (x ∈ l) then Some (<[i := (true, without x l)]> A) else None
      | _ => None
      end
  end.
Definition steps (known : gset Z) (l : list op) (A : buckets) : option buckets := foldl (fun (r : option buckets) o => A ← r; step known o A) (Some A) l.

Lemma locked_at known v A i j b l : table_ok known v A -> A !! i = Some (b, l) -> exists h, table (v j) !! i = Some (HashBucket h b).
Proof.
  intros Ht E. pose proof (f_equal (fun t => t !! i) (tab_locks _ _ _ Ht j)) as Hl. rewrite !list_lookup_fmap, E in Hl.
  destruct (table (v j) !! i) as [[h k]|]; simplify_eq/=. by exists h.
Qed.
Lemma held_at known v A i j l : table_ok known v A -> A !! i = Some (true, l) -> HASH_LOCKED i (v j) = true.
Proof. intros Ht E. destruct (locked_at _ _ _ _ j _ _ Ht E) as (h & Eh). unfold HASH_LOCKED. by rewrite Eh. Qed.

(** A step on bucket [i] that disturbs only the entries [K], none of them in
    another bucket. *)
Lemma bucket_step known v v' A i b l k (K : list Z) :
  table_ok known v A -> A !! i = Some (b, l) -> (forall j, frame (v j) (v' j)) -> chain (v' i) (Head i) k -> NoDup k ->
  (forall y, y ∈ k -> y ∈ K) -> (forall j c l' y, j <> i -> A !! j = Some (c, l') -> y ∈ l' -> y ∉ K) ->
  (forall j r, r <> Head i -> (forall y, y ∈ K -> r <> Next y) -> rd_slot r (v' j) = rd_slot r (v j)) ->
  (forall j y, y ∉ K -> pp_of (v' j) y = pp_of (v j) y) -> table_ok known v' (<[i := (b, k)]> A).
Proof.
  intros [Hk Hl Hc Ha] E F Hch Hnd HkK HK R P. pose proof (lookup_lt_Some _ _ _ E) as Hi. split.
  - intros j x Hx. by apply F, Hk.
  - intros j. rewrite (proj2 (F j)), Hl, list_fmap_insert. symmetry. apply list_insert_id. by rewrite list_lookup_fmap, E.
  - intros j c l' Ej. destruct (decide (j = i)) as [->|Hj]; [rewrite list_lookup_insert_eq in Ej by done; by simplify_eq|].
    rewrite list_lookup_insert_ne in Ej by done. destruct (Hc _ _ _ Ej) as [Hcj ?]. split; [|done].
    eapply chain_frame; [..|exact Hcj]; [intros r [->|(x & -> & Hx)]; apply R|intros x Hx; apply P; by eapply HK]; try congruence.
    intros y Hy [= ->]. by eapply (HK j).
  - intros j1 j2 c1 c2 k1 k2 x E1 E2 H1 H2.
    destruct (decide (j1 = i)) as [->|N1]; [rewrite list_lookup_insert_eq in E1 by done; simplify_eq|rewrite list_lookup_insert_ne in E1 by done];
      (destruct (decide (j2 = i)) as [->|N2]; [rewrite list_lookup_insert_eq in E2 by done; simplify_eq|rewrite list_lookup_insert_ne in E2 by done]);
      try done; [|destruct (HK _ _ _ x N1 E1)|by eapply Ha]; try by auto.
    destruct (HK _ _ _ x N2 E2); auto.
Qed.

(** The lock of a bucket taken or released. *)
Lemma relock known v v' A i b l :
  table_ok known v A -> A !! i = Some (b, l) -> (forall j, set_lock i b (negb b) (v j) = Some (v' j)) ->
  table_ok known v' (<[i := (negb b, l)]> A).
Proof.
  intros Ht E Hv. pose proof (fun j => locked_at known v A i j b l Ht E) as Hb. pose proof (lookup_lt_Some _ _ _ E) as Hi.
  assert (forall j, exists h, table (v j) !! i = Some (HashBucket h b) /\ v' j = Mem (<[i := HashBucket h (negb b)]> (table (v j))) (entries (v j))) as Hv'.
  { intros j. specialize (Hv j). destruct (Hb j) as (h & Eh). exists h. unfold set_lock in Hv. rewrite Eh in Hv. simpl in Hv.
    rewrite Bool.eqb_reflx in Hv. by injection Hv as <-. }
  destruct Ht as [Hk Hl Hc Ha].
  assert (forall j c l', <[i := (negb b, l)]> A !! j = Some (c, l') -> exists c', A !! j = Some (c', l')) as Hsame.
  { intros j c l' Ej. destruct (decide (j = i)) as [->|]; [rewrite list_lookup_insert_eq in Ej by done; simplify_eq; by exists b|].
    rewrite list_lookup_insert_ne in Ej by done. by exists c. }
  split.
  - intros j x Hx. destruct (Hv' j) as (h & _ & ->). unfold valid. simpl. by apply Hk.
  - intros j. destruct (Hv' j) as (h & _ & ->). simpl. by rewrite !list_fmap_insert, Hl.
  - intros j c l' (c' & Ej)%Hsame. destruct (Hc _ _ _ Ej) as [Hcj ?]. split; [|done]. destruct (Hv' j) as (h & Eh & ->).
    eapply chain_frame; [..|exact Hcj]; [|done]. intros [r|r] _; [|done]. unfold rd_slot. simpl.
    destruct (decide (r = i)) as [->|]; [|by rewrite list_lookup_insert_ne].
    rewrite list_lookup_insert_eq by (by eapply lookup_lt_Some). by rewrite Eh.
  - intros j1 j2 c1 c2 k1 k2 x (? & E1)%Hsame (? & E2)%Hsame. by eapply Ha.
Qed.
Lemma set_lock_ok known v A i b l :
  table_ok known v A -> A !! i = Some (b, l) -> forall j, exists m', set_lock i b (negb b) (v j) = Some m'.
Proof.
  intros Ht E j. destruct (locked_at _ _ _ _ j _ _ Ht E) as (h & Eh). unfold set_lock. rewrite Eh. simpl. rewrite Bool.eqb_reflx. by eexists.
Qed.

(** A free entry is in no bucket, and the entries of one are in no other. *)
Lemma free_apart known v A i b l x j c l' y :
  table_ok known v A -> A !! i = Some (b, l) -> Forall (fun q : bool * list Z => x ∉ q.2) A ->
  j <> i -> A !! j = Some (c, l') -> y ∈ l' -> y ∉ x :: l.
Proof.
  intros Ht E Hfree Hj Ej Hy [->|Hyl]%elem_of_cons; [rewrite Forall_lookup in Hfree; exact (Hfree _ _ Ej Hy)|].
  apply Hj. by eapply (tab_apart _ _ _ Ht).
Qed.

Lemma exec_step known m A o A' :
  table_ok known (fun _ => m) A -> step known o A = Some A' -> exists m', exec o m = Some m' /\ table_ok known (fun _ => m') A'.
Proof.
  intros Ht Hs. destruct o as [i|i|x i|x i]; simpl in Hs; destruct (A !! i) as [[b l]|] eqn:E; try done; destruct b; try done.
  1,2: simplify_eq; destruct (set_lock_ok _ _ _ _ _ _ Ht E 0%nat) as (m' & Em); exists m'; split; [exact Em|];
    exact (relock _ _ (fun _ => m') _ _ _ _ Ht E (fun _ => Em)).
  all: case_bool_decide as Hb; [|done]; simplify_eq/=.
  all: pose proof (held_at _ _ _ _ 0%nat _ Ht E) as Hlock; destruct (tab_chain _ _ _ Ht _ _ _ E) as [Hc Hnd].
  - destruct Hb as (Hx & Hx0 & Hfree).
    assert (NoDup (x :: l)) as Hnd' by (apply NoDup_cons; split; [exact (Forall_lookup_1 _ _ _ _ Hfree E)|done]).
    destruct (insert_ok m i x l) as (m' & Em & Hc' & F & R & P); [done|done|by apply (tab_known _ _ _ Ht 0%nat)|done|done|].
    exists m'. split; [done|]. eapply (bucket_step known (fun _ => m) (fun _ => m') A i true l (x :: l) (x :: l)); try done.
    + intros j c l' y. by eapply free_apart.
    + intros _ r ? Hr. apply R; [done|]. apply Hr. by left.
  - apply list_elem_of_split in Hb as (l1 & l2 & ->).
    destruct (HASH_UNCHAIN_ok m i l1 x l2) as (m' & Em & Hc' & F & _ & R & P); [done..|].
    exists m'. split; [done|]. rewrite without_split by done.
    eapply (bucket_step known (fun _ => m) (fun _ => m') A i true _ (l1 ++ l2) (l1 ++ x :: l2)); try done.
    + apply NoDup_app in Hnd as (? & ? & [? ?]%NoDup_cons). apply NoDup_app. set_solver.
    + set_solver.
    + intros j c l' y Hj Ej Hy Hyl. apply Hj. by eapply (tab_apart _ _ _ Ht).
Qed.

(** The loop on a bucket. *)
Lemma iterate_ok known v A i b k : table_ok known v A -> A !! i = Some (b, k) -> HASH_ITERATE (S (length k)) i (v i) = Some k.
Proof.
  intros Ht E. destruct (locked_at _ _ _ _ i _ _ Ht E) as (h & Eh). unfold HASH_ITERATE. rewrite Eh. simpl.
  apply (walk_chain (v i) (Head i)); [by eapply tab_chain|]. unfold rd_slot. by rewrite Eh.
Qed.

Lemma steps_cons known o l A A' : steps known (o :: l) A = Some A' -> exists A1, step known o A = Some A1 /\ steps known l A1 = Some A'.
Proof.
  unfold steps. simpl. destruct (step known o A) as [A1|]; [by exists A1|]. intros Hs. exfalso.
  induction l; simpl in Hs; [discriminate Hs|auto].
Qed.

(** C15: a table of IPsec hash chains behaves as a list of buckets: any sequence
    of locking, inserting and unchaining that is in order (each change under the
    lock of the bucket, no entry inserted twice, only entries of the bucket taken
    off) succeeds without a failed assertion or a bad pointer, leaves exactly the
    chains the same operations give on lists, and the loop of HASH_ITERATE on a
    bucket ends after visiting its entries in order. *)
Theorem hash_chain_refines known l m A A' :
  table_ok known (fun _ => m) A -> steps known l A = Some A' ->
  exists m', run l m = Some m' /\ table_ok known (fun _ => m') A'
    /\ (forall i b k, A' !! i = Some (b, k) -> HASH_ITERATE (S (length k)) i m' = Some k).
Proof.
  revert m A. induction l as [|o l IH]; intros m A Ht Hs.
  - injection Hs as <-. exists m. split; [done|]. split; [exact Ht|]. intros i b k E. exact (iterate_ok _ _ _ _ _ _ Ht E).
  - apply steps_cons in Hs as (A1 & E1 & Hs). destruct (exec_step _ _ _ _ _ Ht E1) as (m1 & Em & Ht1).
    unfold run. simpl. rewrite Em. by apply (IH m1 A1).
Qed.

Definition two_buckets : mem :=
  Mem [HashBucket 0 false; HashBucket 0 false] {[ 1 := HashLink 0 None; 2 := HashLink 0 None; 3 := HashLink 0 None ]}.
Definition fill_and_drop : list op :=
  [Lock 0; Insert 1 0; Insert 2 0; Insert 3 0; Unchain 2 0; Unlock 0; Lock 1; Insert 2 1; Unlock 1].

Lemma hash_chain_refines_witness :
  exists m', run fill_and_drop two_buckets = Some m' /\ HASH_ITERATE 3 0 m' = Some [3; 1] /\ HASH_ITERATE 2 1 m' = Some [2].
Proof.
  destruct (hash_chain_refines {[ 1; 2; 3 ]} fill_and_drop two_buckets [(false, []); (false, [])] [(false, [3; 1]); (false, [2])])
    as (m' & E & _ & Hi).
  - split.
    + intros _ x Hx. assert (x = 1 \/ x = 2 \/ x = 3) as [->|[->| ->]] by set_solver; by eexists.
    + intros _. reflexivity.
    + intros i b l E. destruct i as [|[|]]; simplify_eq/=; (split; [by repeat split|apply NoDup_nil_2]).
    + intros i j b b' l l' x E. destruct i as [|[|]]; simplify_eq/=; intros _ Hx; by apply elem_of_nil in Hx.
  - vm_compute. reflexivity.
  - exists m'. split; [done|]. split; [exact (Hi 0%nat _ _ eq_refl)|exact (Hi 1%nat _ _ eq_refl)].
Defined.
