(* ===== verification/NfsIndex.v ===== *)
(** * Indices of the NFS server's state tables: nfs/nfs4_db_impl.h

    [ENQUEUE_IDX] and [DEQUEUE_IDX] of [src/include/nfs/nfs4_db_impl.h] put a link
    on a hash chain and take it off under the writer lock of the bucket, and mark
    the entry it leads to as valid or invalid in the lowest bit of its address.
    The chains have a back pointer to the link before; seen from a bucket they are
    the chains of [HashChain], where the back pointer is the address of the pointer. *)
From S2P Require Import Prelude DList HashChain.
From stdpp Require Import gmap.
#[local] Open Scope Z_scope.

(** [rfs4_link] and [rfs4_bucket]; the lock is held by a writer or free. *)
Record rfs4_link := Link { next : Z; prev : Z; entry : Z }.
Record rfs4_bucket := Bucket { lock : bool; head : Z }.
Record index := Index { buckets : list rfs4_bucket; links : gmap Z rfs4_link }.

Definition on_link (l : Z) (f : rfs4_link -> rfs4_link) (d : index) : option index :=
  k ← links d !! l; Some (Index (buckets d) (<[l := f k]> (links d))).
Definition put_next (l x : Z) : index -> option index := on_link l (fun k => Link x (prev k) (entry k)).
Definition put_prev (l x : Z) : index -> option index := on_link l (fun k => Link (next k) x (entry k)).
Definition put_entry (l : Z) (f : Z -> Z) : index -> option index := on_link l (fun k => Link (next k) (prev k) (f (entry k))).
Definition put_head (bp : nat) (x : Z) (d : index) : option index :=
  b ← buckets d !! bp; Some (Index (<[bp := Bucket (lock b) x]> (buckets d)) (links d)).

Definition ENQUEUE (bp : nat) (l : Z) (d : index) : option index :=
  d ← put_prev l 0 d;
  b ← buckets d !! bp; d ← put_next l (head b) d;
  k ← links d !! l; d ← (if next k =? 0 then Some d else put_prev (next k) l d);
  put_head bp l d.
Definition DEQUEUE (bp : nat) (l : Z) (d : index) : option index :=
  k ← links d !! l;
  d ← (if prev k =? 0 then put_head bp (next k) d else put_next (prev k) (next k) d);
  k ← links d !! l; if next k =? 0 then Some d else put_prev (next k) (prev k) d.

Definition INVALIDATE_ADDR (a : Z) : Z := a .| 1.
Definition VALIDATE_ADDR (a : Z) : Z := a .& Z.lnot 1.
Definition INVALID_ADDR (a : Z) : Z := a .& 1.
Definition INVALID_LINK (l : rfs4_link) : Z := INVALID_ADDR (entry l).

(** [rw_enter] by a thread that finds the lock taken does not return here. *)
Definition rw_set (bp : nat) (old new : bool) (d : index) : option index :=
  b ← buckets d !! bp;
  if Bool.eqb (lock b) old then Some (Index (<[bp := Bucket new (head b)]> (buckets d)) (links d)) else None.
Definition rw_enter (bp : nat) (d : index) : option index := rw_set bp false true d.
Definition rw_exit (bp : nat) (d : index) : option index := rw_set bp true false d.

Definition ENQUEUE_IDX (bp : nat) (l : Z) (d : index) : option index :=
  d ← rw_enter bp d; d ← ENQUEUE bp l d; d ← put_entry l VALIDATE_ADDR d; rw_exit bp d.
Definition DEQUEUE_IDX (bp : nat) (l : Z) (d : index) : option index :=
  d ← rw_enter bp d; d ← put_entry l INVALIDATE_ADDR d; d ← DEQUEUE bp l d; rw_exit bp d.

(** ** The index as bucket [i] sees it *)
Definition as_slot (i : nat) (p : Z) : slot := if p =? 0 then Head i else Next p.
Definition as_link (i : nat) (k : rfs4_link) : hash_link := HashLink (next k) (Some (as_slot i (prev k))).
Definition as_bucket (b : rfs4_bucket) : hash_bucket := HashBucket (head b) (lock b).
Definition as_chain (i : nat) (d : index) : mem := Mem (as_bucket <$> buckets d) (as_link i <$> links d).

Lemma put_next_chain i l x d : as_chain i <$> put_next l x d = set_next l x (as_chain i d).
Proof.
  unfold put_next, on_link, set_next, as_chain. simpl. rewrite lookup_fmap. destruct (links d !! l) as [k|]; [|done]. simpl.
  by rewrite fmap_insert.
Qed.
Lemma put_prev_chain i l x d : as_chain i <$> put_prev l x d = set_pp l (Some (as_slot i x)) (as_chain i d).
Proof.
  unfold put_prev, on_link, set_pp, as_chain. simpl. rewrite lookup_fmap. destruct (links d !! l) as [k|]; [|done]. simpl.
  by rewrite fmap_insert.
Qed.
Lemma put_head_chain i bp x d : as_chain i <$> put_head bp x d = wr_slot (Head bp) x (as_chain i d).
Proof.
  unfold put_head, wr_slot, as_chain. simpl. rewrite list_lookup_fmap. destruct (buckets d !! bp) as [b|]; [|done]. simpl.
  by rewrite list_fmap_insert.
Qed.
Lemma rw_set_chain i bp old new d : as_chain i <$> rw_set bp old new d = set_lock bp old new (as_chain i d).
Proof.
  unfold rw_set, set_lock, as_chain. simpl. rewrite list_lookup_fmap. destruct (buckets d !! bp) as [b|]; [|done]. simpl.
  destruct (Bool.eqb _ _); [|done]. simpl. by rewrite list_fmap_insert.
Qed.
Lemma put_entry_chain i l f d d' : put_entry l f d = Some d' -> as_chain i d' = as_chain i d.
Proof.
  unfold put_entry, on_link, as_chain. intros E. apply bind_Some in E as (k & Ek & [= <-]). simpl. f_equal.
  rewrite fmap_insert. apply insert_id. by rewrite lookup_fmap, Ek.
Qed.
Lemma chain_link i l d : entries (as_chain i d) !! l = as_link i <$> links d !! l.
Proof. simpl. apply lookup_fmap. Qed.

(** Taking off is the same operation. *)
Lemma DEQUEUE_chain bp l d : as_chain bp <$> DEQUEUE bp l d = unchain l (as_chain bp d).
Proof.
  unfold DEQUEUE, unchain. rewrite chain_link. destruct (links d !! l) as [k|]; [|done]. cbn [mbind option_bind fmap option_fmap option_map as_link hash_pp hash_next].
  assert (as_chain bp <$> (if prev k =? 0 then put_head bp (next k) d else put_next (prev k) (next k) d)
          = wr_slot (as_slot bp (prev k)) (next k) (as_chain bp d)) as Hw.
  { unfold as_slot. destruct (prev k =? 0); [apply put_head_chain|apply put_next_chain]. }
  rewrite <- Hw. destruct (if prev k =? 0 then _ else _) as [d1|]; [|done]. cbn [mbind option_bind fmap option_fmap option_map].
  rewrite chain_link. destruct (links d1 !! l) as [k1|]; [|done]. cbn [mbind option_bind fmap option_fmap option_map as_link hash_pp hash_next].
  destruct (next k1 =? 0); [done|]. apply put_prev_chain.
Qed.

(** Putting on is the same operation in another order of stores. *)
Lemma set_next_pp x v s m : (m ← set_pp x s m; set_next x v m) = (m ← set_next x v m; set_pp x s m).
Proof.
  unfold set_pp, set_next. destruct (entries m !! x) as [e|] eqn:E; [|done]. simpl. rewrite !lookup_insert_eq. simpl. by rewrite !insert_insert_eq.
Qed.
Lemma set_pp_head x s i v m : (m ← set_pp x s m; wr_slot (Head i) v m) = (m ← wr_slot (Head i) v m; set_pp x s m).
Proof. unfold set_pp, wr_slot. destruct (entries m !! x) eqn:E, (table m !! i) eqn:E'; simpl; by rewrite ?E, ?E'. Qed.

Lemma ENQUEUE_chain bp l d :
  l <> 0 -> HASH_LOCKED bp (as_chain bp d) = true -> as_chain bp <$> ENQUEUE bp l d = HASH_INSERT l bp (as_chain bp d).
Proof.
  intros Hl Hlock. unfold HASH_INSERT, ENQUEUE. rewrite Hlock. unfold HASH_LOCKED in Hlock.
  destruct (buckets d !! bp) as [b|] eqn:Eb; [|simpl in Hlock; by rewrite list_lookup_fmap, Eb in Hlock].
  assert (forall i e, table (as_chain i e) !! bp = as_bucket <$> buckets e !! bp) as Ht by (intros; simpl; apply list_lookup_fmap).
  rewrite Ht, Eb. cbn [mbind option_bind fmap option_fmap option_map as_bucket hash_head].
  destruct (links d !! l) as [k|] eqn:El; [|unfold put_prev, on_link, set_next; rewrite chain_link, El; done].
  assert (exists d1, put_prev l 0 d = Some d1 /\ buckets d1 = buckets d /\ exists k1, links d1 !! l = Some k1) as (d1 & E1 & B1 & k1 & L1).
  { unfold put_prev, on_link. rewrite El. eexists. split; [reflexivity|]. split; [done|]. simpl. rewrite lookup_insert_eq. by eexists. }
  rewrite E1. cbn [mbind option_bind]. rewrite B1, Eb. cbn [mbind option_bind].
  assert (exists d2, put_next l (head b) d1 = Some d2 /\ buckets d2 = buckets d /\ exists k2, links d2 !! l = Some k2 /\ next k2 = head b)
    as (d2 & E2 & B2 & k2 & L2 & N2).
  { unfold put_next, on_link. rewrite L1. eexists. split; [reflexivity|]. split; [done|]. simpl. rewrite lookup_insert_eq. by eexists. }
  rewrite E2. cbn [mbind option_bind]. rewrite L2. cbn [mbind option_bind]. rewrite N2.
  assert ((m ← set_next l (head b) (as_chain bp d); set_pp l (Some (Head bp)) m) = Some (as_chain bp d2)) as Hm.
  { rewrite <- set_next_pp. change (Head bp) with (as_slot bp 0). rewrite <- put_prev_chain, E1. cbn [mbind option_bind fmap option_fmap option_map].
    by rewrite <- put_next_chain, E2. }
  destruct (set_next l (head b) (as_chain bp d)) as [m1|]; [|done]. cbn [mbind option_bind] in Hm |- *. rewrite Hm. cbn [mbind option_bind].
  assert (wr_slot (Head bp) l (as_chain bp d2) = Some (Mem (<[bp := HashBucket l (lock b)]> (table (as_chain bp d2))) (entries (as_chain bp d2)))) as Hw.
  { simpl. rewrite list_lookup_fmap, B2, Eb. done. }
  assert (HASH_NEXT l (Mem (<[bp := HashBucket l (lock b)]> (table (as_chain bp d2))) (entries (as_chain bp d2))) = Some (head b)) as Hn.
  { unfold HASH_NEXT. cbn [entries]. rewrite chain_link, L2. simpl. by rewrite N2. }
  rewrite Hw. cbn [mbind option_bind]. rewrite Hn. cbn [mbind option_bind]. destruct (head b =? 0) eqn:Eh.
  - cbn [mbind option_bind]. by rewrite put_head_chain, Hw.
  - assert (Next l = as_slot bp l) as -> by (unfold as_slot; by rewrite (proj2 (Z.eqb_neq l 0) Hl)).
    pose proof (set_pp_head (head b) (Some (as_slot bp l)) bp l (as_chain bp d2)) as Hc. rewrite Hw in Hc. cbn [mbind option_bind] in Hc.
    rewrite <- Hc, <- put_prev_chain. destruct (put_prev (head b) l d2) as [d3|]; [|done].
    cbn [mbind option_bind fmap option_fmap option_map]. apply put_head_chain.
Qed.

(** ** From one bucket to the others *)
Definition same_entries (d d' : index) : Prop := forall y, entry <$> links d' !! y = entry <$> links d !! y.
#[export] Instance same_entries_preorder : PreOrder same_entries.
Proof. split; [done|]. intros d1 d2 d3 H1 H2 y. by rewrite H2, H1. Qed.
Lemma on_link_entries l f d d' : (forall k, entry (f k) = entry k) -> on_link l f d = Some d' -> same_entries d d'.
Proof.
  intros Hf E. apply bind_Some in E as (k & Ek & [= <-]). intros y. simpl.
  destruct (decide (y = l)) as [->|]; [|by rewrite lookup_insert_ne]. rewrite lookup_insert_eq, Ek. simpl. by rewrite Hf.
Qed.
Lemma put_head_entries bp x d d' : put_head bp x d = Some d' -> same_entries d d'.
Proof. intros E. by apply bind_Some in E as (b & _ & [= <-]). Qed.

Lemma ENQUEUE_entries bp l d d' : ENQUEUE bp l d = Some d' -> same_entries d d'.
Proof.
  intros E. unfold ENQUEUE in E. apply bind_Some in E as (d1 & E1 & E). apply bind_Some in E as (b & _ & E).
  apply bind_Some in E as (d2 & E2 & E). apply bind_Some in E as (k & _ & E). apply bind_Some in E as (d3 & E3 & E).
  transitivity d1; [by eapply on_link_entries; [|exact E1]|]. transitivity d2; [by eapply on_link_entries; [|exact E2]|].
  transitivity d3; [|by eapply put_head_entries]. destruct (next k =? 0); [by injection E3 as <-|by eapply on_link_entries; [|exact E3]].
Qed.
Lemma DEQUEUE_entries bp l d d' : DEQUEUE bp l d = Some d' -> same_entries d d'.
Proof.
  intros E. unfold DEQUEUE in E. apply bind_Some in E as (k & _ & E). apply bind_Some in E as (d1 & E1 & E). apply bind_Some in E as (k1 & _ & E).
  transitivity d1.
  - destruct (prev k =? 0); [by eapply put_head_entries|by eapply on_link_entries; [|exact E1]].
  - destruct (next k1 =? 0); [by injection E as <-|by eapply on_link_entries; [|exact E]].
Qed.

Lemma rd_any i j r d : rd_slot r (as_chain i d) = rd_slot r (as_chain j d).
Proof. unfold rd_slot. destruct r as [?|x]; [done|]. rewrite !chain_link. by destruct (links d !! x). Qed.
Lemma as_slot_inj i p q : as_slot i p = as_slot i q -> p = q.
Proof. unfold as_slot. destruct (p =? 0) eqn:Ep, (q =? 0) eqn:Eq; try done; [|by intros [= ->]]. lia. Qed.
Lemma pp_any i j y d d' :
  pp_of (as_chain i d') y = pp_of (as_chain i d) y -> pp_of (as_chain j d') y = pp_of (as_chain j d) y.
Proof.
  unfold pp_of. rewrite !chain_link. destruct (links d' !! y), (links d !! y); simpl; try done. by intros [= ->%as_slot_inj].
Qed.
Lemma frame_any i j d d' : frame (as_chain i d) (as_chain i d') -> frame (as_chain j d) (as_chain j d').
Proof.
  intros [Hv Hl]. split; [|exact Hl]. intros x. specialize (Hv x). unfold valid in *. rewrite !chain_link in *. by rewrite !fmap_is_Some in *.
Qed.

(** A step on bucket [i], from what it does to the index as the bucket sees it. *)
Lemma index_step known d d' A i b l k (K : list Z) :
  table_ok known (fun i => as_chain i d) A -> A !! i = Some (b, l) -> frame (as_chain i d) (as_chain i d') -> chain (as_chain i d') (Head i) k ->
  NoDup k -> (forall y, y ∈ k -> y ∈ K) -> (forall j c l' y, j <> i -> A !! j = Some (c, l') -> y ∈ l' -> y ∉ K) ->
  (forall r, r <> Head i -> (forall y, y ∈ K -> r <> Next y) -> rd_slot r (as_chain i d') = rd_slot r (as_chain i d)) ->
  (forall y, y ∉ K -> pp_of (as_chain i d') y = pp_of (as_chain i d) y) -> table_ok known (fun i => as_chain i d') (<[i := (b, k)]> A).
Proof.
  intros Ht E F Hc Hnd HkK HK R P. eapply bucket_step; try done.
  - intros j. by eapply frame_any.
  - intros j r Hr HK'. simpl. rewrite (rd_any j i), (rd_any j i). by apply R.
  - intros j y Hy. simpl. apply (pp_any i). by apply P.
Qed.

(** ** The marks in the addresses *)
Definition addr (d : index) (x : Z) : option Z := entry <$> links d !! x.
Definition on (A : list (bool * list Z)) (x : Z) : Prop := exists i b l, A !! i = Some (b, l) /\ x ∈ l.
Definition marks (known : gset Z) (d : index) (A : list (bool * list Z)) : Prop :=
  forall x a, x ∈ known -> addr d x = Some a -> INVALID_ADDR a = 0 <-> on A x.

Lemma validate_valid a : INVALID_ADDR (VALIDATE_ADDR a) = 0.
Proof. unfold INVALID_ADDR, VALIDATE_ADDR. rewrite <- Z.land_assoc. apply Z.land_0_r. Qed.
Lemma invalidate_invalid a : INVALID_ADDR (INVALIDATE_ADDR a) <> 0.
Proof.
  unfold INVALID_ADDR, INVALIDATE_ADDR. intros E. apply (f_equal (fun z => Z.testbit z 0)) in E.
  rewrite Z.land_spec, Z.lor_spec, Z.bits_0 in E. change (Z.testbit 1 0) with true in E. by rewrite orb_true_r in E.
Qed.
Lemma validate_validate a : VALIDATE_ADDR (VALIDATE_ADDR a) = VALIDATE_ADDR a.
Proof. unfold VALIDATE_ADDR. by rewrite <- Z.land_assoc, Z.land_diag. Qed.
Lemma validate_invalidate a : VALIDATE_ADDR (INVALIDATE_ADDR a) = VALIDATE_ADDR a.
Proof. unfold VALIDATE_ADDR, INVALIDATE_ADDR. rewrite Z.land_lor_distr_l. change (Z.land 1 (Z.lnot 1)) with 0. apply Z.lor_0_r. Qed.

Lemma on_insert A i b l k x :
  A !! i = Some (b, l) -> forall c, on (<[i := (c, k)]> A) x <-> x ∈ k \/ exists j b' l', j <> i /\ A !! j = Some (b', l') /\ x ∈ l'.
Proof.
  intros E c. pose proof (lookup_lt_Some _ _ _ E) as Hi. split.
  - intros (j & b' & l' & Ej & Hx). destruct (decide (j = i)) as [->|Hj].
    + rewrite list_lookup_insert_eq in Ej by done. simplify_eq. by left.
    + rewrite list_lookup_insert_ne in Ej by done. right. by exists j, b', l'.
  - intros [Hx|(j & b' & l' & Hj & Ej & Hx)]; [exists i, c, k|exists j, b', l'].
    + by rewrite list_lookup_insert_eq.
    + by rewrite list_lookup_insert_ne.
Qed.
Lemma on_self A i b l x :
  A !! i = Some (b, l) -> on A x <-> x ∈ l \/ exists j b' l', j <> i /\ A !! j = Some (b', l') /\ x ∈ l'.
Proof. intros E. rewrite <- (on_insert A i b l l x E b). by rewrite list_insert_id. Qed.

(** ** The macros *)
Record index_ok (known : gset Z) (d : index) (A : list (bool * list Z)) : Prop := {
  idx_table : table_ok known (fun i => as_chain i d) A; idx_marks : marks known d A }.

Lemma table_ok_ext known v v' A : (forall i, v i = v' i) -> table_ok known v A -> table_ok known v' A.
Proof. intros Hv [Hk Hl Hc Ha]. split; [| | |exact Ha]; intros i *; rewrite <- Hv; [apply Hk|apply Hl|apply Hc]. Qed.

Lemma rw_ok known d A i b l :
  table_ok known (fun i => as_chain i d) A -> A !! i = Some (b, l) ->
  exists d', rw_set i b (negb b) d = Some d' /\ table_ok known (fun i => as_chain i d') (<[i := (negb b, l)]> A) /\ links d' = links d.
Proof.
  intros Ht E. destruct (set_lock_ok _ _ _ _ _ _ Ht E 0%nat) as (m' & Em). rewrite <- rw_set_chain in Em.
  apply fmap_Some in Em as (d' & Ed & _). exists d'. split; [done|]. split.
  - eapply relock; [exact Ht|exact E|]. intros j. simpl. by rewrite <- rw_set_chain, Ed.
  - unfold rw_set in Ed. apply bind_Some in Ed as (k & _ & Ed). destruct (Bool.eqb _ _); [|done]. by injection Ed as <-.
Qed.
Lemma put_entry_ok l f d i :
  valid (as_chain i d) l -> exists d', put_entry l f d = Some d' /\ (forall j, as_chain j d' = as_chain j d)
    /\ forall y, addr d' y = if decide (y = l) then f <$> addr d y else addr d y.
Proof.
  intros Hv. unfold valid in Hv. rewrite chain_link, fmap_is_Some in Hv. destruct Hv as [k Ek].
  assert (exists d', put_entry l f d = Some d') as [d' E] by (unfold put_entry, on_link; rewrite Ek; by eexists).
  exists d'. split; [done|]. split; [intros j; by eapply put_entry_chain|].
  unfold put_entry, on_link in E. rewrite Ek in E. injection E as <-. intros y. unfold addr. simpl.
  destruct (decide (y = l)) as [->|]; [by rewrite lookup_insert_eq, Ek|by rewrite lookup_insert_ne].
Qed.

Lemma ENQUEUE_ok known d A i l x :
  table_ok known (fun i => as_chain i d) A -> A !! i = Some (true, l) ->
  x ∈ known -> x <> 0 -> Forall (fun q : bool * list Z => x ∉ q.2) A ->
  exists d', ENQUEUE i x d = Some d' /\ table_ok known (fun i => as_chain i d') (<[i := (true, x :: l)]> A) /\ forall y, addr d' y = addr d y.
Proof.
  intros Ht E Hx Hx0 Hfree. pose proof (held_at _ _ _ _ i _ Ht E) as Hlock. destruct (tab_chain _ _ _ Ht _ _ _ E) as [Hc Hnd].
  assert (NoDup (x :: l)) as Hnd' by (apply NoDup_cons; split; [exact (Forall_lookup_1 _ _ _ _ Hfree E)|done]).
  destruct (insert_ok (as_chain i d) i x l) as (m' & Em & Hc' & F & R & P); [done|done|by apply (tab_known _ _ _ Ht)|done|done|].
  rewrite <- ENQUEUE_chain in Em by done. apply fmap_Some in Em as (d' & Ed & ->).
  exists d'. split; [done|]. split; [|exact (ENQUEUE_entries _ _ _ _ Ed)].
  eapply (index_step known d d' A i true l (x :: l) (x :: l)); try done.
  - intros j c l' y. by eapply free_apart.
  - intros r ? Hr. apply R; [done|]. apply Hr. by left.
Qed.

Lemma DEQUEUE_ok known d A i l x :
  table_ok known (fun i => as_chain i d) A -> A !! i = Some (true, l) -> x ∈ l ->
  exists d', DEQUEUE i x d = Some d' /\ table_ok known (fun i => as_chain i d') (<[i := (true, without x l)]> A) /\ forall y, addr d' y = addr d y.
Proof.
  intros Ht E (l1 & l2 & ->)%list_elem_of_split. destruct (tab_chain _ _ _ Ht _ _ _ E) as [Hc Hnd].
  destruct (unchain_ok (as_chain i d) (Head i) l1 x l2) as (m' & Em & Hc' & F & R & P); [done..|].
  rewrite <- DEQUEUE_chain in Em. apply fmap_Some in Em as (d' & Ed & ->).
  exists d'. split; [done|]. split; [|exact (DEQUEUE_entries _ _ _ _ Ed)]. rewrite without_split by done.
  eapply (index_step known d d' A i true _ (l1 ++ l2) (l1 ++ x :: l2)); try done.
  - apply NoDup_app in Hnd as (? & ? & [? ?]%NoDup_cons). apply NoDup_app. set_solver.
  - set_solver.
  - intros j c l' y Hj Ej Hy Hyl. apply Hj. by eapply (tab_apart _ _ _ Ht).
  - intros r Hr Hk. apply R. destruct (end_slot_in (Head i) l1) as [->|(z & -> & Hz)]; [done|]. apply Hk. set_solver.
  - intros y Hy. apply P. set_solver.
Qed.

(** The abstract steps of a macro: it holds the lock of the bucket meanwhile. *)
Inductive op := Enqueue (i : nat) (x : Z) | Dequeue (i : nat) (x : Z).
Definition exec (o : op) : index -> option index := match o with Enqueue i x => ENQUEUE_IDX i x | Dequeue i x => DEQUEUE_IDX i x end.
Definition ops_of (o : op) : list HashChain.op :=
  match o with Enqueue i x => [Lock i; HashChain.Insert x i; Unlock i] | Dequeue i x => [Lock i; Unchain x i; Unlock i] end.
Fixpoint run (l : list op) (d : index) : option index := match l with [] => Some d | o :: l => d ← exec o d; run l d end.
Fixpoint promised (known : gset Z) (l : list op) (A : list (bool * list Z)) : option (list (bool * list Z)) :=
  match l with [] => Some A | o :: l => match steps known (ops_of o) A with Some A => promised known l A | None => None end end.

(** What the steps of one macro ask for and leave. *)
Lemma enqueue_steps known i x A A' :
  steps known (ops_of (Enqueue i x)) A = Some A' ->
  exists l, A !! i = Some (false, l) /\ x ∈ known /\ x <> 0 /\ Forall (fun q : bool * list Z => x ∉ q.2) (<[i := (true, l)]> A)
    /\ A' = <[i := (false, x :: l)]> A.
Proof.
  intros (A1 & E1 & (A2 & E2 & (A3 & E3 & [= <-])%steps_cons)%steps_cons)%steps_cons. simpl in E1.
  destruct (A !! i) as [[[] l]|] eqn:E; simplify_eq. pose proof (lookup_lt_Some _ _ _ E) as Hi. simpl in E2.
  rewrite list_lookup_insert_eq in E2 by done. case_bool_decide as Hb; [|done]. injection E2 as <-. simpl in E3.
  rewrite list_insert_insert_eq, list_lookup_insert_eq in E3 by done. injection E3 as <-. rewrite list_insert_insert_eq.
  destruct Hb as (? & ? & ?). by exists l.
Qed.
Lemma dequeue_steps known i x A A' :
  steps known (ops_of (Dequeue i x)) A = Some A' ->
  exists l, A !! i = Some (false, l) /\ x ∈ l /\ A' = <[i := (false, without x l)]> A.
Proof.
  intros (A1 & E1 & (A2 & E2 & (A3 & E3 & [= <-])%steps_cons)%steps_cons)%steps_cons. simpl in E1.
  destruct (A !! i) as [[[] l]|] eqn:E; simplify_eq. pose proof (lookup_lt_Some _ _ _ E) as Hi. simpl in E2.
  rewrite list_lookup_insert_eq in E2 by done. case_bool_decide as Hb; [|done]. injection E2 as <-. simpl in E3.
  rewrite list_insert_insert_eq, list_lookup_insert_eq in E3 by done. injection E3 as <-. rewrite list_insert_insert_eq. by exists l.
Qed.

(** The marks after a macro that sets the mark of [x] to whether it is on a chain. *)
Lemma marks_set known d d' A A' x f :
  marks known d A -> (forall y, addr d' y = if decide (y = x) then f <$> addr d y else addr d y) ->
  (forall a, INVALID_ADDR (f a) = 0 <-> on A' x) -> (forall y, y <> x -> on A' y <-> on A y) -> marks known d' A'.
Proof.
  intros Hm Hd Hf Ho y a Hy Ea. rewrite Hd in Ea. destruct (decide (y = x)) as [->|Hyx]; [|rewrite (Ho y Hyx); by apply Hm].
  apply fmap_Some in Ea as (a' & _ & ->). apply Hf.
Qed.

Lemma ENQUEUE_IDX_ok known d A i x A' :
  index_ok known d A -> steps known (ops_of (Enqueue i x)) A = Some A' ->
  exists d', ENQUEUE_IDX i x d = Some d' /\ index_ok known d' A'
    /\ forall y, addr d' y = if decide (y = x) then VALIDATE_ADDR <$> addr d y else addr d y.
Proof.
  intros [Ht Hm] (l & E & Hx & Hx0 & Hfree & ->)%enqueue_steps. pose proof (lookup_lt_Some _ _ _ E) as Hi.
  destruct (rw_ok _ _ _ _ _ _ Ht E) as (d1 & E1 & Ht1 & L1). unfold ENQUEUE_IDX, rw_enter. simpl in E1. rewrite E1. cbn [mbind option_bind].
  destruct (ENQUEUE_ok known d1 (<[i := (true, l)]> A) i l x) as (d2 & -> & Ht2 & A2); [done|by rewrite list_lookup_insert_eq|done..|].
  cbn [mbind option_bind].
  destruct (put_entry_ok x VALIDATE_ADDR d2 i) as (d3 & -> & C3 & A3); [by apply (tab_known _ _ _ Ht2 i)|]. cbn [mbind option_bind].
  apply (table_ok_ext _ _ (fun j => as_chain j d3)) in Ht2; [|intros j; by rewrite C3].
  destruct (rw_ok _ _ _ i true (x :: l) Ht2) as (d4 & E4 & Ht4 & L4); [rewrite list_insert_insert_eq; by rewrite list_lookup_insert_eq|].
  rewrite !list_insert_insert_eq in Ht4. unfold rw_exit. simpl in E4, Ht4. exists d4. split; [done|].
  assert (forall y, addr d4 y = if decide (y = x) then VALIDATE_ADDR <$> addr d y else addr d y) as HA.
  { intros y. unfold addr at 1. rewrite L4. change (entry <$> links d3 !! y) with (addr d3 y). rewrite A3, !A2. unfold addr. by rewrite L1. }
  split; [split; [done|]|done]. eapply marks_set; [exact Hm|exact HA| |].
  - intros a. rewrite validate_valid, (on_insert A i _ _ _ _ E). split; [intros _; left; by left|done].
  - intros y Hyx. rewrite (on_insert A i _ _ _ _ E), (on_self A i _ _ _ E). rewrite elem_of_cons. naive_solver.
Qed.

Lemma DEQUEUE_IDX_ok known d A i x A' :
  index_ok known d A -> steps known (ops_of (Dequeue i x)) A = Some A' ->
  exists d', DEQUEUE_IDX i x d = Some d' /\ index_ok known d' A'
    /\ forall y, addr d' y = if decide (y = x) then INVALIDATE_ADDR <$> addr d y else addr d y.
Proof.
  intros [Ht Hm] (l & E & Hx & ->)%dequeue_steps. pose proof (lookup_lt_Some _ _ _ E) as Hi.
  destruct (tab_chain _ _ _ Ht _ _ _ E) as [Hc Hnd].
  destruct (rw_ok _ _ _ _ _ _ Ht E) as (d1 & E1 & Ht1 & L1). unfold DEQUEUE_IDX, rw_enter. simpl in E1. rewrite E1. cbn [mbind option_bind].
  destruct (tab_chain _ _ _ Ht1 i true l) as [Hc1 _]; [by rewrite list_lookup_insert_eq|].
  destruct (put_entry_ok x INVALIDATE_ADDR d1 i) as (d2 & -> & C2 & A2); [by eapply chain_valid|]. cbn [mbind option_bind].
  apply (table_ok_ext _ _ (fun j => as_chain j d2)) in Ht1; [|intros j; by rewrite C2].
  destruct (DEQUEUE_ok known d2 (<[i := (true, l)]> A) i l x) as (d3 & -> & Ht3 & A3); [done|by rewrite list_lookup_insert_eq|done..|].
  cbn [mbind option_bind].
  destruct (rw_ok _ _ _ i true (without x l) Ht3) as (d4 & E4 & Ht4 & L4); [rewrite list_insert_insert_eq; by rewrite list_lookup_insert_eq|].
  rewrite !list_insert_insert_eq in Ht4. unfold rw_exit. simpl in E4, Ht4. exists d4. split; [done|].
  assert (forall y, addr d4 y = if decide (y = x) then INVALIDATE_ADDR <$> addr d y else addr d y) as HA.
  { intros y. unfold addr at 1. rewrite L4. change (entry <$> links d3 !! y) with (addr d3 y). rewrite A3, A2. unfold addr. by rewrite L1. }
  assert (forall y, y ∈ without x l <-> y <> x /\ y ∈ l) as Hw by (intros y; unfold without; by rewrite list_elem_of_filter).
  split; [split; [done|]|done]. eapply marks_set; [exact Hm|exact HA| |].
  - intros a. rewrite (on_insert A i _ _ _ _ E). split; [intros Hv; by apply invalidate_invalid in Hv|].
    intros [[? _]%Hw|(j & b' & l' & Hj & Ej & Hxj)]; [done|]. destruct Hj. by eapply (tab_apart _ _ _ Ht).
  - intros y Hyx. rewrite (on_insert A i _ _ _ _ E), (on_self A i _ _ _ E), Hw. tauto.
Qed.

(** C14: an index of the NFS state tables behaves as a list of buckets: any
    sequence of ENQUEUE_IDX and DEQUEUE_IDX that puts on links not yet on a chain
    and takes off links of the bucket succeeds, leaves the chains the same
    operations give on lists with every lock free, a walk down a bucket ends after
    its links in order, a link is marked valid exactly while it is on a chain, and
    the address of the entry under the mark never changes. *)
Theorem nfs_index_refines known l d A A' :
  index_ok known d A -> promised known l A = Some A' ->
  exists d', run l d = Some d' /\ index_ok known d' A'
    /\ (forall i b k, A' !! i = Some (b, k) -> HASH_ITERATE (S (length k)) i (as_chain i d') = Some k)
    /\ (forall y, VALIDATE_ADDR <$> addr d' y = VALIDATE_ADDR <$> addr d y).
Proof.
  revert d A. induction l as [|o l IH]; intros d A Hd Hs; simpl in *.
  - injection Hs as <-. exists d. split; [done|]. split; [exact Hd|]. split; [|done]. intros i b k E.
    exact (iterate_ok _ _ _ _ _ _ (idx_table _ _ _ Hd) E).
  - destruct (steps known (ops_of o) A) as [A1|] eqn:E1; [|done].
    assert (exists d1, exec o d = Some d1 /\ index_ok known d1 A1 /\ forall y, VALIDATE_ADDR <$> addr d1 y = VALIDATE_ADDR <$> addr d y)
      as (d1 & Ed & Hd1 & Ha1).
    { destruct o as [i x|i x]; [destruct (ENQUEUE_IDX_ok _ _ _ _ _ _ Hd E1) as (d1 & ? & ? & Ha)|destruct (DEQUEUE_IDX_ok _ _ _ _ _ _ Hd E1) as (d1 & ? & ? & Ha)];
        exists d1; (split; [done|]); (split; [done|]); intros y; rewrite Ha; case_decide; try done;
        destruct (addr d y); simpl; by rewrite ?validate_validate, ?validate_invalidate. }
    rewrite Ed. cbn [mbind option_bind]. destruct (IH d1 A1 Hd1 Hs) as (d' & E' & Hd' & Hi & Ha). exists d'.
    split; [done|]. split; [done|]. split; [done|]. intros y. by rewrite Ha, Ha1.
Qed.

Definition two_chains : index :=
  Index [Bucket false 0; Bucket false 0] {[ 16 := Link 0 0 257; 32 := Link 0 0 513; 48 := Link 0 0 769 ]}.

Lemma nfs_index_refines_witness :
  exists d', run [Enqueue 0 16; Enqueue 0 32; Enqueue 1 48; Dequeue 0 16; Enqueue 1 16] two_chains = Some d'
    /\ HASH_ITERATE 2 0 (as_chain 0 d') = Some [32] /\ HASH_ITERATE 3 1 (as_chain 1 d') = Some [16; 48].
Proof.
  destruct (nfs_index_refines {[ 16; 32; 48 ]} [Enqueue 0 16; Enqueue 0 32; Enqueue 1 48; Dequeue 0 16; Enqueue 1 16] two_chains
    [(false, []); (false, [])] [(false, [32]); (false, [16; 48])]) as (d' & E & _ & Hi & _).
  - assert (forall x : Z, x ∈ ({[ 16; 32; 48 ]} : gset Z) -> x = 16 \/ x = 32 \/ x = 48) as Hx by set_solver.
    split; [split|].
    + intros i x [->|[->| ->]]%Hx; by eexists.
    + reflexivity.
    + intros i b l E. destruct i as [|[|]]; simplify_eq/=; (split; [by repeat split|apply NoDup_nil_2]).
    + intros i j b b' l l' x E. destruct i as [|[|]]; simplify_eq/=; intros _ Hin; by apply elem_of_nil in Hin.
    + intros x a [->|[->| ->]]%Hx [= <-]; (split; [done|]); intros (i & b & l & E & Hin); destruct i as [|[|]]; simplify_eq/=; by apply elem_of_nil in Hin.
  - vm_compute. reflexivity.
  - exists d'. split; [done|]. split; [exact (Hi 0%nat _ _ eq_refl)|exact (Hi 1%nat _ _ eq_refl)].
Defined.
