(* ===== verification/SerialRing.v ===== *)
(** * Receive buffers of the serial drivers: sys/asy.h and sys/pcmcia/pcser_var.h

    The ring of the async driver has two free-running 16-bit counters and 1024
    cells, each a character with its error marks; the soft silo of the PCMCIA
    driver has two pointers and a count.  Both are bounded queues: the operations
    of the first are shown to be those of a list as long as the guards the header
    offers ([RING_POK], [RING_GOK]) hold, whatever the counters, and the second to
    append or, when full, to forget everything. *)
From S2P Require Import Prelude.
From stdpp Require Import list.
#[local] Open Scope Z_scope.

(** ** Cells arranged in a circle *)
Section Circle.
Context (N : Z) (HN : 0 < N).
Implicit Types (ring l : list Z) (g x : Z).

Definition place (i : Z) : nat := Z.to_nat (i mod N).
(** [l] lies in the cells from [g] on. *)
Record held ring g l : Prop := {
  held_size : Z.of_nat (length ring) = N;
  held_fits : Z.of_nat (length l) <= N;
  held_cell k x : l !! k = Some x -> ring !! place (g + Z.of_nat k) = Some x }.

Lemma place_lt i : Z.of_nat (place i) < N.
Proof. unfold place. pose proof (Z.mod_pos_bound i N HN). lia. Qed.
Lemma place_inj g j k : 0 <= j < N -> 0 <= k < N -> place (g + j) = place (g + k) -> j = k.
Proof.
  unfold place. intros Hj Hk E. pose proof (Z.mod_pos_bound (g + j) N HN). pose proof (Z.mod_pos_bound (g + k) N HN).
  apply Z2Nat.inj in E; [|lia..]. pose proof (Z.div_mod (g + j) N ltac:(lia)). pose proof (Z.div_mod (g + k) N ltac:(lia)).
  assert ((g + j) / N = (g + k) / N) by nia. nia.
Qed.
Lemma place_mod i j : i mod N = j mod N -> place i = place j.
Proof. unfold place. by intros ->. Qed.

(** Only the cell of the counter matters. *)
Lemma held_mod ring g g' l : g mod N = g' mod N -> held ring g l -> held ring g' l.
Proof.
  intros E [Hs Hf Hc]. split; [done..|]. intros k x Hk. rewrite <- (Hc k x Hk). f_equal. apply place_mod.
  by rewrite (Z.add_mod g'), <- E, <- Z.add_mod by lia.
Qed.
Lemma held_push ring g l x :
  held ring g l -> Z.of_nat (length l) < N -> held (<[place (g + Z.of_nat (length l)) := x]> ring) g (l ++ [x]).
Proof.
  intros [Hs Hf Hc] Hl. pose proof (place_lt (g + Z.of_nat (length l))). split.
  - by rewrite length_insert.
  - rewrite length_app. simpl. lia.
  - intros k y [Hk|[Hk E]]%lookup_app_Some.
    + rewrite list_lookup_insert_ne; [by apply Hc|]. intros E. apply lookup_lt_Some in Hk. apply place_inj in E; lia.
    + apply list_lookup_singleton_Some in E as [E ->]. replace k with (length l) by lia. apply list_lookup_insert_eq. lia.
Qed.
Lemma held_skip ring g l n : held ring g l -> (n <= length l)%nat -> held ring (g + Z.of_nat n) (drop n l).
Proof.
  intros [Hs Hf Hc] Hn. split; [done|rewrite length_drop; lia|]. intros k x Hk. rewrite lookup_drop in Hk. rewrite <- (Hc _ _ Hk).
  do 2 f_equal. lia.
Qed.
Lemma held_prefix ring g l l' : held ring g (l ++ l') -> held ring g l.
Proof. intros [Hs Hf Hc]. split; [done|rewrite length_app in Hf; lia|]. intros k x Hk. apply Hc. by apply lookup_app_l_Some. Qed.
Lemma held_first ring g x l : held ring g (x :: l) -> ring !! place g = Some x.
Proof. intros [_ _ Hc]. specialize (Hc 0%nat x eq_refl). by rewrite Z.add_0_r in Hc. Qed.
Lemma held_set_first ring g x y l : held ring g (x :: l) -> held (<[place g := y]> ring) g (y :: l).
Proof.
  intros [Hs Hf Hc]. pose proof (place_lt g). simpl in Hf. split; [by rewrite length_insert|done|]. intros [|k] z Hk.
  - injection Hk as ->. rewrite Z.add_0_r. apply list_lookup_insert_eq. lia.
  - rewrite list_lookup_insert_ne; [by apply Hc|]. rewrite <- (Z.add_0_r g) at 1. intros E. apply lookup_lt_Some in Hk. simpl in Hk.
    apply place_inj in E; lia.
Qed.
Lemma held_empty ring g : Z.of_nat (length ring) = N -> held ring g [].
Proof. intros Hs. split; [done|simpl; lia|]. by intros k x Hk. Qed.
End Circle.

(** ** The ring of the async driver *)
Definition OVERRUN : Z := 0x4000.
Definition FRERROR : Z := 0x2000.
Definition PERROR : Z := 0x1000.
Definition S_ERRORS : Z := PERROR .| OVERRUN .| FRERROR.
Definition RINGBITS : Z := 10.
Definition RINGSIZE : Z := 1 <<< RINGBITS.
Definition RINGMASK : Z := RINGSIZE - 1.
Definition RINGFRAC : Z := 8.

Record asyncline := Async { async_rput : Z; async_rget : Z; async_ring : list Z }.

(** A store to a cell: outside the array there is none. *)
Definition put_cell (i v : Z) (ap : asyncline) : option asyncline :=
  if (Z.to_nat i <? length (async_ring ap))%nat then Some (Async (async_rput ap) (async_rget ap) (<[Z.to_nat i := v]> (async_ring ap))) else None.
Definition get_cell (i : Z) (ap : asyncline) : option Z := async_ring ap !! Z.to_nat i.
Definition set_rput (x : Z) (ap : asyncline) : asyncline := Async (u16 x) (async_rget ap) (async_ring ap).
Definition set_rget (x : Z) (ap : asyncline) : asyncline := Async (async_rput ap) (u16 x) (async_ring ap).

Definition RING_INIT (ap : asyncline) : asyncline := Async 0 0 (async_ring ap).
Definition RING_CNT (ap : asyncline) : Z :=
  if async_rput ap >=? async_rget ap then async_rput ap - async_rget ap else (0x10000 - async_rget ap) + async_rput ap.
(** The casts to [int] of the tests below change no count, which is below [2 ^ 17],
    and no [n] of type [int]. *)
Definition RING_FRAC (ap : asyncline) : bool := RING_CNT ap >=? RINGSIZE / RINGFRAC.
Definition RING_POK (ap : asyncline) (n : Z) : bool := RING_CNT ap <? RINGSIZE - n.
Definition RING_PUT (c : Z) (ap : asyncline) : option asyncline :=
  put_cell (async_rput ap .& RINGMASK) (u8 c) (set_rput (async_rput ap + 1) ap).
Definition RING_UNPUT (ap : asyncline) : asyncline := set_rput (async_rput ap - 1) ap.
Definition RING_GOK (ap : asyncline) (n : Z) : bool := RING_CNT ap >=? n.
Definition RING_GET (ap : asyncline) : option (Z * asyncline) :=
  v ← get_cell (async_rget ap .& RINGMASK) ap; Some (v, set_rget (async_rget ap + 1) ap).
Definition RING_EAT (n : Z) (ap : asyncline) : asyncline := set_rget (async_rget ap + n) ap.
Definition RING_MARK (c s : Z) (ap : asyncline) : option asyncline :=
  put_cell (async_rput ap .& RINGMASK) (u16 (u8 c .| s)) (set_rput (async_rput ap + 1) ap).
Definition RING_UNMARK (ap : asyncline) : option asyncline :=
  v ← get_cell (async_rget ap .& RINGMASK) ap; put_cell (async_rget ap .& RINGMASK) (u16 (v .& Z.lnot S_ERRORS)) ap.
Definition RING_ERR (c : Z) (ap : asyncline) : option Z := v ← get_cell (async_rget ap .& RINGMASK) ap; Some (v .& c).

(** *** The queue the ring holds *)
Record ring_ok (ap : asyncline) (l : list Z) : Prop := {
  ring_rput : in_u 16 (async_rput ap);
  ring_rget : in_u 16 (async_rget ap);
  ring_count : async_rput ap = u16 (async_rget ap + Z.of_nat (length l));
  ring_held : held RINGSIZE (async_ring ap) (async_rget ap) l }.

Lemma ring_index x : x .& RINGMASK = x mod RINGSIZE.
Proof. change RINGMASK with (Z.ones 10). by rewrite Z.land_ones. Qed.
Lemma u16_ring x : u16 x mod RINGSIZE = x mod RINGSIZE.
Proof. change RINGSIZE with 1024. unfold wrapu. symmetry. apply Znumtheory.Zmod_div_mod; [lia..|]. by exists 64. Qed.

(** The distance of the counters, across their wrap. *)
Lemma RING_CNT_ok ap l : ring_ok ap l -> RING_CNT ap = Z.of_nat (length l).
Proof.
  intros [Hp Hg Hc [_ Hf _]]. change RINGSIZE with 1024 in Hf. unfold in_u in *. unfold RING_CNT. change (2 ^ 16) with 65536 in *.
  rewrite Hc. unfold wrapu. change (2 ^ 16) with 65536. destruct (Z.geb_spec ((async_rget ap + Z.of_nat (length l)) mod 65536) (async_rget ap)); Z.to_euclidean_division_equations; lia.
Qed.

Lemma put_cell_ok ap l v i :
  i = async_rget ap + Z.of_nat (length l) -> ring_ok ap l -> Z.of_nat (length l) < RINGSIZE ->
  exists ap', put_cell (async_rput ap .& RINGMASK) v (set_rput (async_rput ap + 1) ap) = Some ap' /\ ring_ok ap' (l ++ [v]).
Proof.
  intros -> [Hp Hg Hc Hh] Hl. unfold put_cell. rewrite ring_index, Hc, u16_ring. simpl.
  fold (place RINGSIZE (async_rget ap + Z.of_nat (length l))).
  pose proof (place_lt RINGSIZE ltac:(done) (async_rget ap + Z.of_nat (length l))) as Hpl. pose proof (held_size _ _ _ _ Hh) as Hs.
  rewrite (proj2 (Nat.ltb_lt _ _)) by lia. eexists. split; [reflexivity|]. split; simpl; [apply wrapu_range; lia|done| |by apply held_push].
  rewrite length_app. simpl. apply wrapu_mod; [lia|]. unfold wrapu. rewrite Z.add_mod_idemp_l by lia. f_equal. lia.
Qed.

(** Both counters moved from the front on. *)
Lemma eat_ok ap l n :
  ring_ok ap l -> (n <= length l)%nat -> ring_ok (RING_EAT (Z.of_nat n) ap) (drop n l).
Proof.
  intros [Hp Hg Hc Hh] Hn. split; simpl; [done|apply wrapu_range; lia| |].
  - rewrite Hc, length_drop. apply wrapu_mod; [lia|]. unfold wrapu. rewrite Z.add_mod_idemp_l by lia. f_equal. lia.
  - eapply held_mod; [done| |by apply held_skip]. by rewrite u16_ring.
Qed.

(** What the driver may do, and the queue it leaves; guards as [RING_POK] and
    [RING_GOK] test them. *)
Inductive op := Put (c : Z) | Unput | Get | Eat (n : Z) | Mark (c s : Z) | Unmark | Init.
Definition exec (o : op) (ap : asyncline) : option (list Z * asyncline) :=
  match o with
  | Put c => ap ← RING_PUT c ap; Some ([], ap)
  | Unput => Some ([], RING_UNPUT ap)
  | Get => '(v, ap) ← RING_GET ap; Some ([v], ap)
  | Eat n => Some ([], RING_EAT n ap)
  | Mark c s => ap ← RING_MARK c s ap; Some ([], ap)
  | Unmark => ap ← RING_UNMARK ap; Some ([], ap)
  | Init => Some ([], RING_INIT ap)
  end.
Fixpoint run (os : list op) (ap : asyncline) : option (list Z * asyncline) :=
  match os with [] => Some ([], ap) | o :: os => '(out, ap) ← exec o ap; '(out', ap) ← run os ap; Some (out ++ out', ap) end.

Definition queue_op (o : op) (l : list Z) : option (list Z * list Z) :=
  match o with
  | Put c => if Z.of_nat (length l) <? RINGSIZE then Some ([], l ++ [u8 c]) else None
  | Mark c s => if Z.of_nat (length l) <? RINGSIZE then Some ([], l ++ [u16 (u8 c .| s)]) else None
  | Unput => match l with [] => None | _ => Some ([], removelast l) end
  | Get => match l with [] => None | v :: l => Some ([v], l) end
  | Eat n => if (0 <=? n) && (n <=? Z.of_nat (length l)) then Some ([], drop (Z.to_nat n) l) else None
  | Unmark => match l with [] => None | v :: l => Some ([], u16 (v .& Z.lnot S_ERRORS) :: l) end
  | Init => Some ([], [])
  end.
Fixpoint queue_run (os : list op) (l : list Z) : option (list Z * list Z) :=
  match os with
  | [] => Some ([], l)
  | o :: os => '(out, l) ← queue_op o l; '(out', l) ← queue_run os l; Some (out ++ out', l)
  end.

Lemma exec_ok o ap l out l' :
  ring_ok ap l -> queue_op o l = Some (out, l') -> exists ap', exec o ap = Some (out, ap') /\ ring_ok ap' l'.
Proof.
  intros Hr Hq. pose proof Hr as [Hp Hg Hc Hh]. destruct o as [c| | |n|c s| |]; simpl in Hq |- *.
  - destruct (Z.ltb_spec (Z.of_nat (length l)) RINGSIZE); simplify_eq. destruct (put_cell_ok ap l (u8 c) _ eq_refl Hr) as (ap' & E & ?); [done|].
    unfold RING_PUT. rewrite E. by exists ap'.
  - destruct l as [|x l]; simplify_eq. eexists. split; [reflexivity|].
    assert (x :: l = removelast (x :: l) ++ [List.last (x :: l) 0]) as E by (by apply app_removelast_last).
    rewrite E in Hc, Hh. set (k := removelast (x :: l)) in *. unfold RING_UNPUT. split; simpl; [apply wrapu_range; lia|done| |by eapply held_prefix].
    rewrite Hc, length_app. simpl. apply wrapu_mod; [lia|]. unfold wrapu. rewrite Zminus_mod_idemp_l. f_equal. lia.
  - destruct l as [|v l]; simplify_eq. unfold RING_GET, get_cell. rewrite ring_index. fold (place RINGSIZE (async_rget ap)).
    rewrite (held_first _ _ _ _ _ Hh). simpl. eexists. split; [reflexivity|]. apply (eat_ok ap _ 1 Hr). simpl. lia.
  - destruct (Z.leb_spec 0 n), (Z.leb_spec n (Z.of_nat (length l))); simplify_eq/=. eexists. split; [reflexivity|].
    rewrite <- (Z2Nat.id n) at 1 by lia. apply eat_ok; [done|]. lia.
  - destruct (Z.ltb_spec (Z.of_nat (length l)) RINGSIZE); simplify_eq. destruct (put_cell_ok ap l (u16 (u8 c .| s)) _ eq_refl Hr) as (ap' & E & ?); [done|].
    unfold RING_MARK. rewrite E. by exists ap'.
  - destruct l as [|v l]; simplify_eq. unfold RING_UNMARK, get_cell, put_cell. rewrite ring_index. fold (place RINGSIZE (async_rget ap)).
    rewrite (held_first _ _ _ _ _ Hh). simpl. pose proof (place_lt RINGSIZE ltac:(done) (async_rget ap)). pose proof (held_size _ _ _ _ Hh).
    rewrite (proj2 (Nat.ltb_lt _ _)) by lia. simpl. eexists. split; [reflexivity|]. split; simpl; try done. by eapply held_set_first.
  - simplify_eq. eexists. split; [reflexivity|]. split; simpl; try done. apply held_empty; [done|]. by eapply held_size.
Qed.

(** C17: the ring of the async driver is a queue: whatever values the 16-bit
    counters have reached, any sequence of the macros that puts at most 1024
    characters in and takes out only what is there stays inside the array, gives
    out the characters (with their marks) in the order they came in, and the tests
    RING_CNT, RING_POK, RING_GOK, RING_FRAC and RING_ERR tell the truth about the
    queue. *)
Theorem ring_refines os ap l out l' :
  ring_ok ap l -> queue_run os l = Some (out, l') ->
  exists ap', run os ap = Some (out, ap') /\ ring_ok ap' l' /\ RING_CNT ap' = Z.of_nat (length l')
    /\ (forall n, RING_POK ap' n = true <-> Z.of_nat (length l') + n < 1024)
    /\ (forall n, RING_GOK ap' n = true <-> n <= Z.of_nat (length l'))
    /\ (RING_FRAC ap' = true <-> 128 <= Z.of_nat (length l'))
    /\ (forall c v k, l' = v :: k -> RING_ERR c ap' = Some (v .& c)).
Proof.
  revert ap l out. induction os as [|o os IH]; intros ap l out Hr Hq; simpl in Hq |- *.
  - simplify_eq. exists ap. pose proof (RING_CNT_ok _ _ Hr) as Hc. unfold RING_POK, RING_GOK, RING_FRAC. rewrite Hc.
    change RINGSIZE with 1024. change (1024 / RINGFRAC) with 128. split_and!; [done|done|done|intros n; lia|intros n; lia|lia|].
    intros c v k ->. unfold RING_ERR, get_cell. rewrite ring_index. fold (place RINGSIZE (async_rget ap)).
    by rewrite (held_first _ _ _ _ _ (ring_held _ _ Hr)).
  - apply bind_Some in Hq as ([out1 l1] & E1 & Hq). apply bind_Some in Hq as ([out2 l2] & E2 & Hq). simplify_eq.
    destruct (exec_ok _ _ _ _ _ Hr E1) as (ap1 & -> & Hr1). simpl. destruct (IH _ _ _ Hr1 E2) as (ap' & -> & Hrest). simpl. by exists ap'.
Qed.

(** A ring whose counters are about to wrap. *)
Definition late_ring : asyncline := Async 65535 65535 (replicate 1024 0).
Lemma ring_refines_witness :
  exists ap', run [Put 65; Mark 66 PERROR; Put 67; Get; Unput; Unmark; Get] late_ring = Some ([65; 66], ap') /\ RING_CNT ap' = 0.
Proof.
  destruct (ring_refines [Put 65; Mark 66 PERROR; Put 67; Get; Unput; Unmark; Get] late_ring [] [65; 66] []) as (ap' & E & _ & Hc & _).
  - split; [by vm_compute..|]. apply held_empty; reflexivity.
  - reflexivity.
  - exists ap'. split; [exact E|exact Hc].
Defined.

(** Without the guard the ring runs over: the character put in as number 1025
    takes the place of the first, and the count exceeds the cells. *)
Lemma ring_overruns :
  exists ap, run (replicate 1024 (Put 65) ++ [Put 66]) (Async 0 0 (replicate 1024 0)) = Some ([], ap)
    /\ RING_CNT ap = 1025 /\ exists ap', RING_GET ap = Some (66, ap').
Proof. eexists. split; [vm_compute; reflexivity|]. split; [reflexivity|]. eexists. vm_compute. reflexivity. Qed.

(** ** The soft silo of the PCMCIA driver *)
Definition PCSER_SILOSIZE : Z := 1024.

(** The silo of a line: pointers are offsets from [pcser_ssilo], [rest] is the
    other state of the line. *)
Record silo (R : Type) := Silo { pcser_sscnt : Z; pcser_source : Z; pcser_sink : Z; pcser_ssilo : list Z; rest : R }.
Arguments Silo {R} _ _ _ _ _. Arguments pcser_sscnt {R} _. Arguments pcser_source {R} _. Arguments pcser_sink {R} _.
Arguments pcser_ssilo {R} _. Arguments rest {R} _.

Section Silo.
(** [CHECK_RTS_OFF] and [CHECK_RTS_ON] look at the line and change its modem
    signals; [report] is [cmn_err]. *)
Context {R : Type} (CHECK_RTS_OFF CHECK_RTS_ON : silo R -> R) (report : R -> R).
Implicit Types (line : silo R).
Definition set_rest (r : R) line : silo R := Silo (pcser_sscnt line) (pcser_source line) (pcser_sink line) (pcser_ssilo line) r.

Definition FLUSHSILO line : silo R := Silo 0 0 0 (pcser_ssilo line) (rest line).
Definition PUTSILO (c : Z) line : option (silo R) :=
  if pcser_sscnt line <? PCSER_SILOSIZE then
    let source := if pcser_source line =? PCSER_SILOSIZE then 0 else pcser_source line in
    if (Z.to_nat source <? length (pcser_ssilo line))%nat then
      let line := Silo (pcser_sscnt line + 1) (source + 1) (pcser_sink line) (<[Z.to_nat source := u8 c]> (pcser_ssilo line)) (rest line) in
      Some (set_rest (CHECK_RTS_OFF line) line)
    else None
  else let line := FLUSHSILO line in let line := set_rest (CHECK_RTS_ON line) line in Some (set_rest (report (rest line)) line).

(** The characters between sink and source; both may stand past the last cell. *)
Record silo_ok line (l : list Z) : Prop := {
  silo_count : pcser_sscnt line = Z.of_nat (length l);
  silo_source : 0 <= pcser_source line <= PCSER_SILOSIZE;
  silo_place : pcser_source line mod PCSER_SILOSIZE = (pcser_sink line + Z.of_nat (length l)) mod PCSER_SILOSIZE;
  silo_held : held PCSER_SILOSIZE (pcser_ssilo line) (pcser_sink line) l }.

Definition silo_put (l : list Z) (c : Z) : list Z := if Z.of_nat (length l) <? PCSER_SILOSIZE then l ++ [u8 c] else [].

Lemma PUTSILO_ok c line l : silo_ok line l -> exists line', PUTSILO c line = Some line' /\ silo_ok line' (silo_put l c).
Proof.
  intros [Hc Hs Hp Hh]. unfold PUTSILO, silo_put. rewrite Hc. destruct (Z.ltb_spec (Z.of_nat (length l)) PCSER_SILOSIZE) as [Hl|Hl].
  - set (src := if _ =? _ then 0 else _). pose proof (held_size _ _ _ _ Hh) as Hsz.
    assert (0 <= src < PCSER_SILOSIZE /\ src = pcser_source line mod PCSER_SILOSIZE) as [Hsrc Esrc].
    { unfold src, PCSER_SILOSIZE in *. destruct (Z.eqb_spec (pcser_source line) 1024) as [->|]; [done|]. rewrite Z.mod_small; lia. }
    rewrite Esrc, Hp in *. fold (place PCSER_SILOSIZE (pcser_sink line + Z.of_nat (length l))).
    pose proof (place_lt PCSER_SILOSIZE ltac:(done) (pcser_sink line + Z.of_nat (length l))).
    rewrite (proj2 (Nat.ltb_lt _ _)) by lia. eexists. split; [reflexivity|]. split; simpl.
    + rewrite length_app. simpl. lia.
    + lia.
    + rewrite length_app. simpl. rewrite Z.add_mod_idemp_l by done. f_equal. lia.
    + by apply held_push.
  - eexists. split; [reflexivity|]. split; simpl; [done|done|done|]. apply held_empty; [done|]. by eapply held_size.
Qed.

(** PUTSILO never writes outside the silo: it appends the character while
    there is room, and on a full silo drops all that is in it and the character
    as well, whatever the functions that set the modem signals do and wherever the
    consumer has left the sink. *)
Theorem silo_refines cs line l :
  silo_ok line l ->
  exists line', foldl (fun s c => s ≫= PUTSILO c) (Some line) cs = Some line' /\ silo_ok line' (foldl silo_put l cs)
    /\ 0 <= pcser_sscnt line' <= PCSER_SILOSIZE.
Proof.
  revert line l. induction cs as [|c cs IH]; intros line l Hs; simpl.
  - exists line. split; [done|]. split; [done|]. destruct Hs as [-> _ _ [_ ? _]]. lia.
  - destruct (PUTSILO_ok c line l Hs) as (line1 & -> & Hs1). by apply IH.
Qed.
End Silo.

(** A silo with one cell left, at the end of the array. *)
Definition nearly_full : silo Z := Silo 1023 1023 0 (replicate 1024 7) 0.
Lemma silo_refines_witness :
  exists line', foldl (fun s c => s ≫= PUTSILO (fun l => pcser_sscnt l) (fun _ => 0) (fun r => r) c) (Some nearly_full) [65; 66; 67] = Some line'
    /\ pcser_sscnt line' = 1 /\ silo_ok line' [67].
Proof.
  destruct (silo_refines (fun l => pcser_sscnt l) (fun _ => 0) (fun r => r) [65; 66; 67] nearly_full (replicate 1023 7)) as (line' & E & Hs & _).
  - split; [done|done|done|]. split; [done|done|]. intros k x [-> Hk]%lookup_replicate. apply lookup_replicate. split; [done|].
    unfold place. change (pcser_sink nearly_full) with 0. rewrite Z.mod_small; unfold PCSER_SILOSIZE; lia.
  - exists line'. split; [exact E|]. change (foldl _ _ _) with [67] in Hs. split; [exact (silo_count _ _ Hs)|exact Hs].
Defined.
