(* ===== verification/Mdi.v ===== *)
(** * States of multipath devices: sys/mdi_impldefs.h and sys/sunmdi.h

    The word that holds the state of a path to a device, with the macros that
    drive it through its transitions, and the flag words of the host controllers
    (pHCI) and of the client devices.  A path word is one of five states, the mark
    of a transition under way and three independent reasons to be disabled; the
    flag words are sets of flags. *)
From S2P Require Import Prelude.
From stdpp Require Import base list.
#[local] Open Scope Z_scope.

(** ** Paths *)
Inductive mdi_pathinfo_state_t :=
  MDI_PATHINFO_STATE_INIT | MDI_PATHINFO_STATE_ONLINE | MDI_PATHINFO_STATE_STANDBY | MDI_PATHINFO_STATE_FAULT | MDI_PATHINFO_STATE_OFFLINE.
#[export] Instance pathinfo_state_eq_dec : EqDecision mdi_pathinfo_state_t.
Proof. solve_decision. Defined.
(** The enumeration counts from 0. *)
Definition path_code (s : mdi_pathinfo_state_t) : Z :=
  match s with
  | MDI_PATHINFO_STATE_INIT => 0 | MDI_PATHINFO_STATE_ONLINE => 1 | MDI_PATHINFO_STATE_STANDBY => 2
  | MDI_PATHINFO_STATE_FAULT => 3 | MDI_PATHINFO_STATE_OFFLINE => 4
  end.
Definition MDI_PATHINFO_STATE_TRANSIENT : Z := 0x00010000.
Definition MDI_PATHINFO_STATE_USER_DISABLE : Z := 0x00100000.
Definition MDI_PATHINFO_STATE_DRV_DISABLE : Z := 0x00200000.
Definition MDI_PATHINFO_STATE_DRV_DISABLE_TRANSIENT : Z := 0x00400000.
Definition MDI_PATHINFO_STATE_MASK : Z := 0x0000FFFF.
Definition MDI_PATHINFO_EXT_STATE_MASK : Z := 0xFFF00000.

(** The two state words of [struct mdi_pathinfo]; no bit above 2^22 is ever set,
    so it does not matter whether the enumeration is a signed type. *)
Record mdi_pathinfo := Path { pi_state : Z; pi_old_state : Z }.
Definition set_state (x : Z) (p : mdi_pathinfo) : mdi_pathinfo := Path x (pi_old_state p).
Definition MDI_PI_STATE (p : mdi_pathinfo) : Z := pi_state p .& MDI_PATHINFO_STATE_MASK.
Definition MDI_PI_OLD_STATE (p : mdi_pathinfo) : Z := pi_old_state p .& MDI_PATHINFO_STATE_MASK.
Definition MDI_PI_EXT_STATE (p : mdi_pathinfo) : Z := pi_state p .& MDI_PATHINFO_EXT_STATE_MASK.
Definition MDI_PI_OLD_EXT_STATE (p : mdi_pathinfo) : Z := pi_old_state p .& MDI_PATHINFO_EXT_STATE_MASK.

(** [MDI_PI_SET_ONLINING] and the like; [MDI_PI_SET_ONLINE] and the like. *)
Definition set_going (s : mdi_pathinfo_state_t) (p : mdi_pathinfo) : mdi_pathinfo :=
  let ext_state := pi_state p .& MDI_PATHINFO_EXT_STATE_MASK in
  let p := Path (pi_state p) (MDI_PI_STATE p) in
  let p := set_state (path_code s .| MDI_PATHINFO_STATE_TRANSIENT) p in
  set_state (pi_state p .| ext_state) p.
Definition set_there (s : mdi_pathinfo_state_t) (p : mdi_pathinfo) : mdi_pathinfo :=
  let ext_state := pi_state p .& MDI_PATHINFO_EXT_STATE_MASK in
  let p := set_state (path_code s) p in set_state (pi_state p .| ext_state) p.

Inductive pi_macro :=
  | MDI_PI_SET_TRANSIENT | MDI_PI_CLEAR_TRANSIENT
  | MDI_PI_SET_USER_DISABLE | MDI_PI_SET_DRV_DISABLE | MDI_PI_SET_DRV_DISABLE_TRANS
  | MDI_PI_SET_USER_ENABLE | MDI_PI_SET_DRV_ENABLE | MDI_PI_SET_DRV_ENABLE_TRANS
  | MDI_PI_SET_INIT | MDI_PI_SET_ONLINING | MDI_PI_SET_ONLINE | MDI_PI_SET_OFFLINING | MDI_PI_SET_OFFLINE
  | MDI_PI_SET_STANDBYING | MDI_PI_SET_STANDBY | MDI_PI_SET_FAULTING | MDI_PI_SET_FAULT.
Definition pi_exec (m : pi_macro) (p : mdi_pathinfo) : mdi_pathinfo :=
  match m with
  | MDI_PI_SET_TRANSIENT => set_state (pi_state p .| MDI_PATHINFO_STATE_TRANSIENT) p
  | MDI_PI_CLEAR_TRANSIENT => set_state (pi_state p .& Z.lnot MDI_PATHINFO_STATE_TRANSIENT) p
  | MDI_PI_SET_USER_DISABLE => set_state (pi_state p .| MDI_PATHINFO_STATE_USER_DISABLE) p
  | MDI_PI_SET_DRV_DISABLE => set_state (pi_state p .| MDI_PATHINFO_STATE_DRV_DISABLE) p
  | MDI_PI_SET_DRV_DISABLE_TRANS => set_state (pi_state p .| MDI_PATHINFO_STATE_DRV_DISABLE_TRANSIENT) p
  | MDI_PI_SET_USER_ENABLE => set_state (pi_state p .& Z.lnot MDI_PATHINFO_STATE_USER_DISABLE) p
  | MDI_PI_SET_DRV_ENABLE => set_state (pi_state p .& Z.lnot MDI_PATHINFO_STATE_DRV_DISABLE) p
  | MDI_PI_SET_DRV_ENABLE_TRANS => set_state (pi_state p .& Z.lnot MDI_PATHINFO_STATE_DRV_DISABLE_TRANSIENT) p
  | MDI_PI_SET_INIT => set_state (path_code MDI_PATHINFO_STATE_INIT) p
  | MDI_PI_SET_ONLINING => set_going MDI_PATHINFO_STATE_ONLINE p
  | MDI_PI_SET_ONLINE => set_there MDI_PATHINFO_STATE_ONLINE p
  | MDI_PI_SET_OFFLINING => set_going MDI_PATHINFO_STATE_OFFLINE p
  | MDI_PI_SET_OFFLINE => set_there MDI_PATHINFO_STATE_OFFLINE p
  | MDI_PI_SET_STANDBYING => set_going MDI_PATHINFO_STATE_STANDBY p
  | MDI_PI_SET_STANDBY => set_there MDI_PATHINFO_STATE_STANDBY p
  | MDI_PI_SET_FAULTING => set_going MDI_PATHINFO_STATE_FAULT p
  | MDI_PI_SET_FAULT => set_there MDI_PATHINFO_STATE_FAULT p
  end.

(** The tests, as the truth values they have in a condition. *)
Definition MDI_PI_IS_TRANSIENT (p : mdi_pathinfo) : bool := negb (pi_state p .& MDI_PATHINFO_STATE_TRANSIENT =? 0).
Definition MDI_PI_IS_USER_DISABLE (p : mdi_pathinfo) : bool := negb (pi_state p .& MDI_PATHINFO_STATE_USER_DISABLE =? 0).
Definition MDI_PI_IS_DRV_DISABLE (p : mdi_pathinfo) : bool := negb (pi_state p .& MDI_PATHINFO_STATE_DRV_DISABLE =? 0).
Definition MDI_PI_IS_DRV_DISABLE_TRANSIENT (p : mdi_pathinfo) : bool :=
  negb (pi_state p .& MDI_PATHINFO_STATE_DRV_DISABLE_TRANSIENT =? 0).
Definition MDI_PI_IS_DISABLE (p : mdi_pathinfo) : bool :=
  MDI_PI_IS_USER_DISABLE p || MDI_PI_IS_DRV_DISABLE p || MDI_PI_IS_DRV_DISABLE_TRANSIENT p.
(** [MDI_PI_IS_INIT], [_ONLINE], [_OFFLINE], [_STANDBY], [_FAULT]; and
    [MDI_PI_IS_INITING], [_ONLINING], [_OFFLINING]. *)
Definition MDI_PI_IS (s : mdi_pathinfo_state_t) (p : mdi_pathinfo) : bool := pi_state p .& MDI_PATHINFO_STATE_MASK =? path_code s.
Definition MDI_PI_IS_ING (s : mdi_pathinfo_state_t) (p : mdi_pathinfo) : bool :=
  pi_state p .& Z.lnot MDI_PATHINFO_EXT_STATE_MASK =? path_code s .| MDI_PATHINFO_STATE_TRANSIENT.

(** *** What a path is *)
Record path := APath { base : mdi_pathinfo_state_t; transient : bool; user_off : bool; drv_off : bool; drv_off_trans : bool;
                       old : mdi_pathinfo_state_t }.
Definition with_disable (u d t : bool) (a : path) : path := APath (base a) (transient a) u d t (old a).
Definition start (s : mdi_pathinfo_state_t) (a : path) : path := APath s true (user_off a) (drv_off a) (drv_off_trans a) (base a).
Definition finish (s : mdi_pathinfo_state_t) (a : path) : path := APath s false (user_off a) (drv_off a) (drv_off_trans a) (old a).
Definition mark_transient (b : bool) (a : path) : path := APath (base a) b (user_off a) (drv_off a) (drv_off_trans a) (old a).
Definition path_step (m : pi_macro) (a : path) : path :=
  match m with
  | MDI_PI_SET_TRANSIENT => mark_transient true a
  | MDI_PI_CLEAR_TRANSIENT => mark_transient false a
  | MDI_PI_SET_USER_DISABLE => with_disable true (drv_off a) (drv_off_trans a) a
  | MDI_PI_SET_DRV_DISABLE => with_disable (user_off a) true (drv_off_trans a) a
  | MDI_PI_SET_DRV_DISABLE_TRANS => with_disable (user_off a) (drv_off a) true a
  | MDI_PI_SET_USER_ENABLE => with_disable false (drv_off a) (drv_off_trans a) a
  | MDI_PI_SET_DRV_ENABLE => with_disable (user_off a) false (drv_off_trans a) a
  | MDI_PI_SET_DRV_ENABLE_TRANS => with_disable (user_off a) (drv_off a) false a
  | MDI_PI_SET_INIT => APath MDI_PATHINFO_STATE_INIT false false false false (old a)
  | MDI_PI_SET_ONLINING => start MDI_PATHINFO_STATE_ONLINE a
  | MDI_PI_SET_ONLINE => finish MDI_PATHINFO_STATE_ONLINE a
  | MDI_PI_SET_OFFLINING => start MDI_PATHINFO_STATE_OFFLINE a
  | MDI_PI_SET_OFFLINE => finish MDI_PATHINFO_STATE_OFFLINE a
  | MDI_PI_SET_STANDBYING => start MDI_PATHINFO_STATE_STANDBY a
  | MDI_PI_SET_STANDBY => finish MDI_PATHINFO_STATE_STANDBY a
  | MDI_PI_SET_FAULTING => start MDI_PATHINFO_STATE_FAULT a
  | MDI_PI_SET_FAULT => finish MDI_PATHINFO_STATE_FAULT a
  end.

Definition word_of (a : path) : mdi_pathinfo :=
  Path (path_code (base a) + (if transient a then 2 ^ 16 else 0) + (if user_off a then 2 ^ 20 else 0)
        + (if drv_off a then 2 ^ 21 else 0) + (if drv_off_trans a then 2 ^ 22 else 0)) (path_code (old a)).

Lemma exec_word m a : pi_exec m (word_of a) = word_of (path_step m a).
Proof. destruct a as [[] [] [] [] [] []], m; reflexivity. Qed.

Record tells (p : mdi_pathinfo) (a : path) : Prop := {
  tells_state s : MDI_PI_IS s p = true <-> base a = s;
  tells_going s : MDI_PI_IS_ING s p = true <-> base a = s /\ transient a = true;
  tells_code : MDI_PI_STATE p = path_code (base a);
  tells_old : MDI_PI_OLD_STATE p = path_code (old a);
  tells_old_ext : MDI_PI_OLD_EXT_STATE p = 0;
  tells_transient : MDI_PI_IS_TRANSIENT p = transient a;
  tells_user : MDI_PI_IS_USER_DISABLE p = user_off a;
  tells_drv : MDI_PI_IS_DRV_DISABLE p = drv_off a;
  tells_drv_trans : MDI_PI_IS_DRV_DISABLE_TRANSIENT p = drv_off_trans a;
  tells_disable : MDI_PI_IS_DISABLE p = user_off a || drv_off a || drv_off_trans a }.
Lemma word_tells a : tells (word_of a) a.
Proof.
  assert (forall s, MDI_PI_IS s (word_of a) = bool_decide (base a = s)
    /\ MDI_PI_IS_ING s (word_of a) = bool_decide (base a = s) && transient a) as H
    by (intros s; destruct a as [[] [] [] [] [] o], s; done).
  split; [intros s|intros s|..].
  - rewrite (proj1 (H s)). apply bool_decide_eq_true.
  - rewrite (proj2 (H s)), andb_true_iff. by rewrite bool_decide_eq_true.
  - by destruct a as [[] [] [] [] [] []].
  - by destruct a as [[] [] [] [] [] []].
  - by destruct a as [[] [] [] [] [] []].
  - by destruct a as [[] [] [] [] [] []].
  - by destruct a as [[] [] [] [] [] []].
  - by destruct a as [[] [] [] [] [] []].
  - by destruct a as [[] [] [] [] [] []].
  - by destruct a as [[] [] [] [] [] []].
Qed.

(** C26: through any sequence of the macros the two state words of a path stay the
    encoding of a state, a transition mark, three reasons to be disabled and the
    state before the last transition: each macro does to these what its name says
    and nothing else, so starting and finishing transitions keeps the path
    disabled, only MDI_PI_SET_INIT forgets the reasons, and each reason is undone
    only by its own macro.  Every test tells the truth; a path in transition already
    counts as being in the state it goes to. *)
Theorem mdi_path_refines ms a :
  let p := foldl (fun p m => pi_exec m p) (word_of a) ms in
  let b := foldl (fun a m => path_step m a) a ms in
  p = word_of b /\ tells p b.
Proof.
  revert a. induction ms as [|m ms IH]; intros a; simpl; [split; [done|apply word_tells]|]. rewrite exec_word. apply IH.
Qed.

(** ** Words of flags *)

(** A word and the flags in it, each with a bit of its own. *)
Class Flags (G : Type) `{EqDecision G} (bit : G -> Z) := {
  place : G -> Z; place_ok g : 0 <= place g /\ bit g = 2 ^ place g; place_inj g h : place g = place h -> g = h }.

Section Words.
Context {G : Type} `{EqDecision G} {bit : G -> Z} `{!Flags G bit}.
Definition has (f : Z) (g : G) : bool := Z.testbit f (place g).

Lemma flag_bit g i : Z.testbit (bit g) i = bool_decide (i = place g).
Proof.
  destruct (place_ok g) as [H0 ->]. rewrite Z.pow2_bits_eqb by done. destruct (Z.eqb_spec (place g) i) as [->|]; [by rewrite bool_decide_true|].
  rewrite bool_decide_false; [done|congruence].
Qed.
Lemma set_flag f g i : Z.testbit (f .| bit g) i = if decide (i = place g) then true else Z.testbit f i.
Proof.
  rewrite Z.lor_spec, flag_bit. case_decide; [rewrite bool_decide_true by done; apply orb_true_r|]. by rewrite bool_decide_false, orb_false_r.
Qed.
Lemma clear_flag f g i : Z.testbit (f .& Z.lnot (bit g)) i = if decide (i = place g) then false else Z.testbit f i.
Proof.
  destruct (decide (0 <= i)) as [Hi|Hi]; [|rewrite !(Z.testbit_neg_r _ i) by lia; by case_decide].
  rewrite Z.land_spec, Z.lnot_spec, flag_bit by done. case_decide; [rewrite bool_decide_true by done; apply andb_false_r|].
  by rewrite bool_decide_false, andb_true_r.
Qed.
Lemma test_flag f g : negb (f .& bit g =? 0) = has f g.
Proof.
  destruct (Z.eqb_spec (f .& bit g) 0) as [E|E]; simpl.
  - apply (f_equal (fun z => Z.testbit z (place g))) in E. rewrite Z.land_spec, flag_bit, bool_decide_true, andb_true_r, Z.bits_0 in E by done. done.
  - destruct (has f g) eqn:H; [done|]. destruct E. apply Z.bits_inj'. intros i _. rewrite Z.land_spec, flag_bit, Z.bits_0.
    case_bool_decide as Hi; [rewrite Hi; by rewrite andb_true_r|apply andb_false_r].
Qed.

(** Macros that each assign one flag. *)
Definition assigns {M : Type} (exec : M -> Z -> Z) (target : M -> G * bool) : Prop :=
  forall m f i, Z.testbit (exec m f) i = if decide (i = place (target m).1) then (target m).2 else Z.testbit f i.
(** What a flag is after a sequence of assignments. *)
Definition after {M : Type} (target : M -> G * bool) (ms : list M) (g : G) (b : bool) : bool :=
  foldl (fun b m => if decide ((target m).1 = g) then (target m).2 else b) b ms.

Lemma assigns_run {M : Type} (exec : M -> Z -> Z) target ms f :
  assigns exec target -> let f' := foldl (fun f m => exec m f) f ms in
  (forall g, has f' g = after target ms g (has f g)) /\ (forall i, (forall g, i <> place g) -> Z.testbit f' i = Z.testbit f i).
Proof.
  intros Ha. revert f. induction ms as [|m ms IH]; intros f; simpl; [done|]. destruct (IH (exec m f)) as [Hg Hi]. split.
  - intros g. rewrite Hg. f_equal. unfold has. rewrite Ha. destruct (decide ((target m).1 = g)) as [->|Hne].
    + by rewrite decide_True.
    + rewrite decide_False; [done|]. intros E%place_inj. done.
  - intros i Hn. rewrite Hi by done. rewrite Ha. by rewrite decide_False.
Qed.
End Words.

(** *** Host controllers *)
Inductive phci_flag :=
  | MDI_PHCI_FLAGS_OFFLINE | MDI_PHCI_FLAGS_SUSPEND | MDI_PHCI_FLAGS_POWER_DOWN | MDI_PHCI_FLAGS_DETACH
  | MDI_PHCI_FLAGS_USER_DISABLE | MDI_PHCI_FLAGS_D_DISABLE | MDI_PHCI_FLAGS_D_DISABLE_TRANS | MDI_PHCI_FLAGS_POWER_TRANSITION.
#[export] Instance phci_flag_eq_dec : EqDecision phci_flag.
Proof. solve_decision. Defined.
Definition phci_bit (g : phci_flag) : Z :=
  match g with
  | MDI_PHCI_FLAGS_OFFLINE => 0x1 | MDI_PHCI_FLAGS_SUSPEND => 0x2 | MDI_PHCI_FLAGS_POWER_DOWN => 0x4 | MDI_PHCI_FLAGS_DETACH => 0x8
  | MDI_PHCI_FLAGS_USER_DISABLE => 0x10 | MDI_PHCI_FLAGS_D_DISABLE => 0x20 | MDI_PHCI_FLAGS_D_DISABLE_TRANS => 0x40
  | MDI_PHCI_FLAGS_POWER_TRANSITION => 0x80
  end.
#[export] Program Instance phci_flags : Flags phci_flag phci_bit := {| place g := Z.log2 (phci_bit g) |}.
Next Obligation. by intros []. Qed.
Next Obligation. by intros [] []. Qed.

Definition MDI_PHCI_DISABLE_MASK : Z :=
  Z.lnot (phci_bit MDI_PHCI_FLAGS_USER_DISABLE .| phci_bit MDI_PHCI_FLAGS_D_DISABLE .| phci_bit MDI_PHCI_FLAGS_D_DISABLE_TRANS).
Definition MDI_PHCI_IS_READY (f : Z) : bool := f .& MDI_PHCI_DISABLE_MASK =? 0.
Inductive phci_macro :=
  | MDI_PHCI_SET_OFFLINE | MDI_PHCI_SET_ONLINE | MDI_PHCI_SET_SUSPEND | MDI_PHCI_SET_RESUME | MDI_PHCI_SET_DETACH
  | MDI_PHCI_SET_ATTACH | MDI_PHCI_SET_POWER_DOWN | MDI_PHCI_SET_POWER_UP | MDI_PHCI_SET_USER_ENABLE
  | MDI_PHCI_SET_USER_DISABLE | MDI_PHCI_SET_DRV_ENABLE | MDI_PHCI_SET_DRV_DISABLE | MDI_PHCI_SET_DRV_ENABLE_TRANSIENT
  | MDI_PHCI_SET_DRV_DISABLE_TRANSIENT | MDI_PHCI_SET_POWER_TRANSITION | MDI_PHCI_CLEAR_POWER_TRANSITION.
Definition phci_exec (m : phci_macro) (f : Z) : Z :=
  match m with
  | MDI_PHCI_SET_OFFLINE => f .| phci_bit MDI_PHCI_FLAGS_OFFLINE
  | MDI_PHCI_SET_ONLINE => f .& Z.lnot (phci_bit MDI_PHCI_FLAGS_OFFLINE)
  | MDI_PHCI_SET_SUSPEND => f .| phci_bit MDI_PHCI_FLAGS_SUSPEND
  | MDI_PHCI_SET_RESUME => f .& Z.lnot (phci_bit MDI_PHCI_FLAGS_SUSPEND)
  | MDI_PHCI_SET_DETACH => f .| phci_bit MDI_PHCI_FLAGS_DETACH
  | MDI_PHCI_SET_ATTACH => f .& Z.lnot (phci_bit MDI_PHCI_FLAGS_DETACH)
  | MDI_PHCI_SET_POWER_DOWN => f .| phci_bit MDI_PHCI_FLAGS_POWER_DOWN
  | MDI_PHCI_SET_POWER_UP => f .& Z.lnot (phci_bit MDI_PHCI_FLAGS_POWER_DOWN)
  | MDI_PHCI_SET_USER_ENABLE => f .& Z.lnot (phci_bit MDI_PHCI_FLAGS_USER_DISABLE)
  | MDI_PHCI_SET_USER_DISABLE => f .| phci_bit MDI_PHCI_FLAGS_USER_DISABLE
  | MDI_PHCI_SET_DRV_ENABLE => f .& Z.lnot (phci_bit MDI_PHCI_FLAGS_D_DISABLE)
  | MDI_PHCI_SET_DRV_DISABLE => f .| phci_bit MDI_PHCI_FLAGS_D_DISABLE
  | MDI_PHCI_SET_DRV_ENABLE_TRANSIENT => f .& Z.lnot (phci_bit MDI_PHCI_FLAGS_D_DISABLE_TRANS)
  | MDI_PHCI_SET_DRV_DISABLE_TRANSIENT => f .| phci_bit MDI_PHCI_FLAGS_D_DISABLE_TRANS
  | MDI_PHCI_SET_POWER_TRANSITION => f .| phci_bit MDI_PHCI_FLAGS_POWER_TRANSITION
  | MDI_PHCI_CLEAR_POWER_TRANSITION => f .& Z.lnot (phci_bit MDI_PHCI_FLAGS_POWER_TRANSITION)
  end.
Inductive phci_test :=
  | MDI_PHCI_IS_OFFLINE | MDI_PHCI_IS_SUSPENDED | MDI_PHCI_IS_USER_DISABLED | MDI_PHCI_IS_DRV_DISABLED_TRANSIENT
  | MDI_PHCI_IS_DRV_DISABLED | MDI_PHCI_IS_POWERED_DOWN | MDI_PHCI_IS_POWER_TRANSITION.
Definition phci_eval (t : phci_test) (f : Z) : Z :=
  match t with
  | MDI_PHCI_IS_OFFLINE => f .& phci_bit MDI_PHCI_FLAGS_OFFLINE
  | MDI_PHCI_IS_SUSPENDED => f .& phci_bit MDI_PHCI_FLAGS_SUSPEND
  | MDI_PHCI_IS_USER_DISABLED => f .& phci_bit MDI_PHCI_FLAGS_USER_DISABLE
  | MDI_PHCI_IS_DRV_DISABLED_TRANSIENT => f .& phci_bit MDI_PHCI_FLAGS_D_DISABLE_TRANS
  | MDI_PHCI_IS_DRV_DISABLED => f .& phci_bit MDI_PHCI_FLAGS_D_DISABLE
  | MDI_PHCI_IS_POWERED_DOWN => f .& phci_bit MDI_PHCI_FLAGS_POWER_DOWN
  | MDI_PHCI_IS_POWER_TRANSITION => f .& phci_bit MDI_PHCI_FLAGS_POWER_TRANSITION
  end.

(** Which flag a macro assigns, and what; which flag a test asks for. *)
Definition phci_target (m : phci_macro) : phci_flag * bool :=
  match m with
  | MDI_PHCI_SET_OFFLINE => (MDI_PHCI_FLAGS_OFFLINE, true) | MDI_PHCI_SET_ONLINE => (MDI_PHCI_FLAGS_OFFLINE, false)
  | MDI_PHCI_SET_SUSPEND => (MDI_PHCI_FLAGS_SUSPEND, true) | MDI_PHCI_SET_RESUME => (MDI_PHCI_FLAGS_SUSPEND, false)
  | MDI_PHCI_SET_DETACH => (MDI_PHCI_FLAGS_DETACH, true) | MDI_PHCI_SET_ATTACH => (MDI_PHCI_FLAGS_DETACH, false)
  | MDI_PHCI_SET_POWER_DOWN => (MDI_PHCI_FLAGS_POWER_DOWN, true) | MDI_PHCI_SET_POWER_UP => (MDI_PHCI_FLAGS_POWER_DOWN, false)
  | MDI_PHCI_SET_USER_ENABLE => (MDI_PHCI_FLAGS_USER_DISABLE, false) | MDI_PHCI_SET_USER_DISABLE => (MDI_PHCI_FLAGS_USER_DISABLE, true)
  | MDI_PHCI_SET_DRV_ENABLE => (MDI_PHCI_FLAGS_D_DISABLE, false) | MDI_PHCI_SET_DRV_DISABLE => (MDI_PHCI_FLAGS_D_DISABLE, true)
  | MDI_PHCI_SET_DRV_ENABLE_TRANSIENT => (MDI_PHCI_FLAGS_D_DISABLE_TRANS, false)
  | MDI_PHCI_SET_DRV_DISABLE_TRANSIENT => (MDI_PHCI_FLAGS_D_DISABLE_TRANS, true)
  | MDI_PHCI_SET_POWER_TRANSITION => (MDI_PHCI_FLAGS_POWER_TRANSITION, true)
  | MDI_PHCI_CLEAR_POWER_TRANSITION => (MDI_PHCI_FLAGS_POWER_TRANSITION, false)
  end.
Definition phci_asks (t : phci_test) : phci_flag :=
  match t with
  | MDI_PHCI_IS_OFFLINE => MDI_PHCI_FLAGS_OFFLINE | MDI_PHCI_IS_SUSPENDED => MDI_PHCI_FLAGS_SUSPEND
  | MDI_PHCI_IS_USER_DISABLED => MDI_PHCI_FLAGS_USER_DISABLE | MDI_PHCI_IS_DRV_DISABLED_TRANSIENT => MDI_PHCI_FLAGS_D_DISABLE_TRANS
  | MDI_PHCI_IS_DRV_DISABLED => MDI_PHCI_FLAGS_D_DISABLE | MDI_PHCI_IS_POWERED_DOWN => MDI_PHCI_FLAGS_POWER_DOWN
  | MDI_PHCI_IS_POWER_TRANSITION => MDI_PHCI_FLAGS_POWER_TRANSITION
  end.
Lemma phci_assigns : assigns phci_exec phci_target.
Proof. intros [] f i; first [apply (set_flag (bit := phci_bit))|apply (clear_flag (bit := phci_bit))]. Qed.

(** The reasons for which a controller is not ready; to be disabled is none. *)
Definition busy_flags : list phci_flag :=
  [MDI_PHCI_FLAGS_OFFLINE; MDI_PHCI_FLAGS_SUSPEND; MDI_PHCI_FLAGS_POWER_DOWN; MDI_PHCI_FLAGS_DETACH; MDI_PHCI_FLAGS_POWER_TRANSITION].
Lemma phci_ready f : 0 <= f < 2 ^ 8 -> MDI_PHCI_IS_READY f = forallb (fun g => negb (has f g)) busy_flags.
Proof.
  intros Hf. assert (forallb (fun k => Bool.eqb (MDI_PHCI_IS_READY (Z.of_nat k)) (forallb (fun g => negb (has (Z.of_nat k) g)) busy_flags)) (seq 0 256) = true) as H
    by (vm_compute; reflexivity).
  rewrite forallb_forall in H. specialize (H (Z.to_nat f)). rewrite Z2Nat.id in H by lia. apply eqb_prop, H. apply in_seq. lia.
Qed.

(** *** Client devices *)
Inductive client_flag :=
  | MDI_CLIENT_FLAGS_OFFLINE | MDI_CLIENT_FLAGS_SUSPEND | MDI_CLIENT_FLAGS_POWER_DOWN | MDI_CLIENT_FLAGS_DETACH
  | MDI_CLIENT_FLAGS_FAILOVER | MDI_CLIENT_FLAGS_REPORT_DEV | MDI_CLIENT_FLAGS_PATH_FREE_IN_PROGRESS
  | MDI_CLIENT_FLAGS_ASYNC_FREE | MDI_CLIENT_FLAGS_DEV_NOT_SUPPORTED | MDI_CLIENT_FLAGS_POWER_TRANSITION.
#[export] Instance client_flag_eq_dec : EqDecision client_flag.
Proof. solve_decision. Defined.
Definition client_bit (g : client_flag) : Z :=
  match g with
  | MDI_CLIENT_FLAGS_OFFLINE => 0x00000001 | MDI_CLIENT_FLAGS_SUSPEND => 0x00000002 | MDI_CLIENT_FLAGS_POWER_DOWN => 0x00000004
  | MDI_CLIENT_FLAGS_DETACH => 0x00000008 | MDI_CLIENT_FLAGS_FAILOVER => 0x00000010 | MDI_CLIENT_FLAGS_REPORT_DEV => 0x00000020
  | MDI_CLIENT_FLAGS_PATH_FREE_IN_PROGRESS => 0x00000040 | MDI_CLIENT_FLAGS_ASYNC_FREE => 0x00000080
  | MDI_CLIENT_FLAGS_DEV_NOT_SUPPORTED => 0x00000100 | MDI_CLIENT_FLAGS_POWER_TRANSITION => 0x00000200
  end.
#[export] Program Instance client_flags : Flags client_flag client_bit := {| place g := Z.log2 (client_bit g) |}.
Next Obligation. by intros []. Qed.
Next Obligation. by intros [] []. Qed.

Inductive client_macro :=
  | MDI_CLIENT_SET_OFFLINE | MDI_CLIENT_SET_ONLINE | MDI_CLIENT_SET_SUSPEND | MDI_CLIENT_SET_RESUME
  | MDI_CLIENT_SET_POWER_DOWN | MDI_CLIENT_SET_POWER_UP | MDI_CLIENT_SET_POWER_TRANSITION
  | MDI_CLIENT_CLEAR_POWER_TRANSITION | MDI_CLIENT_SET_DETACH | MDI_CLIENT_SET_ATTACH
  | MDI_CLIENT_SET_FAILOVER_IN_PROGRESS | MDI_CLIENT_CLEAR_FAILOVER_IN_PROGRESS | MDI_CLIENT_SET_REPORT_DEV_NEEDED
  | MDI_CLIENT_CLEAR_REPORT_DEV_NEEDED | MDI_CLIENT_SET_PATH_FREE_IN_PROGRESS | MDI_CLIENT_CLEAR_PATH_FREE_IN_PROGRESS
  | MDI_CLIENT_SET_DEV_NOT_SUPPORTED.
Definition client_exec (m : client_macro) (f : Z) : Z :=
  match m with
  | MDI_CLIENT_SET_OFFLINE => f .| client_bit MDI_CLIENT_FLAGS_OFFLINE
  | MDI_CLIENT_SET_ONLINE => f .& Z.lnot (client_bit MDI_CLIENT_FLAGS_OFFLINE)
  | MDI_CLIENT_SET_SUSPEND => f .| client_bit MDI_CLIENT_FLAGS_SUSPEND
  | MDI_CLIENT_SET_RESUME => f .& Z.lnot (client_bit MDI_CLIENT_FLAGS_SUSPEND)
  | MDI_CLIENT_SET_POWER_DOWN => f .| client_bit MDI_CLIENT_FLAGS_POWER_DOWN
  | MDI_CLIENT_SET_POWER_UP => f .& Z.lnot (client_bit MDI_CLIENT_FLAGS_POWER_DOWN)
  | MDI_CLIENT_SET_POWER_TRANSITION => f .| client_bit MDI_CLIENT_FLAGS_POWER_TRANSITION
  | MDI_CLIENT_CLEAR_POWER_TRANSITION => f .& Z.lnot (client_bit MDI_CLIENT_FLAGS_POWER_TRANSITION)
  | MDI_CLIENT_SET_DETACH => f .| client_bit MDI_CLIENT_FLAGS_DETACH
  | MDI_CLIENT_SET_ATTACH => f .& Z.lnot (client_bit MDI_CLIENT_FLAGS_DETACH)
  | MDI_CLIENT_SET_FAILOVER_IN_PROGRESS => f .| client_bit MDI_CLIENT_FLAGS_FAILOVER
  | MDI_CLIENT_CLEAR_FAILOVER_IN_PROGRESS => f .& Z.lnot (client_bit MDI_CLIENT_FLAGS_FAILOVER)
  | MDI_CLIENT_SET_REPORT_DEV_NEEDED => f .| client_bit MDI_CLIENT_FLAGS_REPORT_DEV
  | MDI_CLIENT_CLEAR_REPORT_DEV_NEEDED => f .& Z.lnot (client_bit MDI_CLIENT_FLAGS_REPORT_DEV)
  | MDI_CLIENT_SET_PATH_FREE_IN_PROGRESS => f .| client_bit MDI_CLIENT_FLAGS_PATH_FREE_IN_PROGRESS
  | MDI_CLIENT_CLEAR_PATH_FREE_IN_PROGRESS => f .& Z.lnot (client_bit MDI_CLIENT_FLAGS_PATH_FREE_IN_PROGRESS)
  | MDI_CLIENT_SET_DEV_NOT_SUPPORTED => f .| client_bit MDI_CLIENT_FLAGS_DEV_NOT_SUPPORTED
  end.
Inductive client_test :=
  | MDI_CLIENT_IS_OFFLINE | MDI_CLIENT_IS_SUSPENDED | MDI_CLIENT_IS_POWERED_DOWN | MDI_CLIENT_IS_POWER_TRANSITION
  | MDI_CLIENT_IS_DETACHED | MDI_CLIENT_IS_FAILOVER_IN_PROGRESS | MDI_CLIENT_IS_REPORT_DEV_NEEDED
  | MDI_CLIENT_IS_PATH_FREE_IN_PROGRESS | MDI_CLIENT_IS_DEV_NOT_SUPPORTED.
Definition client_eval (t : client_test) (f : Z) : Z :=
  match t with
  | MDI_CLIENT_IS_OFFLINE => f .& client_bit MDI_CLIENT_FLAGS_OFFLINE
  | MDI_CLIENT_IS_SUSPENDED => f .& client_bit MDI_CLIENT_FLAGS_SUSPEND
  | MDI_CLIENT_IS_POWERED_DOWN => f .& client_bit MDI_CLIENT_FLAGS_POWER_DOWN
  | MDI_CLIENT_IS_POWER_TRANSITION => f .& client_bit MDI_CLIENT_FLAGS_POWER_TRANSITION
  | MDI_CLIENT_IS_DETACHED => f .& client_bit MDI_CLIENT_FLAGS_DETACH
  | MDI_CLIENT_IS_FAILOVER_IN_PROGRESS => f .& client_bit MDI_CLIENT_FLAGS_FAILOVER
  | MDI_CLIENT_IS_REPORT_DEV_NEEDED => f .& client_bit MDI_CLIENT_FLAGS_REPORT_DEV
  | MDI_CLIENT_IS_PATH_FREE_IN_PROGRESS => f .& client_bit MDI_CLIENT_FLAGS_PATH_FREE_IN_PROGRESS
  | MDI_CLIENT_IS_DEV_NOT_SUPPORTED => f .& client_bit MDI_CLIENT_FLAGS_DEV_NOT_SUPPORTED
  end.

Definition client_target (m : client_macro) : client_flag * bool :=
  match m with
  | MDI_CLIENT_SET_OFFLINE => (MDI_CLIENT_FLAGS_OFFLINE, true) | MDI_CLIENT_SET_ONLINE => (MDI_CLIENT_FLAGS_OFFLINE, false)
  | MDI_CLIENT_SET_SUSPEND => (MDI_CLIENT_FLAGS_SUSPEND, true) | MDI_CLIENT_SET_RESUME => (MDI_CLIENT_FLAGS_SUSPEND, false)
  | MDI_CLIENT_SET_POWER_DOWN => (MDI_CLIENT_FLAGS_POWER_DOWN, true) | MDI_CLIENT_SET_POWER_UP => (MDI_CLIENT_FLAGS_POWER_DOWN, false)
  | MDI_CLIENT_SET_POWER_TRANSITION => (MDI_CLIENT_FLAGS_POWER_TRANSITION, true)
  | MDI_CLIENT_CLEAR_POWER_TRANSITION => (MDI_CLIENT_FLAGS_POWER_TRANSITION, false)
  | MDI_CLIENT_SET_DETACH => (MDI_CLIENT_FLAGS_DETACH, true) | MDI_CLIENT_SET_ATTACH => (MDI_CLIENT_FLAGS_DETACH, false)
  | MDI_CLIENT_SET_FAILOVER_IN_PROGRESS => (MDI_CLIENT_FLAGS_FAILOVER, true)
  | MDI_CLIENT_CLEAR_FAILOVER_IN_PROGRESS => (MDI_CLIENT_FLAGS_FAILOVER, false)
  | MDI_CLIENT_SET_REPORT_DEV_NEEDED => (MDI_CLIENT_FLAGS_REPORT_DEV, true)
  | MDI_CLIENT_CLEAR_REPORT_DEV_NEEDED => (MDI_CLIENT_FLAGS_REPORT_DEV, false)
  | MDI_CLIENT_SET_PATH_FREE_IN_PROGRESS => (MDI_CLIENT_FLAGS_PATH_FREE_IN_PROGRESS, true)
  | MDI_CLIENT_CLEAR_PATH_FREE_IN_PROGRESS => (MDI_CLIENT_FLAGS_PATH_FREE_IN_PROGRESS, false)
  | MDI_CLIENT_SET_DEV_NOT_SUPPORTED => (MDI_CLIENT_FLAGS_DEV_NOT_SUPPORTED, true)
  end.
Definition client_asks (t : client_test) : client_flag :=
  match t with
  | MDI_CLIENT_IS_OFFLINE => MDI_CLIENT_FLAGS_OFFLINE | MDI_CLIENT_IS_SUSPENDED => MDI_CLIENT_FLAGS_SUSPEND
  | MDI_CLIENT_IS_POWERED_DOWN => MDI_CLIENT_FLAGS_POWER_DOWN | MDI_CLIENT_IS_POWER_TRANSITION => MDI_CLIENT_FLAGS_POWER_TRANSITION
  | MDI_CLIENT_IS_DETACHED => MDI_CLIENT_FLAGS_DETACH | MDI_CLIENT_IS_FAILOVER_IN_PROGRESS => MDI_CLIENT_FLAGS_FAILOVER
  | MDI_CLIENT_IS_REPORT_DEV_NEEDED => MDI_CLIENT_FLAGS_REPORT_DEV
  | MDI_CLIENT_IS_PATH_FREE_IN_PROGRESS => MDI_CLIENT_FLAGS_PATH_FREE_IN_PROGRESS
  | MDI_CLIENT_IS_DEV_NOT_SUPPORTED => MDI_CLIENT_FLAGS_DEV_NOT_SUPPORTED
  end.
Lemma client_assigns : assigns client_exec client_target.
Proof. intros [] f i; first [apply (set_flag (bit := client_bit))|apply (clear_flag (bit := client_bit))]. Qed.

(** In the flag words of controllers and clients a flag is, after any
    sequence of the macros, what the last macro on it made it, or what it was; no
    macro touches another flag or another bit of the word, and every test is true
    exactly when its flag is set.  A controller is ready exactly when it is not
    offline, suspended, powered down, detached or changing power. *)
Theorem mdi_flags_independent :
  (forall ms f, let f' := foldl (fun f m => phci_exec m f) f ms in
     (forall g, has f' g = after phci_target ms g (has f g))
     /\ (forall i, (forall g : phci_flag, i <> place g) -> Z.testbit f' i = Z.testbit f i))
  /\ (forall t f, negb (phci_eval t f =? 0) = has f (phci_asks t))
  /\ (forall f, 0 <= f < 2 ^ 8 -> MDI_PHCI_IS_READY f = forallb (fun g => negb (has f g)) busy_flags)
  /\ (forall ms f, let f' := foldl (fun f m => client_exec m f) f ms in
     (forall g, has f' g = after client_target ms g (has f g))
     /\ (forall i, (forall g : client_flag, i <> place g) -> Z.testbit f' i = Z.testbit f i))
  /\ (forall t f, negb (client_eval t f =? 0) = has f (client_asks t)).
Proof.
  split_and!.
  - intros ms f. apply assigns_run, phci_assigns.
  - intros [] f; apply (test_flag (bit := phci_bit)).
  - exact phci_ready.
  - intros ms f. apply assigns_run, client_assigns.
  - intros [] f; apply (test_flag (bit := client_bit)).
Qed.
