(* ===== verification/NcaNode.v ===== *)
(** * References to NCA nodes and connections: nca/nca.h

    A node of the network cache accelerator counts its references; being owned by
    the cache is one more, marked by a bit of the state word.  [NODE_OWN],
    [NODE_DISOWN], [NODE_REFHOLD], [NODE_REFRELE] and [NODE_REFRELE_LOCKED] of
    [src/include/nca/nca.h] are called with the lock of the node held and panic on
    misuse; [CONN_REFHOLD] and [CONN_REFRELE] count the references to a connection,
    one of which belongs to TCP.  Every outcome of every sequence of calls is
    determined here, panics included. *)
From S2P Require Import Prelude.
From stdpp Require Import base list.
#[local] Open Scope Z_scope.

(** A call leaves a node, or the node is freed, or the system panics; the calls
    of a dead node or system do nothing. *)
Inductive outcome (A : Type) := Ok (x : A) | Freed | Panic.
Arguments Ok {A} _. Arguments Freed {A}. Arguments Panic {A}.
#[export] Instance outcome_bind : MBind outcome := fun A B f o => match o with Ok x => f x | Freed => Freed | Panic => Panic end.
#[export] Instance outcome_fmap : FMap outcome := fun A B f o => match o with Ok x => Ok (f x) | Freed => Freed | Panic => Panic end.
Definition check {A : Type} (b : bool) (o : outcome A) : outcome A := if b then o else Panic.

(** ** Nodes *)
Definition REF_OWNED : Z := 0x00008000.
Definition UINT_MAX : Z := 2 ^ 32 - 1.
Record node_t := Node { ref : Z; cnt : Z; lock : bool }.
Definition owned (np : node_t) : bool := negb (ref np .& REF_OWNED =? 0).
Definition set_ref (x : Z) (np : node_t) : node_t := Node x (cnt np) (lock np).
Definition set_cnt (x : Z) (np : node_t) : node_t := Node (ref np) (u32 x) (lock np).
(** The caller takes and drops the lock; a thread that enters a mutex it owns
    panics. *)
Definition mutex_enter (np : node_t) : outcome node_t := check (negb (lock np)) (Ok (Node (ref np) (cnt np) true)).
Definition mutex_exit (np : node_t) : outcome node_t := check (lock np) (Ok (Node (ref np) (cnt np) false)).

Definition NODE_REFRELE (np : node_t) : outcome node_t :=
  check (lock np) (check (negb (owned np && (cnt np =? 1))) (check (negb (cnt np =? 0))
    (let np := set_cnt (cnt np - 1) np in
     if cnt np =? 0 then check (ref np .& REF_OWNED =? 0) Freed else mutex_exit np))).
Definition NODE_DISOWN (np : node_t) : outcome node_t :=
  check (lock np)
    (if owned np then check (negb (cnt np =? 0)) (NODE_REFRELE (set_ref (ref np .& Z.lnot REF_OWNED) np)) else mutex_exit np).
Definition NODE_OWN (np : node_t) : outcome node_t :=
  check (lock np)
    (if negb (owned np) then check (negb (cnt np =? UINT_MAX)) (let np := set_ref (ref np .| REF_OWNED) np in Ok (set_cnt (cnt np + 1) np)) else Ok np).
Definition NODE_REFHOLD (np : node_t) : outcome node_t :=
  check (lock np) (check (negb (cnt np =? UINT_MAX)) (Ok (set_cnt (cnt np + 1) np))).
Definition NODE_REFRELE_LOCKED (np : node_t) : outcome node_t :=
  let _cnt := cnt np in
  check (lock np)
    (let _cnt := if owned np then u32 (_cnt - 1) else _cnt in
     check (negb (owned np && (_cnt =? 0))) (check (negb (_cnt =? 0)) (check (negb (_cnt =? 1)) (Ok (set_cnt (cnt np - 1) np))))).

Inductive op := Enter | Exit | Own | Disown | Hold | Rele | Rele_locked.
Definition exec (o : op) : node_t -> outcome node_t :=
  match o with
  | Enter => mutex_enter | Exit => mutex_exit | Own => NODE_OWN | Disown => NODE_DISOWN | Hold => NODE_REFHOLD
  | Rele => NODE_REFRELE | Rele_locked => NODE_REFRELE_LOCKED
  end.
Fixpoint run {A O : Type} (f : O -> A -> outcome A) (os : list O) (x : A) : outcome A :=
  match os with [] => Ok x | o :: os => x ← f o x; run f os x end.

(** *** What a node promises *)

(** Whether it is owned, the references held, whether the lock is held. *)
Record anode := ANode { is_owned : bool; holds : Z; held : bool }.
Definition total (a : anode) : Z := holds a + if is_owned a then 1 else 0.
(** A reference has gone: the last one frees the node, otherwise the lock is
    dropped. *)
Definition dropped (a : anode) : outcome anode := if total a =? 0 then Freed else Ok (ANode (is_owned a) (holds a) false).
Definition node_step (o : op) (a : anode) : outcome anode :=
  match o with
  | Enter => check (negb (held a)) (Ok (ANode (is_owned a) (holds a) true))
  | Exit => check (held a) (Ok (ANode (is_owned a) (holds a) false))
  | Own => check (held a) (check (is_owned a || (total a <? UINT_MAX)) (Ok (ANode true (holds a) (held a))))
  | Disown => check (held a) (if is_owned a then dropped (ANode false (holds a) true) else Ok (ANode false (holds a) false))
  | Hold => check (held a) (check (total a <? UINT_MAX) (Ok (ANode (is_owned a) (holds a + 1) (held a))))
  | Rele => check (held a) (check (0 <? holds a) (dropped (ANode (is_owned a) (holds a - 1) true)))
  | Rele_locked => check (held a) (check (1 <? holds a) (Ok (ANode (is_owned a) (holds a - 1) (held a))))
  end.

(** The node [a] with the other bits of its state word from [r]. *)
Definition node_of (r : Z) (a : anode) : node_t :=
  Node (if is_owned a then r .| REF_OWNED else r .& Z.lnot REF_OWNED) (total a) (held a).
Definition counts (a : anode) : Prop := 0 <= holds a /\ total a <= UINT_MAX.

Lemma owned_set r : negb ((r .| REF_OWNED) .& REF_OWNED =? 0) = true.
Proof.
  apply negb_true_iff, Z.eqb_neq. intros E. apply (f_equal (fun z => Z.testbit z 15)) in E.
  rewrite Z.land_spec, Z.lor_spec in E. change (Z.testbit REF_OWNED 15) with true in E. by rewrite orb_true_r in E.
Qed.
Lemma owned_clear r : (r .& Z.lnot REF_OWNED) .& REF_OWNED = 0.
Proof. rewrite <- Z.land_assoc. apply Z.land_0_r. Qed.
Lemma clear_set r : (r .| REF_OWNED) .& Z.lnot REF_OWNED = r .& Z.lnot REF_OWNED.
Proof. rewrite Z.land_lor_distr_l. change (Z.land REF_OWNED (Z.lnot REF_OWNED)) with 0. apply Z.lor_0_r. Qed.
Lemma set_clear r : (r .& Z.lnot REF_OWNED) .| REF_OWNED = r .| REF_OWNED.
Proof. rewrite Z.lor_land_distr_l. change (Z.lor (Z.lnot REF_OWNED) REF_OWNED) with (-1). apply Z.land_m1_r. Qed.
Lemma owned_node r a : owned (node_of r a) = is_owned a.
Proof.
  unfold owned, node_of. simpl. destruct (is_owned a); [apply owned_set|]. by rewrite owned_clear.
Qed.
Lemma set_cnt_of r o h b x : 0 <= x <= UINT_MAX -> x = total (ANode o h b) -> forall c,
  set_cnt x (Node (ref (node_of r (ANode o h b))) c b) = node_of r (ANode o h b).
Proof. intros Hx -> c. unfold set_cnt, node_of. simpl. f_equal. apply wrapu_id. unfold UINT_MAX in Hx. unfold in_u. lia. Qed.

Lemma u32_count x : 0 <= x <= UINT_MAX -> u32 x = x.
Proof. unfold UINT_MAX. intros Hx. apply wrapu_id. unfold in_u. lia. Qed.

(** The tail of [NODE_REFRELE] after the checks. *)
Lemma rele_tail r o h : counts (ANode o h true) -> 0 < total (ANode o h true) -> (o = true -> 0 < h) ->
  NODE_REFRELE (node_of r (ANode o h true)) = node_of r <$> dropped (ANode o (h - 1) true).
Proof.
  intros [Hh Hm] Ht Ho. unfold total in *. unfold NODE_REFRELE. rewrite owned_node. unfold dropped, total, set_cnt, mutex_exit.
  destruct o; simpl in *; unfold total; simpl; [specialize (Ho eq_refl)|rewrite owned_clear]; rewrite u32_count by lia.
  - rewrite !(proj2 (Z.eqb_neq _ _)) by lia. simpl. unfold node_of, total. simpl. do 2 f_equal. lia.
  - rewrite (proj2 (Z.eqb_neq (h + 0) 0)) by lia. simpl. replace (h + 0 - 1) with (h - 1 + 0) by lia. destruct (h - 1 + 0 =? 0); [done|]. simpl. unfold node_of, total. simpl. do 2 f_equal.
Qed.
Lemma node_exec r o a : counts a -> exec o (node_of r a) = node_of r <$> node_step o a.
Proof.
  intros Hc. pose proof Hc as [Hh Hm]. destruct a as [w h b]. simpl in Hh. unfold exec.
  destruct o; unfold node_step; cbn [is_owned holds held].
  - by destruct b.
  - by destruct b.
  - unfold NODE_OWN. rewrite owned_node. cbn [lock node_of is_owned held]. destruct b; [|done]. simpl. destruct w; simpl; [done|].
    unfold total in *. simpl in *. destruct (Z.eqb_spec (h + 0) UINT_MAX), (Z.ltb_spec (h + 0) UINT_MAX); try lia; [done|]. simpl.
    unfold set_cnt, node_of, total. simpl. rewrite u32_count by lia. by rewrite set_clear, Z.add_0_r.
  - unfold NODE_DISOWN. rewrite owned_node. cbn [lock node_of is_owned held]. destruct b; [|done]. simpl. destruct w; simpl; [|done].
    unfold total in Hm. simpl in Hm. unfold total. simpl. rewrite (proj2 (Z.eqb_neq (h + 1) 0)) by lia. simpl.
    assert (set_ref ((r .| REF_OWNED) .& Z.lnot REF_OWNED) (node_of r (ANode true h true)) = node_of r (ANode false (h + 1) true)) as E.
    { unfold set_ref, node_of, total. simpl. rewrite clear_set. f_equal. lia. }
    rewrite E, rele_tail; [by replace (h + 1 - 1) with h by lia|split; unfold total; simpl; lia|unfold total; simpl; lia|done].
  - unfold NODE_REFHOLD. cbn [lock node_of held]. destruct b; [|done]. simpl. fold (total (ANode w h true)).
    destruct (Z.eqb_spec (total (ANode w h true)) UINT_MAX), (Z.ltb_spec (total (ANode w h true)) UINT_MAX); try lia; [done|]. simpl.
    unfold set_cnt, node_of, total in *. simpl in *. rewrite u32_count by (destruct w; lia). do 2 f_equal. lia.
  - destruct b; [|done]. simpl. destruct (Z.ltb_spec 0 h) as [H|H]; simpl.
    + apply rele_tail; [done| |done]. unfold total. simpl. destruct w; lia.
    + unfold NODE_REFRELE. rewrite owned_node. unfold total. simpl. assert (h = 0) as -> by lia. by destruct w.
  - unfold NODE_REFRELE_LOCKED. rewrite owned_node. cbn [lock node_of held is_owned]. destruct b; [|done]. simpl. unfold total in *. simpl in *.
    assert ((if w then u32 (h + (if w then 1 else 0) - 1) else h + (if w then 1 else 0)) = h) as ->.
    { destruct w; [rewrite u32_count by lia|]; lia. }
    destruct (Z.ltb_spec 1 h) as [H|H].
    + rewrite (proj2 (Z.eqb_neq h 0)), (proj2 (Z.eqb_neq h 1)) by lia. rewrite andb_false_r. simpl. unfold set_cnt, node_of, total. simpl.
      rewrite u32_count by (destruct w; lia). do 2 f_equal. lia.
    + assert (h = 0 \/ h = 1) as [-> | ->] by lia; by destruct w.
Qed.
Lemma node_counts o a a' : counts a -> node_step o a = Ok a' -> counts a'.
Proof.
  intros [Hh Hm] E. destruct a as [w h b]. destruct w, b; unfold counts, total in *. simpl in *.
  all: assert (forall c n (x : outcome anode), check c x = Ok n -> c = true /\ x = Ok n) as Hk by (by intros []).
  all: destruct o; simpl in E; unfold dropped, total in E; simpl in E;
    repeat (apply Hk in E as [? E]); repeat match type of E with context [if ?c then _ else _] => destruct c eqn:? end; simplify_eq/=; lia.
Qed.

(** C22: the reference macros of NCA nodes do exactly what their counts promise, for
    every sequence of calls: a call panics when and only when the lock is not held,
    the count is at its maximum, a reference is dropped that nobody holds, or
    NODE_REFRELE_LOCKED would drop the last one; the count is the number of
    references held plus one for the owner; the node is freed exactly by the call
    that drops the last of these, and owning, disowning and the other bits of the
    state word do not disturb each other. *)
Theorem nca_node_exact r os a : counts a -> run exec os (node_of r a) = node_of r <$> run node_step os a.
Proof.
  revert a. induction os as [|o os IH]; intros a Hc; [done|]. simpl. rewrite node_exec by done.
  destruct (node_step o a) as [a'| |] eqn:E; [|done|done]. simpl. apply IH. by eapply node_counts.
Qed.
Lemma nca_node_exact_witness :
  run exec [Enter; Hold; Own; Rele; Enter; Rele; Enter; Disown] (Node 0x80000000 1 false) = Freed.
Proof.
  change (Node 0x80000000 1 false) with (node_of 0x80000000 (ANode false 1 false)). rewrite nca_node_exact; [reflexivity|].
  split; [done|]. unfold total, UINT_MAX. simpl. lia.
Defined.

(** A node that is owned is not freed by releases. *)
Lemma owned_step o h b :
  o <> Disown -> 0 <= h -> match node_step o (ANode true h b) with Ok a => is_owned a = true /\ 0 <= holds a | Freed => False | Panic => True end.
Proof.
  intros Ho Hh. destruct o, b; try done; unfold node_step, dropped, total; simpl.
  - destruct (h + 1 <? UINT_MAX); simpl; [split; [done|lia]|done].
  - destruct (Z.ltb_spec 0 h); simpl; [|done]. rewrite (proj2 (Z.eqb_neq _ _)) by lia. simpl. split; [done|lia].
  - destruct (Z.ltb_spec 1 h); simpl; [split; [done|lia]|done].
Qed.
Lemma owned_survives os a :
  is_owned a = true -> Forall (fun o => o <> Disown) os -> 0 <= holds a -> run node_step os a <> Freed.
Proof.
  revert a. induction os as [|o os IH]; intros [w h b] Hw Hos Hh; [done|]. simpl in Hw. subst w. inversion_clear Hos as [|? ? Ho Hos'].
  pose proof (owned_step o h b Ho Hh) as Hs. cbn [run]. destruct (node_step o (ANode true h b)) as [a'| |]; [|done|done]. simpl. apply IH; tauto.
Qed.

(** ** Connections *)
Record nca_conn_t := Conn { conn_ref : Z; tcp_refed : bool }.
Definition INT_MAX : Z := 2 ^ 31 - 1.
(** [ref] is an [int32_t]: counting past the largest is undefined and is a panic
    here. *)
Definition CONN_REFHOLD (c : nca_conn_t) : outcome nca_conn_t :=
  check (negb (conn_ref c <=? 0)) (check (conn_ref c <? INT_MAX) (Ok (Conn (conn_ref c + 1) (tcp_refed c)))).
Definition CONN_REFRELE (c : nca_conn_t) : outcome nca_conn_t :=
  let rele (c : nca_conn_t) := let c := Conn (conn_ref c - 1) (tcp_refed c) in if conn_ref c =? 0 then Freed else Ok c in
  if tcp_refed c then check (negb (conn_ref c =? 1)) (check (negb (conn_ref c <? 1)) (rele c))
  else check (negb (conn_ref c <=? 0)) (rele c).

(** References held besides that of TCP. *)
Record aconn := AConn { conn_holds : Z; by_tcp : bool }.
Definition conn_total (a : aconn) : Z := conn_holds a + if by_tcp a then 1 else 0.
Definition conn_of (a : aconn) : nca_conn_t := Conn (conn_total a) (by_tcp a).
Definition conn_step (hold : bool) (a : aconn) : outcome aconn :=
  if hold then check ((0 <? conn_total a) && (conn_total a <? INT_MAX)) (Ok (AConn (conn_holds a + 1) (by_tcp a)))
  else check (0 <? conn_holds a) (let a := AConn (conn_holds a - 1) (by_tcp a) in if conn_total a =? 0 then Freed else Ok a).

(** The reference macros of NCA connections do exactly what their counts
    promise for every sequence of calls: CONN_REFHOLD panics exactly on a connection
    without references, CONN_REFRELE exactly when no reference but that of TCP is
    left to drop, and the connection is freed exactly with its last reference. *)
Theorem nca_conn_exact os a :
  0 <= conn_holds a -> run (fun hold c => if hold : bool then CONN_REFHOLD c else CONN_REFRELE c) os (conn_of a) = conn_of <$> run conn_step os a.
Proof.
  revert a. induction os as [|hold os IH]; intros [h t] Hh; [done|]. simpl in Hh. cbn [run].
  assert ((if hold then CONN_REFHOLD (conn_of (AConn h t)) else CONN_REFRELE (conn_of (AConn h t))) = conn_of <$> conn_step hold (AConn h t)) as ->.
  { unfold CONN_REFHOLD, CONN_REFRELE, conn_step, conn_of, conn_total. simpl. destruct hold, t; simpl.
    - destruct (Z.leb_spec (h + 1) 0), (Z.ltb_spec 0 (h + 1)); try lia. simpl. destruct (h + 1 <? INT_MAX); simpl; [|done]. do 2 f_equal; lia.
    - destruct (Z.leb_spec (h + 0) 0), (Z.ltb_spec 0 (h + 0)); try lia; simpl; [done|]. destruct (h + 0 <? INT_MAX); simpl; [|done]. do 2 f_equal; lia.
    - destruct (Z.eqb_spec (h + 1) 1), (Z.ltb_spec 0 h); try lia; simpl; [done|]. destruct (Z.ltb_spec (h + 1) 1); [lia|]. simpl.
      rewrite !(proj2 (Z.eqb_neq _ _)) by lia. simpl. do 2 f_equal; lia.
    - destruct (Z.leb_spec (h + 0) 0), (Z.ltb_spec 0 h); try lia; simpl; [done|]. replace (h + 0 - 1) with (h - 1 + 0) by lia.
      by destruct (h - 1 + 0 =? 0). }
  destruct (conn_step hold (AConn h t)) as [a'| |] eqn:E; [|done|done]. simpl. apply IH.
  unfold conn_step, check in E. simpl in E. destruct hold; [destruct ((0 <? _) && _); simplify_eq/=; lia|].
  destruct (Z.ltb_spec 0 h); [|done]. destruct (_ =? 0); simplify_eq/=. lia.
Qed.
Lemma nca_conn_exact_witness :
  run (fun hold c => if hold : bool then CONN_REFHOLD c else CONN_REFRELE c) [true; false; false; false] (Conn 2 true) = Panic.
Proof. change (Conn 2 true) with (conn_of (AConn 1 true)). rewrite nca_conn_exact; [reflexivity|]. simpl. lia. Defined.
