(* ===== verification/Xdr.v ===== *)
(** * Integers in octet streams: rpc/xdr.h, arpa/nameser.h and the Kerberos tokens

    The inline macros of XDR ([IXDR_PUT_INT32] and the others of
    [src/include/rpc/xdr.h]), those of the name service ([NS_PUT16], ... of
    [src/include/arpa/nameser.h]) and of the Kerberos mechanism ([TWRITE_INT], ... of
    [gssapiP_generic.h]) write and read integers at a cursor that they move on.  A
    writer and a reader that agree on the octets of each item agree on streams:
    this is proved once, for the interface [StreamLaws], and the macros of each
    header discharge it. *)
From S2P Require Import Prelude ByteOrder.
From stdpp Require Import list.
#[local] Open Scope Z_scope.

(** ** Streams of items *)

(** The macros of one header on one machine: [K] the kinds of item, [enc] their
    octets, [fits] the values of the C type. *)
Record stream (K : Type) := Stream {
  put : K -> Z -> list Z -> nat -> option (list Z * nat); get : K -> list Z -> nat -> option (Z * nat);
  enc : K -> Z -> list Z; fits : K -> Z -> Prop }.
Arguments put {K} _ _ _ _ _. Arguments get {K} _ _ _ _. Arguments enc {K} _ _ _. Arguments fits {K} _ _ _.

Class StreamLaws {K : Type} (c : stream K) : Prop := {
  put_ok k v mem p : fits c k v -> (p + length (enc c k v) <= length mem)%nat ->
    put c k v mem p = Some (stored mem p (enc c k v), (p + length (enc c k v))%nat);
  get_ok k v mem p : fits c k v -> rds mem p (length (enc c k v)) = Some (enc c k v) ->
    get c k mem p = Some (v, (p + length (enc c k v))%nat) }.

Fixpoint puts {K} (c : stream K) (l : list (K * Z)) (mem : list Z) (p : nat) : option (list Z * nat) :=
  match l with [] => Some (mem, p) | (k, v) :: l => '(mem, p) ← put c k v mem p; puts c l mem p end.
Fixpoint gets {K} (c : stream K) (l : list K) (mem : list Z) (p : nat) : option (list Z * nat) :=
  match l with [] => Some ([], p) | k :: l => '(v, p) ← get c k mem p; '(vs, p) ← gets c l mem p; Some (v :: vs, p) end.
Definition encs {K} (c : stream K) (l : list (K * Z)) : list Z := concat (map (fun i => enc c i.1 i.2) l).

Lemma stored_app mem p a b :
  (p + length a + length b <= length mem)%nat -> stored (stored mem p a) (p + length a) b = stored mem p (a ++ b).
Proof.
  intros Hp. unfold stored. rewrite (app_assoc (take p mem)).
  rewrite take_app_length' by (rewrite length_app, length_take; lia).
  rewrite drop_app_ge by (rewrite length_app, length_take; lia). rewrite drop_drop, <- !app_assoc, length_app, length_app, length_take.
  do 4 f_equal. lia.
Qed.

Section Streams.
Context {K : Type} (c : stream K) `{!StreamLaws c}.

Lemma puts_ok l mem p :
  Forall (fun i => fits c i.1 i.2) l -> (p + length (encs c l) <= length mem)%nat ->
  puts c l mem p = Some (stored mem p (encs c l), (p + length (encs c l))%nat).
Proof.
  intros Hl. revert mem p. induction Hl as [|[k v] l Hv Hl IH]; intros mem p Hp; simpl in *.
  - unfold stored. simpl. by rewrite Nat.add_0_r, take_drop.
  - unfold encs in *. simpl in *. rewrite length_app in *. rewrite put_ok by (done || lia). cbn [mbind option_bind].
    rewrite IH by (rewrite stored_length; lia). rewrite stored_app by lia. by rewrite Nat.add_assoc.
Qed.
Lemma gets_ok l mem p :
  Forall (fun i => fits c i.1 i.2) l -> rds mem p (length (encs c l)) = Some (encs c l) ->
  gets c (map fst l) mem p = Some (map snd l, (p + length (encs c l))%nat).
Proof.
  intros Hl. revert p. induction Hl as [|[k v] l Hv Hl IH]; intros p Hr; simpl in *; [by rewrite Nat.add_0_r|].
  unfold encs in *. simpl in *. rewrite length_app in *. apply rds_split in Hr as [Hr1 Hr2].
  rewrite take_app_length in Hr1. rewrite drop_app_length in Hr2. rewrite (get_ok k v) by done. cbn [mbind option_bind]. rewrite IH by done. cbn [mbind option_bind].
  by rewrite Nat.add_assoc.
Qed.
End Streams.

(** A writer and a reader with the same octets. *)
Lemma stream_roundtrip {K} (c d : stream K) `{!StreamLaws c, !StreamLaws d} l mem p :
  (forall k v, enc c k v = enc d k v) -> Forall (fun i => fits c i.1 i.2) l -> Forall (fun i => fits d i.1 i.2) l ->
  (p + length (encs c l) <= length mem)%nat ->
  exists m q, puts c l mem p = Some (m, q) /\ gets d (map fst l) m p = Some (map snd l, q)
    /\ length m = length mem /\ forall i, (i < p \/ q <= i)%nat -> m !! i = mem !! i.
Proof.
  intros He Hc Hd Hp. exists (stored mem p (encs c l)), (p + length (encs c l))%nat.
  assert (encs c l = encs d l) as E by (unfold encs; f_equal; apply map_ext; intros; apply He).
  split_and!; [by apply puts_ok| |by apply stored_length|intros i; by apply stored_frame].
  rewrite E in *. apply gets_ok; [done..|]. by apply rds_stored.
Qed.

(** ** XDR *)

(** The x86 machines: whether the longer set of macros is compiled
    ([!defined(_KERNEL) && !defined(_LP64)], where [long] has 32 bits).  Words are
    little-endian, and [htonl] and [ntohl] are one routine of
    [src/include/ia32/ml/i86_subr.s], for amd64 and for i386: [bswap] of a 32-bit
    register. *)
Record machine := Machine { ilp32_user : bool }.
Definition htonl (i : Z) : Z := of_le (rev (le_bytes 4 i)).
Definition ntohl (i : Z) : Z := htonl i.

(** [*(buf)++ = x] and [( *(buf)++ )] for a 4-octet word. *)
Definition st32 (x : Z) (mem : list Z) (p : nat) : option (list Z * nat) :=
  mem ← wrs mem p (le_bytes 4 x); Some (mem, (p + 4)%nat).
Definition ld32 (mem : list Z) (p : nat) : option (Z * nat) := bs ← rds mem p 4; Some (of_le bs, (p + 4)%nat).

Definition IXDR_GET_INT32 (mem : list Z) (p : nat) : option (Z * nat) :=
  '(w, p) ← ld32 mem p; Some (s32 (ntohl (u32 w)), p).
Definition IXDR_PUT_INT32 (v : Z) (mem : list Z) (p : nat) : option (list Z * nat) := st32 (s32 (htonl (u32 v))) mem p.
Definition get_as (cast : Z -> Z) (g : option (Z * nat)) : option (Z * nat) := '(v, p) ← g; Some (cast v, p).
Definition IXDR_GET_U_INT32 (mem : list Z) (p : nat) := get_as u32 (IXDR_GET_INT32 mem p).
Definition IXDR_PUT_U_INT32 (v : Z) := IXDR_PUT_INT32 (s32 v).

(** The long macros exist in 32-bit programs only. *)
Definition IXDR_GET_LONG (m : machine) (mem : list Z) (p : nat) : option (Z * nat) :=
  if ilp32_user m then '(w, p) ← ld32 mem p; Some (s32 (ntohl (u32 w)), p) else None.
Definition IXDR_PUT_LONG (m : machine) (v : Z) (mem : list Z) (p : nat) : option (list Z * nat) :=
  if ilp32_user m then st32 (s32 (htonl (u32 v))) mem p else None.
Definition IXDR_GET_U_LONG (m : machine) (mem : list Z) (p : nat) := get_as u32 (IXDR_GET_LONG m mem p).
Definition IXDR_PUT_U_LONG (m : machine) (v : Z) := IXDR_PUT_LONG m (s32 v).

(** The smaller types go through [long] there and through [int32_t] elsewhere. *)
Definition get_word (m : machine) (mem : list Z) (p : nat) : option (Z * nat) :=
  if ilp32_user m then IXDR_GET_LONG m mem p else IXDR_GET_INT32 mem p.
Definition put_word (m : machine) (v : Z) (mem : list Z) (p : nat) : option (list Z * nat) :=
  if ilp32_user m then IXDR_PUT_LONG m (s32 v) mem p else IXDR_PUT_INT32 (s32 v) mem p.
Definition IXDR_GET_BOOL (m : machine) (mem : list Z) (p : nat) := get_as s32 (get_word m mem p).
Definition IXDR_GET_ENUM (m : machine) (mem : list Z) (p : nat) := get_as s32 (get_word m mem p).
Definition IXDR_GET_SHORT (m : machine) (mem : list Z) (p : nat) := get_as s16 (get_word m mem p).
Definition IXDR_GET_U_SHORT (m : machine) (mem : list Z) (p : nat) := get_as u16 (get_word m mem p).
Definition IXDR_PUT_BOOL := put_word.
Definition IXDR_PUT_ENUM := put_word.
Definition IXDR_PUT_SHORT := put_word.
Definition IXDR_PUT_U_SHORT := put_word.

(** The words at [&v] and [&v + BYTES_PER_XDR_UNIT] of a 64-bit variable, in the
    [_LITTLE_ENDIAN] variant. *)
Definition BYTES_PER_XDR_UNIT : nat := 4.
Definition hyper_word (v : Z) (off : nat) : Z := of_le (take 4 (drop off (le_bytes 8 v))).
Definition IXDR_GET_HYPER (mem : list Z) (p : nat) : option (Z * nat) :=
  '(w0, p) ← ld32 mem p; '(w1, p) ← ld32 mem p;
  Some (of_le (le_bytes 4 (ntohl (u32 w1)) ++ le_bytes 4 (ntohl (u32 w0))), p).
Definition IXDR_PUT_HYPER (v : Z) (mem : list Z) (p : nat) : option (list Z * nat) :=
  '(mem, p) ← st32 (s32 (htonl (hyper_word v BYTES_PER_XDR_UNIT))) mem p;
  st32 (s32 (htonl (hyper_word v 0))) mem p.

(** *** The items of a stream *)
Inductive item := Int32 | U_Int32 | Long | U_Long | Bool | Enum | Short | U_Short | Hyper | U_Hyper.
Definition xdr_put (m : machine) (k : item) : Z -> list Z -> nat -> option (list Z * nat) :=
  match k with
  | Int32 => IXDR_PUT_INT32 | U_Int32 => IXDR_PUT_U_INT32 | Long => IXDR_PUT_LONG m | U_Long => IXDR_PUT_U_LONG m
  | Bool => IXDR_PUT_BOOL m | Enum => IXDR_PUT_ENUM m | Short => IXDR_PUT_SHORT m | U_Short => IXDR_PUT_U_SHORT m
  | Hyper | U_Hyper => IXDR_PUT_HYPER
  end.
Definition xdr_get (m : machine) (k : item) (mem : list Z) (p : nat) : option (Z * nat) :=
  match k with
  | Int32 => IXDR_GET_INT32 mem p | U_Int32 => IXDR_GET_U_INT32 mem p
  | Long => IXDR_GET_LONG m mem p | U_Long => IXDR_GET_U_LONG m mem p
  | Bool => IXDR_GET_BOOL m mem p | Enum => IXDR_GET_ENUM m mem p | Short => IXDR_GET_SHORT m mem p | U_Short => IXDR_GET_U_SHORT m mem p
  | Hyper => get_as s64 (IXDR_GET_HYPER mem p) | U_Hyper => get_as u64 (IXDR_GET_HYPER mem p)
  end.

Definition in_s (w x : Z) : Prop := - 2 ^ (w - 1) <= x < 2 ^ (w - 1).
Definition xdr_fits (m : machine) (k : item) (v : Z) : Prop :=
  match k with
  | Int32 | Bool | Enum => in_s 32 v | U_Int32 => in_u 32 v | Short => in_s 16 v | U_Short => in_u 16 v
  | Long => ilp32_user m = true /\ in_s 32 v | U_Long => ilp32_user m = true /\ in_u 32 v
  | Hyper => in_s 64 v | U_Hyper => in_u 64 v
  end.
(** The octets the standard prescribes: most significant first, shorter types as
    four octets. *)
Definition xdr_enc (k : item) (v : Z) : list Z := match k with Hyper | U_Hyper => rev (le_bytes 8 v) | _ => rev (le_bytes 4 v) end.
Definition xdr (m : machine) : stream item := Stream item (xdr_put m) (xdr_get m) xdr_enc (xdr_fits m).

(** *** Words *)
Lemma le_bytes_cong n x y : x mod 2 ^ (8 * Z.of_nat n) = y mod 2 ^ (8 * Z.of_nat n) -> le_bytes n x = le_bytes n y.
Proof. intros E. rewrite <- (le_bytes_mod n x), E. apply le_bytes_mod. Qed.
Lemma le_bytes_s32 x : le_bytes 4 (s32 x) = le_bytes 4 x.
Proof. apply le_bytes_cong. exact (wrapu_wraps 32 x ltac:(lia)). Qed.
Lemma le_bytes_u32 x : le_bytes 4 (u32 x) = le_bytes 4 x.
Proof. apply (le_bytes_mod 4). Qed.
Lemma u32_u32 x : u32 (u32 x) = u32 x.
Proof. exact (Zmod_mod _ _). Qed.

Lemma htonl_octets x : le_bytes 4 (htonl x) = rev (le_bytes 4 x).
Proof. apply le_bytes_swap. Qed.
Lemma ntohl_of_net x : ntohl (u32 (of_le (rev (le_bytes 4 x)))) = u32 x.
Proof. unfold ntohl. fold (htonl x). unfold htonl at 1. by rewrite le_bytes_u32, htonl_octets, rev_involutive, of_le_le_bytes. Qed.

Lemma st32_ok x mem p :
  (p + 4 <= length mem)%nat -> st32 (s32 (htonl x)) mem p = Some (stored mem p (rev (le_bytes 4 x)), (p + 4)%nat).
Proof.
  intros Hp. unfold st32. rewrite le_bytes_s32, htonl_octets. by rewrite wrs_in by (rewrite length_rev, le_bytes_length; done).
Qed.
Lemma ld32_ok x mem p :
  rds mem p 4 = Some (rev (le_bytes 4 x)) -> exists w, ld32 mem p = Some (w, (p + 4)%nat) /\ ntohl (u32 w) = u32 x.
Proof. intros E. unfold ld32. rewrite E. eexists. split; [reflexivity|]. apply ntohl_of_net. Qed.

Lemma put_int32_ok v mem p :
  (p + 4 <= length mem)%nat -> IXDR_PUT_INT32 v mem p = Some (stored mem p (rev (le_bytes 4 v)), (p + 4)%nat).
Proof. intros Hp. unfold IXDR_PUT_INT32. rewrite st32_ok by done. by rewrite le_bytes_u32. Qed.
Lemma get_int32_ok v mem p :
  rds mem p 4 = Some (rev (le_bytes 4 v)) -> IXDR_GET_INT32 mem p = Some (s32 v, (p + 4)%nat).
Proof.
  intros E. destruct (ld32_ok v mem p E) as (w & Ew & Hw). unfold IXDR_GET_INT32. rewrite Ew. cbn [mbind option_bind]. rewrite Hw.
  by rewrite wraps_wrapu.
Qed.
(** Both ways of the smaller types. *)
Lemma put_word_ok m v mem p :
  (p + 4 <= length mem)%nat -> put_word m v mem p = Some (stored mem p (rev (le_bytes 4 v)), (p + 4)%nat).
Proof.
  intros Hp. unfold put_word, IXDR_PUT_LONG, IXDR_PUT_INT32. destruct (ilp32_user m); rewrite st32_ok by done; by rewrite le_bytes_u32, le_bytes_s32.
Qed.
Lemma get_word_ok m v mem p : rds mem p 4 = Some (rev (le_bytes 4 v)) -> get_word m mem p = Some (s32 v, (p + 4)%nat).
Proof.
  intros E. unfold get_word. destruct (ilp32_user m) eqn:Em; [|by apply get_int32_ok]. unfold IXDR_GET_LONG. rewrite Em.
  destruct (ld32_ok v mem p E) as (w & Ew & Hw). rewrite Ew. cbn [mbind option_bind]. rewrite Hw. by rewrite wraps_wrapu.
Qed.

Lemma hyper_split v :
  le_bytes 8 v = le_bytes 4 v ++ le_bytes 4 (v / 2 ^ 32) /\ hyper_word v 4 = u32 (v / 2 ^ 32) /\ hyper_word v 0 = u32 v.
Proof.
  pose proof (le_bytes_app 4 4 v) as E. change (4 + 4)%nat with 8%nat in E. change (8 * Z.of_nat 4) with 32 in E.
  split; [done|]. unfold hyper_word. rewrite E.
  rewrite drop_0, take_app_length', drop_app_length', firstn_all2 by (rewrite ?le_bytes_length; done). by rewrite !of_le_le_bytes.
Qed.

Lemma put_hyper_ok v mem p :
  (p + 8 <= length mem)%nat -> IXDR_PUT_HYPER v mem p = Some (stored mem p (rev (le_bytes 8 v)), (p + 8)%nat).
Proof.
  intros Hp. destruct (hyper_split v) as (E & H0 & H1). rewrite E, rev_app_distr. unfold IXDR_PUT_HYPER, BYTES_PER_XDR_UNIT. rewrite H0, H1.
  assert (forall x, length (rev (le_bytes 4 x)) = 4%nat) as Hl by (intros; by rewrite length_rev, le_bytes_length).
  rewrite st32_ok by lia. cbn [mbind option_bind].
  rewrite st32_ok by (rewrite stored_length; rewrite ?Hl; lia). rewrite !le_bytes_u32.
  pose proof (stored_app mem p (rev (le_bytes 4 (v / 2 ^ 32))) (rev (le_bytes 4 v))) as Hs. rewrite !Hl in Hs. rewrite Hs by lia.
  by rewrite <- Nat.add_assoc.
Qed.
Lemma get_hyper_ok v mem p :
  rds mem p 8 = Some (rev (le_bytes 8 v)) -> IXDR_GET_HYPER mem p = Some (u64 v, (p + 8)%nat).
Proof.
  intros Hr. destruct (hyper_split v) as (E & _ & _). rewrite E, rev_app_distr in Hr. change 8%nat with (4 + 4)%nat in Hr. apply rds_split in Hr as [R1 R2].
  assert (forall x, length (rev (le_bytes 4 x)) = 4%nat) as Hl by (intros; by rewrite length_rev, le_bytes_length).
  rewrite take_app_length' in R1 by done. rewrite drop_app_length' in R2 by done.
  destruct (ld32_ok _ mem p R1) as (w0 & E0 & W0). destruct (ld32_ok _ mem _ R2) as (w1 & E1 & W1).
  unfold IXDR_GET_HYPER. rewrite E0. cbn [mbind option_bind]. rewrite E1. cbn [mbind option_bind]. rewrite W0, W1, <- Nat.add_assoc.
  rewrite !le_bytes_u32, <- E. by rewrite (of_le_le_bytes 8).
Qed.

#[export] Instance xdr_laws m : StreamLaws (xdr m).
Proof.
  assert (forall w x, 0 < w -> in_s w x -> wraps w x = x) as Hs by (intros; by apply wraps_id).
  assert (forall x, length (rev (le_bytes 4 x)) = 4%nat) as H4 by (intros; by rewrite length_rev, le_bytes_length).
  assert (forall x, length (rev (le_bytes 8 x)) = 8%nat) as H8 by (intros; by rewrite length_rev, le_bytes_length).
  split; intros k v mem p Hf; simpl in *.
  - intros Hp. destruct k; simpl in *; rewrite ?H4, ?H8 in *; unfold IXDR_PUT_U_INT32, IXDR_PUT_U_LONG, IXDR_PUT_LONG, IXDR_PUT_BOOL, IXDR_PUT_ENUM, IXDR_PUT_SHORT, IXDR_PUT_U_SHORT.
    all: try (destruct Hf as [-> Hf]; rewrite st32_ok by done; by rewrite le_bytes_u32, ?le_bytes_s32).
    all: try (by apply put_hyper_ok); try (by apply put_word_ok).
    + by apply put_int32_ok.
    + rewrite put_int32_ok by done. by rewrite le_bytes_s32.
  - intros Hr. destruct k; simpl in *; rewrite ?H4, ?H8 in *.
    + rewrite (get_int32_ok v) by done. by rewrite Hs.
    + unfold IXDR_GET_U_INT32, get_as. rewrite (get_int32_ok v) by done. cbn [mbind option_bind]. by rewrite wrapu_wraps, wrapu_id.
    + destruct Hf as [Hm Hf]. pose proof (get_word_ok m v mem p Hr) as E. unfold get_word in E. rewrite Hm in E. by rewrite E, Hs.
    + destruct Hf as [Hm Hf]. pose proof (get_word_ok m v mem p Hr) as E. unfold get_word in E. rewrite Hm in E.
      unfold IXDR_GET_U_LONG. rewrite E. unfold get_as. cbn [mbind option_bind]. by rewrite wrapu_wraps, wrapu_id.
    + unfold IXDR_GET_BOOL. rewrite (get_word_ok m v) by done. unfold get_as. cbn [mbind option_bind]. rewrite (Hs 32 v) by (done || lia). by rewrite Hs.
    + unfold IXDR_GET_ENUM. rewrite (get_word_ok m v) by done. unfold get_as. cbn [mbind option_bind]. rewrite (Hs 32 v) by (done || lia). by rewrite Hs.
    + unfold IXDR_GET_SHORT. rewrite (get_word_ok m v) by done. unfold get_as. cbn [mbind option_bind]. rewrite (Hs 32); [by rewrite Hs|lia|]. unfold in_s in *. lia.
    + unfold IXDR_GET_U_SHORT. rewrite (get_word_ok m v) by done. unfold get_as. cbn [mbind option_bind]. rewrite (Hs 32); [by rewrite wrapu_id|lia|]. unfold in_s, in_u in *. lia.
    + rewrite (get_hyper_ok v) by done. unfold get_as. cbn [mbind option_bind]. by rewrite wraps_wrapu, Hs.
    + rewrite (get_hyper_ok v) by done. unfold get_as. cbn [mbind option_bind]. rewrite (wrapu_id 64 v) by done. by rewrite wrapu_id.
Qed.

(** XDR streams on x86: whatever sequence of items a program of either data model
    writes with the inline macros, it fits in the buffer, the octets are those of
    the standard, nothing outside them changes, and the same sequence of get macros
    in a program of either data model that has them returns the values and ends
    where the writer did. *)
Theorem xdr_streams_roundtrip m1 m2 l mem p :
  Forall (fun i => xdr_fits m1 i.1 i.2) l -> Forall (fun i => xdr_fits m2 i.1 i.2) l ->
  (p + length (encs (xdr m1) l) <= length mem)%nat ->
  exists m q, puts (xdr m1) l mem p = Some (m, q) /\ gets (xdr m2) (map fst l) m p = Some (map snd l, q)
    /\ rds m p (length (encs (xdr m1) l)) = Some (concat (map (fun i => xdr_enc i.1 i.2) l))
    /\ length m = length mem /\ forall i, (i < p \/ q <= i)%nat -> m !! i = mem !! i.
Proof.
  intros H1 H2 Hp. destruct (stream_roundtrip (xdr m1) (xdr m2) l mem p) as (m & q & E & G & Hl & Hfr); [done..|].
  exists m, q. split; [done|]. split; [done|]. split; [|done]. rewrite puts_ok in E by (done || apply _).
  injection E as <- _. by apply rds_stored.
Qed.

Definition request : list (item * Z) := [(U_Int32, 4000000000); (Bool, 1); (Hyper, -5); (U_Short, 65535); (Short, -2)].
Lemma xdr_streams_roundtrip_witness :
  exists m q, puts (xdr (Machine true)) request (replicate 30 7) 2 = Some (m, q)
    /\ gets (xdr (Machine false)) (map fst request) m 2 = Some ([4000000000; 1; -5; 65535; -2], q).
Proof.
  destruct (xdr_streams_roundtrip (Machine true) (Machine false) request (replicate 30 7) 2) as (m & q & E & G & _).
  - repeat apply Forall_cons_2; try apply Forall_nil_2; simpl; unfold in_s, in_u; lia.
  - repeat apply Forall_cons_2; try apply Forall_nil_2; simpl; unfold in_s, in_u; lia.
  - vm_compute. lia.
  - exists m, q. split; [exact E|exact G].
Defined.

(** *** The macros of sys/byteorder.h
    Where no [ntohs] is defined before, [src/include/sys/byteorder.h] makes [ntohl]
    the macro [BSWAP_32], which has its argument four times (and [htonl] a text
    that is no expression).  [IXDR_GET_INT32] gives it [*(buf)++]: undefined in C,
    and with the four reads in the order of the text the cursor passes four
    words. *)
Definition BSWAP_8_text (x : nat -> option (Z * nat)) (p : nat) : option (Z * nat) := '(a, p) ← x p; Some (a .& 0xff, p).
Definition BSWAP_16_text (x : nat -> option (Z * nat)) (p : nat) : option (Z * nat) :=
  '(a, p) ← BSWAP_8_text x p; '(b, p) ← BSWAP_8_text (fun p => '(v, p) ← x p; Some (v >>> 8, p)) p; Some ((a <<< 8) .| b, p).
Definition ntohl_text (x : nat -> option (Z * nat)) (p : nat) : option (Z * nat) :=
  '(a, p) ← BSWAP_16_text x p; '(b, p) ← BSWAP_16_text (fun p => '(v, p) ← x p; Some (v >>> 16, p)) p; Some ((a <<< 16) .| b, p).

Lemma ntohl_text_pure v p : ntohl_text (fun p => Some (v, p)) p = Some (ByteOrder.ntohl v, p).
Proof. done. Qed.
Lemma rds_some mem p n : (p + n <= length mem)%nat -> exists bs, rds mem p n = Some bs.
Proof.
  revert p. induction n as [|n IH]; intros p Hp; [by eexists|]. cbn [rds]. unfold rd at 1.
  destruct (lookup_lt_is_Some_2 mem p ltac:(lia)) as [b ->]. cbn [mbind option_bind].
  destruct (IH (S p) ltac:(lia)) as [bs ->]. by eexists.
Qed.
(** The macro, given the expression that reads a word and steps over it, ends 16
    octets later. *)
Theorem ntohl_text_reads_four mem p :
  (p + 16 <= length mem)%nat -> exists v, ntohl_text (ld32 mem) p = Some (v, (p + 16)%nat).
Proof.
  intros Hp. assert (forall q, (q + 4 <= length mem)%nat -> exists w, ld32 mem q = Some (w, (q + 4)%nat)) as Hld.
  { intros q Hq. unfold ld32. destruct (rds_some mem q 4 Hq) as [bs ->]. eauto. }
  unfold ntohl_text, BSWAP_16_text, BSWAP_8_text.
  destruct (Hld p) as [w0 ->]; [lia|]. cbn [mbind option_bind]. destruct (Hld (p + 4)%nat) as [w1 ->]; [lia|]. cbn [mbind option_bind].
  destruct (Hld (p + 4 + 4)%nat) as [w2 ->]; [lia|]. cbn [mbind option_bind]. destruct (Hld (p + 4 + 4 + 4)%nat) as [w3 ->]; [lia|].
  cbn [mbind option_bind]. eexists. do 2 f_equal. lia.
Qed.

(** On a big-endian machine, where a word of the network reads as the number it is,
    these swaps are wrong. *)
Lemma swap_wrong_on_big : of_le (rev (rev (le_bytes 4 1))) = 1 /\ ByteOrder.ntohl 1 <> 1.
Proof. by vm_compute. Qed.

(** ** The name service and the Kerberos tokens *)
Definition NS_INT16SZ : nat := 2.
Definition NS_INT32SZ : nat := 4.
Definition NS_GET16 (mem : list Z) (cp : nat) : option (Z * nat) :=
  b0 ← rd mem cp; b1 ← rd mem (cp + 1); Some (s32 (b0 <<< 8) .| b1, (cp + NS_INT16SZ)%nat).
Definition NS_GET32 (mem : list Z) (cp : nat) : option (Z * nat) :=
  b0 ← rd mem cp; b1 ← rd mem (cp + 1); b2 ← rd mem (cp + 2); b3 ← rd mem (cp + 3);
  Some (u32 (b0 <<< 24) .| u32 (b1 <<< 16) .| u32 (b2 <<< 8) .| b3, (cp + NS_INT32SZ)%nat).
Definition NS_PUT16 (s : Z) (mem : list Z) (cp : nat) : option (list Z * nat) :=
  let t_s := u16 s in mem ← wr mem cp (u8 (t_s >>> 8)); mem ← wr mem (cp + 1) (u8 t_s); Some (mem, (cp + NS_INT16SZ)%nat).
Definition NS_PUT32 (l : Z) (mem : list Z) (cp : nat) : option (list Z * nat) :=
  let t_l := u32 l in
  mem ← wr mem cp (u8 (t_l >>> 24)); mem ← wr mem (cp + 1) (u8 (t_l >>> 16)); mem ← wr mem (cp + 2) (u8 (t_l >>> 8));
  mem ← wr mem (cp + 3) (u8 t_l); Some (mem, (cp + NS_INT32SZ)%nat).

(** The tokens: an [unsigned int] argument, octets through [unsigned char]; the
    shift of an octet into the sign bit of an [int] is taken as the wrap-around of
    the machines. *)
Definition TWRITE_INT (bigend : bool) (num : Z) (mem : list Z) (p : nat) : option (list Z * nat) :=
  mem ← wr mem p (u8 (if bigend then num >>> 24 else num .& 0xff));
  mem ← wr mem (p + 1) (u8 (if bigend then (num >>> 16) .& 0xff else (num >>> 8) .& 0xff));
  mem ← wr mem (p + 2) (u8 (if bigend then (num >>> 8) .& 0xff else (num >>> 16) .& 0xff));
  mem ← wr mem (p + 3) (u8 (if bigend then num .& 0xff else num >>> 24)); Some (mem, (p + 4)%nat).
Definition TREAD_INT (bigend : bool) (mem : list Z) (p : nat) : option (Z * nat) :=
  b0 ← rd mem p; b1 ← rd mem (p + 1); b2 ← rd mem (p + 2); b3 ← rd mem (p + 3);
  Some (u32 (s32 (b0 <<< (if bigend then 24 else 0)) .| s32 (b1 <<< (if bigend then 16 else 8))
             .| s32 (b2 <<< (if bigend then 8 else 16)) .| s32 (b3 <<< (if bigend then 0 else 24))), (p + 4)%nat).
Definition TWRITE_INT16 (bigend : bool) (num : Z) (mem : list Z) (p : nat) : option (list Z * nat) :=
  mem ← wr mem p (u8 (if bigend then num >>> 24 else num .& 0xff));
  mem ← wr mem (p + 1) (u8 (if bigend then (num >>> 16) .& 0xff else (num >>> 8) .& 0xff)); Some (mem, (p + 2)%nat).
Definition TREAD_INT16 (bigend : bool) (mem : list Z) (p : nat) : option (Z * nat) :=
  b0 ← rd mem p; b1 ← rd mem (p + 1);
  Some (u32 (s32 (b0 <<< (if bigend then 24 else 0)) .| s32 (b1 <<< (if bigend then 16 else 8))), (p + 2)%nat).

Inductive octet_item := Ns16 | Ns32 | Token (bigend : bool) | Token16_little.
Definition octet_put (k : octet_item) : Z -> list Z -> nat -> option (list Z * nat) :=
  match k with Ns16 => NS_PUT16 | Ns32 => NS_PUT32 | Token b => TWRITE_INT b | Token16_little => TWRITE_INT16 false end.
Definition octet_get (k : octet_item) : list Z -> nat -> option (Z * nat) :=
  match k with Ns16 => NS_GET16 | Ns32 => NS_GET32 | Token b => TREAD_INT b | Token16_little => TREAD_INT16 false end.
Definition octet_enc (k : octet_item) (v : Z) : list Z :=
  match k with
  | Ns16 => rev (le_bytes 2 v) | Ns32 | Token true => rev (le_bytes 4 v) | Token false => le_bytes 4 v | Token16_little => le_bytes 2 v
  end.
Definition octet_fits (k : octet_item) (v : Z) : Prop := match k with Ns16 | Token16_little => in_u 16 v | _ => in_u 32 v end.
Definition octets_stream : stream octet_item := Stream octet_item octet_put octet_get octet_enc octet_fits.

Lemma u8_land x : u8 x = x .& 0xff.
Proof. change 0xff with (Z.ones 8). by rewrite Z.land_ones. Qed.
Lemma u32_lor x y : u32 (x .| y) = u32 x .| u32 y.
Proof.
  apply Z.bits_inj'. intros i Hi. rewrite Z.lor_spec, !wrapu_testbit, Z.lor_spec by lia. by destruct (i <? 32).
Qed.
Lemma wrs2 mem p a b : (mem ← wr mem p a; mem ← wr mem (p + 1) b; Some (mem, (p + 2)%nat)) = (mem ← wrs mem p [a; b]; Some (mem, (p + 2)%nat)).
Proof. simpl. rewrite Nat.add_1_r. destruct (wr mem p a) as [m|]; [|done]. simpl. by destruct (wr m (S p) b). Qed.
Lemma wrs4 mem p a b c d :
  (mem ← wr mem p a; mem ← wr mem (p + 1) b; mem ← wr mem (p + 2) c; mem ← wr mem (p + 3) d; Some (mem, (p + 4)%nat))
  = (mem ← wrs mem p [a; b; c; d]; Some (mem, (p + 4)%nat)).
Proof.
  simpl. rewrite !Nat.add_succ_r, Nat.add_0_r. destruct (wr mem p a) as [m|]; [|done]. simpl. destruct (wr m _ b) as [m1|]; [|done]. simpl.
  destruct (wr m1 _ c) as [m2|]; [|done]. simpl. by destruct (wr m2 _ d).
Qed.
Lemma put_bytes mem p bs n :
  length bs = n -> (p + n <= length mem)%nat -> (mem ← wrs mem p bs; Some (mem, (p + n)%nat)) = Some (stored mem p bs, (p + n)%nat).
Proof. intros <- Hp. by rewrite wrs_in. Qed.

(** The octets in the order of [le_bytes], masked. *)
Lemma bytes4 v : le_bytes 4 v = [v .& 0xff; (v >>> 8) .& 0xff; (v >>> 16) .& 0xff; (v >>> 24) .& 0xff].
Proof. rewrite le_bytes_shifts. simpl. by rewrite Z.shiftr_0_r. Qed.
Lemma bytes2 v : le_bytes 2 v = [v .& 0xff; (v >>> 8) .& 0xff].
Proof. rewrite le_bytes_shifts. simpl. by rewrite Z.shiftr_0_r. Qed.

(** An integer from its octets. *)
Lemma octets2 v : in_u 16 v -> exists a b, le_bytes 2 v = [a; b] /\ is_byte a /\ is_byte b /\ a .| (b <<< 8) = v.
Proof.
  intros Hv. pose proof (le_bytes_bytes 2 v) as Hb. pose proof (of_le_le_bytes_id 2 v Hv) as E. rewrite bytes2 in *. octets.
  eexists _, _. split; [reflexivity|]. split; [done|]. split; [done|]. by rewrite pack2.
Qed.
Lemma octets4 v :
  in_u 32 v -> exists a b c d, le_bytes 4 v = [a; b; c; d] /\ is_byte a /\ is_byte b /\ is_byte c /\ is_byte d
    /\ a .| (b <<< 8) .| (c <<< 16) .| (d <<< 24) = v.
Proof.
  intros Hv. pose proof (le_bytes_bytes 4 v) as Hb. pose proof (of_le_le_bytes_id 4 v Hv) as E. rewrite bytes4 in *. octets.
  eexists _, _, _, _. split; [reflexivity|]. do 4 (split; [done|]). by rewrite pack4.
Qed.
Lemma u32_s32 x : u32 (s32 x) = u32 x.
Proof. by apply wrapu_wraps. Qed.
Lemma byte_u32 b : is_byte b -> u32 b = b.
Proof. intros Hb. apply wrapu_id. unfold is_byte, in_u in *. lia. Qed.

Ltac read_octets :=
  rds_inv; rewrite ?Nat.add_succ_r, ?Nat.add_0_r in *;
  repeat match goal with H : rd _ _ = Some _ |- _ => rewrite H; clear H; cbn [mbind option_bind] end.

Lemma get2_ok (bigend : bool) v mem p :
  in_u 16 v -> rds mem p 2 = Some (if bigend then rev (le_bytes 2 v) else le_bytes 2 v) ->
  (if bigend then NS_GET16 mem p else TREAD_INT16 false mem p) = Some (v, (p + 2)%nat).
Proof.
  intros Hv. destruct (octets2 v Hv) as (a & b & -> & Ha & Hb & E). unfold NS_GET16, TREAD_INT16, NS_INT16SZ.
  assert (in_u 32 v) as Hv32 by (unfold in_u in *; lia). destruct bigend; cbn [rev app]; intros Hr; read_octets.
  - rewrite wraps_id; [by rewrite Z.lor_comm, E|lia|]. rewrite Z.shiftl_mul_pow2 by lia. unfold is_byte in *. lia.
  - by rewrite u32_lor, !u32_s32, <- u32_lor, Z.shiftl_0_r, E, wrapu_id.
Qed.
Lemma ns32_ok v mem p : in_u 32 v -> rds mem p 4 = Some (rev (le_bytes 4 v)) -> NS_GET32 mem p = Some (v, (p + 4)%nat).
Proof.
  intros Hv. destruct (octets4 v Hv) as (a & b & c & d & -> & Ha & Hb & Hc & Hd & E). cbn [rev app]. intros Hr. unfold NS_GET32, NS_INT32SZ. read_octets.
  rewrite <- (byte_u32 a Ha) at 1. rewrite <- !u32_lor. replace (_ .| a) with v; [by rewrite wrapu_id|]. rewrite <- E.
  rewrite (Z.lor_comm (a .| _ .| _)), (Z.lor_comm (a .| _)), (Z.lor_comm a). by rewrite !Z.lor_assoc.
Qed.
Lemma tread_ok (bigend : bool) v mem p :
  in_u 32 v -> rds mem p 4 = Some (if bigend then rev (le_bytes 4 v) else le_bytes 4 v) -> TREAD_INT bigend mem p = Some (v, (p + 4)%nat).
Proof.
  intros Hv. destruct (octets4 v Hv) as (a & b & c & d & -> & Ha & Hb & Hc & Hd & E). unfold TREAD_INT.
  destruct bigend; cbn [rev app]; intros Hr; read_octets; rewrite !u32_lor, !u32_s32, <- !u32_lor, Z.shiftl_0_r.
  - replace (_ .| a) with v; [by rewrite wrapu_id|]. rewrite <- E.
    rewrite (Z.lor_comm (a .| _ .| _)), (Z.lor_comm (a .| _)), (Z.lor_comm a). by rewrite !Z.lor_assoc.
  - by rewrite E, wrapu_id.
Qed.

#[export] Instance octet_laws : StreamLaws octets_stream.
Proof.
  split; intros k v mem p Hf; simpl in *.
  - intros Hp. destruct k as [| |[]|]; cbn [octet_enc octet_put octet_fits] in *; rewrite ?length_rev, ?le_bytes_length in *;
      unfold NS_PUT16, NS_PUT32, TWRITE_INT, TWRITE_INT16, NS_INT16SZ, NS_INT32SZ; rewrite ?(wrapu_id 16 v), ?(wrapu_id 32 v) by done;
      rewrite ?wrs2, ?wrs4; rewrite !u8_land; rewrite <- ?Z.land_assoc, ?Z.land_diag; rewrite ?bytes4, ?bytes2; by apply put_bytes.
  - intros Hr. destruct k as [| |b|]; [| |destruct b|]; cbn [octet_enc octet_get octet_fits] in *; rewrite ?length_rev, ?le_bytes_length in *.
    + by apply (get2_ok true).
    + by apply ns32_ok.
    + by apply tread_ok.
    + by apply tread_ok.
    + by apply (get2_ok false).
Qed.

(** C18: streams of the name service and of the Kerberos tokens are read back as
    they were written: any sequence of 16- and 32-bit items put with NS_PUT16,
    NS_PUT32, TWRITE_INT in either order and TWRITE_INT16 in little-endian order
    stays in the buffer, has the octets of its numbers in the order of each macro,
    changes nothing else and is returned by the matching get macros, which end
    where the writer did.  (TWRITE_INT16 in big-endian order is broken:
    [twrite_int16_loses].) *)
Theorem octet_streams_roundtrip (l : list (octet_item * Z)) mem p :
  Forall (fun i : octet_item * Z => octet_fits i.1 i.2) l -> (p + length (encs octets_stream l) <= length mem)%nat ->
  exists m q, puts octets_stream l mem p = Some (m, q) /\ gets octets_stream (map fst l) m p = Some (map snd l, q)
    /\ rds m p (length (encs octets_stream l)) = Some (concat (map (fun i => octet_enc i.1 i.2) l))
    /\ length m = length mem /\ forall i, (i < p \/ q <= i)%nat -> m !! i = mem !! i.
Proof.
  intros Hl Hp. destruct (stream_roundtrip octets_stream octets_stream l mem p) as (m & q & E & G & Hlen & Hfr); [done..|].
  exists m, q. split; [done|]. split; [done|]. split; [|done]. rewrite puts_ok in E by (done || apply _).
  injection E as <- _. by apply rds_stored.
Qed.
Definition octet_items : list (octet_item * Z) := [(Ns16, 65535); (Token true, 4000000000); (Ns32, 17); (Token16_little, 513); (Token false, 3000000000)].
Lemma octet_streams_roundtrip_witness :
  exists m q, puts octets_stream octet_items (replicate 16 0) 0 = Some (m, q)
    /\ gets octets_stream (map fst octet_items) m 0 = Some ([65535; 4000000000; 17; 513; 3000000000], q).
Proof.
  destruct (octet_streams_roundtrip octet_items (replicate 16 0) 0) as (m & q & E & G & _).
  - repeat apply Forall_cons_2; try apply Forall_nil_2; simpl; unfold in_u; lia.
  - vm_compute. lia.
  - exists m, q. split; [exact E|exact G].
Defined.

(** In big-endian order TWRITE_INT16 writes the wrong half: for every 16-bit
    number it stores two zero octets, so TREAD_INT16 returns 0, not the number. *)
Theorem twrite_int16_loses v mem p :
  in_u 16 v -> (p + 2 <= length mem)%nat ->
  exists m, TWRITE_INT16 true v mem p = Some (m, (p + 2)%nat) /\ rds m p 2 = Some [0; 0] /\ TREAD_INT16 true m p = Some (0, (p + 2)%nat).
Proof.
  intros Hv Hp. assert (forall n, 16 <= n -> v >>> n = 0) as Hz.
  { intros n Hn. rewrite Z.shiftr_div_pow2 by lia. apply Z.div_small. unfold in_u in Hv.
    pose proof (Z.pow_le_mono_r 2 16 n ltac:(lia) Hn). lia. }
  unfold TWRITE_INT16. rewrite wrs2, !Hz by lia. change (u8 0) with 0. change (u8 (0 .& 0xff)) with 0.
  rewrite (put_bytes mem p [0; 0] 2) by done. exists (stored mem p [0; 0]). split; [done|].
  assert (rds (stored mem p [0; 0]) p 2 = Some [0; 0]) as Hr by (by apply (rds_stored mem p [0; 0])). split; [done|].
  unfold TREAD_INT16. read_octets. done.
Qed.
Lemma twrite_int16_loses_witness : TWRITE_INT16 true 513 [7; 7; 7] 1 = Some ([7; 0; 0], 3%nat) /\ 513 <> 0.
Proof.
  destruct (twrite_int16_loses 513 [7; 7; 7] 1) as (m & E & Hr & _); [unfold in_u; lia|simpl; lia|].
  split; [|done]. rewrite E. vm_compute in E. by injection E as <-.
Defined.
